(* ===== verification/_CoqProject ===== *)
-Q . S2P
Prelude.v
Memory.v
CString.v
UserLib.v
Pmm.v
Paging.v
Heap.v
Sched.v
Vfs.v
Fat.v
Ports.v
Ata.v
Elf.v
Syscall.v
Rtl8139.v
Net.v
NetRx.v
Gpu.v
Term.v
LineEdit.v
Input.v
KPath.v
Serial.v
Pci.v
Acpi.v
KShell.v
Gui.v
GuiDraw.v
Cursor.v
GuiRun.v
UserIO.v
UShell.v
Edit.v
Programs.v
Cpu.v
Irq.v
Display.v
Nic.v
Main.v
Asm.v
