(* ===== verification/Prelude.v ===== *)
(** * EponaOS

    EponaOS is a small 64-bit kernel with a shell, a desktop, a network stack and a few user
    programs, written in C with some assembly. This library is a model of its C code and of
    the assembly that C functions are called from, with the theorems that make the parts
    correct, and with those that say where they are not. All paths below are under src/.

    ** The parts and their files

    - Memory: lib/string.c is CString.v, mm/pmm.c is Pmm.v (the bitmap of frames),
      mm/paging.c is Paging.v (the page tables, as a tree of words in memory) and mm/heap.c
      is Heap.v (a list of blocks behind packed headers). The heap grows with the page
      tables, and these take their frames from the bitmap: [heap] contains [mach], which
      contains [pmm], as the calls go. Memory.v is memory by bytes, for those that need it.
    - Tasks: kernel/scheduler.c is Sched.v, kernel/syscall.c is Syscall.v, kernel/elf.c is
      Elf.v, and kernel/switch.asm, isr.asm and syscall_asm.asm are Asm.v. Task structures
      are records by address; [kernel] has the heap below it and [sys] the kernel.
    - Files: fs/vfs.c is Vfs.v and fs/fat.c is Fat.v. The file layer is a record of function
      pointers over the state [vst]; the disk below is the class [BlockDev] with its laws,
      and drivers/ata.c, Ata.v, is proved to be an instance of it.
    - Devices: Ports.v is a machine behind its ports, with one class for each device that
      says what its documentation promises. Serial.v, Pci.v, Acpi.v, Ata.v, Nic.v (start of
      the network card; Rtl8139.v is its running), Irq.v (interrupt controllers, timer,
      mouse), Input.v (keyboard, mouse packets, clock), Cursor.v, Cpu.v (kernel/gdt.c and
      idt.c) and Display.v (the start of the framebuffer) are the drivers.
    - Network: net/net.c is Net.v (what is sent and the state) and NetRx.v (what is
      received), over the card of Rtl8139.v.
    - Screen: drivers/gpu.c is Gpu.v, kernel/term.c is Term.v. The class [console] is what
      the others rely on; the text console and the framebuffer are its two instances.
    - Shells: kernel/shell.c is LineEdit.v (the line and the history), KPath.v (words,
      numbers, paths) and KShell.v (the commands); kernel/gui.c is Gui.v (the pictures),
      GuiDraw.v (drawing stays inside) and GuiRun.v (the loop).
    - User programs: user/stdlib.c is UserLib.v, user/libc.h is UserIO.v, user/shell.c is
      UShell.v, user/edit.c is Edit.v, and the small ones are Programs.v.
    - kernel/main.c is Main.v: it composes all of this from the boot loader to the shell.

    ** How the code is modelled

    Functions keep their names and their order of effects. A C integer is a [Z], wrapped by
    [u8], [u16], [u32], [u64], [s32] where the code wraps. State is a record per file, passed
    explicitly; a port is an operation of a state ([io] of Ports.v); a user program is an
    interaction tree of system calls. [None] is what the code must never do: an access outside
    an array or through a dangling pointer, or a loop that took more turns than its bound.
    An error that the code reports is a value, as in C.

    ** What is proved

    - State invariants and that the operations keep them: the bitmap counts what is in use
      (Pmm.v), tables form a tree over frames in use (Paging.v), blocks tile the heap
      (Heap.v), tasks form one circle of distinct live structures (Sched.v), a FAT volume
      and its chains (Fat.v), consoles with their cursor inside (Gpu.v, Term.v), windows
      with a permutation as their order (Gui.v, GuiRun.v).
    - What operations do, on every branch: mapping and unmapping a page changes the
      translation of that page only; a request is served by first fit; a file is read and
      written across clusters; a system call copies between address spaces; segments of a
      TCP stream are delivered in order, once.
    - Refinements: the heap of a list of sizes, the pipes of a queue, the line editor of a
      cursor in a list, the screen of rows that scroll, the stream of what was sent, the
      disk driver of a block device, the start of the card of the start that the network
      stack assumes.
    - No access outside an array, for every input: a received packet, a line typed in
      either shell, a turn of the desktop, a session of the editor.
    - Termination: the search for devices under any answers, the giving up of a connection,
      the end of waiting loops, the way from the boot loader to the shell.
    - Interrupts, system calls and switches of tasks give everything back (Asm.v), the
      tables of the processor mean what the code wants (Cpu.v), every interrupt is
      acknowledged at its controllers (Irq.v).
    - Defects, as theorems about the same definitions: a stack above its frame, stale
      list ends, accepted resets, sizes that wrap, arrays that overflow.

    A theorem with hypotheses has a witness, [<name>_witness], which applies it to a concrete state.

    ** Bounds and fuel

    Loops with a bound in the code are structural over it. The others take fuel, and running
    out is [None], so that each theorem that gives a result shows that the fuel is enough:
    [pmm_fuel] is the number of frames and one, [heap_fuel] the size of the heap by that of
    the smallest block, [list_fuel] and [node_fuel] the number of structures there are,
    [PCI_FUEL] one more than the buses there can be. Where hardware or a damaged disk decides
    how long a loop runs (the wait for the serial line, cluster chains) the fuel is an
    argument, and the theorems name the length that it has to exceed.

    ** What is not modelled

    - boot/ (the loader, over the BIOS), kernel/entry.asm, gdt_flush.asm and user/crt0.S:
      assembly without a C caller that could be stated here, or loads of processor registers
      without a visible effect. What they leave in memory is an argument ([image] of Main.v).
    - Timing: an interrupt comes between two steps of the model, never inside one, and a
      wait for a tick has no state. The buffers of the translation (TLB) are not there.
    - What lies behind a pointer that belongs to nobody: such an access is [None]. Task
      structures, nodes of the file layer and pixels live in maps by address and cannot be
      overwritten by a stray store elsewhere.
    - Log lines, where the log is an argument or left out: in Syscall.v, Elf.v and Net.v.
    - The glyphs of the font, the content of the ports and the packages: arguments.
    - The build files, the scripts and the packages.

    This file has what all others share: notations, [option] as a monad, lists by integer
    index, the ranges of machine integers, tactics and hints. *)
From stdpp Require Export base option list list_numbers numbers gmap.
From Stdlib Require Export ZArith Lia.
From Stdlib Require String Ascii.

#[export] Set Default Goal Selector "!".

(** * Notation scope of the development *)

Declare Scope epona_scope.
Delimit Scope epona_scope with epona.
Global Open Scope Z_scope.
Global Open Scope epona_scope.

(** * Machine integers: unsigned and signed wrap-around *)

Definition u8 (x : Z) : Z := x mod 256.
Definition u16 (x : Z) : Z := x mod 65536.
Definition u32 (x : Z) : Z := x mod 4294967296.
Definition u64 (x : Z) : Z := x mod 18446744073709551616.
Definition s8 (x : Z) : Z := (x + 128) mod 256 - 128.
Definition s32 (x : Z) : Z := (x + 2147483648) mod 4294967296 - 2147483648.

(** [if (x)] of C on an integer. *)
Definition istrue (x : Z) : bool := negb (x =? 0).

(** * Arrays: lists indexed by [Z]

    [zlook] is [None] out of range (an out-of-bounds access of the C array),
    [zget] reads 0 there and [zset] writes nothing. *)

Definition zlook {A} (l : list A) (i : Z) : option A :=
  if i <? 0 then None else l !! Z.to_nat i.
Definition zget (l : list Z) (i : Z) : Z := default 0 (zlook l i).
Definition zset {A} (l : list A) (i : Z) (v : A) : list A :=
  if i <? 0 then l else <[Z.to_nat i := v]> l.
Definition zlen {A} (l : list A) : Z := Z.of_nat (length l).

Notation "l .[ i ]" := (zget l i) (at level 1, left associativity, format "l .[ i ]") : epona_scope.
Notation "l .[ i <- v ]" := (zset l i v) (at level 1, left associativity, format "l .[ i  <-  v ]") : epona_scope.

Definition is_byte (x : Z) : Prop := 0 <= x < 256.
Definition bytes (l : list Z) : Prop := Forall is_byte l.

(** * Counted loops

    [loop n i body s] is [for (j = i; j < i + n; j++) s = body j s];
    [loopM] is the same loop whose body may fault. *)

Fixpoint loop {S} (n : nat) (i : Z) (body : Z -> S -> S) (s : S) : S :=
  match n with
  | O => s
  | Datatypes.S n' => loop n' (i + 1) body (body i s)
  end.

Fixpoint loopM {S} (n : nat) (i : Z) (body : Z -> S -> option S) (s : S) : option S :=
  match n with
  | O => Some s
  | Datatypes.S n' => s' ← body i s; loopM n' (i + 1) body s'
  end.

(** * Little-endian loads and stores in a byte list *)

Definition load16 (l : list Z) (i : Z) : Z := l.[i] + 256 * l.[i + 1].
Definition load32 (l : list Z) (i : Z) : Z :=
  l.[i] + 256 * l.[i + 1] + 65536 * l.[i + 2] + 16777216 * l.[i + 3].
Definition store16 (l : list Z) (i v : Z) : list Z :=
  l.[i <- v mod 256].[i + 1 <- v / 256 mod 256].
Definition store32 (l : list Z) (i v : Z) : list Z :=
  l.[i <- v mod 256].[i + 1 <- v / 256 mod 256].[i + 2 <- v / 65536 mod 256]
   .[i + 3 <- v / 16777216 mod 256].

(** * Automation *)

(** [lia] also solves goals with [/] and [mod] by constants. *)
Ltac Zify.zify_post_hook ::= Z.to_euclidean_division_equations.

Ltac unfold_u := unfold u8, u16, u32, u64 in *.

(** Turns the boolean comparisons of the context into propositions. *)
Ltac bprop :=
  repeat match goal with
  | H : (_ && _)%bool = true |- _ => apply andb_prop in H; destruct H
  | H : (_ && _)%bool = false |- _ => apply andb_false_iff in H
  | H : (_ || _)%bool = false |- _ => apply orb_false_elim in H; destruct H
  | H : (_ || _)%bool = true |- _ => apply orb_prop in H
  | H : negb _ = true |- _ => apply negb_true_iff in H
  | H : negb _ = false |- _ => apply negb_false_iff in H
  | H : (_ <? _) = true |- _ => apply Z.ltb_lt in H
  | H : (_ <? _) = false |- _ => apply Z.ltb_ge in H
  | H : (_ <=? _) = true |- _ => apply Z.leb_le in H
  | H : (_ <=? _) = false |- _ => apply Z.leb_gt in H
  | H : (_ =? _) = true |- _ => apply Z.eqb_eq in H
  | H : (_ =? _) = false |- _ => apply Z.eqb_neq in H
  end.

(** Case split on the boolean tests of the goal. *)
Ltac case_bool :=
  repeat match goal with
  | |- context [if ?b then _ else _] =>
      match type of b with bool => let E := fresh "E" in destruct b eqn:E end
  end; bprop.

Create HintDb epona.
Create Rewrite HintDb epona.

(** * Arrays: lemmas *)

Section arrays.
Context {A : Type}.
Implicit Types (l : list A) (i j : Z).

Lemma zlook_nonneg l i : 0 <= i -> zlook l i = l !! Z.to_nat i.
Proof. intros H. unfold zlook. destruct (Z.ltb_spec i 0); [lia | done]. Qed.

Lemma zlook_Some_range l i x : zlook l i = Some x -> 0 <= i < zlen l.
Proof.
  unfold zlook, zlen. destruct (Z.ltb_spec i 0); [done |].
  intros Hl%lookup_lt_Some. lia.
Qed.

Lemma zlook_in_range l i : 0 <= i < zlen l -> exists x, zlook l i = Some x.
Proof.
  intros H. rewrite zlook_nonneg by lia. unfold zlen in H.
  destruct (lookup_lt_is_Some_2 l (Z.to_nat i)) as [x Hx]; [lia | eauto].
Qed.

Lemma zlook_out_range l i : ~ (0 <= i < zlen l) -> zlook l i = None.
Proof.
  intros H. destruct (zlook l i) eqn:E; [| done].
  by apply zlook_Some_range in E.
Qed.

Lemma zset_length l i v : length (zset l i v) = length l.
Proof. unfold zset. destruct (i <? 0); [done | apply length_insert]. Qed.

Lemma zset_zlen l i v : zlen (zset l i v) = zlen l.
Proof. unfold zlen. by rewrite zset_length. Qed.

Lemma zlook_zset_eq l i v : 0 <= i < zlen l -> zlook (zset l i v) i = Some v.
Proof.
  intros H. unfold zlook, zset, zlen in *.
  destruct (Z.ltb_spec i 0); [lia |]. apply list_lookup_insert_eq. lia.
Qed.

Lemma zlook_zset_ne l i j v : i <> j -> zlook (zset l i v) j = zlook l j.
Proof.
  intros H. unfold zlook, zset.
  destruct (Z.ltb_spec j 0); [done |].
  destruct (Z.ltb_spec i 0); [done |].
  apply list_lookup_insert_ne. lia.
Qed.

Lemma zlook_zset l i j v :
  0 <= i < zlen l -> zlook (zset l i v) j = if i =? j then Some v else zlook l j.
Proof.
  intros H. destruct (Z.eqb_spec i j) as [<- | Hne].
  - by apply zlook_zset_eq.
  - by apply zlook_zset_ne.
Qed.

Lemma zlen_app (l k : list A) : zlen (l ++ k) = zlen l + zlen k.
Proof. unfold zlen. rewrite length_app. lia. Qed.

Lemma zlen_cons (x : A) l : zlen (x :: l) = zlen l + 1.
Proof. unfold zlen. simpl. lia. Qed.

Lemma zlen_replicate n (x : A) : zlen (replicate n x) = Z.of_nat n.
Proof. unfold zlen. by rewrite length_replicate. Qed.

Lemma zlen_nonneg l : 0 <= zlen l.
Proof. unfold zlen. lia. Qed.

Lemma zlook_replicate n (x : A) i :
  0 <= i < Z.of_nat n -> zlook (replicate n x) i = Some x.
Proof.
  intros H. rewrite zlook_nonneg by lia. apply lookup_replicate_2. lia.
Qed.

Lemma zlook_app_l (l k : list A) i : i < zlen l -> zlook (l ++ k) i = zlook l i.
Proof.
  intros H. unfold zlook, zlen in *. destruct (Z.ltb_spec i 0); [done |].
  apply lookup_app_l. lia.
Qed.

Lemma zlook_app_r (l k : list A) i :
  zlen l <= i -> zlook (l ++ k) i = zlook k (i - zlen l).
Proof.
  intros H. unfold zlook, zlen in *.
  destruct (Z.ltb_spec i 0); [lia |].
  destruct (Z.ltb_spec (i - Z.of_nat (length l)) 0); [lia |].
  rewrite lookup_app_r by lia. f_equal. lia.
Qed.

Lemma zset_Forall (P : A -> Prop) l i v :
  Forall P l -> P v -> Forall P (zset l i v).
Proof.
  intros Hl Hv. unfold zset. destruct (i <? 0); [done |].
  by apply Forall_insert.
Qed.

Lemma zlook_Forall (P : A -> Prop) l i x :
  Forall P l -> zlook l i = Some x -> P x.
Proof.
  intros Hl. unfold zlook. destruct (i <? 0); [done |].
  intros Hx. by eapply Forall_lookup_1.
Qed.

Lemma zlist_eq l k :
  (forall i, 0 <= i -> zlook l i = zlook k i) -> l = k.
Proof.
  intros H. apply list_eq. intros n. specialize (H (Z.of_nat n) ltac:(lia)).
  rewrite !zlook_nonneg, Nat2Z.id in H by lia. done.
Qed.
End arrays.

#[export] Hint Rewrite @zset_zlen @zlen_app @zlen_cons @zlen_replicate : epona.

Lemma zget_look l i x : zlook l i = Some x -> l.[i] = x.
Proof. unfold zget. by intros ->. Qed.

Lemma zlook_get l i : 0 <= i < zlen l -> zlook l i = Some (l.[i]).
Proof. intros [x Hx]%zlook_in_range. unfold zget. by rewrite Hx. Qed.

Lemma zget_zset l i j v :
  0 <= i < zlen l -> (l.[i <- v]).[j] = if i =? j then v else l.[j].
Proof.
  intros H. unfold zget. rewrite zlook_zset by done. by destruct (i =? j).
Qed.

Lemma zget_zset_eq l i v : 0 <= i < zlen l -> (l.[i <- v]).[i] = v.
Proof. intros. rewrite zget_zset, Z.eqb_refl; done. Qed.

Lemma zget_zset_ne l i j v : i <> j -> (l.[i <- v]).[j] = l.[j].
Proof. intros. unfold zget. by rewrite zlook_zset_ne. Qed.

Lemma zget_out l i : ~ (0 <= i < zlen l) -> l.[i] = 0.
Proof. intros H. unfold zget. by rewrite zlook_out_range. Qed.

Lemma zget_take (l : list Z) i k : 0 <= i < k -> (take (Z.to_nat k) l).[i] = l.[i].
Proof.
  intros H. unfold zget, zlook. destruct (Z.ltb_spec i 0); [done |].
  by rewrite lookup_take_lt by lia.
Qed.

Lemma zget_drop (l : list Z) i k : 0 <= i -> 0 <= k -> (drop (Z.to_nat k) l).[i] = l.[k + i].
Proof.
  intros H H2. unfold zget, zlook. destruct (Z.ltb_spec i 0), (Z.ltb_spec (k + i) 0); try lia.
  rewrite lookup_drop. by replace (Z.to_nat k + Z.to_nat i)%nat with (Z.to_nat (k + i)) by lia.
Qed.

Lemma zlen_take k (l : list Z) : 0 <= k <= zlen l -> zlen (take (Z.to_nat k) l) = k.
Proof. unfold zlen. intros H. rewrite length_take. lia. Qed.

Lemma zlen_drop k (l : list Z) : 0 <= k <= zlen l -> zlen (drop (Z.to_nat k) l) = zlen l - k.
Proof. unfold zlen. intros H. rewrite length_drop. lia. Qed.

Lemma zset_middle (a b : list Z) x v i : i = zlen a -> (a ++ x :: b).[i <- v] = a ++ v :: b.
Proof.
  intros ->. unfold zset, zlen. destruct (Z.ltb_spec (Z.of_nat (length a)) 0); [lia |].
  rewrite Nat2Z.id, insert_app_r_alt by lia. by rewrite Nat.sub_diag.
Qed.

Lemma zlook_cons {B} (l : list B) x k : 0 < k -> zlook (x :: l) k = zlook l (k - 1).
Proof.
  intros Hk. rewrite !zlook_nonneg by lia. replace (Z.to_nat k) with (S (Z.to_nat (k - 1))) by lia. done.
Qed.
Lemma zlook_middle {B} (a b : list B) x i : i = zlen a -> zlook (a ++ x :: b) i = Some x.
Proof.
  intros ->. rewrite zlook_app_r by lia. by rewrite Z.sub_diag.
Qed.

Lemma zget_app (a b : list Z) i : 0 <= i -> (a ++ b).[i] = if i <? zlen a then a.[i] else b.[i - zlen a].
Proof.
  intros Hi. unfold zget. destruct (Z.ltb_spec i (zlen a)).
  - by rewrite zlook_app_l.
  - by rewrite zlook_app_r by lia.
Qed.

Lemma zget_cons (x : Z) l i : 0 <= i -> (x :: l).[i] = if i =? 0 then x else l.[i - 1].
Proof.
  intros Hi. change (x :: l) with ([x] ++ l). rewrite zget_app by done. change (zlen [x]) with 1.
  destruct (Z.ltb_spec i 1), (Z.eqb_spec i 0); try lia. by replace i with 0 by lia.
Qed.

Lemma zlist_ext (l k : list Z) : zlen l = zlen k -> (forall i, 0 <= i < zlen l -> l.[i] = k.[i]) -> l = k.
Proof.
  intros Hl H. apply list_eq_same_length with (n := length l); [unfold zlen in Hl; lia | done |].
  intros i x y Hi E1 E2. unfold zlen in H.
  specialize (H (Z.of_nat i) ltac:(lia)). unfold zget, zlook in H. rewrite Nat2Z.id in H.
  destruct (Z.ltb_spec (Z.of_nat i) 0); [lia |]. by rewrite E1, E2 in H.
Qed.

Lemma zget_byte l i : bytes l -> is_byte (l.[i]).
Proof.
  intros Hb. unfold zget. destruct (zlook l i) eqn:E; simpl.
  - by eapply zlook_Forall.
  - unfold is_byte. lia.
Qed.

(** * Integers: lemmas *)

Lemma u8_range x : 0 <= u8 x < 256.
Proof. unfold u8. lia. Qed.
Lemma u16_range x : 0 <= u16 x < 65536.
Proof. unfold u16. lia. Qed.
Lemma u32_range x : 0 <= u32 x < 4294967296.
Proof. unfold u32. lia. Qed.
Lemma u64_range x : 0 <= u64 x < 18446744073709551616.
Proof. unfold u64. lia. Qed.
Lemma u8_id x : 0 <= x < 256 -> u8 x = x.
Proof. unfold u8. lia. Qed.
Lemma u16_id x : 0 <= x < 65536 -> u16 x = x.
Proof. unfold u16. lia. Qed.
Lemma u32_id x : 0 <= x < 4294967296 -> u32 x = x.
Proof. unfold u32. lia. Qed.
Lemma u64_id x : 0 <= x < 18446744073709551616 -> u64 x = x.
Proof. unfold u64. lia. Qed.
Lemma s32_id x : -2147483648 <= x < 2147483648 -> s32 x = x.
Proof. unfold s32. lia. Qed.

#[export] Hint Resolve u8_range u16_range u32_range u64_range : epona.

Lemma istrue_neq x : x <> 0 -> istrue x = true.
Proof. unfold istrue. by destruct (Z.eqb_spec x 0). Qed.

(** [x & (1 << k)] tests the bit [k]. *)
Lemma land_bit x k : 0 <= k -> istrue (Z.land x (Z.shiftl 1 k)) = Z.testbit x k.
Proof.
  intros Hk. unfold istrue.
  destruct (Z.testbit x k) eqn:E.
  - apply negb_true_iff, Z.eqb_neq. intros H0.
    assert (Z.testbit (Z.land x (Z.shiftl 1 k)) k = true) as H1.
    { rewrite Z.land_spec, Z.shiftl_spec, E, Z.sub_diag by lia. done. }
    rewrite H0, Z.bits_0 in H1. done.
  - apply negb_false_iff, Z.eqb_eq, Z.bits_inj'. intros n Hn.
    rewrite Z.land_spec, Z.shiftl_spec, Z.bits_0 by lia.
    destruct (Z.eq_dec n k) as [-> | Hne]; [by rewrite E |].
    change 1 with (2 ^ 0).
    rewrite Z.pow2_bits_false by lia. apply andb_false_r.
Qed.

(** The low [n] bits of [x] are [x mod 2^n]. *)
Lemma land_mask x n : 0 <= n -> Z.land x (Z.ones n) = x mod 2 ^ n.
Proof. intros. by apply Z.land_ones. Qed.

Lemma testbit_u8 x k : 0 <= k < 8 -> Z.testbit (u8 x) k = Z.testbit x k.
Proof.
  intros Hk. unfold u8. change 256 with (2 ^ 8). apply Z.mod_pow2_bits_low. lia.
Qed.

Lemma testbit_shiftl_1 i k :
  0 <= i -> 0 <= k -> Z.testbit (Z.shiftl 1 k) i = (i =? k).
Proof.
  intros Hi Hk. rewrite Z.shiftl_spec by lia.
  destruct (Z.eqb_spec i k) as [-> | Hne].
  - by rewrite Z.sub_diag.
  - change 1 with (2 ^ 0). apply Z.pow2_bits_false. lia.
Qed.

(** A bitwise "or" of numbers with disjoint bits is their sum. *)
Lemma lor_add_disjoint a b n :
  0 <= n -> a mod 2 ^ n = 0 -> 0 <= b < 2 ^ n -> Z.lor a b = a + b.
Proof.
  intros Hn Ha Hb.
  assert (Z.land a b = 0) as H0.
  { apply Z.bits_inj'. intros i Hi. rewrite Z.land_spec, Z.bits_0.
    destruct (Z.lt_ge_cases i n) as [Hin | Hin].
    - assert (Z.testbit a i = false) as ->; [| done].
      rewrite <- (Z.mod_pow2_bits_low a n i) by lia. by rewrite Ha, Z.bits_0.
    - assert (Z.testbit b i = false) as ->; [| by rewrite andb_false_r].
      rewrite <- (Z.mod_small b (2 ^ n)) by lia.
      apply Z.mod_pow2_bits_high. lia. }
  rewrite <- Z.lxor_lor by done. symmetry. by apply Z.add_nocarry_lxor.
Qed.

Lemma lor_bounds a b n :
  0 <= n -> 0 <= a < 2 ^ n -> 0 <= b < 2 ^ n -> 0 <= Z.lor a b < 2 ^ n.
Proof.
  intros Hn Ha Hb. split; [apply Z.lor_nonneg; lia |].
  assert (Z.lor a b mod 2 ^ n = Z.lor a b) as <-; [| apply Z.mod_pos_bound; lia].
  apply Z.bits_inj'. intros i Hi.
  destruct (Z.lt_ge_cases i n).
  - by rewrite Z.mod_pow2_bits_low.
  - rewrite Z.mod_pow2_bits_high, Z.lor_spec by lia.
    rewrite <- (Z.mod_small a (2 ^ n)), <- (Z.mod_small b (2 ^ n)) by lia.
    by rewrite !Z.mod_pow2_bits_high by lia.
Qed.

Lemma land_bounds a b n :
  0 <= n -> 0 <= a < 2 ^ n -> 0 <= Z.land a b < 2 ^ n.
Proof.
  intros Hn Ha. split; [apply Z.land_nonneg; lia |].
  assert (Z.land a b mod 2 ^ n = Z.land a b) as <-; [| apply Z.mod_pos_bound; lia].
  apply Z.bits_inj'. intros i Hi.
  destruct (Z.lt_ge_cases i n).
  - by rewrite Z.mod_pow2_bits_low.
  - rewrite Z.mod_pow2_bits_high, Z.land_spec by lia.
    rewrite <- (Z.mod_small a (2 ^ n)) by lia.
    by rewrite Z.mod_pow2_bits_high by lia.
Qed.

(** * Loops: invariant rules *)

Lemma loop_inv {S} (P : Z -> S -> Prop) body n : forall i s,
  P i s ->
  (forall j t, i <= j < i + Z.of_nat n -> P j t -> P (j + 1) (body j t)) ->
  P (i + Z.of_nat n) (loop n i body s).
Proof.
  induction n as [| n IH]; intros i s H0 Hs; simpl.
  - by replace (i + Z.of_nat 0) with i by lia.
  - replace (i + Z.of_nat (Datatypes.S n)) with ((i + 1) + Z.of_nat n) by lia.
    apply IH.
    + apply Hs; [lia | done].
    + intros j t Hj. apply Hs. lia.
Qed.

Lemma loopM_inv {S} (P : Z -> S -> Prop) body n : forall i s,
  P i s ->
  (forall j t, i <= j < i + Z.of_nat n -> P j t ->
     exists t', body j t = Some t' /\ P (j + 1) t') ->
  exists s', loopM n i body s = Some s' /\ P (i + Z.of_nat n) s'.
Proof.
  induction n as [| n IH]; intros i s H0 Hs; simpl.
  - exists s. by replace (i + Z.of_nat 0) with i by lia.
  - destruct (Hs i s) as (t & Ht & HP); [lia | done |]. rewrite Ht. simpl.
    replace (i + Z.of_nat (Datatypes.S n)) with ((i + 1) + Z.of_nat n) by lia.
    apply IH; [done |]. intros j t' Hj. apply Hs. lia.
Qed.

Lemma loop_app {S} (body : Z -> S -> S) n m : forall i s,
  loop (n + m) i body s = loop m (i + Z.of_nat n) body (loop n i body s).
Proof.
  induction n as [| n IH]; intros i s; simpl.
  - f_equal. lia.
  - rewrite IH. f_equal. lia.
Qed.

Lemma loop_snoc {S} (body : Z -> S -> S) n i s :
  loop (Datatypes.S n) i body s = body (i + Z.of_nat n) (loop n i body s).
Proof.
  replace (Datatypes.S n) with (n + 1)%nat by lia. rewrite loop_app. done.
Qed.

(** * Little-endian loads after stores *)

Lemma store32_zlen l i v : zlen (store32 l i v) = zlen l.
Proof. unfold store32. by rewrite !zset_zlen. Qed.

Lemma store16_zlen l i v : zlen (store16 l i v) = zlen l.
Proof. unfold store16. by rewrite !zset_zlen. Qed.

Lemma store32_get l i v j :
  0 <= i -> i + 4 <= zlen l ->
  (store32 l i v).[j] =
    if j =? i then v mod 256 else if j =? i + 1 then v / 256 mod 256
    else if j =? i + 2 then v / 65536 mod 256 else if j =? i + 3 then v / 16777216 mod 256
    else l.[j].
Proof.
  intros Hi Hl. unfold store32. rewrite !zget_zset by (rewrite ?zset_zlen; lia).
  destruct (Z.eqb_spec j i), (Z.eqb_spec j (i + 1)), (Z.eqb_spec j (i + 2)), (Z.eqb_spec j (i + 3)),
    (Z.eqb_spec (i + 3) j), (Z.eqb_spec (i + 2) j), (Z.eqb_spec (i + 1) j), (Z.eqb_spec i j);
    try lia; done.
Qed.

Lemma load32_store32 l i v :
  0 <= i -> i + 4 <= zlen l -> load32 (store32 l i v) i = v mod 4294967296.
Proof.
  intros Hi Hl. unfold load32. rewrite !store32_get by done.
  rewrite !Z.eqb_refl.
  destruct (Z.eqb_spec (i + 1) i), (Z.eqb_spec (i + 2) i), (Z.eqb_spec (i + 3) i),
    (Z.eqb_spec (i + 2) (i + 1)), (Z.eqb_spec (i + 3) (i + 1)), (Z.eqb_spec (i + 3) (i + 2)); lia.
Qed.

Lemma load32_store32_ne l i j v :
  0 <= i -> i + 4 <= zlen l -> j + 4 <= i \/ i + 4 <= j -> load32 (store32 l i v) j = load32 l j.
Proof.
  intros Hi Hl Hj. unfold load32. rewrite !store32_get by done.
  repeat match goal with |- context [?a =? ?b] => destruct (Z.eqb_spec a b); [lia |] end. done.
Qed.

Lemma store32_bytes l i v : bytes l -> bytes (store32 l i v).
Proof. intros H. unfold store32. repeat apply zset_Forall; try done; unfold is_byte; lia. Qed.

Lemma load32_range l i : bytes l -> 0 <= load32 l i < 4294967296.
Proof.
  intros H. unfold load32.
  pose proof (zget_byte l i H). pose proof (zget_byte l (i + 1) H).
  pose proof (zget_byte l (i + 2) H). pose proof (zget_byte l (i + 3) H). unfold is_byte in *. lia.
Qed.

(** * Arrays of characters *)

(** An array store that faults beyond the array. *)
Definition put (l : list Z) (i v : Z) : option (list Z) :=
  if (0 <=? i) && (i <? zlen l) then Some (l.[i <- v]) else None.

Lemma put_in l i v : 0 <= i < zlen l -> put l i v = Some (l.[i <- v]).
Proof. intros H. unfold put. destruct (Z.leb_spec 0 i), (Z.ltb_spec i (zlen l)); done || lia. Qed.

(** The characters of a string, up to its terminator; [None] when there is none. *)
Fixpoint c_string (l : list Z) : option (list Z) :=
  match l with
  | [] => None
  | c :: l' => if c =? 0 then Some [] else s ← c_string l'; Some (c :: s)
  end.

Definition nonzero (s : list Z) : Prop := Forall (fun c => c <> 0) s.

Lemma zlen_rev {A} (l : list A) : zlen (rev l) = zlen l.
Proof. unfold zlen. by rewrite length_rev. Qed.

Lemma nonzero_rev s : nonzero s -> nonzero (rev s).
Proof. intros H. unfold nonzero. apply Forall_rev, H. Qed.

Lemma c_string_text s rest : nonzero s -> c_string (s ++ 0 :: rest) = Some s.
Proof.
  induction 1 as [| c s Hc Hs IH]; [done |]. cbn [app c_string]. destruct (Z.eqb_spec c 0); [done |]. by rewrite IH.
Qed.

(** The characters of a literal, and one with a new line behind it. *)
Definition txt (s : String.string) : list Z := map (fun a => Z.of_N (Ascii.N_of_ascii a)) (String.list_ascii_of_string s).
Definition ln (s : String.string) : list Z := txt s ++ [10].
