(* ===== verification/Memory.v ===== *)
(** * Byte-addressed memory

    The memory several components share: bytes at addresses, with the little-endian
    loads and stores of [n] bytes the code makes through its pointers. *)

From S2P Require Import Prelude.

Abbreviation mem := (gmap Z Z).

Definition rdb (m : mem) (a : Z) : Z := default 0 (m !! a).
Definition wrb (a v : Z) (m : mem) : mem := <[a := v mod 256]> m.

Fixpoint ld (n : nat) (m : mem) (a : Z) : Z :=
  match n with O => 0 | S n' => rdb m a + 256 * ld n' m (a + 1) end.

Fixpoint st (n : nat) (a v : Z) (m : mem) : mem :=
  match n with O => m | S n' => st n' (a + 1) (v / 256) (wrb a v m) end.

Abbreviation ld8 := (ld 1).
Abbreviation ld16 := (ld 2).
Abbreviation ld32 := (ld 4).
Abbreviation ld64 := (ld 8).
Abbreviation st8 := (st 1).
Abbreviation st16 := (st 2).
Abbreviation st32 := (st 4).
Abbreviation st64 := (st 8).

(** [n] bytes of memory as a list, and a list stored in memory. *)
Fixpoint ld_bytes (n : nat) (m : mem) (a : Z) : list Z :=
  match n with O => [] | S n' => rdb m a :: ld_bytes n' m (a + 1) end.
Fixpoint st_bytes (a : Z) (l : list Z) (m : mem) : mem :=
  match l with [] => m | v :: l' => st_bytes (a + 1) l' (wrb a v m) end.

Definition mem_bytes (m : mem) : Prop := map_Forall (fun _ => is_byte) m.

(** Two memories that agree on [a, a + n). *)
Definition agree (m m' : mem) (a n : Z) : Prop :=
  forall x, a <= x < a + n -> rdb m' x = rdb m x.

Lemma rdb_wrb a v m x : rdb (wrb a v m) x = if a =? x then v mod 256 else rdb m x.
Proof.
  unfold rdb, wrb. destruct (Z.eqb_spec a x) as [-> | Hne].
  - by rewrite lookup_insert_eq.
  - by rewrite lookup_insert_ne.
Qed.

Lemma rdb_st_out n : forall a v m x,
  x < a \/ a + Z.of_nat n <= x -> rdb (st n a v m) x = rdb m x.
Proof.
  induction n as [| n IH]; intros a v m x Hx; [done |]. cbn [st].
  rewrite IH, rdb_wrb by lia. destruct (Z.eqb_spec a x); [lia | done].
Qed.

Lemma ld_agree n : forall m m' a, agree m m' a (Z.of_nat n) -> ld n m' a = ld n m a.
Proof.
  unfold agree. induction n as [| n IH]; intros m m' a H; [done |]. cbn [ld].
  rewrite (IH m m'), H by (intros; rewrite ?H; lia). done.
Qed.

Lemma ld_st_out n k a b v m :
  b + Z.of_nat n <= a \/ a + Z.of_nat k <= b -> ld n (st k a v m) b = ld n m b.
Proof. intros H. apply ld_agree. intros x Hx. apply rdb_st_out. lia. Qed.

Lemma ld_st_same n : forall a v m, ld n (st n a v m) a = v mod 256 ^ Z.of_nat n.
Proof.
  induction n as [| n IH]; intros a v m.
  - by rewrite Z.mod_1_r.
  - cbn [ld st]. rewrite IH, rdb_st_out, rdb_wrb, Z.eqb_refl by lia.
    rewrite Nat2Z.inj_succ, Z.pow_succ_r by lia.
    rewrite Z.rem_mul_r by (try apply Z.pow_pos_nonneg; lia). done.
Qed.

Lemma ld_st_id n a v m : 0 <= v < 256 ^ Z.of_nat n -> ld n (st n a v m) a = v.
Proof. intros H. rewrite ld_st_same. by apply Z.mod_small. Qed.

Lemma ld64_st64 a v m : 0 <= v < 18446744073709551616 -> ld64 (st64 a v m) a = v.
Proof. intros H. by apply ld_st_id. Qed.

Lemma ld8_st8 a v m : 0 <= v < 256 -> ld8 (st8 a v m) a = v.
Proof. intros H. by apply ld_st_id. Qed.

Lemma rdb_byte m a : mem_bytes m -> is_byte (rdb m a).
Proof.
  intros H. unfold rdb. destruct (m !! a) eqn:E; [exact (H _ _ E) |].
  unfold is_byte. simpl. lia.
Qed.

Lemma ld_range n : forall m a, mem_bytes m -> 0 <= ld n m a < 256 ^ Z.of_nat n.
Proof.
  induction n as [| n IH]; intros m a H; [done |].
  cbn [ld]. specialize (IH m (a + 1) H). pose proof (rdb_byte m a H) as Hb.
  unfold is_byte in Hb. rewrite Nat2Z.inj_succ, Z.pow_succ_r by lia. lia.
Qed.

Lemma wrb_mem_bytes a v m : mem_bytes m -> mem_bytes (wrb a v m).
Proof.
  intros H. apply map_Forall_insert_2; [| done]. unfold is_byte. lia.
Qed.

Lemma st_mem_bytes n : forall a v m, mem_bytes m -> mem_bytes (st n a v m).
Proof. induction n as [| n IH]; intros; [done |]. by apply IH, wrb_mem_bytes. Qed.

Lemma agree_refl m a n : agree m m a n.
Proof. intros x. done. Qed.

Lemma agree_trans m1 m2 m3 a n : agree m1 m2 a n -> agree m2 m3 a n -> agree m1 m3 a n.
Proof. intros H1 H2 x Hx. by rewrite H2, H1. Qed.

Lemma agree_st k b v m m0 a n :
  b + Z.of_nat k <= a \/ a + n <= b -> agree m0 m a n -> agree m0 (st k b v m) a n.
Proof. intros H H0 x Hx. rewrite rdb_st_out by lia. by apply H0. Qed.

Lemma agree_sub m m' a n b k :
  agree m m' a n -> a <= b -> b + k <= a + n -> agree m m' b k.
Proof. intros H H1 H2 x Hx. apply H. lia. Qed.

Lemma ld_bytes_length n : forall m a, length (ld_bytes n m a) = n.
Proof. induction n as [| n IH]; intros; [done |]. cbn. by rewrite IH. Qed.

Lemma ld_bytes_agree n : forall m m' a, agree m m' a (Z.of_nat n) -> ld_bytes n m' a = ld_bytes n m a.
Proof.
  unfold agree. induction n as [| n IH]; intros m m' a H; [done |]. cbn [ld_bytes].
  rewrite (IH m m'), H by (intros; rewrite ?H; lia). done.
Qed.

Lemma rdb_st_bytes_out l : forall a m x,
  x < a \/ a + zlen l <= x -> rdb (st_bytes a l m) x = rdb m x.
Proof.
  induction l as [| v l IH]; intros a m x Hx; [done |]. rewrite zlen_cons in Hx. cbn [st_bytes].
  pose proof (zlen_nonneg l).
  rewrite IH, rdb_wrb by lia. destruct (Z.eqb_spec a x); [lia | done].
Qed.

Lemma rdb_st_bytes_in l : forall a m i,
  bytes l -> 0 <= i < zlen l -> rdb (st_bytes a l m) (a + i) = l.[i].
Proof.
  induction l as [| v l IH]; intros a m i Hb Hi; [unfold zlen in Hi; cbn in Hi; lia |].
  inversion Hb as [| ? ? Hv Hl]; subst. rewrite zlen_cons in Hi. cbn [st_bytes].
  destruct (Z.eq_dec i 0) as [-> | Hne].
  - rewrite rdb_st_bytes_out, rdb_wrb by lia. rewrite Z.add_0_r, Z.eqb_refl.
    unfold is_byte in Hv. by rewrite Z.mod_small.
  - replace (a + i) with (a + 1 + (i - 1)) by lia. rewrite IH by (done || lia).
    unfold zget. rewrite (zlook_nonneg (v :: l)), zlook_nonneg by lia.
    by replace (Z.to_nat i) with (S (Z.to_nat (i - 1))) by lia.
Qed.

Lemma ld_st_bytes l : forall a m, bytes l -> ld_bytes (length l) (st_bytes a l m) a = l.
Proof.
  induction l as [| v l IH]; intros a m Hb; [done |].
  inversion Hb as [| ? ? Hv Hl]. cbn [length ld_bytes st_bytes].
  rewrite IH, rdb_st_bytes_out, rdb_wrb, Z.eqb_refl by (done || lia).
  unfold is_byte in Hv. by rewrite Z.mod_small by lia.
Qed.

#[global] Arguments ld : simpl never.
#[global] Arguments st : simpl never.
