(* ===== verification/CString.v ===== *)
(** * Strings and memory blocks (src/lib/string.c)

    The functions of lib/string.c on byte-addressed memory. A loop that runs to a
    terminator takes a bound on its iterations, [None] when it is exceeded; the
    theorems show that a bound above the length of the string is enough. A string
    [s] at address [a] is [cstr m a s]. *)

From S2P Require Import Prelude Memory.

(** ** Memory blocks *)

Definition memset (dst c n : Z) (m : mem) : Z * mem :=
  (dst, loop (Z.to_nat n) 0 (fun i m => wrb (dst + i) (u8 c) m) m).

Definition memcpy (dst src n : Z) (m : mem) : Z * mem :=
  (dst, loop (Z.to_nat n) 0 (fun i m => wrb (dst + i) (rdb m (src + i)) m) m).

Definition memmove (dst src n : Z) (m : mem) : Z * mem :=
  if dst <? src
  then (dst, loop (Z.to_nat n) 0 (fun i m => wrb (dst + i) (rdb m (src + i)) m) m)
  else (dst, loop (Z.to_nat n) 0
               (fun k m => let i := n - k in wrb (dst + (i - 1)) (rdb m (src + (i - 1))) m) m).

Fixpoint memcmp_loop (n : nat) (i a b : Z) (m : mem) : Z :=
  match n with
  | O => 0
  | S n' => if negb (rdb m (a + i) =? rdb m (b + i)) then rdb m (a + i) - rdb m (b + i)
            else memcmp_loop n' (i + 1) a b m
  end.
Definition memcmp (a b n : Z) (m : mem) : Z := memcmp_loop (Z.to_nat n) 0 a b m.

(** ** Strings *)

Fixpoint strcmp (fuel : nat) (a b : Z) (m : mem) : option Z :=
  match fuel with
  | O => None
  | S f => if istrue (rdb m a) && (rdb m a =? rdb m b) then strcmp f (a + 1) (b + 1) m
           else Some (rdb m a - rdb m b)
  end.

Fixpoint strncmp_loop (n : nat) (i a b : Z) (m : mem) : Z :=
  match n with
  | O => 0
  | S n' =>
      if negb (rdb m (a + i) =? rdb m (b + i)) then rdb m (a + i) - rdb m (b + i)
      else if rdb m (a + i) =? 0 then 0
      else strncmp_loop n' (i + 1) a b m
  end.
Definition strncmp (a b n : Z) (m : mem) : Z := strncmp_loop (Z.to_nat n) 0 a b m.

Fixpoint strcpy_loop (fuel : nat) (d s : Z) (m : mem) : option mem :=
  match fuel with
  | O => None
  | S f => let m' := wrb d (rdb m s) m in
           if istrue (rdb m s) then strcpy_loop f (d + 1) (s + 1) m' else Some m'
  end.
Definition strcpy (fuel : nat) (dst src : Z) (m : mem) : option (Z * mem) :=
  m' ← strcpy_loop fuel dst src m; Some (dst, m').

Fixpoint strncpy_copy (n : nat) (i dst src : Z) (m : mem) : Z * mem :=
  match n with
  | O => (i, m)
  | S n' => if istrue (rdb m (src + i))
            then strncpy_copy n' (i + 1) dst src (wrb (dst + i) (rdb m (src + i)) m)
            else (i, m)
  end.
Definition strncpy (dst src n : Z) (m : mem) : Z * mem :=
  let '(i, m) := strncpy_copy (Z.to_nat n) 0 dst src m in
  (dst, loop (Z.to_nat (n - i)) i (fun i m => wrb (dst + i) 0 m) m).

Fixpoint strlen_loop (fuel : nat) (n s : Z) (m : mem) : option Z :=
  match fuel with
  | O => None
  | S f => if istrue (rdb m (s + n)) then strlen_loop f (n + 1) s m else Some n
  end.
Definition strlen (fuel : nat) (s : Z) (m : mem) : option Z := strlen_loop fuel 0 s m.

(** ** strtok: [g_saved] is its static pointer, NULL is 0 *)

(** The inner loop of strtok: is [c] one of the characters of [delim]? *)
Fixpoint is_sep (fuel : nat) (c d : Z) (m : mem) : option bool :=
  match fuel with
  | O => None
  | S f => if negb (istrue (rdb m d)) then Some false
           else if c =? rdb m d then Some true else is_sep f c (d + 1) m
  end.

Fixpoint skip_seps (fuel : nat) (p delim : Z) (m : mem) : option Z :=
  match fuel with
  | O => None
  | S f =>
      if negb (istrue (rdb m p)) then Some p
      else sep ← is_sep fuel (rdb m p) delim m;
           if (sep : bool) then skip_seps f (p + 1) delim m else Some p
  end.

(** The end of the token: where a separator was overwritten, and the new [g_saved]. *)
Fixpoint scan_token (fuel : nat) (p delim : Z) (m : mem) : option (mem * Z) :=
  match fuel with
  | O => None
  | S f =>
      if negb (istrue (rdb m p)) then Some (m, 0)
      else sep ← is_sep fuel (rdb m p) delim m;
           if (sep : bool) then Some (wrb p 0 m, p + 1) else scan_token f (p + 1) delim m
  end.

Definition strtok (fuel : nat) (str delim g_saved : Z) (m : mem) : option (Z * mem * Z) :=
  let g_saved := if istrue str then str else g_saved in
  if negb (istrue g_saved) then Some (0, m, g_saved)
  else
    start ← skip_seps fuel g_saved delim m;
    if negb (istrue (rdb m start)) then Some (0, m, 0)
    else r ← scan_token fuel start delim m; Some (start, fst r, snd r).

(** ** Meaning *)

(** The string [s], without its terminator, is at [a]. *)
Fixpoint cstr (m : mem) (a : Z) (s : list Z) : Prop :=
  match s with
  | [] => rdb m a = 0
  | c :: s' => 0 < c < 256 /\ rdb m a = c /\ cstr m (a + 1) s'
  end.

(** The order of strings as sequences of unsigned bytes. *)
Fixpoint str_lt (s t : list Z) : Prop :=
  match s, t with
  | _, [] => False
  | [], _ :: _ => True
  | c :: s', d :: t' => c < d \/ (c = d /\ str_lt s' t')
  end.

Lemma cstr_agree s : forall m m' a, agree m m' a (zlen s + 1) -> cstr m a s -> cstr m' a s.
Proof.
  unfold agree. induction s as [| c s IH]; intros m m' a Ha; cbn [cstr].
  - rewrite Ha by (change (zlen (@nil Z)) with 0; lia). done.
  - rewrite zlen_cons in Ha. pose proof (zlen_nonneg s). intros (H1 & H2 & H3).
    rewrite Ha by lia. split_and!; [lia | lia | done |].
    apply (IH m); [intros x Hx; apply Ha; lia | done].
Qed.

Lemma strlen_cstr m a s fuel : cstr m a s -> (length s < fuel)%nat -> strlen fuel a m = Some (zlen s).
Proof.
  intros Hs Hf. unfold strlen.
  assert (forall s n fuel, cstr m (a + n) s -> (length s < fuel)%nat ->
            strlen_loop fuel n a m = Some (n + zlen s)) as H.
  2: { rewrite (H s); [done | by rewrite Z.add_0_r | done]. }
  clear s fuel Hs Hf. induction s as [| c s IH]; intros n [| fuel] Hs Hf; simpl in Hf; try lia;
    cbn [strlen_loop].
  - cbn [cstr] in Hs. rewrite Hs. change (zlen (@nil Z)) with 0. rewrite Z.add_0_r. done.
  - destruct Hs as (Hc & -> & Hs). unfold istrue. destruct (Z.eqb_spec c 0); [lia |]. cbn [negb].
    rewrite IH; [f_equal; rewrite zlen_cons; lia | by rewrite Z.add_assoc | lia].
Qed.

Lemma strcmp_cstr m s : forall a b t fuel,
  cstr m a s -> cstr m b t -> (length s < fuel)%nat ->
  exists r, strcmp fuel a b m = Some r /\ (r = 0 <-> s = t) /\ (r < 0 <-> str_lt s t).
Proof.
  induction s as [| c s IH]; intros a b t fuel Hs Ht Hf;
    (destruct fuel as [| fuel]; [simpl in Hf; lia |]); cbn [strcmp].
  - cbn [cstr] in Hs. rewrite Hs. cbn [istrue andb]. change (istrue 0) with false. cbn [andb].
    exists (0 - rdb m b). split; [done |].
    destruct t as [| d t]; cbn [cstr str_lt] in *.
    + rewrite Ht. split; split; try done; lia.
    + destruct Ht as (Hd & -> & _). split; split; intros; try done; lia.
  - destruct Hs as (Hc & Ea & Hs). rewrite Ea. unfold istrue.
    destruct (Z.eqb_spec c 0); [lia |]. cbn [negb andb].
    destruct t as [| d t]; cbn [cstr str_lt] in *.
    + rewrite Ht. destruct (Z.eqb_spec c 0); [lia |]. exists (c - 0). split; [done |].
      split; split; intros; try done; lia.
    + destruct Ht as (Hd & -> & Ht). destruct (Z.eqb_spec c d) as [-> | Hne].
      * destruct (IH (a + 1) (b + 1) t fuel Hs Ht) as (r & Hr & H1 & H2); [simpl in Hf; lia |].
        exists r. split; [done |]. rewrite H1, H2. split; split.
        -- by intros ->.
        -- by intros [= ->].
        -- auto.
        -- intros [? | [_ ?]]; [lia | done].
      * exists (c - d). split; [done |]. split; split.
        -- lia.
        -- intros [= ? ?]. lia.
        -- intros. left. lia.
        -- intros [? | [? _]]; lia.
Qed.

(** ** Memory blocks: properties *)

(** Also: memmove copies [n] bytes as they were before the call, also when source and
    destination overlap, changes no other byte and returns the destination. *)
Theorem memmove_spec (dst src n : Z) (m : mem) (Hb : mem_bytes m) (Hn : 0 <= n) :
  fst (memmove dst src n m) = dst /\
  forall x, rdb (snd (memmove dst src n m)) x =
    if (dst <=? x) && (x <? dst + n) then rdb m (x - dst + src) else rdb m x.
Proof.
  unfold memmove. destruct (Z.ltb_spec dst src) as [Hlt | Hge]; (split; [done |]); cbn [snd].
  - pose proof (loop_inv (fun j m' => forall x, rdb m' x =
        if (dst <=? x) && (x <? dst + j) then rdb m (x - dst + src) else rdb m x)
      (fun i m => wrb (dst + i) (rdb m (src + i)) m) (Z.to_nat n) 0 m) as H.
    replace (0 + Z.of_nat (Z.to_nat n)) with n in H by lia. apply H.
    + intros x. destruct (Z.leb_spec dst x), (Z.ltb_spec x (dst + 0)); try done; lia.
    + intros j m' Hj IH x. rewrite rdb_wrb, !IH.
      pose proof (rdb_byte m (src + j) Hb) as Hbj. unfold is_byte in Hbj.
      destruct (Z.leb_spec dst (src + j)), (Z.ltb_spec (src + j) (dst + j)); try lia. cbn [andb].
      rewrite (Z.mod_small (rdb m (src + j))) by lia.
      destruct (Z.eqb_spec (dst + j) x), (Z.leb_spec dst x), (Z.ltb_spec x (dst + j)),
        (Z.ltb_spec x (dst + (j + 1))); try lia; cbn [andb]; try done; f_equal; lia.
  - pose proof (loop_inv (fun k m' => forall x, rdb m' x =
        if (dst + n - k <=? x) && (x <? dst + n) then rdb m (x - dst + src) else rdb m x)
      (fun k m => let i := n - k in wrb (dst + (i - 1)) (rdb m (src + (i - 1))) m)
      (Z.to_nat n) 0 m) as H.
    replace (0 + Z.of_nat (Z.to_nat n)) with n in H by lia. intros x. rewrite H; clear H.
    + by replace (dst + n - n) with dst by lia.
    + intros y. destruct (Z.leb_spec (dst + n - 0) y), (Z.ltb_spec y (dst + n)); try done; lia.
    + intros k m' Hk IH y. cbv zeta. rewrite rdb_wrb, !IH. set (i := n - k - 1).
      pose proof (rdb_byte m (src + i) Hb) as Hbj. unfold is_byte in Hbj.
      destruct (Z.leb_spec (dst + n - k) (src + i)), (Z.ltb_spec (src + i) (dst + n)); try lia;
        cbn [andb]; rewrite (Z.mod_small (rdb m (src + i))) by lia;
        destruct (Z.eqb_spec (dst + i) y), (Z.leb_spec (dst + n - k) y),
          (Z.leb_spec (dst + n - (k + 1)) y), (Z.ltb_spec y (dst + n));
        try lia; cbn [andb]; try done; f_equal; lia.
Qed.

(** ** strcmp and strtok: properties *)

(** Also: strcmp on two terminated strings ends, returns 0 exactly for equal strings and a
    negative value exactly when the first precedes the second in the byte order. *)
Theorem strcmp_spec (m : mem) (a b : Z) (s t : list Z) (fuel : nat)
    (Hs : cstr m a s) (Ht : cstr m b t) (Hf : (length s < fuel)%nat) :
  exists r, strcmp fuel a b m = Some r /\ (r = 0 <-> s = t) /\ (r < 0 <-> str_lt s t).
Proof. exact (strcmp_cstr m s a b t fuel Hs Ht Hf). Qed.

(** The longest prefix whose elements satisfy [f], and the rest. *)
Fixpoint span (f : Z -> bool) (s : list Z) : list Z * list Z :=
  match s with
  | [] => ([], [])
  | c :: s' => if f c then let '(p, r) := span f s' in (c :: p, r) else ([], s)
  end.

Definition sep_of (ds : list Z) (c : Z) : bool := existsb (Z.eqb c) ds.

Lemma is_sep_cstr m c ds : forall d fuel,
  cstr m d ds -> (length ds < fuel)%nat -> is_sep fuel c d m = Some (sep_of ds c).
Proof.
  induction ds as [| e ds IH]; intros d fuel Hd Hf; (destruct fuel as [| fuel]; [simpl in Hf; lia |]);
    cbn [is_sep sep_of existsb].
  - cbn [cstr] in Hd. by rewrite Hd.
  - destruct Hd as (He & -> & Hd). unfold istrue. destruct (Z.eqb_spec e 0); [lia |]. cbn [negb].
    destruct (Z.eqb_spec c e); [done |]. apply IH; [done | simpl in Hf; lia].
Qed.

Lemma span_app f s : s = fst (span f s) ++ snd (span f s).
Proof.
  induction s as [| c s IH]; [done |]. cbn [span]. destruct (f c); [| done].
  destruct (span f s) as [p r]. cbn in *. by rewrite <- IH.
Qed.

Lemma skip_seps_cstr m delim ds s : forall p fuel,
  cstr m p s -> cstr m delim ds -> (length s + length ds < fuel)%nat ->
  skip_seps fuel p delim m = Some (p + zlen (fst (span (sep_of ds) s))) /\
  cstr m (p + zlen (fst (span (sep_of ds) s))) (snd (span (sep_of ds) s)).
Proof.
  induction s as [| c s IH]; intros p fuel Hs Hd Hf; (destruct fuel as [| fuel]; [simpl in Hf; lia |]);
    cbn [skip_seps span].
  - cbn [cstr] in Hs. rewrite Hs. cbn [fst snd cstr]. change (zlen (@nil Z)) with 0.
    by rewrite Z.add_0_r.
  - pose proof Hs as (Hc & Ec & Hs'). rewrite Ec. unfold istrue.
    destruct (Z.eqb_spec c 0); [lia |]. cbn [negb].
    rewrite (is_sep_cstr m c ds) by (done || simpl in Hf; lia). cbn [mbind option_bind].
    destruct (sep_of ds c).
    + destruct (IH (p + 1) fuel Hs' Hd) as [H1 H2]; [simpl in Hf; lia |].
      destruct (span (sep_of ds) s) as [q r]. cbn [fst snd] in *. rewrite zlen_cons.
      replace (p + (zlen q + 1)) with (p + 1 + zlen q) by lia. done.
    + cbn [fst snd]. change (zlen (@nil Z)) with 0. by rewrite Z.add_0_r.
Qed.

Lemma scan_token_cstr m delim ds s : forall p fuel,
  cstr m p s -> cstr m delim ds -> (length s + length ds < fuel)%nat ->
  let tok := fst (span (fun c => negb (sep_of ds c)) s) in
  let rest := snd (span (fun c => negb (sep_of ds c)) s) in
  scan_token fuel p delim m =
    Some match rest with [] => (m, 0) | _ => (wrb (p + zlen tok) 0 m, p + zlen tok + 1) end /\
  cstr (wrb (p + zlen tok) 0 m) p tok /\ cstr m (p + zlen tok) rest.
Proof.
  induction s as [| c s IH]; intros p fuel Hs Hd Hf; (destruct fuel as [| fuel]; [simpl in Hf; lia |]);
    cbn [scan_token span].
  - cbn [cstr] in Hs. rewrite Hs. cbn [fst snd cstr]. change (zlen (@nil Z)) with 0.
    rewrite Z.add_0_r, rdb_wrb, Z.eqb_refl. done.
  - pose proof Hs as (Hc & Ec & Hs'). rewrite Ec. unfold istrue.
    destruct (Z.eqb_spec c 0); [lia |]. cbn [negb].
    rewrite (is_sep_cstr m c ds) by (done || simpl in Hf; lia). cbn [mbind option_bind].
    destruct (sep_of ds c); cbn [negb].
    + cbn [fst snd cstr]. change (zlen (@nil Z)) with 0.
      rewrite Z.add_0_r, rdb_wrb, Z.eqb_refl. done.
    + destruct (IH (p + 1) fuel Hs' Hd) as (H1 & H2 & H3); [simpl in Hf; lia |].
      destruct (span _ s) as [q r]. cbn [fst snd] in *. rewrite zlen_cons.
      replace (p + (zlen q + 1)) with (p + 1 + zlen q) by lia. split; [done |]. split; [| done].
      pose proof (zlen_nonneg q). cbn [cstr]. rewrite rdb_wrb.
      destruct (Z.eqb_spec (p + 1 + zlen q) p); [lia |]. done.
Qed.

Lemma cstr_wrb_out m a s x v : cstr m a s -> x < a \/ a + zlen s < x -> cstr (wrb x v m) a s.
Proof.
  intros Hs Hx. apply (cstr_agree s m); [| done]. intros y Hy. rewrite rdb_wrb.
  destruct (Z.eqb_spec x y); [lia | done].
Qed.

(** Also: strtok on a string (the one passed, or the saved rest) skips the leading
    separators. If nothing is left it returns NULL and forgets the string. Otherwise it
    returns the address of the next token, the longest run of other characters, which is
    terminated in place; the saved pointer is the rest after the separator that ended
    the token, again a terminated string, or NULL at the end of the string. The
    separators must lie outside the string. *)
Theorem strtok_spec (m : mem) (p str saved delim : Z) (s ds : list Z) (fuel : nat)
    (Hp : p = if istrue str then str else saved) (Hnz : 0 < p)
    (Hs : cstr m p s) (Hd : cstr m delim ds) (Hf : (length s + length ds < fuel)%nat)
    (Hout : delim + zlen ds < p \/ p + zlen s < delim) :
  let '(skipped, rest) := span (sep_of ds) s in
  let '(tok, after) := span (fun c => negb (sep_of ds c)) rest in
  match rest with
  | [] => strtok fuel str delim saved m = Some (0, m, 0)
  | _ => exists m' saved', strtok fuel str delim saved m = Some (p + zlen skipped, m', saved') /\
      cstr m' (p + zlen skipped) tok /\ cstr m' delim ds /\
      match after with
      | [] => saved' = 0
      | _ :: after' => 0 < saved' /\ cstr m' saved' after'
      end
  end.
Proof.
  destruct (skip_seps_cstr m delim ds s p fuel Hs Hd Hf) as [H1 H2].
  pose proof (span_app (sep_of ds) s) as E1.
  destruct (span (sep_of ds) s) as [skipped rest]. cbn [fst snd] in *.
  assert (zlen s = zlen skipped + zlen rest) as El by (rewrite E1; apply zlen_app).
  destruct (scan_token_cstr m delim ds rest (p + zlen skipped) fuel H2 Hd
    ltac:(unfold zlen in El; lia)) as (H3 & H4 & H5).
  pose proof (span_app (fun c => negb (sep_of ds c)) rest) as E2.
  destruct (span (fun c => negb (sep_of ds c)) rest) as [tok after]. cbn [fst snd] in *.
  assert (zlen rest = zlen tok + zlen after) as El2 by (rewrite E2; apply zlen_app).
  pose proof (zlen_nonneg skipped). pose proof (zlen_nonneg tok). clear E1 E2.
  unfold strtok. rewrite <- Hp, (istrue_neq p) by lia. cbn [negb].
  rewrite H1. cbn [mbind option_bind].
  destruct rest as [| c rest]; cbn [cstr] in H2.
  - by rewrite H2.
  - destruct H2 as (Hc & Ec & _). rewrite Ec. unfold istrue. destruct (Z.eqb_spec c 0); [lia |].
    cbn [negb]. rewrite H3. cbn [mbind option_bind fst snd].
    destruct after as [| d after]; cbn [fst snd].
    + exists m, 0. split_and!; try done. cbn [cstr] in H5.
      apply (cstr_agree _ (wrb (p + zlen skipped + zlen tok) 0 m)); [| exact H4].
      intros x Hx. rewrite rdb_wrb. destruct (Z.eqb_spec (p + zlen skipped + zlen tok) x) as [<- |]; [| done].
      exact H5.
    + destruct H5 as (_ & _ & H5). eexists _, _. split; [done |]. split; [exact H4 |].
      rewrite (zlen_cons d) in El2. pose proof (zlen_nonneg after).
      split; [apply cstr_wrb_out; [done | lia] |]. split; [lia |].
      apply cstr_wrb_out; [done | lia].
Qed.

(** ** Examples and witnesses *)

(** "a,b" at 100 and "," at 200. *)
Definition str_ex : mem := st_bytes 100 [97; 44; 98; 0] (st_bytes 200 [44; 0] ∅).

Lemma str_ex_bytes : mem_bytes str_ex.
Proof. unfold str_ex. cbn [st_bytes]. repeat apply wrb_mem_bytes. apply map_Forall_empty. Qed.

Lemma memmove_spec_witness :
  rdb (snd (memmove 101 100 3 str_ex)) 103 = 98.
Proof.
  exact (proj2 (memmove_spec 101 100 3 str_ex str_ex_bytes ltac:(lia)) 103).
Defined.

Lemma strcmp_spec_witness :
  exists r, strcmp 10 100 200 str_ex = Some r /\ ~ r = 0.
Proof.
  destruct (strcmp_spec str_ex 100 200 [97; 44; 98] [44] 10) as (r & H & Hz & _).
  - vm_compute. repeat split.
  - vm_compute. repeat split.
  - simpl. lia.
  - exists r. split; [exact H |]. intros H0. apply Hz in H0. discriminate H0.
Defined.

Lemma strtok_spec_witness :
  exists m' saved', strtok 10 100 200 0 str_ex = Some (100, m', saved') /\ cstr m' saved' [98].
Proof.
  pose proof (strtok_spec str_ex 100 100 0 200 [97; 44; 98] [44] 10 eq_refl ltac:(lia)
    ltac:(vm_compute; repeat split) ltac:(vm_compute; repeat split) ltac:(simpl; lia) ltac:(right; vm_compute; repeat split)) as H.
  cbn in H. destruct H as (m' & saved' & H & _ & _ & _ & H4). exists m', saved'. exact (conj H H4).
Defined.
