(* ===== verification/UserLib.v ===== *)
(** * User-space standard library (src/user/stdlib.c)

    Strings, number conversion, formatted output and the allocator of user programs,
    on byte-addressed memory. A loop that ends at a terminator or at the value 0 takes a
    bound ([None] when it is exceeded). The system calls the library makes are
    arguments: [sys_brk] where the allocator grows, and the bytes written to the
    standard output are collected in [out_fd]. *)

From S2P Require Import Prelude Memory CString.

(** ** Strings *)

(** strlen counts in an [int]. *)
Definition strlen (fuel : nat) (s : Z) (m : mem) : option Z :=
  n ← CString.strlen fuel s m; Some (s32 n).

(** The bodies of strcmp, strcpy and strncpy are those of the kernel's library. *)
Definition strcmp (fuel : nat) (a b : Z) (m : mem) : option Z := CString.strcmp fuel a b m.
Definition strcpy (fuel : nat) (dst src : Z) (m : mem) : option mem := strcpy_loop fuel dst src m.
Definition strncpy (dst src n : Z) (m : mem) : mem := snd (CString.strncpy dst src n m).

Fixpoint strncmp_loop (fuel : nat) (i a b n : Z) (m : mem) : option Z :=
  match fuel with
  | O => None
  | S f =>
      if (i <? n) && istrue (rdb m (a + i)) && istrue (rdb m (b + i))
      then if negb (rdb m (a + i) =? rdb m (b + i))
           then Some (rdb m (a + i) - rdb m (b + i))
           else strncmp_loop f (i + 1) a b n m
      else Some 0
  end.
Definition strncmp (fuel : nat) (a b n : Z) (m : mem) : option Z := strncmp_loop fuel 0 a b n m.

(** [while ( *dst) dst++;] *)
Fixpoint find_end (fuel : nat) (d : Z) (m : mem) : option Z :=
  match fuel with
  | O => None
  | S f => if istrue (rdb m d) then find_end f (d + 1) m else Some d
  end.
Definition strcat (fuel : nat) (dst src : Z) (m : mem) : option mem :=
  d ← find_end fuel dst m; strcpy_loop fuel d src m.

Fixpoint strchr_loop (fuel : nat) (s c : Z) (m : mem) : option (option Z * Z) :=
  match fuel with
  | O => None
  | S f => if negb (istrue (rdb m s)) then Some (None, s)
           else if rdb m s =? u8 c then Some (Some s, s) else strchr_loop f (s + 1) c m
  end.
Definition strchr (fuel : nat) (s c : Z) (m : mem) : option Z :=
  r ← strchr_loop fuel s c m;
  match fst r with Some p => Some p | None => Some (if c =? 0 then snd r else 0) end.

Fixpoint starts_with (fuel : nat) (s prefix : Z) (m : mem) : option bool :=
  match fuel with
  | O => None
  | S f => if negb (istrue (rdb m prefix)) then Some true
           else if negb (rdb m s =? rdb m prefix) then Some false
           else starts_with f (s + 1) (prefix + 1) m
  end.

Definition ends_with (fuel : nat) (s suffix : Z) (m : mem) : option bool :=
  sl ← strlen fuel s m; tl ← strlen fuel suffix m;
  if sl <? tl then Some false
  else r ← strcmp fuel (s + sl - tl) suffix m; Some (r =? 0).

Fixpoint reverse_loop (fuel : nat) (i j s : Z) (m : mem) : option mem :=
  match fuel with
  | O => None
  | S f =>
      if i <? j then
        let tmp := rdb m (s + i) in
        let m := wrb (s + i) (rdb m (s + j)) m in
        reverse_loop f (i + 1) (j - 1) s (wrb (s + j) tmp m)
      else Some m
  end.
Definition reverse_str (fuel : nat) (s : Z) (m : mem) : option mem :=
  n ← strlen fuel s m; reverse_loop fuel 0 (n - 1) s m.

(** ** Number conversion *)

(** The character of a digit: ['0' + d], or the table "0123456789abcdef" of itox. *)
Definition hex_digit (d : Z) : Z := if d <? 10 then 48 + d else 87 + d.

(** [while (val) { buf[i++] = digit(val % base); val /= base; }] *)
Fixpoint put_digits (fuel : nat) (base i val buf : Z) (m : mem) : option (Z * mem) :=
  match fuel with
  | O => None
  | S f => if istrue val
           then put_digits f base (i + 1) (val / base) buf (wrb (buf + i) (hex_digit (val mod base)) m)
           else Some (i, m)
  end.

Definition put_number (fuel : nat) (base val buf : Z) (m : mem) : option (Z * mem) :=
  if val =? 0 then Some (1, wrb (buf + 0) 48 m) else put_digits fuel base 0 val buf m.

Definition itoa (fuel : nat) (val buf : Z) (m : mem) : option mem :=
  let neg := val <? 0 in
  let uval := if neg then u32 (u32 (- (val + 1)) + 1) else u32 val in
  r ← put_number fuel 10 uval buf m;
  let '(i, m) := r in
  let '(i, m) := if neg then (i + 1, wrb (buf + i) 45 m) else (i, m) in
  reverse_str fuel buf (wrb (buf + i) 0 m).

Definition utoa (fuel : nat) (val buf : Z) (m : mem) : option mem :=
  r ← put_number fuel 10 val buf m;
  reverse_str fuel buf (wrb (buf + fst r) 0 (snd r)).

(** [val & 0xf] and [val >>= 4] are the remainder and the quotient by 16. *)
Definition itox (fuel : nat) (val buf : Z) (m : mem) : option mem :=
  r ← put_number fuel 16 val buf m;
  reverse_str fuel buf (wrb (buf + fst r) 0 (snd r)).

Fixpoint skip_spaces (fuel : nat) (s : Z) (m : mem) : option Z :=
  match fuel with
  | O => None
  | S f => if rdb m s =? 32 then skip_spaces f (s + 1) m else Some s
  end.

Fixpoint atoi_digits (fuel : nat) (val s : Z) (m : mem) : option Z :=
  match fuel with
  | O => None
  | S f => if (48 <=? rdb m s) && (rdb m s <=? 57)
           then atoi_digits f (s32 (val * 10 + (rdb m s - 48))) (s + 1) m
           else Some val
  end.

Definition atoi (fuel : nat) (s : Z) (m : mem) : option Z :=
  s ← skip_spaces fuel s m;
  let '(neg, s) := if rdb m s =? 45 then (true, s + 1)
                   else if rdb m s =? 43 then (false, s + 1) else (false, s) in
  val ← atoi_digits fuel 0 s m;
  Some (if neg : bool then s32 (- val) else val).

(** ** Formatted output

    [out] is the cursor into the buffer of sprintf, [None] for printf, whose bytes go
    to the standard output one sys_write at a time. *)

Record io := mkIo { io_mem : mem; out : option Z; out_fd : list Z }.

Definition putchar (c : Z) (s : io) : io := mkIo (io_mem s) (out s) (out_fd s ++ [u8 c]).

(** puts writes the whole string with one call. *)
Definition puts (fuel : nat) (p : Z) (s : io) : option io :=
  n ← strlen fuel p (io_mem s);
  Some (mkIo (io_mem s) (out s) (out_fd s ++ ld_bytes (Z.to_nat n) (io_mem s) p)).

Definition put_char_to (c : Z) (s : io) : io :=
  match out s with
  | Some o => mkIo (wrb o c (io_mem s)) (Some (o + 1)) (out_fd s)
  | None => putchar c s
  end.

Fixpoint put_str_to (fuel : nat) (p : Z) (s : io) : option io :=
  match fuel with
  | O => None
  | S f => if istrue (rdb (io_mem s) p)
           then put_str_to f (p + 1) (put_char_to (rdb (io_mem s) p) s) else Some s
  end.

Definition with_io_mem (m : mem) (s : io) : io := mkIo m (out s) (out_fd s).

(** [frame] is the address of the local array [buf] of the helper. *)
Definition put_int_to (fuel : nat) (frame val : Z) (s : io) : option io :=
  m ← itoa fuel val frame (io_mem s); put_str_to fuel frame (with_io_mem m s).
Definition put_uint_to (fuel : nat) (frame val : Z) (s : io) : option io :=
  m ← utoa fuel val frame (io_mem s); put_str_to fuel frame (with_io_mem m s).
Definition put_hex_to (fuel : nat) (frame val : Z) (s : io) : option io :=
  m ← itox fuel val frame (io_mem s); put_str_to fuel frame (with_io_mem m s).
Definition put_ptr_to (fuel : nat) (frame val : Z) (s : io) : option io :=
  if val =? 0 then Some (put_char_to 48 (put_char_to 120 (put_char_to 48 s)))
  else
    let s := put_char_to 120 (put_char_to 48 s) in
    m ← itox fuel val frame (io_mem s);
    put_str_to fuel frame (with_io_mem m s).

(** The arguments [ap] are taken in order; a missing one reads as 0. *)
Definition va_arg (ap : list Z) : Z * list Z :=
  match ap with [] => (0, []) | x :: ap' => (x, ap') end.

Fixpoint vprintf (fuel : nat) (frame fmt : Z) (ap : list Z) (s : io) : option io :=
  match fuel with
  | O => None
  | S f =>
      let c := rdb (io_mem s) fmt in
      if negb (istrue c) then Some s
      else if c =? 37 then
        let fmt := fmt + 1 in
        let d := rdb (io_mem s) fmt in
        let '(x, ap') := va_arg ap in
        if d =? 100 then s ← put_int_to fuel frame (s32 x) s; vprintf f frame (fmt + 1) ap' s
        else if d =? 117 then s ← put_uint_to fuel frame (u32 x) s; vprintf f frame (fmt + 1) ap' s
        else if (d =? 120) || (d =? 88) then
          s ← put_hex_to fuel frame (u32 x) s; vprintf f frame (fmt + 1) ap' s
        else if d =? 115 then s ← put_str_to fuel x s; vprintf f frame (fmt + 1) ap' s
        else if d =? 99 then vprintf f frame (fmt + 1) ap' (put_char_to (u8 x) s)
        else if d =? 112 then s ← put_ptr_to fuel frame (u64 x) s; vprintf f frame (fmt + 1) ap' s
        else if d =? 37 then vprintf f frame (fmt + 1) ap (put_char_to 37 s)
        else vprintf f frame (fmt + 1) ap (put_char_to d (put_char_to 37 s))
      else vprintf f frame (fmt + 1) ap (put_char_to c s)
  end.

Definition printf (fuel : nat) (frame fmt : Z) (ap : list Z) (m : mem) : option (list Z) :=
  s ← vprintf fuel frame fmt ap (mkIo m None []); Some (out_fd s).

Definition sprintf (fuel : nat) (frame buf fmt : Z) (ap : list Z) (m : mem) : option mem :=
  s ← vprintf fuel frame fmt ap (mkIo m (Some buf) []);
  match out s with Some o => Some (wrb o 0 (io_mem s)) | None => None end.

(** ** The allocator

    A block is its 16-byte header [size] (4 bytes), [free] (4), [next] (8) and [size]
    usable bytes. [W] is the state of the kernel behind sys_brk. *)

Section malloc.
Context {W : Type} (sys_brk : Z -> W -> Z * W).

Definition HEAP_SIZE : Z := 0x10000.
Definition BLOCK_SIZE : Z := 16.

Record uheap := mkUheap {
  u_mem : mem; u_world : W; heap_base : Z; heap_end : Z; heap_inited : bool }.

Definition with_umem (m : mem) (h : uheap) : uheap :=
  mkUheap m (u_world h) (heap_base h) (heap_end h) (heap_inited h).

Definition bsize (m : mem) (b : Z) : Z := ld32 m b.
Definition bfree (m : mem) (b : Z) : Z := ld32 m (b + 4).
Definition bnext (m : mem) (b : Z) : Z := ld64 m (b + 8).
Definition mk_block (b size next : Z) (m : mem) : mem :=
  st64 (b + 8) next (st32 (b + 4) 1 (st32 b size m)).

Definition heap_init (h : uheap) : uheap :=
  if heap_inited h then h
  else
    let '(cur_break, w) := sys_brk 0 (u_world h) in
    let new_break := u64 (cur_break + HEAP_SIZE) in
    let '(_, w) := sys_brk new_break w in
    mkUheap (mk_block cur_break (HEAP_SIZE - BLOCK_SIZE) 0 (u_mem h)) w cur_break new_break true.

Fixpoint find_free (fuel : nat) (cur size : Z) (m : mem) : option Z :=
  match fuel with
  | O => None
  | S f => if negb (istrue cur) then Some 0
           else if istrue (bfree m cur) && (size <=? bsize m cur) then Some cur
           else find_free f (bnext m cur) size m
  end.

Definition split_block (blk size : Z) (m : mem) : mem :=
  if size + BLOCK_SIZE + 16 <=? bsize m blk then
    let new_blk := blk + BLOCK_SIZE + size in
    let m := mk_block new_blk (u32 (bsize m blk - size - BLOCK_SIZE)) (bnext m blk) m in
    st32 blk size (st64 (blk + 8) new_blk m)
  else m.

(** [while (last && last->next) last = last->next;] *)
Fixpoint find_last (fuel : nat) (last : Z) (m : mem) : option Z :=
  match fuel with
  | O => None
  | S f => if istrue last && istrue (bnext m last) then find_last f (bnext m last) m else Some last
  end.

Definition malloc_grow (fuel : nat) (size : Z) (h : uheap) : option (Z * uheap) :=
  let '(cur_break, w) := sys_brk 0 (u_world h) in
  let need := u64 (BLOCK_SIZE + size) in
  let grow := if HEAP_SIZE <? need then need else HEAP_SIZE in
  let '(_, w) := sys_brk (u64 (cur_break + grow)) w in
  let h := mkUheap (u_mem h) w (heap_base h) (u64 (cur_break + grow)) (heap_inited h) in
  last ← find_last fuel (heap_base h) (u_mem h);
  if istrue last && istrue (bfree (u_mem h) last) then
    Some (last, with_umem (st32 last (u32 (bsize (u_mem h) last + grow)) (u_mem h)) h)
  else
    let m := mk_block cur_break (u32 (grow - BLOCK_SIZE)) 0 (u_mem h) in
    if istrue last then Some (cur_break, with_umem (st64 (last + 8) cur_break m) h)
    else Some (cur_break, mkUheap m (u_world h) cur_break (heap_end h) (heap_inited h)).

Definition malloc (fuel : nat) (size : Z) (h : uheap) : option (Z * uheap) :=
  if size =? 0 then Some (0, h)
  else
    let h := heap_init h in
    blk ← find_free fuel (heap_base h) size (u_mem h);
    r ← (if istrue blk then Some (blk, h) else malloc_grow fuel size h);
    let '(blk, h) := r in
    let m := split_block blk size (u_mem h) in
    Some (blk + BLOCK_SIZE, with_umem (st32 (blk + 4) 0 m) h).

Fixpoint coalesce (fuel : nat) (cur : Z) (m : mem) : option mem :=
  match fuel with
  | O => None
  | S f =>
      if istrue cur && istrue (bnext m cur) then
        if istrue (bfree m cur) && istrue (bfree m (bnext m cur)) then
          let m := st32 cur (u32 (bsize m cur + (BLOCK_SIZE + bsize m (bnext m cur)))) m in
          coalesce f cur (st64 (cur + 8) (bnext m (bnext m cur)) m)
        else coalesce f (bnext m cur) m
      else Some m
  end.

Definition free (fuel : nat) (ptr : Z) (h : uheap) : option uheap :=
  if negb (istrue ptr) then Some h
  else
    m ← coalesce fuel (heap_base h) (st32 (ptr - BLOCK_SIZE + 4) 1 (u_mem h));
    Some (with_umem m h).

Definition calloc (fuel : nat) (count size : Z) (h : uheap) : option (Z * uheap) :=
  let total := u32 (count * size) in
  r ← malloc fuel total h;
  let '(p, h) := r in
  if istrue p
  then Some (p, with_umem (loop (Z.to_nat total) 0 (fun i m => wrb (p + i) 0 m) (u_mem h)) h)
  else Some (p, h).
End malloc.

(** ** Numbers as strings *)

(** The digits of [n] in base [b], least significant first; none for 0. *)
Fixpoint rdigits (fuel : nat) (b n : Z) : list Z :=
  match fuel with
  | O => []
  | S f => if n =? 0 then [] else n mod b :: rdigits f b (n / b)
  end.

(** The numeral of [n]: most significant digit first, "0" for 0. *)
Definition numeral (b n : Z) : list Z :=
  if n =? 0 then [48] else map hex_digit (rev (rdigits 64 b n)).

Definition signed_numeral (n : Z) : list Z :=
  if n <? 0 then 45 :: numeral 10 (- n) else numeral 10 n.

(** The value of a sequence of digits, most significant first. *)
Definition value (b : Z) (ds : list Z) : Z := fold_left (fun v d => v * b + d) ds 0.

Lemma value_snoc b ds d : value b (ds ++ [d]) = value b ds * b + d.
Proof. unfold value. by rewrite fold_left_app. Qed.

Lemma rdigits_value b fuel : forall n,
  2 <= b -> 0 <= n < b ^ Z.of_nat fuel -> value b (rev (rdigits fuel b n)) = n.
Proof.
  induction fuel as [| f IH]; intros n Hb Hn.
  - change (b ^ Z.of_nat 0) with 1 in Hn. cbn. lia.
  - cbn [rdigits]. destruct (Z.eqb_spec n 0) as [-> |]; [done |]. cbn [rev].
    rewrite Nat2Z.inj_succ, Z.pow_succ_r in Hn by lia.
    rewrite value_snoc, IH; [pose proof (Z.div_mod n b ltac:(lia)); lia | done |].
    split; [apply Z.div_pos; lia | apply Z.div_lt_upper_bound; lia].
Qed.

Lemma rdigits_range b fuel : forall n, 2 <= b -> Forall (fun d => 0 <= d < b) (rdigits fuel b n).
Proof.
  induction fuel as [| f IH]; intros n Hb; [constructor |]. cbn [rdigits].
  destruct (n =? 0); constructor; [apply Z.mod_pos_bound; lia | by apply IH].
Qed.

Lemma rdigits_fuel b f1 f2 : forall n,
  2 <= b -> 0 <= n < b ^ Z.of_nat f1 -> (f1 <= f2)%nat -> rdigits f2 b n = rdigits f1 b n.
Proof.
  revert f2. induction f1 as [| f1 IH]; intros f2 n Hb Hn Hf.
  - change (b ^ Z.of_nat 0) with 1 in Hn. replace n with 0 by lia. by destruct f2.
  - destruct f2 as [| f2]; [lia |]. cbn [rdigits]. destruct (n =? 0); [done |]. f_equal.
    rewrite Nat2Z.inj_succ, Z.pow_succ_r in Hn by lia.
    apply IH; [done | | lia]. split; [apply Z.div_pos; lia | apply Z.div_lt_upper_bound; lia].
Qed.

(** ** Strings byte by byte *)

Lemma cstr_bytes m s : forall a,
  cstr m a s <->
  (forall i, 0 <= i < zlen s -> rdb m (a + i) = s.[i] /\ 0 < s.[i] < 256) /\ rdb m (a + zlen s) = 0.
Proof.
  induction s as [| c s IH]; intros a; cbn [cstr].
  - change (zlen (@nil Z)) with 0. rewrite Z.add_0_r. split; [intros H; split; [lia | done] | tauto].
  - rewrite IH, zlen_cons. pose proof (zlen_nonneg s). split.
    + intros (Hc & Ea & Hs & He). split.
      * intros i Hi. destruct (Z.eq_dec i 0) as [-> | Hi0]; [rewrite Z.add_0_r; done |].
        specialize (Hs (i - 1) ltac:(lia)). replace (a + 1 + (i - 1)) with (a + i) in Hs by lia.
        assert ((c :: s).[i] = s.[i - 1]) as ->; [| done].
        unfold zget, zlook. destruct (Z.ltb_spec i 0), (Z.ltb_spec (i - 1) 0); try lia.
        replace (Z.to_nat i) with (S (Z.to_nat (i - 1))) by lia. done.
      * rewrite <- He. f_equal. lia.
    + intros [Hs He]. pose proof (Hs 0 ltac:(lia)) as [H0 Hc]. rewrite Z.add_0_r in H0.
      change ((c :: s).[0]) with c in *. split_and!; try lia.
      * intros i Hi. specialize (Hs (i + 1) ltac:(lia)).
        replace (a + (i + 1)) with (a + 1 + i) in Hs by lia.
        assert ((c :: s).[i + 1] = s.[i]) as <-; [| done].
        unfold zget, zlook. destruct (Z.ltb_spec i 0), (Z.ltb_spec (i + 1) 0); try lia.
        by replace (Z.to_nat (i + 1)) with (S (Z.to_nat i)) by lia.
      * rewrite <- He. f_equal. lia.
Qed.

Lemma zget_rev s i : 0 <= i < zlen s -> (rev s).[i] = s.[zlen s - 1 - i].
Proof.
  intros Hi. unfold zget, zlook, zlen in *.
  destruct (Z.ltb_spec i 0), (Z.ltb_spec (Z.of_nat (length s) - 1 - i) 0); try lia.
  rewrite rev_alt. change (rev_append s []) with (reverse s).
  rewrite reverse_lookup by lia. do 2 f_equal. lia.
Qed.

(** The swaps of reverse_str, from both ends to the middle. *)
Lemma reverse_loop_spec n a : forall fuel i m m0,
  (Z.to_nat (n - i) < fuel)%nat -> 0 <= i -> 2 * i <= n + 1 ->
  (forall x, 0 <= m0 x < 256) ->
  (forall x, rdb m x =
     if (a <=? x) && (x <? a + n) && ((x - a <? i) || (n - i <=? x - a))
     then m0 (a + (n - 1 - (x - a))) else m0 x) ->
  exists m', reverse_loop fuel i (n - 1 - i) a m = Some m' /\
    forall x, rdb m' x = if (a <=? x) && (x <? a + n) then m0 (a + (n - 1 - (x - a))) else m0 x.
Proof.
  induction fuel as [| fuel IH]; intros i m m0 Hf Hi H2 Hb Hm; [lia |]. cbn [reverse_loop].
  destruct (Z.ltb_spec i (n - 1 - i)) as [Hlt | Hge].
  - replace (n - 1 - i - 1) with (n - 1 - (i + 1)) by lia.
    apply (IH (i + 1) _ m0); [lia | lia | lia | done |].
    intros x. rewrite !rdb_wrb, !Hm.
    destruct (Z.leb_spec a (a + i)), (Z.ltb_spec (a + i) (a + n)), (Z.ltb_spec (a + i - a) i),
      (Z.leb_spec (n - i) (a + i - a)), (Z.leb_spec a (a + (n - 1 - i))),
      (Z.ltb_spec (a + (n - 1 - i)) (a + n)), (Z.ltb_spec (a + (n - 1 - i) - a) i),
      (Z.leb_spec (n - i) (a + (n - 1 - i) - a)); try lia; cbn [andb orb].
    rewrite !Z.mod_small by apply Hb.
    destruct (Z.eqb_spec (a + (n - 1 - i)) x) as [E1 |], (Z.eqb_spec (a + i) x) as [E2 |],
      (Z.leb_spec a x), (Z.ltb_spec x (a + n)), (Z.ltb_spec (x - a) i), (Z.ltb_spec (x - a) (i + 1)),
      (Z.leb_spec (n - i) (x - a)), (Z.leb_spec (n - (i + 1)) (x - a));
      try lia; cbn [andb orb]; try done; f_equal; lia.
  - exists m. split; [done |]. intros x. rewrite Hm.
    destruct (Z.leb_spec a x), (Z.ltb_spec x (a + n)), (Z.ltb_spec (x - a) i),
      (Z.leb_spec (n - i) (x - a)); cbn [andb orb]; try done; try lia; f_equal; lia.
Qed.

Lemma strlen_ok m a s fuel :
  cstr m a s -> zlen s < 2147483648 -> (length s < fuel)%nat -> strlen fuel a m = Some (zlen s).
Proof.
  intros Hs Hl Hf. unfold strlen. rewrite (strlen_cstr m a s) by done. cbn.
  pose proof (zlen_nonneg s). by rewrite s32_id by lia.
Qed.

Lemma reverse_str_ok m a s fuel :
  (forall x, is_byte (rdb m x)) -> cstr m a s -> zlen s < 2147483648 -> (length s < fuel)%nat ->
  exists m', reverse_str fuel a m = Some m' /\ cstr m' a (rev s) /\
    forall x, x < a \/ a + zlen s <= x -> rdb m' x = rdb m x.
Proof.
  intros Hb Hs Hl Hf. unfold reverse_str. rewrite (strlen_ok m a s) by done. cbn [mbind option_bind].
  pose proof (zlen_nonneg s) as Hn.
  destruct (reverse_loop_spec (zlen s) a fuel 0 m (rdb m)) as (m' & Hr & Hx).
  - unfold zlen. lia.
  - done.
  - lia.
  - exact Hb.
  - intros x. destruct (Z.leb_spec a x), (Z.ltb_spec x (a + zlen s)), (Z.ltb_spec (x - a) 0),
      (Z.leb_spec (zlen s - 0) (x - a)); try lia; done.
  - rewrite Z.sub_0_r in Hr. exists m'. split; [done |]. apply cstr_bytes in Hs as [Hs He].
    assert (zlen (rev s) = zlen s) as Elr by (unfold zlen; by rewrite length_rev).
    split.
    + apply cstr_bytes. rewrite Elr. split.
      * intros i Hi. rewrite zget_rev, Hx by done.
        destruct (Hs (zlen s - 1 - i) ltac:(lia)) as [H1 H2].
        destruct (Z.leb_spec a (a + i)), (Z.ltb_spec (a + i) (a + zlen s)); try lia. cbn [andb].
        rewrite <- H1. split; [f_equal; lia | by rewrite H1].
      * rewrite Hx. destruct (Z.ltb_spec (a + zlen s) (a + zlen s)); [lia |].
        by rewrite andb_false_r.
    + intros x Hx'. rewrite Hx.
      destruct (Z.leb_spec a x), (Z.ltb_spec x (a + zlen s)); try lia; done.
Qed.

Lemma hex_digit_char d : 0 <= d < 16 -> 48 <= hex_digit d < 103 /\ (d < 10 -> hex_digit d = 48 + d).
Proof. intros Hd. unfold hex_digit. destruct (Z.ltb_spec d 10); lia. Qed.

Lemma put_digits_spec base buf fuel : forall i val m,
  2 <= base <= 16 -> 0 <= val < base ^ Z.of_nat fuel ->
  let ds := rdigits (S fuel) base val in
  exists m', put_digits (S fuel) base i val buf m = Some (i + zlen ds, m') /\
    forall x, rdb m' x = if (buf + i <=? x) && (x <? buf + i + zlen ds)
                         then hex_digit (ds.[x - buf - i]) else rdb m x.
Proof.
  induction fuel as [| fuel IH]; intros i val m Hb Hv ds.
  - change (base ^ Z.of_nat 0) with 1 in Hv. assert (val = 0) as -> by lia.
    exists m. change (zlen ds) with 0. split; [cbn; by rewrite Z.add_0_r |]. intros x.
    destruct (Z.leb_spec (buf + i) x), (Z.ltb_spec x (buf + i + 0)); try lia; done.
  - change (put_digits (S (S fuel)) base i val buf m) with
      (if istrue val then put_digits (S fuel) base (i + 1) (val / base) buf
         (wrb (buf + i) (hex_digit (val mod base)) m) else Some (i, m)).
    destruct (Z.eqb_spec val 0) as [-> | Hnz].
    { exists m. change (zlen ds) with 0. split; [by rewrite Z.add_0_r |]. intros x.
      destruct (Z.leb_spec (buf + i) x), (Z.ltb_spec x (buf + i + 0)); try lia; done. }
    rewrite istrue_neq by done. rewrite Nat2Z.inj_succ, Z.pow_succ_r in Hv by lia.
    assert (0 <= val / base < base ^ Z.of_nat fuel) as Hq.
    { split; [apply Z.div_pos; lia | apply Z.div_lt_upper_bound; lia]. }
    destruct (IH (i + 1) (val / base) (wrb (buf + i) (hex_digit (val mod base)) m) Hb Hq)
      as (m' & Hm & Hx).
    assert (ds = val mod base :: rdigits (S fuel) base (val / base)) as Eds.
    { unfold ds. change (rdigits (S (S fuel)) base val) with
        (if val =? 0 then [] else val mod base :: rdigits (S fuel) base (val / base)).
      by destruct (Z.eqb_spec val 0). }
    exists m'. rewrite Eds, zlen_cons. split; [rewrite Hm; do 2 f_equal; lia |].
    set (es := rdigits (S fuel) base (val / base)) in *. pose proof (zlen_nonneg es).
    intros x. rewrite Hx, rdb_wrb.
    pose proof (hex_digit_char (val mod base) ltac:(pose proof (Z.mod_pos_bound val base); lia)).
    rewrite (Z.mod_small (hex_digit _)) by lia.
    destruct (Z.eqb_spec (buf + i) x) as [E |], (Z.leb_spec (buf + i) x), (Z.leb_spec (buf + (i + 1)) x),
      (Z.ltb_spec x (buf + (i + 1) + zlen es)), (Z.ltb_spec x (buf + i + (zlen es + 1)));
      try lia; cbn [andb]; try done.
    + replace (x - buf - i) with 0 by lia. done.
    + assert ((val mod base :: es).[x - buf - i] = es.[x - buf - (i + 1)]) as ->; [| done].
      unfold zget, zlook. destruct (Z.ltb_spec (x - buf - i) 0), (Z.ltb_spec (x - buf - (i + 1)) 0); try lia.
      by replace (Z.to_nat (x - buf - i)) with (S (Z.to_nat (x - buf - (i + 1)))) by lia.
Qed.

(** [m'] is [m] with the bytes [w] written at [buf]. *)
Definition written (m m' : mem) (buf : Z) (w : list Z) : Prop :=
  forall x, rdb m' x = if (buf <=? x) && (x <? buf + zlen w) then w.[x - buf] else rdb m x.

Lemma written_snoc m m' buf w v i :
  written m m' buf w -> 0 <= v < 256 -> i = zlen w -> written m (wrb (buf + i) v m') buf (w ++ [v]).
Proof.
  intros H Hv -> x. pose proof (zlen_nonneg w). rewrite rdb_wrb, H, zlen_app.
  change (zlen [v]) with 1. rewrite Z.mod_small by lia.
  destruct (Z.eqb_spec (buf + zlen w) x), (Z.leb_spec buf x), (Z.ltb_spec x (buf + zlen w)),
    (Z.ltb_spec x (buf + (zlen w + 1))); try lia; cbn [andb]; try done; unfold zget.
  - rewrite zlook_app_r by lia. by replace (x - buf - zlen w) with 0 by lia.
  - by rewrite zlook_app_l by lia.
Qed.

Lemma written_cstr m m' buf w :
  written m m' buf (w ++ [0]) -> Forall (fun c => 0 < c < 256) w -> cstr m' buf w.
Proof.
  intros H Hf. pose proof (zlen_nonneg w). apply cstr_bytes. unfold written in H.
  rewrite zlen_app in H. change (zlen [0]) with 1 in H. split.
  - intros i Hi. rewrite H.
    destruct (Z.leb_spec buf (buf + i)), (Z.ltb_spec (buf + i) (buf + (zlen w + 1))); try lia.
    cbn [andb]. replace (buf + i - buf) with i by lia.
    unfold zget. rewrite zlook_app_l by lia. split; [done |].
    destruct (zlook_in_range w i Hi) as [c Hc]. rewrite Hc. exact (zlook_Forall _ _ _ _ Hf Hc).
  - rewrite H.
    destruct (Z.leb_spec buf (buf + zlen w)), (Z.ltb_spec (buf + zlen w) (buf + (zlen w + 1))); try lia.
    cbn [andb]. replace (buf + zlen w - buf) with (zlen w) by lia.
    unfold zget. rewrite zlook_app_r, Z.sub_diag by lia. done.
Qed.

Lemma numeral_length b n : zlen (numeral b n) <= 64.
Proof.
  unfold numeral. destruct (n =? 0); [done |]. unfold zlen.
  rewrite length_map, length_rev.
  assert (forall f n, length (rdigits f b n) <= f)%nat as H.
  { induction f as [| f IH]; intros k; cbn [rdigits]; [done |].
    destruct (k =? 0); simpl; [lia |]. specialize (IH (k / b)). lia. }
  specialize (H 64%nat n). lia.
Qed.

Lemma numeral_chars b n : 2 <= b <= 16 -> Forall (fun c => 48 <= c < 103) (numeral b n).
Proof.
  intros Hb. unfold numeral. destruct (n =? 0).
  - constructor; [lia | constructor].
  - apply Forall_map, Forall_rev. eapply Forall_impl; [apply rdigits_range; lia |].
    intros d Hd. cbn in Hd. exact (proj1 (hex_digit_char d ltac:(lia))).
Qed.

Lemma put_number_spec fuel base val buf m :
  2 <= base <= 16 -> 0 <= val < 18446744073709551616 -> (65 <= fuel)%nat ->
  exists m', put_number fuel base val buf m = Some (zlen (numeral base val), m') /\
    written m m' buf (rev (numeral base val)).
Proof.
  intros Hb Hv Hf. unfold put_number, numeral. destruct (Z.eqb_spec val 0) as [-> | Hnz].
  - eexists. split; [done |]. intros x. cbn [rev app]. change (zlen [48]) with 1.
    rewrite rdb_wrb. replace (buf + 0) with buf by lia.
    destruct (Z.eqb_spec buf x), (Z.leb_spec buf x), (Z.ltb_spec x (buf + 1)); try lia; try done.
    by replace (x - buf) with 0 by lia.
  - destruct fuel as [| f]; [lia |].
    assert (val < base ^ Z.of_nat 64) as H64.
    { apply Z.lt_le_trans with (2 ^ Z.of_nat 64); [change (2 ^ Z.of_nat 64) with 18446744073709551616; lia |]. apply Z.pow_le_mono_l. lia. }
    assert (val < base ^ Z.of_nat f) as Hvf.
    { apply Z.lt_le_trans with (base ^ Z.of_nat 64); [done |]. apply Z.pow_le_mono_r; lia. }
    destruct (put_digits_spec base buf f 0 val m Hb ltac:(lia)) as (m' & Hm & Hx).
    rewrite (rdigits_fuel base 64 (S f)) in Hm, Hx by lia.
    set (ds := rdigits 64 base val) in *.
    assert (zlen (map hex_digit (rev ds)) = zlen ds) as El.
    { unfold zlen. by rewrite length_map, length_rev. }
    exists m'. rewrite Hm, El. split; [done |]. intros x.
    rewrite <- map_rev, rev_involutive, Hx.
    assert (zlen (map hex_digit ds) = zlen ds) as -> by (unfold zlen; by rewrite length_map).
    replace (buf + 0) with buf by lia. replace (x - buf - 0) with (x - buf) by lia.
    destruct (Z.leb_spec buf x), (Z.ltb_spec x (buf + zlen ds)); try done. cbn [andb].
    unfold zget, zlook, zlen in *. destruct (Z.ltb_spec (x - buf) 0); [lia |].
    rewrite list_lookup_fmap. destruct (ds !! Z.to_nat (x - buf)) eqn:E; [done |].
    apply lookup_ge_None in E. lia.
Qed.

(** The end of every conversion: terminate and reverse what was written. *)
Lemma finish_number fuel m m' buf w s i :
  (forall x, is_byte (rdb m x)) -> written m m' buf w -> i = zlen w -> s = rev w ->
  Forall (fun c => 0 < c < 256) w -> (length w < fuel)%nat -> zlen w < 100 ->
  exists m2, reverse_str fuel buf (wrb (buf + i) 0 m') = Some m2 /\ cstr m2 buf s /\
    forall x, x < buf \/ buf + zlen s + 1 <= x -> rdb m2 x = rdb m x.
Proof.
  intros Hb Hw -> -> Hc Hf Hl.
  pose proof (written_snoc _ _ _ _ 0 (zlen w) Hw ltac:(lia) eq_refl) as Hw0.
  assert (forall x, is_byte (rdb (wrb (buf + zlen w) 0 m') x)) as Hb'.
  { intros x. rewrite Hw0. destruct (_ && _); [| apply Hb]. apply zget_byte, Forall_app. split.
    - eapply Forall_impl; [exact Hc |]. intros c. unfold is_byte. cbn. lia.
    - by constructor. }
  destruct (reverse_str_ok _ buf w fuel Hb' (written_cstr _ _ _ _ Hw0 Hc) ltac:(lia) Hf)
    as (m2 & Hr & Hs & Hx).
  exists m2. split; [done |]. split; [done |]. intros x Hx'.
  assert (zlen (rev w) = zlen w) as El by (unfold zlen; by rewrite length_rev).
  pose proof (zlen_nonneg w). rewrite Hx, Hw0, zlen_app by lia. change (zlen [0]) with 1.
  destruct (Z.leb_spec buf x), (Z.ltb_spec x (buf + (zlen w + 1))); try lia; done.
Qed.

Lemma itoa_correct (fuel : nat) (val buf : Z) (m : mem) :
  (forall x, is_byte (rdb m x)) -> -2147483648 <= val < 2147483648 -> (70 <= fuel)%nat ->
  exists m', itoa fuel val buf m = Some m' /\ cstr m' buf (signed_numeral val) /\
    forall x, x < buf \/ buf + zlen (signed_numeral val) + 1 <= x -> rdb m' x = rdb m x.
Proof.
  intros Hb Hv Hf. unfold itoa, signed_numeral.
  assert ((if val <? 0 then u32 (u32 (- (val + 1)) + 1) else u32 val) = Z.abs val) as ->.
  { destruct (Z.ltb_spec val 0); rewrite !u32_id by (rewrite ?u32_id by lia; lia); lia. }
  destruct (put_number_spec fuel 10 (Z.abs val) buf m ltac:(lia) ltac:(lia) ltac:(lia)) as (m1 & -> & Hw).
  cbn [mbind option_bind].
  assert (zlen (rev (numeral 10 (Z.abs val))) = zlen (numeral 10 (Z.abs val))) as El
    by (unfold zlen; by rewrite length_rev).
  pose proof (numeral_length 10 (Z.abs val)) as Hlen.
  pose proof (Forall_rev (numeral_chars 10 (Z.abs val) ltac:(lia))) as Hch.
  destruct (Z.ltb_spec val 0) as [Hneg | Hpos].
  - replace (- val) with (Z.abs val) by lia. set (num := numeral 10 (Z.abs val)) in *.
    apply (finish_number fuel m _ buf (rev num ++ [45])).
    + done.
    + by apply written_snoc.
    + rewrite zlen_app, El. done.
    + by rewrite rev_app_distr, rev_involutive.
    + apply Forall_app. split; [| by constructor].
      eapply Forall_impl; [exact Hch |]. intros c. cbn. lia.
    + rewrite length_app, length_rev. simpl. unfold zlen in Hlen. lia.
    + rewrite zlen_app, El. change (zlen [45]) with 1. lia.
  - replace (Z.abs val) with val in * by lia.
    apply (finish_number fuel m _ buf (rev (numeral 10 val))); try done.
    + by rewrite rev_involutive.
    + eapply Forall_impl; [exact Hch |]. intros c. cbn. lia.
    + rewrite length_rev. unfold zlen in Hlen. lia.
    + lia.
Qed.

(** The numeral of [n] is made of digits whose value is [n]. *)
Lemma numeral_digits n : 0 <= n < 10 ^ 64 ->
  exists ds, numeral 10 n = map hex_digit ds /\ Forall (fun d => 0 <= d < 10) ds /\ value 10 ds = n /\ ds <> [].
Proof.
  intros Hn. unfold numeral. destruct (Z.eqb_spec n 0) as [-> | Hnz].
  - exists [0]. split_and!; try done. by repeat constructor.
  - pose proof (rdigits_value 10 64 n ltac:(lia) Hn) as Hv. exists (rev (rdigits 64 10 n)). split; [done |].
    split; [apply Forall_rev, rdigits_range; lia |]. split; [done |]. intros E. rewrite E in Hv. cbn in Hv. lia.
Qed.

Lemma cstr_app m a s1 s2 : cstr m a (s1 ++ s2) -> cstr m (a + zlen s1) s2.
Proof.
  revert a. induction s1 as [| c s1 IH]; intros a; cbn [app cstr].
  - change (zlen (@nil Z)) with 0. by rewrite Z.add_0_r.
  - intros (_ & _ & H). rewrite zlen_cons. replace (a + (zlen s1 + 1)) with (a + 1 + zlen s1) by lia.
    by apply IH.
Qed.

(** atoi reads the value of a sequence of decimal digits that does not overflow. *)
Lemma atoi_digits_value m ds : forall fuel v s,
  Forall (fun d => 0 <= d < 10) ds -> cstr m s (map hex_digit ds) -> (length ds < fuel)%nat ->
  0 <= v -> fold_left (fun v d => v * 10 + d) ds v < 2147483648 ->
  atoi_digits fuel v s m = Some (fold_left (fun v d => v * 10 + d) ds v).
Proof.
  induction ds as [| d ds IH]; intros fuel v s Hd Hs Hf Hv Hlim;
    (destruct fuel as [| fuel]; [simpl in Hf; lia |]); cbn [atoi_digits map cstr fold_left] in *.
  - by rewrite Hs.
  - destruct Hs as (_ & -> & Hs). inversion Hd as [| ? ? H1 H2]. subst.
    destruct (hex_digit_char d ltac:(lia)) as [_ ->]; [| lia].
    assert (forall l w, Forall (fun d => 0 <= d < 10) l -> 0 <= w ->
              w <= fold_left (fun v d => v * 10 + d) l w) as Hmono.
    { induction l as [| e l IHl]; intros w Hl Hw; simpl; [lia |]. inversion Hl. subst.
      transitivity (w * 10 + e); [lia | apply IHl; [done | lia]]. }
    pose proof (Hmono ds (v * 10 + d) H2 ltac:(lia)) as Hm.
    destruct (Z.leb_spec 48 (48 + d)), (Z.leb_spec (48 + d) 57); try lia. cbn [andb].
    replace (48 + d - 48) with d by lia. rewrite s32_id by lia.
    apply IH; try done; [simpl in Hf; lia | lia].
Qed.

Lemma atoi_numeral m s n fuel :
  cstr m s (numeral 10 n) -> 0 <= n < 2147483648 -> (70 <= fuel)%nat ->
  atoi_digits fuel 0 s m = Some n.
Proof.
  intros Hs Hn Hf. unfold numeral in Hs. destruct (Z.eqb_spec n 0) as [-> | Hnz].
  - apply (atoi_digits_value m [0]); [by repeat constructor | done | simpl; lia | lia | done].
  - pose proof (rdigits_value 10 64 n ltac:(lia)) as Hv. unfold value in Hv.
    assert (0 <= n < 10 ^ Z.of_nat 64) as Hb by (split; [lia |]; transitivity 2147483648; done || lia).
    rewrite <- (Hv Hb). apply atoi_digits_value; try done.
    + apply Forall_rev. apply rdigits_range. lia.
    + pose proof (numeral_length 10 n) as Hl. unfold numeral in Hl.
      destruct (Z.eqb_spec n 0); [lia |]. unfold zlen in Hl. rewrite length_map in Hl. lia.
    + rewrite Hv by done. lia.
Qed.

(** Also: itoa writes the decimal numeral of any [int], minus sign included, as a
    terminated string, changes no byte outside it, and atoi reads the same value back
    (for INT_MIN the result of atoi overflows in the C code). *)
Theorem itoa_atoi (fuel : nat) (val buf : Z) (m : mem) (Hb : forall x, is_byte (rdb m x))
    (Hv : -2147483648 <= val < 2147483648) (Hf : (70 <= fuel)%nat) :
  exists m', itoa fuel val buf m = Some m' /\ cstr m' buf (signed_numeral val) /\
    (forall x, x < buf \/ buf + zlen (signed_numeral val) + 1 <= x -> rdb m' x = rdb m x) /\
    (val <> -2147483648 -> atoi fuel buf m' = Some val).
Proof.
  destruct (itoa_correct fuel val buf m Hb Hv Hf) as (m' & H1 & H2 & H3).
  exists m'. split_and!; try done. intros Hmin. unfold atoi.
  destruct fuel as [| f]; [lia |].
  unfold signed_numeral in H2. destruct (Z.ltb_spec val 0) as [Hneg | Hpos].
  - destruct H2 as (_ & E & Hs). cbn [skip_spaces]. rewrite E. cbn [mbind option_bind Z.eqb Pos.eqb].
    rewrite E. cbn [Z.eqb Pos.eqb]. rewrite (atoi_numeral m' _ (- val)) by (done || lia).
    cbn [mbind option_bind]. rewrite Z.opp_involutive, s32_id by lia. done.
  - assert (exists c, rdb m' buf = c /\ 48 <= c < 103) as (c & E & Hc).
    { pose proof (numeral_chars 10 val ltac:(lia)) as Hch.
      destruct (numeral 10 val) as [| c l] eqn:En.
      - exfalso. revert En. unfold numeral. destruct (Z.eqb_spec val 0); [done |].
        cbn [rdigits]. destruct (Z.eqb_spec val 0); [done |]. cbn [rev]. rewrite map_app.
        intros [_ H]%app_eq_nil. done.
      - inversion Hch. subst. destruct H2 as (_ & E & _). eauto. }
    cbn [skip_spaces]. rewrite E. destruct (Z.eqb_spec c 32); [lia |]. cbn [mbind option_bind].
    rewrite E. destruct (Z.eqb_spec c 45), (Z.eqb_spec c 43); try lia.
    rewrite (atoi_numeral m' _ val) by (done || lia). done.
Qed.

(** Also: itox writes the hexadecimal numeral of any 32-bit value as a terminated string
    whose digits have that value, and changes no byte outside it. *)
Theorem itox_spec (fuel : nat) (val buf : Z) (m : mem) (Hb : forall x, is_byte (rdb m x))
    (Hv : 0 <= val < 4294967296) (Hf : (70 <= fuel)%nat) :
  exists m', itox fuel val buf m = Some m' /\ cstr m' buf (numeral 16 val) /\
    value 16 (rev (rdigits 64 16 val)) = val /\
    (forall x, x < buf \/ buf + zlen (numeral 16 val) + 1 <= x -> rdb m' x = rdb m x).
Proof.
  unfold itox.
  destruct (put_number_spec fuel 16 val buf m ltac:(lia) ltac:(lia) ltac:(lia)) as (m1 & -> & Hw).
  cbn [mbind option_bind fst snd]. pose proof (numeral_length 16 val) as Hlen.
  pose proof (Forall_rev (numeral_chars 16 val ltac:(lia))) as Hch.
  assert (zlen (rev (numeral 16 val)) = zlen (numeral 16 val)) as El
    by (unfold zlen; by rewrite length_rev).
  destruct (finish_number fuel m m1 buf (rev (numeral 16 val)) (numeral 16 val) (zlen (numeral 16 val)))
    as (m2 & H1 & H2 & H3); try done.
  - by rewrite rev_involutive.
  - eapply Forall_impl; [exact Hch |]. intros c. cbn. lia.
  - rewrite length_rev. unfold zlen in Hlen. lia.
  - lia.
  - exists m2. split_and!; try done. apply rdigits_value; [lia |].
    split; [lia |]. transitivity 4294967296; [lia | done].
Qed.

(** Also: the user strncmp stops with 0 as soon as either string ends, so it does not tell a
    string from a longer one that starts with it, for any length. *)
Theorem strncmp_prefix (fuel : nat) (m : mem) (a b n : Z) (s t : list Z)
    (Hs : cstr m a s) (Ht : cstr m b (s ++ t)) (Hf : (length s < fuel)%nat) :
  strncmp fuel a b n m = Some 0.
Proof.
  unfold strncmp.
  assert (forall s fuel i, cstr m (a + i) s -> cstr m (b + i) (s ++ t) -> (length s < fuel)%nat ->
            strncmp_loop fuel i a b n m = Some 0) as H.
  2: { apply (H s); rewrite ?Z.add_0_r; done. }
  clear s fuel Hs Ht Hf. induction s as [| c s IH]; intros fuel i Hs Ht Hf;
    (destruct fuel as [| fuel]; [simpl in Hf; lia |]); cbn [strncmp_loop].
  - cbn [cstr] in Hs. rewrite Hs. change (istrue 0) with false. by rewrite andb_false_r.
  - cbn [app cstr] in *. destruct Hs as (Hc & -> & Hs), Ht as (_ & -> & Ht).
    destruct (_ && _); [| done]. rewrite Z.eqb_refl. cbn [negb].
    apply IH; rewrite ?Z.add_assoc; try done. simpl in Hf. lia.
Qed.

(** ** Witnesses *)

Lemma empty_bytes x : is_byte (rdb ∅ x).
Proof. apply rdb_byte, map_Forall_empty. Qed.

Lemma itoa_atoi_witness :
  exists m', itoa 70 (-507) 100 ∅ = Some m' /\ cstr m' 100 [45; 53; 48; 55] /\
    atoi 70 100 m' = Some (-507).
Proof.
  destruct (itoa_atoi 70 (-507) 100 ∅ empty_bytes ltac:(lia) ltac:(lia)) as (m' & H1 & H2 & _ & H3).
  exists m'. exact (conj H1 (conj H2 (H3 ltac:(lia)))).
Defined.

Lemma itox_spec_witness :
  exists m', itox 70 0xBEEF 100 ∅ = Some m' /\ cstr m' 100 [98; 101; 101; 102].
Proof.
  destruct (itox_spec 70 0xBEEF 100 ∅ empty_bytes ltac:(lia) ltac:(lia)) as (m' & H1 & H2 & _).
  exists m'. exact (conj H1 H2).
Defined.

Lemma strncmp_prefix_witness :
  strncmp 5 100 200 3 (st_bytes 100 [97; 98; 0] (st_bytes 200 [97; 98; 99; 0] ∅)) = Some 0.
Proof.
  apply (strncmp_prefix 5 _ 100 200 3 [97; 98] [99]);
    [vm_compute; repeat split | vm_compute; repeat split | simpl; lia].
Defined.

Example printf_ex :
  printf 100 900 100 [-12; 0x2F; 65; 7] (st_bytes 100 [37; 100; 32; 37; 120; 37; 99; 37; 113; 37; 37; 0] ∅)
  = Some [45; 49; 50; 32; 50; 102; 65; 37; 113; 37].
Proof. vm_compute. reflexivity. Qed.
