(* ===== verification/Pmm.v ===== *)
(** * Physical memory manager (src/mm/pmm.c)

    The state of pmm.c: the frame bitmap and the two counters. Every access of
    [g_bitmap] is an [option]: [None] is an access outside the array. The
    bitmap is a list of bytes; [used] is its meaning, the set of frames in use. *)

From S2P Require Import Prelude.

Definition PAGE_SIZE : Z := 4096.
Definition MAX_FRAMES : Z := 1024 * 1024.
Definition RESERVE_LOW : Z := 2 * 1024 * 1024.

Record e820_entry := E820 { e_base : Z; e_len : Z; e_type : Z; e_acpi : Z }.

Record pmm := mkPmm {
  g_bitmap : list Z;
  g_total_frames : Z;
  g_used_frames : Z }.

(** ** The bitmap *)

Definition bm_set (b : list Z) (f : Z) : option (list Z) :=
  w ← zlook b (Z.shiftr f 3);
  Some (b.[Z.shiftr f 3 <- Z.lor w (u8 (Z.shiftl 1 (Z.land f 7)))]).

Definition bm_clear (b : list Z) (f : Z) : option (list Z) :=
  w ← zlook b (Z.shiftr f 3);
  Some (b.[Z.shiftr f 3 <- Z.land w (u8 (Z.lnot (Z.shiftl 1 (Z.land f 7))))]).

Definition bm_test (b : list Z) (f : Z) : option bool :=
  w ← zlook b (Z.shiftr f 3);
  Some (istrue (Z.land w (Z.shiftl 1 (Z.land f 7)))).

(** The frames the bitmap has a bit for. *)
Definition frames (b : list Z) : Z := 8 * zlen b.

(** ** Initialisation from the E820 table *)

(** One usable range: [for (f = start; f < stop && f < MAX_FRAMES; f++)]. *)
Definition free_range (start stop : Z) (b : list Z) : option (list Z) :=
  loopM (Z.to_nat (Z.min stop MAX_FRAMES - start)) start (fun f b => bm_clear b f) b.

Definition e820_start (e : e820_entry) : Z := u64 (e_base e + PAGE_SIZE - 1) / PAGE_SIZE.
Definition e820_stop (e : e820_entry) : Z := u64 (e_base e + e_len e) / PAGE_SIZE.

Fixpoint scan_e820 (es : list e820_entry) (b : list Z) (total : Z) : option (list Z * Z) :=
  match es with
  | [] => Some (b, total)
  | e :: es' =>
      if negb (e_type e =? 1) then scan_e820 es' b total
      else
        b' ← free_range (e820_start e) (e820_stop e) b;
        scan_e820 es' b' (if total <? e820_stop e then e820_stop e else total)
  end.

Definition count_used (total : Z) (b : list Z) : option Z :=
  loopM (Z.to_nat total) 0
    (fun f n => t ← bm_test b f; Some (if (t : bool) then n + 1 else n)) 0.

(** The argument is the table the boot loader left at 0x4000: its [count]
    entries in order. *)
Definition pmm_init (e820 : list e820_entry) : option pmm :=
  let b0 := replicate (Z.to_nat (MAX_FRAMES / 8)) 255 in
  r ← scan_e820 e820 b0 0;
  let total := if MAX_FRAMES <? snd r then MAX_FRAMES else snd r in
  b ← loopM (Z.to_nat (RESERVE_LOW / PAGE_SIZE)) 0 (fun f b => bm_set b f) (fst r);
  used ← count_used total b;
  Some (mkPmm b total used).

(** ** Allocation and release. A frame is returned as its address, NULL is 0. *)

Fixpoint find_free (n : nat) (f : Z) (b : list Z) : option (option Z) :=
  match n with
  | O => Some None
  | S n' => t ← bm_test b f; if (t : bool) then find_free n' (f + 1) b else Some (Some f)
  end.

Definition pmm_alloc (s : pmm) : option (Z * pmm) :=
  r ← find_free (Z.to_nat (g_total_frames s)) 0 (g_bitmap s);
  match r with
  | Some f =>
      b ← bm_set (g_bitmap s) f;
      Some (u64 (f * PAGE_SIZE), mkPmm b (g_total_frames s) (u64 (g_used_frames s + 1)))
  | None => Some (0, s)
  end.

(** The inner loop of pmm_alloc_contiguous: are the [n] frames from [f] free? *)
Fixpoint run_free (n : nat) (f : Z) (b : list Z) : option bool :=
  match n with
  | O => Some true
  | S n' => t ← bm_test b f; if (t : bool) then Some false else run_free n' (f + 1) b
  end.

Fixpoint find_run (n : nat) (f : Z) (count : nat) (b : list Z) : option (option Z) :=
  match n with
  | O => Some None
  | S n' =>
      ok ← run_free count f b;
      if (ok : bool) then Some (Some f) else find_run n' (f + 1) count b
  end.

(** The loop bounds [g_total_frames - count] and [count] are 64-bit values; no
    run of either loop makes more than [frames b + 1] iterations, since the test
    of the first frame past the bitmap is an out-of-bounds access. *)
Definition pmm_fuel (b : list Z) (n : Z) : nat := Z.to_nat (Z.min n (frames b + 1)).

Definition pmm_alloc_contiguous (count : Z) (s : pmm) : option (Z * pmm) :=
  if count =? 0 then Some (0, s)
  else if count =? 1 then pmm_alloc s
  else
    let b := g_bitmap s in
    r ← find_run (pmm_fuel b (u64 (g_total_frames s - count))) 0 (pmm_fuel b count) b;
    match r with
    | Some f =>
        b' ← loopM (Z.to_nat count) 0 (fun i b => bm_set b (f + i)) b;
        Some (u64 (f * PAGE_SIZE),
              mkPmm b' (g_total_frames s) (u64 (g_used_frames s + count)))
    | None => Some (0, s)
    end.

Definition pmm_free (frame : Z) (s : pmm) : option pmm :=
  let f := frame / PAGE_SIZE in
  if f <? g_total_frames s then
    t ← bm_test (g_bitmap s) f;
    if (t : bool) then
      b ← bm_clear (g_bitmap s) f;
      Some (mkPmm b (g_total_frames s) (u64 (g_used_frames s - 1)))
    else Some s
  else Some s.

Definition pmm_total_bytes (s : pmm) : Z := u64 (g_total_frames s * PAGE_SIZE).
Definition pmm_free_bytes (s : pmm) : Z :=
  u64 ((g_total_frames s - g_used_frames s) * PAGE_SIZE).

(** ** Meaning of the bitmap and the invariant *)

Definition used (b : list Z) (f : Z) : bool := Z.testbit (b.[f / 8]) (f mod 8).

(** The number of used frames among [0, n). *)
Fixpoint nused (b : list Z) (n : nat) : Z :=
  match n with
  | O => 0
  | S n' => nused b n' + if used b (Z.of_nat n') then 1 else 0
  end.

Record wf (s : pmm) : Prop := {
  wf_bytes : bytes (g_bitmap s);
  wf_total : 0 <= g_total_frames s <= frames (g_bitmap s) /\ frames (g_bitmap s) <= MAX_FRAMES;
  wf_used : g_used_frames s = nused (g_bitmap s) (Z.to_nat (g_total_frames s)) }.

(** ** Lemmas on one bit *)

Lemma shift3 f : Z.shiftr f 3 = f / 8.
Proof. by rewrite Z.shiftr_div_pow2. Qed.

Lemma and7 f : Z.land f 7 = f mod 8.
Proof. change 7 with (Z.ones 3). by rewrite Z.land_ones. Qed.

Lemma frame_byte b f : 0 <= f < frames b <-> 0 <= f / 8 < zlen b.
Proof. unfold frames. lia. Qed.

Lemma bm_test_used b f : 0 <= f < frames b -> bm_test b f = Some (used b f).
Proof.
  intros Hf. unfold bm_test, used. rewrite shift3, and7.
  rewrite zlook_get by (by apply frame_byte). simpl.
  rewrite land_bit by lia. done.
Qed.

Lemma bm_test_out b f : ~ (0 <= f < frames b) -> bm_test b f = None.
Proof.
  intros Hf. unfold bm_test. rewrite shift3, zlook_out_range; [done |].
  by rewrite <- frame_byte.
Qed.

Lemma frame_eq f g : f = g <-> f / 8 = g / 8 /\ f mod 8 = g mod 8.
Proof. lia. Qed.

Lemma used_update b f g w' (v : bool) :
  0 <= f < frames b ->
  (forall k, 0 <= k < 8 -> Z.testbit w' k = if k =? f mod 8 then v else Z.testbit (b.[f / 8]) k) ->
  used (b.[f / 8 <- w']) g = if g =? f then v else used b g.
Proof.
  intros Hf%frame_byte Hw. unfold used.
  rewrite zget_zset by done.
  destruct (Z.eqb_spec (f / 8) (g / 8)) as [He | Hne].
  - rewrite Hw by lia. rewrite He.
    destruct (Z.eqb_spec (g mod 8) (f mod 8)), (Z.eqb_spec g f); try done; lia.
  - destruct (Z.eqb_spec g f); [subst; lia | done].
Qed.

Lemma bm_set_spec b f :
  0 <= f < frames b -> bytes b ->
  exists b', bm_set b f = Some b' /\ bytes b' /\ zlen b' = zlen b /\
    forall g, used b' g = if g =? f then true else used b g.
Proof.
  intros Hf Hb. pose proof (proj1 (frame_byte b f) Hf) as Hi.
  unfold bm_set. rewrite shift3, and7, zlook_get by done. simpl.
  eexists. split; [done |]. split; [| split; [apply zset_zlen |]].
  - apply zset_Forall; [done |]. apply (lor_bounds _ _ 8); [lia | |].
    + by apply zget_byte.
    + apply u8_range.
  - intros g. apply used_update; [done |]. intros k Hk.
    rewrite Z.lor_spec, testbit_u8, testbit_shiftl_1 by lia.
    destruct (k =? f mod 8); [apply orb_true_r | apply orb_false_r].
Qed.

Lemma bm_clear_spec b f :
  0 <= f < frames b -> bytes b ->
  exists b', bm_clear b f = Some b' /\ bytes b' /\ zlen b' = zlen b /\
    forall g, used b' g = if g =? f then false else used b g.
Proof.
  intros Hf Hb. pose proof (proj1 (frame_byte b f) Hf) as Hi.
  unfold bm_clear. rewrite shift3, and7, zlook_get by done. simpl.
  eexists. split; [done |]. split; [| split; [apply zset_zlen |]].
  - apply zset_Forall; [done |]. pose proof (zget_byte _ (f / 8) Hb) as Hw.
    by apply (land_bounds _ _ 8).
  - intros g. apply used_update; [done |]. intros k Hk.
    rewrite Z.land_spec, testbit_u8, Z.lnot_spec, testbit_shiftl_1 by lia.
    destruct (k =? f mod 8); [apply andb_false_r | apply andb_true_r].
Qed.

(** ** Lemmas on the counter *)

Lemma nused_bounds b n : 0 <= nused b n <= Z.of_nat n.
Proof. induction n; simpl; [lia |]. destruct (used b (Z.of_nat n)); lia. Qed.

Lemma nused_ext b b' n :
  (forall g, 0 <= g < Z.of_nat n -> used b' g = used b g) -> nused b' n = nused b n.
Proof.
  induction n as [| n IH]; intros H; simpl; [done |].
  rewrite IH, (H (Z.of_nat n)); [done | lia | intros; apply H; lia].
Qed.

Lemma nused_update b b' f v n :
  0 <= f < Z.of_nat n ->
  (forall g, used b' g = if g =? f then v else used b g) ->
  nused b' n = nused b n + (if v then 1 else 0) - (if used b f then 1 else 0).
Proof.
  intros Hf H. induction n as [| n IH]; [lia |]. simpl. rewrite (H (Z.of_nat n)).
  destruct (Z.eqb_spec (Z.of_nat n) f) as [He | Hne].
  - rewrite (nused_ext b b' n).
    + rewrite He. lia.
    + intros g Hg. rewrite H. destruct (Z.eqb_spec g f); [lia | done].
  - rewrite IH by lia. lia.
Qed.

Lemma wf_used_range s : wf s -> 0 <= g_used_frames s <= g_total_frames s.
Proof.
  intros [_ Ht Hu]. rewrite Hu.
  pose proof (nused_bounds (g_bitmap s) (Z.to_nat (g_total_frames s))). lia.
Qed.

(** ** Lemmas on the scans *)

Lemma find_free_spec b n : forall f,
  0 <= f -> f + Z.of_nat n <= frames b ->
  match find_free n f b with
  | Some (Some g) =>
      f <= g < f + Z.of_nat n /\ used b g = false /\ forall h, f <= h < g -> used b h = true
  | Some None => forall h, f <= h < f + Z.of_nat n -> used b h = true
  | None => False
  end.
Proof.
  induction n as [| n IH]; intros f Hf Hn; simpl; [lia |].
  rewrite bm_test_used by lia. simpl. destruct (used b f) eqn:Eu.
  - specialize (IH (f + 1) ltac:(lia) ltac:(lia)).
    destruct (find_free n (f + 1) b) as [[g |] |]; [| | done].
    + destruct IH as (H1 & H2 & H3). split; [lia |]. split; [done |].
      intros h Hh. destruct (Z.eq_dec h f) as [-> |]; [done | apply H3; lia].
    + intros h Hh. destruct (Z.eq_dec h f) as [-> |]; [done | apply IH; lia].
  - split; [lia |]. split; [done |]. intros; lia.
Qed.

Lemma run_free_spec b n : forall f,
  0 <= f -> f + Z.of_nat n <= frames b ->
  exists ok, run_free n f b = Some ok /\
    (ok = true <-> forall h, f <= h < f + Z.of_nat n -> used b h = false).
Proof.
  induction n as [| n IH]; intros f Hf Hn; simpl.
  - exists true. split; [done |]. split; [intros _ h Hh; lia | done].
  - rewrite bm_test_used by lia. simpl. destruct (used b f) eqn:Eu.
    + exists false. split; [done |]. split; [done |].
      intros H. rewrite H in Eu by lia. done.
    + destruct (IH (f + 1) ltac:(lia) ltac:(lia)) as (ok & -> & Hok).
      exists ok. split; [done |]. rewrite Hok. split; intros H h Hh.
      * destruct (Z.eq_dec h f) as [-> |]; [done | apply H; lia].
      * apply H. lia.
Qed.

(** Is there a run of [count] free frames at [f]? *)
Definition free_run (b : list Z) (f count : Z) : Prop :=
  forall h, f <= h < f + count -> used b h = false.

Lemma find_run_spec b count n : forall f,
  0 <= f -> f + Z.of_nat n + Z.of_nat count <= frames b ->
  match find_run n f count b with
  | Some (Some g) =>
      f <= g < f + Z.of_nat n /\ free_run b g (Z.of_nat count) /\
      forall h, f <= h < g -> ~ free_run b h (Z.of_nat count)
  | Some None => forall h, f <= h < f + Z.of_nat n -> ~ free_run b h (Z.of_nat count)
  | None => False
  end.
Proof.
  induction n as [| n IH]; intros f Hf Hn; simpl; [lia |].
  destruct (run_free_spec b count f ltac:(lia) ltac:(lia)) as (ok & -> & Hok). simpl.
  destruct ok.
  - split; [lia |]. split; [exact (proj1 Hok eq_refl) |]. intros; lia.
  - assert (~ free_run b f (Z.of_nat count)) as Hno by (intros H; pose proof (proj2 Hok H); done).
    specialize (IH (f + 1) ltac:(lia) ltac:(lia)).
    destruct (find_run n (f + 1) count b) as [[g |] |]; [| | done].
    + destruct IH as (H1 & H2 & H3). split; [lia |]. split; [done |].
      intros h Hh. destruct (Z.eq_dec h f) as [-> |]; [done | apply H3; lia].
    + intros h Hh. destruct (Z.eq_dec h f) as [-> |]; [done | apply IH; lia].
Qed.

(** Reserving a free run sets exactly its frames and counts them. *)
Lemma set_run_spec b f count total :
  bytes b -> 0 <= f -> 0 <= count -> f + count <= total -> total <= frames b ->
  free_run b f count ->
  exists b', loopM (Z.to_nat count) 0 (fun i b => bm_set b (f + i)) b = Some b' /\
    bytes b' /\ zlen b' = zlen b /\
    nused b' (Z.to_nat total) = nused b (Z.to_nat total) + count /\
    forall g, used b' g = (f <=? g) && (g <? f + count) || used b g.
Proof.
  intros Hb Hf Hc Ht Hfr Hrun.
  destruct (loopM_inv (fun i b' =>
      bytes b' /\ zlen b' = zlen b /\
      nused b' (Z.to_nat total) = nused b (Z.to_nat total) + i /\
      forall g, used b' g = (f <=? g) && (g <? f + i) || used b g)
    (fun i b => bm_set b (f + i)) (Z.to_nat count) 0 b) as (b' & Hl & Hi).
  - split; [done |]. split; [done |]. split; [lia |]. intros g.
    destruct (Z.leb_spec f g), (Z.ltb_spec g (f + 0)); try done; lia.
  - intros i t Hi (Hbt & Hlt & Hnt & Hut).
    destruct (bm_set_spec t (f + i)) as (t' & Hs & Hbt' & Hlt' & Hut');
      [unfold frames in *; lia | done |].
    exists t'. split; [done |]. split; [done |]. split; [lia |]. split.
    + rewrite (nused_update t t' (f + i) true) by (done || lia).
      rewrite Hnt, Hut, Hrun by lia.
      destruct (Z.ltb_spec (f + i) (f + i)); [lia |]. rewrite andb_false_r. simpl. lia.
    + intros g. rewrite Hut', Hut.
      destruct (Z.eqb_spec g (f + i)), (Z.leb_spec f g), (Z.ltb_spec g (f + i)),
        (Z.ltb_spec g (f + (i + 1))); try done; lia.
  - exists b'. rewrite Z.add_0_l, Z2Nat.id in Hi by lia. done.
Qed.

Lemma fuel_total b n : 0 <= n <= frames b -> Z.of_nat (pmm_fuel b n) = n.
Proof. intros. unfold pmm_fuel. lia. Qed.

(** ** Properties *)

Lemma pmm_alloc_correct (s : pmm) (Hwf : wf s) :
  exists a s', pmm_alloc s = Some (a, s') /\ wf s' /\
    ((exists f, 0 <= f < g_total_frames s /\ used (g_bitmap s) f = false /\
        (forall g, 0 <= g < f -> used (g_bitmap s) g = true) /\
        a = f * PAGE_SIZE /\ g_total_frames s' = g_total_frames s /\
        g_used_frames s' = g_used_frames s + 1 /\
        forall g, used (g_bitmap s') g = if g =? f then true else used (g_bitmap s) g)
     \/ (a = 0 /\ s' = s /\
         forall f, 0 <= f < g_total_frames s -> used (g_bitmap s) f = true)).
Proof.
  pose proof (wf_used_range s Hwf) as Hur. pose proof Hwf as [Hb Ht Hu].
  unfold pmm_alloc, MAX_FRAMES in *.
  pose proof (find_free_spec (g_bitmap s) (Z.to_nat (g_total_frames s)) 0
    ltac:(lia) ltac:(lia)) as Hff.
  destruct (find_free _ _ _) as [[f |] |]; simpl; [| | done].
  - destruct Hff as (Hf & Huf & Hlow).
    destruct (bm_set_spec (g_bitmap s) f ltac:(lia) Hb) as (b' & Hs & Hb' & Hl & Hus).
    rewrite Hs. simpl.
    assert (nused b' (Z.to_nat (g_total_frames s)) = g_used_frames s + 1) as Hn.
    { rewrite (nused_update (g_bitmap s) b' f true) by (done || lia).
      rewrite Huf, <- Hu. lia. }
    pose proof (nused_bounds b' (Z.to_nat (g_total_frames s))).
    eexists _, _. split; [done |]. split.
    + split; simpl; [done | unfold frames, MAX_FRAMES in *; lia |].
      rewrite Hn. apply u64_id. lia.
    + left. exists f. simpl. rewrite !u64_id by (unfold PAGE_SIZE; lia).
      split_and!; try done; try lia; intros g Hg; apply Hlow; lia.
  - eexists _, _. split; [done |]. split; [done |]. right. split_and!; try done.
    intros f Hf. apply Hff. lia.
Qed.


Lemma pmm_alloc_contiguous_correct (s : pmm) (count : Z) (Hwf : wf s)
    (Hc : 2 <= count <= g_total_frames s) :
  exists a s', pmm_alloc_contiguous count s = Some (a, s') /\ wf s' /\
    ((exists f, 0 <= f < g_total_frames s - count /\ free_run (g_bitmap s) f count /\
        (forall g, 0 <= g < f -> ~ free_run (g_bitmap s) g count) /\
        a = f * PAGE_SIZE /\ g_total_frames s' = g_total_frames s /\
        g_used_frames s' = g_used_frames s + count /\
        forall g, used (g_bitmap s') g = (f <=? g) && (g <? f + count) || used (g_bitmap s) g)
     \/ (a = 0 /\ s' = s /\
         forall f, 0 <= f < g_total_frames s - count -> ~ free_run (g_bitmap s) f count)).
Proof.
  pose proof (wf_used_range s Hwf) as Hur. pose proof Hwf as [Hb Ht Hu].
  unfold pmm_alloc_contiguous, MAX_FRAMES in *.
  destruct (Z.eqb_spec count 0); [lia |]. destruct (Z.eqb_spec count 1); [lia |].
  rewrite (u64_id (_ - _)) by lia.
  pose proof (find_run_spec (g_bitmap s) (pmm_fuel (g_bitmap s) count)
    (pmm_fuel (g_bitmap s) (g_total_frames s - count)) 0 ltac:(lia)) as Hfr.
  rewrite !fuel_total in Hfr by lia. specialize (Hfr ltac:(lia)).
  destruct (find_run _ _ _ _) as [[f |] |]; simpl; [| | done].
  - destruct Hfr as (Hf & Hrun & Hlow).
    destruct (set_run_spec (g_bitmap s) f count (g_total_frames s))
      as (b' & Hs & Hb' & Hl & Hn & Hus); try done; try lia.
    rewrite Hs. simpl. rewrite <- Hu in Hn.
    pose proof (nused_bounds b' (Z.to_nat (g_total_frames s))).
    eexists _, _. split; [done |]. split.
    + split; simpl; [done | unfold frames, MAX_FRAMES in *; lia |].
      rewrite Hn. apply u64_id. lia.
    + left. exists f. simpl. rewrite !u64_id by (unfold PAGE_SIZE; lia).
      split_and!; try done; lia.
  - eexists _, _. split; [done |]. split; [done |]. right. split_and!; try done.
Qed.

(** Also: for 2 <= count <= total, pmm_alloc_contiguous never leaves the bitmap; it
    reserves the lowest run of [count] free frames that starts below
    [total - count], marks exactly those frames and counts them; it returns NULL
    exactly when no such run exists. The invariant is preserved. *)
Theorem pmm_alloc_contiguous_spec (s : pmm) (count : Z) (Hwf : wf s)
    (Hc : 2 <= count <= g_total_frames s) :
  exists a s', pmm_alloc_contiguous count s = Some (a, s') /\ wf s' /\
    ((exists f, 0 <= f < g_total_frames s - count /\ free_run (g_bitmap s) f count /\
        (forall g, 0 <= g < f -> ~ free_run (g_bitmap s) g count) /\
        a = f * PAGE_SIZE /\ g_total_frames s' = g_total_frames s /\
        g_used_frames s' = g_used_frames s + count /\
        forall g, used (g_bitmap s') g = (f <=? g) && (g <? f + count) || used (g_bitmap s) g)
     \/ (a = 0 /\ s' = s /\
         forall f, 0 <= f < g_total_frames s - count -> ~ free_run (g_bitmap s) f count)).
Proof. exact (pmm_alloc_contiguous_correct s count Hwf Hc). Qed.

Lemma pmm_free_correct (s : pmm) (frame : Z) (Hwf : wf s) (Hf : 0 <= frame) :
  let f := frame / PAGE_SIZE in
  exists s', pmm_free frame s = Some s' /\ wf s' /\
    if (f <? g_total_frames s) && used (g_bitmap s) f then
      g_total_frames s' = g_total_frames s /\ g_used_frames s' = g_used_frames s - 1 /\
      forall g, used (g_bitmap s') g = if g =? f then false else used (g_bitmap s) g
    else s' = s.
Proof.
  intros f. pose proof (wf_used_range s Hwf) as Hur. pose proof Hwf as [Hb Ht Hu].
  assert (0 <= f) as H0 by (unfold f, PAGE_SIZE; lia).
  unfold pmm_free, MAX_FRAMES in *. fold f.
  destruct (Z.ltb_spec f (g_total_frames s)) as [Hlt | Hge]; simpl; [| by exists s].
  rewrite bm_test_used by lia. simpl.
  destruct (used (g_bitmap s) f) eqn:Huf; [| by exists s].
  destruct (bm_clear_spec (g_bitmap s) f ltac:(lia) Hb) as (b' & Hs & Hb' & Hl & Hus).
  rewrite Hs. simpl.
  assert (nused b' (Z.to_nat (g_total_frames s)) = g_used_frames s - 1) as Hn.
  { rewrite (nused_update (g_bitmap s) b' f false) by (done || lia).
    rewrite Huf, <- Hu. lia. }
  pose proof (nused_bounds b' (Z.to_nat (g_total_frames s))).
  eexists. split; [done |]. simpl. rewrite u64_id by lia. split; [| done].
  split; simpl; [done | unfold frames, MAX_FRAMES in *; lia | done].
Qed.

(** C39: pmm_free never leaves the bitmap; it clears the bit of the given frame and
    uncounts it when the frame is below the total and in use, and does nothing
    otherwise (so a double free and a foreign address are ignored). The invariant
    is preserved. *)
Theorem pmm_free_spec (s : pmm) (frame : Z) (Hwf : wf s) (Hf : 0 <= frame) :
  let f := frame / PAGE_SIZE in
  exists s', pmm_free frame s = Some s' /\ wf s' /\
    if (f <? g_total_frames s) && used (g_bitmap s) f then
      g_total_frames s' = g_total_frames s /\ g_used_frames s' = g_used_frames s - 1 /\
      forall g, used (g_bitmap s') g = if g =? f then false else used (g_bitmap s) g
    else s' = s.
Proof. exact (pmm_free_correct s frame Hwf Hf). Qed.

(** *** Initialisation *)

Lemma free_range_spec b start stop :
  bytes b -> frames b = MAX_FRAMES -> 0 <= start ->
  exists b', free_range start stop b = Some b' /\ bytes b' /\ frames b' = MAX_FRAMES /\
    forall g, used b' g = negb ((start <=? g) && (g <? Z.min stop MAX_FRAMES)) && used b g.
Proof.
  intros Hb Hfr Hst. unfold free_range.
  set (n := Z.min stop MAX_FRAMES - start).
  destruct (loopM_inv (fun i b' => bytes b' /\ frames b' = MAX_FRAMES /\
      forall g, used b' g = negb ((start <=? g) && (g <? i)) && used b g)
    (fun f b => bm_clear b f) (Z.to_nat n) start b) as (b' & Hl & Hb' & Hf' & Hu').
  - split_and!; try done. intros g.
    destruct (Z.leb_spec start g), (Z.ltb_spec g start); try done; lia.
  - intros i t Hi (Hbt & Hft & Hut).
    destruct (bm_clear_spec t i) as (t' & Hs & Hbt' & Hlt' & Hut'); [lia | done |].
    exists t'. split_and!; try done; [unfold frames in *; lia |].
    intros g. rewrite Hut', Hut.
    destruct (Z.eqb_spec g i), (Z.leb_spec start g), (Z.ltb_spec g i),
      (Z.ltb_spec g (i + 1)); try done; lia.
  - exists b'. split_and!; try done. intros g. rewrite Hu'.
    destruct (Z.leb_spec start g), (Z.ltb_spec g (start + Z.of_nat (Z.to_nat n))),
      (Z.ltb_spec g (Z.min stop MAX_FRAMES)); try done; lia.
Qed.

(** Does a usable entry of the table cover the frame? *)
Definition usable (es : list e820_entry) (f : Z) : bool :=
  existsb (fun e => (e_type e =? 1) && (e820_start e <=? f) && (f <? e820_stop e)) es.

(** The end of the highest usable entry, at least [total]. *)
Definition top_frame (es : list e820_entry) (total : Z) : Z :=
  foldl (fun t e => if e_type e =? 1 then Z.max t (e820_stop e) else t) total es.

Lemma scan_e820_spec es : forall b total,
  bytes b -> frames b = MAX_FRAMES ->
  exists b', scan_e820 es b total = Some (b', top_frame es total) /\ bytes b' /\
    frames b' = MAX_FRAMES /\
    forall g, g < MAX_FRAMES -> used b' g = negb (usable es g) && used b g.
Proof.
  induction es as [| e es IH]; intros b total Hb Hf; simpl; [by exists b |].
  destruct (Z.eqb_spec (e_type e) 1) as [He | He]; simpl; [| by apply IH].
  destruct (free_range_spec b (e820_start e) (e820_stop e)) as (b1 & -> & Hb1 & Hf1 & Hu1);
    [done | done | unfold e820_start, PAGE_SIZE, u64; lia |]. simpl.
  destruct (IH b1 (if total <? e820_stop e then e820_stop e else total) Hb1 Hf1)
    as (b2 & -> & Hb2 & Hf2 & Hu2).
  exists b2. split_and!; try done.
  - do 2 f_equal. unfold top_frame. simpl. f_equal.
    destruct (Z.ltb_spec total (e820_stop e)); lia.
  - intros g Hg. rewrite Hu2, Hu1 by done. rewrite negb_orb, <- andb_assoc.
    rewrite (andb_comm (negb (usable es g))), <- andb_assoc. f_equal.
    + destruct (Z.ltb_spec g (Z.min (e820_stop e) MAX_FRAMES)),
        (Z.ltb_spec g (e820_stop e)); done || lia.
    + apply andb_comm.
Qed.

Lemma top_frame_nonneg es : forall total, 0 <= total -> 0 <= top_frame es total.
Proof.
  induction es as [| e es IH]; intros total Ht; simpl; [done |].
  apply IH. destruct (e_type e =? 1); lia.
Qed.

Lemma count_used_spec b total :
  0 <= total <= frames b -> count_used total b = Some (nused b (Z.to_nat total)).
Proof.
  intros Ht. unfold count_used.
  destruct (loopM_inv (fun i n => n = nused b (Z.to_nat i))
    (fun f n => t ← bm_test b f; Some (if (t : bool) then n + 1 else n))
    (Z.to_nat total) 0 0) as (n & Hl & Hn); [done | |].
  - intros i n Hi ->. rewrite bm_test_used by lia. simpl. eexists. split; [done |].
    replace (Z.to_nat (i + 1)) with (S (Z.to_nat i)) by lia. simpl.
    rewrite Z2Nat.id by lia. destruct (used b i); lia.
  - rewrite Hl, Hn. do 2 f_equal. lia.
Qed.

Lemma reserve_low_spec b n :
  bytes b -> frames b = MAX_FRAMES -> 0 <= n <= MAX_FRAMES ->
  exists b', loopM (Z.to_nat n) 0 (fun f b => bm_set b f) b = Some b' /\ bytes b' /\
    frames b' = MAX_FRAMES /\
    forall g, used b' g = (0 <=? g) && (g <? n) || used b g.
Proof.
  intros Hb Hf Hn.
  destruct (loopM_inv (fun i b' => bytes b' /\ frames b' = MAX_FRAMES /\
      forall g, used b' g = (0 <=? g) && (g <? i) || used b g)
    (fun f b => bm_set b f) (Z.to_nat n) 0 b) as (b' & Hl & Hb' & Hf' & Hu').
  - split_and!; try done. intros g.
    destruct (Z.leb_spec 0 g), (Z.ltb_spec g 0); try done; lia.
  - intros i t Hi (Hbt & Hft & Hut).
    destruct (bm_set_spec t i) as (t' & Hs & Hbt' & Hlt' & Hut'); [lia | done |].
    exists t'. split_and!; try done; [unfold frames in *; lia |].
    intros g. rewrite Hut', Hut.
    destruct (Z.eqb_spec g i), (Z.leb_spec 0 g), (Z.ltb_spec g i),
      (Z.ltb_spec g (i + 1)); try done; lia.
  - exists b'. rewrite Z.add_0_l, Z2Nat.id in Hu' by lia. done.
Qed.

Lemma used_full n g : 0 <= g < 8 * Z.of_nat n -> used (replicate n 255) g = true.
Proof.
  intros Hg. unfold used. rewrite (zget_look _ _ 255) by (apply zlook_replicate; lia).
  change 255 with (Z.ones 8). apply Z.ones_spec_low. lia.
Qed.

Lemma full_bitmap n : bytes (replicate n 255).
Proof. apply Forall_replicate. unfold is_byte. lia. Qed.

Lemma pmm_init_correct (es : list e820_entry) :
  exists s, pmm_init es = Some s /\ wf s /\
    g_total_frames s = Z.min (top_frame es 0) MAX_FRAMES /\
    forall f, 0 <= f < g_total_frames s ->
      used (g_bitmap s) f = (f <? 512) || negb (usable es f).
Proof.
  unfold pmm_init. cbv zeta.
  change (Z.to_nat (RESERVE_LOW / PAGE_SIZE)) with (Z.to_nat 512).
  assert (Z.of_nat (Z.to_nat (MAX_FRAMES / 8)) = MAX_FRAMES / 8) as HN
    by (apply Z2Nat.id; done).
  remember (Z.to_nat (MAX_FRAMES / 8)) as N eqn:EN. clear EN.
  pose proof (full_bitmap N) as Hb0.
  assert (frames (replicate N 255) = MAX_FRAMES) as Hf0.
  { unfold frames. rewrite zlen_replicate, HN. done. }
  assert (forall g, 0 <= g < MAX_FRAMES -> used (replicate N 255) g = true) as Hu0.
  { intros g Hg. apply used_full. rewrite HN. unfold MAX_FRAMES in *. lia. }
  destruct (scan_e820_spec es (replicate N 255) 0 Hb0 Hf0) as (b1 & -> & Hb1 & Hf1 & Hu1).
  cbn [mbind option_bind fst snd].
  pose proof (top_frame_nonneg es 0 ltac:(lia)) as Hpos.
  set (total := if MAX_FRAMES <? top_frame es 0 then MAX_FRAMES else top_frame es 0).
  assert (total = Z.min (top_frame es 0) MAX_FRAMES) as Htot
    by (unfold total; destruct (Z.ltb_spec MAX_FRAMES (top_frame es 0)); lia).
  assert (0 <= total <= MAX_FRAMES) as Hrange by (unfold MAX_FRAMES in *; lia).
  destruct (reserve_low_spec b1 512 Hb1 Hf1) as (b2 & -> & Hb2 & Hf2 & Hu2);
    [unfold MAX_FRAMES; lia |].
  cbn [mbind option_bind]. rewrite count_used_spec by lia. cbn [mbind option_bind].
  eexists. split; [done |]. split; [| split; [done |]]; simpl.
  - split; simpl; [done | lia | done].
  - intros f Hf. rewrite Hu2, Hu1, Hu0 by lia. rewrite andb_true_r.
    destruct (Z.leb_spec 0 f); [done | lia].
Qed.

(** Also: pmm_init never leaves the bitmap and establishes the invariant for any
    firmware table; the managed frames end with the highest usable entry (at most
    4 GiB), and a managed frame is free exactly when it lies above the reserved
    low 2 MiB and inside a usable entry. *)
Theorem pmm_init_spec (es : list e820_entry) :
  exists s, pmm_init es = Some s /\ wf s /\
    g_total_frames s = Z.min (top_frame es 0) MAX_FRAMES /\
    forall f, 0 <= f < g_total_frames s ->
      used (g_bitmap s) f = (f <? 512) || negb (usable es f).
Proof. exact (pmm_init_correct es). Qed.

(** *** Limits of pmm_alloc_contiguous *)

(** Also: a request for two or more frames never finds the run that ends at the last
    managed frame: when the only free frames are the [count] highest ones, it
    returns NULL although they form a free run. *)
Theorem pmm_alloc_contiguous_misses_top (s : pmm) (count : Z) (Hwf : wf s)
    (Hc : 2 <= count <= g_total_frames s)
    (Htop : forall f, 0 <= f < g_total_frames s ->
              used (g_bitmap s) f = (f <? g_total_frames s - count)) :
  free_run (g_bitmap s) (g_total_frames s - count) count /\
  pmm_alloc_contiguous count s = Some (0, s).
Proof.
  split.
  - intros h Hh. rewrite Htop by lia. apply Z.ltb_ge. lia.
  - destruct (pmm_alloc_contiguous_correct s count Hwf Hc)
      as (a & s' & Hp & _ & [(f & Hf & Hrun & _) | (-> & -> & _)]); [| done].
    specialize (Hrun f ltac:(lia)). rewrite Htop in Hrun by lia.
    apply Z.ltb_ge in Hrun. lia.
Qed.

Lemma run_free_blocked b g : 0 <= g < frames b -> used b g = true ->
  forall n f, 0 <= f <= g -> g < f + Z.of_nat n -> run_free n f b = Some false.
Proof.
  intros Hg Hu. induction n as [| n IH]; intros f Hf Hn; [lia |]. simpl.
  rewrite bm_test_used by lia. simpl.
  destruct (used b f) eqn:Euf; [done |].
  destruct (Z.eq_dec f g) as [-> |]; [congruence | apply IH; lia].
Qed.

Lemma run_free_leaves b n : forall f,
  0 <= f <= frames b -> frames b < f + Z.of_nat n -> run_free n f b <> Some true.
Proof.
  induction n as [| n IH]; intros f Hf Hn; [lia |]. simpl.
  destruct (Z.eq_dec f (frames b)) as [-> | Hne].
  - rewrite bm_test_out by lia. done.
  - rewrite bm_test_used by lia. simpl. destruct (used b f); [done | apply IH; lia].
Qed.

Lemma find_run_leaves b count n : forall f,
  0 <= f <= frames b -> f + Z.of_nat n = frames b + 1 -> (0 < count)%nat ->
  (forall g, f <= g <= frames b -> run_free count g b <> Some true) ->
  find_run n f count b = None.
Proof.
  induction n as [| n IH]; intros f Hf Hn Hc Hrun; simpl; [lia |].
  destruct (run_free count f b) as [[|] |] eqn:Er; simpl; [| | done].
  - exfalso. by apply (Hrun f ltac:(lia)).
  - assert (f <> frames b) as Hne.
    { intros ->. destruct count; [lia |]. simpl in Er.
      rewrite bm_test_out in Er by lia. done. }
    apply IH; [lia | lia | done |]. intros g Hg. apply Hrun. lia.
Qed.

(** Also: a request for more frames than are managed makes the 64-bit bound
    [g_total_frames - count] wrap around; when the frames above the total are
    reserved (as pmm_init leaves them) the scan then runs off the end of the bitmap
    instead of returning NULL. *)
Theorem pmm_alloc_contiguous_overrun (s : pmm) (count : Z) (Hwf : wf s)
    (Hc : Z.max 1 (g_total_frames s) < count < 2 ^ 63)
    (Hres : forall f, g_total_frames s <= f < frames (g_bitmap s) ->
              used (g_bitmap s) f = true) :
  pmm_alloc_contiguous count s = None.
Proof.
  destruct Hwf as [Hb Ht Hu].
  unfold pmm_alloc_contiguous, MAX_FRAMES in *. change (2 ^ 63) with 9223372036854775808 in Hc.
  destruct (Z.eqb_spec count 0); [lia |]. destruct (Z.eqb_spec count 1); [lia |].
  set (b := g_bitmap s) in *. set (total := g_total_frames s) in *.
  assert (u64 (total - count) = 18446744073709551616 + total - count) as Hw
    by (unfold u64; lia).
  rewrite find_run_leaves; [done | lia | unfold pmm_fuel; lia | unfold pmm_fuel; lia |].
  intros g Hg Hrun.
  destruct (Z.lt_ge_cases (Z.max g total) (frames b)) as [Hlt | Hge].
  - rewrite (run_free_blocked b (Z.max g total)) in Hrun; [done | lia | | lia |].
    + apply Hres. lia.
    + unfold pmm_fuel. lia.
  - revert Hrun. apply run_free_leaves; [lia |]. unfold pmm_fuel. lia.
Qed.

(** ** Witnesses *)

(** Sixteen frames, the four highest free. *)
Definition pmm_ex : pmm := mkPmm [255; 15] 16 12.

Lemma pmm_ex_wf : wf pmm_ex.
Proof. split; [repeat constructor; lia | done | done]. Qed.


Lemma pmm_alloc_contiguous_spec_witness :
  2 <= 3 <= 16 /\ exists a s', pmm_alloc_contiguous 3 pmm_ex = Some (a, s') /\ wf s'.
Proof.
  split; [lia |].
  destruct (pmm_alloc_contiguous_spec pmm_ex 3 pmm_ex_wf ltac:(simpl; lia))
    as (a & s' & Hp & Hs & _).
  exists a, s'. exact (conj Hp Hs).
Defined.

Lemma pmm_free_spec_witness :
  0 <= 3 * PAGE_SIZE /\ exists s', pmm_free (3 * PAGE_SIZE) pmm_ex = Some s' /\ wf s'.
Proof.
  split; [done |].
  destruct (pmm_free_spec pmm_ex (3 * PAGE_SIZE) pmm_ex_wf ltac:(done)) as (s' & Hp & Hs & _).
  exists s'. exact (conj Hp Hs).
Defined.

Lemma pmm_ex_top f : 0 <= f < 16 -> used (g_bitmap pmm_ex) f = (f <? 16 - 4).
Proof.
  intros Hf. assert (exists n, (n < 16)%nat /\ f = Z.of_nat n) as (n & Hn & ->)
    by (exists (Z.to_nat f); lia).
  do 16 (destruct n as [| n]; [done |]). lia.
Qed.

Lemma pmm_alloc_contiguous_misses_top_witness :
  2 <= 4 <= 16 /\ pmm_alloc_contiguous 4 pmm_ex = Some (0, pmm_ex).
Proof.
  split; [lia |].
  exact (proj2 (pmm_alloc_contiguous_misses_top pmm_ex 4 pmm_ex_wf ltac:(simpl; lia) pmm_ex_top)).
Defined.

Lemma pmm_alloc_contiguous_overrun_witness :
  Z.max 1 16 < 17 /\ pmm_alloc_contiguous 17 pmm_ex = None.
Proof.
  split; [lia |].
  apply (pmm_alloc_contiguous_overrun pmm_ex 17 pmm_ex_wf);
    [by split | unfold frames; simpl; intros; unfold zlen in *; simpl in *; lia].
Defined.

(** A table with one usable entry from 1 MiB to 4 MiB: 1024 frames are managed and
    the 512 above the reserved low part are free. *)
Example pmm_init_ex :
  (s ← pmm_init [E820 0 655360 2 0; E820 1048576 3145728 1 0];
   r ← pmm_alloc s;
   Some (g_total_frames s, g_used_frames s, fst r)) = Some (1024, 512, 512 * PAGE_SIZE).
Proof. vm_compute. reflexivity. Qed.
