(* ===== verification/Paging.v ===== *)
(** * Four-level paging (src/mm/paging.c, src/include/paging.h)

    Page tables live in physical memory, which the kernel reaches through its
    identity mapping: a [page_table_t *] is the physical address of the table, and
    its entry [i] is the 64-bit word at [table + 8 * i]. [None] is a fault of the
    frame allocator (an access outside its bitmap); NULL is 0. The instructions
    [invlpg] and the reload of CR3 act on the TLB only and have no counterpart: the
    theorems speak of the tables in memory. *)

From S2P Require Import Prelude Pmm.

Definition PAGE_TABLE_ENTRIES : nat := 512.
Definition PAGE_PRESENT : Z := 1.
Definition PAGE_RW : Z := 2.
Definition PAGE_USER : Z := 4.
Definition PAGE_HUGE : Z := 128.
Definition PAGE_ADDR_MASK : Z := 0x000FFFFFFFFFF000.

(** The machine state paging.c works on. *)
Record mach := mkMach {
  m_mem : gmap Z Z;      (* 64-bit words of physical memory, 0 where never written *)
  m_pmm : pmm;
  g_pml4 : Z }.

Definition rd (m : gmap Z Z) (a : Z) : Z := default 0 (m !! a).
Definition wr (m : gmap Z Z) (a v : Z) : gmap Z Z := <[a := v]> m.

Definition with_mem (m : gmap Z Z) (s : mach) : mach := mkMach m (m_pmm s) (g_pml4 s).
Definition with_pmm (p : pmm) (s : mach) : mach := mkMach (m_mem s) p (g_pml4 s).

Definition idx_pml4 (virt : Z) : Z := Z.land (Z.shiftr virt 39) 0x1FF.
Definition idx_pdpt (virt : Z) : Z := Z.land (Z.shiftr virt 30) 0x1FF.
Definition idx_pd (virt : Z) : Z := Z.land (Z.shiftr virt 21) 0x1FF.
Definition idx_pt (virt : Z) : Z := Z.land (Z.shiftr virt 12) 0x1FF.

(** [paging_load_cr3]/[paging_init]: the table CR3 points to. *)
Definition paging_load_cr3 (cr3 : Z) (s : mach) : mach :=
  mkMach (m_mem s) (m_pmm s) (Z.land cr3 PAGE_ADDR_MASK).
Definition paging_init (cr3 : Z) (s : mach) : mach := paging_load_cr3 cr3 s.

(** [for (i = 0; i < 512; i++) table->entries[i] = f(i)] *)
Definition fill_table (table : Z) (f : Z -> Z) (m : gmap Z Z) : gmap Z Z :=
  loop PAGE_TABLE_ENTRIES 0 (fun i m => wr m (table + 8 * i) (f i)) m.

Definition paging_get_or_create_table (entry flags : Z) (s : mach) : option (Z * mach) :=
  let e := rd (m_mem s) entry in
  if istrue (Z.land e PAGE_PRESENT) then Some (Z.land e PAGE_ADDR_MASK, s)
  else
    r ← pmm_alloc (m_pmm s);
    let '(table, p) := r in
    let s := with_pmm p s in
    if table =? 0 then Some (0, s)
    else
      let m := fill_table table (fun _ => 0) (m_mem s) in
      let e := Z.lor (Z.lor (Z.lor table PAGE_PRESENT) PAGE_RW) (Z.land flags PAGE_USER) in
      Some (table, with_mem (wr m entry e) s).

(** [if (flags & PAGE_USER) *entry |= PAGE_USER;] *)
Definition add_user (flags entry : Z) (s : mach) : mach :=
  if istrue (Z.land flags PAGE_USER)
  then with_mem (wr (m_mem s) entry (Z.lor (rd (m_mem s) entry) PAGE_USER)) s
  else s.

(** The split of a 2 MiB page into a page table of 512 entries. *)
Definition split_huge (pd_e table_flags : Z) (s : mach) : option (bool * mach) :=
  if istrue (Z.land (rd (m_mem s) pd_e) PAGE_HUGE) then
    r ← pmm_alloc (m_pmm s);
    let '(pt_new, p) := r in
    let s := with_pmm p s in
    if pt_new =? 0 then Some (false, s)
    else
      let huge_phys := Z.land (rd (m_mem s) pd_e) PAGE_ADDR_MASK in
      let m := fill_table pt_new (fun i =>
                 Z.lor (Z.lor (Z.lor (u64 (huge_phys + i * PAGE_SIZE)) PAGE_PRESENT) PAGE_RW)
                       table_flags) (m_mem s) in
      let e := Z.lor (Z.lor (Z.lor pt_new PAGE_PRESENT) PAGE_RW) table_flags in
      Some (true, with_mem (wr m pd_e e) s)
  else Some (true, s).

Definition paging_map_page_on (pml4 virt phys flags : Z) (s : mach) : option (Z * mach) :=
  let pte_flags := Z.lor flags PAGE_PRESENT in
  let table_flags := Z.land flags PAGE_USER in
  let pml4_e := pml4 + 8 * idx_pml4 virt in
  r ← paging_get_or_create_table pml4_e table_flags s;
  let '(pdpt, s) := r in
  if pdpt =? 0 then Some (-1, s) else
  let s := add_user flags pml4_e s in
  let pdpt_e := pdpt + 8 * idx_pdpt virt in
  r ← paging_get_or_create_table pdpt_e table_flags s;
  let '(pd, s) := r in
  if pd =? 0 then Some (-1, s) else
  let s := add_user flags pdpt_e s in
  let pd_e := pd + 8 * idx_pd virt in
  r ← split_huge pd_e table_flags s;
  let '(ok, s) := r in
  if negb ok then Some (-1, s) else
  let s := add_user flags pd_e s in
  r ← paging_get_or_create_table pd_e table_flags s;
  let '(pt, s) := r in
  if pt =? 0 then Some (-1, s) else
  let e := Z.lor (Z.land phys PAGE_ADDR_MASK) pte_flags in
  Some (0, with_mem (wr (m_mem s) (pt + 8 * idx_pt virt) e) s).

Definition paging_map_page (virt phys flags : Z) (s : mach) : option (Z * mach) :=
  paging_map_page_on (g_pml4 s) virt phys flags s.

Definition paging_unmap_page (virt : Z) (s : mach) : option (Z * mach) :=
  let m := m_mem s in
  let pml4_e := rd m (g_pml4 s + 8 * idx_pml4 virt) in
  if negb (istrue (Z.land pml4_e PAGE_PRESENT)) then Some (-1, s) else
  let pdpt_e := rd m (Z.land pml4_e PAGE_ADDR_MASK + 8 * idx_pdpt virt) in
  if negb (istrue (Z.land pdpt_e PAGE_PRESENT)) then Some (-1, s) else
  let pd_e := rd m (Z.land pdpt_e PAGE_ADDR_MASK + 8 * idx_pd virt) in
  if negb (istrue (Z.land pd_e PAGE_PRESENT)) then Some (-1, s) else
  let pt := Z.land pd_e PAGE_ADDR_MASK in
  let pt_e := rd m (pt + 8 * idx_pt virt) in
  if negb (istrue (Z.land pt_e PAGE_PRESENT)) then Some (-1, s) else
  let phys := Z.land pt_e PAGE_ADDR_MASK in
  p ← (if istrue phys then pmm_free phys (m_pmm s) else Some (m_pmm s));
  Some (0, with_mem (wr m (pt + 8 * idx_pt virt) 0) (with_pmm p s)).

Definition paging_get_phys_on (pml4 virt : Z) (s : mach) : Z :=
  let m := m_mem s in
  let pml4_e := rd m (pml4 + 8 * idx_pml4 virt) in
  if negb (istrue (Z.land pml4_e PAGE_PRESENT)) then 0 else
  let pdpt_e := rd m (Z.land pml4_e PAGE_ADDR_MASK + 8 * idx_pdpt virt) in
  if negb (istrue (Z.land pdpt_e PAGE_PRESENT)) then 0 else
  let pd_e := rd m (Z.land pdpt_e PAGE_ADDR_MASK + 8 * idx_pd virt) in
  if istrue (Z.land pd_e PAGE_HUGE)
  then Z.lor (Z.land pd_e PAGE_ADDR_MASK) (Z.land virt 0x1FFFFF) else
  if negb (istrue (Z.land pd_e PAGE_PRESENT)) then 0 else
  let pt_e := rd m (Z.land pd_e PAGE_ADDR_MASK + 8 * idx_pt virt) in
  if negb (istrue (Z.land pt_e PAGE_PRESENT)) then 0 else
  Z.lor (Z.land pt_e PAGE_ADDR_MASK) (Z.land virt 0xFFF).

(** paging_get_phys repeats the walk of paging_get_phys_on from [g_pml4]. *)
Definition paging_get_phys (virt : Z) (s : mach) : Z := paging_get_phys_on (g_pml4 s) virt s.

Definition paging_add_flags (virt flags : Z) (s : mach) : Z * mach :=
  let e4 := g_pml4 s + 8 * idx_pml4 virt in
  if negb (istrue (Z.land (rd (m_mem s) e4) PAGE_PRESENT)) then (-1, s) else
  let s := with_mem (wr (m_mem s) e4 (Z.lor (rd (m_mem s) e4) flags)) s in
  let e3 := Z.land (rd (m_mem s) e4) PAGE_ADDR_MASK + 8 * idx_pdpt virt in
  if negb (istrue (Z.land (rd (m_mem s) e3) PAGE_PRESENT)) then (-1, s) else
  let s := with_mem (wr (m_mem s) e3 (Z.lor (rd (m_mem s) e3) flags)) s in
  if istrue (Z.land (rd (m_mem s) e3) PAGE_HUGE) then (0, s) else
  let e2 := Z.land (rd (m_mem s) e3) PAGE_ADDR_MASK + 8 * idx_pd virt in
  if negb (istrue (Z.land (rd (m_mem s) e2) PAGE_PRESENT)) then (-1, s) else
  if istrue (Z.land (rd (m_mem s) e2) PAGE_HUGE)
  then (0, with_mem (wr (m_mem s) e2 (Z.lor (rd (m_mem s) e2) flags)) s) else
  let e1 := Z.land (rd (m_mem s) e2) PAGE_ADDR_MASK + 8 * idx_pt virt in
  if negb (istrue (Z.land (rd (m_mem s) e1) PAGE_PRESENT)) then (-1, s) else
  (0, with_mem (wr (m_mem s) e1 (Z.lor (rd (m_mem s) e1) flags)) s).

(** [for (i = 0; i < 512; i++) dst->entries[i] = src->entries[i]] *)
Definition copy_entries (dst src : Z) (m : gmap Z Z) : gmap Z Z :=
  loop PAGE_TABLE_ENTRIES 0 (fun i m => wr m (dst + 8 * i) (rd m (src + 8 * i))) m.

Definition paging_clone_current (s : mach) : option (Z * mach) :=
  r ← pmm_alloc (m_pmm s);
  let '(new_pml4, p) := r in
  let s := with_pmm p s in
  if new_pml4 =? 0 then Some (0, s)
  else Some (new_pml4, with_mem (copy_entries new_pml4 (g_pml4 s) (m_mem s)) s).

Fixpoint paging_map_range_from (n : nat) (i virt phys flags : Z) (s : mach) : option (Z * mach) :=
  match n with
  | O => Some (0, s)
  | S n' =>
      r ← paging_map_page (u64 (virt + i * PAGE_SIZE)) (u64 (phys + i * PAGE_SIZE)) flags s;
      if fst r <? 0 then Some (-1, snd r)
      else paging_map_range_from n' (i + 1) virt phys flags (snd r)
  end.
Definition paging_map_range (virt phys pages flags : Z) (s : mach) : option (Z * mach) :=
  paging_map_range_from (Z.to_nat pages) 0 virt phys flags s.

(** ** Bit fields of an entry *)

Definition present (e : Z) : bool := Z.testbit e 0.
Definition huge (e : Z) : bool := Z.testbit e 7.
(** The frame an entry points to. *)
Definition addr (e : Z) : Z := e / 4096 mod 2 ^ 40 * 4096.

Lemma istrue_present e : istrue (Z.land e PAGE_PRESENT) = present e.
Proof. exact (land_bit e 0 ltac:(lia)). Qed.

Lemma istrue_huge e : istrue (Z.land e PAGE_HUGE) = huge e.
Proof. exact (land_bit e 7 ltac:(lia)). Qed.

Lemma land_addr e : Z.land e PAGE_ADDR_MASK = addr e.
Proof.
  unfold addr. change PAGE_ADDR_MASK with (Z.shiftl (Z.ones 40) 12).
  change 4096 with (2 ^ 12). rewrite <- Z.shiftl_mul_pow2, <- Z.land_ones by lia.
  rewrite <- Z.shiftr_div_pow2 by lia.
  apply Z.bits_inj'. intros n Hn.
  rewrite Z.land_spec, !Z.shiftl_spec by lia.
  destruct (Z.lt_ge_cases n 12).
  - by rewrite !(Z.testbit_neg_r _ (n - 12)), andb_false_r by lia.
  - rewrite Z.land_spec, Z.shiftr_spec by lia. by rewrite Z.sub_add.
Qed.

Lemma idx_range v k : 0 <= Z.land (Z.shiftr v k) 0x1FF < 512.
Proof. change 0x1FF with (Z.ones 9). rewrite Z.land_ones by lia. apply Z.mod_pos_bound. done. Qed.

Lemma idx_div v k : 0 <= k -> Z.land (Z.shiftr v k) 0x1FF = v / 2 ^ k mod 512.
Proof.
  intros. change 0x1FF with (Z.ones 9). rewrite Z.land_ones, Z.shiftr_div_pow2 by lia. done.
Qed.

Lemma lor_small_page a c : a mod 4096 = 0 -> 0 <= c < 4096 -> Z.lor a c = a + c.
Proof. intros. by apply (lor_add_disjoint a c 12). Qed.

Lemma present_odd e : present e = Z.odd e.
Proof. apply Z.bit0_odd. Qed.

(** A table pointer with the flags the code gives it. *)
Lemma table_entry a c :
  0 <= a < 2 ^ 52 -> a mod 4096 = 0 -> 0 <= c < 128 -> c mod 2 = 1 ->
  present (Z.lor a c) = true /\ huge (Z.lor a c) = false /\ addr (Z.lor a c) = a.
Proof.
  intros Ha Hm Hc Ho. rewrite lor_small_page by lia.
  change (2 ^ 52) with 4503599627370496 in Ha. split_and!.
  - rewrite present_odd, Z.odd_spec. exists ((a + c) / 2). lia.
  - unfold huge. rewrite Z.testbit_false by lia. change (2 ^ 7) with 128. lia.
  - unfold addr. change (2 ^ 40) with 1099511627776. lia.
Qed.

Lemma lor_user e :
  present (Z.lor e PAGE_USER) = present e /\ huge (Z.lor e PAGE_USER) = huge e /\
  addr (Z.lor e PAGE_USER) = addr e.
Proof.
  unfold present, huge. rewrite !Z.lor_spec. split_and!.
  - apply orb_false_r.
  - apply orb_false_r.
  - unfold addr. change 4096 with (2 ^ 12). rewrite <- !Z.shiftr_div_pow2 by lia.
    rewrite Z.shiftr_lor. change (Z.shiftr PAGE_USER 12) with 0. by rewrite Z.lor_0_r.
Qed.

(** ** The tree of page tables *)

(** Entry [i] of the table at [t]. *)
Definition ent (m : gmap Z Z) (t i : Z) : Z := rd m (t + 8 * i).

(** Index of a virtual address in its table of level [l] (4 = PML4, 1 = PT), and
    the part of the address above that level: the page number for [l = 0]. *)
Definition idx (l : nat) (v : Z) : Z :=
  match l with
  | 4%nat => idx_pml4 v | 3%nat => idx_pdpt v | 2%nat => idx_pd v | _ => idx_pt v
  end.
Definition pfx (l : nat) (v : Z) : Z :=
  match l with
  | 0%nat => v / 4096 mod 68719476736
  | 1%nat => v / 2097152 mod 134217728
  | 2%nat => v / 1073741824 mod 262144
  | 3%nat => v / 549755813888 mod 512
  | _ => 0
  end.

Lemma idx_bound l v : 0 <= idx l v < 512.
Proof. destruct l as [| [| [| [| [| ]]]]]; apply idx_range. Qed.

Lemma pfx_step l v :
  (1 <= l <= 4)%nat -> pfx (pred l) v = pfx l v * 512 + idx l v.
Proof.
  intros Hl. destruct l as [| [| [| [| [| ]]]]]; try lia; simpl;
  unfold idx_pml4, idx_pdpt, idx_pd, idx_pt; rewrite idx_div by lia.
  - change (2 ^ 12) with 4096. lia.
  - change (2 ^ 21) with 2097152. lia.
  - change (2 ^ 30) with 1073741824. lia.
  - change (2 ^ 39) with 549755813888. lia.
Qed.

(** The translation of [v] by the table at [t] of level [l]: the walk of
    paging_get_phys_on from that table on. *)
Fixpoint xlate (m : gmap Z Z) (l : nat) (t v : Z) : Z :=
  match l with
  | O => 0
  | S l' =>
      let e := ent m t (idx l v) in
      if (l =? 2)%nat && huge e then Z.lor (addr e) (Z.land v 0x1FFFFF)
      else if negb (present e) then 0
      else if (l =? 1)%nat then Z.lor (addr e) (Z.land v 0xFFF)
      else xlate m l' (addr e) v
  end.

Lemma get_phys_xlate P v s : paging_get_phys_on P v s = xlate (m_mem s) 4 P v.
Proof.
  unfold paging_get_phys_on. rewrite !istrue_present, !istrue_huge, !land_addr.
  cbn [xlate Nat.eqb andb idx]. unfold ent.
  destruct (present (rd (m_mem s) (P + 8 * idx_pml4 v))); [| done]. cbn [negb].
  destruct (present (rd _ (_ + 8 * idx_pdpt v))); done.
Qed.

(** [own] gives each table its level and the part of the virtual addresses it
    translates. Since it is a function, no table is shared. *)
Record tree (m : gmap Z Z) (U : Z -> Prop) (P : Z) (own : gmap Z (nat * Z)) : Prop := {
  t_root : own !! P = Some (4%nat, 0);
  t_tab : forall t l p, own !! t = Some (l, p) ->
    (1 <= l <= 4)%nat /\ 0 < t < 2 ^ 52 /\ t mod 4096 = 0 /\ U (t / 4096) /\
    (l = 4%nat -> t = P);
  t_child : forall t l p i, own !! t = Some (l, p) -> (2 <= l)%nat -> 0 <= i < 512 ->
    present (ent m t i) = true -> (l = 2%nat -> huge (ent m t i) = false) ->
    own !! addr (ent m t i) = Some (pred l, p * 512 + i);
  t_huge : forall t p i, own !! t = Some (2%nat, p) -> 0 <= i < 512 ->
    huge (ent m t i) = true ->
    present (ent m t i) = true /\ addr (ent m t i) mod 2097152 = 0;
  t_parent : forall t l p, own !! t = Some (l, p) -> (l < 4)%nat ->
    exists tp, own !! tp = Some (S l, p / 512) /\
      present (ent m tp (p mod 512)) = true /\
      (l = 1%nat -> huge (ent m tp (p mod 512)) = false) /\
      addr (ent m tp (p mod 512)) = t }.

Section tree.
Context (m : gmap Z Z) (U : Z -> Prop) (P : Z) (own : gmap Z (nat * Z)).
Hypothesis T : tree m U P own.

(** Tables do not overlap. *)
Lemma table_disjoint t t' i i' x y :
  own !! t = Some x -> t' mod 4096 = 0 -> own !! t' = y -> t <> t' ->
  0 <= i < 512 -> 0 <= i' < 512 -> t + 8 * i <> t' + 8 * i'.
Proof using T.
  intros Ht Ht' _ Hne Hi Hi'. destruct x as [l p].
  destruct (t_tab _ _ _ _ T _ _ _ Ht) as (_ & _ & Hm & _). lia.
Qed.

Lemma entry_inj t t' i i' x x' :
  own !! t = Some x -> own !! t' = Some x' -> 0 <= i < 512 -> 0 <= i' < 512 ->
  t + 8 * i = t' + 8 * i' -> t = t' /\ i = i'.
Proof using T.
  intros Ht Ht' Hi Hi' He. destruct x as [l p], x' as [l' p'].
  destruct (t_tab _ _ _ _ T _ _ _ Ht) as (_ & _ & Hm & _).
  destruct (t_tab _ _ _ _ T _ _ _ Ht') as (_ & _ & Hm' & _). lia.
Qed.

(** One step of the walk, to a table below the entry. *)
Lemma xlate_step t l v :
  (1 <= l)%nat -> present (ent m t (idx (S l) v)) = true ->
  (l = 1%nat -> huge (ent m t (idx (S l) v)) = false) ->
  xlate m (S l) t v = xlate m l (addr (ent m t (idx (S l) v))) v.
Proof using.
  intros Hl Hp Hh. cbn [xlate]. rewrite Hp.
  destruct l as [| [| l]]; [lia | | done]. by rewrite Hh.
Qed.

(** The walk to a table that owns the prefix of [v] reaches that table. *)
Lemma xlate_reach t l v :
  own !! t = Some (l, pfx l v) -> xlate m 4 P v = xlate m l t v.
Proof using T.
  assert (forall k t l, (l + k = 4)%nat -> own !! t = Some (l, pfx l v) ->
            xlate m 4 P v = xlate m l t v) as H.
  { induction k as [| k IH]; intros t0 l0 Hk Ht;
      destruct (t_tab _ _ _ _ T _ _ _ Ht) as (Hl & _ & _ & _ & H4).
    - replace l0 with 4%nat in * by lia. by rewrite H4.
    - destruct (t_parent _ _ _ _ T _ _ _ Ht) as (tp & Htp & Hp & Hh & Ha); [lia |].
      pose proof (pfx_step (S l0) v ltac:(lia)) as Hs. cbn [pred] in Hs.
      pose proof (idx_bound (S l0) v).
      replace (pfx l0 v / 512) with (pfx (S l0) v) in Htp by lia.
      replace (pfx l0 v mod 512) with (idx (S l0) v) in * by lia.
      rewrite (IH tp (S l0)) by (done || lia).
      rewrite xlate_step by (done || lia). by rewrite Ha. }
  intros Ht. destruct (t_tab _ _ _ _ T _ _ _ Ht) as (Hl & _).
  apply (H (4 - l)%nat); [lia | done].
Qed.

(** Two memories with the same entry fields in every table translate alike. *)
Definition same_fields (e e' : Z) : Prop :=
  present e' = present e /\ huge e' = huge e /\ addr e' = addr e.

Lemma xlate_sim m' :
  (forall t x i, own !! t = Some x -> 0 <= i < 512 -> same_fields (ent m t i) (ent m' t i)) ->
  forall l t p v, own !! t = Some (l, p) -> xlate m' l t v = xlate m l t v.
Proof using T.
  intros Hs. induction l as [| l IH]; intros t p v Ht; [done |].
  pose proof (idx_bound (S l) v) as Hi.
  destruct (Hs _ _ _ Ht Hi) as (Hp & Hh & Ha).
  cbn [xlate]. rewrite Hp, Hh, Ha. clear Hp Hh Ha.
  generalize dependent (idx (S l) v). intros i **.
  destruct (Nat.eqb_spec (S l) 2) as [H2 | H2]; cbn [andb];
    [destruct (huge (ent m t i)) eqn:Eh; [done |] |];
    (destruct (present (ent m t i)) eqn:Ep; [| done]); cbn [negb];
    (destruct (Nat.eqb_spec (S l) 1) as [Hl0 | Hl0]; [done |]);
    (eapply IH, (t_child _ _ _ _ T _ _ _ _ Ht); [lia | done | exact Ep | first [exact (fun _ => Eh) | intros; lia]]).
Qed.

Lemma tree_sim m' :
  (forall t x i, own !! t = Some x -> 0 <= i < 512 -> same_fields (ent m t i) (ent m' t i)) ->
  tree m' U P own.
Proof using T.
  intros Hs. destruct T as [Hr Ht Hc Hh Hpar]. split; [done | done | | |].
  - intros t l p i Ho Hl Hi Hp Hhu. destruct (Hs _ _ _ Ho Hi) as (E1 & E2 & E3).
    rewrite E3. rewrite E1 in Hp. rewrite E2 in Hhu. eauto.
  - intros t p i Ho Hi Hhu. destruct (Hs _ _ _ Ho Hi) as (E1 & E2 & E3).
    rewrite E1, E3. rewrite E2 in Hhu. eauto.
  - intros t l p Ho Hl. destruct (Hpar _ _ _ Ho Hl) as (tp & Htp & Hp & H1 & Ha).
    exists tp. destruct (Hs tp _ (p mod 512) Htp ltac:(lia)) as (E1 & E2 & E3).
    rewrite E1, E2, E3. done.
Qed.

(** A change of the single entry [i0] of the table [t0] affects only the addresses
    whose walk goes through that entry. *)
Lemma xlate_through m' t0 l0 p0 i0 :
  own !! t0 = Some (l0, p0) ->
  (forall t x i, own !! t = Some x -> 0 <= i < 512 -> (t, i) <> (t0, i0) ->
     ent m' t i = ent m t i) ->
  forall l t v, own !! t = Some (l, pfx l v) -> pfx (pred l0) v <> p0 * 512 + i0 ->
    xlate m' l t v = xlate m l t v.
Proof using T.
  intros H0 Hs. induction l as [| l IH]; intros t v Ht Hne; [done |].
  pose proof (idx_bound (S l) v) as Hi.
  destruct (t_tab _ _ _ _ T _ _ _ Ht) as (Hl & _).
  pose proof (pfx_step (S l) v ltac:(lia)) as Hps. cbn [pred] in Hps.
  assert (ent m' t (idx (S l) v) = ent m t (idx (S l) v)) as He.
  { apply (Hs _ _ _ Ht Hi). intros [<- <-]%pair_equal_spec. rewrite Ht in H0.
    injection H0 as <- <-. exact (Hne Hps). }
  cbn [xlate]. rewrite He.
  generalize dependent (idx (S l) v). intros i **.
  destruct (Nat.eqb_spec (S l) 2) as [H2 | H2]; cbn [andb];
    [destruct (huge (ent m t i)) eqn:Eh; [done |] |];
    (destruct (present (ent m t i)) eqn:Ep; [| done]); cbn [negb];
    (destruct (Nat.eqb_spec (S l) 1) as [Hl0 | Hl0]; [done |]);
    (apply IH; [| done]; rewrite Hps;
     apply (t_child _ _ _ _ T _ _ _ _ Ht); [lia | done | exact Ep | first [exact (fun _ => Eh) | intros; lia]]).
Qed.
End tree.

(** ** Writes to memory *)

Lemma rd_wr m a v x : rd (wr m a v) x = if a =? x then v else rd m x.
Proof.
  unfold rd, wr. destruct (Z.eqb_spec a x) as [-> | Hne].
  - by rewrite lookup_insert_eq.
  - by rewrite lookup_insert_ne.
Qed.

Lemma fill_table_rd table f m x :
  rd (fill_table table f m) x =
    if (table <=? x) && (x <? table + 4096) && ((x - table) mod 8 =? 0)
    then f ((x - table) / 8) else rd m x.
Proof.
  unfold fill_table.
  pose proof (loop_inv (fun i m' => forall x, rd m' x =
      if (table <=? x) && (x <? table + 8 * i) && ((x - table) mod 8 =? 0)
      then f ((x - table) / 8) else rd m x)
    (fun i m => wr m (table + 8 * i) (f i)) PAGE_TABLE_ENTRIES 0 m) as H.
  cbv beta in H. rewrite H; clear H.
  - unfold PAGE_TABLE_ENTRIES. done.
  - intros y. destruct (Z.leb_spec table y), (Z.ltb_spec y (table + 8 * 0)); try done; lia.
  - intros i m' Hi Hm y. rewrite rd_wr, Hm.
    destruct (Z.eqb_spec (table + 8 * i) y) as [<- | Hne].
    + replace (table + 8 * i - table) with (i * 8) by lia.
      rewrite Z.div_mul, Z.mod_mul by lia.
      destruct (Z.leb_spec table (table + 8 * i)),
        (Z.ltb_spec (table + 8 * i) (table + 8 * (i + 1))); try done; lia.
    + destruct (Z.leb_spec table y), (Z.ltb_spec y (table + 8 * i)),
        (Z.ltb_spec y (table + 8 * (i + 1))), (Z.eqb_spec ((y - table) mod 8) 0); try done; lia.
Qed.

Lemma fill_table_in table f m i :
  0 <= i < 512 -> ent (fill_table table f m) table i = f i.
Proof.
  intros Hi. unfold ent. rewrite fill_table_rd.
  replace (table + 8 * i - table) with (i * 8) by lia.
  rewrite Z.div_mul, Z.mod_mul by lia.
  destruct (Z.leb_spec table (table + 8 * i)), (Z.ltb_spec (table + 8 * i) (table + 4096));
    try done; lia.
Qed.

Lemma fill_table_out table f m t i :
  table mod 4096 = 0 -> t mod 4096 = 0 -> t <> table -> 0 <= i < 512 ->
  ent (fill_table table f m) t i = ent m t i.
Proof.
  intros Hm Hm' Hne Hi. unfold ent. rewrite fill_table_rd.
  destruct (Z.leb_spec table (t + 8 * i)), (Z.ltb_spec (t + 8 * i) (table + 4096)); try done; lia.
Qed.

Lemma ent_wr m t i e t' i' :
  t mod 4096 = 0 -> t' mod 4096 = 0 -> 0 <= i < 512 -> 0 <= i' < 512 ->
  ent (wr m (t + 8 * i) e) t' i' = if (t' =? t) && (i' =? i) then e else ent m t' i'.
Proof.
  intros Hm Hm' Hi Hi'. unfold ent. rewrite rd_wr.
  destruct (Z.eqb_spec (t + 8 * i) (t' + 8 * i')), (Z.eqb_spec t' t), (Z.eqb_spec i' i);
    try done; lia.
Qed.

#[local] Opaque fill_table.

(** ** Adding a table to the tree *)

Section tree_add.
Context (m m' : gmap Z Z) (U U' : Z -> Prop) (P : Z) (own : gmap Z (nat * Z)).
Context (t0 p0 i0 a : Z) (l0 : nat).
Hypothesis T : tree m U P own.
Hypothesis HU : forall f, U f -> U' f.
Hypothesis Ht0 : own !! t0 = Some (l0, p0).
Hypothesis Hl0 : (2 <= l0)%nat.
Hypothesis Hi0 : 0 <= i0 < 512.
(** the entry had no table below it *)
Hypothesis Hold :
  present (ent m t0 i0) = false \/ (l0 = 2%nat /\ huge (ent m t0 i0) = true).
(** [a] is a new frame *)
Hypothesis Ha : own !! a = None.
Hypothesis Haf : 0 < a < 2 ^ 52 /\ a mod 4096 = 0 /\ U' (a / 4096).
(** the entry now points to [a], the other entries are unchanged *)
Hypothesis Hsame : forall t x i, own !! t = Some x -> 0 <= i < 512 -> (t, i) <> (t0, i0) ->
  ent m' t i = ent m t i.
Hypothesis Hnew : present (ent m' t0 i0) = true /\ huge (ent m' t0 i0) = false /\
  addr (ent m' t0 i0) = a.
(** a new directory is empty, a new page table translates like the old entry *)
Hypothesis Hempty : (3 <= l0)%nat -> forall i, 0 <= i < 512 -> ent m' a i = 0.
Hypothesis Hlocal : forall v, idx l0 v = i0 -> xlate m' (pred l0) a v = xlate m l0 t0 v.

Lemma tree_add : tree m' U' P (<[a := (pred l0, p0 * 512 + i0)]> own).
Proof using T HU Ht0 Hl0 Hi0 Hold Ha Haf Hsame Hnew Hempty.
  destruct Haf as (Ha1 & Ha2 & Ha3), Hnew as (Hn1 & Hn2 & Hn3).
  destruct (t_tab _ _ _ _ T _ _ _ Ht0) as (Hl & _).
  assert (forall t x, own !! t = Some x -> a <> t) as Hane by congruence.
  destruct T as [Hr Ht Hc Hh Hp]. split.
  - by rewrite lookup_insert_ne by (by eapply Hane).
  - intros t l p [[<- [= <- <-]] | [Hne Ho]]%lookup_insert_Some.
    + split_and!; try done; lia.
    + destruct (Ht _ _ _ Ho) as ([? ?] & [? ?] & ? & ? & ?). split_and!; auto.
  - intros t l p i [[<- [= <- <-]] | [Hne Ho]]%lookup_insert_Some Hl2 Hi Hpr Hhu.
    + rewrite Hempty in Hpr by lia. done.
    + destruct (decide ((t, i) = (t0, i0))) as [[= -> ->] | Hd].
      * rewrite Hn3, lookup_insert_eq. congruence.
      * rewrite (Hsame _ _ _ Ho Hi Hd) in *.
        pose proof (Hc _ _ _ _ Ho Hl2 Hi Hpr Hhu) as Hch.
        by rewrite lookup_insert_ne by (by eapply Hane).
  - intros t p i [[<- [= H2 _]] | [Hne Ho]]%lookup_insert_Some Hi Hhu.
    + rewrite Hempty in Hhu by lia. done.
    + destruct (decide ((t, i) = (t0, i0))) as [[= -> ->] | Hd]; [congruence |].
      rewrite (Hsame _ _ _ Ho Hi Hd) in *. eauto.
  - intros t l p [[<- [= <- <-]] | [Hne Ho]]%lookup_insert_Some Hl4.
    + exists t0. replace (S (pred l0)) with l0 by lia.
      replace ((p0 * 512 + i0) / 512) with p0 by lia.
      replace ((p0 * 512 + i0) mod 512) with i0 by lia.
      rewrite lookup_insert_ne by eauto. done.
    + destruct (Hp _ _ _ Ho Hl4) as (tp & Htp & Hpr & Hhu & Had).
      exists tp. rewrite lookup_insert_ne by eauto. split; [done |].
      rewrite (Hsame tp _ (p mod 512) Htp ltac:(lia)); [done |].
      intros [= -> E]. rewrite Htp in Ht0. injection Ht0 as Hl1 _. rewrite E in *.
      destruct Hold as [Hf | [H2 Hf]]; [congruence |].
      rewrite Hhu in Hf by lia. done.
Qed.

Lemma tree_add_xlate v : xlate m' 4 P v = xlate m 4 P v.
Proof using T HU Ht0 Hl0 Hi0 Hold Ha Haf Hsame Hnew Hempty Hlocal.
  destruct (t_tab _ _ _ _ T _ _ _ Ht0) as (Hl & _).
  pose proof (pfx_step l0 v ltac:(lia)) as Hps. pose proof (idx_bound l0 v) as Hib.
  destruct (Z.eq_dec (pfx (pred l0) v) (p0 * 512 + i0)) as [He | Hne].
  - assert (pfx l0 v = p0) as Hpv by lia. assert (idx l0 v = i0) as Hiv by lia.
    rewrite (xlate_reach _ _ _ _ T t0 l0) by (by rewrite Hpv).
    rewrite (xlate_reach _ _ _ _ tree_add t0 l0).
    2: { rewrite lookup_insert_ne by congruence. by rewrite Hpv. }
    destruct l0 as [| l]; [lia |]. destruct Hnew as (Hn1 & Hn2 & Hn3).
    rewrite xlate_step; rewrite ?Hiv; [rewrite Hn3; by apply Hlocal | lia | done | done].
  - apply (xlate_through _ _ _ _ T m' t0 l0 p0 i0); [done | done | | done].
    exact (t_root _ _ _ _ T).
Qed.
End tree_add.

(** Changing the users of frames does not disturb the tree. *)
Lemma tree_mono m U U' P own :
  tree m U P own -> (forall f, U f -> U' f) -> tree m U' P own.
Proof.
  intros [Hr Ht Hc Hh Hp] HU. split; try done.
  intros t l p Ho. destruct (Ht _ _ _ Ho) as ([? ?] & [? ?] & ? & ? & ?). split_and!; auto.
Qed.

(** ** The invariant of the machine state and the steps that keep it *)

Definition in_use (p : pmm) (f : Z) : Prop := 0 <= f < g_total_frames p /\ used (g_bitmap p) f = true.

(** The frame allocator is well formed and the tables below [P] form a tree whose
    frames are in use. *)
Record good (P : Z) (s : mach) (own : gmap Z (nat * Z)) : Prop := {
  good_pmm : Pmm.wf (m_pmm s);
  good_tree : tree (m_mem s) (in_use (m_pmm s)) P own }.

(** A step keeps the invariant, keeps the tables where they are and changes no
    translation. *)
Definition keeps (P : Z) (s s' : mach) (own own' : gmap Z (nat * Z)) : Prop :=
  good P s' own' /\ own ⊆ own' /\ g_pml4 s' = g_pml4 s /\
  forall v, xlate (m_mem s') 4 P v = xlate (m_mem s) 4 P v.

Lemma keeps_refl P s own : good P s own -> keeps P s s own own.
Proof. done. Qed.

Lemma keeps_trans P s1 s2 s3 o1 o2 o3 :
  keeps P s1 s2 o1 o2 -> keeps P s2 s3 o2 o3 -> keeps P s1 s3 o1 o3.
Proof.
  intros (G1 & S1 & P1 & X1) (G2 & S2 & P2 & X2). split_and!; try done.
  - by trans o2.
  - congruence.
  - intros v. by rewrite X2, X1.
Qed.

(** What the callers of pmm_alloc rely on: a new frame, or NULL. *)
Lemma pmm_alloc_fresh p :
  Pmm.wf p -> exists a p', pmm_alloc p = Some (a, p') /\ Pmm.wf p' /\
    (forall f, in_use p f -> in_use p' f) /\
    (a = 0 \/ (0 < a < 2 ^ 52 /\ a mod 4096 = 0 /\ in_use p' (a / 4096) /\
               ~ in_use p (a / 4096))).
Proof.
  intros Hwf. pose proof (wf_total _ Hwf) as Ht. unfold MAX_FRAMES in Ht.
  destruct (pmm_alloc_correct p Hwf) as (a & p' & Hp & Hw & Hr). exists a, p'.
  split; [done |]. split; [done |].
  destruct Hr as [(f & Hf & Hu & _ & -> & Htot & _ & Hused) | (-> & -> & _)]; [| by eauto].
  split.
  - intros g [Hg1 Hg2]. split; [lia |]. rewrite Hused. by destruct (g =? f).
  - destruct (Z.eq_dec f 0) as [-> | Hf0]; [by left | right].
    unfold PAGE_SIZE. rewrite Z.div_mul, Z.mod_mul by lia.
    change (2 ^ 52) with 4503599627370496. split_and!; try lia.
    + split; [lia |]. by rewrite Hused, Z.eqb_refl.
    + intros [_ H]. congruence.
Qed.

Lemma not_in_use_not_owned m P own p t :
  tree m (in_use p) P own -> ~ in_use p (t / 4096) -> own !! t = None.
Proof.
  intros T Hn. destruct (own !! t) as [[l q] |] eqn:E; [| done].
  destruct (t_tab _ _ _ _ T _ _ _ E) as (_ & _ & _ & Hu & _). done.
Qed.

Lemma ent_empty_xlate m l t v :
  (forall i, 0 <= i < 512 -> ent m t i = 0) -> xlate m l t v = 0.
Proof.
  intros He. destruct l as [| l]; [done |]. cbn [xlate].
  rewrite He by apply idx_bound. by rewrite andb_false_r.
Qed.

Lemma xlate_absent m l t v :
  present (ent m t (idx l v)) = false -> (l = 2%nat -> huge (ent m t (idx l v)) = false) ->
  xlate m l t v = 0.
Proof.
  intros Hp Hh. destruct l as [| l]; [done |]. cbn [xlate]. rewrite Hp.
  destruct (Nat.eqb_spec (S l) 2); [by rewrite Hh | done].
Qed.

Section steps.
Context (P t0 p0 i0 : Z) (l0 : nat) (s : mach) (own : gmap Z (nat * Z)).
Hypothesis G : good P s own.
Hypothesis Ht0 : own !! t0 = Some (l0, p0).
Hypothesis Hl0 : (2 <= l0)%nat.
Hypothesis Hi0 : 0 <= i0 < 512.

(** Taking a frame that is not used for anything yet. *)
Lemma keeps_pmm p' :
  Pmm.wf p' -> (forall f, in_use (m_pmm s) f -> in_use p' f) ->
  keeps P s (with_pmm p' s) own own.
Proof using G.
  intros Hw HU. destruct G as [G1 G2]. split_and!; try done. split; [done |].
  by apply (tree_mono _ (in_use (m_pmm s))).
Qed.

(** An entry that gets a pointer to the new table [a]. *)
Lemma keeps_new a p' m' :
  Pmm.wf p' -> (forall f, in_use (m_pmm s) f -> in_use p' f) ->
  0 < a < 2 ^ 52 -> a mod 4096 = 0 -> in_use p' (a / 4096) -> own !! a = None ->
  present (ent (m_mem s) t0 i0) = false \/ (l0 = 2%nat /\ huge (ent (m_mem s) t0 i0) = true) ->
  (forall t x i, own !! t = Some x -> 0 <= i < 512 -> (t, i) <> (t0, i0) ->
     ent m' t i = ent (m_mem s) t i) ->
  present (ent m' t0 i0) = true /\ huge (ent m' t0 i0) = false /\ addr (ent m' t0 i0) = a ->
  ((3 <= l0)%nat -> forall i, 0 <= i < 512 -> ent m' a i = 0) ->
  (forall v, idx l0 v = i0 -> xlate m' (pred l0) a v = xlate (m_mem s) l0 t0 v) ->
  keeps P s (with_mem m' (with_pmm p' s)) own (<[a := (pred l0, p0 * 512 + i0)]> own).
Proof using G Ht0 Hl0 Hi0.
  intros Hw HU H1 H2 H3 H4 H5 H6 H7 H8 H9. destruct G as [G1 G2]. split_and!.
  - split; [done |]. by apply (tree_add (m_mem s) m' (in_use (m_pmm s)) _ P own t0 p0 i0 a l0).
  - by apply insert_subseteq.
  - done.
  - intros v.
    by apply (tree_add_xlate (m_mem s) m' (in_use (m_pmm s)) (in_use p') P own t0 p0 i0 a l0).
Qed.

Lemma owned_aligned t x : own !! t = Some x -> t mod 4096 = 0.
Proof using G.
  destruct x as [l p]. intros Ho. destruct G as [_ G2].
  by destruct (t_tab _ _ _ _ G2 _ _ _ Ho) as (_ & _ & Hm & _).
Qed.

Lemma add_user_keeps flags :
  keeps P s (add_user flags (t0 + 8 * i0) s) own own /\
  same_fields (ent (m_mem s) t0 i0) (ent (m_mem (add_user flags (t0 + 8 * i0) s)) t0 i0).
Proof using G Ht0 Hi0.
  unfold add_user. destruct (istrue _); [| by split; [apply keeps_refl |]].
  pose proof (owned_aligned _ _ Ht0) as Hm. destruct G as [G1 G2].
  assert (forall t x i, own !! t = Some x -> 0 <= i < 512 ->
    same_fields (ent (m_mem s) t i) (ent (wr (m_mem s) (t0 + 8 * i0)
       (Z.lor (rd (m_mem s) (t0 + 8 * i0)) PAGE_USER)) t i)) as Hs.
  { intros t x i Ho Hi. rewrite ent_wr by eauto using owned_aligned.
    destruct (Z.eqb_spec t t0) as [-> |], (Z.eqb_spec i i0) as [-> |]; simpl; try done.
    apply lor_user. }
  split; [| by eapply Hs].
  split_and!; try done.
  - split; [done |]. exact (tree_sim _ _ _ _ G2 _ Hs).
  - intros v. apply (xlate_sim _ _ _ _ G2 _ Hs _ _ _ _ (t_root _ _ _ _ G2)).
Qed.

(** paging_get_or_create_table at an entry that holds no huge page. *)
Lemma get_or_create_keeps fl :
  (l0 = 2%nat -> huge (ent (m_mem s) t0 i0) = false) -> (fl = 0 \/ fl = 4) ->
  exists t s' own', paging_get_or_create_table (t0 + 8 * i0) fl s = Some (t, s') /\
    keeps P s s' own own' /\ (t = 0 \/ (t <> 0 /\ own' !! t = Some (pred l0, p0 * 512 + i0))).
Proof using G Ht0 Hl0 Hi0.
  intros Hh Hfl. pose proof (owned_aligned _ _ Ht0) as Hm0. pose proof G as [G1 G2].
  unfold paging_get_or_create_table. rewrite istrue_present, land_addr. fold (ent (m_mem s) t0 i0).
  destruct (present (ent (m_mem s) t0 i0)) eqn:Ep.
  - pose proof (t_child _ _ _ _ G2 _ _ _ _ Ht0 Hl0 Hi0 Ep Hh) as Hc.
    destruct (t_tab _ _ _ _ G2 _ _ _ Hc) as (_ & Hpos & _).
    eexists _, s, own. split; [done |]. split; [by apply keeps_refl |]. right. split; [lia | done].
  - destruct (pmm_alloc_fresh _ G1) as (a & p' & -> & Hw & HU & [-> | (Ha & Ham & Hu & Hn)]);
      cbn [mbind option_bind].
    + eexists 0, _, own. split; [done |]. split; [by apply keeps_pmm | by left].
    + destruct (Z.eqb_spec a 0); [lia |].
      pose proof (not_in_use_not_owned _ _ _ _ _ G2 Hn) as Hna.
      assert (t0 <> a) as Hne by congruence.
      eexists a, _, (<[a := (pred l0, p0 * 512 + i0)]> own). split; [done |].
      split; [| right; split; [lia | by rewrite lookup_insert_eq]].
      set (e := Z.lor (Z.lor (Z.lor a PAGE_PRESENT) PAGE_RW) (Z.land fl PAGE_USER)).
      change (m_mem (with_pmm p' s)) with (m_mem s).
      assert (forall i, 0 <= i < 512 ->
        ent (wr (fill_table a (fun _ => 0) (m_mem s)) (t0 + 8 * i0) e) a i = 0) as He.
      { intros i Hi. rewrite ent_wr by done. destruct (Z.eqb_spec a t0); [lia |].
        simpl. by rewrite fill_table_in. }
      apply keeps_new; try done.
      * by left.
      * intros t x i Ho Hi Hd. rewrite ent_wr by eauto using owned_aligned.
        destruct (Z.eqb_spec t t0) as [-> |], (Z.eqb_spec i i0) as [-> |]; simpl; try done;
          apply fill_table_out; eauto using owned_aligned; congruence.
      * rewrite ent_wr, !Z.eqb_refl by done. simpl.
        assert (e = Z.lor a (if fl =? 0 then 3 else 7)) as ->.
        { unfold e. rewrite <- !Z.lor_assoc. by destruct Hfl as [-> | ->]. }
        apply table_entry; try lia; by destruct Hfl as [-> | ->].
      * intros v Hv. rewrite ent_empty_xlate by done.
        symmetry. apply xlate_absent; by rewrite Hv.
Qed.
End steps.

Lemma addr_bounds e : 0 <= addr e < 2 ^ 52 /\ addr e mod 4096 = 0.
Proof.
  unfold addr. change (2 ^ 40) with 1099511627776. change (2 ^ 52) with 4503599627370496. lia.
Qed.

Lemma land_fff v : Z.land v 0xFFF = v mod 4096.
Proof. change 0xFFF with (Z.ones 12). by rewrite Z.land_ones. Qed.

Lemma land_1fffff v : Z.land v 0x1FFFFF = v mod 2097152.
Proof. change 0x1FFFFF with (Z.ones 21). by rewrite Z.land_ones. Qed.

(** An entry of the page table a huge page is split into. *)
Definition split_entry (hp tf i : Z) : Z :=
  Z.lor (Z.lor (Z.lor (u64 (hp + i * PAGE_SIZE)) PAGE_PRESENT) PAGE_RW) tf.

Lemma split_entry_spec hp tf i :
  0 <= hp < 2 ^ 52 -> hp mod 2097152 = 0 -> 0 <= i < 512 -> (tf = 0 \/ tf = 4) ->
  present (split_entry hp tf i) = true /\ addr (split_entry hp tf i) = hp + i * 4096.
Proof.
  intros Hhp Hm Hi Htf. change (2 ^ 52) with 4503599627370496 in Hhp.
  assert (split_entry hp tf i = Z.lor (hp + i * 4096) (if tf =? 0 then 3 else 7)) as ->.
  { unfold split_entry, PAGE_SIZE. rewrite u64_id, <- !Z.lor_assoc by lia.
    by destruct Htf as [-> | ->]. }
  destruct (table_entry (hp + i * 4096) (if tf =? 0 then 3 else 7)) as (H1 & _ & H2);
    try (destruct Htf as [-> | ->]; simpl); try lia; try done.
Qed.

(** A split page translates every address as the huge page did. *)
Lemma split_xlate hp tf m a v :
  0 <= hp < 2 ^ 52 -> hp mod 2097152 = 0 -> (tf = 0 \/ tf = 4) ->
  (forall i, 0 <= i < 512 -> ent m a i = split_entry hp tf i) ->
  xlate m 1 a v = Z.lor hp (Z.land v 0x1FFFFF).
Proof.
  intros Hhp Hm Htf He. cbn [xlate Nat.eqb andb]. pose proof (idx_bound 1 v) as Hi.
  destruct (split_entry_spec hp tf (idx 1 v) Hhp Hm Hi Htf) as (Hp & Ha).
  rewrite He by done. rewrite Hp, Ha. cbn [negb].
  rewrite land_fff, land_1fffff.
  rewrite (lor_add_disjoint hp _ 21) by (change (2 ^ 21) with 2097152; lia).
  rewrite lor_small_page by lia.
  simpl idx in *. unfold idx_pt in *. rewrite idx_div in * by lia. change (2 ^ 12) with 4096 in *.
  lia.
Qed.

Section split.
Context (P t0 p0 i0 : Z) (s : mach) (own : gmap Z (nat * Z)).
Hypothesis G : good P s own.
Hypothesis Ht0 : own !! t0 = Some (2%nat, p0).
Hypothesis Hi0 : 0 <= i0 < 512.

Lemma split_huge_keeps tf :
  (tf = 0 \/ tf = 4) ->
  exists ok s' own', split_huge (t0 + 8 * i0) tf s = Some (ok, s') /\
    keeps P s s' own own' /\ (ok = true -> huge (ent (m_mem s') t0 i0) = false).
Proof using G Ht0 Hi0.
  intros Htf. pose proof (owned_aligned _ _ _ G) as Hal. pose proof (Hal _ _ Ht0) as Hm0.
  pose proof G as [G1 G2]. unfold split_huge. rewrite istrue_huge. fold (ent (m_mem s) t0 i0).
  destruct (huge (ent (m_mem s) t0 i0)) eqn:Eh.
  2: { eexists _, s, own. split; [done |]. split; [by apply keeps_refl | done]. }
  destruct (pmm_alloc_fresh _ G1) as (a & p' & -> & Hw & HU & [-> | (Ha & Ham & Hu & Hn)]);
    cbn [mbind option_bind].
  - eexists false, _, own. split; [done |]. split; [by apply keeps_pmm | done].
  - destruct (Z.eqb_spec a 0); [lia |].
    pose proof (not_in_use_not_owned _ _ _ _ _ G2 Hn) as Hna.
    assert (t0 <> a) as Hne by congruence.
    change (m_mem (with_pmm p' s)) with (m_mem s). fold (ent (m_mem s) t0 i0).
    rewrite land_addr.
    destruct (t_huge _ _ _ _ G2 _ _ _ Ht0 Hi0 Eh) as (Ep & Hhp).
    destruct (addr_bounds (ent (m_mem s) t0 i0)) as (Hhb & _).
    remember (addr (ent (m_mem s) t0 i0)) as hp eqn:Ehp.
    set (e := Z.lor (Z.lor (Z.lor a PAGE_PRESENT) PAGE_RW) tf).
    set (m' := wr (fill_table a _ (m_mem s)) (t0 + 8 * i0) e).
    assert (present e = true /\ huge e = false /\ addr e = a) as Hte.
    { assert (e = Z.lor a (if tf =? 0 then 3 else 7)) as ->.
      { unfold e. rewrite <- !Z.lor_assoc. by destruct Htf as [-> | ->]. }
      apply table_entry; try lia; by destruct Htf as [-> | ->]. }
    assert (ent m' t0 i0 = e) as He0
      by (unfold m'; rewrite ent_wr, !Z.eqb_refl by done; done).
    assert (forall i, 0 <= i < 512 -> ent m' a i = split_entry hp tf i) as Hsp.
    { intros i Hi. unfold m'. rewrite ent_wr by done. destruct (Z.eqb_spec a t0); [lia |].
      cbn [andb]. by rewrite fill_table_in. }
    assert (forall t x i, own !! t = Some x -> 0 <= i < 512 -> (t, i) <> (t0, i0) ->
              ent m' t i = ent (m_mem s) t i) as Hsm.
    { clear Hsp He0. intros t x i Ho Hi Hd. unfold m'. rewrite ent_wr by eauto.
      destruct (Z.eqb_spec t t0) as [-> |], (Z.eqb_spec i i0) as [-> |]; cbn [andb];
        [congruence | | |]; apply fill_table_out; eauto; congruence. }
    eexists true, (with_mem m' (with_pmm p' s)), (<[a := (1%nat, p0 * 512 + i0)]> own).
    split; [done |].
    clearbody m' e. cbn [m_mem with_mem].
    split; [| intros _; rewrite He0; tauto].
    apply (keeps_new P t0 p0 i0 2 s own G Ht0 ltac:(lia) Hi0 a p' m'); try done.
    + by right.
    + rewrite He0. exact Hte.
    + lia.
    + intros v Hv. cbn [pred]. rewrite (split_xlate hp tf) by done.
      cbn [xlate Nat.eqb andb]. by rewrite Hv, Eh, <- Ehp.
Qed.
End split.

(** ** Properties *)

(** The number of the 4 KiB page of a virtual address (48-bit addresses). *)
Definition vpn (v : Z) : Z := pfx 0 v.

Section map_leaf.
Context (P t1 p1 : Z) (s : mach) (own : gmap Z (nat * Z)).
Hypothesis G : good P s own.
Hypothesis Ht1 : own !! t1 = Some (1%nat, p1).

(** Any write to an entry of a page table keeps the tree and changes only the
    translation of the page of that entry. *)
Lemma leaf_write i e :
  0 <= i < 512 ->
  let m' := wr (m_mem s) (t1 + 8 * i) e in
  tree m' (in_use (m_pmm s)) P own /\
  forall v, xlate m' 4 P v =
    if vpn v =? p1 * 512 + i
    then (if present e then Z.lor (addr e) (Z.land v 0xFFF) else 0)
    else xlate (m_mem s) 4 P v.
Proof using G Ht1.
  intros Hi m'. pose proof (owned_aligned _ _ _ G) as Hal. pose proof (Hal _ _ Ht1) as Hm1.
  pose proof G as [G1 G2].
  assert (forall t x j, own !! t = Some x -> 0 <= j < 512 -> (t, j) <> (t1, i) ->
            ent m' t j = ent (m_mem s) t j) as Hs.
  { intros t x j Ho Hj Hd. unfold m'. rewrite ent_wr by eauto.
    destruct (Z.eqb_spec t t1) as [-> |], (Z.eqb_spec j i) as [-> |]; done. }
  assert (forall t l p j, own !! t = Some (l, p) -> (2 <= l)%nat -> 0 <= j < 512 ->
            ent m' t j = ent (m_mem s) t j) as Hup.
  { intros t l p j Ho Hl Hj. eapply Hs; [done | done |]. intros [= -> _].
    rewrite Ho in Ht1. injection Ht1 as -> _. lia. }
  assert (tree m' (in_use (m_pmm s)) P own) as T'.
  { destruct G2 as [Hr Ht Hc Hh Hp]. split; try done.
    - intros t l p j Ho Hl Hj. rewrite (Hup _ _ _ _ Ho Hl Hj). eauto.
    - intros t p j Ho Hj. rewrite (Hup _ _ _ _ Ho ltac:(lia) Hj). eauto.
    - intros t l p Ho Hl. destruct (Ht _ _ _ Ho) as (Hl1 & _).
      destruct (Hp _ _ _ Ho Hl) as (tp & Htp & H).
      exists tp. rewrite (Hup tp _ _ (p mod 512) Htp) by lia. done. }
  split; [done |]. intros v.
  pose proof (pfx_step 1 v ltac:(lia)) as Hps. cbn [pred] in Hps. fold (vpn v) in Hps.
  pose proof (idx_bound 1 v) as Hib.
  destruct (Z.eqb_spec (vpn v) (p1 * 512 + i)) as [He | Hne].
  - assert (pfx 1 v = p1) as Hpv by lia. assert (idx 1 v = i) as Hiv by lia.
    rewrite (xlate_reach _ _ _ _ T' t1 1) by (by rewrite Hpv).
    cbn [xlate Nat.eqb andb]. rewrite Hiv. unfold m'. rewrite ent_wr, !Z.eqb_refl by done.
    cbn [andb]. by destruct (present e).
  - apply (xlate_through _ _ _ _ G2 m' t1 1 p1 i); [done | done | | done].
    exact (t_root _ _ _ _ G2).
Qed.
End map_leaf.

Lemma user_flag flags : Z.land flags PAGE_USER = 0 \/ Z.land flags PAGE_USER = 4.
Proof.
  assert (Z.land flags PAGE_USER = if Z.testbit flags 2 then 4 else 0) as ->.
  2: destruct (Z.testbit flags 2); auto.
  apply Z.bits_inj'. intros n Hn. rewrite Z.land_spec. change PAGE_USER with (Z.shiftl 1 2).
  rewrite testbit_shiftl_1 by lia.
  destruct (Z.eqb_spec n 2) as [-> | Hne].
  - destruct (Z.testbit flags 2); done.
  - rewrite andb_false_r. destruct (Z.testbit flags 2); [| by rewrite Z.bits_0].
    change 4 with (Z.shiftl 1 2). rewrite testbit_shiftl_1 by lia.
    symmetry. by apply Z.eqb_neq.
Qed.

(** The entry paging_map_page_on writes into the page table. *)
Lemma pte_spec phys flags :
  Z.land flags PAGE_ADDR_MASK = 0 ->
  let e := Z.lor (Z.land phys PAGE_ADDR_MASK) (Z.lor flags PAGE_PRESENT) in
  present e = true /\ addr e = Z.land phys PAGE_ADDR_MASK.
Proof.
  intros Hf e. split.
  - unfold present, e. rewrite !Z.lor_spec. change (Z.testbit PAGE_PRESENT 0) with true.
    by rewrite !orb_true_r.
  - rewrite <- land_addr. unfold e. rewrite !Z.land_lor_distr_l, Hf, <- Z.land_assoc, Z.land_diag.
    change (Z.land PAGE_PRESENT PAGE_ADDR_MASK) with 0. by rewrite !Z.lor_0_r.
Qed.

(** Mapping a page takes frames and gives none back. *)
Definition grows (s s' : mach) : Prop :=
  Pmm.wf (m_pmm s) ->
  Pmm.wf (m_pmm s') /\ forall f, in_use (m_pmm s) f -> in_use (m_pmm s') f.

#[global] Instance grows_po : PreOrder grows.
Proof.
  split; [by intros s Hw |]. intros s1 s2 s3 H1 H2 Hw. destruct (H1 Hw) as [Hw2 U1].
  destruct (H2 Hw2) as [Hw3 U2]. eauto.
Qed.

Lemma get_or_create_grows e fl s r s' :
  paging_get_or_create_table e fl s = Some (r, s') -> grows s s'.
Proof.
  intros H Hw. unfold paging_get_or_create_table in H.
  destruct (istrue _); [by injection H as _ <- |].
  destruct (pmm_alloc_fresh _ Hw) as (a & p' & Ea & Hw' & HU & _). rewrite Ea in H.
  cbn [mbind option_bind] in H. destruct (a =? 0); injection H as _ <-; done.
Qed.

Lemma split_huge_grows e fl s r s' : split_huge e fl s = Some (r, s') -> grows s s'.
Proof.
  intros H Hw. unfold split_huge in H.
  destruct (istrue _); [| by injection H as _ <-].
  destruct (pmm_alloc_fresh _ Hw) as (a & p' & Ea & Hw' & HU & _). rewrite Ea in H.
  cbn [mbind option_bind] in H. destruct (a =? 0); injection H as _ <-; done.
Qed.

Lemma add_user_grows fl e s : grows s (add_user fl e s).
Proof. unfold add_user. by destruct (istrue _). Qed.

Lemma paging_map_page_on_grows P virt phys flags s r s' :
  paging_map_page_on P virt phys flags s = Some (r, s') -> grows s s'.
Proof.
  unfold paging_map_page_on. intros H.
  destruct (paging_get_or_create_table _ _ s) as [[t3 s1] |] eqn:E1; [| done].
  cbn [mbind option_bind] in H. apply get_or_create_grows in E1. etrans; [exact E1 |].
  destruct (t3 =? 0); [by injection H as _ <- |]. etrans; [apply add_user_grows |].
  destruct (paging_get_or_create_table _ _ (add_user _ _ s1)) as [[t2 s2] |] eqn:E2; [| done].
  cbn [mbind option_bind] in H. apply get_or_create_grows in E2. etrans; [exact E2 |].
  destruct (t2 =? 0); [by injection H as _ <- |]. etrans; [apply add_user_grows |].
  destruct (split_huge _ _ _) as [[ok s3] |] eqn:E3; [| done].
  cbn [mbind option_bind] in H. apply split_huge_grows in E3. etrans; [exact E3 |].
  destruct ok; cbn [negb] in H; [| by injection H as _ <-]. etrans; [apply add_user_grows |].
  destruct (paging_get_or_create_table _ _ (add_user _ _ s3)) as [[t1 s4] |] eqn:E4; [| done].
  cbn [mbind option_bind] in H. apply get_or_create_grows in E4. etrans; [exact E4 |].
  by destruct (t1 =? 0); injection H as _ <-.
Qed.

Lemma paging_map_page_on_correct (P virt phys flags : Z) (s : mach) (own : gmap Z (nat * Z))
    (G : good P s own) (Hflags : Z.land flags PAGE_ADDR_MASK = 0) :
  exists r s' own', paging_map_page_on P virt phys flags s = Some (r, s') /\ good P s' own' /\
    g_pml4 s' = g_pml4 s /\
    ((r = 0 /\ forall v, paging_get_phys_on P v s' =
        if vpn v =? vpn virt then Z.lor (Z.land phys PAGE_ADDR_MASK) (Z.land v 0xFFF)
        else paging_get_phys_on P v s)
     \/ (r = -1 /\ forall v, paging_get_phys_on P v s' = paging_get_phys_on P v s)).
Proof.
  setoid_rewrite get_phys_xlate. unfold paging_map_page_on.
  assert (forall o s2 own2, keeps P s s2 own own2 ->
    exists r s' own', Some (-1, s2) = Some (r, s') /\ good P s' own' /\ g_pml4 s' = g_pml4 s /\
     (r = 0 /\ o s' \/ r = -1 /\ forall v, xlate (m_mem s') 4 P v = xlate (m_mem s) 4 P v))
    as Hfail.
  { intros o s2 own2 (G2 & _ & E2 & X). exists (-1), s2, own2. split_and!; auto. }
  pose proof (user_flag flags) as Hu.
  assert (Z.land (Z.land flags PAGE_USER) PAGE_USER = Z.land flags PAGE_USER) as Huu
    by (destruct Hu as [-> | ->]; done).
  (* PML4 *)
  pose proof (t_root _ _ _ _ (good_tree _ _ _ G)) as H4.
  destruct (get_or_create_keeps P P 0 (idx_pml4 virt) 4 s own G H4 ltac:(lia) (idx_range _ _)
    (Z.land flags PAGE_USER) ltac:(done) Hu) as (t3 & s1 & o1 & -> & K1 & H3).
  cbn [mbind option_bind]. destruct (Z.eqb_spec t3 0) as [| Hn3]; [by eapply Hfail |].
  destruct H3 as [| [_ H3]]; [done |]. cbn [pred] in H3.
  pose proof K1 as (G1 & S1 & _ & _).
  destruct (add_user_keeps P P 0 (idx_pml4 virt) 4 s1 o1 G1
    (lookup_weaken _ _ _ _ H4 S1) (idx_range _ _) flags) as (K2 & _).
  pose proof (keeps_trans _ _ _ _ _ _ _ K1 K2) as K12. clear K1 K2 G1 S1. pose proof K12 as (G1 & _).
  (* PDPT *)
  destruct (get_or_create_keeps P t3 _ (idx_pdpt virt) 3 _ o1 G1 H3 ltac:(lia) (idx_range _ _)
    (Z.land flags PAGE_USER) ltac:(done) Hu) as (t2 & s2 & o2 & -> & K3 & H2).
  cbn [mbind option_bind]. pose proof (keeps_trans _ _ _ _ _ _ _ K12 K3) as K13.
  destruct (Z.eqb_spec t2 0) as [| Hn2]; [by eapply Hfail |].
  destruct H2 as [| [_ H2]]; [done |]. cbn [pred] in H2.
  pose proof K3 as (G2 & S2 & _ & _).
  destruct (add_user_keeps P t3 _ (idx_pdpt virt) 3 s2 o2 G2
    (lookup_weaken _ _ _ _ H3 S2) (idx_range _ _) flags) as (K4 & _).
  pose proof (keeps_trans _ _ _ _ _ _ _ K13 K4) as K14. clear K3 K13 K4 G2 S2 K12 G1.
  pose proof K14 as (G1 & _).
  (* PD: split a huge page *)
  destruct (split_huge_keeps P t2 _ (idx_pd virt) _ o2 G1 H2 (idx_range _ _)
    (Z.land flags PAGE_USER) Hu) as (ok & s3 & o3 & -> & K5 & Hok).
  cbn [mbind option_bind]. pose proof (keeps_trans _ _ _ _ _ _ _ K14 K5) as K15.
  destruct ok; cbn [negb]; [| by eapply Hfail]. specialize (Hok eq_refl).
  pose proof K5 as (G3 & S3 & _ & _). pose proof (lookup_weaken _ _ _ _ H2 S3) as H2'.
  destruct (add_user_keeps P t2 _ (idx_pd virt) 2 s3 o3 G3 H2' (idx_range _ _) flags)
    as (K6 & (_ & Hhuge & _)).
  rewrite Hok in Hhuge.
  pose proof (keeps_trans _ _ _ _ _ _ _ K15 K6) as K16. pose proof K16 as (G4 & _).
  (* PD: the page table *)
  destruct (get_or_create_keeps P t2 _ (idx_pd virt) 2 _ o3 G4 H2' ltac:(lia) (idx_range _ _)
    (Z.land flags PAGE_USER) ltac:(done) Hu) as (t1 & s4 & o4 & -> & K7 & H1).
  cbn [mbind option_bind]. pose proof (keeps_trans _ _ _ _ _ _ _ K16 K7) as K17.
  destruct (Z.eqb_spec t1 0) as [| Hn1]; [by eapply Hfail |].
  destruct H1 as [| [_ H1]]; [done |]. cbn [pred] in H1.
  pose proof K17 as (G5 & _ & E5 & X5).
  (* PT: the entry *)
  destruct (pte_spec phys flags Hflags) as (Hpp & Hpa).
  set (e := Z.lor (Z.land phys PAGE_ADDR_MASK) (Z.lor flags PAGE_PRESENT)) in *.
  destruct (leaf_write P t1 _ s4 o4 G5 H1 (idx_pt virt) e (idx_range _ _)) as (T' & X').
  eexists 0, _, o4. split; [done |]. split; [split; [apply (good_pmm _ _ _ G5) | done] |].
  split; [exact E5 |].
  left. split; [done |]. intros v. change (m_mem (with_mem ?m s4)) with m. rewrite X', Hpp, Hpa, X5.
  pose proof (pfx_step 1 virt ltac:(lia)) as E1. pose proof (pfx_step 2 virt ltac:(lia)) as E2.
  pose proof (pfx_step 3 virt ltac:(lia)) as E3. pose proof (pfx_step 4 virt ltac:(lia)) as E4.
  cbn [pred idx] in *. change (pfx 4 virt) with 0 in E4.
  assert (vpn virt = (((0 * 512 + idx_pml4 virt) * 512 + idx_pdpt virt) * 512 + idx_pd virt) * 512
                     + idx_pt virt) as -> by (unfold vpn; lia).
  done.
Qed.

(** C1: in a well-formed machine, paging_map_page_on with a flag word that has no
    address bits either returns 0 and then exactly the page of [virt] translates to
    [phys] (with its offset kept) while every other address translates as before --
    also when missing tables were created, [PAGE_USER] was added to shared entries or
    a 2 MiB page was split into 512 small ones -- or returns -1 and no translation
    changes. The invariant (a tree of disjoint tables in used frames, a well-formed
    frame allocator) holds afterwards in both cases. *)
Theorem paging_map_page_on_spec (P virt phys flags : Z) (s : mach) (own : gmap Z (nat * Z))
    (G : good P s own) (Hflags : Z.land flags PAGE_ADDR_MASK = 0) :
  exists r s' own', paging_map_page_on P virt phys flags s = Some (r, s') /\ good P s' own' /\
    g_pml4 s' = g_pml4 s /\
    ((r = 0 /\ forall v, paging_get_phys_on P v s' =
        if vpn v =? vpn virt then Z.lor (Z.land phys PAGE_ADDR_MASK) (Z.land v 0xFFF)
        else paging_get_phys_on P v s)
     \/ (r = -1 /\ forall v, paging_get_phys_on P v s' = paging_get_phys_on P v s)).
Proof. exact (paging_map_page_on_correct P virt phys flags s own G Hflags). Qed.

(** *** Unmapping *)

(** The page table that translates [virt], when the walk reaches one. *)
Definition page_table_of (P virt : Z) (s : mach) : Z :=
  let pdpt := addr (ent (m_mem s) P (idx_pml4 virt)) in
  let pd := addr (ent (m_mem s) pdpt (idx_pdpt virt)) in
  addr (ent (m_mem s) pd (idx_pd virt)).

(** The entries above the page table are present. *)
Definition walk_present (P virt : Z) (s : mach) : bool :=
  let pdpt := addr (ent (m_mem s) P (idx_pml4 virt)) in
  let pd := addr (ent (m_mem s) pdpt (idx_pdpt virt)) in
  present (ent (m_mem s) P (idx_pml4 virt)) && present (ent (m_mem s) pdpt (idx_pdpt virt)) &&
  present (ent (m_mem s) pd (idx_pd virt)).

Definition in_huge_page (P virt : Z) (s : mach) : bool :=
  let pdpt := addr (ent (m_mem s) P (idx_pml4 virt)) in
  let pd := addr (ent (m_mem s) pdpt (idx_pdpt virt)) in
  huge (ent (m_mem s) pd (idx_pd virt)).

Lemma paging_unmap_page_eq virt s :
  let pt := page_table_of (g_pml4 s) virt s in
  let e := ent (m_mem s) pt (idx_pt virt) in
  paging_unmap_page virt s =
    if walk_present (g_pml4 s) virt s && present e then
      p ← (if istrue (addr e) then pmm_free (addr e) (m_pmm s) else Some (m_pmm s));
      Some (0, with_mem (wr (m_mem s) (pt + 8 * idx_pt virt) 0) (with_pmm p s))
    else Some (-1, s).
Proof.
  unfold paging_unmap_page, walk_present, page_table_of, ent.
  rewrite !istrue_present, !land_addr.
  destruct (present _); [| done]. destruct (present _); [| done].
  destruct (present _); [| done]. cbn [negb andb]. by destruct (present _).
Qed.

Lemma page_table_owned P virt s own :
  good P s own -> walk_present P virt s = true -> in_huge_page P virt s = false ->
  own !! page_table_of P virt s = Some (1%nat, pfx 1 virt).
Proof.
  intros [_ T] Hw Hh. unfold walk_present, in_huge_page, page_table_of in *.
  apply andb_prop in Hw as [[H4 H3]%andb_prop H2].
  pose proof (t_root _ _ _ _ T) as R.
  pose proof (t_child _ _ _ _ T _ _ _ _ R ltac:(lia) (idx_bound 4 virt) H4 ltac:(done)) as R3.
  pose proof (t_child _ _ _ _ T _ _ _ _ R3 ltac:(cbn; lia) (idx_bound 3 virt) H3 ltac:(done)) as R2.
  pose proof (t_child _ _ _ _ T _ _ _ _ R2 ltac:(cbn; lia) (idx_bound 2 virt) H2 ltac:(done)) as R1.
  cbn [idx pred] in R1. rewrite R1. do 2 f_equal.
  pose proof (pfx_step 2 virt ltac:(lia)). pose proof (pfx_step 3 virt ltac:(lia)).
  pose proof (pfx_step 4 virt ltac:(lia)). cbn [pred idx] in *.
  change (pfx 4 virt) with 0 in *. unfold idx_pml4, idx_pdpt, idx_pd in *. lia.
Qed.

Lemma xlate_absent_walk P virt s :
  walk_present P virt s = false -> in_huge_page P virt s = false ->
  xlate (m_mem s) 4 P virt = 0.
Proof.
  rewrite <- get_phys_xlate. unfold walk_present, in_huge_page, paging_get_phys_on, ent.
  rewrite !istrue_present, !istrue_huge, !land_addr.
  destruct (present _); [| done]. destruct (present _); [| done].
  cbn [negb andb]. intros -> ->. done.
Qed.

Lemma pmm_free_in_use p f p' a :
  Pmm.wf p -> 0 <= a -> pmm_free a p = Some p' ->
  in_use p f -> f <> a / PAGE_SIZE -> Pmm.wf p' /\ in_use p' f.
Proof.
  intros Hw Ha Hf [Hr Hu] Hne.
  destruct (pmm_free_correct p a Hw Ha) as (q & Hq & Hwq & Hs). rewrite Hq in Hf.
  injection Hf as ->. split; [done |].
  destruct (_ && _); [| by subst].
  destruct Hs as (Ht & _ & Hus). split; [lia |]. rewrite Hus.
  by destruct (Z.eqb_spec f (a / PAGE_SIZE)).
Qed.


(** Also: paging_unmap_page does not test PAGE_HUGE. Inside a 2 MiB page it takes the
    mapped data for a page table: the word [w] of data at [8 * idx_pt virt] decides.
    When its bit 0 is clear the page is reported as not mapped although it is; when
    it is 1, the call reports success, has overwritten that word of the data with 0,
    and every address still translates as before. *)
Theorem paging_unmap_page_huge (virt : Z) (s : mach) (own : gmap Z (nat * Z))
    (G : good (g_pml4 s) s own) (Hw : walk_present (g_pml4 s) virt s = true)
    (Hh : in_huge_page (g_pml4 s) virt s = true)
    (Hf : own !! page_table_of (g_pml4 s) virt s = None) :
  let data := page_table_of (g_pml4 s) virt s + 8 * idx_pt virt in
  paging_get_phys virt s = Z.lor (page_table_of (g_pml4 s) virt s) (Z.land virt 0x1FFFFF) /\
  (present (rd (m_mem s) data) = false -> paging_unmap_page virt s = Some (-1, s)) /\
  (rd (m_mem s) data = 1 -> exists s',
     paging_unmap_page virt s = Some (0, s') /\ m_mem s' = wr (m_mem s) data 0 /\
     forall v, paging_get_phys v s' = paging_get_phys v s).
Proof.
  intros data. pose proof (paging_unmap_page_eq virt s) as E. cbv zeta in E.
  unfold ent in E. fold data in E. rewrite Hw in E. cbn [andb] in E. split_and!.
  - unfold paging_get_phys, paging_get_phys_on, in_huge_page, walk_present, page_table_of, ent in *.
    rewrite !istrue_present, !istrue_huge, !land_addr.
    apply andb_prop in Hw as [[-> ->]%andb_prop _]. by rewrite Hh.
  - intros Hp. by rewrite E, Hp.
  - intros H1. rewrite H1 in E. eexists. split; [exact E |]. split; [done |].
    intros v. unfold paging_get_phys. rewrite !get_phys_xlate. cbn [g_pml4 m_mem with_mem with_pmm].
    eapply (xlate_sim _ _ _ _ (good_tree _ _ _ G)); [| exact (t_root _ _ _ _ (good_tree _ _ _ G))].
    intros t x i Ho Hi. unfold data. rewrite ent_wr; [| | by eapply owned_aligned | apply idx_range | done].
    2: apply addr_bounds.
    destruct (Z.eqb_spec t (page_table_of (g_pml4 s) virt s)) as [-> |]; [congruence | done].
Qed.

(** *** Cloning the address space *)

Lemma copy_loop_ent (n : nat) (src dst : Z) (m : gmap Z Z) :
  dst mod 4096 = 0 -> src mod 4096 = 0 -> src <> dst -> Z.of_nat n <= 512 ->
  forall t i, t mod 4096 = 0 -> 0 <= i < 512 ->
    ent (loop n 0 (fun i m => wr m (dst + 8 * i) (rd m (src + 8 * i))) m) t i =
      if (t =? dst) && (i <? Z.of_nat n) then ent m src i else ent m t i.
Proof.
  intros Hd Hs Hne Hn.
  pose proof (loop_inv (fun k m' => forall t i, t mod 4096 = 0 -> 0 <= i < 512 ->
      ent m' t i = if (t =? dst) && (i <? k) then ent m src i else ent m t i)
    (fun i m => wr m (dst + 8 * i) (rd m (src + 8 * i))) n 0 m) as H.
  apply H.
  - intros t' i' _ Hi'. destruct (Z.ltb_spec i' 0); [lia |]. by rewrite andb_false_r.
  - intros k m1 Hk IH t' i' Ht' Hi'. rewrite ent_wr by (done || lia).
    fold (ent m1 src k). rewrite !IH by (done || lia).
    destruct (Z.eqb_spec src dst); [done |].
    destruct (Z.eqb_spec t' dst), (Z.eqb_spec i' k) as [-> |], (Z.ltb_spec k (k + 1));
      cbn [andb]; try lia; try done.
    destruct (Z.ltb_spec i' k), (Z.ltb_spec i' (k + 1)); try done; lia.
Qed.

Lemma copy_entries_ent (src dst : Z) (m : gmap Z Z) :
  dst mod 4096 = 0 -> src mod 4096 = 0 -> src <> dst ->
  forall t i, t mod 4096 = 0 -> 0 <= i < 512 ->
    ent (copy_entries dst src m) t i = if t =? dst then ent m src i else ent m t i.
Proof.
  intros Hd Hs Hne t i Ht Hi. unfold copy_entries.
  assert (Z.of_nat PAGE_TABLE_ENTRIES = 512) as H512 by reflexivity.
  rewrite copy_loop_ent by (done || lia). rewrite H512.
  destruct (Z.ltb_spec i 512); [| lia]. by rewrite andb_true_r.
Qed.

#[local] Opaque copy_entries.

(** Also: paging_clone_current returns 0 and changes nothing in memory when there is no
    free frame; otherwise it returns a frame that was free, whose table translates
    every address as the current one does. The current address space is unchanged
    and its invariant holds. *)
Theorem paging_clone_current_spec (s : mach) (own : gmap Z (nat * Z))
    (G : good (g_pml4 s) s own) :
  exists r s', paging_clone_current s = Some (r, s') /\ good (g_pml4 s) s' own /\
    g_pml4 s' = g_pml4 s /\
    (forall v, paging_get_phys v s' = paging_get_phys v s) /\
    (r = 0 /\ m_mem s' = m_mem s \/
     0 < r /\ in_use (m_pmm s') (r / 4096) /\ ~ in_use (m_pmm s) (r / 4096) /\
     forall v, paging_get_phys_on r v s' = paging_get_phys v s).
Proof.
  unfold paging_get_phys. setoid_rewrite get_phys_xlate. unfold paging_clone_current.
  pose proof G as [G1 G2].
  destruct (pmm_alloc_fresh (m_pmm s) G1) as (a & p & -> & Hp & Hin & Hc).
  cbn [mbind option_bind]. destruct (Z.eqb_spec a 0) as [-> | H0].
  - eexists 0, _. split; [done |]. split_and!; [| done | done | by left].
    split; [done |]. exact (tree_mono _ _ _ _ _ G2 Hin).
  - destruct Hc as [| (Ha & Ham & Hau & Han)]; [done |].
    pose proof (not_in_use_not_owned _ _ _ _ _ G2 Han) as Hno.
    pose proof (t_root _ _ _ _ G2) as R.
    pose proof (owned_aligned _ _ _ G) as Hal. pose proof (Hal _ _ R) as HmP.
    assert (g_pml4 s <> a) as Hne by congruence.
    pose proof (copy_entries_ent (g_pml4 s) a (m_mem s) Ham HmP Hne) as Hl.
    cbn [m_mem with_pmm g_pml4].
    generalize dependent (copy_entries a (g_pml4 s) (m_mem s)). intros m' Hl.
    assert (forall t x i, own !! t = Some x -> 0 <= i < 512 -> ent m' t i = ent (m_mem s) t i) as Hs.
    { intros t x i Ho Hi. rewrite Hl by eauto. destruct (Z.eqb_spec t a); [congruence | done]. }
    assert (forall t x i, own !! t = Some x -> 0 <= i < 512 ->
      same_fields (ent (m_mem s) t i) (ent m' t i)) as Hs'.
    { intros t x i Ho Hi. by rewrite (Hs _ _ _ Ho Hi). }
    eexists a, _. split; [done |]. cbn [m_mem with_mem with_pmm g_pml4 m_pmm]. split_and!.
    + split; [done |]. cbn [m_mem with_mem with_pmm m_pmm].
      exact (tree_mono _ _ _ _ _ (tree_sim _ _ _ _ G2 m' Hs') Hin).
    + done.
    + intros v. eapply (xlate_sim _ _ _ _ G2 m' Hs'); exact R.
    + right. split_and!; try done; [lia |]. intros v. cbn [xlate Nat.eqb andb].
      rewrite Hl, Z.eqb_refl by (done || apply idx_bound).
      pose proof (idx_bound 4 v) as Hi. destruct (present (ent (m_mem s) (g_pml4 s) (idx 4 v))) eqn:Ep;
        [| done]. cbn [negb].
      change (xlate m' 3 (addr (ent (m_mem s) (g_pml4 s) (idx 4 v))) v =
              xlate (m_mem s) 3 (addr (ent (m_mem s) (g_pml4 s) (idx 4 v))) v).
      refine (xlate_sim _ _ _ _ G2 m' Hs' 3 _ (0 * 512 + idx 4 v) v _).
      exact (t_child _ _ _ _ G2 _ _ _ _ R ltac:(lia) Hi Ep ltac:(done)).
Qed.

(** ** An example machine

    The tables at frames 1 to 4 map page 0 to frame 5, and a 2 MiB page maps
    the addresses from 2 MiB on to the physical addresses from 4 MiB on. *)

Definition mem_ex : gmap Z Z :=
  wr (wr (wr (wr (wr ∅ 0x1000 0x2007) 0x2000 0x3007) 0x3000 0x4007) 0x3008 0x400087) 0x4000 0x5007.
Definition mach_ex : mach := mkMach mem_ex pmm_ex 0x1000.
Definition own_ex : gmap Z (nat * Z) :=
  <[0x1000 := (4%nat, 0)]> (<[0x2000 := (3%nat, 0)]> (<[0x3000 := (2%nat, 0)]>
  (<[0x4000 := (1%nat, 0)]> ∅))).

Lemma mem_ex_rd a : rd mem_ex a =
  if 0x4000 =? a then 0x5007 else if 0x3008 =? a then 0x400087 else if 0x3000 =? a then 0x4007
  else if 0x2000 =? a then 0x3007 else if 0x1000 =? a then 0x2007 else 0.
Proof. unfold mem_ex. by rewrite !rd_wr. Qed.

Lemma own_ex_inv t l p : own_ex !! t = Some (l, p) ->
  p = 0 /\ (t = 0x1000 /\ l = 4%nat \/ t = 0x2000 /\ l = 3%nat \/
            t = 0x3000 /\ l = 2%nat \/ t = 0x4000 /\ l = 1%nat).
Proof.
  unfold own_ex. intros H.
  repeat (apply lookup_insert_Some in H as [[<- [= <- <-]] | [_ H]]; [split; [done | tauto] |]).
  done.
Qed.

Lemma mach_ex_good : good 0x1000 mach_ex own_ex.
Proof.
  split; [exact pmm_ex_wf |]. cbn [m_mem mach_ex m_pmm]. split.
  - done.
  - intros t l p Ho. apply own_ex_inv in Ho as (-> & [[-> ->] | [[-> ->] | [[-> ->] | [-> ->]]]]);
      split_and!; try done; lia.
  - intros t l p i Ho. unfold ent. rewrite mem_ex_rd.
    apply own_ex_inv in Ho as (-> & [[-> ->] | [[-> ->] | [[-> ->] | [-> ->]]]]); intros Hl Hi;
      repeat match goal with |- context [?a =? ?b] => destruct (Z.eqb_spec a b) end;
      try (exfalso; lia); try (intros ?; done);
      try (intros _ _; replace i with 0 by lia; done).
    intros _ Hf. by specialize (Hf eq_refl).
  - intros t p i Ho Hi. unfold ent. rewrite mem_ex_rd.
    apply own_ex_inv in Ho as (-> & [[-> ?] | [[-> ?] | [[-> ?] | [-> ?]]]]); try done;
      repeat match goal with |- context [?a =? ?b] => destruct (Z.eqb_spec a b) end;
      try (exfalso; lia); done.
  - intros t l p Ho Hl.
    apply own_ex_inv in Ho as (-> & [[-> ->] | [[-> ->] | [[-> ->] | [-> ->]]]]); try (exfalso; lia).
    + exists 0x1000. done.
    + exists 0x2000. done.
    + exists 0x3000. done.
Qed.

Lemma paging_map_page_on_spec_witness :
  exists r s' own', paging_map_page_on 0x1000 0x200000 0x7000 2 mach_ex = Some (r, s') /\
    good 0x1000 s' own'.
Proof.
  destruct (paging_map_page_on_spec 0x1000 0x200000 0x7000 2 mach_ex own_ex mach_ex_good
    ltac:(done)) as (r & s' & own' & Hm & G & _).
  exists r, s', own'. exact (conj Hm G).
Defined.

Example paging_map_page_on_ex :
  (r ← paging_map_page_on 0x1000 0x201000 0x7000 2 mach_ex;
   Some (fst r, paging_get_phys_on 0x1000 0x201234 (snd r),
         paging_get_phys_on 0x1000 0x202234 (snd r), paging_get_phys_on 0x1000 0x34 (snd r)))
  = Some (0, 0x7234, 0x402234, 0x5034).
Proof. vm_compute. reflexivity. Qed.


Definition mach_data_ex : mach := mkMach (wr mem_ex 0x400000 1) pmm_ex 0x1000.

Lemma mach_data_good : good 0x1000 mach_data_ex own_ex.
Proof.
  split; [exact pmm_ex_wf |]. cbn [m_mem mach_data_ex m_pmm].
  apply (tree_sim _ _ _ _ (good_tree _ _ _ mach_ex_good)). cbn [m_mem mach_ex].
  intros t [l p] i Ho Hi. unfold ent. rewrite rd_wr.
  apply own_ex_inv in Ho as (-> & Ho). destruct (Z.eqb_spec 0x400000 (t + 8 * i)); [lia | done].
Qed.

Lemma paging_unmap_page_huge_witness :
  exists s', paging_unmap_page 0x200000 mach_data_ex = Some (0, s') /\
    m_mem s' = wr (m_mem mach_data_ex) 0x400000 0.
Proof.
  destruct (paging_unmap_page_huge 0x200000 mach_data_ex own_ex mach_data_good
    ltac:(done) ltac:(done) ltac:(done)) as (_ & _ & H).
  destruct (H ltac:(done)) as (s' & H1 & H2 & _). exists s'. exact (conj H1 H2).
Defined.

Lemma paging_clone_current_spec_witness :
  exists r s', paging_clone_current mach_ex = Some (r, s') /\ 0 < r.
Proof.
  destruct (paging_clone_current_spec mach_ex own_ex mach_ex_good)
    as (r & s' & H & _ & _ & _ & [[-> _] | [Hr _]]).
  - vm_compute in H. discriminate H.
  - exists r, s'. exact (conj H Hr).
Defined.

#[local] Transparent copy_entries fill_table.

(** A clone shares every table below the PML4: a page mapped in the clone appears in
    the current address space. *)
Example clone_shares_tables :
  (r ← paging_clone_current mach_ex;
   r' ← paging_map_page_on (fst r) 0x5000 0x7000 2 (snd r);
   Some (fst r', paging_get_phys 0x5000 mach_ex, paging_get_phys 0x5000 (snd r')))
  = Some (0, 0, 0x7000).
Proof. vm_compute. reflexivity. Qed.
