(* ===== verification/Heap.v ===== *)
(** * Kernel heap (src/mm/heap.c)

    The heap is a list of blocks in virtual memory, each with the packed 25-byte
    header [size] (8 bytes), [free] (1), [next] (8), [prev] (8); a header is its
    address. [h_mem] is the memory the heap pages are mapped to, [h_mach] the page
    tables and the frame allocator the heap grows with. [None] is a fault of the
    frame allocator, or a walk of the list that did not end. *)

From S2P Require Import Prelude Memory Pmm Paging.

Definition HEAP_START : Z := 0xFFFF880000000000.
Definition HEAP_ALIGN : Z := 16.
Definition HEADER_SIZE : Z := 25.
Definition MIN_BLOCK : Z := 64.

Record heap := mkHeap {
  h_mem : mem;
  h_mach : mach;
  g_heap_start : Z;
  g_heap_end : Z;
  g_heap_virt : Z;
  g_heap_virt_top : Z }.

Definition set_mem (m : mem) (h : heap) : heap :=
  mkHeap m (h_mach h) (g_heap_start h) (g_heap_end h) (g_heap_virt h) (g_heap_virt_top h).
Definition set_mach (s : mach) (h : heap) : heap :=
  mkHeap (h_mem h) s (g_heap_start h) (g_heap_end h) (g_heap_virt h) (g_heap_virt_top h).

(** ** The header fields *)

Definition size_of (m : mem) (h : Z) : Z := ld64 m h.
Definition free_of (m : mem) (h : Z) : Z := ld8 m (h + 8).
Definition next_of (m : mem) (h : Z) : Z := ld64 m (h + 9).
Definition prev_of (m : mem) (h : Z) : Z := ld64 m (h + 17).
Definition set_size (h v : Z) (m : mem) : mem := st64 h v m.
Definition set_free (h v : Z) (m : mem) : mem := st8 (h + 8) v m.
Definition set_next (h v : Z) (m : mem) : mem := st64 (h + 9) v m.
Definition set_prev (h v : Z) (m : mem) : mem := st64 (h + 17) v m.

Definition heap_create_block (virt size : Z) (m : mem) : mem :=
  set_prev virt 0 (set_next virt 0 (set_free virt 1 (set_size virt size m))).

Definition heap_coalesce (h : Z) (m : mem) : mem :=
  if istrue (next_of m h) && istrue (free_of m (next_of m h)) then
    let m := set_size h (u64 (size_of m h + size_of m (next_of m h))) m in
    let m := set_next h (next_of m (next_of m h)) m in
    if istrue (next_of m h) then set_prev (next_of m h) h m else m
  else m.

(** The state before heap_init, and heap_init; the results of the frame allocation and
    of the mapping are not tested. *)
Definition heap_boot (s : mach) : heap := mkHeap ∅ s 0 0 HEAP_START HEAP_START.

Definition heap_init (h : heap) : option heap :=
  r ← pmm_alloc_contiguous 256 (m_pmm (h_mach h));
  let '(phys, p) := r in
  r ← paging_map_range (g_heap_virt h) phys 256 PAGE_RW (with_pmm p (h_mach h));
  let m := heap_create_block (g_heap_virt h) (256 * PAGE_SIZE) (h_mem h) in
  Some (mkHeap m (snd r) (g_heap_virt h) (g_heap_virt h) (g_heap_virt h)
          (u64 (g_heap_virt h + 256 * PAGE_SIZE))).

(** ** Allocation *)

(** The bytes a request takes: rounded up to 16, with the header, at least 64. *)
Definition block_total (size : Z) : Z :=
  let size := if istrue (Z.land size (HEAP_ALIGN - 1))
              then Z.land (u64 (size + HEAP_ALIGN - 1)) (u64 (Z.lnot (HEAP_ALIGN - 1)))
              else size in
  let total := u64 (size + HEADER_SIZE) in
  if total <? MIN_BLOCK then MIN_BLOCK else total.

(** The walk over the list: the first free block of at least [total] bytes, or 0. *)
Fixpoint find_block (fuel : nat) (curr total : Z) (m : mem) : option Z :=
  match fuel with
  | O => None
  | S fuel' =>
      if negb (istrue curr) then Some 0
      else if istrue (free_of m curr) && (total <=? size_of m curr) then Some curr
      else find_block fuel' (next_of m curr) total m
  end.

(** The split of the block [curr], and its reservation. *)
Definition carve (curr total : Z) (m : mem) : mem :=
  let m :=
    if u64 (total + MIN_BLOCK) <=? size_of m curr then
      let new_h := u64 (curr + total) in
      let m := set_size new_h (u64 (size_of m curr - total)) m in
      let m := set_free new_h 1 m in
      let m := set_next new_h (next_of m curr) m in
      let m := set_prev new_h curr m in
      let m := if istrue (next_of m new_h) then set_prev (next_of m new_h) new_h m else m in
      let m := set_next curr new_h m in
      set_size curr total m
    else m in
  set_free curr 0 m.

(** The same for a block just created, which has no successor to update. *)
Definition carve_new (new_h total : Z) (m : mem) : mem :=
  let m :=
    if u64 (total + MIN_BLOCK) <=? size_of m new_h then
      let split_h := u64 (new_h + total) in
      let m := set_size split_h (u64 (size_of m new_h - total)) m in
      let m := set_free split_h 1 m in
      let m := set_next split_h (next_of m new_h) m in
      let m := set_prev split_h new_h m in
      let m := set_next new_h split_h m in
      set_size new_h total m
    else m in
  set_free new_h 0 m.

(** The pages of a new block; [false] when there is no frame left. *)
Fixpoint grow_pages (n : nat) (i virt : Z) (s : mach) : option (bool * mach) :=
  match n with
  | O => Some (true, s)
  | S n' =>
      r ← pmm_alloc (m_pmm s);
      let '(frame, p) := r in
      let s := with_pmm p s in
      if negb (istrue frame) then Some (false, s)
      else
        r ← paging_map_page (u64 (virt + i * PAGE_SIZE)) frame PAGE_RW s;
        grow_pages n' (i + 1) virt (snd r)
  end.

Definition heap_grow (total : Z) (h : heap) : option (Z * heap) :=
  let grow := if 0x10000 <? total then total else 0x10000 in
  let pages := u64 (grow + PAGE_SIZE - 1) / PAGE_SIZE in
  let virt := g_heap_virt_top h in
  r ← grow_pages (Z.to_nat pages) 0 virt (h_mach h);
  let '(ok, s) := r in
  if negb (ok : bool) then Some (0, set_mach s h)
  else
    let m := heap_create_block virt (u64 (pages * PAGE_SIZE)) (h_mem h) in
    let m := set_prev virt (g_heap_end h) m in
    let m := set_next (g_heap_end h) virt m in
    let h := mkHeap m s (g_heap_start h) virt (g_heap_virt h)
               (u64 (g_heap_virt_top h + pages * PAGE_SIZE)) in
    if total <=? size_of m virt
    then Some (u64 (virt + HEADER_SIZE), set_mem (carve_new virt total m) h)
    else Some (0, h).

(** Blocks are at least [MIN_BLOCK] long, which bounds the length of the list. *)
Definition heap_fuel (h : heap) : nat :=
  Z.to_nat ((g_heap_virt_top h - HEAP_START) / MIN_BLOCK + 2).

Definition kmalloc (size : Z) (h : heap) : option (Z * heap) :=
  if size =? 0 then Some (0, h)
  else
    let total := block_total size in
    curr ← find_block (heap_fuel h) (g_heap_start h) total (h_mem h);
    if istrue curr
    then Some (u64 (curr + HEADER_SIZE), set_mem (carve curr total (h_mem h)) h)
    else heap_grow total h.

(** ** Release and the derived operations *)

Definition kfree (ptr : Z) (h : heap) : heap :=
  if negb (istrue ptr) then h
  else
    let b := u64 (ptr - HEADER_SIZE) in
    let m := set_free b 1 (h_mem h) in
    if istrue (prev_of m b) && istrue (free_of m (prev_of m b))
    then set_mem (heap_coalesce (prev_of m b) m) h
    else set_mem (heap_coalesce b m) h.

Definition kcalloc (count size : Z) (h : heap) : option (Z * heap) :=
  let total := u64 (count * size) in
  r ← kmalloc total h;
  let '(ptr, h) := r in
  if istrue ptr
  then Some (ptr, set_mem (loop (Z.to_nat total) 0 (fun i m => wrb (ptr + i) 0 m) (h_mem h)) h)
  else Some (ptr, h).

Definition krealloc (ptr new_size : Z) (h : heap) : option (Z * heap) :=
  if negb (istrue ptr) then kmalloc new_size h
  else if new_size =? 0 then Some (0, kfree ptr h)
  else
    let old_data := u64 (size_of (h_mem h) (u64 (ptr - HEADER_SIZE)) - HEADER_SIZE) in
    let old_data := if new_size <? old_data then new_size else old_data in
    r ← kmalloc new_size h;
    let '(new_ptr, h) := r in
    if istrue new_ptr
    then
      let m := loop (Z.to_nat old_data) 0
                 (fun i m => wrb (new_ptr + i) (rdb m (ptr + i)) m) (h_mem h) in
      Some (new_ptr, kfree ptr (set_mem m h))
    else Some (new_ptr, h).

Definition ksize (ptr : Z) (h : heap) : Z :=
  if negb (istrue ptr) then 0
  else u64 (size_of (h_mem h) (u64 (ptr - HEADER_SIZE)) - HEADER_SIZE).

(** ** Specification: the heap as a list of blocks *)

Record blk := Blk { b_size : Z; b_free : bool }.

Definition bytes_of (bs : list blk) : Z := foldr (fun b n => b_size b + n) 0 bs.

(** First fit, with the blocks before and after the one found. *)
Fixpoint fit (total : Z) (bs : list blk) : option (list blk * blk * list blk) :=
  match bs with
  | [] => None
  | b :: bs' =>
      if b_free b && (total <=? b_size b) then Some ([], b, bs')
      else '(pre, c, post) ← fit total bs'; Some (b :: pre, c, post)
  end.

Definition reserve (total : Z) (b : blk) : list blk :=
  if total + MIN_BLOCK <=? b_size b
  then [Blk total false; Blk (b_size b - total) true] else [Blk (b_size b) false].

(** A released block merges with a free block before it, or else with one after it. *)
Definition merge (b c : blk) : blk := Blk (b_size b + b_size c) true.
Definition release_next (b : blk) (post : list blk) : list blk :=
  match post with
  | c :: post' => if b_free c then merge b c :: post' else Blk (b_size b) true :: post
  | [] => [Blk (b_size b) true]
  end.
Fixpoint release (pre : list blk) (b : blk) (post : list blk) : list blk :=
  match pre with
  | [] => release_next b post
  | [p] => if b_free p then merge p b :: post else p :: release_next b post
  | p :: pre' => p :: release pre' b post
  end.

(** The header [h] in memory describes [b]. *)
Definition header (m : mem) (h : Z) (b : blk) (next prev : Z) : Prop :=
  size_of m h = b_size b /\ free_of m h = (if b_free b then 1 else 0) /\
  next_of m h = next /\ prev_of m h = prev /\ MIN_BLOCK <= b_size b.

Definition or_end (bs : list blk) (a nxt : Z) : Z := match bs with [] => nxt | _ => a end.

(** The blocks [bs] lie in memory from [a] on without gaps and are linked in order; the
    first follows the header [prev], the last is followed by [nxt]. *)
Fixpoint seg (m : mem) (prev a : Z) (bs : list blk) (nxt : Z) : Prop :=
  match bs with
  | [] => True
  | b :: bs' =>
      header m a b (or_end bs' (a + b_size b) nxt) prev /\ seg m a (a + b_size b) bs' nxt
  end.

(** Bytes that belong to the caller: inside an allocated block, after its header. *)
Fixpoint payload (a : Z) (bs : list blk) (x : Z) : Prop :=
  match bs with
  | [] => False
  | b :: bs' => (b_free b = false /\ a + HEADER_SIZE <= x < a + b_size b) \/
                payload (a + b_size b) bs' x
  end.

Record repr (h : heap) (bs : list blk) : Prop := {
  r_start : g_heap_start h = HEAP_START;
  r_some : bs <> [];
  r_seg : seg (h_mem h) 0 HEAP_START bs 0;
  r_top : HEAP_START + bytes_of bs = g_heap_virt_top h;
  r_lim : g_heap_virt_top h <= 18446744073709547520 }.

(** ** Lemmas on headers and segments *)

(** Reads a field after writes of fields. *)
Ltac fields :=
  unfold size_of, free_of, next_of, prev_of, set_size, set_free, set_next, set_prev in *;
  repeat first [rewrite ld64_st64 by lia | rewrite ld8_st8 by lia | rewrite ld_st_out by lia].

Ltac agrees :=
  unfold set_size, set_free, set_next, set_prev;
  repeat (apply agree_st; [lia |]); apply agree_refl.

Lemma header_agree m m' h b n p :
  agree m m' h HEADER_SIZE -> header m h b n p -> header m' h b n p.
Proof.
  unfold HEADER_SIZE. intros Ha (H1 & H2 & H3 & H4 & H5).
  unfold header, size_of, free_of, next_of, prev_of in *.
  rewrite <- H1, <- H2, <- H3, <- H4. split_and!; try done;
    try (apply ld_agree; eapply agree_sub; [exact Ha | lia | lia]).
  lia.
Qed.

Lemma bytes_of_app l1 l2 : bytes_of (l1 ++ l2) = bytes_of l1 + bytes_of l2.
Proof. induction l1 as [| b l1 IH]; simpl; [done |]. unfold bytes_of in *. lia. Qed.

Lemma seg_sizes m prev a bs nxt : seg m prev a bs nxt -> Forall (fun b => MIN_BLOCK <= b_size b) bs.
Proof.
  revert prev a. induction bs as [| b bs IH]; intros prev a; [constructor |].
  intros [(_ & _ & _ & _ & H) Hs]. constructor; [done | by eapply IH].
Qed.

Lemma bytes_of_min bs :
  Forall (fun b => MIN_BLOCK <= b_size b) bs -> MIN_BLOCK * zlen bs <= bytes_of bs.
Proof.
  induction 1 as [| b bs Hb _ IH]; [done |]. rewrite zlen_cons. simpl.
  unfold bytes_of, MIN_BLOCK in *. lia.
Qed.

Lemma seg_min m prev a bs nxt : seg m prev a bs nxt -> MIN_BLOCK * zlen bs <= bytes_of bs.
Proof. intros H. by eapply bytes_of_min, seg_sizes. Qed.

Lemma seg_nonneg m prev a bs nxt : seg m prev a bs nxt -> 0 <= bytes_of bs.
Proof. intros H%seg_min. pose proof (zlen_nonneg bs). unfold MIN_BLOCK in *. lia. Qed.

Lemma seg_agree m m' bs : forall prev a nxt,
  agree m m' a (bytes_of bs) -> seg m prev a bs nxt -> seg m' prev a bs nxt.
Proof.
  induction bs as [| b bs IH]; intros prev a nxt Ha; [done |].
  intros [Hh Hs]. pose proof (seg_nonneg _ _ _ _ _ Hs) as Hn. simpl in Ha.
  fold (bytes_of bs) in Ha. pose proof Hh as (_ & _ & _ & _ & Hb). unfold MIN_BLOCK in Hb. split.
  - eapply header_agree; [| exact Hh]. eapply agree_sub; [exact Ha | lia | unfold HEADER_SIZE; lia].
  - apply IH; [| done]. eapply agree_sub; [exact Ha | lia | lia].
Qed.

(** The address of the last block. *)
Fixpoint last_of (prev a : Z) (bs : list blk) : Z :=
  match bs with [] => prev | b :: bs' => last_of a (a + b_size b) bs' end.

Lemma seg_app m l1 l2 : forall prev a nxt,
  seg m prev a (l1 ++ l2) nxt <->
  seg m prev a l1 (or_end l2 (a + bytes_of l1) nxt) /\
  seg m (last_of prev a l1) (a + bytes_of l1) l2 nxt.
Proof.
  induction l1 as [| b l1 IH]; intros prev a nxt.
  - simpl. rewrite Z.add_0_r. tauto.
  - cbn [app seg last_of]. rewrite IH. cbn [bytes_of foldr]. fold (bytes_of l1).
    rewrite Z.add_assoc.
    assert (or_end (l1 ++ l2) (a + b_size b) nxt
            = or_end l1 (a + b_size b) (or_end l2 (a + b_size b + bytes_of l1) nxt)) as ->; [| tauto].
    destruct l1; simpl; [by rewrite Z.add_0_r | done].
Qed.

(** The writes to the [prev] field of the first block. *)
Lemma seg_set_prev m prev a bs nxt p :
  0 <= p < 18446744073709551616 -> seg m prev a bs nxt -> seg (set_prev a p m) p a bs nxt.
Proof.
  intros Hp. destruct bs as [| b bs]; [done |]. intros [(H1 & H2 & H3 & H4 & H5) Hs].
  unfold MIN_BLOCK in H5. split.
  - unfold header. split_and!; try done; by fields.
  - eapply seg_agree; [| exact Hs]. agrees.
Qed.

Lemma last_of_range prev a m bs nxt :
  seg m prev a bs nxt -> bs <> [] -> a <= last_of prev a bs <= a + bytes_of bs - MIN_BLOCK.
Proof.
  revert prev a. induction bs as [| b bs IH]; intros prev a Hs Hne; [done |].
  destruct Hs as [(_ & _ & _ & _ & Hb) Hs]. simpl. fold (bytes_of bs).
  destruct bs as [| c bs]; [simpl; lia |].
  specialize (IH _ _ Hs ltac:(done)). unfold MIN_BLOCK in *. lia.
Qed.

(** ** The walk and the split *)

Lemma fit_Some total bs pre b post :
  fit total bs = Some (pre, b, post) ->
  bs = pre ++ b :: post /\ b_free b = true /\ total <= b_size b.
Proof.
  revert pre. induction bs as [| c bs IH]; intros pre; [done |]. cbn [fit].
  destruct (b_free c && (total <=? b_size c)) eqn:E.
  - intros [= <- <- <-]. bprop. done.
  - destruct (fit total bs) as [[[pre' b'] post'] |]; [| done]. cbn.
    intros [= <- <- <-]. destruct (IH pre' eq_refl) as (-> & H). done.
Qed.

Lemma find_block_spec total m bs : forall fuel prev a,
  seg m prev a bs 0 -> (length bs < fuel)%nat -> 0 < a ->
  find_block fuel (or_end bs a 0) total m =
    Some match fit total bs with Some (pre, _, _) => a + bytes_of pre | None => 0 end.
Proof.
  induction bs as [| b bs IH]; intros fuel prev a Hs Hf Ha;
    (destruct fuel as [| fuel]; [simpl in Hf; lia |]); [done |].
  cbn [find_block or_end fit]. unfold istrue at 1. destruct (Z.eqb_spec a 0); [lia |]. cbn [negb].
  destruct Hs as [(-> & -> & -> & _ & Hb) Hs]. unfold MIN_BLOCK in Hb.
  assert (istrue (if b_free b then 1 else 0) = b_free b) as -> by (by destruct (b_free b)).
  destruct (b_free b && (total <=? b_size b)); [simpl; f_equal; lia |].
  rewrite (IH fuel a) by (done || simpl in Hf; lia).
  destruct (fit total bs) as [[[pre c] post] |]; [| done]. cbn. f_equal.
  fold (bytes_of pre). lia.
Qed.

Section carve.
Context (m : mem) (prev a total : Z) (b : blk) (post : list blk).
Hypothesis Hs : seg m prev a (b :: post) 0.
Hypothesis Ha : 0 < a.
Hypothesis Hlim : a + bytes_of (b :: post) <= 18446744073709547520.
Hypothesis Ht : MIN_BLOCK <= total <= b_size b.
Hypothesis Hprev : 0 <= prev < 18446744073709551616.

Lemma carve_spec : seg (carve a total m) prev a (reserve total b ++ post) 0.
Proof using Hs Ha Hlim Ht Hprev.
  pose proof Hs as [(H1 & H2 & H3 & H4 & H5) Hp]. simpl in Hlim. fold (bytes_of post) in Hlim.
  pose proof (seg_nonneg _ _ _ _ _ Hp) as Hn. pose proof (seg_min _ _ _ _ _ Hp) as Hmin.
  unfold carve, reserve, MIN_BLOCK in *. rewrite H1, u64_id by lia.
  destruct (Z.leb_spec (total + 64) (b_size b)); cbn [app].
  - rewrite (u64_id (a + total)), u64_id by lia. set (n := a + total) in *.
    assert (forall m0, size_of m0 n = b_size b - total -> free_of m0 n = 1 ->
      next_of m0 n = or_end post (a + b_size b) 0 -> prev_of m0 n = a ->
      prev_of m0 a = prev -> seg m0 n (a + b_size b) post 0 ->
      seg (set_free a 0 (set_size a total (set_next a n m0))) prev a
        (Blk total false :: Blk (b_size b - total) true :: post) 0) as Hk.
    { intros m0 K1 K2 K3 K4 K5 K6. split; [| split].
      - unfold header, MIN_BLOCK. cbn [b_size b_free or_end]. fold n. split_and!; try lia; by fields.
      - cbn [b_size]. fold n. replace (n + (b_size b - total)) with (a + b_size b) by lia.
        unfold header, MIN_BLOCK. cbn [b_size b_free]. split_and!; try lia; by fields.
      - cbn [b_size]. fold n. replace (n + (b_size b - total)) with (a + b_size b) by lia.
        eapply seg_agree; [| exact K6]. agrees. }
    set (m1 := set_size n (b_size b - total) m). set (m2 := set_free n 1 m1).
    assert (next_of m2 a = or_end post (a + b_size b) 0) as -> by (unfold m2, m1; by fields).
    set (m3 := set_next n (or_end post (a + b_size b) 0) m2). set (m4 := set_prev n a m3).
    assert (0 <= or_end post (a + b_size b) 0 < 18446744073709551616) as Ho
      by (destruct post; simpl; lia).
    assert (next_of m4 n = or_end post (a + b_size b) 0) as -> by (unfold m4, m3; by fields).
    assert (seg m4 a (a + b_size b) post 0) as Hp4.
    { eapply seg_agree; [| exact Hp]. unfold m4, m3, m2, m1. agrees. }
    destruct post as [| c post']; cbn [or_end] in *.
    + change (istrue 0) with false. cbv iota. apply Hk; try (unfold m4, m3, m2, m1; by fields); done.
    + unfold istrue. destruct (Z.eqb_spec (a + b_size b) 0); [lia |]. cbn [negb].
      assert (64 <= b_size c) by (destruct Hp as [(_ & _ & _ & _ & ?) _]; done).
      apply Hk; try (unfold m4, m3, m2, m1; by fields).
      apply (seg_set_prev _ a); [lia | done].
  - split; cbn [b_size]; [| eapply seg_agree; [| exact Hp]; agrees].
    unfold header, MIN_BLOCK. cbn [b_size b_free]. split_and!; try lia; by fields.
Qed.

(** Only bytes of the block itself and of the next header are written. *)
Lemma carve_frame x :
  x < a \/ a + b_size b + HEADER_SIZE <= x \/ (post = [] /\ a + b_size b <= x) ->
  rdb (carve a total m) x = rdb m x.
Proof using Hs Ha Hlim Ht Hprev.
  intros Hx. pose proof Hs as [(H1 & H2 & H3 & H4 & H5) Hp].
  simpl in Hlim. fold (bytes_of post) in Hlim. pose proof (seg_nonneg _ _ _ _ _ Hp) as Hn.
  unfold carve, MIN_BLOCK, HEADER_SIZE in *. rewrite H1, u64_id by lia.
  destruct (Z.leb_spec (total + 64) (b_size b)).
  2: { unfold set_free. rewrite rdb_st_out by lia. done. }
  rewrite (u64_id (a + total)), u64_id by lia. set (n := a + total) in *.
  assert (0 <= or_end post (a + b_size b) 0 < 18446744073709551616) as Ho
    by (destruct post; simpl; lia).
  set (m2 := set_free n 1 (set_size n (b_size b - total) m)).
  assert (next_of m2 a = or_end post (a + b_size b) 0) as -> by (unfold m2; by fields).
  set (m' := set_prev n a (set_next n _ m2)).
  assert (next_of m' n = or_end post (a + b_size b) 0) as ->.
  { unfold m', m2. by fields. }
  assert (rdb m' x = rdb m x) as E.
  { unfold m', m2, set_size, set_free, set_next, set_prev. rewrite !rdb_st_out by lia. done. }
  unfold set_free at 1, set_size at 1, set_next at 1. rewrite !rdb_st_out by lia.
  destruct post as [| c post']; [done |]. cbn [or_end] in *.
  destruct (istrue _); [| done]. unfold set_prev at 1. rewrite rdb_st_out; [done |].
  destruct Hx as [? | [? | [[=] _]]]; lia.
Qed.
End carve.

(** ** Payloads *)

Lemma payload_app l1 l2 x : forall a,
  payload a (l1 ++ l2) x <-> payload a l1 x \/ payload (a + bytes_of l1) l2 x.
Proof.
  induction l1 as [| b l1 IH]; intros a; simpl.
  - rewrite Z.add_0_r. tauto.
  - fold (bytes_of l1). rewrite IH, Z.add_assoc. tauto.
Qed.

Lemma payload_range bs x : forall a,
  Forall (fun b => MIN_BLOCK <= b_size b) bs -> payload a bs x ->
  a + HEADER_SIZE <= x < a + bytes_of bs.
Proof.
  induction bs as [| b bs IH]; intros a Hf; [done |]. inversion Hf as [| ? ? Hb Hf']. subst.
  pose proof (bytes_of_min bs Hf'). pose proof (zlen_nonneg bs).
  change (bytes_of (b :: bs)) with (b_size b + bytes_of bs).
  cbn [payload]. unfold MIN_BLOCK, HEADER_SIZE in *.
  intros [[_ Hx] | Hx]; [lia |]. apply (IH _ Hf') in Hx. lia.
Qed.

Lemma payload_around pre b post a x :
  Forall (fun b => MIN_BLOCK <= b_size b) (pre ++ b :: post) -> b_free b = true ->
  payload a (pre ++ b :: post) x ->
  x < a + bytes_of pre \/ a + bytes_of pre + b_size b + HEADER_SIZE <= x.
Proof.
  intros Hf Hb. apply Forall_app in Hf as [Hf1 Hf2]. inversion Hf2 as [| ? ? _ Hf3]. subst.
  rewrite payload_app. intros [Hx | [[Hx _] | Hx]].
  - left. apply (payload_range _ _ _ Hf1) in Hx. lia.
  - congruence.
  - right. apply (payload_range _ _ _ Hf3) in Hx. lia.
Qed.

Lemma block_total_spec size :
  0 < size < 9223372036854775808 ->
  MIN_BLOCK <= block_total size <= 9223372036854775872 /\ size + HEADER_SIZE <= block_total size.
Proof.
  intros Hs. unfold block_total, HEAP_ALIGN, HEADER_SIZE, MIN_BLOCK.
  assert (Z.land (u64 (size + 16 - 1)) (u64 (Z.lnot (16 - 1))) = (size + 15) / 16 * 16) as ->.
  { rewrite u64_id by lia. change (u64 (Z.lnot (16 - 1))) with (Z.shiftl (Z.ones 60) 4).
    change 16 with (2 ^ 4) at 2 3. rewrite <- Z.shiftr_div_pow2, <- Z.shiftl_mul_pow2 by lia.
    replace (size + 16 - 1) with (size + 15) by lia.
    apply Z.bits_inj'. intros n Hn. rewrite Z.land_spec, !Z.shiftl_spec by lia.
    destruct (Z.lt_ge_cases n 4).
    - by rewrite !(Z.testbit_neg_r _ (n - 4)), andb_false_r by lia.
    - rewrite Z.shiftr_spec, Z.sub_add by lia.
      destruct (Z.lt_ge_cases n 64).
      + rewrite Z.ones_spec_low by lia. apply andb_true_r.
      + assert (Z.testbit (size + 15) n = false) as ->; [| done].
        rewrite <- (Z.mod_small (size + 15) (2 ^ 64)) by lia. apply Z.mod_pow2_bits_high. lia. }
  destruct (istrue _); rewrite u64_id by lia;
    match goal with |- context [?a <? 64] => destruct (Z.ltb_spec a 64) end; lia.
Qed.

Lemma reserve_bytes total b : bytes_of (reserve total b) = b_size b.
Proof. unfold reserve. destruct (_ <=? _); simpl; lia. Qed.

Lemma kmalloc_correct (h : heap) (bs : list blk) (size : Z) (R : repr h bs)
    (Hs : 0 < size < 9223372036854775808) :
  match fit (block_total size) bs with
  | Some (pre, b, post) =>
      let ptr := HEAP_START + bytes_of pre + HEADER_SIZE in
      let bs' := pre ++ reserve (block_total size) b ++ post in
      exists h', kmalloc size h = Some (ptr, h') /\ repr h' bs' /\
        (forall x, payload HEAP_START bs x -> rdb (h_mem h') x = rdb (h_mem h) x) /\
        (forall x, ptr <= x < ptr + size ->
           payload HEAP_START bs' x /\ ~ payload HEAP_START bs x)
  | None => kmalloc size h = heap_grow (block_total size) h
  end.
Proof.
  destruct (block_total_spec size Hs) as [Ht1 Ht2]. destruct R as [R1 R2 R3 R4 R5].
  pose proof (seg_min _ _ _ _ _ R3) as Hmin. pose proof (seg_sizes _ _ _ _ _ R3) as Hsz.
  pose proof (find_block_spec (block_total size) (h_mem h) bs (heap_fuel h) 0 HEAP_START R3) as Hf.
  assert (length bs < heap_fuel h)%nat as Hfuel.
  { unfold heap_fuel, MIN_BLOCK, zlen in *. rewrite <- R4. lia. }
  specialize (Hf Hfuel ltac:(done)). unfold kmalloc.
  destruct (Z.eqb_spec size 0); [lia |]. rewrite R1.
  destruct bs as [| b0 bs0] eqn:Ebs; [done |]. cbn [or_end] in Hf. rewrite <- Ebs in *.
  set (total := block_total size) in *. clearbody total. rewrite Hf. cbn [mbind option_bind].
  destruct (fit total bs) as [[[pre b] post] |] eqn:Ef; [| done].
  destruct (fit_Some _ _ _ _ _ Ef) as (E & Hb & Hbt). clear Ebs b0 bs0 Ef Hf. subst bs.
  apply seg_app in R3 as [Sp Sb]. cbn [or_end] in Sp.
  pose proof (seg_nonneg _ _ _ _ _ Sp) as Hnp. pose proof (seg_nonneg _ _ _ _ _ Sb) as Hnb.
  rewrite bytes_of_app in R4. unfold HEAP_START, MIN_BLOCK, HEADER_SIZE in *.
  set (a := 0xFFFF880000000000 + bytes_of pre) in *.
  unfold istrue. destruct (Z.eqb_spec a 0); [lia |]. cbn [negb].
  assert (0 <= last_of 0 0xFFFF880000000000 pre < a) as Hlast.
  { destruct pre as [| c pre]; [simpl in *; lia |].
    pose proof (last_of_range _ _ _ _ _ Sp ltac:(done)) as Hl. unfold MIN_BLOCK in Hl. lia. }
  pose proof (carve_spec _ _ _ total _ _ Sb ltac:(lia) ltac:(lia) ltac:(unfold MIN_BLOCK; lia)
    ltac:(lia)) as Sc.
  pose proof (carve_frame _ _ _ total _ _ Sb ltac:(lia) ltac:(lia) ltac:(unfold MIN_BLOCK; lia)
    ltac:(lia)) as Fc. unfold HEADER_SIZE in Fc.
  simpl in R4. fold (bytes_of post) in R4.
  exists (set_mem (carve a total (h_mem h)) h). split_and!.
  - rewrite u64_id by (simpl in Hnb; fold (bytes_of post) in Hnb;
      destruct Sb as [_ Sb']; pose proof (seg_nonneg _ _ _ _ _ Sb'); lia). done.
  - split; cbn [g_heap_start h_mem set_mem g_heap_virt_top]; try done.
    + intros [_ [Hr _]%app_eq_nil]%app_eq_nil. unfold reserve in Hr.
      by destruct (_ <=? _) in Hr.
    + apply seg_app. change (HEAP_START + bytes_of pre) with a. split; [| exact Sc]. assert (or_end (reserve total b ++ post) a 0 = a) as ->
        by (unfold reserve; by destruct (_ <=? _)).
      eapply seg_agree; [| exact Sp]. intros x Hx. apply Fc. unfold HEAP_START in Hx. lia.
    + rewrite !bytes_of_app, reserve_bytes. unfold HEAP_START. lia.
  - intros x Hx. apply Fc.
    pose proof (payload_around _ _ _ _ _ Hsz Hb Hx) as H. unfold HEADER_SIZE in H. lia.
  - intros x Hx. split.
    + rewrite !payload_app. change (HEAP_START + bytes_of pre) with a. right. left. unfold reserve, MIN_BLOCK.
      destruct (_ <=? _); cbn [payload b_size b_free]; unfold HEADER_SIZE; left; split; done || lia.
    + intros Hp. pose proof (payload_around _ _ _ _ _ Hsz Hb Hp) as H. unfold HEADER_SIZE in H.
      change (HEAP_START + bytes_of pre) with a in H. lia.
Qed.

(** C2: for a request below 2^63 bytes kmalloc refines first fit on the list of
    blocks. When a free block is large enough it returns a pointer just after the
    header of the first such block, splits the block, and the heap in memory is the
    list after that split; the caller's bytes lie inside the returned block and
    belonged to nobody before, and no byte of an allocated block is changed. When no
    block fits, the heap is grown. The list walk ends within its bound. *)
Theorem kmalloc_spec (h : heap) (bs : list blk) (size : Z) (R : repr h bs)
    (Hs : 0 < size < 9223372036854775808) :
  match fit (block_total size) bs with
  | Some (pre, b, post) =>
      let ptr := HEAP_START + bytes_of pre + HEADER_SIZE in
      let bs' := pre ++ reserve (block_total size) b ++ post in
      exists h', kmalloc size h = Some (ptr, h') /\ repr h' bs' /\
        (forall x, payload HEAP_START bs x -> rdb (h_mem h') x = rdb (h_mem h) x) /\
        (forall x, ptr <= x < ptr + size ->
           payload HEAP_START bs' x /\ ~ payload HEAP_START bs x)
  | None => kmalloc size h = heap_grow (block_total size) h
  end.
Proof. exact (kmalloc_correct h bs size R Hs). Qed.

(** ** Release *)

Lemma bytes_of_cons b bs : bytes_of (b :: bs) = b_size b + bytes_of bs.
Proof. done. Qed.

Section coalesce.
Context (m : mem) (prev a : Z) (b : blk) (post : list blk).
Hypothesis Hs : seg m prev a (b :: post) 0.
Hypothesis Hb : b_free b = true.
Hypothesis Ha : 0 < a.
Hypothesis Hlim : a + bytes_of (b :: post) <= 18446744073709547520.

Lemma coalesce_spec : seg (heap_coalesce a m) prev a (release_next b post) 0.
Proof using Hs Hb Ha Hlim.
  assert (Blk (b_size b) true = b) as Eb by (destruct b; simpl in *; congruence).
  unfold heap_coalesce, release_next. pose proof Hs as [(H1 & H2 & H3 & H4 & H5) Hp].
  rewrite H3, H1. rewrite bytes_of_cons in Hlim.
  destruct post as [| c post']; cbn [or_end]; [by rewrite Eb |].
  pose proof Hp as [(C1 & C2 & C3 & C4 & C5) Hp']. cbn [or_end] in C3.
  pose proof (seg_nonneg _ _ _ _ _ Hp') as Hn. rewrite bytes_of_cons in Hlim.
  unfold MIN_BLOCK in *. rewrite C1, C2.
  unfold istrue at 1. destruct (Z.eqb_spec (a + b_size b) 0); [lia |]. cbn [negb andb].
  destruct (b_free c); cbn [istrue]; [| by rewrite Eb].
  change (istrue 1) with true. cbv iota. rewrite u64_id by lia.
  set (m1 := set_size a (b_size b + b_size c) m).
  set (nn := or_end post' (a + b_size b + b_size c) 0) in *.
  assert (0 <= nn < 18446744073709551616) as Hnn by (unfold nn; destruct post'; simpl; lia).
  assert (next_of m1 a = a + b_size b) as -> by (unfold m1; by fields).
  assert (next_of m1 (a + b_size b) = nn) as -> by (unfold m1; by fields).
  set (m2 := set_next a nn m1).
  assert (next_of m2 a = nn) as -> by (unfold m2, m1; by fields).
  assert (seg m2 (a + b_size b) (a + b_size b + b_size c) post' 0) as Hp2.
  { eapply seg_agree; [| exact Hp']. unfold m2, m1. agrees. }
  assert (forall m3, size_of m3 a = b_size b + b_size c -> free_of m3 a = free_of m a ->
    next_of m3 a = nn -> prev_of m3 a = prev -> seg m3 a (a + b_size b + b_size c) post' 0 ->
    seg m3 prev a (merge b c :: post') 0) as Hk.
  { intros m3 K1 K2 K3 K4 K5. split; cbn [b_size merge]; [| by rewrite Z.add_assoc].
    unfold header, MIN_BLOCK. cbn [b_size b_free merge]. rewrite Z.add_assoc. fold nn.
    rewrite Hb in H2. split_and!; try congruence. lia. }
  destruct post' as [| d post'']; cbn [or_end] in nn.
  - change (istrue nn) with false. cbv iota. apply Hk; try (unfold m2, m1; by fields); done.
  - unfold istrue. destruct (Z.eqb_spec nn 0) as [E | E]; [unfold nn in E; lia |]. cbn [negb].
    assert (64 <= b_size d) by (destruct Hp' as [(_ & _ & _ & _ & ?) _]; done).
    apply Hk; try (unfold m2, m1, nn; by fields). apply (seg_set_prev _ (a + b_size b)); [lia | done].
Qed.

Lemma coalesce_frame x :
  x < a \/ payload (a + b_size b) post x -> rdb (heap_coalesce a m) x = rdb m x.
Proof using Hs Hb Ha Hlim.
  intros Hx. unfold heap_coalesce. pose proof Hs as [(H1 & H2 & H3 & H4 & H5) Hp].
  rewrite H3, H1. rewrite bytes_of_cons in Hlim.
  destruct post as [| c post']; cbn [or_end]; [done |].
  pose proof Hp as [(C1 & C2 & C3 & C4 & C5) Hp']. cbn [or_end] in C3.
  pose proof (seg_nonneg _ _ _ _ _ Hp') as Hn. rewrite bytes_of_cons in Hlim.
  unfold MIN_BLOCK in *. rewrite C1, C2.
  unfold istrue at 1. destruct (Z.eqb_spec (a + b_size b) 0); [lia |]. cbn [negb andb].
  destruct (b_free c) eqn:Ec; [| done]. change (istrue 1) with true. cbv iota.
  assert (x < a \/ a + b_size b + b_size c + 25 <= x) as Hx'.
  { destruct Hx as [Hx | [[Hf _] | Hx]]; [lia | congruence |].
    apply (payload_range _ _ _ (seg_sizes _ _ _ _ _ Hp')) in Hx. unfold HEADER_SIZE in Hx. lia. }
  set (m1 := set_size a (u64 _) m).
  set (nn := or_end post' (a + b_size b + b_size c) 0) in *.
  assert (0 <= nn < 18446744073709551616) as Hnn by (unfold nn; destruct post'; simpl; lia).
  assert (next_of m1 a = a + b_size b) as -> by (unfold m1; by fields).
  assert (next_of m1 (a + b_size b) = nn) as -> by (unfold m1; by fields).
  assert (next_of (set_next a nn m1) a = nn) as -> by (unfold m1; by fields).
  assert (rdb (set_next a nn m1) x = rdb m x) as E.
  { unfold m1, set_size, set_next. by rewrite !rdb_st_out by lia. }
  destruct post' as [| d post'']; cbn [or_end] in nn; [done |].
  destruct (istrue nn); [| done]. unfold set_prev at 1. rewrite rdb_st_out; [done |].
  unfold nn. lia.
Qed.
End coalesce.

Lemma release_snoc pre p b post : release (pre ++ [p]) b post = pre ++ release [p] b post.
Proof.
  induction pre as [| q pre IH]; [done |]. cbn [app release]. rewrite IH.
  destruct pre; done.
Qed.

Lemma release_next_bytes b post : bytes_of (release_next b post) = b_size b + bytes_of post.
Proof.
  destruct post as [| c post]; [simpl; lia |]. cbn [release_next].
  destruct (b_free c); rewrite ?bytes_of_cons; cbn [b_size merge]; lia.
Qed.

Lemma release_bytes pre b post :
  bytes_of (release pre b post) = bytes_of pre + b_size b + bytes_of post.
Proof.
  destruct pre as [| p pre _] using rev_ind; [simpl; by rewrite release_next_bytes |].
  rewrite release_snoc, !bytes_of_app. cbn [release].
  destruct (b_free p); rewrite ?bytes_of_cons, ?release_next_bytes; simpl; lia.
Qed.

Lemma seg_set_free m prev a b post :
  seg m prev a (b :: post) 0 -> seg (set_free a 1 m) prev a (Blk (b_size b) true :: post) 0.
Proof.
  intros [(H1 & H2 & H3 & H4 & H5) Hp]. unfold MIN_BLOCK in *. split; cbn [b_size].
  - unfold header, MIN_BLOCK. cbn [b_size b_free]. split_and!; try lia; by fields.
  - eapply seg_agree; [| exact Hp]. agrees.
Qed.

Lemma release_next_nonempty b post nxt a : or_end (release_next b post) a nxt = a.
Proof. destruct post as [| c post]; cbn; [done |]. by destruct (b_free c). Qed.

Lemma release_nonempty pre b post : release pre b post <> [].
Proof.
  destruct pre as [| p [| q pre]]; cbn; [| by destruct (b_free p) | done].
  destruct post as [| c post]; cbn; [done |]. by destruct (b_free c).
Qed.

(** The heap after kfree of the block [b], whose header is at [a]. *)
Lemma release_spec m pre b post a :
  a = HEAP_START + bytes_of pre -> seg m 0 HEAP_START (pre ++ b :: post) 0 ->
  a + bytes_of (b :: post) <= 18446744073709547520 ->
  let m1 := set_free a 1 m in
  let m2 := if istrue (prev_of m1 a) && istrue (free_of m1 (prev_of m1 a))
            then heap_coalesce (prev_of m1 a) m1 else heap_coalesce a m1 in
  seg m2 0 HEAP_START (release pre b post) 0 /\
  forall x, payload HEAP_START pre x \/ payload (a + b_size b) post x -> rdb m2 x = rdb m x.
Proof.
  intros Ea Hs Hlim m1 m2. apply seg_app in Hs as [Sp Sb]. rewrite <- Ea in *. cbn [or_end] in Sp.
  pose proof (seg_nonneg _ _ _ _ _ Sp) as Hnp. pose proof (seg_min _ _ _ _ _ Sb) as Hmb.
  rewrite zlen_cons in Hmb. rewrite bytes_of_cons in *. pose proof (zlen_nonneg post).
  assert (0 < HEAP_START) as H0 by done. unfold MIN_BLOCK in Hmb.
  pose proof (seg_set_free _ _ _ _ _ Sb) as Sb1. fold m1 in Sb1.
  assert (seg m1 0 HEAP_START pre a) as Sp1.
  { eapply seg_agree; [| exact Sp]. unfold m1. agrees. }
  assert (forall x, payload HEAP_START pre x \/ payload (a + b_size b) post x -> rdb m1 x = rdb m x) as F1.
  { intros x Hx. unfold m1, set_free. rewrite rdb_st_out; [done |].
    pose proof Sb as [(_ & _ & _ & _ & Hbs) Sq]. unfold MIN_BLOCK in Hbs.
    destruct Hx as [Hx | Hx].
    - apply (payload_range _ _ _ (seg_sizes _ _ _ _ _ Sp)) in Hx. lia.
    - apply (payload_range _ _ _ (seg_sizes _ _ _ _ _ Sq)) in Hx. unfold HEADER_SIZE in Hx. lia. }
  assert (prev_of m1 a = last_of 0 HEAP_START pre) as Epr by apply Sb1.
  destruct pre as [| p pre _] using rev_ind.
  - (* the first block *)
    cbn in Epr, Ea. unfold m2. rewrite Epr. cbn [istrue negb andb Z.eqb]. change (istrue 0) with false. cbn [andb].
    replace a with HEAP_START in * by lia. split.
    + apply (coalesce_spec _ _ _ (Blk (b_size b) true) _ Sb1); [done | done | rewrite bytes_of_cons; cbn; lia].
    + intros x Hx. rewrite <- (F1 x Hx).
      apply (coalesce_frame _ _ _ (Blk (b_size b) true) _ Sb1);
        [done | done | rewrite bytes_of_cons; cbn; lia |]. right. cbn [b_size]. by destruct Hx.
  - apply seg_app in Sp as [Sp Sl]. apply seg_app in Sp1 as [Sp1 Sl1]. cbn [or_end] in *.
    set (q := HEAP_START + bytes_of pre) in *. rewrite bytes_of_app in Ea, Hnp.
    rewrite bytes_of_cons in Ea, Hnp. change (bytes_of []) with 0 in *.
    assert (a = q + b_size p) as Eq by lia.
    assert (forall bs x y, last_of x y (bs ++ [p]) = y + bytes_of bs) as Hl.
    { intros bs. induction bs as [| c bs IH]; intros x y; [cbn; lia |].
      cbn [app last_of]. rewrite IH, bytes_of_cons. lia. }
    rewrite Hl in Epr, Sb1. fold q in Epr, Sb1.
    pose proof (seg_nonneg _ _ _ _ _ Sp) as Hnp2. rewrite Eq in Sl1.
    pose proof Sl1 as [(L1 & L2 & L3 & L4 & L5) _]. unfold MIN_BLOCK in L5. cbn [or_end] in L3.
    rewrite release_snoc. cbn [release]. unfold m2. rewrite Epr, L2.
    assert (istrue q = true) as -> by (unfold istrue; destruct (Z.eqb_spec q 0); [lia | done]).
    cbn [andb]. destruct (b_free p) eqn:Ep.
    + change (istrue 1) with true. cbv iota.
      assert (seg m1 (last_of 0 HEAP_START pre) q (p :: Blk (b_size b) true :: post) 0) as Sj.
      { split; cbn [or_end]; [| by rewrite <- Eq].
        unfold header, MIN_BLOCK. rewrite Ep. done. }
      assert (q + bytes_of (p :: Blk (b_size b) true :: post) <= 18446744073709547520) as Hlq
        by (rewrite !bytes_of_cons; cbn; lia).
      pose proof (coalesce_spec _ _ _ _ _ Sj Ep ltac:(lia) Hlq) as Sc.
      pose proof (coalesce_frame _ _ _ _ _ Sj Ep ltac:(lia) Hlq) as Fc. cbn [release_next b_free b_size] in Sc, Fc.
      split.
      * apply seg_app. cbn [or_end]. fold q. split.
        -- eapply seg_agree; [| exact Sp1]. intros x Hx. apply Fc. left. fold q in Hx. unfold q. lia.
        -- unfold merge in *. cbn [b_size] in Sc. exact Sc.
      * intros x Hx. rewrite <- (F1 x Hx). apply Fc. rewrite payload_app in Hx. fold q in Hx.
        destruct Hx as [[Hx | Hx] | Hx].
        -- apply (payload_range _ _ _ (seg_sizes _ _ _ _ _ Sp)) in Hx. left. unfold q. lia.
        -- cbn [payload] in Hx. destruct Hx as [[Hf _] | []]. congruence.
        -- right. cbn [payload b_free b_size]. right. by rewrite <- Eq.
    + change (istrue 0) with false. cbv iota.
      assert (a + bytes_of (Blk (b_size b) true :: post) <= 18446744073709547520) as Hlq
        by (rewrite !bytes_of_cons; cbn; lia).
      pose proof (coalesce_spec _ _ _ _ _ Sb1 eq_refl ltac:(lia) Hlq) as Sc.
      pose proof (coalesce_frame _ _ _ _ _ Sb1 eq_refl ltac:(lia) Hlq) as Fc. cbn [b_size] in Fc.
      assert (release_next (Blk (b_size b) true) post = release_next b post) as Er by (by destruct post).
      rewrite Er in Sc. split.
      * apply seg_app. cbn [or_end]. fold q. split.
        -- eapply seg_agree; [| exact Sp1]. intros x Hx. apply Fc. left. fold q in Hx. unfold q in *. lia.
        -- split; cbn [or_end].
           ++ rewrite release_next_nonempty. eapply header_agree.
              { intros x Hx. apply Fc. left. unfold HEADER_SIZE in Hx. lia. }
              unfold header, MIN_BLOCK. rewrite Ep. done.
           ++ by rewrite <- Eq.
      * intros x Hx. rewrite <- (F1 x Hx). apply Fc.
        destruct Hx as [Hx | Hx]; [left | by right].
        apply (payload_range (pre ++ [p])) in Hx; [rewrite bytes_of_app, bytes_of_cons in Hx;
          change (bytes_of []) with 0 in Hx; lia |].
        apply Forall_app. split; [exact (seg_sizes _ _ _ _ _ Sp) | exact (seg_sizes _ _ _ _ _ Sl)].
Qed.

Lemma kfree_correct (h : heap) (pre post : list blk) (b : blk)
    (R : repr h (pre ++ b :: post)) :
  let ptr := HEAP_START + bytes_of pre + HEADER_SIZE in
  repr (kfree ptr h) (release pre b post) /\
  forall x, payload HEAP_START pre x \/ payload (HEAP_START + bytes_of pre + b_size b) post x ->
    rdb (h_mem (kfree ptr h)) x = rdb (h_mem h) x.
Proof.
  intros ptr. destruct R as [R1 R2 R3 R4 R5].
  pose proof (seg_nonneg _ _ _ _ _ (proj1 (proj1 (seg_app _ _ _ _ _ _) R3))) as Hn.
  pose proof (seg_min _ _ _ _ _ (proj2 (proj1 (seg_app _ _ _ _ _ _) R3))) as Hn2.
  rewrite zlen_cons in Hn2. pose proof (zlen_nonneg post). unfold MIN_BLOCK in Hn2.
  rewrite bytes_of_app in R4.
  destruct (release_spec (h_mem h) pre b post _ eq_refl R3 ltac:(lia)) as [S F].
  unfold kfree. assert (0 < HEAP_START) as H0 by done.
  assert (istrue ptr = true) as ->.
  { unfold istrue. destruct (Z.eqb_spec ptr 0); [unfold ptr, HEADER_SIZE in *; lia | done]. }
  cbn [negb].
  rewrite u64_id by (unfold ptr, HEADER_SIZE; lia).
  replace (ptr - HEADER_SIZE) with (HEAP_START + bytes_of pre) by (unfold ptr; lia).
  set (a := HEAP_START + bytes_of pre) in *.
  destruct (istrue (prev_of _ _) && istrue (free_of _ _)).
  all: split; [| exact F].
  all: split; [done | apply release_nonempty | exact S | | exact R5].
  all: rewrite release_bytes; cbn [g_heap_virt_top set_mem]; rewrite <- R4, bytes_of_cons; lia.
Qed.

(** C4: kfree of the pointer kmalloc returned for an allocated block refines the release
    of that block in the list: it becomes free and merges with a free predecessor, or
    else with a free successor. The heap in memory is the resulting list, and no byte of
    another allocated block is changed. *)
Theorem kfree_spec (h : heap) (pre post : list blk) (b : blk)
    (R : repr h (pre ++ b :: post)) :
  let ptr := HEAP_START + bytes_of pre + HEADER_SIZE in
  repr (kfree ptr h) (release pre b post) /\
  forall x, payload HEAP_START pre x \/ payload (HEAP_START + bytes_of pre + b_size b) post x ->
    rdb (h_mem (kfree ptr h)) x = rdb (h_mem h) x.
Proof. exact (kfree_correct h pre post b R). Qed.

(** ** Zeroed allocation *)

(** The owner of a block may write its payload. *)
Lemma seg_write m x v bs : forall prev a nxt,
  payload a bs x -> seg m prev a bs nxt -> seg (wrb x v m) prev a bs nxt.
Proof.
  induction bs as [| b bs IH]; intros prev a nxt; [done |].
  intros Hx [Hh Hs]. pose proof Hh as (_ & _ & _ & _ & Hb). unfold MIN_BLOCK in Hb.
  assert (a + HEADER_SIZE <= x) as Hax.
  { destruct Hx as [[_ Hx] | Hx]; [lia |].
    apply (payload_range _ _ _ (seg_sizes _ _ _ _ _ Hs)) in Hx. lia. }
  split.
  - eapply header_agree; [| exact Hh]. intros y Hy. rewrite rdb_wrb.
    destruct (Z.eqb_spec x y); [lia | done].
  - destruct Hx as [[_ Hx] | Hx]; [| by apply IH].
    eapply seg_agree; [| exact Hs]. intros y Hy. rewrite rdb_wrb.
    destruct (Z.eqb_spec x y); [lia | done].
Qed.

Lemma zero_fill n : forall i p m x,
  rdb (loop n i (fun j m => wrb (p + j) 0 m) m) x =
    if (p + i <=? x) && (x <? p + i + Z.of_nat n) then 0 else rdb m x.
Proof.
  induction n as [| n IH]; intros i p m x; cbn [loop].
  - destruct (Z.leb_spec (p + i) x), (Z.ltb_spec x (p + i + Z.of_nat 0)); try done; lia.
  - rewrite IH, rdb_wrb. destruct (Z.eqb_spec (p + i) x), (Z.leb_spec (p + i) x),
      (Z.leb_spec (p + (i + 1)) x), (Z.ltb_spec x (p + i + Z.of_nat (S n))),
      (Z.ltb_spec x (p + (i + 1) + Z.of_nat n)); cbn [andb]; try done; lia.
Qed.

Lemma fill_seg n : forall i p m prev a bs nxt,
  (forall x, p + i <= x < p + i + Z.of_nat n -> payload a bs x) ->
  seg m prev a bs nxt -> seg (loop n i (fun j m => wrb (p + j) 0 m) m) prev a bs nxt.
Proof.
  induction n as [| n IH]; intros i p m prev a bs nxt Hp Hs; [done |]. cbn [loop].
  apply IH; [intros x Hx; apply Hp; lia |]. apply seg_write; [apply Hp; lia | done].
Qed.

(** Also: when the product does not overflow and a block fits, kcalloc returns a block of
    zeroed bytes that belonged to nobody; the heap stays well formed and no byte of an
    allocated block is changed. *)
Theorem kcalloc_spec (h : heap) (bs : list blk) (count size : Z) (R : repr h bs)
    (Hc : 0 <= count) (Hs : 0 <= size) (Hp : 0 < count * size < 9223372036854775808)
    (Hfit : fit (block_total (count * size)) bs <> None) :
  exists ptr h' bs', kcalloc count size h = Some (ptr, h') /\ repr h' bs' /\
    (forall x, ptr <= x < ptr + count * size ->
       rdb (h_mem h') x = 0 /\ payload HEAP_START bs' x /\ ~ payload HEAP_START bs x) /\
    (forall x, payload HEAP_START bs x -> rdb (h_mem h') x = rdb (h_mem h) x).
Proof.
  pose proof (kmalloc_correct h bs _ R Hp) as H.
  destruct (fit _ bs) as [[[pre b] post] |] eqn:Ef; [| done]. cbv zeta in H.
  destruct (fit_Some _ _ _ _ _ Ef) as (Eb & _).
  destruct H as (h1 & Hk & [R1 R2 R3 R4 R5] & Hold & Hnew).
  assert (0 <= bytes_of pre) as Hn.
  { pose proof (r_seg _ _ R) as Hsg. rewrite Eb in Hsg. apply seg_app in Hsg as [Hsg _].
    by apply seg_nonneg in Hsg. }
  set (ptr := HEAP_START + bytes_of pre + HEADER_SIZE) in *.
  set (bs' := pre ++ reserve _ b ++ post) in *.
  unfold kcalloc. rewrite u64_id, Hk by lia. cbn [mbind option_bind].
  assert (istrue ptr = true) as ->.
  { unfold istrue. destruct (Z.eqb_spec ptr 0); [| done].
    unfold ptr, HEADER_SIZE, HEAP_START in *. lia. }
  eexists ptr, _, bs'. split; [done |]. split_and!.
  - split; try done. apply fill_seg; [| done]. intros x Hx. apply Hnew. lia.
  - intros x Hx. split; [| by apply Hnew]. cbn [h_mem set_mem]. rewrite zero_fill.
    destruct (Z.leb_spec (ptr + 0) x), (Z.ltb_spec x (ptr + 0 + Z.of_nat (Z.to_nat (count * size))));
      try done; lia.
  - intros x Hx. cbn [h_mem set_mem]. rewrite zero_fill.
    destruct (Z.leb_spec (ptr + 0) x), (Z.ltb_spec x (ptr + 0 + Z.of_nat (Z.to_nat (count * size))));
      cbn [andb]; try (by apply Hold). exfalso. apply (proj2 (Hnew x ltac:(lia))), Hx.
Qed.

(** Also: the rounding of the request wraps around: a request within 16 bytes of 2^64 is
    turned into a block of 64 bytes instead of being refused. *)
Theorem kmalloc_wraps (h : heap) (size : Z)
    (Hs : 18446744073709551600 < size < 18446744073709551616) :
  block_total size = MIN_BLOCK /\ kmalloc size h = kmalloc 1 h.
Proof.
  assert (block_total size = MIN_BLOCK) as E.
  { unfold block_total, HEAP_ALIGN.
    assert (istrue (Z.land size (16 - 1)) = true) as ->.
    { change (16 - 1) with (Z.ones 4). rewrite Z.land_ones by lia. unfold istrue.
      change (2 ^ 4) with 16. destruct (Z.eqb_spec (size mod 16) 0); [lia | done]. }
    assert (0 <= u64 (size + 16 - 1) < 16) as Hr by (unfold u64; lia).
    assert (Z.land (u64 (size + 16 - 1)) (u64 (Z.lnot (16 - 1))) = 0) as ->; [| done].
    set (x := u64 (size + 16 - 1)) in *. change (u64 (Z.lnot (16 - 1))) with (Z.shiftl (Z.ones 60) 4).
    apply Z.bits_inj'. intros n Hn. rewrite Z.land_spec, Z.bits_0, Z.shiftl_spec by lia.
    destruct (Z.lt_ge_cases n 4).
    - by rewrite (Z.testbit_neg_r _ (n - 4)), andb_false_r by lia.
    - rewrite <- (Z.mod_small x (2 ^ 4)) by lia. by rewrite Z.mod_pow2_bits_high by lia. }
  split; [done |]. unfold kmalloc. rewrite E. destruct (Z.eqb_spec size 0); [lia | done].
Qed.

(** ** Initialisation *)

Lemma map_range_keeps n : forall i virt phys flags s own,
  good (g_pml4 s) s own -> Z.land flags PAGE_ADDR_MASK = 0 ->
  exists r s' own', paging_map_range_from n i virt phys flags s = Some (r, s') /\
    good (g_pml4 s') s' own' /\ g_pml4 s' = g_pml4 s.
Proof.
  induction n as [| n IH]; intros i virt phys flags s own G Hf.
  - exists 0, s, own. done.
  - cbn [paging_map_range_from]. unfold paging_map_page.
    destruct (paging_map_page_on_correct (g_pml4 s) (u64 (virt + i * PAGE_SIZE))
      (u64 (phys + i * PAGE_SIZE)) flags s own G Hf) as (r & s1 & own1 & -> & G1 & E1 & _).
    cbn [mbind option_bind fst snd]. rewrite <- E1 in G1.
    destruct (r <? 0); [by exists (-1), s1, own1 |].
    destruct (IH (i + 1) virt phys flags s1 own1 G1 Hf) as (r' & s' & own' & H1 & H2 & H3).
    exists r', s', own'. split_and!; [done | done | congruence].
Qed.

Lemma pmm_alloc_contiguous_good P s own count :
  good P s own -> 2 <= count <= g_total_frames (m_pmm s) ->
  exists a p, pmm_alloc_contiguous count (m_pmm s) = Some (a, p) /\ good P (with_pmm p s) own.
Proof.
  intros [G1 G2] Hc.
  destruct (pmm_alloc_contiguous_correct (m_pmm s) count G1 Hc) as (a & p & Hp & Hw & H).
  exists a, p. split; [done |]. split; [done |]. cbn [m_mem m_pmm with_pmm].
  refine (tree_mono _ _ _ _ _ G2 _). intros f [Hf Hu].
  destruct H as [(g & _ & _ & _ & _ & Ht & _ & Hus) | (_ & -> & _)]; [| done].
  split; [lia |]. rewrite Hus, Hu. apply orb_true_r.
Qed.

Lemma heap_init_correct (s : mach) (own : gmap Z (nat * Z)) (G : good (g_pml4 s) s own)
    (Ht : 256 <= g_total_frames (m_pmm s)) :
  exists h own', heap_init (heap_boot s) = Some h /\ repr h [Blk 1048576 true] /\
    good (g_pml4 (h_mach h)) (h_mach h) own'.
Proof.
  destruct (pmm_alloc_contiguous_good _ _ _ 256 G ltac:(lia)) as (a & p & Hp & Gp).
  unfold heap_init, heap_boot. cbn [h_mach g_heap_virt h_mem]. rewrite Hp. cbn [mbind option_bind].
  destruct (map_range_keeps (Z.to_nat 256) 0 HEAP_START a PAGE_RW (with_pmm p s) own Gp eq_refl)
    as (r & s' & own' & Hr & Gr & _).
  unfold paging_map_range. rewrite Hr. cbn [mbind option_bind snd].
  eexists _, own'. split; [done |]. split; [| exact Gr].
  change (256 * PAGE_SIZE) with 1048576.
  split; [done | done | | done | done]. cbn [h_mem].
  assert (0 < HEAP_START < 18446744073709551615) by done. set (a0 := HEAP_START) in *. clearbody a0.
  split; [| done].
  unfold header, MIN_BLOCK, heap_create_block. cbn [b_size b_free or_end].
  split_and!; try lia; by fields.
Qed.

(** Also: heap_init leaves a well-formed heap of a single free block of 1 MiB, and the
    page tables and the frame allocator well formed, whatever the memory held. *)
Theorem heap_init_spec (s : mach) (own : gmap Z (nat * Z)) (G : good (g_pml4 s) s own)
    (Ht : 256 <= g_total_frames (m_pmm s)) :
  exists h own', heap_init (heap_boot s) = Some h /\ repr h [Blk 1048576 true] /\
    good (g_pml4 (h_mach h)) (h_mach h) own'.
Proof. by apply heap_init_correct with own. Qed.

(** Growing never faults, and keeps the page tables and the frame allocator well formed. *)
Lemma pmm_alloc_good s own : good (g_pml4 s) s own -> exists a p, pmm_alloc (m_pmm s) = Some (a, p) /\ good (g_pml4 s) (with_pmm p s) own.
Proof.
  intros [G1 G2]. destruct (pmm_alloc_fresh (m_pmm s) G1) as (a & p & E & W & Hu & _). exists a, p. split; [done |]. split; [done |].
  cbn [m_mem m_pmm with_pmm]. by eapply tree_mono.
Qed.
Lemma grow_pages_keeps n : forall i virt s own, good (g_pml4 s) s own ->
  exists ok s' own', grow_pages n i virt s = Some (ok, s') /\ good (g_pml4 s') s' own' /\ g_pml4 s' = g_pml4 s.
Proof.
  induction n as [| n IH]; intros i virt s own G; cbn [grow_pages]; [by exists true, s, own |].
  destruct (pmm_alloc_good s own G) as (a & p & Ea & Ga). rewrite Ea. cbn [mbind option_bind].
  destruct (istrue a); cbn [negb]; [| by exists false, (with_pmm p s), own].
  unfold paging_map_page. destruct (paging_map_page_on_correct (g_pml4 s) (u64 (virt + i * PAGE_SIZE)) a PAGE_RW (with_pmm p s) own Ga eq_refl) as (r & s1 & own1 & E1 & G1 & P1 & _).
  cbn [g_pml4 with_pmm] in E1 |- *. rewrite E1. cbn [mbind option_bind snd]. cbn [g_pml4 with_pmm] in P1. rewrite <- P1 in G1. 
  destruct (IH (i + 1) virt s1 own1 G1) as (ok & s' & own' & E & G' & P'). exists ok, s', own'. split; [done |]. split; [done | congruence].
Qed.
Lemma heap_grow_keeps total h own : good (g_pml4 (h_mach h)) (h_mach h) own ->
  exists p h' own', heap_grow total h = Some (p, h') /\ good (g_pml4 (h_mach h')) (h_mach h') own'.
Proof.
  intros G. unfold heap_grow. cbv zeta.
  destruct (grow_pages_keeps (Z.to_nat (u64 ((if 65536 <? total then total else 65536) + PAGE_SIZE - 1) / PAGE_SIZE)) 0 (g_heap_virt_top h) (h_mach h) own G)
    as (ok & s' & own' & E & G' & _). rewrite E. cbn [mbind option_bind]. destruct ok; cbn [negb]; [| by eexists _, _, own'].
  destruct (total <=? _); by eexists _, _, own'.
Qed.
(** A request on a well-formed heap gets an answer, which may be that there is no memory. *)
Lemma kmalloc_keeps size h bs own : repr h bs -> 0 < size < 9223372036854775808 -> good (g_pml4 (h_mach h)) (h_mach h) own ->
  exists p h' own', kmalloc size h = Some (p, h') /\ good (g_pml4 (h_mach h')) (h_mach h') own'.
Proof.
  intros R Hs G. assert (find_block (heap_fuel h) (g_heap_start h) (block_total size) (h_mem h) <> None) as Hf.
  { pose proof (kmalloc_correct h bs size R Hs) as Hk. unfold kmalloc in Hk. rewrite (proj2 (Z.eqb_neq size 0)) in Hk by lia. intros Hn. rewrite Hn in Hk.
    destruct (fit (block_total size) bs) as [[[pre b] post] |]; [by destruct Hk as (h' & E & _) |].
    destruct (heap_grow_keeps (block_total size) h own G) as (p & h' & _ & E & _). by rewrite E in Hk. }
  unfold kmalloc. rewrite (proj2 (Z.eqb_neq size 0)) by lia. destruct (find_block _ _ _ _) as [curr |]; [| done]. cbn [mbind option_bind].
  destruct (istrue curr); [by eexists _, _, own | by apply heap_grow_keeps with own].
Qed.

(** ** Growth

    [g_heap_end] is set when a block is created and not when the last block is split,
    so that after a split of the last block it names a block in the middle. *)

Definition mach0 : mach := mkMach ∅ (mkPmm (3 :: replicate 127 0) 1024 2) 0x1000.

(** Four requests and two releases on the initial heap. *)
Definition growth_run : option (Z * Z * heap) :=
  h ← heap_init (heap_boot mach0);
  r ← kmalloc 100 h; let '(a, h) := r in
  r ← kmalloc 900000 h; let '(b, h) := r in
  r ← kmalloc 200000 h; let '(c, h) := r in
  r ← kmalloc 150000 (kfree c (kfree a h)); let '(d, h) := r in
  Some (b, d, h).

(** Also: a growth of the heap while [g_heap_end] is stale unlinks every block after it,
    and coalescing then merges blocks that are not adjacent: a run of four requests and
    two releases returns a block of 150000 bytes that contains the start of another
    block of 900000 bytes that is still allocated. *)
Theorem heap_growth_overlap :
  exists b d h, growth_run = Some (b, d, h) /\ d < b < d + 150000 /\
    ksize b h >= 900000 /\ free_of (h_mem h) (b - HEADER_SIZE) = 0.
Proof.
  assert (match growth_run with
          | Some (b, d, h) => (d <? b) && (b <? d + 150000) && (900000 <=? ksize b h) &&
                              (free_of (h_mem h) (b - HEADER_SIZE) =? 0)
          | None => false
          end = true) as H by (vm_compute; reflexivity).
  destruct growth_run as [[[b d] h] |]; [| done]. bprop. exists b, d, h. split_and!; done || lia.
Qed.

(** ** Witnesses *)

Definition own0 : gmap Z (nat * Z) := {[ 0x1000 := (4%nat, 0) ]}.

Lemma mach0_good : good 0x1000 mach0 own0.
Proof.
  assert (forall t l p, own0 !! t = Some (l, p) -> t = 0x1000 /\ l = 4%nat /\ p = 0) as Hi.
  { intros t l p H. unfold own0 in H. by apply lookup_singleton_Some in H as [<- [= <- <-]]. }
  split.
  - split; [| done | vm_compute; reflexivity]. cbn [m_pmm mach0 g_bitmap].
    constructor; [done |]. apply Forall_replicate. done.
  - split.
    + done.
    + intros t l p (-> & -> & ->)%Hi. split_and!; try done; lia.
    + intros t l p i (-> & -> & ->)%Hi _ _ H. done.
    + intros t p i (-> & ? & ->)%Hi. done.
    + intros t l p (-> & -> & ->)%Hi. lia.
Qed.

Lemma heap_init_spec_witness :
  exists h, heap_init (heap_boot mach0) = Some h /\ repr h [Blk 1048576 true].
Proof.
  destruct (heap_init_spec mach0 own0 mach0_good ltac:(done)) as (h & own' & H & R & _).
  exists h. exact (conj H R).
Defined.

(** An allocated and a free block, built by hand. *)
Definition heap_ex : heap :=
  mkHeap (set_prev (HEAP_START + 128) HEAP_START (set_next (HEAP_START + 128) 0
           (set_free (HEAP_START + 128) 1 (set_size (HEAP_START + 128) 3968
           (set_prev HEAP_START 0 (set_next HEAP_START (HEAP_START + 128)
           (set_free HEAP_START 0 (set_size HEAP_START 128 ∅))))))))
    mach0 HEAP_START HEAP_START HEAP_START (HEAP_START + 4096).

Lemma heap_ex_repr : repr heap_ex ([] ++ Blk 128 false :: [Blk 3968 true]).
Proof.
  split; [done | done | | done | done]. cbn [app seg or_end b_size h_mem heap_ex].
  unfold header. cbn [b_size b_free]. split_and!; try done; vm_compute; done.
Qed.

Lemma kmalloc_spec_witness :
  exists ptr h', kmalloc 200 heap_ex = Some (ptr, h') /\
    repr h' [Blk 128 false; Blk 233 false; Blk 3735 true].
Proof.
  pose proof (kmalloc_spec heap_ex _ 200 heap_ex_repr ltac:(lia)) as H. vm_compute fit in H.
  destruct H as (h' & H & R & _). eexists _, h'. exact (conj H R).
Defined.

Lemma kfree_spec_witness :
  repr (kfree (HEAP_START + 25) heap_ex) [Blk 4096 true].
Proof. exact (proj1 (kfree_spec heap_ex [] [Blk 3968 true] (Blk 128 false) heap_ex_repr)). Defined.

Lemma kcalloc_spec_witness :
  exists ptr h', kcalloc 10 20 heap_ex = Some (ptr, h') /\ rdb (h_mem h') ptr = 0.
Proof.
  destruct (kcalloc_spec heap_ex _ 10 20 heap_ex_repr ltac:(lia) ltac:(lia) ltac:(lia) ltac:(done))
    as (ptr & h' & bs' & H & _ & Hz & _).
  exists ptr, h'. exact (conj H (proj1 (Hz ptr ltac:(lia)))).
Defined.

Lemma kmalloc_wraps_witness :
  kmalloc 18446744073709551615 heap_ex = kmalloc 1 heap_ex.
Proof. exact (proj2 (kmalloc_wraps heap_ex 18446744073709551615 ltac:(lia))). Defined.
