(* ===== verification/Sched.v ===== *)
(** * Tasks and the scheduler (src/kernel/scheduler.c)

    Task structures live in page frames; a [task_struct_t *] is the address of the
    structure, and [tasks] holds the structures of the frames in use as tasks. An
    access through any other pointer, or a list walk that does not end within its
    bound, is [None]. Kernel memory (frames, page tables, heap) is the state of the
    component [Heap]; [cpu_rsp] and [cpu_cr3] are the registers of the processor. *)

From S2P Require Import Prelude Memory Pmm Paging Heap.

Definition TASK_STACK_SIZE : Z := 16 * 1024.
Definition TASK_MAX_FD : nat := 32.
Definition TASK_MAX_SIGNALS : nat := 32.

Inductive task_state := TASK_READY | TASK_RUNNING | TASK_BLOCKED | TASK_TERMINATED | TASK_SLEEPING.

#[export] Instance task_state_eq_dec : EqDecision task_state.
Proof. solve_decision. Defined.

Record task_fd_entry := FdEntry { fptr : Z; ftype : Z; fused : Z }.
Record task_signal := Signal { handler : Z; pending : Z; mask : Z }.
Record task_struct := Task {
  pid : Z; ppid : Z; state : task_state; rsp : Z; cr3 : Z; entry : Z; wake_tick : Z;
  exit_code : Z; fd : list task_fd_entry; signals : list task_signal;
  kernel_stack_base : Z; next : Z }.

(** Task with a field changed. *)
Definition with_state v t := Task (pid t) (ppid t) v (rsp t) (cr3 t) (entry t) (wake_tick t)
  (exit_code t) (fd t) (signals t) (kernel_stack_base t) (next t).
Definition with_rsp v t := Task (pid t) (ppid t) (state t) v (cr3 t) (entry t) (wake_tick t)
  (exit_code t) (fd t) (signals t) (kernel_stack_base t) (next t).
Definition with_cr3 v t := Task (pid t) (ppid t) (state t) (rsp t) v (entry t) (wake_tick t)
  (exit_code t) (fd t) (signals t) (kernel_stack_base t) (next t).
Definition with_wake_tick v t := Task (pid t) (ppid t) (state t) (rsp t) (cr3 t) (entry t) v
  (exit_code t) (fd t) (signals t) (kernel_stack_base t) (next t).
Definition with_exit_code v t := Task (pid t) (ppid t) (state t) (rsp t) (cr3 t) (entry t)
  (wake_tick t) v (fd t) (signals t) (kernel_stack_base t) (next t).
Definition with_fd v t := Task (pid t) (ppid t) (state t) (rsp t) (cr3 t) (entry t)
  (wake_tick t) (exit_code t) v (signals t) (kernel_stack_base t) (next t).
Definition with_signals v t := Task (pid t) (ppid t) (state t) (rsp t) (cr3 t) (entry t)
  (wake_tick t) (exit_code t) (fd t) v (kernel_stack_base t) (next t).
Definition with_next v t := Task (pid t) (ppid t) (state t) (rsp t) (cr3 t) (entry t)
  (wake_tick t) (exit_code t) (fd t) (signals t) (kernel_stack_base t) v.

Record kernel := mkKernel {
  k_heap : heap;
  tasks : gmap Z task_struct;
  g_current : Z;
  g_next_pid : Z;
  g_kernel_cr3 : Z;
  cpu_rsp : Z;
  cpu_cr3 : Z;
  halted : bool }.

Definition set_heap v k := mkKernel v (tasks k) (g_current k) (g_next_pid k) (g_kernel_cr3 k)
  (cpu_rsp k) (cpu_cr3 k) (halted k).
Definition set_tasks v k := mkKernel (k_heap k) v (g_current k) (g_next_pid k) (g_kernel_cr3 k)
  (cpu_rsp k) (cpu_cr3 k) (halted k).
Definition set_current v k := mkKernel (k_heap k) (tasks k) v (g_next_pid k) (g_kernel_cr3 k)
  (cpu_rsp k) (cpu_cr3 k) (halted k).
Definition set_next_pid v k := mkKernel (k_heap k) (tasks k) (g_current k) v (g_kernel_cr3 k)
  (cpu_rsp k) (cpu_cr3 k) (halted k).
Definition set_kernel_cr3 v k := mkKernel (k_heap k) (tasks k) (g_current k) (g_next_pid k) v
  (cpu_rsp k) (cpu_cr3 k) (halted k).
Definition set_cpu rsp cr3 k := mkKernel (k_heap k) (tasks k) (g_current k) (g_next_pid k)
  (g_kernel_cr3 k) rsp cr3 (halted k).
Definition halt k := mkKernel (k_heap k) (tasks k) (g_current k) (g_next_pid k)
  (g_kernel_cr3 k) (cpu_rsp k) (cpu_cr3 k) true.

(** The frame allocator inside the kernel state. *)
Definition k_alloc (k : kernel) : option (Z * kernel) :=
  let s := h_mach (k_heap k) in
  r ← pmm_alloc (m_pmm s);
  Some (fst r, set_heap (set_mach (with_pmm (snd r) s) (k_heap k)) k).
Definition k_free (frame : Z) (k : kernel) : option kernel :=
  let s := h_mach (k_heap k) in
  p ← pmm_free frame (m_pmm s);
  Some (set_heap (set_mach (with_pmm p s) (k_heap k)) k).
(** [*(uint64_t * ) a = v] in physical memory. *)
Definition k_write (a v : Z) (k : kernel) : kernel :=
  let s := h_mach (k_heap k) in
  set_heap (set_mach (with_mem (wr (m_mem s) a v) s) (k_heap k)) k.

(** vfs_close of src/fs/vfs.c. *)
Definition vfs_close (f : Z) (h : heap) : heap := if istrue f then kfree f h else h.

(** ** File descriptors *)

Definition FD_TYPE_FILE : Z := 1.

Fixpoint fd_alloc_from (n : nat) (i : Z) (ptr type : Z) (l : list task_fd_entry)
    : Z * list task_fd_entry :=
  match n with
  | O => (-1, l)
  | S n' =>
      match zlook l i with
      | Some e => if negb (istrue (fused e)) then (i, l.[i <- FdEntry ptr type 1])
                  else fd_alloc_from n' (i + 1) ptr type l
      | None => (-1, l)
      end
  end.
Definition task_fd_alloc (ptr type : Z) (t : task_struct) : Z * task_struct :=
  let '(i, l) := fd_alloc_from (TASK_MAX_FD - 3) 3 ptr type (fd t) in (i, with_fd l t).

Definition fd_ok (i : Z) : bool := (0 <=? i) && (i <? Z.of_nat TASK_MAX_FD).

Definition task_fd_free (i : Z) (t : task_struct) : task_struct :=
  if negb (fd_ok i) then t else with_fd ((fd t).[i <- FdEntry 0 0 0]) t.

Definition task_fd_get (i : Z) (t : task_struct) : Z :=
  if negb (fd_ok i) then 0
  else match zlook (fd t) i with
       | Some e => if istrue (fused e) then fptr e else 0
       | None => 0
       end.

Definition close_entry (i : Z) (r : list task_fd_entry * heap) : list task_fd_entry * heap :=
  let '(l, h) := r in
  match zlook l i with
  | Some e =>
      if negb (istrue (fused e)) then (l, h)
      else (l.[i <- FdEntry 0 0 0],
            if (ftype e =? FD_TYPE_FILE) && istrue (fptr e) then vfs_close (fptr e) h else h)
  | None => (l, h)
  end.
Definition task_fd_close_all (t : task_struct) (h : heap) : task_struct * heap :=
  let '(l, h) := loop (TASK_MAX_FD - 3) 3 close_entry (fd t, h) in (with_fd l t, h).

(** ** Task life cycle *)

Definition task_create (entry : Z) (k : kernel) : option (Z * kernel) :=
  r ← k_alloc k; let '(task, k) := r in
  r ← k_alloc k; let '(stack, k) := r in
  if negb (istrue task) || negb (istrue stack) then Some (0, k)
  else
    let top := u64 (stack + TASK_STACK_SIZE) - 8 in
    let k := k_write top entry k in
    let k := loop 6 1 (fun i k => k_write (top - 8 * i) 0 k) k in
    pp ← (if istrue (g_current k) then t ← tasks k !! g_current k; Some (pid t) else Some 0);
    let t := Task (g_next_pid k) pp TASK_READY (top - 48) 0 entry 0 0
               (replicate TASK_MAX_FD (FdEntry 0 0 0)) (replicate TASK_MAX_SIGNALS (Signal 0 0 0))
               stack 0 in
    let k := set_next_pid (u32 (g_next_pid k + 1)) k in
    if g_current k =? 0 then
      Some (pid t, set_current task (set_tasks (<[task := with_next task t]> (tasks k)) k))
    else
      c ← tasks k !! g_current k;
      let m := <[task := with_next (next c) t]> (tasks k) in
      Some (pid t, set_tasks (<[g_current k := with_next task c]> m) k).

(** Changes the structure at [a]. *)
Definition upd (a : Z) (f : task_struct -> task_struct) (m : gmap Z task_struct)
    : option (gmap Z task_struct) :=
  t ← m !! a; Some (<[a := f t]> m).

(** [while (prev && prev->next != task) prev = prev->next;] *)
Fixpoint find_prev (fuel : nat) (prev task : Z) (m : gmap Z task_struct) : option Z :=
  match fuel with
  | O => None
  | S f =>
      if negb (istrue prev) then Some prev
      else t ← m !! prev;
           if next t =? task then Some prev else find_prev f (next t) task m
  end.

(** Every walk visits each structure at most once before it ends. *)
Definition list_fuel (k : kernel) : nat := size (tasks k) + 2.

Definition task_destroy (task : Z) (k : kernel) : option kernel :=
  if negb (istrue task) then Some k
  else
    prev ← find_prev (list_fuel k) (g_current k) task (tasks k);
    t ← tasks k !! task;
    k ← (if istrue prev then
           m ← upd prev (with_next (next t)) (tasks k);
           let k := set_tasks m k in
           if g_current k =? task then t ← m !! task; Some (set_current (next t) k) else Some k
         else Some k);
    k ← (if istrue (kernel_stack_base t) then k_free (kernel_stack_base t) k else Some k);
    k ← k_free task k;
    Some (set_tasks (delete task (tasks k)) k).

Definition task_current (k : kernel) : Z := g_current k.

Fixpoint find_pid (fuel : nat) (a cur p : Z) (m : gmap Z task_struct) : option Z :=
  match fuel with
  | O => None
  | S f => t ← m !! a;
           if pid t =? p then Some a
           else if next t =? cur then Some 0 else find_pid f (next t) cur p m
  end.
Definition task_find (p : Z) (k : kernel) : option Z :=
  if g_current k =? 0 then Some 0 else find_pid (list_fuel k) (g_current k) (g_current k) p (tasks k).

(** ** The scheduler *)

Definition skipped (s : task_state) : bool :=
  match s with TASK_TERMINATED | TASK_SLEEPING => true | _ => false end.

Fixpoint skip_idle (fuel : nat) (start a : Z) (m : gmap Z task_struct) : option Z :=
  match fuel with
  | O => None
  | S f => if a =? start then Some a
           else t ← m !! a; if skipped (state t) then skip_idle f start (next t) m else Some a
  end.

(** One terminated task: close its files, unlink it, free its stack and structure. *)
Definition reap (scan : Z) (k : kernel) : option kernel :=
  t ← tasks k !! scan;
  let '(t, h) := task_fd_close_all t (k_heap k) in
  let k := set_heap h (set_tasks (<[scan := t]> (tasks k)) k) in
  prev ← find_prev (list_fuel k) (g_current k) scan (tasks k);
  m ← (if istrue prev then upd prev (with_next (next t)) (tasks k) else Some (tasks k));
  k ← k_free (kernel_stack_base t) (set_tasks m k);
  k ← k_free scan k;
  Some (set_tasks (delete scan (tasks k)) k).

Fixpoint cleanup (fuel : nat) (scan start : Z) (k : kernel) : option kernel :=
  match fuel with
  | O => None
  | S f =>
      if scan =? start then Some k
      else
        t ← tasks k !! scan;
        let n := next t in
        k ← (if decide (state t = TASK_TERMINATED) then reap scan k else Some k);
        cleanup f n start k
  end.

(** context_switch of src/kernel/switch.asm stores the stack pointer, after it has
    pushed six registers, in the old task and loads the new one. *)
Definition schedule (k : kernel) : option kernel :=
  if g_current k =? 0 then Some k
  else
    let start := g_current k in
    s ← tasks k !! start;
    nxt ← skip_idle (list_fuel k) start (next s) (tasks k);
    k ← cleanup (list_fuel k) nxt start k;
    if nxt =? start then
      s ← tasks k !! start;
      Some (if decide (state s = TASK_TERMINATED) then halt k else k)
    else
      let prev := g_current k in
      m ← upd prev (with_state TASK_READY) (tasks k);
      m ← upd nxt (with_state TASK_RUNNING) m;
      n ← m !! nxt;
      let next_cr3 := if istrue (cr3 n) then cr3 n else g_kernel_cr3 k in
      m ← upd prev (with_cr3 (cpu_cr3 k)) m;
      m ← upd prev (with_rsp (u64 (cpu_rsp k - 48))) m;
      Some (set_cpu (u64 (rsp n + 48)) next_cr3 (set_current nxt (set_tasks m k))).

Definition task_yield (k : kernel) : option kernel := schedule k.

(** [now] is the value of pit_ticks(). *)
Definition task_sleep (now ms : Z) (k : kernel) : option kernel :=
  if g_current k =? 0 then Some k
  else
    let ticks := ms / 10 in
    let ticks := if ticks =? 0 then 1 else ticks in
    m ← upd (g_current k) (fun t => with_state TASK_SLEEPING (with_wake_tick (u64 (now + ticks)) t))
          (tasks k);
    task_yield (set_tasks m k).

(** The signals of one task, in order; [true] when the task was terminated. *)
Fixpoint deliver (n : nat) (s : Z) (t : task_struct) : task_struct :=
  match n with
  | O => t
  | S n' =>
      match zlook (signals t) s with
      | Some g =>
          if istrue (pending g) && negb (istrue (mask g)) then
            let t := with_signals ((signals t).[s <- Signal (handler g) 0 (mask g)]) t in
            if s =? 9 then with_exit_code (-9) (with_state TASK_TERMINATED t)
            else if istrue (handler g) && ((s =? 2) || (s =? 15))
            then with_exit_code (- s) (with_state TASK_TERMINATED t)
            else deliver n' (s + 1) t
          else deliver n' (s + 1) t
      | None => t
      end
  end.

Definition tick_task (now : Z) (t : task_struct) : task_struct :=
  let t := if decide (state t = TASK_SLEEPING) then
             if wake_tick t <=? now then with_state TASK_READY t else t
           else t in
  if decide (state t = TASK_TERMINATED) then t else deliver TASK_MAX_SIGNALS 0 t.

(** [do { ... t = t->next; } while (t != g_current);] *)
Fixpoint tick_loop (fuel : nat) (now a cur : Z) (m : gmap Z task_struct)
    : option (gmap Z task_struct) :=
  match fuel with
  | O => None
  | S f =>
      t ← m !! a;
      let m := <[a := tick_task now t]> m in
      if next t =? cur then Some m else tick_loop f now (next t) cur m
  end.
Definition scheduler_tick (now : Z) (k : kernel) : option kernel :=
  if g_current k =? 0 then Some k
  else m ← tick_loop (list_fuel k) now (g_current k) (g_current k) (tasks k); Some (set_tasks m k).

(** [idle] is the address of idle_task. *)
Definition scheduler_init (idle : Z) (k : kernel) : option kernel :=
  r ← task_create idle (set_kernel_cr3 (cpu_cr3 k) k);
  let k := snd r in
  m ← upd (g_current k) (with_state TASK_RUNNING) (tasks k);
  Some (set_tasks m k).

(** ** The circular list of tasks *)

Definition next_at (m : gmap Z task_struct) (a : Z) : option Z := next <$> m !! a.

(** From [a] the [next] pointers visit the list [l] and then reach [z]. *)
Fixpoint chain (m : gmap Z task_struct) (a : Z) (l : list Z) (z : Z) : Prop :=
  match l with
  | [] => a = z
  | x :: l' => a = x /\ exists b, next_at m x = Some b /\ chain m b l' z
  end.

Lemma chain_app m l1 l2 z : forall a,
  chain m a (l1 ++ l2) z <-> exists b, chain m a l1 b /\ chain m b l2 z.
Proof.
  induction l1 as [| x l1 IH]; intros a; cbn [app chain].
  - split; [intros H; by exists a | by intros (b & -> & H)].
  - setoid_rewrite IH. split.
    + intros (-> & b & Hb & c & H1 & H2). exists c. eauto.
    + intros (c & (-> & b & Hb & H1) & H2). eauto 6.
Qed.

Lemma chain_ext m m' l z : forall a,
  (forall x, x ∈ l -> next_at m' x = next_at m x) -> chain m a l z -> chain m' a l z.
Proof.
  induction l as [| x l IH]; intros a He; cbn [chain]; [done |].
  intros (-> & b & Hb & H). split; [done |]. exists b. split.
  - rewrite He; [done | left].
  - apply IH; [| done]. intros y Hy. apply He. by right.
Qed.

Lemma chain_dom m l z : forall a x, chain m a l z -> x ∈ l -> exists t, m !! x = Some t.
Proof.
  induction l as [| y l IH]; intros a x; cbn [chain]; [by intros _ ?%elem_of_nil |].
  intros (-> & b & Hb & H) [-> | Hx]%elem_of_cons; [| by eapply IH].
  unfold next_at in Hb. destruct (m !! y); [eauto | done].
Qed.

Lemma length_le_size {A} (m : gmap Z A) l :
  NoDup l -> (forall x, x ∈ l -> is_Some (m !! x)) -> (length l <= size m)%nat.
Proof.
  intros Hn Hd. rewrite <- size_dom. rewrite <- (size_list_to_set (C := gset Z) l Hn).
  apply subseteq_size. intros x Hx. apply elem_of_list_to_set in Hx.
  by apply elem_of_dom, Hd.
Qed.

Lemma find_prev_spec m x l2 z p l1 : forall fuel a,
  chain m a (l1 ++ p :: x :: l2) z -> NoDup (l1 ++ p :: x :: l2) ->
  Forall (fun y => y <> 0) (l1 ++ p :: x :: l2) -> (length l1 < fuel)%nat ->
  find_prev fuel a x m = Some p.
Proof.
  induction l1 as [| y l1 IH]; intros fuel a Hc Hn Hz Hf;
    (destruct fuel as [| fuel]; [simpl in Hf; lia |]); cbn [find_prev app chain] in *.
  - destruct Hc as (-> & b & Hb & (-> & _)). inversion Hz. subst.
    rewrite istrue_neq by done. cbn [negb]. unfold next_at in Hb.
    destruct (m !! p) as [t |]; [| done]. injection Hb as Hb. cbn. by rewrite Hb, Z.eqb_refl.
  - destruct Hc as (-> & b & Hb & Hc). inversion Hz as [| ? ? Hy Hz']. inversion Hn as [| ? ? Hny Hn']. subst.
    rewrite istrue_neq by done. cbn [negb]. unfold next_at in Hb.
    destruct (m !! y) as [t |]; [| done]. injection Hb as Hb. cbn. rewrite Hb.
    destruct (Z.eqb_spec b x) as [-> | Hne].
    + exfalso. (* x would be visited twice *)
      destruct l1 as [| w l1]; cbn [app chain] in Hc.
      * destruct Hc as (<- & _). inversion Hn' as [| ? ? Hx _]. subst. apply Hx. left.
      * destruct Hc as (<- & _). inversion Hn' as [| ? ? Hx _]. subst. apply Hx.
        apply elem_of_app. right. right. left.
    + apply IH; try done. simpl in Hf. lia.
Qed.

(** Unlinking [x] after its predecessor [p]. *)
Lemma chain_unlink m m' l1 p x l2 z a n :
  chain m a (l1 ++ p :: x :: l2) z -> NoDup (l1 ++ p :: x :: l2) ->
  next_at m x = Some n -> next_at m' p = Some n ->
  (forall y, y <> p -> y <> x -> next_at m' y = next_at m y) ->
  chain m' a (l1 ++ p :: l2) z.
Proof.
  intros Hc Hn Hx Hp He. apply chain_app in Hc as (b & H1 & H2). cbn [chain] in H2.
  destruct H2 as (-> & c & Hc & (-> & d & Hd & H2)). rewrite Hd in Hx. injection Hx as ->.
  apply NoDup_app in Hn as (_ & Hn1 & Hn2). inversion Hn2 as [| ? ? Hp2 Hn3]. subst.
  inversion Hn3 as [| ? ? Hx2 _]. subst. apply chain_app. exists p. split.
  - eapply chain_ext; [| exact H1]. intros y Hy. apply He; intros ->; apply (Hn1 _ Hy).
    + left.
    + right. left.
  - cbn [chain]. split; [done |]. exists n. split; [done |].
    eapply chain_ext; [| exact H2]. intros y Hy. apply He; intros ->.
    + apply Hp2. by right.
    + done.
Qed.

(** ** The invariant

    [l] is the circular list, from the current task on. *)

Record wf (k : kernel) (l : list Z) : Prop := {
  w_chain : chain (tasks k) (g_current k) l (g_current k);
  w_some : l <> [];
  w_nodup : NoDup l;
  w_nonzero : Forall (fun a => a <> 0) l;
  w_pmm : Pmm.wf (m_pmm (h_mach (k_heap k)));
  w_stack : forall x t, tasks k !! x = Some t -> 0 <= x /\ 0 <= kernel_stack_base t }.

(** The tasks of [l] are the same before and after, except for their [next] fields. *)
Definition same_tasks (k k' : kernel) (l : list Z) : Prop :=
  forall x, x ∈ l -> exists t t', tasks k !! x = Some t /\ tasks k' !! x = Some t' /\
    t' = with_next (next t') t.

Definition state_at (k : kernel) (a : Z) : option task_state := state <$> tasks k !! a.

Lemma wf_fuel k l : wf k l -> (length l < list_fuel k)%nat.
Proof.
  intros [Hc _ Hn _ _ _]. unfold list_fuel.
  pose proof (length_le_size (tasks k) l Hn) as H.
  assert (forall x, x ∈ l -> is_Some (tasks k !! x)) as Hd.
  { intros x Hx. destruct (chain_dom _ _ _ _ _ Hc Hx) as [t Ht]. by exists t. }
  specialize (H Hd). lia.
Qed.

Lemma vfs_close_mach f h : h_mach (vfs_close f h) = h_mach h.
Proof.
  unfold vfs_close, kfree. destruct (istrue f); [| done]. cbn [negb].
  by destruct (_ && _).
Qed.

Lemma close_all_frame t h :
  let r := task_fd_close_all t h in
  h_mach (snd r) = h_mach h /\ fst r = with_fd (fd (fst r)) t.
Proof.
  unfold task_fd_close_all. destruct (loop _ _ _ _) as [l h'] eqn:E. cbn. split; [| done].
  pose proof (loop_inv (fun _ r => h_mach (snd r) = h_mach h) close_entry (TASK_MAX_FD - 3) 3 (fd t, h)) as H.
  rewrite E in H. apply H; [done |]. intros j [l0 h0] _ Hh. cbn in Hh. unfold close_entry.
  destruct (zlook l0 j) as [e |]; [| done]. destruct (negb _); [done |]. cbn.
  destruct (_ && _); [| done]. by rewrite vfs_close_mach.
Qed.

Lemma k_free_spec a k :
  Pmm.wf (m_pmm (h_mach (k_heap k))) -> 0 <= a ->
  exists k', k_free a k = Some k' /\ Pmm.wf (m_pmm (h_mach (k_heap k'))) /\
    tasks k' = tasks k /\ g_current k' = g_current k /\ cpu_cr3 k' = cpu_cr3 k /\
    cpu_rsp k' = cpu_rsp k /\ g_kernel_cr3 k' = g_kernel_cr3 k /\ halted k' = halted k.
Proof.
  intros Hw Ha. destruct (pmm_free_correct _ a Hw Ha) as (p & Hp & Hwp & _).
  unfold k_free. rewrite Hp. cbn [mbind option_bind]. eexists. split; [done |]. done.
Qed.

(** The registers and the current task. *)
Definition same_cpu (k k' : kernel) : Prop :=
  g_current k' = g_current k /\ cpu_cr3 k' = cpu_cr3 k /\ cpu_rsp k' = cpu_rsp k /\
  g_kernel_cr3 k' = g_kernel_cr3 k /\ halted k' = halted k.

Lemma same_tasks_refl k l : wf k l -> same_tasks k k l.
Proof.
  intros W x Hx. destruct (chain_dom _ _ _ _ _ (w_chain _ _ W) Hx) as [t Ht].
  exists t, t. split_and!; try done. by destruct t.
Qed.

Lemma same_tasks_trans k1 k2 k3 l l' :
  (forall x, x ∈ l' -> x ∈ l) -> same_tasks k1 k2 l -> same_tasks k2 k3 l' -> same_tasks k1 k3 l'.
Proof.
  intros Hl H1 H2 x Hx. destruct (H2 x Hx) as (t2 & t3 & E2 & E3 & H23).
  destruct (H1 x (Hl x Hx)) as (t1 & t2' & E1 & E2' & H12). rewrite E2 in E2'. injection E2' as <-.
  exists t1, t3. split_and!; try done. rewrite H23, H12. by destruct t1, t2.
Qed.

Lemma same_tasks_state k k' l x : same_tasks k k' l -> x ∈ l -> state_at k' x = state_at k x.
Proof.
  intros H Hx. destruct (H x Hx) as (t & t' & E & E' & Ht). unfold state_at.
  rewrite E, E', Ht. by destruct t.
Qed.

Lemma chain_head k a l : wf k (a :: l) -> g_current k = a.
Proof. intros W. apply (w_chain _ _ W). Qed.

(** Taking [x] out of the list, behind its predecessor [p]. *)
Lemma unlink_wf k k' pre p x post tp tx :
  wf k (pre ++ p :: x :: post) -> tasks k !! p = Some tp -> tasks k !! x = Some tx ->
  g_current k' = g_current k -> Pmm.wf (m_pmm (h_mach (k_heap k'))) ->
  tasks k' !! x = None -> tasks k' !! p = Some (with_next (next tx) tp) ->
  (forall y, y <> x -> y <> p -> tasks k' !! y = tasks k !! y) ->
  wf k' (pre ++ p :: post) /\ same_tasks k k' (pre ++ p :: post).
Proof.
  intros [Hc _ Hn Hz _ Hs] Htp Htx Ecur Hp Ex Ep Ey.
  assert (forall y, y ∈ pre ++ p :: post -> y <> x) as Hyx.
  { intros y Hy ->. apply NoDup_app in Hn as (_ & N2 & N3).
    apply elem_of_app in Hy as [Hy | [-> | Hy]%elem_of_cons].
    - apply (N2 _ Hy). right. left.
    - apply NoDup_cons in N3 as [N4 _]. apply N4. left.
    - apply NoDup_cons in N3 as [_ N5]. apply NoDup_cons in N5 as [N6 _]. done. }
  split; [split |].
  - rewrite Ecur. eapply (chain_unlink (tasks k) _ _ _ x _ _ _ (next tx)); try done.
    + unfold next_at. by rewrite Htx.
    + unfold next_at. by rewrite Ep.
    + intros y Hy1 Hy2. unfold next_at. by rewrite Ey.
  - by destruct pre.
  - apply NoDup_app in Hn as (N1 & N2 & N3). apply NoDup_app. split_and!; [done | |].
    + intros y Hy. specialize (N2 y Hy). rewrite !not_elem_of_cons in *. tauto.
    + apply NoDup_cons in N3 as [N4 N5]. apply NoDup_cons in N5 as [_ N6].
      apply NoDup_cons. rewrite not_elem_of_cons in N4. tauto.
  - rewrite Forall_app, !Forall_cons in *. tauto.
  - done.
  - intros y ty Hty. destruct (Z.eq_dec y x) as [-> | Hne]; [congruence |].
    destruct (Z.eq_dec y p) as [-> | Hne2].
    + rewrite Ep in Hty. injection Hty as <-. apply (Hs _ _ Htp).
    + rewrite Ey in Hty by done. eauto.
  - intros y Hy. pose proof (Hyx y Hy) as Hne. destruct (Z.eq_dec y p) as [-> | Hne2].
    + by exists tp, (with_next (next tx) tp).
    + assert (y ∈ pre ++ p :: x :: post) as Hyl by (rewrite elem_of_app, !elem_of_cons in *; tauto).
      destruct (chain_dom _ _ _ _ _ Hc Hyl) as [ty Hty]. exists ty, ty. rewrite Ey by done.
      split_and!; try done. by destruct ty.
Qed.

Lemma reap_spec k pre p x post :
  wf k (pre ++ p :: x :: post) ->
  exists k', reap x k = Some k' /\ wf k' (pre ++ p :: post) /\
    same_tasks k k' (pre ++ p :: post) /\ same_cpu k k'.
Proof.
  intros W. pose proof (wf_fuel _ _ W) as Hf. pose proof W as [Hc _ Hn Hz Hp Hs].
  assert (x ∈ pre ++ p :: x :: post) as Hxl by (apply elem_of_app; right; right; left).
  assert (p ∈ pre ++ p :: x :: post) as Hpl by (apply elem_of_app; right; left).
  destruct (chain_dom _ _ _ _ _ Hc Hxl) as [t Ht]. destruct (chain_dom _ _ _ _ _ Hc Hpl) as [tp Htp].
  assert (p <> x) as Hpx.
  { apply NoDup_app in Hn as (_ & _ & Hn). inversion Hn as [| ? ? Hnp _]. subst. intros ->.
    apply Hnp. left. }
  unfold reap. rewrite Ht. cbn [mbind option_bind].
  destruct (close_all_frame t (k_heap k)) as [Hm Ht'].
  destruct (task_fd_close_all t (k_heap k)) as [t1 h1]. cbn [fst snd] in *.
  set (k1 := set_heap h1 (set_tasks (<[x:=t1]> (tasks k)) k)).
  assert (forall y, next_at (tasks k1) y = next_at (tasks k) y) as Hnx.
  { intros y. unfold next_at. cbn [tasks k1 set_heap set_tasks].
    destruct (Z.eq_dec x y) as [<- | Hne]; [| by rewrite lookup_insert_ne].
    rewrite lookup_insert_eq, Ht, Ht'. by destruct t. }
  assert (find_prev (list_fuel k1) (g_current k1) x (tasks k1) = Some p) as ->.
  { eapply (find_prev_spec _ _ post (g_current k)); try done.
    - eapply chain_ext; [| exact Hc]. intros; apply Hnx.
    - cbn [k1 tasks set_heap set_tasks g_current]. unfold list_fuel. cbn [tasks k1 set_heap set_tasks].
      rewrite length_app in Hf. unfold list_fuel in Hf.
      rewrite map_size_insert_Some by by eexists. simpl in Hf. lia. }
  cbn [mbind option_bind]. assert (p <> 0) as Hp0.
  { apply Forall_forall with (x := p) in Hz; done. }
  rewrite (istrue_neq p) by done. unfold upd.
  assert (tasks k1 !! p = Some tp) as -> by (cbn [k1 tasks set_heap set_tasks]; by rewrite lookup_insert_ne).
  cbn [mbind option_bind]. set (m := <[p:=_]> (tasks k1)).
  destruct (Hs x t Ht) as [Hx0 Hst].
  assert (kernel_stack_base t1 = kernel_stack_base t) as -> by (rewrite Ht'; by destruct t).
  destruct (k_free_spec (kernel_stack_base t) (set_tasks m k1)) as (k2 & -> & Hp2 & Et2 & C2); [by cbn; rewrite Hm | done |].
  cbn [mbind option_bind].
  destruct (k_free_spec x k2 Hp2 Hx0) as (k3 & -> & Hp3 & Et3 & C3).
  cbn [mbind option_bind]. eexists. split; [done |].
  assert (tasks k3 = m) as Em by (rewrite Et3, Et2; done).
  assert (same_cpu k k3) as C.
  { unfold same_cpu. destruct C2 as (-> & -> & -> & -> & ->) in C3. done. }
  assert (next t1 = next t) as Ent by (rewrite Ht'; by destruct t).
  refine ((fun H C => conj (proj1 H) (conj (proj2 H) C)) _ _); [| apply C].
  apply (unlink_wf k _ pre p x post tp t W Htp Ht);
    cbn [tasks set_tasks g_current k_heap]; rewrite ?Em; unfold m.
  - apply C.
  - done.
  - apply lookup_delete_eq.
  - by rewrite lookup_delete_ne, lookup_insert_eq, Ent by done.
  - intros y Hy1 Hy2. rewrite lookup_delete_ne, lookup_insert_ne by done. cbn [k1 tasks set_heap set_tasks].
    by rewrite lookup_insert_ne.
Qed.

(** Linking the new task [a] in just after the current one. *)
Lemma insert_wf k k' cur a l c t :
  wf k (cur :: l) -> tasks k !! cur = Some c -> tasks k !! a = None -> 0 < a ->
  0 <= kernel_stack_base t -> next t = next c -> g_current k' = cur ->
  Pmm.wf (m_pmm (h_mach (k_heap k'))) ->
  tasks k' = <[cur := with_next a c]> (<[a := t]> (tasks k)) ->
  (a ∉ cur :: l) /\ wf k' (cur :: a :: l) /\ same_tasks k k' (cur :: l) /\ tasks k' !! a = Some t.
Proof.
  intros W Hc Han Ha0 Hst Hnt EC Hw' ET. pose proof W as [Wc W2 W3 W4 W5 W6].
  assert (forall x, x ∈ cur :: l -> x <> a) as Hna.
  { intros x Hx ->. destruct (chain_dom _ _ _ _ _ (w_chain _ _ W) Hx) as [tx Ht]. congruence. }
  assert (cur <> a) as Hca by (apply Hna; left).
  assert (tasks k' !! a = Some t) as Ea by (rewrite ET, lookup_insert_ne, lookup_insert_eq by done; done).
  pose proof (chain_head _ _ _ W) as Hcur.
  split; [intros Hx; by apply (Hna a Hx) |]. split; [split |]; [.. | split; [| done]].
  - rewrite EC. cbn [chain]. split; [done |]. exists a. unfold next_at at 1. rewrite ET, lookup_insert_eq.
    split; [done |]. split; [done |]. exists (next c).
    unfold next_at at 1. rewrite lookup_insert_ne, lookup_insert_eq by done.
    split; [cbn; by rewrite Hnt |].
    rewrite Hcur in Wc. cbn [chain] in Wc. destruct Wc as (_ & b & Hb & Wc). unfold next_at in Hb. rewrite Hc in Hb.
    injection Hb as ->. eapply chain_ext; [| exact Wc]. intros y Hy. unfold next_at.
    rewrite !lookup_insert_ne; [done | |].
    + intros <-. apply (Hna a); [by right | done].
    + intros <-. by apply NoDup_cons in W3 as [W3 _].
  - done.
  - apply NoDup_cons in W3 as [N1 N2]. apply NoDup_cons. split.
    + apply not_elem_of_cons. done.
    + apply NoDup_cons. split; [| done]. intros Hx. apply (Hna a); [by right | done].
  - inversion W4; subst. repeat constructor; done || lia.
  - done.
  - rewrite ET. intros y ty [[<- <-] | [_ [[<- <-] | [_ Hy]]%lookup_insert_Some]]%lookup_insert_Some.
    + by apply (W6 _ _ Hc).
    + lia.
    + by apply W6.
  - intros x Hx. destruct (chain_dom _ _ _ _ _ (w_chain _ _ W) Hx) as [tx Htx]. exists tx.
    rewrite ET. destruct (Z.eq_dec x cur) as [-> | Hxc].
    + rewrite lookup_insert_eq. eexists. split; [done |]. split; [done |].
      rewrite Hc in Htx. injection Htx as <-. by destruct c.
    + rewrite !lookup_insert_ne by (try done; intros <-; by apply (Hna _ Hx)).
      exists tx. split_and!; try done. by destruct tx.
Qed.

(** A task of the list other than the current one is destroyed. *)
Lemma task_destroy_correct k pre p x post :
  wf k (pre ++ p :: x :: post) ->
  exists k', task_destroy x k = Some k' /\ wf k' (pre ++ p :: post) /\
    same_tasks k k' (pre ++ p :: post) /\ same_cpu k k' /\ tasks k' !! x = None.
Proof.
  intros W. pose proof (wf_fuel _ _ W) as Hf. pose proof W as [Hc _ Hn Hz Hp Hs].
  assert (x ∈ pre ++ p :: x :: post) as Hxl by (apply elem_of_app; right; right; left).
  assert (p ∈ pre ++ p :: x :: post) as Hpl by (apply elem_of_app; right; left).
  destruct (chain_dom _ _ _ _ _ Hc Hxl) as [t Ht]. destruct (chain_dom _ _ _ _ _ Hc Hpl) as [tp Htp].
  assert (p <> x) as Hpx.
  { apply NoDup_app in Hn as (_ & _ & Hn). inversion Hn as [| ? ? Hnp _]. subst. intros ->.
    apply Hnp. left. }
  assert (g_current k <> x) as Hcx.
  { destruct pre as [| c pre].
    - by rewrite (chain_head k p (x :: post) W).
    - rewrite (chain_head k c _ W). apply NoDup_cons in Hn as [N _]. intros ->. apply N.
      apply elem_of_app. right. right. left. }
  assert (x <> 0 /\ p <> 0) as [Hx0 Hp0].
  { by split; eapply (proj1 (Forall_forall _ _) Hz). }
  unfold task_destroy. rewrite (istrue_neq x) by done. cbn [negb].
  assert (find_prev (list_fuel k) (g_current k) x (tasks k) = Some p) as ->.
  { eapply (find_prev_spec _ _ post (g_current k)); try done. rewrite length_app in Hf. cbn in Hf. lia. }
  cbn [mbind option_bind]. rewrite Ht. cbn [mbind option_bind]. rewrite (istrue_neq p) by done.
  unfold upd. rewrite Htp. cbn [mbind option_bind g_current set_tasks].
  destruct (Z.eqb_spec (g_current k) x); [done |]. cbn [mbind option_bind].
  destruct (Hs x t Ht) as [Hx1 Hst].
  set (k1 := set_tasks _ k).
  assert (exists k2, (if istrue (kernel_stack_base t) then k_free (kernel_stack_base t) k1 else Some k1)
     = Some k2 /\ Pmm.wf (m_pmm (h_mach (k_heap k2))) /\ tasks k2 = tasks k1 /\ same_cpu k1 k2)
    as (k2 & -> & Hp2 & Et2 & C2).
  { destruct (istrue _); [| by exists k1].
    destruct (k_free_spec (kernel_stack_base t) k1 Hp Hst) as (k2 & -> & H1 & H2 & H3). by exists k2. }
  cbn [mbind option_bind].
  destruct (k_free_spec x k2 Hp2 Hx1) as (k3 & -> & Hp3 & Et3 & C3). cbn [mbind option_bind].
  assert (same_cpu k1 k3) as C by (unfold same_cpu in *; destruct C2 as (-> & -> & -> & -> & ->) in C3; done).
  eexists. split; [done |].
  refine ((fun H C => conj (proj1 H) (conj (proj2 H) C)) _ _); [| split; [apply C | apply lookup_delete_eq]].
  apply (unlink_wf k _ pre p x post tp t W Htp Ht);
    cbn [tasks set_tasks g_current k_heap]; rewrite ?Et3, ?Et2; cbn [k1 tasks set_tasks].
  - apply C.
  - done.
  - apply lookup_delete_eq.
  - by rewrite lookup_delete_ne, lookup_insert_eq by done.
  - intros y Hy1 Hy2. by rewrite lookup_delete_ne, lookup_insert_ne by done.
Qed.

Definition alive (k : kernel) (a : Z) : bool :=
  match tasks k !! a with Some t => negb (bool_decide (state t = TASK_TERMINATED)) | None => true end.
Definition living (k : kernel) (l : list Z) : list Z := List.filter (alive k) l.

Lemma alive_same k k' l x : same_tasks k k' l -> x ∈ l -> alive k' x = alive k x.
Proof.
  intros H Hx. destruct (H x Hx) as (t & t' & E & E' & Ht). unfold alive.
  rewrite E, E', Ht. by destruct t.
Qed.

Lemma living_same k k' l l0 :
  same_tasks k k' l0 -> (forall x, x ∈ l -> x ∈ l0) -> living k' l = living k l.
Proof.
  intros H. unfold living. induction l as [| x l IH]; intros Hl; [done |]. cbn [List.filter].
  rewrite (alive_same k k' l0 x H) by (apply Hl; left). rewrite IH by (intros; apply Hl; by right).
  done.
Qed.

Lemma elem_of_living k x l : x ∈ living k l -> x ∈ l.
Proof. unfold living. rewrite !list_elem_of_In, filter_In. tauto. Qed.

(** The structure after [x] in a circular list. *)
Lemma wf_next k pre x post :
  wf k (pre ++ x :: post) ->
  exists t, tasks k !! x = Some t /\ next t = match post with y :: _ => y | [] => g_current k end.
Proof.
  intros W. pose proof (w_chain _ _ W) as Hc. apply chain_app in Hc as (b & _ & H). cbn [chain] in H.
  destruct H as (-> & c & Hc & H). unfold next_at in Hc. destruct (tasks k !! x) as [t |]; [| done].
  injection Hc as Hc. exists t. split; [done |]. destruct post as [| y post]; cbn [chain] in H.
  - congruence.
  - destruct H as [-> _]. done.
Qed.

Lemma cleanup_spec rest : forall fuel pre p k,
  wf k (pre ++ p :: rest) -> (length rest < fuel)%nat ->
  exists k', cleanup fuel (match rest with y :: _ => y | [] => g_current k end) (g_current k) k = Some k' /\
    wf k' (pre ++ p :: living k rest) /\ same_tasks k k' (pre ++ p :: living k rest) /\ same_cpu k k'.
Proof.
  induction rest as [| x rest IH]; intros fuel pre p k W Hf;
    (destruct fuel as [| fuel]; [simpl in Hf; lia |]); cbn [cleanup].
  - rewrite Z.eqb_refl. exists k. split_and!; try done. by apply same_tasks_refl.
  - assert (x <> g_current k) as Hxc.
    { intros ->. pose proof (w_nodup _ _ W) as Hn. destruct pre as [| q pre]; cbn [app] in *.
      - rewrite (chain_head _ _ _ W) in Hn. apply NoDup_cons in Hn as [Hn _]. apply Hn. left.
      - rewrite (chain_head _ _ _ W) in Hn. apply NoDup_cons in Hn as [Hn _]. apply Hn.
        apply elem_of_app. right. right. left. }
    destruct (Z.eqb_spec x (g_current k)); [done |].
    destruct (wf_next k (pre ++ [p]) x rest) as (t & Ht & Hnt); [by rewrite <- app_assoc |].
    rewrite Ht. cbn [mbind option_bind]. rewrite Hnt. 
    assert (alive k x = negb (bool_decide (state t = TASK_TERMINATED))) as Ea
      by (unfold alive; by rewrite Ht).
    assert (living k (x :: rest) = if alive k x then x :: living k rest else living k rest) as ->
      by done. rewrite Ea.
    destruct (decide (state t = TASK_TERMINATED)) as [Hd | Hd].
    + rewrite bool_decide_true by done. cbn [negb].
      destruct (reap_spec k pre p x rest W) as (k1 & -> & W1 & S1 & C1). cbn [mbind option_bind].
      destruct (IH fuel pre p k1 W1) as (k2 & H2 & W2 & S2 & C2); [simpl in Hf; lia |].
      assert (g_current k1 = g_current k) as Ec by apply C1. rewrite Ec in H2.
      assert (living k1 rest = living k rest) as El.
      { eapply living_same; [exact S1 |]. intros y Hy. apply elem_of_app. right. by right. }
      rewrite El in *. exists k2. split_and!; try done.
      * eapply same_tasks_trans; [| exact S1 | exact S2]. intros y.
        rewrite !elem_of_app, !elem_of_cons. pose proof (elem_of_living k y rest). tauto.
      * unfold same_cpu in *. destruct C1 as (-> & -> & -> & -> & ->) in C2. done.
    + rewrite bool_decide_false by done. cbn [negb mbind option_bind].
      destruct (IH fuel (pre ++ [p]) x k) as (k2 & H2 & W2 & S2 & C2);
        [by rewrite <- app_assoc | simpl in Hf; lia |].
      rewrite <- app_assoc in W2, S2. exists k2. done.
Qed.

Lemma skip_idle_spec k l1 : forall fuel pre nxt l2,
  wf k (pre ++ l1 ++ nxt :: l2) -> pre <> [] ->
  (forall x, x ∈ l1 -> exists s, state_at k x = Some s /\ skipped s = true) ->
  (exists s, state_at k nxt = Some s /\ skipped s = false) -> (length l1 < fuel)%nat ->
  skip_idle fuel (g_current k) (match l1 with y :: _ => y | [] => nxt end) (tasks k) = Some nxt.
Proof.
  assert (forall pre y post, wf k (pre ++ y :: post) -> pre <> [] -> y <> g_current k) as Hne.
  { intros pre y post W Hp ->. destruct pre as [| q pre]; [done |]. cbn [app] in W.
    pose proof (w_nodup _ _ W) as Hn. rewrite (chain_head _ _ _ W) in Hn.
    apply NoDup_cons in Hn as [Hn _]. apply Hn. apply elem_of_app. right. left. }
  induction l1 as [| x l1 IH]; intros fuel pre nxt l2 W Hpre H1 H2 Hf;
    (destruct fuel as [| fuel]; [simpl in Hf; lia |]); cbn [skip_idle app] in *.
  - pose proof (Hne _ _ _ W Hpre). destruct (Z.eqb_spec nxt (g_current k)); [done |].
    destruct H2 as (s & Hs & Hk). unfold state_at in Hs.
    destruct (tasks k !! nxt) as [t |]; [| done]. injection Hs as <-. cbn. by rewrite Hk.
  - pose proof (Hne _ _ _ W Hpre). destruct (Z.eqb_spec x (g_current k)); [done |].
    destruct (H1 x) as (s & Hs & Hk); [left |]. unfold state_at in Hs.
    destruct (wf_next _ _ _ _ W) as (t & Ht & Hnt). rewrite Ht in *. injection Hs as <-.
    cbn [mbind option_bind]. rewrite Hk, Hnt.
    assert (match l1 ++ nxt :: l2 with [] => g_current k | y :: _ => y end =
            match l1 with [] => nxt | y :: _ => y end) as -> by (by destruct l1).
    apply (IH fuel (pre ++ [x]) nxt l2); [by rewrite <- app_assoc | by destruct pre | | done | simpl in Hf; lia].
    intros y Hy. apply H1. by right.
Qed.

Lemma skip_idle_all k l1 : forall fuel pre,
  wf k (pre ++ l1) -> pre <> [] ->
  (forall x, x ∈ l1 -> exists s, state_at k x = Some s /\ skipped s = true) -> (length l1 < fuel)%nat ->
  skip_idle fuel (g_current k) (match l1 with y :: _ => y | [] => g_current k end) (tasks k)
  = Some (g_current k).
Proof.
  induction l1 as [| x l1 IH]; intros fuel pre W Hpre H1 Hf;
    (destruct fuel as [| fuel]; [simpl in Hf; lia |]); cbn [skip_idle] in *.
  - by rewrite Z.eqb_refl.
  - destruct (Z.eqb_spec x (g_current k)) as [-> | Hne]; [done |].
    destruct (H1 x) as (s & Hs & Hk); [left |]. unfold state_at in Hs.
    destruct (wf_next _ _ _ _ W) as (t & Ht & Hnt). rewrite Ht in *. injection Hs as <-.
    cbn [mbind option_bind]. rewrite Hk, Hnt.
    apply (IH fuel (pre ++ [x])); [by rewrite <- app_assoc | by destruct pre | | simpl in Hf; lia].
    intros y Hy. apply H1. by right.
Qed.

(** The circular list seen from another of its elements. *)
Lemma wf_rotate k k' l1 x l2 :
  wf k (l1 ++ x :: l2) -> (forall y, y ∈ l1 ++ x :: l2 -> next_at (tasks k') y = next_at (tasks k) y) ->
  g_current k' = x -> k_heap k' = k_heap k ->
  (forall y t, tasks k' !! y = Some t -> exists t0, tasks k !! y = Some t0 /\
     kernel_stack_base t = kernel_stack_base t0) ->
  wf k' (x :: l2 ++ l1).
Proof.
  intros [Hc _ Hn Hz Hp Hs] He Hx Hh Ht.
  apply (chain_ext _ (tasks k') _ _ _ He) in Hc. apply chain_app in Hc as (b & H1 & H2).
  split.
  - rewrite Hx. change (x :: l2 ++ l1) with ((x :: l2) ++ l1). apply chain_app.
    exists (g_current k). pose proof H2 as (-> & _). done.
  - done.
  - change (x :: l2 ++ l1) with ((x :: l2) ++ l1). by rewrite Permutation_app_comm.
  - change (x :: l2 ++ l1) with ((x :: l2) ++ l1). by rewrite Permutation_app_comm.
  - by rewrite Hh.
  - intros y t Hy. destruct (Ht y t Hy) as (t0 & H0 & ->). by apply Hs in H0.
Qed.

(** Two changes of tasks that keep the links and the stacks. *)
Definition quiet (f : task_struct -> task_struct) : Prop :=
  forall t, next (f t) = next t /\ kernel_stack_base (f t) = kernel_stack_base t.

Lemma schedule_correct k cur l1 nxt l2 :
  wf k (cur :: l1 ++ nxt :: l2) ->
  (forall x, x ∈ l1 -> exists s, state_at k x = Some s /\ skipped s = true) ->
  (exists s, state_at k nxt = Some s /\ skipped s = false) ->
  exists k' t t' c c', schedule k = Some k' /\ wf k' (nxt :: living k l2 ++ cur :: l1) /\
    g_current k' = nxt /\ halted k' = halted k /\
    tasks k !! nxt = Some t /\ tasks k' !! nxt = Some t' /\
    state t' = TASK_RUNNING /\ cpu_rsp k' = u64 (rsp t + 48) /\
    cpu_cr3 k' = (if istrue (cr3 t) then cr3 t else g_kernel_cr3 k) /\
    tasks k !! cur = Some c /\ tasks k' !! cur = Some c' /\
    state c' = TASK_READY /\ rsp c' = u64 (cpu_rsp k - 48) /\ cr3 c' = cpu_cr3 k /\
    (forall x, x ∈ l1 ++ living k l2 -> state_at k' x = state_at k x).
Proof.
  intros W H1 H2. pose proof (wf_fuel _ _ W) as Hf. pose proof (chain_head _ _ _ W) as Hcur.
  assert (length l1 < list_fuel k /\ length l2 < list_fuel k)%nat as [Hf1 Hf2].
  { simpl in Hf. rewrite length_app in Hf. simpl in Hf. lia. }
  unfold schedule. assert (cur <> 0) as Hc0 by (pose proof (w_nonzero _ _ W) as Hz; by inversion Hz).
  rewrite Hcur. destruct (Z.eqb_spec cur 0); [done |].
  destruct (wf_next k [] cur _ W) as (c & Hc & Hnc). rewrite Hc. cbn [mbind option_bind].
  rewrite Hnc.
  assert (match l1 ++ nxt :: l2 with [] => g_current k | y :: _ => y end =
          match l1 with [] => nxt | y :: _ => y end) as -> by (by destruct l1).
  pose proof (skip_idle_spec k l1 (list_fuel k) [cur] nxt l2 W ltac:(done) H1 H2 Hf1) as Hsk.
  rewrite Hcur in Hsk. rewrite Hsk. clear Hsk.
  cbn [mbind option_bind].
  assert (W' : wf k ((cur :: l1) ++ nxt :: l2)) by done.
  assert (nxt <> cur) as Hnc'.
  { pose proof (w_nodup _ _ W) as Hn. apply NoDup_cons in Hn as [Hn _]. intros ->. apply Hn.
    apply elem_of_app. right. left. }
  (* the loop starts at [nxt], which is not terminated *)
  destruct (wf_next k (cur :: l1) nxt l2 W') as (t & Ht & Hnt).
  destruct H2 as (s & Hs & Hk). assert (s = state t) as -> by (unfold state_at in Hs; rewrite Ht in Hs; by injection Hs).
  assert (state t <> TASK_TERMINATED) as Hnterm by (intros Hx; by rewrite Hx in Hk).
  assert (exists f, list_fuel k = S f /\ (length l2 < f)%nat) as (f & Ef & Hf3).
  { exists (pred (list_fuel k)). simpl in Hf. rewrite length_app in Hf. simpl in Hf. lia. }
  rewrite Ef. cbn [cleanup]. destruct (Z.eqb_spec nxt cur); [done |].
  rewrite Ht. cbn [mbind option_bind]. rewrite decide_False by done. cbn [mbind option_bind].
  rewrite Hnt. destruct (cleanup_spec l2 f (cur :: l1) nxt k W' Hf3) as (k1 & Hcl & W1 & S1 & C1).
  rewrite Hcur in Hcl |- *. rewrite Hcl. clear Hcl.
  cbn [mbind option_bind]. destruct (Z.eqb_spec nxt cur); [done |].
  destruct C1 as (E1 & E2 & E3 & E4 & E5). rewrite E1, Hcur.
  assert (cur ∈ (cur :: l1) ++ nxt :: living k l2) as Hin1 by left.
  assert (nxt ∈ (cur :: l1) ++ nxt :: living k l2) as Hin2 by (apply elem_of_app; right; left).
  destruct (S1 _ Hin1) as (c0 & c1 & Hc0' & Hc1 & Ec1). rewrite Hc in Hc0'. injection Hc0' as <-.
  destruct (S1 _ Hin2) as (t0 & t1 & Ht0' & Ht1 & Et1). rewrite Ht in Ht0'. injection Ht0' as <-.
  unfold upd. rewrite Hc1. cbn [mbind option_bind].
  rewrite (lookup_insert_ne _ cur nxt) by done. rewrite Ht1. cbn [mbind option_bind].
  rewrite lookup_insert_eq. cbn [mbind option_bind].
  rewrite (lookup_insert_ne _ nxt cur) by done. rewrite lookup_insert_eq. cbn [mbind option_bind].
  rewrite lookup_insert_eq. cbn [mbind option_bind].
  set (m := <[cur:=_]> _).
  assert (forall y, y <> cur -> y <> nxt -> m !! y = tasks k1 !! y) as Hmo.
  { intros y Hy1 Hy2. unfold m. by rewrite !lookup_insert_ne. }
  assert (m !! cur = Some (with_rsp (u64 (cpu_rsp k1 - 48)) (with_cr3 (cpu_cr3 k1) (with_state TASK_READY c1)))) as Hmc.
  { unfold m. by rewrite lookup_insert_eq. }
  assert (m !! nxt = Some (with_state TASK_RUNNING t1)) as Hmn.
  { unfold m. by rewrite !lookup_insert_ne, lookup_insert_eq by done. }
  clearbody m. eexists _, t, _, c, _. split; [done |].
  cbn [tasks set_cpu set_current set_tasks g_current halted cpu_rsp cpu_cr3].
  rewrite Hmc, Hmn, E5. split_and!; try done.
  - apply (wf_rotate k1 _ (cur :: l1) nxt (living k l2) W1); try done.
    + intros y _. unfold next_at. cbn [tasks set_cpu set_current set_tasks].
      destruct (Z.eq_dec y cur) as [-> |]; [by rewrite Hmc, Hc1 |].
      destruct (Z.eq_dec y nxt) as [-> |]; [by rewrite Hmn, Ht1 |]. by rewrite Hmo.
    + intros y ty. cbn [tasks set_cpu set_current set_tasks].
      destruct (Z.eq_dec y cur) as [-> |]; [rewrite Hmc; intros [= <-]; eauto |].
      destruct (Z.eq_dec y nxt) as [-> |]; [rewrite Hmn; intros [= <-]; eauto |].
      rewrite Hmo by done. eauto.
  - cbn. rewrite Et1. by destruct t.
  - rewrite E4, Et1. by destruct t.
  - cbn. by rewrite E3.
  - intros x Hx. unfold state_at. cbn [tasks set_cpu set_current set_tasks].
    pose proof (w_nodup _ _ W1) as Hn. change ((cur :: l1) ++ nxt :: living k l2) with
      ([cur] ++ l1 ++ nxt :: living k l2) in Hn.
    assert (x <> cur /\ x <> nxt) as [Hx1 Hx2].
    { apply NoDup_cons in Hn as [Hn1 Hn2]. apply NoDup_app in Hn2 as (_ & Hn3 & Hn4).
      apply NoDup_cons in Hn4 as [Hn5 _]. rewrite elem_of_app in Hx. split.
      - intros ->. apply Hn1. apply elem_of_app. destruct Hx; [by left | right; by right].
      - intros ->. destruct Hx as [Hx | Hx]; [| done]. apply (Hn3 _ Hx). left. }
    rewrite Hmo by done. fold (state_at k1 x) (state_at k x).
    apply (same_tasks_state _ _ _ _ S1). change ((cur :: l1) ++ nxt :: living k l2) with
      ([cur] ++ l1 ++ [nxt] ++ living k l2). rewrite !elem_of_app. rewrite elem_of_app in Hx. tauto.
Qed.

(** ** Properties of the scheduler *)

(** C7: on a well-formed circular list whose tasks after the current one are first [l1],
    all terminated or sleeping, and then [nxt], which is neither, schedule ends and
    switches to [nxt]: it becomes the current, running task, its saved stack pointer and
    page table are loaded, and those of the old task are saved. The list stays circular
    and well formed; exactly the terminated tasks after [nxt] are removed from it, the
    others keep their states. *)
Theorem schedule_spec (k : kernel) (cur nxt : Z) (l1 l2 : list Z)
    (W : wf k (cur :: l1 ++ nxt :: l2))
    (H1 : forall x, x ∈ l1 -> exists s, state_at k x = Some s /\ skipped s = true)
    (H2 : exists s, state_at k nxt = Some s /\ skipped s = false) :
  exists k' t c', schedule k = Some k' /\ wf k' (nxt :: living k l2 ++ cur :: l1) /\
    g_current k' = nxt /\ state_at k' nxt = Some TASK_RUNNING /\
    tasks k !! nxt = Some t /\ cpu_rsp k' = u64 (rsp t + 48) /\
    cpu_cr3 k' = (if istrue (cr3 t) then cr3 t else g_kernel_cr3 k) /\
    tasks k' !! cur = Some c' /\ rsp c' = u64 (cpu_rsp k - 48) /\ cr3 c' = cpu_cr3 k /\
    (forall x, x ∈ l1 ++ living k l2 -> state_at k' x = state_at k x).
Proof.
  destruct (schedule_correct k cur l1 nxt l2 W H1 H2) as (k' & t & t' & c & c' & H & Wk & Hg & _ & Ht
    & Ht' & Hst & Hr & Hcr & _ & Hc' & _ & Hrs & Hcs & Ho).
  exists k', t, c'. split_and!; try done. unfold state_at. rewrite Ht'. cbn. by rewrite Hst.
Qed.

(** With nothing else to run. *)
Lemma schedule_alone_correct (k : kernel) (cur : Z) (l : list Z) (W : wf k (cur :: l))
    (H1 : forall x, x ∈ l -> exists s, state_at k x = Some s /\ skipped s = true) :
  schedule k = Some (if decide (state_at k cur = Some TASK_TERMINATED) then halt k else k).
Proof.
  pose proof (wf_fuel _ _ W) as Hf. pose proof (chain_head _ _ _ W) as Hcur.
  unfold schedule. assert (cur <> 0) as Hc0 by (pose proof (w_nonzero _ _ W) as Hz; by inversion Hz).
  rewrite Hcur. destruct (Z.eqb_spec cur 0); [done |].
  destruct (wf_next k [] cur _ W) as (c & Hc & Hnc). rewrite Hc. cbn [mbind option_bind].
  pose proof (skip_idle_all k l (list_fuel k) [cur] W ltac:(done) H1 ltac:(simpl in Hf; lia)) as Hsk.
  rewrite Hcur in *. rewrite Hnc, Hsk. cbn [mbind option_bind].
  assert (exists f, list_fuel k = S f) as (f & Ef) by (exists (pred (list_fuel k)); simpl in Hf; lia).
  rewrite Ef. cbn [cleanup]. rewrite Z.eqb_refl. cbn [mbind option_bind]. rewrite Hc. cbn [mbind option_bind].
  unfold state_at. rewrite Hc. cbn. f_equal.
  destruct (decide (state c = TASK_TERMINATED)) as [E | E], (decide (Some (state c) = Some TASK_TERMINATED));
    try done; congruence.
Qed.

(** Also: when every other task is terminated or sleeping, schedule keeps the current task,
    changes nothing, and stops the machine exactly when that task is terminated. *)
Theorem schedule_alone (k : kernel) (cur : Z) (l : list Z) (W : wf k (cur :: l))
    (H1 : forall x, x ∈ l -> exists s, state_at k x = Some s /\ skipped s = true) :
  schedule k = Some (if decide (state_at k cur = Some TASK_TERMINATED) then halt k else k).
Proof. by apply (schedule_alone_correct k cur l). Qed.

(** Whatever the states are, a step of the scheduler ends and keeps the list well formed. *)
Lemma skipped_or k x : (exists s, state_at k x = Some s /\ skipped s = true) \/ state_at k x = None \/ (exists s, state_at k x = Some s /\ skipped s = false).
Proof. destruct (state_at k x) as [s |]; [destruct (skipped s) eqn:E |]; eauto. Qed.
Lemma first_awake k l : (forall x, x ∈ l -> exists t, tasks k !! x = Some t) ->
  (forall x, x ∈ l -> exists s, state_at k x = Some s /\ skipped s = true) \/
  exists l1 nxt l2, l = l1 ++ nxt :: l2 /\ (forall x, x ∈ l1 -> exists s, state_at k x = Some s /\ skipped s = true) /\
    (exists s, state_at k nxt = Some s /\ skipped s = false).
Proof.
  induction l as [| y l IH]; intros Hl; [left; intros x Hx; by apply elem_of_nil in Hx |].
  destruct (skipped_or k y) as [Hy | [Hy | Hy]].
  - destruct IH as [H1 | (l1 & nxt & l2 & -> & H1 & H2)]; [intros x Hx; apply Hl; by right | |].
    + left. intros x [-> | Hx]%elem_of_cons; auto.
    + right. exists (y :: l1), nxt, l2. split; [done |]. split; [| done]. intros x [-> | Hx]%elem_of_cons; auto.
  - destruct (Hl y) as [t Ht]; [left |]. unfold state_at in Hy. by rewrite Ht in Hy.
  - right. exists [], y, l. split; [done |]. split; [intros x Hx; by apply elem_of_nil in Hx | done].
Qed.
Lemma schedule_wf k l : wf k l -> exists k' l', schedule k = Some k' /\ wf k' l'.
Proof.
  intros W. destruct l as [| cur l]; [by destruct W |]. destruct (first_awake k l) as [H1 | (l1 & nxt & l2 & -> & H1 & H2)].
  - intros x Hx. apply list_elem_of_split in Hx as (l1 & l2 & ->). destruct (wf_next k (cur :: l1) x l2 W) as (t & Ht & _). by exists t.
  - exists (if decide (state_at k cur = Some TASK_TERMINATED) then halt k else k), (cur :: l). split; [by apply (schedule_alone_correct k cur l W) |].
    destruct (decide _); [| done]. destruct W as [W1 W2 W3 W4 W5 W6]. by split.
  - destruct (schedule_correct k cur l1 nxt l2 W H1 H2) as (k' & ? & ? & ? & ? & E & W' & _). eauto.
Qed.

(** Also: a task that goes to sleep while another task can run does not sleep: schedule
    marks the task it leaves as ready, whatever its state was, so the request is lost
    and the next round picks the task again. *)
Theorem task_sleep_lost (k : kernel) (now ms cur nxt : Z) (l1 l2 : list Z)
    (W : wf k (cur :: l1 ++ nxt :: l2))
    (H1 : forall x, x ∈ l1 -> exists s, state_at k x = Some s /\ skipped s = true)
    (H2 : exists s, state_at k nxt = Some s /\ skipped s = false) :
  exists k', task_sleep now ms k = Some k' /\ state_at k' cur = Some TASK_READY /\
    g_current k' = nxt.
Proof.
  pose proof (chain_head _ _ _ W) as Hcur.
  assert (cur <> 0) as Hc0 by (pose proof (w_nonzero _ _ W) as Hz; by inversion Hz).
  unfold task_sleep. rewrite Hcur. destruct (Z.eqb_spec cur 0); [done |].
  destruct (wf_next k [] cur _ W) as (c & Hc & Hnc). unfold upd. rewrite Hc. cbn [mbind option_bind].
  set (m := <[cur:=_]> (tasks k)).
  assert (forall y, y <> cur -> m !! y = tasks k !! y) as Hm.
  { intros y Hy. unfold m. by rewrite lookup_insert_ne. }
  assert (exists c', m !! cur = Some c' /\ next c' = next c /\
            kernel_stack_base c' = kernel_stack_base c) as (c' & Hmc & Hcn & Hck).
  { unfold m. rewrite lookup_insert_eq. eauto. }
  clearbody m. pose proof (w_nodup _ _ W) as Hn. apply NoDup_cons in Hn as [Hn _].
  assert (Hst : forall y, y ∈ l1 ++ nxt :: l2 -> state_at (set_tasks m k) y = state_at k y).
  { intros y Hy. unfold state_at. cbn [tasks set_tasks]. rewrite Hm; [done | by intros ->]. }
  assert (wf (set_tasks m k) (cur :: l1 ++ nxt :: l2)) as W'.
  { destruct W as [Wc W2 W3 W4 W5 W6]. split; try done.
    - eapply chain_ext; [| exact Wc]. intros y _. unfold next_at. cbn [tasks set_tasks].
      destruct (Z.eq_dec y cur) as [-> |]; [rewrite Hmc, Hc; cbn; by rewrite Hcn | by rewrite Hm].
    - intros y t. cbn [tasks set_tasks].
      destruct (Z.eq_dec y cur) as [-> |]; [| rewrite Hm by done; apply W6].
      rewrite Hmc. intros [= <-]. rewrite Hck. by apply W6. }
  destruct (schedule_correct _ cur l1 nxt l2 W') as (k' & t & t' & d & d' & H & _ & Hg & _ & _ & _ & _
    & _ & _ & _ & Hd' & Hst' & _).
  - intros x Hx. rewrite Hst; [by apply H1 | apply elem_of_app; by left].
  - rewrite Hst; [done | apply elem_of_app; right; left].
  - exists k'. split_and!; try done. unfold state_at. rewrite Hd'. cbn. by rewrite Hst'.
Qed.

(** ** The timer tick *)

Lemma deliver_frame n : forall s t,
  let t' := deliver n s t in
  next t' = next t /\ kernel_stack_base t' = kernel_stack_base t /\ pid t' = pid t /\
  (state t' = state t \/ state t' = TASK_TERMINATED).
Proof.
  induction n as [| n IH]; intros s t; cbn [deliver]; [auto |].
  destruct (zlook (signals t) s) as [g |]; [| auto].
  destruct (istrue (pending g) && negb (istrue (mask g))); [| apply IH].
  destruct (s =? 9); [auto |]. destruct (_ && _); [auto |].
  destruct (IH (s + 1) (with_signals ((signals t).[s <- Signal (handler g) 0 (mask g)]) t))
    as (H1 & H2 & H3 & H4). rewrite H1, H2, H3. auto.
Qed.

Lemma tick_task_frame now t :
  next (tick_task now t) = next t /\ kernel_stack_base (tick_task now t) = kernel_stack_base t.
Proof.
  unfold tick_task. destruct (decide (state t = TASK_SLEEPING)); [destruct (wake_tick t <=? now) |];
    match goal with |- context [decide ?P] => destruct (decide P); [done |] end;
    match goal with |- context [deliver ?n ?s ?t] => destruct (deliver_frame n s t) as (H1 & H2 & _) end;
    rewrite H1, H2; done.
Qed.

Lemma tick_loop_spec now cur l : forall fuel a m,
  chain m a l cur -> NoDup l -> l <> [] -> cur ∉ tail l -> (length l < fuel)%nat ->
  exists m', tick_loop fuel now a cur m = Some m' /\
    (forall x, x ∈ l -> exists t, m !! x = Some t /\ m' !! x = Some (tick_task now t)) /\
    (forall x, x ∉ l -> m' !! x = m !! x).
Proof.
  induction l as [| x l IH]; intros fuel a m Hc Hn Hne Hcur Hf; [done |].
  destruct fuel as [| fuel]; [simpl in Hf; lia |]. cbn [tick_loop chain tail] in *.
  destruct Hc as (-> & b & Hb & Hc). unfold next_at in Hb.
  destruct (m !! x) as [t |] eqn:Ht; [| done]. injection Hb as Hb. cbn [mbind option_bind].
  apply NoDup_cons in Hn as [Hn1 Hn2]. set (m1 := <[x:=tick_task now t]> m). rewrite Hb.
  assert (chain m1 b l cur) as Hc1.
  { eapply chain_ext; [| exact Hc]. intros y Hy. unfold next_at, m1.
    rewrite lookup_insert_ne; [done | by intros ->]. }
  destruct l as [| y l].
  - cbn [chain] in Hc. subst b. rewrite Hc, Z.eqb_refl. exists m1. split; [done |]. split.
    + intros z [-> | Hz]%elem_of_cons; [| by apply elem_of_nil in Hz]. exists t.
      unfold m1. by rewrite lookup_insert_eq.
    + intros z Hz. unfold m1. rewrite lookup_insert_ne; [done |]. intros ->. apply Hz. left.
  - pose proof Hc as (E & _). destruct (Z.eqb_spec b cur) as [-> | Hbc].
    { exfalso. apply Hcur. rewrite E. left. }
    destruct (IH fuel b m1 Hc1 Hn2) as (m' & Hm & H1 & H2);
      [done | intros H; apply Hcur; by right | simpl in *; lia |].
    exists m'. split; [done |]. split.
    + intros z [-> | Hz]%elem_of_cons.
      * exists t. split; [done |]. rewrite H2 by done. unfold m1. by rewrite lookup_insert_eq.
      * destruct (H1 z Hz) as (tz & Htz & Hm'). exists tz. split; [| done].
        unfold m1 in Htz. rewrite lookup_insert_ne in Htz; [done | by intros ->].
    + intros z Hz. apply not_elem_of_cons in Hz as [Hz1 Hz2]. rewrite H2 by done. unfold m1.
      by rewrite lookup_insert_ne.
Qed.

Lemma scheduler_tick_correct (k : kernel) (now : Z) (l : list Z) (W : wf k l) :
  exists k', scheduler_tick now k = Some k' /\ wf k' l /\
    (forall x, x ∈ l -> exists t, tasks k !! x = Some t /\ tasks k' !! x = Some (tick_task now t) /\
       (state (tick_task now t) = TASK_TERMINATED \/
        state (tick_task now t) =
          if bool_decide (state t = TASK_SLEEPING) && (wake_tick t <=? now) then TASK_READY else state t)).
Proof.
  destruct l as [| cur l]; [by destruct W |].
  pose proof (chain_head _ _ _ W) as Hcur. pose proof (wf_fuel _ _ W) as Hf.
  pose proof W as [Hc Hs Hn Hz Hp Hst]. rewrite Hcur in Hc.
  unfold scheduler_tick. rewrite Hcur. inversion Hz as [| ? ? Hc0 _]. subst.
  destruct (Z.eqb_spec (g_current k) 0); [done |].
  destruct (tick_loop_spec now _ _ (list_fuel k) _ _ Hc Hn Hs) as (m' & -> & H1 & H2); [| done |].
  { cbn [tail]. by apply NoDup_cons in Hn as [Hn _]. }
  cbn [mbind option_bind]. eexists. split; [done |]. split.
  - split; try done; cbn [tasks set_tasks g_current].
    + eapply chain_ext; [| exact Hc]. intros x Hx. destruct (H1 x Hx) as (t & Ht & Ht').
      unfold next_at. rewrite Ht, Ht'. cbn. by destruct (tick_task_frame now t) as [-> _].
    + intros x t Ht. destruct (decide (x ∈ g_current k :: l)) as [Hx | Hx].
      * destruct (H1 x Hx) as (t0 & Ht0 & Ht'). rewrite Ht' in Ht. injection Ht as <-.
        destruct (tick_task_frame now t0) as [_ ->]. by apply Hst.
      * rewrite H2 in Ht by done. by apply Hst.
  - intros x Hx. destruct (H1 x Hx) as (t & Ht & Ht'). exists t. split_and!; try done.
    unfold tick_task.
    assert (state (if decide (state t = TASK_SLEEPING) then
              if wake_tick t <=? now then with_state TASK_READY t else t else t) =
            if bool_decide (state t = TASK_SLEEPING) && (wake_tick t <=? now) then TASK_READY else state t) as E.
    { destruct (decide (state t = TASK_SLEEPING)).
      - rewrite bool_decide_true by done. cbn [andb]. by destruct (_ <=? _).
      - by rewrite bool_decide_false by done. }
    revert E. generalize (if decide (state t = TASK_SLEEPING) then
              if wake_tick t <=? now then with_state TASK_READY t else t else t). intros t1 E.
    destruct (decide (state t1 = TASK_TERMINATED)); [by left |].
    destruct (deliver_frame TASK_MAX_SIGNALS 0 t1) as (_ & _ & _ & [-> | ->]); [right | left]; done.
Qed.

(** Also: a timer tick ends, visits every task of the list exactly once and changes no link;
    a sleeping task whose time has come becomes ready unless a signal terminates it, and
    any other state changes only to terminated. *)
Theorem scheduler_tick_spec (k : kernel) (now : Z) (l : list Z) (W : wf k l) :
  exists k', scheduler_tick now k = Some k' /\ wf k' l /\
    (forall x, x ∈ l -> exists t, tasks k !! x = Some t /\ tasks k' !! x = Some (tick_task now t) /\
       (state (tick_task now t) = TASK_TERMINATED \/
        state (tick_task now t) =
          if bool_decide (state t = TASK_SLEEPING) && (wake_tick t <=? now) then TASK_READY else state t)).
Proof. by apply scheduler_tick_correct. Qed.

(** ** Creation of tasks *)

Lemma k_write_frame a v k :
  tasks (k_write a v k) = tasks k /\ g_current (k_write a v k) = g_current k /\
  g_next_pid (k_write a v k) = g_next_pid k /\
  m_pmm (h_mach (k_heap (k_write a v k))) = m_pmm (h_mach (k_heap k)).
Proof. done. Qed.

Lemma k_write_loop n : forall i (f : Z -> Z) k,
  let k' := loop n i (fun j k => k_write (f j) 0 k) k in
  tasks k' = tasks k /\ g_current k' = g_current k /\ g_next_pid k' = g_next_pid k /\
  m_pmm (h_mach (k_heap k')) = m_pmm (h_mach (k_heap k)) /\
  forall x, (forall j, i <= j < i + Z.of_nat n -> x <> f j) ->
    rd (m_mem (h_mach (k_heap k'))) x = rd (m_mem (h_mach (k_heap k))) x.
Proof.
  induction n as [| n IH]; intros i f k; [done |]. cbn [loop].
  destruct (IH (i + 1) f (k_write (f i) 0 k)) as (H1 & H2 & H3 & H4 & H5).
  destruct (k_write_frame (f i) 0 k) as (E1 & E2 & E3 & E4).
  split_and!; try congruence. intros x Hx. rewrite H5 by (intros; apply Hx; lia).
  cbn [k_write k_heap set_heap set_mach h_mach m_mem with_mem]. rewrite rd_wr.
  destruct (Z.eqb_spec (f i) x) as [E |]; [| done]. exfalso. apply (Hx i); [lia | done].
Qed.

Lemma k_alloc_fresh k :
  Pmm.wf (m_pmm (h_mach (k_heap k))) ->
  exists a k', k_alloc k = Some (a, k') /\ Pmm.wf (m_pmm (h_mach (k_heap k'))) /\
    tasks k' = tasks k /\ g_current k' = g_current k /\ g_next_pid k' = g_next_pid k /\
    m_mem (h_mach (k_heap k')) = m_mem (h_mach (k_heap k)) /\
    (forall f, in_use (m_pmm (h_mach (k_heap k))) f -> in_use (m_pmm (h_mach (k_heap k'))) f) /\
    (a = 0 \/ (0 < a < 2 ^ 52 /\ a mod 4096 = 0 /\ in_use (m_pmm (h_mach (k_heap k'))) (a / 4096) /\
               ~ in_use (m_pmm (h_mach (k_heap k))) (a / 4096))).
Proof.
  intros Hw. destruct (pmm_alloc_fresh _ Hw) as (a & p & Hp & Hwp & Hin & Hf).
  unfold k_alloc. rewrite Hp. cbn [mbind option_bind fst snd]. eexists a, _. split; [done |]. done.
Qed.

(** The structures lie in frames that are in use. *)
Definition task_frames (k : kernel) : Prop :=
  forall x t, tasks k !! x = Some t -> x mod 4096 = 0 /\ in_use (m_pmm (h_mach (k_heap k))) (x / 4096).

Lemma task_create_correct (k : kernel) (entry cur : Z) (l : list Z) (c : task_struct)
    (W : wf k (cur :: l)) (F : task_frames k) (Hc : tasks k !! cur = Some c) :
  exists r k', task_create entry k = Some (r, k') /\
    (r = 0 /\ tasks k' = tasks k \/
     exists a t, r = g_next_pid k /\ (a ∉ cur :: l) /\ wf k' (cur :: a :: l) /\ task_frames k' /\
       tasks k' !! a = Some t /\ pid t = g_next_pid k /\ ppid t = pid c /\ state t = TASK_READY /\
       same_tasks k k' (cur :: l)).
Proof.
  pose proof (chain_head _ _ _ W) as Hcur.
  destruct (k_alloc_fresh k (w_pmm _ _ W)) as (a & k1 & Ha & Hw1 & T1 & C1 & P1 & _ & I1 & A1).
  destruct (k_alloc_fresh k1 Hw1) as (st & k2 & Hst & Hw2 & T2 & C2 & P2 & _ & I2 & A2).
  unfold task_create. rewrite Ha. cbn [mbind option_bind]. rewrite Hst. cbn [mbind option_bind].
  unfold istrue. destruct (Z.eqb_spec a 0) as [-> | Ha0]; cbn [negb orb].
  { eexists _, _. split; [done |]. left. split; [done | congruence]. }
  destruct (Z.eqb_spec st 0) as [-> | Hs0]; cbn [negb orb].
  { eexists _, _. split; [done |]. left. split; [done | congruence]. }
  destruct A1 as [| (Ha1 & Ha2 & Ha3 & Ha4)]; [done |]. destruct A2 as [| (Hs1 & Hs2 & Hs3 & Hs4)]; [done |].
  set (top := u64 (st + TASK_STACK_SIZE) - 8).
  destruct (k_write_loop 6 1 (fun j => top - 8 * j) (k_write top entry k2)) as (E1 & E2 & E3 & E4 & _).
  set (k3 := loop 6 1 _ _) in *. clearbody k3.
  cbn [k_write set_heap tasks g_current g_next_pid k_heap set_mach h_mach m_pmm with_mem] in E1, E2, E3, E4.
  assert (tasks k3 = tasks k) as ET by congruence. assert (g_current k3 = cur) as EC by congruence.
  assert (g_next_pid k3 = g_next_pid k) as EP by congruence.
  rewrite EC, ET. cbn [set_next_pid g_current tasks].
  pose proof (w_nonzero _ _ W) as Hnz0. inversion Hnz0 as [| ? ? Hc0 Hl0]. subst.
  rewrite EC. destruct (Z.eqb_spec (g_current k) 0); [done |]. cbn [negb].
  rewrite Hc. cbn [mbind option_bind]. rewrite ET, Hc. cbn [mbind option_bind].
  assert (tasks k !! a = None) as Han.
  { destruct (tasks k !! a) as [t |] eqn:E; [| done]. by destruct (F _ _ E) as [_ Hu]. }
  eexists _, _. split; [done |]. right.
  match goal with |- context [with_next (next c) ?t0] => set (t := t0) end.
  assert (state t = TASK_READY /\ pid t = g_next_pid k3 /\ ppid t = pid c /\ kernel_stack_base t = st)
    as (St & Sp & Spp & Sk) by done. clearbody t.
  destruct (insert_wf k (set_tasks (<[g_current k := with_next a c]> (<[a := with_next (next c) t]> (tasks k)))
    (set_next_pid (u32 (g_next_pid k3 + 1)) k3)) (g_current k) a l c (with_next (next c) t) W Hc Han)
    as (Hnl & W' & S' & Ea); try done; [lia | cbn; lia | cbn; by rewrite E4 |].
  exists a, (with_next (next c) t). split_and!; try done; [congruence | |].
  - intros y ty. cbn [tasks set_tasks set_next_pid k_heap]. rewrite E4.
    intros [[<- <-] | [_ [[<- <-] | [_ Hy]]%lookup_insert_Some]]%lookup_insert_Some.
    + destruct (F _ _ Hc). auto.
    + auto.
    + destruct (F _ _ Hy). auto.
  - change (pid (with_next (next c) t)) with (pid t). congruence.
Qed.

(** Also: task_create either returns 0 and leaves the tasks as they were, when there is no
    frame, or makes a ready task with the next process number, whose parent is the
    current task, in a new frame, and links it just after the current task; the list
    stays circular and no other task changes but for its link. *)
Theorem task_create_spec (k : kernel) (entry cur : Z) (l : list Z) (c : task_struct)
    (W : wf k (cur :: l)) (F : task_frames k) (Hc : tasks k !! cur = Some c) :
  exists r k', task_create entry k = Some (r, k') /\
    (r = 0 /\ tasks k' = tasks k \/
     exists a t, r = g_next_pid k /\ (a ∉ cur :: l) /\ wf k' (cur :: a :: l) /\ task_frames k' /\
       tasks k' !! a = Some t /\ pid t = g_next_pid k /\ ppid t = pid c /\ state t = TASK_READY /\
       same_tasks k k' (cur :: l)).
Proof. exact (task_create_correct k entry cur l c W F Hc). Qed.

(** Also: the initial stack frame of a new task is built 16 KiB above the single frame
    allocated for its stack: the entry point is stored in the third frame after it,
    which need not belong to the task. *)
Theorem task_create_stack_outside (k : kernel) (entry cur : Z) (l : list Z) (c : task_struct)
    (W : wf k (cur :: l)) (Hc : tasks k !! cur = Some c) (r : Z) (k' : kernel)
    (Hr : task_create entry k = Some (r, k')) (Hnz : r <> 0) :
  exists a st, (exists k1 k2, k_alloc k = Some (a, k1) /\ k_alloc k1 = Some (st, k2)) /\
    st mod 4096 = 0 /\
    rd (m_mem (h_mach (k_heap k'))) (st + 16376) = entry /\
    (st + 16376) / 4096 = st / 4096 + 3.
Proof.
  pose proof (chain_head _ _ _ W) as Hcur.
  destruct (k_alloc_fresh k (w_pmm _ _ W)) as (a & k1 & Ha & Hw1 & T1 & C1 & _ & _ & _ & A1).
  destruct (k_alloc_fresh k1 Hw1) as (st & k2 & Hst & Hw2 & T2 & C2 & _ & _ & _ & A2).
  unfold task_create in Hr. rewrite Ha in Hr. cbn [mbind option_bind] in Hr.
  rewrite Hst in Hr. cbn [mbind option_bind] in Hr.
  unfold istrue in Hr. destruct (Z.eqb_spec a 0) as [-> | Ha0]; cbn [negb orb] in Hr;
    [injection Hr as <- _; done |].
  destruct (Z.eqb_spec st 0) as [-> | Hs0]; cbn [negb orb] in Hr; [injection Hr as <- _; done |].
  destruct A2 as [| (Hs1 & Hs2 & _)]; [done |]. change (2 ^ 52) with 4503599627370496 in Hs1.
  exists a, st. split; [by exists k1, k2 |]. split; [done |]. split; [| lia].
  rewrite (u64_id (st + TASK_STACK_SIZE)) in Hr by (unfold TASK_STACK_SIZE; lia).
  set (top := st + TASK_STACK_SIZE - 8) in *.
  replace (st + 16376) with top by (unfold top, TASK_STACK_SIZE; lia).
  destruct (k_write_loop 6 1 (fun j => top - 8 * j) (k_write top entry k2)) as (E1 & E2 & E3 & E4 & E5).
  set (k3 := loop 6 1 _ _) in *. clearbody k3.
  assert (rd (m_mem (h_mach (k_heap k3))) top = entry) as Hrd.
  { rewrite E5 by (intros; lia). cbn [k_write k_heap set_heap set_mach h_mach m_mem with_mem].
    by rewrite rd_wr, Z.eqb_refl. }
  rewrite <- Hrd. f_equal.
  destruct (if negb (g_current k3 =? 0) then _ else _) as [pp |]; [| done].
  cbn [mbind option_bind set_next_pid g_current tasks] in Hr.
  destruct (g_current k3 =? 0); [injection Hr as _ <-; done |].
  destruct (tasks k3 !! g_current k3); [| done]. injection Hr as _ <-. done.
Qed.

(** ** File descriptors *)

Lemma fd_alloc_from_spec ptr type l n : forall i,
  0 <= i -> i + Z.of_nat n <= zlen l ->
  let r := fd_alloc_from n i ptr type l in
  (exists e, i <= fst r < i + Z.of_nat n /\ zlook l (fst r) = Some e /\ fused e = 0 /\
     snd r = l.[fst r <- FdEntry ptr type 1] /\
     forall j, i <= j < fst r -> exists f, zlook l j = Some f /\ fused f <> 0) \/
  (fst r = -1 /\ snd r = l /\
     forall j, i <= j < i + Z.of_nat n -> exists f, zlook l j = Some f /\ fused f <> 0).
Proof.
  induction n as [| n IH]; intros i Hi Hl; cbn [fd_alloc_from].
  - right. split_and!; try done. lia.
  - destruct (zlook_in_range l i) as [e He]; [lia |]. rewrite He. unfold istrue.
    destruct (Z.eqb_spec (fused e) 0) as [Hu | Hu]; cbn [negb].
    + left. exists e. cbn [fst snd]. split_and!; try done; lia.
    + destruct (IH (i + 1) ltac:(lia) ltac:(lia)) as [(e' & H1 & H2 & H3 & H4 & H5) | (H1 & H2 & H3)].
      * left. exists e'. split_and!; try done; try lia. intros j Hj.
        destruct (Z.eq_dec j i) as [-> | ?]; [eauto | apply H5; lia].
      * right. split_and!; try done. intros j Hj.
        destruct (Z.eq_dec j i) as [-> | ?]; [eauto | apply H3; lia].
Qed.

(** Also: task_fd_alloc gives out the lowest unused descriptor from 3 on, which then names the
    object, and touches no other descriptor; it fails exactly when all of them are in use. *)
Theorem task_fd_alloc_spec (t : task_struct) (ptr type : Z)
    (Hl : zlen (fd t) = Z.of_nat TASK_MAX_FD) :
  let '(i, t') := task_fd_alloc ptr type t in
  (3 <= i < 32 /\ task_fd_get i t' = ptr /\
   (forall j, 3 <= j < i -> exists e, zlook (fd t) j = Some e /\ fused e <> 0) /\
   (forall j, j <> i -> zlook (fd t') j = zlook (fd t) j)) \/
  (i = -1 /\ t' = t /\ forall j, 3 <= j < 32 -> exists e, zlook (fd t) j = Some e /\ fused e <> 0).
Proof.
  unfold task_fd_alloc.
  pose proof (fd_alloc_from_spec ptr type (fd t) (TASK_MAX_FD - 3) 3 ltac:(lia)) as H.
  rewrite Hl in H. specialize (H ltac:(done)). cbv zeta in H.
  destruct (fd_alloc_from (TASK_MAX_FD - 3) 3 ptr type (fd t)) as [i l]. cbn [fst snd] in H.
  change (3 + Z.of_nat (TASK_MAX_FD - 3)) with 32 in H. change (Z.of_nat TASK_MAX_FD) with 32 in *.
  destruct H as [(e & Hi & He & Hu & -> & Hlow) | (-> & -> & Hall)].
  - left. split_and!; try lia; try done.
    + unfold task_fd_get, fd_ok. change (Z.of_nat TASK_MAX_FD) with 32.
      destruct (Z.leb_spec 0 i), (Z.ltb_spec i 32); try lia. cbn [negb andb fd with_fd].
      rewrite zlook_zset_eq by lia. done.
    + intros j Hj. cbn [fd with_fd]. by apply zlook_zset_ne.
  - right. split_and!; try done. by destruct t.
Qed.

(** ** An example: three tasks, the second asleep *)

Definition task_ex (p : Z) (s : task_state) (n : Z) : task_struct :=
  Task p 0 s (0x9000 + p) 0 0 50 0 (replicate TASK_MAX_FD (FdEntry 0 0 0))
    (replicate TASK_MAX_SIGNALS (Signal 0 0 0)) 0 n.
Definition tasks_ex : gmap Z task_struct :=
  <[0x2000 := task_ex 1 TASK_RUNNING 0x3000]> (<[0x3000 := task_ex 2 TASK_SLEEPING 0x4000]>
  (<[0x4000 := task_ex 3 TASK_READY 0x2000]> ∅)).
Definition kernel_ex : kernel :=
  mkKernel (heap_boot (mkMach ∅ (mkPmm [31; 0] 16 5) 0x1000)) tasks_ex 0x2000 4 0x1000 0x8000 0x1000 false.

Lemma tasks_ex_inv x t : tasks_ex !! x = Some t ->
  (x = 0x2000 \/ x = 0x3000 \/ x = 0x4000) /\ kernel_stack_base t = 0.
Proof.
  unfold tasks_ex. intros H.
  repeat (apply lookup_insert_Some in H as [[<- <-] | [_ H]]; [split; [tauto | done] |]). done.
Qed.

Lemma kernel_ex_wf : wf kernel_ex [0x2000; 0x3000; 0x4000].
Proof.
  split.
  - cbn [chain]. split; [done |]. exists 0x3000. split; [done |]. split; [done |].
    exists 0x4000. split; [done |]. split; [done |]. exists 0x2000. done.
  - done.
  - repeat (apply NoDup_cons; split; [by repeat (apply not_elem_of_cons; split; [done |]); apply not_elem_of_nil |]).
    by apply NoDup_nil.
  - by repeat constructor.
  - split; [by repeat constructor | done | done].
  - intros x t [Hx ->]%tasks_ex_inv. lia.
Qed.

Lemma kernel_ex_frames : task_frames kernel_ex.
Proof.
  intros x t [[-> | [-> | ->]] _]%tasks_ex_inv; (split; [done |]; split; [split |]; done).
Qed.

Lemma kernel_ex_l1 x : x ∈ [0x3000] -> exists s, state_at kernel_ex x = Some s /\ skipped s = true.
Proof. intros ->%list_elem_of_singleton. exists TASK_SLEEPING. done. Qed.

Lemma schedule_spec_witness :
  exists k', schedule kernel_ex = Some k' /\ g_current k' = 0x4000.
Proof.
  destruct (schedule_spec kernel_ex 0x2000 0x4000 [0x3000] [] kernel_ex_wf kernel_ex_l1
    ltac:(exists TASK_READY; done)) as (k' & t & c' & H & _ & Hg & _).
  exists k'. exact (conj H Hg).
Defined.

Lemma task_sleep_lost_witness :
  exists k', task_sleep 100 500 kernel_ex = Some k' /\ state_at k' 0x2000 = Some TASK_READY.
Proof.
  destruct (task_sleep_lost kernel_ex 100 500 0x2000 0x4000 [0x3000] [] kernel_ex_wf kernel_ex_l1
    ltac:(exists TASK_READY; done)) as (k' & H & Hs & _).
  exists k'. exact (conj H Hs).
Defined.

Lemma scheduler_tick_spec_witness :
  exists k', scheduler_tick 60 kernel_ex = Some k' /\ wf k' [0x2000; 0x3000; 0x4000].
Proof.
  destruct (scheduler_tick_spec kernel_ex 60 _ kernel_ex_wf) as (k' & H & W & _).
  exists k'. exact (conj H W).
Defined.

Lemma task_create_spec_witness :
  exists r k', task_create 0x7777 kernel_ex = Some (r, k').
Proof.
  destruct (task_create_spec kernel_ex 0x7777 0x2000 _ _ kernel_ex_wf kernel_ex_frames eq_refl)
    as (r & k' & H & _).
  exists r, k'. exact H.
Defined.

Lemma task_create_stack_outside_witness :
  exists st : Z, (st + 16376) / 4096 = st / 4096 + 3.
Proof.
  destruct (task_create 0x7777 kernel_ex) as [[r k'] |] eqn:E; [| vm_compute in E; discriminate E].
  assert (r <> 0) as Hr by (vm_compute in E; intros ->; discriminate E).
  destruct (task_create_stack_outside kernel_ex 0x7777 0x2000 _ _ kernel_ex_wf eq_refl r k' E Hr)
    as (a & st & _ & _ & _ & H).
  exists st. exact H.
Defined.

(** One task only: it keeps running. *)
Definition kernel_one : kernel :=
  set_tasks (<[0x2000 := task_ex 1 TASK_RUNNING 0x2000]> ∅) kernel_ex.

Lemma schedule_alone_witness : schedule kernel_one = Some kernel_one.
Proof.
  assert (wf kernel_one [0x2000]) as W.
  { split; try done.
    - cbn [chain]. split; [done |]. by exists 0x2000.
    - by apply NoDup_singleton.
    - by repeat constructor.
    - split; [by repeat constructor | done | done].
    - intros x t H. cbn [tasks kernel_one set_tasks] in H.
      apply lookup_insert_Some in H as [[<- <-] | [_ H]]; done. }
  assert (forall x, x ∈ [] -> exists s, state_at kernel_one x = Some s /\ skipped s = true) as H1.
  { intros x Hx. by apply elem_of_nil in Hx. }
  exact (schedule_alone kernel_one 0x2000 [] W H1).
Defined.

Lemma task_fd_alloc_spec_witness :
  zlen (fd (task_ex 1 TASK_READY 0)) = 32 /\
  fst (task_fd_alloc 0x5000 1 (task_ex 1 TASK_READY 0)) = 3.
Proof.
  split; [done |].
  pose proof (task_fd_alloc_spec (task_ex 1 TASK_READY 0) 0x5000 1 eq_refl) as H.
  vm_compute task_fd_alloc in H |- *.
  destruct H as [(_ & _ & _ & _) | (E & _)]; [reflexivity | discriminate E].
Defined.
