(* ===== verification/Vfs.v ===== *)
(** * Virtual file system (src/fs/vfs.c)

    Nodes and open files are structures allocated from the kernel heap; a pointer to one
    is its address and the structures are kept by address in [nodes] and [files].
    Names and paths are the lists of their characters, without the terminator. A
    filesystem is the record of its function pointers ([None] for a null pointer)
    over the state of the whole file layer, which holds the device [D] below it.
    [None] as a result is an access through a dangling pointer or an endless list. *)

From S2P Require Import Prelude Memory Heap Sched.

Definition VFS_MAX_MOUNTS : Z := 16.
Definition VFS_FILE : Z := 1.
Definition VFS_DIR : Z := 2.
Definition SLASH : Z := 47.

Record vfs_node := Node {
  n_name : list Z; n_size : Z; n_flags : Z; n_fs : Z; n_data : Z;
  n_parent : Z; n_children : Z; n_next : Z }.
Record file := File { f_node : Z; f_offset : Z }.

Definition with_size v n := Node (n_name n) v (n_flags n) (n_fs n) (n_data n) (n_parent n)
  (n_children n) (n_next n).
Definition with_children v n := Node (n_name n) (n_size n) (n_flags n) (n_fs n) (n_data n)
  (n_parent n) v (n_next n).
Definition with_next_node v n := Node (n_name n) (n_size n) (n_flags n) (n_fs n) (n_data n)
  (n_parent n) (n_children n) v.

(** The data the filesystem keeps per node: first cluster and directory entry. *)
Record fat_node_data := NodeData { d_cluster : Z; d_lba : Z; d_off : Z }.

Record vst (D : Type) := mkVst {
  v_heap : heap;
  nodes : gmap Z vfs_node;
  files : gmap Z file;
  datas : gmap Z fat_node_data;
  mounts : list (list Z * Z);      (* g_mount_paths, g_mounts *)
  dev : D }.
Arguments mkVst {D}. Arguments v_heap {D}. Arguments nodes {D}. Arguments files {D}.
Arguments datas {D}. Arguments mounts {D}. Arguments dev {D}.

Section state.
Context {D : Type}.
Implicit Types s : vst D.
Definition set_vheap h s := mkVst h (nodes s) (files s) (datas s) (mounts s) (dev s).
Definition set_nodes m s := mkVst (v_heap s) m (files s) (datas s) (mounts s) (dev s).
Definition set_files m s := mkVst (v_heap s) (nodes s) m (datas s) (mounts s) (dev s).
Definition set_datas m s := mkVst (v_heap s) (nodes s) (files s) m (mounts s) (dev s).
Definition set_mounts m s := mkVst (v_heap s) (nodes s) (files s) (datas s) m (dev s).
Definition set_dev (d : D) s := mkVst (v_heap s) (nodes s) (files s) (datas s) (mounts s) d.

Definition upd_node (a : Z) (f : vfs_node -> vfs_node) s : option (vst D) :=
  n ← nodes s !! a; Some (set_nodes (<[a := f n]> (nodes s)) s).
End state.

(** The function pointers of a filesystem. The callback of readdir is not called by the
    code that populates directories; a listing returns its entries. *)
Record filesystem (D : Type) := Fs {
  fs_root : Z;
  fs_read : option (Z -> Z -> Z -> vst D -> option (Z * list Z * vst D));
  fs_write : option (Z -> Z -> list Z -> vst D -> option (Z * vst D));
  fs_readdir : option (Z -> vst D -> option (Z * vst D));
  fs_create : option (Z -> list Z -> Z -> vst D -> option (Z * vst D));
  fs_unlink : option (Z -> list Z -> vst D -> option (Z * vst D)) }.
Arguments Fs {D}. Arguments fs_root {D}. Arguments fs_read {D}. Arguments fs_write {D}.
Arguments fs_readdir {D}. Arguments fs_create {D}. Arguments fs_unlink {D}.

(** ** Paths *)

Definition list_eqb (s t : list Z) : bool := bool_decide (s = t).

(** [strncmp(prefix, s, strlen(prefix)) == 0] *)
Fixpoint is_prefix (p s : list Z) : bool :=
  match p, s with
  | [], _ => true
  | _ :: _, [] => false
  | c :: p', d :: s' => (c =? d) && is_prefix p' s'
  end.

(** The scan of the mount table for the longest mount path that begins [full]. *)
Fixpoint best_mount (ms : list (list Z * Z)) (full : list Z) (i best best_len : Z) : Z * Z :=
  match ms with
  | [] => (best, best_len)
  | (p, _) :: ms' =>
      if is_prefix p full && (best_len <? zlen p)
      then best_mount ms' full (i + 1) i (zlen p)
      else best_mount ms' full (i + 1) best best_len
  end.

(** The index of the mount and the rest of the path; [-1] when there is none. *)
Definition vfs_split_path (ms : list (list Z * Z)) (full : list Z) : Z * list Z :=
  match full with
  | c :: _ =>
      if negb (c =? SLASH) then (-1, [])
      else
        let '(best, best_len) := best_mount ms full 0 (-1) 0 in
        if best <? 0 then (-1, [])
        else match drop (Z.to_nat best_len) full with
             | [] => (best, [])
             | c :: r => (best, if c =? SLASH then r else c :: r)
             end
  | [] => (-1, [])
  end.

(** The parts strtok(_, "/") yields, in order. *)
Fixpoint split_slash (s : list Z) (cur : list Z) : list (list Z) :=
  match s with
  | [] => match cur with [] => [] | _ => [cur] end
  | c :: s' =>
      if c =? SLASH
      then match cur with [] => split_slash s' [] | _ => cur :: split_slash s' [] end
      else split_slash s' (cur ++ [c])
  end.
Definition parts (s : list Z) : list (list Z) := split_slash s [].

(** [while (slash > 0 && path[slash - 1] != '/') slash--;] *)
Fixpoint last_slash (n : nat) (p : list Z) : nat :=
  match n with
  | O => O
  | S n' => if p.[Z.of_nat n'] =? SLASH then S n' else last_slash n' p
  end.

(** The parent and the last name of a path; [None] when there is no name. *)
Definition vfs_split_parent (p : list Z) : option (list Z * list Z) :=
  let len := length p in
  if (len =? 0)%nat then None
  else
    let slash := last_slash len p in
    if (slash =? len)%nat then None
    else
      let parent := if (slash =? 0)%nat then [] else take (Nat.min (slash - 1) 255) p in
      match drop slash p with [] => None | name => Some (parent, name) end.

(** ** Operations *)

Section vfs.
Context {D : Type} (fs_of : Z -> option (filesystem D)).
Implicit Types s : vst D.

Definition vfs_init s : vst D := set_mounts [] s.

Definition vfs_mount (p : list Z) (fs : Z) s : Z * vst D :=
  if existsb (fun '(q, _) => list_eqb q p) (mounts s) then (-1, s)
  else if VFS_MAX_MOUNTS <=? zlen (mounts s) then (-1, s)
  else (0, set_mounts (mounts s ++ [(p, fs)]) s).

(** The filesystem mounted at index [idx]. *)
Definition mounted (idx : Z) s : option (filesystem D) :=
  '(_, f) ← zlook (mounts s) idx; fs_of f.

Definition node_fuel s : nat := size (nodes s) + 1.

Fixpoint find_child (fuel : nat) (child : Z) (name : list Z) s : option Z :=
  match fuel with
  | O => None
  | S f =>
      if negb (istrue child) then Some 0
      else n ← nodes s !! child;
           if list_eqb (n_name n) name then Some child else find_child f (n_next n) name s
  end.

(** [if (!curr->children && fs->readdir) fs->readdir(curr, NULL, NULL);] *)
Definition populate (fs : filesystem D) (a : Z) s : option (vst D) :=
  n ← nodes s !! a;
  match fs_readdir fs with
  | Some f => if n_children n =? 0 then r ← f a s; Some (snd r) else Some s
  | None => Some s
  end.

Definition is_dir (n : vfs_node) : bool := istrue (Z.land (n_flags n) VFS_DIR).
Definition is_file (n : vfs_node) : bool := istrue (Z.land (n_flags n) VFS_FILE).

Fixpoint resolve_parts (fs : filesystem D) (ps : list (list Z)) (curr : Z) s : option (Z * vst D) :=
  match ps with
  | [] => Some (curr, s)
  | p :: ps' =>
      if negb (istrue curr) then Some (0, s)
      else
        n ← nodes s !! curr;
        if negb (is_dir n) then Some (0, s)
        else
          s ← populate fs curr s;
          n ← nodes s !! curr;
          child ← find_child (node_fuel s) (n_children n) p s;
          if negb (istrue child) then Some (0, s)
          else resolve_parts fs ps' child s
  end.

Definition vfs_resolve (fs : filesystem D) (p : list Z) s : option (Z * vst D) :=
  match p with [] => Some (fs_root fs, s) | _ => resolve_parts fs (parts p) (fs_root fs) s end.

Definition FILE_SIZE : Z := 16.

(** [kmalloc(sizeof(file_t))] and its initialisation. *)
Definition new_file (node : Z) s : option (Z * vst D) :=
  r ← kmalloc FILE_SIZE (v_heap s);
  let '(f, h) := r in
  let s := set_vheap h s in
  if negb (istrue f) then Some (0, s)
  else Some (f, set_files (<[f := File node 0]> (files s)) s).

Definition vfs_open (p : list Z) s : option (Z * vst D) :=
  let '(idx, rest) := vfs_split_path (mounts s) p in
  if idx <? 0 then Some (0, s)
  else
    fs ← mounted idx s;
    r ← vfs_resolve fs rest s;
    let '(node, s) := r in
    if negb (istrue node) then Some (0, s)
    else n ← nodes s !! node; if negb (is_file n) then Some (0, s) else new_file node s.

(** The parent directory of a path, populated; 0 when it is missing or no directory. *)
Definition parent_dir (fs : filesystem D) (parent : list Z) s : option (Z * vst D) :=
  r ← vfs_resolve fs parent s;
  let '(a, s) := r in
  if negb (istrue a) then Some (0, s)
  else
    n ← nodes s !! a;
    if negb (is_dir n) then Some (0, s) else s ← populate fs a s; Some (a, s).

Definition vfs_create (p : list Z) s : option (Z * vst D) :=
  let '(idx, rest) := vfs_split_path (mounts s) p in
  if idx <? 0 then Some (0, s)
  else
    fs ← mounted idx s;
    match fs_create fs with
    | None => Some (0, s)
    | Some create =>
        r ← vfs_resolve fs rest s;
        let '(existing, s) := r in
        file ← (if istrue existing then n ← nodes s !! existing; Some (is_file n) else Some false);
        if file : bool then s ← upd_node existing (with_size 0) s; new_file existing s
        else match vfs_split_parent rest with
             | None => Some (0, s)
             | Some (pp, name) =>
                 r ← parent_dir fs pp s;
                 let '(parent, s) := r in
                 if negb (istrue parent) then Some (0, s)
                 else
                   r ← create parent name VFS_FILE s;
                   let '(node, s) := r in
                   if negb (istrue node) then Some (0, s) else new_file node s
             end
    end.

Definition vfs_mkdir (p : list Z) s : option (Z * vst D) :=
  let '(idx, rest) := vfs_split_path (mounts s) p in
  if idx <? 0 then Some (-1, s)
  else
    fs ← mounted idx s;
    match fs_create fs with
    | None => Some (-1, s)
    | Some create =>
        r ← vfs_resolve fs rest s;
        let '(existing, s) := r in
        if istrue existing then Some (-1, s)
        else match vfs_split_parent rest with
             | None => Some (-1, s)
             | Some (pp, name) =>
                 r ← parent_dir fs pp s;
                 let '(parent, s) := r in
                 if negb (istrue parent) then Some (-1, s)
                 else
                   r ← create parent name VFS_DIR s;
                   let '(node, s) := r in
                   Some (if istrue node then 0 else -1, s)
             end
    end.

(** [sizes] are read by the filesystem; the caller's buffer receives the bytes. *)
Definition vfs_read (f size : Z) s : option (Z * list Z * vst D) :=
  if negb (istrue f) then Some (-1, [], s)
  else
    fl ← files s !! f;
    if negb (istrue (f_node fl)) then Some (-1, [], s)
    else
      n ← nodes s !! f_node fl;
      fs ← fs_of (n_fs n);
      match fs_read fs with
      | None => Some (-1, [], s)
      | Some read =>
          let remain := u64 (n_size n - f_offset fl) in
          let size := if remain <? size then remain else size in
          r ← read (f_node fl) (f_offset fl) size s;
          let '(ret, data, s) := r in
          if 0 <? ret then
            let ret := if size <? ret then s32 size else ret in
            Some (ret, data, set_files (<[f := File (f_node fl) (u64 (f_offset fl + ret))]> (files s)) s)
          else Some (ret, data, s)
      end.

Definition vfs_write (f : Z) (data : list Z) s : option (Z * vst D) :=
  if negb (istrue f) then Some (-1, s)
  else
    fl ← files s !! f;
    if negb (istrue (f_node fl)) then Some (-1, s)
    else
      n ← nodes s !! f_node fl;
      fs ← fs_of (n_fs n);
      match fs_write fs with
      | None => Some (-1, s)
      | Some write =>
          r ← write (f_node fl) (f_offset fl) data s;
          let '(ret, s) := r in
          if 0 <? ret
          then Some (ret, set_files (<[f := File (f_node fl) (u64 (f_offset fl + ret))]> (files s)) s)
          else Some (ret, s)
      end.

(** [if (f) kfree(f);]: the structure is gone with its block. *)
Definition vfs_close (f : Z) s : vst D :=
  if istrue f then set_files (delete f (files s)) (set_vheap (kfree f (v_heap s)) s) else s.

Fixpoint unlink_child (fuel : nat)
    (unlink : Z -> list Z -> vst D -> option (Z * vst D))
    (parent prev child : Z) (name : list Z) s : option (Z * vst D) :=
  match fuel with
  | O => None
  | S f =>
      if negb (istrue child) then unlink parent name s
      else
        n ← nodes s !! child;
        if list_eqb (n_name n) name then
          r ← unlink parent name s;
          let '(ret, s) := r in
          if ret <? 0 then Some (ret, s)
          else
            n ← nodes s !! child;
            s ← (if istrue prev then upd_node prev (with_next_node (n_next n)) s
                 else upd_node parent (with_children (n_next n)) s);
            Some (0, s)
        else unlink_child f unlink parent child (n_next n) name s
  end.

Definition vfs_unlink (p : list Z) s : option (Z * vst D) :=
  let '(idx, rest) := vfs_split_path (mounts s) p in
  if idx <? 0 then Some (-1, s)
  else
    fs ← mounted idx s;
    match fs_unlink fs with
    | None => Some (-1, s)
    | Some unlink =>
        match vfs_split_parent rest with
        | None => Some (-1, s)
        | Some (pp, name) =>
            r ← parent_dir fs pp s;
            let '(parent, s) := r in
            if negb (istrue parent) then Some (-1, s)
            else
              n ← nodes s !! parent;
              unlink_child (node_fuel s) unlink parent 0 (n_children n) name s
        end
    end.

(** The results are the return value, the size and the flags. *)
Definition vfs_stat (p : list Z) s : option (Z * Z * Z * vst D) :=
  let '(idx, rest) := vfs_split_path (mounts s) p in
  if idx <? 0 then Some (-1, 0, 0, s)
  else
    fs ← mounted idx s;
    r ← vfs_resolve fs rest s;
    let '(node, s) := r in
    if negb (istrue node) then Some (-1, 0, 0, s)
    else n ← nodes s !! node; Some (0, n_size n, n_flags n, s).

(** The children in list order, as the callback is given them. *)
Fixpoint list_children (fuel : nat) (child : Z) s : option (list (list Z * Z * Z)) :=
  match fuel with
  | O => None
  | S f => if negb (istrue child) then Some []
           else n ← nodes s !! child; l ← list_children f (n_next n) s;
                Some ((n_name n, n_size n, n_flags n) :: l)
  end.

Definition vfs_readdir (p : list Z) s : option (Z * list (list Z * Z * Z) * vst D) :=
  let '(idx, rest) := vfs_split_path (mounts s) p in
  if idx <? 0 then Some (-1, [], s)
  else
    fs ← mounted idx s;
    r ← vfs_resolve fs rest s;
    let '(node, s) := r in
    if negb (istrue node) then Some (-1, [], s)
    else
      n ← nodes s !! node;
      if negb (is_dir n) then Some (-1, [], s)
      else
        s ← populate fs node s;
        n ← nodes s !! node;
        l ← list_children (node_fuel s) (n_children n) s;
        Some (0, l, s).
End vfs.

(** ** Properties *)

Lemma is_prefix_spec p s : is_prefix p s = true <-> exists r, s = p ++ r.
Proof.
  revert s. induction p as [| c p IH]; intros s; cbn [is_prefix].
  - split; [by exists s | done].
  - destruct s as [| d s]; [split; [done | by intros [r [=]]] |].
    rewrite andb_true_iff, Z.eqb_eq, IH. split.
    + intros [-> [r ->]]. by exists r.
    + intros [r [= -> ->]]. split; [done | by exists r].
Qed.

(** The mount paths that begin [full], from index [i] on, are no longer than the best. *)
Lemma best_mount_spec full ms : forall i best best_len,
  0 <= best_len ->
  let '(b, l) := best_mount ms full i best best_len in
  best_len <= l /\
  (forall p f, (p, f) ∈ ms -> is_prefix p full = true -> zlen p <= l) /\
  ((b = best /\ l = best_len) \/
   (i <= b < i + zlen ms /\ exists p f, zlook ms (b - i) = Some (p, f) /\
      is_prefix p full = true /\ l = zlen p /\ best_len < l)).
Proof.
  induction ms as [| [p f] ms IH]; intros i best best_len Hl; cbn [best_mount].
  { split_and!; [lia | by intros p f ?%elem_of_nil | by left]. }
  destruct (is_prefix p full && (best_len <? zlen p)) eqn:E.
  - apply andb_prop in E as [Ep El]. apply Z.ltb_lt in El.
    specialize (IH (i + 1) i (zlen p) ltac:(lia)).
    destruct (best_mount ms full (i + 1) i (zlen p)) as [b l]. destruct IH as (H1 & H2 & H3).
    split_and!; [lia | |].
    + intros q g [[= -> ->] | Hq]%elem_of_cons Hpq; [lia | by eapply H2].
    + right. rewrite zlen_cons. pose proof (zlen_nonneg ms).
      destruct H3 as [[-> ->] | (Hb & q & g & Hq & H4 & H5 & H6)].
      * split; [lia |]. exists p, f. rewrite Z.sub_diag. done.
      * split; [lia |]. exists q, g. split_and!; try done; try lia.
        rewrite zlook_nonneg in * by lia. replace (Z.to_nat (b - i)) with (S (Z.to_nat (b - (i + 1)))) by lia.
        done.
  - specialize (IH (i + 1) best best_len Hl).
    destruct (best_mount ms full (i + 1) best best_len) as [b l]. destruct IH as (H1 & H2 & H3).
    split_and!; [lia | |].
    + intros q g [[= -> ->] | Hq]%elem_of_cons Hpq; [| by eapply H2].
      rewrite Hpq in E. cbn [andb] in E. apply Z.ltb_ge in E. lia.
    + destruct H3 as [H3 | (Hb & q & g & Hq & H4 & H5 & H6)]; [by left | right].
      rewrite zlen_cons. split; [lia |]. exists q, g. split_and!; try done.
      rewrite zlook_nonneg in * by lia. replace (Z.to_nat (b - i)) with (S (Z.to_nat (b - (i + 1)))) by lia.
      done.
Qed.

(** Also: vfs_split_path finds a mount whose path begins the given absolute path, and no
    longer mount path does; the rest is what follows it, without one leading slash. It
    fails exactly for a path that is not absolute or that no mount path begins. *)
Theorem vfs_split_path_spec (ms : list (list Z * Z)) (full : list Z) :
  let '(idx, rest) := vfs_split_path ms full in
  let absolute := exists r, full = SLASH :: r in
  (idx = -1 /\ (~ absolute \/ forall p f, (p, f) ∈ ms -> is_prefix p full = true -> p = [])) \/
  (absolute /\ exists p f r, zlook ms idx = Some (p, f) /\ full = p ++ r /\
     (r = rest \/ r = SLASH :: rest) /\
     forall q g, (q, g) ∈ ms -> is_prefix q full = true -> zlen q <= zlen p).
Proof.
  unfold vfs_split_path. destruct full as [| c full0].
  { left. split; [done |]. left. by intros [r [=]]. }
  destruct (Z.eqb_spec c SLASH) as [-> | Hc]; cbn [negb].
  2: { left. split; [done |]. left. by intros [r [= -> _]]. }
  set (full := SLASH :: full0).
  pose proof (best_mount_spec full ms 0 (-1) 0 ltac:(lia)) as H.
  destruct (best_mount ms full 0 (-1) 0) as [b l]. destruct H as (H1 & H2 & H3).
  destruct H3 as [[-> ->] | (Hb & p & f & Hp & Hpre & -> & Hl)].
  - left. split; [done |]. right. intros p f Hp Hpre. specialize (H2 p f Hp Hpre).
    destruct p; [done |]. rewrite zlen_cons in H2. pose proof (zlen_nonneg p). lia.
  - destruct (Z.ltb_spec b 0); [lia |]. rewrite Z.sub_0_r in Hp.
    apply is_prefix_spec in Hpre as [r Er].
    assert (drop (Z.to_nat (zlen p)) full = r) as ->.
    { rewrite Er. unfold zlen. rewrite Nat2Z.id. by apply drop_app_length. }
    destruct r as [| d r]; right.
    + split; [by exists full0 |]. exists p, f, []. split_and!; try done. by left.
    + split; [by exists full0 |]. exists p, f, (d :: r). split_and!; try done.
      destruct (Z.eqb_spec d SLASH) as [-> |]; [by right | by left].
Qed.

(** A node whose filesystem reads from it the bytes of [c], as long as the nodes and the
    device are those of [s]. *)
Definition file_content {D : Type} (fs_of : Z -> option (filesystem D)) (nd : Z) (c : list Z)
    (s : vst D) : Prop :=
  exists n fs read, nodes s !! nd = Some n /\ n_size n = zlen c /\
    fs_of (n_fs n) = Some fs /\ fs_read fs = Some read /\
    forall s' off k, nodes s' = nodes s -> datas s' = datas s -> dev s' = dev s ->
      0 <= off -> 0 < k -> off + k <= zlen c ->
      read nd off k s' = Some (k, take (Z.to_nat k) (drop (Z.to_nat off) c), s').

Lemma file_content_set_files {D} (fs_of : Z -> option (filesystem D)) nd c fl s :
  file_content fs_of nd c s -> file_content fs_of nd c (set_files fl s).
Proof. done. Qed.

Lemma vfs_read_content {D} (fs_of : Z -> option (filesystem D)) nd c s f off k :
  file_content fs_of nd c s -> zlen c < 2147483648 -> f <> 0 -> nd <> 0 ->
  files s !! f = Some (File nd off) -> 0 <= off -> 0 < k -> off + k <= zlen c ->
  vfs_read fs_of f k s = Some (k, take (Z.to_nat k) (drop (Z.to_nat off) c),
    set_files (<[f := File nd (off + k)]> (files s)) s).
Proof.
  intros (n & fs & read & Hn & Hsz & Hfs & Hr & Hlaw) Hc Hf Hnd Hfl Hoff Hk Hle.
  unfold vfs_read. rewrite (istrue_neq f), Hfl by done. cbn [negb mbind option_bind f_node f_offset].
  rewrite istrue_neq, Hn by done. cbn [negb mbind option_bind]. rewrite Hfs.
  cbn [mbind option_bind]. rewrite Hr, Hsz, u64_id by lia.
  destruct (Z.ltb_spec (zlen c - off) k); [lia |]. rewrite Hlaw by done. cbn [mbind option_bind].
  destruct (Z.ltb_spec 0 k); [| lia]. rewrite Z.ltb_irrefl, u64_id by lia. done.
Qed.

(** Also: a read through an open file whose offset is within the file asks the filesystem
    for at most the bytes that remain, advances the offset by what was read, and keeps
    it within the file. *)
Theorem vfs_read_spec {D : Type} (fs_of : Z -> option (filesystem D)) (s s' : vst D)
    (f size ret : Z) (fl : file) (n : vfs_node) (fs : filesystem D)
    (read : Z -> Z -> Z -> vst D -> option (Z * list Z * vst D)) (data : list Z)
    (Hf : 0 < f) (Hfl : files s !! f = Some fl) (Hn0 : 0 < f_node fl)
    (Hn : nodes s !! f_node fl = Some n) (Hfs : fs_of (n_fs n) = Some fs)
    (Hr : fs_read fs = Some read) (Hoff : 0 <= f_offset fl <= n_size n)
    (Hsz : n_size n < 2147483648) (Hsize : 0 <= size)
    (Hread : read (f_node fl) (f_offset fl) (Z.min size (n_size n - f_offset fl)) s = Some (ret, data, s')) :
  exists r s2, vfs_read fs_of f size s = Some (r, data, s2) /\
    (ret <= 0 -> r = ret /\ s2 = s') /\
    (0 < ret -> 0 <= r <= Z.min size (n_size n - f_offset fl) /\ r <= ret /\
       files s2 !! f = Some (File (f_node fl) (f_offset fl + r)) /\ f_offset fl + r <= n_size n).
Proof.
  unfold vfs_read. rewrite (istrue_neq f), Hfl by lia. cbn [negb mbind option_bind].
  rewrite istrue_neq by lia. cbn [negb]. rewrite Hn. cbn [mbind option_bind]. rewrite Hfs.
  cbn [mbind option_bind]. rewrite Hr. rewrite (u64_id (n_size n - f_offset fl)) by lia.
  set (k := if n_size n - f_offset fl <? size then n_size n - f_offset fl else size).
  assert (k = Z.min size (n_size n - f_offset fl)) as Ek.
  { unfold k. destruct (Z.ltb_spec (n_size n - f_offset fl) size); lia. }
  clearbody k. subst k. rewrite Hread. cbn [mbind option_bind].
  set (k := Z.min size (n_size n - f_offset fl)) in *.
  destruct (Z.ltb_spec 0 ret) as [Hp | Hp].
  - assert ((if k <? ret then s32 k else ret) = Z.min k ret) as ->.
    { destruct (Z.ltb_spec k ret); [rewrite s32_id by lia |]; lia. }
    eexists _, _. split; [done |]. split; [lia |]. intros _. cbn [files set_files].
    rewrite lookup_insert_eq, u64_id by lia. split_and!; done || lia.
  - eexists _, _. split; [done |]. split; [done | lia].
Qed.

(** Also: when the offset is past the end of the file (another handle truncated it) the
    number of remaining bytes wraps around: the request goes to the filesystem unclamped
    and a positive result is passed on, although the file has no byte at the offset. *)
Theorem vfs_read_past_end {D : Type} (fs_of : Z -> option (filesystem D)) (s s' : vst D)
    (f size ret : Z) (fl : file) (n : vfs_node) (fs : filesystem D)
    (read : Z -> Z -> Z -> vst D -> option (Z * list Z * vst D)) (data : list Z)
    (Hf : 0 < f) (Hfl : files s !! f = Some fl) (Hn0 : 0 < f_node fl)
    (Hn : nodes s !! f_node fl = Some n) (Hfs : fs_of (n_fs n) = Some fs)
    (Hr : fs_read fs = Some read) (Hoff : 0 <= n_size n < f_offset fl)
    (Hlim : f_offset fl < 4294967296) (Hsize : 0 <= size < 4294967296)
    (Hread : read (f_node fl) (f_offset fl) size s = Some (ret, data, s')) (Hret : 0 < ret <= size) :
  exists s2, vfs_read fs_of f size s = Some (ret, data, s2).
Proof.
  unfold vfs_read. rewrite (istrue_neq f), Hfl by lia. cbn [negb mbind option_bind].
  rewrite istrue_neq by lia. cbn [negb]. rewrite Hn. cbn [mbind option_bind]. rewrite Hfs.
  cbn [mbind option_bind]. rewrite Hr.
  assert (u64 (n_size n - f_offset fl) = n_size n - f_offset fl + 18446744073709551616) as ->
    by (unfold u64; lia).
  destruct (Z.ltb_spec (n_size n - f_offset fl + 18446744073709551616) size); [lia |].
  rewrite Hread. cbn [mbind option_bind].
  destruct (Z.ltb_spec 0 ret); [| lia]. destruct (Z.ltb_spec size ret); [lia |]. by eexists.
Qed.

(** ** Witnesses: a filesystem whose read returns the bytes 7 *)

Definition fs_ex : filesystem unit :=
  Fs 0x100 (Some (fun _ _ size s => Some (size, replicate (Z.to_nat size) 7, s))) None None None None.
Definition vfs_ex : vst unit :=
  mkVst (heap_boot mach0) (<[0x100 := Node [97] 10 VFS_FILE 1 0 0 0 0]> ∅)
    (<[0x300 := File 0x100 6]> (<[0x400 := File 0x100 16]> ∅)) ∅ [([SLASH], 1)] tt.

Lemma vfs_read_spec_witness :
  exists r s2, vfs_read (fun _ => Some fs_ex) 0x300 100 vfs_ex = Some (r, [7; 7; 7; 7], s2) /\ r <= 4.
Proof.
  destruct (vfs_read_spec (fun _ => Some fs_ex) vfs_ex vfs_ex 0x300 100 4 (File 0x100 6)
    (Node [97] 10 VFS_FILE 1 0 0 0 0) fs_ex _ [7; 7; 7; 7] ltac:(lia) eq_refl ltac:(done) eq_refl eq_refl
    eq_refl ltac:(simpl; lia) ltac:(simpl; lia) ltac:(lia) eq_refl) as (r & s2 & H & _ & Hr).
  exists r, s2. exact (conj H (proj1 (proj2 (Hr ltac:(lia))))).
Defined.

Lemma vfs_read_past_end_witness :
  exists s2, vfs_read (fun _ => Some fs_ex) 0x400 3 vfs_ex = Some (3, [7; 7; 7], s2).
Proof.
  exact (vfs_read_past_end (fun _ => Some fs_ex) vfs_ex vfs_ex 0x400 3 3 (File 0x100 16)
    (Node [97] 10 VFS_FILE 1 0 0 0 0) fs_ex _ [7; 7; 7] ltac:(lia) eq_refl ltac:(done) eq_refl eq_refl
    eq_refl ltac:(simpl; lia) ltac:(simpl; lia) ltac:(lia) eq_refl ltac:(lia)).
Defined.
