(* ===== verification/Fat.v ===== *)
(** * FAT32 (src/fs/fat.c)

    The filesystem over a block device. The device is the interface [BlockDev]: the
    functions ata_read_sectors and ata_write_sectors for one sector, [None] for their
    error result. [BlockDevLaws] states what a working disk promises: a written sector
    is read back and no other sector changes. Sectors are lists of 512 bytes. [fp] is
    the private data of the mounted volume and [fsid] its filesystem structure; [fuel]
    bounds the walks along cluster chains, which may be cyclic on a damaged disk. *)

From S2P Require Import Prelude Memory Heap Sched Vfs.

Class BlockDev (D : Type) := {
  ata_read_sectors : Z -> Z -> Z -> D -> option (list Z);
  ata_write_sectors : Z -> Z -> Z -> list Z -> D -> option D }.

Definition FAT_EOC : Z := 0x0FFFFFF8.
Definition FAT_ATTR_VOLUME : Z := 8.
Definition FAT_ATTR_DIR : Z := 16.
Definition FAT_ATTR_ARCHIVE : Z := 32.
Definition FAT_ATTR_LFN : Z := 15.

(** The fields of the boot sector the code uses, and the values derived from them. *)
Record fat_private := FatPrivate {
  bus : Z; master : Z;
  bytes_per_sector : Z; sectors_per_cluster : Z; fat_count : Z;
  total_sectors_16 : Z; total_sectors_32 : Z;
  fat_start : Z; data_start : Z; sectors_per_fat : Z; root_cluster : Z; bytes_per_cluster : Z }.

(** ** Directory entries: 32 bytes of a sector at [off] *)

Definition de_name (b : list Z) (off : Z) : list Z := take 8 (drop (Z.to_nat off) b).
Definition de_ext (b : list Z) (off : Z) : list Z := take 3 (drop (Z.to_nat (off + 8)) b).
Definition de_attrs (b : list Z) (off : Z) : Z := b.[off + 11].
Definition de_cluster (b : list Z) (off : Z) : Z :=
  load16 b (off + 20) * 65536 + load16 b (off + 26).
Definition de_size (b : list Z) (off : Z) : Z := load32 b (off + 28).

(** Stores the bytes [l] from index [i] on. *)
Fixpoint store_bytes (b : list Z) (i : Z) (l : list Z) : list Z :=
  match l with [] => b | v :: l' => store_bytes (b.[i <- v]) (i + 1) l' end.

Definition set_de_cluster (c off : Z) (b : list Z) : list Z :=
  store16 (store16 b (off + 20) (c / 65536 mod 65536)) (off + 26) (Z.land c 0xFFFF).

(** ** 8.3 names *)

Definition is_upper (c : Z) : bool := (65 <=? c) && (c <=? 90).
Definition is_lower (c : Z) : bool := (97 <=? c) && (c <=? 122).
Definition is_digit (c : Z) : bool := (48 <=? c) && (c <=? 57).

Fixpoint until_blank (n : nat) (l : list Z) : list Z :=
  match n, l with
  | S n', c :: l' => if istrue c && negb (c =? 32) then c :: until_blank n' l' else []
  | _, _ => []
  end.

Definition fat_trim_name (name ext : list Z) : list Z :=
  let out := until_blank 8 name ++
    (if istrue (ext.[0]) && negb (ext.[0] =? 32) then 46 :: until_blank 3 ext else []) in
  map (fun c => if is_upper c then c - 65 + 97 else c) out.

Definition pad (n : nat) (l : list Z) : list Z := l ++ replicate (n - length l) 32.

Fixpoint name_to_83 (name on oe : list Z) (ext : bool) : option (list Z * list Z) :=
  match name with
  | [] => match on with [] => None | _ => Some (pad 8 on, pad 3 oe) end
  | c :: name' =>
      if c =? 46 then if ext then None else name_to_83 name' on oe true
      else
        let c := if is_lower c then c - 97 + 65 else c in
        if negb (is_upper c || is_digit c || (c =? 95) || (c =? 45)) then None
        else if negb ext
        then if (8 <=? length on)%nat then None else name_to_83 name' (on ++ [c]) oe ext
        else if (3 <=? length oe)%nat then None else name_to_83 name' on (oe ++ [c]) ext
  end.
Definition fat_name_to_83 (name : list Z) : option (list Z * list Z) := name_to_83 name [] [] false.

Section fat.
Context {D : Type} `{BlockDev D} (fp : fat_private) (fsid fs_root_node : Z) (fuel : nat).
Implicit Types (d : D) (s : vst D).

Definition read_sec (lba : Z) d : option (list Z) := ata_read_sectors (bus fp) (master fp) (u32 lba) d.
Definition write_sec (lba : Z) (b : list Z) d : option D :=
  ata_write_sectors (bus fp) (master fp) (u32 lba) b d.

(** A write whose error result is ignored. *)
Definition write_any (lba : Z) (b : list Z) d : D := default d (write_sec lba b d).

(** ** The file allocation table *)

Definition fat_cluster_to_lba (c : Z) : Z := u32 (data_start fp + (c - 2) * sectors_per_cluster fp).

Definition fat_offset (c : Z) : Z := u32 (c * 4).
Definition fat_sector (c : Z) : Z := u32 (fat_start fp + fat_offset c / bytes_per_sector fp).
Definition ent_offset (c : Z) : Z := fat_offset c mod bytes_per_sector fp.

Definition fat_next_cluster (c : Z) d : Z :=
  match read_sec (fat_sector c) d with
  | None => FAT_EOC
  | Some buf => Z.land (load32 buf (ent_offset c)) 0x0FFFFFFF
  end.

Fixpoint write_fats (n : nat) (i c : Z) (buf : list Z) d : Z * D :=
  match n with
  | O => (0, d)
  | S n' =>
      match write_sec (fat_start fp + i * sectors_per_fat fp + fat_offset c / bytes_per_sector fp) buf d with
      | None => (-1, d)
      | Some d => write_fats n' (i + 1) c buf d
      end
  end.

Definition fat_set_cluster (c value : Z) d : Z * D :=
  match read_sec (fat_sector c) d with
  | None => (-1, d)
  | Some buf =>
      let e := load32 buf (ent_offset c) in
      let e := Z.lor (Z.land e 0xF0000000) (Z.land value 0x0FFFFFFF) in
      write_fats (Z.to_nat (fat_count fp)) 0 c (store32 buf (ent_offset c) e) d
  end.

Definition fat_total_clusters : Z :=
  let total := total_sectors_32 fp in
  let total := if total =? 0 then total_sectors_16 fp else total in
  let total := if total =? 0 then 8192 else total in
  u32 (total - data_start fp) / sectors_per_cluster fp.

(** The scan for a free entry; [loaded] is the sector in [buf]. *)
Fixpoint find_cluster (n : nat) (c loaded : Z) (buf : list Z) d : Z * D :=
  match n with
  | O => (0, d)
  | S n' =>
      let off := u32 (c * 4) in
      let sector := u32 (fat_start fp + off / 512) in
      match (if negb (sector =? loaded) then read_sec sector d else Some buf) with
      | None => (0, d)
      | Some buf =>
          if Z.land (load32 buf (off mod 512)) 0x0FFFFFFF =? 0
          then (c, snd (fat_set_cluster c FAT_EOC d))
          else find_cluster n' (c + 1) sector buf d
      end
  end.
Definition fat_alloc_cluster d : Z * D :=
  find_cluster (Z.to_nat (u32 (fat_total_clusters + 2) - 2)) 2 0xFFFFFFFF (replicate 512 0) d.

Fixpoint free_chain (n : nat) (c : Z) d : option D :=
  match n with
  | O => None
  | S n' =>
      if (2 <=? c) && (c <? FAT_EOC)
      then free_chain n' (fat_next_cluster c d) (snd (fat_set_cluster c 0 d)) else Some d
  end.
Definition fat_free_cluster_chain (c : Z) d : option D := free_chain fuel c d.

(** ** Nodes *)

Definition NODE_SIZE : Z := 304.
Definition NODE_DATA_SIZE : Z := 12.

Definition fat_create_node (name : list Z) (size flags cluster dir_lba dir_off parent : Z) s
    : option (Z * vst D) :=
  r ← kmalloc NODE_SIZE (v_heap s);
  let '(node, h) := r in
  if negb (istrue node) then Some (0, set_vheap h s)
  else
    r ← kmalloc NODE_DATA_SIZE h;
    let '(data, h) := r in
    if negb (istrue data) then Some (0, set_vheap (kfree node h) s)
    else
      let s := set_vheap h s in
      let s := set_datas (<[data := NodeData cluster dir_lba dir_off]> (datas s)) s in
      Some (node, set_nodes (<[node := Node name size flags fsid data parent 0 0]> (nodes s)) s).

Definition fat_node_cluster (node : Z) s : option Z :=
  n ← nodes s !! node;
  if istrue (n_data n) then dt ← datas s !! n_data n; Some (d_cluster dt) else Some 0.

Definition fat_update_dirent_size (node : Z) s : option (Z * vst D) :=
  n ← nodes s !! node;
  if negb (istrue (n_data n)) then Some (0, s)
  else
    dt ← datas s !! n_data n;
    if d_lba dt =? 0 then Some (0, s)
    else match read_sec (d_lba dt) (dev s) with
         | None => Some (-1, s)
         | Some buf =>
             let buf := store32 buf (d_off dt + 28) (n_size n) in
             let buf := set_de_cluster (d_cluster dt) (d_off dt) buf in
             match write_sec (d_lba dt) buf (dev s) with
             | None => Some (-1, s)
             | Some d => Some (0, set_dev d s)
             end
         end.

(** ** Reading *)

(** [while (skip >= cluster_size)]: the cluster of an offset, [None] at the end of the
    chain. Each turn takes at least one byte off [skip]. *)
Fixpoint read_skip (n : nat) (cluster skip : Z) d : option (option (Z * Z)) :=
  match n with
  | O => None
  | S n' =>
      if bytes_per_cluster fp <=? skip then
        let c := fat_next_cluster cluster d in
        if FAT_EOC <=? c then Some None else read_skip n' c (skip - bytes_per_cluster fp) d
      else Some (Some (cluster, skip))
  end.

(** The loop over the sectors of a cluster; [None] is a read error. [out] is what was
    stored so far, [start] its length at the beginning of the cluster. *)
Fixpoint read_cluster (n : nat) (lba byte_off to_read start size : Z) (out : list Z) d
    : option (list Z) :=
  match n with
  | O => Some out
  | S n' =>
      tmp ← read_sec lba d;
      let cbytes := 512 - byte_off in
      let cluster_done := zlen out - start in
      let cbytes := if to_read - cluster_done <? cbytes then to_read - cluster_done else cbytes in
      let cbytes := if 512 <? cbytes then 512 else cbytes in
      let out := out ++ take (Z.to_nat cbytes) (drop (Z.to_nat byte_off) tmp) in
      if size <=? zlen out then Some out
      else read_cluster n' (lba + 1) 0 to_read start size out d
  end.

(** The loop over the clusters. The result is the return value and the bytes stored. *)
Fixpoint read_clusters (n : nat) (cluster skip size : Z) (out : list Z) d : option (Z * list Z) :=
  match n with
  | O => None
  | S n' =>
      if size <=? zlen out then Some (s32 (zlen out), out)
      else
        let to_read := bytes_per_cluster fp - skip in
        let to_read := if size - zlen out <? to_read then size - zlen out else to_read in
        match read_cluster (Z.to_nat ((to_read + 511) / 512))
                (fat_cluster_to_lba cluster + skip / 512) (skip mod 512) to_read (zlen out) size out d with
        | None => Some (-1, out)
        | Some out =>
            if size <=? zlen out then Some (s32 (zlen out), out)
            else
              let c := fat_next_cluster cluster d in
              if FAT_EOC <=? c then Some (s32 (zlen out), out) else read_clusters n' c 0 size out d
        end
  end.

Definition fat_read (node offset size : Z) s : option (Z * list Z * vst D) :=
  cluster ← fat_node_cluster node s;
  r ← read_skip (S (Z.to_nat offset)) cluster offset (dev s);
  match r with
  | None => Some (-1, [], s)
  | Some (cluster, skip) =>
      r ← read_clusters (S (Z.to_nat size)) cluster skip size [] (dev s);
      Some (fst r, snd r, s)
  end.

(** ** Writing *)

(** The next cluster of the chain, allocated and linked when the chain ends; 0 when the
    disk is full. [link] stores the new cluster. *)
Definition next_or_alloc (cluster : Z) (link : Z -> vst D -> option (vst D)) s : option (Z * vst D) :=
  let next := fat_next_cluster cluster (dev s) in
  if (FAT_EOC <=? next) || (next =? 0) then
    let '(next, d) := fat_alloc_cluster (dev s) in
    let s := set_dev d s in
    if negb (istrue next) then Some (0, s) else s ← link next s; Some (next, s)
  else Some (next, s).

Definition link_cluster (cluster next : Z) s : option (vst D) :=
  Some (set_dev (snd (fat_set_cluster cluster next (dev s))) s).

(** In the first loop a node without clusters is given the new one. *)
Definition link_skip (node cluster next : Z) s : option (vst D) :=
  if istrue cluster then link_cluster cluster next s
  else
    n ← nodes s !! node;
    dt ← datas s !! n_data n;
    Some (set_datas (<[n_data n := NodeData next (d_lba dt) (d_off dt)]> (datas s)) s).

Fixpoint write_skip (n : nat) (node cluster skip : Z) s : option (option (Z * Z) * vst D) :=
  match n with
  | O => None
  | S n' =>
      if bytes_per_cluster fp <=? skip then
        r ← next_or_alloc cluster (link_skip node cluster) s;
        let '(next, s) := r in
        if negb (istrue next) then Some (None, s)
        else write_skip n' node next (skip - bytes_per_cluster fp) s
      else Some (Some (cluster, skip), s)
  end.

(** The loop over the sectors of a cluster. [data] is what is left to write; the errors of
    the device are ignored. [tmp] is the sector buffer of the C function. *)
Fixpoint write_cluster (n : nat) (lba byte_off : Z) (tmp data : list Z) d : list Z * D :=
  match n with
  | O => (data, d)
  | S n' =>
      let cbytes := 512 - byte_off in
      let cbytes := if zlen data <? cbytes then zlen data else cbytes in
      let tmp := if (0 <? byte_off) || (cbytes <? 512) then default tmp (read_sec lba d) else tmp in
      let tmp := store_bytes tmp byte_off (take (Z.to_nat cbytes) data) in
      let data := drop (Z.to_nat cbytes) data in
      let d := write_any lba tmp d in
      match data with [] => (data, d) | _ => write_cluster n' (lba + 1) 0 tmp data d end
  end.

(** The loop over the clusters; [true] when everything was written. *)
Fixpoint write_clusters (n : nat) (cluster skip : Z) (data : list Z) s : option (bool * list Z * vst D) :=
  match n with
  | O => None
  | S n' =>
      match data with
      | [] => Some (true, [], s)
      | _ =>
          let to_write := bytes_per_cluster fp - skip in
          let to_write := if zlen data <? to_write then zlen data else to_write in
          let '(data, d) := write_cluster (Z.to_nat ((to_write + 511) / 512))
                (fat_cluster_to_lba cluster + skip / 512) (skip mod 512) (replicate 512 0) data (dev s) in
          let s := set_dev d s in
          match data with
          | [] => Some (true, [], s)
          | _ =>
              r ← next_or_alloc cluster (link_cluster cluster) s;
              let '(next, s) := r in
              if negb (istrue next) then Some (false, data, s) else write_clusters n' next 0 data s
          end
      end
  end.

Definition fat_write (node offset : Z) (data : list Z) s : option (Z * vst D) :=
  cluster ← fat_node_cluster node s;
  match data with
  | [] => Some (0, s)
  | _ =>
      r ← write_skip (S (Z.to_nat offset)) node cluster offset s;
      let '(p, s) := r in
      match p with
      | None => Some (0, s)
      | Some (cluster, skip) =>
          r ← write_clusters (S (length data)) cluster skip data s;
          let '(ok, rest, s) := r in
          let done := zlen data - zlen rest in
          if negb (ok : bool) then Some (s32 done, s)
          else
            n ← nodes s !! node;
            s ← (if n_size n <? offset + done then upd_node node (with_size (u32 (offset + done))) s
                 else Some s);
            r ← fat_update_dirent_size node s;
            Some (s32 done, snd r)
      end
  end.

(** ** Directories *)

(** What the body of the loop over the entries of a cluster does next. *)
Inductive step (R : Type) := Return (r : R) | Continue.
Arguments Return {R}. Arguments Continue {R}.

(** [for (e = 0; e < entries_per_cluster; e++)] with the sector buffer: the sector is read
    when [sector == 0 || off == 0]; [err] is the result after a read error. *)
Fixpoint entries {R} (n : nat) (e lba : Z) (buf : list Z) (err : R)
    (body : Z -> Z -> list Z -> vst D -> option (step R * vst D)) s
    : option (step R * list Z * vst D) :=
  match n with
  | O => Some (Continue, buf, s)
  | S n' =>
      let sector := e * 32 / 512 in
      let off := e * 32 mod 512 in
      match (if (sector =? 0) || (off =? 0) then read_sec (lba + sector) (dev s) else Some buf) with
      | None => Some (Return err, buf, s)
      | Some buf =>
          r ← body sector off buf s;
          let '(k, s) := r in
          match k with
          | Return v => Some (Return v, buf, s)
          | Continue => entries n' (e + 1) lba buf err body s
          end
      end
  end.

(** [while (cluster < FAT_EOC)]; [at_end] is the result when the chain ends. *)
Fixpoint walk_dir {R} (n : nat) (cluster : Z) (buf : list Z) (err at_end : R)
    (body : Z -> Z -> Z -> list Z -> vst D -> option (step R * vst D)) s : option (R * vst D) :=
  match n with
  | O => None
  | S n' =>
      if cluster <? FAT_EOC then
        let lba := fat_cluster_to_lba cluster in
        r ← entries (Z.to_nat (bytes_per_cluster fp / 32)) 0 lba buf err (body lba) s;
        let '(k, buf, s) := r in
        match k with
        | Return v => Some (v, s)
        | Continue => walk_dir n' (fat_next_cluster cluster (dev s)) buf err at_end body s
        end
      else Some (at_end, s)
  end.

(** The entries every directory scan passes over. *)
Definition skip_entry (buf : list Z) (off : Z) : bool :=
  (buf.[off] =? 0xE5) || (de_attrs buf off =? FAT_ATTR_LFN) ||
  istrue (Z.land (de_attrs buf off) FAT_ATTR_VOLUME).

(** An entry of fat_readdir becomes a child of the node unless it is there already. *)
Definition readdir_entry (node lba sector off : Z) (buf : list Z) s : option (step unit * vst D) :=
  if buf.[off] =? 0 then Some (Return tt, s)
  else if skip_entry buf off then Some (Continue, s)
  else
    let name := fat_trim_name (de_name buf off) (de_ext buf off) in
    let flags := if istrue (Z.land (de_attrs buf off) FAT_ATTR_DIR) then VFS_DIR else VFS_FILE in
    n ← nodes s !! node;
    found ← find_child (node_fuel s) (n_children n) name s;
    if istrue found then Some (Continue, s)
    else
      r ← fat_create_node name (de_size buf off) flags (de_cluster buf off) (u32 (lba + sector)) off node s;
      let '(child, s) := r in
      if negb (istrue child) then Some (Continue, s)
      else
        n ← nodes s !! node;
        s ← upd_node child (with_next_node (n_children n)) s;
        s ← upd_node node (with_children child) s;
        Some (Continue, s).

(** The count of entries fat_readdir returns is not used by its callers. *)
Definition fat_readdir (node : Z) s : option (Z * vst D) :=
  cluster ← fat_node_cluster node s;
  r ← walk_dir fuel cluster (replicate 512 0) (inl (-1)) (inr tt)
        (fun lba sector off buf s =>
           r ← readdir_entry node lba sector off buf s;
           Some (match fst r with Return _ => Return (inr tt) | Continue => Continue end, snd r)) s;
  Some (match fst r with inl e => e | inr _ => 0 end, snd r).

(** The first sector of a new directory: the entries "." and "..". *)
Definition dir_sector (cluster dotdot : Z) : list Z :=
  let b := replicate 512 0 in
  let b := store_bytes b 0 (46 :: replicate 10 32) in
  let b := set_de_cluster cluster 0 (b.[11 <- FAT_ATTR_DIR]) in
  let b := store_bytes b 32 (46 :: 46 :: replicate 9 32) in
  set_de_cluster dotdot 32 (b.[43 <- FAT_ATTR_DIR]).

(** Zeroes the sectors [i .. sectors_per_cluster) from [lba] on. *)
Definition zero_sectors (i lba : Z) d : D :=
  loop (Z.to_nat (sectors_per_cluster fp - i)) i
    (fun j d => write_any (lba + j) (replicate 512 0) d) d.

Definition fill_dirent (name ext : list Z) (flags cluster off : Z) (buf : list Z) : list Z :=
  let b := store_bytes buf off (name ++ ext) in
  let attrs := if istrue (Z.land flags VFS_DIR) then FAT_ATTR_DIR else FAT_ATTR_ARCHIVE in
  let b := store_bytes b (off + 11) (attrs :: replicate 8 0) in
  let b := store_bytes b (off + 22) (replicate 4 0) in
  store_bytes (set_de_cluster cluster off b) (off + 28) (replicate 4 0).

Definition create_entry (parent : Z) (name fname fext : list Z) (flags parent_cluster lba sector off : Z)
    (buf : list Z) s : option (step Z * vst D) :=
  if negb (buf.[off] =? 0) && negb (buf.[off] =? 0xE5) then Some (Continue, s)
  else
    let '(new_cluster, d) := fat_alloc_cluster (dev s) in
    let s := set_dev d s in
    if negb (istrue new_cluster) then Some (Return 0, s)
    else
      let new_lba := fat_cluster_to_lba new_cluster in
      let d :=
        if istrue (Z.land flags VFS_DIR) then
          let dotdot := if parent =? fs_root_node then 0 else parent_cluster in
          zero_sectors 1 new_lba (write_any new_lba (dir_sector new_cluster dotdot) (dev s))
        else zero_sectors 0 new_lba (dev s) in
      let buf := fill_dirent fname fext flags new_cluster off buf in
      let s := set_dev d s in
      match write_sec (lba + sector) buf (dev s) with
      | None => Some (Return 0, s)
      | Some d =>
          r ← fat_create_node name 0 flags new_cluster (u32 (lba + sector)) off parent (set_dev d s);
          let '(child, s) := r in
          if negb (istrue child) then Some (Return 0, s)
          else
            n ← nodes s !! parent;
            s ← upd_node child (with_next_node (n_children n)) s;
            s ← upd_node parent (with_children child) s;
            Some (Return child, s)
      end.

Definition fat_create (parent : Z) (name : list Z) (flags : Z) s : option (Z * vst D) :=
  if negb (istrue (Z.land flags (Z.lor VFS_FILE VFS_DIR))) then Some (0, s)
  else
    cluster ← fat_node_cluster parent s;
    match fat_name_to_83 name with
    | None => Some (0, s)
    | Some (fname, fext) =>
        walk_dir fuel cluster (replicate 512 0) 0 0
          (create_entry parent name fname fext flags cluster) s
    end.

Definition unlink_entry (fname fext : list Z) (lba sector off : Z) (buf : list Z) s
    : option (step Z * vst D) :=
  if buf.[off] =? 0 then
    Some (Return (-1), match write_sec (lba + sector) buf (dev s) with Some d => set_dev d s | None => s end)
  else if skip_entry buf off then Some (Continue, s)
  else if negb (list_eqb (de_name buf off) fname && list_eqb (de_ext buf off) fext)
  then Some (Continue, s)
  else
    let file_cluster := de_cluster buf off in
    match write_sec (lba + sector) (buf.[off <- 0xE5]) (dev s) with
    | None => Some (Return (-1), s)
    | Some d =>
        d ← (if (2 <=? file_cluster) && (file_cluster <? FAT_EOC)
             then fat_free_cluster_chain file_cluster d else Some d);
        Some (Return 0, set_dev d s)
    end.

Definition fat_unlink (parent : Z) (name : list Z) s : option (Z * vst D) :=
  cluster ← fat_node_cluster parent s;
  match fat_name_to_83 name with
  | None => Some (-1, s)
  | Some (fname, fext) =>
      walk_dir fuel cluster (replicate 512 0) (-1) (-1) (unlink_entry fname fext) s
  end.

(** The function table fat_mount fills in. *)
Definition fat_fs : filesystem D :=
  Fs fs_root_node (Some fat_read) (Some fat_write) (Some fat_readdir) (Some fat_create) (Some fat_unlink).
End fat.

(** ** Mounting *)

Definition parse_bpb (bus master : Z) (b : list Z) : fat_private :=
  let bytes_per_sector := load16 b 11 in
  let sectors_per_cluster := b.[13] in
  let fat_start := load16 b 14 in
  let sectors_per_fat := load32 b 36 in
  let root_sectors := (load16 b 17 * 32 + bytes_per_sector - 1) / bytes_per_sector in
  FatPrivate bus master bytes_per_sector sectors_per_cluster (b.[16]) (load16 b 19) (load32 b 32)
    fat_start (u32 (fat_start + b.[16] * sectors_per_fat + root_sectors)) sectors_per_fat
    (load32 b 44) (bytes_per_sector * sectors_per_cluster).

Definition PRIVATE_SIZE : Z := 120.
Definition FS_SIZE : Z := 88.

(** The result is the private data, the filesystem structure and the root node. *)
Definition fat_mount {D} `{BlockDev D} (bus master : Z) (s : vst D)
    : option (option (fat_private * Z * Z) * vst D) :=
  r ← kmalloc PRIVATE_SIZE (v_heap s);
  let '(p, h) := r in
  let s := set_vheap h s in
  if negb (istrue p) then Some (None, s)
  else
    let fail s := Some (None, set_vheap (kfree p (v_heap s)) s) in
    match ata_read_sectors bus master 0 (dev s) with
    | None => fail s
    | Some b =>
        if negb (load16 b 11 =? 512) then fail s
        else if negb (b.[66] =? 0x29) && negb (b.[66] =? 0x28) then fail s
        else if load32 b 36 =? 0 then fail s
        else
          let fp := parse_bpb bus master b in
          r ← kmalloc FS_SIZE (v_heap s);
          let '(fs, h) := r in
          let s := set_vheap h s in
          if negb (istrue fs) then fail s
          else
            r ← fat_create_node fs [SLASH] 0 VFS_DIR (root_cluster fp) 0 0 0 s;
            Some (Some (fp, fs, fst r), snd r)
    end.

(** ** The block device interface: laws and an instance *)

(** [sector bus master d lba] is the content of a sector and [capacity bus master d] the
    number of sectors. *)
Class BlockDevLaws (D : Type) `{BlockDev D} := {
  sector : Z -> Z -> D -> Z -> list Z;
  capacity : Z -> Z -> D -> Z;
  sector_ok : forall bus master d lba, zlen (sector bus master d lba) = 512 /\
    bytes (sector bus master d lba);
  capacity_ok : forall bus master d, capacity bus master d <= 4294967296;
  read_ok : forall bus master d lba, 0 <= lba < capacity bus master d ->
    ata_read_sectors bus master lba d = Some (sector bus master d lba);
  write_ok : forall bus master d lba b, 0 <= lba < capacity bus master d ->
    zlen b = 512 -> bytes b ->
    exists d', ata_write_sectors bus master lba b d = Some d' /\
      capacity bus master d' = capacity bus master d /\
      forall x, sector bus master d' x = if x =? lba then b else sector bus master d x }.

(** A disk in memory: sectors never written are zero. *)
Record memdisk := MemDisk { disk_size : Z; disk_sectors : gmap Z (list Z) }.

Definition valid_sector (l : list Z) : bool :=
  (length l =? 512)%nat && forallb (fun x => (0 <=? x) && (x <? 256)) l.
Definition disk_sector (d : memdisk) (lba : Z) : list Z :=
  match disk_sectors d !! lba with
  | Some l => if valid_sector l then l else replicate 512 0
  | None => replicate 512 0
  end.

#[export] Instance memdisk_dev : BlockDev memdisk := {
  ata_read_sectors _ _ lba d :=
    if (0 <=? lba) && (lba <? Z.min (disk_size d) 4294967296) then Some (disk_sector d lba) else None;
  ata_write_sectors _ _ lba b d :=
    if (0 <=? lba) && (lba <? Z.min (disk_size d) 4294967296)
    then Some (MemDisk (disk_size d) (<[lba := b]> (disk_sectors d))) else None }.

Lemma valid_sector_true l : valid_sector l = true <-> zlen l = 512 /\ bytes l.
Proof.
  unfold valid_sector, bytes, zlen. rewrite andb_true_iff, Nat.eqb_eq, forallb_forall, Forall_forall.
  setoid_rewrite list_elem_of_In. unfold is_byte. split.
  - intros [H1 H2]. split; [lia |]. intros x Hx. apply H2 in Hx. bprop. lia.
  - intros [H1 H2]. split; [lia |]. intros x Hx. specialize (H2 x Hx).
    destruct (Z.leb_spec 0 x), (Z.ltb_spec x 256); try lia; done.
Qed.

#[export] Program Instance memdisk_laws : BlockDevLaws memdisk := {
  sector _ _ := disk_sector;
  capacity _ _ d := Z.min (disk_size d) 4294967296 }.
Next Obligation.
  intros bus0 master0 d lba. cbn. apply valid_sector_true. unfold disk_sector.
  destruct (disk_sectors d !! lba) as [l |]; [destruct (valid_sector l) eqn:E; [done |] |]; done.
Qed.
Next Obligation. intros. cbn. lia. Qed.
Next Obligation.
  intros bus0 master0 d lba Hl. cbn in *.
  destruct (Z.leb_spec 0 lba), (Z.ltb_spec lba (Z.min (disk_size d) 4294967296)); try lia; done.
Qed.
Next Obligation.
  intros bus0 master0 d lba b Hl Hb1 Hb2. cbn in *.
  destruct (Z.leb_spec 0 lba), (Z.ltb_spec lba (Z.min (disk_size d) 4294967296)); try lia. cbn [andb].
  eexists. split; [done |]. split; [done |]. intros x. unfold disk_sector. cbn [disk_sectors].
  destruct (Z.eqb_spec x lba) as [-> | Hne].
  - rewrite lookup_insert_eq. assert (valid_sector b = true) as -> by (by apply valid_sector_true). done.
  - by rewrite lookup_insert_ne.
Qed.

(** ** The file allocation table: properties *)

Section table.
Context {D : Type} `{BlockDevLaws D} (fp : fat_private).
Implicit Types d : D.

Definition sec d lba := sector (bus fp) (master fp) d lba.
Definition cap d := capacity (bus fp) (master fp) d.

(** A volume the code supports, on a disk that holds its tables. *)
Record volume (d : D) : Prop := {
  vol_bps : bytes_per_sector fp = 512;
  vol_count : 0 < fat_count fp;
  vol_start : 0 <= fat_start fp;
  vol_spf : 0 < sectors_per_fat fp;
  vol_cap : fat_start fp + fat_count fp * sectors_per_fat fp <= cap d }.

(** The clusters the table has an entry for. *)
Definition in_table (c : Z) : Prop := 0 <= c < 128 * sectors_per_fat fp /\ c < 1073741824.

(** The entry of [c] in the first copy of the table, 28 bits. *)
Definition entry d (c : Z) : Z :=
  Z.land (load32 (sec d (fat_start fp + c / 128)) (c mod 128 * 4)) 0x0FFFFFFF.

Lemma ent_place c d :
  volume d -> in_table c ->
  fat_sector fp c = fat_start fp + c / 128 /\ ent_offset fp c = c mod 128 * 4 /\
  fat_offset c / bytes_per_sector fp = c / 128 /\ 0 <= fat_start fp + c / 128 < cap d.
Proof.
  intros [V1 V2 V3 V4 V5] [Hc1 Hc2]. pose proof (capacity_ok (bus fp) (master fp) d) as Hcap.
  unfold fat_sector, ent_offset, fat_offset, cap in *. rewrite V1, (u32_id (c * 4)) by lia.
  assert (c * 4 / 512 = c / 128) as -> by lia.
  assert (c / 128 < sectors_per_fat fp) by lia. rewrite u32_id by nia. split_and!; try done; nia.
Qed.

Lemma fat_next_cluster_entry c d : volume d -> in_table c -> fat_next_cluster fp c d = entry d c.
Proof.
  intros V Hc. destruct (ent_place c d V Hc) as (E1 & E2 & _ & E3).
  unfold fat_next_cluster, read_sec. rewrite E1, E2.
  pose proof (capacity_ok (bus fp) (master fp) d). unfold cap in E3. rewrite u32_id by lia.
  rewrite read_ok by done. done.
Qed.

Lemma write_fats_spec c buf n : forall i d,
  volume d -> in_table c -> zlen buf = 512 -> bytes buf -> 0 <= i ->
  i + Z.of_nat n <= fat_count fp ->
  exists d', write_fats fp n i c buf d = (0, d') /\ cap d' = cap d /\
    forall x, sec d' x =
      if existsb (fun j => x =? fat_start fp + (i + Z.of_nat j) * sectors_per_fat fp + c / 128) (seq 0 n)
      then buf else sec d x.
Proof.
  induction n as [| n IH]; intros i d V Hc Hb1 Hb2 Hi Hn; [exists d; done |]. cbn [write_fats].
  destruct (ent_place c d V Hc) as (_ & _ & E & E3). rewrite E. pose proof V as [V1 V2 V3 V4 V5].
  pose proof (capacity_ok (bus fp) (master fp) d) as Hcap. destruct Hc as [Hc1 Hc2].
  assert (c / 128 < sectors_per_fat fp) as Hlt by lia. unfold cap in *.
  set (x0 := fat_start fp + i * sectors_per_fat fp + c / 128).
  assert (0 <= x0 < capacity (bus fp) (master fp) d) as Hx0 by (unfold x0; nia).
  unfold write_sec. rewrite u32_id by lia.
  destruct (write_ok (bus fp) (master fp) d x0 buf Hx0 Hb1 Hb2) as (d1 & -> & Hc' & Hs').
  destruct (IH (i + 1) d1) as (d2 & Hw & Hcd & Hs2); try done; try lia.
  { split; try done. unfold cap. by rewrite Hc'. }
  exists d2. split; [done |]. split; [unfold cap in *; congruence |].
  intros x. rewrite Hs2. unfold sec. rewrite Hs'. cbn [seq existsb]. rewrite Z.add_0_r. fold x0.
  assert (existsb (fun j => x =? fat_start fp + (i + 1 + Z.of_nat j) * sectors_per_fat fp + c / 128) (seq 0 n)
        = existsb (fun j => x =? fat_start fp + (i + Z.of_nat j) * sectors_per_fat fp + c / 128) (seq 1 n)) as ->.
  { rewrite <- seq_shift. generalize (seq 0 n). intros l. induction l as [| j l IHl]; [done |].
    cbn [existsb map]. rewrite IHl. f_equal. f_equal. nia. }
  destruct (existsb _ _); destruct (x =? x0); done.
Qed.

Lemma set_entry_value e v :
  0 <= e < 4294967296 -> 
  Z.lor (Z.land e 0xF0000000) (Z.land v 0x0FFFFFFF) = e / 268435456 * 268435456 + v mod 268435456.
Proof.
  intros He. change 0x0FFFFFFF with (Z.ones 28). rewrite Z.land_ones by lia.
  change (2 ^ 28) with 268435456.
  assert (Z.land e 0xF0000000 = e / 268435456 * 268435456) as ->.
  { change 0xF0000000 with (Z.shiftl (Z.ones 4) 28). change 268435456 with (2 ^ 28).
    rewrite <- Z.shiftr_div_pow2, <- Z.shiftl_mul_pow2 by lia.
    apply Z.bits_inj'. intros n Hn. rewrite Z.land_spec, !Z.shiftl_spec by lia.
    destruct (Z.lt_ge_cases n 28).
    - by rewrite !(Z.testbit_neg_r _ (n - 28)), andb_false_r by lia.
    - rewrite Z.shiftr_spec, Z.sub_add by lia. destruct (Z.lt_ge_cases n 32).
      + rewrite Z.ones_spec_low by lia. apply andb_true_r.
      + assert (Z.testbit e n = false) as ->; [| done].
        rewrite <- (Z.mod_small e (2 ^ 32)) by lia. apply Z.mod_pow2_bits_high. lia. }
  apply (lor_add_disjoint _ _ 28); [lia | | change (2 ^ 28) with 268435456; lia].
  change (2 ^ 28) with 268435456. lia.
Qed.

Lemma fat_set_cluster_correct c v d :
  volume d -> in_table c ->
  exists d', fat_set_cluster fp c v d = (0, d') /\ volume d' /\ cap d' = cap d /\
    (forall c', in_table c' -> entry d' c' = if c' =? c then v mod 268435456 else entry d c') /\
    (forall i, 0 <= i < fat_count fp ->
       sec d' (fat_start fp + i * sectors_per_fat fp + c / 128) = sec d' (fat_start fp + c / 128)) /\
    (forall x, (forall i, 0 <= i < fat_count fp ->
         x <> fat_start fp + i * sectors_per_fat fp + c / 128) -> sec d' x = sec d x).
Proof.
  intros V Hc. destruct (ent_place c d V Hc) as (E1 & E2 & _ & E3). pose proof V as [V1 V2 V3 V4 V5].
  unfold fat_set_cluster, read_sec. rewrite E1, E2.
  pose proof (capacity_ok (bus fp) (master fp) d). unfold cap in E3. rewrite u32_id by lia.
  rewrite read_ok by done. set (buf := sector _ _ d _).
  destruct (sector_ok (bus fp) (master fp) d (fat_start fp + c / 128)) as [Hb1 Hb2]. fold buf in Hb1, Hb2.
  set (o := c mod 128 * 4). assert (0 <= o /\ o + 4 <= 512) as Ho by (unfold o; lia).
  pose proof (load32_range buf o Hb2) as Hr.
  rewrite set_entry_value by done. set (e := _ + _).
  assert (e mod 4294967296 = e /\ e mod 268435456 = v mod 268435456) as [He1 He2] by (unfold e; lia).
  set (buf' := store32 buf o e).
  destruct (write_fats_spec c buf' (Z.to_nat (fat_count fp)) 0 d) as (d' & Hw & Hcd & Hs); try done.
  { unfold buf'. by rewrite store32_zlen. }
  { by apply store32_bytes. }
  { lia. }
  assert (forall i, 0 <= i < fat_count fp ->
            sec d' (fat_start fp + i * sectors_per_fat fp + c / 128) = buf') as Hcopy.
  { intros i Hi. rewrite Hs. assert (existsb _ _ = true) as ->; [| done].
    apply existsb_exists. exists (Z.to_nat i). split; [apply in_seq; lia |]. apply Z.eqb_eq. lia. }
  assert (forall x, (forall i, 0 <= i < fat_count fp ->
         x <> fat_start fp + i * sectors_per_fat fp + c / 128) -> sec d' x = sec d x) as Hother.
  { intros x Hx. rewrite Hs. assert (existsb _ _ = false) as ->; [| done].
    apply not_true_iff_false. intros (j & Hj & E)%existsb_exists. apply in_seq in Hj.
    apply Z.eqb_eq in E. apply (Hx (Z.of_nat j)); [lia |]. rewrite E. lia. }
  pose proof (Hcopy 0 ltac:(lia)) as Hz0. replace (fat_start fp + 0 * sectors_per_fat fp + c / 128)
    with (fat_start fp + c / 128) in Hz0 by lia.
  exists d'. split; [done |]. split.
  { split; try done. by rewrite Hcd. }
  split; [done |]. split; [| split; [| done]].
  - intros c' Hc'. unfold entry. destruct Hc as [Hc1 Hc2], Hc' as [Hc1' Hc2'].
    change 0x0FFFFFFF with (Z.ones 28). rewrite !Z.land_ones by lia. change (2 ^ 28) with 268435456.
    destruct (Z.eq_dec (c' / 128) (c / 128)) as [Es | Es].
    + rewrite Es, Hz0. destruct (Z.eqb_spec c' c) as [-> | Hne].
      * fold o. unfold buf'. rewrite load32_store32, He1 by lia. done.
      * unfold buf'. rewrite load32_store32_ne; [done | lia | lia | unfold o; lia].
    + destruct (Z.eqb_spec c' c) as [-> | Hne]; [done |]. rewrite Hother; [done |].
      intros i Hi Ex. set (spf := sectors_per_fat fp) in *.
      assert (0 <= c' / 128 < spf /\ 0 <= c / 128) as [Ha Hb] by (clear - Hc1 Hc1'; lia).
      clear - Ex Es Hi Ha Hb.
      destruct (Z.eq_dec i 0) as [-> |]; [lia |]. assert (spf <= i * spf) by nia. lia.
  - intros i Hi. rewrite Hcopy, Hz0 by done. done.
Qed.

(** C22: fat_set_cluster stores the 28-bit value in the entry of the cluster, so that
    fat_next_cluster reads it back, leaves the entries of all other clusters as they
    were, writes the same sector into every copy of the table, and touches no sector
    outside the copies of that one. *)
Theorem fat_set_cluster_spec (c v : Z) (d : D) (V : volume d) (Hc : in_table c) :
  exists d', fat_set_cluster fp c v d = (0, d') /\ volume d' /\
    (forall c', in_table c' -> fat_next_cluster fp c' d' =
       if c' =? c then v mod 268435456 else fat_next_cluster fp c' d) /\
    (forall i, 0 <= i < fat_count fp ->
       sec d' (fat_start fp + i * sectors_per_fat fp + c / 128) = sec d' (fat_start fp + c / 128)) /\
    (forall x, (forall i, 0 <= i < fat_count fp ->
         x <> fat_start fp + i * sectors_per_fat fp + c / 128) -> sec d' x = sec d x).
Proof.
  destruct (fat_set_cluster_correct c v d V Hc) as (d' & H1 & H2 & _ & H3 & H4 & H5).
  exists d'. split_and!; try done. intros c' Hc'. rewrite !fat_next_cluster_entry by done. by apply H3.
Qed.
End table.

(** ** Allocation of clusters *)

Section alloc.
Context {D : Type} `{BlockDevLaws D} (fp : fat_private).
Implicit Types d : D.

Lemma find_cluster_spec d n : forall c loaded buf,
  volume fp d -> cap fp d < 4294967296 -> 2 <= c -> bytes_per_sector fp = 512 ->
  (forall c', c <= c' < c + Z.of_nat n -> in_table fp c') ->
  (loaded = 0xFFFFFFFF \/ buf = sec fp d loaded) ->
  let r := find_cluster fp n c loaded buf d in
  (c <= fst r < c + Z.of_nat n /\ entry fp d (fst r) = 0 /\
     (forall c', c <= c' < fst r -> entry fp d c' <> 0) /\
     snd r = snd (fat_set_cluster fp (fst r) FAT_EOC d)) \/
  (fst r = 0 /\ snd r = d /\ forall c', c <= c' < c + Z.of_nat n -> entry fp d c' <> 0).
Proof.
  induction n as [| n IH]; intros c loaded buf V Hcap Hc Hbps Ht Hl; cbn [find_cluster].
  { right. split_and!; [done | done | lia]. }
  pose proof (Ht c ltac:(lia)) as Hct. destruct (ent_place fp c d V Hct) as (E1 & E2 & _ & E3).
  unfold fat_sector, ent_offset, fat_offset in E1, E2. rewrite Hbps in E1, E2.
  rewrite E1, E2. unfold cap in *.
  assert ((if negb (fat_start fp + c / 128 =? loaded) then read_sec fp (fat_start fp + c / 128) d else Some buf)
          = Some (sec fp d (fat_start fp + c / 128))) as ->.
  { destruct (Z.eqb_spec (fat_start fp + c / 128) loaded) as [E | E]; cbn [negb].
    - destruct Hl as [-> | ->]; [lia | by rewrite E].
    - unfold read_sec. rewrite u32_id by lia. by rewrite read_ok. }
  fold (entry fp d c). destruct (Z.eqb_spec (entry fp d c) 0) as [Ez | Ez].
  - left. cbn [fst snd]. split_and!; try done; lia.
  - destruct (IH (c + 1) (fat_start fp + c / 128) (sec fp d (fat_start fp + c / 128))) as
      [(H1 & H2 & H3 & H4) | (H1 & H2 & H3)]; try done; try lia.
    + intros c' Hc'. apply Ht. lia.
    + by right.
    + left. split_and!; try done; try lia. intros c' Hc'.
      destruct (Z.eq_dec c' c) as [-> |]; [done | apply H3; lia].
    + right. split_and!; try done. intros c' Hc'.
      destruct (Z.eq_dec c' c) as [-> |]; [done | apply H3; lia].
Qed.

(** Also: fat_alloc_cluster returns the lowest free data cluster, marks it as the end of a
    chain and changes no other entry, or returns 0 and changes nothing exactly when the
    table has no free cluster. *)
Theorem fat_alloc_cluster_spec (d : D) (V : volume fp d) (Hcap : cap fp d < 4294967296)
    (Ht : 0 <= fat_total_clusters fp /\ fat_total_clusters fp + 2 <= 128 * sectors_per_fat fp /\
          fat_total_clusters fp + 2 < 268435456) :
  let total := fat_total_clusters fp in
  let '(c, d') := fat_alloc_cluster fp d in
  (2 <= c < total + 2 /\ fat_next_cluster fp c d = 0 /\
     (forall c', 2 <= c' < c -> fat_next_cluster fp c' d <> 0) /\
     fat_next_cluster fp c d' = FAT_EOC /\
     (forall c', in_table fp c' -> c' <> c -> fat_next_cluster fp c' d' = fat_next_cluster fp c' d)) \/
  (c = 0 /\ d' = d /\ forall c', 2 <= c' < total + 2 -> fat_next_cluster fp c' d <> 0).
Proof.
  intros total. unfold fat_alloc_cluster. fold total in Ht |- *. rewrite u32_id by lia.
  assert (forall c, 2 <= c < total + 2 -> in_table fp c) as Hin.
  { intros c Hc. split; lia. }
  pose proof (find_cluster_spec d (Z.to_nat (total + 2 - 2)) 2 0xFFFFFFFF (replicate 512 0) V Hcap
    ltac:(lia) (vol_bps _ _ V)) as Hf.
  destruct (find_cluster _ _ _ _ _ _) as [c d']. cbn [fst snd] in Hf.
  destruct Hf as [(H1 & H2 & H3 & ->) | (H1 & H2 & H3)].
  - intros c' Hc'. apply Hin. lia.
  - by left.
  - left. assert (in_table fp c) as Hc by (apply Hin; lia).
    destruct (fat_set_cluster_correct fp c FAT_EOC d V Hc) as (d1 & -> & V1 & _ & He & _). cbn [snd].
    rewrite !fat_next_cluster_entry by done. split_and!; try done; try lia.
    + intros c' Hc'. rewrite fat_next_cluster_entry by (done || (apply Hin; lia)). apply H3. lia.
    + rewrite He, Z.eqb_refl by done. done.
    + intros c' Hc' Hne. rewrite !fat_next_cluster_entry, He by done.
      destruct (Z.eqb_spec c' c); done.
  - right. split_and!; try done. intros c' Hc'.
    rewrite fat_next_cluster_entry by (done || (apply Hin; lia)). apply H3. lia.
Qed.
End alloc.

(** ** 8.3 names: properties *)

Definition lower (c : Z) : Z := if is_upper c then c - 65 + 97 else c.
Definition upper (c : Z) : Z := if is_lower c then c - 97 + 65 else c.
Definition name_char (c : Z) : bool :=
  is_upper (upper c) || is_digit (upper c) || (upper c =? 95) || (upper c =? 45).

Lemma name_char_facts c :
  name_char c = true -> upper c <> 0 /\ upper c <> 32 /\ c <> 46 /\ lower (upper c) = lower c.
Proof.
  unfold name_char, upper, lower, is_upper, is_lower, is_digit. intros H.
  destruct (Z.leb_spec 97 c), (Z.leb_spec c 122); cbn [andb] in *;
    repeat match goal with |- context [?a <=? ?b] => destruct (Z.leb_spec a b) end; cbn [andb];
    repeat match type of H with context [?a <=? ?b] => destruct (Z.leb_spec a b) in H end;
    repeat match type of H with context [?a =? ?b] => destruct (Z.eqb_spec a b) in H end;
    cbn in H; try discriminate H; lia.
Qed.

Lemma name_to_83_split name : forall on oe ext n e,
  name_to_83 name on oe ext = Some (n, e) -> (length on <= 8)%nat -> (length oe <= 3)%nat ->
  exists a b, n = pad 8 (on ++ map upper a) /\ e = pad 3 (oe ++ map upper b) /\
    forallb name_char a = true /\ forallb name_char b = true /\
    (length (on ++ map upper a) <= 8)%nat /\ (length (oe ++ map upper b) <= 3)%nat /\
    (if ext : bool then a = [] /\ name = b else (name = a /\ b = []) \/ name = a ++ 46 :: b).
Proof.
  induction name as [| c name IH]; intros on oe ext n e Hn Ho He; cbn [name_to_83] in Hn.
  - exists [], []. cbn [map]. rewrite !app_nil_r. destruct on as [| o on]; [done |].
    injection Hn as <- <-. split_and!; try done. destruct ext; [done | by left].
  - destruct (Z.eqb_spec c 46) as [-> | Hc].
    + destruct ext; [done |]. destruct (IH _ _ _ _ _ Hn Ho He) as (a & b & H1 & H2 & H3 & H4 & H5 & H6 & H7 & ->).
      exists a, b. split_and!; try done. subst a. by right.
    + destruct (negb _) eqn:Ev in Hn; [done |]. apply negb_false_iff in Ev.
      fold (upper c) in Ev, Hn. fold (name_char c) in Ev. destruct ext; cbn [negb] in Hn.
      * destruct (Nat.leb_spec 3 (length oe)); [done |].
        destruct (IH _ _ _ _ _ Hn Ho) as (a & b & H1 & H2 & H3 & H4 & H5 & H6 & -> & H7).
        { rewrite length_app. simpl. lia. }
        exists [], (c :: b). cbn [map forallb]. rewrite <- app_assoc in H2, H6. rewrite Ev, H4, H7. done.
      * destruct (Nat.leb_spec 8 (length on)); [done |].
        destruct (IH _ _ _ _ _ Hn) as (a & b & H1 & H2 & H3 & H4 & H5 & H6 & H7).
        { rewrite length_app. simpl. lia. } { done. }
        exists (c :: a), b. cbn [map forallb app]. rewrite <- app_assoc in H1, H5. rewrite Ev, H3.
        split_and!; try done. destruct H7 as [[-> ->] | ->]; [by left | by right].
Qed.

Lemma until_blank_pad k l :
  forallb (fun c => istrue c && negb (c =? 32)) l = true -> (length l <= k)%nat ->
  until_blank k (pad k l) = l.
Proof.
  unfold pad. revert k. induction l as [| c l IH]; intros k Hl Hk; cbn [app length forallb until_blank] in *.
  - rewrite Nat.sub_0_r. destruct k as [| k]; done.
  - destruct k as [| k]; [simpl in Hk; lia |]. cbn [until_blank]. apply andb_prop in Hl as [-> Hl].
    f_equal. apply (IH k Hl). simpl in Hk. lia.
Qed.

Lemma upper_not_blank a :
  forallb name_char a = true -> forallb (fun c => istrue c && negb (c =? 32)) (map upper a) = true.
Proof.
  induction a as [| c a IH]; [done |]. cbn [forallb map]. intros [Hc Ha]%andb_prop.
  rewrite (IH Ha). destruct (name_char_facts c Hc) as (H1 & H2 & _).
  rewrite istrue_neq by done. by destruct (Z.eqb_spec (upper c) 32).
Qed.

Lemma map_lower_upper a : forallb name_char a = true -> map lower (map upper a) = map lower a.
Proof.
  induction a as [| c a IH]; [done |]. cbn [forallb map]. intros [Hc Ha]%andb_prop.
  rewrite (IH Ha). by destruct (name_char_facts c Hc) as (_ & _ & _ & ->).
Qed.

(** Also: when a name has an 8.3 form, the name read back from that directory entry is the
    same name in lower case, provided the name does not end with a dot; so a file is
    found again under the name it was created with. *)
Theorem fat_name_roundtrip (name n e : list Z) (Hn : fat_name_to_83 name = Some (n, e))
    (Hdot : last name <> Some 46) :
  length n = 8%nat /\ length e = 3%nat /\ fat_trim_name n e = map lower name.
Proof.
  unfold fat_name_to_83 in Hn.
  destruct (name_to_83_split name [] [] false n e Hn) as (a & b & -> & -> & Ha & Hb & La & Lb & Hs);
    [simpl; lia | simpl; lia |].
  cbn [app] in *. split_and!.
  { unfold pad. rewrite length_app, length_replicate. lia. }
  { unfold pad. rewrite length_app, length_replicate. lia. }
  unfold fat_trim_name. fold lower.
  rewrite (until_blank_pad 8) by (done || by apply upper_not_blank).
  destruct b as [| c b].
  - change (pad 3 (map upper [])) with [32; 32; 32]. cbn [zget zlook]. 
    change ([32; 32; 32].[0]) with 32. change (istrue 32 && negb (32 =? 32)) with false. cbv iota.
    rewrite app_nil_r. destruct Hs as [[-> _] | ->].
    + change (fun c => if is_upper c then c - 65 + 97 else c) with lower. by apply map_lower_upper.
    + exfalso. apply Hdot. by rewrite last_snoc.
  - destruct Hs as [[_ ?] | ->]; [done |].
    assert ((pad 3 (map upper (c :: b))).[0] = upper c) as -> by done.
    cbn [forallb] in Hb. apply andb_prop in Hb as [Hc Hb].
    destruct (name_char_facts c Hc) as (H1 & H2 & _). rewrite istrue_neq by done.
    destruct (Z.eqb_spec (upper c) 32); [done |]. cbn [negb andb].
    rewrite (until_blank_pad 3) by (try done; apply upper_not_blank; cbn [forallb]; by rewrite Hc, Hb).
    change (fun c => if is_upper c then c - 65 + 97 else c) with lower.
    rewrite map_app, map_lower_upper by done. rewrite map_app. cbn [map].
    rewrite (map_lower_upper b) by done. destruct (name_char_facts c Hc) as (_ & _ & _ & ->). done.
Qed.

(** ** Reading: properties *)

Section reading.
Context {D : Type} `{BlockDevLaws D} (fp : fat_private).
Variable d : D.

(** [n] sectors from [lba] on. *)
Fixpoint secs (n : nat) (lba : Z) : list Z :=
  match n with O => [] | S n' => sec fp d lba ++ secs n' (lba + 1) end.

Definition spc : Z := sectors_per_cluster fp.
Definition lba_of (c : Z) : Z := data_start fp + (c - 2) * spc.
Definition cluster_data (c : Z) : list Z := secs (Z.to_nat spc) (lba_of c).

(** Whole sectors per cluster, and clusters that lie on the disk. *)
Record geometry : Prop := {
  g_bpc : bytes_per_cluster fp = 512 * spc;
  g_spc : 0 < spc;
  g_data : 0 <= data_start fp }.
Definition on_disk (c : Z) : Prop := 2 <= c /\ lba_of c + spc <= cap fp d.

(** The clusters of a file, in order. *)
Fixpoint file_chain (cs : list Z) : Prop :=
  match cs with
  | [] => True
  | c :: r => on_disk c /\ file_chain r /\
      match r with
      | c2 :: _ => fat_next_cluster fp c d = c2 /\ c2 < FAT_EOC
      | [] => True
      end
  end.
Definition file_data (cs : list Z) : list Z := concat (map cluster_data cs).

Hypothesis G : geometry.

Lemma secs_zlen n : forall lba, zlen (secs n lba) = 512 * Z.of_nat n.
Proof using D H H0 fp d.
  induction n as [| n IH]; intros lba; cbn [secs]; [done |].
  rewrite zlen_app, IH. unfold sec. destruct (sector_ok (bus fp) (master fp) d lba) as [-> _]. lia.
Qed.

Lemma secs_app j n : forall lba, secs (j + n) lba = secs j lba ++ secs n (lba + Z.of_nat j).
Proof using D H H0 fp d.
  induction j as [| j IH]; intros lba; cbn [secs plus app].
  - by rewrite Z.add_0_r.
  - rewrite IH, app_assoc. do 2 f_equal. lia.
Qed.

Lemma cluster_data_zlen c : zlen (cluster_data c) = bytes_per_cluster fp.
Proof using G. destruct G. unfold cluster_data. rewrite secs_zlen. lia. Qed.

Lemma take_secs k n m j lba :
  k <= 512 * Z.of_nat n -> (j + n <= m)%nat ->
  take (Z.to_nat k) (secs n (lba + Z.of_nat j)) = take (Z.to_nat k) (drop (512 * j) (secs m lba)).
Proof using D H H0 fp d.
  intros Hk Hm. replace m with (j + (n + (m - j - n)))%nat by lia.
  rewrite secs_app, secs_app.
  assert (length (secs j lba) = 512 * j)%nat as Hj by (pose proof (secs_zlen j lba); unfold zlen in *; lia).
  rewrite drop_app_length' by done.
  rewrite take_app_le; [done |]. pose proof (secs_zlen n (lba + Z.of_nat j)). unfold zlen in *. lia.
Qed.

Lemma read_cluster_aligned n : forall lba to_read start size out,
  0 <= lba -> lba + Z.of_nat n <= cap fp d ->
  let rem := to_read - (zlen out - start) in
  512 * (Z.of_nat n - 1) < rem <= 512 * Z.of_nat n -> 0 <= rem -> start + to_read <= size ->
  read_cluster fp n lba 0 to_read start size out d = Some (out ++ take (Z.to_nat rem) (secs n lba)).
Proof using D H H0 fp d.
  induction n as [| n IH]; intros lba to_read start size out Hl Hcap rem Hr Hr0 Hs;
    cbn [read_cluster secs]; [by rewrite take_nil, app_nil_r |].
  pose proof (capacity_ok (bus fp) (master fp) d) as Hc. unfold cap in *.
  unfold read_sec. rewrite u32_id by lia. rewrite read_ok by lia. cbn [mbind option_bind].
  fold (sec fp d lba). destruct (sector_ok (bus fp) (master fp) d lba) as [Hlen _].
  fold (sec fp d lba) in Hlen. fold rem. rewrite Z.sub_0_r. change (drop (Z.to_nat 0) (sec fp d lba)) with (sec fp d lba).
  set (cb := if 512 <? _ then 512 else _).
  assert (cb = Z.min rem 512) as Ecb.
  { unfold cb. destruct (Z.ltb_spec rem 512); [destruct (Z.ltb_spec 512 rem) | destruct (Z.ltb_spec 512 512)]; lia. }
  clearbody cb. subst cb.
  assert (zlen (take (Z.to_nat (Z.min rem 512)) (sec fp d lba)) = Z.min rem 512) as El.
  { unfold zlen in *. rewrite length_take. lia. }
  rewrite zlen_app, El.
  destruct (Z.leb_spec size (zlen out + Z.min rem 512)) as [Hle | Hgt].
  - assert (rem <= 512) by lia. replace (Z.min rem 512) with rem by lia.
    rewrite take_app_le; [done |]. unfold zlen in Hlen. lia.
  - rewrite IH; rewrite ?zlen_app, ?El; try lia.
    rewrite <- app_assoc. do 2 f_equal.
    replace (to_read - (zlen out + Z.min rem 512 - start)) with (rem - Z.min rem 512) by lia.
    destruct (Z.le_gt_cases rem 512) as [Hle | Hgt2].
    + replace (Z.to_nat (rem - Z.min rem 512)) with 0%nat by lia.
      rewrite take_0, app_nil_r, take_app_le; [f_equal; lia |]. unfold zlen in Hlen. lia.
    + rewrite (take_ge (sec fp d lba)) by (unfold zlen in Hlen; lia).
      rewrite take_app_ge by (unfold zlen in Hlen; lia). do 2 f_equal. unfold zlen in Hlen. lia.
Qed.

Lemma read_clusters_aligned cs : forall n c rest skip size out,
  cs = c :: rest -> file_chain cs -> 0 <= skip < bytes_per_cluster fp -> skip mod 512 = 0 ->
  0 <= size - zlen out <= zlen cs * bytes_per_cluster fp - skip -> size < 2147483648 ->
  (Z.to_nat (size - zlen out) < n)%nat ->
  read_clusters fp n c skip size out d =
    Some (size, out ++ take (Z.to_nat (size - zlen out)) (drop (Z.to_nat skip) (file_data cs))).
Proof using G.
  destruct G as [G1 G2 G3].
  induction cs as [| c cs IH]; intros n c_ rest skip size out [= <- <-] Hf Hs Ha Hsz Hlim Hn.
  destruct n as [| n]; [lia |]. cbn [read_clusters].
  pose proof (capacity_ok (bus fp) (master fp) d) as Hcap.
  destruct Hf as (Hod & Hf & Hnext). destruct Hod as [Hc1 Hc2]. unfold cap, lba_of in Hc2.
  pose proof (zlen_nonneg out).
  destruct (Z.leb_spec size (zlen out)) as [Hle | Hgt].
  { replace (Z.to_nat (size - zlen out)) with 0%nat by lia. rewrite take_0, app_nil_r, s32_id by lia.
    do 2 f_equal. lia. }
  set (tr := if size - zlen out <? bytes_per_cluster fp - skip then size - zlen out
             else bytes_per_cluster fp - skip).
  assert (0 < tr <= bytes_per_cluster fp - skip /\ tr <= size - zlen out) as [Htr1 Htr2].
  { unfold tr. destruct (Z.ltb_spec (size - zlen out) (bytes_per_cluster fp - skip)); lia. }
  assert (fat_cluster_to_lba fp c = lba_of c) as Elba.
  { unfold fat_cluster_to_lba, lba_of. fold spc. apply u32_id. nia. }
  rewrite Elba, Ha.
  assert (0 <= lba_of c /\ lba_of c + spc <= cap fp d) as Hlb by (unfold lba_of, cap; nia).
  set (k := Z.to_nat ((tr + 511) / 512)). set (j := Z.to_nat (skip / 512)).
  assert (512 * (Z.of_nat k - 1) < tr <= 512 * Z.of_nat k) as Hk by (unfold k; lia).
  assert (skip = 512 * Z.of_nat j) as Hj by (unfold j; lia).
  assert (j + k <= Z.to_nat spc)%nat as Hjk by lia.
  rewrite (read_cluster_aligned k _ tr (zlen out) size out);
    [| lia | lia | lia | lia | lia].
  replace (tr - (zlen out - zlen out)) with tr by lia.
  assert (lba_of c + skip / 512 = lba_of c + Z.of_nat j) as -> by lia.
  rewrite (take_secs tr k (Z.to_nat spc) j) by lia. fold (cluster_data c).
  pose proof (cluster_data_zlen c) as Hcd.
  assert (Z.to_nat skip = (512 * j)%nat) as Esk by lia. rewrite Esk.
  set (piece := take (Z.to_nat tr) (drop (512 * j) (cluster_data c))).
  assert (zlen piece = tr) as Hpl.
  { unfold piece, zlen in *. rewrite length_take, length_drop. lia. }
  assert (drop (512 * j) (file_data (c :: cs)) = drop (512 * j) (cluster_data c) ++ file_data cs) as ->.
  { unfold file_data. cbn [map concat]. rewrite drop_app_le; [done |]. unfold zlen in Hcd. lia. }
  assert (zlen (drop (512 * j) (cluster_data c)) = bytes_per_cluster fp - skip) as Hdl.
  { unfold zlen in *. rewrite length_drop. lia. }
  rewrite zlen_app, Hpl. destruct (Z.leb_spec size (zlen out + tr)) as [Hle2 | Hgt2].
  - assert (tr = size - zlen out) as Etr by lia. rewrite s32_id by lia. do 2 f_equal; [lia |].
    f_equal. unfold piece. rewrite <- Etr. rewrite take_app_le; [done |]. unfold zlen in Hdl. lia.
  - assert (tr = bytes_per_cluster fp - skip) as Etr.
    { revert Hgt2. unfold tr. destruct (Z.ltb_spec (size - zlen out) (bytes_per_cluster fp - skip)); lia. }
    destruct cs as [| c2 cs']; [exfalso; change (zlen [c]) with 1 in Hsz; lia |].
    destruct Hnext as [Hn2 He2]. rewrite Hn2. destruct (Z.leb_spec FAT_EOC c2); [lia |].
    rewrite (IH n c2 cs' 0 size (out ++ piece)); try done; rewrite ?zlen_app, ?Hpl; try lia.
    2: { rewrite zlen_cons in Hsz. lia. }
    do 2 f_equal. rewrite <- app_assoc. f_equal.
    change (drop (Z.to_nat 0) (file_data (c2 :: cs'))) with (file_data (c2 :: cs')).
    rewrite take_app_ge by (unfold zlen in Hdl; lia). f_equal.
    + unfold piece. apply take_ge. unfold zlen in Hdl. lia.
    + f_equal. unfold zlen in *. lia.
Qed.

Lemma read_skip_chain cs : forall n c rest offset,
  cs = c :: rest -> file_chain cs -> 0 <= offset < zlen cs * bytes_per_cluster fp ->
  (Z.to_nat offset < n)%nat ->
  exists pre c' rest' skip, cs = pre ++ c' :: rest' /\ file_chain (c' :: rest') /\
    read_skip fp n c offset d = Some (Some (c', skip)) /\
    0 <= skip < bytes_per_cluster fp /\ offset = zlen pre * bytes_per_cluster fp + skip.
Proof using G.
  destruct G as [G1 G2 G3].
  induction cs as [| c cs IH]; intros n c_ rest offset [= <- <-] Hf Ho Hn.
  destruct n as [| n]; [lia |]. cbn [read_skip].
  destruct (Z.leb_spec (bytes_per_cluster fp) offset) as [Hle | Hgt].
  - destruct cs as [| c2 cs']; [exfalso; change (zlen [c]) with 1 in Ho; lia |].
    destruct Hf as (Hod & Hf & Hn2 & He2). rewrite Hn2. destruct (Z.leb_spec FAT_EOC c2); [lia |].
    destruct (IH n c2 cs' (offset - bytes_per_cluster fp)) as (pre & c' & rest' & skip & E & I1 & I2 & I3 & I4);
      try done; [rewrite zlen_cons in Ho; lia | lia |].
    exists (c :: pre), c', rest', skip. rewrite E, zlen_cons. split_and!; try done; lia.
  - exists [], c, cs, offset. split_and!; try done; lia.
Qed.

Lemma file_data_drop pre cs :
  drop (Z.to_nat (zlen pre * bytes_per_cluster fp)) (file_data (pre ++ cs)) = file_data cs.
Proof using G.
  unfold file_data. rewrite map_app, concat_app. apply drop_app_length'.
  destruct G as [G1 G2 G3]. induction pre as [| c pre IH]; [done |].
  cbn [map concat]. rewrite length_app, <- IH. pose proof (cluster_data_zlen c).
  rewrite zlen_cons. pose proof (zlen_nonneg pre). unfold zlen in *. nia.
Qed.
End reading.

(** C12: reading from an offset that is a multiple of 512 returns exactly the requested
    bytes of the file: the contents of its clusters, in chain order, from the offset
    on. The read ends within its bounds and leaves the state as it was. *)
Theorem fat_read_spec {D : Type} `{BlockDevLaws D} (fp : fat_private) (s : vst D)
    (node c offset size : Z) (cs : list Z)
    (Hc : fat_node_cluster node s = Some c) (Hf : file_chain fp (dev s) (c :: cs))
    (G : geometry fp) (Ha : offset mod 512 = 0) (Ho : 0 <= offset) (Hs : 0 < size < 2147483648)
    (Hlen : offset + size <= zlen (c :: cs) * bytes_per_cluster fp) :
  fat_read fp node offset size s =
    Some (size, take (Z.to_nat size) (drop (Z.to_nat offset) (file_data fp (dev s) (c :: cs))), s).
Proof.
  unfold fat_read. rewrite Hc. cbn [mbind option_bind].
  destruct (read_skip_chain fp (dev s) G (c :: cs) (S (Z.to_nat offset)) c cs offset eq_refl Hf
    ltac:(lia) ltac:(lia)) as (pre & c' & rest' & skip & E & Hf' & -> & Hsk & Eo).
  cbn [mbind option_bind]. rewrite E in Hlen |- *. rewrite zlen_app in Hlen.
  pose proof (g_bpc _ G) as Hb. pose proof (zlen_nonneg pre).
  assert (skip mod 512 = 0) as Hsa.
  { rewrite Eo, Hb in Ha. replace (zlen pre * (512 * spc fp) + skip) with
      (skip + (zlen pre * spc fp) * 512) in Ha by lia. by rewrite Z.mod_add in Ha. }
  rewrite (read_clusters_aligned fp (dev s) G (c' :: rest') _ c' rest' skip size []); try done;
    change (zlen (@nil Z)) with 0; try lia.
  cbn [mbind option_bind fst snd app]. rewrite Z.sub_0_r. do 4 f_equal.
  rewrite <- (file_data_drop fp (dev s) G pre (c' :: rest')), drop_drop. f_equal. nia.
Qed.

(** ** A small volume: two sectors per cluster, the file of node 0x100 has the clusters 3
    and 4, whose sectors hold the bytes 1, 2 (cluster 3) and 3, 4 (cluster 4). *)

Definition fp_ex : fat_private := FatPrivate 0 0 512 2 1 0 100 1 3 2 2 1024.
Definition table_ex : list Z :=
  store32 (store32 (replicate 512 0) 12 4) 16 FAT_EOC.
Definition disk_ex : memdisk :=
  MemDisk 100 (<[1 := table_ex]> (<[5 := replicate 512 1]> (<[6 := replicate 512 2]>
    (<[7 := replicate 512 3]> (<[8 := replicate 512 4]> ∅))))).
Definition vst_ex : vst memdisk :=
  mkVst (heap_boot mach0) (<[0x100 := Node [97] 2048 VFS_FILE 1 0x200 0 0 0]> ∅) ∅
    (<[0x200 := NodeData 3 0 0]> ∅) [] disk_ex.

(** Also: a read that does not start at a multiple of 512 and crosses a sector boundary goes
    on in the next cluster instead of the next sector: 20 bytes at offset 500 of a file
    whose first two sectors hold the bytes 1 and 2 end with 8 bytes of the third sector. *)
Theorem fat_read_unaligned_wrong :
  file_data fp_ex disk_ex [3; 4] =
    replicate 512 1 ++ replicate 512 2 ++ replicate 512 3 ++ replicate 512 4 /\
  fat_read fp_ex 0x100 500 20 vst_ex = Some (20, replicate 12 1 ++ replicate 8 3, vst_ex).
Proof. split; vm_compute; reflexivity. Qed.

Lemma volume_ex : volume fp_ex disk_ex.
Proof. split; vm_compute; done. Qed.

Lemma fat_set_cluster_spec_witness :
  exists d', fat_set_cluster fp_ex 5 9 disk_ex = (0, d') /\ fat_next_cluster fp_ex 5 d' = 9.
Proof.
  destruct (fat_set_cluster_spec fp_ex 5 9 disk_ex volume_ex ltac:(split; vm_compute; done))
    as (d' & H & _ & He & _).
  exists d'. exact (conj H (He 5 ltac:(split; vm_compute; done))).
Defined.

Lemma fat_alloc_cluster_spec_witness :
  fat_alloc_cluster fp_ex disk_ex = (2, snd (fat_alloc_cluster fp_ex disk_ex)) /\
  fat_next_cluster fp_ex 2 (snd (fat_alloc_cluster fp_ex disk_ex)) = FAT_EOC.
Proof.
  assert (fat_alloc_cluster fp_ex disk_ex = (2, snd (fat_alloc_cluster fp_ex disk_ex))) as E
    by (vm_compute; reflexivity).
  split; [exact E |].
  pose proof (fat_alloc_cluster_spec fp_ex disk_ex volume_ex ltac:(vm_compute; reflexivity)
    ltac:(vm_compute; split_and!; done)) as H.
  rewrite E in H. destruct H as [(_ & _ & _ & H & _) | (H & _)]; [exact H | discriminate H].
Defined.

Lemma fat_name_roundtrip_witness :
  fat_name_to_83 [114; 46; 116; 120] = Some ([82; 32; 32; 32; 32; 32; 32; 32], [84; 88; 32]) /\
  fat_trim_name [82; 32; 32; 32; 32; 32; 32; 32] [84; 88; 32] = [114; 46; 116; 120].
Proof.
  split; [reflexivity |].
  exact (proj2 (proj2 (fat_name_roundtrip [114; 46; 116; 120] _ _ eq_refl ltac:(discriminate)))).
Defined.

Lemma fat_read_spec_witness :
  fat_read fp_ex 0x100 512 4 vst_ex = Some (4, [2; 2; 2; 2], vst_ex).
Proof.
  refine (fat_read_spec fp_ex vst_ex 0x100 3 512 4 [4] eq_refl _ _ eq_refl _ _ _).
  - vm_compute. repeat split; discriminate.
  - split; vm_compute; done.
  - lia.
  - lia.
  - vm_compute. discriminate.
Defined.
