(* ===== verification/Ports.v ===== *)
(** * Ports of the machine (src/include/io.h)

    What a driver reads and writes is behind ports: a machine is a state with six
    operations, and a driver a computation on it that may fail, by an access outside an
    array or because a loop took more turns than its fuel. What a device answers is the
    business of the classes of the drivers' files. *)

From S2P Require Import Prelude.

Class machine (H : Type) := {
  in8 : Z -> H -> Z * H; in16 : Z -> H -> Z * H; in32 : Z -> H -> Z * H;
  out8 : Z -> Z -> H -> H; out16 : Z -> Z -> H -> H; out32 : Z -> Z -> H -> H }.

Definition io (H A : Type) : Type := H -> option (A * H).
#[export] Instance io_ret {H} : MRet (io H) := fun A x h => Some (x, h).
#[export] Instance io_bind {H} : MBind (io H) := fun A B k t h => match t h with Some (x, h) => k x h | None => None end.
Definition lift {H A} (o : option A) : io H A := fun h => match o with Some x => Some (x, h) | None => None end.

Section ports.
Context {H : Type} `{machine H}.

Definition inb (port : Z) : io H Z := fun h => let '(v, h) := in8 (u16 port) h in Some (u8 v, h).
Definition inw (port : Z) : io H Z := fun h => let '(v, h) := in16 (u16 port) h in Some (u16 v, h).
Definition inl_port (port : Z) : io H Z := fun h => let '(v, h) := in32 (u16 port) h in Some (u32 v, h).
Definition outb (port v : Z) : io H unit := fun h => Some (tt, out8 (u16 port) (u8 v) h).
Definition outw (port v : Z) : io H unit := fun h => Some (tt, out16 (u16 port) (u16 v) h).
Definition outl (port v : Z) : io H unit := fun h => Some (tt, out32 (u16 port) (u32 v) h).

(** A status register is read until no bit, or a bit, of [mask] is set, [n] times at most. *)
Fixpoint wait_clear (n : nat) (port mask : Z) : io H Z :=
  match n with O => mret (-1) | S n => st ← inb port; if istrue (Z.land st mask) then wait_clear n port mask else mret 0 end.
Fixpoint wait_set (n : nat) (port mask : Z) : io H Z :=
  match n with O => mret (-1) | S n => st ← inb port; if istrue (Z.land st mask) then mret 0 else wait_set n port mask end.
End ports.

(** [t] returns [x] and leaves the state [h']. *)
Definition gives {H A} (t : io H A) (h h' : H) (x : A) : Prop := t h = Some (x, h').

Lemma gives_ret {H A} (x : A) (h : H) : gives (mret x) h h x.
Proof. done. Qed.
Lemma gives_bind {H A B} (t : io H A) (k : A -> io H B) h h1 h2 x y : gives t h h1 x -> gives (k x) h1 h2 y -> gives (t ≫= k) h h2 y.
Proof. unfold gives, mbind, io_bind. by intros -> ->. Qed.
Lemma gives_lift {H A} (o : option A) x (h : H) : o = Some x -> gives (lift o) h h x.
Proof. by intros ->. Qed.

Section keeps.
Context {H : Type} (I : H -> Prop).

(** From a state of [I], [t] returns what satisfies [Q] and leaves a state of [I]. *)
Definition keeps {A} (t : io H A) (Q : A -> Prop) : Prop := forall h, I h -> exists x h', gives t h h' x /\ I h' /\ Q x.

Lemma keeps_ret {A} (x : A) (Q : A -> Prop) : Q x -> keeps (mret x) Q.
Proof. intros Hx h Hi. by exists x, h. Qed.
Lemma keeps_bind {A B} (t : io H A) (k : A -> io H B) P Q : keeps t P -> (forall x, P x -> keeps (k x) Q) -> keeps (t ≫= k) Q.
Proof.
  intros Ht Hk h Hi. destruct (Ht h Hi) as (x & h1 & E1 & H1 & Hx). destruct (Hk x Hx h1 H1) as (y & h2 & E2 & H2 & Hy).
  exists y, h2. split; [by eapply gives_bind | done].
Qed.
Lemma keeps_lift {A B} (o : option A) x (k : A -> io H B) Q : o = Some x -> keeps (k x) Q -> keeps (lift o ≫= k) Q.
Proof. intros -> Hk. eapply (keeps_bind _ _ (fun y => y = x)); [by apply keeps_ret | by intros ? ->]. Qed.
Lemma keeps_if {A} (b : bool) (t u : io H A) Q : (b = true -> keeps t Q) -> (b = false -> keeps u Q) -> keeps (if b then t else u) Q.
Proof. destruct b; auto. Qed.
End keeps.
