(* ===== verification/Ata.v ===== *)
(** * Disk driver (src/drivers/ata.c)

    Programmed input and output on one of the two channels. [channel] is what the driver
    relies on: the registers, the phases of a command and the time a drive is busy, as the
    ATA standard describes them for 28-bit addresses. On a machine with such a channel the
    driver is the block device that the filesystem is built on ([driver_dev],
    [driver_laws]). The buffers are arrays of bytes. *)

From S2P Require Import Prelude Ports Memory Vfs Fat.

Definition SECTOR_SIZE : Z := 512.
Definition ATA_PRIMARY_DATA : Z := 0x1F0.
Definition ATA_PRIMARY_CMD : Z := 0x1F7.
Definition ATA_CMD_READ : Z := 0x20.
Definition ATA_CMD_WRITE : Z := 0x30.
Definition ATA_CMD_IDENT : Z := 0xEC.
Definition ATA_STATUS_ERR : Z := 0x01.
Definition ATA_STATUS_DRQ : Z := 0x08.
Definition ATA_STATUS_BSY : Z := 0x80.
(** The turns of the loops that wait. *)
Definition POLLS : nat := Z.to_nat 100000.

(** Two bytes of an array as a word, and back. *)
Definition put_word (buf : list Z) (i w : Z) : option (list Z) := buf ← put buf (2 * i) (w mod 256); put buf (2 * i + 1) (w / 256).
Definition get_word (buf : list Z) (i : Z) : option Z := lo ← zlook buf (2 * i); hi ← zlook buf (2 * i + 1); Some (lo + 256 * hi).

Section driver.
Context {H : Type} `{machine H}.

Definition ata_wait_busy (cmd_port : Z) : io H Z := wait_clear POLLS cmd_port ATA_STATUS_BSY.
Fixpoint wait_drq (n : nat) (cmd_port : Z) : io H Z :=
  match n with
  | O => mret (-1)
  | S n =>
      st ← inb cmd_port;
      if istrue (Z.land st ATA_STATUS_ERR) then mret (-1) else if istrue (Z.land st ATA_STATUS_DRQ) then mret 0 else wait_drq n cmd_port
  end.
Definition ata_wait_drq (cmd_port : Z) : io H Z := wait_drq POLLS cmd_port.

Definition ata_drive_present (bus : Z) : io H bool :=
  let cmd := if bus =? 0 then ATA_PRIMARY_CMD else 0x170 + 7 in
  _ ← outb cmd ATA_STATUS_BSY;
  _ ← inb cmd; _ ← inb cmd; _ ← inb cmd; _ ← inb cmd;
  st ← inb cmd; mret (negb (st =? 0xFF)).

(** [n] words from the data port, to word [i] of the array and behind. *)
Fixpoint in_words (n : nat) (base i : Z) (buf : list Z) : io H (list Z) :=
  match n with
  | O => mret buf
  | S n => w ← inw base; buf ← lift (put_word buf i w); in_words n base (i + 1) buf
  end.
Fixpoint out_words (n : nat) (base i : Z) (buf : list Z) : io H unit :=
  match n with
  | O => mret tt
  | S n => w ← lift (get_word buf i); _ ← outw base w; out_words n base (i + 1) buf
  end.

Definition ata_identify (bus master : Z) (buf : list Z) : io H (Z * list Z) :=
  let base := if bus =? 0 then ATA_PRIMARY_DATA else 0x170 in
  let cmd := base + 7 in
  r ← ata_wait_busy cmd;
  if r <? 0 then mret (-1, buf)
  else
    _ ← outb (base + 6) (if istrue master then 0xA0 else 0xB0);
    _ ← outb (base + 2) 0; _ ← outb (base + 3) 0; _ ← outb (base + 4) 0; _ ← outb (base + 5) 0;
    _ ← outb cmd ATA_CMD_IDENT;
    st ← inb cmd;
    if st =? 0 then mret (-1, buf)
    else
      r ← ata_wait_busy cmd;
      if r <? 0 then mret (-1, buf)
      else
        st ← inb cmd;
        if istrue (Z.land st ATA_STATUS_ERR) then _ ← inb (base + 1); mret (-1, buf)
        else
          r ← ata_wait_drq cmd;
          if r <? 0 then mret (-1, buf) else buf ← in_words 256 base 0 buf; mret (0, buf).

(** The address, the count and the command. *)
Definition ata_command (base master lba count command : Z) : io H unit :=
  _ ← outb (base + 6) (Z.lor (if istrue master then 0xE0 else 0xF0) (Z.land (Z.shiftr lba 24) 0x0F));
  _ ← outb (base + 2) count; _ ← outb (base + 3) (u8 lba);
  _ ← outb (base + 4) (u8 (Z.shiftr lba 8)); _ ← outb (base + 5) (u8 (Z.shiftr lba 16));
  outb (base + 7) command.
(** Before each sector: 0 when the drive is ready for its words. *)
Definition sector_ready (cmd : Z) : io H Z :=
  r ← ata_wait_busy cmd;
  if r <? 0 then mret (-1)
  else st ← inb cmd; if istrue (Z.land st ATA_STATUS_ERR) then mret (-1) else ata_wait_drq cmd.

Fixpoint in_sectors (n : nat) (s base : Z) (buf : list Z) : io H (Z * list Z) :=
  match n with
  | O => mret (0, buf)
  | S n =>
      r ← sector_ready (base + 7);
      if r <? 0 then mret (-1, buf) else buf ← in_words 256 base (s * 256) buf; in_sectors n (s + 1) base buf
  end.
Fixpoint out_sectors (n : nat) (s base : Z) (buf : list Z) : io H Z :=
  match n with
  | O => mret 0
  | S n =>
      r ← sector_ready (base + 7);
      if r <? 0 then mret (-1) else _ ← out_words 256 base (s * 256) buf; _ ← inb (base + 7); out_sectors n (s + 1) base buf
  end.

Definition ata_read_sectors (bus master lba count : Z) (buf : list Z) : io H (Z * list Z) :=
  let base := if bus =? 0 then ATA_PRIMARY_DATA else 0x170 in
  r ← ata_wait_busy (base + 7);
  if r <? 0 then mret (-1, buf)
  else _ ← ata_command base master lba count ATA_CMD_READ; in_sectors (Z.to_nat count) 0 base buf.
Definition ata_write_sectors (bus master lba count : Z) (buf : list Z) : io H Z :=
  let base := if bus =? 0 then ATA_PRIMARY_DATA else 0x170 in
  r ← ata_wait_busy (base + 7);
  if r <? 0 then mret (-1)
  else _ ← ata_command base master lba count ATA_CMD_WRITE; out_sectors (Z.to_nat count) 0 base buf.
End driver.
#[global] Opaque POLLS.

(** ** A channel *)

(** The bytes of words, and the words of bytes. *)
Definition bytes_of (ws : list Z) : list Z := concat (map (fun w => [w mod 256; w / 256]) ws).
Fixpoint words_of (l : list Z) : list Z := match l with a :: b :: l => (a + 256 * b) :: words_of l | _ => [] end.

(** Nothing, words to be sent or to be taken with the next sector and the sectors left, an
    error. *)
Inductive phase := Idle | Send (ws : list Z) (lba : Z) (left : nat) | Take (ws : list Z) (lba : Z) (left : nat) | Failed.
Record chan := Chan { r_drive : Z; r_count : Z; r_low : Z; r_mid : Z; r_high : Z; c_phase : phase; drives : bool -> memdisk; ident : bool -> list Z }.
Definition set_phase p (c : chan) : chan := Chan (r_drive c) (r_count c) (r_low c) (r_mid c) (r_high c) p (drives c) (ident c).
Definition set_drive d (c : chan) : chan := Chan (r_drive c) (r_count c) (r_low c) (r_mid c) (r_high c) (c_phase c) (fun x => if Bool.eqb x (Z.testbit (r_drive c) 4) then d else drives c x) (ident c).
Definition set_reg (r v : Z) (c : chan) : chan :=
  match r with
  | 2 => Chan (r_drive c) v (r_low c) (r_mid c) (r_high c) (c_phase c) (drives c) (ident c)
  | 3 => Chan (r_drive c) (r_count c) v (r_mid c) (r_high c) (c_phase c) (drives c) (ident c)
  | 4 => Chan (r_drive c) (r_count c) (r_low c) v (r_high c) (c_phase c) (drives c) (ident c)
  | 5 => Chan (r_drive c) (r_count c) (r_low c) (r_mid c) v (c_phase c) (drives c) (ident c)
  | 6 => Chan v (r_count c) (r_low c) (r_mid c) (r_high c) (c_phase c) (drives c) (ident c)
  | _ => c
  end.

Definition selected (c : chan) : memdisk := drives c (Z.testbit (r_drive c) 4).
Definition address (c : chan) : Z := Z.land (r_drive c) 15 * 16777216 + r_high c * 65536 + r_mid c * 256 + r_low c.
Definition count_of (c : chan) : nat := if r_count c =? 0 then 256%nat else Z.to_nat (r_count c).

Definition on_drive (d : memdisk) (lba : Z) : bool := (0 <=? lba) && (lba <? disk_size d).
Definition send (d : memdisk) (lba : Z) (left : nat) : phase := if on_drive d lba then Send (words_of (disk_sector d lba)) lba left else Failed.
Definition take_in (d : memdisk) (lba : Z) (left : nat) : phase := if on_drive d lba then Take [] lba left else Failed.

(** The drive's answer to a command, to a word that was read and to one that was written. *)
Definition started (command : Z) (c : chan) : chan :=
  if command =? ATA_CMD_READ then set_phase (send (selected c) (address c) (pred (count_of c))) c
  else if command =? ATA_CMD_WRITE then set_phase (take_in (selected c) (address c) (pred (count_of c))) c
  else if command =? ATA_CMD_IDENT then set_phase (Send (ident c (Z.testbit (r_drive c) 4)) 0 0) c
  else set_phase Failed c.
Definition sent (ws : list Z) (lba : Z) (left : nat) (c : chan) : chan :=
  set_phase (match ws, left with [], O => Idle | [], S n => send (selected c) (lba + 1) n | _, _ => Send ws lba left end) c.
Definition taken (ws : list Z) (lba : Z) (left : nat) (c : chan) : chan :=
  if (length ws <? 256)%nat then set_phase (Take ws lba left) c
  else
    let d := selected c in
    let d := MemDisk (disk_size d) (<[lba := bytes_of ws]> (disk_sectors d)) in
    set_phase (match left with O => Idle | S n => take_in d (lba + 1) n end) (set_drive d c).

Definition status_of (p : phase) : Z := match p with Idle => 0x40 | Send _ _ _ | Take _ _ _ => 0x48 | Failed => 0x41 end.
Definition accepts (p : phase) : Prop := p = Idle \/ p = Failed.

(** [busy] is how often the status will still say so. *)
Class channel (H : Type) `{machine H} (base : Z) (state : H -> chan) (busy : H -> nat) := {
  ch_busy : forall h n, busy h = S n -> exists v h', in8 (base + 7) h = (v, h') /\ is_byte v /\ Z.testbit v 7 = true /\ state h' = state h /\ busy h' = n;
  ch_status : forall h, busy h = 0%nat -> exists h', in8 (base + 7) h = (status_of (c_phase (state h)), h') /\ state h' = state h /\ busy h' = 0%nat;
  ch_reg : forall h r v, busy h = 0%nat -> accepts (c_phase (state h)) -> 2 <= r <= 6 -> is_byte v ->
    state (out8 (base + r) v h) = set_reg r v (state h) /\ busy (out8 (base + r) v h) = 0%nat;
  ch_command : forall h v, busy h = 0%nat -> accepts (c_phase (state h)) ->
    state (out8 (base + 7) v h) = started v (state h) /\ (busy (out8 (base + 7) v h) < POLLS)%nat;
  ch_in : forall h w ws lba left, busy h = 0%nat -> c_phase (state h) = Send (w :: ws) lba left ->
    exists h', in16 base h = (w, h') /\ state h' = sent ws lba left (state h) /\ (ws <> [] -> busy h' = 0%nat) /\ (busy h' < POLLS)%nat;
  ch_out : forall h w ws lba left, busy h = 0%nat -> c_phase (state h) = Take ws lba left ->
    state (out16 base w h) = taken (ws ++ [w]) lba left (state h) /\ ((length ws < 255)%nat -> busy (out16 base w h) = 0%nat) /\
    (busy (out16 base w h) < POLLS)%nat }.

Lemma words_bytes l : forall k, length l = (2 * k)%nat -> bytes l -> length (words_of l) = k /\ bytes_of (words_of l) = l /\ Forall (fun w => 0 <= w < 65536) (words_of l).
Proof.
  intros k. revert l. induction k as [| k IH]; intros l Hl Hb; [destruct l; [repeat split; constructor | done] |].
  destruct l as [| a [| b l]]; [cbn in Hl; lia | cbn in Hl; lia |]. apply Forall_cons in Hb as [Ha Hb]. apply Forall_cons in Hb as [Hb Hl2]. unfold is_byte in *.
  destruct (IH l) as (E1 & E2 & E3); [cbn in Hl; lia | done |]. cbn [words_of]. split; [cbn; lia |]. split.
  - unfold bytes_of in *. cbn [map concat]. rewrite E2. cbn [app]. do 2 f_equal; [| f_equal]; lia.
  - constructor; [lia | done].
Qed.
Lemma bytes_of_len ws : zlen (bytes_of ws) = 2 * zlen ws.
Proof. induction ws as [| w ws IH]; [done |]. unfold bytes_of in *. cbn [map concat]. rewrite zlen_app, IH, (zlen_cons w ws). change (zlen [w mod 256; w / 256]) with 2. lia. Qed.
Lemma word_bytes_app a b : bytes_of (a ++ b) = bytes_of a ++ bytes_of b.
Proof. unfold bytes_of. by rewrite map_app, concat_app. Qed.

Lemma put_word_spec a x y z w i : zlen a = 2 * i -> put_word (a ++ x :: y :: z) i w = Some (a ++ bytes_of [w] ++ z).
Proof.
  intros E. unfold put_word. rewrite <- E. pose proof (zlen_nonneg a). pose proof (zlen_nonneg z).
  rewrite put_in by (rewrite zlen_app, !zlen_cons; lia). cbn [mbind option_bind]. rewrite zset_middle by done.
  change (a ++ w mod 256 :: y :: z) with (a ++ [w mod 256] ++ y :: z). rewrite app_assoc. replace (zlen a + 1) with (zlen (a ++ [w mod 256])) by (by rewrite zlen_app).
  rewrite put_in by (rewrite !zlen_app, !zlen_cons; change (zlen (@nil Z)) with 0; lia). rewrite zset_middle by done. by rewrite <- app_assoc.
Qed.
Lemma get_word_spec a w z i : zlen a = 2 * i -> 0 <= w < 65536 -> get_word (a ++ bytes_of [w] ++ z) i = Some w.
Proof.
  intros E Hw. unfold get_word. rewrite <- E. change (bytes_of [w] ++ z) with (w mod 256 :: w / 256 :: z). rewrite (zlook_middle a _ _ (zlen a)) by done. cbn [mbind option_bind].
  change (a ++ w mod 256 :: w / 256 :: z) with (a ++ [w mod 256] ++ w / 256 :: z). rewrite app_assoc, zlook_middle by (by rewrite zlen_app). cbn [mbind option_bind].
  f_equal. lia.
Qed.

Lemma status_bits p : istrue (Z.land (status_of p) 128) = false /\
  istrue (Z.land (status_of p) ATA_STATUS_ERR) = (match p with Failed => true | _ => false end) /\
  istrue (Z.land (status_of p) ATA_STATUS_DRQ) = (match p with Send _ _ _ | Take _ _ _ => true | _ => false end) /\ u8 (status_of p) = status_of p.
Proof. by destruct p. Qed.
Lemma polls_pos : (0 < POLLS)%nat.
Proof. Transparent POLLS. unfold POLLS. lia. Qed.
#[global] Opaque POLLS.
Lemma set_phase_set p q c : set_phase p (set_phase q c) = set_phase p c.
Proof. done. Qed.
Lemma sent_phase p ws lba left c : sent ws lba left (set_phase p c) = sent ws lba left c.
Proof. done. Qed.
Lemma disk_sector_ok d lba : zlen (disk_sector d lba) = 512 /\ bytes (disk_sector d lba).
Proof. exact (sector_ok 0 0 d lba). Qed.
Lemma sector_words d lba : length (words_of (disk_sector d lba)) = 256%nat /\ bytes_of (words_of (disk_sector d lba)) = disk_sector d lba /\
  Forall (fun w => 0 <= w < 65536) (words_of (disk_sector d lba)).
Proof. destruct (disk_sector_ok d lba) as [Hl Hb]. apply words_bytes; [unfold zlen in Hl; lia | done]. Qed.
(** [n] sectors from [lba]. *)
Fixpoint sectors (d : memdisk) (lba : Z) (n : nat) : list Z := match n with O => [] | S n => disk_sector d lba ++ sectors d (lba + 1) n end.
Lemma sectors_len d n : forall lba, zlen (sectors d lba n) = 512 * Z.of_nat n.
Proof. induction n as [| n IH]; intros lba; [done |]. cbn [sectors]. rewrite zlen_app, IH, (proj1 (disk_sector_ok d lba)). lia. Qed.
Lemma on_drive_in d lba : 0 <= lba < disk_size d -> on_drive d lba = true.
Proof. intros Hl. unfold on_drive. destruct (Z.leb_spec 0 lba), (Z.ltb_spec lba (disk_size d)); lia || done. Qed.
(** What a command leaves: its phase, the selected drive; nothing else has changed. *)
Record leaves (p : phase) (d : memdisk) (c c' : chan) : Prop := {
  lv_phase : c_phase c' = p;
  lv_drive : r_drive c' = r_drive c;
  lv_selected : selected c' = d;
  lv_other : forall x, x <> Z.testbit (r_drive c) 4 -> drives c' x = drives c x }.
Lemma leaves_trans p q d1 d2 c1 c2 c3 : leaves p d1 c1 c2 -> leaves q d2 c2 c3 -> leaves q d2 c1 c3.
Proof. intros [_ R1 _ O1] [P2 R2 S2 O2]. split; [done | congruence | done |]. intros x Hx. rewrite O2, O1; [done | done | by rewrite R1]. Qed.
Lemma leaves_phase p c : leaves p (selected c) c (set_phase p c).
Proof. by split. Qed.
Definition put_sector (d : memdisk) (lba : Z) (l : list Z) : memdisk := MemDisk (disk_size d) (<[lba := l]> (disk_sectors d)).
Lemma taken_leaves ws lba left c l : length ws = 256%nat -> bytes_of ws = l ->
  let d := put_sector (selected c) lba l in leaves (match left with O => Idle | S n => take_in d (lba + 1) n end) d c (taken ws lba left c).
Proof.
  intros Hl <-. unfold taken. rewrite Hl. change (256 <? 256)%nat with false. cbv zeta iota. split; [done | done | |].
  - unfold selected. cbn [r_drive drives set_phase set_drive]. by rewrite Bool.eqb_reflx.
  - intros x Hx. cbn [drives set_phase set_drive]. destruct (Bool.eqb_spec x (Z.testbit (r_drive c) 4)); [done | done].
Qed.
(** [n] sectors of [l] stored from [lba]. *)
Fixpoint put_sectors (d : memdisk) (lba : Z) (n : nat) (l : list Z) : memdisk :=
  match n with O => d | S n => put_sectors (put_sector d lba (take 512 l)) (lba + 1) n (drop 512 l) end.
Definition drive_reg (master lba : Z) : Z := u8 (Z.lor (if istrue master then 0xE0 else 0xF0) (Z.land (Z.shiftr lba 24) 0x0F)).
Definition aimed (master lba count : Z) (c : chan) : chan :=
  Chan (drive_reg master lba) count (u8 lba) (u8 (Z.shiftr lba 8)) (u8 (Z.shiftr lba 16)) (c_phase c) (drives c) (ident c).
Lemma aimed_drive master lba count c : Z.testbit (r_drive (aimed master lba count c)) 4 = negb (istrue master).
Proof.
  cbn [aimed r_drive]. unfold drive_reg. rewrite testbit_u8, Z.lor_spec, Z.land_spec by lia. change (Z.testbit 15 4) with false. rewrite andb_false_r, orb_false_r.
  by destruct (istrue master).
Qed.
Lemma aimed_address master lba count c : address (aimed master lba count c) = lba mod 268435456.
Proof.
  unfold address. cbn [aimed r_drive r_low r_mid r_high]. assert (Z.land (drive_reg master lba) 15 = (lba / 16777216) mod 16) as ->.
  { unfold drive_reg, u8. change 256 with (2 ^ 8). rewrite <- (Z.land_ones _ 8), <- Z.land_assoc by lia. change (Z.land (Z.ones 8) 15) with 15.
    rewrite Z.land_lor_distr_l, <- Z.land_assoc. change (Z.land 15 15) with (Z.ones 4). rewrite Z.land_ones, Z.shiftr_div_pow2 by lia. by destruct (istrue master). }
  rewrite !Z.shiftr_div_pow2 by lia. change (2 ^ 8) with 256. change (2 ^ 16) with 65536. unfold u8. lia.
Qed.
Definition disk (master : Z) (c : chan) : memdisk := drives c (negb (istrue master)).
Lemma aimed_selected master lba count c p : selected (set_phase p (aimed master lba count c)) = disk master c.
Proof. unfold selected. cbn [set_phase r_drive drives]. by rewrite aimed_drive. Qed.

Section reading.
Context {H : Type} `{machine H} (base : Z) (Hbase : 0 <= base < 65000) (state : H -> chan) (busy : H -> nat) {HC : channel H base state busy}.

Lemma port_id r : 0 <= r <= 7 -> u16 (base + r) = base + r.
Proof using Hbase. intros Hr. apply u16_id. lia. Qed.

Lemma status_read h : busy h = 0%nat -> exists h', gives (inb (base + 7)) h h' (status_of (c_phase (state h))) /\ state h' = state h /\ busy h' = 0%nat.
Proof using HC Hbase.
  intros Hb. destruct (ch_status h Hb) as (h' & E & E1 & E2). exists h'. split; [| done]. unfold gives, inb. rewrite port_id, E by lia. by rewrite (proj2 (proj2 (proj2 (status_bits _)))).
Qed.
Lemma busy_read h n : busy h = S n -> exists v h', gives (inb (base + 7)) h h' v /\ istrue (Z.land v 128) = true /\ state h' = state h /\ busy h' = n.
Proof using HC Hbase.
  intros Hb. destruct (ch_busy h n Hb) as (v & h' & E & Hv & Ht & E1 & E2). exists v, h'. split; [unfold gives, inb; rewrite port_id, E by lia; by rewrite u8_id |].
  split; [| done]. rewrite <- Ht. by apply (land_bit v 7).
Qed.

(** The status while it says busy, and after. *)
Lemma any_status h : exists v h', gives (inb (base + 7)) h h' v /\ v <> 0 /\ state h' = state h /\ busy h' = pred (busy h).
Proof using HC Hbase.
  destruct (busy h) as [| n] eqn:Eb.
  - destruct (status_read h Eb) as (h' & E & E1 & E2). exists (status_of (c_phase (state h))), h'. split; [done |]. split; [by destruct (c_phase (state h)) | done].
  - destruct (busy_read h n Eb) as (v & h' & E & Ht & E1 & E2). exists v, h'. split; [done |]. split; [by intros -> | done].
Qed.

Lemma wait_busy_spec n : forall h, (busy h < n)%nat -> exists h', gives (wait_clear n (base + 7) ATA_STATUS_BSY) h h' 0 /\ state h' = state h /\ busy h' = 0%nat.
Proof using HC Hbase.
  induction n as [| n IH]; intros h Hb; [lia |]. cbn [wait_clear]. destruct (busy h) as [| k] eqn:Ek.
  - destruct (status_read h Ek) as (h' & E & E1 & E2). exists h'. split; [| done]. eapply gives_bind; [exact E |].
    change ATA_STATUS_BSY with 128. rewrite (proj1 (status_bits _)). apply gives_ret.
  - destruct (busy_read h k Ek) as (v & h1 & E & Ht & E1 & E2). destruct (IH h1) as (h' & E' & E3 & E4); [lia |]. exists h'. split; [| by rewrite E3].
    eapply gives_bind; [exact E |]. change ATA_STATUS_BSY with 128 in *. by rewrite Ht.
Qed.

Lemma drq_spec n h : busy h = 0%nat -> (0 < n)%nat -> (exists ws lba left, c_phase (state h) = Send ws lba left \/ c_phase (state h) = Take ws lba left) ->
  exists h', gives (wait_drq n (base + 7)) h h' 0 /\ state h' = state h /\ busy h' = 0%nat.
Proof using HC Hbase.
  intros Hb Hn (ws & lba & left & Hp). destruct n as [| n]; [lia |]. cbn [wait_drq]. destruct (status_read h Hb) as (h' & E & E1 & E2). exists h'. split; [| done].
  eapply gives_bind; [exact E |]. destruct (status_bits (c_phase (state h))) as (_ & Ee & Ed & _). rewrite Ee, Ed. destruct Hp as [-> | ->]; apply gives_ret.
Qed.

Lemma sector_ready_spec h ws lba left : (busy h < POLLS)%nat -> c_phase (state h) = Send ws lba left \/ c_phase (state h) = Take ws lba left ->
  exists h', gives (sector_ready (base + 7)) h h' 0 /\ state h' = state h /\ busy h' = 0%nat.
Proof using HC Hbase.
  intros Hb Hp. destruct (wait_busy_spec POLLS h Hb) as (h1 & E1 & S1 & B1). destruct (status_read h1 B1) as (h2 & E2 & S2 & B2).
  destruct (drq_spec POLLS h2 B2 polls_pos) as (h3 & E3 & S3 & B3); [exists ws, lba, left; by rewrite S2, S1 |]. exists h3. split; [| by rewrite S3, S2, S1].
  eapply gives_bind; [exact E1 |]. change (0 <? 0) with false. cbv iota. eapply gives_bind; [exact E2 |].
  destruct (status_bits (c_phase (state h1))) as (_ & -> & _ & _). rewrite S1. destruct Hp as [-> | ->]; exact E3.
Qed.
(** An error is reported. *)
Lemma sector_failed h : (busy h < POLLS)%nat -> c_phase (state h) = Failed ->
  exists h', gives (sector_ready (base + 7)) h h' (-1) /\ state h' = state h /\ busy h' = 0%nat.
Proof using HC Hbase.
  intros Hb Hp. destruct (wait_busy_spec POLLS h Hb) as (h1 & E1 & S1 & B1). destruct (status_read h1 B1) as (h2 & E2 & S2 & B2). exists h2. split; [| by rewrite S2, S1].
  eapply gives_bind; [exact E1 |]. change (0 <? 0) with false. cbv iota. eapply gives_bind; [exact E2 |].
  destruct (status_bits (c_phase (state h1))) as (_ & -> & _ & _). rewrite S1, Hp. apply gives_ret.
Qed.

(** The words of a sector. *)
Lemma in_words_spec ws : forall h a old z lba left i, ws <> [] -> busy h = 0%nat -> c_phase (state h) = Send ws lba left -> Forall (fun w => 0 <= w < 65536) ws ->
  zlen a = 2 * i -> zlen old = 2 * zlen ws ->
  exists h', gives (in_words (length ws) base i (a ++ old ++ z)) h h' (a ++ bytes_of ws ++ z) /\ state h' = sent [] lba left (state h) /\ (busy h' < POLLS)%nat.
Proof using HC Hbase.
  induction ws as [| w ws IH]; intros h a old z lba left i Hne Hb Hp Hw Ha Ho; [done |]. apply Forall_cons in Hw as [Hw1 Hw]. cbn [length in_words].
  destruct (ch_in h w ws lba left Hb Hp) as (h1 & E1 & S1 & B1 & B1'). rewrite zlen_cons in Ho. pose proof (zlen_nonneg ws).
  destruct old as [| x [| y old]]; [change (@zlen Z []) with 0 in Ho; lia | change (zlen [x]) with 1 in Ho; lia |]. rewrite !zlen_cons in Ho.
  assert (forall B (k : list Z -> io H B) h' r, gives (k (a ++ bytes_of [w] ++ old ++ z)) h1 h' r -> gives (w ← inw base; buf ← lift (put_word (a ++ (x :: y :: old) ++ z) i w); k buf) h h' r) as step.
  { intros B k h' r Hk. eapply gives_bind; [unfold gives, inw; rewrite <- (Z.add_0_r base), port_id, Z.add_0_r, E1 by lia; by rewrite u16_id |].
    eapply gives_bind; [apply gives_lift; by apply (put_word_spec a x y (old ++ z)) | exact Hk]. }
  destruct ws as [| w' ws].
  - exists h1. split; [apply step; cbn [length in_words]; destruct old as [| q old]; [apply gives_ret | rewrite zlen_cons in Ho; change (@zlen Z []) with 0 in Ho; pose proof (zlen_nonneg old); lia] | by split].
  - assert (c_phase (state h1) = Send (w' :: ws) lba left) as Hp1 by (rewrite S1; done).
    destruct (IH h1 (a ++ bytes_of [w]) old z lba left (i + 1)) as (h' & E & S2 & B2); [done | by apply B1 | done | done | rewrite zlen_app; change (zlen (bytes_of [w])) with 2; lia | lia |].
    exists h'. split; [| split; [rewrite S2, S1; apply sent_phase | done]]. apply step. rewrite <- app_assoc in E. rewrite <- (app_assoc a (bytes_of [w])) in E.
    change (w :: w' :: ws) with ([w] ++ w' :: ws). rewrite word_bytes_app, <- app_assoc. exact E.
Qed.

Lemma in_sectors_spec n : forall h s a old z lba, (busy h < POLLS)%nat -> c_phase (state h) = Send (words_of (disk_sector (selected (state h)) lba)) lba n ->
  0 <= lba -> lba + Z.of_nat n < disk_size (selected (state h)) -> zlen a = 512 * s -> zlen old = 512 * Z.of_nat (S n) ->
  exists h', gives (in_sectors (S n) s base (a ++ old ++ z)) h h' (0, a ++ sectors (selected (state h)) lba (S n) ++ z) /\
    state h' = set_phase Idle (state h) /\ (busy h' < POLLS)%nat.
Proof using HC Hbase.
  induction n as [| n IH]; intros h s a old z lba Hb Hp Hl Hd Ha Ho; set (d := selected (state h)) in *.
  - destruct (sector_ready_spec h _ _ _ Hb (or_introl Hp)) as (h1 & E1 & S1 & B1). destruct (sector_words d lba) as (Wl & Wb & Wr).
    destruct (in_words_spec (words_of (disk_sector d lba)) h1 a old z lba 0 (s * 256)) as (h2 & E2 & S2 & B2);
      [by intros E; rewrite E in Wl | done | by rewrite S1 | done | lia | unfold zlen at 2; rewrite Wl; lia |].
    exists h2. split; [| split; [rewrite S2, S1; done | done]]. cbn [in_sectors]. eapply gives_bind; [exact E1 |]. change (0 <? 0) with false. cbv iota.
    rewrite Wl, Wb in E2. eapply gives_bind; [exact E2 |]. cbn [sectors]. rewrite app_nil_r. apply gives_ret.
  - destruct (sector_ready_spec h _ _ _ Hb (or_introl Hp)) as (h1 & E1 & S1 & B1). destruct (sector_words d lba) as (Wl & Wb & Wr).
    assert (old = take 512 old ++ drop 512 old) as Eold by (by rewrite take_drop).
    assert (zlen (take 512 old) = 512 /\ zlen (drop 512 old) = 512 * Z.of_nat (S n)) as [T1 T2] by (unfold zlen in *; rewrite length_take, length_drop; lia).
    destruct (in_words_spec (words_of (disk_sector d lba)) h1 a (take 512 old) (drop 512 old ++ z) lba (S n) (s * 256)) as (h2 & E2 & S2 & B2);
      [by intros E; rewrite E in Wl | done | by rewrite S1 | done | lia | unfold zlen at 2; rewrite Wl; lia |].
    assert (selected (state h2) = d) as Ed by (by rewrite S2, S1).
    destruct (IH h2 (s + 1) (a ++ disk_sector d lba) (drop 512 old) z (lba + 1)) as (h3 & E3 & S3 & B3).
    + done.
    + rewrite Ed, S2, S1. cbn [sent c_phase set_phase]. fold d. unfold send. by rewrite on_drive_in by lia.
    + lia.
    + rewrite Ed. lia.
    + rewrite zlen_app, (proj1 (disk_sector_ok d lba)). lia.
    + done.
    + exists h3. split; [| split; [rewrite S3, S2, S1; done | done]].
      change (in_sectors (S (S n)) s base (a ++ old ++ z)) with (r ← sector_ready (base + 7); if r <? 0 then mret (-1, a ++ old ++ z) else buf ← in_words 256 base (s * 256) (a ++ old ++ z); in_sectors (S n) (s + 1) base buf).
      eapply gives_bind; [exact E1 |]. change (0 <? 0) with false. cbv iota. rewrite Eold, <- (app_assoc (take 512 old)). rewrite Wl, Wb in E2.
      eapply gives_bind; [exact E2 |]. rewrite Ed in E3. cbn [sectors]. rewrite <- !app_assoc in E3. rewrite <- app_assoc. exact E3.
Qed.

(** ** Writing *)

Lemma out_words_spec ws : forall h a z pre lba left i, ws <> [] -> busy h = 0%nat -> c_phase (state h) = Take pre lba left -> Forall (fun w => 0 <= w < 65536) ws ->
  (length pre + length ws = 256)%nat -> zlen a = 2 * i ->
  exists h', gives (out_words (length ws) base i (a ++ bytes_of ws ++ z)) h h' tt /\ state h' = taken (pre ++ ws) lba left (state h) /\ (busy h' < POLLS)%nat.
Proof using HC Hbase.
  induction ws as [| w ws IH]; intros h a z pre lba left i Hne Hb Hp Hw Hl Ha; [done |]. apply Forall_cons in Hw as [Hw1 Hw]. cbn [length out_words].
  destruct (ch_out h w pre lba left Hb Hp) as (S1 & B1 & B1'). set (h1 := out16 base w h) in *. cbn [length] in Hl.
  change (w :: ws) with ([w] ++ ws). rewrite (word_bytes_app [w]), <- app_assoc.
  assert (forall B (k : unit -> io H B) h' r, gives (k tt) h1 h' r -> gives (w ← lift (get_word (a ++ bytes_of [w] ++ bytes_of ws ++ z) i); _ ← outw base w; k tt) h h' r) as step.
  { intros B k h' r Hk. eapply gives_bind; [apply gives_lift; by apply (get_word_spec a) |].
    eapply gives_bind; [unfold gives, outw; rewrite <- (Z.add_0_r base), port_id, Z.add_0_r, u16_id by lia; reflexivity | exact Hk]. }
  destruct ws as [| w' ws].
  - exists h1. split; [apply (step _ (fun _ => mret tt)); apply gives_ret | done].
  - assert (state h1 = set_phase (Take (pre ++ [w]) lba left) (state h)) as S1'.
    { rewrite S1. unfold taken. rewrite length_app. cbn [length] in *. destruct (Nat.ltb_spec (length pre + 1) 256); [done | lia]. }
    destruct (IH h1 (a ++ bytes_of [w]) z (pre ++ [w]) lba left (i + 1)) as (h' & E & S2 & B2);
      [done | apply B1; cbn [length] in Hl; lia | by rewrite S1' | done | rewrite length_app; cbn [length] in *; lia | rewrite zlen_app; change (zlen (bytes_of [w])) with 2; lia |].
    exists h'. split; [| split; [rewrite S2, S1', <- app_assoc; done | done]]. rewrite <- app_assoc in E. apply (step _ (fun _ => out_words (length (w' :: ws)) base (i + 1) _)). exact E.
Qed.

Lemma out_sectors_spec n : forall h s a l lba, (busy h < POLLS)%nat -> c_phase (state h) = Take [] lba n -> bytes l ->
  0 <= lba -> lba + Z.of_nat n < disk_size (selected (state h)) -> zlen a = 512 * s -> 512 * Z.of_nat (S n) <= zlen l ->
  exists h', gives (out_sectors (S n) s base (a ++ l)) h h' 0 /\ leaves Idle (put_sectors (selected (state h)) lba (S n) l) (state h) (state h') /\ (busy h' < POLLS)%nat.
Proof using HC Hbase.
  induction n as [| n IH]; intros h s a l lba Hb Hp Hbl Hl Hd Ha Ho; set (d := selected (state h)) in *.
  all: destruct (sector_ready_spec h _ _ _ Hb (or_intror Hp)) as (h1 & E1 & S1 & B1).
  all: assert (length (take 512 l) = 512%nat) as T1 by (unfold zlen in *; rewrite length_take; lia).
  all: destruct (words_bytes (take 512 l) 256 T1) as (Wl & Wb & Wr); [by apply Forall_take |].
  all: match type of Hp with _ = Take _ _ ?k => destruct (out_words_spec (words_of (take 512 l)) h1 a (drop 512 l) [] lba k (s * 256)) as (h2 & E2 & S2 & B2) end;
    [by intros E; rewrite E in Wl | done | by rewrite S1 | done | by rewrite Wl | lia |].
  all: destruct (any_status h2) as (v & h3 & E3 & _ & S3 & B3).
  all: cbn [app] in S2; rewrite S1 in S2; rewrite Wl, Wb, take_drop in E2.
  all: pose proof (taken_leaves (words_of (take 512 l)) lba) as L.
  - exists h3. split; [| split; [| lia]].
    + cbn [out_sectors]. eapply gives_bind; [exact E1 |]. change (0 <? 0) with false. cbv iota. eapply gives_bind; [exact E2 |]. eapply gives_bind; [exact E3 | apply gives_ret].
    + rewrite S3, S2. exact (L 0%nat (state h) (take 512 l) Wl Wb).
  - specialize (L (S n) (state h) (take 512 l) Wl Wb). cbv zeta in L. fold d in L. rewrite <- S2, <- S3 in L.
    assert (l = take 512 l ++ drop 512 l) as El by (by rewrite take_drop).
    destruct (IH h3 (s + 1) (a ++ take 512 l) (drop 512 l) (lba + 1)) as (h4 & E4 & L4 & B4).
    + lia.
    + rewrite (lv_phase _ _ _ _ L). unfold take_in. rewrite on_drive_in; [done |]. cbn [put_sector disk_size]. lia.
    + by apply Forall_drop.
    + lia.
    + rewrite (lv_selected _ _ _ _ L). cbn [put_sector disk_size]. lia.
    + rewrite zlen_app. unfold zlen at 2. rewrite T1. lia.
    + unfold zlen in *. rewrite length_drop. lia.
    + exists h4. split; [| split; [| lia]].
      * change (out_sectors (S (S n)) s base (a ++ l)) with (r ← sector_ready (base + 7); if r <? 0 then mret (-1) else _ ← out_words 256 base (s * 256) (a ++ l); _ ← inb (base + 7); out_sectors (S n) (s + 1) base (a ++ l)).
        eapply gives_bind; [exact E1 |]. change (0 <? 0) with false. cbv iota. eapply gives_bind; [exact E2 |]. eapply gives_bind; [exact E3 |].
        rewrite <- app_assoc, <- El in E4. exact E4.
      * rewrite (lv_selected _ _ _ _ L) in L4. eapply leaves_trans; [exact L |]. exact L4.
Qed.

(** ** Commands *)

Lemma command_spec h master lba count v : busy h = 0%nat -> accepts (c_phase (state h)) -> is_byte count -> is_byte v ->
  exists h', gives (ata_command base master lba count v) h h' tt /\ state h' = started v (aimed master lba count (state h)) /\ (busy h' < POLLS)%nat.
Proof using HC Hbase.
  intros Hb Hp Hc Hv. unfold is_byte in *.
  assert (forall r x g, busy g = 0%nat -> accepts (c_phase (state g)) -> 2 <= r <= 6 ->
    exists g', gives (outb (base + r) x) g g' tt /\ state g' = set_reg r (u8 x) (state g) /\ busy g' = 0%nat) as Hreg.
  { intros r x g Hg Ha Hr. destruct (ch_reg g r (u8 x) Hg Ha Hr (u8_range x)) as [E1 E2]. eexists. split; [unfold gives, outb; rewrite port_id by lia; reflexivity | done]. }
  destruct (Hreg 6 (Z.lor (if istrue master then 0xE0 else 0xF0) (Z.land (Z.shiftr lba 24) 0x0F)) h Hb Hp ltac:(lia)) as (h1 & E1 & S1 & B1).
  destruct (Hreg 2 count h1 B1 ltac:(by rewrite S1) ltac:(lia)) as (h2 & E2 & S2 & B2).
  destruct (Hreg 3 (u8 lba) h2 B2 ltac:(by rewrite S2, S1) ltac:(lia)) as (h3 & E3 & S3 & B3).
  destruct (Hreg 4 (u8 (Z.shiftr lba 8)) h3 B3 ltac:(by rewrite S3, S2, S1) ltac:(lia)) as (h4 & E4 & S4 & B4).
  destruct (Hreg 5 (u8 (Z.shiftr lba 16)) h4 B4 ltac:(by rewrite S4, S3, S2, S1) ltac:(lia)) as (h5 & E5 & S5 & B5).
  assert (state h5 = aimed master lba count (state h)) as S5'.
  { rewrite S5, S4, S3, S2, S1. cbn [set_reg r_drive r_count r_low r_mid r_high c_phase drives ident]. unfold aimed, drive_reg. by rewrite (u8_id count), !(u8_id (u8 _)) by (apply u8_range || done). }
  destruct (ch_command h5 v B5) as [S6 B6]; [by rewrite S5' |]. exists (out8 (base + 7) v h5). split; [| by rewrite S6, S5'].
  unfold ata_command. eapply gives_bind; [exact E1 |]. eapply gives_bind; [exact E2 |]. eapply gives_bind; [exact E3 |]. eapply gives_bind; [exact E4 |]. eapply gives_bind; [exact E5 |].
  unfold gives, outb. by rewrite port_id, u8_id by lia.
Qed.

Lemma wait_then_command h master lba count v : (busy h < POLLS)%nat -> accepts (c_phase (state h)) -> is_byte count -> is_byte v ->
  exists h1 h2, gives (ata_wait_busy (base + 7)) h h1 0 /\ gives (ata_command base master lba count v) h1 h2 tt /\
    state h2 = started v (aimed master lba count (state h)) /\ (busy h2 < POLLS)%nat.
Proof using HC Hbase.
  intros Hb Hp Hc Hv. destruct (wait_busy_spec POLLS h Hb) as (h1 & E1 & S1 & B1). destruct (command_spec h1 master lba count v B1) as (h2 & E2 & S2 & B2); [by rewrite S1 | done | done |].
  exists h1, h2. rewrite S2, S1. done.
Qed.
End reading.

Definition base_of (bus : Z) : Z := if bus =? 0 then ATA_PRIMARY_DATA else 0x170.
Lemma base_range bus : 0 <= base_of bus < 65000.
Proof. unfold base_of, ATA_PRIMARY_DATA. destruct (bus =? 0); lia. Qed.

Section commands.
Context {H : Type} `{machine H} (bus : Z) (state : H -> chan) (busy : H -> nat) {HC : channel H (base_of bus) state busy}.

(** Between two commands. *)
Definition ready (h : H) : Prop := accepts (c_phase (state h)) /\ (busy h < POLLS)%nat.

Lemma read_correct h master lba count buf : ready h -> 1 <= count <= 255 -> lba mod 268435456 + count <= disk_size (disk master (state h)) -> 512 * count <= zlen buf ->
  exists h', gives (ata_read_sectors bus master lba count buf) h h' (0, sectors (disk master (state h)) (lba mod 268435456) (Z.to_nat count) ++ drop (Z.to_nat (512 * count)) buf) /\
    ready h' /\ drives (state h') = drives (state h).
Proof using HC.
  intros [Ha Hb] Hc Hd Hl. set (d := disk master (state h)) in *.
  destruct (wait_then_command (base_of bus) (base_range bus) state busy h master lba count ATA_CMD_READ Hb Ha) as (h1 & h2 & E1 & E2 & S2 & B2); [unfold is_byte; lia | done |].
  change (started ATA_CMD_READ ?c) with (set_phase (send (selected c) (address c) (pred (count_of c))) c) in S2.
  pose proof (aimed_selected master lba count (state h) (c_phase (state h))) as Es. change (set_phase _ ?c) with c in Es.
  destruct (Z.to_nat count) as [| n] eqn:En; [lia |]. rewrite Es, aimed_address in S2. pose proof (Z.mod_pos_bound lba 268435456 eq_refl) as Hm. set (at28 := lba mod 268435456) in *. clearbody at28. fold d in S2. unfold count_of in S2. cbn [aimed r_count] in S2.
  destruct (Z.eqb_spec count 0); [lia |]. rewrite En in S2. cbn [pred] in S2. unfold send in S2. rewrite on_drive_in in S2 by lia.
  assert (selected (state h2) = d) as Ed by (rewrite S2; apply aimed_selected).
  destruct (in_sectors_spec (base_of bus) (base_range bus) state busy n h2 0 [] (take (Z.to_nat (512 * count)) buf) (drop (Z.to_nat (512 * count)) buf) at28) as (h3 & E3 & S3 & B3);
    [done | by rewrite Ed, S2 | lia | rewrite Ed; lia | done | unfold zlen in *; rewrite length_take; lia |].
  exists h3. split; [| split; [split; [rewrite S3; by left | done] | by rewrite S3, S2]].
  unfold ata_read_sectors. fold (base_of bus). eapply gives_bind; [exact E1 |]. change (0 <? 0) with false. cbv iota. eapply gives_bind; [exact E2 |].
  rewrite Ed in E3. cbn [app] in E3. rewrite take_drop in E3. by rewrite En.
Qed.

Lemma write_correct h master lba count buf : ready h -> 1 <= count <= 255 -> lba mod 268435456 + count <= disk_size (disk master (state h)) -> 512 * count <= zlen buf -> bytes buf ->
  exists h', gives (ata_write_sectors bus master lba count buf) h h' 0 /\ ready h' /\
    disk master (state h') = put_sectors (disk master (state h)) (lba mod 268435456) (Z.to_nat count) buf /\
    forall x, x <> negb (istrue master) -> drives (state h') x = drives (state h) x.
Proof using HC.
  intros [Ha Hb] Hc Hd Hl Hbuf. set (d := disk master (state h)) in *.
  destruct (wait_then_command (base_of bus) (base_range bus) state busy h master lba count ATA_CMD_WRITE Hb Ha) as (h1 & h2 & E1 & E2 & S2 & B2); [unfold is_byte; lia | done |].
  change (started ATA_CMD_WRITE ?c) with (set_phase (take_in (selected c) (address c) (pred (count_of c))) c) in S2.
  pose proof (aimed_selected master lba count (state h) (c_phase (state h))) as Es. change (set_phase _ ?c) with c in Es.
  destruct (Z.to_nat count) as [| n] eqn:En; [lia |]. rewrite Es, aimed_address in S2. pose proof (Z.mod_pos_bound lba 268435456 eq_refl) as Hm. set (at28 := lba mod 268435456) in *. clearbody at28. fold d in S2. unfold count_of in S2. cbn [aimed r_count] in S2.
  destruct (Z.eqb_spec count 0); [lia |]. rewrite En in S2. cbn [pred] in S2. unfold take_in in S2. rewrite on_drive_in in S2 by lia.
  assert (selected (state h2) = d) as Ed by (rewrite S2; apply aimed_selected).
  destruct (out_sectors_spec (base_of bus) (base_range bus) state busy n h2 0 [] buf at28) as (h3 & E3 & L3 & B3);
    [done | by rewrite S2 | done | lia | rewrite Ed; lia | done | lia |].
  rewrite Ed in L3. assert (Z.testbit (r_drive (state h2)) 4 = negb (istrue master)) as Et by (rewrite S2; apply (aimed_drive master lba count (state h))).
  exists h3. split; [| split; [split; [left; apply (lv_phase _ _ _ _ L3) | done] | split]].
  - unfold ata_write_sectors. fold (base_of bus). eapply gives_bind; [exact E1 |]. change (0 <? 0) with false. cbv iota. eapply gives_bind; [exact E2 |]. rewrite En. exact E3.
  - rewrite <- (lv_selected _ _ _ _ L3). unfold selected, disk. by rewrite (lv_drive _ _ _ _ L3), Et.
  - intros x Hx. rewrite (lv_other _ _ _ _ L3) by (by rewrite Et). by rewrite S2.
Qed.

(** An address behind the drive's end is an error, and nothing changes. *)
Lemma past_end h master lba count buf : ready h -> 1 <= count <= 255 -> disk_size (disk master (state h)) <= lba mod 268435456 ->
  exists h', gives (ata_read_sectors bus master lba count buf) h h' (-1, buf) /\ ready h' /\ drives (state h') = drives (state h).
Proof using HC.
  intros [Ha Hb] Hc Hd. set (d := disk master (state h)) in *.
  destruct (wait_then_command (base_of bus) (base_range bus) state busy h master lba count ATA_CMD_READ Hb Ha) as (h1 & h2 & E1 & E2 & S2 & B2); [unfold is_byte; lia | done |].
  change (started ATA_CMD_READ ?c) with (set_phase (send (selected c) (address c) (pred (count_of c))) c) in S2.
  pose proof (aimed_selected master lba count (state h) (c_phase (state h))) as Es. change (set_phase _ ?c) with c in Es.
  destruct (Z.to_nat count) as [| n] eqn:En; [lia |]. rewrite Es, aimed_address in S2. pose proof (Z.mod_pos_bound lba 268435456 eq_refl) as Hm. set (at28 := lba mod 268435456) in *. clearbody at28. fold d in S2. unfold send, on_drive in S2.
  destruct (Z.ltb_spec at28 (disk_size d)); [lia |]. rewrite andb_false_r in S2.
  destruct (sector_failed (base_of bus) (base_range bus) state busy h2 B2) as (h3 & E3 & S3 & B3); [by rewrite S2 |].
  exists h3. split; [| split; [split; [rewrite S3, S2; by right | rewrite B3; apply polls_pos] | by rewrite S3, S2]].
  unfold ata_read_sectors. fold (base_of bus). eapply gives_bind; [exact E1 |]. change (0 <? 0) with false. cbv iota. eapply gives_bind; [exact E2 |]. rewrite En. cbn [in_sectors].
  eapply gives_bind; [exact E3 | apply gives_ret].
Qed.

End commands.

(** ** Sectors stored *)

Lemma put_sector_spec d lba l x : zlen l = 512 -> bytes l -> disk_sector (put_sector d lba l) x = if x =? lba then l else disk_sector d x.
Proof.
  intros Hl Hb. unfold disk_sector, put_sector. cbn [disk_sectors]. destruct (Z.eqb_spec x lba) as [-> |].
  - rewrite lookup_insert_eq. by rewrite (proj2 (valid_sector_true l)).
  - by rewrite lookup_insert_ne.
Qed.
Lemma put_sectors_spec n : forall d lba l x, 512 * Z.of_nat n <= zlen l -> bytes l ->
  disk_sector (put_sectors d lba n l) x = (if (lba <=? x) && (x <? lba + Z.of_nat n) then take 512 (drop (Z.to_nat (512 * (x - lba))) l) else disk_sector d x) /\
  disk_size (put_sectors d lba n l) = disk_size d.
Proof.
  induction n as [| n IH]; intros d lba l x Hl Hb; cbn [put_sectors].
  - destruct (Z.leb_spec lba x), (Z.ltb_spec x (lba + Z.of_nat 0)); try lia; done.
  - assert (zlen (take 512 l) = 512) as Ht by (unfold zlen in *; rewrite length_take; lia).
    destruct (IH (put_sector d lba (take 512 l)) (lba + 1) (drop 512 l) x) as [-> ->]; [unfold zlen in *; rewrite length_drop; lia | by apply Forall_drop |].
    split; [| done]. rewrite put_sector_spec by (done || by apply Forall_take).
    destruct (Z.leb_spec lba x), (Z.leb_spec (lba + 1) x), (Z.ltb_spec x (lba + 1 + Z.of_nat n)), (Z.ltb_spec x (lba + Z.of_nat (S n))); try lia; cbn [andb].
    + rewrite drop_drop. do 2 f_equal. lia.
    + destruct (Z.eqb_spec x lba); [lia | done].
    + destruct (Z.eqb_spec x lba) as [-> |]; [| lia]. by rewrite Z.sub_diag.
    + destruct (Z.eqb_spec x lba); [lia | done].
Qed.
Lemma sectors_put n : forall d0 d lba l, bytes l -> 512 * Z.of_nat n <= zlen l ->
  (forall x, lba <= x < lba + Z.of_nat n -> disk_sector d x = disk_sector (put_sectors d0 lba n l) x) -> sectors d lba n = take (512 * n) l.
Proof.
  induction n as [| n IH]; intros d0 d lba l Hb Hl Hd; [done |]. cbn [sectors]. rewrite Hd by lia.
  rewrite (proj1 (put_sectors_spec (S n) d0 lba l lba Hl Hb)). destruct (Z.leb_spec lba lba), (Z.ltb_spec lba (lba + Z.of_nat (S n))); try lia. cbn [andb].
  rewrite Z.sub_diag. change (Z.to_nat (512 * 0)) with 0%nat. rewrite drop_0.
  rewrite (IH (put_sector d0 lba (take 512 l)) d (lba + 1) (drop 512 l)).
  - replace (512 * S n)%nat with (512 + 512 * n)%nat by lia. by rewrite take_take_drop.
  - by apply Forall_drop.
  - unfold zlen in *. rewrite length_drop. lia.
  - intros x Hx. rewrite Hd by lia. done.
Qed.

Section claims.
Context {H : Type} `{machine H} (bus : Z) (state : H -> chan) (busy : H -> nat) {HC : channel H (base_of bus) state busy}.

(** Also: on every channel that behaves as the standard says, however long a drive is busy within
    the bound, reading fills the array with the sectors from the address in 28 bits and leaves
    the drives as they are; an address behind the drive's end gives -1 and leaves the array. *)
Theorem ata_read_spec (h : H) (master lba count : Z) (buf : list Z) (Hr : ready state busy h) (Hc : 1 <= count <= 255) :
  let d := disk master (state h) in let at28 := lba mod 268435456 in
  (at28 + count <= disk_size d -> 512 * count <= zlen buf ->
    exists h', ata_read_sectors bus master lba count buf h = Some ((0, sectors d at28 (Z.to_nat count) ++ drop (Z.to_nat (512 * count)) buf), h') /\
      ready state busy h' /\ drives (state h') = drives (state h)) /\
  (disk_size d <= at28 ->
    exists h', ata_read_sectors bus master lba count buf h = Some ((-1, buf), h') /\ ready state busy h' /\ drives (state h') = drives (state h)).
Proof using HC.
  intros d at28. split; [intros Hd Hl; by apply (read_correct bus state busy) | intros Hd; by apply (past_end bus state busy)].
Qed.

(** C17: what is written is read again: after writing, the sectors from the address are the bytes of
    the array, the other sectors and the other drive are as before, and reading them gives the
    array back. *)
Theorem ata_roundtrip (h : H) (master lba count : Z) (buf old : list Z) (Hr : ready state busy h) (Hc : 1 <= count <= 255)
    (Hd : lba mod 268435456 + count <= disk_size (disk master (state h))) (Hl : zlen buf = 512 * count) (Ho : zlen old = 512 * count) (Hb : bytes buf) :
  exists h', ata_write_sectors bus master lba count buf h = Some (0, h') /\ ready state busy h' /\
    (forall x, ~ (lba mod 268435456 <= x < lba mod 268435456 + count) -> disk_sector (disk master (state h')) x = disk_sector (disk master (state h)) x) /\
    (forall x, x <> negb (istrue master) -> drives (state h') x = drives (state h) x) /\
    exists h2, ata_read_sectors bus master lba count old h' = Some ((0, buf), h2) /\ ready state busy h2 /\ drives (state h2) = drives (state h').
Proof using HC.
  set (at28 := lba mod 268435456) in *. destruct (write_correct bus state busy h master lba count buf Hr Hc Hd) as (h' & E & Hr' & Ed & Eo); [lia | done |].
  fold at28 in Ed. assert (Z.of_nat (Z.to_nat count) = count) as Ec by lia.
  destruct (put_sectors_spec (Z.to_nat count) (disk master (state h)) at28 buf 0) as [_ Es]; [lia | done |].
  exists h'. split; [exact E |]. split; [exact Hr' |]. split.
  - intros x Hx. rewrite Ed. rewrite (proj1 (put_sectors_spec (Z.to_nat count) _ at28 buf x ltac:(lia) Hb)), Ec.
    destruct (Z.leb_spec at28 x), (Z.ltb_spec x (at28 + count)); try lia; done.
  - split; [exact Eo |]. destruct (read_correct bus state busy h' master lba count old Hr' Hc) as (h2 & E2 & Hr2 & Ed2); [fold at28; rewrite Ed, Es; lia | lia |].
    exists h2. split; [| done]. unfold gives in E2. fold at28 in E2. rewrite E2. do 3 f_equal.
    rewrite drop_ge by (unfold zlen in Ho; lia). rewrite app_nil_r. rewrite (sectors_put (Z.to_nat count) (disk master (state h)) _ at28 buf Hb); [| lia | intros x _; by rewrite Ed].
    apply take_ge. unfold zlen in Hl. lia.
Qed.
End claims.

(** ** A machine with one channel *)

Record sim (base : Z) := Sim { s_chan : chan; s_busy : nat }.
Arguments Sim {base}. Arguments s_chan {base}. Arguments s_busy {base}.
#[export] Instance sim_machine base : machine (sim base) := {
  in8 p h := if p =? base + 7 then match s_busy h with O => (status_of (c_phase (s_chan h)), h) | S n => (0x80, Sim (s_chan h) n) end else (0, h);
  out8 p v h := if p =? base + 7 then Sim (started v (s_chan h)) 3 else Sim (set_reg (p - base) v (s_chan h)) (s_busy h);
  in16 p h := match c_phase (s_chan h) with
              | Send (w :: ws) lba more => (w, Sim (sent ws lba more (s_chan h)) (match ws with [] => 2%nat | _ => 0%nat end))
              | _ => (0xFFFF, h) end;
  out16 p v h := match c_phase (s_chan h) with
                 | Take ws lba more => Sim (taken (ws ++ [v]) lba more (s_chan h)) (if (length ws <? 255)%nat then 0%nat else 2%nat)
                 | _ => h end;
  in32 p h := (0, h); out32 p v h := h }.

Lemma few_polls n : (n < 4)%nat -> (n < POLLS)%nat.
Proof. Transparent POLLS. unfold POLLS. lia. Qed.
#[global] Opaque POLLS.
#[export] Instance sim_channel base : channel (sim base) base s_chan s_busy.
Proof.
  split.
  - intros h n Hn. exists 0x80, (Sim (s_chan h) n). cbn [in8 sim_machine]. rewrite Z.eqb_refl, Hn. done.
  - intros h Hn. exists h. cbn [in8 sim_machine]. by rewrite Z.eqb_refl, Hn.
  - intros h r v Hn Ha Hr Hv. cbn [out8 sim_machine]. destruct (Z.eqb_spec (base + r) (base + 7)); [lia |]. cbn [s_chan s_busy]. split; [f_equal; lia | done].
  - intros h v Hn Ha. cbn [out8 sim_machine]. rewrite Z.eqb_refl. split; [done | apply few_polls; cbn; lia].
  - intros h w ws lba more Hn Hp. cbn [in16 sim_machine]. rewrite Hp. eexists. split; [done |]. cbn [s_chan s_busy]. split; [done |]. destruct ws; split; (done || (apply few_polls; lia)).
  - intros h w ws lba more Hn Hp. cbn [out16 sim_machine]. rewrite Hp. cbn [s_chan s_busy]. split; [done |]. destruct (Nat.ltb_spec (length ws) 255); (split; [lia || done | apply few_polls; lia]).
Qed.

(** ** The driver as a block device *)

(** The drives of the two channels; the other registers are whatever they are at the start. *)
Abbreviation storage := (bool -> bool -> memdisk).
Definition at_rest (base : Z) (ds : bool -> memdisk) : sim base := Sim (Chan 0 0 0 0 0 Idle ds (fun _ => replicate 256 0)) 0.
Definition first (bus : Z) : bool := bus =? 0.

#[export] Instance driver_dev : BlockDev storage := {
  ata_read_sectors bus master lba d :=
    match Ata.ata_read_sectors bus master lba 1 (replicate 512 0) (at_rest (base_of bus) (d (first bus))) with
    | Some ((r, buf), _) => if r <? 0 then None else Some buf
    | None => None
    end;
  ata_write_sectors bus master lba b d :=
    match Ata.ata_write_sectors bus master lba 1 b (at_rest (base_of bus) (d (first bus))) with
    | Some (r, h) => if r <? 0 then None else Some (fun x => if Bool.eqb x (first bus) then drives (s_chan h) else d x)
    | None => None
    end }.

Lemma rest_ready base ds : ready (H := sim base) s_chan s_busy (at_rest base ds).
Proof. split; [by left | apply few_polls; cbn; lia]. Qed.

(** What the filesystem's theorems ask for, of the driver on the machine: up to 2^28 sectors. *)
#[export] Program Instance driver_laws : BlockDevLaws storage := {
  sector bus master d lba := disk_sector (d (first bus) (negb (istrue master))) lba;
  capacity bus master d := Z.min (disk_size (d (first bus) (negb (istrue master)))) 268435456 }.
Next Obligation. intros. apply disk_sector_ok. Qed.
Next Obligation. intros. cbn. lia. Qed.
Next Obligation.
  intros bus master d lba Hl. cbn [capacity] in Hl. unfold Fat.ata_read_sectors, driver_dev.
  destruct (read_correct bus s_chan s_busy (at_rest (base_of bus) (d (first bus))) master lba 1 (replicate 512 0)) as (h' & E & _);
    [apply rest_ready | lia | rewrite Z.mod_small by lia; cbn; lia | done |].
  unfold gives in E. rewrite E. change (0 <? 0) with false. cbv iota. f_equal. rewrite Z.mod_small by lia.
  change (Z.to_nat 1) with 1%nat. cbn [sectors]. by rewrite drop_ge, !app_nil_r by (rewrite length_replicate; lia).
Qed.
Next Obligation.
  intros bus master d lba b Hl Hz Hb. cbn [capacity] in Hl. unfold Fat.ata_write_sectors, driver_dev.
  destruct (write_correct bus s_chan s_busy (at_rest (base_of bus) (d (first bus))) master lba 1 b) as (h' & E & _ & Ed & _);
    [apply rest_ready | lia | rewrite Z.mod_small by lia; cbn; lia | lia | done |].
  unfold gives in E. rewrite E. change (0 <? 0) with false. cbv iota. eexists. split; [done |]. cbv beta. rewrite Bool.eqb_reflx.
  rewrite Z.mod_small in Ed by lia. unfold disk in Ed. rewrite Ed. change (Z.to_nat 1) with 1%nat. cbn [put_sectors at_rest s_chan drives]. split; [done |].
  intros x. rewrite take_ge by (unfold zlen in Hz; lia). by apply put_sector_spec.
Qed.

(** ** Examples *)

Definition storage_ex : bool -> memdisk := fun _ => MemDisk 64 ∅.
Definition block_ex : list Z := replicate 511 7 ++ [9].
Lemma ata_roundtrip_witness : exists h', ata_write_sectors 0 1 5 1 block_ex (at_rest (base_of 0) storage_ex) = Some (0, h') /\
  exists h2, ata_read_sectors 0 1 5 1 (replicate 512 0) h' = Some ((0, block_ex), h2).
Proof.
  destruct (ata_roundtrip 0 s_chan s_busy (at_rest (base_of 0) storage_ex) 1 5 1 block_ex (replicate 512 0)) as (h' & E & _ & _ & _ & h2 & E2 & _);
    [apply rest_ready | lia | vm_compute; discriminate | done | done | apply Forall_app; split; [by apply Forall_replicate | by repeat constructor] |].
  exists h'. split; [exact E |]. exists h2. exact E2.
Defined.
Lemma ata_read_spec_witness : exists h', ata_read_sectors 0 1 64 1 (replicate 512 3) (at_rest (base_of 0) storage_ex) = Some ((-1, replicate 512 3), h').
Proof.
  destruct (ata_read_spec 0 s_chan s_busy (at_rest (base_of 0) storage_ex) 1 64 1 (replicate 512 3)) as [_ H]; [apply rest_ready | lia |].
  destruct (H ltac:(vm_compute; discriminate)) as (h' & E & _). exists h'. exact E.
Defined.
