(* ===== verification/Elf.v ===== *)
(** * Program loader (src/kernel/elf.c)

    elf_load over the file layer and the page tables. [phys] is the content of the page
    frames as bytes, by physical address, as the code reaches it through the identity
    mapping; page tables stay in the words of [Paging]. Lists stand for the header
    structures read from the file. The serial log is left out. *)

From S2P Require Import Prelude Memory Pmm Paging Heap Sched Vfs.

Definition ELF_MAGIC : Z := 0x464C457F.
Definition PT_LOAD : Z := 1.
Definition ELF_USER_STACK_SIZE : Z := 0x5000.
Definition STACK_TOP : Z := 0x70000000.
Definition HDR_SIZE : Z := 64.
Definition PHDR_SIZE : Z := 56.

Definition load64 (l : list Z) (i : Z) : Z := load32 l i + 4294967296 * load32 l (i + 4).

(** Fields of the headers at their offsets. *)
Definition e_magic (h : list Z) : Z := load32 h 0.
Definition e_entry (h : list Z) : Z := load64 h 24.
Definition e_phoff (h : list Z) : Z := load64 h 32.
Definition e_phnum (h : list Z) : Z := load16 h 56.

Record phdr := Phdr { p_type : Z; p_offset : Z; p_vaddr : Z; p_filesz : Z; p_memsz : Z }.
Definition parse_phdr (l : list Z) (i : Z) : phdr :=
  Phdr (load32 l i) (load64 l (i + 8)) (load64 l (i + 16)) (load64 l (i + 32)) (load64 l (i + 40)).

(** The path with a leading slash, cut to the buffer of 64 bytes. *)
Definition elf_path (p : list Z) : list Z :=
  match p with
  | c :: _ => if c =? SLASH then take 63 p else SLASH :: take 62 p
  | [] => [SLASH]
  end.

(** [memset((void* )phys, 0, PAGE_SIZE)] *)
Definition clear_page (a : Z) (m : mem) : mem := loop 4096 0 (fun i m => wrb (a + i) 0 m) m.

(** Maps [n] fresh zeroed pages from [page] on; [None] as a result is a failure. *)
Fixpoint map_pages (n : nat) (pml4 page flags : Z) (s : mach) (m : mem) : option (bool * mach * mem) :=
  match n with
  | O => Some (true, s, m)
  | S n' =>
      r ← pmm_alloc (m_pmm s);
      let '(phys, p) := r in
      let s := with_pmm p s in
      if negb (istrue phys) then Some (false, s, m)
      else
        let m := clear_page phys m in
        r ← paging_map_page_on pml4 page phys flags s;
        let '(ret, s) := r in
        if ret <? 0 then Some (false, s, m) else map_pages n' pml4 (u64 (page + PAGE_SIZE)) flags s m
  end.

Section elf.
Context {D : Type} (fs_of : Z -> option (filesystem D)).
Implicit Types s : vst D.

Definition get_mach s : mach := h_mach (v_heap s).
Definition put_mach (x : mach) s : vst D := set_vheap (set_mach x (v_heap s)) s.

Definition set_offset (f off : Z) s : option (vst D) :=
  fl ← files s !! f; Some (set_files (<[f := File (f_node fl) off]> (files s)) s).

(** Stores bytes in a frame. *)
Definition put_bytes (a : Z) (l : list Z) (m : mem) : mem := st_bytes a l m.

(** The copy of the file part of a segment, in chunks of 512 bytes. *)
Fixpoint copy_segment (n : nat) (f pml4 write_addr remaining : Z) s (m : mem) : option (vst D * mem) :=
  match n with
  | O => None
  | S n' =>
      if remaining <=? 0 then Some (s, m)
      else
        let chunk := if 512 <? remaining then 512 else remaining in
        r ← vfs_read fs_of f chunk s;
        let '(nr, data, s) := r in
        if nr <=? 0 then Some (s, m)
        else
          let phys := paging_get_phys_on pml4 write_addr (get_mach s) in
          let m := if istrue phys then put_bytes phys (take (Z.to_nat nr) data) m else m in
          copy_segment n' f pml4 (u64 (write_addr + nr)) (u64 (remaining - nr)) s m
  end.

(** The bytes of the segment after those of the file. *)
Definition zero_tail (pml4 vaddr filesz memsz : Z) (x : mach) (m : mem) : mem :=
  loop (Z.to_nat (memsz - filesz)) filesz
    (fun j m => let phys := paging_get_phys_on pml4 (u64 (vaddr + j)) x in
                if istrue phys then wrb phys 0 m else m) m.

Definition page_down (a : Z) : Z := Z.land a (u64 (Z.lnot 0xFFF)).

Definition load_segment (f pml4 : Z) (ph : phdr) s (m : mem) : option (bool * vst D * mem) :=
  let start_page := page_down (p_vaddr ph) in
  let end_page := page_down (u64 (p_vaddr ph + p_memsz ph + 0xFFF)) in
  r ← map_pages (Z.to_nat ((end_page - start_page) / PAGE_SIZE)) pml4 start_page
        (Z.lor PAGE_USER PAGE_RW) (get_mach s) m;
  let '(ok, x, m) := r in
  let s := put_mach x s in
  if negb (ok : bool) then Some (false, s, m)
  else
    r ← (if 0 <? p_filesz ph then
           s ← set_offset f (p_offset ph) s;
           copy_segment (S (Z.to_nat (p_filesz ph))) f pml4 (p_vaddr ph) (p_filesz ph) s m
         else Some (s, m));
    let '(s, m) := r in
    Some (true, s, zero_tail pml4 (p_vaddr ph) (p_filesz ph) (p_memsz ph) (get_mach s) m).

Fixpoint load_segments (phs : list phdr) (f pml4 : Z) s (m : mem) : option (bool * vst D * mem) :=
  match phs with
  | [] => Some (true, s, m)
  | ph :: phs' =>
      if negb (p_type ph =? PT_LOAD) then load_segments phs' f pml4 s m
      else
        r ← load_segment f pml4 ph s m;
        let '(ok, s, m) := r in
        if negb (ok : bool) then Some (false, s, m) else load_segments phs' f pml4 s m
  end.

(** argc and argv below the top of the stack: [args] is computed from a translation that
    already holds the offset in the page. *)
Definition put_args (pml4 : Z) (x : mach) (m : mem) : mem :=
  let stack_top_phys := paging_get_phys_on pml4 (STACK_TOP - 16) x in
  let stack_top_off := Z.land (STACK_TOP - 16) 0xFFF in
  let args := stack_top_phys + stack_top_off in
  st64 (args + 8) 0 (st64 args 0 m).

(** The result is -1, or 0 with the entry point, the stack pointer and the page table. *)
Definition elf_load (path : list Z) s (m : mem) : option (Z * Z * Z * Z * vst D * mem) :=
  r ← vfs_open fs_of (elf_path path) s;
  let '(f, s) := r in
  if negb (istrue f) then Some (-1, 0, 0, 0, s, m)
  else
    r ← vfs_read fs_of f HDR_SIZE s;
    let '(n, hdr, s) := r in
    if n <? HDR_SIZE then Some (-1, 0, 0, 0, vfs_close f s, m)
    else if negb (e_magic hdr =? ELF_MAGIC) then Some (-1, 0, 0, 0, vfs_close f s, m)
    else if 16 <? e_phnum hdr then Some (-1, 0, 0, 0, vfs_close f s, m)
    else
      s ← set_offset f (e_phoff hdr) s;
      r ← vfs_read fs_of f (e_phnum hdr * PHDR_SIZE) s;
      let '(n, tab, s) := r in
      if n <? e_phnum hdr * PHDR_SIZE then Some (-1, 0, 0, 0, vfs_close f s, m)
      else
        let phs := map (fun i => parse_phdr tab (Z.of_nat i * PHDR_SIZE)) (seq 0 (Z.to_nat (e_phnum hdr))) in
        r ← paging_clone_current (get_mach s);
        let '(pml4, x) := r in
        let s := put_mach x s in
        if negb (istrue pml4) then Some (-1, 0, 0, 0, s, m)
        else
          r ← load_segments phs f pml4 s m;
          let '(ok, s, m) := r in
          let s := vfs_close f s in
          if negb (ok : bool) then Some (-1, 0, 0, 0, s, m)
          else
            r ← map_pages (Z.to_nat (ELF_USER_STACK_SIZE / PAGE_SIZE)) pml4 (STACK_TOP - ELF_USER_STACK_SIZE)
                  (Z.lor PAGE_USER PAGE_RW) (get_mach s) m;
            let '(ok, x, m) := r in
            let s := put_mach x s in
            if negb (ok : bool) then Some (-1, 0, 0, 0, s, m)
            else Some (0, e_entry hdr, STACK_TOP - 16, pml4, s, put_args pml4 x m).
End elf.

(** ** Properties *)

Lemma rdb_clear n a x : forall i m,
  rdb (loop n i (fun i m => wrb (a + i) 0 m) m) x
  = if (a + i <=? x) && (x <? a + i + Z.of_nat n) then 0 else rdb m x.
Proof.
  induction n as [| n IH]; intros i m; cbn [loop].
  - destruct (Z.leb_spec (a + i) x), (Z.ltb_spec x (a + i + Z.of_nat 0)); done || lia.
  - rewrite IH, rdb_wrb.
    destruct (Z.leb_spec (a + (i + 1)) x), (Z.ltb_spec x (a + (i + 1) + Z.of_nat n)),
      (Z.leb_spec (a + i) x), (Z.ltb_spec x (a + i + Z.of_nat (S n))), (Z.eqb_spec (a + i) x);
      cbn [andb]; done || lia.
Qed.

Lemma rdb_clear_page a m x :
  rdb (clear_page a m) x = if (a <=? x) && (x <? a + 4096) then 0 else rdb m x.
Proof. unfold clear_page. by rewrite rdb_clear, Z.add_0_r. Qed.

#[local] Opaque clear_page.

Lemma vpn_eqb v page :
  0 <= v < 281474976710656 -> 0 <= page < 281474976710656 -> page mod 4096 = 0 ->
  (vpn v =? vpn page) = ((v - page) / 4096 =? 0).
Proof.
  intros Hv Hp Hm. unfold vpn, pfx.
  destruct (Z.eqb_spec (v / 4096 mod 68719476736) (page / 4096 mod 68719476736)),
    (Z.eqb_spec ((v - page) / 4096) 0); done || lia.
Qed.

Lemma lor_frame a v : a mod 4096 = 0 -> 0 <= a < 2 ^ 52 ->
  Z.lor (Z.land a PAGE_ADDR_MASK) (Z.land v 0xFFF) = a + v mod 4096.
Proof.
  intros Hm Ha. change (2 ^ 52) with 4503599627370496 in Ha.
  rewrite land_addr, land_fff.
  assert (addr a = a) as -> by (unfold addr; change (2 ^ 40) with 1099511627776; lia).
  apply lor_small_page; [done | lia].
Qed.

(** The translation that maps the pages from [page] on to the frames [fr]. *)
Definition mapped_over (P page : Z) (fr : list Z) (s s' : mach) : Prop :=
  forall v, 0 <= v < 281474976710656 ->
    paging_get_phys_on P v s' =
      match zlook fr ((v - page) / 4096) with
      | Some a => a + v mod 4096
      | None => paging_get_phys_on P v s
      end.

Definition fresh_frames (fr : list Z) (s s' : mach) : Prop :=
  Forall (fun a => 0 < a < 2 ^ 52 /\ a mod 4096 = 0 /\
    ~ in_use (m_pmm s) (a / 4096) /\ in_use (m_pmm s') (a / 4096)) fr.

Lemma zlook_cons_div {A} (a : A) fr k :
  zlook (a :: fr) k = if k =? 0 then Some a else zlook fr (k - 1).
Proof.
  unfold zlook. destruct (Z.eqb_spec k 0) as [-> |]; [done |].
  destruct (Z.ltb_spec k 0), (Z.ltb_spec (k - 1) 0); try done; try lia.
  by replace (Z.to_nat k) with (S (Z.to_nat (k - 1))) by lia.
Qed.

Lemma mapped_over_nil P page s s' :
  (forall v, paging_get_phys_on P v s' = paging_get_phys_on P v s) -> mapped_over P page [] s s'.
Proof. intros H v _. rewrite H. unfold zlook. by destruct (_ <? 0); rewrite ?lookup_nil. Qed.

Lemma map_pages_correct n : forall P page flags s m own,
  good P s own -> Z.land flags PAGE_ADDR_MASK = 0 -> page mod 4096 = 0 -> 0 <= page ->
  page + 4096 * Z.of_nat n <= 281474976710656 ->
  exists ok s' m' own' fr, map_pages n P page flags s m = Some (ok, s', m') /\
    good P s' own' /\ grows s s' /\ NoDup fr /\ fresh_frames fr s s' /\
    mapped_over P page fr s s' /\ (ok = true -> length fr = n) /\
    (forall x, rdb m' x = rdb m x \/ rdb m' x = 0 /\ ~ in_use (m_pmm s) (x / 4096)) /\
    (ok = true -> forall a x, a ∈ fr -> a <= x < a + 4096 -> rdb m' x = 0).
Proof.
  induction n as [| n IH]; intros P page flags s m own G Hf Hm H0 Hle; cbn [map_pages].
  { exists true, s, m, own, []. split_and!; try done.
    - by apply NoDup_nil.
    - by apply Forall_nil.
    - by apply mapped_over_nil.
    - by left.
    - by intros _ a x ?%elem_of_nil. }
  pose proof (good_pmm _ _ _ G) as Hw.
  destruct (pmm_alloc_fresh _ Hw) as (a & p & -> & Hp & HU & Ha). cbn [mbind option_bind].
  assert (grows s (with_pmm p s)) as Gr1 by done.
  assert (good P (with_pmm p s) own) as G1.
  { split; [done |]. exact (tree_mono _ _ _ _ _ (good_tree _ _ _ G) HU). }
  destruct Ha as [-> | (Hab & Ham & Hau & Han)].
  { cbn [istrue Z.eqb negb]. exists false, (with_pmm p s), m, own, []. split_and!; try done.
    - by apply NoDup_nil.
    - by apply Forall_nil.
    - by apply mapped_over_nil.
    - by left. }
  rewrite istrue_neq by lia. cbn [negb].
  destruct (paging_map_page_on_correct P page a flags _ own G1 Hf)
    as (r & s2 & own2 & Em & G2 & Epml & Hr).
  pose proof (paging_map_page_on_grows _ _ _ _ _ _ _ Em) as Gr2. rewrite Em. cbn [mbind option_bind].
  assert (grows s s2) as Gr by (by etrans).
  assert (forall x, a <= x < a + 4096 -> x / 4096 = a / 4096) as Hfr by (intros; lia).
  destruct Hr as [[-> Hx] | [-> Hx]]; cbn [Z.ltb Z.compare].
  - unfold PAGE_SIZE. destruct n as [| n'].
    + cbn [map_pages]. exists true, s2, (clear_page a m), own2, [a]. split_and!; try done.
      * apply NoDup_singleton.
      * apply Forall_singleton. split; [exact Hab |]. split_and!; try done. by apply (Gr2 Hp).
      * intros v Hv. rewrite zlook_cons_div, Hx, vpn_eqb by lia.
        destruct (_ =? 0); [by rewrite lor_frame by lia |]. unfold zlook.
        by destruct (_ <? 0); rewrite ?lookup_nil.
      * intros x. rewrite rdb_clear_page. destruct (_ && _) eqn:E; [right | by left].
        apply andb_prop in E as [?%Z.leb_le ?%Z.ltb_lt]. by rewrite Hfr.
      * intros _ b x ->%list_elem_of_singleton Hb. rewrite rdb_clear_page.
        destruct (Z.leb_spec a x), (Z.ltb_spec x (a + 4096)); done || lia.
    + rewrite u64_id by lia.
      destruct (IH P (page + 4096) flags s2 (clear_page a m) own2 G2 Hf ltac:(lia) ltac:(lia) ltac:(lia))
        as (ok & s3 & m3 & own3 & fr & E3 & G3 & Gr3 & Hnd & Hfresh & Hov & Hlen & Hmem & Hz).
      rewrite E3. exists ok, s3, m3, own3, (a :: fr).
      destruct (Gr2 Hp) as [Hw2 U2]. destruct (Gr3 Hw2) as [Hw3 U3]. destruct (Gr Hw) as [_ U].
      unfold fresh_frames in Hfresh. rewrite Forall_forall in Hfresh.
      assert (a ∉ fr) as Hna.
      { intros Hin%Hfresh. destruct Hin as (_ & _ & Hn & _). apply Hn. by apply U2. }
      split_and!; try done.
      * by etrans.
      * by constructor.
      * constructor; [split; [exact Hab | split_and!; by eauto] |]. apply Forall_forall. intros b Hb%Hfresh.
        destruct Hb as (Hb1 & ? & Hn & ?). split; [exact Hb1 |]. split_and!; try done.
        intros Hu. by apply Hn, U.
      * intros v Hv. rewrite zlook_cons_div, Hov, Hx, vpn_eqb by lia.
        replace ((v - (page + 4096)) / 4096) with ((v - page) / 4096 - 1) by lia.
        destruct (Z.eqb_spec ((v - page) / 4096) 0) as [E |]; [| done].
        rewrite E. cbn [zlook Z.sub Z.add Z.opp Z.ltb Z.compare]. by rewrite lor_frame by lia.
      * intros Hok. cbn. by rewrite Hlen.
      * intros x. destruct (Hmem x) as [-> | [-> Hx0]]; [| right; split; [done | eauto]].
        rewrite rdb_clear_page. destruct (_ && _) eqn:E; [right | by left].
        apply andb_prop in E as [?%Z.leb_le ?%Z.ltb_lt]. by rewrite Hfr.
      * intros Hok b x [-> | Hb]%elem_of_cons Hbx; [| by eapply Hz].
        destruct (Hmem x) as [-> | [-> _]]; [| done]. rewrite rdb_clear_page.
        destruct (Z.leb_spec a x), (Z.ltb_spec x (a + 4096)); done || lia.
  - exists false, s2, (clear_page a m), own2, []. split_and!; try done.
    + by apply NoDup_nil.
    + by apply Forall_nil.
    + by apply mapped_over_nil.
    + intros x. rewrite rdb_clear_page. destruct (_ && _) eqn:E; [right | by left].
      apply andb_prop in E as [?%Z.leb_le ?%Z.ltb_lt]. by rewrite Hfr.
Qed.

(** The bytes of a segment land at the frames of its pages. [fr] gives the frame of a
    page number. *)
Definition segment_frames (P : Z) (fr : Z -> Z) (w r : Z) (x : mach) : Prop :=
  (forall v, w <= v < w + r -> paging_get_phys_on P v x = fr (v / 4096) + v mod 4096) /\
  (forall v, w <= v < w + r -> 0 < fr (v / 4096) /\ fr (v / 4096) mod 4096 = 0) /\
  (forall v v', w <= v < w + r -> w <= v' < w + r -> fr (v / 4096) = fr (v' / 4096) ->
     v / 4096 = v' / 4096).

Lemma segment_frames_tail P fr w r k x :
  0 <= k <= r -> segment_frames P fr w r x -> segment_frames P fr (w + k) (r - k) x.
Proof.
  intros Hk (H1 & H2 & H3). split_and!; intros; [apply H1 | apply H2 | apply H3]; try lia; done.
Qed.

Lemma copy_segment_correct {D} (fs_of : Z -> option (filesystem D)) (P nd f : Z) (c : list Z) fr n :
  f <> 0 -> nd <> 0 -> zlen c < 2147483648 -> bytes c ->
  forall w r off s m,
  (Z.to_nat r < n)%nat -> 0 <= r -> 0 <= off -> off + r <= zlen c ->
  r = 0 \/ w mod 512 = 0 -> 0 <= w -> w + r < 18446744073709551616 ->
  file_content fs_of nd c s -> files s !! f = Some (File nd off) ->
  segment_frames P fr w r (get_mach s) ->
  exists m' fl, copy_segment fs_of n f P w r s m = Some (set_files fl s, m') /\
    (forall i, 0 <= i < r -> rdb m' (fr ((w + i) / 4096) + (w + i) mod 4096) = c.[off + i]) /\
    (forall x, (forall i, 0 <= i < r -> x <> fr ((w + i) / 4096) + (w + i) mod 4096) ->
       rdb m' x = rdb m x).
Proof.
  intros Hf Hnd Hc Hb. induction n as [| n IH]; intros w r off s m Hn Hr Hoff Hle Hw Hw0 Hlim Hct Hfl Hsf;
    [lia |]. cbn [copy_segment].
  destruct (Z.leb_spec r 0) as [Hr0 | Hr0].
  { exists m, (files s). split; [by destruct s |]. split; intros; [lia | done]. }
  assert (exists k, (if 512 <? r then 512 else r) = k /\ 0 < k <= r /\ k <= 512 /\ (k = 512 \/ k = r))
    as (k & -> & Hk & Hk2 & Hk3).
  { eexists. split; [done |]. destruct (Z.ltb_spec 512 r); lia. }
  rewrite (vfs_read_content _ nd c _ _ off) by (done || lia). cbn [mbind option_bind].
  destruct (Z.leb_spec k 0); [lia |].
  pose proof Hsf as (Hx & Hfr & Hinj).
  set (s1 := set_files _ s). change (get_mach s1) with (get_mach s).
  rewrite Hx by lia. destruct (Hfr w ltac:(lia)) as [Hp Hpm].
  rewrite istrue_neq by lia. rewrite !u64_id by lia.
  set (data := take (Z.to_nat k) (drop (Z.to_nat off) c)).
  assert (zlen data = k) as Hlen
    by (unfold data; apply zlen_take; rewrite zlen_drop; lia).
  assert (take (Z.to_nat k) data = data) as ->.
  { apply take_ge. unfold zlen in Hlen. lia. }
  assert (bytes data) as Hbd by (by apply Forall_take, Forall_drop).
  assert (forall i, 0 <= i < k -> (w + i) / 4096 = w / 4096 /\ (w + i) mod 4096 = w mod 4096 + i) as Hpg
    by (intros i Hi; destruct Hw; lia).
  destruct (IH (w + k) (r - k) (off + k) s1 (put_bytes (fr (w / 4096) + w mod 4096) data m))
    as (m' & fl & E & Hin & Hout); [lia | lia | lia | lia | destruct Hk3 as [-> | ->], Hw as [? | ?]; lia | lia | lia | | | |].
  { by apply file_content_set_files. }
  { cbn. by rewrite lookup_insert_eq. }
  { by apply segment_frames_tail; [lia |]. }
  exists m', fl. split; [done |]. split.
  - intros i Hi. destruct (Z.lt_ge_cases i k) as [Hik | Hik].
    + rewrite Hout.
      * destruct (Hpg i ltac:(lia)) as [-> ->]. unfold put_bytes.
        rewrite Z.add_assoc, rdb_st_bytes_in by (done || lia). unfold data.
        by rewrite zget_take, zget_drop by lia.
      * intros j Hj Heq.
        pose proof (Hfr (w + i) ltac:(lia)) as [? ?]. pose proof (Hfr (w + k + j) ltac:(lia)) as [? ?].
        assert (fr ((w + i) / 4096) = fr ((w + k + j) / 4096)) as Hff by lia.
        apply Hinj in Hff; lia.
    + specialize (Hin (i - k) ltac:(lia)).
      replace (w + k + (i - k)) with (w + i) in Hin by lia. rewrite Hin. f_equal. lia.
  - intros x Hne. rewrite Hout.
    + unfold put_bytes. apply rdb_st_bytes_out. rewrite Hlen.
      destruct (Z.lt_ge_cases x (fr (w / 4096) + w mod 4096)); [by left | right].
      destruct (Z.lt_ge_cases x (fr (w / 4096) + w mod 4096 + k)); [exfalso | done].
      destruct (Hpg (x - (fr (w / 4096) + w mod 4096)) ltac:(lia)) as [H5 H6].
      apply (Hne (x - (fr (w / 4096) + w mod 4096)) ltac:(lia)). rewrite H5, H6. lia.
    + intros j Hj. replace (w + k + j) with (w + (k + j)) by lia. apply Hne. lia.
Qed.

(** Also: mapping a range of pages always returns. On success every page of the range is
    mapped to its own frame, which was free before and holds only zeros; whatever the
    result, the translation changes only on a prefix of the range, no frame that was in
    use changes, and the page tables stay well formed. *)
Theorem map_pages_spec (n : nat) (P page flags : Z) (s : mach) (m : mem) (own : gmap Z (nat * Z))
    (G : good P s own) (Hflags : Z.land flags PAGE_ADDR_MASK = 0)
    (Hal : page mod 4096 = 0) (Hpos : 0 <= page)
    (Hlim : page + 4096 * Z.of_nat n <= 281474976710656) :
  exists ok s' m' own' fr, map_pages n P page flags s m = Some (ok, s', m') /\
    good P s' own' /\ NoDup fr /\ fresh_frames fr s s' /\ mapped_over P page fr s s' /\
    (forall x, in_use (m_pmm s) (x / 4096) -> rdb m' x = rdb m x) /\
    (ok = true -> length fr = n /\ forall a x, a ∈ fr -> a <= x < a + 4096 -> rdb m' x = 0).
Proof.
  destruct (map_pages_correct n P page flags s m own G Hflags Hal Hpos Hlim)
    as (ok & s' & m' & own' & fr & E & G' & _ & Hnd & Hf & Ho & Hl & Hx & Hz).
  exists ok, s', m', own', fr. split_and!; try done.
  - intros x Hu. by destruct (Hx x) as [H | [_ H]].
  - intros Hok. split; [by apply Hl | by apply Hz].
Qed.

(** Also: when a segment starts at a multiple of 512, its pages are mapped to frames of
    their own and the file holds the bytes it announces, every byte of the file part
    lands at the physical address of its virtual address, and no other byte changes. *)
Theorem copy_segment_spec {D} (fs_of : Z -> option (filesystem D)) (P nd f : Z) (c : list Z)
    (fr : Z -> Z) (w r off : Z) (s : vst D) (m : mem)
    (Hf : f <> 0) (Hnd : nd <> 0) (Hc : zlen c < 2147483648) (Hb : bytes c)
    (Hr : 0 <= r) (Hoff : 0 <= off) (Hle : off + r <= zlen c)
    (Hw : w mod 512 = 0) (Hw0 : 0 <= w) (Hlim : w + r < 18446744073709551616)
    (Hct : file_content fs_of nd c s) (Hfl : files s !! f = Some (File nd off))
    (Hfr : segment_frames P fr w r (get_mach s)) :
  exists m' fl, copy_segment fs_of (S (Z.to_nat r)) f P w r s m = Some (set_files fl s, m') /\
    (forall i, 0 <= i < r -> rdb m' (paging_get_phys_on P (w + i) (get_mach s)) = c.[off + i]) /\
    (forall x, (forall i, 0 <= i < r -> x <> paging_get_phys_on P (w + i) (get_mach s)) ->
       rdb m' x = rdb m x).
Proof.
  pose proof (proj1 Hfr) as Hx.
  destruct (copy_segment_correct fs_of P nd f c fr (S (Z.to_nat r)) Hf Hnd Hc Hb w r off s m)
    as (m' & fl & E & Hi & Ho); try done; try lia.
  exists m', fl. split; [done |]. split.
  - intros i Hir. rewrite Hx by lia. by apply Hi.
  - intros x Hne. apply Ho. intros i Hir. specialize (Hne i Hir). by rewrite Hx in Hne by lia.
Qed.

(** Also: a chunk is copied to consecutive physical addresses from the translation of its
    first byte on, wherever the pages of its later bytes are mapped: with a segment that
    does not start at a multiple of 512, bytes past a page boundary go to the frame that
    happens to follow. *)
Theorem copy_segment_crosses {D} (fs_of : Z -> option (filesystem D)) (P nd f : Z) (c : list Z)
    (w r off phys : Z) (s : vst D) (m : mem)
    (Hf : f <> 0) (Hnd : nd <> 0) (Hc : zlen c < 2147483648)
    (Hr : 0 < r <= 512) (Hoff : 0 <= off) (Hle : off + r <= zlen c)
    (Hct : file_content fs_of nd c s) (Hfl : files s !! f = Some (File nd off))
    (Hp : paging_get_phys_on P w (get_mach s) = phys) (Hp0 : phys <> 0) :
  exists fl, copy_segment fs_of (S (Z.to_nat r)) f P w r s m =
    Some (set_files fl s, put_bytes phys (take (Z.to_nat r) (drop (Z.to_nat off) c)) m).
Proof.
  cbn [copy_segment]. destruct (Z.leb_spec r 0); [lia |].
  assert ((if 512 <? r then 512 else r) = r) as -> by (destruct (Z.ltb_spec 512 r); lia).
  rewrite (vfs_read_content _ nd c _ _ off) by (done || lia). cbn [mbind option_bind].
  destruct (Z.leb_spec r 0); [lia |].
  set (s1 := set_files _ s). change (get_mach s1) with (get_mach s).
  rewrite Hp, istrue_neq, Z.sub_diag by done.
  destruct (Z.to_nat r) as [| k] eqn:Ek; [lia |]. cbn [copy_segment]. change (u64 0) with 0.
  cbn [Z.leb Z.compare]. eexists. do 2 f_equal. rewrite <- Ek. f_equal.
  apply take_ge. rewrite length_take. lia.
Qed.

(** Also: the words for argc and argv are not written at the stack pointer: the offset in
    the page is added to a translation that holds it already, so 16 bytes of the next
    physical frame, whoever owns it, are overwritten, and the stack page keeps its bytes. *)
Theorem put_args_outside (P q : Z) (x : mach) (m : mem)
    (Hq : paging_get_phys_on P (STACK_TOP - 16) x = q + 0xFF0) :
  (forall a, q <= a < q + 4096 -> rdb (put_args P x m) a = rdb m a) /\
  (forall a, q + 4096 + 0xFE0 <= a < q + 4096 + 0xFF0 -> rdb (put_args P x m) a = 0).
Proof.
  unfold put_args. rewrite Hq. change (Z.land (STACK_TOP - 16) 0xFFF) with 0xFF0.
  replace (q + 0xFF0 + 0xFF0) with (q + 8160) by lia. split.
  - intros a Ha. by rewrite !rdb_st_out by lia.
  - intros a Ha. unfold st. cbn. rewrite !rdb_wrb. case_bool; done || lia.
Qed.

(** ** Witnesses *)

Lemma map_pages_spec_witness :
  exists ok s' m' own' (fr : list Z), map_pages 2 0x1000 0x201000 6 mach_ex ∅ = Some (ok, s', m') /\
    good 0x1000 s' own' /\ NoDup fr.
Proof.
  destruct (map_pages_spec 2 0x1000 0x201000 6 mach_ex ∅ own_ex mach_ex_good eq_refl eq_refl
    ltac:(lia) ltac:(lia)) as (ok & s' & m' & own' & fr & H & G & Hnd & _).
  exists ok, s', m', own', fr. exact (conj H (conj G Hnd)).
Defined.

Example map_pages_ex :
  (r ← map_pages 2 0x1000 0x201000 6 mach_ex ∅;
   let '(ok, s, _) := r in
   Some (ok, paging_get_phys_on 0x1000 0x202123 s, paging_get_phys_on 0x1000 0x203123 s))
  = Some (true, 0xE123, 0x403123).
Proof. vm_compute. reflexivity. Qed.

Definition content_ex : list Z := [1; 2; 3; 4; 5; 6].
Definition elf_fs_ex : filesystem unit :=
  Fs 0x100 (Some (fun _ off k s => Some (k, take (Z.to_nat k) (drop (Z.to_nat off) content_ex), s)))
     None None None None.
Definition elf_vst_ex : vst unit :=
  mkVst (heap_boot mach_ex) (<[0x100 := Node [97] 6 VFS_FILE 1 0 0 0 0]> ∅)
    (<[0x300 := File 0x100 2]> ∅) ∅ [([SLASH], 1)] tt.

Lemma elf_content_ex : file_content (fun _ => Some elf_fs_ex) 0x100 content_ex elf_vst_ex.
Proof. eexists _, elf_fs_ex, _. split_and!; try done. Qed.

Lemma segment_frames_ex : segment_frames 0x1000 (fun _ => 0x5000) 0 3 (get_mach elf_vst_ex).
Proof.
  split_and!; [| done | lia]. intros v Hv. assert (v = 0 \/ v = 1 \/ v = 2) as [-> | [-> | ->]] by lia;
    vm_compute; reflexivity.
Qed.

Lemma copy_segment_spec_witness :
  exists m' fl, copy_segment (fun _ => Some elf_fs_ex) 4 0x300 0x1000 0 3 elf_vst_ex ∅
    = Some (set_files fl elf_vst_ex, m') /\
    rdb m' (paging_get_phys_on 0x1000 (0 + 1) (get_mach elf_vst_ex)) = content_ex.[2 + 1].
Proof.
  assert (bytes content_ex) as Hb by (repeat constructor; unfold is_byte; simpl; lia).
  destruct (copy_segment_spec (fun _ => Some elf_fs_ex) 0x1000 0x100 0x300 content_ex (fun _ => 0x5000)
    0 3 2 elf_vst_ex ∅ ltac:(done) ltac:(done) ltac:(done) Hb ltac:(lia) ltac:(lia) ltac:(done) eq_refl
    ltac:(lia) ltac:(lia) elf_content_ex eq_refl segment_frames_ex) as (m' & fl & E & Hi & _).
  exists m', fl. exact (conj E (Hi 1 ltac:(lia))).
Defined.

Lemma copy_segment_crosses_witness :
  exists fl, copy_segment (fun _ => Some elf_fs_ex) 5 0x300 0x1000 0xFFE 4 elf_vst_ex ∅
    = Some (set_files fl elf_vst_ex, put_bytes 0x5FFE [3; 4; 5; 6] ∅).
Proof.
  exact (copy_segment_crosses (fun _ => Some elf_fs_ex) 0x1000 0x100 0x300 content_ex 0xFFE 4 2 0x5FFE
    elf_vst_ex ∅ ltac:(done) ltac:(done) ltac:(done) ltac:(lia) ltac:(lia) ltac:(done)
    elf_content_ex eq_refl ltac:(vm_compute; reflexivity) ltac:(lia)).
Defined.

(** The stack page of a process with one page below the top. *)
Definition stack_ex : mach :=
  default mach_ex (r ← paging_map_page_on 0x1000 (STACK_TOP - 4096) 0x7000 6 mach_ex; Some (snd r)).

Lemma put_args_outside_witness :
  rdb (put_args 0x1000 stack_ex (wrb 0x8FE0 1 ∅)) 0x8FE0 = 0.
Proof.
  apply (proj2 (put_args_outside 0x1000 0x7000 stack_ex (wrb 0x8FE0 1 ∅) ltac:(vm_compute; reflexivity))).
  split; done.
Defined.
