(* ===== verification/Syscall.v ===== *)
(** * System calls (src/kernel/syscall.c)

    The handler over the tasks, the file layer and the memory of the machine. A user
    pointer is a virtual address: the processor translates it by the page tables that
    CR3 selects, and [phys] holds the bytes of the frames by physical address; an access
    through an address without a translation is a fault, [None] as a result. The
    keyboard is the list of the next results of keyboard_getc, the console the list of
    the characters written. The file layer and the kernel share one heap. A call that has
    to wait ends in [Yield] or [Poll] and goes on by [resume]. Log lines are left out. *)

From S2P Require Import Prelude Memory Pmm Paging Heap Sched Vfs Elf.

Definition MAX_PIPES : nat := 16.
Definition PIPE_BUF_SIZE : Z := 4096.
Definition PIPE_SIZE : Z := 4116.

Definition FD_STDIN : Z := 0.
Definition FD_STDOUT : Z := 1.
Definition FD_STDERR : Z := 2.
Definition FD_TYPE_PIPE_R : Z := 2.
Definition FD_TYPE_PIPE_W : Z := 3.
Definition SIGKILL : Z := 9.
Definition REBOOT_CMD_SHUTDOWN : Z := 0x08.
Definition REBOOT_CMD_REBOOT : Z := 0x10.

(** ** Pipes *)

Record pipe := Pipe {
  p_buf : list Z; p_head : Z; p_count : Z; p_readers : Z; p_writers : Z; p_used : Z }.

Definition new_pipe (p : pipe) : pipe := Pipe (p_buf p) 0 0 1 1 1.
Definition set_used v (p : pipe) : pipe :=
  Pipe (p_buf p) (p_head p) (p_count p) (p_readers p) (p_writers p) v.

Fixpoint pipe_alloc_from (n : nat) (i : Z) (ps : list pipe) : option (Z * list pipe) :=
  match n with
  | O => Some (-1, ps)
  | S n' =>
      p ← zlook ps i;
      if negb (istrue (p_used p)) then Some (i, ps.[i <- new_pipe p])
      else pipe_alloc_from n' (i + 1) ps
  end.
(** The index of the new pipe, -1 for the null pointer. *)
Definition pipe_alloc (ps : list pipe) : option (Z * list pipe) := pipe_alloc_from MAX_PIPES 0 ps.

Fixpoint pipe_read (n : nat) (p : pipe) : list Z * pipe :=
  match n with
  | O => ([], p)
  | S n' =>
      if 0 <? p_count p then
        let tail := u32 (p_head p + PIPE_BUF_SIZE - p_count p) mod PIPE_BUF_SIZE in
        let p1 := Pipe (p_buf p) (p_head p) (p_count p - 1) (p_readers p) (p_writers p) (p_used p) in
        let '(l, p2) := pipe_read n' p1 in ((p_buf p).[tail] :: l, p2)
      else ([], p)
  end.

Fixpoint pipe_write (src : list Z) (p : pipe) : Z * pipe :=
  match src with
  | [] => (0, p)
  | c :: src' =>
      if p_count p <? PIPE_BUF_SIZE then
        let p1 := Pipe ((p_buf p).[p_head p <- c]) ((p_head p + 1) mod PIPE_BUF_SIZE)
                    (p_count p + 1) (p_readers p) (p_writers p) (p_used p) in
        let '(n, p2) := pipe_write src' p1 in (n + 1, p2)
      else (0, p)
  end.

(** Lets go of one end of a pipe. *)
Definition pipe_close (type : Z) (p : pipe) : pipe :=
  let readers := if type =? FD_TYPE_PIPE_R then p_readers p - 1 else p_readers p in
  let writers := if type =? FD_TYPE_PIPE_R then p_writers p else p_writers p - 1 in
  Pipe (p_buf p) (p_head p) (p_count p) readers writers
    (if (readers =? 0) && (writers =? 0) then 0 else p_used p).

(** ** State *)

Record regs := Regs { r_rax : Z; r_rdi : Z; r_rsi : Z; r_rdx : Z; r_rip : Z; r_rsp : Z; r_cs : Z }.
Definition with_rax v r := Regs v (r_rdi r) (r_rsi r) (r_rdx r) (r_rip r) (r_rsp r) (r_cs r).
Definition with_cs v r := Regs (r_rax r) (r_rdi r) (r_rsi r) (r_rdx r) (r_rip r) (r_rsp r) v.
Definition with_entry rip rsp r := Regs (r_rax r) (r_rdi r) (r_rsi r) (r_rdx r) rip rsp (r_cs r).

(** Where a waiting call goes on: a full pipe, an empty pipe, the keyboard after a number
    of characters. *)
Inductive wait := WaitRoom (p : Z) | WaitData (p : Z) | WaitKey (read : Z).

Record sys (D : Type) := mkSys {
  kern : kernel;
  vfs : vst D;
  pipes : list pipe;
  phys : mem;
  g_elf_ret_rip : Z;
  console : list Z;
  keys : list Z }.
Arguments mkSys {D}. Arguments kern {D}. Arguments vfs {D}. Arguments pipes {D}.
Arguments phys {D}. Arguments g_elf_ret_rip {D}. Arguments console {D}. Arguments keys {D}.

Inductive outcome (D : Type) :=
  | Ret (r : regs) (s : sys D)
  | Yield (w : wait) (r : regs) (s : sys D)
  | Poll (w : wait) (r : regs) (s : sys D)
  | Halted (s : sys D).
Arguments Ret {D}. Arguments Yield {D}. Arguments Poll {D}. Arguments Halted {D}.

Section state.
Context {D : Type}.
Implicit Types s : sys D.
Definition set_kern k s := mkSys k (vfs s) (pipes s) (phys s) (g_elf_ret_rip s) (console s) (keys s).
Definition set_pipes p s := mkSys (kern s) (vfs s) p (phys s) (g_elf_ret_rip s) (console s) (keys s).
Definition set_phys m s := mkSys (kern s) (vfs s) (pipes s) m (g_elf_ret_rip s) (console s) (keys s).
Definition set_console c s := mkSys (kern s) (vfs s) (pipes s) (phys s) (g_elf_ret_rip s) c (keys s).
Definition set_keys k s := mkSys (kern s) (vfs s) (pipes s) (phys s) (g_elf_ret_rip s) (console s) k.
(** The file layer with its heap, which is that of the kernel. *)
Definition set_vfs (v : vst D) s := mkSys (set_heap (v_heap v) (kern s)) v (pipes s) (phys s)
  (g_elf_ret_rip s) (console s) (keys s).
Definition get_vfs s : vst D := set_vheap (k_heap (kern s)) (vfs s).
Definition the_mach s : mach := h_mach (k_heap (kern s)).
Definition set_task (a : Z) (t : task_struct) s : sys D :=
  set_kern (set_tasks (<[a := t]> (tasks (kern s))) (kern s)) s.
End state.

(** ** User memory *)

Section user.
Context {D : Type}.
Implicit Types s : sys D.

(** The physical address of a virtual one under CR3. *)
Definition uaddr s (v : Z) : option Z :=
  let a := paging_get_phys_on (cpu_cr3 (kern s)) v (the_mach s) in
  if istrue a then Some a else None.
Definition uld s (v : Z) : option Z := a ← uaddr s v; Some (rdb (phys s) a).
Definition ust (v b : Z) s : option (sys D) :=
  a ← uaddr s v; Some (set_phys (wrb a b (phys s)) s).

Fixpoint uld_bytes (n : nat) (v : Z) s : option (list Z) :=
  match n with
  | O => Some []
  | S n' => b ← uld s v; l ← uld_bytes n' (u64 (v + 1)) s; Some (b :: l)
  end.
Fixpoint ust_bytes (v : Z) (l : list Z) s : option (sys D) :=
  match l with [] => Some s | b :: l' => s ← ust v b s; ust_bytes (u64 (v + 1)) l' s end.
(** A little-endian value of [n] bytes. *)
Fixpoint ust_le (n : nat) (v x : Z) s : option (sys D) :=
  match n with O => Some s | S n' => s ← ust v x s; ust_le n' (u64 (v + 1)) (x / 256) s end.

Fixpoint pages_mapped (n : nat) (page : Z) (x : mach) : bool :=
  match n with
  | O => true
  | S n' => istrue (paging_get_phys page x) && pages_mapped n' (u64 (page + 0x1000)) x
  end.

Definition validate_user_ptr (addr size : Z) s : bool :=
  if addr <? 0x1000 then false
  else if u64 (addr + size) <? addr then false
  else if 0x7FFFFFFFFF <? u64 (addr + size) then false
  else
    let first := page_down addr in
    let last := page_down (u64 (u64 (addr + size) + 0xFFF)) in
    pages_mapped (Z.to_nat ((last - first) / 0x1000)) first (the_mach s).

(** The unused copies of whole buffers; [Some None] is the result -1. *)
Definition copy_data_from_user (v size : Z) s : option (option (list Z)) :=
  if negb (validate_user_ptr v size s) then Some None
  else l ← uld_bytes (Z.to_nat size) v s; Some (Some l).
Definition copy_data_to_user (v : Z) (data : list Z) s : option (Z * sys D) :=
  if negb (validate_user_ptr v (zlen data) s) then Some (-1, s)
  else s ← ust_bytes v data s; Some (0, s).

(** The characters up to the terminator, at most [n]. *)
Fixpoint user_chars (n : nat) (v : Z) s : option (list Z) :=
  match n with
  | O => Some []
  | S n' => c ← uld s v;
            if c =? 0 then Some [] else l ← user_chars n' (u64 (v + 1)) s; Some (c :: l)
  end.
(** [Some None] is the result -1. *)
Definition copy_from_user (v max : Z) s : option (option (list Z)) :=
  if negb (istrue v) || (max =? 0) then Some None
  else if negb (validate_user_ptr v 1 s) then Some None
  else l ← user_chars (Z.to_nat (max - 1)) v s; Some (Some l).

Definition resolve_user_path (v max : Z) s : option (option (list Z)) :=
  if negb (istrue v) || negb (validate_user_ptr v 1 s) then Some None
  else
    r ← copy_from_user v 256 s;
    match r with
    | None => Some None
    | Some path =>
        match path with
        | c :: _ => if c =? SLASH then Some (Some (take (Z.to_nat (max - 1)) path))
                    else Some (Some (SLASH :: take (Z.to_nat (max - 2)) path))
        | [] => Some (Some [SLASH])
        end
    end.

(** [buf] holds the bytes appended so far to a buffer of [cap] bytes. *)
Fixpoint readdir_append (cap : Z) (buf l : list Z) : list Z :=
  match l with
  | [] => buf
  | c :: l' => if zlen buf + 1 <? cap then readdir_append cap (buf ++ [c]) l' else buf
  end.

(** The digits of [size] before [acc], at most [i] of them. *)
Fixpoint size_digits (i : nat) (size : Z) (acc : list Z) : list Z :=
  match i with
  | O => acc
  | S i' => if istrue size then size_digits i' (size / 10) (48 + size mod 10 :: acc) else acc
  end.

Definition readdir_cb (cap : Z) (buf : list Z) (e : list Z * Z * Z) : list Z :=
  let '(name, size, flags) := e in
  let buf := readdir_append cap buf name in
  let buf :=
    if istrue (Z.land flags VFS_DIR) then readdir_append cap buf [47]
    else
      let num := if size =? 0 then [48] else size_digits 10 size [] in
      let buf := readdir_append cap buf [32; 32] in
      let buf := readdir_append cap buf num in
      readdir_append cap buf [32; 98; 121; 116; 101; 115] in
  readdir_append cap buf [10].
End user.

(** ** The calls *)

Definition fail (r : regs) : regs := with_rax (u64 (-1)) r.

Section calls.
Context {D : Type} (fs_of : Z -> option (filesystem D)) (g_pipes : Z).
Implicit Types s : sys D.

(** The address of a pipe and the pipe at an address. *)
Definition pipe_ptr (i : Z) : Z := g_pipes + i * PIPE_SIZE.
Definition pipe_at (p : Z) (ps : list pipe) : option pipe :=
  if (p - g_pipes) mod PIPE_SIZE =? 0 then zlook ps ((p - g_pipes) / PIPE_SIZE) else None.
Definition upd_pipe (p : Z) (x : pipe) s : sys D :=
  set_pipes ((pipes s).[(p - g_pipes) / PIPE_SIZE <- x]) s.

Definition cur s : Z := task_current (kern s).
Definition cur_task s : option task_struct := tasks (kern s) !! cur s.

Definition type_of (fd : Z) (t : task_struct) : option Z :=
  e ← zlook (Sched.fd t) fd; Some (ftype e).

Definition sys_exit (r : regs) s : option (outcome D) :=
  s ← (if istrue (cur s) then
         t ← cur_task s;
         let '(t, h) := task_fd_close_all t (k_heap (kern s)) in
         let s := set_kern (set_heap h (kern s)) s in
         Some (set_task (cur s) (with_state TASK_TERMINATED (with_exit_code (s32 (r_rdi r)) t)) s)
       else Some s);
  Some (if istrue (g_elf_ret_rip s) then Ret (with_cs 0x08 r) s else Halted s).

(** [while (p->count == PIPE_BUF_SIZE && p->readers > 0) task_yield();] and what follows. *)
Definition write_pipe (p : Z) (r : regs) s : option (outcome D) :=
  x ← pipe_at p (pipes s);
  if (p_count x =? PIPE_BUF_SIZE) && (0 <? p_readers x) then
    k ← task_yield (kern s); Some (Yield (WaitRoom p) r (set_kern k s))
  else if p_readers x =? 0 then Some (Ret (fail r) s)
  else
    data ← uld_bytes (Z.to_nat (Z.min (r_rdx r) (PIPE_BUF_SIZE - p_count x))) (r_rsi r) s;
    let '(n, x) := pipe_write data x in
    Some (Ret (with_rax (u64 (s32 n)) r) (upd_pipe p x s)).

Definition sys_write (r : regs) s : option (outcome D) :=
  let fd := s32 (r_rdi r) in
  if (fd =? FD_STDOUT) || (fd =? FD_STDERR) then
    if negb (validate_user_ptr (r_rsi r) (r_rdx r) s) then Some (Ret (fail r) s)
    else
      data ← uld_bytes (Z.to_nat (r_rdx r)) (r_rsi r) s;
      Some (Ret (with_rax (r_rdx r) r) (set_console (console s ++ data) s))
  else if negb (istrue (cur s)) then Some (Ret (fail r) s)
  else
    t ← cur_task s;
    let fobj := task_fd_get fd t in
    if negb (istrue fobj) then Some (Ret (fail r) s)
    else
      ty ← type_of fd t;
      if ty =? FD_TYPE_PIPE_W then
        if negb (validate_user_ptr (r_rsi r) (r_rdx r) s) then Some (Ret (fail r) s)
        else write_pipe fobj r s
      else if ty =? FD_TYPE_FILE then
        if negb (validate_user_ptr (r_rsi r) (r_rdx r) s) then Some (Ret (fail r) s)
        else
          data ← uld_bytes (Z.to_nat (r_rdx r)) (r_rsi r) s;
          x ← vfs_write fs_of fobj data (get_vfs s);
          let '(n, v) := x in
          Some (Ret (with_rax (u64 (if n <? 0 then -1 else n)) r) (set_vfs v s))
      else Some (Ret (fail r) s).

(** A descriptor for an open file, which is closed when there is none. *)
Definition give_fd (f : Z) (r : regs) s : option (outcome D) :=
  if negb (istrue f) then Some (Ret (fail r) s)
  else if negb (istrue (cur s)) then Some (Ret (fail r) (set_vfs (Vfs.vfs_close f (get_vfs s)) s))
  else
    t ← cur_task s;
    let '(i, t) := task_fd_alloc f FD_TYPE_FILE t in
    let s := set_task (cur s) t s in
    Some (Ret (with_rax (u64 i) r) (if i <? 0 then set_vfs (Vfs.vfs_close f (get_vfs s)) s else s)).

Definition sys_open (r : regs) s : option (outcome D) :=
  path ← resolve_user_path (r_rdi r) 256 s;
  match path with
  | None => Some (Ret (fail r) s)
  | Some path => x ← vfs_open fs_of path (get_vfs s); let '(f, v) := x in give_fd f r (set_vfs v s)
  end.

Definition sys_create (r : regs) s : option (outcome D) :=
  path ← resolve_user_path (r_rdi r) 256 s;
  match path with
  | None => Some (Ret (fail r) s)
  | Some path => x ← vfs_create fs_of path (get_vfs s); let '(f, v) := x in give_fd f r (set_vfs v s)
  end.

(** The loop over keyboard_getc; the flag tells that it ended. *)
Fixpoint read_keys (ks : list Z) (buf read cap : Z) s : option (bool * Z * sys D) :=
  if cap <=? read then Some (true, read, set_keys ks s)
  else
    match ks with
    | [] => Some (false, read, set_keys [] s)
    | c :: ks' =>
        if negb (istrue c) || (255 <? c) then read_keys ks' buf read cap s
        else
          s ← ust (u64 (buf + read)) c s;
          if c =? 10 then Some (true, read + 1, set_keys ks' s)
          else read_keys ks' buf (read + 1) cap s
    end.
Definition read_stdin (read : Z) (r : regs) s : option (outcome D) :=
  x ← read_keys (keys s) (r_rsi r) read (r_rdx r) s;
  let '(done, n, s) := x in
  Some (if done : bool then Ret (with_rax n r) s else Poll (WaitKey n) r s).

Definition read_pipe (p : Z) (r : regs) s : option (outcome D) :=
  x ← pipe_at p (pipes s);
  if (p_count x =? 0) && (0 <? p_writers x) then
    k ← task_yield (kern s); Some (Yield (WaitData p) r (set_kern k s))
  else if p_count x =? 0 then Some (Ret (with_rax 0 r) s)
  else
    let '(data, x) := pipe_read (Z.to_nat (Z.min (r_rdx r) PIPE_BUF_SIZE)) x in
    s ← ust_bytes (r_rsi r) data s;
    Some (Ret (with_rax (u64 (s32 (zlen data))) r) (upd_pipe p x s)).

Definition sys_read (r : regs) s : option (outcome D) :=
  let fd := s32 (r_rdi r) in
  if fd =? FD_STDIN then
    if negb (validate_user_ptr (r_rsi r) (r_rdx r) s) then Some (Ret (fail r) s)
    else read_stdin 0 r s
  else if negb (istrue (cur s)) then Some (Ret (fail r) s)
  else
    t ← cur_task s;
    let fobj := task_fd_get fd t in
    if negb (istrue fobj) then Some (Ret (fail r) s)
    else
      ty ← type_of fd t;
      if ty =? FD_TYPE_PIPE_R then
        if negb (validate_user_ptr (r_rsi r) (r_rdx r) s) then Some (Ret (fail r) s)
        else read_pipe fobj r s
      else if ty =? FD_TYPE_FILE then
        if negb (validate_user_ptr (r_rsi r) (r_rdx r) s) then Some (Ret (fail r) s)
        else
          x ← vfs_read fs_of fobj (r_rdx r) (get_vfs s);
          let '(n, data, v) := x in
          s ← ust_bytes (r_rsi r) data (set_vfs v s);
          Some (Ret (with_rax (u64 (if n <? 0 then -1 else n)) r) s)
      else Some (Ret (fail r) s).

(** A call that waited goes on. *)
Definition resume (w : wait) (r : regs) s : option (outcome D) :=
  match w with
  | WaitRoom p => write_pipe p r s
  | WaitData p => read_pipe p r s
  | WaitKey n => read_stdin n r s
  end.

(** The entry of an open descriptor. *)
Definition open_entry (fd : Z) (t : task_struct) : option task_fd_entry :=
  if negb (fd_ok fd) then None
  else match zlook (Sched.fd t) fd with
       | Some e => if istrue (fused e) then Some e else None
       | None => None
       end.

Definition sys_close (r : regs) s : option (outcome D) :=
  let fd := s32 (r_rdi r) in
  if negb (istrue (cur s)) then Some (Ret (fail r) s)
  else
    t ← cur_task s;
    match open_entry fd t with
    | None => Some (Ret (fail r) s)
    | Some e =>
        s ← (if (ftype e =? FD_TYPE_PIPE_R) || (ftype e =? FD_TYPE_PIPE_W) then
               x ← pipe_at (fptr e) (pipes s); Some (upd_pipe (fptr e) (pipe_close (ftype e) x) s)
             else if ftype e =? FD_TYPE_FILE
             then Some (set_vfs (Vfs.vfs_close (fptr e) (get_vfs s)) s) else Some s);
        Some (Ret (with_rax 0 r) (set_task (cur s) (task_fd_free fd t) s))
    end.

(** With a capacity of 0 the terminator goes to [out - 1], as in the code. *)
Definition sys_readdir (r : regs) s : option (outcome D) :=
  path ← resolve_user_path (r_rdi r) 256 s;
  match path with
  | None => Some (Ret (fail r) s)
  | Some path =>
      if negb (validate_user_ptr (r_rsi r) (r_rdx r) s) then Some (Ret (fail r) s)
      else
        let out := r_rsi r in
        let cap := r_rdx r in
        x ← vfs_readdir fs_of path (get_vfs s);
        let '(n, entries, v) := x in
        let s := set_vfs v s in
        if n <? 0 then s ← ust out 0 s; Some (Ret (fail r) s)
        else
          let buf := foldl (readdir_cb cap) [] entries in
          s ← ust_bytes out buf s;
          s ← ust (u64 (out + (if zlen buf <? cap then zlen buf else cap - 1))) 0 s;
          Some (Ret (with_rax (zlen buf) r) s)
  end.

Definition sys_exec (r : regs) s : option (outcome D) :=
  path ← resolve_user_path (r_rdi r) 256 s;
  match path with
  | None => Some (Ret (fail r) s)
  | Some path =>
      x ← elf_load fs_of path (get_vfs s) (phys s);
      let '(n, entry, stack_top, pml4, v, m) := x in
      let s := set_phys m (set_vfs v s) in
      if n <? 0 then Some (Ret (fail r) s)
      else
        s ← (if istrue (cur s) then
               t ← cur_task s;
               let '(t, h) := task_fd_close_all t (k_heap (kern s)) in
               Some (set_task (cur s) t (set_kern (set_heap h (kern s)) s))
             else Some s);
        Some (Ret (with_rax 0 (with_entry entry stack_top r))
                (set_kern (set_cpu (cpu_rsp (kern s)) pml4 (kern s)) s))
  end.

Definition sys_unlink (r : regs) s : option (outcome D) :=
  path ← resolve_user_path (r_rdi r) 256 s;
  match path with
  | None => Some (Ret (fail r) s)
  | Some path =>
      x ← vfs_unlink fs_of path (get_vfs s);
      let '(n, v) := x in
      Some (Ret (with_rax (u64 (if n <? 0 then -1 else 0)) r) (set_vfs v s))
  end.

Definition sys_stat (r : regs) s : option (outcome D) :=
  path ← resolve_user_path (r_rdi r) 256 s;
  match path with
  | None => Some (Ret (fail r) s)
  | Some path =>
      if istrue (r_rsi r) && negb (validate_user_ptr (r_rsi r) 4 s) then Some (Ret (fail r) s)
      else if istrue (r_rdx r) && negb (validate_user_ptr (r_rdx r) 1 s) then Some (Ret (fail r) s)
      else
        x ← vfs_stat fs_of path (get_vfs s);
        let '(n, size, flags, v) := x in
        let s := set_vfs v s in
        if n <? 0 then Some (Ret (fail r) s)
        else
          s ← (if istrue (r_rsi r) then ust_le 4 (r_rsi r) size s else Some s);
          s ← (if istrue (r_rdx r) then ust (r_rdx r) flags s else Some s);
          Some (Ret (with_rax size r) s)
  end.

Definition sys_pipe (r : regs) s : option (outcome D) :=
  if negb (validate_user_ptr (r_rdi r) 8 s) then Some (Ret (fail r) s)
  else
    x ← pipe_alloc (pipes s);
    let '(i, ps) := x in
    if i <? 0 then Some (Ret (fail r) s)
    else
      let s := set_pipes ps s in
      let p := pipe_ptr i in
      x ← zlook ps i;
      let release s := set_pipes ((pipes s).[i <- set_used 0 x]) s in
      if negb (istrue (cur s)) then Some (Ret (fail r) (release s))
      else
        t ← cur_task s;
        let '(rfd, t) := task_fd_alloc p FD_TYPE_PIPE_R t in
        let '(wfd, t) := task_fd_alloc p FD_TYPE_PIPE_W t in
        if (rfd <? 0) || (wfd <? 0) then
          let t := if 0 <=? rfd then task_fd_free rfd t else t in
          let t := if 0 <=? wfd then task_fd_free wfd t else t in
          Some (Ret (fail r) (release (set_task (cur s) t s)))
        else
          s ← ust_le 4 (r_rdi r) rfd (set_task (cur s) t s);
          s ← ust_le 4 (u64 (r_rdi r + 4)) wfd s;
          Some (Ret (with_rax 0 r) s).

(** New open files for the child in place of the parent's. *)
Fixpoint fork_fds (n : nat) (i : Z) (l child : list task_fd_entry) (v : vst D)
    : option (list task_fd_entry * vst D) :=
  match n with
  | O => Some (child, v)
  | S n' =>
      e ← zlook l i;
      if istrue (fused e) && (ftype e =? FD_TYPE_FILE) then
        f ← files v !! fptr e;
        x ← kmalloc FILE_SIZE (v_heap v);
        let '(a, h) := x in
        let v := set_vheap h v in
        if istrue a
        then fork_fds n' (i + 1) l (child.[i <- FdEntry a (ftype e) (fused e)]) (set_files (<[a := f]> (files v)) v)
        else fork_fds n' (i + 1) l (child.[i <- FdEntry (fptr e) (ftype e) 0]) v
      else fork_fds n' (i + 1) l child v
  end.

Definition copy_stack (dst src : Z) (k : kernel) : kernel :=
  loop (Z.to_nat (TASK_STACK_SIZE / 8)) 0
    (fun i k => k_write (dst + 8 * i) (rd (m_mem (h_mach (k_heap k))) (src + 8 * i)) k) k.

(** The part of fork that has the frames of the child: its structure, kernel stack and
    page table. *)
Definition fork_child (child stack child_pml4 : Z) (t : task_struct) (r : regs) s : option (outcome D) :=
  let s := set_kern (copy_stack stack (kernel_stack_base t) (kern s)) s in
  let rsp' := u64 (stack + u64 (rsp t - kernel_stack_base t)) in
  x ← fork_fds TASK_MAX_FD 0 (Sched.fd t) (Sched.fd t) (get_vfs s);
  let '(fds, v) := x in
  let c := Task 0 (pid t) (state t) rsp' child_pml4 (entry t) (wake_tick t) (exit_code t) fds
             (signals t) stack (next t) in
  let s := set_task (cur s) (with_next child t) (set_task child c (set_vfs v s)) in
  Some (Ret (with_rax (pid c) r) s).

Definition sys_fork (r : regs) s : option (outcome D) :=
  if negb (istrue (cur s)) then Some (Ret (fail r) s)
  else
    x ← paging_clone_current (the_mach s);
    let '(child_pml4, m) := x in
    let s := set_kern (set_heap (set_mach m (k_heap (kern s))) (kern s)) s in
    if negb (istrue child_pml4) then Some (Ret (fail r) s)
    else
      x ← k_alloc (kern s);
      let '(child, k) := x in
      let s := set_kern k s in
      if negb (istrue child) then Some (Ret (fail r) s)
      else
        t ← cur_task s;
        x ← k_alloc (kern s);
        let '(stack, k) := x in
        if negb (istrue stack) then k ← k_free child k; Some (Ret (fail r) (set_kern k s))
        else fork_child child stack child_pml4 t r (set_kern k s).

(** The first terminated child in list order after the current task, or 0. *)
Fixpoint find_dead (fuel : nat) (scan cur p : Z) (m : gmap Z task_struct) : option Z :=
  match fuel with
  | O => None
  | S f =>
      if scan =? cur then Some 0
      else
        t ← m !! scan;
        if (ppid t =? p) && bool_decide (state t = TASK_TERMINATED) then Some scan
        else find_dead f (next t) cur p m
  end.

Definition sys_wait (r : regs) s : option (outcome D) :=
  if negb (istrue (cur s)) then Some (Ret (fail r) s)
  else
    c ← cur_task s;
    a ← find_dead (list_fuel (kern s)) (next c) (cur s) (pid c) (tasks (kern s));
    if istrue a then
      t ← tasks (kern s) !! a;
      k ← task_destroy a (kern s);
      Some (Ret (with_rax (u64 (exit_code t)) r) (set_kern k s))
    else Some (Ret (fail r) s).

Definition sys_getpid (r : regs) s : option (outcome D) :=
  if istrue (cur s) then t ← cur_task s; Some (Ret (with_rax (pid t) r) s)
  else Some (Ret (with_rax 0 r) s).
Definition sys_getppid (r : regs) s : option (outcome D) :=
  if istrue (cur s) then t ← cur_task s; Some (Ret (with_rax (ppid t) r) s)
  else Some (Ret (with_rax 0 r) s).

Definition signal_ok (sig : Z) : bool := (0 <=? sig) && (sig <? Z.of_nat TASK_MAX_SIGNALS).

(** What the call does to the task it names. *)
Definition post_signal (sig : Z) (t : task_struct) : option task_struct :=
  if sig =? SIGKILL then Some (with_exit_code (- SIGKILL) (with_state TASK_TERMINATED t))
  else if signal_ok sig then
    g ← zlook (signals t) sig;
    Some (with_signals ((signals t).[sig <- Signal (handler g) 1 (mask g)]) t)
  else Some t.

Definition sys_kill (r : regs) s : option (outcome D) :=
  a ← task_find (u32 (r_rdi r)) (kern s);
  if negb (istrue a) then Some (Ret (fail r) s)
  else
    t ← tasks (kern s) !! a;
    t ← post_signal (s32 (r_rsi r)) t;
    Some (Ret (with_rax 0 r) (set_task a t s)).

Definition sys_signal (r : regs) s : option (outcome D) :=
  let sig := s32 (r_rdi r) in
  if negb (istrue (cur s)) || negb (signal_ok sig) then Some (Ret (fail r) s)
  else
    t ← cur_task s;
    g ← zlook (signals t) sig;
    let t := with_signals ((signals t).[sig <- Signal (r_rsi r) (pending g) (mask g)]) t in
    Some (Ret (with_rax 0 r) (set_task (cur s) t s)).

Definition sys_dup2 (r : regs) s : option (outcome D) :=
  let oldfd := s32 (r_rdi r) in
  let newfd := s32 (r_rsi r) in
  if negb (istrue (cur s)) then Some (Ret (fail r) s)
  else
    t ← cur_task s;
    match open_entry oldfd t with
    | None => Some (Ret (fail r) s)
    | Some e =>
        if negb (fd_ok newfd) then Some (Ret (fail r) s)
        else
          let s := match open_entry newfd t with
                   | Some e' => if ftype e' =? FD_TYPE_FILE
                                then set_vfs (Vfs.vfs_close (fptr e') (get_vfs s)) s else s
                   | None => s
                   end in
          let t := with_fd ((Sched.fd t).[newfd <- e]) t in
          Some (Ret (with_rax (u64 newfd) r) (set_task (cur s) t s))
    end.

Definition sys_getcwd (r : regs) s : option (outcome D) :=
  if negb (validate_user_ptr (r_rdi r) (r_rsi r) s) then Some (Ret (with_rax 0 r) s)
  else
    s ← ust (r_rdi r) 47 s;
    s ← (if 1 <? r_rsi r then ust (u64 (r_rdi r + 1)) 0 s else Some s);
    Some (Ret (with_rax 0 r) s).

Definition sys_reboot (r : regs) s : option (outcome D) :=
  if (r_rdi r =? REBOOT_CMD_SHUTDOWN) || (r_rdi r =? REBOOT_CMD_REBOOT) then Some (Halted s)
  else Some (Ret (with_rax 0 r) s).

Definition syscall_handler_c (r : regs) s : option (outcome D) :=
  match r_rax r with
  | 0 => sys_exit r s
  | 1 => sys_write r s
  | 2 => sys_open r s
  | 3 => sys_read r s
  | 4 => sys_close r s
  | 5 => sys_readdir r s
  | 6 => sys_exec r s
  | 7 => sys_create r s
  | 8 => sys_unlink r s
  | 9 => sys_stat r s
  | 10 => sys_pipe r s
  | 11 => sys_fork r s
  | 12 => sys_wait r s
  | 13 => sys_getpid r s
  | 14 => sys_getppid r s
  | 15 => sys_kill r s
  | 16 => sys_signal r s
  | 17 => Some (Ret (with_rax 0 r) s)      (* SYS_BRK *)
  | 18 => sys_dup2 r s
  | 19 => Some (Ret (with_rax 0 r) s)      (* SYS_CHDIR *)
  | 20 => sys_getcwd r s
  | 21 => sys_reboot r s
  | _ => Some (Ret (fail r) s)
  end.
End calls.

(** ** A pipe is a bounded queue *)

Definition pipe_ok (p : pipe) : Prop :=
  zlen (p_buf p) = PIPE_BUF_SIZE /\ 0 <= p_head p < PIPE_BUF_SIZE /\
  0 <= p_count p <= PIPE_BUF_SIZE.

(** The bytes in the pipe, oldest first. *)
Definition pipe_list (p : pipe) : list Z :=
  map (fun j => (p_buf p).[(p_head p - p_count p + Z.of_nat j) mod PIPE_BUF_SIZE])
    (seq 0 (Z.to_nat (p_count p))).

Lemma pipe_list_length p : pipe_ok p -> zlen (pipe_list p) = p_count p.
Proof. intros (_ & _ & H). unfold zlen, pipe_list. rewrite length_map, length_seq. lia. Qed.

Definition push (c : Z) (p : pipe) : pipe :=
  Pipe ((p_buf p).[p_head p <- c]) ((p_head p + 1) mod PIPE_BUF_SIZE)
    (p_count p + 1) (p_readers p) (p_writers p) (p_used p).

Lemma push_spec c p : pipe_ok p -> p_count p < PIPE_BUF_SIZE ->
  pipe_ok (push c p) /\ pipe_list (push c p) = pipe_list p ++ [c].
Proof.
  unfold PIPE_BUF_SIZE. intros (Hb & Hh & Hc) Hlt. unfold PIPE_BUF_SIZE in *. split.
  { split_and!; cbn; rewrite ?zset_zlen; unfold PIPE_BUF_SIZE; lia. }
  unfold pipe_list, push, PIPE_BUF_SIZE. cbn [p_buf p_head p_count].
  replace (Z.to_nat (p_count p + 1)) with (S (Z.to_nat (p_count p))) by lia.
  rewrite seq_S, map_app. cbn [map plus]. f_equal.
  - apply map_ext_in. intros j Hj%in_seq.
    rewrite zget_zset_ne by lia. f_equal. lia.
  - replace (((p_head p + 1) mod 4096 - (p_count p + 1) + Z.of_nat (Z.to_nat (p_count p))) mod 4096)
      with (p_head p) by lia.
    by rewrite zget_zset_eq by lia.
Qed.

Lemma pop_spec p : pipe_ok p -> 0 < p_count p ->
  let tail := u32 (p_head p + PIPE_BUF_SIZE - p_count p) mod PIPE_BUF_SIZE in
  let p1 := Pipe (p_buf p) (p_head p) (p_count p - 1) (p_readers p) (p_writers p) (p_used p) in
  pipe_ok p1 /\ pipe_list p = (p_buf p).[tail] :: pipe_list p1.
Proof.
  intros (Hb & Hh & Hc) Hlt. unfold pipe_ok, PIPE_BUF_SIZE in *. cbn [p_buf p_head p_count].
  split; [split_and!; lia |]. unfold pipe_list, PIPE_BUF_SIZE. cbn [p_buf p_head p_count].
  replace (Z.to_nat (p_count p)) with (S (Z.to_nat (p_count p - 1))) by lia.
  cbn [seq map]. rewrite u32_id by lia. f_equal; [f_equal; lia |].
  rewrite <- seq_shift, map_map. apply map_ext. intros j. f_equal. lia.
Qed.

Lemma pipe_write_correct src : forall p n p', pipe_ok p -> pipe_write src p = (n, p') ->
  pipe_ok p' /\ n = Z.min (zlen src) (PIPE_BUF_SIZE - p_count p) /\
  pipe_list p' = pipe_list p ++ take (Z.to_nat n) src /\
  (p_readers p', p_writers p', p_used p') = (p_readers p, p_writers p, p_used p).
Proof.
  induction src as [| c src IH]; intros p n p' Hok; cbn [pipe_write].
  - intros [= <- <-]. destruct Hok as (? & ? & ?). split_and!; try done.
    + unfold zlen. cbn. unfold PIPE_BUF_SIZE in *. lia.
    + by rewrite app_nil_r.
  - rewrite zlen_cons. pose proof (zlen_nonneg src). destruct (Z.ltb_spec (p_count p) PIPE_BUF_SIZE) as [Hlt | Hge].
    + fold (push c p). destruct (push_spec c p Hok Hlt) as [Hok1 Hl1].
      destruct (pipe_write src (push c p)) as [n1 p1] eqn:E. intros [= <- <-].
      destruct (IH _ _ _ Hok1 E) as (Hok2 & -> & Hl2 & Heq). split_and!; try done.
      * cbn [p_count push]. lia.
      * rewrite Hl2, Hl1, <- app_assoc. do 2 f_equal. cbn [p_count push].
        replace (Z.to_nat (Z.min (zlen src) (PIPE_BUF_SIZE - (p_count p + 1)) + 1))
          with (S (Z.to_nat (Z.min (zlen src) (PIPE_BUF_SIZE - (p_count p + 1))))) by lia.
        done.
    + intros [= <- <-]. split_and!; try done.
      * destruct Hok as (? & ? & ?). lia.
      * by rewrite app_nil_r.
Qed.

Lemma pipe_read_correct n : forall p l p', pipe_ok p -> pipe_read n p = (l, p') ->
  pipe_ok p' /\ l = take n (pipe_list p) /\ pipe_list p' = drop n (pipe_list p) /\
  (p_readers p', p_writers p', p_used p') = (p_readers p, p_writers p, p_used p).
Proof.
  induction n as [| n IH]; intros p l p' Hok; cbn [pipe_read].
  - intros [= <- <-]. done.
  - destruct (Z.ltb_spec 0 (p_count p)) as [Hlt | Hge].
    + destruct (pop_spec p Hok Hlt) as [Hok1 Hl1].
      set (p1 := Pipe _ _ (p_count p - 1) _ _ _) in *. destruct (pipe_read n p1) as [l1 p2] eqn:E.
      intros [= <- <-]. rewrite Hl1. destruct (IH _ _ _ Hok1 E) as (Hok2 & -> & Hl2 & Heq). done.
    + intros [= <- <-]. split_and!; try done.
      * unfold pipe_list. by replace (Z.to_nat (p_count p)) with O by lia.
      * unfold pipe_list. by replace (Z.to_nat (p_count p)) with O by lia.
Qed.

(** The operations on a pipe and on a queue of at most 4096 bytes. *)
Inductive pipe_op := OpWrite (src : list Z) | OpRead (n : nat).
Definition run_pipe (o : pipe_op) (p : pipe) : list Z * Z * pipe :=
  match o with
  | OpWrite src => let '(n, p) := pipe_write src p in ([], n, p)
  | OpRead n => let '(l, p) := pipe_read n p in (l, zlen l, p)
  end.
Definition run_queue (o : pipe_op) (q : list Z) : list Z * Z * list Z :=
  match o with
  | OpWrite src =>
      let n := Z.min (zlen src) (PIPE_BUF_SIZE - zlen q) in ([], n, q ++ take (Z.to_nat n) src)
  | OpRead n => (take n q, zlen (take n q), drop n q)
  end.

Fixpoint run_all {Q} (run : pipe_op -> Q -> list Z * Z * Q) (os : list pipe_op) (q : Q)
    : list (list Z * Z) * Q :=
  match os with
  | [] => ([], q)
  | o :: os' => let '(l, n, q) := run o q in
                let '(res, q) := run_all run os' q in ((l, n) :: res, q)
  end.

(** C9: a pipe refines a queue of at most 4096 bytes: any sequence of writes and reads
    gives, result by result, what the queue gives. *)
Theorem pipe_fifo (os : list pipe_op) (p : pipe) (Hok : pipe_ok p) :
  let '(res, p') := run_all run_pipe os p in
  run_all run_queue os (pipe_list p) = (res, pipe_list p') /\ pipe_ok p'.
Proof.
  revert p Hok. induction os as [| o os IH]; intros p Hok; cbn [run_all]; [done |].
  destruct o as [src | n]; cbn [run_pipe run_queue].
  - destruct (pipe_write src p) as [n p1] eqn:E.
    destruct (pipe_write_correct _ _ _ _ Hok E) as (Hok1 & Hn & Hl & _).
    rewrite pipe_list_length by done. rewrite <- Hn, <- Hl. specialize (IH p1 Hok1).
    destruct (run_all run_pipe os p1) as [res p2]. by destruct IH as [-> IH].
  - destruct (pipe_read n p) as [l p1] eqn:E.
    destruct (pipe_read_correct _ _ _ _ Hok E) as (Hok1 & Hl & Hd & _).
    rewrite <- Hl, <- Hd. specialize (IH p1 Hok1).
    destruct (run_all run_pipe os p1) as [res p2]. by destruct IH as [-> IH].
Qed.

Definition pipe_ex : pipe := Pipe (replicate 4096 0) 0 0 1 1 1.

Lemma pipe_fifo_witness :
  pipe_ok pipe_ex /\
  run_all run_queue [OpWrite [1; 2; 3]; OpRead 2; OpWrite [4]; OpRead 9] (pipe_list pipe_ex)
  = (fst (run_all run_pipe [OpWrite [1; 2; 3]; OpRead 2; OpWrite [4]; OpRead 9] pipe_ex), []).
Proof.
  assert (pipe_ok pipe_ex) as Hok by (split_and!; vm_compute; done).
  split; [exact Hok |].
  pose proof (pipe_fifo [OpWrite [1; 2; 3]; OpRead 2; OpWrite [4]; OpRead 9] pipe_ex Hok) as H.
  vm_compute in H. vm_compute. exact (proj1 H).
Defined.

(** ** User pointers *)

Lemma page_down_eq a : 0 <= a < 18446744073709551616 -> page_down a = a - a mod 4096.
Proof.
  intros Ha. unfold page_down.
  assert (Z.land a (u64 (Z.lnot 0xFFF)) = Z.ldiff a (Z.ones 12)) as ->.
  { change (u64 (Z.lnot 0xFFF)) with (Z.ldiff (Z.ones 64) (Z.ones 12)).
    apply Z.bits_inj'. intros k Hk. rewrite Z.land_spec, !Z.ldiff_spec.
    destruct (Z.lt_ge_cases k 64) as [Hlt | Hge].
    - by rewrite (Z.ones_spec_low 64) by lia.
    - assert (Z.testbit a k = false) as ->; [| done].
      destruct (Z.eq_dec a 0) as [-> | ?]; [apply Z.bits_0 |].
      apply Z.bits_above_log2; [lia |].
      apply Z.lt_le_trans with 64; [| lia]. apply Z.log2_lt_pow2; [lia |].
      change (2 ^ 64) with 18446744073709551616. lia. }
  rewrite Z.ldiff_ones_r, Z.shiftl_mul_pow2, Z.shiftr_div_pow2 by lia. change (2 ^ 12) with 4096. lia.
Qed.

Lemma pages_mapped_spec n x : forall page, 0 <= page -> page + 4096 * Z.of_nat n < 18446744073709551616 ->
  pages_mapped n page x = true <->
  (forall i, 0 <= i < Z.of_nat n -> paging_get_phys (page + 4096 * i) x <> 0).
Proof.
  induction n as [| n IH]; intros page Hp Hlim; cbn [pages_mapped]; [split; [lia | done] |].
  rewrite andb_true_iff, u64_id, IH by lia. unfold istrue. rewrite negb_true_iff, Z.eqb_neq. split.
  - intros [H1 H2] i Hi. destruct (Z.eq_dec i 0) as [-> |]; [by rewrite Z.mul_0_r, Z.add_0_r |].
    replace (page + 4096 * i) with (page + 0x1000 + 4096 * (i - 1)) by lia. apply H2. lia.
  - intros H. split; [specialize (H 0 ltac:(lia)); by rewrite Z.mul_0_r, Z.add_0_r in H |].
    intros i Hi. replace (page + 0x1000 + 4096 * i) with (page + 4096 * (i + 1)) by lia. apply H. lia.
Qed.

Lemma idx_page l v : idx l (v - v mod 4096) = idx l v.
Proof.
  destruct l as [| [| [| [| [| ]]]]]; cbn [idx]; unfold idx_pml4, idx_pdpt, idx_pd, idx_pt;
    rewrite !idx_div by lia; change (2 ^ 12) with 4096; change (2 ^ 21) with 2097152;
    change (2 ^ 30) with 1073741824; change (2 ^ 39) with 549755813888; lia.
Qed.

Lemma lor_nonzero a b c : Z.lor a b <> 0 -> (b <> 0 -> c <> 0) -> Z.lor a c <> 0.
Proof. rewrite !Z.lor_eq_0_iff. intros H1 H2 [-> ->]. apply H1. split; [done |]. lia. Qed.

(** A page whose first byte has a translation has one for every byte. *)
Lemma xlate_page m l v : forall t, xlate m l t (v - v mod 4096) <> 0 -> xlate m l t v <> 0.
Proof.
  induction l as [| l IH]; intros t; cbn [xlate]; [done |]. rewrite idx_page.
  destruct (_ && _).
  { intros H. eapply lor_nonzero; [exact H |]. rewrite !land_1fffff. lia. }
  destruct (negb _); [done |]. destruct (S l =? 1)%nat; [| apply IH].
  intros H. eapply lor_nonzero; [exact H |]. rewrite !land_fff. lia.
Qed.

Lemma get_phys_page P v s :
  paging_get_phys_on P (v - v mod 4096) s <> 0 -> paging_get_phys_on P v s <> 0.
Proof. rewrite !get_phys_xlate. apply xlate_page. Qed.

Definition mapped_range (addr size : Z) (x : mach) : Prop :=
  forall page, page mod 4096 = 0 -> addr < page + 4096 -> page < addr + size -> paging_get_phys page x <> 0.

Lemma validate_user_ptr_correct {D} (addr size : Z) (s : sys D) :
  0 <= addr < 18446744073709551616 -> 0 <= size < 18446744073709551616 ->
  validate_user_ptr addr size s = true <->
  (0x1000 <= addr /\ addr + size <= 0x7FFFFFFFFF /\
   (size = 0 \/ mapped_range addr size (the_mach s)) /\
   (size = 0 -> addr mod 4096 <> 0 -> paging_get_phys (addr - addr mod 4096) (the_mach s) <> 0)).
Proof.
  intros Ha Hs. unfold validate_user_ptr, mapped_range.
  destruct (Z.ltb_spec addr 0x1000); [split; [done | lia] |].
  destruct (Z.ltb_spec (u64 (addr + size)) addr) as [Ho | Ho].
  { split; [done |]. intros (_ & Hle & _). rewrite u64_id in Ho by lia. lia. }
  assert (addr + size < 18446744073709551616) as Hno by (unfold u64 in Ho; lia).
  rewrite (u64_id (addr + size)) by lia.
  destruct (Z.ltb_spec 0x7FFFFFFFFF (addr + size)); [split; [done | lia] |].
  rewrite u64_id, !page_down_eq by lia. rewrite pages_mapped_spec by lia.
  split.
  - intros H2. split_and!; try lia.
    + destruct (Z.eq_dec size 0) as [| Hs0]; [by left | right]. intros page Hm H3 H4.
      replace page with (addr - addr mod 4096 + 4096 * ((page - (addr - addr mod 4096)) / 4096)) by lia.
      apply H2. lia.
    + intros -> Hm. specialize (H2 0 ltac:(lia)). by rewrite Z.mul_0_r, Z.add_0_r in H2.
  - intros (_ & _ & [-> | H2] & H3) i Hi.
    + assert (i = 0) as -> by lia. rewrite Z.mul_0_r, Z.add_0_r. apply H3; lia.
    + apply H2; lia.
Qed.

(** A validated range has a translation at each of its bytes. *)
Lemma validate_user_ptr_accessible {D} (addr size : Z) (s : sys D) :
  0 <= addr < 18446744073709551616 -> 0 <= size < 18446744073709551616 ->
  validate_user_ptr addr size s = true ->
  forall v, addr <= v < addr + size -> paging_get_phys v (the_mach s) <> 0.
Proof.
  intros Ha Hs H v Hv. apply validate_user_ptr_correct in H as (_ & _ & [-> | H] & _); [lia | | done | done].
  apply get_phys_page, H; lia.
Qed.

Section user_lemmas.
Context {D : Type}.
Implicit Types s : sys D.

(** Every byte of the range has a translation under CR3; no two share a physical byte. *)
Definition uspan s (v n : Z) : Prop := forall x, v <= x < v + n -> exists a, uaddr s x = Some a.
Definition uinj s (v n : Z) : Prop := forall x y a, v <= x < v + n -> v <= y < v + n ->
  uaddr s x = Some a -> uaddr s y = Some a -> x = y.

(** CR3 selects the kernel's page table, which the checks consult. *)
Definition same_space s : Prop := cpu_cr3 (kern s) = g_pml4 (the_mach s).

Lemma validate_uspan s v n :
  same_space s -> 0 <= v < 18446744073709551616 -> 0 <= n < 18446744073709551616 ->
  validate_user_ptr v n s = true -> uspan s v n /\ 0x1000 <= v /\ v + n <= 0x7FFFFFFFFF.
Proof.
  intros Hsp Hv Hn H. split.
  - intros x Hx. pose proof (validate_user_ptr_accessible v n s Hv Hn H x Hx) as Ha.
    unfold uaddr. rewrite Hsp. unfold paging_get_phys in Ha. rewrite istrue_neq by done. eauto.
  - apply validate_user_ptr_correct in H as (? & ? & _); done.
Qed.

Lemma uld_bytes_ok n : forall v s,
  uspan s v (Z.of_nat n) -> 0 <= v -> v + Z.of_nat n < 18446744073709551616 ->
  exists l, uld_bytes n v s = Some l /\ length l = n /\
    forall i, 0 <= i < Z.of_nat n -> uld s (v + i) = Some (l.[i]).
Proof.
  induction n as [| n IH]; intros v s Hs Hv Hlim; cbn [uld_bytes].
  { exists []. split_and!; try done. lia. }
  destruct (Hs v ltac:(lia)) as [a Ha].
  assert (uld s v = Some (rdb (phys s) a)) as E by (unfold uld; by rewrite Ha).
  rewrite E. cbn [mbind option_bind]. rewrite u64_id by lia.
  destruct (IH (v + 1) s) as (l & -> & Hl & Hi); [| lia | lia |].
  { intros x Hx. apply Hs. lia. }
  exists (rdb (phys s) a :: l). split_and!; [done | by cbn; rewrite Hl |].
  intros i Hir. unfold zget. rewrite zlook_cons_div. destruct (Z.eqb_spec i 0) as [-> |].
  - by rewrite Z.add_0_r.
  - specialize (Hi (i - 1) ltac:(lia)). by replace (v + 1 + (i - 1)) with (v + i) in Hi by lia.
Qed.

Lemma ust_bytes_ok l : forall v s,
  uspan s v (zlen l) -> 0 <= v -> v + zlen l < 18446744073709551616 ->
  exists m, ust_bytes v l s = Some (set_phys m s) /\
    (forall a, (forall x, v <= x < v + zlen l -> uaddr s x <> Some a) -> rdb m a = rdb (phys s) a) /\
    (uinj s v (zlen l) -> bytes l ->
     forall i, 0 <= i < zlen l -> uld (set_phys m s) (v + i) = Some (l.[i])).
Proof.
  induction l as [| b l IH]; intros v s Hs Hv Hlim; cbn [ust_bytes].
  { exists (phys s). split_and!; [by destruct s | done | unfold zlen; cbn; lia]. }
  rewrite zlen_cons in *. pose proof (zlen_nonneg l).
  destruct (Hs v ltac:(lia)) as [a Ha]. unfold ust. rewrite Ha. cbn [mbind option_bind].
  rewrite u64_id by lia. set (s1 := set_phys (wrb a b (phys s)) s).
  destruct (IH (v + 1) s1) as (m & E & Hout & Hin); [| lia | lia |].
  { intros x Hx. apply Hs. lia. }
  rewrite E. exists m. split; [done |]. split.
  - intros a' Hne. rewrite Hout.
    + cbn [phys set_phys s1]. rewrite rdb_wrb.
      destruct (Z.eqb_spec a a') as [-> |]; [| done]. destruct (Hne v ltac:(lia)). done.
    + intros x Hx. apply Hne. lia.
  - intros Hi Hb i Hir. inversion Hb as [| ? ? Hb1 Hb2]; subst.
    unfold zget. rewrite zlook_cons_div. destruct (Z.eqb_spec i 0) as [-> | Hi0].
    + rewrite Z.add_0_r. unfold uld. change (uaddr (set_phys m s) v) with (uaddr s v). rewrite Ha.
      cbn [mbind option_bind phys set_phys]. rewrite Hout.
      * cbn [phys set_phys s1]. rewrite rdb_wrb, Z.eqb_refl. unfold is_byte in Hb1. cbn.
        by rewrite Z.mod_small.
      * intros x Hx Hxa. change (uaddr s1 x) with (uaddr s x) in Hxa.
        assert (x = v); [| lia]. by eapply Hi; [lia | lia | |].
    + assert (uinj s1 (v + 1) (zlen l)) as Hi1.
      { intros x y a' Hx Hy. apply Hi; lia. }
      specialize (Hin Hi1 Hb2 (i - 1) ltac:(lia)).
      by replace (v + 1 + (i - 1)) with (v + i) in Hin by lia.
Qed.

Lemma uld_bytes_eq n : forall v s l,
  length l = n -> 0 <= v -> v + Z.of_nat n < 18446744073709551616 ->
  (forall i, 0 <= i < Z.of_nat n -> uld s (v + i) = Some (l.[i])) -> uld_bytes n v s = Some l.
Proof.
  induction n as [| n IH]; intros v s l Hl Hv Hlim Hi; cbn [uld_bytes].
  { by destruct l. }
  destruct l as [| b l]; [done |]. pose proof (Hi 0 ltac:(lia)) as H0. rewrite Z.add_0_r in H0.
  rewrite H0. cbn [mbind option_bind]. rewrite u64_id by lia. rewrite (IH (v + 1) s l); [done | | lia | lia |].
  - by injection Hl.
  - intros i Hir. specialize (Hi (i + 1) ltac:(lia)).
    replace (v + 1 + i) with (v + (i + 1)) by lia. rewrite Hi. unfold zget at 1. rewrite zlook_cons_div.
    destruct (Z.eqb_spec (i + 1) 0); [lia |]. by replace (i + 1 - 1) with i by lia.
Qed.
End user_lemmas.


(** *** Calls on a pipe *)

Lemma pipe_at_upd {D} g p x x' (s : sys D) :
  pipe_at g p (pipes s) = Some x -> pipe_at g p (pipes (upd_pipe g p x' s)) = Some x'.
Proof.
  unfold pipe_at, upd_pipe. cbn [pipes set_pipes]. destruct (_ =? 0); [| done].
  intros H. apply zlook_zset_eq. by eapply zlook_Some_range.
Qed.

(** Descriptor [fd] of the current task is open and refers to [p]. *)
Definition fd_is {D} (fd p type : Z) (s : sys D) : Prop :=
  exists t, cur s <> 0 /\ cur_task s = Some t /\ 3 <= fd < 32 /\ p <> 0 /\
    zlook (Sched.fd t) fd = Some (FdEntry p type 1).

Lemma fd_is_get {D} fd p type (s : sys D) : fd_is fd p type s ->
  exists t, istrue (cur s) = true /\ cur_task s = Some t /\ task_fd_get fd t = p /\
    istrue p = true /\ type_of fd t = Some type /\ s32 fd = fd /\ 3 <= fd.
Proof.
  intros (t & Hc & Ht & Hfd & Hp & He). exists t. unfold task_fd_get, type_of, fd_ok.
  rewrite He. cbn [mbind option_bind fptr ftype fused]. unfold TASK_MAX_FD.
  destruct (Z.leb_spec 0 fd), (Z.ltb_spec fd (Z.of_nat 32)); try lia. cbn [negb andb].
  rewrite !istrue_neq, s32_id by (done || lia). split_and!; done || lia.
Qed.

Section pipe_calls.
Context {D : Type} (fs_of : Z -> option (filesystem D)) (g : Z).
Implicit Types s : sys D.

Lemma sys_write_pipe s r p :
  fd_is (r_rdi r) p FD_TYPE_PIPE_W s -> validate_user_ptr (r_rsi r) (r_rdx r) s = true ->
  sys_write fs_of g r s = write_pipe g p r s.
Proof.
  intros (t & Hc & Ht & Hg & Hp & Hty & Hs & Hfd)%fd_is_get Hv.
  unfold sys_write. rewrite Hs. unfold FD_STDOUT, FD_STDERR.
  destruct (Z.eqb_spec (r_rdi r) 1), (Z.eqb_spec (r_rdi r) 2); try lia. cbn [orb].
  rewrite Hc, Ht. cbn [negb mbind option_bind]. rewrite Hg, Hp. cbn [negb].
  rewrite Hty. cbn [mbind option_bind]. by rewrite Z.eqb_refl, Hv.
Qed.

Lemma sys_read_pipe s r p :
  fd_is (r_rdi r) p FD_TYPE_PIPE_R s -> validate_user_ptr (r_rsi r) (r_rdx r) s = true ->
  sys_read fs_of g r s = read_pipe g p r s.
Proof.
  intros (t & Hc & Ht & Hg & Hp & Hty & Hs & Hfd)%fd_is_get Hv.
  unfold sys_read. rewrite Hs. unfold FD_STDIN.
  destruct (Z.eqb_spec (r_rdi r) 0); [lia |].
  rewrite Hc, Ht. cbn [negb mbind option_bind]. rewrite Hg, Hp. cbn [negb].
  rewrite Hty. cbn [mbind option_bind]. by rewrite Z.eqb_refl, Hv.
Qed.

Lemma write_pipe_fits s r p x l :
  pipe_at g p (pipes s) = Some x -> pipe_ok x -> 0 < p_readers x ->
  0 < r_rdx r <= PIPE_BUF_SIZE - p_count x ->
  uld_bytes (Z.to_nat (r_rdx r)) (r_rsi r) s = Some l -> length l = Z.to_nat (r_rdx r) ->
  exists x', write_pipe g p r s = Some (Ret (with_rax (r_rdx r) r) (upd_pipe g p x' s)) /\
    pipe_ok x' /\ pipe_list x' = pipe_list x ++ l /\ p_readers x' = p_readers x.
Proof.
  intros Hx Hok Hr Hn Hl Hlen. pose proof Hok as (_ & _ & Hc). unfold PIPE_BUF_SIZE in Hn, Hc.
  unfold write_pipe. rewrite Hx. cbn [mbind option_bind]. unfold PIPE_BUF_SIZE at 1.
  destruct (Z.eqb_spec (p_count x) 4096); [lia |]. cbn [andb].
  destruct (Z.eqb_spec (p_readers x) 0); [lia |].
  rewrite Z.min_l, Hl by (unfold PIPE_BUF_SIZE; lia). cbn [mbind option_bind].
  destruct (pipe_write l x) as [k x'] eqn:E.
  destruct (pipe_write_correct _ _ _ _ Hok E) as (Hok' & Hn' & Hl' & [= Hr' _ _]).
  assert (zlen l = r_rdx r) as Hzl by (unfold zlen; lia).
  rewrite Hzl, Z.min_l in Hn' by (unfold PIPE_BUF_SIZE; lia). subst k.
  exists x'. rewrite s32_id, u64_id by lia. split_and!; try done. rewrite Hl'. f_equal.
  rewrite <- Hlen. apply firstn_all.
Qed.

Lemma read_pipe_all s r p x :
  pipe_at g p (pipes s) = Some x -> pipe_ok x -> 0 < p_count x -> p_count x <= r_rdx r ->
  exists x', forall m, ust_bytes (r_rsi r) (pipe_list x) s = Some (set_phys m s) ->
    read_pipe g p r s = Some (Ret (with_rax (p_count x) r) (upd_pipe g p x' (set_phys m s))) /\
    pipe_ok x' /\ pipe_list x' = [].
Proof.
  intros Hx Hok H0 Hn. pose proof Hok as (_ & _ & Hc). unfold PIPE_BUF_SIZE in Hc.
  pose proof (pipe_list_length x Hok) as Hzl.
  unfold read_pipe. rewrite Hx. cbn [mbind option_bind].
  destruct (Z.eqb_spec (p_count x) 0); [lia |]. cbn [andb].
  destruct (pipe_read _ x) as [l x'] eqn:E.
  destruct (pipe_read_correct _ _ _ _ Hok E) as (Hok' & -> & Hd & _).
  assert (length (pipe_list x) <= Z.to_nat (r_rdx r `min` PIPE_BUF_SIZE))%nat as Hle
    by (unfold zlen in Hzl; unfold PIPE_BUF_SIZE; lia).
  rewrite take_ge by done. rewrite drop_ge in Hd by done.
  exists x'. intros m ->. cbn [mbind option_bind].
  rewrite Hzl, s32_id, u64_id by lia. done.
Qed.
End pipe_calls.


(** *** Directory listings *)

(** The line of one entry. *)
Definition entry_text (e : list Z * Z * Z) : list Z :=
  let '(name, size, flags) := e in
  name ++ (if istrue (Z.land flags VFS_DIR) then [47]
           else [32; 32] ++ (if size =? 0 then [48] else size_digits 10 size []) ++
                [32; 98; 121; 116; 101; 115]) ++ [10].

Lemma readdir_append_take cap l : 1 <= cap -> forall b,
  readdir_append cap (take (Z.to_nat (cap - 1)) b) l = take (Z.to_nat (cap - 1)) (b ++ l).
Proof.
  intros Hc. set (n := Z.to_nat (cap - 1)).
  induction l as [| c l IH]; intros b; cbn [readdir_append]; [by rewrite app_nil_r |].
  unfold zlen. rewrite length_take. destruct (Z.ltb_spec (Z.of_nat (n `min` length b) + 1) cap) as [Hl | Hl].
  - rewrite take_ge by lia. specialize (IH (b ++ [c])). rewrite <- app_assoc in IH. cbn in IH.
    rewrite <- IH. f_equal. rewrite take_ge; [done |]. rewrite length_app. cbn. lia.
  - by rewrite take_app_le by lia.
Qed.

Lemma readdir_cb_take cap e b : 1 <= cap ->
  readdir_cb cap (take (Z.to_nat (cap - 1)) b) e = take (Z.to_nat (cap - 1)) (b ++ entry_text e).
Proof.
  intros Hc. destruct e as [[name size] flags]. cbn [readdir_cb entry_text].
  rewrite (readdir_append_take cap name Hc b). destruct (istrue _).
  - rewrite !readdir_append_take by done. by rewrite <- !app_assoc.
  - rewrite !readdir_append_take by done. by rewrite <- !app_assoc.
Qed.

Lemma readdir_fold_take cap es : 1 <= cap -> forall b,
  foldl (readdir_cb cap) (take (Z.to_nat (cap - 1)) b) es =
  take (Z.to_nat (cap - 1)) (b ++ concat (map entry_text es)).
Proof.
  intros Hc. induction es as [| e es IH]; intros b; cbn [foldl map concat]; [by rewrite app_nil_r |].
  rewrite readdir_cb_take, IH by done. by rewrite <- app_assoc.
Qed.

Lemma readdir_text cap es : 1 <= cap ->
  foldl (readdir_cb cap) [] es = take (Z.to_nat (cap - 1)) (concat (map entry_text es)).
Proof. intros Hc. pose proof (readdir_fold_take cap es Hc []) as H. by rewrite take_nil in H. Qed.

Lemma readdir_text_0 es : foldl (readdir_cb 0) [] es = [].
Proof.
  assert (forall l, readdir_append 0 [] l = []) as H by (by intros [| c l]).
  induction es as [| [[name size] flags] es IH]; cbn [foldl]; [done |].
  cbn [readdir_cb]. rewrite H. destruct (istrue _); by rewrite !H.
Qed.

Lemma ust_bytes_app {D} a : forall v b (s : sys D), 0 <= v -> v + zlen a < 18446744073709551616 ->
  ust_bytes v (a ++ b) s = (s ← ust_bytes v a s; ust_bytes (v + zlen a) b s).
Proof.
  induction a as [| x a IH]; intros v b s Hv Hlim; cbn [app ust_bytes].
  - by rewrite Z.add_0_r.
  - rewrite zlen_cons in *. pose proof (zlen_nonneg a). destruct (ust v x s) as [s1 |]; [| done].
    cbn [mbind option_bind]. rewrite u64_id, IH by lia. by replace (v + 1 + zlen a) with (v + (zlen a + 1)) by lia.
Qed.

(** Also: a directory listing leaves in the user buffer the lines of the entries, cut to
    its capacity less one, and a terminator; it returns the length of the text, which is
    less than the capacity, and writes nothing outside the buffer. *)
Theorem sys_readdir_spec {D} (fs_of : Z -> option (filesystem D)) (s : sys D) (r : regs)
    (path : list Z) (n : Z) (es : list (list Z * Z * Z)) (v : vst D)
    (Hpath : resolve_user_path (r_rdi r) 256 s = Some (Some path))
    (Hval : validate_user_ptr (r_rsi r) (r_rdx r) s = true)
    (Hdir : vfs_readdir fs_of path (get_vfs s) = Some (n, es, v)) (Hn : 0 <= n)
    (Hcap : 1 <= r_rdx r) (Hout : 0 <= r_rsi r) (Hlim : r_rsi r + r_rdx r < 18446744073709551616)
    (Hspan : uspan (set_vfs v s) (r_rsi r) (r_rdx r))
    (Hinj : uinj (set_vfs v s) (r_rsi r) (r_rdx r))
    (Hb : bytes (concat (map entry_text es))) :
  let text := take (Z.to_nat (r_rdx r - 1)) (concat (map entry_text es)) in
  exists m, sys_readdir fs_of r s = Some (Ret (with_rax (zlen text) r) (set_phys m (set_vfs v s))) /\
    zlen text < r_rdx r /\
    uld_bytes (length text + 1) (r_rsi r) (set_phys m (set_vfs v s)) = Some (text ++ [0]) /\
    forall a, (forall x, r_rsi r <= x < r_rsi r + r_rdx r -> uaddr (set_vfs v s) x <> Some a) ->
      rdb m a = rdb (phys s) a.
Proof.
  intros text. assert (zlen text < r_rdx r) as Hlt.
  { unfold text, zlen. rewrite length_take. lia. }
  assert (zlen (text ++ [0]) <= r_rdx r) as Hle by (rewrite zlen_app; change (zlen [0]) with 1; lia).
  assert (bytes (text ++ [0])) as Hbt.
  { apply Forall_app. split; [by apply Forall_take |]. repeat constructor; unfold is_byte; simpl; lia. }
  assert (uspan (set_vfs v s) (r_rsi r) (zlen (text ++ [0]))) as Hsp by (intros x Hx; apply Hspan; lia).
  destruct (ust_bytes_ok (text ++ [0]) (r_rsi r) (set_vfs v s) Hsp Hout ltac:(lia)) as (m & Em & Ho & Hi).
  exists m. pose proof (zlen_nonneg text). split_and!; [| done | |].
  - unfold sys_readdir. rewrite Hpath. cbn [mbind option_bind]. rewrite Hval. cbn [negb].
    rewrite Hdir. cbn [mbind option_bind]. destruct (Z.ltb_spec n 0); [lia |].
    rewrite readdir_text by done. fold text.
    rewrite ust_bytes_app in Em by lia. destruct (ust_bytes (r_rsi r) text (set_vfs v s)) as [s1 |]; [| done].
    cbn [mbind option_bind] in *. destruct (Z.ltb_spec (zlen text) (r_rdx r)); [| lia].
    rewrite u64_id by lia. cbn [ust_bytes] in Em.
    destruct (ust (r_rsi r + zlen text) 0 s1) as [s2 |]; [| done]. cbn [mbind option_bind] in *.
    by injection Em as ->.
  - assert (length (text ++ [0]) = (length text + 1)%nat) as Hl by (by rewrite length_app).
    rewrite <- Hl. apply uld_bytes_eq; [done | done | unfold zlen in *; lia |].
    apply Hi; [| done]. intros x y a Hx Hy. apply Hinj; lia.
  - intros a Ha. rewrite Ho; [done |]. intros x Hx. apply Ha. lia.
Qed.

(** Also: a listing into a buffer of capacity 0 stores the terminator in the byte before
    the buffer, which nothing has validated. *)
Theorem sys_readdir_cap0 {D} (fs_of : Z -> option (filesystem D)) (s : sys D) (r : regs)
    (path : list Z) (n : Z) (es : list (list Z * Z * Z)) (v : vst D) (a : Z)
    (Hpath : resolve_user_path (r_rdi r) 256 s = Some (Some path))
    (Hval : validate_user_ptr (r_rsi r) (r_rdx r) s = true)
    (Hdir : vfs_readdir fs_of path (get_vfs s) = Some (n, es, v)) (Hn : 0 <= n)
    (Hcap : r_rdx r = 0) (Hout : 0 < r_rsi r < 18446744073709551616)
    (Ha : uaddr (set_vfs v s) (r_rsi r - 1) = Some a) :
  sys_readdir fs_of r s = Some (Ret (with_rax 0 r) (set_phys (wrb a 0 (phys s)) (set_vfs v s))).
Proof.
  unfold sys_readdir. rewrite Hpath. cbn [mbind option_bind]. rewrite Hval. cbn [negb].
  rewrite Hdir. cbn [mbind option_bind]. destruct (Z.ltb_spec n 0); [lia |].
  rewrite Hcap, readdir_text_0. cbn [ust_bytes mbind option_bind].
  change (@zlen Z []) with 0. rewrite Z.ltb_irrefl.
  rewrite (u64_id (r_rsi r + (0 - 1))) by lia. replace (r_rsi r + (0 - 1)) with (r_rsi r - 1) by lia.
  unfold ust. by rewrite Ha.
Qed.

(** ** What the checks miss *)

(** Also: copying a string checks only the first byte of the pointer: a string that runs
    into a page without translation faults in the kernel. *)
Theorem copy_from_user_faults {D} (s : sys D) (v a : Z)
    (Hv : 0 < v < 18446744073709551615) (Hval : validate_user_ptr v 1 s = true)
    (Ha : uaddr s v = Some a) (Hc : rdb (phys s) a <> 0) (Hnext : uaddr s (v + 1) = None) :
  copy_from_user v 256 s = None.
Proof.
  unfold copy_from_user. rewrite istrue_neq by lia. cbn [negb orb Z.eqb].
  rewrite Hval. cbn [negb]. change (Z.to_nat (256 - 1)) with (S (S 253)). generalize 253%nat as k.
  intros k. cbn [user_chars]. unfold uld. rewrite Ha.
  cbn [mbind option_bind]. destruct (Z.eqb_spec (rdb (phys s) a) 0); [done |].
  rewrite (u64_id (v + 1)) by lia. by rewrite Hnext.
Qed.

(** Also: the check of a user pointer consults the kernel's page table and not the one in
    CR3: a write of a buffer that only the kernel's table maps faults after the check
    has accepted it. *)
Theorem sys_write_other_space {D} (fs_of : Z -> option (filesystem D)) (g : Z) (s : sys D) (r : regs)
    (Hfd : r_rdi r = 1) (Hn : 0 < r_rdx r) (Hval : validate_user_ptr (r_rsi r) (r_rdx r) s = true)
    (Hcr3 : paging_get_phys_on (cpu_cr3 (kern s)) (r_rsi r) (the_mach s) = 0) :
  sys_write fs_of g r s = None.
Proof.
  unfold sys_write. rewrite Hfd. change (s32 1) with 1. cbn [Z.eqb orb]. change (1 =? FD_STDOUT) with true.
  cbn [orb]. rewrite Hval. cbn [negb].
  destruct (Z.to_nat (r_rdx r)) as [| k] eqn:E; [lia |]. cbn [uld_bytes]. unfold uld, uaddr.
  by rewrite Hcr3.
Qed.

(** *** Descriptors *)

Lemma open_entry_Some fd t e : open_entry fd t = Some e ->
  0 <= fd < 32 /\ zlook (Sched.fd t) fd = Some e /\ fused e <> 0.
Proof.
  unfold open_entry, fd_ok, TASK_MAX_FD.
  destruct (Z.leb_spec 0 fd), (Z.ltb_spec fd (Z.of_nat 32)); try done. cbn [andb negb].
  destruct (zlook _ _) as [e' |]; [| done]. unfold istrue. destruct (Z.eqb_spec (fused e') 0); [done |].
  cbn. intros [= ->]. split_and!; done || lia.
Qed.

Lemma open_entry_intro fd t e : 0 <= fd < 32 -> zlook (Sched.fd t) fd = Some e -> fused e <> 0 ->
  open_entry fd t = Some e.
Proof.
  intros Hfd He Hu. unfold open_entry, fd_ok, TASK_MAX_FD.
  destruct (Z.leb_spec 0 fd), (Z.ltb_spec fd (Z.of_nat 32)); try lia. cbn [andb negb].
  by rewrite He, istrue_neq.
Qed.

Lemma set_task_cur {D} t (s : sys D) : cur_task (set_task (cur s) t s) = Some t.
Proof. unfold cur_task, set_task, cur, task_current. cbn. by rewrite lookup_insert_eq. Qed.

(** Also: dup2 of a file descriptor to itself releases the open file and keeps the
    descriptor: it refers to a structure that is no longer there. *)
Theorem sys_dup2_same_frees {D} (s : sys D) (r : regs) (t : task_struct) (e : task_fd_entry)
    (Hc : cur s <> 0) (Ht : cur_task s = Some t) (Hfd : open_entry (s32 (r_rdi r)) t = Some e)
    (Hsame : r_rsi r = r_rdi r) (Hty : ftype e = FD_TYPE_FILE) (Hp : fptr e <> 0) :
  exists s' t', sys_dup2 r s = Some (Ret (with_rax (u64 (s32 (r_rdi r))) r) s') /\
    cur_task s' = Some t' /\ open_entry (s32 (r_rdi r)) t' = Some e /\
    files (vfs s') !! fptr e = None.
Proof.
  unfold sys_dup2. rewrite (istrue_neq (cur s)), Ht, Hsame by done. cbn [negb mbind option_bind].
  rewrite Hfd. destruct (open_entry_Some _ _ _ Hfd) as (Hr & He & Hu).
  assert (fd_ok (s32 (r_rdi r)) = true) as ->
    by (unfold fd_ok, TASK_MAX_FD; destruct (Z.leb_spec 0 (s32 (r_rdi r))), (Z.ltb_spec (s32 (r_rdi r)) (Z.of_nat 32)); lia).
  cbn [negb]. rewrite Hty. change (FD_TYPE_FILE =? FD_TYPE_FILE) with true.
  set (s1 := set_vfs _ s). eexists _, _. split; [done |]. split; [apply set_task_cur |]. split.
  - apply open_entry_intro; [done | | done]. cbn. apply zlook_zset_eq.
    by apply zlook_Some_range in He.
  - unfold set_task, s1, Vfs.vfs_close. rewrite istrue_neq by done. cbn. apply lookup_delete_eq.
Qed.

(** Also: dup2 does not count the ends of a pipe: once one of two descriptors for its only
    write end is closed the pipe has no writer, although the other one is still open, and
    a reader of the empty pipe is told that the data has ended. *)
Theorem sys_dup2_not_counted {D} (fs_of : Z -> option (filesystem D)) (g : Z) (s : sys D)
    (r rc rr : regs) (t : task_struct) (p : Z) (x : pipe)
    (Hc : cur s <> 0) (Ht : cur_task s = Some t) (Hp : p <> 0)
    (Hw : open_entry (s32 (r_rdi r)) t = Some (FdEntry p FD_TYPE_PIPE_W 1))
    (Hnew : open_entry (s32 (r_rsi r)) t = None) (Hrange : 0 <= s32 (r_rsi r) < 32)
    (Hlen : zlen (Sched.fd t) = 32) (Hclose : r_rdi rc = r_rdi r)
    (Hx : pipe_at g p (pipes s) = Some x) (Hwr : p_writers x = 1) (Hempty : p_count x = 0) :
  exists s1 s2 t2 x2, sys_dup2 r s = Some (Ret (with_rax (u64 (s32 (r_rsi r))) r) s1) /\
    sys_close g rc s1 = Some (Ret (with_rax 0 rc) s2) /\
    cur_task s2 = Some t2 /\ open_entry (s32 (r_rsi r)) t2 = Some (FdEntry p FD_TYPE_PIPE_W 1) /\
    pipe_at g p (pipes s2) = Some x2 /\ p_writers x2 = 0 /\
    read_pipe g p rr s2 = Some (Ret (with_rax 0 rr) s2).
Proof.
  destruct (open_entry_Some _ _ _ Hw) as (Hr & He & Hu).
  set (o := s32 (r_rdi r)) in *. set (n := s32 (r_rsi r)) in *.
  assert (o <> n) as Hon by congruence.
  set (t1 := with_fd ((Sched.fd t).[n <- FdEntry p FD_TYPE_PIPE_W 1]) t).
  set (s1 := set_task (cur s) t1 s).
  assert (sys_dup2 r s = Some (Ret (with_rax (u64 n) r) s1)) as E1.
  { unfold sys_dup2. rewrite (istrue_neq (cur s)), Ht by done. cbn [negb mbind option_bind].
    fold o n. rewrite Hw, Hnew. unfold fd_ok, TASK_MAX_FD.
    destruct (Z.leb_spec 0 n), (Z.ltb_spec n (Z.of_nat 32)); done || lia. }
  assert (open_entry o t1 = Some (FdEntry p FD_TYPE_PIPE_W 1)) as Ho1.
  { apply open_entry_intro; [done | | done]. cbn. by rewrite zlook_zset_ne. }
  set (x1 := pipe_close FD_TYPE_PIPE_W x). set (s2 := upd_pipe g p x1 s1).
  set (s3 := set_task (cur s2) (task_fd_free o t1) s2).
  assert (sys_close g rc s1 = Some (Ret (with_rax 0 rc) s3)) as E2.
  { unfold sys_close. rewrite Hclose. fold o. change (cur s1) with (cur s).
    rewrite (istrue_neq (cur s)) by done. cbn [negb].
    assert (cur_task s1 = Some t1) as -> by apply (set_task_cur t1 s). cbn [mbind option_bind].
    rewrite Ho1. cbn [ftype fptr]. change (FD_TYPE_PIPE_W =? FD_TYPE_PIPE_R) with false.
    change (FD_TYPE_PIPE_W =? FD_TYPE_PIPE_W) with true. cbn [orb].
    change (pipes s1) with (pipes s). by rewrite Hx. }
  assert (p_writers x1 = 0 /\ p_count x1 = 0) as [Hw1 Hc1].
  { unfold x1, pipe_close. change (FD_TYPE_PIPE_W =? FD_TYPE_PIPE_R) with false. cbn. split; lia. }
  pose proof (pipe_at_upd g p x x1 s1 Hx) as Hx1. fold s2 in Hx1.
  exists s1, s3, (task_fd_free o t1), x1. split_and!; try done.
  - apply (set_task_cur _ s2).
  - apply open_entry_intro; [done | | done]. unfold task_fd_free.
    destruct (negb (fd_ok o)); cbn; rewrite ?zlook_zset_ne by done; apply zlook_zset_eq; lia.
  - unfold read_pipe. change (pipes s3) with (pipes s2). rewrite Hx1. cbn [mbind option_bind].
    by rewrite Hc1, Hw1.
Qed.

(** ** Processes *)

(** [x] is a terminated child of process [p]. *)
Definition dead_child (m : gmap Z task_struct) (p x : Z) : bool :=
  match m !! x with
  | Some t => (ppid t =? p) && bool_decide (state t = TASK_TERMINATED)
  | None => false
  end.

Lemma find_dead_spec m c p l : forall fuel a,
  chain m a l c -> (length l < fuel)%nat -> (c ∉ l) ->
  (exists l1 x l2, l = l1 ++ x :: l2 /\ dead_child m p x = true /\
     Forall (fun y => dead_child m p y = false) l1 /\ find_dead fuel a c p m = Some x) \/
  (Forall (fun y => dead_child m p y = false) l /\ find_dead fuel a c p m = Some 0).
Proof.
  induction l as [| y l IH]; intros fuel a Hch Hf Hc; (destruct fuel as [| fuel]; [cbn in Hf; lia |]);
    cbn [chain find_dead] in *.
  - subst. rewrite Z.eqb_refl. right. split; [by constructor | done].
  - destruct Hch as (-> & b & Hb & Hch). apply not_elem_of_cons in Hc as [Hcy Hc].
    destruct (Z.eqb_spec y c); [congruence |].
    unfold next_at in Hb. destruct (m !! y) as [t |] eqn:E; [| done]. injection Hb as <-.
    cbn [mbind option_bind]. assert (dead_child m p y = (ppid t =? p) && bool_decide (state t = TASK_TERMINATED)) as Hd
      by (unfold dead_child; by rewrite E). rewrite <- Hd.
    destruct (dead_child m p y) eqn:Ed.
    + left. exists [], y, l. by split_and!.
    + destruct (IH fuel (next t) Hch ltac:(cbn in Hf; lia) Hc) as
        [(l1 & x & l2 & -> & Hx & Hl1 & ->) | [Hl ->]].
      * left. exists (y :: l1), x, l2. split_and!; try done. by constructor.
      * right. split; [by constructor | done].
Qed.

Lemma wf_tail_chain k c l t : wf k (c :: l) -> tasks k !! c = Some t ->
  chain (tasks k) (next t) l c /\ (c ∉ l).
Proof.
  intros W Ht. pose proof (chain_head _ _ _ W) as Hc. destruct W as [Wc _ W3 _ _ _].
  rewrite Hc in Wc. cbn [chain] in Wc. destruct Wc as (_ & b & Hb & Wc). unfold next_at in Hb.
  rewrite Ht in Hb. injection Hb as <-. split; [done |]. by apply NoDup_cons in W3 as [? _].
Qed.

(** Also: wait takes the first terminated child after the caller in list order, returns
    its exit code, and removes it: the list of tasks stays circular without it and no
    other task changes but for its link. Without such a child it returns -1 and changes
    nothing. *)
Theorem sys_wait_spec {D} (s : sys D) (r : regs) (l : list Z) (c : task_struct)
    (W : wf (kern s) (cur s :: l)) (Hc : tasks (kern s) !! cur s = Some c) :
  (exists l1 x l2 t k', l = l1 ++ x :: l2 /\ tasks (kern s) !! x = Some t /\
     ppid t = pid c /\ state t = TASK_TERMINATED /\
     Forall (fun y => dead_child (tasks (kern s)) (pid c) y = false) l1 /\
     sys_wait r s = Some (Ret (with_rax (u64 (exit_code t)) r) (set_kern k' s)) /\
     wf k' (cur s :: l1 ++ l2) /\ same_tasks (kern s) k' (cur s :: l1 ++ l2) /\ tasks k' !! x = None) \/
  (Forall (fun y => dead_child (tasks (kern s)) (pid c) y = false) l /\
     sys_wait r s = Some (Ret (fail r) s)).
Proof.
  destruct (wf_tail_chain _ _ _ _ W Hc) as [Hch Hnin].
  pose proof (wf_fuel _ _ W) as Hfuel. cbn in Hfuel.
  pose proof (w_nonzero _ _ W) as Hnz. inversion Hnz as [| ? ? Hc0 Hl0]; subst.
  unfold sys_wait, cur_task. rewrite (istrue_neq (cur s)), Hc by done. cbn [negb mbind option_bind].
  destruct (find_dead_spec (tasks (kern s)) (cur s) (pid c) l (list_fuel (kern s)) (next c) Hch
    ltac:(lia) Hnin) as [(l1 & x & l2 & -> & Hx & Hl1 & ->) | [Hl ->]]; cbn [mbind option_bind]; [left | by right].
  assert (x <> 0) as Hx0 by (rewrite Forall_app, Forall_cons in Hl0; tauto).
  rewrite istrue_neq by done. unfold dead_child in Hx.
  destruct (tasks (kern s) !! x) as [t |] eqn:Et; [| done]. cbn [mbind option_bind].
  apply andb_prop in Hx as [Hp%Z.eqb_eq Hs%bool_decide_eq_true].
  assert (exists pre p, cur s :: l1 = pre ++ [p]) as (pre & p & Epre).
  { destruct (exists_last (l := cur s :: l1)) as (pre & p & E); [done |]. by exists pre, p. }
  assert (forall z, cur s :: l1 ++ z = pre ++ p :: z) as Ez.
  { intros z. change (cur s :: l1 ++ z) with ((cur s :: l1) ++ z). by rewrite Epre, <- app_assoc. }
  rewrite Ez in W. destruct (task_destroy_correct _ _ _ _ _ W) as (k' & -> & W' & S' & _ & Hgone).
  exists l1, x, l2, t, k'. rewrite Ez. by split_and!.
Qed.

Lemma find_pid_spec m c p l : forall fuel a,
  chain m a l c -> (length l <= fuel)%nat -> (c ∉ tail l) -> l <> [] ->
  (exists l1 x l2 t, l = l1 ++ x :: l2 /\ m !! x = Some t /\ pid t = p /\
     Forall (fun y => forall t, m !! y = Some t -> pid t <> p) l1 /\ find_pid fuel a c p m = Some x) \/
  (Forall (fun y => forall t, m !! y = Some t -> pid t <> p) l /\ find_pid fuel a c p m = Some 0).
Proof.
  induction l as [| y l IH]; intros fuel a Hch Hf Hc Hne; [done |].
  destruct fuel as [| fuel]; [cbn in Hf; lia |]. cbn [chain find_pid tail] in *.
  destruct Hch as (-> & b & Hb & Hch). unfold next_at in Hb.
  destruct (m !! y) as [t |] eqn:E; [| done]. injection Hb as <-. cbn [mbind option_bind].
  destruct (Z.eqb_spec (pid t) p) as [Hp | Hp].
  { left. exists [], y, l, t. by split_and!. }
  assert (forall t', m !! y = Some t' -> pid t' <> p) as Hy by congruence.
  destruct l as [| z l].
  - cbn [chain] in Hch. rewrite Hch, Z.eqb_refl. right. split; [by repeat constructor | done].
  - pose proof Hch as (Enx & _). rewrite Enx in *. destruct (Z.eqb_spec z c) as [-> |]; [destruct Hc; left |].
    destruct (IH fuel z Hch ltac:(cbn in *; lia)) as [(l1 & x & l2 & t' & E' & Hx & Hpx & Hl1 & ->) | [Hl ->]];
      [by intros ?; apply Hc; right | done | |].
    + left. exists (y :: l1), x, l2, t'. rewrite E'. split_and!; try done. by constructor.
    + right. split; [by constructor | done].
Qed.

(** Also: kill acts on the first task with the process number it is given, the current one
    included: SIGKILL terminates it with code -9, another signal number below 32 becomes
    pending, and no other task changes; without such a task it returns -1. *)
Theorem sys_kill_spec {D} (s : sys D) (r : regs) (l : list Z) (W : wf (kern s) (cur s :: l))
    (Hsig : forall x t, tasks (kern s) !! x = Some t -> zlen (signals t) = 32) :
  let p := u32 (r_rdi r) in
  let sig := s32 (r_rsi r) in
  (exists x t t', x ∈ cur s :: l /\ tasks (kern s) !! x = Some t /\ pid t = p /\
     sys_kill r s = Some (Ret (with_rax 0 r) (set_task x t' s)) /\
     (sig = SIGKILL -> t' = with_exit_code (-9) (with_state TASK_TERMINATED t)) /\
     (sig <> SIGKILL -> state t' = state t /\ exit_code t' = exit_code t /\
        forall i, zlook (signals t') i =
          if (i =? sig) && signal_ok sig
          then (fun g => Signal (handler g) 1 (mask g)) <$> zlook (signals t) i
          else zlook (signals t) i)) \/
  ((forall x t, x ∈ cur s :: l -> tasks (kern s) !! x = Some t -> pid t <> p) /\
     sys_kill r s = Some (Ret (fail r) s)).
Proof.
  intros p sig. pose proof (wf_fuel _ _ W) as Hfuel. pose proof (chain_head _ _ _ W) as Hcur.
  pose proof (w_nonzero _ _ W) as Hnz. pose proof (w_chain _ _ W) as Hch. pose proof (w_nodup _ _ W) as Hnd.
  assert (cur s <> 0) as Hc0 by (by inversion Hnz). apply NoDup_cons in Hnd as [Hnd _].
  assert (task_find p (kern s) = find_pid (list_fuel (kern s)) (cur s) (cur s) p (tasks (kern s))) as Ef.
  { unfold task_find. destruct (Z.eqb_spec (g_current (kern s)) 0); [done |]. by rewrite Hcur. }
  unfold sys_kill. fold p sig. rewrite Ef. rewrite Hcur in Hch.
  destruct (find_pid_spec (tasks (kern s)) (cur s) p (cur s :: l) (list_fuel (kern s)) (cur s) Hch
    ltac:(lia) Hnd ltac:(done)) as [(l1 & x & l2 & t & El & Hx & Hp & _ & ->) | [Hl ->]];
    cbn [mbind option_bind]; [left | right].
  - assert (x ∈ cur s :: l) as Hin by (rewrite El; apply elem_of_app; right; left).
    assert (x <> 0) as Hx0 by (by eapply (proj1 (Forall_forall _ _) Hnz)).
    rewrite istrue_neq, Hx by done. cbn [negb mbind option_bind]. unfold post_signal.
    destruct (Z.eqb_spec sig SIGKILL) as [-> | Hk].
    + eexists x, t, _. split_and!; try done.
    + destruct (signal_ok sig) eqn:Eo.
      * assert (0 <= sig < 32) as Hr.
        { unfold signal_ok, TASK_MAX_SIGNALS in Eo. bprop. lia. }
        destruct (zlook_in_range (signals t) sig) as [g Hg]; [by rewrite (Hsig _ _ Hx) |].
        rewrite Hg. cbn [mbind option_bind]. eexists x, t, _. split_and!; try done. intros _.
        split_and!; try done. intros i. cbn [signals with_signals]. rewrite andb_true_r.
        destruct (Z.eqb_spec i sig) as [-> |]; [| by rewrite zlook_zset_ne].
        rewrite zlook_zset_eq by (by rewrite (Hsig _ _ Hx)). by rewrite Hg.
      * cbn [mbind option_bind]. exists x, t, t. split_and!; try done. intros _.
        split_and!; try done. intros i. by rewrite andb_false_r.
  - split; [| done]. intros x t Hxin. by apply (proj1 (Forall_forall _ _) Hl x Hxin).
Qed.

Lemma copy_stack_frame dst src k :
  tasks (copy_stack dst src k) = tasks k /\ g_current (copy_stack dst src k) = g_current k.
Proof.
  unfold copy_stack. apply (loop_inv (fun _ k' => tasks k' = tasks k /\ g_current k' = g_current k)); [done |].
  intros i k' _ H. exact H.
Qed.

#[local] Opaque copy_stack fork_fds.

Lemma clone_grows s r s' : paging_clone_current s = Some (r, s') -> grows s s'.
Proof.
  intros H Hw. unfold paging_clone_current in H.
  destruct (pmm_alloc_fresh _ Hw) as (a & p' & Ea & Hw' & HU & _). rewrite Ea in H.
  cbn [mbind option_bind] in H. destruct (a =? 0); by injection H as _ <-.
Qed.

Lemma fork_child_shape {D} a st pml4 c r r' (s s' : sys D) :
  0 <= st -> fork_child a st pml4 c r s = Some (Ret r' s') ->
  exists t s2 v, r' = with_rax 0 r /\ tasks (kern s2) = tasks (kern s) /\ cur s2 = cur s /\
    next t = next c /\ 0 <= kernel_stack_base t /\ pid t = 0 /\ ppid t = pid c /\
    state t = state c /\ signals t = signals c /\
    s' = set_task (cur s) (with_next a c) (set_task a t (set_vfs v s2)).
Proof.
  intros Hst H. unfold fork_child in H.
  destruct (copy_stack_frame st (kernel_stack_base c) (kern s)) as [T3 C3].
  set (s2 := set_kern (copy_stack st (kernel_stack_base c) (kern s)) s) in H.
  assert (tasks (kern s2) = tasks (kern s) /\ cur s2 = cur s) as [ET EC] by exact (conj T3 C3).
  clearbody s2. destruct (fork_fds _ _ _ _ _) as [[fds v] |]; cbn [mbind option_bind] in H; [| discriminate H].
  rewrite EC in H. injection H as <- <-.
  match goal with |- context [set_task a ?t _] => exists t, s2, v end. by split_and!.
Qed.

(** What fork has done when it returns. *)
Lemma sys_fork_shape {D} (s s' : sys D) (r r' : regs) (c : task_struct)
    (Hc0 : cur s <> 0) (Hw : Pmm.wf (m_pmm (the_mach s))) (Hc : cur_task s = Some c)
    (H : sys_fork r s = Some (Ret r' s')) :
  (r' = fail r /\ tasks (kern s') = tasks (kern s)) \/
  exists a t s2 v, r' = with_rax 0 r /\ 0 < a /\ ~ in_use (m_pmm (the_mach s)) (a / 4096) /\
    tasks (kern s2) = tasks (kern s) /\ cur s2 = cur s /\
    next t = next c /\ 0 <= kernel_stack_base t /\ pid t = 0 /\ ppid t = pid c /\
    state t = state c /\ signals t = signals c /\
    s' = set_task (cur s) (with_next a c) (set_task a t (set_vfs v s2)).
Proof.
  unfold sys_fork in H. rewrite (istrue_neq (cur s)) in H by done. cbn [negb] in H.
  destruct (paging_clone_current (the_mach s)) as [[pml4 m] |] eqn:E1;
    cbn [mbind option_bind] in H; [| discriminate H].
  destruct (clone_grows _ _ _ E1 Hw) as [Hw1 HU1].
  set (s1 := set_kern _ s) in H.
  assert (tasks (kern s1) = tasks (kern s) /\ g_current (kern s1) = cur s /\
    m_pmm (the_mach s1) = m_pmm m) as (T0 & C0 & P0) by done. clearbody s1.
  rewrite <- P0 in Hw1, HU1.
  destruct (istrue pml4); cbn [negb] in H; [| injection H as <- <-; by left].
  destruct (k_alloc_fresh (kern s1) Hw1) as (a & k1 & Ea & Hw2 & T1 & C1 & _ & _ & _ & Hfr).
  rewrite Ea in H. cbn [mbind option_bind] in H.
  destruct Hfr as [-> | (Ha1 & _ & _ & Han)].
  { change (istrue 0) with false in H. cbn [negb] in H. injection H as <- <-. left.
    split; [done |]. cbn. congruence. }
  rewrite istrue_neq in H by lia. cbn [negb] in H.
  assert (cur_task (set_kern k1 s1) = Some c) as Hc1.
  { unfold cur_task, cur, task_current. cbn [kern set_kern]. rewrite T1, C1, T0, C0. exact Hc. }
  rewrite Hc1 in H. cbn [mbind option_bind] in H. change (kern (set_kern k1 s1)) with k1 in H.
  destruct (k_alloc_fresh k1 Hw2) as (st & k2 & Es & Hw3 & T2 & C2 & _ & _ & _ & Hfs).
  rewrite Es in H. cbn [mbind option_bind] in H.
  destruct (istrue st) eqn:Est; cbn [negb] in H.
  2: { destruct (k_free_spec a k2 Hw3 ltac:(lia)) as (k3 & E3 & _ & T3 & _).
       rewrite E3 in H. cbn [mbind option_bind] in H. injection H as <- <-. left. split; [done |].
       cbn. congruence. }
  apply fork_child_shape in H as (t & s2 & v & -> & ET & EC & Hrest);
    [| destruct Hfs as [-> | (? & _)]; lia].
  assert (tasks (kern (set_kern k2 (set_kern k1 s1))) = tasks (kern s)) as ET1 by (cbn; congruence).
  assert (cur (set_kern k2 (set_kern k1 s1)) = cur s) as EC1.
  { unfold cur at 1, task_current. cbn. congruence. }
  rewrite ET1 in ET. rewrite EC1 in EC, Hrest.
  right. exists a, t, s2, v. split_and!; try done; try lia; try apply Hrest.
  intros Hu. by apply Han, HU1.
Qed.

(** Also: when fork returns, either it failed with -1 and the tasks are as before, or it
    has linked a new task just after its parent: a copy with the parent's process number
    as its parent. But the new task keeps process number 0 and 0 is what the parent gets,
    so neither can tell which of the two it is. *)
Theorem sys_fork_spec {D} (s s' : sys D) (r r' : regs) (l : list Z) (c : task_struct)
    (W : wf (kern s) (cur s :: l)) (F : task_frames (kern s)) (Hc : cur_task s = Some c)
    (H : sys_fork r s = Some (Ret r' s')) :
  (r' = fail r /\ tasks (kern s') = tasks (kern s)) \/
  (r' = with_rax 0 r /\ exists a t, (a ∉ cur s :: l) /\ tasks (kern s') !! a = Some t /\
     pid t = 0 /\ ppid t = pid c /\ state t = state c /\ signals t = signals c /\
     wf (set_tasks (tasks (kern s')) (kern s)) (cur s :: a :: l) /\
     same_tasks (kern s) (kern s') (cur s :: l)).
Proof.
  pose proof (w_nonzero _ _ W) as Hnz. assert (cur s <> 0) as Hc0 by (by inversion Hnz).
  destruct (sys_fork_shape s s' r r' c Hc0 (w_pmm _ _ W) Hc H)
    as [[-> ->] | (a & t & s2 & v & -> & Ha & Hu & ET & EC & Hn & Hk & Hrest)]; [by left |].
  destruct Hrest as (Hp & Hpp & Hs & Hsig & ->). right. split; [done |].
  assert (tasks (kern s) !! a = None) as Hna.
  { destruct (tasks (kern s) !! a) as [t' |] eqn:E; [| done]. by destruct (F _ _ E) as [_ ?]. }
  assert (tasks (kern (set_task (cur s) (with_next a c) (set_task a t (set_vfs v s2)))) =
    <[cur s := with_next a c]> (<[a := t]> (tasks (kern s)))) as ET' by (by rewrite <- ET).
  set (s3 := set_task (cur s) _ _) in *. clearbody s3. exists a, t.
  destruct (insert_wf (kern s) (set_tasks (tasks (kern s3)) (kern s)) (cur s) a l c t W Hc Hna Ha Hk Hn
    (chain_head _ _ _ W) (w_pmm _ _ W) ET') as (Hnl & W' & S' & Ea').
  by split_and!.
Qed.

(** ** Witnesses *)

Definition task_a : task_struct :=
  Task 1 0 TASK_RUNNING 0xB100 0 0 0 0
    ((replicate TASK_MAX_FD (FdEntry 0 0 0)).[3 <- FdEntry 0x80000 FD_TYPE_PIPE_R 1]
       .[4 <- FdEntry 0x80000 FD_TYPE_PIPE_W 1].[5 <- FdEntry 0x300 FD_TYPE_FILE 1])
    (replicate TASK_MAX_SIGNALS (Signal 0 0 0)) 0xB000 0x9000.
Definition task_b : task_struct :=
  Task 2 1 TASK_TERMINATED 0 0 0 0 7 (replicate TASK_MAX_FD (FdEntry 0 0 0))
    (replicate TASK_MAX_SIGNALS (Signal 0 0 0)) 0xA000 0x8000.
Definition sys_tasks : gmap Z task_struct := <[0x8000 := task_a]> (<[0x9000 := task_b]> ∅).
Definition sys_kernel : kernel :=
  mkKernel (heap_boot mach_ex) sys_tasks 0x8000 3 0x1000 0 0x1000 false.
Definition sys_fs : filesystem unit := Fs 0x100 None None None None None.
Definition sys_vst : vst unit :=
  mkVst (heap_boot mach_ex)
    (<[0x100 := Node [47] 0 VFS_DIR 1 0 0 0x200 0]> (<[0x200 := Node [97] 5 VFS_FILE 1 0 0x100 0 0]> ∅))
    (<[0x300 := File 0x200 0]> ∅) ∅ [([SLASH], 1)] tt.
(** The bytes at the virtual address 0x200000 are "/" and a terminator. *)
Definition sys_ex : sys unit :=
  mkSys sys_kernel sys_vst [pipe_ex] (wrb 0x400000 47 ∅) 0 [] [].

Lemma sys_ex_uinj v : v = 0x200010 -> uinj sys_ex v 2.
Proof.
  intros -> x y a Hx Hy. assert (x = 0x200010 \/ x = 0x200011) as [-> | ->] by lia;
  assert (y = 0x200010 \/ y = 0x200011) as [-> | ->] by lia; try done; vm_compute; congruence.
Qed.

Lemma sys_ex_space : same_space sys_ex.
Proof. reflexivity. Qed.


Definition r_write : regs := Regs 1 4 0x200000 2 0 0 0.
Definition r_read : regs := Regs 3 3 0x200010 2 0 0 0.


Definition r_readdir (cap : Z) : regs := Regs 5 0x200000 0x200010 cap 0 0 0.
Definition dir_ex : list (list Z * Z * Z) := [([97], 5, VFS_FILE)].

Lemma sys_readdir_spec_witness :
  exists m, sys_readdir (fun _ => Some sys_fs) (r_readdir 2) sys_ex =
    Some (Ret (with_rax 1 (r_readdir 2)) (set_phys m (set_vfs (get_vfs sys_ex) sys_ex))).
Proof.
  assert (uspan (set_vfs (get_vfs sys_ex) sys_ex) (r_rsi (r_readdir 2)) (r_rdx (r_readdir 2))) as Hsp.
  { intros x Hx. cbn [r_readdir r_rsi r_rdx] in Hx.
    assert (x = 0x200010 \/ x = 0x200011) as [-> | ->] by lia; eexists; vm_compute; reflexivity. }
  destruct (sys_readdir_spec (fun _ => Some sys_fs) sys_ex (r_readdir 2) [47] 0 dir_ex (get_vfs sys_ex)
    ltac:(vm_compute; reflexivity) ltac:(vm_compute; reflexivity) ltac:(vm_compute; reflexivity)
    ltac:(lia) ltac:(done) ltac:(done) ltac:(done) Hsp (sys_ex_uinj _ eq_refl)
    ltac:(repeat constructor; unfold is_byte; simpl; lia)) as (m & H & _).
  exists m. exact H.
Defined.

Lemma sys_readdir_cap0_witness :
  sys_readdir (fun _ => Some sys_fs) (r_readdir 0) sys_ex =
    Some (Ret (with_rax 0 (r_readdir 0))
      (set_phys (wrb 0x40000F 0 (phys sys_ex)) (set_vfs (get_vfs sys_ex) sys_ex))).
Proof.
  exact (sys_readdir_cap0 (fun _ => Some sys_fs) sys_ex (r_readdir 0) [47] 0 dir_ex (get_vfs sys_ex) 0x40000F
    ltac:(vm_compute; reflexivity) ltac:(vm_compute; reflexivity) ltac:(vm_compute; reflexivity)
    ltac:(lia) eq_refl ltac:(done) ltac:(vm_compute; reflexivity)).
Defined.

Lemma copy_from_user_faults_witness :
  copy_from_user 0x3FFFFF 256 (set_phys (wrb 0x5FFFFF 65 ∅) sys_ex) = None.
Proof.
  exact (copy_from_user_faults (set_phys (wrb 0x5FFFFF 65 ∅) sys_ex) 0x3FFFFF 0x5FFFFF ltac:(lia)
    ltac:(vm_compute; reflexivity) ltac:(vm_compute; reflexivity) ltac:(vm_compute; lia)
    ltac:(vm_compute; reflexivity)).
Defined.

Definition sys_other : sys unit := set_kern (set_cpu 0 0xC000 sys_kernel) sys_ex.

Lemma sys_write_other_space_witness :
  sys_write (fun _ => Some sys_fs) 0x80000 (Regs 1 1 0x200000 2 0 0 0) sys_other = None.
Proof.
  exact (sys_write_other_space (fun _ => Some sys_fs) 0x80000 sys_other (Regs 1 1 0x200000 2 0 0 0)
    eq_refl ltac:(done) ltac:(vm_compute; reflexivity) ltac:(vm_compute; reflexivity)).
Defined.

Lemma sys_dup2_same_frees_witness :
  exists s' t', sys_dup2 (Regs 18 5 5 0 0 0 0) sys_ex = Some (Ret (Regs 5 5 5 0 0 0 0) s') /\
    cur_task s' = Some t' /\ open_entry 5 t' = Some (FdEntry 0x300 FD_TYPE_FILE 1).
Proof.
  destruct (sys_dup2_same_frees sys_ex (Regs 18 5 5 0 0 0 0) task_a (FdEntry 0x300 FD_TYPE_FILE 1)
    ltac:(done) ltac:(vm_compute; reflexivity) ltac:(vm_compute; reflexivity) eq_refl eq_refl ltac:(done))
    as (s' & t' & H1 & H2 & H3 & _).
  exists s', t'. exact (conj H1 (conj H2 H3)).
Defined.

Lemma sys_dup2_not_counted_witness :
  exists s1 s2, sys_dup2 (Regs 18 4 9 0 0 0 0) sys_ex = Some (Ret (Regs 9 4 9 0 0 0 0) s1) /\
    sys_close 0x80000 (Regs 4 4 0 0 0 0 0) s1 = Some (Ret (Regs 0 4 0 0 0 0 0) s2) /\
    read_pipe 0x80000 0x80000 r_read s2 = Some (Ret (with_rax 0 r_read) s2).
Proof.
  destruct (sys_dup2_not_counted (fun _ => Some sys_fs) 0x80000 sys_ex (Regs 18 4 9 0 0 0 0)
    (Regs 4 4 0 0 0 0 0) r_read task_a 0x80000 pipe_ex ltac:(done) ltac:(vm_compute; reflexivity) ltac:(done)
    ltac:(vm_compute; reflexivity) ltac:(vm_compute; reflexivity) ltac:(vm_compute; done)
    ltac:(vm_compute; reflexivity) eq_refl ltac:(vm_compute; reflexivity) eq_refl eq_refl)
    as (s1 & s2 & t2 & x2 & H1 & H2 & _ & _ & _ & _ & H3).
  exists s1, s2. exact (conj H1 (conj H2 H3)).
Defined.

Lemma sys_tasks_inv x t : sys_tasks !! x = Some t ->
  x = 0x8000 /\ t = task_a \/ x = 0x9000 /\ t = task_b.
Proof.
  unfold sys_tasks. intros [[<- <-] | [_ [[<- <-] | [_ H]]%lookup_insert_Some]]%lookup_insert_Some;
    [tauto | tauto | done].
Qed.

Lemma sys_ex_wf : wf (kern sys_ex) [0x8000; 0x9000].
Proof.
  split.
  - cbn [chain]. split; [done |]. exists 0x9000. split; [done |]. split; [done |]. by exists 0x8000.
  - done.
  - apply NoDup_cons. split; [by intros ?%list_elem_of_singleton |]. by apply NoDup_singleton.
  - by repeat constructor.
  - exact pmm_ex_wf.
  - by intros x t [[-> ->] | [-> ->]]%sys_tasks_inv.
Qed.

Lemma sys_ex_frames : task_frames (kern sys_ex).
Proof. intros x t [[-> ->] | [-> ->]]%sys_tasks_inv; (split; [done |]; split; [split |]; done). Qed.

Lemma sys_wait_spec_witness :
  exists k', sys_wait (Regs 12 0 0 0 0 0 0) sys_ex =
    Some (Ret (with_rax (u64 7) (Regs 12 0 0 0 0 0 0)) (set_kern k' sys_ex)) /\ wf k' [0x8000].
Proof.
  destruct (sys_wait_spec sys_ex (Regs 12 0 0 0 0 0 0) [0x9000] task_a sys_ex_wf eq_refl)
    as [(l1 & x & l2 & t & k' & El & Et & _ & _ & _ & H & W & _) | [Hn _]].
  - destruct l1 as [| y [| z l1]]; [injection El as <- <- | done | done].
    injection Et as <-. exists k'. exact (conj H W).
  - exfalso. inversion Hn as [| ? ? Hd _]. vm_compute in Hd. discriminate Hd.
Defined.

Lemma sys_kill_spec_witness :
  exists x t', sys_kill (Regs 15 2 9 0 0 0 0) sys_ex =
    Some (Ret (with_rax 0 (Regs 15 2 9 0 0 0 0)) (set_task x t' sys_ex)).
Proof.
  assert (forall x t, tasks (kern sys_ex) !! x = Some t -> zlen (signals t) = 32) as Hs.
  { by intros x t [[-> ->] | [-> ->]]%sys_tasks_inv. }
  destruct (sys_kill_spec sys_ex (Regs 15 2 9 0 0 0 0) [0x9000] sys_ex_wf Hs)
    as [(x & t & t' & _ & _ & _ & H & _) | [Hn _]].
  - exists x, t'. exact H.
  - exfalso. apply (Hn 0x9000 task_b); [right; left | reflexivity | reflexivity].
Defined.

Definition r_fork : regs := Regs 11 0 0 0 0 0 0.
Definition fork_returns : bool :=
  match sys_fork r_fork sys_ex with
  | Some (Ret r _) => negb (r_rax r =? u64 (-1))
  | _ => false
  end.

Lemma sys_fork_spec_witness :
  exists r' s' a t, sys_fork r_fork sys_ex = Some (Ret r' s') /\
    tasks (kern s') !! a = Some t /\ pid t = 0 /\ ppid t = 1.
Proof.
  assert (fork_returns = true) as Hr by (vm_compute; reflexivity). unfold fork_returns in Hr.
  destruct (sys_fork r_fork sys_ex) as [[r' s' | w r' s' | w r' s' | s'] |] eqn:H; try discriminate Hr.
  destruct (sys_fork_spec sys_ex s' r_fork r' [0x9000] task_a sys_ex_wf sys_ex_frames eq_refl H)
    as [[Hf _] | (_ & a & t & _ & H1 & H2 & H3 & _)].
  - exfalso. rewrite Hf in Hr. discriminate Hr.
  - exists r', s', a, t. exact (conj eq_refl (conj H1 (conj H2 H3))).
Defined.
