(* ===== verification/Rtl8139.v ===== *)
(** * Network card driver (src/drivers/rtl8139.c)

    The transmit buffers and the receive ring of the card. A frame handed to the card is
    appended to [wire]; [ports] collects the port writes of the driver in order. The ring
    is memory the card writes: its content and the values of the ports read are arguments
    or state, and do not change within a call. The handler of received packets is an
    argument, as the driver calls into the network stack. [rtl8139_init] is the start as
    the network stack needs it, given the answers of the hardware; Nic.v has the whole of
    it, with the search on the PCI bus, and proves that the two agree. *)

From S2P Require Import Prelude Pmm.

Definition RTL_TSD0 : Z := 0x10.
Definition RTL_TSAD0 : Z := 0x20.
Definition RTL_RBSTART : Z := 0x30.
Definition RTL_CR : Z := 0x37.
Definition RTL_CAPR : Z := 0x38.
Definition RTL_IMR : Z := 0x3C.
Definition RTL_ISR : Z := 0x3E.
Definition RTL_RCR : Z := 0x44.
Definition RTL_CR_RST : Z := 0x10.
Definition RTL_CR_RE : Z := 0x08.
Definition RTL_CR_TE : Z := 0x04.
Definition RTL_RCR_ALL : Z := Z.lor (Z.lor (Z.lor (Z.lor 0x01 0x02) 0x04) 0x08) 0x80.
Definition RTL_ISR_ROK : Z := 0x01.
Definition RTL_ISR_TOK : Z := 0x04.
Definition RTL_TX_BUFS : Z := 4.
Definition RTL_RX_BUF_SIZE : Z := 8192 + 16.
Definition ETH_ALEN : nat := 6.

Inductive port_write := Outb (port v : Z) | Outw (port v : Z) | Outl (port v : Z).

Record rtl := Rtl {
  g_io_base : Z;
  rtl_mac : list Z;
  g_rx_buffer : list Z;      (* the bytes of the ring *)
  rx_addr : Z;
  g_tx_buffer : list Z;      (* the addresses of the buffers *)
  g_tx_cur : Z;
  g_rx_offset : Z;
  wire : list (list Z);
  ports : list port_write }.

Definition out (w : port_write) (d : rtl) : rtl := Rtl (g_io_base d) (rtl_mac d) (g_rx_buffer d)
  (rx_addr d) (g_tx_buffer d) (g_tx_cur d) (g_rx_offset d) (wire d) (ports d ++ [w]).
Definition set_tx_cur v (d : rtl) : rtl := Rtl (g_io_base d) (rtl_mac d) (g_rx_buffer d)
  (rx_addr d) (g_tx_buffer d) v (g_rx_offset d) (wire d) (ports d).
Definition set_rx_offset v (d : rtl) : rtl := Rtl (g_io_base d) (rtl_mac d) (g_rx_buffer d)
  (rx_addr d) (g_tx_buffer d) (g_tx_cur d) v (wire d) (ports d).
Definition transmit f (d : rtl) : rtl := Rtl (g_io_base d) (rtl_mac d) (g_rx_buffer d)
  (rx_addr d) (g_tx_buffer d) (g_tx_cur d) (g_rx_offset d) (wire d ++ [f]) (ports d).
Definition set_rx_buffer v (d : rtl) : rtl := Rtl (g_io_base d) (rtl_mac d) v
  (rx_addr d) (g_tx_buffer d) (g_tx_cur d) (g_rx_offset d) (wire d) (ports d).

Definition reg (d : rtl) (r : Z) : Z := u16 (g_io_base d + r).

(** The buffers of the card come from the frame allocator. [base] is what bar 0 holds and
    [mac] what the card's address registers read. *)
Fixpoint alloc_tx (n : nat) (l : list Z) (p : pmm) : option (bool * list Z * pmm) :=
  match n with
  | O => Some (true, l, p)
  | S n' => r ← pmm_alloc p;
            let '(a, p) := r in
            if negb (istrue a) then Some (false, l ++ [a], p) else alloc_tx n' (l ++ [a]) p
  end.

Definition rtl8139_init (base : Z) (mac : list Z) (p : pmm) (d : rtl) : option (Z * rtl * pmm) :=
  let d := Rtl (Z.land base 0xFFFC) mac (g_rx_buffer d) (rx_addr d) (g_tx_buffer d) (g_tx_cur d)
             (g_rx_offset d) (wire d) (ports d) in
  let d := out (Outb (reg d RTL_CR) RTL_CR_RST) d in
  r ← pmm_alloc_contiguous 3 p;
  let '(rx, p) := r in
  if negb (istrue rx) then Some (-1, d, p)
  else
    let d := Rtl (g_io_base d) mac (replicate (Z.to_nat (3 * 4096)) 0) rx (g_tx_buffer d) (g_tx_cur d) 0 (wire d) (ports d) in
    let d := out (Outl (reg d RTL_RBSTART) (u32 rx)) d in
    r ← alloc_tx (Z.to_nat RTL_TX_BUFS) [] p;
    let '(ok, tx, p) := r in
    let d := Rtl (g_io_base d) mac (g_rx_buffer d) rx tx (g_tx_cur d) 0 (wire d) (ports d) in
    if negb (ok : bool) then Some (-1, d, p)
    else
      let d := out (Outb (reg d RTL_IMR) 0) d in
      let d := out (Outl (reg d RTL_RCR) RTL_RCR_ALL) d in
      Some (0, out (Outb (reg d RTL_CR) (Z.lor RTL_CR_TE RTL_CR_RE)) d, p).

(** The frame is the first [len] bytes of [data]. *)
Definition rtl8139_send (data : list Z) (len : Z) (d : rtl) : option (Z * rtl) :=
  if (len <? 14) || (1792 <? len) then Some (-1, d)
  else if zlen data <? len then None
  else
    buf ← zlook (g_tx_buffer d) (g_tx_cur d);
    let d := transmit (take (Z.to_nat len) data) d in
    let d := out (Outl (reg d (RTL_TSAD0 + g_tx_cur d * 4)) (u32 buf)) d in
    let d := out (Outl (reg d (RTL_TSD0 + g_tx_cur d * 4)) (Z.lor (Z.land len 0x1FFF) 0x10000)) d in
    Some (0, set_tx_cur ((g_tx_cur d + 1) mod RTL_TX_BUFS) d).

Definition le16 (l : list Z) (i : Z) : option Z :=
  a ← zlook l i; b ← zlook l (i + 1); Some (a + 256 * b).

Section poll.
Context {S : Type} (card : S -> rtl) (set_card : rtl -> S -> S)
  (handle : list Z -> Z -> S -> option S).

(** The packet at the read offset: [None] as a value when the card has none there. *)
Definition rx_packet (d : rtl) : option (option (Z * list Z)) :=
  st ← le16 (g_rx_buffer d) (g_rx_offset d);
  len ← le16 (g_rx_buffer d) (g_rx_offset d + 2);
  if negb (istrue (Z.land st (Z.lor 0x8000 0x0001))) then Some None
  else
    let len := Z.land len 0x3FFF in
    if (len =? 0) || (len =? 0xFFF0) then Some None
    else Some (Some (len, drop (Z.to_nat (g_rx_offset d + 4)) (g_rx_buffer d))).

Definition next_rx_offset (off len : Z) : Z :=
  let o := Z.land (u32 (off + len + 4 + 3)) (u32 (Z.lnot 3)) in
  if RTL_RX_BUF_SIZE <=? o then 0 else o.

(** [status] is the value of the status register. The 1000 spins of the code read the
    same memory again and end without a packet when the first does. *)
Definition rtl8139_poll (status : Z) (s : S) : option (Z * S) :=
  if istrue (Z.land status RTL_ISR_ROK) then
    let s := set_card (out (Outw (reg (card s) RTL_ISR) RTL_ISR_ROK) (card s)) s in
    r ← rx_packet (card s);
    match r with
    | None => Some (0, s)
    | Some (len, pkt) =>
        s ← handle pkt len s;
        let d := card s in
        let o := next_rx_offset (g_rx_offset d) len in
        let d := set_rx_offset o d in
        Some (1, set_card (out (Outw (reg d RTL_CAPR) (u16 (o - 16))) d) s)
    end
  else if istrue (Z.land status RTL_ISR_TOK)
  then Some (0, set_card (out (Outw (reg (card s) RTL_ISR) RTL_ISR_TOK) (card s)) s)
  else Some (0, s).
End poll.

Definition rtl8139_get_mac (d : rtl) : list Z := rtl_mac d.

(** ** Properties *)

Definition nic_ok (d : rtl) : Prop := zlen (g_tx_buffer d) = RTL_TX_BUFS /\ 0 <= g_tx_cur d < RTL_TX_BUFS.

Lemma rtl8139_send_ok data d : nic_ok d -> 14 <= zlen data <= 1792 ->
  exists d', rtl8139_send data (zlen data) d = Some (0, d') /\ nic_ok d' /\ wire d' = wire d ++ [data] /\
    g_tx_cur d' = (g_tx_cur d + 1) mod 4 /\ g_rx_buffer d' = g_rx_buffer d /\ g_rx_offset d' = g_rx_offset d.
Proof.
  intros [Hl Hc] Hd. unfold RTL_TX_BUFS in *. unfold rtl8139_send.
  destruct (Z.ltb_spec (zlen data) 14), (Z.ltb_spec 1792 (zlen data)); try lia. cbn [orb].
  rewrite Z.ltb_irrefl. destruct (zlook_in_range (g_tx_buffer d) (g_tx_cur d)) as [b Hb]; [lia |].
  rewrite Hb. cbn [mbind option_bind].
  assert (take (Z.to_nat (zlen data)) data = data) as -> by (apply take_ge; unfold zlen; lia).
  eexists. split; [done |]. unfold nic_ok, RTL_TX_BUFS. cbn. split_and!; done || lia.
Qed.
