(* ===== verification/Net.v ===== *)
(** * Network stack (src/net/net.c)

    ARP, IPv4, ICMP, UDP, DHCP, DNS and a TCP client that fetches one page over HTTP. The
    static variables of the file are the record [net], with those of the connection and
    of the page in records of their own; the variables g_http_body and g_http_body_len
    are the list of the bytes stored. A received packet is the list of the bytes of
    memory from its first byte on, which may go on after the packet, and its length; a
    read beyond that list is [None]. Addresses are the 32-bit values the code keeps, with
    the first byte lowest. Log messages are left out. *)

From S2P Require Import Prelude Pmm Rtl8139.

Record tcp_conn := Tcp {
  g_tcp_state : Z;
  g_tcp_remote_ip : Z;
  g_tcp_seq : Z;
  g_tcp_ack : Z;
  g_tcp_get_seq : Z;
  g_tcp_get_len : Z;
  g_tcp_wait_ticks : Z;
  g_tcp_retries : Z }.

Definition set_tcp_state v (t : tcp_conn) : tcp_conn := Tcp v (g_tcp_remote_ip t) (g_tcp_seq t)
  (g_tcp_ack t) (g_tcp_get_seq t) (g_tcp_get_len t) (g_tcp_wait_ticks t) (g_tcp_retries t).
Definition set_tcp_remote_ip v (t : tcp_conn) : tcp_conn := Tcp (g_tcp_state t) v (g_tcp_seq t)
  (g_tcp_ack t) (g_tcp_get_seq t) (g_tcp_get_len t) (g_tcp_wait_ticks t) (g_tcp_retries t).
Definition set_tcp_seq v (t : tcp_conn) : tcp_conn := Tcp (g_tcp_state t) (g_tcp_remote_ip t) v
  (g_tcp_ack t) (g_tcp_get_seq t) (g_tcp_get_len t) (g_tcp_wait_ticks t) (g_tcp_retries t).
Definition set_tcp_ack v (t : tcp_conn) : tcp_conn := Tcp (g_tcp_state t) (g_tcp_remote_ip t)
  (g_tcp_seq t) v (g_tcp_get_seq t) (g_tcp_get_len t) (g_tcp_wait_ticks t) (g_tcp_retries t).
Definition set_tcp_get_seq v (t : tcp_conn) : tcp_conn := Tcp (g_tcp_state t) (g_tcp_remote_ip t)
  (g_tcp_seq t) (g_tcp_ack t) v (g_tcp_get_len t) (g_tcp_wait_ticks t) (g_tcp_retries t).
Definition set_tcp_get_len v (t : tcp_conn) : tcp_conn := Tcp (g_tcp_state t) (g_tcp_remote_ip t)
  (g_tcp_seq t) (g_tcp_ack t) (g_tcp_get_seq t) v (g_tcp_wait_ticks t) (g_tcp_retries t).
Definition set_tcp_wait_ticks v (t : tcp_conn) : tcp_conn := Tcp (g_tcp_state t) (g_tcp_remote_ip t)
  (g_tcp_seq t) (g_tcp_ack t) (g_tcp_get_seq t) (g_tcp_get_len t) v (g_tcp_retries t).
Definition set_tcp_retries v (t : tcp_conn) : tcp_conn := Tcp (g_tcp_state t) (g_tcp_remote_ip t)
  (g_tcp_seq t) (g_tcp_ack t) (g_tcp_get_seq t) (g_tcp_get_len t) (g_tcp_wait_ticks t) v.

Record http_state := Http {
  g_http_ok : Z;
  g_http_bytes : Z;
  g_http_chunks : Z;
  g_http_headers_done : Z;
  g_http_body_printed : Z;
  g_http_body : list Z;
  g_http_host : list Z }.

Definition set_http_ok v (h : http_state) : http_state := Http v (g_http_bytes h) (g_http_chunks h)
  (g_http_headers_done h) (g_http_body_printed h) (g_http_body h) (g_http_host h).
Definition set_http_bytes v (h : http_state) : http_state := Http (g_http_ok h) v (g_http_chunks h)
  (g_http_headers_done h) (g_http_body_printed h) (g_http_body h) (g_http_host h).
Definition set_http_chunks v (h : http_state) : http_state := Http (g_http_ok h) (g_http_bytes h) v
  (g_http_headers_done h) (g_http_body_printed h) (g_http_body h) (g_http_host h).
Definition set_http_headers_done v (h : http_state) : http_state := Http (g_http_ok h) (g_http_bytes
  h) (g_http_chunks h) v (g_http_body_printed h) (g_http_body h) (g_http_host h).
Definition set_http_body_printed v (h : http_state) : http_state := Http (g_http_ok h) (g_http_bytes
  h) (g_http_chunks h) (g_http_headers_done h) v (g_http_body h) (g_http_host h).
Definition set_http_body v (h : http_state) : http_state := Http (g_http_ok h) (g_http_bytes h)
  (g_http_chunks h) (g_http_headers_done h) (g_http_body_printed h) v (g_http_host h).
Definition set_http_host v (h : http_state) : http_state := Http (g_http_ok h) (g_http_bytes h)
  (g_http_chunks h) (g_http_headers_done h) (g_http_body_printed h) (g_http_body h) v.

Record net := Net {
  g_mac : list Z;
  g_gateway_mac : list Z;
  g_gateway_known : Z;
  g_dhcp_configured : Z;
  g_dhcp_requested : Z;
  g_dns_requested : Z;
  g_ip_id : Z;
  g_icmp_seq : Z;
  g_dns_host : list Z;
  g_local_ip : Z;
  g_gateway_ip : Z;
  g_dns_ip : Z;
  g_dns_answer_ip : Z;
  g_dhcp_server_ip : Z;
  g_offered_ip : Z;
  g_ping_replied : Z;
  g_tcp : tcp_conn;
  g_http : http_state;
  g_nic : rtl }.

Definition set_mac v (n : net) : net := Net v (g_gateway_mac n) (g_gateway_known n)
  (g_dhcp_configured n) (g_dhcp_requested n) (g_dns_requested n) (g_ip_id n) (g_icmp_seq n)
  (g_dns_host n) (g_local_ip n) (g_gateway_ip n) (g_dns_ip n) (g_dns_answer_ip n) (g_dhcp_server_ip
  n) (g_offered_ip n) (g_ping_replied n) (g_tcp n) (g_http n) (g_nic n).
Definition set_gateway_mac v (n : net) : net := Net (g_mac n) v (g_gateway_known n)
  (g_dhcp_configured n) (g_dhcp_requested n) (g_dns_requested n) (g_ip_id n) (g_icmp_seq n)
  (g_dns_host n) (g_local_ip n) (g_gateway_ip n) (g_dns_ip n) (g_dns_answer_ip n) (g_dhcp_server_ip
  n) (g_offered_ip n) (g_ping_replied n) (g_tcp n) (g_http n) (g_nic n).
Definition set_gateway_known v (n : net) : net := Net (g_mac n) (g_gateway_mac n) v
  (g_dhcp_configured n) (g_dhcp_requested n) (g_dns_requested n) (g_ip_id n) (g_icmp_seq n)
  (g_dns_host n) (g_local_ip n) (g_gateway_ip n) (g_dns_ip n) (g_dns_answer_ip n) (g_dhcp_server_ip
  n) (g_offered_ip n) (g_ping_replied n) (g_tcp n) (g_http n) (g_nic n).
Definition set_dhcp_configured v (n : net) : net := Net (g_mac n) (g_gateway_mac n) (g_gateway_known
  n) v (g_dhcp_requested n) (g_dns_requested n) (g_ip_id n) (g_icmp_seq n) (g_dns_host n)
  (g_local_ip n) (g_gateway_ip n) (g_dns_ip n) (g_dns_answer_ip n) (g_dhcp_server_ip n)
  (g_offered_ip n) (g_ping_replied n) (g_tcp n) (g_http n) (g_nic n).
Definition set_dhcp_requested v (n : net) : net := Net (g_mac n) (g_gateway_mac n) (g_gateway_known
  n) (g_dhcp_configured n) v (g_dns_requested n) (g_ip_id n) (g_icmp_seq n) (g_dns_host n)
  (g_local_ip n) (g_gateway_ip n) (g_dns_ip n) (g_dns_answer_ip n) (g_dhcp_server_ip n)
  (g_offered_ip n) (g_ping_replied n) (g_tcp n) (g_http n) (g_nic n).
Definition set_dns_requested v (n : net) : net := Net (g_mac n) (g_gateway_mac n) (g_gateway_known
  n) (g_dhcp_configured n) (g_dhcp_requested n) v (g_ip_id n) (g_icmp_seq n) (g_dns_host n)
  (g_local_ip n) (g_gateway_ip n) (g_dns_ip n) (g_dns_answer_ip n) (g_dhcp_server_ip n)
  (g_offered_ip n) (g_ping_replied n) (g_tcp n) (g_http n) (g_nic n).
Definition set_ip_id v (n : net) : net := Net (g_mac n) (g_gateway_mac n) (g_gateway_known n)
  (g_dhcp_configured n) (g_dhcp_requested n) (g_dns_requested n) v (g_icmp_seq n) (g_dns_host n)
  (g_local_ip n) (g_gateway_ip n) (g_dns_ip n) (g_dns_answer_ip n) (g_dhcp_server_ip n)
  (g_offered_ip n) (g_ping_replied n) (g_tcp n) (g_http n) (g_nic n).
Definition set_icmp_seq v (n : net) : net := Net (g_mac n) (g_gateway_mac n) (g_gateway_known n)
  (g_dhcp_configured n) (g_dhcp_requested n) (g_dns_requested n) (g_ip_id n) v (g_dns_host n)
  (g_local_ip n) (g_gateway_ip n) (g_dns_ip n) (g_dns_answer_ip n) (g_dhcp_server_ip n)
  (g_offered_ip n) (g_ping_replied n) (g_tcp n) (g_http n) (g_nic n).
Definition set_dns_host v (n : net) : net := Net (g_mac n) (g_gateway_mac n) (g_gateway_known n)
  (g_dhcp_configured n) (g_dhcp_requested n) (g_dns_requested n) (g_ip_id n) (g_icmp_seq n) v
  (g_local_ip n) (g_gateway_ip n) (g_dns_ip n) (g_dns_answer_ip n) (g_dhcp_server_ip n)
  (g_offered_ip n) (g_ping_replied n) (g_tcp n) (g_http n) (g_nic n).
Definition set_local_ip v (n : net) : net := Net (g_mac n) (g_gateway_mac n) (g_gateway_known n)
  (g_dhcp_configured n) (g_dhcp_requested n) (g_dns_requested n) (g_ip_id n) (g_icmp_seq n)
  (g_dns_host n) v (g_gateway_ip n) (g_dns_ip n) (g_dns_answer_ip n) (g_dhcp_server_ip n)
  (g_offered_ip n) (g_ping_replied n) (g_tcp n) (g_http n) (g_nic n).
Definition set_gateway_ip v (n : net) : net := Net (g_mac n) (g_gateway_mac n) (g_gateway_known n)
  (g_dhcp_configured n) (g_dhcp_requested n) (g_dns_requested n) (g_ip_id n) (g_icmp_seq n)
  (g_dns_host n) (g_local_ip n) v (g_dns_ip n) (g_dns_answer_ip n) (g_dhcp_server_ip n)
  (g_offered_ip n) (g_ping_replied n) (g_tcp n) (g_http n) (g_nic n).
Definition set_dns_ip v (n : net) : net := Net (g_mac n) (g_gateway_mac n) (g_gateway_known n)
  (g_dhcp_configured n) (g_dhcp_requested n) (g_dns_requested n) (g_ip_id n) (g_icmp_seq n)
  (g_dns_host n) (g_local_ip n) (g_gateway_ip n) v (g_dns_answer_ip n) (g_dhcp_server_ip n)
  (g_offered_ip n) (g_ping_replied n) (g_tcp n) (g_http n) (g_nic n).
Definition set_dns_answer_ip v (n : net) : net := Net (g_mac n) (g_gateway_mac n) (g_gateway_known
  n) (g_dhcp_configured n) (g_dhcp_requested n) (g_dns_requested n) (g_ip_id n) (g_icmp_seq n)
  (g_dns_host n) (g_local_ip n) (g_gateway_ip n) (g_dns_ip n) v (g_dhcp_server_ip n) (g_offered_ip
  n) (g_ping_replied n) (g_tcp n) (g_http n) (g_nic n).
Definition set_dhcp_server_ip v (n : net) : net := Net (g_mac n) (g_gateway_mac n) (g_gateway_known
  n) (g_dhcp_configured n) (g_dhcp_requested n) (g_dns_requested n) (g_ip_id n) (g_icmp_seq n)
  (g_dns_host n) (g_local_ip n) (g_gateway_ip n) (g_dns_ip n) (g_dns_answer_ip n) v (g_offered_ip n)
  (g_ping_replied n) (g_tcp n) (g_http n) (g_nic n).
Definition set_offered_ip v (n : net) : net := Net (g_mac n) (g_gateway_mac n) (g_gateway_known n)
  (g_dhcp_configured n) (g_dhcp_requested n) (g_dns_requested n) (g_ip_id n) (g_icmp_seq n)
  (g_dns_host n) (g_local_ip n) (g_gateway_ip n) (g_dns_ip n) (g_dns_answer_ip n) (g_dhcp_server_ip
  n) v (g_ping_replied n) (g_tcp n) (g_http n) (g_nic n).
Definition set_ping_replied v (n : net) : net := Net (g_mac n) (g_gateway_mac n) (g_gateway_known n)
  (g_dhcp_configured n) (g_dhcp_requested n) (g_dns_requested n) (g_ip_id n) (g_icmp_seq n)
  (g_dns_host n) (g_local_ip n) (g_gateway_ip n) (g_dns_ip n) (g_dns_answer_ip n) (g_dhcp_server_ip
  n) (g_offered_ip n) v (g_tcp n) (g_http n) (g_nic n).
Definition set_tcp v (n : net) : net := Net (g_mac n) (g_gateway_mac n) (g_gateway_known n)
  (g_dhcp_configured n) (g_dhcp_requested n) (g_dns_requested n) (g_ip_id n) (g_icmp_seq n)
  (g_dns_host n) (g_local_ip n) (g_gateway_ip n) (g_dns_ip n) (g_dns_answer_ip n) (g_dhcp_server_ip
  n) (g_offered_ip n) (g_ping_replied n) v (g_http n) (g_nic n).
Definition set_http v (n : net) : net := Net (g_mac n) (g_gateway_mac n) (g_gateway_known n)
  (g_dhcp_configured n) (g_dhcp_requested n) (g_dns_requested n) (g_ip_id n) (g_icmp_seq n)
  (g_dns_host n) (g_local_ip n) (g_gateway_ip n) (g_dns_ip n) (g_dns_answer_ip n) (g_dhcp_server_ip
  n) (g_offered_ip n) (g_ping_replied n) (g_tcp n) v (g_nic n).
Definition set_nic v (n : net) : net := Net (g_mac n) (g_gateway_mac n) (g_gateway_known n)
  (g_dhcp_configured n) (g_dhcp_requested n) (g_dns_requested n) (g_ip_id n) (g_icmp_seq n)
  (g_dns_host n) (g_local_ip n) (g_gateway_ip n) (g_dns_ip n) (g_dns_answer_ip n) (g_dhcp_server_ip
  n) (g_offered_ip n) (g_ping_replied n) (g_tcp n) (g_http n) v.

(** Changes to the connection, to the page and to the card. *)
Definition on_tcp (f : tcp_conn -> tcp_conn) (n : net) : net := set_tcp (f (g_tcp n)) n.
Definition on_http (f : http_state -> http_state) (n : net) : net := set_http (f (g_http n)) n.

Definition IP_PROTO_ICMP : Z := 1.
Definition IP_PROTO_TCP : Z := 6.
Definition IP_PROTO_UDP : Z := 17.
Definition ETH_P_ARP : Z := 0x0806.
Definition ETH_P_IP : Z := 0x0800.
Definition DHCP_CLIENT_PORT : Z := 68.
Definition DHCP_SERVER_PORT : Z := 67.
Definition DHCP_XID : Z := 0xE900C0DE.
Definition DHCP_MAGIC : Z := 0x63825363.
Definition DHCP_DISCOVER : Z := 1.
Definition DHCP_OFFER : Z := 2.
Definition DHCP_REQUEST : Z := 3.
Definition DHCP_ACK : Z := 5.
Definition DNS_PORT : Z := 53.
Definition DNS_CLIENT_PORT : Z := 49153.
Definition DNS_XID : Z := 0xE901.
Definition TCP_HTTP_PORT : Z := 80.
Definition TCP_CLIENT_PORT : Z := 49154.
Definition TCP_FLAG_FIN : Z := 0x01.
Definition TCP_FLAG_SYN : Z := 0x02.
Definition TCP_FLAG_RST : Z := 0x04.
Definition TCP_FLAG_PSH : Z := 0x08.
Definition TCP_FLAG_ACK : Z := 0x10.
Definition TCP_RETRY_TICKS : Z := 200000.
Definition TCP_MAX_RETRIES : Z := 3.
Definition HTTP_BODY_BUF_SIZE : Z := 512.
Definition ISN : Z := 0xE0020000.
Definition NET_IP (a b c d : Z) : Z :=
  Z.lor (Z.lor (Z.lor a (Z.shiftl b 8)) (Z.shiftl c 16)) (Z.shiftl d 24).

(** ** Bytes of packets *)

(** The bytes of a big-endian field and of an address as it is kept. *)
Definition be16_bytes (v : Z) : list Z := [v / 256 mod 256; v mod 256].
Definition be32_bytes (v : Z) : list Z :=
  [v / 16777216 mod 256; v / 65536 mod 256; v / 256 mod 256; v mod 256].
Definition ip_bytes (v : Z) : list Z :=
  [v mod 256; v / 256 mod 256; v / 65536 mod 256; v / 16777216 mod 256].

Definition be16 (l : list Z) (i : Z) : option Z :=
  a ← zlook l i; b ← zlook l (i + 1); Some (256 * a + b).
Definition be32 (l : list Z) (i : Z) : option Z :=
  a ← be16 l i; b ← be16 l (i + 2); Some (65536 * a + b).
Definition ip_at (l : list Z) (i : Z) : option Z :=
  a ← zlook l i; b ← zlook l (i + 1); c ← zlook l (i + 2); d ← zlook l (i + 3);
  Some (a + 256 * b + 65536 * c + 16777216 * d).
(** [n] bytes from [i] on. *)
Definition bytes_at (l : list Z) (i n : Z) : option (list Z) :=
  if (0 <=? i) && (0 <=? n) && (i + n <=? zlen l) then Some (take (Z.to_nat n) (drop (Z.to_nat i) l)) else None.

Fixpoint sum16 (l : list Z) : Z :=
  match l with
  | a :: b :: l' => 256 * a + b + sum16 l'
  | [a] => 256 * a
  | [] => 0
  end.
(** [while (sum >> 16) sum = (sum & 0xFFFF) + (sum >> 16);] *)
Fixpoint fold16 (fuel : nat) (sum : Z) : Z :=
  match fuel with
  | O => sum
  | S f => if istrue (Z.shiftr sum 16) then fold16 f (Z.land sum 0xFFFF + Z.shiftr sum 16) else sum
  end.
(** Three rounds fold a sum of 32 bits. *)
Definition checksum16 (l : list Z) : Z := u16 (Z.lnot (fold16 3 (u32 (sum16 l)))).

Definition mac_is_broadcast (m : list Z) : bool := forallb (fun b => b =? 0xFF) m.

(** ** Sending *)

Definition rtl_send (frame : list Z) (n : net) : option net :=
  r ← rtl8139_send frame (zlen frame) (g_nic n); Some (set_nic (snd r) n).

Definition eth_header (dst src : list Z) (type : Z) : list Z := dst ++ src ++ be16_bytes type.

Definition ipv4_fields (id src dst proto payload_len ck : Z) : list Z :=
  [0x45; 0] ++ be16_bytes (u16 (20 + payload_len)) ++ be16_bytes id ++ be16_bytes 0x4000 ++
  [64; proto] ++ be16_bytes ck ++ ip_bytes src ++ ip_bytes dst.
Definition build_ipv4 (src dst proto payload_len : Z) (n : net) : list Z * net :=
  let ck := checksum16 (ipv4_fields (g_ip_id n) src dst proto payload_len 0) in
  (ipv4_fields (g_ip_id n) src dst proto payload_len ck, set_ip_id (u16 (g_ip_id n + 1)) n).

Definition send_udp (dst_mac : list Z) (src_ip dst_ip src_port dst_port : Z) (payload : list Z)
    (n : net) : option net :=
  let udp_len := 8 + zlen payload in
  let '(ip, n) := build_ipv4 src_ip dst_ip IP_PROTO_UDP udp_len n in
  rtl_send (eth_header dst_mac (g_mac n) ETH_P_IP ++ ip ++
    be16_bytes src_port ++ be16_bytes dst_port ++ be16_bytes (u16 udp_len) ++ be16_bytes 0 ++ payload) n.

(** [src] and [dst] are the bytes of the addresses in the IP header. *)
Definition tcp_checksum_segment (src dst segment : list Z) (tcp_len : Z) : Z :=
  if (tcp_len <? 20) || (1500 <? tcp_len) then 0
  else checksum16 (src ++ dst ++ [0; IP_PROTO_TCP] ++ be16_bytes tcp_len ++ segment).

Definition tcp_fields (src_port dst_port seq ack flags ck : Z) (payload : list Z) : list Z :=
  be16_bytes src_port ++ be16_bytes dst_port ++ be32_bytes seq ++ be32_bytes ack ++
  [80; flags] ++ be16_bytes 4096 ++ be16_bytes ck ++ be16_bytes 0 ++ payload.
Definition send_tcp_segment (dst_ip : Z) (dst_mac : list Z) (seq ack flags : Z) (payload : list Z)
    (n : net) : option net :=
  let tcp_len := 20 + zlen payload in
  let '(ip, n) := build_ipv4 (g_local_ip n) dst_ip IP_PROTO_TCP tcp_len n in
  let ck := tcp_checksum_segment (ip_bytes (g_local_ip n)) (ip_bytes dst_ip)
              (tcp_fields TCP_CLIENT_PORT TCP_HTTP_PORT seq ack flags 0 payload) tcp_len in
  rtl_send (eth_header dst_mac (g_mac n) ETH_P_IP ++ ip ++ tcp_fields TCP_CLIENT_PORT TCP_HTTP_PORT seq ack flags ck payload) n.

(** An acknowledgement from the state of the connection. *)
Definition send_ack (n : net) : option net :=
  let t := g_tcp n in
  send_tcp_segment (g_tcp_remote_ip t) (g_gateway_mac n) (g_tcp_seq t) (g_tcp_ack t) TCP_FLAG_ACK [] n.
Definition send_syn (dst_ip : Z) (n : net) : option net :=
  send_tcp_segment dst_ip (g_gateway_mac n) (g_tcp_seq (g_tcp n)) 0 TCP_FLAG_SYN [] n.

Definition tcp_http_start (dst_ip : Z) (n : net) : option net :=
  if negb (istrue (g_gateway_known n)) || negb (g_tcp_state (g_tcp n) =? 0) then Some n
  else
    let n := set_tcp (Tcp 1 dst_ip ISN 0 0 0 0 0) n in
    let n := on_http (fun h => set_http_chunks 0 (set_http_bytes 0 h)) n in
    send_syn dst_ip n.

(** ** The page *)

Definition CRLF : list Z := [13; 10].
(** "GET / HTTP/1.0\r\nHost: " and "\r\nUser-Agent: EponaOS\r\n\r\n". *)
Definition GET_LINE : list Z :=
  [71; 69; 84; 32; 47; 32; 72; 84; 84; 80; 47; 49; 46; 48] ++ CRLF ++ [72; 111; 115; 116; 58; 32].
Definition AGENT_LINE : list Z :=
  CRLF ++ [85; 115; 101; 114; 45; 65; 103; 101; 110; 116; 58; 32; 69; 112; 111; 110; 97; 79; 83] ++
  CRLF ++ CRLF.

Definition http_store_body (data : list Z) (h : http_state) : http_state :=
  if (zlen data <=? 0) || (HTTP_BODY_BUF_SIZE - 1 <=? zlen (g_http_body h)) then h
  else
    let space := HTTP_BODY_BUF_SIZE - 1 - zlen (g_http_body h) in
    let len := if space <? zlen data then space else zlen data in
    set_http_body (g_http_body h ++ take (Z.to_nat len) data) h.

(** What follows the first empty line. *)
Fixpoint after_headers (l : list Z) : option (list Z) :=
  match l with
  | a :: ((b :: c :: d :: rest) as l') =>
      if (a =? 13) && (b =? 10) && (c =? 13) && (d =? 10) then Some rest else after_headers l'
  | _ => None
  end.

Definition http_process_payload (payload : list Z) (h : http_state) : http_state :=
  if istrue (g_http_headers_done h) then http_store_body payload h
  else match after_headers payload with
       | Some body => http_store_body body (set_http_headers_done 1 h)
       | None => h
       end.

Definition http_print_body_preview (h : http_state) : http_state :=
  if istrue (g_http_body_printed h) || (zlen (g_http_body h) =? 0) then h else set_http_body_printed 1 h.

Section net.
(** The byte of memory after the string of the request, which is copied with it. *)
Context (after_literal : Z).
Implicit Types n : net.

(** memcpy takes 27 bytes of a literal of 25 characters. *)
Definition http_request (host : list Z) : list Z :=
  GET_LINE ++ take 60 host ++ AGENT_LINE ++ [0; after_literal].

Definition tcp_http_send_get n : option net :=
  let req := http_request (g_http_host (g_http n)) in
  let t := g_tcp n in
  let n := set_tcp (Tcp (g_tcp_state t) (g_tcp_remote_ip t) (g_tcp_seq t) (g_tcp_ack t)
             (g_tcp_seq t) (zlen req) 0 0) n in
  n ← send_tcp_segment (g_tcp_remote_ip t) (g_gateway_mac n) (g_tcp_seq t) (g_tcp_ack t)
        (Z.lor TCP_FLAG_PSH TCP_FLAG_ACK) req n;
  Some (on_tcp (fun t => set_tcp_state 3 (set_tcp_seq (u32 (g_tcp_seq t + zlen req)) t)) n).

Definition tcp_http_retry_get n : option net :=
  let t := g_tcp n in
  send_tcp_segment (g_tcp_remote_ip t) (g_gateway_mac n) (g_tcp_get_seq t) (g_tcp_ack t)
    (Z.lor TCP_FLAG_PSH TCP_FLAG_ACK) (http_request (g_http_host (g_http n))) n.

Definition tcp_poll_retransmit n : option net :=
  let t := g_tcp n in
  if negb (g_tcp_state t =? 1) && negb (g_tcp_state t =? 3) then Some n
  else
    let w := u32 (g_tcp_wait_ticks t + 1) in
    if w <? TCP_RETRY_TICKS then Some (on_tcp (set_tcp_wait_ticks w) n)
    else
      let n := on_tcp (set_tcp_wait_ticks 0) n in
      if TCP_MAX_RETRIES <=? g_tcp_retries t then Some (on_tcp (set_tcp_state 7) n)
      else
        let n := on_tcp (set_tcp_retries (g_tcp_retries t + 1)) n in
        if g_tcp_state t =? 1 then send_syn (g_tcp_remote_ip t) n
        else tcp_http_retry_get n.

(** ** DHCP and ARP requests *)

Definition dhcp_add_option (code : Z) (data : list Z) : list Z := [code; zlen data] ++ data.

Definition dhcp_fixed (mac : list Z) : list Z :=
  [1; 1; 6; 0] ++ be32_bytes DHCP_XID ++ [0; 0] ++ be16_bytes 0x8000 ++ replicate 16 0 ++
  mac ++ replicate 10 0 ++ replicate 64 0 ++ replicate 128 0 ++ be32_bytes DHCP_MAGIC.
Definition dhcp_options (msg_type requested_ip server_ip : Z) : list Z :=
  dhcp_add_option 53 [msg_type] ++
  (if istrue requested_ip then dhcp_add_option 50 (ip_bytes requested_ip) else []) ++
  (if istrue server_ip then dhcp_add_option 54 (ip_bytes server_ip) else []) ++
  dhcp_add_option 55 [1; 3; 6; 15; 51; 54] ++ dhcp_add_option 57 (be16_bytes 576) ++ [255].
Definition send_dhcp (msg_type requested_ip server_ip : Z) n : option net :=
  let p := dhcp_fixed (g_mac n) ++ dhcp_options msg_type requested_ip server_ip in
  let payload := p ++ replicate (Z.to_nat (300 - zlen p)) 0 in
  send_udp (replicate 6 255) 0 (NET_IP 255 255 255 255) DHCP_CLIENT_PORT DHCP_SERVER_PORT payload n.

Definition send_arp_request (target_ip : Z) n : option net :=
  rtl_send (eth_header (replicate 6 255) (g_mac n) ETH_P_ARP ++ be16_bytes 1 ++ be16_bytes ETH_P_IP ++
    [6; 4] ++ be16_bytes 1 ++ g_mac n ++ ip_bytes (g_local_ip n) ++ replicate 6 0 ++ ip_bytes target_ip) n.

(** "EponaOS ping" *)
Definition PING : list Z := [69; 112; 111; 110; 97; 79; 83; 32; 112; 105; 110; 103].
Definition icmp_fields (seq ck : Z) : list Z :=
  [8; 0] ++ be16_bytes ck ++ be16_bytes 0xE001 ++ be16_bytes seq ++ PING.
Definition send_icmp_echo (dst_ip : Z) (dst_mac : list Z) n : option net :=
  let seq := g_icmp_seq n in
  let '(ip, n) := build_ipv4 (g_local_ip n) dst_ip IP_PROTO_ICMP 20 n in
  let n := set_icmp_seq (u16 (seq + 1)) n in
  rtl_send (eth_header dst_mac (g_mac n) ETH_P_IP ++ ip ++ icmp_fields seq (checksum16 (icmp_fields seq 0))) n.

(** ** DNS *)

(** [out] is the buffer, [pos] the next position, [label_len] and [label_pos] the label
    being written. The result is the position after the name, or [None] for -1. *)
Fixpoint dns_write_from (host out : list Z) (pos label_len label_pos : Z) : option (Z * list Z) :=
  match host with
  | [] =>
      if label_len =? 0 then None
      else
        let out := out.[label_pos <- label_len] in
        if zlen out <=? pos then None else Some (pos + 1, out.[pos <- 0])
  | c :: host' =>
      if (label_len =? 0) && (zlen out <=? pos) then None
      else
        let '(label_pos, pos) := if label_len =? 0 then (pos, pos + 1) else (label_pos, pos) in
        if c =? 46 then
          if (label_len =? 0) || (63 <? label_len) then None
          else dns_write_from host' (out.[label_pos <- label_len]) pos 0 label_pos
        else if zlen out <=? pos then None
        else
          let out := out.[pos <- c] in
          if 63 <? label_len + 1 then None
          else dns_write_from host' out (pos + 1) (label_len + 1) label_pos
  end.
Definition dns_write_name (out host : list Z) : option (Z * list Z) := dns_write_from host out 0 0 0.

(** The position after a name, -1 when it is malformed. The loop makes at most 65 rounds. *)
Fixpoint dns_skip_from (fuel : nat) (msg : list Z) (len off jumps : Z) : option Z :=
  match fuel with
  | O => Some (-1)
  | S f =>
      if negb (off <? len) then Some (-1)
      else
        c ← zlook msg off;
        let off := off + 1 in
        if c =? 0 then Some off
        else if Z.land c 0xC0 =? 0xC0 then Some (if len <=? off then -1 else off + 1)
        else if istrue (Z.land c 0xC0) then Some (-1)
        else
          let off := off + c in
          if (len <? off) || (64 <? jumps + 1) then Some (-1) else dns_skip_from f msg len off (jumps + 1)
  end.
Definition dns_skip_name (msg : list Z) (len off : Z) : option Z := dns_skip_from 66 msg len off 0.

Definition dns_header : list Z :=
  be16_bytes DNS_XID ++ be16_bytes 0x0100 ++ be16_bytes 1 ++ replicate 6 0.
Definition dns_query (host : list Z) n : option net :=
  if negb (istrue (g_dhcp_configured n)) || negb (istrue (g_gateway_known n)) || negb (istrue (g_dns_ip n))
  then Some n
  else
    match dns_write_name (replicate 240 0) host with
    | None => Some n
    | Some (name_len, out) =>
        let payload := dns_header ++ take (Z.to_nat name_len) out ++ [0; 1; 0; 1] in
        let n := set_dns_host (take 63 host) (set_dns_requested 1 n) in
        send_udp (g_gateway_mac n) (g_local_ip n) (g_dns_ip n) DNS_CLIENT_PORT DNS_PORT payload n
    end.

(** ** Receiving *)

(** The questions and answers of a DNS message: [None] when the code returns early, else
    the position, or the address of the first answer of type A. *)
Fixpoint skip_questions (k : nat) (msg : list Z) (len off : Z) : option (option Z) :=
  match k with
  | O => Some (Some off)
  | S k' =>
      off ← dns_skip_name msg len off;
      if (off <? 0) || (len <? off + 4) then Some None else skip_questions k' msg len (off + 4)
  end.

Inductive dns_result := DnsReject | DnsNone | DnsAddr (ip : Z).

Fixpoint find_answer (k : nat) (msg : list Z) (len off : Z) : option dns_result :=
  match k with
  | O => Some DnsNone
  | S k' =>
      off ← dns_skip_name msg len off;
      if (off <? 0) || (len <? off + 10) then Some DnsReject
      else
        type ← be16 msg off; klass ← be16 msg (off + 2); rdlen ← be16 msg (off + 8);
        let off := off + 10 in
        if len <? off + rdlen then Some DnsReject
        else if (type =? 1) && (klass =? 1) && (rdlen =? 4) then ip ← ip_at msg off; Some (DnsAddr ip)
        else find_answer k' msg len (off + rdlen)
  end.

Definition handle_dns (msg : list Z) (len : Z) n : option net :=
  if len <? 12 then Some n
  else
    id ← be16 msg 0;
    if negb (id =? DNS_XID) then Some n
    else
      qdcount ← be16 msg 4; ancount ← be16 msg 6;
      q ← skip_questions (Z.to_nat qdcount) msg len 12;
      match q with
      | None => Some n
      | Some off =>
          a ← find_answer (Z.to_nat ancount) msg len off;
          match a with
          | DnsAddr ip =>
              let n := on_http (set_http_host (take 63 (g_dns_host n))) (set_dns_answer_ip ip n) in
              tcp_http_start ip n
          | _ => Some n
          end
      end.

(** The data of a segment that is in sequence. *)
Definition tcp_data (seq payload_len : Z) (payload : list Z) n : option net :=
  let h := g_http n in
  let h := set_http_bytes (u32 (g_http_bytes h + payload_len)) (set_http_chunks (u32 (g_http_chunks h + 1)) h) in
  let n := set_http (http_process_payload payload h) n in
  let n := on_tcp (set_tcp_ack (u32 (seq + payload_len))) n in
  n ← send_ack n;
  let n := on_tcp (set_tcp_state 4) (on_http (set_http_ok 1) n) in
  Some (on_http http_print_body_preview n).

(** A segment that has passed the checks; the payload is read when it is used. *)
Definition tcp_segment (seq ack flags payload_len : Z) (payload : option (list Z)) n : option net :=
  let t := g_tcp n in
  if istrue (Z.land flags TCP_FLAG_RST) then Some (on_tcp (set_tcp_state 5) n)
  else if (g_tcp_state t =? 1) &&
          (Z.land flags (Z.lor TCP_FLAG_SYN TCP_FLAG_ACK) =? Z.lor TCP_FLAG_SYN TCP_FLAG_ACK) &&
          (ack =? u32 (g_tcp_seq t + 1)) then
    let n := on_tcp (fun t => set_tcp_state 2 (set_tcp_ack (u32 (seq + 1))
               (set_tcp_seq (u32 (g_tcp_seq t + 1)) t))) n in
    n ← send_ack n; tcp_http_send_get n
  else
    let receiving := (3 <=? g_tcp_state t) && (g_tcp_state t <=? 4) && (0 <? payload_len) in
    if receiving && negb (seq =? g_tcp_ack t) then send_ack n
    else
      n ← (if receiving then
             payload ← payload; tcp_data seq payload_len payload n
           else Some n);
      if istrue (Z.land flags TCP_FLAG_FIN) then
        let n := on_tcp (set_tcp_ack (u32 (seq + payload_len + 1))) n in
        n ← send_ack n;
        Some (on_tcp (set_tcp_state 6) (on_http http_print_body_preview n))
      else Some n.

Definition handle_tcp (pk : list Z) (ihl ip_total : Z) n : option net :=
  dst ← ip_at pk 30; src ← ip_at pk 26;
  if negb (dst =? g_local_ip n) || negb (src =? g_tcp_remote_ip (g_tcp n)) then Some n
  else if ip_total <? ihl + 20 then Some n
  else
    let o := 14 + ihl in
    let tcp_len := ip_total - ihl in
    src_port ← be16 pk o; dst_port ← be16 pk (o + 2);
    if negb (src_port =? TCP_HTTP_PORT) || negb (dst_port =? TCP_CLIENT_PORT) then Some n
    else
      data_offset ← zlook pk (o + 12);
      let tcp_hlen := Z.shiftr data_offset 4 * 4 in
      if (tcp_hlen <? 20) || (ip_total <? ihl + tcp_hlen) then Some n
      else
        segment ← (if 1500 <? tcp_len then Some [] else bytes_at pk o tcp_len);
        if negb (tcp_checksum_segment (ip_bytes src) (ip_bytes dst) segment tcp_len =? 0) then Some n
        else
          seq ← be32 pk (o + 4); ack ← be32 pk (o + 8); flags ← zlook pk (o + 13);
          let payload_len := ip_total - ihl - tcp_hlen in
          tcp_segment seq ack flags payload_len (bytes_at pk (o + tcp_hlen) payload_len) n.

Definition handle_arp (pk : list Z) (len : Z) n : option net :=
  if len <? 42 then Some n
  else
    op ← be16 pk 20; spa ← ip_at pk 28;
    if (op =? 2) && (spa =? g_gateway_ip n) then
      sha ← bytes_at pk 22 6;
      let n := set_gateway_known 1 (set_gateway_mac sha n) in
      n ← send_icmp_echo (g_gateway_ip n) (g_gateway_mac n) n;
      if istrue (g_dns_requested n) then Some n
      else dns_query [101; 120; 97; 109; 112; 108; 101; 46; 99; 111; 109] n
    else Some n.

(** Message type, server, router and name server. *)
Fixpoint parse_dhcp_options (fuel : nat) (opt : list Z) (len i : Z) (r : Z * Z * Z * Z)
    : option (Z * Z * Z * Z) :=
  match fuel with
  | O => None
  | S f =>
      if negb (i <? len) then Some r
      else
        code ← zlook opt i;
        let i := i + 1 in
        if code =? 255 then Some r
        else if code =? 0 then parse_dhcp_options f opt len i r
        else if len <=? i then Some r
        else
          olen ← zlook opt i;
          let i := i + 1 in
          if len <? i + olen then Some r
          else
            let '(msg_type, server, router, dns) := r in
            r ← (if (code =? 53) && (1 <=? olen) then v ← zlook opt i; Some (v, server, router, dns)
                 else if (code =? 54) && (4 <=? olen) then v ← ip_at opt i; Some (msg_type, v, router, dns)
                 else if (code =? 3) && (4 <=? olen) then v ← ip_at opt i; Some (msg_type, server, v, dns)
                 else if (code =? 6) && (4 <=? olen) then v ← ip_at opt i; Some (msg_type, server, router, v)
                 else Some r);
            parse_dhcp_options f opt len (i + olen) r
  end.

Definition handle_dhcp (msg : list Z) (len : Z) n : option net :=
  if len <? 240 then Some n
  else
    op ← zlook msg 0; xid ← be32 msg 4; magic ← be32 msg 236;
    if negb (op =? 2) || negb (xid =? DHCP_XID) || negb (magic =? DHCP_MAGIC) then Some n
    else
      r ← parse_dhcp_options (S (Z.to_nat (len - 240))) (drop 240 msg) (len - 240) 0 (0, 0, 0, 0);
      let '(msg_type, server, router, dns) := r in
      yiaddr ← ip_at msg 16;
      if (msg_type =? DHCP_OFFER) && negb (istrue (g_dhcp_requested n)) then
        let n := set_dhcp_requested 1 (set_dhcp_server_ip server (set_offered_ip yiaddr n)) in
        send_dhcp DHCP_REQUEST (g_offered_ip n) (g_dhcp_server_ip n) n
      else if (msg_type =? DHCP_ACK) && negb (istrue (g_dhcp_configured n)) then
        let n := set_local_ip yiaddr n in
        let n := set_gateway_ip (if istrue router then router else NET_IP 10 0 2 2) n in
        let n := set_dhcp_configured 1 (set_dns_ip dns n) in
        send_arp_request (g_gateway_ip n) n
      else Some n.

Definition handle_udp (pk : list Z) (ihl ip_total : Z) n : option net :=
  if ip_total <? ihl + 8 then Some n
  else
    let u := 14 + ihl in
    src_port ← be16 pk u; dst_port ← be16 pk (u + 2); udp_len ← be16 pk (u + 4);
    if udp_len <? 8 then Some n
    else
      let msg := drop (Z.to_nat (u + 8)) pk in
      if (src_port =? DHCP_SERVER_PORT) && (dst_port =? DHCP_CLIENT_PORT) then handle_dhcp msg (udp_len - 8) n
      else if (src_port =? DNS_PORT) && (dst_port =? DNS_CLIENT_PORT) then handle_dns msg (udp_len - 8) n
      else Some n.

Definition handle_icmp (pk : list Z) (ihl ip_total : Z) n : option net :=
  if ip_total <? ihl + 8 then Some n
  else type ← zlook pk (14 + ihl); Some (if type =? 0 then set_ping_replied 1 n else n).

Definition handle_ipv4 (pk : list Z) (len : Z) n : option net :=
  if len <? 34 then Some n
  else
    ver_ihl ← zlook pk 14;
    if negb (Z.shiftr ver_ihl 4 =? 4) then Some n
    else
      let ihl := Z.land ver_ihl 0x0F * 4 in
      if (ihl <? 20) || (len <? 14 + ihl) then Some n
      else
        ip_total ← be16 pk 16;
        if ip_total <? ihl then Some n
        else
          proto ← zlook pk 23;
          if proto =? IP_PROTO_UDP then handle_udp pk ihl ip_total n
          else if proto =? IP_PROTO_TCP then handle_tcp pk ihl ip_total n
          else
            dst ← ip_at pk 30;
            if negb (dst =? g_local_ip n) || negb (proto =? IP_PROTO_ICMP) then Some n
            else handle_icmp pk ihl ip_total n.

Definition net_handle_packet (pk : list Z) (len : Z) n : option net :=
  if len <? 14 then Some n
  else
    type ← be16 pk 12;
    if type =? ETH_P_ARP then handle_arp pk len n
    else if type =? ETH_P_IP then
      dst ← bytes_at pk 0 6;
      if negb (mac_is_broadcast dst) && negb (bool_decide (dst = g_mac n)) then Some n
      else handle_ipv4 pk len n
    else Some n.

(** ** The interface of the stack *)

Definition http_clear (n : net) : http_state :=
  Http 0 0 0 0 0 [] (g_http_host (g_http n)).

(** [base] and [mac] are what the card reports, [None] when there is none. *)
Definition net_init (probe : option (Z * list Z)) (p : pmm) n : option (net * pmm) :=
  let n := Net (g_mac n) (g_gateway_mac n) 0 0 0 0 (g_ip_id n) (g_icmp_seq n) [] 0 0 0 0 0 0 0
             (Tcp 0 0 ISN 0 0 0 0 0) (Http 0 0 0 0 0 [] []) (g_nic n) in
  match probe with
  | None => Some (n, p)
  | Some (base, mac) =>
      r ← rtl8139_init base mac p (g_nic n);
      let '(ret, d, p) := r in
      let n := set_nic d n in
      if negb (ret =? 0) then Some (n, p)
      else n ← send_dhcp DHCP_DISCOVER 0 0 (set_mac (rtl8139_get_mac d) n); Some (n, p)
  end.

Definition net_poll (status : Z) n : option net :=
  r ← rtl8139_poll g_nic set_nic net_handle_packet status n;
  tcp_poll_retransmit (snd r).

Definition net_http_reset n : net :=
  set_dns_answer_ip 0 (set_http (http_clear n) (set_tcp (Tcp 0 0 ISN 0 0 0 0 0) n)).

Definition net_http_fetch (host : list Z) n : option (Z * net) :=
  if negb (istrue (g_dhcp_configured n)) || negb (istrue (g_gateway_known n)) then Some (-1, n)
  else
    let n := on_http (set_http_host (take 63 host)) (net_http_reset n) in
    n ← dns_query host n; Some (0, n).

Definition net_tcp_busy n : bool :=
  let s := g_tcp_state (g_tcp n) in (s =? 1) || (s =? 2) || (s =? 3) || (s =? 4).

Definition net_ping_send (dst_ip : Z) n : option net :=
  if negb (istrue (g_gateway_known n)) then Some n
  else send_icmp_echo dst_ip (g_gateway_mac n) (set_ping_replied 0 n).

(** [statuses] are the values of the card's status register, poll by poll. *)
Fixpoint net_poll_wait (statuses : list Z) n : option net :=
  match statuses with [] => Some n | st :: l => n ← net_poll st n; net_poll_wait l n end.

Definition net_is_configured n : Z := g_dhcp_configured n.
Definition net_http_ok n : Z := g_http_ok (g_http n).
Definition net_local_ip n : Z := g_local_ip n.
Definition net_dns_answer_ip n : Z := g_dns_answer_ip n.
Definition net_http_body_preview n : list Z := g_http_body (g_http n).
Definition net_http_body_len n : Z := zlen (g_http_body (g_http n)).
Definition net_ping_replied n : Z := g_ping_replied n.
End net.

(** ** The Internet checksum *)

Lemma fold16_step s : 0 <= s -> Z.land s 0xFFFF + Z.shiftr s 16 = s mod 65536 + s / 65536.
Proof.
  intros H. change 0xFFFF with (Z.ones 16). by rewrite Z.land_ones, Z.shiftr_div_pow2 by lia.
Qed.

Lemma fold16_spec s : 0 <= s < 4294967296 ->
  0 <= fold16 3 s < 65536 /\ fold16 3 s mod 65535 = s mod 65535 /\ (fold16 3 s = 0 <-> s = 0).
Proof.
  intros H. cbn [fold16]. rewrite !Z.shiftr_div_pow2 by lia. change (2 ^ 16) with 65536.
  unfold istrue. destruct (Z.eqb_spec (s / 65536) 0); cbn [negb]; [split_and!; lia |].
  replace (Z.land s 0xFFFF + s / 65536) with (s mod 65536 + s / 65536)
    by (rewrite <- fold16_step, Z.shiftr_div_pow2 by lia; done).
  set (a := s mod 65536 + s / 65536). assert (0 <= a <= 131070) as Ha by lia.
  assert (a mod 65535 = s mod 65535 /\ (a = 0 <-> s = 0)) as [Ea Za] by (split; lia). clearbody a.
  destruct (Z.eqb_spec (a / 65536) 0); cbn [negb]; [split_and!; lia |].
  replace (Z.land a 0xFFFF + a / 65536) with (a mod 65536 + a / 65536)
    by (rewrite <- fold16_step, Z.shiftr_div_pow2 by lia; done).
  set (b := a mod 65536 + a / 65536). assert (0 <= b < 65536) as Hb by lia.
  assert (b mod 65535 = a mod 65535 /\ (b = 0 <-> a = 0)) as [Eb Zb] by (split; lia). clearbody b.
  destruct (Z.eqb_spec (b / 65536) 0); cbn [negb]; [| lia]. split_and!; lia.
Qed.

(** A strong induction on lists, two elements at a time. *)
Lemma list_ind2 {A} (P : list A -> Prop) :
  P [] -> (forall a, P [a]) -> (forall a b l, P l -> P (a :: b :: l)) -> forall l, P l.
Proof.
  intros H0 H1 H2. assert (forall l, P l /\ forall a, P (a :: l)) as H; [| apply H].
  induction l as [| b l [IH1 IH2]]; split; auto.
Qed.

Lemma sum16_bound l : bytes l -> 0 <= sum16 l <= 65535 * zlen l.
Proof.
  induction l as [| a | a b l IH] using list_ind2; intros Hb; [done | |];
    cbn [sum16]; inversion Hb as [| ? ? Ha Hb']; subst; unfold is_byte in Ha; rewrite !zlen_cons.
  - pose proof (zlen_nonneg (@nil Z)). lia.
  - inversion Hb' as [| ? ? Hb1 Hb2]; subst. unfold is_byte in Hb1. specialize (IH Hb2). lia.
Qed.

Lemma sum16_app a b : Z.even (zlen a) = true -> sum16 (a ++ b) = sum16 a + sum16 b.
Proof.
  induction a as [| x | x y l IH] using list_ind2; intros He; [done | done |].
  cbn [app sum16]. rewrite IH; [lia |]. rewrite !zlen_cons in He.
  replace (zlen l + 1 + 1) with (zlen l + 2) in He by lia. rewrite Z.even_add in He. by destruct (Z.even (zlen l)).
Qed.

Lemma checksum16_correct l : bytes l -> zlen l <= 65536 ->
  let c := checksum16 l in
  0 <= c < 65536 /\ (sum16 l + c) mod 65535 = 0 /\ (c = 65535 <-> sum16 l = 0).
Proof.
  intros Hb Hl. pose proof (sum16_bound l Hb) as Hs. unfold checksum16.
  rewrite (u32_id (sum16 l)) by lia. destruct (fold16_spec (sum16 l)) as (H1 & H2 & H3); [lia |].
  set (r := fold16 3 (sum16 l)) in *. clearbody r. set (s := sum16 l) in *. clearbody s.
  assert (u16 (Z.lnot r) = 65535 - r) as -> by (unfold u16; rewrite Z.lnot_eq_pred_opp; lia).
  cbv zeta. split_and!; lia.
Qed.

(** What is added to a block to make its checksum field right makes the whole block sum
    to the checksum 0. *)
Lemma checksum16_zero l s0 :
  bytes l -> zlen l <= 65536 -> 0 <= s0 -> forall c, (s0 + c) mod 65535 = 0 -> sum16 l = s0 + c ->
  0 < s0 + c -> checksum16 l = 0.
Proof.
  intros Hb Hl Hs0 c Hc Es Hpos. destruct (checksum16_correct l Hb Hl) as (H1 & H2 & H3).
  set (d := checksum16 l) in *. clearbody d. rewrite Es in *. lia.
Qed.

Lemma be16_bytes_sum v : 0 <= v < 65536 -> sum16 (be16_bytes v) = v.
Proof. intros H. cbn. lia. Qed.

Lemma is_byte_mod v : is_byte (v mod 256).
Proof. unfold is_byte. lia. Qed.
#[local] Hint Resolve is_byte_mod : epona.

Lemma be16_bytes_ok v : bytes (be16_bytes v).
Proof. repeat constructor; apply is_byte_mod. Qed.
Lemma be32_bytes_ok v : bytes (be32_bytes v).
Proof. repeat constructor; apply is_byte_mod. Qed.
Lemma ip_bytes_ok v : bytes (ip_bytes v).
Proof. repeat constructor; apply is_byte_mod. Qed.
#[local] Hint Resolve be16_bytes_ok be32_bytes_ok ip_bytes_ok : epona.

(** Byte lists built from the fields of headers. *)
Ltac byte_list :=
  repeat first [ apply Forall_app; split | apply Forall_cons; split | apply Forall_nil; exact I
               | by auto with epona | by (unfold is_byte; lia) ].

Lemma ipv4_fields_bytes id src dst proto len ck : is_byte proto -> bytes (ipv4_fields id src dst proto len ck).
Proof. intros Hp. unfold ipv4_fields. byte_list. Qed.

Lemma ipv4_fields_sum id src dst proto len ck : is_byte proto -> 0 <= ck < 65536 ->
  sum16 (ipv4_fields id src dst proto len ck) = sum16 (ipv4_fields id src dst proto len 0) + ck /\
  0 < sum16 (ipv4_fields id src dst proto len 0).
Proof.
  intros Hp Hc. unfold is_byte in Hp. unfold ipv4_fields, be16_bytes, ip_bytes. cbn [app sum16]. lia.
Qed.

Lemma build_ipv4_valid src dst proto len n : is_byte proto ->
  checksum16 (fst (build_ipv4 src dst proto len n)) = 0.
Proof.
  intros Hp. unfold build_ipv4. cbn [fst]. set (f := ipv4_fields (g_ip_id n) src dst proto len).
  destruct (checksum16_correct (f 0)) as (H1 & H2 & _);
    [by apply ipv4_fields_bytes | by cbn |].
  destruct (ipv4_fields_sum (g_ip_id n) src dst proto len (checksum16 (f 0)) Hp H1) as [H3 H4].
  eapply (checksum16_zero _ (sum16 (f 0)));
    [by apply ipv4_fields_bytes | by cbn | fold f in H4; lia | exact H2 | exact H3 | fold f in H4; lia].
Qed.

Definition segment_words (src dst : Z) (sp dp seq ack flags ck : Z) (payload : list Z) : list Z :=
  ip_bytes src ++ ip_bytes dst ++ [0; IP_PROTO_TCP] ++ be16_bytes (20 + zlen payload) ++
  tcp_fields sp dp seq ack flags ck payload.

Lemma segment_words_sum src dst sp dp seq ack flags ck payload :
  is_byte flags -> 0 <= ck < 65536 -> bytes payload ->
  sum16 (segment_words src dst sp dp seq ack flags ck payload) =
    sum16 (segment_words src dst sp dp seq ack flags 0 payload) + ck /\
  0 < sum16 (segment_words src dst sp dp seq ack flags 0 payload).
Proof.
  intros Hf Hc Hb. pose proof (sum16_bound payload Hb). unfold is_byte in Hf.
  unfold segment_words, tcp_fields, be16_bytes, be32_bytes, ip_bytes. cbn [app sum16].
  change IP_PROTO_TCP with 6. lia.
Qed.

Lemma segment_words_bytes src dst sp dp seq ack flags ck payload :
  is_byte flags -> bytes payload -> bytes (segment_words src dst sp dp seq ack flags ck payload).
Proof.
  intros Hf Hb. unfold segment_words, tcp_fields. change IP_PROTO_TCP with 6. byte_list.
Qed.

Lemma segment_words_len src dst sp dp seq ack flags ck payload :
  zlen (segment_words src dst sp dp seq ack flags ck payload) = 32 + zlen payload.
Proof. unfold segment_words, tcp_fields, zlen. rewrite !length_app. cbn [length be16_bytes be32_bytes ip_bytes]. lia. Qed.

Lemma tcp_checksum_valid src dst sp dp seq ack flags payload :
  is_byte flags -> bytes payload -> zlen payload <= 1480 ->
  let ck := tcp_checksum_segment (ip_bytes src) (ip_bytes dst) (tcp_fields sp dp seq ack flags 0 payload)
              (20 + zlen payload) in
  tcp_checksum_segment (ip_bytes src) (ip_bytes dst) (tcp_fields sp dp seq ack flags ck payload)
    (20 + zlen payload) = 0.
Proof.
  intros Hf Hb Hpl. cbv zeta.
  pose proof (zlen_nonneg payload). unfold tcp_checksum_segment.
  destruct (Z.ltb_spec (20 + zlen payload) 20), (Z.ltb_spec 1500 (20 + zlen payload)); try lia. cbn [orb].
  set (w := segment_words src dst sp dp seq ack flags). fold (w 0 payload).
  destruct (checksum16_correct (w 0 payload)) as (Hc1 & Hc2 & _);
    [by apply segment_words_bytes | unfold w; rewrite segment_words_len; lia |].
  set (ck := checksum16 (w 0 payload)) in *. fold (w ck payload).
  destruct (segment_words_sum src dst sp dp seq ack flags ck payload Hf Hc1 Hb) as [Hc3 Hc4]. fold w in Hc3, Hc4.
  apply (checksum16_zero (w ck payload) (sum16 (w 0 payload))) with (c := ck);
    [by apply segment_words_bytes | unfold w; rewrite segment_words_len; lia | lia | exact Hc2 | exact Hc3 | lia].
Qed.

(** Also: the headers the stack sends carry the Internet checksum: the checksum of a block is
    the number of 16 bits that makes the one's complement sum of its words vanish, and
    both the IP header and every TCP segment up to 1480 bytes of payload pass the check
    that is applied to received packets. *)
Theorem checksums_valid (l : list Z) (n : net) (src dst proto len : Z) (sp dp seq ack flags : Z) (payload : list Z)
    (Hl : bytes l) (Hlen : zlen l <= 65536) (Hp : is_byte proto) (Hf : is_byte flags)
    (Hb : bytes payload) (Hpl : zlen payload <= 1480) :
  (0 <= checksum16 l < 65536 /\ (sum16 l + checksum16 l) mod 65535 = 0 /\
   (checksum16 l = 65535 <-> sum16 l = 0)) /\
  checksum16 (fst (build_ipv4 src dst proto len n)) = 0 /\
  let ck := tcp_checksum_segment (ip_bytes src) (ip_bytes dst) (tcp_fields sp dp seq ack flags 0 payload)
              (20 + zlen payload) in
  tcp_checksum_segment (ip_bytes src) (ip_bytes dst) (tcp_fields sp dp seq ack flags ck payload)
    (20 + zlen payload) = 0.
Proof.
  split; [by apply checksum16_correct |]. split; [by apply build_ipv4_valid |]. cbv zeta.
  by apply tcp_checksum_valid.
Qed.

(** ** Sending: what each function puts on the wire *)

Definition can_send (n : net) : Prop :=
  nic_ok (g_nic n) /\ zlen (g_mac n) = 6 /\ zlen (g_gateway_mac n) = 6.

(** [n'] is [n] after the frame [f] has gone out. *)
Definition sent (f : list Z) (n n' : net) : Prop :=
  exists d i, n' = set_nic d (set_ip_id i n) /\ nic_ok d /\ wire d = wire (g_nic n) ++ [f] /\ 0 <= i < 65536 /\
    g_rx_buffer d = g_rx_buffer (g_nic n) /\ g_rx_offset d = g_rx_offset (g_nic n).

Lemma sent_can_send f n n' : can_send n -> sent f n n' -> can_send n'.
Proof. intros (_ & H1 & H2) (d & i & -> & Hd & _). done. Qed.

Lemma rtl_send_ok f n : can_send n -> 14 <= zlen f <= 1792 ->
  exists d, rtl_send f n = Some (set_nic d n) /\ nic_ok d /\ wire d = wire (g_nic n) ++ [f] /\
    g_rx_buffer d = g_rx_buffer (g_nic n) /\ g_rx_offset d = g_rx_offset (g_nic n).
Proof.
  intros (Hn & _) Hf. destruct (rtl8139_send_ok f (g_nic n) Hn Hf) as (d & E & Hd & Hw & _ & H1 & H2).
  unfold rtl_send. rewrite E. cbn [mbind option_bind snd]. exists d. by split_and!.
Qed.

Lemma build_ipv4_len src dst proto len n : zlen (fst (build_ipv4 src dst proto len n)) = 20.
Proof. done. Qed.

Lemma tcp_fields_len sp dp seq ack flags ck payload : zlen (tcp_fields sp dp seq ack flags ck payload) = 20 + zlen payload.
Proof. unfold tcp_fields, zlen. rewrite !length_app. cbn. lia. Qed.

Definition tcp_frame (n : net) (dst_ip : Z) (dst_mac : list Z) (seq ack flags : Z) (payload : list Z) : list Z :=
  eth_header dst_mac (g_mac n) ETH_P_IP ++
  fst (build_ipv4 (g_local_ip n) dst_ip IP_PROTO_TCP (20 + zlen payload) n) ++
  tcp_fields TCP_CLIENT_PORT TCP_HTTP_PORT seq ack flags
    (tcp_checksum_segment (ip_bytes (g_local_ip n)) (ip_bytes dst_ip)
       (tcp_fields TCP_CLIENT_PORT TCP_HTTP_PORT seq ack flags 0 payload) (20 + zlen payload)) payload.

Lemma send_tcp_segment_ok dst_ip dst_mac seq ack flags payload n :
  can_send n -> zlen dst_mac = 6 -> zlen payload <= 1400 ->
  exists n', send_tcp_segment dst_ip dst_mac seq ack flags payload n = Some n' /\
    sent (tcp_frame n dst_ip dst_mac seq ack flags payload) n n'.
Proof.
  intros Hc Hm Hp. pose proof (zlen_nonneg payload). unfold send_tcp_segment.
  destruct (build_ipv4 _ _ _ _ n) as [ip n1] eqn:E. assert (n1 = set_ip_id (u16 (g_ip_id n + 1)) n) as ->.
  { unfold build_ipv4 in E. by injection E as _ <-. }
  destruct (rtl_send_ok (tcp_frame n dst_ip dst_mac seq ack flags payload) (set_ip_id (u16 (g_ip_id n + 1)) n))
    as (d & Ed & Hd & Hw & H1 & H2); [done | |].
  - unfold tcp_frame, eth_header. rewrite !zlen_app, Hm, (proj1 (proj2 Hc)), build_ipv4_len, tcp_fields_len.
    change (zlen (be16_bytes ETH_P_IP)) with 2. lia.
  - unfold tcp_frame in Ed at 1. rewrite E in Ed. cbn [fst] in Ed.
    change (g_mac (set_ip_id (u16 (g_ip_id n + 1)) n)) with (g_mac n).
    change (g_local_ip (set_ip_id (u16 (g_ip_id n + 1)) n)) with (g_local_ip n).
    rewrite Ed. eexists. split; [done |]. exists d, (u16 (g_ip_id n + 1)). split_and!; try done; apply u16_range.
Qed.

(** ** Retransmission *)

Section retransmit.
Context (after_literal : Z).

Fixpoint poll_times (k : nat) (n : net) : option net :=
  match k with O => Some n | S k' => n ← tcp_poll_retransmit after_literal n; poll_times k' n end.

Lemma poll_times_app a b n : poll_times (a + b) n = (n ← poll_times a n; poll_times b n).
Proof.
  revert n. induction a as [| a IH]; intros n; [done |]. cbn [Nat.add poll_times].
  destruct (tcp_poll_retransmit after_literal n); [apply IH | done].
Qed.

Definition waiting (n : net) : Prop := g_tcp_state (g_tcp n) = 1 \/ g_tcp_state (g_tcp n) = 3.

Lemma set_wait_wait a b n :
  on_tcp (set_tcp_wait_ticks a) (on_tcp (set_tcp_wait_ticks b) n) = on_tcp (set_tcp_wait_ticks a) n.
Proof. done. Qed.

Lemma set_wait_id n : on_tcp (set_tcp_wait_ticks (g_tcp_wait_ticks (g_tcp n))) n = n.
Proof. by destruct n as [? ? ? ? ? ? ? ? ? ? ? ? ? ? ? ? [] ? ?]. Qed.

Lemma poll_waits k : forall n, waiting n -> 0 <= g_tcp_wait_ticks (g_tcp n) ->
  g_tcp_wait_ticks (g_tcp n) + Z.of_nat k < TCP_RETRY_TICKS ->
  poll_times k n = Some (on_tcp (set_tcp_wait_ticks (g_tcp_wait_ticks (g_tcp n) + Z.of_nat k)) n).
Proof.
  unfold TCP_RETRY_TICKS. induction k as [| k IH]; intros n Hw H0 Hlt; cbn [poll_times].
  { by rewrite Z.add_0_r, set_wait_id. }
  assert (tcp_poll_retransmit after_literal n = Some (on_tcp (set_tcp_wait_ticks (g_tcp_wait_ticks (g_tcp n) + 1)) n)) as ->.
  { unfold tcp_poll_retransmit, TCP_RETRY_TICKS. rewrite u32_id by lia.
    destruct (Z.ltb_spec (g_tcp_wait_ticks (g_tcp n) + 1) 200000); [| lia].
    by destruct Hw as [-> | ->]. }
  cbn [mbind option_bind]. rewrite IH; cbn [on_tcp set_tcp set_tcp_wait_ticks g_tcp g_tcp_wait_ticks].
  - match goal with |- Some (on_tcp (set_tcp_wait_ticks ?a) _) = Some (on_tcp (set_tcp_wait_ticks ?b) _) =>
      replace b with a by lia end. done.
  - done.
  - lia.
  - lia.
Qed.

Lemma http_request_len host : zlen (http_request after_literal host) <= 109.
Proof.
  unfold http_request, zlen. rewrite !length_app, length_take. change (length GET_LINE) with 22%nat.
  change (length AGENT_LINE) with 25%nat. cbn [length]. lia.
Qed.

(** The poll at which the wait runs out. *)
Lemma poll_fires n : can_send n -> waiting n -> g_tcp_wait_ticks (g_tcp n) = TCP_RETRY_TICKS - 1 ->
  exists n', tcp_poll_retransmit after_literal n = Some n' /\ can_send n' /\
    g_tcp_wait_ticks (g_tcp n') = 0 /\ g_http n' = g_http n /\
    ((g_tcp_retries (g_tcp n) < TCP_MAX_RETRIES /\ g_tcp_state (g_tcp n') = g_tcp_state (g_tcp n) /\
      g_tcp_retries (g_tcp n') = g_tcp_retries (g_tcp n) + 1 /\
      exists f, wire (g_nic n') = wire (g_nic n) ++ [f]) \/
     (TCP_MAX_RETRIES <= g_tcp_retries (g_tcp n) /\ g_tcp_state (g_tcp n') = 7 /\
      wire (g_nic n') = wire (g_nic n))).
Proof.
  intros Hc Hw Ht. unfold tcp_poll_retransmit. rewrite Ht. unfold TCP_RETRY_TICKS.
  change (u32 (200000 - 1 + 1)) with 200000. rewrite Z.ltb_irrefl.
  assert (negb (g_tcp_state (g_tcp n) =? 1) && negb (g_tcp_state (g_tcp n) =? 3) = false) as ->
    by (by destruct Hw as [-> | ->]).
  destruct (Z.leb_spec TCP_MAX_RETRIES (g_tcp_retries (g_tcp n))) as [Hr | Hr].
  { eexists. split; [done |]. split; [exact Hc |]. split; [done |]. split; [done |]. right. done. }
  set (n1 := on_tcp (set_tcp_retries _) _).
  assert (can_send n1) as Hc1 by exact Hc. pose proof (http_request_len (g_http_host (g_http n1))) as Hreq.
  assert (exists f n', (if g_tcp_state (g_tcp n) =? 1 then send_syn (g_tcp_remote_ip (g_tcp n)) n1
                        else tcp_http_retry_get after_literal n1) = Some n' /\ sent f n1 n')
    as (f & n' & -> & Hs).
  { destruct (_ =? 1).
    - destruct (send_tcp_segment_ok (g_tcp_remote_ip (g_tcp n)) (g_gateway_mac n1) (g_tcp_seq (g_tcp n1)) 0
        TCP_FLAG_SYN [] n1 Hc1 (proj2 (proj2 Hc1)) ltac:(done)) as (n' & E & Hs). eauto.
    - destruct (send_tcp_segment_ok (g_tcp_remote_ip (g_tcp n1)) (g_gateway_mac n1) (g_tcp_get_seq (g_tcp n1))
        (g_tcp_ack (g_tcp n1)) (Z.lor TCP_FLAG_PSH TCP_FLAG_ACK) (http_request after_literal (g_http_host (g_http n1)))
        n1 Hc1 (proj2 (proj2 Hc1)) ltac:(lia)) as (n' & E & Hs). eauto. }
  exists n'. split; [done |]. split; [by eapply sent_can_send |].
  destruct Hs as (d & i & -> & _ & Hwd & _). split; [done |]. split; [done |]. left.
  split; [done |]. split; [done |]. split; [done |]. by exists f.
Qed.

(** A whole round of waiting. *)
Lemma poll_round n : can_send n -> waiting n -> g_tcp_wait_ticks (g_tcp n) = 0 ->
  exists n', poll_times (Z.to_nat TCP_RETRY_TICKS) n = Some n' /\ can_send n' /\
    g_tcp_wait_ticks (g_tcp n') = 0 /\
    ((g_tcp_retries (g_tcp n) < TCP_MAX_RETRIES /\ waiting n' /\
      g_tcp_retries (g_tcp n') = g_tcp_retries (g_tcp n) + 1 /\
      exists f, wire (g_nic n') = wire (g_nic n) ++ [f]) \/
     (TCP_MAX_RETRIES <= g_tcp_retries (g_tcp n) /\ g_tcp_state (g_tcp n') = 7 /\
      wire (g_nic n') = wire (g_nic n))).
Proof.
  intros Hc Hw Ht.
  assert (Z.to_nat TCP_RETRY_TICKS = (Z.to_nat (TCP_RETRY_TICKS - 1) + 1)%nat) as ->
    by (unfold TCP_RETRY_TICKS; lia).
  rewrite poll_times_app, poll_waits by (try done; unfold TCP_RETRY_TICKS in *; lia).
  cbn [mbind option_bind]. set (n1 := on_tcp _ n).
  destruct (poll_fires n1) as (n' & E & Hc' & Ht' & _ & Hcase); [exact Hc | exact Hw | |].
  { cbn. rewrite Ht. unfold TCP_RETRY_TICKS. lia. }
  cbn [poll_times]. rewrite E. cbn [mbind option_bind]. exists n'. split; [done |]. split; [done |].
  split; [done |]. destruct Hcase as [(H1 & H2 & H3 & H4) | (H1 & H2 & H3)]; [left | by right].
  split; [done |]. split; [| done]. unfold waiting. by rewrite H2.
Qed.

End retransmit.

(** ** Names in DNS messages *)

Definition valid_label (l : list Z) : Prop := l <> [] /\ zlen l <= 63 /\ Forall (fun c => c <> 46 /\ c <> 0) l.
Definition encode_name (labels : list (list Z)) : list Z := concat (map (fun l => zlen l :: l) labels).
Fixpoint join_labels (labels : list (list Z)) : list Z :=
  match labels with [] => [] | [l] => l | l :: ls => l ++ 46 :: join_labels ls end.

(** The label being written is [cur], behind its length byte [x] at the end of [pre]. *)
Lemma dns_write_chars l : forall cur pre x rest host,
  Forall (fun c => c <> 46 /\ c <> 0) l -> 0 < zlen cur -> zlen cur + zlen l <= 63 -> zlen l <= zlen rest ->
  dns_write_from (l ++ host) (pre ++ x :: cur ++ rest) (zlen pre + 1 + zlen cur) (zlen cur) (zlen pre) =
  dns_write_from host (pre ++ x :: (cur ++ l) ++ drop (length l) rest)
    (zlen pre + 1 + zlen (cur ++ l)) (zlen (cur ++ l)) (zlen pre).
Proof.
  induction l as [| c l IH]; intros cur pre x rest host Hl Hc Hlen Hr.
  { by rewrite app_nil_r. }
  rewrite zlen_cons in *. pose proof (zlen_nonneg l). pose proof (zlen_nonneg pre).
  destruct rest as [| y rest]; [change (zlen []) with 0 in Hr; lia |]. rewrite zlen_cons in Hr.
  apply Forall_cons in Hl as [[Hc46 _] Hl]. cbn [app dns_write_from].
  destruct (Z.eqb_spec (zlen cur) 0); [lia |]. cbn [andb].
  destruct (Z.eqb_spec c 46); [done |].
  destruct (Z.leb_spec (zlen (pre ++ x :: cur ++ y :: rest)) (zlen pre + 1 + zlen cur)) as [Hle |].
  { rewrite !zlen_app, zlen_cons, zlen_app, zlen_cons in Hle. pose proof (zlen_nonneg rest). lia. }
  destruct (Z.ltb_spec 63 (zlen cur + 1)); [lia |].
  assert ((pre ++ x :: cur ++ y :: rest).[zlen pre + 1 + zlen cur <- c] = pre ++ x :: (cur ++ [c]) ++ rest) as ->.
  { change (pre ++ x :: cur ++ y :: rest) with (pre ++ (x :: cur) ++ y :: rest).
    rewrite app_assoc, zset_middle by (rewrite zlen_app, zlen_cons; lia).
    rewrite <- app_assoc. cbn. by rewrite <- app_assoc. }
  assert (zlen (cur ++ [c]) = zlen cur + 1) as Ec by (by rewrite zlen_app).
  specialize (IH (cur ++ [c]) pre x rest host Hl). rewrite Ec in IH.
  replace (zlen pre + 1 + zlen cur + 1) with (zlen pre + 1 + (zlen cur + 1)) by lia.
  rewrite IH by lia. by rewrite <- (app_assoc cur [c] l).
Qed.

(** A whole label, from the point where none has been begun. *)
Lemma dns_write_label l pre rest lp host :
  valid_label l -> zlen l + 1 <= zlen rest ->
  exists x, dns_write_from (l ++ host) (pre ++ rest) (zlen pre) 0 lp =
    dns_write_from host (pre ++ x :: l ++ drop (S (length l)) rest) (zlen pre + 1 + zlen l) (zlen l) (zlen pre).
Proof.
  intros (Hne & Hlen & Hl) Hr. destruct l as [| c l]; [done |].
  destruct rest as [| x [| y rest]]; rewrite ?zlen_cons in *; pose proof (zlen_nonneg l);
    try (change (zlen (@nil Z)) with 0 in Hr; lia).
  apply Forall_cons in Hl as [[Hc _] Hl]. exists x. cbn [app dns_write_from Z.eqb andb].
  pose proof (zlen_nonneg rest). pose proof (zlen_nonneg pre).
  destruct (Z.leb_spec (zlen (pre ++ x :: y :: rest)) (zlen pre)) as [Hle |].
  { rewrite zlen_app, !zlen_cons in Hle. lia. }
  destruct (Z.eqb_spec c 46); [done |].
  destruct (Z.leb_spec (zlen (pre ++ x :: y :: rest)) (zlen pre + 1)) as [Hle |].
  { rewrite zlen_app, !zlen_cons in Hle. lia. }
  change (63 <? 0 + 1) with false. cbv iota.
  assert ((pre ++ x :: y :: rest).[zlen pre + 1 <- c] = pre ++ x :: [c] ++ rest) as ->.
  { change (pre ++ x :: y :: rest) with (pre ++ [x] ++ y :: rest).
    rewrite app_assoc, zset_middle by (by rewrite zlen_app). by rewrite <- app_assoc. }
  pose proof (dns_write_chars l [c] pre x rest host Hl) as H4. change (zlen [c]) with 1 in H4.
  change (0 + 1) with 1. rewrite H4 by lia.
  assert (zlen ([c] ++ l) = zlen l + 1) as -> by (rewrite zlen_app; change (zlen [c]) with 1; lia). done.
Qed.

Lemma encode_cons l ls : encode_name (l :: ls) = (zlen l :: l) ++ encode_name ls.
Proof. done. Qed.

Lemma dns_write_labels labels : forall pre rest lp,
  labels <> [] -> Forall valid_label labels -> zlen (encode_name labels) + 1 <= zlen rest ->
  exists rest', dns_write_from (join_labels labels) (pre ++ rest) (zlen pre) 0 lp =
    Some (zlen pre + zlen (encode_name labels) + 1, pre ++ encode_name labels ++ 0 :: rest').
Proof.
  induction labels as [| l labels IH]; intros pre rest lp Hne Hv Hr; [done |].
  apply Forall_cons in Hv as [Hl Hv]. rewrite encode_cons, zlen_app, zlen_cons in Hr.
  pose proof (zlen_nonneg (encode_name labels)). pose proof (zlen_nonneg l).
  assert (0 < zlen l) as Hl0.
  { destruct l; [by destruct Hl | rewrite zlen_cons; pose proof (zlen_nonneg l); lia]. }
  set (rest1 := drop (S (length l)) rest).
  assert (zlen rest1 = zlen rest - (zlen l + 1)) as Hr1.
  { unfold rest1, zlen in *. rewrite length_drop. lia. }
  assert (forall x v, (pre ++ x :: l ++ rest1).[zlen pre <- v] = pre ++ v :: l ++ rest1) as Hset
    by (intros; by apply zset_middle).
  assert (Z.leb 64 (zlen l) = false /\ Z.eqb (zlen l) 0 = false) as [Hl63 Hlz].
  { destruct Hl as (_ & ? & _). split; [apply Z.leb_gt | apply Z.eqb_neq]; lia. }
  destruct labels as [| l2 labels].
  - cbn [join_labels]. destruct (dns_write_label l pre rest lp [] Hl ltac:(lia)) as [x E].
    rewrite app_nil_r in E. rewrite E. fold rest1. cbn [dns_write_from]. rewrite Hlz, Hset.
    destruct rest1 as [| y rest2]; [change (zlen []) with 0 in Hr1; lia |].
    destruct (Z.leb_spec (zlen (pre ++ zlen l :: l ++ y :: rest2)) (zlen pre + 1 + zlen l)) as [Hle |].
    { rewrite zlen_app, zlen_cons, zlen_app, zlen_cons in Hle. pose proof (zlen_nonneg rest2). lia. }
    exists rest2. rewrite encode_cons, app_nil_r, zlen_cons.
    change (pre ++ zlen l :: l ++ y :: rest2) with (pre ++ (zlen l :: l) ++ y :: rest2).
    rewrite app_assoc, zset_middle by (rewrite zlen_app, zlen_cons; lia). rewrite <- app_assoc.
    f_equal. f_equal. lia.
  - change (join_labels (l :: l2 :: labels)) with (l ++ 46 :: join_labels (l2 :: labels)).
    destruct (dns_write_label l pre rest lp (46 :: join_labels (l2 :: labels)) Hl ltac:(lia)) as [x ->].
    fold rest1. cbn [dns_write_from]. rewrite Hlz. cbn [andb orb]. change (46 =? 46) with true. cbv iota.
    destruct (Z.ltb_spec 63 (zlen l)); [destruct Hl as (_ & ? & _); lia |]. rewrite Hset.
    destruct (IH (pre ++ zlen l :: l) rest1 (zlen pre) ltac:(done) Hv ltac:(lia)) as [rest' E].
    rewrite <- app_assoc in E. cbn [app] in E.
    replace (zlen (pre ++ zlen l :: l)) with (zlen pre + 1 + zlen l) in E by (rewrite zlen_app, zlen_cons; lia).
    rewrite E. exists rest'. rewrite (encode_cons l), zlen_app, zlen_cons.
    rewrite <- !app_assoc. cbn [app]. f_equal. f_equal. lia.
Qed.

Lemma label_byte c : 0 <= c < 64 -> Z.land c 0xC0 = 0.
Proof.
  intros Hc. assert (forallb (fun k => Z.land (Z.of_nat k) 0xC0 =? 0) (seq 0 64) = true) as H by done.
  rewrite forallb_forall in H. specialize (H (Z.to_nat c)). rewrite Z2Nat.id in H by lia.
  apply Z.eqb_eq, H, in_seq. lia.
Qed.

Lemma dns_skip_labels labels : forall fuel pre post len jumps,
  Forall valid_label labels -> (length labels < fuel)%nat -> jumps + zlen labels <= 64 ->
  len <= zlen (pre ++ encode_name labels ++ 0 :: post) -> zlen pre + zlen (encode_name labels) + 1 <= len ->
  dns_skip_from fuel (pre ++ encode_name labels ++ 0 :: post) len (zlen pre) jumps =
    Some (zlen pre + zlen (encode_name labels) + 1).
Proof.
  induction labels as [| l labels IH]; intros fuel pre post len jumps Hv Hf Hj Hlen Hle;
    (destruct fuel as [| fuel]; [cbn in Hf; lia |]); cbn [dns_skip_from].
  - cbn [encode_name map concat app] in *. change (zlen []) with 0 in *.
    destruct (Z.ltb_spec (zlen pre) len); [| lia]. cbn [negb]. rewrite zlook_middle by done.
    cbn [mbind option_bind Z.eqb]. f_equal. lia.
  - apply Forall_cons in Hv as [(Hne & Hl & _) Hv]. rewrite encode_cons in *.
    rewrite zlen_app, zlen_cons in Hle. rewrite zlen_cons in Hj. rewrite zlen_app, zlen_cons. pose proof (zlen_nonneg (encode_name labels)). pose proof (zlen_nonneg labels).
    assert (0 < zlen l) by (destruct l; [done | rewrite zlen_cons; pose proof (zlen_nonneg l); lia]).
    destruct (Z.ltb_spec (zlen pre) len); [| lia]. cbn [negb]. rewrite <- app_assoc. cbn [app].
    rewrite zlook_middle by done. cbn [mbind option_bind].
    destruct (Z.eqb_spec (zlen l) 0); [lia |]. rewrite label_byte by lia. cbn [Z.eqb istrue negb].
    destruct (Z.ltb_spec len (zlen pre + 1 + zlen l)); [lia |].
    destruct (Z.ltb_spec 64 (jumps + 1)); [lia |]. cbn [orb].
    specialize (IH fuel (pre ++ zlen l :: l) post len (jumps + 1) Hv ltac:(cbn in Hf; lia) ltac:(lia)).
    rewrite <- app_assoc in IH. cbn [app] in IH.
    replace (zlen (pre ++ zlen l :: l)) with (zlen pre + 1 + zlen l) in IH by (rewrite zlen_app, zlen_cons; lia).
    rewrite <- (app_assoc (zlen l :: l)) in Hlen. rewrite IH; [f_equal; lia | exact Hlen | lia].
Qed.

(** Also: a host name is written as its labels, each behind its length, and a zero; reading
    the name back from the buffer ends just behind it. The name is one of nonempty labels
    of at most 63 characters, at most 64 of them, that fits in the 240 bytes the query has. *)
Theorem dns_name_roundtrip (labels : list (list Z)) (Hne : labels <> []) (Hv : Forall valid_label labels)
    (Hfit : zlen (encode_name labels) + 1 <= 240) (Hcount : zlen labels <= 64) :
  exists out rest, let e := zlen (encode_name labels) + 1 in
    dns_write_name (replicate 240 0) (join_labels labels) = Some (e, out) /\
    out = encode_name labels ++ 0 :: rest /\ dns_skip_name out (zlen out) 0 = Some e.
Proof.
  destruct (dns_write_labels labels [] (replicate 240 0) 0 Hne Hv) as [rest E];
    [by rewrite zlen_replicate |].
  change (zlen []) with 0 in E. rewrite Z.add_0_l in E. cbn [app] in E.
  exists (encode_name labels ++ 0 :: rest), rest. split; [exact E |]. split; [done |].
  pose proof (dns_skip_labels labels 66 [] rest (zlen (encode_name labels ++ 0 :: rest)) 0 Hv) as H.
  cbn [app] in H. change (zlen []) with 0 in H. rewrite !Z.add_0_l in H. apply H.
  - unfold zlen in Hcount. lia.
  - done.
  - lia.
  - rewrite zlen_app, zlen_cons. pose proof (zlen_nonneg rest). lia.
Qed.

(** ** The page as a stream *)

Lemma http_store_take data h : zlen (g_http_body h) <= 511 ->
  http_store_body data h = set_http_body (take 511 (g_http_body h ++ data)) h.
Proof.
  intros Hb. unfold http_store_body, HTTP_BODY_BUF_SIZE. pose proof (zlen_nonneg data).
  assert (h = set_http_body (g_http_body h) h) as Eh by (by destruct h).
  destruct (Z.leb_spec (zlen data) 0).
  { assert (data = []) as -> by (destruct data; [done | rewrite zlen_cons in *; pose proof (zlen_nonneg data); lia]).
    cbn [orb]. rewrite app_nil_r, take_ge by (unfold zlen in *; lia). exact Eh. }
  destruct (Z.leb_spec (512 - 1) (zlen (g_http_body h))); cbn [orb].
  { assert (length (g_http_body h) = 511)%nat as El by (unfold zlen in *; lia).
    rewrite take_app_le, take_ge by lia. exact Eh. }
  f_equal. rewrite take_app_ge by (unfold zlen in *; lia). f_equal.
  destruct (Z.ltb_spec (512 - 1 - zlen (g_http_body h)) (zlen data)).
  - f_equal. unfold zlen in *. lia.
  - rewrite !take_ge by (unfold zlen in *; lia). done.
Qed.

Definition process_all (ps : list (list Z)) (h : http_state) : http_state :=
  foldl (fun h p => http_process_payload p h) h ps.

(** What the payloads of a connection leave in the buffer. *)
Fixpoint stream_body (ps : list (list Z)) : list Z :=
  match ps with
  | [] => []
  | p :: ps' => match after_headers p with Some r => take 511 (r ++ concat ps') | None => stream_body ps' end
  end.

Lemma take_take_app {A} k (a b : list A) : take k (take k a ++ b) = take k (a ++ b).
Proof.
  destruct (Nat.le_gt_cases (length a) k).
  - by rewrite (take_ge a) by lia.
  - rewrite !take_app_le by (rewrite ?length_take; lia). by rewrite take_take, Nat.min_id.
Qed.

Lemma process_all_done ps : forall h, g_http_headers_done h <> 0 -> zlen (g_http_body h) <= 511 ->
  g_http_body (process_all ps h) = take 511 (g_http_body h ++ concat ps).
Proof.
  induction ps as [| p ps IH]; intros h Hd Hb; cbn [process_all foldl concat].
  { rewrite app_nil_r, take_ge; [done |]. unfold zlen in Hb. lia. }
  unfold process_all in IH. unfold http_process_payload at 2. rewrite istrue_neq by done.
  rewrite http_store_take by done.
  rewrite IH; [| done | cbn; unfold zlen; rewrite length_take; lia]. cbn.
  by rewrite take_take_app, <- app_assoc.
Qed.

(** Also: the buffer of the page holds the first 511 bytes of what the payloads carry after
    the first empty line, provided that line lies in one payload; payloads in front of it
    leave nothing. *)
Theorem http_body_stream (ps : list (list Z)) (h : http_state)
    (Hd : g_http_headers_done h = 0) (Hb : g_http_body h = []) :
  g_http_body (process_all ps h) = stream_body ps /\ zlen (g_http_body (process_all ps h)) <= 511.
Proof.
  assert (g_http_body (process_all ps h) = stream_body ps) as E.
  { revert h Hd Hb. induction ps as [| p ps IH]; intros h Hd Hb; cbn [process_all foldl stream_body]; [done |].
    unfold http_process_payload at 2. rewrite Hd. cbn [istrue Z.eqb negb].
    destruct (after_headers p) as [r |]; [| by apply IH].
    rewrite http_store_take by (cbn; rewrite Hb; done).
    fold (process_all ps (set_http_body (take 511 (g_http_body (set_http_headers_done 1 h) ++ r))
      (set_http_headers_done 1 h))).
    rewrite process_all_done; [| done | cbn; unfold zlen; rewrite length_take; lia].
    cbn. by rewrite Hb, take_take_app. }
  split; [exact E |]. rewrite E. clear. induction ps as [| p ps IH]; cbn [stream_body]; [done |].
  destruct (after_headers p); [| done]. unfold zlen. rewrite length_take. lia.
Qed.

(** Also: an empty line that is divided between two payloads is not found: the page stays
    empty, although the same bytes in one payload give the body. *)
Theorem http_split_terminator (p1 p2 b : list Z) (h : http_state)
    (Hd : g_http_headers_done h = 0) (Hb : g_http_body h = [])
    (H1 : after_headers p1 = None) (H2 : after_headers p2 = None) (H12 : after_headers (p1 ++ p2) = Some b) :
  g_http_body (process_all [p1; p2] h) = [] /\
  g_http_body (process_all [p1 ++ p2] h) = take 511 b.
Proof.
  unfold process_all. cbn [foldl]. unfold http_process_payload. rewrite Hd. cbn [istrue Z.eqb negb].
  rewrite H1, H12. cbn [istrue Z.eqb negb]. rewrite Hd. cbn [istrue Z.eqb negb]. rewrite H2. split; [done |].
  rewrite http_store_take by (cbn; by rewrite Hb). cbn. by rewrite Hb.
Qed.

(** ** DHCP options *)

Definition encode_option (o : Z * list Z) : list Z := dhcp_add_option (fst o) (snd o).
Definition apply_option (r : Z * Z * Z * Z) (o : Z * list Z) : Z * Z * Z * Z :=
  let '(msg_type, server, router, dns) := r in
  let '(code, d) := o in
  let v := d.[0] + 256 * d.[1] + 65536 * d.[2] + 16777216 * d.[3] in
  if (code =? 53) && (1 <=? zlen d) then (d.[0], server, router, dns)
  else if (code =? 54) && (4 <=? zlen d) then (msg_type, v, router, dns)
  else if (code =? 3) && (4 <=? zlen d) then (msg_type, server, v, dns)
  else if (code =? 6) && (4 <=? zlen d) then (msg_type, server, router, v)
  else r.

Lemma zlook_suffix (a b : list Z) i j : i = zlen a + j -> 0 <= j -> zlook (a ++ b) i = zlook b j.
Proof. intros -> Hj. rewrite zlook_app_r by lia. f_equal. lia. Qed.

Lemma ip_at_middle (a d b : list Z) : 4 <= zlen d ->
  ip_at (a ++ d ++ b) (zlen a) = Some (d.[0] + 256 * d.[1] + 65536 * d.[2] + 16777216 * d.[3]).
Proof.
  intros Hd. unfold ip_at.
  assert (forall j, 0 <= j < 4 -> zlook (a ++ d ++ b) (zlen a + j) = Some (d.[j])) as H.
  { intros j Hj. rewrite (zlook_suffix _ _ _ j) by lia. rewrite zlook_app_l by lia. apply zlook_get. lia. }
  pose proof (H 0 ltac:(lia)) as Hz. rewrite Z.add_0_r in Hz. rewrite Hz, !H by lia. done.
Qed.

Lemma dhcp_options_fold os : forall fuel pre post len r,
  Forall (fun o => 0 < fst o < 255 /\ zlen (snd o) <= 255) os ->
  let enc := concat (map encode_option os) in
  (Z.to_nat (len - zlen pre) < fuel)%nat -> zlen pre + zlen enc + 1 <= len ->
  parse_dhcp_options fuel (pre ++ enc ++ 255 :: post) len (zlen pre) r = Some (foldl apply_option r os).
Proof.
  induction os as [| [code d] os IH]; intros fuel pre post len r Hv enc Hf Hlen;
    (destruct fuel as [| fuel]; [lia |]); cbn [parse_dhcp_options]; pose proof (zlen_nonneg pre).
  - subst enc. cbn [map concat app] in *. change (zlen (@nil Z)) with 0 in Hlen.
    destruct (Z.ltb_spec (zlen pre) len); [| lia]. cbn [negb]. by rewrite (zlook_middle pre post 255 (zlen pre)).
  - apply Forall_cons in Hv as [[Hc Hd] Hv]. cbn [fst snd] in Hc, Hd. subst enc.
    set (enc := concat (map encode_option os)) in *.
    change (concat (map encode_option ((code, d) :: os))) with ((code :: zlen d :: d) ++ enc) in *.
    rewrite zlen_app, !zlen_cons in Hlen. pose proof (zlen_nonneg d). pose proof (zlen_nonneg enc).
    destruct (Z.ltb_spec (zlen pre) len); [| lia]. cbn [negb].
    assert (pre ++ ((code :: zlen d :: d) ++ enc) ++ 255 :: post =
      (pre ++ [code; zlen d]) ++ d ++ enc ++ 255 :: post) as El by (by rewrite <- !app_assoc).
    assert (zlen (pre ++ [code; zlen d]) = zlen pre + 2) as E2 by (by rewrite zlen_app).
    assert (forall j, 0 <= j < 2 -> zlook (pre ++ ((code :: zlen d :: d) ++ enc) ++ 255 :: post) (zlen pre + j)
      = zlook [code; zlen d] j) as Hlk.
    { intros j Hj. rewrite El, <- app_assoc, (zlook_suffix _ _ _ j) by lia.
      by rewrite zlook_app_l by (change (zlen [code; zlen d]) with 2; lia). }
    pose proof (Hlk 0 ltac:(lia)) as Hl0. rewrite Z.add_0_r in Hl0. rewrite Hl0, (Hlk 1) by lia.
    change (zlook [code; zlen d] 0) with (Some code). change (zlook [code; zlen d] 1) with (Some (zlen d)).
    cbn [mbind option_bind].
    destruct (Z.eqb_spec code 255); [lia |]. destruct (Z.eqb_spec code 0); [lia |].
    destruct (Z.leb_spec len (zlen pre + 1)); [lia |].
    replace (zlen pre + 1 + 1) with (zlen (pre ++ [code; zlen d])) by lia.
    destruct (Z.ltb_spec len (zlen (pre ++ [code; zlen d]) + zlen d)); [lia |].
    rewrite El. destruct r as [[[msg_type server] router] dns].
    assert (forall r', parse_dhcp_options fuel ((pre ++ [code; zlen d]) ++ d ++ enc ++ 255 :: post) len
       (zlen (pre ++ [code; zlen d]) + zlen d) r' = Some (foldl apply_option r' os)) as Hrest.
    { intros r'. rewrite app_assoc. specialize (IH fuel ((pre ++ [code; zlen d]) ++ d) post len r' Hv).
      rewrite <- zlen_app. apply IH; rewrite zlen_app; lia. }
    assert (4 <= zlen d -> ip_at ((pre ++ [code; zlen d]) ++ d ++ enc ++ 255 :: post) (zlen (pre ++ [code; zlen d]))
      = Some (d.[0] + 256 * d.[1] + 65536 * d.[2] + 16777216 * d.[3])) as Hip by apply ip_at_middle.
    cbn [foldl apply_option].
    destruct ((code =? 53) && (1 <=? zlen d)) eqn:B1.
    { bprop. rewrite (zlook_suffix _ _ _ 0), zlook_app_l, zlook_get by lia.
      cbn [mbind option_bind]. apply Hrest. }
    destruct ((code =? 54) && (4 <=? zlen d)) eqn:B2.
    { bprop. rewrite Hip by done. apply Hrest. }
    destruct ((code =? 3) && (4 <=? zlen d)) eqn:B3.
    { bprop. rewrite Hip by done. apply Hrest. }
    destruct ((code =? 6) && (4 <=? zlen d)) eqn:B4.
    { bprop. rewrite Hip by done. apply Hrest. }
    apply Hrest.
Qed.

(** ** Witnesses *)

Definition mac_ex : list Z := [82; 84; 0; 18; 52; 86].
Definition nic_ex : rtl := Rtl 0xC000 mac_ex [] 0 [4096; 8192; 12288; 16384] 0 0 [] [].
(** A stack that has sent its request to 10.0.2.2 and waits for the page of "ab.c". *)
Definition net_ex : net :=
  Net mac_ex [82; 85; 10; 0; 2; 2] 1 1 1 1 7 1 [97; 98; 46; 99] (NET_IP 10 0 2 15) (NET_IP 10 0 2 2)
    (NET_IP 10 0 2 3) 0 (NET_IP 10 0 2 2) 0 0 (Tcp 3 (NET_IP 10 0 2 2) 100 5000 99 50 0 0)
    (Http 0 0 0 0 0 [] [97; 98; 46; 99]) nic_ex.

Lemma net_ex_can_send : can_send net_ex.
Proof. by repeat split. Qed.

Lemma checksums_valid_witness :
  checksum16 (fst (build_ipv4 (NET_IP 10 0 2 15) (NET_IP 10 0 2 2) IP_PROTO_TCP 22 net_ex)) = 0 /\
  checksum16 [69; 0; 0; 20] = 0xBAEB.
Proof.
  assert (bytes [69; 0; 0; 20] /\ bytes [104; 105]) as [H1 H2] by (unfold bytes, is_byte; repeat constructor; done).
  assert (is_byte IP_PROTO_TCP /\ is_byte 16) as [H3 H4] by done.
  pose proof (checksums_valid [69; 0; 0; 20] net_ex (NET_IP 10 0 2 15) (NET_IP 10 0 2 2) IP_PROTO_TCP 22
    80 49154 7 8 16 [104; 105] H1 ltac:(by vm_compute) H3 H4 H2 ltac:(by vm_compute)) as (_ & H & _).
  split; [exact H | vm_compute; reflexivity].
Defined.


Lemma dns_name_roundtrip_witness : exists out rest,
  dns_write_name (replicate 240 0) [97; 98; 46; 99] = Some (6, out) /\
  out = [2; 97; 98; 1; 99] ++ 0 :: rest /\ dns_skip_name out (zlen out) 0 = Some 6.
Proof.
  apply (dns_name_roundtrip [[97; 98]; [99]]); [done | | by vm_compute | by vm_compute].
  unfold valid_label. repeat constructor; done.
Defined.

(** "a\r\n\r\nbc" and "d". *)
Lemma http_body_stream_witness :
  g_http_body (process_all [[97; 13; 10; 13; 10; 98; 99]; [100]] (Http 0 0 0 0 0 [] [])) = [98; 99; 100].
Proof.
  destruct (http_body_stream [[97; 13; 10; 13; 10; 98; 99]; [100]] (Http 0 0 0 0 0 [] []) eq_refl eq_refl) as [-> _].
  done.
Defined.

Lemma http_split_terminator_witness :
  g_http_body (process_all [[97; 13; 10]; [13; 10; 98]] (Http 0 0 0 0 0 [] [])) = [] /\
  g_http_body (process_all [[97; 13; 10; 13; 10; 98]] (Http 0 0 0 0 0 [] [])) = [98].
Proof.
  apply (http_split_terminator [97; 13; 10] [13; 10; 98] [98] (Http 0 0 0 0 0 [] [])); done.
Defined.
