(* ===== verification/NetRx.v ===== *)
(** * Received packets

    What the handlers of Net.v do with a packet: that they stay inside it and keep the
    state of the stack well formed, how a stream of TCP segments reaches the page, and
    how an address is obtained with DHCP. *)

From S2P Require Import Prelude Pmm Rtl8139 Net.

(** ** The invariant of the stack *)

Record net_inv (n : net) : Prop := {
  inv_send : can_send n;
  inv_body : zlen (g_http_body (g_http n)) <= 511;
  inv_state : 0 <= g_tcp_state (g_tcp n) <= 7 }.

(** What every handler may change of the card: frames go out, the ring stays. *)
Definition steps (n n' : net) : Prop :=
  (exists fs, wire (g_nic n') = wire (g_nic n) ++ fs) /\ g_mac n' = g_mac n /\
  g_rx_buffer (g_nic n') = g_rx_buffer (g_nic n) /\ g_rx_offset (g_nic n') = g_rx_offset (g_nic n).

Definition ok_out (n : net) (o : option net) : Prop := exists n', o = Some n' /\ net_inv n' /\ steps n n'.

#[global] Instance steps_preorder : PreOrder steps.
Proof.
  split.
  - intros n. split; [exists []; by rewrite app_nil_r | done].
  - intros a b c ((f & Ef) & H1 & H2 & H3) ((g & Eg) & H4 & H5 & H6).
    split; [exists (f ++ g); by rewrite Eg, Ef, app_assoc | split_and!; congruence].
Qed.

Lemma ok_ret n n' : net_inv n' -> steps n n' -> ok_out n (Some n').
Proof. unfold ok_out. eauto. Qed.

Lemma ok_bind n o k : ok_out n o -> (forall n', net_inv n' -> steps n n' -> ok_out n' (k n')) -> ok_out n (o ≫= k).
Proof.
  intros (n1 & -> & Hi & Hs) Hk. destruct (Hk n1 Hi Hs) as (n2 & E & Hi2 & Hs2).
  exists n2. split; [exact E |]. split; [done | by etrans].
Qed.

(** Steps that change neither the card nor the address of the machine. *)
Lemma ok_quiet n n1 o : g_nic n1 = g_nic n -> g_mac n1 = g_mac n -> ok_out n1 o -> ok_out n o.
Proof.
  intros H1 H2 (n2 & -> & Hi & (Hw & Hm & Hb & Ho)). exists n2. split; [done |]. split; [done |].
  rewrite H1, H2 in *. done.
Qed.

Lemma ok_same n : net_inv n -> ok_out n (Some n).
Proof. intros H. by apply ok_ret. Qed.

Lemma inv_quiet n n1 : net_inv n -> g_nic n1 = g_nic n -> g_mac n1 = g_mac n ->
  zlen (g_gateway_mac n1) = 6 -> zlen (g_http_body (g_http n1)) <= 511 -> 0 <= g_tcp_state (g_tcp n1) <= 7 ->
  net_inv n1.
Proof.
  intros [(H1 & H2 & H3) H4 H5] E1 E2 E3 E4 E5. split; [| done | done].
  unfold can_send. by rewrite E1, E2.
Qed.

Lemma ok_set n n1 : net_inv n -> g_nic n1 = g_nic n -> g_mac n1 = g_mac n ->
  zlen (g_gateway_mac n1) = 6 -> zlen (g_http_body (g_http n1)) <= 511 -> 0 <= g_tcp_state (g_tcp n1) <= 7 ->
  ok_out n (Some n1).
Proof.
  intros Hi E1 E2 E3 E4 E5. apply (ok_quiet _ n1); [done | done |]. apply ok_same. by eapply inv_quiet.
Qed.

(** Goals about a state that differs from one with the invariant in quiet fields. *)
Ltac quiet :=
  match goal with
  | H : net_inv ?n |- net_inv _ => eapply (inv_quiet n)
  | H : net_inv ?n |- ok_out ?n (Some _) => eapply (ok_set n)
  end; [assumption | reflexivity | reflexivity | ..];
  match goal with
  | H : net_inv _ |- _ => first [exact (proj2 (proj2 (inv_send _ H))) | exact (inv_body _ H) | exact (inv_state _ H)]
  | |- _ => first [done | cbn; lia]
  | |- _ => idtac
  end.

Lemma sent_ok f n n' : net_inv n -> sent f n n' -> ok_out n (Some n').
Proof.
  intros [Hc Hb Hs] Hf. apply ok_ret.
  - split; [by eapply sent_can_send | |]; destruct Hf as (d & i & -> & _); done.
  - destruct Hf as (d & i & -> & _ & Hw & _ & H1 & H2). split; [by exists [f] | done].
Qed.

Lemma rtl_send_out f n : net_inv n -> 14 <= zlen f <= 1792 -> ok_out n (rtl_send f n).
Proof.
  intros Hi Hf. destruct (rtl_send_ok f n (inv_send n Hi) Hf) as (d & E & Hd & Hw & Hb & Ho).
  rewrite E. apply ok_ret.
  - destruct Hi as [(_ & H2 & H3) H4 H5]. by split.
  - split; [by exists [f] | done].
Qed.

Lemma send_tcp_out dst_ip dst_mac seq ack flags payload n :
  net_inv n -> zlen dst_mac = 6 -> zlen payload <= 1400 ->
  ok_out n (send_tcp_segment dst_ip dst_mac seq ack flags payload n).
Proof.
  intros Hi Hm Hp.
  destruct (send_tcp_segment_ok dst_ip dst_mac seq ack flags payload n (inv_send n Hi) Hm Hp) as (n' & E & Hs).
  rewrite E. by eapply sent_ok.
Qed.

Lemma send_ack_out n : net_inv n -> ok_out n (send_ack n).
Proof. intros Hi. unfold send_ack. apply send_tcp_out; [done | apply Hi | by cbn]. Qed.

Lemma get_out after n : net_inv n -> ok_out n (tcp_http_send_get after n).
Proof.
  intros Hi. unfold tcp_http_send_get. cbv zeta. set (n1 := set_tcp _ n).
  assert (net_inv n1) as Hi1 by quiet.
  apply ok_bind.
  - apply (ok_quiet _ n1); [done | done |]. apply send_tcp_out; [done | apply Hi |].
    pose proof (http_request_len after (g_http_host (g_http n))). lia.
  - intros n' Hi' _. quiet.
Qed.

Lemma be16_len v : zlen (be16_bytes v) = 2.
Proof. done. Qed.

Lemma built_quiet src dst proto len n ip n1 : net_inv n -> build_ipv4 src dst proto len n = (ip, n1) ->
  zlen ip = 20 /\ net_inv n1 /\ g_nic n1 = g_nic n /\ g_mac n1 = g_mac n.
Proof.
  intros Hi E. pose proof (build_ipv4_len src dst proto len n) as Hl. rewrite E in Hl.
  unfold build_ipv4 in E. injection E as _ <-. split; [exact Hl |].
  split; [quiet | done].
Qed.

Definition udp_frame (n : net) (dst_mac : list Z) (src dst sp dp : Z) (payload : list Z) : list Z :=
  eth_header dst_mac (g_mac n) ETH_P_IP ++ fst (build_ipv4 src dst IP_PROTO_UDP (8 + zlen payload) n) ++
  be16_bytes sp ++ be16_bytes dp ++ be16_bytes (u16 (8 + zlen payload)) ++ be16_bytes 0 ++ payload.

Lemma send_udp_ok dst_mac src dst sp dp payload n :
  can_send n -> zlen dst_mac = 6 -> zlen payload <= 1700 ->
  exists n', send_udp dst_mac src dst sp dp payload n = Some n' /\
    sent (udp_frame n dst_mac src dst sp dp payload) n n'.
Proof.
  intros Hc Hm Hp. pose proof (zlen_nonneg payload). unfold send_udp.
  destruct (build_ipv4 src dst IP_PROTO_UDP (8 + zlen payload) n) as [ip n1] eqn:E.
  assert (n1 = set_ip_id (u16 (g_ip_id n + 1)) n) as ->.
  { unfold build_ipv4 in E. by injection E as _ <-. }
  destruct (rtl_send_ok (udp_frame n dst_mac src dst sp dp payload) (set_ip_id (u16 (g_ip_id n + 1)) n))
    as (d & Ed & Hd & Hw & H1 & H2); [done | |].
  - unfold udp_frame, eth_header. rewrite !zlen_app, Hm, (proj1 (proj2 Hc)), build_ipv4_len, !be16_len. lia.
  - unfold udp_frame in Ed at 1. rewrite E in Ed. cbn [fst] in Ed.
    change (g_mac (set_ip_id (u16 (g_ip_id n + 1)) n)) with (g_mac n).
    rewrite Ed. eexists. split; [done |]. exists d, (u16 (g_ip_id n + 1)). split_and!; try done; apply u16_range.
Qed.

Lemma send_udp_out dst_mac src dst sp dp payload n :
  net_inv n -> zlen dst_mac = 6 -> zlen payload <= 1700 -> ok_out n (send_udp dst_mac src dst sp dp payload n).
Proof.
  intros Hi Hm Hp. destruct (send_udp_ok dst_mac src dst sp dp payload n (inv_send n Hi) Hm Hp) as (n' & E & Hs).
  rewrite E. by eapply sent_ok.
Qed.

Lemma dhcp_fixed_len mac : zlen mac = 6 -> zlen (dhcp_fixed mac) = 240.
Proof. intros H. unfold dhcp_fixed. rewrite !zlen_app, H, !zlen_replicate. done. Qed.

Lemma dhcp_options_len t a b : 16 <= zlen (dhcp_options t a b) <= 28.
Proof. unfold dhcp_options. by destruct (istrue a), (istrue b). Qed.

Lemma send_dhcp_out t a b n : net_inv n -> ok_out n (send_dhcp t a b n).
Proof.
  intros Hi. unfold send_dhcp. cbv zeta. apply send_udp_out; [done | done |].
  rewrite !zlen_app, dhcp_fixed_len, zlen_replicate by apply Hi.
  pose proof (dhcp_options_len t a b). lia.
Qed.

Lemma send_arp_out a n : net_inv n -> ok_out n (send_arp_request a n).
Proof.
  intros Hi. unfold send_arp_request. apply rtl_send_out; [done |].
  unfold eth_header. rewrite !zlen_app, (proj1 (proj2 (inv_send n Hi))), !be16_len, !zlen_replicate.
  change (zlen [6; 4]) with 2. change (zlen (ip_bytes _)) with 4. change (zlen (ip_bytes a)) with 4. lia.
Qed.

Lemma send_icmp_out ip mac n : net_inv n -> zlen mac = 6 -> ok_out n (send_icmp_echo ip mac n).
Proof.
  intros Hi Hm. unfold send_icmp_echo. cbv zeta.
  destruct (build_ipv4 (g_local_ip n) ip IP_PROTO_ICMP 20 n) as [h n1] eqn:E.
  destruct (built_quiet _ _ _ _ _ _ _ Hi E) as (Hl & Hi1 & H1 & H2).
  apply (ok_quiet _ n1); [done | done |].
  apply (ok_quiet _ (set_icmp_seq (u16 (g_icmp_seq n + 1)) n1)); [done | done |].
  apply rtl_send_out; [quiet |]. unfold eth_header.
  change (g_mac (set_icmp_seq _ n1)) with (g_mac n1).
  rewrite !zlen_app, Hm, Hl, H2, (proj1 (proj2 (inv_send n Hi))), be16_len. unfold icmp_fields.
  rewrite !zlen_app, !be16_len. change (zlen [8; 0]) with 2. change (zlen PING) with 12. lia.
Qed.

Lemma dns_write_pos host : forall out pos ll lp k o,
  0 <= pos -> dns_write_from host out pos ll lp = Some (k, o) -> pos <= k <= zlen out /\ zlen o = zlen out.
Proof.
  induction host as [| c host IH]; intros out pos ll lp k o Hp; cbn [dns_write_from].
  - destruct (ll =? 0); [done |]. rewrite zset_zlen.
    destruct (Z.leb_spec (zlen out) pos); [done |]. intros [= <- <-]. rewrite !zset_zlen. lia.
  - destruct ((ll =? 0) && (zlen out <=? pos)) eqn:B; [done |].
    destruct (Z.eqb_spec ll 0); cbn [andb] in B.
    + apply Z.leb_gt in B. destruct (c =? 46); [done |].
      destruct (Z.leb_spec (zlen out) (pos + 1)); [done |]. destruct (63 <? ll + 1); [done |].
      intros E. apply IH in E; [| lia]. rewrite zset_zlen in E. lia.
    + destruct (c =? 46).
      * destruct (false || (63 <? ll)); [done |]. intros E. apply IH in E; [| lia].
        rewrite zset_zlen in E. lia.
      * destruct (Z.leb_spec (zlen out) pos); [done |]. destruct (63 <? ll + 1); [done |].
        intros E. apply IH in E; [| lia]. rewrite zset_zlen in E. lia.
Qed.

Lemma dns_query_out host n : net_inv n -> ok_out n (dns_query host n).
Proof.
  intros Hi. unfold dns_query. destruct (_ || _ || _); [by apply ok_same |].
  destruct (dns_write_name _ _) as [[k out] |] eqn:E; [| by apply ok_same].
  apply dns_write_pos in E; [| lia]. rewrite zlen_replicate in E. cbv zeta.
  set (n1 := set_dns_host _ _). assert (net_inv n1) as Hi1 by quiet.
  apply (ok_quiet _ n1); [done | done |]. apply send_udp_out; [done | apply Hi |].
  rewrite !zlen_app, zlen_take by lia. change (zlen dns_header) with 12. change (zlen [0; 1; 0; 1]) with 4. lia.
Qed.

Lemma tcp_start_out ip n : net_inv n -> ok_out n (tcp_http_start ip n).
Proof.
  intros Hi. unfold tcp_http_start. destruct (_ || _); [by apply ok_same |]. cbv zeta.
  set (n1 := on_http _ _). assert (net_inv n1) as Hi1 by quiet.
  apply (ok_quiet _ n1); [done | done |]. unfold send_syn. apply send_tcp_out; [done | apply Hi1 | done].
Qed.

(** ** Reads inside the packet *)

Lemma byte_in l i : bytes l -> 0 <= i < zlen l -> exists v, zlook l i = Some v /\ 0 <= v < 256.
Proof.
  intros Hb Hi. destruct (zlook_in_range l i Hi) as [v E]. exists v. split; [done |].
  exact (zlook_Forall is_byte l i v Hb E).
Qed.

Lemma be16_in l i : bytes l -> 0 <= i -> i + 2 <= zlen l -> exists v, be16 l i = Some v /\ 0 <= v < 65536.
Proof.
  intros Hb H0 H1. unfold be16. destruct (byte_in l i Hb) as (a & -> & Ha); [lia |].
  destruct (byte_in l (i + 1) Hb) as (b & -> & Hb1); [lia |]. cbn. eexists. split; [done | lia].
Qed.

Lemma be32_in l i : bytes l -> 0 <= i -> i + 4 <= zlen l -> exists v, be32 l i = Some v.
Proof.
  intros Hb H0 H1. unfold be32. destruct (be16_in l i Hb) as (a & -> & _); [lia.. |].
  destruct (be16_in l (i + 2) Hb) as (b & -> & _); [lia.. |]. cbn. eauto.
Qed.

Lemma ip_in l i : 0 <= i -> i + 4 <= zlen l -> exists v, ip_at l i = Some v.
Proof.
  intros H0 H1. unfold ip_at.
  destruct (zlook_in_range l i) as [a ->]; [lia |]. destruct (zlook_in_range l (i + 1)) as [b ->]; [lia |].
  destruct (zlook_in_range l (i + 2)) as [c ->]; [lia |]. destruct (zlook_in_range l (i + 3)) as [d ->]; [lia |].
  cbn. eauto.
Qed.

Lemma bytes_in l i n : 0 <= i -> 0 <= n -> i + n <= zlen l -> exists v, bytes_at l i n = Some v /\ zlen v = n.
Proof.
  intros H0 Hn H1. unfold bytes_at. destruct (Z.leb_spec 0 i), (Z.leb_spec 0 n), (Z.leb_spec (i + n) (zlen l)); try lia.
  cbn [andb]. eexists. split; [done |]. rewrite zlen_take by (rewrite zlen_drop; lia). done.
Qed.

(** ** Parsing terminates inside the message *)

Lemma dns_skip_in fuel : forall msg len off jumps, bytes msg -> 0 <= off -> len <= zlen msg ->
  exists o, dns_skip_from fuel msg len off jumps = Some o /\ -1 <= o <= Z.max len (-1).
Proof.
  induction fuel as [| fuel IH]; intros msg len off jumps Hb H0 Hl; cbn [dns_skip_from].
  { eexists. split; [done | lia]. }
  destruct (Z.ltb_spec off len); cbn [negb]; [| eexists; split; [done | lia]].
  destruct (byte_in msg off Hb) as (c & -> & Hc); [lia |]. cbn [mbind option_bind].
  destruct (c =? 0); [eexists; split; [done | lia] |].
  destruct (_ =? 0xC0); [eexists; split; [done |]; destruct (Z.leb_spec len (off + 1)); lia |].
  destruct (istrue _); [eexists; split; [done | lia] |].
  destruct (Z.ltb_spec len (off + 1 + c)); cbn [orb]; [eexists; split; [done | lia] |].
  destruct (64 <? jumps + 1); [eexists; split; [done | lia] |]. by apply IH; [| lia |].
Qed.

Lemma skip_questions_in k : forall msg len off, bytes msg -> 0 <= off <= len -> len <= zlen msg ->
  exists q, skip_questions k msg len off = Some q /\ forall o, q = Some o -> 0 <= o <= len.
Proof.
  induction k as [| k IH]; intros msg len off Hb H0 Hl; cbn [skip_questions].
  { eexists. split; [done |]. by intros o [= <-]. }
  destruct (dns_skip_in 66 msg len off 0 Hb) as (o & E & Ho); [lia.. |].
  unfold dns_skip_name. rewrite E. cbn [mbind option_bind].
  destruct (Z.ltb_spec o 0), (Z.ltb_spec len (o + 4)); cbn [orb]; try by eexists.
  apply IH; [done | lia | lia].
Qed.

Lemma find_answer_in k : forall msg len off, bytes msg -> 0 <= off <= len -> len <= zlen msg ->
  exists a, find_answer k msg len off = Some a.
Proof.
  induction k as [| k IH]; intros msg len off Hb H0 Hl; cbn [find_answer]; [by eexists |].
  destruct (dns_skip_in 66 msg len off 0 Hb) as (o & E & Ho); [lia.. |].
  unfold dns_skip_name. rewrite E. cbn [mbind option_bind].
  destruct (Z.ltb_spec o 0), (Z.ltb_spec len (o + 10)); cbn [orb]; try by eexists.
  destruct (be16_in msg o Hb) as (t & -> & _); [lia.. |].
  destruct (be16_in msg (o + 2) Hb) as (c & -> & _); [lia.. |].
  destruct (be16_in msg (o + 8) Hb) as (r & -> & Hr); [lia.. |]. cbn [mbind option_bind].
  destruct (Z.ltb_spec len (o + 10 + r)); [by eexists |].
  destruct ((t =? 1) && (c =? 1) && (r =? 4)) eqn:B; bprop.
  - destruct (ip_in msg (o + 10)) as [v ->]; [lia.. |]. by eexists.
  - apply IH; [done | lia | lia].
Qed.

Lemma dhcp_options_in fuel : forall opt len i r, bytes opt -> 0 <= i -> len <= zlen opt ->
  (Z.to_nat (len - i) < fuel)%nat -> exists r', parse_dhcp_options fuel opt len i r = Some r'.
Proof.
  induction fuel as [| fuel IH]; intros opt len i r Hb H0 Hl Hf; [lia |]. cbn [parse_dhcp_options].
  destruct (Z.ltb_spec i len); cbn [negb]; [| by eexists].
  destruct (byte_in opt i Hb) as (c & -> & Hc); [lia |]. cbn [mbind option_bind].
  destruct (c =? 255); [by eexists |]. destruct (c =? 0); [apply IH; done || lia |].
  destruct (Z.leb_spec len (i + 1)); [by eexists |].
  destruct (byte_in opt (i + 1) Hb) as (n & -> & Hn); [lia |]. cbn [mbind option_bind].
  destruct (Z.ltb_spec len (i + 1 + 1 + n)); [by eexists |].
  destruct r as [[[m s] g] d].
  assert (forall r', exists r'', parse_dhcp_options fuel opt len (i + 1 + 1 + n) r' = Some r'') as Hk
    by (intros r'; apply IH; done || lia).
  assert (4 <= n -> exists v, ip_at opt (i + 1 + 1) = Some v) as Hip by (intros; apply ip_in; lia).
  destruct ((c =? 53) && (1 <=? n)) eqn:B1.
  { bprop. destruct (byte_in opt (i + 1 + 1) Hb) as (v & -> & _); [lia |]. apply Hk. }
  destruct ((c =? 54) && (4 <=? n)) eqn:B2; [bprop; destruct Hip as [v ->]; [lia | apply Hk] |].
  destruct ((c =? 3) && (4 <=? n)) eqn:B3; [bprop; destruct Hip as [v ->]; [lia | apply Hk] |].
  destruct ((c =? 6) && (4 <=? n)) eqn:B4; [bprop; destruct Hip as [v ->]; [lia | apply Hk] |].
  apply Hk.
Qed.

(** ** The handlers *)

Lemma handle_dhcp_out msg len n : net_inv n -> bytes msg -> len <= zlen msg -> ok_out n (handle_dhcp msg len n).
Proof.
  intros Hi Hb Hl. unfold handle_dhcp. destruct (Z.ltb_spec len 240); [by apply ok_same |].
  destruct (byte_in msg 0 Hb) as (op & -> & _); [lia |].
  destruct (be32_in msg 4 Hb) as (xid & ->); [lia.. |].
  destruct (be32_in msg 236 Hb) as (magic & ->); [lia.. |]. cbn [mbind option_bind].
  destruct (_ || _ || _); [by apply ok_same |].
  destruct (dhcp_options_in (S (Z.to_nat (len - 240))) (drop 240 msg) (len - 240) 0 (0, 0, 0, 0))
    as ([[[mt sv] gw] dn] & ->); [by apply Forall_drop | lia | | lia |].
  { change 240%nat with (Z.to_nat 240). rewrite zlen_drop by lia. lia. }
  destruct (ip_in msg 16) as (y & ->); [lia.. |]. cbn [mbind option_bind].
  destruct (_ && _).
  - cbv zeta. set (n1 := set_dhcp_requested _ _). assert (net_inv n1) as Hi1 by quiet.
    apply (ok_quiet _ n1); [done | done |]. by apply send_dhcp_out.
  - destruct (_ && _); [| by apply ok_same]. cbv zeta. set (n1 := set_dhcp_configured _ _).
    assert (net_inv n1) as Hi1 by quiet.
    apply (ok_quiet _ n1); [done | done |]. by apply send_arp_out.
Qed.

Lemma handle_dns_out msg len n : net_inv n -> bytes msg -> len <= zlen msg -> ok_out n (handle_dns msg len n).
Proof.
  intros Hi Hb Hl. unfold handle_dns. destruct (Z.ltb_spec len 12); [by apply ok_same |].
  destruct (be16_in msg 0 Hb) as (id & -> & _); [lia.. |]. cbn [mbind option_bind].
  destruct (negb _); [by apply ok_same |].
  destruct (be16_in msg 4 Hb) as (qd & -> & _); [lia.. |].
  destruct (be16_in msg 6 Hb) as (an & -> & _); [lia.. |]. cbn [mbind option_bind].
  destruct (skip_questions_in (Z.to_nat qd) msg len 12 Hb) as (q & -> & Hq); [lia.. |].
  cbn [mbind option_bind]. destruct q as [off |]; [| by apply ok_same].
  destruct (find_answer_in (Z.to_nat an) msg len off Hb (Hq off eq_refl) Hl) as [a ->]. cbn [mbind option_bind].
  destruct a as [| | ip]; [by apply ok_same.. |]. cbv zeta. set (n1 := on_http _ _).
  assert (net_inv n1) as Hi1 by quiet. apply (ok_quiet _ n1); [done | done |]. by apply tcp_start_out.
Qed.

Lemma handle_arp_out pk len n : net_inv n -> bytes pk -> len <= zlen pk -> ok_out n (handle_arp pk len n).
Proof.
  intros Hi Hb Hl. unfold handle_arp. destruct (Z.ltb_spec len 42); [by apply ok_same |].
  destruct (be16_in pk 20 Hb) as (op & -> & _); [lia.. |].
  destruct (ip_in pk 28) as (spa & ->); [lia.. |]. cbn [mbind option_bind].
  destruct (_ && _); [| by apply ok_same].
  destruct (bytes_in pk 22 6) as (sha & -> & Hs); [lia.. |]. cbn [mbind option_bind].
  set (n1 := set_gateway_known _ _). assert (net_inv n1) as Hi1.
  { eapply inv_quiet; [exact Hi | done | done | exact Hs | apply (inv_body n Hi) | apply (inv_state n Hi)]. }
  apply (ok_quiet _ n1); [done | done |].
  apply ok_bind; [by apply send_icmp_out |]. intros n' Hi' _.
  destruct (istrue _); [by apply ok_same | by apply dns_query_out].
Qed.

Lemma store_body_max data h : zlen (g_http_body h) <= 511 -> zlen (g_http_body (http_store_body data h)) <= 511.
Proof. intros H. rewrite http_store_take by done. cbn. unfold zlen. rewrite length_take. lia. Qed.

Lemma process_payload_max p h : zlen (g_http_body h) <= 511 -> zlen (g_http_body (http_process_payload p h)) <= 511.
Proof.
  intros H. unfold http_process_payload. destruct (istrue _); [by apply store_body_max |].
  destruct (after_headers p); [by apply store_body_max | done].
Qed.

Lemma print_preview_body h : g_http_body (http_print_body_preview h) = g_http_body h.
Proof. unfold http_print_body_preview. by destruct (_ || _). Qed.

Lemma tcp_data_out seq pl payload n : net_inv n -> ok_out n (tcp_data seq pl payload n).
Proof.
  intros Hi. unfold tcp_data. cbv zeta. set (n1 := on_tcp _ _).
  assert (net_inv n1) as Hi1.
  { eapply inv_quiet; [exact Hi | done | done | apply (inv_send n Hi) | | apply (inv_state n Hi)].
    cbn. apply process_payload_max. apply (inv_body n Hi). }
  apply (ok_quiet _ n1); [done | done |]. apply ok_bind; [by apply send_ack_out |].
  intros n' Hi' _. eapply ok_set; [exact Hi' | done | done | apply (inv_send n' Hi') | | done].
  cbn [on_http set_http g_http]. rewrite print_preview_body. apply (inv_body n' Hi').
Qed.

Lemma tcp_fin_out flags fin n :
  net_inv n ->
  ok_out n (if istrue (Z.land flags TCP_FLAG_FIN) then
              n ← send_ack (on_tcp (set_tcp_ack fin) n);
              Some (on_tcp (set_tcp_state 6) (on_http http_print_body_preview n))
            else Some n).
Proof.
  intros Hi. destruct (istrue _); [| by apply ok_same]. set (n1 := on_tcp _ n).
  assert (net_inv n1) as Hi1 by quiet. apply (ok_quiet _ n1); [done | done |].
  apply ok_bind; [by apply send_ack_out |]. intros n' Hi' _.
  eapply ok_set; [exact Hi' | done | done | apply (inv_send n' Hi') | | done].
  cbn [on_http set_http on_tcp set_tcp g_http]. rewrite print_preview_body. apply (inv_body n' Hi').
Qed.

Lemma tcp_segment_out after seq ack flags pl payload n :
  net_inv n -> (0 < pl -> exists v, payload = Some v) -> ok_out n (tcp_segment after seq ack flags pl payload n).
Proof.
  intros Hi Hp. unfold tcp_segment. cbv zeta.
  destruct (istrue (Z.land flags TCP_FLAG_RST)); [quiet |].
  destruct (_ && _ && (_ =? _)).
  { set (n1 := on_tcp _ n). assert (net_inv n1) as Hi1 by quiet.
    apply (ok_quiet _ n1); [done | done |]. apply ok_bind; [by apply send_ack_out |].
    intros n' Hi' _. by apply get_out. }
  destruct ((3 <=? g_tcp_state (g_tcp n)) && (g_tcp_state (g_tcp n) <=? 4) && _) eqn:B; cbn [andb].
  - bprop. destruct (negb _); [by apply send_ack_out |].
    destruct Hp as [v ->]; [done |].
    cbn [mbind option_bind]. apply ok_bind; [by apply tcp_data_out |].
    intros n' Hi' _. by apply tcp_fin_out.
  - cbn [mbind option_bind]. by apply tcp_fin_out.
Qed.

Lemma handle_tcp_out after pk ihl total n :
  net_inv n -> bytes pk -> 20 <= ihl <= 60 -> 34 <= zlen pk -> ihl <= total -> 14 + total <= zlen pk ->
  ok_out n (handle_tcp after pk ihl total n).
Proof.
  intros Hi Hb Hh Hl Ht Hpk. unfold handle_tcp.
  destruct (ip_in pk 30) as (dst & ->); [lia.. |]. destruct (ip_in pk 26) as (src & ->); [lia.. |].
  cbn [mbind option_bind]. destruct (_ || _); [by apply ok_same |].
  destruct (Z.ltb_spec total (ihl + 20)); [by apply ok_same |]. cbv zeta.
  destruct (be16_in pk (14 + ihl) Hb) as (sp & -> & _); [lia.. |].
  destruct (be16_in pk (14 + ihl + 2) Hb) as (dp & -> & _); [lia.. |]. cbn [mbind option_bind].
  destruct (_ || _); [by apply ok_same |].
  destruct (byte_in pk (14 + ihl + 12) Hb) as (d & -> & Hd); [lia |]. cbn [mbind option_bind].
  set (hlen := Z.shiftr d 4 * 4).
  destruct (Z.ltb_spec hlen 20), (Z.ltb_spec total (ihl + hlen)); try by apply ok_same. cbn [orb].
  assert (exists seg, (if 1500 <? total - ihl then Some [] else bytes_at pk (14 + ihl) (total - ihl)) = Some seg)
    as (seg & ->).
  { destruct (_ <? _); [eauto |].
    destruct (bytes_in pk (14 + ihl) (total - ihl)) as (v & -> & _); [lia.. | eauto]. }
  cbn [mbind option_bind]. destruct (negb _); [by apply ok_same |].
  destruct (be32_in pk (14 + ihl + 4) Hb) as (seq & ->); [lia.. |].
  destruct (be32_in pk (14 + ihl + 8) Hb) as (ack & ->); [lia.. |].
  destruct (byte_in pk (14 + ihl + 13) Hb) as (flags & -> & Hf); [lia |]. cbn [mbind option_bind].
  apply tcp_segment_out; [done |]. intros _.
  destruct (bytes_in pk (14 + ihl + hlen) (total - ihl - hlen)) as (v & -> & _); [lia.. | eauto].
Qed.

(** The lengths a packet names are those of the memory it lies in: [len] bytes came from
    the card, and an IP packet and its UDP datagram end inside [pk]. *)
Definition ip_hlen (pk : list Z) : Z := Z.land (pk.[14]) 0x0F * 4.
Definition lengths_ok (pk : list Z) (len : Z) : Prop :=
  len <= zlen pk /\
  (be16 pk 12 = Some ETH_P_IP ->
   (forall total, be16 pk 16 = Some total -> 14 + total <= zlen pk) /\
   (pk.[23] = IP_PROTO_UDP -> forall u, be16 pk (14 + ip_hlen pk + 4) = Some u ->
      14 + ip_hlen pk + u <= zlen pk)).

Lemma handle_udp_out pk ihl total n :
  net_inv n -> bytes pk -> 20 <= ihl <= 60 -> 14 + total <= zlen pk ->
  (forall u, be16 pk (14 + ihl + 4) = Some u -> 14 + ihl + u <= zlen pk) ->
  ok_out n (handle_udp pk ihl total n).
Proof.
  intros Hi Hb Hh Hpk Hu. unfold handle_udp. destruct (Z.ltb_spec total (ihl + 8)); [by apply ok_same |]. cbv zeta.
  destruct (be16_in pk (14 + ihl) Hb) as (sp & -> & _); [lia.. |].
  destruct (be16_in pk (14 + ihl + 2) Hb) as (dp & -> & _); [lia.. |].
  destruct (be16_in pk (14 + ihl + 4) Hb) as (u & E & _); [lia.. |]. apply Hu in E as Hu'. rewrite E.
  cbn [mbind option_bind]. destruct (Z.ltb_spec u 8); [by apply ok_same |].
  assert (bytes (drop (Z.to_nat (14 + ihl + 8)) pk)) by (by apply Forall_drop).
  assert (u - 8 <= zlen (drop (Z.to_nat (14 + ihl + 8)) pk)) by (rewrite zlen_drop; lia).
  destruct (_ && _); [by apply handle_dhcp_out |].
  destruct (_ && _); [by apply handle_dns_out | by apply ok_same].
Qed.

Lemma handle_ipv4_out after pk len n : net_inv n -> bytes pk -> lengths_ok pk len ->
  be16 pk 12 = Some ETH_P_IP -> ok_out n (handle_ipv4 after pk len n).
Proof.
  intros Hi Hb [Hl Hip] Et. destruct (Hip Et) as [Htot Hudp]. unfold handle_ipv4.
  destruct (Z.ltb_spec len 34); [by apply ok_same |].
  destruct (byte_in pk 14 Hb) as (v & Ev & Hv); [lia |]. rewrite Ev. cbn [mbind option_bind].
  unfold ip_hlen in Hudp. rewrite (zget_look _ _ _ Ev) in Hudp.
  destruct (negb _); [by apply ok_same |]. cbv zeta.
  assert (0 <= Z.land v 0x0F <= 15) as Hv15 by (pose proof (Z.land_ones v 4 ltac:(lia)) as Eo; change (Z.ones 4) with 15 in Eo; rewrite Eo; lia).
  set (ihl := Z.land v 0x0F * 4) in *.
  destruct (Z.ltb_spec ihl 20), (Z.ltb_spec len (14 + ihl)); try by apply ok_same. cbn [orb].
  destruct (be16_in pk 16 Hb) as (total & E & _); [lia.. |]. apply Htot in E as Ht. rewrite E.
  cbn [mbind option_bind]. destruct (Z.ltb_spec total ihl); [by apply ok_same |].
  destruct (byte_in pk 23 Hb) as (proto & Ep & _); [lia |]. rewrite Ep. cbn [mbind option_bind].
  destruct (Z.eqb_spec proto IP_PROTO_UDP) as [-> |].
  { apply handle_udp_out; [done | done | lia | lia |]. apply Hudp. by apply zget_look. }
  destruct (proto =? IP_PROTO_TCP); [apply handle_tcp_out; done || lia |].
  destruct (ip_in pk 30) as (dst & ->); [lia.. |]. cbn [mbind option_bind].
  destruct (_ || _); [by apply ok_same |]. unfold handle_icmp.
  destruct (Z.ltb_spec total (ihl + 8)); [by apply ok_same |].
  destruct (byte_in pk (14 + ihl) Hb) as (t & -> & _); [lia |]. cbn [mbind option_bind].
  destruct (t =? 0); [quiet | by apply ok_same].
Qed.

Lemma net_handle_packet_out after pk len n : net_inv n -> bytes pk -> lengths_ok pk len ->
  ok_out n (net_handle_packet after pk len n).
Proof.
  intros Hi Hb Hlen. pose proof Hlen as [Hl _]. unfold net_handle_packet.
  destruct (Z.ltb_spec len 14); [by apply ok_same |].
  destruct (be16_in pk 12 Hb) as (type & Et & _); [lia.. |]. rewrite Et. cbn [mbind option_bind].
  destruct (type =? ETH_P_ARP); [by apply handle_arp_out |].
  destruct (Z.eqb_spec type ETH_P_IP) as [-> |]; [| by apply ok_same].
  destruct (bytes_in pk 0 6) as (dst & -> & _); [lia.. |]. cbn [mbind option_bind].
  destruct (_ && _); [by apply ok_same | by apply handle_ipv4_out].
Qed.

(** C3: a packet whose lengths are those of the memory it lies in is handled without a read
    outside it, whatever its bytes are; the handlers keep the invariant of the stack (the
    card can send, the page fits its buffer, the connection is in one of its states), and
    do nothing to the card but send frames. *)
Theorem net_handle_packet_safe (after : Z) (pk : list Z) (len : Z) (n : net)
    (Hi : net_inv n) (Hb : bytes pk) (Hlen : lengths_ok pk len) :
  exists n', net_handle_packet after pk len n = Some n' /\ net_inv n' /\
    (exists fs, wire (g_nic n') = wire (g_nic n) ++ fs) /\ g_mac n' = g_mac n /\
    g_rx_buffer (g_nic n') = g_rx_buffer (g_nic n) /\ g_rx_offset (g_nic n') = g_rx_offset (g_nic n).
Proof. exact (net_handle_packet_out after pk len n Hi Hb Hlen). Qed.

(** ** Segments of the peer *)

(** The packet that carries a TCP segment of the server: [smac] is the address it comes
    from, [id] and [ipck] the fields of the IP header that the stack does not look at. *)
Definition server_packet (mac smac : list Z) (id ipck src dst seq ack flags : Z) (payload : list Z) : list Z :=
  let fields ck := tcp_fields TCP_HTTP_PORT TCP_CLIENT_PORT seq ack flags ck payload in
  eth_header mac smac ETH_P_IP ++ ipv4_fields id src dst IP_PROTO_TCP (20 + zlen payload) ipck ++
  fields (tcp_checksum_segment (ip_bytes src) (ip_bytes dst) (fields 0) (20 + zlen payload)).

Definition from_be16 (v : Z) : Z := 256 * (v / 256 mod 256) + v mod 256.
Definition from_be32 (v : Z) : Z :=
  65536 * (256 * (v / 16777216 mod 256) + v / 65536 mod 256) + from_be16 v.
Definition from_ip (v : Z) : Z :=
  v mod 256 + 256 * (v / 256 mod 256) + 65536 * (v / 65536 mod 256) + 16777216 * (v / 16777216 mod 256).

Lemma from_be16_id v : 0 <= v < 65536 -> from_be16 v = v.
Proof. unfold from_be16. lia. Qed.
Lemma from_be32_id v : 0 <= v < 4294967296 -> from_be32 v = v.
Proof. unfold from_be32, from_be16. lia. Qed.
Lemma from_ip_id v : 0 <= v < 4294967296 -> from_ip v = v.
Proof. unfold from_ip. lia. Qed.

Lemma bytes_at_middle (a b c : list Z) i k : i = zlen a -> k = zlen b -> bytes_at (a ++ b ++ c) i k = Some b.
Proof.
  intros -> ->. unfold bytes_at. rewrite !zlen_app. pose proof (zlen_nonneg a). pose proof (zlen_nonneg b).
  pose proof (zlen_nonneg c).
  destruct (Z.leb_spec 0 (zlen a)), (Z.leb_spec 0 (zlen b)), (Z.leb_spec (zlen a + zlen b) (zlen a + (zlen b + zlen c)));
    try lia. cbn [andb]. unfold zlen. rewrite !Nat2Z.id, drop_app_length, take_app_length. done.
Qed.

(** A list of six bytes. *)
Lemma six (l : list Z) : zlen l = 6 -> exists a b c d e f, l = [a; b; c; d; e; f].
Proof.
  unfold zlen. intros H. do 6 (destruct l as [| ? l]; [cbn in H; lia |]).
  destruct l; [| cbn in H; lia]. by do 6 eexists.
Qed.

Record server_segment := Srv { sg_seq : Z; sg_ack : Z; sg_flags : Z; sg_payload : list Z }.
Definition seg_ok (s : server_segment) : Prop :=
  0 <= sg_seq s < 4294967296 /\ 0 <= sg_ack s < 4294967296 /\ is_byte (sg_flags s) /\
  bytes (sg_payload s) /\ zlen (sg_payload s) <= 1460.

(** The addresses under which the stack takes the packets of its connection. *)
Definition addressed (mac : list Z) (src dst : Z) (n : net) : Prop :=
  g_mac n = mac /\ g_local_ip n = dst /\ g_tcp_remote_ip (g_tcp n) = src.

Section server.
Context (after id ipck src dst : Z) (mac smac : list Z).
Context (Hm : zlen mac = 6) (Hsm : zlen smac = 6).
Context (Hsrc : 0 <= src < 4294967296) (Hdst : 0 <= dst < 4294967296).

Definition packet_of (s : server_segment) : list Z :=
  server_packet mac smac id ipck src dst (sg_seq s) (sg_ack s) (sg_flags s) (sg_payload s).

Lemma packet_head s : seg_ok s ->
  let pk := packet_of s in let k := zlen (sg_payload s) in
  zlen pk = 54 + k /\ be16 pk 12 = Some ETH_P_IP /\ zlook pk 14 = Some 69 /\
  be16 pk 16 = Some (40 + k) /\ zlook pk 23 = Some IP_PROTO_TCP /\
  ip_at pk 26 = Some src /\ ip_at pk 30 = Some dst.
Proof.
  intros (_ & _ & _ & _ & Hp) pk k. pose proof (zlen_nonneg (sg_payload s)).
  split.
  { unfold pk, packet_of, server_packet. cbv zeta. rewrite !zlen_app, tcp_fields_len. unfold eth_header.
    rewrite !zlen_app, be16_len, Hm, Hsm. change (zlen (ipv4_fields _ _ _ _ _ _)) with 20. fold k. lia. }
  destruct (six mac Hm) as (m0 & m1 & m2 & m3 & m4 & m5 & Em).
  destruct (six smac Hsm) as (s0 & s1 & s2 & s3 & s4 & s5 & Es).
  unfold pk, packet_of. rewrite Em, Es.
  split; [reflexivity |]. split; [reflexivity |]. split.
  { transitivity (Some (from_be16 (u16 (20 + (20 + k))))); [reflexivity |].
    rewrite u16_id, from_be16_id by lia. f_equal. lia. }
  split; [reflexivity |]. split.
  - transitivity (Some (from_ip src)); [reflexivity | by rewrite from_ip_id].
  - transitivity (Some (from_ip dst)); [reflexivity | by rewrite from_ip_id].
Qed.

Lemma packet_tail s : seg_ok s ->
  let pk := packet_of s in let k := zlen (sg_payload s) in
  be16 pk 34 = Some TCP_HTTP_PORT /\ be16 pk 36 = Some TCP_CLIENT_PORT /\ be32 pk 38 = Some (sg_seq s) /\
  be32 pk 42 = Some (sg_ack s) /\ zlook pk 46 = Some 80 /\ zlook pk 47 = Some (sg_flags s) /\
  bytes_at pk 0 6 = Some mac /\ bytes_at pk 54 k = Some (sg_payload s) /\
  exists seg, bytes_at pk 34 (20 + k) = Some seg /\
    tcp_checksum_segment (ip_bytes src) (ip_bytes dst) seg (20 + k) = 0.
Proof.
  intros (Hs & Ha & Hf & Hb & Hp) pk k.
  assert (bytes_at pk 0 6 = Some mac) as Hmac.
  { unfold pk, packet_of, server_packet, eth_header. cbv zeta. rewrite <- app_assoc. by apply (bytes_at_middle []). }
  assert (exists seg, bytes_at pk 34 (20 + k) = Some seg /\
    tcp_checksum_segment (ip_bytes src) (ip_bytes dst) seg (20 + k) = 0) as Hseg.
  { unfold pk, packet_of, server_packet. cbv zeta. eexists. split.
    - rewrite app_assoc. rewrite <- (app_nil_r (tcp_fields _ _ _ _ _ _ _)). apply bytes_at_middle.
      + unfold eth_header. rewrite !zlen_app, be16_len, Hm, Hsm. done.
      + by rewrite tcp_fields_len.
    - apply tcp_checksum_valid; [done | done | lia]. }
  assert (bytes_at pk 54 k = Some (sg_payload s)) as Hpay.
  { unfold pk, packet_of, server_packet, tcp_fields. cbv zeta. rewrite !app_assoc.
    rewrite <- (app_nil_r (_ ++ sg_payload s)), <- app_assoc. apply bytes_at_middle; [| done].
    unfold eth_header. rewrite !zlen_app, !be16_len, Hm, Hsm. done. }
  destruct (six mac Hm) as (m0 & m1 & m2 & m3 & m4 & m5 & Em).
  destruct (six smac Hsm) as (s0 & s1 & s2 & s3 & s4 & s5 & Es).
  split_and!; [| | | | | | exact Hmac | exact Hpay | exact Hseg]; clear Hmac Hpay Hseg;
    unfold pk, packet_of; rewrite Em, Es; try reflexivity.
  - transitivity (Some (from_be32 (sg_seq s))); [reflexivity | by rewrite from_be32_id].
  - transitivity (Some (from_be32 (sg_ack s))); [reflexivity | by rewrite from_be32_id].
Qed.

(** A packet of the server passes every check and is handled as its segment. *)
Lemma server_packet_handled s n : seg_ok s -> addressed mac src dst n ->
  net_handle_packet after (packet_of s) (zlen (packet_of s)) n =
    tcp_segment after (sg_seq s) (sg_ack s) (sg_flags s) (zlen (sg_payload s)) (Some (sg_payload s)) n.
Proof.
  intros Hs (Ha1 & Ha2 & Ha3). pose proof (zlen_nonneg (sg_payload s)) as Hk. pose proof Hs as (_ & _ & _ & _ & Hp).
  destruct (packet_head s Hs) as (Hl & H12 & H14 & H16 & H23 & H26 & H30).
  destruct (packet_tail s Hs) as (H34 & H36 & H38 & H42 & H46 & H47 & Hmac & Hpay & seg & Hseg & Hck).
  set (pk := packet_of s) in *. clearbody pk. set (k := zlen (sg_payload s)) in *.
  unfold net_handle_packet. rewrite Hl. destruct (Z.ltb_spec (54 + k) 14); [lia |].
  rewrite H12, Hmac. cbn [mbind option_bind]. change (ETH_P_IP =? ETH_P_ARP) with false.
  rewrite Z.eqb_refl, bool_decide_true, andb_false_r by done.
  unfold handle_ipv4. destruct (Z.ltb_spec (54 + k) 34); [lia |]. rewrite H14. cbn [mbind option_bind].
  change (negb (Z.shiftr 69 4 =? 4)) with false. change (Z.land 69 0x0F * 4) with 20. cbv zeta iota.
  change (20 <? 20) with false. destruct (Z.ltb_spec (54 + k) (14 + 20)); [lia |]. cbn [orb].
  rewrite H16. cbn [mbind option_bind]. destruct (Z.ltb_spec (40 + k) 20); [lia |].
  rewrite H23. cbn [mbind option_bind]. change (IP_PROTO_TCP =? IP_PROTO_UDP) with false.
  rewrite Z.eqb_refl. unfold handle_tcp. rewrite H30, H26. cbn [mbind option_bind].
  rewrite Ha2, Ha3, !Z.eqb_refl. cbn [negb orb]. destruct (Z.ltb_spec (40 + k) (20 + 20)); [lia |].
  cbv zeta. change (14 + 20) with 34. change (34 + 2) with 36. change (34 + 12) with 46.
  change (34 + 4) with 38. change (34 + 8) with 42. change (34 + 13) with 47.
  rewrite H34, H36, H46. cbn [mbind option_bind]. rewrite !Z.eqb_refl. cbn [negb orb].
  change (Z.shiftr 80 4 * 4) with 20. change (20 <? 20) with false.
  destruct (Z.ltb_spec (40 + k) (20 + 20)); [lia |]. cbn [orb].
  destruct (Z.ltb_spec 1500 (40 + k - 20)); [lia |].
  replace (40 + k - 20) with (20 + k) by lia. rewrite Hseg. cbn [mbind option_bind]. rewrite Hck.
  cbn [Z.eqb negb]. rewrite H38, H42, H47. cbn [mbind option_bind].
  replace (20 + k - 20) with k by lia. change (34 + 20) with 54. by rewrite Hpay.
Qed.

(** ** The stream of a connection *)

(** An abstract receiver: the sequence number it expects and what it has taken. *)
Record receiver := Recv { rc_next : Z; rc_got : list (list Z) }.
Definition receive (r : receiver) (s : server_segment) : receiver :=
  if (0 <? zlen (sg_payload s)) && (sg_seq s =? rc_next r)
  then Recv (u32 (rc_next r + zlen (sg_payload s))) (rc_got r ++ [sg_payload s]) else r.
Definition receive_all (r : receiver) (ss : list server_segment) : receiver := foldl receive r ss.
(** The acknowledgements it owes: one for each segment with data. *)
Fixpoint acks_of (r : receiver) (ss : list server_segment) : list Z :=
  match ss with
  | [] => []
  | s :: ss' => (if 0 <? zlen (sg_payload s) then [rc_next (receive r s)] else []) ++ acks_of (receive r s) ss'
  end.

Definition data_segment (s : server_segment) : Prop :=
  seg_ok s /\ Z.land (sg_flags s) TCP_FLAG_RST = 0 /\ Z.land (sg_flags s) TCP_FLAG_FIN = 0.

Definition page_of (h : http_state) : Z * list Z := (g_http_headers_done h, g_http_body h).

(** The stack is receiving and agrees with the receiver [r], which began with the page [h]. *)
Record receiving (h : http_state) (r : receiver) (n : net) : Prop := {
  rcv_inv : net_inv n;
  rcv_addr : addressed mac src dst n;
  rcv_state : 3 <= g_tcp_state (g_tcp n) <= 4;
  rcv_ack : g_tcp_ack (g_tcp n) = rc_next r;
  rcv_next : 0 <= rc_next r < 4294967296;
  rcv_page : page_of (g_http n) = page_of (process_all (rc_got r) h) }.

Lemma process_page p h h' : page_of h = page_of h' -> page_of (http_process_payload p h) = page_of (http_process_payload p h').
Proof.
  unfold page_of. intros [= E1 E2]. unfold http_process_payload, http_store_body. rewrite E1, E2.
  destruct (istrue _).
  - destruct (_ || _); cbn; congruence.
  - destruct (after_headers p); cbn [set_http_headers_done g_http_body g_http_headers_done]; [| congruence].
    rewrite E2. destruct (_ || _); cbn; congruence.
Qed.

Lemma preview_page h : page_of (http_print_body_preview h) = page_of h.
Proof. unfold http_print_body_preview. by destruct (_ || _). Qed.

Lemma frame_ack n dst_ip seq ack flags payload :
  can_send n -> 0 <= ack < 4294967296 ->
  be32 (tcp_frame n dst_ip (g_gateway_mac n) seq ack flags payload) 42 = Some ack.
Proof.
  intros (_ & H1 & H2) Ha. destruct (six _ H1) as (m0 & m1 & m2 & m3 & m4 & m5 & Em).
  destruct (six _ H2) as (s0 & s1 & s2 & s3 & s4 & s5 & Es). unfold tcp_frame, eth_header. rewrite Em, Es.
  transitivity (Some (from_be32 ack)); [reflexivity | by rewrite from_be32_id].
Qed.

(** An acknowledgement changes nothing but the card and the packet counter. *)
Lemma send_ack_sent n : can_send n -> 0 <= g_tcp_ack (g_tcp n) < 4294967296 ->
  exists f d i, send_ack n = Some (set_nic d (set_ip_id i n)) /\ nic_ok d /\
    wire d = wire (g_nic n) ++ [f] /\ be32 f 42 = Some (g_tcp_ack (g_tcp n)).
Proof.
  intros Hc Ha. unfold send_ack.
  destruct (send_tcp_segment_ok (g_tcp_remote_ip (g_tcp n)) (g_gateway_mac n) (g_tcp_seq (g_tcp n))
    (g_tcp_ack (g_tcp n)) TCP_FLAG_ACK [] n Hc (proj2 (proj2 Hc)) ltac:(done)) as (n' & -> & (d & i & -> & Hd & Hw & _)).
  eexists _, d, i. split; [done |]. split; [done |]. split; [exact Hw | by apply frame_ack].
Qed.

Lemma receiving_sent h r n n' d i : receiving h r n -> nic_ok d ->
  n' = set_nic d (set_ip_id i n) -> receiving h r n'.
Proof.
  intros [[(H1 & H2 & H3) H4 H5] H6 H7 H8 H9 H10] Hd ->. by split; [split |..].
Qed.

Lemma receive_step h r n s : receiving h r n -> data_segment s ->
  exists n' fs, net_handle_packet after (packet_of s) (zlen (packet_of s)) n = Some n' /\
    receiving h (receive r s) n' /\ wire (g_nic n') = wire (g_nic n) ++ fs /\
    map (fun f => be32 f 42) fs = map Some (if 0 <? zlen (sg_payload s) then [rc_next (receive r s)] else []).
Proof.
  intros Hr (Hs & Hrst & Hfin). pose proof Hr as [Hi Ha Hst Hack Hn Hpage].
  rewrite server_packet_handled by done. unfold tcp_segment, receive. rewrite Hrst, Hfin. cbn [istrue Z.eqb negb].
  destruct (Z.eqb_spec (g_tcp_state (g_tcp n)) 1); [lia |].
  destruct (Z.leb_spec 3 (g_tcp_state (g_tcp n))), (Z.leb_spec (g_tcp_state (g_tcp n)) 4); try lia. cbn [andb].
  destruct (Z.ltb_spec 0 (zlen (sg_payload s))); cbn [andb].
  2: { exists n, []. rewrite app_nil_r. done. }
  rewrite Hack. destruct (Z.eqb_spec (sg_seq s) (rc_next r)) as [Eq | Hne]; cbn [negb].
  2: { destruct (send_ack_sent n (inv_send n Hi)) as (f & d & i & -> & Hd & Hw & Hf); [by rewrite Hack |].
       eexists _, [f]. split; [done |]. split; [by eapply receiving_sent |]. split; [exact Hw |].
       cbn [map]. by rewrite Hf, Hack. }
  cbn [mbind option_bind]. unfold tcp_data. cbv zeta. set (n1 := on_tcp _ _).
  assert (net_inv n1) as Hi1.
  { eapply inv_quiet; [exact Hi | done | done | apply (inv_send n Hi) | | apply (inv_state n Hi)].
    cbn. apply process_payload_max. apply (inv_body n Hi). }
  assert (g_tcp_ack (g_tcp n1) = u32 (rc_next r + zlen (sg_payload s))) as Ha1 by (cbn; by rewrite Eq).
  destruct (send_ack_sent n1 (inv_send n1 Hi1)) as (f & d & i & -> & Hd & Hw & Hf); [rewrite Ha1; apply u32_range |].
  cbn [mbind option_bind]. eexists _, [f]. split; [done |]. split; [| split; [exact Hw | cbn [map rc_next]; by rewrite Hf, Ha1]].
  split.
  - destruct Hi1 as [(Hc1 & Hc2 & Hc3) Hc4 Hc5]. split; [done | | by cbn].
    cbn [on_http set_http g_http]. rewrite print_preview_body. exact Hc4.
  - exact Ha.
  - by cbn.
  - exact Ha1.
  - apply u32_range.
  - cbn [on_http on_tcp set_http set_tcp set_nic set_ip_id g_http rc_got]. rewrite preview_page.
    unfold process_all. rewrite foldl_app. cbn [foldl].
    transitivity (page_of (http_process_payload (sg_payload s) (g_http n))).
    + etrans; [| apply (process_page _ (set_http_bytes (u32 (g_http_bytes (g_http n) + zlen (sg_payload s)))
        (set_http_chunks (u32 (g_http_chunks (g_http n) + 1)) (g_http n))))]; done.
    + by apply process_page.
Qed.

(** The packets of a connection, one after the other. *)
Fixpoint handle_all (ss : list server_segment) (n : net) : option net :=
  match ss with
  | [] => Some n
  | s :: ss' => n ← net_handle_packet after (packet_of s) (zlen (packet_of s)) n; handle_all ss' n
  end.

Lemma receive_steps h ss : forall r n, receiving h r n -> Forall data_segment ss ->
  exists n' fs, handle_all ss n = Some n' /\ receiving h (receive_all r ss) n' /\
    wire (g_nic n') = wire (g_nic n) ++ fs /\ map (fun f => be32 f 42) fs = map Some (acks_of r ss).
Proof.
  induction ss as [| s ss IH]; intros r n Hr Hs; cbn [handle_all receive_all foldl acks_of].
  { exists n, []. rewrite app_nil_r. done. }
  apply Forall_cons in Hs as [Hs Hss].
  destruct (receive_step h r n s Hr Hs) as (n1 & fs1 & -> & Hr1 & Hw1 & Hf1). cbn [mbind option_bind].
  destruct (IH (receive r s) n1 Hr1 Hss) as (n2 & fs2 & -> & Hr2 & Hw2 & Hf2).
  exists n2, (fs1 ++ fs2). split; [done |]. split; [exact Hr2 |]. split; [by rewrite Hw2, Hw1, app_assoc |].
  by rewrite !map_app, Hf1, Hf2.
Qed.

End server.

(** Segments of one stream of bytes: [s0] is the number of its first byte. *)
Definition segment_of (stream : list Z) (s0 : Z) (s : server_segment) : Prop :=
  exists off, 0 <= off /\ off + zlen (sg_payload s) <= zlen stream /\ sg_seq s = u32 (s0 + off) /\
    sg_payload s = take (Z.to_nat (zlen (sg_payload s))) (drop (Z.to_nat off) stream).

Lemma take_extend (l : list Z) k p : 0 <= k -> p = take (Z.to_nat (zlen p)) (drop (Z.to_nat k) l) ->
  take (Z.to_nat k) l ++ p = take (Z.to_nat (k + zlen p)) l.
Proof.
  intros Hk E. pose proof (zlen_nonneg p). rewrite E at 1.
  rewrite Z2Nat.inj_add by lia. by rewrite take_take_drop.
Qed.

Lemma segments_prefix stream s0 ss : 0 <= s0 < 4294967296 -> zlen stream < 4294967296 ->
  Forall (segment_of stream s0) ss -> forall r k,
  0 <= k <= zlen stream -> rc_next r = u32 (s0 + k) -> concat (rc_got r) = take (Z.to_nat k) stream ->
  exists k', k <= k' <= zlen stream /\ rc_next (receive_all r ss) = u32 (s0 + k') /\
    concat (rc_got (receive_all r ss)) = take (Z.to_nat k') stream.
Proof.
  intros Hs0 Hlen Hss. induction Hss as [| s ss (off & H0 & H1 & H2 & H3) Hss IH]; intros r k Hk Hn Hg;
    cbn [receive_all foldl].
  { exists k. by split; [lia |]. }
  fold (receive_all (receive r s) ss). unfold receive. pose proof (zlen_nonneg (sg_payload s)).
  destruct (Z.ltb_spec 0 (zlen (sg_payload s))); [| by apply IH]. cbn [andb].
  destruct (Z.eqb_spec (sg_seq s) (rc_next r)) as [Eq |]; [| by apply IH].
  assert (off = k) as -> by (rewrite H2, Hn in Eq; unfold u32 in Eq; lia).
  destruct (IH (Recv (u32 (rc_next r + zlen (sg_payload s))) (rc_got r ++ [sg_payload s]))
    (k + zlen (sg_payload s))) as (k' & Hk' & Hr); [lia | | | exists k'; split; [lia | exact Hr]].
  - cbn [rc_next]. rewrite Hn. unfold u32. lia.
  - cbn [rc_got]. rewrite concat_app, Hg. cbn [concat]. rewrite app_nil_r. by apply take_extend.
Qed.
Lemma receiving_start mac src dst n : net_inv n -> addressed mac src dst n -> 3 <= g_tcp_state (g_tcp n) <= 4 ->
  0 <= g_tcp_ack (g_tcp n) < 4294967296 ->
  receiving src dst mac (g_http n) (Recv (g_tcp_ack (g_tcp n)) []) n.
Proof. by split. Qed.

(** What a theorem about the packets of a connection assumes of the two ends. *)
Record peers (mac smac : list Z) (src dst : Z) (n : net) : Prop := {
  peer_mac : zlen mac = 6;
  peer_smac : zlen smac = 6;
  peer_src : 0 <= src < 4294967296;
  peer_dst : 0 <= dst < 4294967296;
  peer_addr : addressed mac src dst n }.

(** C6: whatever segments with data the server sends to a connection that is receiving (lost,
    repeated and in any order), the stack does what an abstract receiver does that takes
    the segment it expects and no other: its acknowledgement number is the one expected
    next, the page is the one the payloads taken give, and for each segment with data one
    acknowledgement goes out, with the number expected next. *)
Theorem tcp_stream_refines (after id ipck src dst : Z) (mac smac : list Z) (ss : list server_segment) (n : net)
    (Hi : net_inv n) (Hp : peers mac smac src dst n) (Hst : 3 <= g_tcp_state (g_tcp n) <= 4)
    (Hack : 0 <= g_tcp_ack (g_tcp n) < 4294967296) (Hss : Forall data_segment ss) :
  let r := Recv (g_tcp_ack (g_tcp n)) [] in
  exists n' fs, handle_all after id ipck src dst mac smac ss n = Some n' /\
    3 <= g_tcp_state (g_tcp n') <= 4 /\ g_tcp_ack (g_tcp n') = rc_next (receive_all r ss) /\
    page_of (g_http n') = page_of (process_all (rc_got (receive_all r ss)) (g_http n)) /\
    wire (g_nic n') = wire (g_nic n) ++ fs /\ map (fun f => be32 f 42) fs = map Some (acks_of r ss).
Proof.
  intros r. destruct Hp as [H1 H2 H3 H4 H5].
  destruct (receive_steps after id ipck src dst mac smac H1 H2 H3 H4 (g_http n) ss r n) as (n' & fs & E & Hr & Hw & Hf);
    [by apply receiving_start | done |].
  exists n', fs. destruct Hr as [_ _ R1 R2 _ R3]. do 5 (split; [assumption |]). exact Hf.
Qed.

(** C15: when the segments are pieces of one stream of fewer than 2^32 bytes, what the page is
    made of is at every moment a beginning of that stream: no byte is lost, doubled or
    out of order, and the acknowledgement number names the byte that comes next. *)
Theorem tcp_delivers_prefix (after id ipck src dst : Z) (mac smac : list Z) (stream : list Z)
    (ss : list server_segment) (n : net)
    (Hi : net_inv n) (Hp : peers mac smac src dst n) (Hst : 3 <= g_tcp_state (g_tcp n) <= 4)
    (Hack : 0 <= g_tcp_ack (g_tcp n) < 4294967296) (Hss : Forall data_segment ss)
    (Hlen : zlen stream < 4294967296) (Hof : Forall (segment_of stream (g_tcp_ack (g_tcp n))) ss) :
  exists n' got k, handle_all after id ipck src dst mac smac ss n = Some n' /\
    0 <= k <= zlen stream /\ concat got = take (Z.to_nat k) stream /\
    g_tcp_ack (g_tcp n') = u32 (g_tcp_ack (g_tcp n) + k) /\
    page_of (g_http n') = page_of (process_all got (g_http n)).
Proof.
  set (r := Recv (g_tcp_ack (g_tcp n)) []). destruct Hp as [H1 H2 H3 H4 H5]. pose proof (zlen_nonneg stream).
  destruct (receive_steps after id ipck src dst mac smac H1 H2 H3 H4 (g_http n) ss r n) as (n' & fs & E & Hr & _);
    [by apply receiving_start | done |].
  destruct (segments_prefix stream _ ss Hack Hlen Hof r 0) as (k & Hk & Hn & Hg);
    [lia | by rewrite Z.add_0_r, u32_id | done |].
  exists n', (rc_got (receive_all r ss)), k. destruct Hr as [_ _ _ R2 _ R3].
  split; [exact E |]. split; [exact Hk |]. split; [exact Hg |]. split; [by rewrite R2, Hn | exact R3].
Qed.

(** ** Opening and closing *)

Lemma get_sent after n : can_send n -> 0 <= g_tcp_ack (g_tcp n) < 4294967296 ->
  let req := http_request after (g_http_host (g_http n)) in
  exists n' f, tcp_http_send_get after n = Some n' /\ wire (g_nic n') = wire (g_nic n) ++ [f] /\
    can_send n' /\ g_http n' = g_http n /\ bytes_at f 54 (zlen req) = Some req /\
    g_tcp n' = Tcp 3 (g_tcp_remote_ip (g_tcp n)) (u32 (g_tcp_seq (g_tcp n) + zlen req)) (g_tcp_ack (g_tcp n))
                 (g_tcp_seq (g_tcp n)) (zlen req) 0 0.
Proof.
  intros Hc Ha req. pose proof (http_request_len after (g_http_host (g_http n))) as Hl. fold req in Hl.
  unfold tcp_http_send_get. cbv zeta. fold req. set (n1 := set_tcp _ n).
  destruct (send_tcp_segment_ok (g_tcp_remote_ip (g_tcp n)) (g_gateway_mac n1) (g_tcp_seq (g_tcp n))
    (g_tcp_ack (g_tcp n)) (Z.lor TCP_FLAG_PSH TCP_FLAG_ACK) req n1 Hc (proj2 (proj2 Hc)) ltac:(lia))
    as (n' & -> & (d & i & -> & Hd & Hw & _)).
  cbn [mbind option_bind]. eexists _, _. split; [done |]. split; [exact Hw |].
  split; [by destruct Hc as (? & ? & ?) |]. split; [done |]. split; [| done].
  unfold tcp_frame, tcp_fields. rewrite !app_assoc. rewrite <- (app_nil_r (_ ++ req)), <- app_assoc.
  apply bytes_at_middle; [| done]. destruct Hc as (_ & Hm & Hg). unfold eth_header.
  change (g_mac n1) with (g_mac n). change (g_gateway_mac n1) with (g_gateway_mac n).
  rewrite !zlen_app, !be16_len, Hm, Hg. done.
Qed.

(** Also: an answer of the server that acknowledges the first segment, and no other segment
    without RST and FIN, opens the connection: the numbers of both directions are set, an
    acknowledgement goes out and then the request, in a segment of its own, and the
    timer and the count of retries begin anew. *)
Theorem tcp_handshake (after id ipck src dst : Z) (mac smac : list Z) (s : server_segment) (n : net)
    (Hi : net_inv n) (Hp : peers mac smac src dst n) (Hst : g_tcp_state (g_tcp n) = 1) (Hs : seg_ok s)
    (Hrst : Z.land (sg_flags s) TCP_FLAG_RST = 0) (Hfin : Z.land (sg_flags s) TCP_FLAG_FIN = 0) :
  let q := u32 (g_tcp_seq (g_tcp n) + 1) in
  let req := http_request after (g_http_host (g_http n)) in
  let answer := (Z.land (sg_flags s) 0x12 =? 0x12) && (sg_ack s =? q) in
  exists n', handle_all after id ipck src dst mac smac [s] n = Some n' /\
    if answer then
      g_tcp n' = Tcp 3 src (u32 (q + zlen req)) (u32 (sg_seq s + 1)) q (zlen req) 0 0 /\
      exists f1 f2, wire (g_nic n') = wire (g_nic n) ++ [f1; f2] /\
        be32 f1 42 = Some (u32 (sg_seq s + 1)) /\ bytes_at f2 54 (zlen req) = Some req
    else n' = n.
Proof.
  intros q req answer. destruct Hp as [H1 H2 H3 H4 H5]. pose proof H5 as (_ & _ & Hrip).
  unfold handle_all. rewrite server_packet_handled by done. unfold tcp_segment. cbv zeta.
  rewrite Hrst, Hfin, Hst. change (istrue 0) with false. change (1 =? 1) with true. change (3 <=? 1) with false.
  cbn [andb].
  change (Z.lor TCP_FLAG_SYN TCP_FLAG_ACK) with 0x12. fold q. fold answer.
  destruct answer; cbn [mbind option_bind]; [| by exists n].
  set (n1 := on_tcp _ n). assert (net_inv n1) as Hi1 by quiet.
  destruct (send_ack_sent n1 (inv_send n1 Hi1)) as (f1 & d & i & -> & Hd & Hw1 & Hf1); [apply u32_range |].
  cbn [mbind option_bind]. set (n2 := set_nic d _).
  destruct (get_sent after n2) as (n3 & f2 & -> & Hw2 & _ & _ & Hf2 & Ht).
  { split; [exact Hd |]. split; [apply (inv_send n1 Hi1) | apply (inv_send n1 Hi1)]. }
  { apply u32_range. }
  cbn [mbind option_bind]. exists n3. split; [done |]. split.
  - rewrite Ht. cbn. by rewrite Hrip.
  - exists f1, f2. split; [| by split]. rewrite Hw2. cbn [n2 g_nic set_nic]. rewrite Hw1, <- app_assoc. done.
Qed.

(** Also: a reset ends the connection, and an end of the stream without data closes it, in
    every state and with every sequence number: the number is not compared with the one
    expected next. *)
Theorem tcp_close_any_sequence (after id ipck src dst : Z) (mac smac : list Z) (s : server_segment) (n : net)
    (Hi : net_inv n) (Hp : peers mac smac src dst n) (Hs : seg_ok s) (Hdata : sg_payload s = [])
    (Hsyn : Z.land (sg_flags s) TCP_FLAG_SYN = 0) :
  exists n', handle_all after id ipck src dst mac smac [s] n = Some n' /\
    g_tcp_state (g_tcp n') =
      if istrue (Z.land (sg_flags s) TCP_FLAG_RST) then 5
      else if istrue (Z.land (sg_flags s) TCP_FLAG_FIN) then 6 else g_tcp_state (g_tcp n).
Proof.
  destruct Hp as [H1 H2 H3 H4 H5]. unfold handle_all. rewrite server_packet_handled by done.
  unfold tcp_segment. cbv zeta. rewrite Hdata. change (zlen []) with 0.
  destruct (istrue (Z.land (sg_flags s) TCP_FLAG_RST)); [by eauto |].
  assert ((Z.land (sg_flags s) (Z.lor TCP_FLAG_SYN TCP_FLAG_ACK) =? Z.lor TCP_FLAG_SYN TCP_FLAG_ACK) = false) as ->.
  { apply Z.eqb_neq. intros E. apply (f_equal (Z.land TCP_FLAG_SYN)) in E.
    rewrite Z.land_assoc, (Z.land_comm TCP_FLAG_SYN), <- Z.land_assoc in E.
    change (Z.land TCP_FLAG_SYN (Z.lor TCP_FLAG_SYN TCP_FLAG_ACK)) with TCP_FLAG_SYN in E. by rewrite Hsyn in E. }
  rewrite andb_false_r, andb_false_r. cbn [andb mbind option_bind].
  destruct (istrue (Z.land (sg_flags s) TCP_FLAG_FIN)); [| by eauto].
  set (n1 := on_tcp _ n). assert (net_inv n1) as Hi1 by quiet.
  destruct (send_ack_sent n1 (inv_send n1 Hi1)) as (f1 & d & i & -> & _); [apply u32_range |].
  cbn [mbind option_bind]. eauto.
Qed.

(** ** Lengths that are not checked *)

(** Also: the total length of an IP header is not compared with the length of the packet: a
    segment for the open connection that says it is longer than the packet is read beyond
    the packet's last byte. *)
Theorem ip_total_unchecked (after : Z) (pk : list Z) (n : net) (total d : Z)
    (Hlen : 54 <= zlen pk) (Hmac : bytes_at pk 0 6 = Some (g_mac n)) (Htype : be16 pk 12 = Some ETH_P_IP)
    (Hihl : zlook pk 14 = Some 69) (Htot : be16 pk 16 = Some total) (Hproto : zlook pk 23 = Some IP_PROTO_TCP)
    (Hsrc : ip_at pk 26 = Some (g_tcp_remote_ip (g_tcp n))) (Hdst : ip_at pk 30 = Some (g_local_ip n))
    (Hsp : be16 pk 34 = Some TCP_HTTP_PORT) (Hdp : be16 pk 36 = Some TCP_CLIENT_PORT)
    (Hd : zlook pk 46 = Some d) (Hdr : 5 <= Z.shiftr d 4 /\ 20 + Z.shiftr d 4 * 4 <= total)
    (Hover : zlen pk < 14 + total) (Hmax : total <= 1520) :
  net_handle_packet after pk (zlen pk) n = None.
Proof.
  unfold net_handle_packet. destruct (Z.ltb_spec (zlen pk) 14); [lia |].
  rewrite Htype, Hmac. cbn [mbind option_bind]. change (ETH_P_IP =? ETH_P_ARP) with false.
  rewrite Z.eqb_refl, bool_decide_true, andb_false_r by done.
  unfold handle_ipv4. destruct (Z.ltb_spec (zlen pk) 34); [lia |]. rewrite Hihl. cbn [mbind option_bind].
  change (negb (Z.shiftr 69 4 =? 4)) with false. change (Z.land 69 0x0F * 4) with 20. cbv zeta iota.
  change (20 <? 20) with false. destruct (Z.ltb_spec (zlen pk) (14 + 20)); [lia |]. cbn [orb].
  rewrite Htot. cbn [mbind option_bind]. destruct (Z.ltb_spec total 20); [lia |].
  rewrite Hproto. cbn [mbind option_bind]. change (IP_PROTO_TCP =? IP_PROTO_UDP) with false.
  rewrite Z.eqb_refl. unfold handle_tcp. rewrite Hdst, Hsrc. cbn [mbind option_bind].
  rewrite !Z.eqb_refl. cbn [negb orb]. destruct (Z.ltb_spec total (20 + 20)); [lia |].
  cbv zeta. change (14 + 20) with 34. change (34 + 2) with 36. change (34 + 12) with 46.
  rewrite Hsp, Hdp, Hd. cbn [mbind option_bind]. rewrite !Z.eqb_refl. cbn [negb orb].
  destruct (Z.ltb_spec (Z.shiftr d 4 * 4) 20), (Z.ltb_spec total (20 + Z.shiftr d 4 * 4)); try lia. cbn [orb].
  destruct (Z.ltb_spec 1500 (total - 20)); [lia |].
  unfold bytes_at. destruct (Z.leb_spec (34 + (total - 20)) (zlen pk)); [lia |]. by rewrite andb_false_r.
Qed.

(** ** Obtaining an address *)

(** The reply of a DHCP server: [a], [b], [c] are fields the stack does not look at, [os]
    the options, and [post] what follows them. *)
Definition dhcp_reply (a b c : list Z) (yiaddr : Z) (os : list (Z * list Z)) (post : list Z) : list Z :=
  [2] ++ a ++ be32_bytes DHCP_XID ++ b ++ ip_bytes yiaddr ++ c ++ be32_bytes DHCP_MAGIC ++
  concat (map encode_option os) ++ 255 :: post.
Definition options_ok (os : list (Z * list Z)) : Prop :=
  Forall (fun o => 0 < fst o < 255 /\ zlen (snd o) <= 255) os.

Lemma be32_middle (a b : list Z) v i : i = zlen a -> 0 <= v < 4294967296 -> be32 (a ++ be32_bytes v ++ b) i = Some v.
Proof.
  intros -> Hv. unfold be32, be16. pose proof (zlen_nonneg a).
  assert (forall j, 0 <= j < 4 -> zlook (a ++ be32_bytes v ++ b) (zlen a + j) = zlook (be32_bytes v) j) as H1.
  { intros j Hj. rewrite (zlook_suffix _ _ _ j) by lia. apply zlook_app_l. change (zlen (be32_bytes v)) with 4. lia. }
  pose proof (H1 0 ltac:(lia)) as H0. rewrite Z.add_0_r in H0.
  rewrite <- !Z.add_assoc. change (2 + 1) with 3. rewrite H0, !H1 by lia.
  transitivity (Some (from_be32 v)); [reflexivity | by rewrite from_be32_id].
Qed.

Lemma ip_middle (a b : list Z) v i : i = zlen a -> 0 <= v < 4294967296 -> ip_at (a ++ ip_bytes v ++ b) i = Some v.
Proof.
  intros -> Hv. rewrite ip_at_middle by done.
  transitivity (Some (from_ip v)); [reflexivity | by rewrite from_ip_id].
Qed.

Section dhcp.
Context (a b c post : list Z) (Ha : zlen a = 3) (Hb : zlen b = 8) (Hc : zlen c = 216).

Lemma dhcp_reply_fields yiaddr os : 0 <= yiaddr < 4294967296 -> options_ok os ->
  let msg := dhcp_reply a b c yiaddr os post in
  240 < zlen msg /\ zlook msg 0 = Some 2 /\ be32 msg 4 = Some DHCP_XID /\ be32 msg 236 = Some DHCP_MAGIC /\
  ip_at msg 16 = Some yiaddr /\
  parse_dhcp_options (S (Z.to_nat (zlen msg - 240))) (drop 240 msg) (zlen msg - 240) 0 (0, 0, 0, 0) =
    Some (foldl apply_option (0, 0, 0, 0) os).
Proof.
  intros Hy Hos msg. set (opts := concat (map encode_option os) ++ 255 :: post).
  assert (zlen msg = 240 + zlen opts) as Hl.
  { unfold msg, dhcp_reply. fold opts. rewrite !zlen_app, Ha, Hb, Hc. change (zlen [2]) with 1.
    change (zlen (be32_bytes _)) with 4. change (zlen (be32_bytes DHCP_MAGIC)) with 4.
    change (zlen (ip_bytes yiaddr)) with 4. lia. }
  assert (zlen opts = zlen (concat (map encode_option os)) + zlen post + 1) as Hlo
    by (unfold opts; rewrite zlen_app, zlen_cons; lia).
  pose proof (zlen_nonneg (concat (map encode_option os))). pose proof (zlen_nonneg post).
  split; [lia |]. split; [done |].
  assert (msg = ([2] ++ a) ++ be32_bytes DHCP_XID ++ b ++ ip_bytes yiaddr ++ c ++ be32_bytes DHCP_MAGIC ++ opts) as E1
    by (unfold msg, dhcp_reply; by rewrite <- !app_assoc).
  assert (msg = ([2] ++ a ++ be32_bytes DHCP_XID ++ b) ++ ip_bytes yiaddr ++ c ++ be32_bytes DHCP_MAGIC ++ opts) as E2
    by (unfold msg, dhcp_reply; by rewrite <- !app_assoc).
  assert (msg = ([2] ++ a ++ be32_bytes DHCP_XID ++ b ++ ip_bytes yiaddr ++ c) ++ be32_bytes DHCP_MAGIC ++ opts) as E3
    by (unfold msg, dhcp_reply; by rewrite <- !app_assoc).
  split; [rewrite E1; apply be32_middle; [by rewrite zlen_app, Ha | done] |].
  split; [rewrite E3; apply be32_middle; [rewrite !zlen_app, Ha, Hb, Hc; done | done] |].
  split; [rewrite E2; apply ip_middle; [rewrite !zlen_app, Ha, Hb; done | done] |].
  assert (drop 240 msg = opts) as ->.
  { rewrite E3, app_assoc. apply drop_app_length'. apply Nat2Z.inj.
    symmetry. change (zlen (([2] ++ a ++ be32_bytes DHCP_XID ++ b ++ ip_bytes yiaddr ++ c) ++ be32_bytes DHCP_MAGIC) = 240).
    rewrite !zlen_app, Ha, Hb, Hc. done. }
  pose proof (dhcp_options_fold os (S (Z.to_nat (zlen msg - 240))) [] post (zlen msg - 240) (0, 0, 0, 0) Hos) as Hf.
  cbn [app] in Hf. change (zlen (@nil Z)) with 0 in Hf. apply Hf; lia.
Qed.
End dhcp.

(** What is kept of a reply: message type, server, router and name server. *)
Definition lease_of (os : list (Z * list Z)) : Z * Z * Z * Z := foldl apply_option (0, 0, 0, 0) os.

Lemma send_dhcp_ok t ip srv n : can_send n ->
  exists n' f, send_dhcp t ip srv n = Some n' /\ sent f n n' /\
    bytes_at f 282 (zlen (dhcp_options t ip srv)) = Some (dhcp_options t ip srv).
Proof.
  intros Hc. unfold send_dhcp. cbv zeta. set (opts := dhcp_options t ip srv).
  set (pad := replicate _ 0). pose proof (dhcp_options_len t ip srv) as Ho. fold opts in Ho.
  assert (zlen ((dhcp_fixed (g_mac n) ++ opts) ++ pad) = 300) as Hp.
  { unfold pad. rewrite !zlen_app, zlen_replicate, dhcp_fixed_len by apply Hc. lia. }
  destruct (send_udp_ok (replicate 6 255) 0 (NET_IP 255 255 255 255) DHCP_CLIENT_PORT DHCP_SERVER_PORT
    ((dhcp_fixed (g_mac n) ++ opts) ++ pad) n Hc) as (n' & -> & Hs); [done | lia |].
  eexists n', _. split; [done |]. split; [exact Hs |]. unfold udp_frame, eth_header.
  rewrite Hp. set (ip4 := fst _). assert (zlen ip4 = 20) as Hl by apply build_ipv4_len.
  set (sp := be16_bytes DHCP_CLIENT_PORT). set (dp := be16_bytes DHCP_SERVER_PORT). set (ul := be16_bytes _).
  set (ck := be16_bytes 0). set (ty := be16_bytes ETH_P_IP).
  rewrite <- (app_assoc (dhcp_fixed (g_mac n))), !app_assoc. rewrite <- (app_assoc _ opts pad).
  apply bytes_at_middle; [| done]. rewrite !zlen_app, Hl, dhcp_fixed_len, zlen_replicate by apply Hc.
  rewrite (proj1 (proj2 Hc)). done.
Qed.

Lemma send_arp_ok ip n : can_send n -> 0 <= ip < 4294967296 ->
  exists d f, send_arp_request ip n = Some (set_nic d n) /\ nic_ok d /\ wire d = wire (g_nic n) ++ [f] /\
    be16 f 20 = Some 1 /\ ip_at f 38 = Some ip.
Proof.
  intros Hc Hip. unfold send_arp_request. set (f := _ ++ _).
  destruct (rtl_send_ok f n Hc) as (d & -> & Hd & Hw & _).
  { unfold f, eth_header. rewrite !zlen_app, (proj1 (proj2 Hc)), !be16_len, !zlen_replicate.
    change (zlen [6; 4]) with 2. change (zlen (ip_bytes _)) with 4. change (zlen (ip_bytes ip)) with 4. lia. }
  exists d, f. split; [done |]. split; [done |]. split; [done |]. unfold f, eth_header.
  destruct (six _ (proj1 (proj2 Hc))) as (m0 & m1 & m2 & m3 & m4 & m5 & ->). split; [reflexivity |].
  transitivity (Some (from_ip ip)); [reflexivity | by rewrite from_ip_id].
Qed.

(** Also: an offer and then an acknowledgement configure the stack. The offer is answered with a
    request for the offered address from its server; the acknowledgement gives the
    address, the router (10.0.2.2 when it names none) and the name server, whatever
    options come with them and in whatever order, and the router's hardware address is
    asked for. *)
Theorem dhcp_configures (a b c post : list Z) (y1 y2 : Z) (os1 os2 : list (Z * list Z)) (n : net)
    (srv gw1 dns1 srv2 gw dns : Z) (Hn : can_send n)
    (Ha : zlen a = 3) (Hb : zlen b = 8) (Hc : zlen c = 216)
    (Hy1 : 0 <= y1 < 4294967296) (Hy2 : 0 <= y2 < 4294967296) (Hgw : 0 <= gw < 4294967296)
    (Ho1 : options_ok os1) (Ho2 : options_ok os2)
    (Hl1 : lease_of os1 = (DHCP_OFFER, srv, gw1, dns1)) (Hl2 : lease_of os2 = (DHCP_ACK, srv2, gw, dns))
    (Hreq : g_dhcp_requested n = 0) (Hconf : g_dhcp_configured n = 0) :
  let m1 := dhcp_reply a b c y1 os1 post in let m2 := dhcp_reply a b c y2 os2 post in
  let router := if istrue gw then gw else NET_IP 10 0 2 2 in
  exists n1 n2 f1 f2, handle_dhcp m1 (zlen m1) n = Some n1 /\ handle_dhcp m2 (zlen m2) n1 = Some n2 /\
    g_local_ip n2 = y2 /\ g_gateway_ip n2 = router /\ g_dns_ip n2 = dns /\ net_is_configured n2 = 1 /\
    wire (g_nic n2) = wire (g_nic n) ++ [f1; f2] /\
    bytes_at f1 282 (zlen (dhcp_options DHCP_REQUEST y1 srv)) = Some (dhcp_options DHCP_REQUEST y1 srv) /\
    ip_at f2 38 = Some router.
Proof.
  intros m1 m2 router.
  destruct (dhcp_reply_fields a b c post Ha Hb Hc y1 os1 Hy1 Ho1) as (L1 & A1 & B1 & C1 & D1 & E1).
  destruct (dhcp_reply_fields a b c post Ha Hb Hc y2 os2 Hy2 Ho2) as (L2 & A2 & B2 & C2 & D2 & E2).
  fold m1 in L1, A1, B1, C1, D1, E1. fold m2 in L2, A2, B2, C2, D2, E2. clearbody m1 m2.
  fold (lease_of os1) in E1. fold (lease_of os2) in E2. rewrite Hl1 in E1. rewrite Hl2 in E2.
  set (n0 := set_dhcp_requested 1 (set_dhcp_server_ip srv (set_offered_ip y1 n))).
  destruct (send_dhcp_ok DHCP_REQUEST y1 srv n0 Hn) as (n1 & f1 & S1 & F1 & O1).
  assert (handle_dhcp m1 (zlen m1) n = Some n1) as H1.
  { unfold handle_dhcp. destruct (Z.ltb_spec (zlen m1) 240); [lia |]. rewrite A1, B1, C1. cbn [mbind option_bind].
    rewrite !Z.eqb_refl. cbn [negb orb]. rewrite E1, D1. cbn [mbind option_bind]. by rewrite Z.eqb_refl, Hreq. }
  pose proof F1 as (d1 & i1 & -> & Hd1 & Hw1 & _). set (n1 := set_nic d1 _) in *.
  set (n1' := set_dhcp_configured 1 (set_dns_ip dns (set_gateway_ip router (set_local_ip y2 n1)))).
  destruct (send_arp_ok router n1') as (d2 & f2 & S2 & Hd2 & Hw2 & _ & F2).
  { by destruct Hn as (? & ? & ?). }
  { unfold router. by destruct (istrue gw). }
  assert (handle_dhcp m2 (zlen m2) n1 = Some (set_nic d2 n1')) as H2.
  { unfold handle_dhcp. destruct (Z.ltb_spec (zlen m2) 240); [lia |]. rewrite A2, B2, C2. cbn [mbind option_bind].
    rewrite !Z.eqb_refl. cbn [negb orb]. rewrite E2, D2. cbn [mbind option_bind].
    change (DHCP_ACK =? DHCP_OFFER) with false. rewrite Z.eqb_refl. cbn [andb].
    change (g_dhcp_configured n1) with (g_dhcp_configured n). rewrite Hconf. exact S2. }
  exists n1, (set_nic d2 n1'), f1, f2. split; [exact H1 |]. split; [exact H2 |].
  do 4 (split; [done |]). split; [| by split].
  cbn [set_nic g_nic]. rewrite Hw2. cbn [n1' n1 set_nic g_nic set_dhcp_configured set_dns_ip set_gateway_ip set_local_ip].
  rewrite Hw1, <- app_assoc. done.
Qed.

(** ** Witnesses *)

Definition srv_ex : Z := NET_IP 10 0 2 2.
Definition smac_ex : list Z := [82; 85; 10; 0; 2; 2].
(** The server sends "ab" twice and then "c" after it. *)
Definition segments_ex : list server_segment :=
  [Srv 5000 100 16 [97; 98]; Srv 5000 100 16 [97; 98]; Srv 5002 100 16 [99]].
Definition packet_ex : list Z := packet_of 1 0 srv_ex (NET_IP 10 0 2 15) mac_ex smac_ex (Srv 5000 100 16 [97; 98]).

Lemma net_ex_inv : net_inv net_ex.
Proof. split; [exact net_ex_can_send | by vm_compute | by vm_compute]. Qed.

Lemma peers_ex : peers mac_ex smac_ex srv_ex (NET_IP 10 0 2 15) net_ex.
Proof. by split. Qed.

Lemma seg_ok_dec s :
  (0 <=? sg_seq s) && (sg_seq s <? 4294967296) && (0 <=? sg_ack s) && (sg_ack s <? 4294967296) &&
  (0 <=? sg_flags s) && (sg_flags s <? 256) && forallb (fun b => (0 <=? b) && (b <? 256)) (sg_payload s) &&
  (zlen (sg_payload s) <=? 1460) = true -> seg_ok s.
Proof.
  rewrite !andb_true_iff. intros [[[[[[[H1 H2] H3] H4] H5] H6] H7] H8]. unfold seg_ok, is_byte.
  split; [lia |]. split; [lia |]. split; [lia |]. split; [| lia].
  apply Forall_forall. intros x Hx%list_elem_of_In. rewrite forallb_forall in H7. specialize (H7 x Hx).
  unfold is_byte. lia.
Qed.

Lemma segments_ex_data : Forall data_segment segments_ex.
Proof. repeat (constructor; [split; [by apply seg_ok_dec | done] |]). constructor. Qed.

Lemma net_handle_packet_safe_witness : exists n',
  net_handle_packet 0 packet_ex (zlen packet_ex) net_ex = Some n' /\ net_inv n' /\ g_mac n' = mac_ex.
Proof.
  assert (bytes packet_ex) as Hb.
  { apply Forall_forall. intros x Hx%list_elem_of_In.
    assert (forallb (fun b => (0 <=? b) && (b <? 256)) packet_ex = true) as H by (vm_compute; reflexivity).
    rewrite forallb_forall in H. specialize (H x Hx). unfold is_byte. lia. }
  assert (lengths_ok packet_ex (zlen packet_ex)) as Hl.
  { split; [lia |]. intros _. split.
    - intros total E. vm_compute in E. injection E as <-. vm_compute. done.
    - intros E. vm_compute in E. done. }
  destruct (net_handle_packet_safe 0 packet_ex (zlen packet_ex) net_ex net_ex_inv Hb Hl) as (n' & E & Hi & _ & Hm & _).
  exists n'. split; [exact E |]. split; [exact Hi | exact Hm].
Defined.

Lemma tcp_stream_refines_witness : exists n' fs,
  handle_all 0 1 0 srv_ex (NET_IP 10 0 2 15) mac_ex smac_ex segments_ex net_ex = Some n' /\
  g_tcp_ack (g_tcp n') = 5003 /\ map (fun f => be32 f 42) fs = [Some 5002; Some 5002; Some 5003].
Proof.
  destruct (tcp_stream_refines 0 1 0 srv_ex (NET_IP 10 0 2 15) mac_ex smac_ex segments_ex net_ex net_ex_inv
    peers_ex ltac:(by vm_compute) ltac:(by vm_compute) segments_ex_data) as (n' & fs & E & _ & Ha & _ & _ & Hf).
  exists n', fs. split; [exact E |]. split; [exact Ha | exact Hf].
Defined.

Lemma tcp_delivers_prefix_witness : exists n' got k,
  handle_all 0 1 0 srv_ex (NET_IP 10 0 2 15) mac_ex smac_ex segments_ex net_ex = Some n' /\
  concat got = take (Z.to_nat k) [97; 98; 99] /\ g_tcp_ack (g_tcp n') = u32 (5000 + k).
Proof.
  assert (Forall (segment_of [97; 98; 99] (g_tcp_ack (g_tcp net_ex))) segments_ex) as Hof.
  { constructor; [exists 0; by vm_compute |]. constructor; [exists 0; by vm_compute |].
    constructor; [exists 2; by vm_compute | constructor]. }
  destruct (tcp_delivers_prefix 0 1 0 srv_ex (NET_IP 10 0 2 15) mac_ex smac_ex [97; 98; 99] segments_ex net_ex
    net_ex_inv peers_ex ltac:(by vm_compute) ltac:(by vm_compute) segments_ex_data ltac:(by vm_compute) Hof)
    as (n' & got & k & E & _ & Hg & Ha & _).
  exists n', got, k. split; [exact E |]. split; [exact Hg | exact Ha].
Defined.

Definition net_syn_ex : net := on_tcp (set_tcp_state 1) net_ex.
Lemma net_syn_ex_inv : net_inv net_syn_ex.
Proof. split; [exact net_ex_can_send | by vm_compute | by vm_compute]. Qed.

Lemma tcp_handshake_witness : exists n',
  handle_all 0 1 0 srv_ex (NET_IP 10 0 2 15) mac_ex smac_ex [Srv 4999 101 0x12 []] net_syn_ex = Some n' /\
  g_tcp n' = Tcp 3 srv_ex 154 5000 101 53 0 0.
Proof.
  destruct (tcp_handshake 0 1 0 srv_ex (NET_IP 10 0 2 15) mac_ex smac_ex (Srv 4999 101 0x12 []) net_syn_ex
    net_syn_ex_inv ltac:(by split) eq_refl ltac:(by apply seg_ok_dec) eq_refl eq_refl) as (n' & E & H).
  exists n'. split; [exact E |]. exact (proj1 H).
Defined.

Lemma tcp_close_any_sequence_witness : exists n',
  handle_all 0 1 0 srv_ex (NET_IP 10 0 2 15) mac_ex smac_ex [Srv 77 0 0x04 []] net_ex = Some n' /\
  g_tcp_state (g_tcp n') = 5.
Proof.
  apply (tcp_close_any_sequence 0 1 0 srv_ex (NET_IP 10 0 2 15) mac_ex smac_ex (Srv 77 0 0x04 []) net_ex
    net_ex_inv peers_ex ltac:(by apply seg_ok_dec) eq_refl eq_refl).
Defined.

(** The total length of the example packet made 1000. *)
Lemma ip_total_unchecked_witness :
  net_handle_packet 0 (packet_ex.[16 <- 3].[17 <- 232]) 56 net_ex = None.
Proof.
  apply (ip_total_unchecked 0 (packet_ex.[16 <- 3].[17 <- 232]) net_ex 1000 80); try (vm_compute; reflexivity);
    vm_compute; done.
Defined.

Lemma dhcp_configures_witness : exists n1 n2,
  handle_dhcp (dhcp_reply [1; 6; 0] (replicate 8 0) (replicate 216 0) 5 [(53, [2]); (54, [10; 0; 2; 2])] []) 250
    (set_dhcp_configured 0 (set_dhcp_requested 0 net_ex)) = Some n1 /\
  handle_dhcp (dhcp_reply [1; 6; 0] (replicate 8 0) (replicate 216 0) 5 [(6, [10; 0; 2; 3]); (53, [5])] []) 250 n1 = Some n2 /\
  g_local_ip n2 = 5 /\ g_gateway_ip n2 = NET_IP 10 0 2 2 /\ net_is_configured n2 = 1.
Proof.
  destruct (dhcp_configures [1; 6; 0] (replicate 8 0) (replicate 216 0) [] 5 5
    [(53, [2]); (54, [10; 0; 2; 2])] [(6, [10; 0; 2; 3]); (53, [5])]
    (set_dhcp_configured 0 (set_dhcp_requested 0 net_ex)) (NET_IP 10 0 2 2) 0 0 0 0 (NET_IP 10 0 2 3))
    as (n1 & n2 & f1 & f2 & H1 & H2 & H3 & H4 & _ & H5 & _); try done.
  - by repeat (apply Forall_cons; split; [by vm_compute |]).
  - by repeat (apply Forall_cons; split; [by vm_compute |]).
  - exists n1, n2. split; [exact H1 |]. split; [exact H2 |]. split; [exact H3 |]. split; [exact H4 | exact H5].
Defined.
