(* ===== verification/Gpu.v ===== *)
(** * Console and framebuffer (src/drivers/gpu.c)

    The text console in VGA text memory and in a linear framebuffer, the pixel primitives
    and the copies between the buffers. A buffer of pixels is the list of its bytes; an
    access beyond it is [None]. The buffers a window draws to are kept by address in
    [bufs], and [g_render_target] is the address of the one drawing is sent to. The glyphs
    are those the firmware left in memory and are an argument, [font]. *)

From Stdlib Require Import ZifyBool.
From S2P Require Import Prelude Rtl8139.

Definition VGA_COLS : Z := 80.
Definition VGA_ROWS : Z := 25.
Definition FONT_BASE_W : Z := 8.
Definition FONT_BASE_H : Z := 16.
Definition FONT_W : Z := 8.
Definition FONT_H : Z := 16.
Definition g_palette : list Z :=
  [0x000000; 0x0000AA; 0x00AA00; 0x00AAAA; 0xAA0000; 0xAA00AA; 0xAA5500; 0xAAAAAA;
   0x555555; 0x5555FF; 0x55FF55; 0x55FFFF; 0xFF5555; 0xFF55FF; 0xFFFF55; 0xFFFFFF].

(** The memory drawing goes to, with its geometry. *)
Record surface := Surface { s_bytes : list Z; s_w : Z; s_h : Z; s_pitch : Z; s_bpp : Z }.
Definition with_bytes l (s : surface) : surface := Surface l (s_w s) (s_h s) (s_pitch s) (s_bpp s).

Record gpu := Gpu {
  g_row : Z; g_col : Z; g_color : Z;
  vga : list Z;                       (* VGA_MEM *)
  g_fb_enabled : Z;
  g_fb : list Z; g_fb_back : option (list Z);
  g_fb_width : Z; g_fb_height : Z; g_fb_pitch : Z; g_fb_bpp : Z;
  g_target_back : Z;
  bufs : gmap Z (list Z);
  g_render_target : Z;
  g_render_pitch : Z; g_render_w : Z; g_render_h : Z; g_render_bpp : Z;
  g_vp_x : Z; g_vp_y : Z; g_vp_cols : Z; g_vp_rows : Z;
  g_fb_cols : Z; g_fb_rows : Z;
  g_ports : list port_write }.

Definition set_text row col color mem ps (g : gpu) : gpu :=
  Gpu row col color mem (g_fb_enabled g) (g_fb g) (g_fb_back g) (g_fb_width g) (g_fb_height g)
    (g_fb_pitch g) (g_fb_bpp g) (g_target_back g) (bufs g) (g_render_target g) (g_render_pitch g)
    (g_render_w g) (g_render_h g) (g_render_bpp g) (g_vp_x g) (g_vp_y g) (g_vp_cols g) (g_vp_rows g)
    (g_fb_cols g) (g_fb_rows g) ps.
Definition set_cursor_pos row col (g : gpu) : gpu := set_text row col (g_color g) (vga g) (g_ports g) g.
Definition set_color v (g : gpu) : gpu := set_text (g_row g) (g_col g) v (vga g) (g_ports g) g.
Definition set_vga m (g : gpu) : gpu := set_text (g_row g) (g_col g) (g_color g) m (g_ports g) g.
Definition add_ports ps (g : gpu) : gpu := set_text (g_row g) (g_col g) (g_color g) (vga g) (g_ports g ++ ps) g.
Definition set_pixels front back tb bs rt rp rw rh rb (g : gpu) : gpu :=
  Gpu (g_row g) (g_col g) (g_color g) (vga g) (g_fb_enabled g) front back (g_fb_width g) (g_fb_height g)
    (g_fb_pitch g) (g_fb_bpp g) tb bs rt rp rw rh rb (g_vp_x g) (g_vp_y g) (g_vp_cols g) (g_vp_rows g)
    (g_fb_cols g) (g_fb_rows g) (g_ports g).
Definition set_front l (g : gpu) : gpu := set_pixels l (g_fb_back g) (g_target_back g) (bufs g)
  (g_render_target g) (g_render_pitch g) (g_render_w g) (g_render_h g) (g_render_bpp g) g.
Definition set_back l (g : gpu) : gpu := set_pixels (g_fb g) l (g_target_back g) (bufs g)
  (g_render_target g) (g_render_pitch g) (g_render_w g) (g_render_h g) (g_render_bpp g) g.
Definition set_bufs b (g : gpu) : gpu := set_pixels (g_fb g) (g_fb_back g) (g_target_back g) b
  (g_render_target g) (g_render_pitch g) (g_render_w g) (g_render_h g) (g_render_bpp g) g.
Definition set_viewport x y cols rows (g : gpu) : gpu :=
  Gpu (g_row g) (g_col g) (g_color g) (vga g) (g_fb_enabled g) (g_fb g) (g_fb_back g) (g_fb_width g) (g_fb_height g)
    (g_fb_pitch g) (g_fb_bpp g) (g_target_back g) (bufs g) (g_render_target g) (g_render_pitch g)
    (g_render_w g) (g_render_h g) (g_render_bpp g) x y cols rows (g_fb_cols g) (g_fb_rows g) (g_ports g).

Definition fb_cell (c color : Z) : Z := Z.lor (u8 c) (Z.shiftl (u8 color) 8).
Definition rgb_for_color (color : Z) : Z := g_palette.[Z.land color 0x0F].

(** ** Pixels *)

Definition pixel_at (s : surface) (x y : Z) : Z := u32 (y * s_pitch s) + u32 (x * (s_bpp s / 8)).
Definition rgb565 (rgb : Z) : Z :=
  Z.lor (Z.lor (Z.shiftl (Z.land (Z.shiftr rgb 19) 0x1F) 11) (Z.shiftl (Z.land (Z.shiftr rgb 10) 0x3F) 5))
    (Z.land (Z.shiftr rgb 3) 0x1F).

Definition fb_put_pixel (x y rgb : Z) (s : surface) : option surface :=
  if (s_w s <=? x) || (s_h s <=? y) then Some s
  else
    let p := pixel_at s x y in
    let b0 := Z.land rgb 0xFF in
    let b1 := Z.land (Z.shiftr rgb 8) 0xFF in
    let b2 := Z.land (Z.shiftr rgb 16) 0xFF in
    if s_bpp s =? 32 then
      l ← put (s_bytes s) p b0; l ← put l (p + 1) b1; l ← put l (p + 2) b2; l ← put l (p + 3) 0;
      Some (with_bytes l s)
    else if s_bpp s =? 24 then
      l ← put (s_bytes s) p b0; l ← put l (p + 1) b1; l ← put l (p + 2) b2; Some (with_bytes l s)
    else if s_bpp s =? 16 then
      l ← put (s_bytes s) p (Z.land (rgb565 rgb) 0xFF); l ← put l (p + 1) (Z.shiftr (rgb565 rgb) 8);
      Some (with_bytes l s)
    else Some s.

Definition fb_get_pixel (x y : Z) (s : surface) : option Z :=
  if (s_w s <=? x) || (s_h s <=? y) then Some 0
  else
    let p := pixel_at s x y in
    if (s_bpp s =? 32) || (s_bpp s =? 24) then
      a ← zlook (s_bytes s) p; b ← zlook (s_bytes s) (p + 1); c ← zlook (s_bytes s) (p + 2);
      Some (Z.lor (Z.lor (Z.shiftl c 16) (Z.shiftl b 8)) a)
    else if s_bpp s =? 16 then
      a ← zlook (s_bytes s) p; b ← zlook (s_bytes s) (p + 1);
      let v := Z.lor a (Z.shiftl b 8) in
      Some (Z.lor (Z.lor (Z.shiftl (Z.shiftl (Z.land (Z.shiftr v 11) 0x1F) 3) 16)
                     (Z.shiftl (Z.shiftl (Z.land (Z.shiftr v 5) 0x3F) 2) 8))
              (Z.shiftl (Z.land v 0x1F) 3))
    else Some 0.

Definition fb_fill_rect (x y w h rgb : Z) (s : surface) : option surface :=
  loopM (Z.to_nat h) 0 (fun yy s =>
    loopM (Z.to_nat w) 0 (fun xx s => fb_put_pixel (u16 (x + xx)) (u16 (y + yy)) rgb s) s) s.

(** Words first, then the bytes that are left; [src] is read at the time of each copy. *)
Definition copy_word (dst src : Z) (l : list Z) : option (list Z) :=
  a ← zlook l src; b ← zlook l (src + 1); c ← zlook l (src + 2); d ← zlook l (src + 3);
  l ← put l dst a; l ← put l (dst + 1) b; l ← put l (dst + 2) c; put l (dst + 3) d.
Definition fb_blit_row (dst src bytes : Z) (l : list Z) : option (list Z) :=
  l ← loopM (Z.to_nat (bytes / 4)) 0 (fun i l => copy_word (dst + 4 * i) (src + 4 * i) l) l;
  loopM (Z.to_nat (bytes - bytes / 4 * 4)) (bytes / 4 * 4)
    (fun i l => v ← zlook l (src + i); put l (dst + i) v) l.
(** The same from another buffer. *)
Definition fb_blit_from (other : list Z) (dst src bytes : Z) (l : list Z) : option (list Z) :=
  loopM (Z.to_nat bytes) 0 (fun i l => v ← zlook other (src + i); put l (dst + i) v) l.

Section gpu.
Context (font : Z -> Z).
Implicit Types g : gpu.

(** A glyph at a pixel position, with the colours of its bits. *)
Definition fb_draw_char_px (x y ch fg bg : Z) (s : surface) : option surface :=
  loopM (Z.to_nat FONT_BASE_H) 0 (fun gy s =>
    let bits := u8 (font (u8 ch * FONT_BASE_H + gy)) in
    loopM (Z.to_nat FONT_BASE_W) 0 (fun gx s =>
      let rgb := if istrue (Z.land bits (Z.shiftr 0x80 gx)) then fg else bg in
      fb_put_pixel (u16 (x + gx)) (u16 (y + gy)) rgb s) s) s.

(** rt_pitch, rt_width, rt_height, rt_bpp and fb_target: where drawing goes. *)
Definition fb_target g : option surface :=
  if istrue (g_render_target g) then
    l ← bufs g !! g_render_target g;
    Some (Surface l (g_render_w g) (g_render_h g) (g_render_pitch g) (g_render_bpp g))
  else
    match g_fb_back g with
    | Some l => if istrue (g_target_back g) then Some (Surface l (g_fb_width g) (g_fb_height g) (g_fb_pitch g) (g_fb_bpp g))
                else Some (Surface (g_fb g) (g_fb_width g) (g_fb_height g) (g_fb_pitch g) (g_fb_bpp g))
    | None => Some (Surface (g_fb g) (g_fb_width g) (g_fb_height g) (g_fb_pitch g) (g_fb_bpp g))
    end.
Definition store_target (l : list Z) g : gpu :=
  if istrue (g_render_target g) then set_bufs (<[g_render_target g := l]> (bufs g)) g
  else match g_fb_back g with
       | Some _ => if istrue (g_target_back g) then set_back (Some l) g else set_front l g
       | None => set_front l g
       end.
Definition draw (f : surface -> option surface) g : option gpu :=
  s ← fb_target g; s ← f s; Some (store_target (s_bytes s) g).

Definition fb_draw_char (row col ch fg bg : Z) g : option gpu :=
  draw (fb_draw_char_px (u16 (g_vp_x g + col * FONT_W)) (u16 (g_vp_y g + row * FONT_H)) ch
          (rgb_for_color fg) (rgb_for_color bg)) g.

Definition fb_scroll g : option gpu :=
  let w_px := u16 (g_vp_cols g * FONT_W) in
  let h_px := u16 (g_vp_rows g * FONT_H) in
  g ← draw (fun s =>
        let bpp_bytes := s_bpp s / 8 in
        l ← loopM (Z.to_nat (h_px - FONT_H)) 0 (fun row l =>
              fb_blit_row ((g_vp_y g + row) * s_pitch s + g_vp_x g * bpp_bytes)
                ((g_vp_y g + row + FONT_H) * s_pitch s + g_vp_x g * bpp_bytes) (w_px * bpp_bytes) l) (s_bytes s);
        Some (with_bytes l s)) g;
  g ← draw (fb_fill_rect (g_vp_x g) (u16 (g_vp_y g + h_px - FONT_H)) w_px FONT_H
              (rgb_for_color (Z.shiftr (g_color g) 4))) g;
  Some (set_cursor_pos (u64 (g_vp_rows g - 1)) (g_col g) g).

(** ** The text console *)

Definition fb_update_cursor g : gpu :=
  if istrue (g_fb_enabled g) then g
  else
    let pos := u16 (g_row g * VGA_COLS + g_col g) in
    add_ports [Outb 0x3D4 0x0F; Outb 0x3D5 (Z.land pos 0xFF);
               Outb 0x3D4 0x0E; Outb 0x3D5 (Z.land (Z.shiftr pos 8) 0xFF)] g.

Definition con_cols g : Z := if istrue (g_fb_enabled g) then g_vp_cols g else VGA_COLS.
Definition con_rows g : Z := if istrue (g_fb_enabled g) then g_vp_rows g else VGA_ROWS.

Definition gpu_set_color (fg bg : Z) g : gpu := set_color (u8 (Z.lor fg (Z.shiftl bg 4))) g.

Definition gpu_clear (fg bg : Z) g : option gpu :=
  let g := set_cursor_pos 0 0 (gpu_set_color fg bg g) in
  if istrue (g_fb_enabled g) then draw (fb_fill_rect 0 0 (g_fb_width g) (g_fb_height g) (rgb_for_color bg)) g
  else
    m ← loopM (Z.to_nat (VGA_COLS * VGA_ROWS)) 0 (fun i m => put m i (fb_cell 32 (g_color g))) (vga g);
    Some (fb_update_cursor (set_vga m g)).

(** One cell of the console: a glyph in the framebuffer or a word of text memory. *)
Definition put_cell (row col c : Z) g : option gpu :=
  if istrue (g_fb_enabled g) then fb_draw_char row col c (Z.land (g_color g) 0x0F) (Z.shiftr (g_color g) 4) g
  else m ← put (vga g) (row * VGA_COLS + col) (fb_cell c (g_color g)); Some (set_vga m g).

Definition console_scroll g : option gpu :=
  if istrue (g_fb_enabled g) then fb_scroll g
  else
    m ← loopM (Z.to_nat ((VGA_ROWS - 1) * VGA_COLS)) 0
          (fun i m => v ← zlook m (i + VGA_COLS); put m i v) (vga g);
    m ← loopM (Z.to_nat VGA_COLS) ((VGA_ROWS - 1) * VGA_COLS) (fun i m => put m i (fb_cell 32 (g_color g))) m;
    Some (set_cursor_pos (VGA_ROWS - 1) (g_col g) (set_vga m g)).

Definition gpu_putc (c : Z) g : option gpu :=
  let cols := con_cols g in
  let rows := con_rows g in
  if c =? 12 then gpu_clear 0x0F 0x00 g
  else
    g ← (if c =? 10 then Some (set_cursor_pos (g_row g + 1) 0 g)
         else if c =? 13 then Some (set_cursor_pos (g_row g) 0 g)
         else if c =? 8 then Some (if 0 <? g_col g then set_cursor_pos (g_row g) (g_col g - 1) g else g)
         else
           g ← put_cell (g_row g) (g_col g) c g;
           Some (if cols <=? g_col g + 1 then set_cursor_pos (g_row g + 1) 0 g
                 else set_cursor_pos (g_row g) (g_col g + 1) g));
    g ← (if rows <=? g_row g then console_scroll g else Some g);
    Some (fb_update_cursor g).

Fixpoint gpu_print (s : list Z) g : option gpu :=
  match s with [] => Some g | c :: s' => g ← gpu_putc c g; gpu_print s' g end.

Definition gpu_put_at (row col c fg bg : Z) g : option gpu :=
  if istrue (g_fb_enabled g) then
    if (g_fb_rows g <=? row) || (g_fb_cols g <=? col) then Some g else fb_draw_char row col c fg bg g
  else if (VGA_ROWS <=? row) || (VGA_COLS <=? col) then Some g
  else m ← put (vga g) (row * VGA_COLS + col) (fb_cell c (u8 (Z.lor fg (Z.shiftl bg 4)))); Some (set_vga m g).

Fixpoint write_from (row col i : Z) (s : list Z) (fg bg : Z) g : option gpu :=
  match s with
  | [] => Some g
  | c :: s' => if col + i <? VGA_COLS
               then g ← gpu_put_at row (u8 (col + i)) c fg bg g; write_from row col (i + 1) s' fg bg g
               else Some g
  end.
Definition gpu_write_at (row col : Z) (s : list Z) (fg bg : Z) g : option gpu := write_from row col 0 s fg bg g.

Definition gpu_set_cursor (row col : Z) g : gpu :=
  let row := if con_rows g <=? row then u16 (con_rows g - 1) else row in
  let col := if con_cols g <=? col then u16 (con_cols g - 1) else col in
  fb_update_cursor (set_cursor_pos row col g).
Definition gpu_get_cursor g : Z * Z := (u16 (g_row g), u16 (g_col g)).
Definition gpu_console_cols g : Z := con_cols g.

(** The cells [c0 <= c < c1] of a row become blank. *)
Definition blank_cells (r c0 c1 : Z) g : option gpu :=
  loopM (Z.to_nat (c1 - c0)) c0 (fun c g => put_cell r c 32 g) g.

Definition gpu_erase_line (mode : Z) g : option gpu :=
  let c0 := if mode =? 0 then g_col g else 0 in
  let c1 := if mode =? 0 then con_cols g else if mode =? 1 then g_col g + 1 else con_cols g in
  blank_cells (g_row g) c0 c1 g.

Definition gpu_erase_display (mode : Z) g : option gpu :=
  let r0 := if mode =? 0 then g_row g else 0 in
  let r1 := if mode =? 0 then con_rows g else if mode =? 1 then g_row g + 1 else con_rows g in
  loopM (Z.to_nat (r1 - r0)) r0 (fun r g =>
    let c0 := if (mode =? 0) && (r =? g_row g) then g_col g else 0 in
    let c1 := if (mode =? 1) && (r =? g_row g) then g_col g + 1 else con_cols g in
    blank_cells r c0 c1 g) g.

(** ** Drawing *)

Definition if_fb (f : gpu -> option gpu) g : option gpu := if istrue (g_fb_enabled g) then f g else Some g.

Definition gpu_put_pixel (x y rgb : Z) g : option gpu := if_fb (draw (fb_put_pixel x y rgb)) g.
Definition gpu_get_pixel (x y : Z) g : option Z :=
  if istrue (g_fb_enabled g) then s ← fb_target g; fb_get_pixel x y s else Some 0.
Definition gpu_fill_rect (x y w h rgb : Z) g : option gpu := if_fb (draw (fb_fill_rect x y w h rgb)) g.
Definition gpu_draw_rect (x y w h rgb : Z) g : option gpu :=
  if (w =? 0) || (h =? 0) then Some g
  else if_fb (draw (fun s =>
    s ← loopM (Z.to_nat w) 0 (fun xx s =>
          s ← fb_put_pixel (u16 (x + xx)) y rgb s; fb_put_pixel (u16 (x + xx)) (u16 (y + h - 1)) rgb s) s;
    loopM (Z.to_nat h) 0 (fun yy s =>
      s ← fb_put_pixel x (u16 (y + yy)) rgb s; fb_put_pixel (u16 (x + w - 1)) (u16 (y + yy)) rgb s) s)) g.
Definition gpu_draw_char (x y ch fg bg : Z) g : option gpu := if_fb (draw (fb_draw_char_px x y ch fg bg)) g.
Fixpoint draw_text_from (i x y : Z) (t : list Z) (fg bg : Z) (s : surface) : option surface :=
  match t with
  | [] => Some s
  | c :: t' => s ← fb_draw_char_px (u16 (x + i * FONT_W)) y c fg bg s; draw_text_from (u16 (i + 1)) x y t' fg bg s
  end.
Definition gpu_draw_text (x y : Z) (t : list Z) (fg bg : Z) g : option gpu :=
  if_fb (draw (draw_text_from 0 x y t fg bg)) g.

Definition gpu_flip g : option gpu :=
  match g_fb_back g with
  | Some back => if_fb (fun g => l ← fb_blit_from back 0 0 (g_fb_pitch g * g_fb_height g) (g_fb g); Some (set_front l g)) g
  | None => Some g
  end.
Definition gpu_flip_rect (x y w h : Z) g : option gpu :=
  match g_fb_back g with
  | Some back =>
      if_fb (fun g =>
        if (g_fb_width g <=? x) || (g_fb_height g <=? y) then Some g
        else
          let w := if g_fb_width g <? x + w then u16 (g_fb_width g - x) else w in
          let h := if g_fb_height g <? y + h then u16 (g_fb_height g - y) else h in
          let bpp_bytes := g_fb_bpp g / 8 in
          l ← loopM (Z.to_nat h) 0 (fun row l =>
                let off := (y + row) * g_fb_pitch g + x * bpp_bytes in
                fb_blit_from back off off (w * bpp_bytes) l) (g_fb g);
          Some (set_front l g)) g
  | None => Some g
  end.

(** The loops over a region leave it at the first row below the screen. *)
Definition region_rows (y h height : Z) : Z := Z.max 0 (Z.min h (height - y)).

Definition gpu_save_region (x y w h : Z) (dst : list Z) g : option (list Z) :=
  if istrue (g_fb_enabled g) then
    s ← fb_target g;
    loopM (Z.to_nat (region_rows y h (g_fb_height g))) 0 (fun yy dst =>
      loopM (Z.to_nat w) 0 (fun xx dst =>
        let px := u16 (x + xx) in
        v ← (if px <? g_fb_width g then fb_get_pixel px (u16 (y + yy)) s else Some 0);
        put dst (yy * w + xx) v) dst) dst
  else Some dst.

Definition copy_region (src : list Z) (x y w h : Z) g : option gpu :=
  draw (fun s =>
    loopM (Z.to_nat (region_rows y h (g_fb_height g))) 0 (fun yy s =>
      loopM (Z.to_nat w) 0 (fun xx s =>
        let px := u16 (x + xx) in
        if px <? g_fb_width g then v ← zlook src (yy * w + xx); fb_put_pixel px (u16 (y + yy)) v s
        else Some s) s) s) g.
Definition gpu_restore_region (src : list Z) (x y w h : Z) g : option gpu := if_fb (copy_region src x y w h) g.
Definition gpu_blit_buffer (buf : list Z) (bw bh dst_x dst_y : Z) g : option gpu :=
  if_fb (copy_region buf dst_x dst_y bw bh) g.

Definition gpu_set_target_back (enable : Z) g : gpu := set_pixels (g_fb g) (g_fb_back g) enable (bufs g)
  (g_render_target g) (g_render_pitch g) (g_render_w g) (g_render_h g) (g_render_bpp g) g.
Definition gpu_begin_target (buf w h : Z) g : gpu := set_pixels (g_fb g) (g_fb_back g) (g_target_back g) (bufs g)
  buf (u16 (w * 4)) w h 32 g.
Definition gpu_end_target g : gpu := set_pixels (g_fb g) (g_fb_back g) (g_target_back g) (bufs g)
  0 (g_render_pitch g) (g_render_w g) (g_render_h g) (g_render_bpp g) g.
Definition gpu_set_console_viewport (x y cols rows : Z) g : gpu := set_viewport x y cols rows g.
Definition gpu_reset_console_viewport g : gpu :=
  if istrue (g_fb_enabled g) then set_viewport 0 0 (u16 (g_fb_cols g)) (u16 (g_fb_rows g)) g
  else set_viewport 0 0 VGA_COLS VGA_ROWS g.

Definition gpu_width g : Z := if istrue (g_fb_enabled g) then g_fb_width g else VGA_COLS.
Definition gpu_height g : Z := if istrue (g_fb_enabled g) then g_fb_height g else VGA_ROWS.
Definition gpu_bpp g : Z := if istrue (g_fb_enabled g) then g_fb_bpp g else 0.
Definition gpu_is_framebuffer_enabled g : Z := g_fb_enabled g.
Definition gpu_init g : option gpu := gpu_clear 0x0F 0x00 (set_color 0x0F (set_cursor_pos 0 0 g)).
End gpu.

(** ** Drawing stays inside its buffer *)

Record surface_ok (s : surface) : Prop := {
  sf_w : 0 <= s_w s < 65536;
  sf_h : 0 <= s_h s < 65536;
  sf_pitch : 0 <= s_pitch s < 65536;
  sf_bpp : s_bpp s = 16 \/ s_bpp s = 24 \/ s_bpp s = 32;
  sf_row : s_w s * (s_bpp s / 8) <= s_pitch s;
  sf_len : s_pitch s * s_h s <= zlen (s_bytes s) }.

Definition same_geo (s s' : surface) : Prop :=
  s' = with_bytes (s_bytes s') s /\ zlen (s_bytes s') = zlen (s_bytes s).

#[global] Instance same_geo_preorder : PreOrder same_geo.
Proof.
  split.
  - intros []. done.
  - intros [] [] [] [[= -> -> -> ->] E1] [[= -> -> -> ->] E2]. split; [done |]. cbn in *. lia.
Qed.

Lemma same_geo_ok s s' : same_geo s s' -> surface_ok s -> surface_ok s'.
Proof.
  destruct s, s'. intros [[= -> -> -> ->] E] [H1 H2 H3 H4 H5 H6]. cbn in *. split; cbn; try done. lia.
Qed.

Lemma with_bytes_geo l s : zlen l = zlen (s_bytes s) -> same_geo s (with_bytes l s).
Proof. by destruct s. Qed.

Lemma pixel_inside s x y : surface_ok s -> 0 <= x < s_w s -> 0 <= y < s_h s ->
  pixel_at s x y = y * s_pitch s + x * (s_bpp s / 8) /\
  0 <= pixel_at s x y /\ pixel_at s x y + s_bpp s / 8 <= (y + 1) * s_pitch s /\
  pixel_at s x y + s_bpp s / 8 <= zlen (s_bytes s).
Proof.
  intros [Hw Hh Hp Hb Hr Hl] Hx Hy. unfold pixel_at.
  assert (0 <= y * s_pitch s < 4294967296) by nia.
  assert (0 <= s_bpp s / 8 <= 4) by (destruct Hb as [-> | [-> | ->]]; done).
  assert (0 <= x * (s_bpp s / 8) /\ (x + 1) * (s_bpp s / 8) <= s_pitch s) by nia.
  rewrite !u32_id by lia. assert ((y + 1) * s_pitch s <= zlen (s_bytes s)) by nia. nia.
Qed.

(** What a pixel operation may do: succeed and keep the buffer's size and geometry. *)
Definition drawn (s : surface) (o : option surface) : Prop := exists s', o = Some s' /\ same_geo s s'.

Lemma put_pixel_drawn x y rgb s : surface_ok s -> 0 <= x -> 0 <= y -> drawn s (fb_put_pixel x y rgb s).
Proof.
  intros Hs Hx Hy. unfold fb_put_pixel.
  destruct (Z.leb_spec (s_w s) x), (Z.leb_spec (s_h s) y); cbn [orb]; try (by exists s).
  destruct (pixel_inside s x y Hs) as (_ & Hp0 & _ & Hp1); [lia.. |]. set (p := pixel_at s x y) in *. clearbody p.
  destruct (sf_bpp s Hs) as [E | [E | E]]; rewrite E in *; cbn [Z.eqb Pos.eqb];
    change (32 / 8) with 4 in *; change (24 / 8) with 3 in *; change (16 / 8) with 2 in *;
    rewrite !put_in by (rewrite ?zset_zlen; lia); cbn [mbind option_bind];
    repeat (rewrite put_in by (rewrite ?zset_zlen; lia); cbn [mbind option_bind]);
    eexists; (split; [done |]); apply with_bytes_geo; by rewrite !zset_zlen.
Qed.

Lemma loop_drawn n i (body : Z -> surface -> option surface) s : surface_ok s ->
  (forall j t, i <= j < i + Z.of_nat n -> surface_ok t -> drawn t (body j t)) -> drawn s (loopM n i body s).
Proof.
  intros Hs Hb. destruct (loopM_inv (fun _ t => same_geo s t) body n i s) as (t & E & Ht); [done | | by exists t].
  intros j t Hj Ht. destruct (Hb j t Hj (same_geo_ok _ _ Ht Hs)) as (t' & E & Ht'). exists t'. split; [done | by etrans].
Qed.

Lemma bind_drawn s o k : drawn s o -> (forall t, same_geo s t -> drawn t (k t)) -> drawn s (o ≫= k).
Proof.
  intros (t & -> & Ht) Hk. destruct (Hk t Ht) as (u & E & Hu). exists u. split; [exact E | by etrans].
Qed.

Lemma fill_rect_drawn x y w h rgb s : surface_ok s -> drawn s (fb_fill_rect x y w h rgb s).
Proof.
  intros Hs. apply loop_drawn; [done |]. intros yy t _ Ht. apply loop_drawn; [done |].
  intros xx u _ Hu. apply put_pixel_drawn; [done | unfold u16; lia | unfold u16; lia].
Qed.

Lemma draw_char_drawn font x y ch fg bg s : surface_ok s -> drawn s (fb_draw_char_px font x y ch fg bg s).
Proof.
  intros Hs. apply loop_drawn; [done |]. intros yy t _ Ht. apply loop_drawn; [done |].
  intros xx u _ Hu. apply put_pixel_drawn; [done | unfold u16; lia | unfold u16; lia].
Qed.

Lemma copy_word_in dst src l : 0 <= dst -> dst + 4 <= zlen l -> 0 <= src -> src + 4 <= zlen l ->
  exists l', copy_word dst src l = Some l' /\ zlen l' = zlen l.
Proof.
  intros H1 H2 H3 H4. unfold copy_word.
  rewrite (zlook_get l src), (zlook_get l (src + 1)), (zlook_get l (src + 2)), (zlook_get l (src + 3)) by lia.
  cbn [mbind option_bind]. repeat (rewrite put_in by (rewrite ?zset_zlen; lia); cbn [mbind option_bind]).
  eexists. split; [done |]. by rewrite !zset_zlen.
Qed.

Lemma blit_row_in dst src n l : 0 <= n -> 0 <= dst -> dst + n <= zlen l -> 0 <= src -> src + n <= zlen l ->
  exists l', fb_blit_row dst src n l = Some l' /\ zlen l' = zlen l.
Proof.
  intros Hn H1 H2 H3 H4. unfold fb_blit_row.
  destruct (loopM_inv (fun _ l' => zlen l' = zlen l) (fun i l => copy_word (dst + 4 * i) (src + 4 * i) l)
    (Z.to_nat (n / 4)) 0 l) as (l1 & -> & Hl1); [done | |].
  { intros j t Hj Ht. destruct (copy_word_in (dst + 4 * j) (src + 4 * j) t) as (l' & -> & Hl'); [lia.. |].
    exists l'. by rewrite Hl'. }
  cbn [mbind option_bind].
  destruct (loopM_inv (fun _ l' => zlen l' = zlen l) (fun i l => v ← zlook l (src + i); put l (dst + i) v)
    (Z.to_nat (n - n / 4 * 4)) (n / 4 * 4) l1) as (l2 & -> & Hl2); [done | |].
  { intros j t Hj Ht. rewrite zlook_get by lia. cbn [mbind option_bind]. rewrite put_in by lia.
    eexists. split; [done |]. by rewrite zset_zlen. }
  eauto.
Qed.

(** ** The text console as rows of cells *)

(** What the console shows in text mode. *)
Record screen := Screen { sc_rows : list (list Z); sc_r : Z; sc_c : Z; sc_color : Z }.

Definition blank_row (color : Z) : list Z := replicate 80 (fb_cell 32 color).
Definition scroll_up (sc : screen) : screen :=
  if sc_r sc <? VGA_ROWS then sc
  else Screen (tail (sc_rows sc) ++ [blank_row (sc_color sc)]) (VGA_ROWS - 1) (sc_c sc) (sc_color sc).
Definition screen_putc (sc : screen) (c : Z) : screen :=
  let '(Screen rows r col color) := sc in
  if c =? 12 then Screen (replicate 25 (blank_row 0x0F)) 0 0 0x0F
  else if c =? 10 then scroll_up (Screen rows (r + 1) 0 color)
  else if c =? 13 then Screen rows r 0 color
  else if c =? 8 then Screen rows r (Z.max 0 (col - 1)) color
  else
    let rows := alter (fun row => row.[col <- fb_cell c color]) (Z.to_nat r) rows in
    if col + 1 <? VGA_COLS then Screen rows r (col + 1) color else scroll_up (Screen rows (r + 1) 0 color).
Definition screen_print (sc : screen) (s : list Z) : screen := foldl screen_putc sc s.

Definition rows_ok (rows : list (list Z)) : Prop := length rows = 25%nat /\ Forall (fun r => length r = 80%nat) rows.

Record shows (g : gpu) (sc : screen) : Prop := {
  sh_text : g_fb_enabled g = 0;
  sh_mem : vga g = concat (sc_rows sc);
  sh_rows : rows_ok (sc_rows sc);
  sh_row : g_row g = sc_r sc /\ 0 <= sc_r sc < VGA_ROWS;
  sh_col : g_col g = sc_c sc /\ 0 <= sc_c sc < VGA_COLS;
  sh_color : g_color g = sc_color sc }.

Lemma concat_length k (rows : list (list Z)) : Forall (fun r => length r = k) rows -> length (concat rows) = (length rows * k)%nat.
Proof.
  induction 1 as [| r rows Hr Hrows IH]; [done |]. cbn [concat length]. rewrite length_app, Hr, IH. lia.
Qed.

(** A store in the flat memory is a store in its row. *)
Lemma concat_store k (rows : list (list Z)) r c v :
  Forall (fun l => length l = k) rows -> (c < k)%nat ->
  <[(r * k + c)%nat := v]> (concat rows) = concat (alter (fun l => <[c := v]> l) r rows).
Proof.
  intros Hk Hc. revert r. induction Hk as [| l rows Hl Hrows IH]; intros r; [done |]. cbn [concat].
  destruct r as [| r]; cbn [alter list_alter concat].
  - rewrite insert_app_l by lia. done.
  - rewrite insert_app_r_alt by lia. rewrite <- IH. f_equal. f_equal. lia.
Qed.

Lemma rows_store rows r f : rows_ok rows -> (forall l, length (f l) = length l) -> rows_ok (alter f r rows).
Proof.
  intros [H1 H2] Hf. split; [by rewrite length_alter |]. apply Forall_alter; [done |]. intros x _ E. by rewrite Hf.
Qed.

(** Copying a list over itself, [k] places down. *)
Lemma shift_down n k l : 0 <= k -> Z.of_nat n + k <= zlen l ->
  exists l', loopM n 0 (fun i m => v ← zlook m (i + k); put m i v) l = Some l' /\
    l' = take n (drop (Z.to_nat k) l) ++ drop n l.
Proof.
  intros Hk Hn.
  destruct (loopM_inv (fun i m => zlen m = zlen l /\ forall j, 0 <= j -> m.[j] = if j <? i then l.[j + k] else l.[j])
    (fun i m => v ← zlook m (i + k); put m i v) n 0 l) as (l' & E & Hl & Hg).
  - split; [done |]. intros j Hj. destruct (Z.ltb_spec j 0); [lia | done].
  - intros j m Hj [Hl Hg]. rewrite zlook_get by lia. cbn [mbind option_bind]. rewrite put_in by lia.
    eexists. split; [done |]. split; [by rewrite zset_zlen |]. intros i Hi. rewrite zget_zset, !Hg by lia.
    destruct (Z.eqb_spec j i) as [Eji |], (Z.ltb_spec (j + k) j), (Z.ltb_spec i j), (Z.ltb_spec i (j + 1));
      try lia; [| done..]. by rewrite Eji.
  - exists l'. split; [done |]. apply zlist_ext.
    { rewrite Hl. unfold zlen in *. rewrite length_app, length_take, !length_drop. lia. }
    intros i Hi. rewrite Hg by lia. unfold zlen in *.
    assert (length (take n (drop (Z.to_nat k) l)) = n) as Ht by (rewrite length_take, length_drop; lia).
    unfold zget. destruct (Z.ltb_spec i (0 + Z.of_nat n)).
    + rewrite zlook_app_l by (unfold zlen; lia). rewrite !zlook_nonneg by lia.
      rewrite lookup_take_lt, lookup_drop by lia. do 2 f_equal. lia.
    + rewrite zlook_app_r by (unfold zlen; lia). rewrite !zlook_nonneg by (unfold zlen; lia).
      rewrite lookup_drop. do 2 f_equal. unfold zlen. lia.
Qed.

(** Filling [n] places from [i] on. *)
Lemma fill_from n i v l : 0 <= i -> i + Z.of_nat n <= zlen l ->
  loopM n i (fun j m => put m j v) l = Some (take (Z.to_nat i) l ++ replicate n v ++ drop (Z.to_nat i + n) l).
Proof.
  intros Hi Hn.
  destruct (loopM_inv (fun k m => zlen m = zlen l /\ forall j, 0 <= j -> m.[j] = if (i <=? j) && (j <? k) then v else l.[j])
    (fun j m => put m j v) n i l) as (l' & E & Hl & Hg).
  - split; [done |]. intros j Hj. destruct (Z.leb_spec i j), (Z.ltb_spec j i); done || lia.
  - intros j m Hj [Hl Hg]. rewrite put_in by lia. eexists. split; [done |]. split; [by rewrite zset_zlen |].
    intros x Hx. rewrite zget_zset, Hg by lia.
    destruct (Z.eqb_spec j x), (Z.leb_spec i x), (Z.ltb_spec x j), (Z.ltb_spec x (j + 1)); try lia; done.
  - rewrite E. f_equal. apply zlist_ext.
    { rewrite Hl. unfold zlen in *. rewrite !length_app, length_take, length_drop, length_replicate. lia. }
    intros x Hx. rewrite Hg by lia. unfold zlen in *.
    assert (length (take (Z.to_nat i) l) = Z.to_nat i) as Ht by (rewrite length_take; lia).
    unfold zget. destruct (Z.leb_spec i x); cbn [andb].
    + rewrite zlook_app_r by (unfold zlen; lia). destruct (Z.ltb_spec x (i + Z.of_nat n)).
      * rewrite zlook_app_l by (rewrite zlen_replicate; unfold zlen; lia).
        rewrite zlook_replicate by (unfold zlen; lia). done.
      * rewrite zlook_app_r by (rewrite zlen_replicate; unfold zlen; lia). rewrite zlen_replicate.
        rewrite !zlook_nonneg by (unfold zlen; lia). rewrite lookup_drop. do 2 f_equal. unfold zlen. lia.
    + rewrite zlook_app_l by (unfold zlen; lia). rewrite !zlook_nonneg by lia. by rewrite lookup_take_lt by lia.
Qed.

Section text.
Context (font : Z -> Z).

Lemma shows_vga_len g sc : shows g sc -> zlen (vga g) = 2000.
Proof.
  intros [_ Hm [H1 H2] _ _ _]. unfold zlen. rewrite Hm, (concat_length 80) by done. rewrite H1. done.
Qed.

Lemma text_mode g sc : shows g sc -> istrue (g_fb_enabled g) = false.
Proof. intros [-> _ _ _ _ _]. done. Qed.

(** The cursor of the hardware follows; nothing else is seen of it here. *)
Lemma shows_cursor g sc : shows g sc -> shows (fb_update_cursor g) sc.
Proof. intros Hs. pose proof (text_mode g sc Hs) as Ht. destruct Hs. unfold fb_update_cursor. rewrite Ht. by split. Qed.

Definition store_cell (r c v : Z) (sc : screen) : screen :=
  Screen (alter (fun row => row.[c <- v]) (Z.to_nat r) (sc_rows sc)) (sc_r sc) (sc_c sc) (sc_color sc).

Lemma put_cell_shows g sc r c ch : shows g sc -> 0 <= r < VGA_ROWS -> 0 <= c < VGA_COLS ->
  exists m, put_cell font r c ch g = Some (set_vga m g) /\
    shows (set_vga m g) (store_cell r c (fb_cell ch (sc_color sc)) sc).
Proof.
  intros Hs Hr Hc. pose proof (text_mode g sc Hs) as Ht. pose proof (shows_vga_len g sc Hs) as Hl.
  destruct Hs as [E0 Hm [H1 H2] Hrr Hcc Hcol]. unfold VGA_ROWS, VGA_COLS in *.
  unfold put_cell, VGA_COLS. rewrite Ht, Hcol, put_in by lia. cbn [mbind option_bind].
  eexists. split; [done |]. split; try done.
  - cbn [set_vga set_text vga store_cell sc_rows]. unfold zset. destruct (Z.ltb_spec (r * 80 + c) 0); [lia |].
    replace (Z.to_nat (r * 80 + c)) with (Z.to_nat r * 80 + Z.to_nat c)%nat by lia.
    rewrite Hm, (concat_store 80) by (done || lia). f_equal. apply list_alter_ext; [| done].
    intros x _. destruct (Z.ltb_spec c 0); [lia | done].
  - apply rows_store; [done |]. intros l. unfold zset. destruct (_ <? 0); [done | apply length_insert].
Qed.

(** The state within gpu_putc, whose cursor may be one row below the last. *)
Record almost (g : gpu) (sc : screen) : Prop := {
  al_text : g_fb_enabled g = 0;
  al_mem : vga g = concat (sc_rows sc);
  al_rows : rows_ok (sc_rows sc);
  al_row : g_row g = sc_r sc /\ 0 <= sc_r sc <= VGA_ROWS;
  al_col : g_col g = sc_c sc /\ 0 <= sc_c sc < VGA_COLS;
  al_color : g_color g = sc_color sc }.

Lemma scroll_rows color rows m :
  rows_ok rows -> m = take 1920 (drop 80 (concat rows)) ++ drop 1920 (concat rows) ->
  take 1920 m ++ replicate 80 (fb_cell 32 color) = concat (tail rows ++ [blank_row color]).
Proof.
  intros [H1 H2] ->. destruct rows as [| r0 rows]; [done |]. apply Forall_cons in H2 as [Hr0 H2].
  cbn [tail concat]. assert (length (concat rows) = 1920%nat) as Hc by (rewrite (concat_length 80) by done; cbn in H1; lia).
  rewrite drop_app_length' by done. rewrite (take_ge (concat rows)) by lia.
  rewrite take_app_length' by lia. rewrite concat_app. cbn [concat]. by rewrite app_nil_r.
Qed.

(** The end of gpu_putc: the rows move up when the cursor has left the last one. *)
Lemma finish_shows g sc : almost g sc ->
  exists g', (g ← (if VGA_ROWS <=? g_row g then console_scroll g else Some g); Some (fb_update_cursor g)) = Some g' /\
    shows g' (scroll_up sc).
Proof.
  intros [E0 Hm Hrows [Hr Hrr] [Hc Hcc] Hcol]. unfold scroll_up. rewrite Hr. unfold VGA_ROWS, VGA_COLS in *.
  destruct (Z.leb_spec 25 (sc_r sc)), (Z.ltb_spec (sc_r sc) 25); try lia.
  2: { eexists. split; [done |]. apply shows_cursor. split; try done; unfold VGA_ROWS; split; lia. }
  pose proof Hrows as [H1 H2].
  assert (zlen (vga g) = 2000) as Hl by (unfold zlen; rewrite Hm, (concat_length 80), H1 by done; done).
  unfold console_scroll. rewrite E0. change (istrue 0) with false. cbv iota. unfold VGA_ROWS, VGA_COLS.
  change (Z.to_nat ((25 - 1) * 80)) with 1920%nat. change ((25 - 1) * 80) with 1920. change (Z.to_nat 80) with 80%nat.
  destruct (shift_down 1920 80 (vga g)) as (m & -> & Em); [lia.. |]. cbn [mbind option_bind].
  assert (zlen m = 2000) as Hlm.
  { rewrite Em. unfold zlen in *. rewrite length_app, length_take, !length_drop. lia. }
  rewrite fill_from by lia. cbn [mbind option_bind]. eexists. split; [done |]. apply shows_cursor.
  split; try done; try (split; [done | unfold VGA_ROWS; lia]).
  - cbn [set_cursor_pos set_vga set_text vga sc_rows]. rewrite (drop_ge m) by (unfold zlen in Hlm; lia).
    rewrite app_nil_r, Hcol. rewrite Hm in Em. by apply scroll_rows.
  - cbn [sc_rows]. destruct (sc_rows sc) as [| r0 rows]; [done |]. cbn [tail]. apply Forall_cons in H2 as [_ H2].
    split; [rewrite length_app; cbn in *; lia |]. apply Forall_app. split; [done |]. by repeat constructor.
Qed.

Lemma scroll_up_in sc : sc_r sc < VGA_ROWS -> scroll_up sc = sc.
Proof. intros H. unfold scroll_up. destruct (Z.ltb_spec (sc_r sc) VGA_ROWS); [done | lia]. Qed.

Lemma putc_shows g sc c : shows g sc -> exists g', gpu_putc font c g = Some g' /\ shows g' (screen_putc sc c).
Proof.
  intros Hs. pose proof (text_mode g sc Hs) as Ht. pose proof (shows_vga_len g sc Hs) as Hl.
  pose proof Hs as [E0 Hm Hrows [Hr Hrr] [Hc Hcc] Hcol]. unfold gpu_putc, screen_putc, con_cols, con_rows.
  rewrite Ht. destruct sc as [rows r col color]. cbn [sc_rows sc_r sc_c sc_color] in *.
  destruct (c =? 12).
  { unfold gpu_clear. cbn [set_cursor_pos set_text g_fb_enabled gpu_set_color set_color]. rewrite Ht.
    change (Z.to_nat (VGA_COLS * VGA_ROWS)) with 2000%nat. cbn [vga set_cursor_pos set_text gpu_set_color set_color].
    rewrite fill_from by lia. cbn [mbind option_bind]. eexists. split; [done |]. apply shows_cursor. split; try done.
    - cbn [set_vga set_text vga]. rewrite (drop_ge (vga g)) by (unfold zlen in Hl; lia).
      change (Z.to_nat 0) with 0%nat. cbn [take app]. rewrite app_nil_r. reflexivity.
    - split; [done |]. by apply Forall_replicate. }
  destruct (c =? 10).
  { cbn [mbind option_bind]. apply finish_shows. split; try done; cbn; unfold VGA_ROWS, VGA_COLS in *; split; lia. }
  destruct (c =? 13).
  { cbn [mbind option_bind]. rewrite <- (scroll_up_in (Screen rows r 0 color)) by (cbn; lia).
    apply finish_shows. split; try done; cbn; unfold VGA_ROWS, VGA_COLS in *; split; lia. }
  destruct (c =? 8).
  { cbn [mbind option_bind]. rewrite <- (scroll_up_in (Screen rows r (Z.max 0 (col - 1)) color)) by (cbn; lia).
    apply finish_shows. rewrite Hc. destruct (Z.ltb_spec 0 col); split; try done; cbn; unfold VGA_ROWS, VGA_COLS in *; split; lia. }
  destruct (put_cell_shows g _ (g_row g) (g_col g) c Hs) as (m & E & Hs'); [by rewrite Hr | by rewrite Hc |].
  rewrite Hr, Hc in E, Hs'. unfold store_cell in Hs'. cbn [sc_c sc_r sc_rows sc_color] in Hs'.
  rewrite Hr, Hc, E. cbn [mbind option_bind]. set (rows' := alter _ _ _) in *.
  pose proof Hs' as [_ Em Hrows' _ _ _]. cbn [sc_rows set_vga set_text vga] in Em, Hrows'.
  change (g_col (set_vga m g)) with (g_col g). change (g_row (set_vga m g)) with (g_row g). rewrite Hc, Hr.
  destruct (Z.leb_spec VGA_COLS (col + 1)), (Z.ltb_spec (col + 1) VGA_COLS); try lia.
  - apply finish_shows. split; try done; cbn; unfold VGA_ROWS, VGA_COLS in *; split; lia.
  - rewrite <- (scroll_up_in (Screen rows' r (col + 1) color)) by (cbn; lia).
    apply finish_shows. split; try done; cbn; unfold VGA_ROWS, VGA_COLS in *; split; lia.
Qed.

(** C21: in text mode the console is a screen of 25 rows of 80 cells: every text is printed
    without a write outside the text memory, and the memory then holds, row by row, what
    the screen holds after the same characters; the screen moves up by one row whenever
    the cursor leaves the last one, and the characters for new line, carriage return,
    backspace and form feed only move the cursor or clear it. *)
Theorem gpu_print_shows (s : list Z) (g : gpu) (sc : screen) (Hs : shows g sc) :
  exists g', gpu_print font s g = Some g' /\ shows g' (screen_print sc s).
Proof.
  revert g sc Hs. induction s as [| c s IH]; intros g sc Hs; cbn [gpu_print screen_print foldl]; [eauto |].
  destruct (putc_shows g sc c Hs) as (g1 & -> & H1). cbn [mbind option_bind]. by apply IH.
Qed.
End text.

(** ** Pixels are read back *)

Definition true_color (s : surface) : Prop := s_bpp s = 24 \/ s_bpp s = 32.
Definition on_surface (s : surface) (x y : Z) : Prop := 0 <= x < s_w s /\ 0 <= y < s_h s.

Lemma bytes_of_rgb rgb : 0 <= rgb < 16777216 ->
  Z.land rgb 0xFF = rgb mod 256 /\ Z.land (Z.shiftr rgb 8) 0xFF = rgb / 256 mod 256 /\
  Z.land (Z.shiftr rgb 16) 0xFF = rgb / 65536.
Proof.
  intros H. change 0xFF with (Z.ones 8). rewrite !Z.land_ones, !Z.shiftr_div_pow2 by lia.
  change (2 ^ 8) with 256. change (2 ^ 16) with 65536. split_and!; lia.
Qed.

Lemma rgb_of_bytes a b c : is_byte a -> is_byte b -> is_byte c ->
  Z.lor (Z.lor (Z.shiftl c 16) (Z.shiftl b 8)) a = 65536 * c + 256 * b + a.
Proof.
  unfold is_byte. intros Ha Hb Hc. rewrite !Z.shiftl_mul_pow2 by lia. change (2 ^ 16) with 65536. change (2 ^ 8) with 256.
  rewrite (lor_add_disjoint (c * 65536) (b * 256) 16) by lia.
  rewrite (lor_add_disjoint (c * 65536 + b * 256) a 8) by lia. lia.
Qed.

Lemma get_pixel_in s x y : surface_ok s -> true_color s -> on_surface s x y ->
  fb_get_pixel x y s = (let p := pixel_at s x y in
    Some (Z.lor (Z.lor (Z.shiftl ((s_bytes s).[p + 2]) 16) (Z.shiftl ((s_bytes s).[p + 1]) 8)) ((s_bytes s).[p]))).
Proof.
  intros Hs Ht [Hx Hy]. unfold fb_get_pixel. destruct (Z.leb_spec (s_w s) x), (Z.leb_spec (s_h s) y); try lia. cbn [orb].
  destruct (pixel_inside s x y Hs Hx Hy) as (_ & P0 & _ & P1).
  assert (3 <= s_bpp s / 8) by (destruct Ht as [-> | ->]; done).
  assert ((s_bpp s =? 32) || (s_bpp s =? 24) = true) as -> by (by destruct Ht as [-> | ->]).
  cbv zeta. set (p := pixel_at s x y) in *. rewrite !zlook_get by lia. done.
Qed.

Lemma get_pixel_range s x y : surface_ok s -> true_color s -> bytes (s_bytes s) -> on_surface s x y ->
  exists v, fb_get_pixel x y s = Some v /\ 0 <= v < 16777216.
Proof.
  intros Hs Ht Hb Hxy. rewrite get_pixel_in by done. cbv zeta. eexists. split; [done |].
  pose proof (zget_byte (s_bytes s) (pixel_at s x y) Hb) as B0.
  pose proof (zget_byte (s_bytes s) (pixel_at s x y + 1) Hb) as B1.
  pose proof (zget_byte (s_bytes s) (pixel_at s x y + 2) Hb) as B2.
  rewrite rgb_of_bytes by done. unfold is_byte in *. lia.
Qed.

Lemma pixel_disjoint s x y i j : surface_ok s -> on_surface s x y -> on_surface s i j -> (i, j) <> (x, y) ->
  pixel_at s i j + s_bpp s / 8 <= pixel_at s x y \/ pixel_at s x y + s_bpp s / 8 <= pixel_at s i j.
Proof.
  intros Hs [Hx Hy] [Hi Hj] Hne.
  destruct (pixel_inside s x y Hs Hx Hy) as (E1 & _ & _ & _). destruct (pixel_inside s i j Hs Hi Hj) as (E2 & _ & _ & _).
  rewrite E1, E2. destruct Hs as [Hw Hh Hp Hb Hr _].
  assert (0 <= s_bpp s / 8 <= 4) by (destruct Hb as [-> | [-> | ->]]; done).
  set (k := s_bpp s / 8) in *. clearbody k.
  assert ((x + 1) * k <= s_pitch s) by nia. assert ((i + 1) * k <= s_pitch s) by nia.
  destruct (Z.lt_trichotomy j y) as [Hjy | [-> | Hjy]].
  - left. assert ((j + 1) * s_pitch s <= y * s_pitch s) by nia. nia.
  - assert (i < x \/ x < i) as [? | ?] by (destruct (Z.lt_trichotomy i x) as [? | [-> | ?]]; [by left | done | by right]).
    + left. nia.
    + right. nia.
  - right. assert ((y + 1) * s_pitch s <= j * s_pitch s) by nia. nia.
Qed.

(** The bytes of a pixel, lowest first, in the buffer after it has been set. *)
Definition rgb_byte (rgb d : Z) : Z := if d =? 0 then rgb mod 256 else if d =? 1 then rgb / 256 mod 256 else rgb / 65536.

Lemma put_pixel_bytes x y rgb s : surface_ok s -> true_color s -> on_surface s x y -> 0 <= rgb < 16777216 ->
  exists l, fb_put_pixel x y rgb s = Some (with_bytes l s) /\ zlen l = zlen (s_bytes s) /\
    let p := pixel_at s x y in
    forall z, l.[z] = if (p <=? z) && (z <? p + 3) then rgb_byte rgb (z - p)
                      else if (s_bpp s =? 32) && (z =? p + 3) then 0 else (s_bytes s).[z].
Proof.
  intros Hs Ht [Hx Hy] Hrgb. destruct (pixel_inside s x y Hs Hx Hy) as (_ & P0 & _ & P1).
  unfold fb_put_pixel. destruct (Z.leb_spec (s_w s) x), (Z.leb_spec (s_h s) y); try lia. cbn [orb].
  destruct (bytes_of_rgb rgb Hrgb) as (-> & -> & ->). set (p := pixel_at s x y) in *. clearbody p.
  destruct Ht as [Eb | Eb]; rewrite Eb in *; cbn [Z.eqb Pos.eqb andb];
    change (24 / 8) with 3 in *; change (32 / 8) with 4 in *;
    repeat (rewrite put_in by (rewrite ?zset_zlen; lia); cbn [mbind option_bind]);
    eexists; (split; [done |]); (split; [by rewrite !zset_zlen |]); cbv zeta; intros z; unfold rgb_byte;
    rewrite !zget_zset by (rewrite ?zset_zlen; lia);
    rewrite ?(Z.eqb_sym p z), ?(Z.eqb_sym (p + 1) z), ?(Z.eqb_sym (p + 2) z), ?(Z.eqb_sym (p + 3) z);
    destruct (Z.leb_spec p z), (Z.ltb_spec z (p + 3)); try lia; cbn [andb];
    repeat match goal with |- context [?a =? ?b] => destruct (Z.eqb_spec a b); try lia end; done.
Qed.

Lemma put_pixel_get x y rgb s : surface_ok s -> true_color s -> on_surface s x y -> 0 <= rgb < 16777216 ->
  exists s', fb_put_pixel x y rgb s = Some s' /\ same_geo s s' /\
    forall i j, on_surface s i j -> fb_get_pixel i j s' = if (i =? x) && (j =? y) then Some rgb else fb_get_pixel i j s.
Proof.
  intros Hs Ht Hxy Hrgb. destruct (put_pixel_bytes x y rgb s Hs Ht Hxy Hrgb) as (l & E & Hl & Hz). cbv zeta in Hz.
  exists (with_bytes l s). split; [done |]. pose proof (with_bytes_geo l s Hl) as Hg. split; [done |]. intros i j Hij.
  pose proof (same_geo_ok s _ Hg Hs) as Hs'. rewrite !get_pixel_in by done. cbv zeta.
  change (pixel_at (with_bytes l s) i j) with (pixel_at s i j). cbn [s_bytes with_bytes].
  pose proof (pixel_disjoint s x y i j Hs Hxy Hij) as Hd.
  assert (3 <= s_bpp s / 8) as Hk by (destruct Ht as [-> | ->]; done).
  destruct (Z.eqb_spec i x) as [Ei |], (Z.eqb_spec j y) as [Ej |]; cbn [andb].
  1: { rewrite Ei, Ej. set (p := pixel_at s x y) in *. rewrite !Hz.
       destruct (Z.leb_spec p (p + 2)), (Z.ltb_spec (p + 2) (p + 3)), (Z.leb_spec p (p + 1)), (Z.ltb_spec (p + 1) (p + 3)),
         (Z.leb_spec p p), (Z.ltb_spec p (p + 3)); try lia. cbn [andb].
       replace (p + 2 - p) with 2 by lia. replace (p + 1 - p) with 1 by lia. replace (p - p) with 0 by lia.
       unfold rgb_byte. cbn [Z.eqb Pos.eqb]. rewrite rgb_of_bytes by (unfold is_byte; lia). f_equal. lia. }
  all: assert (pixel_at s i j + s_bpp s / 8 <= pixel_at s x y \/ pixel_at s x y + s_bpp s / 8 <= pixel_at s i j) as Hd'
         by (apply Hd; congruence).
  all: set (p := pixel_at s x y) in *; set (q := pixel_at s i j) in *; clearbody p q.
  all: assert (forall d, 0 <= d < 3 -> l.[q + d] = (s_bytes s).[q + d]) as Hq
         by (intros d Hdd; rewrite Hz; destruct (Z.leb_spec p (q + d)), (Z.ltb_spec (q + d) (p + 3)); try lia; cbn [andb];
             try done; destruct (Z.eqb_spec (s_bpp s) 32) as [Eb |]; try done; rewrite Eb in *;
             change (32 / 8) with 4 in *; destruct (Z.eqb_spec (q + d) (p + 3)); try done; lia).
  all: pose proof (Hq 0 ltac:(lia)) as V0; rewrite Z.add_0_r in V0; by rewrite V0, !Hq by lia.
Qed.

(** ** Regions are saved and restored *)

Definition in_rect (x y w h i j : Z) : bool := (x <=? i) && (i <? x + w) && (y <=? j) && (j <? y + h).

(** Equal tests, by arithmetic. *)
Ltac same_test :=
  match goal with
  | |- (if ?a then _ else _) = (if ?b then _ else _) => replace a with b by lia; reflexivity
  | |- _ = (if ?b then _ else _) => replace b with false by lia; reflexivity
  | |- _ = (if ?b then _ else _) => replace b with true by lia; reflexivity
  end.

Lemma target_stored g s l : fb_target g = Some s -> fb_target (store_target l g) = Some (with_bytes l s).
Proof.
  intros Ht. unfold fb_target, store_target in *. destruct (istrue (g_render_target g)) eqn:Er.
  - destruct (bufs g !! g_render_target g) eqn:El; [| done]. injection Ht as <-.
    cbn [set_bufs set_pixels g_render_target bufs]. rewrite Er, lookup_insert_eq. done.
  - destruct (g_fb_back g) eqn:Eb; [destruct (istrue (g_target_back g)) eqn:Etb |]; injection Ht as <-;
      cbn [set_back set_front set_pixels g_render_target g_fb_back g_target_back g_fb]; rewrite Er, ?Eb, ?Etb; done.
Qed.

(** A loop over rows of loops over columns, with an invariant on the cell it has come to. *)
Lemma grid_inv {S} (P : Z -> Z -> S -> Prop) (body : Z -> Z -> S -> option S) h w s :
  0 <= h -> 0 <= w -> P 0 0 s ->
  (forall yy xx t, 0 <= yy < h -> 0 <= xx < w -> P yy xx t -> exists t', body yy xx t = Some t' /\ P yy (xx + 1) t') ->
  (forall yy t, 0 <= yy < h -> P yy w t -> P (yy + 1) 0 t) ->
  exists s', loopM (Z.to_nat h) 0 (fun yy t => loopM (Z.to_nat w) 0 (fun xx t => body yy xx t) t) s = Some s' /\ P h 0 s'.
Proof.
  intros Hh Hw H0 Hstep Hrow.
  destruct (loopM_inv (fun yy t => P yy 0 t) (fun yy t => loopM (Z.to_nat w) 0 (fun xx t => body yy xx t) t)
    (Z.to_nat h) 0 s H0) as (s' & E & HP).
  - intros yy t Hyy Ht. destruct (loopM_inv (fun xx t => P yy xx t) (fun xx t => body yy xx t) (Z.to_nat w) 0 t Ht)
      as (t' & E & HP); [intros; apply Hstep; done || lia |].
    exists t'. split; [done |]. apply Hrow; [lia |]. by replace (0 + Z.of_nat (Z.to_nat w)) with w in HP by lia.
  - exists s'. split; [done |]. by replace (0 + Z.of_nat (Z.to_nat h)) with h in HP by lia.
Qed.

Lemma cell_inj w a b c d : 0 <= b < w -> 0 <= d < w -> a * w + b = c * w + d -> a = c /\ b = d.
Proof. intros Hb Hd E. assert (a = c) by nia. subst. lia. Qed.

(** What the region of a surface looks like in the array it is saved to. *)
Definition holds_region (s : surface) (x y w h : Z) (dst : list Z) : Prop :=
  forall yy xx, 0 <= yy < h -> 0 <= xx < w -> on_surface s (x + xx) (y + yy) ->
    zlook dst (yy * w + xx) = fb_get_pixel (x + xx) (y + yy) s.

(** The screen is the surface drawing goes to. *)
Record screen_target (g : gpu) (s : surface) : Prop := {
  st_on : istrue (g_fb_enabled g) = true;
  st_target : fb_target g = Some s;
  st_size : s_w s = g_fb_width g /\ s_h s = g_fb_height g;
  st_ok : surface_ok s;
  st_true : true_color s }.

Lemma save_region_holds g s x y w h dst : screen_target g s -> 0 <= x -> 0 <= y -> 0 <= w -> 0 <= h ->
  x + w <= 65536 -> y + h <= 65536 -> w * h <= zlen dst ->
  exists saved, gpu_save_region x y w h dst g = Some saved /\ holds_region s x y w h saved /\ zlen saved = zlen dst.
Proof.
  intros [Hon Ht [Ew Eh] Hs Htc] Hx Hy Hw Hh Hxw Hyh Hlen. unfold gpu_save_region. rewrite Hon, Ht. cbn [mbind option_bind].
  set (n := region_rows y h (g_fb_height g)). assert (0 <= n <= h /\ (n < h -> s_h s <= y + n)) as Hn by (unfold n, region_rows; lia).
  destruct (grid_inv (fun yy xx d => zlen d = zlen dst /\ forall a b, 0 <= a -> 0 <= b < w -> (a < yy \/ (a = yy /\ b < xx)) ->
      on_surface s (x + b) (y + a) -> zlook d (a * w + b) = fb_get_pixel (x + b) (y + a) s)
    (fun yy xx d => v ← (if u16 (x + xx) <? g_fb_width g then fb_get_pixel (u16 (x + xx)) (u16 (y + yy)) s else Some 0);
       put d (yy * w + xx) v) n w dst) as (saved & E & Hl & Hd); [lia | lia | split; [done | intros; lia] | | |].
  - intros yy xx d Hyy Hxx [Hl Hd]. rewrite !u16_id by lia.
    assert (exists v, (if x + xx <? g_fb_width g then fb_get_pixel (x + xx) (y + yy) s else Some 0) = Some v /\
      (on_surface s (x + xx) (y + yy) -> fb_get_pixel (x + xx) (y + yy) s = Some v)) as (v & -> & Hv).
    { destruct (Z.ltb_spec (x + xx) (g_fb_width g)).
      - destruct (decide (y + yy < s_h s)).
        + rewrite get_pixel_in by (done || (split; lia)). cbv zeta. eauto.
        + unfold fb_get_pixel. destruct (Z.leb_spec (s_h s) (y + yy)); [| lia]. rewrite orb_true_r. eauto.
      - exists 0. split; [done |]. intros [? _]. lia. }
    cbn [mbind option_bind]. assert (0 <= yy * w + xx < zlen d) as Hr by nia. rewrite put_in by done.
    eexists. split; [done |]. split; [by rewrite zset_zlen |]. intros a b Ha Hb Hab Hon'. rewrite zlook_zset by done.
    destruct (Z.eqb_spec (yy * w + xx) (a * w + b)) as [Eab |]; [| apply Hd; try done].
    + apply cell_inj in Eab as [-> ->]; [| lia | lia]. symmetry. by apply Hv.
    + destruct Hab as [? | [-> ?]]; [by left | right; split; [done |]].
      assert (b <> xx) by (intros ->; done). lia.
  - intros yy d Hyy [Hl Hd]. split; [done |]. intros a b Ha Hb Hab. apply Hd; [done | done |].
    destruct (decide (a < yy)); [by left | right; lia].
  - exists saved. split; [exact E |]. split; [| done]. intros yy xx Hyy Hxx Hxy. apply Hd; [lia | lia | | done].
    left. destruct Hxy as [_ ?]. lia.
Qed.

(** The pixels that have been copied when the loops have come to row [yy], column [xx]. *)
Definition copied (x y w h yy xx i j : Z) : bool :=
  in_rect x y w h i j && ((j - y <? yy) || ((j - y =? yy) && (i - x <? xx))).

Definition partly_copied (src : list Z) (s : surface) (x y w h yy xx : Z) (t : surface) : Prop :=
  same_geo s t /\ forall i j, on_surface s i j -> fb_get_pixel i j t =
    if copied x y w h yy xx i j then zlook src ((j - y) * w + (i - x)) else fb_get_pixel i j s.

Lemma copy_cell src s x y w h yy xx t (W : Z) : surface_ok s -> true_color s -> s_w s = W ->
  0 <= yy < h -> 0 <= xx < w -> 0 <= x -> 0 <= y -> y + yy < s_h s ->
  (x + xx < s_w s -> exists v, zlook src (yy * w + xx) = Some v /\ 0 <= v < 16777216) ->
  partly_copied src s x y w h yy xx t ->
  exists t', (if x + xx <? W then v ← zlook src (yy * w + xx); fb_put_pixel (x + xx) (y + yy) v t else Some t) = Some t' /\
    partly_copied src s x y w h yy (xx + 1) t'.
Proof.
  intros Hs Htc <- Hyy Hxx Hx Hy Hin Hsrc [Hg Hp]. pose proof (same_geo_ok s t Hg Hs) as Hst. unfold copied, in_rect in *.
  assert (true_color t /\ s_w t = s_w s /\ s_h t = s_h s) as (Htt & Wt & Ht') by (destruct Hg as [-> _]; done).
  destruct (Z.ltb_spec (x + xx) (s_w s)) as [Hlt | Hge].
  - destruct (Hsrc Hlt) as (v & Ev & Hv). rewrite Ev. cbn [mbind option_bind].
    destruct (put_pixel_get (x + xx) (y + yy) v t Hst Htt) as (t' & Et & Hg' & Hp'); [split; lia | done |].
    exists t'. split; [done |]. split; [by etrans |]. unfold copied, in_rect. intros i j [Hi Hj].
    rewrite Hp', Hp by (split; lia).
    destruct (Z.eqb_spec i (x + xx)) as [-> |], (Z.eqb_spec j (y + yy)) as [-> |]; cbn [andb]; try same_test.
    replace ((y + yy - y) * w + (x + xx - x)) with (yy * w + xx) by lia. rewrite Ev. same_test.
  - exists t. split; [done |]. split; [done |]. unfold copied, in_rect. intros i j [Hi Hj]. rewrite Hp by done. same_test.
Qed.

Lemma copy_region_shows src g s x y w h : screen_target g s -> 0 <= x -> 0 <= y -> 0 <= w -> 0 <= h ->
  x + w <= 65536 -> y + h <= 65536 ->
  (forall yy xx, 0 <= yy < h -> 0 <= xx < w -> x + xx < s_w s -> y + yy < s_h s ->
     exists v, zlook src (yy * w + xx) = Some v /\ 0 <= v < 16777216) ->
  exists g' s', copy_region src x y w h g = Some g' /\ fb_target g' = Some s' /\ same_geo s s' /\
    forall i j, on_surface s i j -> fb_get_pixel i j s' =
      if in_rect x y w h i j then zlook src ((j - y) * w + (i - x)) else fb_get_pixel i j s.
Proof.
  intros [Hon Ht [Ew Eh] Hs Htc] Hx Hy Hw Hh Hxw Hyh Hsrc. unfold copy_region, draw. rewrite Ht. cbn [mbind option_bind].
  set (n := region_rows y h (g_fb_height g)). assert (0 <= n <= h /\ (n < h -> s_h s <= y + n) /\ (0 < n -> y + n <= s_h s))
    as Hn by (unfold n, region_rows; lia).
  destruct (grid_inv (partly_copied src s x y w h)
    (fun yy xx t => if u16 (x + xx) <? g_fb_width g then v ← zlook src (yy * w + xx); fb_put_pixel (u16 (x + xx)) (u16 (y + yy)) v t
       else Some t) n w s) as (s' & E & Hg & Hp); [lia | lia | | | |].
  - split; [done |]. unfold copied, in_rect. intros i j [Hi Hj]. same_test.
  - intros yy xx t Hyy Hxx Hpc. rewrite !u16_id by lia. apply copy_cell; try done; try lia. intros. apply Hsrc; lia.
  - intros yy t Hyy [Hg Hp]. split; [done |]. intros i j Hij. rewrite Hp by done. unfold copied, in_rect. same_test.
  - rewrite E. cbn [mbind option_bind]. exists (store_target (s_bytes s') g), s'. split; [done |].
    split; [| split; [done |]].
    + rewrite (target_stored g s) by done. destruct Hg as [Eg _]. by rewrite Eg.
    + intros i j Hij. rewrite Hp by done. destruct Hij as [Hi Hj]. unfold copied, in_rect. same_test.
Qed.

(** Also: a region of the screen that is saved comes back: whatever has been drawn since,
    restoring it makes every pixel of the region what it was and changes no other pixel,
    also where the region goes beyond the edges of the screen. *)
Theorem region_roundtrip (g g2 : gpu) (s s2 : surface) (x y w h : Z) (dst : list Z)
    (Hg : screen_target g s) (Hg2 : screen_target g2 s2) (Hb : bytes (s_bytes s)) (Hgeo : same_geo s s2)
    (Hx : 0 <= x) (Hy : 0 <= y) (Hw : 0 <= w) (Hh : 0 <= h) (Hxw : x + w <= 65536) (Hyh : y + h <= 65536)
    (Hlen : w * h <= zlen dst) :
  exists saved g3 s3, gpu_save_region x y w h dst g = Some saved /\
    gpu_restore_region saved x y w h g2 = Some g3 /\ fb_target g3 = Some s3 /\
    forall i j, on_surface s i j ->
      fb_get_pixel i j s3 = if in_rect x y w h i j then fb_get_pixel i j s else fb_get_pixel i j s2.
Proof.
  destruct (save_region_holds g s x y w h dst Hg Hx Hy Hw Hh Hxw Hyh Hlen) as (saved & E & Hh1 & Hl).
  assert (s_w s2 = s_w s /\ s_h s2 = s_h s) as [Ew Eh] by (destruct Hgeo as [-> _]; done).
  destruct (copy_region_shows saved g2 s2 x y w h Hg2 Hx Hy Hw Hh Hxw Hyh) as (g3 & s3 & E3 & Ht3 & _ & Hp).
  - intros yy xx Hyy Hxx Hxin Hyin. assert (on_surface s (x + xx) (y + yy)) as Hon by (split; lia).
    rewrite (Hh1 yy xx Hyy Hxx Hon). apply get_pixel_range; [apply Hg | apply Hg | done | done].
  - exists saved, g3, s3. split; [done |]. split; [| split; [done |]].
    + unfold gpu_restore_region, if_fb. by rewrite (st_on g2 s2 Hg2).
    + intros i j [Hi Hj]. rewrite Hp by (split; lia). destruct (in_rect x y w h i j) eqn:Er; [| done].
      unfold in_rect in Er. replace i with (x + (i - x)) at 2 by lia. replace j with (y + (j - y)) at 2 by lia.
      apply Hh1; [lia | lia |]. split; lia.
Qed.

(** ** The console in the framebuffer *)

Lemma store_frame l g : let g' := store_target l g in
  g_row g' = g_row g /\ g_col g' = g_col g /\ g_color g' = g_color g /\ g_fb_enabled g' = g_fb_enabled g /\
  g_vp_x g' = g_vp_x g /\ g_vp_y g' = g_vp_y g /\ g_vp_cols g' = g_vp_cols g /\ g_vp_rows g' = g_vp_rows g.
Proof.
  cbv zeta. unfold store_target. destruct (istrue (g_render_target g)); [done |].
  destruct (g_fb_back g); [by destruct (istrue (g_target_back g)) | done].
Qed.

Record fb_console (g : gpu) (s : surface) : Prop := {
  fc_on : istrue (g_fb_enabled g) = true;
  fc_target : fb_target g = Some s;
  fc_ok : surface_ok s;
  fc_org : 0 <= g_vp_x g /\ 0 <= g_vp_y g;
  fc_w : 1 <= g_vp_cols g /\ g_vp_x g + g_vp_cols g * FONT_W <= s_w s;
  fc_h : 1 <= g_vp_rows g /\ g_vp_y g + g_vp_rows g * FONT_H <= s_h s }.
Definition cursor_in (g : gpu) : Prop := 0 <= g_row g < g_vp_rows g /\ 0 <= g_col g < g_vp_cols g.

(** Drawing on the target of a console leaves a console. *)
Lemma draw_console f g s : fb_console g s -> drawn s (f s) ->
  exists l s', draw f g = Some (store_target l g) /\ fb_console (store_target l g) s' /\ same_geo s s'.
Proof.
  intros [H1 H2 H3 H4 H5 H6] (s' & E & Hg). unfold draw. rewrite H2. cbn [mbind option_bind]. rewrite E. cbn [mbind option_bind].
  exists (s_bytes s'), s'. split; [done |]. split; [| done].
  destruct (store_frame (s_bytes s') g) as (F1 & F2 & F3 & F4 & F5 & F6 & F7 & F8).
  split; rewrite ?F1, ?F2, ?F3, ?F4, ?F5, ?F6, ?F7, ?F8; try done.
  - rewrite (target_stored g s) by done. destruct Hg as [Eg _]. by rewrite Eg.
  - by eapply same_geo_ok.
  - destruct Hg as [-> _]. done.
  - destruct Hg as [-> _]. done.
Qed.

Lemma cursor_console g s r c : fb_console g s -> fb_console (set_cursor_pos r c g) s.
Proof. intros [H1 H2 H3 H4 H5 H6]. by split. Qed.

Lemma update_cursor_fb g : istrue (g_fb_enabled g) = true -> fb_update_cursor g = g.
Proof. intros H. unfold fb_update_cursor. by rewrite H. Qed.

Lemma scroll_console g s : fb_console g s -> 
  exists g' s', fb_scroll g = Some g' /\ fb_console g' s' /\ same_geo s s' /\ g_row g' = g_vp_rows g - 1 /\ g_col g' = g_col g /\
    g_vp_cols g' = g_vp_cols g /\ g_vp_rows g' = g_vp_rows g.
Proof.
  intros Hc. pose proof Hc as [H1 H2 H3 [H4 H4'] [H5 H5'] [H6 H6']]. unfold FONT_W, FONT_H in *.
  pose proof (sf_w s H3) as Hw. pose proof (sf_h s H3) as Hh. unfold fb_scroll, FONT_W, FONT_H. rewrite !(u16_id (g_vp_cols g * 8)), !(u16_id (g_vp_rows g * 16)) by lia.
  destruct (draw_console (fun s => l ← loopM (Z.to_nat (g_vp_rows g * 16 - 16)) 0 (fun row l =>
       fb_blit_row ((g_vp_y g + row) * s_pitch s + g_vp_x g * (s_bpp s / 8))
         ((g_vp_y g + row + 16) * s_pitch s + g_vp_x g * (s_bpp s / 8)) (g_vp_cols g * 8 * (s_bpp s / 8)) l) (s_bytes s);
       Some (with_bytes l s)) g s Hc) as (l1 & s1 & -> & Hc1 & Hg1).
  { destruct (loopM_inv (fun _ l => zlen l = zlen (s_bytes s)) (fun row l =>
       fb_blit_row ((g_vp_y g + row) * s_pitch s + g_vp_x g * (s_bpp s / 8))
         ((g_vp_y g + row + 16) * s_pitch s + g_vp_x g * (s_bpp s / 8)) (g_vp_cols g * 8 * (s_bpp s / 8)) l)
      (Z.to_nat (g_vp_rows g * 16 - 16)) 0 (s_bytes s)) as (l & -> & Hl); [done | |].
    2: { eexists. split; [done |]. by apply with_bytes_geo. }
    intros row l Hrow Hl. pose proof (sf_row s H3). pose proof (sf_len s H3). pose proof (sf_pitch s H3).
    assert (0 <= s_bpp s / 8) by (destruct (sf_bpp s H3) as [-> | [-> | ->]]; done).
    set (k := s_bpp s / 8) in *. clearbody k.
    assert (g_vp_x g * k + g_vp_cols g * 8 * k <= s_pitch s) by nia.
    assert (0 <= g_vp_x g * k /\ 0 <= g_vp_cols g * 8 * k) by nia.
    assert ((g_vp_y g + row + 17) * s_pitch s <= zlen (s_bytes s)) by nia.
    destruct (blit_row_in ((g_vp_y g + row) * s_pitch s + g_vp_x g * k)
      ((g_vp_y g + row + 16) * s_pitch s + g_vp_x g * k) (g_vp_cols g * 8 * k) l) as (l' & -> & Hl'); [nia.. |].
    exists l'. split; [done | congruence]. }
  cbn [mbind option_bind]. destruct (store_frame l1 g) as (F1 & F2 & F3 & F4 & F5 & F6 & F7 & F8).
  rewrite F5, F6, F3. 
  destruct (draw_console (fb_fill_rect (g_vp_x g) (u16 (g_vp_y g + g_vp_rows g * 16 - 16)) (g_vp_cols g * 8) 16
    (rgb_for_color (Z.shiftr (g_color g) 4))) (store_target l1 g) s1 Hc1) as (l2 & s2 & -> & Hc2 & Hg2).
  { apply fill_rect_drawn. apply Hc1. }
  cbn [mbind option_bind]. destruct (store_frame l2 (store_target l1 g)) as (G1 & G2 & G3 & G4 & G5 & G6 & G7 & G8).
  rewrite G8, F8, G2, F2. eexists _, s2. split; [done |]. split; [by apply cursor_console |]. split; [by etrans |].
  cbn [set_cursor_pos set_text g_row g_col g_vp_rows g_vp_cols]. rewrite G8, F8, G7, F7. split; [| done].
  unfold u64. rewrite Z.mod_small by lia. done.
Qed.

Section fb_text.
Context (font : Z -> Z).

Lemma finish_console g s : fb_console g s -> 0 <= g_row g <= g_vp_rows g -> 0 <= g_col g < g_vp_cols g ->
  exists g' s', (g ← (if con_rows g <=? g_row g then console_scroll g else Some g); Some (fb_update_cursor g)) = Some g' /\
    fb_console g' s' /\ same_geo s s' /\ cursor_in g' /\ g_vp_cols g' = g_vp_cols g /\ g_vp_rows g' = g_vp_rows g.
Proof.
  intros Hc Hr Hcol. unfold con_rows, console_scroll. rewrite (fc_on g s Hc).
  destruct (Z.leb_spec (g_vp_rows g) (g_row g)).
  - destruct (scroll_console g s Hc) as (g' & s' & -> & Hc' & Hg & R1 & R2 & R3 & R4). cbn [mbind option_bind].
    exists g', s'. rewrite update_cursor_fb by apply Hc'. split; [done |]. split; [done |]. split; [done |].
    pose proof (fc_h g s Hc). unfold cursor_in. rewrite R1, R2, R3, R4. split; [lia | done].
  - cbn [mbind option_bind]. exists g, s. rewrite update_cursor_fb by apply Hc. split; [done |]. split; [done |].
    split; [done |]. split; [split; lia | done].
Qed.

Lemma putc_console c g s : fb_console g s -> cursor_in g ->
  exists g' s', gpu_putc font c g = Some g' /\ fb_console g' s' /\ same_geo s s' /\ cursor_in g' /\
    g_vp_cols g' = g_vp_cols g /\ g_vp_rows g' = g_vp_rows g.
Proof.
  intros Hc [Hr Hcol]. pose proof (fc_on g s Hc) as Hon. unfold gpu_putc.
  assert (con_cols g = g_vp_cols g) as Ec by (unfold con_cols; by rewrite Hon).
  assert (forall row col, con_rows (set_cursor_pos row col g) = con_rows g) as Er by done.
  destruct (c =? 12).
  { unfold gpu_clear. cbn [set_cursor_pos set_text gpu_set_color set_color g_fb_enabled]. rewrite Hon.
    set (g1 := set_cursor_pos 0 0 (gpu_set_color 0x0F 0x00 g)).
    assert (fb_console g1 s) as Hc1 by (destruct Hc; by split).
    destruct (draw_console (fb_fill_rect 0 0 (g_fb_width g) (g_fb_height g) (rgb_for_color 0)) g1 s Hc1)
      as (l & s' & E & Hc' & Hg); [apply fill_rect_drawn, Hc |].
    exists (store_target l g1), s'. split; [exact E |]. split; [done |]. split; [done |].
    destruct (store_frame l g1) as (F1 & F2 & _ & _ & _ & _ & F7 & F8). unfold cursor_in. rewrite F1, F2, F7, F8. cbn. split; [lia | done]. }
  destruct (c =? 10).
  { cbn [mbind option_bind]. rewrite <- (Er (g_row g + 1) 0). apply (finish_console (set_cursor_pos (g_row g + 1) 0 g)); [by apply cursor_console | cbn; lia | cbn; lia]. }
  destruct (c =? 13).
  { cbn [mbind option_bind]. rewrite <- (Er (g_row g) 0). apply (finish_console (set_cursor_pos (g_row g) 0 g)); [by apply cursor_console | cbn; lia | cbn; lia]. }
  destruct (c =? 8).
  { cbn [mbind option_bind]. destruct (Z.ltb_spec 0 (g_col g)).
    - rewrite <- (Er (g_row g) (g_col g - 1)). apply (finish_console (set_cursor_pos (g_row g) (g_col g - 1) g)); [by apply cursor_console | cbn; lia | cbn; lia].
    - apply finish_console; done || lia. }
  unfold put_cell, fb_draw_char. rewrite Hon.
  destruct (draw_console (fb_draw_char_px font (u16 (g_vp_x g + g_col g * FONT_W)) (u16 (g_vp_y g + g_row g * FONT_H)) c
    (rgb_for_color (Z.land (g_color g) 0x0F)) (rgb_for_color (Z.shiftr (g_color g) 4))) g s Hc)
    as (l & s1 & -> & Hc1 & Hg1); [apply draw_char_drawn, Hc |].
  cbn [mbind option_bind]. set (g1 := store_target l g) in *.
  destruct (store_frame l g) as (F1 & F2 & _ & F4 & _ & _ & F7 & F8). fold g1 in F1, F2, F4, F7, F8.
  assert (con_rows g = con_rows g1) as -> by (unfold con_rows; by rewrite F4, F8).
  rewrite Ec, F2, F1. destruct (Z.leb_spec (g_vp_cols g) (g_col g + 1)).
  - destruct (finish_console (set_cursor_pos (g_row g + 1) 0 g1) s1) as (g' & s' & E & Hc' & Hg' & Hcur & V1 & V2);
      [by apply cursor_console | cbn; lia | cbn; lia |].
    exists g', s'. split; [exact E |]. split; [done |]. split; [by etrans |]. split; [done |].
    cbn [set_cursor_pos set_text g_vp_cols g_vp_rows] in V1, V2. split; congruence.
  - destruct (finish_console (set_cursor_pos (g_row g) (g_col g + 1) g1) s1) as (g' & s' & E & Hc' & Hg' & Hcur & V1 & V2);
      [by apply cursor_console | cbn; lia | cbn; lia |].
    exists g', s'. split; [exact E |]. split; [done |]. split; [by etrans |]. split; [done |].
    cbn [set_cursor_pos set_text g_vp_cols g_vp_rows] in V1, V2. split; congruence.
Qed.

(** Also: in the framebuffer, and in the buffer of a window, every text is printed without an
    access outside the buffer drawing goes to, whatever its colour depth: the buffer
    keeps its size and the cursor stays inside the viewport, however often it scrolls. *)
Theorem fb_print_safe (t : list Z) (g : gpu) (s : surface) (Hc : fb_console g s) (Hcur : cursor_in g) :
  exists g' s', gpu_print font t g = Some g' /\ fb_console g' s' /\ same_geo s s' /\ cursor_in g'.
Proof.
  revert g s Hc Hcur. induction t as [| c t IH]; intros g s Hc Hcur; cbn [gpu_print].
  { by exists g, s. }
  destruct (putc_console c g s Hc Hcur) as (g1 & s1 & -> & Hc1 & Hg1 & Hcur1 & _). cbn [mbind option_bind].
  destruct (IH g1 s1 Hc1 Hcur1) as (g2 & s2 & E & Hc2 & Hg2 & Hcur2). exists g2, s2.
  split; [exact E |]. split; [done |]. split; [by etrans | done].
Qed.
End fb_text.

(** ** Texts one after the other *)

Lemma gpu_print_app font a : forall b g, gpu_print font (a ++ b) g = g ← gpu_print font a g; gpu_print font b g.
Proof.
  induction a as [| c a IH]; intros b g; cbn [app gpu_print mbind option_bind]; [done |].
  destruct (gpu_putc font c g) as [g1 |]; cbn [mbind option_bind]; [apply IH | done].
Qed.

(** ** What a client relies on *)

(** A property of the console that every operation of the interface keeps; none of them
    faults where it holds. *)
Class console (font : Z -> Z) (C : gpu -> Prop) := {
  con_putc : forall c g, C g -> exists g', gpu_putc font c g = Some g' /\ C g';
  con_cursor : forall r c g, C g -> 0 <= r -> 0 <= c -> C (gpu_set_cursor r c g);
  con_color : forall fg bg g, C g -> C (gpu_set_color fg bg g);
  con_erase_line : forall mode g, C g -> exists g', gpu_erase_line font mode g = Some g' /\ C g';
  con_erase_display : forall mode g, C g -> exists g', gpu_erase_display font mode g = Some g' /\ C g' }.

Section erase.
Context (font : Z -> Z) (C : gpu -> Prop) (R Co : Z).
(** Cells inside the console can be stored without moving the cursor. *)
Context (Hcell : forall r c ch g, C g -> 0 <= r < R -> 0 <= c < Co ->
  exists g', put_cell font r c ch g = Some g' /\ C g' /\ g_row g' = g_row g /\ g_col g' = g_col g).
Context (Hsize : forall g, C g -> con_rows g = R /\ con_cols g = Co /\ 0 <= g_row g < R /\ 0 <= g_col g < Co).

Lemma blank_cells_ok r c0 c1 g : C g -> 0 <= r < R -> 0 <= c0 -> c1 <= Co ->
  exists g', blank_cells font r c0 c1 g = Some g' /\ C g' /\ g_row g' = g_row g /\ g_col g' = g_col g.
Proof.
  intros Hg Hr H0 H1. unfold blank_cells.
  destruct (loopM_inv (fun _ g' => C g' /\ g_row g' = g_row g /\ g_col g' = g_col g)
    (fun c g => put_cell font r c 32 g) (Z.to_nat (c1 - c0)) c0 g) as (g' & E & Hg'); [done | | by exists g'].
  intros c t Hc (Ht & E1 & E2). destruct (Hcell r c 32 t Ht Hr) as (t' & E & Ht' & F1 & F2); [lia |].
  exists t'. split; [done |]. split; [done |]. split; congruence.
Qed.

Lemma erase_line_ok mode g : C g -> exists g', gpu_erase_line font mode g = Some g' /\ C g'.
Proof.
  intros Hg. destruct (Hsize g Hg) as (Er & Ec & Hr & Hc). unfold gpu_erase_line. rewrite Ec.
  destruct (blank_cells_ok (g_row g) (if mode =? 0 then g_col g else 0)
    (if mode =? 0 then Co else if mode =? 1 then g_col g + 1 else Co) g Hg Hr) as (g' & E & Hg' & _);
    [case_bool; lia | case_bool; lia | eauto].
Qed.

Lemma erase_display_ok mode g : C g -> exists g', gpu_erase_display font mode g = Some g' /\ C g'.
Proof.
  intros Hg. destruct (Hsize g Hg) as (Er & Ec & Hr & Hc). unfold gpu_erase_display. rewrite Er.
  destruct (loopM_inv (fun _ g' => C g' /\ g_row g' = g_row g /\ g_col g' = g_col g) (fun r g =>
    blank_cells font r (if (mode =? 0) && (r =? g_row g) then g_col g else 0)
      (if (mode =? 1) && (r =? g_row g) then g_col g + 1 else con_cols g) g)
    (Z.to_nat ((if mode =? 0 then R else if mode =? 1 then g_row g + 1 else R) - (if mode =? 0 then g_row g else 0)))
    (if mode =? 0 then g_row g else 0) g) as (g' & E & Hg' & _); [done | | eauto].
  intros r t Hrr (Ht & E1 & E2). destruct (Hsize t Ht) as (Er' & Ec' & Hr' & Hc').
  assert (0 <= r < R) as Hr2 by (destruct (mode =? 0), (mode =? 1); lia).
  rewrite Ec'. destruct (blank_cells_ok r (if (mode =? 0) && (r =? g_row t) then g_col t else 0)
    (if (mode =? 1) && (r =? g_row t) then g_col t + 1 else Co) t Ht Hr2) as (t' & E & Ht' & F1 & F2);
    [destruct (_ && _); lia | destruct (_ && _); lia |].
  exists t'. split; [done |]. split; [done |]. split; congruence.
Qed.
End erase.

Definition text_console (g : gpu) : Prop := exists sc, shows g sc.
Definition pixel_console (cols rows : Z) (g : gpu) : Prop :=
  (exists s, fb_console g s) /\ cursor_in g /\ g_vp_cols g = cols /\ g_vp_rows g = rows.

Lemma text_size g : text_console g -> con_rows g = VGA_ROWS /\ con_cols g = VGA_COLS /\ 0 <= g_row g < VGA_ROWS /\ 0 <= g_col g < VGA_COLS.
Proof.
  intros [sc Hs]. pose proof (text_mode g sc Hs) as Ht. destruct Hs as [_ _ _ [-> ?] [-> ?] _].
  unfold con_rows, con_cols. by rewrite Ht.
Qed.

Lemma text_cell font r c ch g : text_console g -> 0 <= r < VGA_ROWS -> 0 <= c < VGA_COLS ->
  exists g', put_cell font r c ch g = Some g' /\ text_console g' /\ g_row g' = g_row g /\ g_col g' = g_col g.
Proof.
  intros [sc Hs] Hr Hc. destruct (put_cell_shows font g sc r c ch Hs Hr Hc) as (m & E & Hs').
  eexists. split; [exact E |]. split; [by eexists | done].
Qed.

#[export] Instance text_is_console font : console font text_console.
Proof.
  split.
  - intros c g [sc Hs]. destruct (putc_shows font g sc c Hs) as (g' & E & Hs'). exists g'. split; [done | by eexists].
  - intros r c g [sc Hs] Hr Hc. pose proof (text_mode g sc Hs) as Ht.
    exists (Screen (sc_rows sc) (if VGA_ROWS <=? r then VGA_ROWS - 1 else r) (if VGA_COLS <=? c then VGA_COLS - 1 else c) (sc_color sc)).
    apply shows_cursor. destruct Hs as [E0 Hm Hrows Hrr Hcc Hcol]. unfold con_rows, con_cols. rewrite Ht.
    split; try done; cbn [set_cursor_pos set_text g_row g_col sc_r sc_c]; unfold VGA_ROWS, VGA_COLS.
    + destruct (Z.leb_spec 25 r); split; try done; lia.
    + destruct (Z.leb_spec 80 c); split; try done; lia.
  - intros fg bg g [sc [E0 Hm Hrows Hrr Hcc Hcol]].
    exists (Screen (sc_rows sc) (sc_r sc) (sc_c sc) (u8 (Z.lor fg (Z.shiftl bg 4)))). by split.
  - intros mode g Hg. by eapply erase_line_ok; [apply text_cell | apply text_size |].
  - intros mode g Hg. by eapply erase_display_ok; [apply text_cell | apply text_size |].
Qed.

Lemma pixel_size cols rows g : pixel_console cols rows g ->
  con_rows g = rows /\ con_cols g = cols /\ 0 <= g_row g < rows /\ 0 <= g_col g < cols.
Proof.
  intros ((s & Hc) & [H1 H2] & <- & <-). unfold con_rows, con_cols. by rewrite (fc_on g s Hc).
Qed.

Lemma pixel_cell font cols rows r c ch g : pixel_console cols rows g -> 0 <= r < rows -> 0 <= c < cols ->
  exists g', put_cell font r c ch g = Some g' /\ pixel_console cols rows g' /\ g_row g' = g_row g /\ g_col g' = g_col g.
Proof.
  intros ((s & Hc) & [H1 H2] & <- & <-) Hr Hcc. unfold put_cell, fb_draw_char. rewrite (fc_on g s Hc).
  destruct (draw_console (fb_draw_char_px font (u16 (g_vp_x g + c * FONT_W)) (u16 (g_vp_y g + r * FONT_H)) ch
    (rgb_for_color (Z.land (g_color g) 0x0F)) (rgb_for_color (Z.shiftr (g_color g) 4))) g s Hc)
    as (l & s1 & -> & Hc1 & _); [apply draw_char_drawn, Hc |].
  eexists. split; [done |]. destruct (store_frame l g) as (F1 & F2 & _ & _ & _ & _ & F7 & F8).
  unfold pixel_console, cursor_in. rewrite F1, F2, F7, F8. split; [| done]. split; [by exists s1 | done].
Qed.

#[export] Instance pixel_is_console font cols rows : console font (pixel_console cols rows).
Proof.
  split.
  - intros c g ((s & Hc) & Hcur & E1 & E2). destruct (putc_console font c g s Hc Hcur) as (g' & s' & E & Hc' & _ & Hcur' & Ev).
    exists g'. split; [done |]. split; [by exists s' |]. split; [done |]. rewrite <- E1, <- E2. exact Ev.
  - intros r c g ((s & Hc) & Hcur & E1 & E2) Hr Hcc. pose proof (fc_on g s Hc) as Hon.
    pose proof (fc_w g s Hc) as [Hw1 Hw2]. pose proof (fc_h g s Hc) as [Hh1 Hh2].
    pose proof (sf_w s (fc_ok g s Hc)). pose proof (sf_h s (fc_ok g s Hc)). pose proof (fc_org g s Hc) as [? ?].
    unfold FONT_W, FONT_H in *. unfold gpu_set_cursor, con_rows, con_cols. rewrite Hon, update_cursor_fb by done.
    split; [exists s; by apply cursor_console |]. split; [| done]. unfold cursor_in. cbn [set_cursor_pos set_text g_row g_col g_vp_rows g_vp_cols].
    split.
    + destruct (Z.leb_spec (g_vp_rows g) r); [rewrite u16_id by lia |]; lia.
    + destruct (Z.leb_spec (g_vp_cols g) c); [rewrite u16_id by lia |]; lia.
  - intros fg bg g ((s & Hc) & Hcur & E1 & E2). split; [exists s; destruct Hc; by split | done].
  - intros mode g Hg. by eapply erase_line_ok; [apply pixel_cell | apply pixel_size |].
  - intros mode g Hg. by eapply erase_display_ok; [apply pixel_cell | apply pixel_size |].
Qed.

(** ** Witnesses *)

(** A text console of blanks, and a screen of 16 by 32 pixels of 32 bits. *)
Definition gpu_ex (fb : Z) : gpu :=
  Gpu 24 79 0x0F (replicate 2000 (fb_cell 32 0x0F)) fb (replicate (Z.to_nat 2048) 7) None 16 32 64 32 0 ∅ 0 0 0 0 0
    0 0 2 2 2 2 [].
Definition screen_ex : screen := Screen (replicate 25 (blank_row 0x0F)) 24 79 0x0F.
Definition surface_ex : surface := Surface (replicate (Z.to_nat 2048) 7) 16 32 64 32.

Lemma gpu_ex_shows : shows (gpu_ex 0) screen_ex.
Proof.
  split; [reflexivity | vm_compute; reflexivity | | | | reflexivity].
  - split; [reflexivity | by apply Forall_replicate].
  - split; [reflexivity | unfold VGA_ROWS; cbn [screen_ex sc_r]; lia].
  - split; [reflexivity | unfold VGA_COLS; cbn [screen_ex sc_c]; lia].
Qed.

Lemma gpu_ex_text : text_console (gpu_ex 0).
Proof. exists screen_ex. exact gpu_ex_shows. Qed.

Lemma surface_ex_ok : surface_ok surface_ex.
Proof. split; cbn [surface_ex s_w s_h s_pitch s_bpp s_bytes]; try lia. rewrite zlen_replicate. lia. Qed.

Lemma gpu_print_shows_witness : exists g',
  gpu_print (fun _ => 0) [65; 66] (gpu_ex 0) = Some g' /\
  (vga g').[23 * 80 + 79] = fb_cell 65 0x0F /\ (vga g').[24 * 80] = fb_cell 66 0x0F /\ g_row g' = 24 /\ g_col g' = 1.
Proof.
  destruct (gpu_print_shows (fun _ => 0) [65; 66] (gpu_ex 0) screen_ex gpu_ex_shows) as (g' & E & [_ Hm _ [Hr _] [Hc _] _]).
  exists g'. split; [exact E |]. rewrite Hm, Hr, Hc. clear. do 3 (split; [vm_compute; reflexivity |]). vm_compute. reflexivity.
Defined.

Lemma region_roundtrip_witness : exists saved g3,
  gpu_save_region 3 4 5 2 (replicate 10 0) (gpu_ex 1) = Some saved /\ gpu_restore_region saved 3 4 5 2 (gpu_ex 1) = Some g3.
Proof.
  assert (screen_target (gpu_ex 1) surface_ex) as Hg by (split; [done | done | done | exact surface_ex_ok | by right]).
  assert (bytes (s_bytes surface_ex)) as Hb by (apply Forall_replicate; unfold is_byte; lia).
  destruct (region_roundtrip (gpu_ex 1) (gpu_ex 1) surface_ex surface_ex 3 4 5 2 (replicate 10 0) Hg Hg Hb)
    as (saved & g3 & s3 & E1 & E2 & _); try lia; [done | rewrite zlen_replicate; lia |].
  exists saved, g3. split; [exact E1 | exact E2].
Defined.

Lemma fb_print_safe_witness : exists g' s',
  gpu_print (fun _ => 0xAA) [65; 10; 66; 67; 68; 69] (set_cursor_pos 0 0 (gpu_ex 1)) = Some g' /\ fb_console g' s'.
Proof.
  assert (fb_console (set_cursor_pos 0 0 (gpu_ex 1)) surface_ex) as Hc
    by (split; try done; exact surface_ex_ok).
  destruct (fb_print_safe (fun _ => 0xAA) [65; 10; 66; 67; 68; 69] (set_cursor_pos 0 0 (gpu_ex 1)) surface_ex Hc
    ltac:(split; cbn; lia)) as (g' & s' & E & Hc' & _).
  exists g', s'. split; [exact E | exact Hc'].
Defined.
