(* ===== verification/Term.v ===== *)
(** * Terminal escape sequences (src/kernel/term.c)

    The state machine that reads VT100 sequences: cursor movement, erasing and colours.
    It drives the console of Gpu.v. The parameters of a sequence are C ints: a number too
    long for one is undefined in C and is kept as it is written here. *)

From S2P Require Import Prelude UserLib Rtl8139 Gpu.

Inductive tstate := TS_GROUND | TS_ESCAPE | TS_CSI | TS_OSC.
#[global] Instance tstate_eq_dec : EqDecision tstate.
Proof. solve_decision. Defined.

Record term_ctx := Ctx {
  t_state : tstate; params : list Z; nparams : Z; param_active : Z;
  t_fg : Z; t_bg : Z; saved_row : Z; saved_col : Z }.

Definition set_state v x : term_ctx := Ctx v (params x) (nparams x) (param_active x) (t_fg x) (t_bg x) (saved_row x) (saved_col x).
Definition set_params ps n a x : term_ctx := Ctx (t_state x) ps n a (t_fg x) (t_bg x) (saved_row x) (saved_col x).
Definition set_fg v x : term_ctx := Ctx (t_state x) (params x) (nparams x) (param_active x) v (t_bg x) (saved_row x) (saved_col x).
Definition set_bg v x : term_ctx := Ctx (t_state x) (params x) (nparams x) (param_active x) (t_fg x) v (saved_row x) (saved_col x).
Definition set_saved r c x : term_ctx := Ctx (t_state x) (params x) (nparams x) (param_active x) (t_fg x) (t_bg x) r c.

Definition params_reset x : term_ctx := set_params (replicate 16 0) 0 0 x.

(** The stores are to params[nparams - 1]. *)
Definition param_digit (d : Z) x : option term_ctx :=
  let x := if nparams x =? 0 then set_params (params x) 1 0 x else x in
  x ← (if negb (istrue (param_active x)) then ps ← put (params x) (nparams x - 1) 0; Some (set_params ps (nparams x) 1 x)
       else Some x);
  if nparams x <=? 16 then
    v ← zlook (params x) (nparams x - 1); ps ← put (params x) (nparams x - 1) (v * 10 + d);
    Some (set_params ps (nparams x) (param_active x) x)
  else Some x.

Definition param_sep x : option term_ctx :=
  if nparams x <? 16 then ps ← put (params x) (nparams x + 1 - 1) 0; Some (set_params ps (nparams x + 1) 0 x)
  else Some x.

Definition sgr (p : Z) x : term_ctx :=
  if p =? 0 then set_bg 0x00 (set_fg 0x0F x)
  else if p =? 1 then set_fg (u8 (Z.lor (t_fg x) 0x08)) x
  else if (30 <=? p) && (p <=? 37) then set_fg (u8 (Z.lor (Z.land (t_fg x) 0x08) (p - 30))) x
  else if p =? 39 then set_fg (u8 (Z.lor (Z.land (t_fg x) 0x08) 0x07)) x
  else if (40 <=? p) && (p <=? 47) then set_bg (u8 (p - 40)) x
  else if p =? 49 then set_bg 0x00 x
  else if (90 <=? p) && (p <=? 97) then set_fg (u8 (8 + (p - 90))) x
  else if (100 <=? p) && (p <=? 107) then set_bg (u8 (8 + (p - 100))) x
  else x.
Definition apply_sgr x (g : gpu) : option (term_ctx * gpu) :=
  let x := if nparams x =? 0 then set_bg 0x00 (set_fg 0x0F x) else x in
  x ← loopM (Z.to_nat (nparams x)) 0 (fun i x => p ← zlook (params x) i; Some (sgr p x)) x;
  Some (x, gpu_set_color (t_fg x) (t_bg x) g).

Section term.
Context (font : Z -> Z).
Implicit Types (x : term_ctx) (g : gpu).

(** Parameter [i] when it is there and positive. *)
Definition param_or (i dflt : Z) x : option Z :=
  if i <? nparams x then p ← zlook (params x) i; Some (if 0 <? p then p else dflt) else Some dflt.
Definition mode_param x : option Z := if 0 <? nparams x then zlook (params x) 0 else Some 0.

Definition csi_dispatch (final : Z) x g : option (term_ctx * gpu) :=
  n0 ← param_or 0 1 x;
  let '(row, col) := gpu_get_cursor g in
  if final =? 65 then Some (x, gpu_set_cursor (u16 (if n0 <=? row then row - n0 else 0)) col g)
  else if final =? 66 then Some (x, gpu_set_cursor (u16 (row + n0)) col g)
  else if final =? 67 then Some (x, gpu_set_cursor row (u16 (col + n0)) g)
  else if final =? 68 then Some (x, gpu_set_cursor row (u16 (if n0 <=? col then col - n0 else 0)) g)
  else if (final =? 72) || (final =? 102) then
    r ← param_or 0 1 x; c ← param_or 1 1 x;
    Some (x, gpu_set_cursor (u16 (r - 1)) (u16 (c - 1)) g)
  else if final =? 74 then m ← mode_param x; g ← gpu_erase_display font m g; Some (x, g)
  else if final =? 75 then m ← mode_param x; g ← gpu_erase_line font m g; Some (x, g)
  else if final =? 109 then apply_sgr x g
  else if final =? 115 then Some (set_saved row col x, g)
  else if final =? 117 then Some (x, gpu_set_cursor (saved_row x) (saved_col x) g)
  else Some (x, g).

Definition term_ctx_init x : term_ctx := Ctx TS_GROUND (params x) 0 0 0x0F 0x00 0 0.

Definition term_ctx_putc (c : Z) (s : term_ctx * gpu) : option (term_ctx * gpu) :=
  let '(x, g) := s in
  let b := u8 c in
  match t_state x with
  | TS_GROUND => if b =? 0x1B then Some (set_state TS_ESCAPE x, g) else g ← gpu_putc font c g; Some (x, g)
  | TS_ESCAPE =>
      Some (if b =? 91 then set_state TS_CSI (params_reset x)
            else if b =? 93 then set_state TS_OSC x else set_state TS_GROUND x, g)
  | TS_CSI =>
      if (48 <=? b) && (b <=? 57) then x ← param_digit (b - 48) x; Some (x, g)
      else if b =? 59 then x ← param_sep x; Some (x, g)
      else if (0x40 <=? b) && (b <=? 0x7E) then
        r ← csi_dispatch b x g; let '(x, g) := (r : term_ctx * gpu) in Some (set_state TS_GROUND x, g)
      else Some (x, g)
  | TS_OSC => Some (if (b =? 0x07) || (b =? 0x1B) then set_state TS_GROUND x else x, g)
  end.

Fixpoint term_ctx_print (t : list Z) (s : term_ctx * gpu) : option (term_ctx * gpu) :=
  match t with [] => Some s | c :: t' => s ← term_ctx_putc c s; term_ctx_print t' s end.

(** The context of the default console is made at its first use. *)
Definition default_ctx (d : option term_ctx) : term_ctx :=
  match d with Some x => x | None => term_ctx_init (Ctx TS_GROUND (replicate 16 0) 0 0 0 0 0 0) end.
Definition term_putc (c : Z) (s : option term_ctx * gpu) : option (option term_ctx * gpu) :=
  r ← term_ctx_putc c (default_ctx (fst s), snd s); let '(x, g) := (r : term_ctx * gpu) in Some (Some x, g).
Definition term_print (t : list Z) (s : option term_ctx * gpu) : option (option term_ctx * gpu) :=
  r ← term_ctx_print t (default_ctx (fst s), snd s); let '(x, g) := (r : term_ctx * gpu) in Some (Some x, g).
Definition term_reset (s : option term_ctx * gpu) : option term_ctx * gpu :=
  (Some (term_ctx_init (default_ctx (fst s))), gpu_set_color 0x0F 0x00 (snd s)).
End term.

(** ** Every byte is handled *)

Record term_ok (x : term_ctx) : Prop := {
  tk_params : length (params x) = 16%nat;
  tk_n : 0 <= nparams x <= 16;
  tk_active : param_active x <> 0 -> 1 <= nparams x;
  tk_saved : 0 <= saved_row x /\ 0 <= saved_col x }.

Lemma put_16 ps i v : length ps = 16%nat -> 0 <= i < 16 -> exists ps', put ps i v = Some ps' /\ length ps' = 16%nat /\ ps' = ps.[i <- v].
Proof.
  intros Hl Hi. rewrite put_in by (unfold zlen; lia). eexists. split; [done |]. split; [| done].
  unfold zset. destruct (i <? 0); [done |]. by rewrite length_insert.
Qed.

Lemma param_digit_ok d x : term_ok x -> exists x', param_digit d x = Some x' /\ term_ok x'.
Proof.
  intros [H1 H2 H3 H4]. unfold param_digit.
  set (x1 := if nparams x =? 0 then set_params (params x) 1 0 x else x).
  assert (term_ok x1 /\ 1 <= nparams x1 <= 16) as [[K1 K2 K3 K4] K5].
  { unfold x1. destruct (Z.eqb_spec (nparams x) 0); split; try (by split); try lia. }
  clearbody x1. clear x H1 H2 H3 H4. destruct (negb (istrue (param_active x1))).
  - destruct (put_16 (params x1) (nparams x1 - 1) 0 K1) as (ps & -> & Hps & _); [lia |]. cbn [mbind option_bind set_params nparams params].
    destruct (Z.leb_spec (nparams x1) 16); [| lia]. destruct (zlook_in_range ps (nparams x1 - 1)) as [v ->]; [unfold zlen; lia |].
    cbn [mbind option_bind]. destruct (put_16 ps (nparams x1 - 1) (v * 10 + d) Hps) as (ps' & -> & Hps' & _); [lia |].
    eexists. split; [done |]. split; cbn; done || lia.
  - cbn [mbind option_bind]. destruct (Z.leb_spec (nparams x1) 16); [| lia].
    destruct (zlook_in_range (params x1) (nparams x1 - 1)) as [v ->]; [unfold zlen; lia |]. cbn [mbind option_bind].
    destruct (put_16 (params x1) (nparams x1 - 1) (v * 10 + d) K1) as (ps' & -> & Hps' & _); [lia |].
    eexists. split; [done |]. split; cbn; done || lia.
Qed.

Lemma param_sep_ok x : term_ok x -> exists x', param_sep x = Some x' /\ term_ok x'.
Proof.
  intros [H1 H2 H3 H4]. unfold param_sep. destruct (Z.ltb_spec (nparams x) 16).
  - destruct (put_16 (params x) (nparams x + 1 - 1) 0 H1) as (ps & -> & Hps & _); [lia |]. cbn [mbind option_bind].
    eexists. split; [done |]. split; cbn; done || lia.
  - eexists. split; [done |]. by split.
Qed.

Lemma param_or_ok i d x : term_ok x -> 0 <= i -> exists v, param_or i d x = Some v.
Proof.
  intros [H1 H2 _ _] Hi. unfold param_or. destruct (Z.ltb_spec i (nparams x)); [| eauto].
  destruct (zlook_in_range (params x) i) as [v ->]; [unfold zlen; lia |]. cbn. eauto.
Qed.

Lemma mode_param_ok x : term_ok x -> exists v, mode_param x = Some v.
Proof.
  intros [H1 H2 _ _]. unfold mode_param. destruct (Z.ltb_spec 0 (nparams x)); [| eauto].
  apply zlook_in_range. unfold zlen. lia.
Qed.

(** A colour changes nothing but the colours. *)
Definition recolored (x x' : term_ctx) : Prop := exists f b, x' = set_fg f (set_bg b x).

Lemma sgr_recolored p x : recolored x (sgr p x).
Proof.
  assert (forall y, recolored y y) as Hid by (intros []; by do 2 eexists).
  unfold sgr. repeat (case_match; [by do 2 eexists | ]). apply Hid.
Qed.

Lemma recolored_trans x y z : recolored x y -> recolored y z -> recolored x z.
Proof. intros (f & b & ->) (f' & b' & ->). by exists f', b'. Qed.

Lemma recolored_ok x y : recolored x y -> term_ok x -> term_ok y.
Proof. intros (f & b & ->) [H1 H2 H3 H4]. by split. Qed.

Lemma apply_sgr_ok x g : term_ok x -> exists x', apply_sgr x g = Some (x', gpu_set_color (t_fg x') (t_bg x') g) /\ recolored x x'.
Proof.
  intros Hx. unfold apply_sgr. set (x1 := if nparams x =? 0 then _ else x).
  assert (recolored x x1) as H1.
  { unfold x1. destruct (nparams x =? 0); [by do 2 eexists |]. destruct x. by do 2 eexists. }
  pose proof (recolored_ok x x1 H1 Hx) as [Hp Hn _ _].
  assert (nparams x1 = nparams x /\ params x1 = params x) as [En Ep] by (destruct H1 as (f & b & ->); done).
  destruct (loopM_inv (fun _ y => recolored x1 y) (fun i y => p ← zlook (params y) i; Some (sgr p y))
    (Z.to_nat (nparams x1)) 0 x1) as (x2 & E & H2).
  - destruct x1. by do 2 eexists.
  - intros j y Hj Hy. assert (params y = params x1) as -> by (destruct Hy as (f & b & ->); done).
    destruct (zlook_in_range (params x1) j) as [p ->]; [unfold zlen; lia |]. cbn [mbind option_bind].
    eexists. split; [done |]. eapply recolored_trans; [done | apply sgr_recolored].
  - rewrite E. cbn [mbind option_bind]. exists x2. split; [done |]. by eapply recolored_trans.
Qed.

Section safety.
Context (font : Z -> Z) (C : gpu -> Prop) {HC : console font C}.

Lemma csi_dispatch_ok final x g : term_ok x -> C g ->
  exists x' g', csi_dispatch font final x g = Some (x', g') /\ term_ok x' /\ C g'.
Proof.
  intros Hx Hg. unfold csi_dispatch. destruct (param_or_ok 0 1 x Hx) as [n0 ->]; [lia |].
  destruct (param_or_ok 1 1 x Hx) as [n1 E1]; [lia |]. cbn [mbind option_bind].
  destruct (gpu_get_cursor g) as [row col] eqn:Ec. assert (0 <= row < 65536 /\ 0 <= col < 65536) as [Hr Hc].
  { injection Ec as <- <-. unfold u16. lia. }
  assert (forall r c, 0 <= r -> 0 <= c -> exists x' g', Some (x, gpu_set_cursor r c g) = Some (x', g') /\ term_ok x' /\ C g') as Hcur.
  { intros r c H0 H1. eexists _, _. split; [done |]. split; [done |]. by apply con_cursor. }
  assert (forall v, 0 <= u16 v) as Hu by (intros; unfold u16; lia).
  destruct (final =? 65); [apply Hcur; first [apply Hu | lia] |].
  destruct (final =? 66); [apply Hcur; first [apply Hu | lia] |].
  destruct (final =? 67); [apply Hcur; first [apply Hu | lia] |].
  destruct (final =? 68); [apply Hcur; first [apply Hu | lia] |].
  destruct (_ || _); [rewrite E1; cbn [mbind option_bind]; apply Hcur; apply Hu |].
  destruct (mode_param_ok x Hx) as [m Em].
  destruct (final =? 74).
  { rewrite Em. cbn [mbind option_bind]. destruct (con_erase_display m g Hg) as (g' & -> & Hg'). cbn [mbind option_bind]. eauto. }
  destruct (final =? 75).
  { rewrite Em. cbn [mbind option_bind]. destruct (con_erase_line m g Hg) as (g' & -> & Hg'). cbn [mbind option_bind]. eauto. }
  destruct (final =? 109).
  { destruct (apply_sgr_ok x g Hx) as (x' & -> & Hx'). eexists _, _. split; [done |].
    split; [by eapply recolored_ok | by apply (con_color (font := font))]. }
  destruct (final =? 115).
  { eexists _, _. split; [done |]. split; [| done]. destruct Hx as [K1 K2 K3 K4]. split; try done. split; cbn; lia. }
  destruct (final =? 117); [apply Hcur; apply Hx |]. eauto.
Qed.

Lemma term_putc_ok c x g : term_ok x -> C g ->
  exists x' g', term_ctx_putc font c (x, g) = Some (x', g') /\ term_ok x' /\ C g'.
Proof.
  intros Hx Hg. unfold term_ctx_putc. assert (forall v y, term_ok y -> term_ok (set_state v y)) as Hst by (intros v y []; by split).
  destruct (t_state x).
  - destruct (_ =? 0x1B); [eexists _, _; split; [done |]; split; [by apply Hst | done] |].
    destruct (con_putc c g Hg) as (g' & -> & Hg'). cbn [mbind option_bind]. eauto.
  - eexists _, _. split; [done |]. split; [| done]. destruct (_ =? 91).
    + apply Hst. destruct Hx. by split.
    + by destruct (_ =? 93); apply Hst.
  - destruct (_ && _).
    { destruct (param_digit_ok (u8 c - 48) x Hx) as (x' & -> & Hx'). cbn [mbind option_bind]. eauto. }
    destruct (_ =? 59); [destruct (param_sep_ok x Hx) as (x' & -> & Hx'); cbn [mbind option_bind]; eauto |].
    destruct (_ && _); [| eauto].
    destruct (csi_dispatch_ok (u8 c) x g Hx Hg) as (x' & g' & -> & Hx' & Hg'). cbn [mbind option_bind].
    eexists _, _. split; [done |]. split; [by apply Hst | done].
  - eexists _, _. split; [done |]. split; [| done]. destruct (_ || _); [by apply Hst | done].
Qed.

(** C35: every text, however malformed its escape sequences are, is handled without an access
    outside the parameters, the text memory or the buffer that is drawn to; the state of
    the machine stays well formed, and so does the console, whichever of its two forms
    it has. *)
Theorem term_print_safe (t : list Z) (x : term_ctx) (g : gpu) (Hx : term_ok x) (Hg : C g) :
  exists x' g', term_ctx_print font t (x, g) = Some (x', g') /\ term_ok x' /\ C g'.
Proof.
  revert x g Hx Hg. induction t as [| c t IH]; intros x g Hx Hg; cbn [term_ctx_print]; [eauto |].
  destruct (term_putc_ok c x g Hx Hg) as (x1 & g1 & -> & Hx1 & Hg1). cbn [mbind option_bind]. by apply IH.
Qed.
End safety.

(** ** Sequences are read as they are written *)

(** The parameters of a sequence as text. *)
Fixpoint csi_params (ns : list Z) : list Z :=
  match ns with [] => [] | [n] => numeral 10 n | n :: ns' => numeral 10 n ++ 59 :: csi_params ns' end.
Definition csi (ns : list Z) (final : Z) : list Z := [27; 91] ++ csi_params ns ++ [final].

(** Before a number, and in one whose digits so far have the value [v]. *)
Definition before (dn ps : list Z) (n a : Z) : Prop :=
  length ps = 16%nat /\ a = 0 /\
  (dn = [] /\ n = 0 \/ dn <> [] /\ n = zlen dn + 1 /\ exists rest, ps = dn ++ 0 :: rest).
Definition within (dn : list Z) (v : Z) (ps : list Z) (n a : Z) : Prop :=
  length ps = 16%nat /\ a = 1 /\ n = zlen dn + 1 /\ exists rest, ps = dn ++ v :: rest.

Lemma zset_at (dn rest : list Z) v w : (dn ++ v :: rest).[zlen dn <- w] = dn ++ w :: rest.
Proof. by apply zset_middle. Qed.

Lemma digit_first dn d ps n a x : zlen dn < 16 -> before dn ps n a ->
  exists ps', param_digit d (set_params ps n a x) = Some (set_params ps' (zlen dn + 1) 1 x) /\
    within dn d ps' (zlen dn + 1) 1.
Proof.
  intros Hd (Hl & -> & Hc). unfold param_digit. pose proof (zlen_nonneg dn) as H0.
  assert (exists v rest, ps = dn ++ v :: rest /\ (if n =? 0 then 1 else n) = zlen dn + 1) as (v & rest & -> & En).
  { destruct Hc as [[-> ->] | (Hne & -> & rest & ->)].
    - destruct ps as [| v rest]; [done |]. by exists v, rest.
    - exists 0, rest. split; [done |]. destruct (Z.eqb_spec (zlen dn + 1) 0); lia. }
  cbn [set_params nparams]. assert ((if n =? 0 then set_params (params (set_params (dn ++ v :: rest) n 0 x)) 1 0 (set_params (dn ++ v :: rest) n 0 x)
    else set_params (dn ++ v :: rest) n 0 x) = set_params (dn ++ v :: rest) (zlen dn + 1) 0 x) as E.
  { rewrite <- En. by destruct (n =? 0). }
  cbn [set_params params] in E |- *. rewrite E. clear E.
  cbn [set_params nparams params param_active]. change (negb (istrue 0)) with true. cbv iota.
  replace (zlen dn + 1 - 1) with (zlen dn) by lia.
  rewrite put_in by (rewrite zlen_app, zlen_cons; pose proof (zlen_nonneg rest); lia). cbn [mbind option_bind set_params nparams params].
  rewrite zset_at. destruct (Z.leb_spec (zlen dn + 1) 16); [| lia]. replace (zlen dn + 1 - 1) with (zlen dn) by lia.
  rewrite zlook_middle by done. cbn [mbind option_bind].
  rewrite put_in by (rewrite zlen_app, zlen_cons; pose proof (zlen_nonneg rest); lia). cbn [mbind option_bind].
  rewrite zset_at. eexists. split; [done |]. split; [| split; [done |]; split; [done |]; by eexists].
  rewrite length_app in *. cbn [length] in *. lia.
Qed.

Lemma digit_next dn v d ps x : zlen dn < 16 -> within dn v ps (zlen dn + 1) 1 ->
  exists ps', param_digit d (set_params ps (zlen dn + 1) 1 x) = Some (set_params ps' (zlen dn + 1) 1 x) /\
    within dn (v * 10 + d) ps' (zlen dn + 1) 1.
Proof.
  intros Hd (Hl & _ & _ & rest & ->). unfold param_digit. pose proof (zlen_nonneg dn) as H0.
  cbn [set_params nparams params param_active]. destruct (Z.eqb_spec (zlen dn + 1) 0); [lia |].
  cbn [set_params nparams params param_active]. change (negb (istrue 1)) with false. cbv iota. cbn [mbind option_bind set_params nparams params].
  destruct (Z.leb_spec (zlen dn + 1) 16); [| lia]. replace (zlen dn + 1 - 1) with (zlen dn) by lia.
  rewrite zlook_middle by done. cbn [mbind option_bind].
  rewrite put_in by (rewrite zlen_app, zlen_cons; pose proof (zlen_nonneg rest); lia). cbn [mbind option_bind].
  rewrite zset_at. eexists. split; [done |]. split; [| split; [done |]; split; [done |]; by eexists].
  rewrite length_app in *. cbn [length] in *. lia.
Qed.

Lemma sep_next dn v ps x : zlen dn + 1 < 16 -> within dn v ps (zlen dn + 1) 1 ->
  exists ps' n, param_sep (set_params ps (zlen dn + 1) 1 x) = Some (set_params ps' n 0 x) /\ before (dn ++ [v]) ps' n 0.
Proof.
  intros Hd (Hl & _ & _ & rest & ->). unfold param_sep. cbn [set_params nparams params]. pose proof (zlen_nonneg dn) as H0.
  destruct (Z.ltb_spec (zlen dn + 1) 16); [| lia]. destruct rest as [| w rest]; [unfold zlen in *; rewrite length_app in Hl; cbn in Hl; lia |].
  rewrite put_in by (rewrite zlen_app, !zlen_cons; pose proof (zlen_nonneg rest); lia). cbn [mbind option_bind].
  assert (dn ++ v :: w :: rest = (dn ++ [v]) ++ w :: rest) as -> by (by rewrite <- app_assoc).
  replace (zlen dn + 1 + 1 - 1) with (zlen (dn ++ [v])) by (rewrite zlen_app; change (zlen [v]) with 1; lia). rewrite zset_at.
  eexists _, _. split; [done |]. split; [| split; [done |]; right].
  - rewrite !length_app in *. cbn [length] in *. lia.
  - split; [by destruct dn |]. split; [rewrite zlen_app; change (zlen [v]) with 1; lia | by eexists].
Qed.

Section read.
Context (font : Z -> Z).
Implicit Types (x : term_ctx) (g : gpu).

Lemma csi_digit d x g : t_state x = TS_CSI -> 0 <= d < 10 ->
  term_ctx_putc font (hex_digit d) (x, g) = (x ← param_digit d x; Some (x, g)).
Proof.
  intros Hs Hd. destruct (hex_digit_char d ltac:(lia)) as [_ ->]; [| lia]. unfold term_ctx_putc. rewrite Hs.
  unfold u8. rewrite Z.mod_small by lia. destruct (Z.leb_spec 48 (48 + d)), (Z.leb_spec (48 + d) 57); try lia. cbn [andb].
  by replace (48 + d - 48) with d by lia.
Qed.

Lemma read_digits dn ds : forall v ps x g, t_state x = TS_CSI -> zlen dn < 16 -> Forall (fun d => 0 <= d < 10) ds ->
  within dn v ps (zlen dn + 1) 1 ->
  exists ps', (forall t, term_ctx_print font (map hex_digit ds ++ t) (set_params ps (zlen dn + 1) 1 x, g) =
      term_ctx_print font t (set_params ps' (zlen dn + 1) 1 x, g)) /\
    within dn (fold_left (fun v d => v * 10 + d) ds v) ps' (zlen dn + 1) 1.
Proof.
  induction ds as [| d ds IH]; intros v ps x g Hs Hd Hds Hw; cbn [fold_left map app]; [by exists ps |].
  apply Forall_cons in Hds as [Hd0 Hds]. destruct (digit_next dn v d ps x Hd Hw) as (ps1 & E & Hw1).
  destruct (IH (v * 10 + d) ps1 x g Hs Hd Hds Hw1) as (ps2 & E2 & Hw2). exists ps2. split; [| done].
  intros t. cbn [term_ctx_print]. rewrite csi_digit by done. rewrite E. cbn [mbind option_bind]. apply E2.
Qed.

Lemma read_number dn k ps n a x g : t_state x = TS_CSI -> zlen dn < 16 -> 0 <= k < 10 ^ 64 -> before dn ps n a ->
  exists ps', (forall t, term_ctx_print font (numeral 10 k ++ t) (set_params ps n a x, g) =
      term_ctx_print font t (set_params ps' (zlen dn + 1) 1 x, g)) /\ within dn k ps' (zlen dn + 1) 1.
Proof.
  intros Hs Hd Hk Hb. destruct (numeral_digits k Hk) as ([| d ds] & -> & Hds & Hv & Hne); [done |].
  apply Forall_cons in Hds as [Hd0 Hds]. destruct (digit_first dn d ps n a x Hd Hb) as (ps1 & E & Hw1).
  destruct (read_digits dn ds d ps1 x g Hs Hd Hds Hw1) as (ps2 & E2 & Hw2). exists ps2. split.
  - intros t. cbn [map app term_ctx_print]. rewrite csi_digit by done. rewrite E. cbn [mbind option_bind]. apply E2.
  - unfold value in Hv. cbn [fold_left] in Hv. by rewrite Z.mul_0_l, Z.add_0_l in Hv; rewrite Hv in Hw2.
Qed.

Lemma read_params ns : forall dn ps n a x g, ns <> [] -> t_state x = TS_CSI -> zlen dn + zlen ns <= 16 ->
  Forall (fun k => 0 <= k < 10 ^ 64) ns -> before dn ps n a ->
  exists ps', (forall t, term_ctx_print font (csi_params ns ++ t) (set_params ps n a x, g) =
      term_ctx_print font t (set_params ps' (zlen (dn ++ ns)) 1 x, g)) /\ length ps' = 16%nat /\
    exists rest, ps' = (dn ++ ns) ++ rest.
Proof.
  induction ns as [| k ns IH]; intros dn ps n a x g Hne Hs Hlen Hns Hb; [done |].
  apply Forall_cons in Hns as [Hk Hns]. rewrite zlen_cons in Hlen. pose proof (zlen_nonneg ns).
  destruct (read_number dn k ps n a x g Hs ltac:(lia) Hk Hb) as (ps1 & E1 & Hw1).
  destruct ns as [| k2 ns].
  - exists ps1. destruct Hw1 as (Hl & _ & _ & rest & ->). split; [| split; [done |]].
    + intros t. cbn [csi_params]. rewrite E1, zlen_app. done.
    + exists rest. by rewrite <- app_assoc.
  - destruct (sep_next dn k ps1 x) as (ps2 & n2 & E2 & Hb2); [rewrite zlen_cons in Hlen; pose proof (zlen_nonneg ns); lia | done |].
    destruct (IH (dn ++ [k]) ps2 n2 0 x g) as (ps3 & E3 & Hl3 & rest & E4); try done.
    { rewrite zlen_app. change (zlen [k]) with 1. lia. }
    rewrite <- !app_assoc in E3, E4. cbn [app] in E3, E4. exists ps3. split; [| split; [done | exists rest; rewrite <- app_assoc; cbn [app]; rewrite E4, <- app_assoc; done]].
    intros t. change (csi_params (k :: k2 :: ns)) with (numeral 10 k ++ 59 :: csi_params (k2 :: ns)).
    rewrite <- app_assoc. rewrite E1. cbn [app term_ctx_print]. unfold term_ctx_putc at 1. cbn [set_params t_state]. rewrite Hs.
    change (u8 59) with 59. change ((48 <=? 59) && (59 <=? 57)) with false. change (59 =? 59) with true. cbv iota.
    rewrite E2. cbn [mbind option_bind]. apply E3.
Qed.

(** Also: an escape sequence with up to 16 parameters is read as it is written: at its final
    byte the machine acts on exactly the numbers the text spells out, and is back in its
    ground state; in particular a cursor position in range is where the cursor goes. *)
Theorem csi_roundtrip (ns : list Z) (final : Z) (x : term_ctx) (g : gpu)
    (Hs : t_state x = TS_GROUND) (Hne : ns <> []) (Hlen : zlen ns <= 16)
    (Hns : Forall (fun k => 0 <= k < 2147483648) ns) (Hf : 0x40 <= final <= 0x7E) :
  exists ps, length ps = 16%nat /\ take (length ns) ps = ns /\
    term_ctx_print font (csi ns final) (x, g) =
      (r ← csi_dispatch font final (set_state TS_CSI (set_params ps (zlen ns) 1 x)) g;
       Some (set_state TS_GROUND (fst r), snd r)) /\
    forall r c, ns = [r; c] -> final = 72 -> 1 <= r <= con_rows g -> 1 <= c <= con_cols g ->
      con_rows g < 65536 -> con_cols g < 65536 ->
      exists x', term_ctx_print font (csi ns final) (x, g) = Some (x', gpu_set_cursor (r - 1) (c - 1) g) /\
        gpu_get_cursor (gpu_set_cursor (r - 1) (c - 1) g) = (r - 1, c - 1) /\ t_state x' = TS_GROUND.
Proof.
  destruct (read_params ns [] (replicate 16 0) 0 0 (set_state TS_CSI x) g Hne eq_refl) as (ps & E & Hl & rest & Eps).
  { change (zlen []) with 0. lia. }
  { eapply Forall_impl; [exact Hns |]. cbn. intros k Hk. assert (2147483648 < 10 ^ 64) by done. lia. }
  { split; [done |]. split; [done |]. by left. }
  cbn [app] in E, Eps. exists ps. split; [done |]. split; [by rewrite Eps, take_app_length |].
  assert (term_ctx_print font (csi ns final) (x, g) =
      (r ← csi_dispatch font final (set_state TS_CSI (set_params ps (zlen ns) 1 x)) g;
       Some (set_state TS_GROUND (fst r), snd r))) as Hprint.
  { assert (term_ctx_putc font 27 (x, g) = Some (set_state TS_ESCAPE x, g)) as E1 by (unfold term_ctx_putc; rewrite Hs; done).
    assert (term_ctx_putc font 91 (set_state TS_ESCAPE x, g) =
      Some (set_params (replicate 16 0) 0 0 (set_state TS_CSI x), g)) as E2 by done.
    unfold csi. cbn [app term_ctx_print]. rewrite E1. cbn [mbind option_bind]. rewrite E2. cbn [mbind option_bind].
    rewrite E. cbn [term_ctx_print]. unfold term_ctx_putc. cbn [set_params set_state t_state].
    unfold u8. rewrite Z.mod_small by lia.
    destruct (Z.leb_spec 48 final), (Z.leb_spec final 57), (Z.eqb_spec final 59), (Z.leb_spec 0x40 final), (Z.leb_spec final 0x7E); try lia.
    cbn [andb]. change (set_params ps (zlen ns) 1 (set_state TS_CSI x)) with (set_state TS_CSI (set_params ps (zlen ns) 1 x)).
    destruct (csi_dispatch font final _ g) as [[x' g'] |]; done. }
  split; [exact Hprint |]. intros r c -> -> Hr Hc Hrows Hcols. rewrite Hprint. cbn [app] in Eps. subst ps.
  unfold csi_dispatch, param_or. cbn [set_state set_params nparams params].
  change (zlen [r; c]) with 2. change (0 <? 2) with true. change (1 <? 2) with true. cbv iota.
  change (zlook (r :: c :: rest) 0) with (Some r). change (zlook (r :: c :: rest) 1) with (Some c).
  cbn [mbind option_bind Z.eqb Pos.eqb orb]. destruct (Z.ltb_spec 0 r), (Z.ltb_spec 0 c); try lia.
  rewrite !u16_id by lia. eexists. split; [done |]. split; [| done].
  unfold gpu_set_cursor. destruct (Z.leb_spec (con_rows g) (r - 1)), (Z.leb_spec (con_cols g) (c - 1)); try lia.
  unfold gpu_get_cursor, fb_update_cursor. cbn [set_cursor_pos set_text g_fb_enabled]. destruct (istrue _); cbn;
    by rewrite !u16_id by lia.
Qed.
End read.

(** ** Witnesses *)

Definition ctx_ex : term_ctx := Ctx TS_GROUND (replicate 16 0) 0 0 0x0F 0 0 0.

(** An unfinished sequence, one without meaning, and one that erases the screen. *)
Lemma term_print_safe_witness : exists x' g',
  term_ctx_print (fun _ => 0) [27; 91; 59; 57; 57; 57; 27; 91; 122; 27; 93; 7; 27; 91; 50; 74] (ctx_ex, gpu_ex 0) = Some (x', g') /\
  text_console g'.
Proof.
  destruct (term_print_safe (fun _ => 0) text_console [27; 91; 59; 57; 57; 57; 27; 91; 122; 27; 93; 7; 27; 91; 50; 74] ctx_ex (gpu_ex 0))
    as (x' & g' & E & _ & Hg); [by split | exact gpu_ex_text |].
  exists x', g'. split; [exact E | exact Hg].
Defined.

(** ESC [ 7 ; 12 H *)
Lemma csi_roundtrip_witness : exists x',
  term_ctx_print (fun _ => 0) [27; 91; 55; 59; 49; 50; 72] (ctx_ex, gpu_ex 0) = Some (x', gpu_set_cursor 6 11 (gpu_ex 0)) /\
  t_state x' = TS_GROUND.
Proof.
  destruct (csi_roundtrip (fun _ => 0) [7; 12] 72 ctx_ex (gpu_ex 0)) as (ps & _ & _ & _ & H);
    [done | done | done | repeat constructor; done | lia |].
  destruct (H 7 12 eq_refl eq_refl ltac:(cbn; unfold VGA_ROWS; lia) ltac:(cbn; unfold VGA_COLS; lia) ltac:(done) ltac:(done))
    as (x' & E & _ & Hx).
  exists x'. split; [exact E | exact Hx].
Defined.
