(* ===== verification/LineEdit.v ===== *)
(** * Line editing (src/kernel/shell.c, the editor and the history)

    The line a console is typing: its array of characters, its length and the position of
    the cursor in it; the history of the last lines; the keys; and how the line is drawn on
    the console of Gpu.v. The text window of the desktop uses the same functions. *)

From S2P Require Import Prelude Rtl8139 Gpu.

Definition HIST_MAX : Z := 8.
Definition SHELL_LINE_MAX : Z := 256.
Definition KEY_UP : Z := 256.
Definition KEY_DOWN : Z := 257.
Definition KEY_LEFT : Z := 258.
Definition KEY_RIGHT : Z := 259.
Definition KEY_HOME : Z := 260.
Definition KEY_END : Z := 261.
Definition KEY_DEL : Z := 262.

Record line := Line { l_buf : list Z; l_pos : Z; l_cpos : Z }.

(** g_history, as the strings its arrays hold. *)
Record hist := Hist { g_history : list (list Z); g_hist_count : Z; g_hist_idx : Z }.

(** ** The line *)

(** [for (i = pos; i > cpos; i--) buf[i] = buf[i - 1];] *)
Definition shell_insert_char (ch max : Z) (l : line) : option line :=
  let '(Line buf pos cpos) := l in
  if max - 1 <=? pos then Some l
  else
    buf ← loopM (Z.to_nat (pos - cpos)) 0 (fun k buf =>
            v ← zlook buf (pos - k - 1); put buf (pos - k) v) buf;
    buf ← put buf cpos ch;
    buf ← put buf (pos + 1) 0;
    Some (Line buf (pos + 1) (cpos + 1)).

(** [for (i = from; i < pos - 1; i++) buf[i] = buf[i + 1];] *)
Definition shift_left (from pos : Z) (buf : list Z) : option (list Z) :=
  loopM (Z.to_nat (pos - 1 - from)) from (fun i buf => v ← zlook buf (i + 1); put buf i v) buf.

Definition shell_backspace_char (l : line) : option line :=
  let '(Line buf pos cpos) := l in
  if cpos <=? 0 then Some l
  else
    buf ← shift_left (cpos - 1) pos buf;
    buf ← put buf (pos - 1) 0;
    Some (Line buf (pos - 1) (cpos - 1)).

Definition shell_delete_char (l : line) : option line :=
  let '(Line buf pos cpos) := l in
  if pos <=? cpos then Some l
  else
    buf ← shift_left cpos pos buf;
    buf ← put buf (pos - 1) 0;
    Some (Line buf (pos - 1) cpos).

(** ** The history *)

Definition history_add (s : list Z) (h : hist) : option hist :=
  match s with
  | [] => Some h
  | _ =>
      same ← (if 0 <? g_hist_count h
              then last ← zlook (g_history h) ((g_hist_count h - 1) mod HIST_MAX); Some (bool_decide (last = s))
              else Some false);
      if same : bool then Some h
      else
        let idx := g_hist_count h mod HIST_MAX in
        if (0 <=? idx) && (idx <? zlen (g_history h))
        then Some (Hist ((g_history h).[idx <- take (Z.to_nat (SHELL_LINE_MAX - 1)) s])
                     (g_hist_count h + 1) (g_hist_count h + 1))
        else None
  end.

Definition history_get (idx : Z) (h : hist) : option (list Z) :=
  if (idx <? 0) || (g_hist_count h <=? idx) then Some [] else zlook (g_history h) (idx mod HIST_MAX).

Definition set_idx (i : Z) (h : hist) : hist := Hist (g_history h) (g_hist_count h) i.

(** [memcpy(buf, h, hl); buf[hl] = 0;] *)
Definition load_line (s : list Z) (max : Z) (l : line) : option line :=
  let hl := if max <=? zlen s then max - 1 else zlen s in
  buf ← loopM (Z.to_nat hl) 0 (fun i buf => v ← zlook s i; put buf i v) (l_buf l);
  buf ← put buf hl 0;
  Some (Line buf hl hl).

(** ** Drawing *)

Section draw.
Context (font : Z -> Z).
Implicit Types g : gpu.

(** "epona@epona", ":", "~" and "$ " *)
Definition PROMPT_NAME : list Z := [101; 112; 111; 110; 97; 64; 101; 112; 111; 110; 97].
Definition shell_print_prompt g : option gpu :=
  g ← gpu_print font PROMPT_NAME (gpu_set_color 0x0A 0x00 g);
  g ← gpu_print font [58] (gpu_set_color 0x0F 0x00 g);
  g ← gpu_print font [126] (gpu_set_color 0x0B 0x00 g);
  gpu_print font [36; 32] (gpu_set_color 0x0F 0x00 g).

Definition put_chars (n : Z) (buf : list Z) g : option gpu :=
  loopM (Z.to_nat n) 0 (fun i g => c ← zlook buf i; gpu_putc font c g) g.

Definition shell_redraw_line (buf : list Z) (cpos : Z) g : option gpu :=
  text ← c_string buf;
  let plen := zlen text in
  let pcols := 15 in
  let cols := gpu_console_cols g - 1 in
  g ← gpu_print font [13] g;
  g ← shell_print_prompt g;
  g ← put_chars plen buf g;
  g ← loopM (Z.to_nat (cols - (pcols + plen))) 0 (fun _ g => gpu_putc font 32 g) g;
  g ← gpu_print font [13] g;
  g ← shell_print_prompt g;
  put_chars cpos buf g.

Definition redraw (l : line) g : option gpu := shell_redraw_line (l_buf l) (l_cpos l) g.

(** ** The keys *)

Record rl := Rl { r_line : line; r_hist : hist; r_gpu : gpu }.
Definition redraw_with (l : line) (h : hist) g : option rl := g ← redraw l g; Some (Rl l h g).

(** One turn of the loop of readline; the flag says that the line is complete. *)
Definition readline_key (max c : Z) (s : rl) : option (bool * rl) :=
  let '(Rl l h g) := s in
  let '(Line buf pos cpos) := l in
  let go r := s ← r; Some (false, s) in
  if c =? 0 then Some (false, s)
  else if c =? 10 then
    g ← gpu_putc font 10 g; buf ← put buf pos 0; Some (true, Rl (Line buf pos cpos) h g)
  else if c =? 8 then
    if 0 <? cpos then l ← shell_backspace_char l; go (redraw_with l h g) else Some (false, s)
  else if c =? KEY_DEL then l ← shell_delete_char l; go (redraw_with l h g)
  else if c =? 9 then Some (false, s)
  else if c =? 3 then
    g ← gpu_print font [94; 67; 10] g; buf ← put buf 0 0; go (redraw_with (Line buf 0 0) h g)
  else if c =? KEY_LEFT then
    if 0 <? cpos then go (redraw_with (Line buf pos (cpos - 1)) h g) else Some (false, s)
  else if c =? KEY_RIGHT then
    if cpos <? pos then go (redraw_with (Line buf pos (cpos + 1)) h g) else Some (false, s)
  else if c =? KEY_HOME then go (redraw_with (Line buf pos 0) h g)
  else if c =? KEY_END then go (redraw_with (Line buf pos pos) h g)
  else if (c =? KEY_UP) || (c =? KEY_DOWN) then
    let move i := let h := set_idx i h in
                  t ← history_get i h; l ← load_line t max l; go (redraw_with l h g) in
    if (c =? KEY_UP) && (0 <? g_hist_idx h) then move (g_hist_idx h - 1)
    else if (c =? KEY_DOWN) && (g_hist_idx h <? g_hist_count h) then move (g_hist_idx h + 1)
    else Some (false, s)
  else if (32 <=? c) && (c <? 127) && (pos <? max - 1) then
    l ← shell_insert_char c max l; go (redraw_with l h g)
  else Some (false, s).

(** The loop over the keys as they come; it ends with the first complete line. *)
Fixpoint readline_from (max : Z) (keys : list Z) (s : rl) : option (option (list Z) * list Z * rl) :=
  match keys with
  | [] => Some (None, [], s)
  | c :: keys =>
      r ← readline_key max c s;
      let '(complete, s) := (r : bool * rl) in
      if complete then t ← c_string (l_buf (r_line s)); Some (Some t, keys, s)
      else readline_from max keys s
  end.
Definition readline (max : Z) (keys buf : list Z) (h : hist) g : option (option (list Z) * list Z * rl) :=
  buf ← put buf 0 0; readline_from max keys (Rl (Line buf 0 0) h g).
End draw.

(** ** The editor it implements

    A line with a cursor is the characters before the cursor, nearest first, and those
    behind it. *)

Record ed := Ed { e_left : list Z; e_right : list Z; e_hist : hist }.
Definition e_text (e : ed) : list Z := rev (e_left e) ++ e_right e.
Definition printable (c : Z) : bool := (32 <=? c) && (c <? 127).

(** What UP and DOWN bring: a line of the history, cut to the size of the buffer. *)
Definition recall (i max : Z) (e : ed) : ed :=
  let h := set_idx i (e_hist e) in
  Ed (rev (take (Z.to_nat (max - 1)) (default [] (history_get i h)))) [] h.

Definition ed_key (max c : Z) (e : ed) : ed :=
  let '(Ed lft rgt h) := e in
  if c =? 8 then match lft with _ :: lft' => Ed lft' rgt h | [] => e end
  else if c =? KEY_DEL then match rgt with _ :: rgt' => Ed lft rgt' h | [] => e end
  else if c =? 3 then Ed [] [] h
  else if c =? KEY_LEFT then match lft with x :: lft' => Ed lft' (x :: rgt) h | [] => e end
  else if c =? KEY_RIGHT then match rgt with x :: rgt' => Ed (x :: lft) rgt' h | [] => e end
  else if c =? KEY_HOME then Ed [] (rev lft ++ rgt) h
  else if c =? KEY_END then Ed (rev rgt ++ lft) [] h
  else if c =? KEY_UP then if 0 <? g_hist_idx h then recall (g_hist_idx h - 1) max e else e
  else if c =? KEY_DOWN then if g_hist_idx h <? g_hist_count h then recall (g_hist_idx h + 1) max e else e
  else if printable c && (zlen lft + zlen rgt <? max - 1) then Ed (c :: lft) rgt h
  else e.

(** The keys up to the first new line; what is lft of them. *)
Fixpoint ed_run (max : Z) (keys : list Z) (e : ed) : option (list Z) * list Z * ed :=
  match keys with
  | [] => (None, [], e)
  | c :: keys => if c =? 10 then (Some (e_text e), keys, e) else ed_run max keys (ed_key max c e)
  end.

Record line_is (max : Z) (l : line) (lft rgt : list Z) : Prop := {
  li_len : zlen (l_buf l) = max;
  li_buf : exists rest, l_buf l = rev lft ++ rgt ++ 0 :: rest;
  li_pos : l_pos l = zlen lft + zlen rgt;
  li_cpos : l_cpos l = zlen lft;
  li_chars : nonzero lft /\ nonzero rgt }.

Lemma line_text max l lft rgt : line_is max l lft rgt -> c_string (l_buf l) = Some (rev lft ++ rgt).
Proof.
  intros [_ (rest & ->) _ _ [H1 H2]]. rewrite app_assoc. apply c_string_text. apply Forall_app. by split; [apply nonzero_rev |].
Qed.

(** Equal lists by their places: [zpl] reduces both sides to comparisons of places. *)
Ltac zlens := repeat progress (rewrite ?zlen_app, ?zlen_cons, ?zlen_rev, ?zset_zlen in *).
Ltac zcases :=
  repeat match goal with
  | |- context [Z.ltb ?a ?b] => destruct (Z.ltb_spec a b)
  | |- context [Z.leb ?a ?b] => destruct (Z.leb_spec a b)
  | |- context [Z.eqb ?a ?b] => destruct (Z.eqb_spec a b)
  end.
Ltac zpl :=
  repeat (first [rewrite zget_app by lia | rewrite zget_cons by lia | rewrite zget_zset by (zlens; lia)];
          zlens; zcases; cbn [andb]; try lia).

(** The characters from [cpos] on move up by one place, from the last to the first. *)
Lemma shift_right_spec pos cpos buf : 0 <= cpos <= pos -> pos < zlen buf ->
  exists buf', loopM (Z.to_nat (pos - cpos)) 0 (fun k buf =>
      v ← zlook buf (pos - k - 1); put buf (pos - k) v) buf = Some buf' /\ zlen buf' = zlen buf /\
    forall j, 0 <= j -> buf'.[j] = if (cpos <? j) && (j <=? pos) then buf.[j - 1] else buf.[j].
Proof.
  intros Hc Hp.
  destruct (loopM_inv (fun k b => zlen b = zlen buf /\
      forall j, 0 <= j -> b.[j] = if (pos - k <? j) && (j <=? pos) then buf.[j - 1] else buf.[j])
    (fun k buf => v ← zlook buf (pos - k - 1); put buf (pos - k) v) (Z.to_nat (pos - cpos)) 0 buf) as (b & E & Hl & Hg).
  - split; [done |]. intros j Hj. rewrite Z.sub_0_r. zcases; done || lia.
  - intros k b Hk [Hl Hg]. rewrite zlook_get by lia. cbn [mbind option_bind]. rewrite put_in by lia.
    eexists. split; [done |]. split; [by rewrite zset_zlen |]. intros j Hj. rewrite zget_zset, !Hg by lia.
    zcases; cbn [andb]; try lia; subst; f_equal; lia.
  - exists b. split; [done |]. split; [done |]. intros j Hj. rewrite Hg by done.
    by replace (pos - (0 + Z.of_nat (Z.to_nat (pos - cpos)))) with cpos by lia.
Qed.

Lemma shift_left_spec from pos buf : 0 <= from < pos -> pos <= zlen buf ->
  exists buf', shift_left from pos buf = Some buf' /\ zlen buf' = zlen buf /\
    forall j, 0 <= j -> buf'.[j] = if (from <=? j) && (j <? pos - 1) then buf.[j + 1] else buf.[j].
Proof.
  intros Hc Hp.
  destruct (loopM_inv (fun k b => zlen b = zlen buf /\
      forall j, 0 <= j -> b.[j] = if (from <=? j) && (j <? k) then buf.[j + 1] else buf.[j])
    (fun i buf => v ← zlook buf (i + 1); put buf i v) (Z.to_nat (pos - 1 - from)) from buf) as (b & E & Hl & Hg).
  - split; [done |]. intros j Hj. zcases; done || lia.
  - intros k b Hk [Hl Hg]. rewrite zlook_get by lia. cbn [mbind option_bind]. rewrite put_in by lia.
    eexists. split; [done |]. split; [by rewrite zset_zlen |]. intros j Hj. rewrite zget_zset, !Hg by lia.
    zcases; cbn [andb]; try lia; subst; done.
  - exists b. split; [done |]. split; [done |]. intros j Hj. rewrite Hg by done.
    by replace (from + Z.of_nat (Z.to_nat (pos - 1 - from))) with (pos - 1) by lia.
Qed.

(** The state of a line is determined by its places. *)
Lemma line_is_intro max buf lft rgt rest :
  zlen (rev lft ++ rgt ++ 0 :: rest) = max -> nonzero lft -> nonzero rgt -> buf = rev lft ++ rgt ++ 0 :: rest ->
  line_is max (Line buf (zlen lft + zlen rgt) (zlen lft)) lft rgt.
Proof. intros Hl H1 H2 ->. split; try done. by exists rest. Qed.

Ltac line_nonneg :=
  repeat match goal with
  | l : list Z |- _ => lazymatch goal with _ : 0 <= zlen l |- _ => fail | _ => pose proof (zlen_nonneg l) end
  end.

Lemma insert_line max c l lft rgt : line_is max l lft rgt -> zlen lft + zlen rgt < max - 1 -> c <> 0 ->
  exists l', shell_insert_char c max l = Some l' /\ line_is max l' (c :: lft) rgt.
Proof.
  intros [Hl (rest & Hb) Hp Hc [H1 H2]] Hroom Hn. destruct l as [buf pos cpos]. cbn [l_buf l_pos l_cpos] in *. subst pos cpos.
  line_nonneg. unfold shell_insert_char. destruct (Z.leb_spec (max - 1) (zlen lft + zlen rgt)); [lia |].
  destruct (shift_right_spec (zlen lft + zlen rgt) (zlen lft) buf) as (b & -> & Hlb & Hg); [lia.. |].
  cbn [mbind option_bind]. rewrite put_in by lia. cbn [mbind option_bind]. rewrite put_in by (rewrite zset_zlen; lia).
  cbn [mbind option_bind]. eexists. split; [done |].
  destruct rest as [| x rest]; [subst buf; zlens; change (@zlen Z []) with 0 in *; lia |].
  replace (zlen lft + zlen rgt + 1) with (zlen (c :: lft) + zlen rgt) by (zlens; lia).
  replace (zlen lft + 1) with (zlen (c :: lft)) by (zlens; lia).
  apply line_is_intro with (rest := rest); [subst buf; cbn [rev]; zlens; change (@zlen Z []) with 0 in *; lia | by constructor | done |].
  line_nonneg. apply zlist_ext; [subst buf; cbn [rev]; zlens; change (@zlen Z []) with 0 in *; lia |].
  intros i Hi. cbn [rev]. rewrite <- app_assoc. cbn [app].
  assert (0 <= i < zlen buf) as Hi' by (zlens; lia). clear Hi.
  zpl; rewrite ?Hg by lia; zcases; cbn [andb]; try lia; subst buf; zpl; try done; f_equal; lia.
Qed.

(** What is before [from] stays, one character goes and the rest moves down. *)
Lemma remove_line buf a x b rest : buf = a ++ x :: b ++ 0 :: rest ->
  exists buf', (buf ← shift_left (zlen a) (zlen a + zlen b + 1) buf; put buf (zlen a + zlen b) 0) = Some buf' /\
    buf' = a ++ b ++ 0 :: 0 :: rest.
Proof.
  intros ->. line_nonneg. destruct (shift_left_spec (zlen a) (zlen a + zlen b + 1) (a ++ x :: b ++ 0 :: rest)) as (b' & -> & Hl & Hg);
    [lia | zlens; lia |].
  cbn [mbind option_bind]. rewrite put_in by (rewrite Hl; zlens; lia). eexists. split; [done |].
  apply zlist_ext; [zlens; lia |]. intros i Hi.
  zpl; rewrite ?Hg by lia; zcases; cbn [andb]; try lia; zpl; try done; f_equal; lia.
Qed.

Lemma backspace_line max l lft rgt : line_is max l lft rgt ->
  exists l', shell_backspace_char l = Some l' /\ line_is max l' (tail lft) rgt.
Proof.
  intros [Hl (rest & Hb) Hp Hc [H1 H2]]. destruct l as [buf pos cpos]. cbn [l_buf l_pos l_cpos] in *. subst pos cpos.
  unfold shell_backspace_char. destruct lft as [| x lft].
  { change (zlen []) with 0. cbn [Z.leb]. eexists. split; [done |]. split; try done. by exists rest. }
  line_nonneg. rewrite zlen_cons. destruct (Z.leb_spec (zlen lft + 1) 0); [lia |]. cbn [tail].
  apply Forall_cons in H1 as [Hx H1]. cbn [rev] in Hb. rewrite <- app_assoc in Hb. cbn [app] in Hb.
  destruct (remove_line buf (rev lft) x rgt rest Hb) as (b & E & Eb). rewrite zlen_rev in E.
  replace (zlen lft + 1 - 1) with (zlen lft) by lia. replace (zlen lft + 1 + zlen rgt) with (zlen lft + zlen rgt + 1) by lia.
  replace (zlen lft + zlen rgt + 1 - 1) with (zlen lft + zlen rgt) by lia.
  destruct (shift_left (zlen lft) (zlen lft + zlen rgt + 1) buf) as [b0 |]; [| done]. cbn [mbind option_bind] in E |- *.
  rewrite E. cbn [mbind option_bind]. eexists. split; [done |].
  apply line_is_intro with (rest := 0 :: rest); try done. subst buf. zlens. lia.
Qed.

Lemma delete_line max l lft rgt : line_is max l lft rgt ->
  exists l', shell_delete_char l = Some l' /\ line_is max l' lft (tail rgt).
Proof.
  intros [Hl (rest & Hb) Hp Hc [H1 H2]]. destruct l as [buf pos cpos]. cbn [l_buf l_pos l_cpos] in *. subst pos cpos.
  unfold shell_delete_char. destruct rgt as [| x rgt].
  { change (zlen []) with 0. rewrite Z.add_0_r, Z.leb_refl. eexists. split; [done |]. cbn [tail]. split; try done; [by exists rest | cbn [l_pos]; change (@zlen Z []) with 0; lia]. }
  line_nonneg. rewrite zlen_cons. destruct (Z.leb_spec (zlen lft + (zlen rgt + 1)) (zlen lft)); [lia |]. cbn [tail].
  apply Forall_cons in H2 as [Hx H2].
  destruct (remove_line buf (rev lft) x rgt rest Hb) as (b & E & Eb). rewrite zlen_rev in E.
  replace (zlen lft + (zlen rgt + 1)) with (zlen lft + zlen rgt + 1) by lia.
  replace (zlen lft + zlen rgt + 1 - 1) with (zlen lft + zlen rgt) by lia.
  destruct (shift_left (zlen lft) (zlen lft + zlen rgt + 1) buf) as [b0 |]; [| done]. cbn [mbind option_bind] in E |- *.
  rewrite E. cbn [mbind option_bind]. eexists. split; [done |].
  apply line_is_intro with (rest := 0 :: rest); try done. subst buf. zlens. lia.
Qed.

(** ** The loop of readline is that editor *)

Definition entry_ok (s : list Z) : Prop := zlen s < SHELL_LINE_MAX /\ Forall (fun c => printable c = true) s.
Record hist_ok (h : hist) : Prop := {
  ho_len : zlen (g_history h) = HIST_MAX;
  ho_entries : Forall entry_ok (g_history h);
  ho_idx : 0 <= g_hist_idx h <= g_hist_count h }.

Lemma printable_nonzero s : Forall (fun c => printable c = true) s -> nonzero s.
Proof. intros H. eapply Forall_impl; [exact H |]. cbn. intros c Hc. unfold printable in Hc. lia. Qed.

Lemma history_get_ok i h : hist_ok h -> exists t, history_get i h = Some t /\ entry_ok t.
Proof.
  intros [H1 H2 H3]. unfold history_get. destruct ((i <? 0) || (g_hist_count h <=? i)) eqn:E.
  - exists []. split; [done |]. by split.
  - destruct (zlook_in_range (g_history h) (i mod HIST_MAX)) as [t Et]; [unfold HIST_MAX in *; lia |].
    exists t. split; [done |]. by eapply zlook_Forall in Et.
Qed.

Lemma history_add_ok s h : hist_ok h -> Forall (fun c => printable c = true) s ->
  exists h', history_add s h = Some h' /\ hist_ok h'.
Proof.
  intros [H1 H2 H3] Hs. unfold history_add. destruct s as [| c s]; [by eexists; split |].
  set (t := c :: s) in *. clearbody t.
  assert (forall b : bool, exists h', (if b then Some h else
      if (0 <=? g_hist_count h mod HIST_MAX) && (g_hist_count h mod HIST_MAX <? zlen (g_history h))
      then Some (Hist ((g_history h).[g_hist_count h mod HIST_MAX <- take (Z.to_nat (SHELL_LINE_MAX - 1)) t])
                   (g_hist_count h + 1) (g_hist_count h + 1)) else None) = Some h' /\ hist_ok h') as Hadd.
  { intros [|]; [by eexists; split |]. unfold HIST_MAX in *.
    destruct (Z.leb_spec 0 (g_hist_count h mod 8)), (Z.ltb_spec (g_hist_count h mod 8) (zlen (g_history h))); try lia.
    eexists. split; [done |]. split; cbn [g_history g_hist_idx g_hist_count]; [by rewrite zset_zlen | | lia].
    apply zset_Forall; [done |]. split; [unfold zlen, SHELL_LINE_MAX; rewrite length_take; lia |]. by apply Forall_take. }
  destruct (0 <? g_hist_count h); [| exact (Hadd false)].
  destruct (zlook_in_range (g_history h) ((g_hist_count h - 1) mod HIST_MAX)) as [u ->]; [unfold HIST_MAX in *; lia |].
  exact (Hadd (bool_decide (u = t))).
Qed.

(** Copying a string over the beginning of the line. *)
Lemma copy_prefix n (s buf : list Z) : (n <= length s)%nat -> Z.of_nat n <= zlen buf ->
  loopM n 0 (fun i buf => v ← zlook s i; put buf i v) buf = Some (take n s ++ drop n buf).
Proof.
  intros Hn Hb.
  destruct (loopM_inv (fun k b => zlen b = zlen buf /\ forall j, 0 <= j -> b.[j] = if j <? k then s.[j] else buf.[j])
    (fun i buf => v ← zlook s i; put buf i v) n 0 buf) as (b & -> & Hl & Hg).
  - split; [done |]. intros j Hj. zcases; done || lia.
  - intros k b Hk [Hl Hg]. rewrite zlook_get by (unfold zlen; lia). cbn [mbind option_bind]. rewrite put_in by lia.
    eexists. split; [done |]. split; [by rewrite zset_zlen |]. intros j Hj. rewrite zget_zset, Hg by lia.
    zcases; try lia; subst; done.
  - f_equal. assert (zlen (take n s) = Z.of_nat n) as Ht by (unfold zlen; rewrite length_take; lia).
    assert (zlen (drop n buf) = zlen buf - Z.of_nat n) as Hd by (unfold zlen in *; rewrite length_drop; lia).
    apply zlist_ext; [rewrite zlen_app; lia |]. intros i Hi. rewrite Hg, zget_app by lia. rewrite Ht.
    pose proof (zget_take s i (Z.of_nat n)) as Gt. pose proof (zget_drop buf (i - Z.of_nat n) (Z.of_nat n)) as Gd.
    rewrite Nat2Z.id in Gt, Gd. zcases; try lia. rewrite Gd by lia. f_equal. lia.
Qed.

Lemma load_line_ok max l lft rgt t : line_is max l lft rgt -> entry_ok t -> 0 < max ->
  exists l', load_line t max l = Some l' /\ line_is max l' (rev (take (Z.to_nat (max - 1)) t)) [].
Proof.
  intros [Hl _ _ _ _] [_ Ht] Hmax. destruct l as [buf pos cpos]. cbn [l_buf] in *. unfold load_line. cbn [l_buf].
  set (hl := if max <=? zlen t then max - 1 else zlen t). line_nonneg.
  assert (0 <= hl < max /\ hl <= zlen t) as [Hhl1 Hhl2] by (unfold hl; zcases; lia).
  assert (take (Z.to_nat hl) t = take (Z.to_nat (max - 1)) t) as Etk.
  { unfold hl. destruct (Z.leb_spec max (zlen t)); [done |]. unfold zlen in *. rewrite !take_ge by lia. done. }
  clearbody hl. rewrite copy_prefix by (unfold zlen in *; lia). cbn [mbind option_bind].
  assert (zlen (take (Z.to_nat hl) t) = hl) as Hzl by (apply zlen_take; lia).
  destruct (drop (Z.to_nat hl) buf) as [| x rest] eqn:Ed.
  { apply (f_equal length) in Ed. rewrite length_drop in Ed. unfold zlen in *. cbn in Ed. lia. }
  rewrite put_in by (rewrite zlen_app, Hzl, zlen_cons; line_nonneg; lia). cbn [mbind option_bind].
  rewrite zset_middle by done. eexists. split; [done |]. rewrite <- Etk.
  split; cbn [l_buf l_pos l_cpos]; rewrite ?zlen_rev, ?Hzl; try done.
  - rewrite zlen_app, zlen_cons, Hzl. apply (f_equal zlen) in Ed. rewrite zlen_drop, zlen_cons in Ed by lia. lia.
  - exists rest. by rewrite rev_involutive.
  - change (@zlen Z []) with 0. lia.
  - split; [| constructor]. apply nonzero_rev, printable_nonzero, Forall_take, Ht.
Qed.

Section refines.
Context (font : Z -> Z) (C : gpu -> Prop) {HC : console font C}.
Implicit Types g : gpu.

Lemma print_ok s : forall g, C g -> exists g', gpu_print font s g = Some g' /\ C g'.
Proof.
  induction s as [| c s IH]; intros g Hg; cbn [gpu_print]; [eauto |].
  destruct (con_putc c g Hg) as (g1 & -> & H1). cbn [mbind option_bind]. by apply IH.
Qed.

Lemma loop_putc_ok n i f g : C g -> (forall j, i <= j < i + Z.of_nat n -> exists c : Z, f j = Some c) ->
  exists g', loopM n i (fun j g => c ← f j; gpu_putc font c g) g = Some g' /\ C g'.
Proof.
  intros Hg Hf. destruct (loopM_inv (fun _ g => C g) (fun j g => c ← f j; gpu_putc font c g) n i g) as (g' & E & H); [done | | eauto].
  intros j t Hj Ht. destruct (Hf j Hj) as [c ->]. cbn [mbind option_bind]. apply con_putc, Ht.
Qed.

Lemma prompt_ok g : C g -> exists g', shell_print_prompt font g = Some g' /\ C g'.
Proof.
  intros Hg. unfold shell_print_prompt.
  destruct (print_ok PROMPT_NAME _ (con_color 0x0A 0x00 g Hg)) as (g1 & -> & H1). cbn [mbind option_bind].
  destruct (print_ok [58] _ (con_color 0x0F 0x00 g1 H1)) as (g2 & -> & H2). cbn [mbind option_bind].
  destruct (print_ok [126] _ (con_color 0x0B 0x00 g2 H2)) as (g3 & -> & H3). cbn [mbind option_bind].
  apply (print_ok [36; 32] _ (con_color 0x0F 0x00 g3 H3)).
Qed.

Lemma redraw_ok max l lft rgt g : line_is max l lft rgt -> C g -> exists g', redraw font l g = Some g' /\ C g'.
Proof.
  intros Hl Hg. unfold redraw, shell_redraw_line, put_chars. rewrite (line_text max l lft rgt Hl). cbn [mbind option_bind].
  destruct Hl as [Hlen (rest & Hb) Hp Hc _].
  destruct (print_ok [13] g Hg) as (g1 & -> & H1). cbn [mbind option_bind].
  destruct (prompt_ok g1 H1) as (g2 & -> & H2). cbn [mbind option_bind].
  destruct (loop_putc_ok (Z.to_nat (zlen (rev lft ++ rgt))) 0 (zlook (l_buf l)) g2 H2) as (g3 & -> & H3).
  { intros j Hj. apply zlook_in_range. rewrite Hb. zlens. line_nonneg. lia. }
  cbn [mbind option_bind].
  destruct (loop_putc_ok (Z.to_nat (gpu_console_cols g - 1 - (15 + zlen (rev lft ++ rgt)))) 0 (fun _ => Some 32) g3 H3)
    as (g4 & E4 & H4); [by intros; eexists |]. cbn [mbind option_bind] in E4. rewrite E4. cbn [mbind option_bind].
  destruct (print_ok [13] g4 H4) as (g5 & -> & H5). cbn [mbind option_bind].
  destruct (prompt_ok g5 H5) as (g6 & -> & H6). cbn [mbind option_bind].
  apply loop_putc_ok; [done |]. intros j Hj. apply zlook_in_range. rewrite Hb. zlens. line_nonneg. lia.
Qed.

Record rl_is (max : Z) (s : rl) (e : ed) : Prop := {
  rs_line : line_is max (r_line s) (e_left e) (e_right e);
  rs_hist : r_hist s = e_hist e;
  rs_ok : hist_ok (e_hist e);
  rs_text : Forall (fun c => printable c = true) (e_text e);
  rs_con : C (r_gpu s) }.

(** What drawing the line achieves, on any console. *)
Context (D : list Z -> list Z -> gpu -> Prop).
Context (HD : forall max l lft rgt g, line_is max l lft rgt -> Forall (fun c => printable c = true) (rev lft ++ rgt) -> C g ->
  exists g', redraw font l g = Some g' /\ C g' /\ D lft rgt g').
Definition drawn_as (s : rl) (e : ed) : Prop := D (e_left e) (e_right e) (r_gpu s).

(** A line and its drawing. *)
Lemma redraw_is max l lft rgt h g : line_is max l lft rgt -> hist_ok h -> Forall (fun c => printable c = true) (rev lft ++ rgt) ->
  C g -> exists s', redraw_with font l h g = Some s' /\ rl_is max s' (Ed lft rgt h) /\ drawn_as s' (Ed lft rgt h).
Proof.
  intros Hl Hh Ht Hg. unfold redraw_with. destruct (HD max l lft rgt g Hl Ht Hg) as (g' & -> & Hg' & Hd).
  cbn [mbind option_bind]. eexists. split; [done |]. by split.
Qed.

Lemma line_move max buf p c lft rgt lft' rgt' : line_is max (Line buf p c) lft rgt -> rev lft ++ rgt = rev lft' ++ rgt' ->
  line_is max (Line buf p (zlen lft')) lft' rgt'.
Proof.
  intros [Hl (rest & Hb) Hp _ [H1 H2]] E. split; cbn [l_buf l_pos l_cpos] in *; try done.
  - exists rest. by rewrite Hb, !app_assoc, E.
  - apply (f_equal zlen) in E. zlens. lia.
  - assert (nonzero (rev lft' ++ rgt')) as [H3 H4]%Forall_app by (rewrite <- E; apply Forall_app; by split; [apply nonzero_rev |]).
    split; [| done]. rewrite <- (rev_involutive lft'). by apply nonzero_rev.
Qed.

Lemma recall_is max i s e : rl_is max s e -> 0 < max -> 0 <= i <= g_hist_count (e_hist e) ->
  exists s', (t ← history_get i (set_idx i (e_hist e)); l ← load_line t max (r_line s); redraw_with font l (set_idx i (e_hist e)) (r_gpu s))
      = Some s' /\ rl_is max s' (recall i max e) /\ drawn_as s' (recall i max e).
Proof.
  intros [Hl Hh Ho Ht Hg] Hmax Hi.
  assert (hist_ok (set_idx i (e_hist e))) as Ho' by (destruct Ho; by split).
  destruct (history_get_ok i _ Ho') as (t & Et & Hok). unfold recall. rewrite Et. cbn [mbind option_bind default].
  destruct (load_line_ok max _ _ _ t Hl Hok Hmax) as (l' & -> & Hl'). cbn [mbind option_bind].
  apply redraw_is; [done | done | | done]. rewrite rev_involutive, app_nil_r. apply Forall_take, Hok.
Qed.

Lemma key_refines max c s e : rl_is max s e -> drawn_as s e -> 0 < max ->
  exists s', readline_key font max c s = Some (c =? 10, s') /\ rl_is max s' (if c =? 10 then e else ed_key max c e) /\
    (c <> 10 -> drawn_as s' (ed_key max c e)).
Proof.
  intros Hs Hd Hmax. pose proof Hs as [Hl Hh Ho Ht Hg]. destruct s as [[buf pos cpos] h g], e as [lft rgt h'].
  cbn [r_line r_hist r_gpu e_left e_right e_hist] in *. subst h'. unfold e_text in Ht. cbn [e_left e_right] in Ht.
  pose proof Hl as [Hlen (rest & Hb) Hp Hc [Hn1 Hn2]]. cbn [l_buf l_pos l_cpos] in Hlen, Hb, Hp, Hc. line_nonneg.
  apply Forall_app in Ht as Ht'. destruct Ht' as [Ht1 Ht2].
  assert (exists s', Some (false, Rl (Line buf pos cpos) h g) = Some (false, s') /\ rl_is max s' (Ed lft rgt h) /\ (c <> 10 -> drawn_as s' (Ed lft rgt h))) as Hsame by eauto.
  assert (forall o e', (exists s', o = Some s' /\ rl_is max s' e' /\ drawn_as s' e') ->
    exists s', (s ← o; Some (false, s)) = Some (false, s') /\ rl_is max s' e' /\ (c <> 10 -> drawn_as s' e')) as Hgo.
  { intros o e' (s' & -> & Hs' & Hd'). eauto. }
  unfold readline_key, ed_key, KEY_DEL, KEY_LEFT, KEY_RIGHT, KEY_HOME, KEY_END, KEY_UP, KEY_DOWN.
  destruct (Z.eqb_spec c 0) as [-> |]; [exact Hsame |].
  destruct (Z.eqb_spec c 10) as [-> |].
  { destruct (con_putc 10 g Hg) as (g1 & -> & Hg1). cbn [mbind option_bind].
    assert (pos = zlen (rev lft ++ rgt)) as Hpos by (zlens; lia).
    rewrite put_in by (rewrite Hb; zlens; line_nonneg; lia). cbn [mbind option_bind]. eexists. split; [done |]. split; [| done]. split; try done.
    assert (buf.[pos <- 0] = buf) as ->; [| done]. rewrite Hb at 2. rewrite Hb, !app_assoc. by apply zset_middle. }
  destruct (Z.eqb_spec c 8) as [-> |].
  { destruct lft as [| x lft].
    - rewrite Hc. change (0 <? zlen []) with false. rewrite <- Hc. exact Hsame.
    - rewrite zlen_cons in *. pose proof (zlen_nonneg lft). destruct (Z.ltb_spec 0 cpos); [| lia].
      destruct (backspace_line max _ _ _ Hl) as (l' & -> & Hl'). cbn [mbind option_bind]. apply Hgo, redraw_is; try done.
      apply Forall_app. split; [| done]. cbn [rev] in Ht1. by apply Forall_app in Ht1 as [? _]. }
  destruct (Z.eqb_spec c 262) as [-> |].
  { destruct (delete_line max _ _ _ Hl) as (l' & -> & Hl'). cbn [mbind option_bind]. apply Hgo.
    destruct rgt as [| x rgt]; apply redraw_is; try done.
    apply Forall_app. split; [done |]. by apply Forall_cons in Ht2 as [_ ?]. }
  destruct (Z.eqb_spec c 9) as [-> |]; [exact Hsame |].
  destruct (Z.eqb_spec c 3) as [-> |].
  { destruct (print_ok [94; 67; 10] g Hg) as (g1 & -> & Hg1). cbn [mbind option_bind].
    destruct buf as [| x buf]; [exfalso; unfold zlen in Hlen; cbn in Hlen; lia |]. rewrite put_in by (rewrite zlen_cons; pose proof (zlen_nonneg buf); lia).
    cbn [mbind option_bind]. apply Hgo, redraw_is; try done. split; try done; [by exists buf | split; constructor]. }
  destruct (Z.eqb_spec c 258) as [-> |].
  { destruct lft as [| x lft].
    - rewrite Hc. change (0 <? zlen []) with false. rewrite <- Hc. exact Hsame.
    - rewrite zlen_cons in Hc. pose proof (zlen_nonneg lft). destruct (Z.ltb_spec 0 cpos); [| lia].
      replace (cpos - 1) with (zlen lft) by lia. cbn [rev] in Ht, Hl. rewrite <- app_assoc in Ht.
      apply Hgo, redraw_is; try done. eapply line_move; [exact Hl |]. cbn [rev]. by rewrite <- app_assoc. }
  destruct (Z.eqb_spec c 259) as [-> |].
  { destruct rgt as [| x rgt].
    - change (zlen []) with 0 in Hp. destruct (Z.ltb_spec cpos pos); [lia | exact Hsame].
    - rewrite zlen_cons in Hp. pose proof (zlen_nonneg rgt). destruct (Z.ltb_spec cpos pos); [| lia].
      replace (cpos + 1) with (zlen (x :: lft)) by (rewrite zlen_cons; lia).
      apply Hgo, redraw_is; try done; [| cbn [rev]; by rewrite <- app_assoc].
      eapply line_move; [exact Hl |]. cbn [rev]. by rewrite <- app_assoc. }
  destruct (Z.eqb_spec c 260) as [-> |].
  { apply Hgo, redraw_is; try done. by eapply (line_move _ _ _ _ _ _ []). }
  destruct (Z.eqb_spec c 261) as [-> |].
  { apply Hgo, redraw_is; try done; [| by rewrite rev_app_distr, rev_involutive, app_nil_r].
    replace pos with (zlen (rev rgt ++ lft)) at 2 by (zlens; lia).
    eapply line_move; [exact Hl |]. by rewrite rev_app_distr, rev_involutive, app_nil_r. }
  destruct (Z.eqb_spec c 256) as [-> |].
  { cbn [orb Z.eqb Pos.eqb andb]. change (256 =? 256) with true. cbn [orb andb]. destruct (Z.ltb_spec 0 (g_hist_idx h)); [| exact Hsame].
    destruct (recall_is max (g_hist_idx h - 1) _ _ Hs Hmax) as (s' & E & Hs' & Hd'); [destruct Ho; cbn [e_hist]; lia |].
    cbn [e_hist r_line r_gpu] in E. exists s'. split; [| done].
    destruct (history_get _ _) as [t |]; [| done]. cbn [mbind option_bind] in E |- *.
    destruct (load_line _ _ _) as [l' |]; [| done]. cbn [mbind option_bind] in E |- *. by rewrite E. }
  destruct (Z.eqb_spec c 257) as [-> |].
  { change (257 =? 256) with false. change (257 =? 257) with true. cbn [orb andb].
    destruct (Z.ltb_spec (g_hist_idx h) (g_hist_count h)); [| exact Hsame].
    destruct (recall_is max (g_hist_idx h + 1) _ _ Hs Hmax) as (s' & E & Hs' & Hd'); [destruct Ho; cbn [e_hist]; lia |].
    cbn [e_hist r_line r_gpu] in E. exists s'. split; [| done].
    destruct (history_get _ _) as [t |]; [| done]. cbn [mbind option_bind] in E |- *.
    destruct (load_line _ _ _) as [l' |]; [| done]. cbn [mbind option_bind] in E |- *. by rewrite E. }
  cbn [orb]. fold (printable c). rewrite <- Hp. destruct (printable c) eqn:Epr; [| exact Hsame].
  destruct (Z.ltb_spec pos (max - 1)); [| exact Hsame]. cbn [andb].
  destruct (insert_line max c _ _ _ Hl) as (l' & -> & Hl'); [lia | unfold printable in Epr; lia |]. cbn [mbind option_bind].
  apply Hgo, redraw_is; try done. cbn [rev]. rewrite <- app_assoc. apply Forall_app. split; [done |]. by constructor.
Qed.

Lemma run_refines max keys : forall s e, rl_is max s e -> drawn_as s e -> 0 < max ->
  exists s', readline_from font max keys s = Some (fst (fst (ed_run max keys e)), snd (fst (ed_run max keys e)), s') /\
    rl_is max s' (snd (ed_run max keys e)) /\
    match fst (fst (ed_run max keys e)) with
    | Some t => t = e_text (snd (ed_run max keys e))
    | None => drawn_as s' (snd (ed_run max keys e))
    end.
Proof.
  induction keys as [| c keys IH]; intros s e Hs Hd Hmax; cbn [readline_from ed_run]; [by exists s |].
  destruct (key_refines max c s e Hs Hd Hmax) as (s1 & -> & Hs1 & Hd1). cbn [mbind option_bind].
  destruct (Z.eqb_spec c 10).
  - rewrite (line_text _ _ _ _ (rs_line _ _ _ Hs1)). cbn [mbind option_bind fst snd]. exists s1. by split.
  - apply IH; auto.
Qed.

Lemma readline_run max keys buf h g : 0 < max -> zlen buf = max -> hist_ok h -> C g -> D [] [] g ->
  exists s', readline font max keys buf h g =
      Some (fst (fst (ed_run max keys (Ed [] [] h))), snd (fst (ed_run max keys (Ed [] [] h))), s') /\
    rl_is max s' (snd (ed_run max keys (Ed [] [] h))) /\
    match fst (fst (ed_run max keys (Ed [] [] h))) with
    | Some t => t = e_text (snd (ed_run max keys (Ed [] [] h)))
    | None => drawn_as s' (snd (ed_run max keys (Ed [] [] h)))
    end.
Proof.
  intros Hmax Hbuf Hh Hg Hd. unfold readline. destruct buf as [| x buf]; [unfold zlen in Hbuf; cbn in Hbuf; lia |].
  rewrite put_in by (rewrite Hbuf; lia). cbn [mbind option_bind]. apply run_refines; [| done | done].
  split; try done. split; try done; [by exists buf | split; constructor].
Qed.
End refines.

(** C28: whatever keys come, the editor of the command line never leaves its array, and the
    line, the cursor, the position in the history and the completed line are those of the
    abstract editor, which is a line divided at its cursor; a completed line is shorter
    than the array and holds printable characters only, and the console is still one. *)
Theorem readline_refines (font : Z -> Z) (C : gpu -> Prop) (HC : console font C)
    (max : Z) (keys buf : list Z) (h : hist) (g : gpu)
    (Hmax : 0 < max) (Hbuf : zlen buf = max) (Hh : hist_ok h) (Hg : C g) :
  exists s', readline font max keys buf h g =
      Some (fst (fst (ed_run max keys (Ed [] [] h))), snd (fst (ed_run max keys (Ed [] [] h))), s') /\
    rl_is C max s' (snd (ed_run max keys (Ed [] [] h))) /\
    forall t, fst (fst (ed_run max keys (Ed [] [] h))) = Some t -> zlen t < max /\ Forall (fun c => printable c = true) t.
Proof.
  destruct (readline_run font C (fun _ _ _ => True)) with (max := max) (keys := keys) (buf := buf) (h := h) (g := g)
    as (s' & E & Hs' & Ht); try done.
  { intros m l lft rgt g0 Hl _ Hg0. destruct (redraw_ok font C m l lft rgt g0 Hl Hg0) as (g' & E & Hg'). by exists g'. }
  exists s'. split; [exact E |]. split; [done |]. intros t Et. rewrite Et in Ht. subst t.
  destruct Hs' as [[Hl (rest & Hb) _ _ _] _ _ Hp _]. split; [| done].
  unfold e_text. rewrite Hb in Hl. zlens. pose proof (zlen_nonneg rest). lia.
Qed.

(** ** What is seen of the line *)

Definition cells (color : Z) (s : list Z) : list Z := map (fun c => fb_cell c color) s.
Definition prompt_cells : list Z :=
  cells 0x0A PROMPT_NAME ++ cells 0x0F [58] ++ cells 0x0B [126] ++ cells 0x0F [36; 32].
(** A row of the screen with the prompt, the line [t] and blanks; its last cell is left. *)
Definition edit_row (t w : list Z) : list Z :=
  prompt_cells ++ cells 0x0F t ++ cells 0x0F (replicate (64 - length t) 32) ++ drop 79 w.

(** The screen whose row [length above] is [w]. *)
Definition at_row (above : list (list Z)) (w : list Z) (below : list (list Z)) (c color : Z) : screen :=
  Screen (above ++ w :: below) (zlen above) c color.

(** The console shows the line with its cursor. *)
Definition edited (lft rgt : list Z) (g : gpu) : Prop :=
  exists above w below, length w = 80%nat /\
    shows g (at_row above (edit_row (rev lft ++ rgt) w) below (15 + zlen lft) 0x0F).

Lemma cells_app color s t : cells color (s ++ t) = cells color s ++ cells color t.
Proof. apply map_app. Qed.
Lemma cells_zlen color s : zlen (cells color s) = zlen s.
Proof. unfold zlen, cells. by rewrite length_map. Qed.

Lemma printable_char c : printable c = true -> (c =? 12) = false /\ (c =? 10) = false /\ (c =? 13) = false /\ (c =? 8) = false.
Proof. unfold printable. intros H. split_and!; lia. Qed.

(** Characters go to the cells from the cursor on. *)
Lemma plain_print s : forall above p o below color, Forall (fun c => printable c = true) s -> zlen p + zlen s < 80 ->
  zlen p + zlen o = 80 ->
  screen_print (at_row above (p ++ o) below (zlen p) color) s =
    at_row above (p ++ cells color s ++ drop (length s) o) below (zlen p + zlen s) color.
Proof.
  induction s as [| c s IH]; intros above p o below color Hs Hl Ho.
  { cbn. by rewrite Z.add_0_r. }
  apply Forall_cons in Hs as [Hc Hs]. rewrite zlen_cons in Hl. pose proof (zlen_nonneg s). pose proof (zlen_nonneg p).
  destruct o as [| x o]; [change (zlen []) with 0 in Ho; lia |]. cbn [screen_print foldl].
  unfold at_row at 1. cbn [screen_putc]. destruct (printable_char c Hc) as (-> & -> & -> & ->).
  unfold VGA_COLS. destruct (Z.ltb_spec (zlen p + 1) 80); [| lia].
  replace (Z.to_nat (zlen above)) with (length above + 0)%nat by (unfold zlen; lia).
  rewrite alter_app_r. cbn [alter list_alter]. rewrite zset_middle by done.
  specialize (IH above (p ++ [fb_cell c color]) o below color Hs).
  rewrite zlen_app, <- app_assoc in IH. cbn [app] in IH. change (zlen [fb_cell c color]) with 1 in IH.
  rewrite zlen_cons in Ho. specialize (IH ltac:(lia) ltac:(lia)). unfold at_row at 1 in IH. unfold screen_print in IH. rewrite IH.
  rewrite <- app_assoc. cbn [app cells map length drop]. f_equal. rewrite zlen_cons. lia.
Qed.

Section seen.
Context (font : Z -> Z).
Implicit Types g : gpu.

Lemma print_shows s : forall g sc, shows g sc -> exists g', gpu_print font s g = Some g' /\ shows g' (screen_print sc s).
Proof.
  induction s as [| c s IH]; intros g sc Hs; cbn [gpu_print screen_print foldl]; [eauto |].
  destruct (putc_shows font g sc c Hs) as (g1 & -> & H1). cbn [mbind option_bind]. by apply IH.
Qed.

Lemma color_shows fg bg g sc : shows g sc ->
  shows (gpu_set_color fg bg g) (Screen (sc_rows sc) (sc_r sc) (sc_c sc) (u8 (Z.lor fg (Z.shiftl bg 4)))).
Proof. intros []. by split. Qed.

(** Printing one piece of a row in one colour. *)
Lemma piece_shows s fg g above p o below color : shows g (at_row above (p ++ o) below (zlen p) color) ->
  Forall (fun c => printable c = true) s -> zlen p + zlen s < 80 -> zlen p + zlen o = 80 -> 0 <= fg < 16 ->
  exists g', gpu_print font s (gpu_set_color fg 0 g) = Some g' /\
    shows g' (at_row above ((p ++ cells fg s) ++ drop (length s) o) below (zlen (p ++ cells fg s)) fg).
Proof.
  intros Hs Hp H1 H2 Hfg. apply (color_shows fg 0) in Hs. cbn [at_row sc_rows sc_r sc_c] in Hs.
  change (Z.shiftl 0 4) with 0 in Hs. rewrite Z.lor_0_r, u8_id in Hs by lia.
  destruct (print_shows s _ _ Hs) as (g' & E & Hs'). exists g'. split; [exact E |].
  change (Screen (above ++ (p ++ o) :: below) (zlen above) (zlen p) fg) with (at_row above (p ++ o) below (zlen p) fg) in Hs'.
  rewrite plain_print in Hs' by done. rewrite <- app_assoc, zlen_app, cells_zlen. exact Hs'.
Qed.

Lemma prompt_shows g above w below color : length w = 80%nat -> shows g (at_row above w below 0 color) ->
  exists g', shell_print_prompt font g = Some g' /\
    shows g' (at_row above (prompt_cells ++ drop 15 w) below 15 0x0F).
Proof.
  intros Hw Hs. unfold shell_print_prompt. assert (zlen w = 80) as Hz by (unfold zlen; lia).
  destruct (piece_shows PROMPT_NAME 0x0A g above [] w below color Hs) as (g1 & -> & H1); [by repeat constructor | done | done | done |].
  cbn [mbind option_bind].
  destruct (piece_shows [58] 0x0F g1 above _ _ below 0x0A H1) as (g2 & -> & H2);
    [by repeat constructor | done | unfold zlen; rewrite length_drop, Hw; done | done |]. cbn [mbind option_bind].
  destruct (piece_shows [126] 0x0B g2 above _ _ below 0x0F H2) as (g3 & -> & H3);
    [by repeat constructor | done | unfold zlen; rewrite !length_drop, Hw; done | done |]. cbn [mbind option_bind].
  destruct (piece_shows [36; 32] 0x0F g3 above _ _ below 0x0B H3) as (g4 & E4 & H4);
    [by repeat constructor | done | unfold zlen; rewrite !length_drop, Hw; done | done |].
  exists g4. split; [exact E4 |]. rewrite !drop_drop in H4. exact H4.
Qed.

Lemma put_chars_print n buf g : 0 <= n <= zlen buf -> put_chars font n buf g = gpu_print font (take (Z.to_nat n) buf) g.
Proof.
  intros Hn. unfold put_chars. assert (forall k i g, i + Z.of_nat k <= zlen buf -> 0 <= i ->
    loopM k i (fun i g => c ← zlook buf i; gpu_putc font c g) g = gpu_print font (take k (drop (Z.to_nat i) buf)) g) as H.
  { clear. induction k as [| k IH]; intros i g Hk Hi; [done |]. cbn [loopM].
    destruct (zlook_in_range buf i) as [c Ec]; [lia |]. rewrite Ec. cbn [mbind option_bind].
    rewrite zlook_nonneg in Ec by done. rewrite (drop_S buf c) by done. cbn [take gpu_print].
    destruct (gpu_putc font c g); [| done]. cbn [mbind option_bind]. rewrite IH by lia. do 3 f_equal. lia. }
  rewrite H by lia. done.
Qed.

Lemma blanks_print n : forall i g, loopM n i (fun _ g => gpu_putc font 32 g) g = gpu_print font (replicate n 32) g.
Proof.
  induction n as [| n IH]; intros i g; [done |]. cbn [loopM replicate gpu_print].
  destruct (gpu_putc font 32 g); [| done]. cbn [mbind option_bind]. apply IH.
Qed.

(** Any screen is one with a current row. *)
Lemma screen_at g sc : shows g sc -> exists above w below, length w = 80%nat /\ sc = at_row above w below (sc_c sc) (sc_color sc).
Proof.
  intros [_ _ [H1 H2] [_ Hr] _ _]. destruct sc as [rows r c color]. cbn [sc_rows sc_r sc_c sc_color] in *. unfold VGA_ROWS in Hr.
  destruct (lookup_lt_is_Some_2 rows (Z.to_nat r)) as [w Hw]; [lia |].
  exists (take (Z.to_nat r) rows), w, (drop (S (Z.to_nat r)) rows). split; [by eapply Forall_lookup_1 in H2 |].
  unfold at_row. f_equal; [by rewrite take_drop_middle |]. unfold zlen. rewrite length_take. lia.
Qed.

Lemma return_shows g above w below c color : shows g (at_row above w below c color) ->
  exists g', gpu_print font [13] g = Some g' /\ shows g' (at_row above w below 0 color).
Proof. intros Hs. destruct (print_shows [13] g _ Hs) as (g' & E & Hs'). by exists g'. Qed.

(** Printing in the colour the console has. *)
Lemma text_shows s g above p o below color : shows g (at_row above (p ++ o) below (zlen p) color) ->
  Forall (fun c => printable c = true) s -> zlen p + zlen s < 80 -> zlen p + zlen o = 80 ->
  exists g', gpu_print font s g = Some g' /\
    shows g' (at_row above ((p ++ cells color s) ++ drop (length s) o) below (zlen (p ++ cells color s)) color).
Proof.
  intros Hs Hp H1 H2. destruct (print_shows s _ _ Hs) as (g' & E & Hs'). exists g'. split; [exact E |].
  rewrite plain_print in Hs' by done. rewrite <- app_assoc, zlen_app, cells_zlen. exact Hs'.
Qed.

Lemma redraw_shows max l lft rgt g : line_is max l lft rgt -> Forall (fun c => printable c = true) (rev lft ++ rgt) ->
  text_console g -> zlen (rev lft ++ rgt) <= 64 ->
  exists g', redraw font l g = Some g' /\ edited lft rgt g'.
Proof.
  intros Hl Ht [sc Hs] H64. destruct (screen_at g sc Hs) as (above & w & below & Hw & E). rewrite E in Hs. clear E.
  pose proof (text_mode g _ Hs) as Hmode.
  unfold redraw, shell_redraw_line. rewrite (line_text max l lft rgt Hl). cbn [mbind option_bind].
  destruct Hl as [_ (rest & Hb) _ Hc _]. set (t := rev lft ++ rgt) in *. rewrite app_assoc in Hb. fold t in Hb.
  pose proof (zlen_nonneg t). pose proof (zlen_nonneg lft).
  unfold gpu_console_cols, con_cols. rewrite Hmode. unfold VGA_COLS.
  destruct (return_shows g _ _ _ _ _ Hs) as (g1 & -> & H1). cbn [mbind option_bind].
  destruct (prompt_shows g1 above w below _ Hw H1) as (g2 & -> & H2). cbn [mbind option_bind].
  rewrite put_chars_print by (rewrite Hb, zlen_app, zlen_cons; pose proof (zlen_nonneg rest); lia).
  replace (take (Z.to_nat (zlen t)) (l_buf l)) with t by (rewrite Hb, take_app_le, take_ge by (unfold zlen; lia); done).
  assert (zlen (drop 15 w) = 65) as H65 by (unfold zlen; rewrite length_drop, Hw; done).
  destruct (text_shows t g2 above prompt_cells (drop 15 w) below 0x0F H2 Ht) as (g3 & -> & H3);
    [change (zlen prompt_cells) with 15; lia | rewrite H65; done |]. cbn [mbind option_bind].
  rewrite blanks_print. replace (Z.to_nat (80 - 1 - (15 + zlen t))) with (64 - length t)%nat by (unfold zlen; lia).
  assert (zlen (prompt_cells ++ cells 0x0F t) = 15 + zlen t) as Hpt by (by rewrite zlen_app, cells_zlen).
  assert (zlen (drop (length t) (drop 15 w)) = 65 - zlen t) as Hdt by (unfold zlen in *; rewrite length_drop; lia).
  destruct (text_shows (replicate (64 - length t) 32) g3 above _ _ below 0x0F H3) as (g4 & -> & H4);
    [by apply Forall_replicate | rewrite Hpt, zlen_replicate; unfold zlen in *; lia | rewrite Hpt, Hdt; lia |].
  cbn [mbind option_bind]. rewrite length_replicate, !drop_drop in H4.
  replace (15 + (length t + (64 - length t)))%nat with 79%nat in H4 by (unfold zlen in *; lia).
  assert (length (((prompt_cells ++ cells 15 t) ++ cells 15 (replicate (64 - length t) 32)) ++ drop 79 w) = 80%nat) as H80.
  { rewrite !length_app, length_drop. unfold cells. rewrite !length_map, length_replicate, Hw.
    change (length prompt_cells) with 15%nat. unfold zlen in *. lia. }
  destruct (return_shows g4 _ _ _ _ _ H4) as (g5 & -> & H5). cbn [mbind option_bind].
  destruct (prompt_shows g5 above _ below _ H80 H5) as (g6 & -> & H6). cbn [mbind option_bind].
  rewrite <- !app_assoc in H6. rewrite (drop_app_length' prompt_cells) in H6 by done.
  rewrite Hc. assert (zlen lft <= zlen t) as Hlt by (unfold t; rewrite zlen_app, zlen_rev; pose proof (zlen_nonneg rgt); lia).
  rewrite put_chars_print by (rewrite Hb, zlen_app, zlen_cons; pose proof (zlen_nonneg rest); lia).
  replace (take (Z.to_nat (zlen lft)) (l_buf l)) with (rev lft)
    by (rewrite Hb; unfold t; rewrite <- app_assoc, take_app_length' by (rewrite length_rev; unfold zlen; lia); done).
  destruct (text_shows (rev lft) g6 above prompt_cells (cells 15 t ++ cells 15 (replicate (64 - length t) 32) ++ drop 79 w) below 0x0F H6)
    as (g7 & -> & H7).
  - by apply Forall_app in Ht as [? _].
  - rewrite zlen_rev. change (zlen prompt_cells) with 15. lia.
  - rewrite !zlen_app in H3. unfold zlen. rewrite <- !app_assoc, length_app in H80. unfold zlen in *. lia.
  - exists g7. split; [done |]. exists above, w, below. split; [done |].
    rewrite zlen_app, cells_zlen, zlen_rev in H7. change (zlen prompt_cells) with 15 in H7.
    fold t. unfold edit_row. unfold t at 1 in H7. rewrite cells_app, <- !app_assoc in H7.
    rewrite drop_app_length' in H7 by (unfold cells; by rewrite length_map). unfold t at 1. rewrite cells_app, <- !app_assoc. exact H7.
Qed.
End seen.

(** Also: while a line is edited on the text console, its row shows the prompt and the
    line followed by blanks, with the cursor of the screen at the cursor of the line, after
    any keys at all, as long as the line is not longer than the 64 characters that fit
    behind the prompt (a longer one may come and go in between). *)
Theorem readline_shows (font : Z -> Z) (max : Z) (keys buf : list Z) (h : hist) (g : gpu)
    (Hmax : 0 < max) (Hbuf : zlen buf = max) (Hh : hist_ok h) (Hg : edited [] [] g)
    (Hopen : fst (fst (ed_run max keys (Ed [] [] h))) = None)
    (H64 : zlen (e_text (snd (ed_run max keys (Ed [] [] h)))) <= 64) :
  exists s', readline font max keys buf h g = Some (None, [], s') /\
    edited (e_left (snd (ed_run max keys (Ed [] [] h)))) (e_right (snd (ed_run max keys (Ed [] [] h)))) (r_gpu s').
Proof.
  destruct (readline_run font text_console (fun lft rgt g => zlen (rev lft ++ rgt) <= 64 -> edited lft rgt g)) with
    (max := max) (keys := keys) (buf := buf) (h := h) (g := g) as (s' & E & _ & Hd); try done.
  - intros m l lft rgt g0 Hl Ht Hg0. destruct (redraw_ok font text_console m l lft rgt g0 Hl Hg0) as (g' & E & Hg').
    exists g'. split; [done |]. split; [done |]. intros Hs. destruct (redraw_shows font m l lft rgt g0 Hl Ht Hg0 Hs) as (g2 & E2 & Hg2).
    rewrite E in E2. by injection E2 as <-.
  - destruct Hg as (above & w & below & _ & Hs). by eexists.
  - rewrite Hopen in Hd, E. exists s'. split; [| by apply Hd]. rewrite E. f_equal. f_equal. f_equal.
    clear -Hopen. revert Hopen. generalize (Ed [] [] h). induction keys as [| c keys IH]; intros e; cbn [ed_run]; [done |].
    destruct (c =? 10); [done |]. apply IH.
Qed.

(** ** Lines that do not fit *)

Definition at_pos (g : gpu) (p : Z) : Prop := exists sc, shows g sc /\ 80 * sc_r sc + sc_c sc = p.

Section slides.
Context (font : Z -> Z).

Lemma plain_pos s : forall g p, at_pos g p -> Forall (fun c => printable c = true) s -> p + zlen s < 2000 ->
  exists g', gpu_print font s g = Some g' /\ at_pos g' (p + zlen s).
Proof.
  induction s as [| c s IH]; intros g p (sc & Hs & Hp) Hc Hl; cbn [gpu_print].
  { exists g. split; [done |]. exists sc. split; [done |]. change (zlen []) with 0. lia. }
  apply Forall_cons in Hc as [Hc1 Hc]. rewrite zlen_cons in Hl |- *. pose proof (zlen_nonneg s).
  destruct (putc_shows font g sc c Hs) as (g1 & -> & H1). cbn [mbind option_bind].
  destruct (IH g1 (p + 1)) as (g2 & E2 & H2); [| done | lia |].
  - exists (screen_putc sc c). split; [done |]. destruct Hs as [_ _ _ [_ Hr] [_ Hcc] _]. destruct sc as [rows r col color].
    cbn [sc_r sc_c] in *. unfold screen_putc, VGA_ROWS, VGA_COLS in *. destruct (printable_char c Hc1) as (-> & -> & -> & ->).
    destruct (Z.ltb_spec (col + 1) 80); cbn [sc_r sc_c]; [lia |].
    rewrite scroll_up_in by (cbn [sc_r]; unfold VGA_ROWS; lia). cbn [sc_r sc_c]. lia.
  - exists g2. split; [exact E2 |]. by replace (p + (zlen s + 1)) with (p + 1 + zlen s) by lia.
Qed.

Lemma color_pos fg bg g p : at_pos g p -> at_pos (gpu_set_color fg bg g) p.
Proof. intros (sc & Hs & Hp). eexists. split; [by apply color_shows |]. exact Hp. Qed.

Lemma prompt_pos g p : at_pos g p -> p + 15 < 2000 -> exists g', shell_print_prompt font g = Some g' /\ at_pos g' (p + 15).
Proof.
  intros Hg Hp. unfold shell_print_prompt.
  destruct (plain_pos PROMPT_NAME _ _ (color_pos 0x0A 0x00 _ _ Hg)) as (g1 & -> & H1);
    [by repeat constructor | change (zlen PROMPT_NAME) with 11; lia |]. cbn [mbind option_bind].
  destruct (plain_pos [58] _ _ (color_pos 0x0F 0x00 _ _ H1)) as (g2 & -> & H2);
    [by repeat constructor | change (zlen PROMPT_NAME) with 11; change (zlen [58]) with 1; lia |]. cbn [mbind option_bind].
  destruct (plain_pos [126] _ _ (color_pos 0x0B 0x00 _ _ H2)) as (g3 & -> & H3);
    [by repeat constructor | change (zlen PROMPT_NAME) with 11; change (zlen [58]) with 1; change (zlen [126]) with 1; lia |].
  cbn [mbind option_bind].
  destruct (plain_pos [36; 32] _ _ (color_pos 0x0F 0x00 _ _ H3)) as (g4 & E & H4);
    [by repeat constructor
    | change (zlen PROMPT_NAME) with 11; change (zlen [58]) with 1; change (zlen [126]) with 1; change (zlen [36; 32]) with 2; lia |].
  exists g4. split; [exact E |]. change (zlen PROMPT_NAME) with 11 in H4. change (zlen [58]) with 1 in H4.
  change (zlen [126]) with 1 in H4. change (zlen [36; 32]) with 2 in H4. by replace (p + 15) with (p + 11 + 1 + 1 + 2) by lia.
Qed.

Lemma return_pos g p : at_pos g p -> exists g', gpu_print font [13] g = Some g' /\ at_pos g' (80 * (p / 80)).
Proof.
  intros (sc & Hs & Hp). destruct (putc_shows font g sc 13 Hs) as (g' & E & Hs').
  exists g'. cbn [gpu_print]. rewrite E. split; [done |]. exists (screen_putc sc 13). split; [done |].
  destruct Hs as [_ _ _ [_ Hr] [_ Hc] _]. destruct sc as [rows r col color]. cbn [sc_r sc_c] in *. unfold VGA_COLS in Hc.
  unfold screen_putc. cbn [Z.eqb Pos.eqb sc_r sc_c]. lia.
Qed.

Lemma at_pos_row g p : at_pos g p -> g_row g = p / 80 /\ g_col g = p mod 80.
Proof.
  intros (sc & Hs & Hp). destruct Hs as [_ _ _ [-> Hr] [-> Hc] _]. unfold VGA_COLS in Hc. lia.
Qed.

(** Also: a line of 65 characters or more, which wraps at the right edge, is not drawn in
    its place: drawing returns to the start of the last row of it, so the line slides down
    the screen by its extra rows with every key, and then by those before the cursor. *)
Theorem redraw_slides (max : Z) (l : line) (lft rgt : list Z) (g : gpu) (sc : screen)
    (Hl : line_is max l lft rgt) (Ht : Forall (fun c => printable c = true) (rev lft ++ rgt)) (Hg : shows g sc)
    (H65 : 65 <= zlen (rev lft ++ rgt))
    (Hfit : 80 * (g_row g + (15 + zlen (rev lft ++ rgt)) / 80) + 15 + zlen (rev lft ++ rgt) < 2000) :
  exists g', redraw font l g = Some g' /\
    g_row g' = g_row g + (15 + zlen (rev lft ++ rgt)) / 80 + (15 + zlen lft) / 80 /\
    g_row g < g_row g' /\ g_col g' = (15 + zlen lft) mod 80.
Proof.
  pose proof (text_mode g _ Hg) as Hmode.
  assert (at_pos g (80 * g_row g + g_col g)) as Hp by (exists sc; split; [done |]; by destruct Hg as [_ _ _ [-> _] [-> _] _]).
  assert (0 <= g_col g < 80) as Hcol by (by destruct Hg as [_ _ _ _ [-> ?] _]).
  unfold redraw, shell_redraw_line. rewrite (line_text max l lft rgt Hl). cbn [mbind option_bind].
  destruct Hl as [_ (rest & Hb) _ Hc _]. set (t := rev lft ++ rgt) in *. rewrite app_assoc in Hb. fold t in Hb.
  pose proof (zlen_nonneg lft). pose proof (zlen_nonneg rest).
  assert (zlen lft <= zlen t) as Hlt by (unfold t; rewrite zlen_app, zlen_rev; pose proof (zlen_nonneg rgt); lia).
  unfold gpu_console_cols, con_cols. rewrite Hmode. unfold VGA_COLS.
  destruct (return_pos _ _ Hp) as (g1 & -> & H1). cbn [mbind option_bind].
  replace ((80 * g_row g + g_col g) / 80) with (g_row g) in H1 by lia.
  destruct (prompt_pos _ _ H1) as (g2 & -> & H2); [lia |]. cbn [mbind option_bind].
  rewrite put_chars_print by (rewrite Hb, zlen_app, zlen_cons; lia).
  replace (take (Z.to_nat (zlen t)) (l_buf l)) with t by (rewrite Hb, take_app_le, take_ge by (unfold zlen; lia); done).
  destruct (plain_pos t _ _ H2 Ht) as (g3 & -> & H3); [lia |]. cbn [mbind option_bind].
  replace (Z.to_nat (80 - 1 - (15 + zlen t))) with O by lia. cbn [loopM mbind option_bind].
  destruct (return_pos _ _ H3) as (g4 & -> & H4). cbn [mbind option_bind].
  replace ((80 * g_row g + 15 + zlen t) / 80) with (g_row g + (15 + zlen t) / 80) in H4 by lia.
  destruct (prompt_pos _ _ H4) as (g5 & -> & H5); [lia |]. cbn [mbind option_bind].
  rewrite put_chars_print by (rewrite Hb, zlen_app, zlen_cons; lia). rewrite Hc.
  replace (take (Z.to_nat (zlen lft)) (l_buf l)) with (rev lft)
    by (rewrite Hb; unfold t; rewrite <- app_assoc, take_app_length' by (rewrite length_rev; unfold zlen; lia); done).
  destruct (plain_pos (rev lft) _ _ H5) as (g6 & -> & H6); [by apply Forall_app in Ht as [? _] | rewrite zlen_rev; lia |].
  exists g6. split; [done |]. rewrite zlen_rev in H6. apply at_pos_row in H6 as [-> ->]. lia.
Qed.
End slides.

(** ** The history *)

Fixpoint history_adds (ss : list (list Z)) (h : hist) : option hist :=
  match ss with [] => Some h | s :: ss => h ← history_add s h; history_adds ss h end.

(** All lines that were entered, without the empty ones and those equal to the one before. *)
Definition enter (ls : list (list Z)) (s : list Z) : list (list Z) :=
  match s with [] => ls | _ => if bool_decide (last ls = Some s) then ls else ls ++ [s] end.

Record ring (h : hist) (ls : list (list Z)) : Prop := {
  ri_len : zlen (g_history h) = HIST_MAX;
  ri_count : g_hist_count h = zlen ls;
  ri_lines : forall i, 0 <= i < zlen ls -> zlook (g_history h) (i mod 8) = zlook ls (i + 8 * ((zlen ls - 1 - i) / 8)) }.

Lemma last_zlook {A} (l : list A) : last l = zlook l (zlen l - 1).
Proof.
  unfold zlook, zlen. destruct l as [| x l]; [done |]. destruct (Z.ltb_spec (Z.of_nat (length (x :: l)) - 1) 0); [cbn in *; lia |].
  rewrite last_lookup. f_equal. cbn. lia.
Qed.

Lemma enter_snoc ls s : s <> [] -> last ls <> Some s -> enter ls s = ls ++ [s].
Proof. intros H1 H2. unfold enter. destruct s; [done |]. by rewrite bool_decide_false. Qed.

Lemma history_add_ring s h ls : ring h ls -> zlen s < SHELL_LINE_MAX -> exists h', history_add s h = Some h' /\ ring h' (enter ls s).
Proof.
  intros [H1 H2 H3] Hs. unfold HIST_MAX in H1. destruct s as [| c s]; [by exists h |]. set (t := c :: s) in *.
  pose proof (zlen_nonneg ls).
  assert (last ls <> Some t -> exists h', (if (0 <=? g_hist_count h mod HIST_MAX) && (g_hist_count h mod HIST_MAX <? zlen (g_history h))
      then Some (Hist ((g_history h).[g_hist_count h mod HIST_MAX <- take (Z.to_nat (SHELL_LINE_MAX - 1)) t])
                   (g_hist_count h + 1) (g_hist_count h + 1)) else None) = Some h' /\ ring h' (enter ls t)) as Hadd.
  { intros Hne. rewrite enter_snoc by done. unfold HIST_MAX.
    destruct (Z.leb_spec 0 (g_hist_count h mod 8)), (Z.ltb_spec (g_hist_count h mod 8) (zlen (g_history h))); try lia.
    cbn [andb]. eexists. split; [done |]. rewrite take_ge by (unfold zlen, SHELL_LINE_MAX in *; lia).
    split; cbn [g_history g_hist_count]; [by rewrite zset_zlen | rewrite zlen_app; change (zlen [t]) with 1; lia |].
    rewrite zlen_app. change (zlen [t]) with 1. intros i Hi. rewrite zlook_zset by lia. rewrite H2.
    destruct (Z.eqb_spec (zlen ls mod 8) (i mod 8)).
    - rewrite zlook_app_r by lia. by replace (i + 8 * ((zlen ls + 1 - 1 - i) / 8) - zlen ls) with 0 by lia.
    - rewrite zlook_app_l by lia. rewrite H3 by lia. f_equal. lia. }
  unfold history_add. fold t. change (match t with [] => Some h | _ => ?x end) with x.
  rewrite last_zlook in Hadd. destruct (Z.ltb_spec 0 (g_hist_count h)).
  - rewrite H2 in Hadd |- *. unfold HIST_MAX at 1. rewrite H3 by lia.
    replace (zlen ls - 1 + 8 * ((zlen ls - 1 - (zlen ls - 1)) / 8)) with (zlen ls - 1) by lia.
    destruct (zlook_in_range ls (zlen ls - 1)) as [u Hu]; [lia |]. rewrite Hu in Hadd |- *. cbn [mbind option_bind].
    destruct (decide (u = t)) as [Eut | Hne].
    + rewrite bool_decide_true by done. exists h. split; [done |]. unfold enter, t. fold t.
      rewrite last_zlook, Hu, Eut, bool_decide_true by done. by split.
    + rewrite bool_decide_false by done. apply Hadd. congruence.
  - cbn [mbind option_bind]. apply Hadd. by rewrite zlook_out_range by lia.
Qed.

Lemma history_adds_ring ss : forall ls h, ring h ls -> Forall (fun s => zlen s < SHELL_LINE_MAX) ss ->
  exists h', history_adds ss h = Some h' /\ ring h' (foldl enter ls ss).
Proof.
  induction ss as [| s ss IH]; intros ls h Hr Hs; cbn [history_adds foldl]; [by exists h |].
  apply Forall_cons in Hs as [Hs1 Hs]. destruct (history_add_ring s h ls Hr Hs1) as (h1 & -> & Hr1). by apply IH.
Qed.

(** Also: the history holds the last eight lines that were entered, each once where it was
    repeated: position [i] gives line [i] for them, and for an older [i] not nothing, but
    the newest line whose number differs from it by a multiple of eight. *)
Theorem history_ring (ss : list (list Z)) (h : hist)
    (Hh : zlen (g_history h) = HIST_MAX) (H0 : g_hist_count h = 0) (Hs : Forall (fun s => zlen s < SHELL_LINE_MAX) ss) :
  exists h', history_adds ss h = Some h' /\ g_hist_count h' = zlen (foldl enter [] ss) /\
    forall i, 0 <= i < zlen (foldl enter [] ss) ->
      history_get i h' = zlook (foldl enter [] ss) (i + 8 * ((zlen (foldl enter [] ss) - 1 - i) / 8)).
Proof.
  destruct (history_adds_ring ss [] h) as (h' & E & [_ Hc Hl]); [| done |].
  { split; [done | done |]. intros i Hi. change (@zlen (list Z) []) with 0 in Hi. lia. }
  exists h'. split; [done |]. split; [done |]. intros i Hi. unfold history_get.
  destruct (Z.ltb_spec i 0), (Z.leb_spec (g_hist_count h') i); try lia. cbn [orb]. by apply Hl.
Qed.

(** ** Witnesses *)

Definition hist_ex : hist := Hist (replicate 8 []) 0 0.
Lemma hist_ex_ok : hist_ok hist_ex.
Proof. split; [done | by apply Forall_replicate | done]. Qed.

(** "ls", LEFT, "x", DEL, "-", BACKSPACE, END and a new line give "lx". *)
Lemma readline_refines_witness : exists s',
  readline (fun _ => 0) 8 [108; 115; 258; 120; 262; 45; 8; 261; 10; 7] (replicate 8 0) hist_ex (gpu_ex 0) =
    Some (Some [108; 120], [7], s') /\ text_console (r_gpu s').
Proof.
  destruct (readline_refines (fun _ => 0) text_console _ 8 [108; 115; 258; 120; 262; 45; 8; 261; 10; 7] (replicate 8 0)
    hist_ex (gpu_ex 0)) as (s' & E & Hs' & _); [done | done | exact hist_ex_ok | exact gpu_ex_text |].
  exists s'. split; [exact E | by destruct Hs'].
Defined.

(** A screen whose last row is the prompt of an empty line. *)
Definition prompt_ex : gpu :=
  set_text 24 15 0x0F (concat (replicate 24 (blank_row 0x0F) ++ [edit_row [] (blank_row 0x0F)])) [] (gpu_ex 0).
Lemma prompt_ex_edited : edited [] [] prompt_ex.
Proof.
  exists (replicate 24 (blank_row 0x0F)), (blank_row 0x0F), []. split; [done |].
  split; [reflexivity | reflexivity | | | | reflexivity].
  - split; [reflexivity |]. cbn [at_row sc_rows]. apply Forall_app. split; [by apply Forall_replicate | by repeat constructor].
  - split; [reflexivity | unfold VGA_ROWS; done].
  - split; [reflexivity | unfold VGA_COLS; done].
Qed.

(** "ls" and LEFT. *)
Lemma readline_shows_witness : exists s',
  readline (fun _ => 0) 80 [108; 115; 258] (replicate 80 0) hist_ex prompt_ex = Some (None, [], s') /\ edited [108] [115] (r_gpu s').
Proof.
  destruct (readline_shows (fun _ => 0) 80 [108; 115; 258] (replicate 80 0) hist_ex prompt_ex) as (s' & E & He);
    [done | done | exact hist_ex_ok | exact prompt_ex_edited | reflexivity | vm_compute; done |].
  exists s'. split; [exact E | exact He].
Defined.

(** A line of 65 characters with the cursor at its end, on the third row. *)
Lemma redraw_slides_witness : exists g',
  redraw (fun _ => 0) (Line (replicate 65 120 ++ [0]) 65 65) (set_cursor_pos 2 0 (gpu_ex 0)) = Some g' /\ g_row g' = 4.
Proof.
  assert (shows (set_cursor_pos 2 0 (gpu_ex 0)) (Screen (replicate 25 (blank_row 0x0F)) 2 0 0x0F)) as Hs.
  { destruct gpu_ex_shows as [F1 F2 F3 _ _ F6]. split; [exact F1 | exact F2 | exact F3 | | | exact F6];
      (split; [reflexivity | unfold VGA_ROWS, VGA_COLS; cbn [sc_r sc_c]; lia]). }
  destruct (redraw_slides (fun _ => 0) 66 (Line (replicate 65 120 ++ [0]) 65 65) (replicate 65 120) []
    (set_cursor_pos 2 0 (gpu_ex 0)) (Screen (replicate 25 (blank_row 0x0F)) 2 0 0x0F)) as (g' & E & Er & _).
  - split; [done | exists []; reflexivity | done | done |]. split; [by apply Forall_replicate | constructor].
  - rewrite app_nil_r. apply Forall_rev. by apply Forall_replicate.
  - exact Hs.
  - vm_compute. done.
  - vm_compute. done.
  - exists g'. split; [exact E |]. rewrite Er. reflexivity.
Defined.

(** Nine lines: position 0 gives the ninth. *)
Lemma history_ring_witness : exists h',
  history_adds [[97]; [98]; [98]; [99]; []; [100]; [101]; [102]; [103]; [104]; [105]] hist_ex = Some h' /\
  history_get 0 h' = Some [105] /\ history_get 1 h' = Some [98].
Proof.
  destruct (history_ring [[97]; [98]; [98]; [99]; []; [100]; [101]; [102]; [103]; [104]; [105]] hist_ex) as (h' & E & _ & H);
    [done | done | by repeat constructor |].
  exists h'. split; [exact E |]. split; [rewrite (H 0) by (vm_compute; done) | rewrite (H 1) by (vm_compute; done)]; reflexivity.
Defined.
