(* ===== verification/Input.v ===== *)
(** * Keyboard, mouse and clock (src/drivers/keyboard.c, mouse.c, rtc.c)

    The interrupt handlers take the values they read from the ports as arguments, the
    status register first; the clock is the function of its registers. The start-up
    dialogue with the mouse is in Irq.v; the log is left out. *)

From S2P Require Import Prelude LineEdit.

(** ** Keyboard *)

Definition KEYBUF_SIZE : Z := 256.
Definition PS2_OUT_FULL : Z := 0x01.
Definition PS2_AUX_DATA : Z := 0x20.
Definition KEY_PGUP : Z := 263.
Definition KEY_PGDN : Z := 264.
Definition KEY_INS : Z := 265.

Definition g_map : list Z :=
  [0; 27; 49; 50; 51; 52; 53; 54; 55; 56; 57; 48; 45; 61; 8; 9; 113; 119; 101; 114; 116; 121; 117; 105;
   111; 112; 91; 93; 10; 0; 97; 115; 100; 102; 103; 104; 106; 107; 108; 59; 39; 96; 0; 92; 122; 120; 99; 118;
   98; 110; 109; 44; 46; 47; 0; 42; 0; 32] ++ replicate 70 0.
Definition g_map_shift : list Z :=
  [0; 27; 33; 64; 35; 36; 37; 94; 38; 42; 40; 41; 95; 43; 8; 9; 81; 87; 69; 82; 84; 89; 85; 73;
   79; 80; 123; 125; 10; 0; 65; 83; 68; 70; 71; 72; 74; 75; 76; 58; 34; 126; 0; 124; 90; 88; 67; 86;
   66; 78; 77; 60; 62; 63; 0; 42; 0; 32] ++ replicate 70 0.
Definition g_ext_map (sc : Z) : Z :=
  if sc =? 0x47 then KEY_HOME else if sc =? 0x48 then KEY_UP else if sc =? 0x49 then KEY_PGUP
  else if sc =? 0x4B then KEY_LEFT else if sc =? 0x4D then KEY_RIGHT
  else if sc =? 0x4F then KEY_END else if sc =? 0x50 then KEY_DOWN else if sc =? 0x51 then KEY_PGDN
  else if sc =? 0x52 then KEY_INS else if sc =? 0x53 then KEY_DEL else 0.

Record kbd := Kbd { k_buf : list Z; g_head : Z; g_tail : Z; g_shift : Z; g_extended : Z; g_pressed : list Z }.
Definition set_ring buf head tail k : kbd := Kbd buf head tail (g_shift k) (g_extended k) (g_pressed k).
Definition set_shift v k : kbd := Kbd (k_buf k) (g_head k) (g_tail k) v (g_extended k) (g_pressed k).
Definition set_extended v k : kbd := Kbd (k_buf k) (g_head k) (g_tail k) (g_shift k) v (g_pressed k).
Definition set_pressed i v k : kbd := Kbd (k_buf k) (g_head k) (g_tail k) (g_shift k) (g_extended k) ((g_pressed k).[i <- v]).

Definition put_key (code : Z) (k : kbd) : kbd :=
  let next := (g_tail k + 1) mod KEYBUF_SIZE in
  if negb (next =? g_head k) then set_ring ((k_buf k).[g_tail k <- code]) (g_head k) next k else k.

Definition is_repeatable_scancode (sc : Z) : bool := sc =? 0x0E.
Definition is_repeatable_ext_scancode (sc : Z) : bool :=
  (sc =? 0x4B) || (sc =? 0x4D) || (sc =? 0x47) || (sc =? 0x4F) || (sc =? 0x53).

(** A press or a release of the key [code_sc], which gives [code]. *)
Definition key_event (sc : Z) (repeatable : Z -> bool) (code_of : Z -> Z) (k : kbd) : kbd :=
  let code_sc := Z.land sc 0x7F in
  if istrue (Z.land sc 0x80) then set_pressed code_sc 0 k
  else if istrue ((g_pressed k).[code_sc]) && negb (repeatable code_sc) then k
  else
    let k := set_pressed code_sc 1 k in
    let code := code_of code_sc in
    if istrue code then put_key code k else k.

Definition keyboard_irq (status sc : Z) (k : kbd) : kbd :=
  if negb (istrue (Z.land status PS2_OUT_FULL)) then k
  else if istrue (Z.land status PS2_AUX_DATA) then k
  else if sc =? 0xE0 then set_extended 1 k
  else if istrue (g_extended k) then key_event sc is_repeatable_ext_scancode g_ext_map (set_extended 0 k)
  else if (sc =? 0x2A) || (sc =? 0x36) then set_shift 1 k
  else if (sc =? 0xAA) || (sc =? 0xB6) then set_shift 0 k
  else key_event sc is_repeatable_scancode (fun c => u8 (if istrue (g_shift k) then g_map_shift.[c] else g_map.[c])) k.

Definition keyboard_getc (k : kbd) : Z * kbd :=
  if g_head k =? g_tail k then (0, k)
  else ((k_buf k).[g_head k], set_ring (k_buf k) ((g_head k + 1) mod KEYBUF_SIZE) (g_tail k) k).

(** ** Mouse *)

Record mouse := Mouse { g_mouse_x : Z; g_mouse_y : Z; g_mouse_buttons : Z; g_mouse_cycle : Z; g_mouse_packet : list Z }.

Definition mouse_irq (status data : Z) (s : mouse) : mouse :=
  let '(Mouse x y b cycle p) := s in
  if negb (istrue (Z.land status PS2_OUT_FULL)) || negb (istrue (Z.land status PS2_AUX_DATA)) then s
  else if cycle =? 0 then
    if negb (istrue (Z.land data 0x08)) then Mouse x y b 0 p else Mouse x y b 1 (p.[0 <- data])
  else if cycle =? 1 then Mouse x y b 2 (p.[1 <- data])
  else if cycle =? 2 then
    let p := p.[2 <- data] in
    if istrue (Z.land (p.[0]) 0xC0) then Mouse x y b 0 p
    else Mouse (s32 (x + s8 (p.[1]))) (s32 (y + s8 (p.[2]))) (Z.land (p.[0]) 0x07) 0 p
  else s.
Definition mouse_get_state (s : mouse) : Z * Z * Z := (g_mouse_x s, g_mouse_y s, g_mouse_buttons s).

(** ** Clock *)

Record rtc_time := Time { seconds : Z; minutes : Z; hours : Z; day : Z; month : Z; year : Z; day_of_week : Z }.

Definition bcd_to_bin (val : Z) : Z := u8 (Z.shiftr val 4 * 10 + Z.land val 0x0F).

(** [cmos_read] of each register gives one byte. *)
Definition rtc_read_time (cmos_read : Z -> Z) : rtc_time :=
  let reg_b := cmos_read 0x0B in
  let bcd := negb (istrue (Z.land reg_b 0x04)) in
  let field v := if bcd then bcd_to_bin v else v in
  let hours := field (cmos_read 0x04) in
  let hours := if negb (istrue (Z.land reg_b 0x02)) && istrue (Z.land hours 0x80)
               then u8 (Z.land hours 0x7F + 12) else hours in
  let hours := Z.land hours (u8 (Z.lnot 0x80)) in
  let century := cmos_read 0x32 in
  let century := if istrue century then field century else 20 in
  Time (field (cmos_read 0x00)) (field (cmos_read 0x02)) hours (field (cmos_read 0x07)) (field (cmos_read 0x08))
    (u16 (u16 (century * 100) + field (cmos_read 0x09))) (field (cmos_read 0x06)).

(** ** The keyboard is a bounded queue *)

(** The codes [q] are waiting, oldest first. *)
Record waiting (k : kbd) (q : list Z) : Prop := {
  wa_buf : zlen (k_buf k) = KEYBUF_SIZE;
  wa_head : 0 <= g_head k < KEYBUF_SIZE;
  wa_tail : g_tail k = (g_head k + zlen q) mod KEYBUF_SIZE;
  wa_len : zlen q < KEYBUF_SIZE;
  wa_codes : forall i, 0 <= i < zlen q -> (k_buf k).[(g_head k + i) mod KEYBUF_SIZE] = q.[i] }.

Definition push (q : list Z) (code : Z) : list Z := if zlen q <? KEYBUF_SIZE - 1 then q ++ [code] else q.

Lemma put_key_waiting code k q : waiting k q -> waiting (put_key code k) (push q code).
Proof.
  intros [H1 H2 H3 H4 H5]. unfold put_key, push. unfold KEYBUF_SIZE in *. pose proof (zlen_nonneg q).
  destruct (Z.ltb_spec (zlen q) (256 - 1)), (Z.eqb_spec ((g_tail k + 1) mod 256) (g_head k)); try lia; cbn [negb]; [| by split].
  split; cbn [set_ring k_buf g_head g_tail]; unfold KEYBUF_SIZE; rewrite ?zlen_app; change (zlen [code]) with 1.
  - by rewrite zset_zlen.
  - done.
  - lia.
  - lia.
  - intros i Hi. rewrite zget_zset by lia. rewrite zget_app by lia.
    destruct (Z.eqb_spec (g_tail k) ((g_head k + i) mod 256)), (Z.ltb_spec i (zlen q)); try lia.
    + by replace (i - zlen q) with 0 by lia.
    + apply H5; lia.
Qed.

Lemma getc_waiting k q : waiting k q ->
  fst (keyboard_getc k) = hd 0 q /\ waiting (snd (keyboard_getc k)) (tail q).
Proof.
  intros H. pose proof H as [H1 H2 H3 H4 H5]. unfold keyboard_getc. unfold KEYBUF_SIZE in *. destruct q as [| c q].
  - change (@zlen Z []) with 0 in *. destruct (Z.eqb_spec (g_head k) (g_tail k)); [done | lia].
  - rewrite zlen_cons in *. pose proof (zlen_nonneg q). destruct (Z.eqb_spec (g_head k) (g_tail k)); [lia |]. cbn [fst snd hd tail].
    split.
    + specialize (H5 0 ltac:(lia)). rewrite Z.add_0_r, Z.mod_small in H5 by lia. by rewrite H5.
    + split; cbn [set_ring k_buf g_head g_tail]; unfold KEYBUF_SIZE; try lia.
      intros i Hi. specialize (H5 (i + 1) ltac:(lia)). rewrite zget_cons in H5 by lia.
      destruct (Z.eqb_spec (i + 1) 0); [lia |]. replace (i + 1 - 1) with i in H5 by lia. rewrite <- H5. f_equal. lia.
Qed.

(** The code one byte from the keyboard gives, if any. *)
Definition press_code (sc : Z) (repeatable : Z -> bool) (code_of : Z -> Z) (k : kbd) : option Z :=
  let c := Z.land sc 0x7F in
  if Z.testbit sc 7 then None
  else if istrue ((g_pressed k).[c]) && negb (repeatable c) then None
  else if code_of c =? 0 then None else Some (code_of c).
Definition key_code (status sc : Z) (k : kbd) : option Z :=
  if Z.testbit status 0 && negb (Z.testbit status 5) && negb (sc =? 0xE0) then
    if istrue (g_extended k) then press_code sc is_repeatable_ext_scancode g_ext_map k
    else if existsb (Z.eqb sc) [0x2A; 0x36; 0xAA; 0xB6] then None
    else press_code sc is_repeatable_scancode (fun c => if istrue (g_shift k) then g_map_shift.[c] else g_map.[c]) k
  else None.
Definition push_opt (q : list Z) (o : option Z) : list Z := match o with Some c => push q c | None => q end.

Lemma map_bytes c : u8 (g_map.[c]) = g_map.[c] /\ u8 (g_map_shift.[c]) = g_map_shift.[c].
Proof.
  assert (bytes g_map /\ bytes g_map_shift) as [H1 H2].
  { split; apply (bool_decide_unpack _); vm_compute; exact I. }
  split; apply u8_id, zget_byte; done.
Qed.

Lemma waiting_other k k' q : waiting k q -> k_buf k' = k_buf k -> g_head k' = g_head k -> g_tail k' = g_tail k -> waiting k' q.
Proof. intros [H1 H2 H3 H4 H5] E1 E2 E3. split; rewrite ?E1, ?E2, ?E3; done. Qed.

Lemma key_event_waiting sc rep code_of k k0 q : waiting k q -> g_pressed k = g_pressed k0 ->
  waiting (key_event sc rep code_of k) (push_opt q (press_code sc rep code_of k0)).
Proof.
  intros H Ep. unfold key_event, press_code. change 0x80 with (Z.shiftl 1 7). rewrite land_bit by done. rewrite <- Ep.
  destruct (Z.testbit sc 7); [by eapply waiting_other |].
  destruct (istrue _ && negb _); [done |]. set (c := code_of _).
  unfold istrue. destruct (Z.eqb_spec c 0); cbn [negb push_opt]; [by eapply waiting_other |].
  apply put_key_waiting. by eapply waiting_other.
Qed.

Lemma key_event_ext sc rep f g k : (forall c, f c = g c) -> key_event sc rep f k = key_event sc rep g k.
Proof. intros H. unfold key_event. by rewrite H. Qed.

Lemma irq_waiting status sc k q : waiting k q -> waiting (keyboard_irq status sc k) (push_opt q (key_code status sc k)).
Proof.
  intros H. unfold keyboard_irq, key_code, PS2_OUT_FULL, PS2_AUX_DATA.
  change 0x01 with (Z.shiftl 1 0). change 0x20 with (Z.shiftl 1 5). rewrite !land_bit by done.
  destruct (Z.testbit status 0), (Z.testbit status 5); cbn [negb andb]; try done.
  destruct (sc =? 0xE0); [by eapply waiting_other |]. cbn [negb].
  destruct (istrue (g_extended k)); [by apply key_event_waiting; [eapply waiting_other |] |].
  cbn [existsb]. destruct (sc =? 0x2A), (sc =? 0x36), (sc =? 0xAA), (sc =? 0xB6); cbn [orb]; try (by eapply waiting_other).
  rewrite (key_event_ext _ _ _ (fun c => if istrue (g_shift k) then g_map_shift.[c] else g_map.[c])); [by apply key_event_waiting |].
  intros c. destruct (map_bytes c). by destruct (istrue (g_shift k)).
Qed.

(** What happens at the keyboard: an interrupt, with the status and the byte it reads, or
    a program asking for a key. *)
Inductive kevent := Irq (status sc : Z) | Getc.
Fixpoint kbd_run (es : list kevent) (k : kbd) : list Z * kbd :=
  match es with
  | [] => ([], k)
  | Irq status sc :: es => kbd_run es (keyboard_irq status sc k)
  | Getc :: es => let '(c, k) := keyboard_getc k in let '(cs, k) := kbd_run es k in (c :: cs, k)
  end.
(** The same with the queue of codes in place of the ring; [k] gives the state of the
    keys and of shift only. *)
Fixpoint queue_run (es : list kevent) (q : list Z) (k : kbd) : list Z * list Z :=
  match es with
  | [] => ([], q)
  | Irq status sc :: es => queue_run es (push_opt q (key_code status sc k)) (keyboard_irq status sc k)
  | Getc :: es => let '(cs, q') := queue_run es (tail q) (snd (keyboard_getc k)) in (hd 0 q :: cs, q')
  end.

(** Also: the ring buffer between the keyboard interrupt and its readers is a queue of 255
    codes: however interrupts and readers alternate, every reader is given the oldest code
    that is waiting, or 0, in the order the keys were pressed; a key that comes when 255
    codes wait is lost and disturbs none of them. *)
Theorem keyboard_fifo (es : list kevent) (k : kbd) (q : list Z) (Hk : waiting k q) :
  fst (kbd_run es k) = fst (queue_run es q k) /\ waiting (snd (kbd_run es k)) (snd (queue_run es q k)).
Proof.
  revert k q Hk. induction es as [| [status sc |] es IH]; intros k q Hk; cbn [kbd_run queue_run]; [done | by apply IH, irq_waiting |].
  destruct (getc_waiting k q Hk) as [E1 E2]. destruct (keyboard_getc k) as [c k1]. cbn [fst snd] in *. subst c.
  destruct (IH k1 (tail q) E2) as [I1 I2]. destruct (kbd_run es k1) as [cs k2], (queue_run es (tail q) k1) as [cs' q'].
  cbn [fst snd] in *. by subst.
Qed.

(** Also: no key gives the code 3 that the line editors take for Ctrl+C. *)
Theorem keyboard_no_ctrl_c (status sc : Z) (k : kbd) : key_code status sc k <> Some 3.
Proof.
  assert (Forall (fun c => c <> 3) g_map /\ Forall (fun c => c <> 3) g_map_shift) as [H1 H2].
  { split; apply (bool_decide_unpack _); vm_compute; exact I. }
  assert (forall l c, Forall (fun c => c <> 3) l -> l.[c] <> 3) as Hget.
  { intros l c Hl. unfold zget. destruct (zlook l c) as [x |] eqn:E; cbn [default]; [| done]. exact (zlook_Forall _ _ _ _ Hl E). }
  unfold key_code, press_code. intros H.
  repeat match type of H with
  | (if ?b then _ else _) = _ => destruct b; try done
  | context [istrue (g_shift k)] => destruct (istrue (g_shift k))
  end; injection H as H; try (by eapply Hget in H).
  unfold g_ext_map, KEY_HOME, KEY_UP, KEY_PGUP, KEY_LEFT, KEY_RIGHT, KEY_END, KEY_DOWN, KEY_PGDN, KEY_INS, KEY_DEL in H.
  repeat case_match; done.
Qed.

(** ** Packets of the mouse *)

(** The bytes of one report; the first has its bit 3 set. *)
Record packet := Packet { p_flags : Z; p_dx : Z; p_dy : Z }.
Definition packet_bytes (p : packet) : list Z := [p_flags p; p_dx p; p_dy p].
Definition ready (status : Z) : Prop := Z.testbit status 0 = true /\ Z.testbit status 5 = true.

(** A report moves the mouse unless one of its overflow bits, 6 and 7, is set. *)
Definition move (s : Z * Z * Z) (p : packet) : Z * Z * Z :=
  let '(x, y, b) := s in
  if Z.testbit (p_flags p) 6 || Z.testbit (p_flags p) 7 then s
  else (s32 (x + s8 (p_dx p)), s32 (y + s8 (p_dy p)), p_flags p mod 8).

Definition mouse_feed (status : Z) (s : mouse) (bs : list Z) : mouse := foldl (fun s b => mouse_irq status b s) s bs.
Definition at_rest (s : mouse) : Prop := g_mouse_cycle s = 0 /\ zlen (g_mouse_packet s) = 3.

Lemma ready_spec status : ready status ->
  negb (istrue (Z.land status PS2_OUT_FULL)) || negb (istrue (Z.land status PS2_AUX_DATA)) = false.
Proof.
  intros [H1 H2]. unfold PS2_OUT_FULL, PS2_AUX_DATA. change 0x01 with (Z.shiftl 1 0). change 0x20 with (Z.shiftl 1 5).
  rewrite !land_bit by done. by rewrite H1, H2.
Qed.

Lemma istrue_lor a b : istrue (Z.lor a b) = istrue a || istrue b.
Proof.
  unfold istrue. pose proof (Z.lor_eq_0_iff a b) as H.
  destruct (Z.eqb_spec (Z.lor a b) 0), (Z.eqb_spec a 0), (Z.eqb_spec b 0); cbn; tauto.
Qed.

Lemma land_C0 b : istrue (Z.land b 0xC0) = Z.testbit b 6 || Z.testbit b 7.
Proof.
  change 0xC0 with (Z.lor (Z.shiftl 1 6) (Z.shiftl 1 7)). by rewrite Z.land_lor_distr_r, istrue_lor, !land_bit by done.
Qed.

Lemma mouse_packet status s p : ready status -> at_rest s -> is_byte (p_flags p) -> Z.testbit (p_flags p) 3 = true ->
  at_rest (mouse_feed status s (packet_bytes p)) /\
  mouse_get_state (mouse_feed status s (packet_bytes p)) = move (mouse_get_state s) p.
Proof.
  intros Hr [Hc Hl] Hb H3. pose proof (ready_spec status Hr) as Er. destruct s as [x y b cycle pk], p as [f dx dy].
  cbn [g_mouse_cycle g_mouse_packet p_flags p_dx p_dy] in *. subst cycle.
  unfold mouse_feed, packet_bytes. cbn [foldl p_flags p_dx p_dy].
  assert (mouse_irq status f (Mouse x y b 0 pk) = Mouse x y b 1 (pk.[0 <- f])) as ->.
  { unfold mouse_irq. rewrite Er. cbn [Z.eqb]. change 0x08 with (Z.shiftl 1 3). by rewrite land_bit, H3. }
  assert (mouse_irq status dx (Mouse x y b 1 (pk.[0 <- f])) = Mouse x y b 2 (pk.[0 <- f].[1 <- dx])) as -> by (unfold mouse_irq; by rewrite Er).
  unfold mouse_irq. rewrite Er. cbn [Z.eqb Pos.eqb]. change (2 =? 0) with false. change (2 =? 1) with false. change (2 =? 2) with true. cbv iota.
  assert (forall i v, 0 <= i < 3 -> (pk.[0 <- f].[1 <- dx].[2 <- dy]).[i] = v <-> (if i =? 0 then f else if i =? 1 then dx else dy) = v) as Hg.
  { intros i v Hi. rewrite !zget_zset by (rewrite ?zset_zlen, Hl; lia).
    destruct (Z.eqb_spec 2 i), (Z.eqb_spec 1 i), (Z.eqb_spec 0 i), (Z.eqb_spec i 0), (Z.eqb_spec i 1); try lia; done. }
  rewrite (proj2 (Hg 0 f ltac:(lia)) eq_refl), (proj2 (Hg 1 dx ltac:(lia)) eq_refl), (proj2 (Hg 2 dy ltac:(lia)) eq_refl).
  rewrite land_C0. unfold move, mouse_get_state. cbn [g_mouse_x g_mouse_y g_mouse_buttons p_flags p_dx p_dy].
  assert (Z.land f 7 = f mod 8) as -> by (change 7 with (Z.ones 3); by rewrite land_mask).
  destruct (Z.testbit f 6 || Z.testbit f 7); (split; [split; cbn [g_mouse_cycle g_mouse_packet]; [done | by rewrite !zset_zlen] | done]).
Qed.

(** Also: the reports of the mouse are added up one by one: the position and the buttons after
    any sequence of reports are those of moving once per report, reports that overflowed
    left out; and bytes without the synchronisation bit that come between two reports are
    skipped. *)
Theorem mouse_stream (status : Z) (s : mouse) (ps : list (list Z * packet)) (Hr : ready status) (Hs : at_rest s)
    (Hp : Forall (fun '(noise, p) => Forall (fun b => Z.testbit b 3 = false) noise /\
                                    is_byte (p_flags p) /\ Z.testbit (p_flags p) 3 = true) ps) :
  mouse_get_state (mouse_feed status s (concat (map (fun '(noise, p) => noise ++ packet_bytes p) ps))) =
    foldl move (mouse_get_state s) (map snd ps).
Proof.
  revert s Hs. induction Hp as [| [noise p] ps (Hn & Hb & H3) _ IH]; intros s Hs; [done |]. cbn [map concat foldl snd].
  unfold mouse_feed. rewrite !foldl_app. fold (mouse_feed status s noise).
  assert (mouse_feed status s noise = s) as ->.
  { clear -Hn Hs Hr. induction Hn as [| b noise Hb _ IH]; [done |]. unfold mouse_feed. cbn [foldl].
    assert (mouse_irq status b s = s) as ->; [| exact IH].
    destruct Hs as [Hc _]. destruct s as [x y bt cycle pk]. cbn [g_mouse_cycle] in Hc. subst cycle. unfold mouse_irq.
    rewrite ready_spec by done. cbn [Z.eqb]. change 0x08 with (Z.shiftl 1 3). by rewrite land_bit, Hb. }
  destruct (mouse_packet status s p Hr Hs Hb H3) as [Hs' E]. fold (mouse_feed status s (packet_bytes p)).
  fold (mouse_feed status (mouse_feed status s (packet_bytes p)) (concat (map (fun '(noise, p) => noise ++ packet_bytes p) ps))).
  by rewrite IH, E.
Qed.

(** ** The clock *)

Definition bcd (n : Z) : Z := 16 * (n / 10) + n mod 10.
Definition time_ok (t : rtc_time) : Prop :=
  0 <= seconds t < 60 /\ 0 <= minutes t < 60 /\ 0 <= hours t < 24 /\ 1 <= day t <= 31 /\ 1 <= month t <= 12 /\
  100 <= year t < 10000 /\ 1 <= day_of_week t <= 7.
(** The registers of a clock that counts 24 hours and shows the time [t]. *)
Definition shows_time (cmos : Z -> Z) (code : Z -> Z) (t : rtc_time) : Prop :=
  cmos 0x00 = code (seconds t) /\ cmos 0x02 = code (minutes t) /\ cmos 0x04 = code (hours t) /\ cmos 0x06 = code (day_of_week t) /\
  cmos 0x07 = code (day t) /\ cmos 0x08 = code (month t) /\ cmos 0x09 = code (year t mod 100) /\ cmos 0x32 = code (year t / 100).

Lemma bcd_bin n : 0 <= n < 100 -> bcd_to_bin (bcd n) = n.
Proof.
  intros Hn. unfold bcd_to_bin, bcd, u8. rewrite Z.shiftr_div_pow2 by done. change 0x0F with (Z.ones 4). rewrite land_mask by done.
  change (2 ^ 4) with 16. lia.
Qed.

Lemma land_mode b : istrue (Z.land b 0x04) = Z.testbit b 2 /\ istrue (Z.land b 0x02) = Z.testbit b 1.
Proof. split; [exact (land_bit b 2 ltac:(done)) | exact (land_bit b 1 ltac:(done))]. Qed.

(** Also: a clock that counts 24 hours is read as it is set, whether its registers hold binary
    numbers or decimal digits. *)
Theorem rtc_read_24h (cmos : Z -> Z) (t : rtc_time) (Ht : time_ok t) (H24 : Z.testbit (cmos 0x0B) 1 = true)
    (Hs : shows_time cmos (if Z.testbit (cmos 0x0B) 2 then fun n => n else bcd) t) :
  rtc_read_time cmos = t.
Proof.
  destruct Ht as (? & ? & ? & ? & ? & ? & ?), Hs as (E0 & E2 & E4 & E6 & E7 & E8 & E9 & E32).
  unfold rtc_read_time. destruct (land_mode (cmos 11)) as [-> ->].
  change (u8 (Z.lnot 0x80)) with (Z.ones 7). rewrite H24. cbn [negb andb].
  rewrite E0, E2, E4, E6, E7, E8, E9, E32. rewrite land_mask by done. change (2 ^ 7) with 128.
  destruct t as [s mi h d mo y w]. cbn [seconds minutes hours day month year day_of_week] in *.
  destruct (Z.testbit (cmos 11) 2); cbn [negb].
  - rewrite (istrue_neq (y / 100)) by lia. cbv iota. f_equal; unfold u16; lia.
  - rewrite istrue_neq by (unfold bcd; lia). cbv iota. rewrite !bcd_bin by lia. f_equal; unfold u16; lia.
Qed.

(** Also: a clock that counts twice 12 hours in decimal digits is misread in the afternoon: the
    bit for it is mixed into the digits before it is looked for, and the hour comes out
    between 81 and 92. *)
Theorem rtc_read_pm_wrong (cmos : Z -> Z) (h : Z) (Hh : 1 <= h <= 12) (H12 : Z.testbit (cmos 0x0B) 1 = false)
    (Hbcd : Z.testbit (cmos 0x0B) 2 = false) (Hpm : cmos 0x04 = 0x80 + bcd h) :
  hours (rtc_read_time cmos) = 80 + h.
Proof.
  unfold rtc_read_time. destruct (land_mode (cmos 11)) as [-> ->].
  change (u8 (Z.lnot 0x80)) with (Z.ones 7). rewrite H12, Hbcd. cbn [negb andb hours].
  rewrite Hpm. assert (h = 1 \/ h = 2 \/ h = 3 \/ h = 4 \/ h = 5 \/ h = 6 \/ h = 7 \/ h = 8 \/ h = 9 \/ h = 10 \/ h = 11 \/ h = 12) as Hc by lia.
  by repeat (destruct Hc as [-> | Hc]; [reflexivity |]); subst.
Qed.

(** ** Witnesses *)

Definition kbd_ex : kbd := Kbd (replicate 256 0) 250 250 0 0 (replicate 128 0).

(** "A", with shift, and the arrow up. *)
Lemma keyboard_fifo_witness :
  fst (kbd_run [Irq 1 0x2A; Irq 1 0x1E; Getc; Irq 1 0x9E; Irq 1 0xAA; Irq 1 0xE0; Irq 1 0x48; Irq 0x21 7; Getc; Getc] kbd_ex) = [65; 256; 0].
Proof.
  destruct (keyboard_fifo [Irq 1 0x2A; Irq 1 0x1E; Getc; Irq 1 0x9E; Irq 1 0xAA; Irq 1 0xE0; Irq 1 0x48; Irq 0x21 7; Getc; Getc] kbd_ex [])
    as [E _]; [| rewrite E; reflexivity].
  split; try done. intros i Hi. change (@zlen Z []) with 0 in Hi. lia.
Defined.

Lemma mouse_stream_witness :
  mouse_get_state (mouse_feed 0x21 (Mouse 100 50 0 0 [0; 0; 0]) [0x04; 0x09; 5; 0xFE; 0x48; 9; 9; 0x08; 0xFF; 0]) = (104, 48, 0).
Proof.
  refine (eq_trans (mouse_stream 0x21 (Mouse 100 50 0 0 [0; 0; 0])
    [([0x04], Packet 0x09 5 0xFE); ([], Packet 0x48 9 9); ([], Packet 0x08 0xFF 0)] _ _ _) _);
    [done | done | repeat constructor; done | reflexivity].
Defined.

(** 31 December 2026, 23:59:58, a Thursday. *)
Lemma rtc_read_24h_witness :
  rtc_read_time (fun r => if r =? 0 then 0x58 else if r =? 2 then 0x59 else if r =? 4 then 0x23 else if r =? 6 then 5
    else if r =? 7 then 0x31 else if r =? 8 then 0x12 else if r =? 9 then 0x26 else if r =? 0x32 then 0x20 else 2) = Time 58 59 23 31 12 2026 5.
Proof. apply rtc_read_24h; [unfold time_ok; cbn; lia | reflexivity | unfold shows_time; vm_compute; repeat split; reflexivity]. Defined.

Lemma rtc_read_pm_wrong_witness : hours (rtc_read_time (fun r => if r =? 4 then 0x85 else 0)) = 85.
Proof. exact (rtc_read_pm_wrong (fun r => if r =? 4 then 0x85 else 0) 5 ltac:(lia) eq_refl eq_refl eq_refl). Defined.
