(* ===== verification/KPath.v ===== *)
(** * Text of the command line (src/kernel/shell.c)

    The words of a line, the numbers and addresses that are printed and read, and the
    paths: how a path given by the user and the current directory make an absolute path
    without ".", ".." and double slashes. Strings are the lists of their characters; the
    arrays that are written are lists as long as the arrays, and [None] is an access
    outside one. *)

From S2P Require Import Prelude UserLib Rtl8139 Gpu LineEdit Vfs.

Definition SHELL_TOKEN_MAX : Z := 16.
Definition CWD_MAX : Z := 256.

(** ** Numbers *)

(** buf[21] is filled from its end; the result is the text that is printed. *)
Fixpoint u64_digits (fuel : nat) (v i : Z) (buf : list Z) : option (Z * list Z) :=
  match fuel with
  | O => None
  | S f => if istrue v then buf ← put buf (i - 1) (48 + v mod 10); u64_digits f (v / 10) (i - 1) buf
           else Some (i, buf)
  end.
Definition u64_text (v : Z) : option (list Z) :=
  buf ← put (replicate 21 0) 20 0;
  r ← (if v =? 0 then buf ← put buf 19 48; Some (19, buf) else u64_digits 21 v 20 buf);
  c_string (drop (Z.to_nat (fst r)) (snd r)).

(** One number of an address, in buf[4]. *)
Definition octet_text (n : Z) : option (list Z) :=
  let buf := replicate 4 0 in
  r ← (if 100 <=? n then buf ← put buf 0 (48 + n / 100); Some (1, buf) else Some (0, buf));
  let '(i, buf) := (r : Z * list Z) in
  r ← (if 10 <=? n then buf ← put buf i (48 + n / 10 mod 10); Some (i + 1, buf) else Some (i, buf));
  let '(i, buf) := (r : Z * list Z) in
  buf ← put buf i (48 + n mod 10);
  buf ← put buf (i + 1) 0;
  c_string buf.
Definition ip_part (ip part : Z) : Z := u8 (Z.land (Z.shiftr ip (part * 8)) 0xFF).
(** What print_ip prints. *)
Definition ip_text (ip : Z) : option (list Z) :=
  a ← octet_text (ip_part ip 0); b ← octet_text (ip_part ip 1);
  c ← octet_text (ip_part ip 2); d ← octet_text (ip_part ip 3);
  Some (a ++ [46] ++ b ++ [46] ++ c ++ [46] ++ d).

Definition is_digit (c : Z) : bool := (48 <=? c) && (c <=? 57).
Fixpoint parse_octet (s : list Z) (n : Z) : option (Z * list Z) :=
  match s with
  | c :: s' => if is_digit c
               then let n := n * 10 + (c - 48) in if 255 <? n then None else parse_octet s' n
               else Some (n, s)
  | [] => Some (n, [])
  end.
Fixpoint parse_parts (k : nat) (part ip : Z) (s : list Z) : option Z :=
  match k with
  | O => Some ip
  | S k =>
      if negb (is_digit (hd 0 s)) then None
      else
        r ← parse_octet s 0;
        let '(n, s) := (r : Z * list Z) in
        if (part <? 3) && negb (hd 0 s =? 46) then None
        else parse_parts k (part + 1) (Z.lor ip (u32 (Z.shiftl n (part * 8)))) (if part <? 3 then tail s else s)
  end.
(** [None] for the result -1. *)
Definition parse_ip (s : list Z) : option Z := parse_parts 4 0 0 s.

(** ** Words *)

Definition is_blank (c : Z) : bool := (c =? 32) || (c =? 9).

(** [while (f( *p)) p++;] *)
Fixpoint skip_while (f : Z -> bool) (fuel : nat) (p : Z) (l : list Z) : option Z :=
  match fuel with
  | O => None
  | S n => c ← zlook l p; if f c then skip_while f n (p + 1) l else Some p
  end.
Definition skip_blank : nat -> Z -> list Z -> option Z := skip_while is_blank.
(** A word ends before a character that [stop]s it. *)
Definition in_word (stop : Z -> bool) (c : Z) : bool := istrue c && negb (stop c).
Definition skip_word (stop : Z -> bool) : nat -> Z -> list Z -> option Z := skip_while (in_word stop).

(** The tokens are places in the line; the character behind each becomes a terminator. *)
Fixpoint tokenize_from (stop : Z -> bool) (fuel : nat) (max p : Z) (tokens : list Z) (l : list Z) : option (list Z * list Z) :=
  match fuel with
  | O => None
  | S f =>
      c ← zlook l p;
      if negb (istrue c) then Some (tokens, l)
      else
        p ← skip_blank (S (length l)) p l;
        c ← zlook l p;
        if negb (istrue c) then Some (tokens, l)
        else if max - 1 <=? zlen tokens then Some (tokens, l)
        else
          let tokens := tokens ++ [p] in
          p ← skip_word stop (S (length l)) p l;
          c ← zlook l p;
          if istrue c then l ← put l p 0; tokenize_from stop f max (p + 1) tokens l
          else tokenize_from stop f max p tokens l
  end.
Definition tokenize (max : Z) (l : list Z) : option (list Z * list Z) := tokenize_from is_blank (S (length l)) max 0 [] l.

(** The string at a place of the line. *)
Definition token_at (l : list Z) (p : Z) : option (list Z) := c_string (drop (Z.to_nat p) l).
Fixpoint tokens_at (l : list Z) (ps : list Z) : option (list (list Z)) :=
  match ps with [] => Some [] | p :: ps => t ← token_at l p; ts ← tokens_at l ps; Some (t :: ts) end.

(** ** Paths *)

Fixpoint skip_slashes (s : list Z) : list Z :=
  match s with c :: s' => if c =? SLASH then skip_slashes s' else s | [] => [] end.
Fixpoint take_name (s : list Z) : list Z * list Z :=
  match s with
  | c :: s' => if c =? SLASH then ([], s) else let '(n, r) := take_name s' in (c :: n, r)
  | [] => ([], [])
  end.
Definition DOT : Z := 46.

(** The parts of the path, segs[0] first; [Some None] for the result -1. *)
Fixpoint norm_segs (fuel : nat) (s : list Z) (segs : list (list Z)) : option (option (list (list Z))) :=
  match fuel with
  | O => None
  | S f =>
      match skip_slashes s with
      | [] => Some (Some segs)
      | s =>
          let '(name, s) := take_name s in
          if bool_decide (name = [DOT]) then norm_segs f s segs
          else if bool_decide (name = [DOT; DOT]) then norm_segs f s (if 0 <? zlen segs then removelast segs else segs)
          else if 32 <=? zlen segs then Some None
          else norm_segs f s (segs ++ [name])
      end
  end.

(** [memcpy(out + pos, segs[i], seg_len[i])] *)
Definition copy_name (pos : Z) (name : list Z) (out : list Z) : option (list Z) :=
  loopM (length name) 0 (fun i out => c ← zlook name i; put out (pos + i) c) out.
Fixpoint norm_write (first : bool) (segs : list (list Z)) (max pos : Z) (out : list Z) : option (option (Z * list Z)) :=
  match segs with
  | [] => Some (Some (pos, out))
  | name :: segs =>
      let go pos out :=
        if max <=? pos + zlen name then Some None
        else out ← copy_name pos name out; norm_write false segs max (pos + zlen name) out in
      if first then go pos out
      else if max - 1 <=? pos then Some None
      else out ← put out pos SLASH; go (pos + 1) out
  end.
Definition normalize_path (combined : list Z) (max : Z) (out : list Z) : option (option (list Z)) :=
  r ← norm_segs (S (length combined)) combined [];
  match r with
  | None => Some None
  | Some segs =>
      if max <=? 0 then Some None
      else
        out ← put out 0 SLASH;
        r ← norm_write true segs max 1 out;
        match r with
        | None => Some None
        | Some (pos, out) => out ← put out pos 0; s ← c_string out; Some (Some s)
        end
  end.

(** combined[] has room for 511 characters. *)
Definition COMBINED_MAX : Z := CWD_MAX + SHELL_LINE_MAX.
Definition resolve_path (cwd input : list Z) (max : Z) (out : list Z) : option (option (list Z)) :=
  match input with
  | [] => normalize_path (take (Z.to_nat (COMBINED_MAX - 1)) cwd) max out
  | c :: _ =>
      if c =? SLASH then normalize_path (take (Z.to_nat (COMBINED_MAX - 1)) input) max out
      else if COMBINED_MAX <=? zlen cwd + 1 + zlen input then Some None
      else normalize_path (cwd ++ SLASH :: input) max out
  end.

(** ** Numbers are printed as numerals *)

Lemma put_cell_back a x b v i : i = zlen a -> put (a ++ x :: b) i v = Some (a ++ v :: b).
Proof.
  intros ->. rewrite put_in by (rewrite zlen_app, zlen_cons; pose proof (zlen_nonneg a); pose proof (zlen_nonneg b); lia).
  by rewrite zset_middle.
Qed.

Lemma u64_digits_spec fuel k : forall v a t, 0 <= v < 10 ^ Z.of_nat k -> (k < fuel)%nat -> (k <= length a)%nat ->
  exists b, u64_digits fuel v (zlen a) (a ++ t) = Some (zlen a - zlen (rdigits k 10 v), b ++ map (fun d => 48 + d) (rev (rdigits k 10 v)) ++ t) /\
    zlen b = zlen a - zlen (rdigits k 10 v).
Proof.
  revert fuel. induction k as [| k IH]; intros [| fuel] v a t Hv Hf Ha; try lia.
  - assert (v = 0) as -> by lia. cbn. exists a. rewrite Z.sub_0_r. done.
  - cbn [u64_digits rdigits]. unfold istrue. destruct (Z.eqb_spec v 0) as [-> | Hnz]; cbn [negb].
    { exists a. change (zlen []) with 0. rewrite Z.sub_0_r. done. }
    destruct (exists_last (l := a)) as (a' & x & ->); [intros ->; cbn in Ha; lia |].
    rewrite <- app_assoc. cbn [app]. rewrite zlen_app. change (zlen [x]) with 1.
    replace (zlen a' + 1 - 1) with (zlen a') by lia. rewrite put_cell_back by done. cbn [mbind option_bind].
    rewrite length_app in Ha. cbn in Ha.
    rewrite Nat2Z.inj_succ, Z.pow_succ_r in Hv by lia.
    destruct (IH fuel (v / 10) a' ((48 + v mod 10) :: t)) as (b & -> & Hb); [lia.. |].
    exists b. split; [| rewrite zlen_cons; lia]. rewrite zlen_cons. cbn [rev]. rewrite map_app, <- app_assoc. cbn [map app].
    f_equal. f_equal. lia.
Qed.

Lemma rdigits_more n k1 k2 : 0 <= n < 10 ^ Z.of_nat k1 -> (k1 <= k2)%nat -> rdigits k2 10 n = rdigits k1 10 n.
Proof.
  revert n k2. induction k1 as [| k1 IH]; intros n k2 Hn Hk.
  - assert (n = 0) as -> by lia. by destruct k2.
  - destruct k2 as [| k2]; [lia |]. cbn [rdigits]. destruct (Z.eqb_spec n 0); [done |]. f_equal. apply IH; [| lia].
    rewrite Nat2Z.inj_succ, Z.pow_succ_r in Hn by lia. lia.
Qed.

Lemma hex_digits_dec ds : Forall (fun d => 0 <= d < 10) ds -> map (fun d => 48 + d) ds = map hex_digit ds.
Proof.
  induction 1 as [| d ds Hd _ IH]; [done |]. cbn [map]. rewrite IH. f_equal. unfold hex_digit. destruct (Z.ltb_spec d 10); lia.
Qed.

Lemma rdigits_len k n : zlen (rdigits k 10 n) <= Z.of_nat k.
Proof.
  revert n. induction k as [| k IH]; intros n; cbn [rdigits]; [done |]. destruct (n =? 0); [unfold zlen; cbn; lia |].
  rewrite zlen_cons. specialize (IH (n / 10)). lia.
Qed.

Lemma u64_text_numeral v : 0 <= v < 18446744073709551616 -> u64_text v = Some (numeral 10 v).
Proof.
  intros Hv. unfold u64_text, numeral.
  assert (put (replicate 21 0) 20 0 = Some (replicate 20 0 ++ [0])) as -> by done. cbn [mbind option_bind].
  destruct (Z.eqb_spec v 0) as [-> | Hnz]; [done |].
  destruct (u64_digits_spec 21 20 v (replicate 20 0) [0]) as (b & E & Hb);
    [change (10 ^ Z.of_nat 20) with 100000000000000000000; lia | lia | cbn; lia |].
  change (zlen (replicate 20 0)) with 20 in E, Hb. rewrite E. cbn [mbind option_bind fst snd].
  rewrite (rdigits_more v 20 64) by (change (10 ^ Z.of_nat 20) with 100000000000000000000; lia).
  rewrite drop_app_length' by (unfold zlen in *; lia).
  pose proof (rdigits_range 10 20 v ltac:(lia)) as Hd%Forall_rev. rewrite hex_digits_dec by done. apply c_string_text.
  unfold nonzero. apply Forall_map. eapply Forall_impl; [exact Hd |]. cbn. intros d Hd'. unfold hex_digit. destruct (d <? 10); lia.
Qed.

(** ** Addresses *)

Lemma digit_char d : 0 <= d <= 9 -> is_digit (48 + d) = true.
Proof. unfold is_digit. lia. Qed.

Lemma parse_digit d s n : 0 <= d <= 9 -> n * 10 + d <= 255 -> parse_octet ((48 + d) :: s) n = parse_octet s (n * 10 + d).
Proof.
  intros Hd Hn. cbn [parse_octet]. rewrite digit_char by done. replace (48 + d - 48) with d by lia.
  destruct (Z.ltb_spec 255 (n * 10 + d)); [lia | done].
Qed.

Lemma parse_stop s n : is_digit (hd 0 s) = false -> parse_octet s n = Some (n, s).
Proof. intros H. destruct s as [| c s]; [done |]. cbn [parse_octet hd] in *. by rewrite H. Qed.

Lemma octet_roundtrip n rest : 0 <= n < 256 -> is_digit (hd 0 rest) = false ->
  exists c t, octet_text n = Some (c :: t) /\ is_digit c = true /\ parse_octet ((c :: t) ++ rest) 0 = Some (n, rest).
Proof.
  intros Hn Hr. unfold octet_text. cbv zeta.
  assert (forall c t, is_digit c = true -> parse_octet ((c :: t) ++ rest) 0 = Some (n, rest) -> Forall (fun x => is_digit x = true) (c :: t) ->
    forall o, o = c_string ((c :: t) ++ [0]) ->
    exists c t, o = Some (c :: t) /\ is_digit c = true /\ parse_octet ((c :: t) ++ rest) 0 = Some (n, rest)) as Hgo.
  { intros c t Hc Hp Ht o ->. exists c, t. rewrite c_string_text; [done |]. eapply Forall_impl; [exact Ht |].
    cbn. unfold is_digit. lia. }
  destruct (Z.leb_spec 100 n), (Z.leb_spec 10 n); try lia.
  - apply (Hgo (48 + n / 100) [48 + n / 10 mod 10; 48 + n mod 10]); [apply digit_char; lia | cbn [app] | | reflexivity].
    + do 3 rewrite parse_digit by lia. rewrite parse_stop by done. do 2 f_equal. lia.
    + repeat constructor; apply digit_char; lia.
  - apply (Hgo (48 + n / 10 mod 10) [48 + n mod 10]); [apply digit_char; lia | cbn [app] | | reflexivity].
    + do 2 rewrite parse_digit by lia. rewrite parse_stop by done. do 2 f_equal. lia.
    + repeat constructor; apply digit_char; lia.
  - apply (Hgo (48 + n mod 10) []); [apply digit_char; lia | cbn [app] | | reflexivity].
    + rewrite parse_digit by lia. rewrite parse_stop by done. do 2 f_equal. lia.
    + repeat constructor; apply digit_char; lia.
Qed.

Lemma ip_part_octet ip part : 0 <= ip < 4294967296 -> 0 <= part < 4 -> ip_part ip part = ip / 2 ^ (8 * part) mod 256.
Proof.
  intros H Hp. unfold ip_part. rewrite Z.shiftr_div_pow2 by lia. change 0xFF with (Z.ones 8). rewrite land_mask by done.
  rewrite u8_id by (change (2 ^ 8) with 256; lia). by rewrite (Z.mul_comm part).
Qed.

(** Also: an address is printed as its four numbers and read back from them, whatever follows
    the last number, as long as it is no digit. *)
Theorem ip_roundtrip (ip : Z) (rest : list Z) (Hip : 0 <= ip < 4294967296) (Hrest : is_digit (hd 0 rest) = false) :
  exists t, ip_text ip = Some t /\ parse_ip (t ++ rest) = Some ip.
Proof.
  unfold ip_text. rewrite !ip_part_octet by lia. change (2 ^ (8 * 0)) with 1. change (2 ^ (8 * 1)) with 256.
  change (2 ^ (8 * 2)) with 65536. change (2 ^ (8 * 3)) with 16777216.
  set (n0 := ip / 1 mod 256). set (n1 := ip / 256 mod 256). set (n2 := ip / 65536 mod 256). set (n3 := ip / 16777216 mod 256).
  assert (ip = n0 + 256 * n1 + 65536 * n2 + 16777216 * n3) as Eip by (unfold n0, n1, n2, n3; lia).
  assert (0 <= n0 < 256 /\ 0 <= n1 < 256 /\ 0 <= n2 < 256 /\ 0 <= n3 < 256) as (B0 & B1 & B2 & B3)
    by (unfold n0, n1, n2, n3; lia).
  clearbody n0 n1 n2 n3. clear Hip.
  destruct (octet_roundtrip n3 rest B3 Hrest) as (c3 & t3 & E3 & D3 & P3).
  destruct (octet_roundtrip n2 (46 :: (c3 :: t3) ++ rest) B2 eq_refl) as (c2 & t2 & E2 & D2 & P2).
  destruct (octet_roundtrip n1 (46 :: (c2 :: t2) ++ 46 :: (c3 :: t3) ++ rest) B1 eq_refl) as (c1 & t1 & E1 & D1 & P1).
  destruct (octet_roundtrip n0 (46 :: (c1 :: t1) ++ 46 :: (c2 :: t2) ++ 46 :: (c3 :: t3) ++ rest) B0 eq_refl) as (c0 & t0 & E0 & D0 & P0).
  rewrite E0, E1, E2, E3. cbn [mbind option_bind]. eexists. split; [done |].
  match goal with |- parse_ip ?t = _ => assert (t = (c0 :: t0) ++ 46 :: (c1 :: t1) ++ 46 :: (c2 :: t2) ++ 46 :: (c3 :: t3) ++ rest) as ->
    by (repeat (cbn [app]; rewrite <- ?app_assoc); done) end.
  unfold parse_ip. cbn [parse_parts]. cbn [app hd]. rewrite D0. cbn [negb].
  cbn [app] in P0. rewrite P0. cbn [mbind option_bind hd tail]. change (0 <? 3) with true. change (46 =? 46) with true. cbn [andb negb hd].
  rewrite D1. cbn [negb]. cbn [app] in P1. rewrite P1. cbn [mbind option_bind hd tail]. change (0 + 1 <? 3) with true.
  change (46 =? 46) with true. cbn [andb negb hd].
  rewrite D2. cbn [negb]. cbn [app] in P2. rewrite P2. cbn [mbind option_bind hd tail]. change (0 + 1 + 1 <? 3) with true.
  change (46 =? 46) with true. cbn [andb negb hd].
  rewrite D3. cbn [negb]. cbn [app] in P3. rewrite P3. cbn [mbind option_bind hd tail]. change (0 + 1 + 1 + 1 <? 3) with false. cbn [andb negb hd].
  f_equal. rewrite Z.lor_0_l, !Z.shiftl_mul_pow2 by lia. change (2 ^ (0 * 8)) with 1. change (2 ^ ((0 + 1) * 8)) with 256.
  change (2 ^ ((0 + 1 + 1) * 8)) with 65536. change (2 ^ ((0 + 1 + 1 + 1) * 8)) with 16777216. rewrite !u32_id by lia.
  rewrite (Z.lor_comm (n0 * 1)), (lor_add_disjoint (n1 * 256) (n0 * 1) 8) by (change (2 ^ 8) with 256; lia).
  rewrite (Z.lor_comm (_ + _)), (lor_add_disjoint (n2 * 65536) _ 16) by (change (2 ^ 16) with 65536; lia).
  rewrite (Z.lor_comm (_ + _)), (lor_add_disjoint (n3 * 16777216) _ 24) by (change (2 ^ 24) with 16777216; lia). lia.
Qed.

(** ** The words of a line *)

Fixpoint split_by (f : Z -> bool) (s cur : list Z) : list (list Z) :=
  match s with
  | [] => match cur with [] => [] | _ => [cur] end
  | c :: s' => if f c then match cur with [] => split_by f s' [] | _ => cur :: split_by f s' [] end
               else split_by f s' (cur ++ [c])
  end.
Definition words (s : list Z) : list (list Z) := split_by is_blank s [].

Lemma split_by_seps f b s : Forall (fun c => f c = true) b -> split_by f (b ++ s) [] = split_by f s [].
Proof. induction 1 as [| c b Hc _ IH]; [done |]. cbn [app split_by]. by rewrite Hc. Qed.

Lemma split_by_word f w s : forall cur, Forall (fun c => f c = false) w -> split_by f (w ++ s) cur = split_by f s (cur ++ w).
Proof.
  induction w as [| c w IH]; intros cur Hw; [by rewrite app_nil_r |]. apply Forall_cons in Hw as [Hc Hw].
  cbn [app split_by]. rewrite Hc, IH by done. by rewrite <- app_assoc.
Qed.

(** A word and what follows it. *)
Lemma split_by_cons f w s : w <> [] -> Forall (fun c => f c = false) w -> match s with [] => True | c :: _ => f c = true end ->
  split_by f (w ++ s) [] = w :: split_by f s [].
Proof.
  intros Hne Hw Hs. rewrite split_by_word by done. cbn [app]. destruct w as [| x w]; [done |]. destruct s as [| c s]; cbn [split_by]; [done |].
  by rewrite Hs.
Qed.

Lemma span_by (f : Z -> bool) s : exists b s', s = b ++ s' /\ Forall (fun c => f c = true) b /\ match s' with [] => True | c :: _ => f c = false end.
Proof.
  induction s as [| c s (b & s' & -> & Hb & Hs)]; [by exists [], [] |]. destruct (f c) eqn:E.
  - exists (c :: b), s'. split; [done |]. split; [by constructor | done].
  - by exists [], (c :: b ++ s').
Qed.

Lemma skip_while_spec f fuel : forall d w s, Forall (fun c => f c = true) w -> (match s with [] => False | c :: _ => f c = false end) ->
  (length w < fuel)%nat -> skip_while f fuel (zlen d) (d ++ w ++ s) = Some (zlen (d ++ w)).
Proof.
  induction fuel as [| fuel IH]; intros d w s Hw Hs Hf; [lia |]. cbn [skip_while]. destruct w as [| c w]; cbn [app].
  - destruct s as [| c s]; [done |]. rewrite zlook_middle by done. cbn [mbind option_bind]. by rewrite Hs, app_nil_r.
  - apply Forall_cons in Hw as [Hc Hw]. rewrite zlook_middle by done. cbn [mbind option_bind]. rewrite Hc.
    specialize (IH (d ++ [c]) w s Hw Hs ltac:(cbn in Hf; lia)). rewrite <- !app_assoc in IH. cbn [app] in IH.
    rewrite zlen_app in IH. change (zlen [c]) with 1 in IH. exact IH.
Qed.

Lemma c_string_app a t : forall x, c_string a = Some t -> c_string (a ++ x) = Some t.
Proof.
  revert t. induction a as [| c a IH]; intros t x H; [done |]. cbn [app c_string] in *. destruct (c =? 0); [done |].
  destruct (c_string a) as [u |]; [| done]. by rewrite (IH u x eq_refl).
Qed.

(** The words of a line whose words end at characters that [stop] them; such a character that
    is not a blank makes an empty word where a word would begin. *)
Fixpoint cut_words (stop : Z -> bool) (cur : option (list Z)) (s : list Z) : list (list Z) :=
  match s with
  | [] => match cur with Some w => [w] | None => [] end
  | c :: s =>
      match cur with
      | None => if is_blank c then cut_words stop None s else if stop c then [] :: cut_words stop None s else cut_words stop (Some [c]) s
      | Some w => if stop c then w :: cut_words stop None s else cut_words stop (Some (w ++ [c])) s
      end
  end.

Lemma cut_blanks stop b s : Forall (fun c => is_blank c = true) b -> cut_words stop None (b ++ s) = cut_words stop None s.
Proof. induction 1 as [| c b Hc _ IH]; [done |]. cbn [app cut_words]. by rewrite Hc. Qed.
Lemma cut_more stop w s : forall v, Forall (fun c => stop c = false) w -> cut_words stop (Some v) (w ++ s) = cut_words stop (Some (v ++ w)) s.
Proof.
  induction w as [| c w IH]; intros v Hw; [by rewrite app_nil_r |]. apply Forall_cons in Hw as [Hc Hw].
  cbn [app cut_words]. rewrite Hc, IH by done. by rewrite <- app_assoc.
Qed.
Lemma cut_word stop w s : is_blank (hd 32 (w ++ s)) = false -> Forall (fun c => stop c = false) w -> match s with [] => True | c :: _ => stop c = true end ->
  cut_words stop None (w ++ s) = w :: cut_words stop None (tail s).
Proof.
  intros Hb Hw Hs. destruct w as [| x w]; cbn [app hd] in *.
  - destruct s as [| c s]; [done |]. cbn [cut_words hd tail] in *. by rewrite Hb, Hs.
  - apply Forall_cons in Hw as [Hx Hw]. cbn [cut_words]. rewrite Hb, Hx, cut_more by done. destruct s as [| c s]; [done |]. cbn [cut_words app tail]. by rewrite Hs.
Qed.
Lemma cut_split s : forall cur, cut_words is_blank (match cur with [] => None | _ => Some cur end) s = split_by is_blank s cur.
Proof.
  induction s as [| c s IH]; intros cur; cbn [cut_words split_by]; [by destruct cur |]. destruct cur as [| x cur].
  - destruct (is_blank c); [apply (IH []) | apply (IH [c])].
  - destruct (is_blank c); [by rewrite <- (IH []) | apply (IH ((x :: cur) ++ [c]))].
Qed.

(** The tokens found so far end before the place [d] reaches. *)
Definition tokens_in (d : list Z) (ps : list Z) (ts : list (list Z)) : Prop :=
  Forall2 (fun p t => 0 <= p <= zlen d /\ c_string (drop (Z.to_nat p) d) = Some t) ps ts.

Lemma tokens_in_app d x ps ts : tokens_in d ps ts -> tokens_in (d ++ x) ps ts.
Proof.
  intros H. eapply Forall2_impl; [exact H |]. cbn. intros p t [Hp Hc]. split.
  - rewrite zlen_app. pose proof (zlen_nonneg x). lia.
  - rewrite drop_app_le by (unfold zlen in Hp; lia). by apply c_string_app.
Qed.

Lemma tokens_in_at d ps ts : tokens_in d ps ts -> tokens_at d ps = Some ts.
Proof. induction 1 as [| p t ps ts [_ Hc] _ IH]; [done |]. cbn [tokens_at]. unfold token_at. by rewrite Hc, IH. Qed.

Lemma tokenize_from_spec stop max fuel : (forall c, is_blank c = true -> stop c = true) ->
  forall d s rest ps ts, (length s < fuel)%nat -> nonzero s -> tokens_in d ps ts -> 1 <= max ->
  exists ps' l', tokenize_from stop fuel max (zlen d) ps (d ++ s ++ 0 :: rest) = Some (ps', l') /\
    tokens_at l' ps' = Some (ts ++ take (Z.to_nat (max - 1) - length ts) (cut_words stop None s)) /\ zlen l' = zlen (d ++ s ++ 0 :: rest).
Proof.
  intros Hstop. induction fuel as [| fuel IH]; intros d s rest ps ts Hf Hs Ht Hmax; [lia |]. cbn [tokenize_from].
  pose proof (Forall2_length _ _ _ Ht) as Hlen.
  assert (forall ps' ts' d', tokens_in d' ps' ts' -> forall x, tokens_at (d' ++ x) ps' = Some ts') as Hat
    by (intros ps' ts' d' H x; by apply tokens_in_at, tokens_in_app).
  destruct (span_by is_blank s) as (b & s' & -> & Hb & Hs'). rewrite cut_blanks by done.
  assert (exists c, zlook (d ++ (b ++ s') ++ 0 :: rest) (zlen d) = Some c /\ (istrue c = false -> b ++ s' = [])) as (c & -> & Hc0).
  { destruct (b ++ s') as [| c t] eqn:E; cbn [app]; [exists 0; by rewrite zlook_middle by done |].
    exists c. rewrite zlook_middle by done. split; [done |]. intros Hc. exfalso. apply Forall_cons in Hs as [Hx _]. by rewrite istrue_neq in Hc. }
  cbn [mbind option_bind]. destruct (istrue c) eqn:Ec; cbn [negb].
  2:{ destruct (app_eq_nil _ _ (Hc0 eq_refl)) as [-> ->]. eexists _, _. split; [done |]. split; [| done].
      cbn [cut_words]. rewrite take_nil, (app_nil_r ts). by apply Hat. }
  apply Forall_app in Hs as [_ Hs]. rewrite <- app_assoc. unfold skip_blank. rewrite (skip_while_spec is_blank); [| done | by destruct s' | rewrite !length_app; cbn; lia].
  cbn [mbind option_bind]. rewrite app_assoc. destruct (span_by (fun c => negb (stop c)) s') as (w & s2 & -> & Hw & Hs2).
  assert (Forall (fun c => in_word stop c = true) w) as Hword.
  { apply Forall_app in Hs as [Hs _]. eapply Forall_impl; [apply Forall_and; exact (conj Hs Hw) |]. cbn. intros y [Hy1 Hy2]. unfold in_word. by rewrite istrue_neq, Hy2. }
  destruct (decide (w ++ s2 = [])) as [Hnil | Hne].
  { rewrite Hnil. cbn [app]. rewrite zlook_middle by done. cbn [mbind option_bind istrue Z.eqb negb].
    eexists _, _. split; [done |]. split; [| done]. cbn [cut_words]. rewrite take_nil, (app_nil_r ts), <- app_assoc. by apply Hat. }
  assert (exists x t, w ++ s2 = x :: t /\ x <> 0) as (x & t & Ex & Hx) by (destruct (w ++ s2) as [| x t]; [done | apply Forall_cons in Hs as [Hx _]; by exists x, t]).
  rewrite Ex. cbn [app]. rewrite zlook_middle by done. cbn [mbind option_bind]. rewrite (istrue_neq x) by done. cbn [negb].
  change (x :: t ++ 0 :: rest) with ((x :: t) ++ 0 :: rest). rewrite <- Ex.
  destruct (Z.leb_spec (max - 1) (zlen ps)).
  { eexists _, _. split; [done |]. split; [| by rewrite <- app_assoc]. replace (Z.to_nat (max - 1) - length ts)%nat with O by (unfold zlen in *; lia).
    rewrite take_0. rewrite (app_nil_r ts), <- app_assoc. by apply Hat. }
  rewrite cut_word; [| by rewrite Ex in Hs' |- * | eapply Forall_impl; [exact Hw |]; intros y; apply negb_true_iff | destruct s2; [done | by apply negb_false_iff]].
  replace (Z.to_nat (max - 1) - length ts)%nat with (S (Z.to_nat (max - 1) - S (length ts))) by (unfold zlen in *; lia). cbn [take].
  rewrite <- (app_assoc w). unfold skip_word. rewrite (skip_while_spec (in_word stop)); [| done | | rewrite !length_app; cbn; lia].
  2:{ unfold in_word. destruct s2 as [| z s2]; cbn [app]; [done |]. by rewrite Hs2, andb_false_r. }
  cbn [mbind option_bind]. rewrite (app_assoc (d ++ b)).
  assert (forall y, tokens_in (((d ++ b) ++ w) ++ 0 :: y) (ps ++ [zlen (d ++ b)]) (ts ++ [w])) as Hnew.
  { intros y. apply Forall2_app; [rewrite <- !app_assoc; by apply tokens_in_app |]. constructor; [| constructor]. split.
    - rewrite !zlen_app. pose proof (zlen_nonneg w). pose proof (zlen_nonneg (0 :: y)). pose proof (zlen_nonneg d). pose proof (zlen_nonneg b). lia.
    - rewrite <- app_assoc. rewrite drop_app_length' by (unfold zlen; lia). apply c_string_text. by apply Forall_app in Hs as [? _]. }
  destruct s2 as [| z s2]; cbn [app tail].
  - rewrite zlook_middle by done. cbn [mbind option_bind istrue Z.eqb negb].
    destruct fuel as [| fuel]; [rewrite !length_app in Hf; rewrite app_nil_r in Ex; rewrite Ex in Hf; cbn in Hf; lia |]. cbn [tokenize_from].
    rewrite zlook_middle by done. cbn [mbind option_bind istrue Z.eqb negb]. eexists _, _. split; [done |]. split; [| rewrite ?app_nil_r, <- ?app_assoc; done].
    cbn [cut_words]. rewrite take_nil. by apply tokens_in_at.
  - rewrite zlook_middle by done. cbn [mbind option_bind]. apply Forall_app in Hs as [_ Hz]. apply Forall_cons in Hz as [Hz Hs3].
    rewrite (istrue_neq z) by done. rewrite put_cell_back by done. cbn [mbind option_bind].
    replace (zlen ((d ++ b) ++ w) + 1) with (zlen (((d ++ b) ++ w) ++ [0])) by (rewrite (zlen_app _ [0]); done).
    replace (((d ++ b) ++ w) ++ 0 :: s2 ++ 0 :: rest) with ((((d ++ b) ++ w) ++ [0]) ++ s2 ++ 0 :: rest) by (by rewrite <- app_assoc).
    destruct (IH (((d ++ b) ++ w) ++ [0]) s2 rest (ps ++ [zlen (d ++ b)]) (ts ++ [w])) as (ps' & l' & -> & Et & El).
    + rewrite !length_app in Hf. cbn in Hf. lia.
    + done.
    + apply Hnew.
    + done.
    + eexists _, _. split; [done |]. split.
      * rewrite Et, <- app_assoc. cbn [app]. rewrite length_app. cbn [length]. do 5 f_equal. lia.
      * rewrite El. repeat progress rewrite ?zlen_app, ?zlen_cons. change (@zlen Z []) with 0. lia.
Qed.

Lemma tokenize_line stop max s rest : (forall c, is_blank c = true -> stop c = true) -> nonzero s -> 1 <= max ->
  exists ps l', tokenize_from stop (S (length (s ++ 0 :: rest))) max 0 [] (s ++ 0 :: rest) = Some (ps, l') /\ zlen l' = zlen (s ++ 0 :: rest) /\
    tokens_at l' ps = Some (take (Z.to_nat (max - 1)) (cut_words stop None s)).
Proof.
  intros Hstop Hs Hmax. destruct (tokenize_from_spec stop max (S (length (s ++ 0 :: rest))) Hstop [] s rest [] []) as (ps & l' & E & Et & El);
    [rewrite length_app; cbn; lia | done | constructor | done |].
  exists ps, l'. split; [exact E |]. split; [exact El |]. rewrite Et. cbn [length app]. by rewrite Nat.sub_0_r.
Qed.
Lemma tokenize_correct max s rest : nonzero s -> 1 <= max ->
  exists ps l', tokenize max (s ++ 0 :: rest) = Some (ps, l') /\ zlen l' = zlen (s ++ 0 :: rest) /\
    tokens_at l' ps = Some (take (Z.to_nat (max - 1)) (words s)).
Proof. intros Hs Hmax. unfold words. rewrite <- (cut_split s []). by apply tokenize_line. Qed.

(** Also: dividing a line into words, in place and whatever blanks are in it, gives its words
    in order, the first [max - 1] of them, and stays inside the line. *)
Theorem tokenize_spec (max : Z) (s rest : list Z) (Hs : nonzero s) (Hmax : 1 <= max) :
  exists ps l', tokenize max (s ++ 0 :: rest) = Some (ps, l') /\ zlen l' = zlen (s ++ 0 :: rest) /\
    tokens_at l' ps = Some (take (Z.to_nat (max - 1)) (words s)).
Proof. exact (tokenize_correct max s rest Hs Hmax). Qed.

(** ** Paths mean sequences of names *)

(** What one part of a path does; [None] when there would be more than 32. *)
Definition walk (acc : list (list Z)) (c : list Z) : option (list (list Z)) :=
  if bool_decide (c = [DOT]) then Some acc
  else if bool_decide (c = [DOT; DOT]) then Some (removelast acc)
  else if 32 <=? zlen acc then None else Some (acc ++ [c]).
Fixpoint walks (acc : list (list Z)) (cs : list (list Z)) : option (list (list Z)) :=
  match cs with [] => Some acc | c :: cs => acc ← walk acc c; walks acc cs end.

(** The names of an absolute path, and the path of names. *)
Definition path_of (cs : list (list Z)) : list Z :=
  match cs with [] => [SLASH] | _ => concat (map (fun c => SLASH :: c) cs) end.
Definition is_name (c : list Z) : Prop :=
  c <> [] /\ Forall (fun x => x <> SLASH) c /\ c <> [DOT] /\ c <> [DOT; DOT].
Definition canonical (p : list Z) : Prop :=
  exists cs, Forall is_name cs /\ Forall nonzero cs /\ zlen cs <= 32 /\ p = path_of cs.

Definition is_slash (c : Z) : bool := c =? SLASH.
Lemma split_slash_by s : forall cur, split_slash s cur = split_by is_slash s cur.
Proof.
  induction s as [| c s IH]; intros cur; [done |]. cbn [split_slash split_by]. unfold is_slash at 1.
  destruct (c =? SLASH); [destruct cur |]; by rewrite IH.
Qed.

Lemma parts_slashes b s : Forall (fun c => is_slash c = true) b -> parts (b ++ s) = parts s.
Proof. intros Hb. unfold parts. rewrite !split_slash_by. by apply split_by_seps. Qed.

Lemma parts_cons w s : w <> [] -> Forall (fun c => is_slash c = false) w -> match s with [] => True | c :: _ => is_slash c = true end ->
  parts (w ++ s) = w :: parts s.
Proof. intros H1 H2 H3. unfold parts. rewrite !split_slash_by. by apply split_by_cons. Qed.

Lemma skip_slashes_spec b s : Forall (fun c => is_slash c = true) b -> match s with [] => True | c :: _ => is_slash c = false end ->
  skip_slashes (b ++ s) = s.
Proof.
  intros Hb Hs. induction Hb as [| c b Hc _ IH]; cbn [app skip_slashes].
  - destruct s as [| c s]; [done |]. cbn [skip_slashes]. unfold is_slash in Hs. by rewrite Hs.
  - unfold is_slash in Hc. by rewrite Hc.
Qed.

Lemma take_name_spec w s : Forall (fun c => is_slash c = false) w -> match s with [] => True | c :: _ => is_slash c = true end ->
  take_name (w ++ s) = (w, s).
Proof.
  intros Hw Hs. induction Hw as [| c w Hc _ IH]; cbn [app take_name].
  - destruct s as [| c s]; [done |]. cbn [take_name]. unfold is_slash in Hs. by rewrite Hs.
  - unfold is_slash in Hc. by rewrite Hc, IH.
Qed.

Lemma removelast_nil_if {A} (l : list A) : (if 0 <? zlen l then removelast l else l) = removelast l.
Proof. destruct l; [done |]. by destruct (Z.ltb_spec 0 (zlen (a :: l))). Qed.

Lemma norm_segs_spec fuel : forall s segs, (length s < fuel)%nat -> norm_segs fuel s segs = Some (walks segs (parts s)).
Proof.
  induction fuel as [| fuel IH]; intros s segs Hf; [lia |]. cbn [norm_segs].
  destruct (span_by is_slash s) as (b & s' & -> & Hb & Hs'). rewrite parts_slashes, skip_slashes_spec by done.
  destruct s' as [| x s']; [done |].
  destruct (span_by (fun c => negb (is_slash c)) s') as (w & s2 & -> & Hw & Hs2).
  assert (Forall (fun c => is_slash c = false) (x :: w)) as Hxw.
  { constructor; [done |]. eapply Forall_impl; [exact Hw |]. cbn. intros y Hy. by apply negb_true_iff. }
  assert (match s2 with [] => True | c :: _ => is_slash c = true end) as Hs2' by (destruct s2; [done | by apply negb_false_iff]).
  change (x :: w ++ s2) with ((x :: w) ++ s2). rewrite take_name_spec, parts_cons by done. cbn [walks].
  rewrite !length_app in Hf. cbn in Hf. rewrite length_app in Hf. unfold walk.
  destruct (bool_decide (x :: w = [DOT])); [apply IH; lia |].
  destruct (bool_decide (x :: w = [DOT; DOT])); [rewrite removelast_nil_if; apply IH; lia |].
  destruct (32 <=? zlen segs); [done |]. apply IH. lia.
Qed.

(** What norm_write adds: the names with slashes between them. *)
Definition tail_text (first : bool) (segs : list (list Z)) : list Z :=
  let t := concat (map (fun c => SLASH :: c) segs) in if first then drop 1 t else t.

Lemma tail_true name segs : tail_text true (name :: segs) = name ++ tail_text false segs.
Proof. reflexivity. Qed.
Lemma tail_false name segs : tail_text false (name :: segs) = SLASH :: name ++ tail_text false segs.
Proof. reflexivity. Qed.

Lemma copy_name_spec a name b : forall mid, length mid = length name ->
  copy_name (zlen a) name (a ++ mid ++ b) = Some (a ++ name ++ b).
Proof.
  unfold copy_name. intros mid Hm.
  assert (forall k n1 n2 m2 a, name = n1 ++ n2 -> length n2 = k -> length m2 = k ->
    loopM k (zlen n1) (fun i out => c ← zlook name i; put out (zlen a + i) c) (a ++ n1 ++ m2 ++ b) = Some (a ++ name ++ b)) as H.
  { clear a mid Hm. induction k as [| k IH]; intros n1 n2 m2 a E H1 H2.
    - destruct n2, m2; try done. rewrite app_nil_r in E. subst. done.
    - destruct n2 as [| x n2]; [done |]. destruct m2 as [| y m2]; [done |]. cbn [loopM].
      rewrite E at 1. rewrite zlook_middle by done. cbn [mbind option_bind].
      replace (a ++ n1 ++ (y :: m2) ++ b) with ((a ++ n1) ++ y :: (m2 ++ b)) by (rewrite <- app_assoc; done).
      rewrite put_cell_back by (rewrite zlen_app; lia). cbn [mbind option_bind].
      specialize (IH (n1 ++ [x]) n2 m2 a). rewrite zlen_app in IH. change (zlen [x]) with 1 in IH.
      rewrite <- IH by (try (cbn in *; lia); rewrite <- app_assoc; done). f_equal.
      rewrite <- !app_assoc. done. }
  by rewrite <- (H (length name) [] name mid a eq_refl eq_refl Hm).
Qed.

Lemma norm_write_spec segs : forall first max pre post, zlen (pre ++ post) = max -> Forall (fun c => c <> []) segs -> zlen pre < max ->
  norm_write first segs max (zlen pre) (pre ++ post) =
    Some (if max <=? zlen pre + zlen (tail_text first segs) then None
          else Some (zlen pre + zlen (tail_text first segs),
                     pre ++ tail_text first segs ++ drop (length (tail_text first segs)) post)).
Proof.
  induction segs as [| name segs IH]; intros first max pre post Hl Hne Hp; cbn [norm_write].
  { assert (tail_text first [] = []) as -> by (by destruct first). change (@zlen Z []) with 0. rewrite Z.add_0_r.
    destruct (Z.leb_spec max (zlen pre)); [lia | done]. }
  apply Forall_cons in Hne as [Hn Hne].
  assert (0 < zlen name) as Hnl by (destruct name; [done | rewrite zlen_cons; pose proof (zlen_nonneg name); lia]).
  assert (forall pre post, zlen (pre ++ post) = max -> zlen pre < max ->
    (if max <=? zlen pre + zlen name then Some None
     else out ← copy_name (zlen pre) name (pre ++ post); norm_write false segs max (zlen pre + zlen name) out) =
    Some (if max <=? zlen pre + zlen (tail_text true (name :: segs)) then None
          else Some (zlen pre + zlen (tail_text true (name :: segs)),
                     pre ++ tail_text true (name :: segs) ++ drop (length (tail_text true (name :: segs))) post))) as Hgo.
  { clear pre post Hl Hp. intros pre post Hl Hp. rewrite tail_true, zlen_app. pose proof (zlen_nonneg (tail_text false segs)).
    destruct (Z.leb_spec max (zlen pre + zlen name)).
    { destruct (Z.leb_spec max (zlen pre + (zlen name + zlen (tail_text false segs)))); [done | lia]. }
    rewrite zlen_app in Hl.
    replace post with (take (length name) post ++ drop (length name) post) at 1 by (by rewrite take_drop).
    rewrite copy_name_spec by (rewrite length_take; unfold zlen in *; lia). cbn [mbind option_bind].
    replace (zlen pre + zlen name) with (zlen (pre ++ name)) by (by rewrite zlen_app). rewrite app_assoc.
    rewrite IH; [| | done | rewrite zlen_app; lia].
    2:{ rewrite !zlen_app. unfold zlen in *. rewrite length_drop. lia. }
    rewrite zlen_app, Z.add_assoc. destruct (max <=? _); [done |]. do 3 f_equal. rewrite <- !app_assoc. do 2 f_equal.
    f_equal. rewrite drop_drop, length_app. done. }
  destruct first; [by apply Hgo |].
  rewrite tail_true in Hgo. rewrite tail_false. set (t := name ++ tail_text false segs) in *.
  assert (0 < zlen t) as Ht by (unfold t; rewrite zlen_app; pose proof (zlen_nonneg (tail_text false segs)); lia).
  rewrite zlen_cons. cbn [length].
  destruct (Z.leb_spec (max - 1) (zlen pre)).
  { destruct (Z.leb_spec max (zlen pre + (zlen t + 1))); [done | lia]. }
  destruct post as [| y post]; [rewrite app_nil_r in Hl; lia |].
  rewrite put_cell_back by done. cbn [mbind option_bind].
  replace (pre ++ SLASH :: post) with ((pre ++ [SLASH]) ++ post) by (by rewrite <- app_assoc).
  replace (zlen pre + 1) with (zlen (pre ++ [SLASH])) by (rewrite zlen_app; done).
  rewrite Hgo; [| rewrite !zlen_app in *; rewrite zlen_cons in Hl; change (zlen [SLASH]) with 1; lia | rewrite zlen_app; change (zlen [SLASH]) with 1; lia].
  rewrite zlen_app. change (zlen [SLASH]) with 1. replace (zlen pre + 1 + zlen t) with (zlen pre + (zlen t + 1)) by lia.
  destruct (max <=? _); [done |]. do 3 f_equal. by rewrite <- app_assoc.
Qed.

Lemma split_by_Forall (P : Z -> Prop) f s : forall cur, Forall P s -> Forall P cur -> Forall (fun c => f c = false) cur ->
  Forall (fun w => w <> [] /\ Forall (fun c => f c = false) w /\ Forall P w) (split_by f s cur).
Proof.
  induction s as [| c s IH]; intros cur Hs Hc Hf; cbn [split_by]; [destruct cur; [constructor | constructor; [done | constructor]] |].
  apply Forall_cons in Hs as [Hc1 Hs]. destruct (f c) eqn:E.
  - destruct cur as [| x cur]; [by apply IH |]. constructor; [done | by apply IH].
  - apply IH; [done | |]; apply Forall_app; (split; [done | by repeat constructor]).
Qed.

Lemma parts_names s : nonzero s -> Forall (fun w => w <> [] /\ Forall (fun x => x <> SLASH) w /\ nonzero w) (parts s).
Proof.
  intros Hs. unfold parts. rewrite split_slash_by. eapply Forall_impl; [by apply (split_by_Forall (fun c => c <> 0)) |].
  cbn. intros w (H1 & H2 & H3). split; [done |]. split; [| done]. eapply Forall_impl; [exact H2 |]. cbn. unfold is_slash. lia.
Qed.

Lemma walks_names cs : forall acc res, Forall (fun w => w <> [] /\ Forall (fun x => x <> SLASH) w /\ nonzero w) cs ->
  Forall (fun c => is_name c /\ nonzero c) acc -> zlen acc <= 32 -> walks acc cs = Some res ->
  Forall (fun c => is_name c /\ nonzero c) res /\ zlen res <= 32.
Proof.
  induction cs as [| c cs IH]; intros acc res Hcs Hacc Hl; cbn [walks]; [by intros [= <-] |].
  apply Forall_cons in Hcs as [(H1 & H2 & H3) Hcs]. unfold walk.
  destruct (bool_decide_reflect (c = [DOT])) as [-> | Hd]; [cbn [mbind option_bind]; by apply IH |].
  destruct (bool_decide_reflect (c = [DOT; DOT])) as [-> | Hdd]; cbn [mbind option_bind].
  { destruct acc as [| x acc] using rev_ind; [by apply IH |]. rewrite removelast_last. apply Forall_app in Hacc as [Hacc _].
    apply IH; [done | done |]. rewrite zlen_app in Hl. change (zlen [x]) with 1 in Hl. lia. }
  destruct (Z.leb_spec 32 (zlen acc)); [done |]. cbn [mbind option_bind]. apply IH; [done | |].
  - apply Forall_app. split; [done |]. by repeat constructor.
  - rewrite zlen_app. change (zlen [c]) with 1. lia.
Qed.

Lemma walks_app cs ds : forall acc, walks acc (cs ++ ds) = (a ← walks acc cs; walks a ds).
Proof. induction cs as [| c cs IH]; intros acc; cbn [app walks]; [done |]. destruct (walk acc c); [apply IH | done]. Qed.

Lemma walks_push cs : forall acc, Forall is_name cs -> zlen acc + zlen cs <= 32 -> walks acc cs = Some (acc ++ cs).
Proof.
  induction cs as [| c cs IH]; intros acc Hcs Hl; cbn [walks]; [by rewrite app_nil_r |].
  apply Forall_cons in Hcs as [(H1 & H2 & H3 & H4) Hcs]. rewrite zlen_cons in Hl. pose proof (zlen_nonneg cs).
  unfold walk. rewrite !bool_decide_false by done. destruct (Z.leb_spec 32 (zlen acc)); [lia |]. cbn [mbind option_bind].
  rewrite IH; [by rewrite <- app_assoc | done |]. rewrite zlen_app. change (zlen [c]) with 1. lia.
Qed.

Lemma path_tail cs : path_of cs = SLASH :: tail_text true cs.
Proof. by destruct cs. Qed.

Lemma parts_concat cs s : Forall is_name cs -> match s with [] => True | c :: _ => is_slash c = true end ->
  parts (concat (map (fun c => SLASH :: c) cs) ++ s) = cs ++ parts s.
Proof.
  intros Hcs Hs. induction Hcs as [| c cs (H1 & H2 & _) _ IH]; [done |]. cbn [map concat]. rewrite <- app_assoc.
  change ((SLASH :: c) ++ ?x) with ([SLASH] ++ c ++ x). rewrite parts_slashes by (by repeat constructor).
  rewrite parts_cons; [by rewrite IH | done | |].
  - eapply Forall_impl; [exact H2 |]. cbn. unfold is_slash. lia.
  - destruct cs; [exact Hs | done].
Qed.

Lemma parts_path cs s : Forall is_name cs -> match s with [] => True | c :: _ => is_slash c = true end -> parts (path_of cs ++ s) = cs ++ parts s.
Proof.
  intros Hcs Hs. destruct cs as [| c cs]; [| by apply parts_concat].
  cbn [path_of]. rewrite parts_slashes by (by repeat constructor). done.
Qed.

Lemma path_nonzero cs : Forall nonzero cs -> nonzero (path_of cs).
Proof.
  intros H. assert (nonzero (concat (map (fun c => SLASH :: c) cs))) as Hc.
  { induction H as [| c cs Hc _ IH]; [constructor |]. cbn [map concat]. apply Forall_app. split; [by constructor | done]. }
  destruct cs; [by repeat constructor | done].
Qed.

(** The walk from given names and its path, when it fits. *)
Definition walk_path (start cs : list (list Z)) (max : Z) : option (list Z) :=
  r ← walks start cs; if max <=? zlen (path_of r) then None else Some (path_of r).

Lemma normalize_spec s max out : nonzero s -> zlen out = max -> 2 <= max ->
  normalize_path s max out = Some (walk_path [] (parts s) max).
Proof.
  intros Hs Hl Hm. unfold normalize_path, walk_path. rewrite norm_segs_spec by lia. cbn [mbind option_bind].
  destruct (walks [] (parts s)) as [cs |] eqn:E; [| done]. cbn [mbind option_bind].
  destruct (walks_names (parts s) [] cs (parts_names s Hs)) as [Hcs Hcl]; [constructor | done | done |].
  destruct (Z.leb_spec max 0); [lia |]. destruct out as [| y post]; [change (@zlen Z []) with 0 in Hl; lia |].
  change (y :: post) with ([] ++ y :: post). rewrite put_cell_back by done. cbn [mbind option_bind app].
  change (SLASH :: post) with ([SLASH] ++ post). change 1 with (zlen [SLASH]).
  rewrite norm_write_spec; [| rewrite zlen_app; rewrite zlen_cons in Hl; change (zlen [SLASH]) with 1; lia | | change (zlen [SLASH]) with 1; lia].
  2:{ eapply Forall_impl; [exact Hcs |]. cbn. intros c [(? & _) _]. done. }
  change (zlen [SLASH]) with 1. cbn [mbind option_bind]. rewrite path_tail, zlen_cons, Z.add_comm.
  destruct (Z.leb_spec max (zlen (tail_text true cs) + 1)); [done |].
  assert (exists x rest, drop (length (tail_text true cs)) post = x :: rest) as (x & rest & ->).
  { destruct (drop _ post) as [| x rest] eqn:Ed; [| by eexists _, _]. apply (f_equal length) in Ed. rewrite length_drop in Ed.
    exfalso. rewrite zlen_cons in Hl. unfold zlen in *. cbn [length] in Ed. lia. }
  change ([SLASH] ++ tail_text true cs ++ x :: rest) with ((SLASH :: tail_text true cs) ++ x :: rest).
  rewrite put_cell_back by (rewrite zlen_cons; lia). cbn [mbind option_bind]. rewrite <- path_tail, c_string_text; [done |].
  apply path_nonzero. eapply Forall_impl; [exact Hcs |]. by intros c [_ ?].
Qed.

Lemma resolve_path_correct (ns : list (list Z)) (input out : list Z) (max : Z)
    (Hns : Forall is_name ns) (Hnz : Forall nonzero ns) (H32 : zlen ns <= 32) (Hcwd : zlen (path_of ns) < CWD_MAX)
    (Hin : nonzero input) (Hlen : zlen input < SHELL_LINE_MAX) (Hout : zlen out = max) (Hmax : 2 <= max <= CWD_MAX) :
  resolve_path (path_of ns) input max out =
    Some (walk_path (if is_slash (hd 0 input) then [] else ns) (parts input) max) /\
  forall p, walk_path (if is_slash (hd 0 input) then [] else ns) (parts input) max = Some p ->
    canonical p /\ zlen p < max /\ forall cwd, resolve_path cwd p max out = Some (Some p).
Proof.
  assert (forall s, nonzero s -> zlen s < COMBINED_MAX -> normalize_path (take (Z.to_nat (COMBINED_MAX - 1)) s) max out = Some (walk_path [] (parts s) max)) as Habs.
  { intros s Hs Hl. rewrite take_ge by (unfold zlen, COMBINED_MAX in *; lia). apply normalize_spec; [done | done | lia]. }
  split.
  - unfold resolve_path. unfold CWD_MAX, SHELL_LINE_MAX in *. destruct input as [| c input].
    + rewrite Habs by (try apply path_nonzero; try done; unfold COMBINED_MAX, CWD_MAX, SHELL_LINE_MAX; lia). cbn [hd is_slash].
      change (is_slash 0) with false. cbv iota. unfold walk_path. cbn [parts split_slash walks].
      rewrite <- (app_nil_r (path_of ns)), parts_path by done. cbn [parts split_slash]. rewrite app_nil_r, walks_push by done. done.
    + cbn [hd]. unfold is_slash. destruct (Z.eqb_spec c SLASH) as [-> |].
      * apply Habs; [done | unfold COMBINED_MAX, CWD_MAX, SHELL_LINE_MAX; lia].
      * unfold COMBINED_MAX, CWD_MAX, SHELL_LINE_MAX. destruct (Z.leb_spec (256 + 256) (zlen (path_of ns) + 1 + zlen (c :: input))); [lia |].
        rewrite normalize_spec; [| apply Forall_app; split; [by apply path_nonzero | by constructor] | done | lia].
        rewrite parts_path by done. unfold walk_path. rewrite walks_app, walks_push by done. cbn [mbind option_bind app].
        change (SLASH :: c :: input) with ([SLASH] ++ (c :: input)). by rewrite parts_slashes by (by repeat constructor).
  - intros p. unfold walk_path. destruct (walks _ (parts input)) as [cs |] eqn:E; [| done]. cbn [mbind option_bind].
    destruct (Z.leb_spec max (zlen (path_of cs))); [done |]. intros [= <-].
    assert (Forall (fun c => is_name c /\ nonzero c) (if is_slash (hd 0 input) then [] else ns) /\
      zlen (if is_slash (hd 0 input) then [] else ns) <= 32) as [H1 H2].
    { destruct (is_slash _); [by split; [constructor |] |]. split; [by apply Forall_and | lia]. }
    destruct (walks_names (parts input) _ cs (parts_names input Hin) H1 H2 E) as [Hcs Hcl].
    apply Forall_and in Hcs as [Hc1 Hc2]. split; [by exists cs |]. split; [lia |]. intros cwd.
    assert (exists t, path_of cs = SLASH :: t) as [t Et] by (rewrite path_tail; by eexists).
    unfold resolve_path. rewrite Et. change (SLASH =? SLASH) with true. cbv iota. rewrite <- Et.
    rewrite Habs; [| by apply path_nonzero | unfold COMBINED_MAX, CWD_MAX, SHELL_LINE_MAX in *; lia]. unfold walk_path.
    rewrite <- (app_nil_r (path_of cs)) at 1. rewrite parts_path by done. cbn [parts split_slash]. rewrite app_nil_r, walks_push by done.
    cbn [mbind option_bind app]. destruct (Z.leb_spec max (zlen (path_of cs))); [lia | done].
Qed.

(** Also: a path is resolved by walking its parts from the root, or from the current directory
    when it is relative: ".." goes up and stays at the root, "." stays. The result is the
    path of the names that are reached, without ".", ".." and double slashes; it is -1
    exactly when more than 32 names are held on the way or the path does not fit; and a
    resolved path resolves to itself from anywhere. *)
Theorem resolve_path_spec (ns : list (list Z)) (input out : list Z) (max : Z)
    (Hns : Forall is_name ns) (Hnz : Forall nonzero ns) (H32 : zlen ns <= 32) (Hcwd : zlen (path_of ns) < CWD_MAX)
    (Hin : nonzero input) (Hlen : zlen input < SHELL_LINE_MAX) (Hout : zlen out = max) (Hmax : 2 <= max <= CWD_MAX) :
  resolve_path (path_of ns) input max out =
    Some (walk_path (if is_slash (hd 0 input) then [] else ns) (parts input) max) /\
  forall p, walk_path (if is_slash (hd 0 input) then [] else ns) (parts input) max = Some p ->
    canonical p /\ zlen p < max /\ forall cwd, resolve_path cwd p max out = Some (Some p).
Proof. exact (resolve_path_correct ns input out max Hns Hnz H32 Hcwd Hin Hlen Hout Hmax). Qed.

(** ** Witnesses *)

(** 10.0.2.15, followed by a letter. *)
Lemma ip_roundtrip_witness : ip_text 0x0F02000A = Some [49; 48; 46; 48; 46; 50; 46; 49; 53] /\
  parse_ip [49; 48; 46; 48; 46; 50; 46; 49; 53; 120] = Some 0x0F02000A.
Proof.
  destruct (ip_roundtrip 0x0F02000A [120]) as (t & Et & Ep); [lia | done |].
  assert (t = [49; 48; 46; 48; 46; 50; 46; 49; 53]) as Hv by (assert (Some t = Some [49; 48; 46; 48; 46; 50; 46; 49; 53]) as [= H] by (rewrite <- Et; reflexivity); done).
  subst t. split; [exact Et | exact Ep].
Defined.

(** "  ls  a" *)
Lemma tokenize_spec_witness : exists ps l',
  tokenize 16 [32; 32; 108; 115; 32; 9; 97; 0; 7] = Some (ps, l') /\ tokens_at l' ps = Some [[108; 115]; [97]].
Proof.
  destruct (tokenize_spec 16 [32; 32; 108; 115; 32; 9; 97] [7]) as (ps & l' & E & _ & Et); [by repeat constructor | lia |].
  exists ps, l'. split; [exact E | exact Et].
Defined.

(** "../b//./c" from "/a/x" *)
Lemma resolve_path_spec_witness :
  resolve_path [47; 97; 47; 120] [46; 46; 47; 98; 47; 47; 46; 47; 99] 256 (replicate 256 7) = Some (Some [47; 97; 47; 98; 47; 99]).
Proof.
  destruct (resolve_path_spec [[97]; [120]] [46; 46; 47; 98; 47; 47; 46; 47; 99] (replicate 256 7) 256) as [E _];
    [by repeat constructor | by repeat constructor | done | done | by repeat constructor | done | done | unfold CWD_MAX; lia |].
  refine (eq_trans E _). reflexivity.
Defined.
