(* ===== verification/Serial.v ===== *)
(** * Serial line (src/drivers/serial.c)

    The messages of the kernel. [uart] is what the driver relies on: the line takes a
    character whenever the status says so, and says so after a while. The loop that waits
    has no bound in the code: [fuel] is one. *)

From Stdlib Require Import String Ascii.
From S2P Require Import Prelude UserLib KPath Ports.

Definition COM1 : Z := 0x3F8.

(** 'a' to 'f' as capitals. *)
Definition hex_char (d : Z) : Z := if d <? 10 then 48 + d else 55 + d.
Fixpoint hex_loop (n : nat) (v pos : Z) (started : bool) (buf : list Z) : option (Z * list Z) :=
  match n with
  | O => Some (pos, buf)
  | S i =>
      let nibble := Z.land (Z.shiftr v (Z.of_nat i * 4)) 0xF in
      if istrue nibble || started || (i =? 0)%nat then buf ← put buf pos (hex_char nibble); hex_loop i v (pos + 1) true buf
      else hex_loop i v pos started buf
  end.
Definition serial_hex_text (v : Z) : option (list Z) :=
  r ← hex_loop 16 v 2 false (txt "0x" ++ replicate 17 0);
  buf ← put (snd r) (fst r) 0; c_string buf.

Section driver.
Context {H : Type} `{machine H} (fuel : nat).

Definition serial_init : io H unit :=
  _ ← outb (COM1 + 1) 0x00; _ ← outb (COM1 + 3) 0x80; _ ← outb (COM1 + 0) 0x03; _ ← outb (COM1 + 1) 0x00;
  _ ← outb (COM1 + 3) 0x03; _ ← outb (COM1 + 2) 0xC7; outb (COM1 + 4) 0x0B.

Definition serial_tx_ready : io H bool := st ← inb (COM1 + 5); mret (istrue (Z.land st 0x20)).
Fixpoint wait_tx (n : nat) : io H unit :=
  match n with O => lift None | S n => ready ← serial_tx_ready; if ready : bool then mret tt else wait_tx n end.
Definition serial_send (c : Z) : io H unit := _ ← wait_tx fuel; outb COM1 (u8 c).
Definition serial_putc (c : Z) : io H unit := _ ← (if c =? 10 then serial_send 13 else mret tt); serial_send c.
Fixpoint serial_print (s : list Z) : io H unit := match s with [] => mret tt | c :: s => _ ← serial_putc c; serial_print s end.
Definition serial_print_hex (v : Z) : io H unit := s ← lift (serial_hex_text v); serial_print s.
Definition serial_print_dec (v : Z) : io H unit := s ← lift (u64_text v); serial_print s.
End driver.

(** ** The text of a number *)

Lemma hex_char_range d : 0 <= d < 16 -> 48 <= hex_char d < 71.
Proof. intros Hd. unfold hex_char. destruct (Z.ltb_spec d 10); lia. Qed.

(** The digits so far, and those of the nibbles that are left. *)
Lemma hex_loop_spec v n : forall ds t, 0 <= v -> value 16 ds = v / 16 ^ Z.of_nat n -> Forall (fun d => 0 <= d < 16) ds -> (ds <> [] -> hd 0 ds <> 0 \/ ds = [0] /\ n = O) ->
  (n = O -> ds <> []) -> Z.of_nat n <= zlen t ->
  exists ds' t', hex_loop n v (2 + zlen ds) (negb (zlen ds =? 0)) (txt "0x" ++ map hex_char ds ++ t) = Some (2 + zlen ds', txt "0x" ++ map hex_char ds' ++ t') /\
    value 16 ds' = v /\ Forall (fun d => 0 <= d < 16) ds' /\ (hd 0 ds' <> 0 \/ ds' = [0]) /\ zlen ds' <= zlen ds + Z.of_nat n /\ zlen ds' + zlen t' = zlen ds + zlen t.
Proof.
  induction n as [| n IH]; intros ds t Hv Eds Hr Hd Hn Ht; cbn [hex_loop].
  - exists ds, t. change (16 ^ Z.of_nat 0) with 1 in Eds. rewrite Z.div_1_r in Eds. split; [done |]. split; [done |]. split; [done |].
    split; [destruct (Hd (Hn eq_refl)) as [| []]; [by left | by right] |]. lia.
  - set (d := Z.land _ 15). assert (d = (v / 16 ^ Z.of_nat n) mod 16) as Ed.
    { unfold d. change 15 with (Z.ones 4). rewrite Z.land_ones, Z.shiftr_div_pow2 by lia. change (2 ^ 4) with 16. do 2 f_equal.
      change 16 with (2 ^ 4). rewrite <- Z.pow_mul_r by lia. f_equal. lia. }
    assert (0 <= d < 16) as Hd16 by (rewrite Ed; apply Z.mod_pos_bound; lia). rewrite Nat2Z.inj_succ, Z.pow_succ_r in Eds by lia.
    assert (value 16 ds * 16 + d = v / 16 ^ Z.of_nat n) as Ev.
    { rewrite Eds, Ed, (Z.mul_comm 16), <- Z.div_div by lia. pose proof (Z.div_mod (v / 16 ^ Z.of_nat n) 16 ltac:(lia)). lia. }
    destruct (istrue d || negb (zlen ds =? 0) || (n =? 0)%nat) eqn:Eb.
    + destruct t as [| x t]; [change (@zlen Z []) with 0 in Ht; lia |]. rewrite zlen_cons in Ht.
      assert (2 + zlen ds = zlen (txt "0x" ++ map hex_char ds)) as El by (unfold zlen; rewrite length_app, length_map; cbn; lia).
      rewrite El, app_assoc, put_cell_back by done. cbn [mbind option_bind].
      destruct (IH (ds ++ [d]) t) as (ds' & t' & E & H').
      * done.
      * by rewrite value_snoc.
      * apply Forall_app. split; [done | by constructor].
      * intros _. destruct ds as [| y ds].
        -- cbn [app hd]. destruct (Z.eq_dec d 0) as [E0 |]; [| by left]. rewrite E0 in Eb. cbn in Eb. apply Nat.eqb_eq in Eb. right. by rewrite E0.
        -- left. destruct (Hd ltac:(done)) as [| [_ E0]]; done.
      * intros _. by destruct ds.
      * lia.
      * exists ds', t'. rewrite zlen_app in E, H'. change (zlen [d]) with 1 in *. rewrite <- El. replace (2 + zlen ds + 1) with (2 + (zlen ds + 1)) by lia.
        destruct (Z.eqb_spec (zlen ds + 1) 0) as [E0 |]; [pose proof (zlen_nonneg ds); lia |]. cbn [negb] in E. rewrite map_app, <- (app_assoc (map hex_char ds)) in E.
        rewrite <- app_assoc. cbn [map app] in E |- *. split; [exact E |]. rewrite zlen_cons. destruct H' as (? & ? & ? & ? & ?). repeat split; try done; lia.
    + apply orb_false_iff in Eb as [Eb Eb3]. apply orb_false_iff in Eb as [Eb1 Eb2]. assert (d = 0) as E0 by (unfold istrue in Eb1; destruct (Z.eqb_spec d 0); done).
      assert (ds = []) as -> by (destruct ds; [done |]; rewrite zlen_cons in Eb2; destruct (Z.eqb_spec (zlen ds + 1) 0); [pose proof (zlen_nonneg ds); lia | done]).
      destruct (IH [] t) as (ds' & t' & E & H'); [done | rewrite <- Ev, E0; done | done | done | by intros -> | lia |]. exists ds', t'. split; [exact E |].
      destruct H' as (? & ? & ? & ? & ?). repeat split; try done; lia.
Qed.

(** The value of a text of hexadecimal digits behind "0x". *)
Definition char_digit (c : Z) : Z := if c <? 58 then c - 48 else c - 55.
Definition hex_value (s : list Z) : Z := value 16 (map char_digit (drop 2 s)).

Lemma char_digits ds : Forall (fun d => 0 <= d < 16) ds -> map char_digit (map hex_char ds) = ds.
Proof.
  induction 1 as [| d ds Hd _ IH]; [done |]. cbn [map]. rewrite IH. f_equal. unfold char_digit, hex_char.
  destruct (Z.ltb_spec d 10); [destruct (Z.ltb_spec (48 + d) 58) | destruct (Z.ltb_spec (55 + d) 58)]; lia.
Qed.

(** No zeros in front, and the digits have the value. *)
Lemma serial_hex_correct v : 0 <= v < 18446744073709551616 ->
  exists s, serial_hex_text v = Some s /\ Forall (fun c => is_byte c /\ c <> 10) s /\ hex_value s = v /\ zlen s <= 18 /\ exists c r, s = txt "0x" ++ c :: r /\ (c <> 48 \/ r = []).
Proof.
  intros Hv. unfold serial_hex_text. destruct (hex_loop_spec v 16 [] (replicate 17 0)) as (ds & t & E & Ev & Hr & Hd & Hl & Ht);
    [lia | change (16 ^ Z.of_nat 16) with 18446744073709551616; rewrite Z.div_small by lia; done | constructor | done | done | done |].
  change (2 + zlen []) with 2 in E. change (negb (zlen [] =? 0)) with false in E. cbn [map app] in E. rewrite E. cbn [mbind option_bind fst snd].
  change (@zlen Z []) with 0 in *. rewrite zlen_replicate in Ht. pose proof (zlen_nonneg ds). pose proof (zlen_nonneg t).
  destruct t as [| x t]; [change (@zlen Z []) with 0 in Ht; lia |].
  rewrite app_assoc, put_cell_back by (unfold zlen; rewrite length_app, length_map; cbn; lia). cbn [mbind option_bind].
  assert (nonzero (txt "0x" ++ map hex_char ds)) as Hn.
  { apply Forall_app. split; [by repeat constructor |]. apply Forall_map. eapply Forall_impl; [exact Hr |]. intros d Hd'. pose proof (hex_char_range d Hd'). lia. }
  rewrite c_string_text by done. exists (txt "0x" ++ map hex_char ds). split; [done |]. split; [| split].
  { apply Forall_app. split; [by repeat constructor |]. apply Forall_map. eapply Forall_impl; [exact Hr |]. unfold is_byte. intros d Hd'. pose proof (hex_char_range d Hd'). lia. }
  { unfold hex_value. change (drop 2 (txt "0x" ++ map hex_char ds)) with (map hex_char ds). by rewrite char_digits. }
  split; [unfold zlen in *; rewrite length_app, length_map; cbn; lia |].
  destruct ds as [| d ds]; [destruct Hd as [Hd |]; done |]. exists (hex_char d), (map hex_char ds). split; [done |].
  destruct Hd as [Hd | Hd]; [left | right; by injection Hd as _ ->]. cbn [hd] in Hd. apply Forall_cons in Hr as [Hr _]. unfold hex_char. destruct (Z.ltb_spec d 10); lia.
Qed.

(** ** The line *)

(** [wait] is how often the status will still say that the line is not ready. *)
Class uart (H : Type) `{machine H} (fuel : nat) (line : H -> list Z) (wait : H -> nat) := {
  ua_wait : forall h n, wait h = S n -> exists v h', in8 (COM1 + 5) h = (v, h') /\ is_byte v /\ Z.testbit v 5 = false /\ line h' = line h /\ wait h' = n;
  ua_ready : forall h, wait h = 0%nat -> exists v h', in8 (COM1 + 5) h = (v, h') /\ is_byte v /\ Z.testbit v 5 = true /\ line h' = line h /\ wait h' = 0%nat;
  ua_send : forall h c, wait h = 0%nat -> is_byte c -> line (out8 COM1 c h) = line h ++ [c] /\ (wait (out8 COM1 c h) < fuel)%nat }.

(** What a terminal gets: a carriage return before each new line. *)
Definition crlf (s : list Z) : list Z := concat (map (fun c => if c =? 10 then [13; 10] else [c]) s).

Section line.
Context {H : Type} `{machine H} (fuel : nat) (line : H -> list Z) (wait : H -> nat) {HU : uart H fuel line wait}.

Definition sends {A} (t : io H A) (s : list Z) (Q : A -> Prop) : Prop :=
  forall h, (wait h < fuel)%nat -> exists x h', gives t h h' x /\ Q x /\ line h' = line h ++ s /\ (wait h' < fuel)%nat.

Lemma sends_bind {A B} (t : io H A) (k : A -> io H B) s1 s2 P Q : sends t s1 P -> (forall x, P x -> sends (k x) s2 Q) -> sends (t ≫= k) (s1 ++ s2) Q.
Proof using.
  intros Ht Hk h Hw. destruct (Ht h Hw) as (x & h1 & E1 & Hx & L1 & W1). destruct (Hk x Hx h1 W1) as (y & h2 & E2 & Hy & L2 & W2).
  exists y, h2. split; [by eapply gives_bind |]. split; [done |]. split; [by rewrite L2, L1, app_assoc | done].
Qed.
Lemma sends_ret {A} (x : A) (Q : A -> Prop) : Q x -> sends (mret x) [] Q.
Proof using. intros Hx h Hw. exists x, h. rewrite app_nil_r. done. Qed.

Lemma wait_tx_spec n : forall h, (wait h < n)%nat -> exists h', gives (wait_tx n) h h' tt /\ line h' = line h /\ wait h' = 0%nat.
Proof using HU.
  assert (forall v h h', in8 (COM1 + 5) h = (v, h') -> is_byte v -> gives serial_tx_ready h h' (Z.testbit v 5)) as Hs.
  { intros v h h' E Hv. unfold serial_tx_ready, gives, mbind, io_bind, inb. change (u16 (COM1 + 5)) with (COM1 + 5). rewrite E, u8_id by done. change 0x20 with (Z.shiftl 1 5). by rewrite land_bit by lia. }
  induction n as [| n IH]; intros h Hw; [lia |]. cbn [wait_tx]. destruct (wait h) as [| k] eqn:Ek.
  - destruct (ua_ready h Ek) as (v & h' & E & Hv & Ht & L & W). exists h'. split; [| done]. eapply gives_bind; [by apply (Hs v) |]. by rewrite Ht.
  - destruct (ua_wait h k Ek) as (v & h1 & E & Hv & Ht & L & W). destruct (IH h1) as (h' & E' & L' & W'); [lia |]. exists h'. split; [| by rewrite L'].
    eapply gives_bind; [by apply (Hs v) |]. by rewrite Ht.
Qed.
Lemma send_spec c : is_byte c -> sends (serial_send fuel c) [c] (fun _ => True).
Proof using HU.
  intros Hc h Hw. destruct (wait_tx_spec fuel h Hw) as (h1 & E1 & L1 & W1). destruct (ua_send h1 c W1 Hc) as [L2 W2].
  exists tt, (out8 COM1 c h1). split; [| by rewrite L2, L1]. eapply gives_bind; [exact E1 |]. unfold gives, outb. change (u16 COM1) with COM1. by rewrite !u8_id by (apply u8_range || done).
Qed.
Lemma putc_spec c : is_byte c -> sends (serial_putc fuel c) (crlf [c]) (fun _ => True).
Proof using HU.
  intros Hc. unfold serial_putc, crlf. cbn [map concat]. rewrite app_nil_r. destruct (c =? 10) eqn:E.
  - apply Z.eqb_eq in E as ->. apply (sends_bind _ _ [13] [10] (fun _ => True)); [by apply send_spec | intros _ _; by apply send_spec].
  - apply (sends_bind _ _ [] [c] (fun _ => True)); [by apply sends_ret | intros _ _; by apply send_spec].
Qed.
Lemma print_spec s : bytes s -> sends (serial_print fuel s) (crlf s) (fun _ => True).
Proof using HU.
  induction 1 as [| c s Hc _ IH]; [by apply sends_ret |]. cbn [serial_print]. change (crlf (c :: s)) with ((if c =? 10 then [13; 10] else [c]) ++ crlf s).
  apply (sends_bind _ _ _ _ (fun _ => True)); [| intros _ _; exact IH]. pose proof (putc_spec c Hc) as Hp. unfold crlf in Hp. cbn [map concat] in Hp. by rewrite app_nil_r in Hp.
Qed.

Lemma crlf_plain t : Forall (fun c => is_byte c /\ c <> 10) t -> bytes t /\ crlf t = t.
Proof using.
  induction 1 as [| c t [Hc Hc10] _ [IH1 IH2]]; [split; [constructor | done] |]. split; [by constructor |].
  unfold crlf in *. cbn [map concat]. destruct (Z.eqb_spec c 10); [done |]. by rewrite IH2.
Qed.
Lemma plain_spec t : Forall (fun c => is_byte c /\ c <> 10) t -> sends (serial_print fuel t) t (fun _ => True).
Proof using HU. intros Ht. destruct (crlf_plain t Ht) as [Hb Hc]. pose proof (print_spec t Hb) as Hp. by rewrite Hc in Hp. Qed.
Lemma hex_spec v t : 0 <= v < 18446744073709551616 -> serial_hex_text v = Some t -> sends (serial_print_hex fuel v) t (fun _ => True).
Proof using HU.
  intros Hv Et. destruct (serial_hex_correct v Hv) as (t' & Et' & Ht & _). rewrite Et in Et'. injection Et' as <-.
  apply (sends_bind (lift (serial_hex_text v)) _ [] t (fun x => x = t)); [rewrite Et; by apply sends_ret | intros ? ->; by apply plain_spec].
Qed.
Lemma dec_spec v : 0 <= v < 18446744073709551616 -> sends (serial_print_dec fuel v) (numeral 10 v) (fun _ => True).
Proof using HU.
  intros Hv. apply (sends_bind (lift (u64_text v)) _ [] (numeral 10 v) (fun x => x = numeral 10 v)); [rewrite u64_text_numeral by lia; by apply sends_ret |].
  intros ? ->. apply plain_spec. eapply Forall_impl; [by apply numeral_chars |]. cbn. unfold is_byte. intros c Hc. lia.
Qed.
End line.

Section claim.
Context {H : Type} `{machine H} (fuel : nat) (line : H -> list Z) (wait : H -> nat) {HU : uart H fuel line wait}.

(** Also: printing on a serial line that gets ready within the bound ends, and the terminal gets the
    characters with a carriage return before each new line; a number is "0x" and its
    hexadecimal digits without zeros in front, or its decimal numeral, for all 64-bit values. *)
Theorem serial_print_shows (h : H) (s : list Z) (v : Z) (Hw : (wait h < fuel)%nat) (Hs : bytes s) (Hv : 0 <= v < 18446744073709551616) :
  (exists h', serial_print fuel s h = Some (tt, h') /\ line h' = line h ++ crlf s /\ (wait h' < fuel)%nat) /\
  (exists h' t, serial_print_hex fuel v h = Some (tt, h') /\ line h' = line h ++ t /\ hex_value t = v /\
    exists c r, t = txt "0x" ++ c :: r /\ (c <> 48 \/ r = [])) /\
  (exists h', serial_print_dec fuel v h = Some (tt, h') /\ line h' = line h ++ numeral 10 v).
Proof using HU.
  split; [| split].
  - destruct (print_spec fuel line wait s Hs h Hw) as ([] & h' & E & _ & L & W). by exists h'.
  - destruct (serial_hex_correct v Hv) as (t & E & _ & Ev & _ & c & r & Et & Hc). destruct (hex_spec fuel line wait v t Hv E h Hw) as ([] & h' & E' & _ & L & W).
    exists h', t. split; [done |]. split; [done |]. split; [done | by exists c, r].
  - destruct (dec_spec fuel line wait v Hv h Hw) as ([] & h' & E' & _ & L & W). by exists h'.
Qed.
End claim.

(** ** A line that is ready at once or after one look *)

Record wire_sim := Wire { w_line : list Z; w_wait : nat }.
#[export] Instance wire_machine : machine wire_sim := {
  in8 p h := match w_wait h with O => (0x60, h) | S n => (0, Wire (w_line h) n) end;
  out8 p v h := if p =? COM1 then Wire (w_line h ++ [v]) 1 else h;
  in16 p h := (0, h); in32 p h := (0, h); out16 p v h := h; out32 p v h := h }.
#[export] Instance wire_uart : uart wire_sim 2 w_line w_wait.
Proof.
  split.
  - intros h n Hn. exists 0, (Wire (w_line h) n). cbn [in8 wire_machine]. by rewrite Hn.
  - intros h Hn. exists 0x60, h. cbn [in8 wire_machine]. by rewrite Hn.
  - intros h c Hn Hc. cbn [out8 wire_machine]. rewrite Z.eqb_refl. split; [done | cbn; lia].
Qed.
Lemma serial_print_shows_witness : exists h', serial_print_dec 2 1024 (Wire [65] 1) = Some (tt, h') /\ w_line h' = txt "A1024".
Proof.
  destruct (serial_print_shows 2 w_line w_wait (Wire [65] 1) (txt "ok") 1024) as (_ & _ & h' & E & L); [cbn; lia | by repeat constructor | lia |].
  exists h'. split; [exact E | rewrite L; reflexivity].
Defined.
