(* ===== verification/Pci.v ===== *)
(** * The PCI bus (src/drivers/pci.c)

    The search for devices, which goes from a bus to the buses behind its bridges, and the
    graphics card. A header is its 16 words of 32 bits; [log] is serial_print of the serial
    line. [fuel] bounds the depth of the recursion: [enumerate_total] shows that 257 is
    enough, whatever the hardware answers. *)

From Stdlib Require Import String Ascii.
From S2P Require Import Prelude UserLib KPath Ports Serial.

Definition PCI_CONFIG_ADDR : Z := 0xCF8.
Definition PCI_CONFIG_DATA : Z := 0xCFC.
Definition PCI_VENDOR_NONE : Z := 0xFFFF.
Definition PCI_CLASS_DISPLAY : Z := 0x03.
Definition PCI_VENDOR_INTEL : Z := 0x8086.
Definition PCI_VENDOR_NVIDIA : Z := 0x10DE.
Definition PCI_VENDOR_AMD : Z := 0x1002.
Definition MAX_DEVICES : Z := 256.

Abbreviation header := (list Z).
Definition header_byte (h : header) (i : Z) : Z := Z.land (Z.shiftr h.[i / 4] (8 * (i mod 4))) 0xFF.
Definition header_half (h : header) (i : Z) : Z := header_byte h i + 256 * header_byte h (i + 1).
Definition h_vendor (h : header) : Z := header_half h 0.
Definition h_device (h : header) : Z := header_half h 2.
Definition h_prog_if (h : header) : Z := header_byte h 9.
Definition h_subclass (h : header) : Z := header_byte h 10.
Definition h_class (h : header) : Z := header_byte h 11.
Definition h_type (h : header) : Z := header_byte h 14.
Definition h_bar (h : header) (i : Z) : Z := h.[4 + i].
Definition h_interrupt_line (h : header) : Z := header_byte h 60.

Record pci_device := Device {
  d_bus : Z; d_device : Z; d_func : Z; d_vendor : Z; d_device_id : Z; d_class : Z; d_subclass : Z; d_prog_if : Z; d_config : header }.
Record gpu_info := GpuInfo { gi_vendor : Z; gi_device_id : Z; gi_bar0 : Z; gi_irq : Z; is_intel : Z; is_nvidia : Z; is_amd : Z }.

Definition absent (h : header) : bool := (h_vendor h =? 0) || (h_vendor h =? PCI_VENDOR_NONE).
Definition bridge (h : header) : bool := (h_class h =? 0x06) && (h_subclass h =? 0x04).
Definition device_of (bus dev func : Z) (h : header) : pci_device :=
  Device bus dev func (h_vendor h) (h_device h) (h_class h) (h_subclass h) (h_prog_if h) h.

Definition pci_make_addr (bus dev func offset : Z) : Z :=
  Z.lor (Z.lor (Z.lor (Z.lor 0x80000000 (Z.shiftl bus 16)) (Z.shiftl dev 11)) (Z.shiftl func 8)) (Z.land offset 0xFC).

Section driver.
Context {H : Type} `{machine H} (log : list Z -> io H unit) (log_hex log_dec : Z -> io H unit).
Implicit Types devs : list pci_device.

Definition pci_read_config (bus dev func offset : Z) : io H Z :=
  _ ← outl PCI_CONFIG_ADDR (pci_make_addr bus dev func offset); inl_port PCI_CONFIG_DATA.
Definition pci_write_config (bus dev func offset value : Z) : io H unit :=
  _ ← outl PCI_CONFIG_ADDR (pci_make_addr bus dev func offset); outl PCI_CONFIG_DATA value.

(** The words from [i] on. *)
Fixpoint read_words (n : nat) (i bus dev func : Z) : io H header :=
  match n with
  | O => mret []
  | S n => w ← pci_read_config bus dev func (u8 (i * 4)); ws ← read_words n (i + 1) bus dev func; mret (w :: ws)
  end.
Definition pci_read_header (bus dev func : Z) : io H header := read_words 16 0 bus dev func.

(** The walk adds to the table of devices. *)
Section walk.
Context (check_bus : Z -> list pci_device -> io H (list pci_device)).

Definition pci_check_func (bus dev func : Z) devs : io H (list pci_device) :=
  h ← pci_read_header bus dev func;
  if absent h then mret devs
  else if MAX_DEVICES <=? zlen devs then mret devs
  else
    let devs := devs ++ [device_of bus dev func h] in
    if bridge h then
      bus_reg ← pci_read_config bus dev func 0x44;
      let secondary_bus := Z.land (Z.shiftr bus_reg 8) 0xFF in
      if negb (secondary_bus =? bus) then check_bus secondary_bus devs else mret devs
    else mret devs.
Fixpoint check_funcs (n : nat) (bus dev func : Z) devs : io H (list pci_device) :=
  match n with O => mret devs | S n => devs ← pci_check_func bus dev func devs; check_funcs n bus dev (func + 1) devs end.
Definition pci_check_device (bus dev : Z) devs : io H (list pci_device) :=
  h ← pci_read_header bus dev 0;
  if absent h then mret devs
  else
    devs ← pci_check_func bus dev 0 devs;
    if istrue (Z.land (h_type h) 0x80) then check_funcs 7 bus dev 1 devs else mret devs.
Fixpoint check_devices (n : nat) (bus dev : Z) devs : io H (list pci_device) :=
  match n with O => mret devs | S n => devs ← pci_check_device bus dev devs; check_devices n bus (dev + 1) devs end.
End walk.

Fixpoint pci_check_bus (fuel : nat) (bus : Z) devs : io H (list pci_device) :=
  match fuel with O => lift None | S fuel => check_devices (pci_check_bus fuel) 32 bus 0 devs end.

(** A host with several functions: one bus each. *)
Fixpoint check_hosts (n : nat) (fuel : nat) (func : Z) devs : io H (list pci_device) :=
  match n with
  | O => mret devs
  | S n =>
      w ← pci_read_config 0 0 func 0;
      devs ← (if negb (Z.land w 0xFFFF =? PCI_VENDOR_NONE) then pci_check_bus fuel func devs else mret devs);
      check_hosts n fuel (func + 1) devs
  end.

Definition pci_print_device (d : pci_device) : io H unit :=
  _ ← log (txt "  ");
  _ ← log_hex (d_bus d); _ ← log (txt ":"); _ ← log_hex (d_device d); _ ← log (txt ":"); _ ← log_hex (d_func d); _ ← log (txt "  ");
  _ ← log_hex (d_vendor d); _ ← log (txt ":"); _ ← log_hex (d_device_id d); _ ← log (txt "  ");
  _ ← log_hex (d_class d); _ ← log (txt "."); _ ← log_hex (d_subclass d); _ ← log (txt "."); _ ← log_hex (d_prog_if d); log [10].
Fixpoint print_devices devs : io H unit := match devs with [] => mret tt | d :: devs => _ ← pci_print_device d; print_devices devs end.

Definition pci_enumerate (fuel : nat) : io H (list pci_device) :=
  _ ← log (ln "[pci] enumerating...");
  h ← pci_read_header 0 0 0;
  devs ← (if istrue (Z.land (h_type h) 0x80) then check_hosts 8 fuel 0 [] else pci_check_bus fuel 0 []);
  _ ← log (txt "[pci] done: "); _ ← log_dec (zlen devs); _ ← log (ln " devices found.");
  _ ← print_devices devs; mret devs.

Definition bit (b : bool) : Z := if b then 1 else 0.
Definition gpu_info_of (d : pci_device) : gpu_info :=
  GpuInfo (d_vendor d) (d_device_id d) (Z.land (h_bar (d_config d) 0) 0xFFFFFFF0) (h_interrupt_line (d_config d))
    (bit (d_vendor d =? PCI_VENDOR_INTEL)) (bit (d_vendor d =? PCI_VENDOR_NVIDIA)) (bit (d_vendor d =? PCI_VENDOR_AMD)).
Definition print_gpu (d : pci_device) : io H unit :=
  let g := gpu_info_of d in
  _ ← log (txt "[pci] GPU found: ");
  _ ← log_hex (d_vendor d); _ ← log (txt ":"); _ ← log_hex (d_device_id d); _ ← log (txt "  BAR0="); _ ← log_hex (gi_bar0 g);
  _ ← log (txt "  IRQ="); _ ← log_hex (gi_irq g);
  _ ← (if istrue (is_intel g) then log (txt "  [Intel]") else mret tt);
  _ ← (if istrue (is_nvidia g) then log (txt "  [NVIDIA]") else mret tt);
  _ ← (if istrue (is_amd g) then log (txt "  [AMD]") else mret tt);
  log [10].
Fixpoint first_display devs : option pci_device := match devs with [] => None | d :: devs => if d_class d =? PCI_CLASS_DISPLAY then Some d else first_display devs end.
(** [known] is what an earlier call has found. *)
Definition pci_find_gpu devs (known : option gpu_info) : io H (option gpu_info) :=
  match known with
  | Some g => mret (Some g)
  | None =>
      match first_display devs with
      | Some d => _ ← print_gpu d; mret (Some (gpu_info_of d))
      | None => _ ← log (ln "[pci] no GPU found"); mret None
      end
  end.
End driver.

(** ** The search ends *)

Lemma header_byte_range h i : 0 <= header_byte h i < 256.
Proof. unfold header_byte. change 0xFF with (Z.ones 8). rewrite Z.land_ones by lia. apply Z.mod_pos_bound. lia. Qed.

(** An entry of the table: a function that answered, where it was found. *)
Definition entry_ok (d : pci_device) : Prop :=
  0 <= d_bus d < 256 /\ 0 <= d_device d < 32 /\ 0 <= d_func d < 8 /\ d = device_of (d_bus d) (d_device d) (d_func d) (d_config d) /\ absent (d_config d) = false.
(** More devices are in the table, no more than it has room for. *)
Definition grows (devs devs' : list pci_device) : Prop :=
  (exists more, devs' = devs ++ more /\ Forall entry_ok more) /\ zlen devs' <= MAX_DEVICES.

Lemma grows_refl devs : zlen devs <= MAX_DEVICES -> grows devs devs.
Proof. intros Hl. split; [exists []; by rewrite app_nil_r | done]. Qed.
Lemma grows_trans a b c : grows a b -> grows b c -> grows a c.
Proof.
  intros [(m1 & -> & H1) _] [(m2 & -> & H2) Hl]. split; [| done]. exists (m1 ++ m2). rewrite app_assoc. split; [done |]. by apply Forall_app.
Qed.
Lemma grows_len a b : grows a b -> zlen a <= zlen b <= MAX_DEVICES.
Proof. intros [(m & -> & _) Hl]. rewrite zlen_app in *. pose proof (zlen_nonneg m). lia. Qed.

Section total.
Context {H : Type} `{machine H}.

(** Whatever the machine is, [t] returns, and what it returns satisfies [Q]. *)
Definition returns {A} (t : io H A) (Q : A -> Prop) : Prop := keeps (fun _ => True) t Q.

Lemma returns_out32 p v : returns (outl p v) (fun _ => True).
Proof. intros h _. by eexists _, _. Qed.
Lemma returns_in32 p : returns (inl_port p) (fun _ => True).
Proof. intros h _. destruct (in32 (u16 p) h) as [v h'] eqn:E. exists (u32 v), h'. unfold gives, inl_port. by rewrite E. Qed.
Lemma returns_config bus dev func reg : returns (pci_read_config bus dev func reg) (fun _ => True).
Proof. eapply keeps_bind; [apply returns_out32 | intros _ _; apply returns_in32]. Qed.
Lemma returns_words n : forall i bus dev func, returns (read_words n i bus dev func) (fun _ => True).
Proof.
  induction n as [| n IH]; intros i bus dev func; cbn [read_words]; [by apply keeps_ret |].
  eapply keeps_bind; [apply returns_config | intros w _]. eapply keeps_bind; [apply IH | intros ws _]. by apply keeps_ret.
Qed.

Lemma returns_grows (t : io H (list pci_device)) (k : list pci_device -> io H (list pci_device)) devs :
  returns t (grows devs) -> (forall devs', grows devs devs' -> zlen devs <= zlen devs' <= MAX_DEVICES -> returns (k devs') (grows devs')) -> returns (t ≫= k) (grows devs).
Proof.
  intros Ht Hk. eapply keeps_bind; [exact Ht |]. intros devs' Hg g _.
  destruct (Hk devs' Hg (grows_len _ _ Hg) g I) as (x & g' & E & _ & Hx). exists x, g'. split; [done |]. split; [done |]. by eapply grows_trans.
Qed.

Section walk.
Context (check_bus : Z -> list pci_device -> io H (list pci_device)) (N : Z).
Hypothesis Hbus : forall bus devs, 0 <= bus < 256 -> N < zlen devs <= MAX_DEVICES -> returns (check_bus bus devs) (grows devs).

Lemma check_func_ok bus dev func devs : 0 <= bus < 256 -> 0 <= dev < 32 -> 0 <= func < 8 -> N <= zlen devs <= MAX_DEVICES ->
  returns (pci_check_func check_bus bus dev func devs) (grows devs).
Proof using Hbus.
  intros Hb Hd Hf Hl. unfold pci_check_func. eapply keeps_bind; [apply returns_words | intros h _].
  destruct (absent h) eqn:Ea; [apply keeps_ret, grows_refl; lia |]. destruct (Z.leb_spec MAX_DEVICES (zlen devs)); [apply keeps_ret, grows_refl; lia |].
  assert (grows devs (devs ++ [device_of bus dev func h])) as Hg.
  { split; [| rewrite zlen_app; change (zlen [_]) with 1; lia]. eexists. split; [done |]. constructor; [| constructor]. split; [done |]. split; [done |]. split; [done |]. by split. }
  destruct (bridge h); [| by apply keeps_ret]. eapply keeps_bind; [apply returns_config | intros r _]. apply keeps_if; intros _; [| by apply keeps_ret].
  intros g _. destruct (Hbus (Z.land (Z.shiftr r 8) 0xFF) (devs ++ [device_of bus dev func h])) with (h := g) as (x & g' & E & _ & Hx); [| | done |].
  - change 0xFF with (Z.ones 8). rewrite Z.land_ones by lia. apply Z.mod_pos_bound. lia.
  - apply grows_len in Hg. rewrite zlen_app in *. change (zlen [_]) with 1 in *. lia.
  - exists x, g'. split; [done |]. split; [done |]. by eapply grows_trans.
Qed.
Lemma check_funcs_ok n : forall bus dev func devs, 0 <= bus < 256 -> 0 <= dev < 32 -> 0 <= func -> func + Z.of_nat n <= 8 -> N <= zlen devs <= MAX_DEVICES ->
  returns (check_funcs check_bus n bus dev func devs) (grows devs).
Proof using Hbus.
  induction n as [| n IH]; intros bus dev func devs Hb Hd Hf Hn Hl; cbn [check_funcs]; [apply keeps_ret, grows_refl; lia |].
  apply returns_grows; [apply check_func_ok; lia | intros devs' Hg Hl'; apply IH; lia].
Qed.
Lemma check_device_ok bus dev devs : 0 <= bus < 256 -> 0 <= dev < 32 -> N <= zlen devs <= MAX_DEVICES -> returns (pci_check_device check_bus bus dev devs) (grows devs).
Proof using Hbus.
  intros Hb Hd Hl. unfold pci_check_device. eapply keeps_bind; [apply returns_words | intros h _]. destruct (absent h); [apply keeps_ret, grows_refl; lia |].
  apply returns_grows; [apply check_func_ok; lia | intros devs' Hg Hl']. apply keeps_if; intros _; [apply check_funcs_ok; lia | apply keeps_ret, grows_refl; lia].
Qed.
Lemma check_devices_ok n : forall bus dev devs, 0 <= bus < 256 -> 0 <= dev -> dev + Z.of_nat n <= 32 -> N <= zlen devs <= MAX_DEVICES ->
  returns (check_devices check_bus n bus dev devs) (grows devs).
Proof using Hbus.
  induction n as [| n IH]; intros bus dev devs Hb Hd Hn Hl; cbn [check_devices]; [apply keeps_ret, grows_refl; lia |].
  apply returns_grows; [apply check_device_ok; lia | intros devs' Hg Hl'; apply IH; lia].
Qed.
End walk.

(** The recursion goes down only after a device was added. *)
Lemma check_bus_ok fuel : forall bus devs, 0 <= bus < 256 -> zlen devs <= MAX_DEVICES -> 257 - zlen devs <= Z.of_nat fuel -> returns (pci_check_bus fuel bus devs) (grows devs).
Proof.
  induction fuel as [| fuel IH]; intros bus devs Hb Hl Hf; [unfold MAX_DEVICES in *; lia |]. cbn [pci_check_bus].
  apply check_devices_ok with (N := zlen devs); [intros b ds Hb' Hl'; apply IH; lia | lia | lia | lia | lia].
Qed.
End total.

Section enumerate.
Context {H : Type} `{machine H} (log : list Z -> io H unit) (log_hex log_dec : Z -> io H unit).
Hypothesis Hlog : forall s, returns (log s) (fun _ => True).
Hypothesis Hhex : forall v, returns (log_hex v) (fun _ => True).
Hypothesis Hdec : forall v, returns (log_dec v) (fun _ => True).

Lemma print_device_returns d : returns (pci_print_device log log_hex d) (fun _ => True).
Proof using Hlog Hhex.
  unfold pci_print_device. repeat (eapply keeps_bind; [first [apply Hlog | apply Hhex] | intros _ _]). apply Hlog.
Qed.
Lemma print_devices_returns devs : returns (print_devices log log_hex devs) (fun _ => True).
Proof using Hlog Hhex.
  induction devs as [| d devs IH]; cbn [print_devices]; [by apply keeps_ret |]. eapply keeps_bind; [apply print_device_returns | intros _ _; exact IH].
Qed.
Lemma check_hosts_ok n : forall fuel func devs, 257 <= Z.of_nat fuel -> 0 <= func -> func + Z.of_nat n <= 256 -> zlen devs <= MAX_DEVICES ->
  returns (check_hosts n fuel func devs) (grows devs).
Proof using.
  induction n as [| n IH]; intros fuel func devs Hf Hp Hn Hl; cbn [check_hosts]; [by apply keeps_ret, grows_refl |].
  eapply keeps_bind; [apply returns_config | intros w _]. apply returns_grows; [| intros devs' Hg Hl'; apply IH; lia].
  apply keeps_if; intros _; [| by apply keeps_ret, grows_refl]. apply check_bus_ok; try lia. pose proof (zlen_nonneg devs). lia.
Qed.

Lemma enumerate_ends (fuel : nat) (h : H) (Hf : (257 <= fuel)%nat) :
  exists devs h', pci_enumerate log log_hex log_dec fuel h = Some (devs, h') /\ zlen devs <= MAX_DEVICES /\ Forall entry_ok devs.
Proof using Hlog Hhex Hdec.
  assert (returns (pci_enumerate log log_hex log_dec fuel) (grows [])) as Hr.
  { unfold pci_enumerate. eapply keeps_bind; [apply Hlog | intros _ _]. eapply keeps_bind; [apply returns_words | intros hd _].
    eapply keeps_bind.
    - apply keeps_if; intros _; [apply check_hosts_ok; lia || done | apply check_bus_ok; change (@zlen pci_device []) with 0; lia || done].
    - intros devs Hg. eapply keeps_bind; [apply Hlog | intros _ _]. eapply keeps_bind; [apply Hdec | intros _ _]. eapply keeps_bind; [apply Hlog | intros _ _].
      eapply keeps_bind; [apply print_devices_returns | intros _ _]. by apply keeps_ret. }
  destruct (Hr h I) as (devs & h' & E & _ & [(more & -> & Hm) Hl]). by exists more, h'.
Qed.

(** C24: the search for devices ends, whatever the hardware answers and however bridges lead to each
    other's buses: 257 levels of recursion are enough, the table of 256 entries is never
    overrun, and each entry is a function that answered where the entry says. *)
Theorem enumerate_total (fuel : nat) (h : H) (Hf : (257 <= fuel)%nat) :
  exists devs h', pci_enumerate log log_hex log_dec fuel h = Some (devs, h') /\ zlen devs <= MAX_DEVICES /\ Forall entry_ok devs.
Proof using Hlog Hhex Hdec. exact (enumerate_ends fuel h Hf). Qed.
End enumerate.

(** ** What is found on a bus *)

(** A machine whose configuration space is [cfg]. *)
Class config_space (H : Type) `{machine H} (cfg : Z -> Z -> Z -> Z -> Z) := {
  cs_range : forall bus dev func reg, 0 <= cfg bus dev func reg < 4294967296;
  cs_read : forall h bus dev func reg, 0 <= bus < 256 -> 0 <= dev < 32 -> 0 <= func < 8 -> 0 <= reg < 64 ->
    exists h', in32 PCI_CONFIG_DATA (out32 PCI_CONFIG_ADDR (2147483648 + bus * 65536 + dev * 2048 + func * 256 + 4 * reg) h) = (cfg bus dev func (4 * reg), h') }.

Definition header_at (cfg : Z -> Z -> Z -> Z -> Z) (bus dev func : Z) : header := map (fun i => cfg bus dev func (4 * i)) (seqZ 0 16).
Definition found (cfg : Z -> Z -> Z -> Z -> Z) (bus dev func : Z) : list pci_device :=
  let h := header_at cfg bus dev func in if absent h then [] else [device_of bus dev func h].
(** Function 0, and the others when it says that there may be some. *)
Definition functions (cfg : Z -> Z -> Z -> Z -> Z) (bus dev : Z) : list pci_device :=
  let h := header_at cfg bus dev 0 in
  if absent h then [] else found cfg bus dev 0 ++ (if istrue (Z.land (h_type h) 0x80) then concat (map (found cfg bus dev) (seqZ 1 7)) else []).
Definition devices (cfg : Z -> Z -> Z -> Z -> Z) (bus : Z) : list pci_device := concat (map (functions cfg bus) (seqZ 0 32)).

Lemma make_addr_spec bus dev func reg : 0 <= bus < 256 -> 0 <= dev < 32 -> 0 <= func < 8 -> 0 <= reg < 64 ->
  pci_make_addr bus dev func (4 * reg) = 2147483648 + bus * 65536 + dev * 2048 + func * 256 + 4 * reg.
Proof.
  intros Hb Hd Hf Hr. unfold pci_make_addr. assert (Z.land (4 * reg) 0xFC = 4 * reg) as ->.
  { change 0xFC with (Z.shiftl (Z.ones 6) 2). replace (4 * reg) with (Z.shiftl reg 2) by (rewrite Z.shiftl_mul_pow2 by lia; lia). rewrite <- Z.shiftl_land, Z.land_ones, Z.mod_small by lia. done. }
  rewrite !Z.shiftl_mul_pow2 by lia. change (2 ^ 16) with 65536. change (2 ^ 11) with 2048. change (2 ^ 8) with 256.
  rewrite (lor_add_disjoint 2147483648 (bus * 65536) 31) by lia. rewrite (lor_add_disjoint _ (dev * 2048) 16) by lia.
  rewrite (lor_add_disjoint _ (func * 256) 11) by lia. rewrite (lor_add_disjoint _ (4 * reg) 8) by lia. done.
Qed.

Lemma found_len cfg bus dev func : zlen (found cfg bus dev func) <= 1.
Proof. unfold found. by destruct (absent _). Qed.
Lemma concat_len {A} (f : Z -> list A) k l : (forall x, zlen (f x) <= k) -> zlen (concat (map f l)) <= k * zlen l.
Proof.
  intros Hf. induction l as [| x l IH]; [change (0 <= k * 0); lia |]. cbn [map concat]. rewrite zlen_app, zlen_cons. specialize (Hf x). lia.
Qed.
Lemma functions_len cfg bus dev : zlen (functions cfg bus dev) <= 8.
Proof.
  unfold functions. destruct (absent _); [done |]. rewrite zlen_app. pose proof (found_len cfg bus dev 0).
  destruct (istrue _); [pose proof (concat_len (found cfg bus dev) 1 (seqZ 1 7) (found_len cfg bus dev)) as Hc; change (zlen (seqZ 1 7)) with 7 in Hc; lia | change (zlen []) with 0; lia].
Qed.

Section space.
Context {H : Type} `{machine H} (cfg : Z -> Z -> Z -> Z -> Z) {HC : config_space H cfg}.

Lemma config_gives h bus dev func reg : 0 <= bus < 256 -> 0 <= dev < 32 -> 0 <= func < 8 -> 0 <= reg < 64 ->
  exists h', gives (pci_read_config bus dev func (4 * reg)) h h' (cfg bus dev func (4 * reg)).
Proof using HC.
  intros Hb Hd Hf Hr. destruct (cs_read h bus dev func reg Hb Hd Hf Hr) as [h' E]. exists h'. unfold pci_read_config. rewrite make_addr_spec by done.
  eapply gives_bind; [unfold gives, outl; rewrite (u32_id (_ + 4 * reg)) by lia; reflexivity |].
  unfold gives, inl_port. change (u16 PCI_CONFIG_ADDR) with PCI_CONFIG_ADDR. change (u16 PCI_CONFIG_DATA) with PCI_CONFIG_DATA. rewrite E, u32_id by apply cs_range. done.
Qed.
Lemma words_gives bus dev func : 0 <= bus < 256 -> 0 <= dev < 32 -> 0 <= func < 8 -> forall n h i, 0 <= i -> i + Z.of_nat n <= 64 ->
  exists h', gives (read_words n i bus dev func) h h' (map (fun k => cfg bus dev func (4 * k)) (seqZ i (Z.of_nat n))).
Proof using HC.
  intros Hb Hd Hf. induction n as [| n IH]; intros h i Hi Hn; [by exists h |].
  destruct (config_gives h bus dev func i Hb Hd Hf) as [h1 E1]; [lia |]. destruct (IH h1 (i + 1)) as [h2 E2]; [lia | lia |]. exists h2.
  cbn [read_words]. eapply gives_bind; [replace (u8 (i * 4)) with (4 * i) by (rewrite u8_id by lia; lia); exact E1 |]. eapply gives_bind; [exact E2 |].
  rewrite (seqZ_cons i (Z.of_nat (S n))) by lia. cbn [map]. replace (Z.pred (Z.of_nat (S n))) with (Z.of_nat n) by lia. apply gives_ret.
Qed.
Lemma header_gives h bus dev func : 0 <= bus < 256 -> 0 <= dev < 32 -> 0 <= func < 8 -> exists h', gives (pci_read_header bus dev func) h h' (header_at cfg bus dev func).
Proof using HC. intros Hb Hd Hf. by apply (words_gives bus dev func Hb Hd Hf 16 h 0). Qed.

End space.

(** The bus behind a bridge is the bridge's own, as the code reads it. *)
Definition stays (cfg : Z -> Z -> Z -> Z -> Z) (bus : Z) : Prop := forall dev func, 0 <= dev < 32 -> 0 <= func < 8 ->
  absent (header_at cfg bus dev func) = false -> bridge (header_at cfg bus dev func) = true -> Z.land (Z.shiftr (cfg bus dev func 0x44) 8) 0xFF = bus.

Section bus.
Context {H : Type} `{machine H} (cfg : Z -> Z -> Z -> Z -> Z) {HC : config_space H cfg} (check_bus : Z -> list pci_device -> io H (list pci_device)).
Context (bus : Z) (Hb : 0 <= bus < 256) (Hs : stays cfg bus).

Lemma check_func_gives h dev func devs : 0 <= dev < 32 -> 0 <= func < 8 -> zlen devs < MAX_DEVICES ->
  exists h', gives (pci_check_func check_bus bus dev func devs) h h' (devs ++ found cfg bus dev func).
Proof using HC Hb Hs.
  intros Hd Hf Hl. destruct (header_gives cfg h bus dev func Hb Hd Hf) as [h1 E1]. unfold pci_check_func, found.
  destruct (absent (header_at cfg bus dev func)) eqn:Ea; [exists h1; rewrite app_nil_r; eapply gives_bind; [exact E1 |]; by rewrite Ea |].
  destruct (bridge (header_at cfg bus dev func)) eqn:Eb.
  - destruct (config_gives cfg h1 bus dev func 17 Hb Hd Hf) as [h2 E2]; [lia |]. exists h2. eapply gives_bind; [exact E1 |]. rewrite Ea. destruct (Z.leb_spec MAX_DEVICES (zlen devs)); [lia |].
    rewrite Eb. eapply gives_bind; [exact E2 |]. cbv zeta. change (4 * 17) with 0x44. rewrite (Hs dev func Hd Hf Ea Eb), Z.eqb_refl. apply gives_ret.
  - exists h1. eapply gives_bind; [exact E1 |]. rewrite Ea. destruct (Z.leb_spec MAX_DEVICES (zlen devs)); [lia |]. rewrite Eb. apply gives_ret.
Qed.
Lemma check_funcs_gives dev : 0 <= dev < 32 -> forall n h func devs, 0 <= func -> func + Z.of_nat n <= 8 -> zlen devs + Z.of_nat n <= MAX_DEVICES ->
  exists h', gives (check_funcs check_bus n bus dev func devs) h h' (devs ++ concat (map (found cfg bus dev) (seqZ func (Z.of_nat n)))).
Proof using HC Hb Hs.
  intros Hd. induction n as [| n IH]; intros h func devs Hf Hn Hl; [exists h; by rewrite app_nil_r |]. cbn [check_funcs].
  destruct (check_func_gives h dev func devs Hd) as [h1 E1]; [lia | lia |]. destruct (IH h1 (func + 1) (devs ++ found cfg bus dev func)) as [h2 E2];
    [lia | lia | rewrite zlen_app; pose proof (found_len cfg bus dev func); lia |].
  exists h2. eapply gives_bind; [exact E1 |]. rewrite (seqZ_cons _ (Z.of_nat (S n))) by lia. cbn [map concat]. replace (Z.pred (Z.of_nat (S n))) with (Z.of_nat n) by lia. by rewrite app_assoc.
Qed.
Lemma check_device_gives h dev devs : 0 <= dev < 32 -> zlen devs + 8 <= MAX_DEVICES -> exists h', gives (pci_check_device check_bus bus dev devs) h h' (devs ++ functions cfg bus dev).
Proof using HC Hb Hs.
  intros Hd Hl. destruct (header_gives cfg h bus dev 0 Hb Hd) as [h1 E1]; [lia |]. unfold pci_check_device, functions.
  destruct (absent (header_at cfg bus dev 0)) eqn:Ea; [exists h1; rewrite app_nil_r; eapply gives_bind; [exact E1 |]; by rewrite Ea |].
  destruct (check_func_gives h1 dev 0 devs Hd) as [h2 E2]; [lia | lia |]. destruct (istrue (Z.land (h_type (header_at cfg bus dev 0)) 0x80)) eqn:Em.
  - destruct (check_funcs_gives dev Hd 7 h2 1 (devs ++ found cfg bus dev 0)) as [h3 E3]; [lia | lia | rewrite zlen_app; pose proof (found_len cfg bus dev 0); lia |].
    exists h3. eapply gives_bind; [exact E1 |]. rewrite Ea. eapply gives_bind; [exact E2 |]. rewrite Em, app_assoc. exact E3.
  - exists h2. eapply gives_bind; [exact E1 |]. rewrite Ea. eapply gives_bind; [exact E2 |]. rewrite Em, app_nil_r. apply gives_ret.
Qed.
Lemma check_devices_gives n : forall h dev devs, 0 <= dev -> dev + Z.of_nat n <= 32 -> zlen devs + 8 * Z.of_nat n <= MAX_DEVICES ->
  exists h', gives (check_devices check_bus n bus dev devs) h h' (devs ++ concat (map (functions cfg bus) (seqZ dev (Z.of_nat n)))).
Proof using HC Hb Hs.
  induction n as [| n IH]; intros h dev devs Hd Hn Hl; [exists h; by rewrite app_nil_r |]. cbn [check_devices].
  destruct (check_device_gives h dev devs) as [h1 E1]; [lia | lia |]. destruct (IH h1 (dev + 1) (devs ++ functions cfg bus dev)) as [h2 E2];
    [lia | lia | rewrite zlen_app; pose proof (functions_len cfg bus dev); lia |].
  exists h2. eapply gives_bind; [exact E1 |]. rewrite (seqZ_cons _ (Z.of_nat (S n))) by lia. cbn [map concat]. replace (Z.pred (Z.of_nat (S n))) with (Z.of_nat n) by lia. by rewrite app_assoc.
Qed.
End bus.

Section spec.
Context {H : Type} `{machine H} (cfg : Z -> Z -> Z -> Z -> Z) {HC : config_space H cfg} (log : list Z -> io H unit) (log_hex log_dec : Z -> io H unit).
Hypothesis Hlog : forall s, returns (log s) (fun _ => True).
Hypothesis Hhex : forall v, returns (log_hex v) (fun _ => True).
Hypothesis Hdec : forall v, returns (log_dec v) (fun _ => True).

(** Also: behind a host with one function the table is exactly the functions that are present on
    bus 0, in order, when no bridge has another bus in byte 1 of register 0x44; the standard has
    the bus behind a bridge in register 0x18, so what is behind the bridges is not found. *)
Theorem enumerate_bus0 (fuel : nat) (h : H) (Hf : (0 < fuel)%nat) (Hs : stays cfg 0) (Hhost : istrue (Z.land (h_type (header_at cfg 0 0 0)) 0x80) = false) :
  exists h', pci_enumerate log log_hex log_dec fuel h = Some (devices cfg 0, h').
Proof using HC Hlog Hhex Hdec.
  destruct fuel as [| fuel]; [lia |]. unfold pci_enumerate. destruct (Hlog (ln "[pci] enumerating...") h I) as ([] & h1 & E1 & _).
  destruct (header_gives cfg h1 0 0 0) as [h2 E2]; [lia.. |].
  destruct (check_devices_gives cfg (pci_check_bus fuel) 0 ltac:(lia) Hs 32 h2 0 []) as [h3 E3]; [lia | lia | done |].
  destruct (Hlog (txt "[pci] done: ") h3 I) as ([] & h4 & E4 & _). destruct (Hdec (zlen (devices cfg 0)) h4 I) as ([] & h5 & E5 & _).
  destruct (Hlog (ln " devices found.") h5 I) as ([] & h6 & E6 & _). destruct (print_devices_returns log log_hex Hlog Hhex (devices cfg 0) h6 I) as ([] & h7 & E7 & _).
  exists h7. eapply gives_bind; [exact E1 |]. eapply gives_bind; [exact E2 |]. rewrite Hhost. eapply gives_bind; [exact E3 |].
  eapply gives_bind; [exact E4 |]. eapply gives_bind; [exact E5 |]. eapply gives_bind; [exact E6 |]. eapply gives_bind; [exact E7 |]. apply gives_ret.
Qed.
End spec.

(** ** A configuration space with a bridge *)

(** A host, a bridge to bus 1 and a network card on bus 1; every other function answers with ones. *)
Definition cfg_ex (bus dev func reg : Z) : Z :=
  match bus, dev, func, reg with
  | 0, 0, 0, 0 => 0x12378086 | 0, 0, 0, 8 => 0x06000000 | 0, 0, 0, _ => 0
  | 0, 1, 0, 0 => 0x244E8086 | 0, 1, 0, 8 => 0x06040000 | 0, 1, 0, 12 => 0x00010000 | 0, 1, 0, 24 => 0x00010100 | 0, 1, 0, _ => 0
  | 1, 0, 0, 0 => 0x813910EC | 1, 0, 0, 8 => 0x02000000 | 1, 0, 0, _ => 0
  | _, _, _, 0x44 => 0
  | _, _, _, _ => 0xFFFFFFFF
  end.
Record cfg_sim := CfgSim { selected_addr : Z }.
#[export] Instance cfg_machine : machine cfg_sim := {
  in8 p h := (0, h); in16 p h := (0, h); out8 p v h := h; out16 p v h := h;
  out32 p v h := if p =? PCI_CONFIG_ADDR then CfgSim v else h;
  in32 p h := let a := selected_addr h - 2147483648 in (cfg_ex (a / 65536) ((a / 2048) mod 32) ((a / 256) mod 8) (a mod 256), h) }.
#[export] Instance cfg_space : config_space cfg_sim cfg_ex.
Proof.
  split.
  - intros bus dev func reg. unfold cfg_ex. repeat match goal with |- context [match ?x with _ => _ end] => destruct x end; lia.
  - intros h bus dev func reg Hb Hd Hf Hr. eexists. cbn [in32 out32 cfg_machine]. rewrite Z.eqb_refl. cbn [selected_addr]. f_equal. f_equal; lia.
Qed.

Definition quiet {A} (_ : A) : io cfg_sim unit := mret tt.
Lemma quiet_returns {A} (x : A) : returns (quiet x) (fun _ => True).
Proof. by apply keeps_ret. Qed.

Lemma enumerate_total_witness : exists devs h', pci_enumerate (H := cfg_sim) quiet quiet quiet 257 (CfgSim 0) = Some (devs, h') /\ zlen devs <= MAX_DEVICES /\ Forall entry_ok devs.
Proof. apply (enumerate_total quiet quiet quiet (@quiet_returns _) (@quiet_returns _) (@quiet_returns _)). lia. Defined.

(** The network card behind the bridge is missing. *)
Lemma enumerate_bus0_witness : exists h', pci_enumerate (H := cfg_sim) quiet quiet quiet 257 (CfgSim 0) = Some (devices cfg_ex 0, h') /\ map d_vendor (devices cfg_ex 0) = [0x8086; 0x8086] /\ map d_vendor (devices cfg_ex 1) = [0x10EC].
Proof.
  destruct (enumerate_bus0 cfg_ex quiet quiet quiet (@quiet_returns _) (@quiet_returns _) (@quiet_returns _) 257 (CfgSim 0)) as [h' E].
  - lia.
  - intros dev func Hd Hf Ha Hb. assert (cfg_ex 0 dev func 0x44 = 0) as ->; [| reflexivity]. unfold cfg_ex. destruct dev as [| [| |] |]; destruct func; reflexivity.
  - reflexivity.
  - exists h'. split; [exact E | split; vm_compute; reflexivity].
Defined.
