(* ===== verification/Acpi.v ===== *)
(** * Power (src/drivers/acpi.c)

    The search for the tables in low memory, which the bytes [mem] stand for, and the way
    out: shutting down and starting again. The messages go to [log], serial_print. The
    loops that wait for ever ([hlt]) are the end of a function; the loop that waits for the
    keyboard controller has no bound in the code: [fuel] is one. *)

From Stdlib Require Import String Ascii.
From S2P Require Import Prelude Memory Ports.

Definition ACPI_RSDP_SIG : list Z := txt "RSD PTR ".
Definition ACPI_FADT_SIG : list Z := txt "FACP".

(** The sum of [n] bytes, in a byte. *)
Fixpoint checksum_from (n : nat) (m : mem) (a sum : Z) : Z := match n with O => sum | S n => checksum_from n m (a + 1) (u8 (sum + rdb m a)) end.
Definition acpi_checksum (m : mem) (data len : Z) : Z := checksum_from (Z.to_nat len) m data 0.

Definition same_bytes (m : mem) (a : Z) (s : list Z) : bool := bool_decide (ld_bytes (length s) m a = s).

(** [for (i = 0; i < len; i += 16)] *)
Fixpoint scan_rsdp (n : nat) (m : mem) (base i : Z) : Z :=
  match n with
  | O => 0
  | S n =>
      if same_bytes m (base + i) ACPI_RSDP_SIG && (acpi_checksum m (base + i) 20 =? 0) then u32 (base + i)
      else scan_rsdp n m base (i + 16)
  end.
Definition find_rsdp_in_region (m : mem) (base len : Z) : Z := scan_rsdp (Z.to_nat ((len + 15) / 16)) m base 0.
Definition find_rsdp (m : mem) : Z :=
  let ebda := Z.shiftl (ld16 m 0x40E) 4 in
  let addr := if istrue ebda && (ebda <? 0xA0000) then find_rsdp_in_region m ebda 0x400 else 0 in
  if istrue addr then addr else find_rsdp_in_region m 0xE0000 0x20000.

Fixpoint scan_entries (n : nat) (m : mem) (rsdt i : Z) : Z :=
  match n with
  | O => 0
  | S n =>
      let entry_addr := ld32 m (rsdt + 4 * (9 + i)) in
      if negb (istrue entry_addr) || (0x100000 <=? entry_addr) then scan_entries n m rsdt (i + 1)
      else if same_bytes m entry_addr ACPI_FADT_SIG then entry_addr
      else scan_entries n m rsdt (i + 1)
  end.

(** The fields of the table, packed, with their sizes. *)
Definition acpi_fadt : list (string * Z) :=
  [("header", 36); ("firmware_ctrl", 4); ("dsdt", 4); ("reserved", 1); ("preferred_pm_profile", 1); ("sci_int", 2); ("smi_cmd", 4);
   ("acpi_enable", 1); ("acpi_disable", 1); ("s4bios_req", 1); ("pstate_cnt", 1); ("pm1a_evt_blk", 4); ("pm1b_evt_blk", 4);
   ("pm1a_cnt_blk", 4); ("pm1b_cnt_blk", 4); ("pm2_cnt_blk", 4); ("pm_tmr_blk", 4); ("gpe0_blk", 4); ("gpe1_blk", 4);
   ("pm1_evt_len", 1); ("pm1_cnt_len", 1); ("pm2_cnt_len", 1); ("pm_tmr_len", 1); ("gpe0_blk_len", 1); ("gpe1_blk_len", 1);
   ("gpe1_base", 1); ("cstate_cnt", 1); ("worst_c2_latency", 2); ("worst_c3_latency", 2); ("flush_size", 2); ("flush_stride", 2);
   ("duty_offset", 1); ("duty_width", 1); ("day_alrm", 1); ("month_alrm", 1); ("century", 1); ("boot_arch_flags", 2); ("reserved2", 1); ("flags", 4)]%string.
Fixpoint offset_of (f : string) (l : list (string * Z)) : Z := match l with [] => 0 | (g, n) :: l => if bool_decide (g = f) then 0 else n + offset_of f l end.

Record acpi := Acpi { pm1a_cnt : Z; pm1b_cnt : Z }.

Section acpi.
Context {H : Type} `{machine H} (log : list Z -> io H unit) (log_hex log_dec : Z -> io H unit) (log_char : Z -> io H unit).

Definition find_fadt (m : mem) (rsdt_addr : Z) : io H Z :=
  if negb (istrue rsdt_addr) || (0x100000 <=? rsdt_addr) then
    _ ← log (txt "[acpi] RSDT address invalid or too high: 0x"); _ ← log_hex rsdt_addr; _ ← log [10]; mret 0
  else
    let length := ld32 m (rsdt_addr + 4) in
    if (length <? 36) || (0x10000 <? length) then
      _ ← log (txt "[acpi] RSDT length invalid: "); _ ← log_dec length; _ ← log [10]; mret 0
    else
      let count := (length - 36) / 4 in
      let count := if 128 <? count then 128 else count in
      mret (scan_entries (Z.to_nat count) m rsdt_addr 0).

Fixpoint log_chars (n : nat) (m : mem) (a : Z) : io H unit := match n with O => mret tt | S n => _ ← log_char (rdb m a); log_chars n m (a + 1) end.
Definition say_hex (s : list Z) (v : Z) : io H unit := _ ← log s; _ ← log_hex v; log [10].

Definition acpi_init (m : mem) (st : acpi) : io H acpi :=
  _ ← log (ln "[acpi] searching for RSDP...");
  let rsdp_addr := find_rsdp m in
  if negb (istrue rsdp_addr) then _ ← log (ln "[acpi] RSDP not found"); mret st
  else
    _ ← say_hex (txt "[acpi] RSDP at 0x") rsdp_addr;
    _ ← log (txt "[acpi] OEM: "); _ ← log_chars 6 m (rsdp_addr + 9); _ ← log [10];
    let rsdt_addr := ld32 m (u32 (rsdp_addr + 16)) in
    _ ← say_hex (txt "[acpi] RSDT at 0x") rsdt_addr;
    if negb (istrue rsdt_addr) then _ ← log (ln "[acpi] RSDT address is null"); mret st
    else
      fadt_addr ← find_fadt m rsdt_addr;
      if negb (istrue fadt_addr) then _ ← log (ln "[acpi] FADT not found (ACPI tables incomplete in QEMU)"); mret st
      else
        _ ← say_hex (txt "[acpi] FADT at 0x") fadt_addr;
        let st := Acpi (ld32 m (fadt_addr + 4 * 13)) (ld32 m (fadt_addr + 4 * 14)) in
        _ ← say_hex (txt "[acpi] PM1a_CNT_BLK: 0x") (pm1a_cnt st);
        _ ← say_hex (txt "[acpi] PM1b_CNT_BLK: 0x") (pm1b_cnt st);
        _ ← log (ln "[acpi] init done"); mret st.

Definition acpi_get_pm1a (st : acpi) : Z := pm1a_cnt st.
Definition acpi_get_pm1b (st : acpi) : Z := pm1b_cnt st.

Definition acpi_shutdown (st : acpi) : io H unit :=
  _ ← log (ln "[acpi] shutdown via ACPI S5");
  _ ← (if istrue (pm1a_cnt st) then _ ← log (ln "[acpi] writing S5 to PM1a"); outw (u16 (pm1a_cnt st)) 0x2000 else mret tt);
  _ ← (if istrue (pm1b_cnt st) then outw (u16 (pm1b_cnt st)) 0x2000 else mret tt);
  _ ← log (ln "[acpi] fallback: QEMU shutdown port 0x604");
  outw 0x604 0x2000.

Fixpoint wait_good (fuel : nat) (good : Z) : io H unit :=
  match fuel with O => lift None | S fuel => if istrue (Z.land good 0x02) then good ← inb 0x64; wait_good fuel good else mret tt end.
Definition acpi_reboot (fuel : nat) : io H unit :=
  _ ← log (ln "[acpi] reboot via keyboard controller"); _ ← wait_good fuel 0x02; outb 0x64 0xFE.
End acpi.

(** ** The search *)

Definition byte_sum (m : mem) (a : Z) (n : nat) : Z := foldr Z.add 0 (ld_bytes n m a).
Lemma checksum_sum n : forall m a sum, checksum_from n m a (u8 sum) = u8 (sum + byte_sum m a n).
Proof.
  unfold byte_sum. induction n as [| n IH]; intros m a sum; cbn [checksum_from ld_bytes foldr]; [by rewrite Z.add_0_r |].
  replace (u8 (u8 sum + rdb m a)) with (u8 (sum + rdb m a)) by (unfold u8; lia). rewrite IH. f_equal. lia.
Qed.

(** A root pointer: its signature, and bytes that add up to 0. *)
Definition is_rsdp (m : mem) (a : Z) : Prop := ld_bytes 8 m a = ACPI_RSDP_SIG /\ byte_sum m a 20 mod 256 = 0.
Lemma rsdp_test m a : same_bytes m a ACPI_RSDP_SIG && (acpi_checksum m a 20 =? 0) = true <-> is_rsdp m a.
Proof.
  unfold same_bytes, is_rsdp, acpi_checksum. change (Z.to_nat 20) with 20%nat. change (length ACPI_RSDP_SIG) with 8%nat.
  pose proof (checksum_sum 20 m a 0) as E. change (u8 0) with 0 in E. rewrite E, Z.add_0_l. rewrite andb_true_iff, bool_decide_eq_true. unfold u8.
  destruct (Z.eqb_spec (byte_sum m a 20 mod 256) 0); split; intros [H1 H2]; done.
Qed.

(** The first root pointer at a multiple of 16 in [n] places, or 0 when there is none. *)
Definition first_rsdp (m : mem) (base : Z) (n : Z) (r : Z) : Prop :=
  (exists k, 0 <= k < n /\ r = base + 16 * k /\ is_rsdp m r /\ forall j, 0 <= j < k -> ~ is_rsdp m (base + 16 * j)) \/
  (r = 0 /\ forall j, 0 <= j < n -> ~ is_rsdp m (base + 16 * j)).

Lemma scan_rsdp_spec n : forall m base i, 0 <= base + i -> base + i + 16 * Z.of_nat n <= 4294967296 -> first_rsdp m (base + i) (Z.of_nat n) (scan_rsdp n m base i).
Proof.
  induction n as [| n IH]; intros m base i H0 Hn; [right; split; [done | lia] |]. cbn [scan_rsdp]. pose proof (rsdp_test m (base + i)) as Ht.
  destruct (same_bytes _ _ _ && _) eqn:E.
  - left. exists 0. rewrite u32_id by lia. split; [lia |]. split; [lia |]. split; [by apply Ht | lia].
  - assert (~ is_rsdp m (base + i)) as Hno by (intros Hr; apply Ht in Hr; done).
    assert (forall j, 0 <= j < Z.of_nat (S n) -> (j = 0 \/ 0 <= j - 1 < Z.of_nat n)) as Hj by lia.
    destruct (IH m base (i + 16)) as [(k & Hk & Er & Hr & Hf) | [Er Hf]]; [lia | lia | |].
    + left. exists (k + 1). split; [lia |]. split; [lia |]. split; [done |]. intros j Hjk. destruct (Z.eq_dec j 0) as [-> |]; [by rewrite Z.mul_0_r, Z.add_0_r |].
      replace (base + i + 16 * j) with (base + (i + 16) + 16 * (j - 1)) by lia. apply Hf. lia.
    + right. split; [done |]. intros j Hjn. destruct (Hj j Hjn) as [-> |]; [by rewrite Z.mul_0_r, Z.add_0_r |].
      replace (base + i + 16 * j) with (base + (i + 16) + 16 * (j - 1)) by lia. apply Hf. lia.
Qed.

(** Also: the search gives the first root pointer of the extended BIOS area, if there is such an area,
    else the first of the BIOS area, and 0 only when neither has one: its signature is there,
    its 20 bytes add up to 0, and it is at a multiple of 16 behind the area's start. *)
Theorem find_rsdp_spec (m : mem) (Hm : mem_bytes m) :
  let ebda := ld16 m 0x40E * 16 in
  let in_ebda r := 0 < ebda < 0xA0000 /\ first_rsdp m ebda 64 r in
  let r := find_rsdp m in
  (r <> 0 /\ in_ebda r) \/ ((in_ebda 0 \/ ~ 0 < ebda < 0xA0000) /\ first_rsdp m 0xE0000 8192 r).
Proof.
  intros ebda in_ebda r. unfold r, find_rsdp. rewrite Z.shiftl_mul_pow2 by lia. change (2 ^ 4) with 16. fold ebda.
  pose proof (ld_range 2 m 0x40E Hm) as Hr. change (256 ^ Z.of_nat 2) with 65536 in Hr. assert (0 <= ebda < 1048576) as He by (unfold ebda; lia). cbv zeta.
  assert (forall base len, 0 <= base -> 0 <= len -> base + len + 16 <= 4294967296 -> first_rsdp m base ((len + 15) / 16) (find_rsdp_in_region m base len)) as Hregion.
  { intros base len Hb Hlen Hsum. pose proof (scan_rsdp_spec (Z.to_nat ((len + 15) / 16)) m base 0 ltac:(lia)) as Hx. rewrite Z.add_0_r, Z2Nat.id in Hx by lia. apply Hx. lia. }
  pose proof (Hregion 0xE0000 0x20000 ltac:(lia) ltac:(lia) ltac:(lia)) as Hbios. change ((0x20000 + 15) / 16) with 8192 in Hbios. generalize dependent (find_rsdp_in_region m 0xE0000 0x20000). intros b Hbios.
  unfold istrue. destruct (Z.eqb_spec ebda 0) as [E0 | E0], (Z.ltb_spec ebda 0xA0000) as [E1 | E1]; cbn [negb andb]; try (right; split; [right; lia | exact Hbios]).
  pose proof (Hregion ebda 0x400 ltac:(lia) ltac:(lia) ltac:(lia)) as Hx. change ((0x400 + 15) / 16) with 64 in Hx. clear Hregion. generalize dependent (find_rsdp_in_region m ebda 0x400). intros x Hx.
  destruct (Z.eqb_spec x 0) as [-> | Hne]; cbn [negb]; [right; split; [left; split; [lia | exact Hx] | exact Hbios] | left; split; [done |]; split; [lia | exact Hx]].
Qed.

(** ** The ports *)

Lemma ld32_low m a : mem_bytes m -> u16 (ld32 m a) = ld16 m a.
Proof.
  intros Hm. change (ld32 m a) with (rdb m a + 256 * (rdb m (a + 1) + 256 * (rdb m (a + 1 + 1) + 256 * (rdb m (a + 1 + 1 + 1) + 256 * 0)))).
  change (ld16 m a) with (rdb m a + 256 * (rdb m (a + 1) + 256 * 0)). unfold u16. pose proof (rdb_byte m a Hm). pose proof (rdb_byte m (a + 1) Hm). pose proof (rdb_byte m (a + 1 + 1) Hm). pose proof (rdb_byte m (a + 1 + 1 + 1) Hm).
  unfold is_byte in *. lia.
Qed.

Section ports.
Context {H : Type} `{machine H} (log : list Z -> io H unit) (log_hex log_dec log_char : Z -> io H unit).
(** The machine is as it was after a message. *)
Hypothesis Hlog : forall s h, gives (log s) h h tt.
Hypothesis Hhex : forall v h, gives (log_hex v) h h tt.
Hypothesis Hchar : forall c h, gives (log_char c) h h tt.

Lemma say_hex_gives s v h : gives (say_hex log log_hex s v) h h tt.
Proof using Hlog Hhex. eapply gives_bind; [apply Hlog |]. eapply gives_bind; [apply Hhex | apply Hlog]. Qed.
Lemma log_chars_gives n m : forall a h, gives (log_chars log_char n m a) h h tt.
Proof using Hchar. induction n as [| n IH]; intros a h; [apply gives_ret |]. eapply gives_bind; [apply Hchar | apply IH]. Qed.

Lemma init_gives m st f h : let rsdt := ld32 m (u32 (find_rsdp m + 16)) in find_rsdp m <> 0 -> rsdt <> 0 -> f <> 0 -> gives (find_fadt log log_hex log_dec m rsdt) h h f ->
  gives (acpi_init log log_hex log_dec log_char m st) h h (Acpi (ld32 m (f + 52)) (ld32 m (f + 56))).
Proof using Hlog Hhex Hchar.
  cbv zeta. intros Hr Hs Hf E. unfold acpi_init. eapply gives_bind; [apply Hlog |]. rewrite (istrue_neq _ Hr). cbn [negb].
  eapply gives_bind; [apply say_hex_gives |]. eapply gives_bind; [apply Hlog |]. eapply gives_bind; [apply log_chars_gives |]. eapply gives_bind; [apply Hlog |].
  eapply gives_bind; [apply say_hex_gives |]. rewrite (istrue_neq _ Hs). cbn [negb]. eapply gives_bind; [exact E |]. rewrite (istrue_neq _ Hf). cbn [negb].
  eapply gives_bind; [apply say_hex_gives |]. eapply gives_bind; [apply say_hex_gives |]. eapply gives_bind; [apply say_hex_gives |]. eapply gives_bind; [apply Hlog | apply gives_ret].
Qed.

(** Also: the ports of the power management are read 12 bytes too early: what is kept as PM1a_CNT_BLK
    are the bytes of the table from acpi_enable on, and as PM1b_CNT_BLK the event block; the
    table's own description has the two at 64 and 68. Shutting down writes to these ports. *)
Theorem acpi_wrong_ports (m : mem) (st : acpi) (f : Z) (h : H) (Hm : mem_bytes m) (Hr : find_rsdp m <> 0) (Hf : f <> 0) (Hs : ld32 m (u32 (find_rsdp m + 16)) <> 0)
    (E : gives (find_fadt log log_hex log_dec m (ld32 m (u32 (find_rsdp m + 16)))) h h f) :
  let at_ s := f + offset_of s acpi_fadt in
  at_ "pm1a_cnt_blk"%string = f + 64 /\ at_ "pm1b_cnt_blk"%string = f + 68 /\
  exists st', acpi_init log log_hex log_dec log_char m st h = Some (st', h) /\
    pm1a_cnt st' = ld32 m (at_ "acpi_enable"%string) /\ pm1b_cnt st' = ld32 m (at_ "pm1a_evt_blk"%string) /\
    (pm1a_cnt st' <> 0 -> pm1b_cnt st' <> 0 -> acpi_shutdown log st' h =
      Some (tt, out16 0x604 0x2000 (out16 (ld16 m (at_ "pm1a_evt_blk"%string)) 0x2000 (out16 (ld16 m (at_ "acpi_enable"%string)) 0x2000 h)))).
Proof using Hlog Hhex Hchar.
  intros at_. assert (forall s k, offset_of s acpi_fadt = k -> at_ s = f + k) as Hat by (by intros s k <-). rewrite !(Hat "pm1a_cnt_blk"%string 64), !(Hat "pm1b_cnt_blk"%string 68), !(Hat "acpi_enable"%string 52), !(Hat "pm1a_evt_blk"%string 56) by reflexivity.
  split; [done |]. split; [done |]. exists (Acpi (ld32 m (f + 52)) (ld32 m (f + 56))). split; [by apply init_gives |]. cbn [pm1a_cnt pm1b_cnt]. split; [done |]. split; [done |].
  intros Ha Hb. assert (forall p v g, gives (outw (u16 p) v) g (out16 (u16 p) (u16 v) g) tt) as Hout by (intros p v g; unfold gives, outw; by rewrite (u16_id (u16 p)) by apply u16_range).
  rewrite <- !(ld32_low m) by done. unfold acpi_shutdown. cbn [pm1a_cnt pm1b_cnt]. rewrite (istrue_neq _ Ha), (istrue_neq _ Hb).
  eapply gives_bind; [apply Hlog |]. eapply gives_bind; [eapply gives_bind; [apply Hlog | apply Hout] |]. eapply gives_bind; [apply Hout |]. eapply gives_bind; [apply Hlog |]. exact (Hout 0x604 0x2000 _).
Qed.

End ports.

Section again.
Context {H : Type} `{machine H} (log : list Z -> io H unit).
Hypothesis Hlog : forall s h, gives (log s) h h tt.

(** Also: starting again ends when the keyboard controller takes a byte after a while, and writes the
    reset command to it. *)
Theorem acpi_reboot_ends (fuel : nat) (h : H) (busy : H -> nat)
    (Hb : forall g, exists v g', in8 0x64 g = (v, g') /\ is_byte v /\ Z.testbit v 1 = negb (busy g =? 0)%nat /\ busy g' = pred (busy g)) (Hf : (busy h + 2 <= fuel)%nat) :
  exists h', acpi_reboot log fuel h = Some (tt, out8 0x64 0xFE h') /\ busy h' = 0%nat.
Proof using Hlog.
  assert (forall n g v, (busy g + 2 <= n)%nat -> istrue (Z.land v 2) = true -> exists g', gives (wait_good n v) g g' tt /\ busy g' = 0%nat) as Hw.
  { induction n as [| n IH]; intros g v Hn Hv; [lia |]. cbn [wait_good]. change 0x02 with 2. rewrite Hv. destruct (Hb g) as (v' & g1 & E & Hv' & Ht & B1).
    assert (gives (inb 0x64) g g1 v') as Ei by (unfold gives, inb; change (u16 0x64) with 0x64; rewrite E; by rewrite u8_id).
    pose proof (land_bit v' 1 ltac:(lia)) as El. change (Z.shiftl 1 1) with 2 in El. rewrite Ht in El. destruct (busy g) as [| k] eqn:Ek; cbn [Nat.eqb negb] in El.
    - exists g1. split; [| done]. eapply gives_bind; [exact Ei |]. destruct n as [| n]; [lia |]. cbn [wait_good]. change 0x02 with 2. rewrite El. apply gives_ret.
    - destruct (IH g1 v') as (g' & E' & B'); [cbn in B1; lia | done |]. exists g'. split; [| done]. eapply gives_bind; [exact Ei | exact E']. }
  destruct (Hw fuel h 2 Hf eq_refl) as (h' & E & B). exists h'. split; [| done]. unfold acpi_reboot. eapply gives_bind; [apply Hlog |]. eapply gives_bind; [exact E |]. done.
Qed.
End again.

(** ** A machine with tables *)

(** Writes to word ports, the latest first. *)
Abbreviation port_log := (list (Z * Z)).
#[export] Instance log_machine : machine port_log := {
  in8 p h := (0, h); in16 p h := (0, h); in32 p h := (0, h); out8 p v h := (p, v) :: h; out16 p v h := (p, v) :: h; out32 p v h := (p, v) :: h }.
Definition mute {A} (_ : A) : io port_log unit := mret tt.
Definition rsdp_ex : list Z := ACPI_RSDP_SIG ++ [0xD2] ++ replicate 7 0 ++ [0x00; 0x00; 0x0F; 0x00].
Definition fadt_ex : list Z := ACPI_FADT_SIG ++ replicate 48 0 ++ [0xF1; 0xF0; 0; 0] ++ [0; 6; 0; 0] ++ replicate 4 0 ++ [4; 6; 0; 0].
Definition mem_ex : mem := st_bytes 0xE0000 rsdp_ex (st_bytes 0xF0004 [40; 0; 0; 0] (st_bytes 0xF0024 [0; 16; 15; 0] (st_bytes 0xF1000 fadt_ex ∅))).

Lemma mem_ex_ok : mem_bytes mem_ex.
Proof. apply map_Forall_to_list. apply Forall_forall. intros [k v] Hk. assert (forallb (fun x : Z * Z => (0 <=? x.2) && (x.2 <? 256)) (map_to_list mem_ex) = true) as Hf by (vm_compute; reflexivity). rewrite forallb_forall in Hf. apply list_elem_of_In in Hk. specialize (Hf _ Hk). cbn in *. unfold is_byte. lia. Qed.

(** The control block is at port 0x604; the registers that are written are 0xF0F1 and the event block. *)
Lemma acpi_wrong_ports_witness : exists st, acpi_init mute mute mute mute mem_ex (Acpi 0 0) [] = Some (st, []) /\ pm1a_cnt st = 0xF0F1 /\ ld32 mem_ex (0xF1000 + offset_of "pm1a_cnt_blk" acpi_fadt) = 0x604.
Proof.
  destruct (acpi_wrong_ports mute mute mute mute (fun _ _ => eq_refl) (fun _ _ => eq_refl) (fun _ _ => eq_refl) mem_ex (Acpi 0 0) 0xF1000 []) as (_ & _ & st & E & Ea & _).
  - exact mem_ex_ok.
  - vm_compute. discriminate.
  - discriminate.
  - vm_compute. discriminate.
  - vm_compute. reflexivity.
  - exists st. split; [exact E |]. split; [rewrite Ea; vm_compute; reflexivity | vm_compute; reflexivity].
Defined.
Lemma find_rsdp_spec_witness : find_rsdp mem_ex = 0xE0000 /\ first_rsdp mem_ex 0xE0000 8192 (find_rsdp mem_ex).
Proof.
  assert (find_rsdp mem_ex = 0xE0000) as E by (vm_compute; reflexivity). split; [exact E |].
  destruct (find_rsdp_spec mem_ex mem_ex_ok) as [[_ [[He _] _]] | [_ Hf]]; [exfalso; vm_compute in He; discriminate | exact Hf].
Defined.
Lemma acpi_reboot_ends_witness : exists h', acpi_reboot mute 2 [] = Some (tt, out8 0x64 0xFE h').
Proof.
  destruct (acpi_reboot_ends mute (fun _ _ => eq_refl) 2 [] (fun _ => 0%nat)) as (h' & E & _); [intros g; exists 0, g; done | cbn; lia |]. exists h'. exact E.
Defined.
