(* ===== verification/KShell.v ===== *)
(** * Kernel shell (src/kernel/shell.c, the commands)

    The commands and the dispatcher over the components they call: the console (Gpu.v),
    the files (Vfs.v), the program loader (Elf.v), the network (Net.v), the history and
    the paths of the command line (LineEdit.v, KPath.v). What the shell reads from the
    clock, the timer and the tables of the devices is in [facts]. Starting a program or the
    desktop, and switching the machine off, leave this code: they are the result of a
    line. Texts are the character codes of their string literals. *)

From Stdlib Require Import String Ascii.
From S2P Require Import Prelude Memory Pmm Paging Heap Sched Vfs Elf Rtl8139 Net NetRx Gpu LineEdit Input KPath.

Record gpu_info := GpuInfo { is_intel : Z; is_nvidia : Z; is_amd : Z; gi_irq : Z }.

(** cmos_read, pit_ticks, pci_find_gpu, acpi_get_pm1a; of the network card, poll by poll,
    what it has put into its receive ring and its status register; and the byte of memory
    behind the request line of Net.v. *)
Record facts := Facts {
  f_cmos : Z -> Z; f_ticks : Z; f_gpu : option gpu_info; f_pm1a : Z;
  f_receive : Z -> net -> net; f_status : Z -> Z; f_after_literal : Z }.

(** What follows a line: the next prompt, the desktop, a program, or the end. *)
Inductive next := Prompt | Desktop | Program (entry stack_top pml4 : Z) | PowerOff | Restart_.

Section shell.
Context (font : Z -> Z) (E : facts).
Context {D : Type} (fs_of : Z -> option (filesystem D)).

Record shell := Shell {
  sh_gpu : gpu; sh_vfs : vst D; sh_mem : mem; sh_net : net; sh_hist : hist;
  g_cwd : list Z; g_shell_context_gui : Z }.
Implicit Types s : shell.

Definition set_gpu v s := Shell v (sh_vfs s) (sh_mem s) (sh_net s) (sh_hist s) (g_cwd s) (g_shell_context_gui s).
Definition set_vfs v s := Shell (sh_gpu s) v (sh_mem s) (sh_net s) (sh_hist s) (g_cwd s) (g_shell_context_gui s).
Definition set_smem v s := Shell (sh_gpu s) (sh_vfs s) v (sh_net s) (sh_hist s) (g_cwd s) (g_shell_context_gui s).
Definition set_net v s := Shell (sh_gpu s) (sh_vfs s) (sh_mem s) v (sh_hist s) (g_cwd s) (g_shell_context_gui s).
Definition set_hist v s := Shell (sh_gpu s) (sh_vfs s) (sh_mem s) (sh_net s) v (g_cwd s) (g_shell_context_gui s).
Definition set_cwd v s := Shell (sh_gpu s) (sh_vfs s) (sh_mem s) (sh_net s) (sh_hist s) v (g_shell_context_gui s).
Definition shell_set_gui_context v s := Shell (sh_gpu s) (sh_vfs s) (sh_mem s) (sh_net s) (sh_hist s) (g_cwd s) v.

(** gpu_print, gpu_set_color with a black background, and printing numbers. *)
Definition say (t : list Z) s : option shell := g ← gpu_print font t (sh_gpu s); Some (set_gpu g s).
Definition color (fg : Z) s : shell := set_gpu (gpu_set_color fg 0x00 (sh_gpu s)) s.
Definition print_u64 (v : Z) s : option shell := t ← u64_text v; say t s.
Definition print_ip (ip : Z) s : option shell := t ← ip_text ip; say t s.
Fixpoint says (ts : list (list Z)) s : option shell :=
  match ts with [] => Some s | t :: ts => s ← say t s; says ts s end.

(** ** Information *)

Definition HELP : list (list Z) :=
  [ln "Comandos:";
   ln "  help              ajuda";
   ln "  clear             limpa tela";
   ln "  gpuinfo           info do framebuffer";
   ln "  gui               interface grafica";
   ln "  neofetch          info do sistema";
   ln "  date              data e hora atual";
   ln "  uptime            tempo ligado";
   ln "  ls [dir]          lista arquivos";
   ln "  cd [dir]          muda diretorio";
   ln "  cat <arquivo>     le arquivo";
   ln "  mkdir <dir>       cria diretorio";
   ln "  touch <arquivo>   cria arquivo vazio";
   ln "  echo <texto>      ecoa texto";
   ln "  ping <ip>         ping ICMP";
   ln "  dns <host>        consulta DNS";
   ln "  fetch <host>      HTTP GET";
   ln "  run <elf>         executa ELF";
   ln "  ps                lista processos";
   ln "  kill <pid>        mata processo";
   ln "  shutdown          desligar (ACPI)";
   ln "  reboot            reiniciar"].
Definition LOGO : list (list Z) :=
  [ln "          //";
   ln "         //";
   ln "        //";
   ln "       //";
   ln "      //";
   ln "     //";
   ln "    //";
   ln "   //";
   ln "  //";
   ln " //";
   ln "////////////////////////////////////////////////////"].
Definition cmd_help s : option shell := says HELP s.

Definition two_digits (v : Z) s : option shell := s ← (if v <? 10 then say (txt "0") s else Some s); print_u64 v s.
Definition print_date (t : rtc_time) s : option shell :=
  s ← print_u64 (day t) s; s ← say (txt "/") s; s ← print_u64 (month t) s; s ← say (txt "/") s; print_u64 (year t) s.
Definition cmd_date s : option shell :=
  let t := rtc_read_time (f_cmos E) in
  s ← say (txt "Date: ") s; s ← print_date t s; s ← say (txt "  Time: ") s;
  s ← print_u64 (hours t) s; s ← say (txt ":") s; s ← two_digits (minutes t) s; s ← say (txt ":") s;
  s ← two_digits (seconds t) s; say [10] s.

Definition cmd_clear s : option shell := g ← gpu_clear 0x0F 0x00 (sh_gpu s); Some (set_gpu g s).

Definition cmd_gpuinfo s : option shell :=
  let g := sh_gpu s in
  s ← say (txt "GPU: ") s;
  s ← say (if istrue (gpu_is_framebuffer_enabled g) then ln "framebuffer VBE" else ln "VGA text mode") s;
  s ← say (txt "Resolucao: ") s; s ← print_u64 (gpu_width g) s; s ← say (txt "x") s;
  s ← print_u64 (gpu_height g) s; s ← say (txt "x") s; s ← print_u64 (gpu_bpp g) s; say [10] s.

(** The register in hexadecimal, capital letters, from the end of hex[12]. *)
Fixpoint hex_digits (fuel : nat) (v h : Z) (buf : list Z) : option (Z * list Z) :=
  match fuel with
  | O => None
  | S f => if istrue v
           then let d := Z.land v 0xF in
                buf ← put buf (h - 1) (if d <? 10 then 48 + d else 55 + d); hex_digits f (Z.shiftr v 4) (h - 1) buf
           else Some (h, buf)
  end.
Definition hex_text (v : Z) : option (list Z) :=
  buf ← put (replicate 12 0) 10 0;
  r ← (if v =? 0 then buf ← put buf 9 48; Some (9, buf) else hex_digits 17 v 10 buf);
  c_string (drop (Z.to_nat (fst r)) (snd r)).

Definition cmd_neofetch s : option shell :=
  s ← says LOGO (color 0x0B s);
  let s := color 0x0F s in
  s ← say (ln "SO:         EponaOS x86_64") s;
  s ← say (ln "Kernel:     Epona (C + ASM)") s;
  let t := rtc_read_time (f_cmos E) in
  s ← say (txt "Date:       ") s; s ← print_date t s; s ← say (txt "  ") s;
  s ← print_u64 (hours t) s; s ← say (txt ":") s; s ← two_digits (minutes t) s; s ← say [10] s;
  let p := m_pmm (get_mach (sh_vfs s)) in
  s ← say (txt "RAM:        ") s; s ← print_u64 (pmm_total_bytes p / (1024 * 1024)) s;
  s ← say (txt " MiB total, ") s; s ← print_u64 (pmm_free_bytes p / (1024 * 1024)) s; s ← say (ln " MiB free") s;
  s ← match f_gpu E with
      | Some i =>
          s ← say (txt "GPU:        ") s;
          s ← say (if istrue (is_intel i) then txt "Intel" else if istrue (is_nvidia i) then txt "NVIDIA"
                   else if istrue (is_amd i) then txt "AMD/ATI" else txt "Unknown") s;
          s ← say (txt " (IRQ ") s; s ← print_u64 (gi_irq i) s; say (ln ")") s
      | None => say (ln "GPU:        VBE framebuffer") s
      end;
  s ← say (txt "ACPI:       ") s;
  s ← say (if istrue (f_pm1a E) then txt "PM1a=0x" else txt "not found") s;
  s ← (if istrue (f_pm1a E) then t ← hex_text (f_pm1a E); say t s else Some s);
  s ← say [10] s;
  s ← (if istrue (net_is_configured (sh_net s))
       then s ← say (txt "NET:        ") (color 0x0A s); s ← print_ip (net_local_ip (sh_net s)) s; Some (color 0x0F s)
       else s ← say (txt "NET:        offline") (color 0x0C s); Some (color 0x0F s));
  say [10] s.

Definition cmd_ip s : option shell :=
  if negb (istrue (net_is_configured (sh_net s))) then say (ln "Rede nao configurada") s
  else
    s ← say (txt "IP:         ") s; s ← print_ip (net_local_ip (sh_net s)) s; s ← say [10] s;
    if istrue (net_dns_answer_ip (sh_net s))
    then s ← say (txt "DNS:        example.com = ") s; s ← print_ip (net_dns_answer_ip (sh_net s)) s; say [10] s
    else Some s.

Definition cmd_http s : option shell :=
  s ← say (txt "HTTP: ") s;
  s ← (if istrue (net_http_ok (sh_net s)) then say (txt "OK") (color 0x0A s) else say (txt "sem resposta") (color 0x0C s));
  s ← say [10] (color 0x0F s);
  let len := net_http_body_len (sh_net s) in
  if 0 <? len then
    s ← say (txt "Bytes:      ") s; s ← print_u64 len s; s ← say ([10] ++ txt "Preview:    ") s;
    s ← say (net_http_body_preview (sh_net s)) s; say [10] s
  else Some s.

(** ** Files *)

(** [char resolved[CWD_MAX]; if (resolve_path(arg, resolved, CWD_MAX) < 0) { print; return; }] *)
Definition resolved (arg err : list Z) (cmd : list Z -> shell -> option shell) s : option shell :=
  r ← resolve_path (g_cwd s) arg CWD_MAX (replicate (Z.to_nat CWD_MAX) 0);
  match r with None => say err s | Some p => cmd p s end.

Definition ls_entry (e : list Z * Z * Z) s : option shell :=
  let '(name, size, flags) := e in
  s ← say (txt "  ") s;
  let dir := istrue (Z.land flags VFS_DIR) in
  s ← say name (if dir then color 0x0B s else s);
  let s := color 0x0F s in
  s ← (if dir then Some s else s ← say (txt " (") s; s ← print_u64 size s; say (txt " bytes)") s);
  say [10] s.
Fixpoint ls_entries (es : list (list Z * Z * Z)) s : option shell :=
  match es with [] => Some s | e :: es => s ← ls_entry e s; ls_entries es s end.

Definition cmd_ls (arg : list Z) s : option shell :=
  resolved arg (ln "ls: caminho invalido") (fun p s =>
    s ← say p s; s ← say (ln ":") s;
    r ← vfs_readdir fs_of p (sh_vfs s);
    let '(_, es, v) := r in
    s ← ls_entries es (set_vfs v s);
    if zlen es =? 0 then say (ln "  (vazio)") s else Some s) s.

Definition arg1 (args : list (list Z)) : list Z := nth 1 args [].

Definition cmd_cd (args : list (list Z)) s : option shell :=
  resolved (if 1 <? zlen args then arg1 args else [SLASH]) (ln "cd: caminho invalido") (fun p s =>
    r ← vfs_stat fs_of p (sh_vfs s);
    let '(ret, _, flags, v) := r in
    let s := set_vfs v s in
    if ret <? 0 then s ← say (txt "cd: nao encontrado: ") s; s ← say p s; say [10] s
    else if negb (istrue (Z.land flags VFS_DIR)) then
      s ← say (txt "cd: nao e um diretorio: ") s; s ← say p s; say [10] s
    else Some (set_cwd (take (Z.to_nat (CWD_MAX - 1)) p) s)) s.

Definition cmd_mkdir (args : list (list Z)) s : option shell :=
  if zlen args <? 2 then say (ln "Uso: mkdir <dir>") s
  else resolved (arg1 args) (ln "mkdir: caminho invalido") (fun p s =>
    r ← vfs_mkdir fs_of p (sh_vfs s);
    let s := set_vfs (snd r) s in
    if fst r <? 0 then s ← say (txt "mkdir: falha ao criar: ") s; s ← say p s; say [10] s else Some s) s.

Definition cmd_touch (args : list (list Z)) s : option shell :=
  if zlen args <? 2 then say (ln "Uso: touch <arquivo>") s
  else resolved (arg1 args) (ln "touch: caminho invalido") (fun p s =>
    r ← vfs_create fs_of p (sh_vfs s);
    let s := set_vfs (snd r) s in
    if negb (istrue (fst r)) then s ← say (txt "touch: falha ao criar: ") s; s ← say p s; say [10] s
    else Some (set_vfs (vfs_close (fst r) (sh_vfs s)) s)) s.

(** The string that begins a buffer of the file's bytes and a terminator. *)
Definition cmd_cat (path : list Z) s : option shell :=
  resolved path (ln "cat: caminho invalido") (fun p s =>
    r ← vfs_open fs_of p (sh_vfs s);
    let '(f, v) := r in
    let s := set_vfs v s in
    if negb (istrue f) then s ← say (txt "Arquivo nao encontrado: ") s; s ← say p s; say [10] s
    else
      r ← vfs_read fs_of f 255 (sh_vfs s);
      let '(n, data, v) := r in
      let s := set_vfs v s in
      s ← (if 0 <? n then
             t ← c_string (take (Z.to_nat n) data ++ [0]);
             s ← say t s;
             if negb (data.[n - 1] =? 10) then say [10] s else Some s
           else Some s);
      Some (set_vfs (vfs_close f (sh_vfs s)) s)) s.

Fixpoint echo_from (first : bool) (args : list (list Z)) s : option shell :=
  match args with
  | [] => Some s
  | a :: args => s ← (if first then Some s else say (txt " ") s); s ← say a s; echo_from false args s
  end.
Definition cmd_echo (args : list (list Z)) s : option shell := s ← echo_from true (tail args) s; say [10] s.

(** ** Network *)

(** [for (i = 0; i < n; i++) { net_poll(); if (stop(i)) return ...; }]; [None] inside when
    the loop runs out. *)
Fixpoint poll_until (n : nat) (i : Z) (stop : Z -> net -> bool) (x : net) : option (bool * net) :=
  match n with
  | O => Some (false, x)
  | S n => x ← net_poll (f_after_literal E) (f_status E i) (f_receive E i x); if stop i x then Some (true, x) else poll_until n (i + 1) stop x
  end.
Definition polling (n : Z) (stop : Z -> net -> bool) (cmd : bool -> shell -> option shell) s : option shell :=
  r ← poll_until (Z.to_nat n) 0 stop (sh_net s); cmd (fst r) (set_net (snd r) s).
Definition colored (fg : Z) (t : list Z) s : option shell := s ← say t (color fg s); Some (color 0x0F s).

Definition cmd_ping (args : list (list Z)) s : option shell :=
  if zlen args <? 2 then say (ln "Uso: ping <ip>") s
  else if negb (istrue (net_is_configured (sh_net s))) then say (ln "Rede nao configurada") s
  else match parse_ip (arg1 args) with
       | None => say (ln "IP invalido") s
       | Some ip =>
           s ← say (txt "Pinging ") s; s ← print_ip ip s; s ← say (ln "...") s;
           x ← net_ping_send ip (sh_net s);
           polling 2000000 (fun _ x => istrue (net_ping_replied x)) (fun ok s =>
             if ok : bool then colored 0x0A (ln "Resposta recebida!") s else colored 0x0C (ln "Sem resposta (timeout)") s) (set_net x s)
       end.

Definition cmd_dns (args : list (list Z)) s : option shell :=
  if zlen args <? 2 then say (ln "Uso: dns <host>") s
  else if negb (istrue (net_is_configured (sh_net s))) then say (ln "Rede nao configurada") s
  else
    s ← say (txt "Resolvendo: ") s; s ← say (arg1 args) s; s ← say [10] s;
    x ← dns_query (arg1 args) (sh_net s);
    polling 3000000 (fun _ x => istrue (net_dns_answer_ip x)) (fun ok s =>
      if ok : bool then s ← say (txt "Resposta: ") s; s ← print_ip (net_dns_answer_ip (sh_net s)) s; say [10] s
      else colored 0x0C (ln "Timeout") s) (set_net x s).

Definition cmd_fetch (args : list (list Z)) s : option shell :=
  if zlen args <? 2 then say (ln "Uso: fetch <host>") s
  else if negb (istrue (net_is_configured (sh_net s))) then say (ln "Rede nao configurada") s
  else
    s ← say (txt "Buscando: ") s; s ← say (arg1 args) s; s ← say [10] s;
    r ← net_http_fetch (arg1 args) (sh_net s);
    let s := set_net (snd r) s in
    if fst r <? 0 then say (ln "Erro") s
    else
      polling 5000000 (fun i x => negb (net_tcp_busy x) && (istrue (net_http_ok x) || (100000 <? i))) (fun stopped s =>
        if negb (stopped : bool) then colored 0x0C (ln "Timeout") s
        else if istrue (net_http_ok (sh_net s)) then
          s ← colored 0x0A (ln "HTTP 200 OK") s;
          s ← say (txt "Bytes: ") s; s ← print_u64 (net_http_body_len (sh_net s)) s; s ← say [10] s;
          s ← say (txt "Preview: ") s; s ← say (net_http_body_preview (sh_net s)) s; say [10] s
        else colored 0x0C (ln "Falha") s) s.

(** ** Programs *)

Definition ends_with (s suffix : list Z) : bool :=
  if zlen s <? zlen suffix then false else bool_decide (drop (length s - length suffix) s = suffix).

Definition cmd_run (args : list (list Z)) s : option (next * shell) :=
  let stay o := s ← o; Some (Prompt, s) in
  if istrue (g_shell_context_gui s) then stay (say (ln "run: desabilitado no Terminal da GUI; use o console.") s)
  else if zlen args <? 2 then stay (say (ln "Uso: run <elf>") s)
  else if ends_with (arg1 args) (txt ".epk")
  then stay (say (ln "Pacotes .epk nao sao executaveis ELF. Use: run shell.elf") s)
  else
    r ← resolve_path (g_cwd s) (arg1 args) CWD_MAX (replicate (Z.to_nat CWD_MAX) 0);
    match r with
    | None => stay (say (ln "run: caminho invalido") s)
    | Some p =>
        r ← elf_load fs_of p (sh_vfs s) (sh_mem s);
        let '(ret, entry, stack_top, pml4, v, m) := r in
        let s := set_smem m (set_vfs v s) in
        if ret <? 0 then stay (s ← say (txt "Falha ao carregar ELF: ") s; s ← say p s; say [10] s)
        else s ← say (ln "Executando ELF...") s; Some (Program entry stack_top pml4, s)
    end.

Definition cmd_uptime s : option shell :=
  let secs := f_ticks E / 100 in
  let mins := secs / 60 in
  let hrs := mins / 60 in
  s ← say (txt "Uptime: ") s; s ← print_u64 hrs s; s ← say (txt "h ") s; s ← print_u64 (mins mod 60) s;
  s ← say (txt "m ") s; s ← print_u64 (secs mod 60) s; say (ln "s") s.

Definition cmd_ps s : option shell := s ← say (ln "PID  STATE     CMD") s; say (ln "(use neofetch for system info)") s.

(** ** The dispatcher *)

(** [strcmp(cmd, name) == 0] *)
Definition is_cmd (cmd : list Z) (name : string) : bool := bool_decide (cmd = txt name).

Definition run_command (args : list (list Z)) s : option (next * shell) :=
  let cmd := hd [] args in
  let stay o := s ← o; Some (Prompt, s) in
  if is_cmd cmd "help" then stay (cmd_help s)
  else if is_cmd cmd "clear" then stay (cmd_clear s)
  else if is_cmd cmd "gpuinfo" then stay (cmd_gpuinfo s)
  else if is_cmd cmd "gui" then Some (Desktop, s)
  else if is_cmd cmd "neofetch" then stay (cmd_neofetch s)
  else if is_cmd cmd "ip" then stay (cmd_ip s)
  else if is_cmd cmd "http" then stay (cmd_http s)
  else if is_cmd cmd "ls" then stay (cmd_ls (arg1 args) s)
  else if is_cmd cmd "cd" then stay (cmd_cd args s)
  else if is_cmd cmd "cat" then stay (cmd_cat (arg1 args) s)
  else if is_cmd cmd "mkdir" then stay (cmd_mkdir args s)
  else if is_cmd cmd "touch" then stay (cmd_touch args s)
  else if is_cmd cmd "echo" then stay (cmd_echo args s)
  else if is_cmd cmd "ping" then stay (cmd_ping args s)
  else if is_cmd cmd "dns" then stay (cmd_dns args s)
  else if is_cmd cmd "fetch" then stay (cmd_fetch args s)
  else if is_cmd cmd "run" then cmd_run args s
  else if is_cmd cmd "date" then stay (cmd_date s)
  else if is_cmd cmd "uptime" then stay (cmd_uptime s)
  else if is_cmd cmd "ps" then stay (cmd_ps s)
  else if is_cmd cmd "shutdown" then s ← say (ln "Desligando via ACPI...") s; Some (PowerOff, s)
  else if is_cmd cmd "reboot" then s ← say (ln "Reiniciando...") s; Some (Restart_, s)
  else stay (s ← say (txt "Comando nao encontrado: ") (color 0x0C s); s ← say cmd (color 0x0F s); say [10] s).

(** [line] is the array that holds the line. *)
Definition shell_dispatch_line (line : list Z) s : option (next * shell) :=
  t ← c_string line;
  h ← history_add t (sh_hist s);
  let s := set_hist h s in
  r ← tokenize SHELL_TOKEN_MAX line;
  let '(ps, line) := (r : list Z * list Z) in
  args ← tokens_at line ps;
  match args with [] => Some (Prompt, s) | _ => run_command args s end.

(** One turn of the loop of shell_run, with the keys that come; [None] inside: the keys are
    used up before the line is complete. *)
Definition shell_turn (keys line : list Z) s : option (option next * list Z * shell) :=
  g ← shell_print_prompt font (sh_gpu s);
  r ← readline font SHELL_LINE_MAX keys line (sh_hist s) g;
  let '(t, keys, l) := r in
  let s := set_gpu (r_gpu l) (set_hist (r_hist l) s) in
  match t with
  | None => Some (None, keys, s)
  | Some [] => Some (Some Prompt, keys, s)
  | Some _ => r ← shell_dispatch_line (l_buf (r_line l)) s; Some (Some (fst r), keys, snd r)
  end.
End shell.

(** ** Every line is handled *)

(** Not a C int64: what the number printer has digits for. *)
Definition is_u64 (v : Z) : Prop := 0 <= v < 18446744073709551616.

(** What the shell relies on. Of the files and the network: properties that the operations
    it calls keep, which return where they hold; and values in range. *)
Class services (E : facts) {D : Type} (fs_of : Z -> option (filesystem D)) (V : vst D -> Prop) (N : net -> Prop) := {
  facts_cmos : forall r, is_byte (f_cmos E r);
  facts_ticks : is_u64 (f_ticks E);
  facts_irq : forall i, f_gpu E = Some i -> is_u64 (gi_irq i);
  facts_pm1a : 0 <= f_pm1a E < 4294967296;
  files_readdir : forall p v, V v -> exists r es v', vfs_readdir fs_of p v = Some (r, es, v') /\ V v' /\
    Forall (fun '(_, size, _) => 0 <= size < 4294967296) es;
  files_stat : forall p v, V v -> exists r size flags v', vfs_stat fs_of p v = Some (r, size, flags, v') /\ V v';
  files_mkdir : forall p v, V v -> exists r v', vfs_mkdir fs_of p v = Some (r, v') /\ V v';
  files_create : forall p v, V v -> exists f v', vfs_create fs_of p v = Some (f, v') /\ V v';
  files_open : forall p v, V v -> exists f v', vfs_open fs_of p v = Some (f, v') /\ V v' /\
    (f <> 0 -> exists n data v2, vfs_read fs_of f 255 v' = Some (n, data, v2) /\ V v2);
  files_close : forall f v, V v -> V (vfs_close f v);
  files_load : forall p v m, V v -> exists r e st pm v' m', elf_load fs_of p v m = Some (r, e, st, pm, v', m') /\ V v';
  net_polls : forall i x, N x -> exists x', net_poll (f_after_literal E) (f_status E i) (f_receive E i x) = Some x' /\ N x';
  net_pings : forall ip x, N x -> exists x', net_ping_send ip x = Some x' /\ N x';
  net_queries : forall h x, N x -> exists x', dns_query h x = Some x' /\ N x';
  net_fetches : forall h x, N x -> exists r x', net_http_fetch h x = Some (r, x') /\ N x';
  net_body : forall x, N x -> is_u64 (net_http_body_len x) }.

(** And of the console. *)
Class components (font : Z -> Z) (E : facts) {D : Type} (fs_of : Z -> option (filesystem D))
    (C : gpu -> Prop) (V : vst D -> Prop) (N : net -> Prop) := {
  components_con : console font C;
  con_size : forall g, C g -> is_u64 (gpu_width g) /\ is_u64 (gpu_height g) /\ is_u64 (gpu_bpp g);
  components_services : services E fs_of V N }.

Section safe.
Context (font : Z -> Z) {D : Type} (C : gpu -> Prop) (V : vst D -> Prop) (N : net -> Prop) {HC : console font C}.
Implicit Types s : shell (D := D).

(** The current directory is a path in normal form that fits its array. *)
Definition cwd_ok (c : list Z) : Prop := canonical c /\ zlen c < CWD_MAX.
Record shell_ok s : Prop := {
  so_gpu : C (sh_gpu s);
  so_vfs : V (sh_vfs s);
  so_net : N (sh_net s);
  so_hist : hist_ok (sh_hist s);
  so_cwd : cwd_ok (g_cwd s) }.

(** A step returns and keeps the invariant. *)
Definition fine (o : option (shell (D := D))) : Prop := exists s', o = Some s' /\ shell_ok s'.
Definition fine_next (o : option (next * shell (D := D))) : Prop := exists n s', o = Some (n, s') /\ shell_ok s'.

Lemma fine_ret s : shell_ok s -> fine (Some s).
Proof. intros H. by exists s. Qed.
Lemma fine_bind o k : fine o -> (forall s, shell_ok s -> fine (k s)) -> fine (s ← o; k s).
Proof. intros (s & -> & Hs) Hk. by apply Hk. Qed.
Lemma fine_stay o : fine o -> fine_next (s ← o; Some (Prompt, s)).
Proof. intros (s & -> & Hs). by exists Prompt, s. Qed.

Lemma ok_gpu g s : shell_ok s -> C g -> shell_ok (set_gpu g s).
Proof. intros []. by split. Qed.
Lemma ok_vfs v s : shell_ok s -> V v -> shell_ok (set_vfs v s).
Proof. intros []. by split. Qed.
Lemma ok_net x s : shell_ok s -> N x -> shell_ok (set_net x s).
Proof. intros []. by split. Qed.
Lemma ok_mem m s : shell_ok s -> shell_ok (set_smem m s).
Proof. intros []. by split. Qed.
Lemma ok_color c s : shell_ok s -> shell_ok (color c s).
Proof. intros H. apply ok_gpu; [done |]. apply con_color, H. Qed.

Lemma say_fine t s : shell_ok s -> fine (say font t s).
Proof.
  intros H. unfold say. destruct (print_ok font C t (sh_gpu s) (so_gpu s H)) as (g & -> & Hg).
  cbn [mbind option_bind]. by apply fine_ret, ok_gpu.
Qed.
Lemma says_fine ts : forall s, shell_ok s -> fine (says font ts s).
Proof.
  induction ts as [| t ts IH]; intros s H; cbn [says]; [by apply fine_ret |]. by apply fine_bind; [apply say_fine |].
Qed.
Lemma u64_fine v s : shell_ok s -> is_u64 v -> fine (print_u64 font v s).
Proof. intros H Hv. unfold print_u64. rewrite u64_text_numeral by done. by apply say_fine. Qed.
Lemma ip_text_some ip : exists t, ip_text ip = Some t.
Proof.
  unfold ip_text.
  assert (forall part, exists t, octet_text (ip_part ip part) = Some t) as Ho.
  { intros part. destruct (octet_roundtrip (ip_part ip part) [] (u8_range _) eq_refl) as (c & t & -> & _). eauto. }
  destruct (Ho 0) as [a ->], (Ho 1) as [b ->], (Ho 2) as [c ->], (Ho 3) as [d ->]. cbn [mbind option_bind]. by eexists.
Qed.
Lemma ip_fine ip s : shell_ok s -> fine (print_ip font ip s).
Proof.
  intros H. unfold print_ip. destruct (ip_text_some ip) as [t ->]. by apply say_fine.
Qed.
End safe.

(** One step of a command: the goal [fine _] by its head. *)
Ltac ok_state :=
  repeat (assumption || typeclasses eauto || eapply ok_color
          || match goal with |- shell_ok _ _ _ (if ?b then _ else _) => destruct b end).
Ltac fine_step :=
  match goal with
  | |- fine _ _ _ (mbind _ (if ?b then _ else _)) => apply fine_bind; [destruct b | intros ? ?]
  | |- fine _ _ _ (mbind _ _) => apply fine_bind; [| intros ? ?]
  | |- fine _ _ _ (say _ _ _) => eapply say_fine; ok_state
  | |- fine _ _ _ (says _ _ _) => eapply says_fine; ok_state
  | |- fine _ _ _ (print_u64 _ _ _) => eapply u64_fine; ok_state
  | |- fine _ _ _ (print_ip _ _ _) => eapply ip_fine; ok_state
  | |- fine _ _ _ (Some _) => apply fine_ret; ok_state
  | |- fine _ _ _ (if ?b then _ else _) => destruct b
  end.
Ltac fine := repeat fine_step.

Lemma rtc_u64 cmos : (forall r, is_byte (cmos r)) ->
  let t := rtc_read_time cmos in
  is_u64 (seconds t) /\ is_u64 (minutes t) /\ is_u64 (hours t) /\ is_u64 (day t) /\ is_u64 (month t) /\ is_u64 (year t).
Proof.
  intros Hb. unfold rtc_read_time. set (bcd := negb _).
  assert (forall r, 0 <= (if bcd then bcd_to_bin (cmos r) else cmos r) < 256) as Hf.
  { intros r. destruct bcd; [apply u8_range | apply Hb]. }
  cbn [seconds minutes hours day month year]. unfold is_u64. pose proof (Hf 0). pose proof (Hf 2). pose proof (Hf 7). pose proof (Hf 8).
  pose proof (u16_range (u16 ((if istrue (cmos 50) then (if bcd then bcd_to_bin (cmos 50) else cmos 50) else 20) * 100) +
    (if bcd then bcd_to_bin (cmos 9) else cmos 9))).
  assert (forall x, 0 <= Z.land x (u8 (Z.lnot 0x80)) < 256) as Hh.
  { intros x. change (u8 (Z.lnot 0x80)) with (Z.ones 7). rewrite land_mask by done. change (2 ^ 7) with 128. lia. }
  split; [lia |]. split; [lia |]. split; [pose proof (Hh (if negb (istrue (Z.land (cmos 11) 2)) && istrue (Z.land (if bcd then bcd_to_bin (cmos 4) else cmos 4) 128)
    then u8 (Z.land (if bcd then bcd_to_bin (cmos 4) else cmos 4) 127 + 12) else (if bcd then bcd_to_bin (cmos 4) else cmos 4))); lia |].
  split; [lia |]. split; [lia |]. lia.
Qed.

Lemma hex_text_some v : 0 <= v < 4294967296 -> exists t, hex_text v = Some t.
Proof.
  intros Hv. unfold hex_text. assert (put (replicate 12 0) 10 0 = Some (replicate 10 0 ++ [0; 0])) as -> by done. cbn [mbind option_bind].
  destruct (v =? 0); [eexists; reflexivity |].
  assert (forall fuel k v a b, 0 <= v < 16 ^ Z.of_nat k -> (k < fuel)%nat -> (k <= length a)%nat -> nonzero b ->
    exists a' b', hex_digits fuel v (zlen a) (a ++ b ++ [0; 0]) = Some (zlen a', a' ++ b' ++ [0; 0]) /\ nonzero b') as H.
  { clear. induction fuel as [| fuel IH]; intros k v a b Hv Hk Ha Hb; [lia |]. cbn [hex_digits].
    unfold istrue. destruct (Z.eqb_spec v 0); cbn [negb]; [by exists a, b |].
    destruct k as [| k]; [cbn in Hv; lia |]. destruct (exists_last (l := a)) as (a' & x & ->); [intros ->; cbn in Ha; lia |].
    rewrite zlen_app. change (zlen [x]) with 1. replace (zlen a' + 1 - 1) with (zlen a') by lia. rewrite <- app_assoc.
    change ([x] ++ b ++ [0; 0]) with (x :: (b ++ [0; 0])). rewrite put_cell_back by done. cbn [mbind option_bind].
    change 0xF with (Z.ones 4). rewrite land_mask by done. change (2 ^ 4) with 16.
    rewrite Z.shiftr_div_pow2 by done. change (2 ^ 4) with 16. rewrite Nat2Z.inj_succ, Z.pow_succ_r in Hv by lia.
    rewrite length_app in Ha. cbn in Ha.
    apply (IH k (v / 16) a' ((if v mod 16 <? 10 then 48 + v mod 16 else 55 + v mod 16) :: b)); [lia.. |].
    constructor; [| done]. destruct (_ <? _); lia. }
  destruct (H 17%nat 8%nat v (replicate 10 0) []) as (a' & b' & E & Hb'); [change (16 ^ Z.of_nat 8) with 4294967296; lia | lia | cbn; lia | constructor |].
  change (zlen (replicate 10 0)) with 10 in E. cbn [app] in E. rewrite E. cbn [mbind option_bind fst snd].
  rewrite drop_app_length' by (unfold zlen; lia). exists b'. by apply c_string_text.
Qed.

Section commands.
Context (font : Z -> Z) (E : facts) {D : Type} (fs_of : Z -> option (filesystem D)).
Context (C : gpu -> Prop) (V : vst D -> Prop) (N : net -> Prop) {HP : components font E fs_of C V N}.
Implicit Types s : shell (D := D).
#[local] Instance shell_con : console font C := components_con.
#[local] Instance shell_services : services E fs_of V N := components_services.
Local Abbreviation ok := (shell_ok C V N).
Local Abbreviation fin := (fine C V N).
Local Abbreviation fin_next := (fine_next C V N).

Lemma two_digits_fine v s : ok s -> is_u64 v -> fin (two_digits font v s).
Proof. intros H Hv. unfold two_digits. fine. Qed.

Lemma print_date_fine t s : ok s -> is_u64 (day t) -> is_u64 (month t) -> is_u64 (year t) -> fin (print_date font t s).
Proof. intros. unfold print_date. fine. Qed.

Lemma date_fine s : ok s -> fin (cmd_date font E s).
Proof.
  intros H. destruct (rtc_u64 (f_cmos E) facts_cmos) as (H1 & H2 & H3 & H4 & H5 & H6). unfold cmd_date. set (t := rtc_read_time _) in *.
  fine; first [by apply print_date_fine | by apply two_digits_fine].
Qed.

Lemma clear_fine s : ok s -> fin (cmd_clear s).
Proof.
  intros H. unfold cmd_clear. destruct (con_putc 12 (sh_gpu s) (so_gpu _ _ _ s H)) as (g & Eg & Hg).
  unfold gpu_putc in Eg. cbn [Z.eqb Pos.eqb] in Eg. rewrite Eg. cbn [mbind option_bind]. by apply fine_ret, ok_gpu.
Qed.

Lemma gpuinfo_fine s : ok s -> fin (cmd_gpuinfo font s).
Proof. intros H. destruct (con_size (sh_gpu s) (so_gpu _ _ _ s H)) as (H1 & H2 & H3). unfold cmd_gpuinfo. fine. Qed.

Lemma neofetch_fine s : ok s -> fin (cmd_neofetch font E s).
Proof.
  intros H. destruct (rtc_u64 (f_cmos E) facts_cmos) as (H1 & H2 & H3 & H4 & H5 & H6). unfold cmd_neofetch. set (t := rtc_read_time _) in *.
  assert (forall v, is_u64 (u64 v / (1024 * 1024))) as Hram.
  { intros v. pose proof (u64_range v). unfold is_u64. lia. }
  fine; first [by apply print_date_fine | by apply two_digits_fine | apply Hram | idtac].
  - destruct (f_gpu E) as [i |] eqn:Ei; fine. exact (facts_irq i Ei).
  - destruct (hex_text_some (f_pm1a E) facts_pm1a) as [h ->]. cbn [mbind option_bind]. fine.
Qed.

Lemma ip_cmd_fine s : ok s -> fin (cmd_ip font s).
Proof. intros H. unfold cmd_ip. fine. Qed.

Lemma http_fine s : ok s -> fin (cmd_http font s).
Proof. intros H. unfold cmd_http. fine; apply net_body; eapply so_net; eassumption. Qed.

Lemma uptime_fine s : ok s -> fin (cmd_uptime font E s).
Proof. intros H. pose proof facts_ticks as Ht. unfold is_u64 in Ht. unfold cmd_uptime. fine; unfold is_u64; lia. Qed.

Lemma echo_fine args : forall first s, ok s -> fin (echo_from font first args s).
Proof. induction args as [| a args IH]; intros first s H; cbn [echo_from]; fine. by apply IH. Qed.

(** ** Files *)

Definition arg_ok (a : list Z) : Prop := nonzero a /\ zlen a < SHELL_LINE_MAX.

Lemma resolved_fine arg err cmd s : ok s -> arg_ok arg -> (forall p s, ok s -> cwd_ok p -> fin (cmd p s)) -> fin (resolved font arg err cmd s).
Proof.
  intros H [Ha1 Ha2] Hc. unfold resolved. destruct (so_cwd _ _ _ s H) as [(ns & Hn1 & Hn2 & Hn3 & Ec) Hl].
  rewrite Ec in Hl |- *. destruct (resolve_path_correct ns arg (replicate (Z.to_nat CWD_MAX) 0) CWD_MAX) as [-> Hp]; try done. cbn [mbind option_bind].
  destruct (walk_path _ (parts arg) CWD_MAX) as [p |]; [| fine]. destruct (Hp p eq_refl) as (P1 & P2 & _). by apply Hc.
Qed.

Lemma ls_entries_fine es : forall s, ok s -> Forall (fun '(_, size, _) => is_u64 size) es -> fin (ls_entries font es s).
Proof.
  induction es as [| [[name size] flags] es IH]; intros s H He; cbn [ls_entries]; [fine |].
  apply Forall_cons in He as [Hz He]. fine; [| by apply IH]. unfold ls_entry. fine.
Qed.

Lemma ls_fine arg s : ok s -> arg_ok arg -> fin (cmd_ls font fs_of arg s).
Proof.
  intros H Ha. apply resolved_fine; [done | done |]. intros p s1 H1 _. fine.
  match goal with |- fine _ _ _ (mbind _ (vfs_readdir _ _ (sh_vfs ?t))) =>
    destruct (files_readdir p (sh_vfs t) (so_vfs _ _ _ t ltac:(done))) as (r & es & v & -> & Hv & He) end.
  cbn [mbind option_bind]. assert (Forall (fun '(_, size, _) => is_u64 size) es) by (eapply Forall_impl; [exact He |]; intros [[? ?] ?] ?; unfold is_u64; lia).
  fine_step; [apply ls_entries_fine; [by apply ok_vfs | done] | fine].
Qed.

Lemma cd_fine args s : ok s -> Forall arg_ok args -> fin (cmd_cd font fs_of args s).
Proof.
  intros H Ha. apply resolved_fine; [done | |].
  - destruct (1 <? zlen args) eqn:El; [| split; [by repeat constructor | done]]. unfold arg1.
    destruct args as [| a0 [| a1 args]]; try done. by apply Forall_cons in Ha as [_ [? _]%Forall_cons].
  - intros p s1 H1 Hp. destruct (files_stat p (sh_vfs s1) (so_vfs _ _ _ s1 H1)) as (r & size & flags & v & -> & Hv).
    cbn [mbind option_bind]. pose proof (ok_vfs _ _ _ v s1 H1 Hv) as H2. fine.
    destruct H2. split; try done. cbn [set_cwd g_cwd]. destruct Hp as [P1 P2].
    rewrite take_ge by (unfold zlen, CWD_MAX in *; lia). by split.
Qed.

Lemma arg1_ok args : Forall arg_ok args -> arg_ok (arg1 args).
Proof.
  intros Ha. unfold arg1. destruct args as [| a0 [| a1 args]]; [by split; [constructor |].. |]. by apply Forall_cons in Ha as [_ [? _]%Forall_cons].
Qed.

Lemma mkdir_fine args s : ok s -> Forall arg_ok args -> fin (cmd_mkdir font fs_of args s).
Proof.
  intros H Ha. unfold cmd_mkdir. destruct (_ <? _); [fine |]. apply resolved_fine; [done | by apply arg1_ok |].
  intros p s1 H1 _. destruct (files_mkdir p (sh_vfs s1) (so_vfs _ _ _ s1 H1)) as (r & v & -> & Hv). cbn [mbind option_bind fst snd].
  pose proof (ok_vfs _ _ _ v s1 H1 Hv). fine.
Qed.

Lemma touch_fine args s : ok s -> Forall arg_ok args -> fin (cmd_touch font fs_of args s).
Proof.
  intros H Ha. unfold cmd_touch. destruct (_ <? _); [fine |]. apply resolved_fine; [done | by apply arg1_ok |].
  intros p s1 H1 _. destruct (files_create p (sh_vfs s1) (so_vfs _ _ _ s1 H1)) as (f & v & -> & Hv). cbn [mbind option_bind fst snd].
  pose proof (ok_vfs _ _ _ v s1 H1 Hv) as H2. fine. apply ok_vfs; [done |]. by apply files_close.
Qed.

Lemma cat_fine path s : ok s -> arg_ok path -> fin (cmd_cat font fs_of path s).
Proof.
  intros H Ha. apply resolved_fine; [done | done |]. intros p s1 H1 _.
  destruct (files_open p (sh_vfs s1) (so_vfs _ _ _ s1 H1)) as (f & v & -> & Hv & Hr). cbn [mbind option_bind].
  pose proof (ok_vfs _ _ _ v s1 H1 Hv) as H2. unfold istrue. destruct (Z.eqb_spec f 0) as [Ef | Ef]; cbn [negb]; [fine |].
  destruct (Hr Ef) as (n & data & v2 & E2 & Hv2). change (sh_vfs (set_vfs v s1)) with v. rewrite E2. cbn [mbind option_bind].
  pose proof (ok_vfs _ _ _ v2 _ H2 Hv2) as H3. apply fine_bind; [| intros s4 H4; apply fine_ret, ok_vfs; [done |]; apply files_close; eapply so_vfs; eassumption].
  destruct (0 <? n); [| fine].
  assert (exists t, c_string (take (Z.to_nat n) data ++ [0]) = Some t) as [t ->].
  { generalize (take (Z.to_nat n) data). intros l. induction l as [| c l [u IHl]]; [by eexists |]. cbn [app c_string].
    destruct (c =? 0); [by eexists |]. rewrite IHl. by eexists. }
  cbn [mbind option_bind]. fine.
Qed.

(** ** Network *)

Lemma poll_until_fine n : forall i stop x, N x -> exists b x', poll_until E n i stop x = Some (b, x') /\ N x'.
Proof.
  induction n as [| n IH]; intros i stop x Hx; cbn [poll_until]; [by exists false, x |].
  destruct (net_polls i x Hx) as (x1 & -> & H1). cbn [mbind option_bind]. destruct (stop i x1); [by exists true, x1 | by apply IH].
Qed.

Lemma polling_fine n stop cmd s : ok s -> (forall b s, ok s -> fin (cmd b s)) -> fin (polling E n stop cmd s).
Proof.
  intros H Hc. unfold polling. destruct (poll_until_fine (Z.to_nat n) 0 stop (sh_net s) (so_net _ _ _ s H)) as (b & x & -> & Hx).
  cbn [mbind option_bind fst snd]. by apply Hc, ok_net.
Qed.

Lemma colored_fine c t s : ok s -> fin (colored font c t s).
Proof. intros H. unfold colored. fine. Qed.

Lemma ping_fine args s : ok s -> fin (cmd_ping font E args s).
Proof.
  intros H. unfold cmd_ping. fine. destruct (parse_ip (arg1 args)) as [ip |]; fine.
  match goal with |- fine _ _ _ (mbind _ (net_ping_send _ (sh_net ?t))) =>
    destruct (net_pings ip (sh_net t) (so_net _ _ _ t ltac:(done))) as (x & -> & Hx) end.
  cbn [mbind option_bind]. apply polling_fine; [by apply ok_net |]. intros [|] s3 H3; by apply colored_fine.
Qed.

Lemma dns_fine args s : ok s -> fin (cmd_dns font E args s).
Proof.
  intros H. unfold cmd_dns. fine.
  match goal with |- fine _ _ _ (mbind _ (dns_query _ (sh_net ?t))) =>
    destruct (net_queries (arg1 args) (sh_net t) (so_net _ _ _ t ltac:(done))) as (x & -> & Hx) end.
  cbn [mbind option_bind]. apply polling_fine; [by apply ok_net |]. intros [|] s3 H3; [fine | by apply colored_fine].
Qed.

Lemma fetch_fine args s : ok s -> fin (cmd_fetch font E args s).
Proof.
  intros H. unfold cmd_fetch. fine.
  match goal with |- fine _ _ _ (mbind _ (net_http_fetch _ (sh_net ?t))) =>
    destruct (net_fetches (arg1 args) (sh_net t) (so_net _ _ _ t ltac:(done))) as (r & x & -> & Hx);
    pose proof (ok_net _ _ _ x t ltac:(done) Hx) end.
  cbn [mbind option_bind fst snd]. fine. apply polling_fine; [done |]. intros b s3 Hs3.
  fine; first [by apply colored_fine | apply net_body; eapply so_net; eassumption].
Qed.

(** ** Lines *)

Lemma run_fine args s : ok s -> Forall arg_ok args -> fin_next (cmd_run font fs_of args s).
Proof.
  intros H Ha. unfold cmd_run. destruct (istrue _); [apply fine_stay; fine |]. destruct (_ <? _); [apply fine_stay; fine |].
  destruct (ends_with _ _); [apply fine_stay; fine |].
  destruct (arg1_ok args Ha) as [Ha1 Ha2]. destruct (so_cwd _ _ _ s H) as [(ns & Hn1 & Hn2 & Hn3 & Ec) Hl].
  rewrite Ec in Hl |- *. destruct (resolve_path_correct ns (arg1 args) (replicate (Z.to_nat CWD_MAX) 0) CWD_MAX) as [-> _]; try done.
  cbn [mbind option_bind]. destruct (walk_path _ _ CWD_MAX) as [p |]; [| apply fine_stay; fine].
  destruct (files_load p (sh_vfs s) (sh_mem s) (so_vfs _ _ _ s H)) as (r & e & st & pm & v & m & -> & Hv). cbn [mbind option_bind].
  pose proof (ok_mem _ _ _ m _ (ok_vfs _ _ _ v s H Hv)) as H2. destruct (r <? 0); [apply fine_stay; fine |].
  destruct (say_fine font C V N (ln "Executando ELF...") _ H2) as (s3 & -> & H3). by eexists _, s3.
Qed.

Lemma run_command_fine args s : ok s -> Forall arg_ok args -> fin_next (run_command font E fs_of args s).
Proof.
  intros H Ha. pose proof (arg1_ok args Ha). unfold run_command.
  assert (forall t n, fin_next (s ← say font t s; Some (n, s))) as Hend.
  { intros t n. destruct (say_fine font C V N t s H) as (s1 & -> & H1). by exists n, s1. }
  destruct (is_cmd _ _); [apply fine_stay; unfold cmd_help; fine |].
  destruct (is_cmd _ _); [apply fine_stay; by apply clear_fine |].
  destruct (is_cmd _ _); [apply fine_stay; by apply gpuinfo_fine |].
  destruct (is_cmd _ _); [by exists Desktop, s |].
  destruct (is_cmd _ _); [apply fine_stay; by apply neofetch_fine |].
  destruct (is_cmd _ _); [apply fine_stay; by apply ip_cmd_fine |].
  destruct (is_cmd _ _); [apply fine_stay; by apply http_fine |].
  destruct (is_cmd _ _); [apply fine_stay; by apply ls_fine |].
  destruct (is_cmd _ _); [apply fine_stay; by apply cd_fine |].
  destruct (is_cmd _ _); [apply fine_stay; by apply cat_fine |].
  destruct (is_cmd _ _); [apply fine_stay; by apply mkdir_fine |].
  destruct (is_cmd _ _); [apply fine_stay; by apply touch_fine |].
  destruct (is_cmd _ _); [apply fine_stay; unfold cmd_echo; apply fine_bind; [by apply echo_fine | intros; fine] |].
  destruct (is_cmd _ _); [apply fine_stay; by apply ping_fine |].
  destruct (is_cmd _ _); [apply fine_stay; by apply dns_fine |].
  destruct (is_cmd _ _); [apply fine_stay; by apply fetch_fine |].
  destruct (is_cmd _ _); [by apply run_fine |].
  destruct (is_cmd _ _); [apply fine_stay; by apply date_fine |].
  destruct (is_cmd _ _); [apply fine_stay; by apply uptime_fine |].
  destruct (is_cmd _ _); [apply fine_stay; unfold cmd_ps; fine |].
  destruct (is_cmd _ _); [apply Hend |].
  destruct (is_cmd _ _); [apply Hend |].
  apply fine_stay. fine.
Qed.

Lemma words_len f (l : list Z) : forall cur, Forall (fun w => zlen w <= zlen cur + zlen l) (split_by f l cur).
Proof.
  induction l as [| c l IH]; intros cur; cbn [split_by].
  { destruct cur; constructor; [change (@zlen Z []) with 0; lia | constructor]. }
  rewrite zlen_cons. pose proof (zlen_nonneg l). destruct (f c).
  - assert (Forall (fun w => zlen w <= zlen cur + (zlen l + 1)) (split_by f l [])) as Hr.
    { eapply Forall_impl; [apply IH |]. cbn. intros w Hw. change (@zlen Z []) with 0 in Hw. pose proof (zlen_nonneg cur). lia. }
    destruct cur; [done |]. constructor; [lia | done].
  - eapply Forall_impl; [apply IH |]. cbn. intros w Hw. rewrite zlen_app in Hw. change (zlen [c]) with 1 in Hw. lia.
Qed.

Lemma dispatch_fine t rest s : ok s -> entry_ok t -> fin_next (shell_dispatch_line font E fs_of (t ++ 0 :: rest) s).
Proof.
  intros H [Hl Hp]. pose proof (printable_nonzero t Hp) as Hn. unfold shell_dispatch_line. rewrite c_string_text by done. cbn [mbind option_bind].
  destruct (history_add_ok t (sh_hist s) (so_hist _ _ _ s H) Hp) as (h & -> & Hh). cbn [mbind option_bind].
  assert (ok (set_hist h s)) as H2 by (destruct H; by split).
  destruct (tokenize_correct SHELL_TOKEN_MAX t rest Hn ltac:(done)) as (ps & l & -> & _ & Ea). cbn [mbind option_bind]. rewrite Ea. cbn [mbind option_bind].
  assert (Forall arg_ok (take (Z.to_nat (SHELL_TOKEN_MAX - 1)) (words t))) as Hw.
  { apply Forall_take. unfold words. apply Forall_and. split.
    - eapply Forall_impl; [apply (split_by_Forall (fun c => c <> 0) is_blank t []); [done | constructor..] |]. by intros w (_ & _ & ?).
    - eapply Forall_impl; [apply words_len |]. cbn. intros w Hw. change (@zlen Z []) with 0 in Hw. lia. }
  set (args := take _ (words t)) in *. clearbody args.
  destruct args as [| a args]; [by eexists Prompt, _ |]. by apply run_command_fine.
Qed.

(** C11: the kernel shell handles every line: whatever keys are typed, with files, a console
    and a network that keep what they promise, a turn of its loop ends with the next
    prompt, with a program, the desktop or the end, or waits for more keys; it stays inside
    its arrays, and the current directory stays a path in normal form. *)
Theorem shell_turn_safe (keys buf : list Z) (s : shell (D := D)) (Hs : shell_ok C V N s) (Hb : zlen buf = SHELL_LINE_MAX) :
  exists n rest s', shell_turn font E fs_of keys buf s = Some (n, rest, s') /\ shell_ok C V N s'.
Proof.
  unfold shell_turn. destruct (prompt_ok font C (sh_gpu s) (so_gpu _ _ _ s Hs)) as (g & -> & Hg). cbn [mbind option_bind].
  destruct (readline_run font C (fun _ _ _ => True)) with (max := SHELL_LINE_MAX) (keys := keys) (buf := buf) (h := sh_hist s) (g := g)
    as (l & -> & Hl & Ht); try done; [| exact (so_hist _ _ _ s Hs) |].
  { intros m l lft rgt g0 Hl _ Hg0. destruct (redraw_ok font C m l lft rgt g0 Hl Hg0) as (g' & Er & Hg'). by exists g'. }
  cbn [mbind option_bind]. destruct (ed_run SHELL_LINE_MAX keys (Ed [] [] (sh_hist s))) as [[t rest] e]. cbn [fst snd] in *.
  destruct Hl as [[Hlen (tail & Hbuf) _ _ [Hn1 Hn2]] Eh Hh Hp Hc].
  assert (ok (set_gpu (r_gpu l) (set_hist (r_hist l) s))) as H2 by (destruct Hs; split; try done; cbn; by rewrite Eh).
  destruct t as [t |]; [| by eexists None, rest, _]. subst t. destruct (e_text e) as [| c t] eqn:Ee; [by eexists (Some Prompt), rest, _ |].
  rewrite app_assoc in Hbuf. fold (e_text e) in Hbuf. rewrite Hbuf, Ee.
  destruct (dispatch_fine (c :: t) tail _ H2) as (n & s' & -> & Hs').
  { split; [| done]. rewrite Hbuf, Ee, zlen_app, !zlen_cons in Hlen. rewrite zlen_cons. pose proof (zlen_nonneg tail). lia. }
  cbn [mbind option_bind fst snd]. by eexists (Some n), rest, s'.
Qed.

(** ** What a command keeps *)

Lemma say_keeps t s : ok s ->
  exists s', say font t s = Some s' /\ ok s' /\ sh_net s' = sh_net s /\ sh_hist s' = sh_hist s /\ g_cwd s' = g_cwd s.
Proof.
  intros H. unfold say. destruct (print_ok font C t (sh_gpu s) (so_gpu _ _ _ s H)) as (g & -> & Hg).
  cbn [mbind option_bind]. eexists. split; [reflexivity |]. split; [by apply ok_gpu | done].
Qed.

Lemma complain_keeps e p v s : ok (set_vfs v s) ->
  exists s', (s ← say font (txt e) (set_vfs v s); s ← say font p s; say font [10] s) = Some s' /\
    sh_net s' = sh_net s /\ sh_hist s' = sh_hist s /\ g_cwd s' = g_cwd s.
Proof.
  intros H. destruct (say_keeps (txt e) _ H) as (s1 & -> & H1 & A1 & B1 & C1). cbn [mbind option_bind].
  destruct (say_keeps p s1 H1) as (s2 & -> & H2 & A2 & B2 & C2). cbn [mbind option_bind].
  destruct (say_keeps [10] s2 H2) as (s3 & -> & H3 & A3 & B3 & C3). exists s3. split; [reflexivity |].
  cbn [set_vfs sh_net sh_hist g_cwd] in *. split_and!; congruence.
Qed.

(** Also: [cd] with an argument, or with none for the root: the current directory becomes
    the path the argument names from it, without "." and "..", exactly when the files have
    a directory there; a path that is too long or too deep, that names nothing or no
    directory leaves it as it is. The network and the history stay. *)
Theorem cd_spec (ns args : list (list Z)) (s : shell (D := D))
    (Hs : shell_ok C V N s) (Hargs : Forall arg_ok args) (Hns : Forall is_name ns) (Hnz : Forall nonzero ns)
    (H32 : zlen ns <= 32) (Hcwd : g_cwd s = path_of ns) :
  let target := if 1 <? zlen args then arg1 args else [SLASH] in
  exists s', cmd_cd font fs_of args s = Some s' /\ sh_net s' = sh_net s /\ sh_hist s' = sh_hist s /\
    g_cwd s' = match walk_path (if is_slash (hd 0 target) then [] else ns) (parts target) CWD_MAX with
               | Some p => match vfs_stat fs_of p (sh_vfs s) with
                           | Some (r, _, flags, _) => if (0 <=? r) && istrue (Z.land flags VFS_DIR) then p else g_cwd s
                           | None => g_cwd s
                           end
               | None => g_cwd s
               end.
Proof.
  intros target. pose proof (so_cwd _ _ _ s Hs) as [_ Hl]. rewrite Hcwd in Hl.
  assert (arg_ok target) as [Ht1 Ht2].
  { unfold target. destruct (_ <? _); [by apply arg1_ok | split; [by repeat constructor | done]]. }
  unfold cmd_cd, resolved. fold target. rewrite Hcwd.
  destruct (resolve_path_correct ns target (replicate (Z.to_nat CWD_MAX) 0) CWD_MAX) as [-> Hp]; try done. cbn [mbind option_bind].
  destruct (walk_path _ (parts target) CWD_MAX) as [p |]; [| destruct (say_keeps (ln "cd: caminho invalido") s Hs) as (s1 & -> & H1 & H2 & H3 & H4); exists s1; by rewrite H4].
  destruct (files_stat p (sh_vfs s) (so_vfs _ _ _ s Hs)) as (r & size & flags & v & -> & Hv). cbn [mbind option_bind].
  pose proof (ok_vfs _ _ _ v s Hs Hv) as Hs1. rewrite Z.leb_antisym. destruct (r <? 0); cbn [negb andb].
  { rewrite <- Hcwd. exact (complain_keeps "cd: nao encontrado: " p v s Hs1). }
  destruct (istrue (Z.land flags VFS_DIR)); cbn [negb]; [| rewrite <- Hcwd; exact (complain_keeps "cd: nao e um diretorio: " p v s Hs1)].
  eexists. do 3 (split; [reflexivity |]). cbn [set_cwd g_cwd]. destruct (Hp p eq_refl) as (_ & Hl2 & _).
  apply take_ge. unfold zlen, CWD_MAX in *. lia.
Qed.
End commands.

(** ** The answer of an earlier query *)

(** A step of the network that changes neither the last DNS answer nor the configuration. *)
Definition same_answer (x x' : net) : Prop :=
  net_dns_answer_ip x' = net_dns_answer_ip x /\ net_is_configured x' = net_is_configured x.

Lemma sent_answer f x x' : sent f x x' -> same_answer x x'.
Proof. by intros (d & i & -> & _). Qed.

Lemma tcp_sent_answer ip mac seq ack flags payload x y : net_inv y -> zlen mac = 6 -> zlen payload <= 1400 -> same_answer x y ->
  exists x', send_tcp_segment ip mac seq ack flags payload y = Some x' /\ net_inv x' /\ same_answer x x'.
Proof.
  intros Hi Hm Hp [A B]. destruct (send_tcp_segment_ok ip mac seq ack flags payload y (inv_send y Hi) Hm Hp) as (x' & -> & Hs).
  exists x'. split; [done |]. split; [destruct (sent_ok _ _ _ Hi Hs) as (x2 & [= <-] & H & _); exact H |].
  destruct (sent_answer _ _ _ Hs) as [A2 B2]. split; congruence.
Qed.

Lemma retransmit_answer after x : net_inv x ->
  exists x', tcp_poll_retransmit after x = Some x' /\ net_inv x' /\ same_answer x x'.
Proof.
  intros Hi. unfold tcp_poll_retransmit. destruct (_ && _); [by exists x |]. cbv zeta.
  destruct (_ <? _); [eexists; split; [done |]; split; [quiet | done] |].
  destruct (_ <=? _); [eexists; split; [done |]; split; [quiet | done] |].
  set (y := on_tcp (set_tcp_retries _) _). assert (net_inv y) as Hy by quiet.
  destruct (_ =? 1); apply tcp_sent_answer; try done; [apply Hy.. |].
  pose proof (http_request_len after (g_http_host (g_http y))). lia.
Qed.

Lemma poll_answer after x : net_inv x ->
  exists x', net_poll after 0 x = Some x' /\ net_inv x' /\ same_answer x x'.
Proof. apply retransmit_answer. Qed.

Lemma query_answer host x : net_inv x ->
  exists x', dns_query host x = Some x' /\ net_inv x' /\ same_answer x x'.
Proof.
  intros Hi. unfold dns_query. destruct (_ || _ || _); [by exists x |].
  destruct (dns_write_name _ _) as [[k out] |] eqn:E; [| by exists x].
  apply dns_write_pos in E; [| lia]. rewrite zlen_replicate in E. cbv zeta.
  set (n1 := set_dns_host _ _). assert (net_inv n1) as Hi1 by quiet.
  destruct (send_udp_ok (g_gateway_mac n1) (g_local_ip n1) (g_dns_ip n1) DNS_CLIENT_PORT DNS_PORT
    (dns_header ++ take (Z.to_nat k) out ++ [0; 1; 0; 1]) n1 (inv_send n1 Hi1)) as (x' & -> & Hs); [apply Hi1 | |].
  - rewrite !zlen_app, zlen_take by lia. change (zlen dns_header) with 12. change (zlen [0; 1; 0; 1]) with 4. lia.
  - exists x'. split; [done |]. split; [destruct (sent_ok _ _ _ Hi1 Hs) as (x2 & [= <-] & H & _); exact H |].
    exact (sent_answer _ _ _ Hs).
Qed.

Lemma say_some {D : Type} font t g (s : shell (D := D)) : gpu_print font t (sh_gpu s) = Some g -> say font t s = Some (set_gpu g s).
Proof. intros H. unfold say. by rewrite H. Qed.

Lemma poll_until_first E n stop x : 0 < n -> f_status E 0 = 0 -> (forall y, f_receive E 0 y = y) -> net_inv x ->
  (forall y, same_answer x y -> stop 0 y = true) ->
  exists y, poll_until E (Z.to_nat n) 0 stop x = Some (true, y) /\ same_answer x y.
Proof.
  intros Hn Hst Hr Hi Hstop. destruct (Z.to_nat n) as [| k] eqn:Ek; [lia |]. cbn [poll_until]. rewrite Hst, Hr.
  destruct (poll_answer (f_after_literal E) x Hi) as (y & -> & _ & Hy). cbn [mbind option_bind]. rewrite Hstop by done. by exists y.
Qed.

(** Also: after one name has been resolved, [dns] answers every other name with the address of the first:
    nothing forgets the last answer, so that the first poll ends the wait, before anything
    can have been received. *)
Theorem dns_stale {D : Type} (font : Z -> Z) (E : facts) (C : gpu -> Prop) (HC : console font C)
    (cmd host : list Z) (s : shell (D := D))
    (Hg : C (sh_gpu s)) (Hi : net_inv (sh_net s)) (Hcfg : net_is_configured (sh_net s) <> 0)
    (Hans : 0 < net_dns_answer_ip (sh_net s)) (Hst : f_status E 0 = 0) (Hr : forall x, f_receive E 0 x = x) :
  exists t g x, ip_text (net_dns_answer_ip (sh_net s)) = Some t /\
    gpu_print font (txt "Resolvendo: " ++ host ++ [10] ++ txt "Resposta: " ++ t ++ [10]) (sh_gpu s) = Some g /\
    cmd_dns font E [cmd; host] s = Some (set_gpu g (set_net x s)).
Proof.
  destruct (ip_text_some (net_dns_answer_ip (sh_net s))) as [t Et].
  destruct (print_ok font C (txt "Resolvendo: ") (sh_gpu s) Hg) as (g1 & E1 & C1).
  destruct (print_ok font C host g1 C1) as (g2 & E2 & C2). destruct (print_ok font C [10] g2 C2) as (g3 & E3 & C3).
  destruct (print_ok font C (txt "Resposta: ") g3 C3) as (g4 & E4 & C4). destruct (print_ok font C t g4 C4) as (g5 & E5 & C5).
  destruct (print_ok font C [10] g5 C5) as (g6 & E6 & C6).
  destruct (query_answer host (sh_net s) Hi) as (x1 & Eq & Hi1 & [A1 B1]).
  destruct (poll_until_first E 3000000 (fun _ x => istrue (net_dns_answer_ip x)) x1) as (x2 & Ep & [A2 B2]); try done.
  { intros y [Ay _]. unfold istrue. destruct (Z.eqb_spec (net_dns_answer_ip y) 0); [lia | done]. }
  exists t, g6, x2. split; [exact Et |]. split.
  { repeat (rewrite gpu_print_app; first [rewrite E1 | rewrite E2 | rewrite E3 | rewrite E4 | rewrite E5]; cbn [mbind option_bind]). exact E6. }
  unfold cmd_dns. change (zlen [cmd; host] <? 2) with false. rewrite istrue_neq by done. cbn [negb]. cbv iota.
  cbn [arg1 nth]. rewrite (say_some _ _ g1) by exact E1. cbn [mbind option_bind]. rewrite (say_some _ _ g2) by exact E2. cbn [mbind option_bind].
  rewrite (say_some _ _ g3) by exact E3. cbn [mbind option_bind set_gpu sh_net]. rewrite Eq. cbn [mbind option_bind].
  unfold polling. cbn [set_net sh_net]. rewrite Ep. cbn [mbind option_bind fst snd].
  rewrite (say_some _ _ g4) by exact E4. cbn [mbind option_bind]. unfold print_ip. cbn [set_gpu set_net sh_net].
  rewrite A2, A1, Et. cbn [mbind option_bind]. rewrite (say_some _ _ g5) by exact E5. cbn [mbind option_bind].
  rewrite (say_some _ _ g6) by exact E6. reflexivity.
Qed.

(** ** Witnesses: a text console, nothing mounted, a network that receives nothing *)

Definition facts_ex : facts := Facts (fun _ => 0x12) 360000 None 0xB004 (fun _ x => x) (fun _ => 0) 0.
Definition no_files (v : vst unit) : Prop := mounts v = [].
Definition no_fs (i : Z) : option (filesystem unit) := None.

Lemma no_mount p : vfs_split_path [] p = (-1, []).
Proof. destruct p as [| c p]; [done |]. cbn [vfs_split_path]. by destruct (negb _). Qed.

#[export] Instance no_files_services : services facts_ex no_fs no_files net_inv.
Proof.
  split.
  - done.
  - done.
  - done.
  - done.
  - intros p v Hv. exists (-1), [], v. unfold vfs_readdir. rewrite Hv, no_mount. done.
  - intros p v Hv. exists (-1), 0, 0, v. unfold vfs_stat. rewrite Hv, no_mount. done.
  - intros p v Hv. exists (-1), v. unfold vfs_mkdir. rewrite Hv, no_mount. done.
  - intros p v Hv. exists 0, v. unfold vfs_create. rewrite Hv, no_mount. done.
  - intros p v Hv. exists 0, v. unfold vfs_open. rewrite Hv, no_mount. done.
  - intros f v Hv. unfold vfs_close. by destruct (istrue f).
  - intros p v m Hv. exists (-1), 0, 0, 0, v, m. unfold elf_load, vfs_open. rewrite Hv, no_mount. done.
  - intros i x Hx. destruct (poll_answer 0 x Hx) as (x' & E & H & _). by exists x'.
  - intros ip x Hx. unfold net_ping_send. destruct (negb _); [by exists x |].
    set (y := set_ping_replied 0 x). assert (net_inv y) as Hy by quiet.
    destruct (send_icmp_out ip (g_gateway_mac y) y Hy) as (x' & E & H & _); [apply Hy |]. by exists x'.
  - intros h x Hx. destruct (query_answer h x Hx) as (x' & E & H & _). by exists x'.
  - intros h x Hx. unfold net_http_fetch. destruct (_ || _); [by exists (-1), x |].
    set (y := on_http _ _). assert (net_inv y) as Hy by quiet.
    destruct (query_answer h y Hy) as (x' & -> & H & _). by exists 0, x'.
  - intros x Hx. pose proof (inv_body _ Hx). unfold net_http_body_len, is_u64. pose proof (zlen_nonneg (g_http_body (g_http x))). lia.
Qed.
#[export] Instance no_files_components font : components font facts_ex no_fs text_console no_files net_inv.
Proof.
  split; [typeclasses eauto | | typeclasses eauto].
  intros g [sc Hg]. unfold gpu_width, gpu_height, gpu_bpp. rewrite (sh_text _ _ Hg). done.
Qed.

Definition shell_ex : shell (D := unit) := Shell (gpu_ex 0) (mkVst (heap_boot mach0) ∅ ∅ ∅ [] tt) ∅ net_ex hist_ex [SLASH] 0.

Lemma shell_ex_ok : shell_ok text_console no_files net_inv shell_ex.
Proof.
  split; [exact gpu_ex_text | reflexivity | exact net_ex_inv | exact hist_ex_ok |]. split; [| vm_compute; done].
  exists []. split_and!; [constructor | constructor | vm_compute; done | reflexivity].
Qed.

(** The keys of "cd /a". *)
Lemma shell_turn_safe_witness : exists n rest s',
  shell_turn (fun _ => 0) facts_ex no_fs [99; 100; 32; 47; 97; 10; 7] (replicate 256 0) shell_ex = Some (n, rest, s') /\
  shell_ok text_console no_files net_inv s'.
Proof.
  exact (shell_turn_safe (fun _ => 0) facts_ex no_fs text_console no_files net_inv [99; 100; 32; 47; 97; 10; 7] (replicate 256 0)
    shell_ex shell_ex_ok eq_refl).
Defined.

(** A path that is not there. *)
Lemma cd_spec_witness : exists s', cmd_cd (fun _ => 0) no_fs [txt "cd"; txt "/a/../b"] shell_ex = Some s' /\ g_cwd s' = [SLASH].
Proof.
  destruct (cd_spec (fun _ => 0) facts_ex no_fs text_console no_files net_inv [] [txt "cd"; txt "/a/../b"] shell_ex)
    as (s' & E & _ & _ & Ec); [exact shell_ex_ok | | constructor | constructor | vm_compute; done | reflexivity |].
  - repeat (constructor; [split; [repeat (constructor; [done |]); constructor | vm_compute; done] |]). constructor.
  - exists s'. split; [exact E |]. rewrite Ec. reflexivity.
Defined.

(** 10.0.2.9 was the answer to an earlier name. *)
Definition shell_dns_ex : shell (D := unit) := set_net (set_dns_answer_ip (NET_IP 10 0 2 9) net_ex) shell_ex.
Lemma dns_stale_witness : exists t g x,
  cmd_dns (fun _ => 0) facts_ex [txt "dns"; txt "b.org"] shell_dns_ex = Some (set_gpu g (set_net x shell_dns_ex)) /\
  ip_text (NET_IP 10 0 2 9) = Some t.
Proof.
  assert (net_inv (sh_net shell_dns_ex)) as Hi by (destruct net_ex_inv; by split).
  destruct (dns_stale (fun _ => 0) facts_ex text_console _ (txt "dns") (txt "b.org") shell_dns_ex gpu_ex_text Hi
    ltac:(done) ltac:(vm_compute; done) eq_refl ltac:(done)) as (t & g & x & Et & _ & E).
  exists t, g, x. split; [exact E | exact Et].
Defined.
