(* ===== verification/Gui.v ===== *)
(** * Desktop (src/kernel/gui.c, the windows and their pictures)

    The windows, the order they lie in, and everything that draws them. A window draws
    into a buffer of its own, a block of the kernel heap kept in [bufs] of Gpu.v; the
    text window runs the line editor of LineEdit.v and the commands of KShell.v. Texts are
    the characters of their literals, coordinates are C ints without their overflow. The
    loop of the desktop is in GuiRun.v. *)

From Stdlib Require Import String Ascii.
From S2P Require Import Prelude Memory Heap Vfs Rtl8139 Net Gpu Term LineEdit Input KPath KShell.

Definition MAX_WINDOWS : Z := 8.
Definition TITLEBAR_H : Z := 22.
Definition BORDER_W : Z := 1.
Definition TASKBAR_H : Z := 26.
Definition TASKBAR_BTN_W : Z := 110.
Definition CLR_DESKTOP : Z := 0x0000AA.
Definition CLR_BORDER : Z := 0xAAAAAA.
Definition CLR_BORDER_FOCUS : Z := 0x0000AA.
Definition CLR_TITLE_ACTIVE : Z := 0x0000AA.
Definition CLR_TITLE_INACT : Z := 0xAAAAAA.
Definition CLR_TITLE_TEXT : Z := 0xFFFFFF.
Definition CLR_TITLE_TEXT_I : Z := 0x444444.
Definition CLR_WINDOWBG : Z := 0xBBBBBB.
Definition CLR_MENU_BG : Z := 0xBBBBBB.
Definition CLR_TASKBAR : Z := 0xBBBBBB.
Definition CLR_TASKBAR_TOP : Z := 0x888888.
Definition CLR_TASKBTN : Z := 0xAAAAAA.
Definition CLR_TASKBTN_ACT : Z := 0x0000AA.
Definition CLR_MENUBTN : Z := 0x0000AA.
Definition CLR_ICON_BG : Z := 0xCCCCCC.
Definition CLR_ICON_BORDER : Z := 0x888888.

(** ** State *)

Inductive win_kind := WIN_TERMINAL | WIN_ABOUT | WIN_FILEMAN.
#[global] Instance win_kind_eq_dec : EqDecision win_kind.
Proof. solve_decision. Defined.

Record window := Win {
  w_used : Z; w_x : Z; w_y : Z; w_cw : Z; w_ch : Z; w_title : list Z; w_kind : win_kind;
  w_buf : Z; w_term : term_ctx; w_row : Z; w_col : Z; w_line : line }.

(** g_win, g_zorder and the variables about them; g_menu_open. *)
Record desk := Desk {
  g_win : list window; g_zorder : list Z; g_win_count : Z;
  g_drag_zpos : Z; g_drag_dx : Z; g_drag_dy : Z; g_focus_zpos : Z; g_menu_open : Z }.

Definition set_used v (w : window) : window := Win v (w_x w) (w_y w) (w_cw w) (w_ch w) (w_title w) (w_kind w)
  (w_buf w) (w_term w) (w_row w) (w_col w) (w_line w).
Definition move_to x y (w : window) : window := Win (w_used w) x y (w_cw w) (w_ch w) (w_title w) (w_kind w)
  (w_buf w) (w_term w) (w_row w) (w_col w) (w_line w).
Definition set_console t r c l (w : window) : window := Win (w_used w) (w_x w) (w_y w) (w_cw w) (w_ch w) (w_title w) (w_kind w)
  (w_buf w) t r c l.
Definition set_wline l (w : window) : window := set_console (w_term w) (w_row w) (w_col w) l w.

Definition set_windows ws (d : desk) : desk := Desk ws (g_zorder d) (g_win_count d)
  (g_drag_zpos d) (g_drag_dx d) (g_drag_dy d) (g_focus_zpos d) (g_menu_open d).
Definition set_order zs n (d : desk) : desk := Desk (g_win d) zs n
  (g_drag_zpos d) (g_drag_dx d) (g_drag_dy d) (g_focus_zpos d) (g_menu_open d).
Definition set_drag z dx dy (d : desk) : desk := Desk (g_win d) (g_zorder d) (g_win_count d) z dx dy (g_focus_zpos d) (g_menu_open d).
Definition set_focus z (d : desk) : desk := Desk (g_win d) (g_zorder d) (g_win_count d)
  (g_drag_zpos d) (g_drag_dx d) (g_drag_dy d) z (g_menu_open d).
Definition set_menu m (d : desk) : desk := Desk (g_win d) (g_zorder d) (g_win_count d)
  (g_drag_zpos d) (g_drag_dx d) (g_drag_dy d) (g_focus_zpos d) m.

Definition win_total_w (w : window) : Z := w_cw w + BORDER_W * 2.
Definition win_total_h (w : window) : Z := w_ch w + TITLEBAR_H + BORDER_W.
Definition win_client_x (w : window) : Z := w_x w + BORDER_W.
Definition win_client_y (w : window) : Z := w_y w + TITLEBAR_H.
Definition point_in (px py x y w h : Z) : bool := (x <=? px) && (px <? x + w) && (y <=? py) && (py <? y + h).

(** The window at a place of the order. *)
Definition win_at (d : desk) (z : Z) : option (Z * window) := i ← zlook (g_zorder d) z; w ← zlook (g_win d) i; Some (i, w).

(** ** The order of the windows *)

(** The first entry of g_win that is not used. *)
Fixpoint find_slot (i : Z) (ws : list window) : option Z :=
  match ws with [] => None | w :: ws => if istrue (w_used w) then find_slot (i + 1) ws else Some i end.

(** [for (i = zpos; i < g_win_count - 1; i++) g_zorder[i] = g_zorder[i + 1];] *)
Definition shift_order (zpos n : Z) (zs : list Z) : option (list Z) :=
  loopM (Z.to_nat (n - 1 - zpos)) zpos (fun i zs => v ← zlook zs (i + 1); put zs i v) zs.

Definition win_raise (zpos : Z) (d : desk) : option desk :=
  let n := g_win_count d in
  if zpos =? n - 1 then Some d
  else
    idx ← zlook (g_zorder d) zpos;
    zs ← shift_order zpos n (g_zorder d);
    zs ← put zs (n - 1) idx;
    Some (set_order zs n d).

Fixpoint hit_from (k : nat) (px py : Z) (d : desk) : option Z :=
  match k with
  | O => Some (-1)
  | S k =>
      let z := Z.of_nat k in
      r ← win_at d z;
      let w := snd r in
      if istrue (w_used w) && point_in px py (w_x w) (w_y w) (win_total_w w) (win_total_h w) then Some z
      else hit_from k px py d
  end.
Definition win_hit_test (px py : Z) (d : desk) : option Z := hit_from (Z.to_nat (g_win_count d)) px py d.

(** A sequence of drawing operations. *)
Fixpoint run (fs : list (gpu -> option gpu)) (g : gpu) : option gpu :=
  match fs with [] => Some g | f :: fs => g ← f g; run fs g end.

Definition draw_flat_border (x y w h color : Z) : gpu -> option gpu :=
  run [gpu_fill_rect x y w 1 color; gpu_fill_rect x (u16 (y + h - 1)) w 1 color;
       gpu_fill_rect x y 1 h color; gpu_fill_rect (u16 (x + w - 1)) y 1 h color].

Definition draw_close_button (x y : Z) : gpu -> option gpu :=
  run [gpu_fill_rect x y 14 14 0xAA0000; draw_flat_border x y 14 14 0x880000;
       loopM 7 2 (fun i => run [gpu_put_pixel (u16 (x + i)) (u16 (y + i)) 0xFFFFFF;
                                gpu_put_pixel (u16 (x + 8 - i + 2)) (u16 (y + i)) 0xFFFFFF]);
       loopM 5 3 (fun i => run [gpu_put_pixel (u16 (x + i + 1)) (u16 (y + i)) 0xFFFFFF;
                                gpu_put_pixel (u16 (x + 7 - i + 3)) (u16 (y + i)) 0xFFFFFF])].

Definition draw_min_button (x y : Z) : gpu -> option gpu :=
  run [gpu_fill_rect x y 14 14 CLR_TASKBTN; draw_flat_border x y 14 14 0x888888;
       loopM 8 3 (fun i => gpu_put_pixel (u16 (x + i)) (u16 (y + 10)) 0x444444)].

(** The bytes of a window's buffer as the pixels they are. *)
Definition words_of (n : Z) (l : list Z) : list Z :=
  map (fun k => let i := 4 * Z.of_nat k in l.[i] + 256 * l.[i + 1] + 65536 * l.[i + 2] + 16777216 * l.[i + 3]) (seq 0 (Z.to_nat n)).
Definition put_word (l : list Z) (i v : Z) : option (list Z) :=
  l ← put l (4 * i) (Z.land v 0xFF); l ← put l (4 * i + 1) (Z.land (Z.shiftr v 8) 0xFF);
  l ← put l (4 * i + 2) (Z.land (Z.shiftr v 16) 0xFF); put l (4 * i + 3) (Z.land (Z.shiftr v 24) 0xFF).
(** [for (i = 0; i < cw * ch; i++) w->buf[i] = v;] *)
Definition fill_window (v : Z) (w : window) (g : gpu) : option gpu :=
  l ← bufs g !! w_buf w;
  l ← loopM (Z.to_nat (w_cw w * w_ch w)) 0 (fun i l => put_word l i v) l;
  Some (set_bufs (<[w_buf w := l]> (bufs g)) g).

(** gpu_begin_target and gpu_set_console_viewport of a window, and their end. *)
Definition open_window (w : window) (g : gpu) : gpu :=
  gpu_set_console_viewport 0 0 (u16 (w_cw w / 8)) (u16 (w_ch w / 16)) (gpu_begin_target (w_buf w) (u16 (w_cw w)) (u16 (w_ch w)) g).
Definition close_window (g : gpu) : gpu := gpu_reset_console_viewport (gpu_end_target g).
(** The same, with the colours and the cursor its console had. *)
Definition resume_window (w : window) (g : gpu) : gpu :=
  gpu_set_cursor (w_row w) (w_col w) (gpu_set_color (t_fg (w_term w)) (t_bg (w_term w)) (open_window w g)).

Section gui.
Context (font : Z -> Z) (E : facts).
Context {D : Type} (fs_of : Z -> option (filesystem D)).
Implicit Types s : shell (D := D).

(** ** Windows and memory *)

Definition set_heap (h : heap) s : shell := set_vfs (set_vheap h (sh_vfs s)) s.

(** What a new block holds is never read: the window is painted first. *)
Definition win_create (kind : win_kind) (title : list Z) (x y cw ch : Z) (sd : shell * desk) : option (Z * (shell * desk)) :=
  let '(s, d) := sd in
  match find_slot 0 (g_win d) with
  | None => Some (-1, (s, d))
  | Some i =>
      w ← zlook (g_win d) i;
      r ← kmalloc (u32 (cw * ch * 4)) (v_heap (sh_vfs s));
      let '(a, h) := r in
      let s := set_heap h s in
      let s := if istrue a then set_gpu (set_bufs (<[a := replicate (Z.to_nat (u32 (cw * ch * 4))) 0]> (bufs (sh_gpu s))) (sh_gpu s)) s else s in
      buf ← put (l_buf (w_line w)) 0 0;
      zs ← put (g_zorder d) (g_win_count d) i;
      let w := Win 1 x y cw ch (take 31 title) kind a (w_term w) (w_row w) (w_col w) (Line buf 0 0) in
      Some (i, (s, set_order zs (g_win_count d + 1) (set_windows ((g_win d).[i <- w]) d)))
  end.

Definition win_close (zpos : Z) (sd : shell * desk) : option (shell * desk) :=
  let '(s, d) := sd in
  r ← win_at d zpos;
  let '(i, w) := r in
  let s := if istrue (w_buf w)
           then set_gpu (set_bufs (delete (w_buf w) (bufs (sh_gpu s))) (sh_gpu s)) (set_heap (kfree (w_buf w) (v_heap (sh_vfs s))) s)
           else s in
  zs ← shift_order zpos (g_win_count d) (g_zorder d);
  Some (s, set_order zs (g_win_count d - 1) (set_windows ((g_win d).[i <- set_used 0 w]) d)).

(** ** What is in a window *)

Definition win_render_terminal_init (w : window) s : option (window * shell) :=
  g ← fill_window 0 w (sh_gpu s);
  let x := term_ctx_init (w_term w) in
  let g := gpu_set_cursor 0 0 (gpu_set_color 0x0F 0x00 (open_window w g)) in
  r ← term_ctx_print font (txt "EponaOS Terminal" ++ [13; 10]) (x, g);
  r ← term_ctx_print font (txt "Type 'help' for commands." ++ [13; 10; 13; 10]) r;
  let '(x, g) := (r : term_ctx * gpu) in
  g ← shell_print_prompt font g;
  let '(row, col) := gpu_get_cursor g in
  Some (set_console x row col (w_line w) w, set_gpu (close_window g) s).

Definition ABOUT : list (list Z) :=
  [ln "  A hobby operating system written";
   txt "  from scratch in C and x86 ASM." ++ [10; 10];
   ln "  Kernel: x86_64 long mode";
   ln "  Memory: PMM + paging 4-level";
   ln "  Filesystem: FAT32";
   ln "  Network: ARP, TCP, HTTP";
   txt "  GUI: KolibriOS-style" ++ [10; 10];
   ln "  (c) 2025 EponaOS Project"].
Definition win_render_about (w : window) s : option (window * shell) :=
  g ← fill_window CLR_WINDOWBG w (sh_gpu s);
  let g := gpu_set_cursor 0 0 (gpu_set_color 0x01 0x07 (open_window w g)) in
  g ← gpu_print font (txt "         EponaOS" ++ [10; 10]) g;
  g ← run (map (gpu_print font) ABOUT) (gpu_set_color 0x00 0x07 g);
  Some (w, set_gpu (close_window g) s).

(** num[12] is filled from its end. *)
Definition u32_text (v : Z) : option (list Z) :=
  buf ← put (replicate 12 0) 11 0;
  r ← (if v =? 0 then buf ← put buf 10 48; Some (10, buf) else u64_digits 12 v 11 buf);
  c_string (drop (Z.to_nat (fst r)) (snd r)).

Definition fm_readdir_cb (e : list Z * Z * Z) (g : gpu) : option gpu :=
  let '(name, size, flags) := e in
  let dir := istrue (Z.land flags VFS_DIR) in
  g ← gpu_print font (txt "  ") g;
  g ← gpu_print font name (if dir then gpu_set_color 0x01 0x07 g else g);
  g ← (if dir then gpu_print font (txt "/") g else Some g);
  let g := gpu_set_color 0x00 0x07 g in
  g ← (if dir then Some g
       else g ← gpu_print font (txt "  (") g; t ← u32_text size; g ← gpu_print font t g; gpu_print font (txt " bytes)") g);
  gpu_print font [10] g.

Definition win_render_fileman (w : window) s : option (window * shell) :=
  g ← fill_window CLR_WINDOWBG w (sh_gpu s);
  let g := gpu_set_cursor 0 0 (gpu_set_color 0x00 0x07 (open_window w g)) in
  g ← run (map (gpu_print font) [ln "  EponaOS File Manager"; txt "  --------------------" ++ [10; 10]; ln "  /"]) g;
  r ← vfs_readdir fs_of [SLASH] (sh_vfs s);
  let '(_, es, v) := r in
  g ← run (map fm_readdir_cb es) g;
  Some (w, set_gpu (close_window g) (set_vfs v s)).

(** ** Typing in the text window *)

Definition gui_terminal_redraw_line (w : window) s : option (window * shell) :=
  g ← redraw font (w_line w) (resume_window w (sh_gpu s));
  let '(row, col) := gpu_get_cursor g in
  Some (set_console (w_term w) row col (w_line w) w, set_gpu (close_window g) s).

(** A command that does not come back to the prompt ends here. *)
Definition gui_dispatch_command (w : window) s : option (next * window * shell) :=
  let s := set_gpu (resume_window w (sh_gpu s)) s in
  r ← shell_dispatch_line font E fs_of (l_buf (w_line w)) (shell_set_gui_context 1 s);
  match r with
  | (Prompt, s) =>
      let s := shell_set_gui_context 0 s in
      g ← shell_print_prompt font (sh_gpu s);
      let '(row, col) := gpu_get_cursor g in
      buf ← put (l_buf (w_line w)) 0 0;
      Some (Prompt, set_console (w_term w) row col (Line buf 0 0) w, set_gpu (close_window g) s)
  | (n, s) => Some (n, w, s)
  end.

Definition win_terminal_feed (w : window) (c : Z) s : option (next * window * shell) :=
  let '(Line buf pos cpos) := w_line w in
  let edit l := r ← gui_terminal_redraw_line (set_wline l w) s; Some (Prompt, fst r, snd r) in
  let stay := Some (Prompt, w, s) in
  if c =? 10 then
    r ← term_ctx_putc font 13 (w_term w, resume_window w (sh_gpu s));
    r ← term_ctx_putc font 10 r;
    let '(x, g) := (r : term_ctx * gpu) in
    let '(row, col) := gpu_get_cursor g in
    gui_dispatch_command (set_console x row col (w_line w) w) (set_gpu (close_window g) s)
  else if c =? 8 then
    if 0 <? cpos then l ← shell_backspace_char (w_line w); edit l else stay
  else if c =? KEY_DEL then l ← shell_delete_char (w_line w); edit l
  else if c =? 9 then stay
  else if c =? KEY_LEFT then if 0 <? cpos then edit (Line buf pos (cpos - 1)) else stay
  else if c =? KEY_RIGHT then if cpos <? pos then edit (Line buf pos (cpos + 1)) else stay
  else if c =? KEY_HOME then edit (Line buf pos 0)
  else if c =? KEY_END then edit (Line buf pos pos)
  else if (32 <=? c) && (c <? 127) && (pos <? SHELL_LINE_MAX - 1) then
    l ← shell_insert_char c SHELL_LINE_MAX (w_line w); edit l
  else stay.

(** ** Pictures of the desktop *)

Definition draw_window_chrome (w : window) (focused : bool) : gpu -> option gpu :=
  let ow := win_total_w w in
  let oh := win_total_h w in
  let title_bg := if focused then CLR_TITLE_ACTIVE else CLR_TITLE_INACT in
  let title_fg := if focused then CLR_TITLE_TEXT else CLR_TITLE_TEXT_I in
  run [draw_flat_border (u16 (w_x w)) (u16 (w_y w)) (u16 ow) (u16 oh) (if focused then CLR_BORDER_FOCUS else CLR_BORDER);
       gpu_fill_rect (u16 (w_x w + 1)) (u16 (w_y w + 1)) (u16 (ow - 2)) (TITLEBAR_H - 1) title_bg;
       gpu_draw_text font (u16 (w_x w + 6)) (u16 (w_y w + 5)) (w_title w) title_fg title_bg;
       draw_close_button (u16 (w_x w + ow - 18)) (u16 (w_y w + 4));
       draw_min_button (u16 (w_x w + ow - 34)) (u16 (w_y w + 4));
       gpu_fill_rect (u16 (w_x w + 1)) (u16 (w_y w + TITLEBAR_H)) (u16 (ow - 2)) (u16 (w_ch w)) CLR_WINDOWBG].

(** The contents of a window go to its place on the screen. *)
Definition blit_window (w : window) (g : gpu) : option gpu :=
  l ← bufs g !! w_buf w;
  gpu_blit_buffer (words_of (w_cw w * w_ch w) l) (u16 (w_cw w)) (u16 (w_ch w)) (u16 (win_client_x w)) (u16 (win_client_y w)) g.

Definition compose_windows (d : desk) (g : gpu) : option gpu :=
  loopM (Z.to_nat (g_win_count d)) 0 (fun z g =>
    r ← win_at d z;
    let w := snd r in
    if istrue (w_used w)
    then g ← draw_window_chrome w (z =? g_win_count d - 1) g; blit_window w g
    else Some g) g.

Definition draw_desktop_icon (x y : Z) (label : list Z) (color : Z) : gpu -> option gpu :=
  let lbl_x := x + 20 - zlen label * 4 in
  let lbl_x := if lbl_x <? x then x else lbl_x in
  run [gpu_fill_rect x y 40 40 CLR_ICON_BG; draw_flat_border x y 40 40 CLR_ICON_BORDER;
       gpu_fill_rect (u16 (x + 6)) (u16 (y + 4)) 28 22 color;
       gpu_draw_text font (u16 lbl_x) (u16 (y + 44)) label 0xFFFFFF CLR_DESKTOP].
Definition draw_desktop_icons : gpu -> option gpu :=
  run [draw_desktop_icon 20 20 (txt "Terminal") 0x000000; draw_desktop_icon 90 20 (txt "File Manager") 0x808000;
       draw_desktop_icon 160 20 (txt "About") 0x008000; draw_desktop_icon 230 20 (txt "Network") 0x000080;
       draw_desktop_icon 300 20 (txt "System") 0x800080; draw_desktop_icon 20 90 (txt "Run...") 0x808080;
       draw_desktop_icon 90 90 (txt "Help") 0x008080; draw_desktop_icon 160 90 (txt "Console") 0x444444;
       draw_desktop_icon 230 90 (txt "Settings") 0x804000; draw_desktop_icon 300 90 (txt "Shutdown") 0xAA0000].

(** The digits of the clock, hh:mm. *)
Definition read_time (cmos : Z -> Z) : list Z :=
  let minute := cmos 0x02 in
  let hour := cmos 0x04 in
  let bcd := negb (istrue (Z.land (cmos 0x0B) 0x04)) in
  let minute := if bcd then bcd_to_bin minute else minute in
  let hour := if bcd then bcd_to_bin (Z.land hour 0x7F) else hour in
  [48 + hour / 10 mod 10; 48 + hour mod 10; 58; 48 + minute / 10 mod 10; 48 + minute mod 10].

(** One button per window, from the left, as long as there is room. *)
Fixpoint task_buttons (n : nat) (z bx w tb_y : Z) (d : desk) (g : gpu) : option gpu :=
  match n with
  | O => Some g
  | S n =>
      if (z <? g_win_count d) && (bx <? w - 80) then
        r ← win_at d z;
        let win := snd r in
        if negb (istrue (w_used win)) then task_buttons n (z + 1) bx w tb_y d g
        else
          let bw := TASKBAR_BTN_W in
          let focused := z =? g_win_count d - 1 in
          let btn_bg := if focused then CLR_TASKBTN_ACT else CLR_TASKBTN in
          let btn_fg := if focused then 0xFFFFFF else 0x444444 in
          g ← run [gpu_fill_rect (u16 bx) (u16 (tb_y + 3)) (u16 bw) 20 btn_bg;
                   draw_flat_border (u16 bx) (u16 (tb_y + 3)) (u16 bw) 20 (if focused then 0x000066 else 0x888888);
                   gpu_draw_text font (u16 (bx + 5)) (u16 (tb_y + 7)) (take (Z.to_nat ((bw - 10) / 8)) (w_title win)) btn_fg btn_bg] g;
          task_buttons n (z + 1) (bx + bw + 2) w tb_y d g
      else Some g
  end.

Definition draw_taskbar (w h : Z) (time : list Z) (d : desk) (g : gpu) : option gpu :=
  let tb_y := h - TASKBAR_H in
  let clock_x := w - 60 - 4 in
  let clock_y := tb_y + 3 in
  g ← run [gpu_fill_rect 0 (u16 tb_y) w TASKBAR_H CLR_TASKBAR; gpu_fill_rect 0 (u16 tb_y) w 1 CLR_TASKBAR_TOP;
           gpu_fill_rect 2 (u16 (tb_y + 3)) 50 20 CLR_MENUBTN; draw_flat_border 2 (u16 (tb_y + 3)) 50 20 0x000066;
           gpu_draw_text font (u16 (2 + 8)) (u16 (tb_y + 3 + 5)) (txt "Menu") 0xFFFFFF CLR_MENUBTN;
           gpu_fill_rect 54 (u16 (tb_y + 3)) 1 20 CLR_TASKBAR_TOP] g;
  g ← task_buttons (Z.to_nat (g_win_count d)) 0 58 w tb_y d g;
  run [gpu_fill_rect (u16 clock_x) (u16 clock_y) 60 20 CLR_TASKBAR; draw_flat_border (u16 clock_x) (u16 clock_y) 60 20 0x888888;
       gpu_draw_text font (u16 (clock_x + 8)) (u16 (clock_y + 5)) time 0x444444 CLR_TASKBAR] g.

Definition MENU_ITEMS : list (list Z) :=
  [txt "Terminal"; txt "File Manager"; txt "About"; txt "Help"; txt "Run..."; txt "-------"; txt "Shut Down"].
Fixpoint menu_items (items : list (list Z)) (iy : Z) (g : gpu) : option gpu :=
  match items with
  | [] => Some g
  | t :: items =>
      if hd 0 t =? 45 then g ← gpu_fill_rect (u16 (2 + 4)) (u16 (iy + 2)) (u16 (180 - 8)) 1 0x888888 g; menu_items items (iy + 6) g
      else
        g ← run [gpu_fill_rect (u16 (2 + 2)) (u16 iy) (u16 (180 - 4)) 24 CLR_MENU_BG;
                 gpu_draw_text font (u16 (2 + 12)) (u16 (iy + 6)) t 0x000000 CLR_MENU_BG] g;
        menu_items items (iy + 24) g
  end.
Definition draw_menu_panel (screen_h : Z) (g : gpu) : option gpu :=
  let my := screen_h - TASKBAR_H - 200 in
  g ← run [gpu_fill_rect 2 (u16 my) 180 198 CLR_MENU_BG; draw_flat_border 2 (u16 my) 180 198 0x888888;
           gpu_fill_rect (u16 (2 + 1)) (u16 (my + 1)) (u16 (180 - 2)) 20 0x0000AA;
           gpu_draw_text font (u16 (2 + 8)) (u16 (my + 5)) (txt "EponaOS") 0xFFFFFF 0x0000AA] g;
  menu_items MENU_ITEMS (my + 24) g.

Definition draw_desktop (w h : Z) (time : list Z) (d : desk) (g : gpu) : option gpu :=
  g ← run [gpu_fill_rect 0 0 w h CLR_DESKTOP; draw_desktop_icons] g; draw_taskbar w h time d g.
End gui.

(** ** The arrow *)

Record arrow := Arrow { g_cursor_bg : option (list Z); g_cursor_saved : Z; g_cursor_x : Z; g_cursor_y : Z }.
Record gui_pointer := Ptr { p_x : Z; p_y : Z; p_buttons : Z }.

Definition cursor_w : Z := 12.
Definition cursor_h : Z := 16.

Definition read_pointer (w h : Z) (m : mouse) : gui_pointer :=
  let '(mx, my, buttons) := mouse_get_state m in
  let x := w / 2 + mx in
  let y := h / 2 - my in
  let x := if x <? 0 then 0 else x in
  let y := if y <? 0 then 0 else y in
  let x := if w - cursor_w <? x then w - cursor_w else x in
  let y := if h - cursor_h <? y then h - cursor_h else y in
  Ptr x y buttons.

(** [None] in g_cursor_bg is the null pointer, through which nothing can be stored. *)
Definition cursor_init (a : arrow) (h : heap) : option (arrow * heap) :=
  match g_cursor_bg a with
  | Some _ => Some (a, h)
  | None =>
      r ← kmalloc (u32 (cursor_w * cursor_h * 4)) h;
      let '(p, h) := r in
      Some (if istrue p then Arrow (Some (replicate (Z.to_nat (cursor_w * cursor_h)) 0)) (g_cursor_saved a) (g_cursor_x a) (g_cursor_y a) else a, h)
  end.

Definition save_cursor_bg (x y : Z) (a : arrow) (g : gpu) : option arrow :=
  bg ← g_cursor_bg a;
  bg ← gpu_save_region (u16 x) (u16 y) (u16 cursor_w) (u16 cursor_h) bg g;
  Some (Arrow (Some bg) 1 x y).

Definition restore_cursor_bg (a : arrow) (g : gpu) : option (arrow * gpu) :=
  if negb (istrue (g_cursor_saved a)) then Some (a, g)
  else
    bg ← g_cursor_bg a;
    g ← gpu_restore_region bg (u16 (g_cursor_x a)) (u16 (g_cursor_y a)) (u16 cursor_w) (u16 cursor_h) g;
    Some (Arrow (Some bg) 0 (g_cursor_x a) (g_cursor_y a), g).

Definition CURSOR_ROWS : list (list Z) :=
  [txt "X..........."; txt "XX.........."; txt "XXX........."; txt "XXXX........"; txt "XXXXX......."; txt "XXXXXX......";
   txt "XXXXXXX....."; txt "XXXXXXXX...."; txt "XXXXXXXXX..."; txt "XX..XXXXX..."; txt "X...XXXX...."; txt "....XXXX....";
   txt "...XXX......"; txt "...XXX......"; txt "..XX........"; txt "..XX........"].
Definition draw_cursor_bitmap (bx by_ : Z) (g : gpu) : option gpu :=
  loopM 16 0 (fun yy g =>
    row ← zlook CURSOR_ROWS yy;
    loopM 12 0 (fun xx g =>
      c ← zlook row xx;
      if c =? 88 then gpu_put_pixel (u16 (bx + xx)) (u16 (by_ + yy)) 0x000000 g else Some g) g) g.

(** ** The order of the windows, from the bottom *)

Definition order (d : desk) : list Z := take (Z.to_nat (g_win_count d)) (g_zorder d).

Record desk_ok (d : desk) : Prop := {
  dk_wins : zlen (g_win d) = MAX_WINDOWS;
  dk_zs : zlen (g_zorder d) = MAX_WINDOWS;
  dk_count : 0 <= g_win_count d <= MAX_WINDOWS;
  dk_nodup : NoDup (order d);
  dk_used : forall i, i ∈ order d <-> exists w, zlook (g_win d) i = Some w /\ w_used w <> 0 }.

(** The places of the window that has the keyboard and of the one that is dragged. *)
Definition aims_ok (d : desk) : Prop := -1 <= g_focus_zpos d < g_win_count d /\ -1 <= g_drag_zpos d < g_win_count d.

Lemma order_len d : desk_ok d -> zlen (order d) = g_win_count d.
Proof. intros H. unfold order. pose proof (dk_count d H). apply zlen_take. rewrite (dk_zs d H). lia. Qed.

Lemma order_split d : desk_ok d -> exists rest, g_zorder d = order d ++ rest.
Proof. intros H. exists (drop (Z.to_nat (g_win_count d)) (g_zorder d)). symmetry. apply take_drop. Qed.

Lemma order_look d z : desk_ok d -> 0 <= z < g_win_count d -> zlook (order d) z = zlook (g_zorder d) z.
Proof.
  intros H Hz. destruct (order_split d H) as [rest ->]. rewrite zlook_app_l; [done |]. rewrite order_len by done. lia.
Qed.

Lemma order_set zs n d : order (set_order zs n d) = take (Z.to_nat n) zs.
Proof. done. Qed.

(** Every place of the order has a window in use. *)
Lemma win_at_ok d z : desk_ok d -> 0 <= z < g_win_count d ->
  exists i w, win_at d z = Some (i, w) /\ zlook (order d) z = Some i /\ zlook (g_win d) i = Some w /\ w_used w <> 0.
Proof.
  intros H Hz. destruct (zlook_in_range (order d) z) as [i Hi]; [rewrite order_len by done; lia |].
  assert (i ∈ order d) as (w & Hw & Hu)%dk_used.
  { rewrite zlook_nonneg in Hi by lia. by apply list_elem_of_lookup_2 in Hi. }
  - exists i, w. unfold win_at. rewrite <- order_look, Hi by done. cbn [mbind option_bind]. by rewrite Hw.
  - done.
Qed.

Lemma order_at d z i : desk_ok d -> zlook (order d) z = Some i ->
  exists a b rest, order d = a ++ i :: b /\ zlen a = z /\ g_zorder d = a ++ i :: b ++ rest.
Proof.
  intros H Hz. pose proof (zlook_Some_range _ _ _ Hz) as Hr. destruct (order_split d H) as [rest E].
  rewrite zlook_nonneg in Hz by lia. destruct (list_elem_of_split_length _ _ _ Hz) as (a & b & Eo & Ea).
  exists a, b, rest. split; [done |]. split; [unfold zlen; lia |]. by rewrite E, Eo, <- app_assoc.
Qed.

Lemma shift_order_spec b : forall a x rest,
  exists y, shift_order (zlen a) (zlen a + 1 + zlen b) (a ++ x :: b ++ rest) = Some (a ++ b ++ y :: rest).
Proof.
  unfold shift_order. induction b as [| c b IH]; intros a x rest.
  { exists x. change (zlen []) with 0. replace (Z.to_nat (zlen a + 1 + 0 - 1 - zlen a)) with O by lia. done. }
  rewrite zlen_cons. pose proof (zlen_nonneg a). pose proof (zlen_nonneg b).
  replace (Z.to_nat (zlen a + 1 + (zlen b + 1) - 1 - zlen a)) with (S (Z.to_nat (zlen (a ++ [c]) + 1 + zlen b - 1 - zlen (a ++ [c])))) by lia.
  cbn [loopM app]. assert (zlook (a ++ x :: c :: b ++ rest) (zlen a + 1) = Some c) as ->.
  { rewrite zlook_app_r by lia. by replace (zlen a + 1 - zlen a) with 1 by lia. }
  cbn [mbind option_bind]. rewrite put_cell_back by done. cbn [mbind option_bind].
  destruct (IH (a ++ [c]) c rest) as [y E]. exists y. rewrite <- app_assoc in E. cbn [app] in E.
  replace (zlen a + 1) with (zlen (a ++ [c])) by (rewrite zlen_app; done). rewrite E. by rewrite <- app_assoc.
Qed.

Lemma win_raise_correct z d : desk_ok d -> 0 <= z < g_win_count d ->
  exists d' a i b, win_raise z d = Some d' /\ order d = a ++ i :: b /\ zlen a = z /\ order d' = a ++ b ++ [i] /\
    g_win_count d' = g_win_count d /\ d' = set_order (g_zorder d') (g_win_count d) d /\ zlen (g_zorder d') = MAX_WINDOWS.
Proof.
  intros H Hz. destruct (win_at_ok d z H Hz) as (i & w & _ & Hi & _). destruct (order_at d z i H Hi) as (a & b & rest & Eo & Ea & Ez).
  pose proof (order_len d H) as Hl. rewrite Eo, zlen_app, zlen_cons in Hl. pose proof (dk_zs d H) as Hzs.
  unfold win_raise. destruct (Z.eqb_spec z (g_win_count d - 1)) as [E1 | E1].
  { exists d, a, i, b. assert (b = []) as -> by (destruct b; [done | rewrite zlen_cons in Hl; pose proof (zlen_nonneg b); lia]). split; [done |]. split; [done |]. split; [done |]. split; [by rewrite Eo |].
    split; [done |]. split; [by destruct d | done]. }
  rewrite Ez. pose proof (zlen_nonneg b). replace (g_win_count d) with (zlen a + 1 + zlen b) by lia.
  assert (zlook (a ++ i :: b ++ rest) z = Some i) as -> by (by apply zlook_middle).
  cbn [mbind option_bind]. destruct (shift_order_spec b a i rest) as [y Es]. rewrite <- Ea, Es. cbn [mbind option_bind].
  rewrite app_assoc, put_cell_back by (rewrite zlen_app; lia). cbn [mbind option_bind].
  eexists _, a, i, b. split; [reflexivity |]. split; [done |]. split; [done |]. split; [| split; [done | split; [done |]]].
  - rewrite order_set, (app_assoc a b [i]). change (i :: rest) with ([i] ++ rest). rewrite (app_assoc (a ++ b)). apply take_app_length'.
    rewrite !length_app. cbn. unfold zlen in *. lia.
  - cbn [set_order g_zorder]. rewrite Ez in Hzs. repeat rewrite ?zlen_app, ?zlen_cons in Hzs. repeat rewrite ?zlen_app, ?zlen_cons. lia.
Qed.

Lemma desk_reorder zs d : desk_ok d -> zlen zs = MAX_WINDOWS -> take (Z.to_nat (g_win_count d)) zs ≡ₚ order d ->
  desk_ok (set_order zs (g_win_count d) d).
Proof.
  intros [H1 H2 H3 H4 H5] Hz Hp. split; try done; rewrite order_set.
  - by rewrite Hp.
  - intros i. rewrite Hp. apply H5.
Qed.

Lemma desk_window i w w' d : desk_ok d -> zlook (g_win d) i = Some w -> w_used w' = w_used w ->
  desk_ok (set_windows ((g_win d).[i <- w']) d).
Proof.
  intros [H1 H2 H3 H4 H5] Hi Hu. pose proof (zlook_Some_range _ _ _ Hi) as Hr. split; try done; cbn [set_windows g_win].
  - by rewrite zset_zlen.
  - intros j. change (order _) with (order d). rewrite H5. rewrite zlook_zset by done. destruct (Z.eqb_spec i j) as [<- |]; [| done].
    rewrite Hi. split; intros (v & [= <-] & Hv); eexists; (split; [done | congruence]).
Qed.

Lemma desk_focus z d : desk_ok d -> desk_ok (set_focus z d).
Proof. intros []. by split. Qed.
Lemma desk_drag z dx dy d : desk_ok d -> desk_ok (set_drag z dx dy d).
Proof. intros []. by split. Qed.
Lemma desk_menu m d : desk_ok d -> desk_ok (set_menu m d).
Proof. intros []. by split. Qed.

(** Also: a window that is raised comes to the top, the others keep their order, and the order
    still names every window that is open once. *)
Theorem win_raise_spec (z : Z) (d : desk) (H : desk_ok d) (Hz : 0 <= z < g_win_count d) :
  exists d' a i b, win_raise z d = Some d' /\ order d = a ++ i :: b /\ zlen a = z /\ order d' = a ++ b ++ [i] /\
    g_win d' = g_win d /\ desk_ok d'.
Proof.
  destruct (win_raise_correct z d H Hz) as (d' & a & i & b & E & Eo & Ea & Eo' & En & Ed & Hl).
  exists d', a, i, b. rewrite Ed. do 3 (split; [congruence |]). split; [by rewrite <- Ed |]. split; [done |].
  apply desk_reorder; [done | done |]. replace (take _ (g_zorder d')) with (order d') by (unfold order; by rewrite En).
  rewrite Eo', Eo. apply Permutation_app_head. symmetry. apply Permutation_cons_append.
Qed.

(** ** The window under a point *)

Definition covers (d : desk) (px py z : Z) : Prop :=
  exists i w, win_at d z = Some (i, w) /\ point_in px py (w_x w) (w_y w) (win_total_w w) (win_total_h w) = true.

Lemma win_hit_test_correct (px py : Z) (d : desk) (H : desk_ok d) :
  exists z, win_hit_test px py d = Some z /\
    ((z = -1 /\ forall y, 0 <= y < g_win_count d -> ~ covers d px py y) \/
     (0 <= z < g_win_count d /\ covers d px py z /\ forall y, z < y < g_win_count d -> ~ covers d px py y)).
Proof.
  unfold win_hit_test. pose proof (dk_count d H) as Hc.
  assert (forall k, Z.of_nat k <= g_win_count d -> exists z, hit_from k px py d = Some z /\
    ((z = -1 /\ forall y, 0 <= y < Z.of_nat k -> ~ covers d px py y) \/
     (0 <= z < Z.of_nat k /\ covers d px py z /\ forall y, z < y < Z.of_nat k -> ~ covers d px py y))) as Hh.
  { induction k as [| k IH]; intros Hk; cbn [hit_from]; [exists (-1); split; [done |]; left; split; [done | intros; lia] |].
    destruct (win_at_ok d (Z.of_nat k) H) as (i & w & Ew & _ & _ & Hu); [lia |]. rewrite Ew. cbn [mbind option_bind snd].
    rewrite (istrue_neq _ Hu). cbn [andb]. destruct (point_in _ _ _ _ _ _) eqn:Ep.
    - exists (Z.of_nat k). split; [done |]. right. split; [lia |]. split; [by exists i, w | intros; lia].
    - destruct IH as (z & -> & Hz); [lia |]. exists z. split; [done |].
      assert (~ covers d px py (Z.of_nat k)) as Hn by (intros (i' & w' & E' & Hp'); congruence).
      assert (forall y, Z.of_nat k = y -> ~ covers d px py y) as Hn' by (by intros y <-).
      destruct Hz as [[-> Hz] | (Hz & Hcz & Ha)]; [left | right].
      + split; [done |]. intros y Hy. destruct (Z.eq_dec (Z.of_nat k) y); [by apply Hn' | apply Hz; lia].
      + split; [lia |]. split; [done |]. intros y Hy. destruct (Z.eq_dec (Z.of_nat k) y); [by apply Hn' | apply Ha; lia]. }
  destruct (Hh (Z.to_nat (g_win_count d))) as (z & E & Hz); [lia |]. exists z. split; [done |].
  rewrite !Z2Nat.id in Hz by lia. exact Hz.
Qed.

(** Also: the window that is clicked is the topmost one whose frame has the point, and -1 when
    none has it. *)
Theorem win_hit_test_spec (px py : Z) (d : desk) (H : desk_ok d) :
  exists z, win_hit_test px py d = Some z /\
    ((z = -1 /\ forall y, 0 <= y < g_win_count d -> ~ covers d px py y) \/
     (0 <= z < g_win_count d /\ covers d px py z /\ forall y, z < y < g_win_count d -> ~ covers d px py y)).
Proof. exact (win_hit_test_correct px py d H). Qed.

(** ** Opening and closing *)

Lemma find_slot_spec ws : forall i,
  match find_slot i ws with
  | Some k => i <= k < i + zlen ws /\ exists w, zlook ws (k - i) = Some w /\ w_used w = 0
  | None => forall k w, zlook ws k = Some w -> w_used w <> 0
  end.
Proof.
  induction ws as [| w ws IH]; intros i; cbn [find_slot]; [intros k w Hw; apply zlook_Some_range in Hw; change (@zlen window []) with 0 in Hw; lia |].
  pose proof (zlen_nonneg ws) as Hn. unfold istrue. destruct (Z.eqb_spec (w_used w) 0) as [E | E]; cbn [negb].
  - rewrite zlen_cons. split; [lia |]. exists w. split; [by rewrite Z.sub_diag | done].
  - specialize (IH (i + 1)). destruct (find_slot (i + 1) ws) as [k |].
    + destruct IH as (Hk & v & Hv & Hu). rewrite zlen_cons. split; [lia |]. exists v. split; [| done].
      rewrite zlook_cons by lia. replace (k - i - 1) with (k - (i + 1)) by lia. done.
    + intros k v Hv. destruct (Z.eq_dec k 0) as [-> | Hk]; [by injection Hv as <- |].
      pose proof (zlook_Some_range _ _ _ Hv). rewrite zlook_cons in Hv by lia. by eapply IH.
Qed.

Lemma in_range_8 i : 0 <= i < MAX_WINDOWS <-> In i (map Z.of_nat (seq 0 8)).
Proof.
  rewrite in_map_iff. unfold MAX_WINDOWS. split.
  - intros Hi. exists (Z.to_nat i). rewrite in_seq. lia.
  - intros (k & <- & Hk%in_seq). lia.
Qed.

Lemma order_range d i : desk_ok d -> i ∈ order d -> 0 <= i < MAX_WINDOWS.
Proof. intros H (w & Hw & _)%dk_used; [| done]. apply zlook_Some_range in Hw. by rewrite (dk_wins d H) in Hw. Qed.

(** There is a slot exactly when there are fewer than eight windows. *)
Lemma slot_spec d : desk_ok d ->
  match find_slot 0 (g_win d) with
  | Some k => 0 <= k < MAX_WINDOWS /\ ~ (k ∈ order d) /\ g_win_count d < MAX_WINDOWS /\ exists w, zlook (g_win d) k = Some w /\ w_used w = 0
  | None => g_win_count d = MAX_WINDOWS
  end.
Proof.
  intros H. pose proof (order_len d H) as Hl. pose proof (dk_count d H) as Hc. pose proof (find_slot_spec (g_win d) 0) as Hf.
  destruct (find_slot 0 (g_win d)) as [k |].
  - destruct Hf as (Hk & w & Hw & Hu). rewrite Z.sub_0_r in Hw. rewrite (dk_wins d H) in Hk.
    assert (k ∉ order d) as Hn by (intros (v & Hv & Hv')%dk_used; [congruence | done]).
    split; [lia |]. split; [done |]. split; [| by exists w].
    assert (length (k :: order d) <= length (map Z.of_nat (seq 0 8)))%nat as Hle.
    { apply NoDup_incl_length; [apply NoDup_ListNoDup; constructor; [done | apply (dk_nodup d H)] |].
      intros j [<- | Hj]; apply in_range_8; [lia |]. apply (order_range d); [done |]. by apply list_elem_of_In. }
    rewrite length_map, length_seq in Hle. cbn [length] in Hle. unfold zlen, MAX_WINDOWS in *. lia.
  - assert (length (map Z.of_nat (seq 0 8)) <= length (order d))%nat as Hle.
    { apply NoDup_incl_length; [by repeat (constructor; [cbn; lia |]); constructor |].
      intros j Hj%in_range_8. apply list_elem_of_In. apply (dk_used d H).
      destruct (zlook_in_range (g_win d) j) as [w Hw]; [by rewrite (dk_wins d H) |]. exists w. split; [done | by eapply Hf]. }
    rewrite length_map, length_seq in Hle. unfold zlen, MAX_WINDOWS in *. lia.
Qed.

Section memory.
Context {D : Type}.
Implicit Types s : shell (D := D).

(** What is in the slot of a window that is made, without the block of its contents. *)
Definition new_window (kind : win_kind) (title : list Z) (x y cw ch a : Z) (w : window) (buf : list Z) : window :=
  Win 1 x y cw ch (take 31 title) kind a (w_term w) (w_row w) (w_col w) (Line buf 0 0).

Lemma win_create_correct kind title x y cw ch a h s d : desk_ok d -> g_win_count d < MAX_WINDOWS ->
  (forall i w, zlook (g_win d) i = Some w -> zlen (l_buf (w_line w)) = SHELL_LINE_MAX) ->
  kmalloc (u32 (cw * ch * 4)) (v_heap (sh_vfs s)) = Some (a, h) -> a <> 0 ->
  exists i w buf d', win_create kind title x y cw ch (s, d) =
      Some (i, (set_gpu (set_bufs (<[a := replicate (Z.to_nat (u32 (cw * ch * 4))) 0]> (bufs (sh_gpu s))) (sh_gpu s)) (set_heap h s), d')) /\
    zlook (g_win d) i = Some w /\ w_used w = 0 /\ put (l_buf (w_line w)) 0 0 = Some buf /\
    g_win d' = (g_win d).[i <- new_window kind title x y cw ch a w buf] /\
    order d' = order d ++ [i] /\ g_win_count d' = g_win_count d + 1 /\ desk_ok d' /\
    g_focus_zpos d' = g_focus_zpos d /\ g_drag_zpos d' = g_drag_zpos d.
Proof.
  intros H Hroom Hb Hk Ha. pose proof (slot_spec d H) as Hs. unfold win_create. destruct (find_slot 0 (g_win d)) as [i |]; [| lia].
  destruct Hs as (Hi & Hn & _ & w & Hw & Hu). rewrite Hw. cbn [mbind option_bind]. rewrite Hk. cbn [mbind option_bind].
  rewrite (istrue_neq a Ha). pose proof (Hb i w Hw) as Hlen. pose proof (dk_count d H) as Hc.
  destruct (put (l_buf (w_line w)) 0 0) as [buf |] eqn:Ep; [| rewrite put_in in Ep by (rewrite Hlen; done); done].
  cbn [mbind option_bind]. rewrite put_in by (rewrite (dk_zs d H); lia). cbn [mbind option_bind].
  eexists i, w, buf, _. split; [reflexivity |]. do 4 (split; [done |]).
  set (d' := set_order _ _ _). assert (order d' = order d ++ [i]) as Eo.
  { unfold d'. rewrite order_set. destruct (order_split d H) as [rest E]. pose proof (order_len d H) as Hl. pose proof (dk_zs d H) as Hz.
    rewrite E in Hz |- *. rewrite zlen_app in Hz. destruct rest as [| r rest]; [change (@zlen Z []) with 0 in Hz; lia |].
    rewrite <- Hl at 2. rewrite zset_middle by done. change (i :: rest) with ([i] ++ rest). rewrite app_assoc.
    apply take_app_length'. rewrite length_app. cbn. unfold zlen in *. lia. }
  split; [done |]. split; [done |]. split; [| done]. split.
  - cbn. by rewrite zset_zlen, (dk_wins d H).
  - cbn. by rewrite zset_zlen, (dk_zs d H).
  - cbn. lia.
  - rewrite Eo. apply NoDup_app. split; [apply (dk_nodup d H) |]. split; [| apply NoDup_singleton].
    intros j Hj ->%list_elem_of_singleton. done.
  - intros j. rewrite Eo, elem_of_app, list_elem_of_singleton, (dk_used d H). cbn [d' set_order set_windows g_win].
    rewrite zlook_zset by (by rewrite (dk_wins d H)). destruct (Z.eqb_spec i j) as [<- | Hj].
    + split; [intros _; eexists; split; [done | cbn; lia] | by right].
    + split; [intros [? | ->]; done | by left].
Qed.

Lemma win_close_correct z s d : desk_ok d -> 0 <= z < g_win_count d ->
  exists a i b w d', order d = a ++ i :: b /\ zlen a = z /\ zlook (g_win d) i = Some w /\ w_used w <> 0 /\
    win_close z (s, d) =
      Some (if istrue (w_buf w)
            then set_gpu (set_bufs (delete (w_buf w) (bufs (sh_gpu s))) (sh_gpu s)) (set_heap (kfree (w_buf w) (v_heap (sh_vfs s))) s)
            else s, d') /\
    g_win d' = (g_win d).[i <- set_used 0 w] /\ order d' = a ++ b /\ g_win_count d' = g_win_count d - 1 /\
    desk_ok d' /\ g_focus_zpos d' = g_focus_zpos d /\ g_drag_zpos d' = g_drag_zpos d.
Proof.
  intros H Hz. destruct (win_at_ok d z H Hz) as (i & w & Ew & Hi & Hw & Hu). destruct (order_at d z i H Hi) as (a & b & rest & Eo & Ea & Ez).
  pose proof (order_len d H) as Hl. rewrite Eo, zlen_app, zlen_cons in Hl. pose proof (dk_zs d H) as Hzs. pose proof (dk_count d H) as Hc.
  unfold win_close. rewrite Ew. cbn [mbind option_bind]. rewrite Ez. destruct (shift_order_spec b a i rest) as [y Es].
  replace (zlen a + 1 + zlen b) with (g_win_count d) in Es by lia. rewrite Ea in Es. rewrite Es. cbn [mbind option_bind].
  eexists a, i, b, w, _. split; [done |]. split; [done |]. split; [done |]. split; [done |]. split; [reflexivity |]. split; [done |].
  set (d' := set_order _ _ _). assert (order d' = a ++ b) as Eo'.
  { unfold d'. rewrite order_set, app_assoc. apply take_app_length'. rewrite length_app. unfold zlen in *. lia. }
  split; [done |]. split; [done |]. split; [| done].
  assert (NoDup (a ++ i :: b)) as Hnd by (rewrite <- Eo; apply (dk_nodup d H)).
  assert (~ (i ∈ a ++ b)) as Hni.
  { apply NoDup_app in Hnd as (_ & Hab & Hib%NoDup_cons). rewrite elem_of_app. intros [Hia | Hib']; [| by apply Hib].
    apply (Hab i Hia). apply list_elem_of_here. }
  split.
  - cbn. by rewrite zset_zlen, (dk_wins d H).
  - cbn. rewrite Ez in Hzs. repeat rewrite ?zlen_app, ?zlen_cons in Hzs. repeat rewrite ?zlen_app, ?zlen_cons. lia.
  - cbn. lia.
  - rewrite Eo'. apply NoDup_app in Hnd as (Na & Hab & Nb). apply NoDup_app.
    split; [done |]. split; [| by apply NoDup_cons in Nb as [_ ?]]. intros j Hj Hjb. apply (Hab j Hj). by apply list_elem_of_further.
  - intros j. rewrite Eo'. cbn [set_windows g_win d' set_order].
    pose proof (dk_used d H j) as Hj. rewrite Eo in Hj. rewrite zlook_zset by (rewrite (dk_wins d H); apply (order_range d); [done |]; rewrite Eo; apply elem_of_app; right; apply list_elem_of_here).
    destruct (Z.eqb_spec i j) as [<- | Hne].
    + split; [done |]. intros (v & [= <-] & Hv). by cbn in Hv.
    + rewrite <- Hj, !elem_of_app, elem_of_cons. assert (j <> i) by congruence. tauto.
Qed.
End memory.

(** ** Witnesses: two windows, one over the other *)

Definition line_ex : line := Line (replicate 256 0) 0 0.
Definition win_ex (used x y buf : Z) : window :=
  Win used x y 16 16 [65] WIN_TERMINAL buf (Ctx TS_GROUND (replicate 16 0) 0 0 7 0 0 0) 0 0 line_ex.
Definition desk_ex : desk :=
  Desk (win_ex 1 10 10 1000 :: win_ex 1 20 20 2000 :: replicate 6 (win_ex 0 0 0 0)) [1; 0; 0; 0; 0; 0; 0; 0] 2 (-1) 0 0 (-1) 0.

Lemma desk_ex_window i w : zlook (g_win desk_ex) i = Some w ->
  i = 0 /\ w = win_ex 1 10 10 1000 \/ i = 1 /\ w = win_ex 1 20 20 2000 \/ 2 <= i < 8 /\ w = win_ex 0 0 0 0.
Proof.
  intros H. pose proof (zlook_Some_range _ _ _ H) as Hr. change (zlen (g_win desk_ex)) with 8 in Hr.
  assert (i = 0 \/ i = 1 \/ i = 2 \/ i = 3 \/ i = 4 \/ i = 5 \/ i = 6 \/ i = 7) as Hi by lia.
  repeat destruct Hi as [-> | Hi]; [left | right; left | right; right ..]; try subst i; (split; [done || lia |]); by injection H.
Qed.

Lemma desk_ex_ok : desk_ok desk_ex.
Proof.
  split; [done | done | done | by apply (bool_decide_unpack _) |]. change (order desk_ex) with [1; 0]. intros i. split.
  - intros [-> | [-> | []%elem_of_nil]%elem_of_cons]%elem_of_cons; by eexists.
  - intros (w & [[-> ->] | [[-> ->] | [_ ->]]]%desk_ex_window & Hu); [right; left | left |]; done.
Qed.

Lemma win_raise_spec_witness : exists d', win_raise 0 desk_ex = Some d' /\ order d' = [0; 1].
Proof.
  destruct (win_raise_spec 0 desk_ex desk_ex_ok ltac:(done)) as (d' & a & i & b & E & Eo & Ea & Eo' & _). exists d'. split; [exact E |].
  destruct a; [| rewrite zlen_cons in Ea; pose proof (zlen_nonneg a); lia]. injection Eo as <- <-. exact Eo'.
Defined.

Lemma win_hit_test_spec_witness : exists z, win_hit_test 22 22 desk_ex = Some z /\ z = 1.
Proof.
  destruct (win_hit_test_spec 22 22 desk_ex desk_ex_ok) as (z & E & _). exists z. split; [exact E |].
  assert (win_hit_test 22 22 desk_ex = Some 1) as E1 by (vm_compute; reflexivity). rewrite E1 in E. by injection E.
Defined.
