(* ===== verification/GuiDraw.v ===== *)
(** * Desktop: drawing is safe (src/kernel/gui.c)

    Where the framebuffer and the buffers of the windows are as large as their geometry
    says, every picture of the desktop is drawn without an access outside them, whatever
    the coordinates; the console inside a window changes nothing but that window's
    buffer. *)

From Stdlib Require Import String Ascii.
From S2P Require Import Prelude Memory Heap UserLib Vfs Rtl8139 Net Gpu Term LineEdit Input KPath KShell Gui.

(** ** The screen *)

Definition screen_surface (l : list Z) (g : gpu) : surface := Surface l (g_fb_width g) (g_fb_height g) (g_fb_pitch g) (g_fb_bpp g).

Create HintDb drawing.

(** The buffer that is drawn to. *)
Definition drawn_buffer (g : gpu) : list Z :=
  match g_fb_back g with Some l => if istrue (g_target_back g) then l else g_fb g | None => g_fb g end.

Section screen.
Context (W H : Z) (B : gmap Z (list Z)).

(** Drawing goes to the screen, the windows' buffers are [B], and the screen has W by H
    pixels and room for the console the kernel uses on it. *)
Record screen_ok (g : gpu) : Prop := {
  su_on : istrue (g_fb_enabled g) = true;
  su_target : g_render_target g = 0;
  su_bufs : bufs g = B;
  su_size : g_fb_width g = W /\ g_fb_height g = H;
  su_front : surface_ok (screen_surface (g_fb g) g);
  su_back : forall l, g_fb_back g = Some l -> surface_ok (screen_surface l g);
  su_cols : 1 <= g_fb_cols g /\ g_fb_cols g * FONT_W <= W;
  su_rows : 1 <= g_fb_rows g /\ g_fb_rows g * FONT_H <= H }.

Definition safe (f : gpu -> option gpu) : Prop := forall g, screen_ok g -> exists g', f g = Some g' /\ screen_ok g'.

Lemma safe_run fs : Forall safe fs -> safe (run fs).
Proof.
  induction 1 as [| f fs Hf _ IH]; intros g Hg; cbn [run]; [by exists g |].
  destruct (Hf g Hg) as (g1 & -> & H1). by apply IH.
Qed.

Lemma safe_loop n i body : (forall j, i <= j < i + Z.of_nat n -> safe (body j)) -> safe (loopM n i body).
Proof.
  intros Hb g Hg. destruct (loopM_inv (fun _ => screen_ok) body n i g Hg) as (g' & E & Hg'); [| by exists g'].
  intros j t Hj Ht. by apply Hb.
Qed.

Lemma safe_after f k : safe f -> safe k -> safe (fun g => g ← f g; k g).
Proof. intros Hf Hk g Hg. destruct (Hf g Hg) as (g1 & -> & H1). by apply Hk. Qed.

Lemma screen_target g : screen_ok g -> fb_target g = Some (screen_surface (drawn_buffer g) g) /\ surface_ok (screen_surface (drawn_buffer g) g).
Proof.
  intros [H1 H2 H3 H4 H6 H7 H8 H9]. unfold fb_target, drawn_buffer. rewrite H2. cbn [istrue Z.eqb negb].
  destruct (g_fb_back g) as [l |] eqn:Eb; [destruct (istrue (g_target_back g)) |]; (split; [done |]); [by apply H7 | done | done].
Qed.

(** A buffer of the right size in the place of the one that is drawn to. *)
Lemma screen_stored l g : screen_ok g -> surface_ok (screen_surface l g) -> screen_ok (store_target l g).
Proof.
  intros [H1 H2 H3 H4 H6 H7 H8 H9] Hl. unfold store_target. rewrite H2. cbn [istrue Z.eqb negb].
  destruct (g_fb_back g) as [l0 |] eqn:Eb; [destruct (istrue (g_target_back g)) |]; split; try done;
    cbn [set_front set_back set_pixels g_fb_back]; rewrite ?Eb; [by intros l1 [= <-] | by intros l1 [= <-]; apply H7 | done].
Qed.

Lemma safe_draw f : (forall s, surface_ok s -> s_w s = W -> s_h s = H -> drawn s (f s)) -> safe (if_fb (draw f)).
Proof.
  intros Hf g Hg. unfold if_fb. rewrite (su_on g Hg). unfold draw. destruct (screen_target g Hg) as [-> Hs]. cbn [mbind option_bind].
  destruct (su_size g Hg) as [Hw Hh]. destruct (Hf _ Hs Hw Hh) as (s' & -> & Hgeo). cbn [mbind option_bind].
  eexists. split; [done |]. apply screen_stored; [done |]. pose proof (same_geo_ok _ _ Hgeo Hs) as Hs'. destruct Hgeo as [Es _].
  by rewrite Es in Hs'.
Qed.

Lemma safe_fill x y w h c : safe (gpu_fill_rect x y w h c).
Proof. apply safe_draw. intros s Hs _ _. by apply fill_rect_drawn. Qed.
Lemma safe_pixel x y c : safe (gpu_put_pixel (u16 x) (u16 y) c).
Proof. apply safe_draw. intros s Hs _ _. apply put_pixel_drawn; [done | unfold u16; lia..]. Qed.
Lemma safe_text font x y t fg bg : safe (gpu_draw_text font x y t fg bg).
Proof.
  apply safe_draw. intros s Hs _ _. generalize 0 at 1. revert s Hs.
  induction t as [| c t IH]; intros s Hs i; cbn [draw_text_from]; [by exists s |].
  apply bind_drawn; [by apply draw_char_drawn |]. intros u Hu. apply IH. by eapply same_geo_ok.
Qed.

Lemma safe_border x y w h c : safe (draw_flat_border x y w h c).
Proof. apply safe_run. repeat (constructor; [apply safe_fill |]). constructor. Qed.
End screen.

#[export] Hint Resolve safe_fill safe_pixel safe_text safe_border : drawing.

(** A picture made of other pictures. *)
Ltac safe :=
  repeat match goal with
  | |- safe _ _ _ (run _) => apply safe_run
  | |- Forall _ (_ :: _) => constructor
  | |- Forall _ [] => constructor
  | |- safe _ _ _ (loopM _ _ _) => apply safe_loop; intros ? ?
  | |- safe _ _ _ (if ?b then _ else _) => destruct b
  | |- safe _ _ _ _ => solve [auto with drawing]
  end.

Section pictures.
Context (font : Z -> Z) (W H : Z) (B : gmap Z (list Z)).
Local Abbreviation ok := (safe W H B).

Lemma safe_close_button x y : ok (draw_close_button x y).
Proof. unfold draw_close_button. safe. Qed.
Lemma safe_min_button x y : ok (draw_min_button x y).
Proof. unfold draw_min_button. safe. Qed.
Hint Resolve safe_close_button safe_min_button : drawing.

Lemma safe_chrome w f : ok (draw_window_chrome font w f).
Proof. unfold draw_window_chrome. safe. Qed.
Lemma safe_icon x y t c : ok (draw_desktop_icon font x y t c).
Proof. unfold draw_desktop_icon. safe. Qed.
Hint Resolve safe_chrome safe_icon : drawing.
Lemma safe_icons : ok (draw_desktop_icons font).
Proof. unfold draw_desktop_icons. safe. Qed.

Lemma safe_menu_items items : forall iy, ok (menu_items font items iy).
Proof.
  induction items as [| t items IH]; intros iy g Hg; cbn [menu_items]; [by exists g |].
  destruct (hd 0 t =? 45).
  - destruct (safe_fill W H B (u16 (2 + 4)) (u16 (iy + 2)) (u16 (180 - 8)) 1 0x888888 g Hg) as (g1 & -> & H1). by apply IH.
  - match goal with |- exists _, (mbind _ (run ?l g)) = _ /\ _ => assert (ok (run l)) as Hr by safe; destruct (Hr g Hg) as (g1 & -> & H1) end.
    by apply IH.
Qed.
Lemma safe_menu h : ok (draw_menu_panel font h).
Proof.
  intros g Hg. unfold draw_menu_panel.
  match goal with |- exists _, (mbind _ (run ?l g)) = _ /\ _ => assert (ok (run l)) as Hr by safe; destruct (Hr g Hg) as (g1 & -> & H1) end.
  by apply safe_menu_items.
Qed.

Lemma safe_buttons n : forall z bx w tb_y d, desk_ok d -> 0 <= z -> ok (task_buttons font n z bx w tb_y d).
Proof.
  induction n as [| n IH]; intros z bx w tb_y d Hd Hz g Hg; cbn [task_buttons]; [by exists g |].
  destruct (Z.ltb_spec z (g_win_count d)); cbn [andb]; [| by exists g]. destruct (bx <? w - 80); [| by exists g].
  destruct (win_at_ok d z Hd) as (i & win & -> & _ & _ & Hu); [lia |]. cbn [mbind option_bind snd]. rewrite (istrue_neq _ Hu). cbn [negb].
  match goal with |- exists _, (mbind _ (run ?l g)) = _ /\ _ => assert (ok (run l)) as Hr by safe; destruct (Hr g Hg) as (g1 & -> & H1) end.
  cbn [mbind option_bind]. apply IH; [done | lia | done].
Qed.
Lemma safe_taskbar w h time d : desk_ok d -> ok (draw_taskbar font w h time d).
Proof.
  intros Hd g Hg. unfold draw_taskbar.
  match goal with |- exists _, (mbind _ (run ?l g)) = _ /\ _ => assert (ok (run l)) as Hr by safe; destruct (Hr g Hg) as (g1 & -> & H1) end.
  cbn [mbind option_bind]. destruct (safe_buttons (Z.to_nat (g_win_count d)) 0 58 w (h - TASKBAR_H) d Hd ltac:(lia) g1 H1) as (g2 & -> & H2).
  cbn [mbind option_bind]. match goal with |- exists _, run ?l g2 = _ /\ _ => assert (ok (run l)) as Hr2 by safe end. by apply Hr2.
Qed.
Lemma safe_desktop w h time d : desk_ok d -> ok (draw_desktop font w h time d).
Proof.
  intros Hd g Hg. unfold draw_desktop.
  match goal with |- exists _, (mbind _ (run ?l g)) = _ /\ _ => assert (ok (run l)) as Hr by (pose proof safe_icons; safe); destruct (Hr g Hg) as (g1 & -> & H1) end.
  by apply safe_taskbar.
Qed.
End pictures.

(** ** Regions and the copy to the front *)

Lemma blit_from_in other dst src n l : 0 <= dst -> dst + n <= zlen l -> 0 <= src -> src + n <= zlen other ->
  exists l', fb_blit_from other dst src n l = Some l' /\ zlen l' = zlen l.
Proof.
  intros H1 H2 H3 H4. unfold fb_blit_from.
  destruct (loopM_inv (fun _ l' => zlen l' = zlen l) (fun i l => v ← zlook other (src + i); put l (dst + i) v) (Z.to_nat n) 0 l)
    as (l' & -> & Hl'); [done | | by exists l'].
  intros j t Hj Ht. destruct (zlook_in_range other (src + j)) as [v ->]; [lia |]. cbn [mbind option_bind].
  rewrite put_in by lia. eexists. split; [done |]. by rewrite zset_zlen.
Qed.

Lemma get_pixel_some s x y : surface_ok s -> 0 <= x -> 0 <= y -> exists v, fb_get_pixel x y s = Some v.
Proof.
  intros Hs Hx Hy. unfold fb_get_pixel. destruct (Z.leb_spec (s_w s) x), (Z.leb_spec (s_h s) y); cbn [orb]; try by eexists.
  destruct (pixel_inside s x y Hs) as (_ & P0 & _ & P1); [lia.. |]. set (p := pixel_at s x y) in *. clearbody p.
  assert (forall k, 0 <= k < s_bpp s / 8 -> exists v, zlook (s_bytes s) (p + k) = Some v) as Hl by (intros k Hk; apply zlook_in_range; lia).
  destruct (sf_bpp s Hs) as [E | [E | E]]; rewrite E in *; cbn [Z.eqb Pos.eqb orb];
    destruct (Hl 0) as [a Ha]; try done; destruct (Hl 1) as [b Hb]; try done; rewrite Z.add_0_r in Ha; rewrite Ha; cbn [mbind option_bind];
    rewrite Hb; cbn [mbind option_bind]; try by eexists.
  - destruct (Hl 2) as [c ->]; [done |]. by eexists.
  - destruct (Hl 2) as [c ->]; [done |]. by eexists.
Qed.

Section regions.
Context (W H : Z) (B : gmap Z (list Z)).
Local Abbreviation ok := (safe W H B).

Lemma safe_arrow x y : ok (draw_cursor_bitmap x y).
Proof.
  apply safe_loop. intros yy Hy g Hg. destruct (zlook_in_range CURSOR_ROWS yy) as [row Er]; [change (zlen CURSOR_ROWS) with 16; lia |].
  rewrite Er. cbn [mbind option_bind]. revert g Hg.
  assert (zlen row = 12) as Hl.
  { assert (Forall (fun r => zlen r = 12) CURSOR_ROWS) as Ha by (repeat (constructor; [reflexivity |]); constructor). by apply (zlook_Forall _ _ _ _ Ha Er). }
  apply safe_loop. intros xx Hx g Hg. destruct (zlook_in_range row xx) as [c ->]; [lia |]. cbn [mbind option_bind].
  destruct (c =? 88); [by apply safe_pixel | by exists g].
Qed.
Lemma safe_region src x y w h : w * h <= zlen src -> 0 <= w -> ok (if_fb (copy_region src x y w h)).
Proof.
  intros Hl Hw g Hg. unfold copy_region.
  refine (safe_draw W H B _ _ g Hg). intros s Hs _ _. apply loop_drawn; [done |]. intros yy t Hyy Ht.
  apply loop_drawn; [done |]. intros xx u Hxx Hu. destruct (u16 (x + xx) <? g_fb_width g); [| by exists u].
  destruct (zlook_in_range src (yy * w + xx)) as [v ->].
  { assert (0 <= yy < h) by (unfold region_rows in Hyy; lia). nia. }
  cbn [mbind option_bind]. apply put_pixel_drawn; [done | unfold u16; lia..].
Qed.

Lemma safe_blit src w h x y : w * h <= zlen src -> 0 <= w -> ok (gpu_blit_buffer src w h x y).
Proof. intros Hl Hw. by apply safe_region. Qed.

Lemma save_region_len g dst x y w h : screen_ok W H B g -> w * h <= zlen dst -> 0 <= w ->
  exists dst', gpu_save_region x y w h dst g = Some dst' /\ zlen dst' = zlen dst.
Proof.
  intros Hg Hl Hw. unfold gpu_save_region. rewrite (su_on _ _ _ g Hg). destruct (screen_target W H B g Hg) as [-> Hs]. cbn [mbind option_bind].
  destruct (loopM_inv (fun _ d => zlen d = zlen dst) (fun yy dst => loopM (Z.to_nat w) 0 (fun xx dst =>
      let px := u16 (x + xx) in
      v ← (if px <? g_fb_width g then fb_get_pixel px (u16 (y + yy)) (screen_surface (drawn_buffer g) g) else Some 0);
      put dst (yy * w + xx) v) dst) (Z.to_nat (region_rows y h (g_fb_height g))) 0 dst) as (d & E & Hd); [done | | by exists d].
  intros yy t Hyy Ht. assert (0 <= yy < h) as Hy by (unfold region_rows in Hyy; lia).
  destruct (loopM_inv (fun _ d => zlen d = zlen dst) (fun xx dst =>
      let px := u16 (x + xx) in
      v ← (if px <? g_fb_width g then fb_get_pixel px (u16 (y + yy)) (screen_surface (drawn_buffer g) g) else Some 0);
      put dst (yy * w + xx) v) (Z.to_nat w) 0 t) as (d & E & Hd); [done | | by exists d].
  intros xx u Hxx Hu. cbv zeta.
  assert (exists v, (if u16 (x + xx) <? g_fb_width g then fb_get_pixel (u16 (x + xx)) (u16 (y + yy)) (screen_surface (drawn_buffer g) g) else Some 0) = Some v) as [v ->].
  { destruct (_ <? _); [| by eexists]. apply get_pixel_some; [done | unfold u16; lia..]. }
  cbn [mbind option_bind]. rewrite put_in by nia. eexists. split; [done |]. by rewrite zset_zlen.
Qed.

Lemma front_stored l g : screen_ok W H B g -> zlen l = zlen (g_fb g) -> screen_ok W H B (set_front l g).
Proof.
  intros [H1 H2 H3 H4 H6 H7 H8 H9] Hl. split; try done. destruct H6. split; try done. cbn in *. by rewrite Hl.
Qed.

Lemma safe_flip : ok gpu_flip.
Proof.
  intros g Hg. unfold gpu_flip. destruct (g_fb_back g) as [back |] eqn:Eb; [| by exists g]. unfold if_fb. rewrite (su_on _ _ _ g Hg).
  pose proof (sf_len _ (su_front _ _ _ g Hg)) as Hf. pose proof (sf_len _ (su_back _ _ _ g Hg back Eb)) as Hb.
  cbn [screen_surface s_pitch s_h s_bytes] in Hf, Hb.
  destruct (blit_from_in back 0 0 (g_fb_pitch g * g_fb_height g) (g_fb g)) as (l & -> & Hl); [lia.. |]. cbn [mbind option_bind].
  eexists. split; [done |]. by apply front_stored.
Qed.

Lemma safe_flip_rect x y w h : 0 <= x -> 0 <= y -> ok (gpu_flip_rect x y w h).
Proof.
  intros Hx Hy g Hg. unfold gpu_flip_rect. destruct (g_fb_back g) as [back |] eqn:Eb; [| by exists g]. unfold if_fb. rewrite (su_on _ _ _ g Hg).
  destruct (Z.leb_spec (g_fb_width g) x), (Z.leb_spec (g_fb_height g) y); cbn [orb]; try by exists g.
  pose proof (su_front _ _ _ g Hg) as Hf. pose proof (su_back _ _ _ g Hg back Eb) as Hb.
  set (w1 := if g_fb_width g <? x + w then _ else w). set (h1 := if g_fb_height g <? y + h then _ else h).
  assert (w1 <= g_fb_width g - x) as Hw1.
  { unfold w1. pose proof (sf_w _ Hf) as Hsw. cbn in Hsw. destruct (Z.ltb_spec (g_fb_width g) (x + w)); [rewrite u16_id; lia | lia]. }
  assert (h1 <= g_fb_height g - y) as Hh1.
  { unfold h1. pose proof (sf_h _ Hf) as Hsh. cbn in Hsh. destruct (Z.ltb_spec (g_fb_height g) (y + h)); [rewrite u16_id; lia | lia]. }
  clearbody w1 h1. cbv zeta. set (p := g_fb_bpp g / 8).
  assert (0 <= p) as Hp by (pose proof (sf_bpp _ Hf) as Hbp; cbn in Hbp; unfold p; destruct Hbp as [-> | [-> | ->]]; done).
  pose proof (sf_row _ Hf) as Hrow. pose proof (sf_len _ Hf) as Hlf. pose proof (sf_len _ Hb) as Hlb. pose proof (sf_pitch _ Hf) as Hpi.
  cbn [screen_surface s_w s_h s_pitch s_bpp s_bytes] in Hrow, Hlf, Hlb, Hpi. fold p in Hrow.
  destruct (loopM_inv (fun _ l => zlen l = zlen (g_fb g)) (fun row l =>
      fb_blit_from back ((y + row) * g_fb_pitch g + x * p) ((y + row) * g_fb_pitch g + x * p) (w1 * p) l) (Z.to_nat h1) 0 (g_fb g)) as (l & -> & Hl); [done | |].
  - intros row t Hr Ht. assert ((y + row + 1) * g_fb_pitch g <= g_fb_pitch g * g_fb_height g) by nia.
    assert (x * p + w1 * p <= g_fb_pitch g) by nia. assert (0 <= (y + row) * g_fb_pitch g) by nia.
    destruct (blit_from_in back ((y + row) * g_fb_pitch g + x * p) ((y + row) * g_fb_pitch g + x * p) (w1 * p) t) as (l' & -> & Hl'); [nia | lia | nia | lia |].
    exists l'. split; [done | by rewrite Hl'].
  - cbn [mbind option_bind]. eexists. split; [done |]. by apply front_stored.
Qed.
End regions.

(** ** The windows and their buffers *)

Definition printable_line (lft rgt : list Z) : Prop := Forall (fun c => printable c = true) (rev lft ++ rgt).
Record win_wf (w : window) : Prop := {
  ww_term : term_ok (w_term w);
  ww_cursor : 0 <= w_row w /\ 0 <= w_col w;
  ww_line : exists lft rgt, line_is SHELL_LINE_MAX (w_line w) lft rgt /\ printable_line lft rgt }.

(** The buffer of an open window has its pixels. *)
Record win_mem (B : gmap Z (list Z)) (w : window) : Prop := {
  wm_buf : w_buf w <> 0;
  wm_cw : 8 <= w_cw w < 16384;
  wm_ch : 16 <= w_ch w < 65536;
  wm_len : exists l, B !! w_buf w = Some l /\ w_cw w * w_ch w * 4 <= zlen l }.

Record windows_ok (B : gmap Z (list Z)) (d : desk) : Prop := {
  wo_wf : forall i w, zlook (g_win d) i = Some w -> win_wf w;
  wo_mem : forall i w, zlook (g_win d) i = Some w -> w_used w <> 0 -> win_mem B w;
  wo_apart : forall i j v w, zlook (g_win d) i = Some v -> zlook (g_win d) j = Some w -> w_used v <> 0 -> w_used w <> 0 ->
    i <> j -> w_buf v <> w_buf w }.

Lemma words_of_len n l : 0 <= n -> zlen (words_of n l) = n.
Proof. intros Hn. unfold words_of, zlen. rewrite length_map, length_seq. lia. Qed.

Section compose.
Context (font : Z -> Z) (W H : Z) (B : gmap Z (list Z)).

Lemma safe_window w : win_mem B w -> safe W H B (blit_window w).
Proof.
  intros [H1 H2 H3 (l & H4 & H5)] g Hg. unfold blit_window. rewrite (su_bufs _ _ _ g Hg), H4. cbn [mbind option_bind].
  rewrite !(u16_id (w_cw w)), !(u16_id (w_ch w)) by lia. apply (safe_blit W H B); [rewrite words_of_len by nia; lia | lia | done].
Qed.

Lemma safe_compose d : desk_ok d -> windows_ok B d -> safe W H B (compose_windows font d).
Proof.
  intros Hd Hw. apply safe_loop. intros z Hz g Hg. pose proof (dk_count d Hd).
  destruct (win_at_ok d z Hd) as (i & w & -> & _ & Ei & Hu); [lia |]. cbn [mbind option_bind snd]. rewrite (istrue_neq _ Hu).
  apply (safe_after W H B); [apply safe_chrome | apply safe_window; by eapply (wo_mem B d Hw) | done].
Qed.
End compose.

(** ** Inside a window *)

(** [g'] differs from [g] at most in the console, its colour and the buffer drawing goes to. *)
Record beside (g g' : gpu) : Prop := {
  be_on : g_fb_enabled g' = g_fb_enabled g;
  be_target : g_render_target g' = g_render_target g;
  be_others : delete (g_render_target g) (bufs g') = delete (g_render_target g) (bufs g);
  be_render : g_render_pitch g' = g_render_pitch g /\ g_render_w g' = g_render_w g /\ g_render_h g' = g_render_h g /\ g_render_bpp g' = g_render_bpp g;
  be_fb : g_fb g' = g_fb g /\ g_fb_back g' = g_fb_back g;
  be_size : g_fb_width g' = g_fb_width g /\ g_fb_height g' = g_fb_height g /\ g_fb_pitch g' = g_fb_pitch g /\ g_fb_bpp g' = g_fb_bpp g;
  be_cols : g_fb_cols g' = g_fb_cols g /\ g_fb_rows g' = g_fb_rows g }.

#[export] Instance beside_preorder : PreOrder beside.
Proof.
  split; [by split |]. intros a b c [A1 A2 A3 A4 A5 A6 A7] [B1 B2 B3 B4 B5 B6 B7]. rewrite A2 in B3.
  split; try congruence; repeat match goal with H : _ /\ _ |- _ => destruct H end; split_and!; congruence.
Qed.

Definition kept (f : gpu -> option gpu) : Prop := forall g g', g_render_target g <> 0 -> f g = Some g' -> beside g g'.

Lemma kept_bind f k : kept f -> kept k -> kept (fun g => g ← f g; k g).
Proof.
  intros Hf Hk g g' Hg E. destruct (f g) as [g1 |] eqn:E1; [| done]. cbn [mbind option_bind] in E.
  pose proof (Hf g g1 Hg E1) as Hb. etrans; [exact Hb |]. apply Hk; [by rewrite (be_target _ _ Hb) | done].
Qed.

Lemma kept_loop n body : (forall i, kept (body i)) -> forall i, kept (loopM n i body).
Proof.
  intros Hb. induction n as [| n IH]; intros i g g' Hg E; cbn [loopM] in E; [by injection E as <- |].
  exact (kept_bind (body i) (loopM n (i + 1) body) (Hb i) (IH (i + 1)) g g' Hg E).
Qed.

Lemma kept_draw f : kept (draw f).
Proof.
  intros g g' Hg E. unfold draw in E. destruct (fb_target g) as [s |]; [| done]. cbn [mbind option_bind] in E.
  destruct (f s) as [s' |]; [| done]. injection E as <-. unfold store_target. rewrite (istrue_neq _ Hg).
  split; try done. cbn [set_bufs set_pixels bufs]. by rewrite delete_insert_eq.
Qed.

Lemma kept_cursor r c : kept (fun g => Some (set_cursor_pos r c g)).
Proof. intros g g' Hg [= <-]. by split. Qed.
Lemma beside_cursor r c g : beside g (set_cursor_pos r c g).
Proof. by split. Qed.
Lemma beside_update g : beside g (fb_update_cursor g).
Proof. unfold fb_update_cursor. destruct (istrue _); by split. Qed.
Lemma beside_set_cursor r c g : beside g (gpu_set_cursor r c g).
Proof. unfold gpu_set_cursor. etrans; [apply beside_cursor | apply beside_update]. Qed.
Lemma beside_color fg bg g : beside g (gpu_set_color fg bg g).
Proof. by split. Qed.
Lemma beside_vga m g : beside g (set_vga m g).
Proof. by split. Qed.

Lemma kept_cell font r c ch : kept (put_cell font r c ch).
Proof.
  intros g g' Hg E. unfold put_cell in E. destruct (istrue _); [by eapply kept_draw |].
  destruct (put _ _ _) as [m |]; [| done]. injection E as <-. apply beside_vga.
Qed.

Lemma kept_scroll : kept console_scroll.
Proof.
  intros g g' Hg E. unfold console_scroll in E. destruct (istrue _).
  - unfold fb_scroll in E. cbv zeta in E.
    match type of E with (mbind _ ?o = _) => destruct o as [g1 |] eqn:E1 end; [| done]. cbn [mbind option_bind] in E.
    pose proof (kept_draw _ g g1 Hg E1) as B1.
    match type of E with (mbind _ ?o = _) => destruct o as [g2 |] eqn:E2 end; [| done]. injection E as <-.
    assert (beside g1 g2) as B2 by (eapply kept_draw; [by rewrite (be_target _ _ B1) | exact E2]).
    etrans; [exact B1 |]. etrans; [exact B2 | apply beside_cursor].
  - match type of E with (mbind _ ?o = _) => destruct o as [m1 |] end; [| done]. cbn [mbind option_bind] in E.
    match type of E with (mbind _ ?o = _) => destruct o as [m2 |] end; [| done]. injection E as <-.
    etrans; [apply beside_vga | apply beside_cursor].
Qed.

Lemma kept_clear fg bg : kept (gpu_clear fg bg).
Proof.
  intros g g' Hg E. unfold gpu_clear in E. cbv zeta in E. set (g1 := set_cursor_pos 0 0 (gpu_set_color fg bg g)) in *.
  assert (beside g g1) as B1 by (etrans; [apply beside_color | apply beside_cursor]). etrans; [exact B1 |].
  destruct (istrue _); [eapply kept_draw; [by rewrite (be_target _ _ B1) | exact E] |].
  match type of E with (mbind _ ?o = _) => destruct o as [m1 |] end; [| done]. injection E as <-.
  etrans; [apply beside_vga | apply beside_update].
Qed.

Lemma kept_putc font c : kept (gpu_putc font c).
Proof.
  intros g g' Hg E. unfold gpu_putc in E. cbv zeta in E. destruct (c =? 12); [by eapply kept_clear |].
  match type of E with (mbind _ ?o = _) => destruct o as [g1 |] eqn:E1 end; [| done]. cbn [mbind option_bind] in E.
  assert (beside g g1) as B1.
  { destruct (c =? 10); [injection E1 as <-; apply beside_cursor |]. destruct (c =? 13); [injection E1 as <-; apply beside_cursor |].
    destruct (c =? 8); [injection E1 as <-; destruct (_ <? _); [apply beside_cursor | done] |].
    destruct (put_cell _ _ _ _ _) as [g2 |] eqn:E2; [| done]. injection E1 as <-. etrans; [by eapply kept_cell |].
    match goal with |- beside _ (if ?b then _ else _) => destruct b end; apply beside_cursor. }
  etrans; [exact B1 |]. match type of E with (mbind _ ?o = _) => destruct o as [g2 |] eqn:E2 end; [| done]. injection E as <-.
  etrans; [| apply beside_update]. match type of E2 with (if ?b then _ else _) = _ => destruct b end; [| by injection E2 as <-].
  eapply kept_scroll; [by rewrite (be_target _ _ B1) | exact E2].
Qed.

Lemma kept_blank font r c0 c1 : kept (blank_cells font r c0 c1).
Proof. unfold blank_cells. apply kept_loop. intros i. apply kept_cell. Qed.

Lemma kept_erase_line font mode : kept (gpu_erase_line font mode).
Proof. intros g g' Hg E. by eapply kept_blank. Qed.
Lemma kept_erase_display font mode : kept (gpu_erase_display font mode).
Proof.
  intros g g' Hg E. unfold gpu_erase_display in E. revert E. apply kept_loop; [| done].
  intros i h h' Hh E. by eapply kept_blank.
Qed.

(** The console of a window, over the state [G] in which drawing began. *)
Definition window_console (cols rows : Z) (G g : gpu) : Prop :=
  pixel_console cols rows g /\ beside G g /\ g_render_target G <> 0.

#[export] Instance window_is_console font cols rows G : console font (window_console cols rows G).
Proof.
  assert (forall g g', window_console cols rows G g -> pixel_console cols rows g' -> beside g g' -> window_console cols rows G g') as Hw.
  { intros g g' (_ & Hb & Ht) Hp Hb'. split; [done |]. split; [by etrans | done]. }
  assert (forall g, window_console cols rows G g -> g_render_target g <> 0) as Ht by (intros g (_ & Hb & Ht); by rewrite (be_target _ _ Hb)).
  split.
  - intros c g Hg. destruct (con_putc (font := font) c g (proj1 Hg)) as (g' & E & Hp). exists g'. split; [done |].
    eapply Hw; [done.. |]. eapply kept_putc; [by apply Ht | exact E].
  - intros r c g Hg Hr Hc. eapply Hw; [done | | apply beside_set_cursor]. apply (con_cursor (font := font)); [apply Hg | done..].
  - intros fg bg g Hg. eapply Hw; [done | | apply beside_color]. apply (con_color (font := font)), Hg.
  - intros mode g Hg. destruct (con_erase_line (font := font) mode g (proj1 Hg)) as (g' & E & Hp). exists g'. split; [done |].
    eapply Hw; [done.. |]. eapply kept_erase_line; [by apply Ht | exact E].
  - intros mode g Hg. destruct (con_erase_display (font := font) mode g (proj1 Hg)) as (g' & E & Hp). exists g'. split; [done |].
    eapply Hw; [done.. |]. eapply kept_erase_display; [by apply Ht | exact E].
Qed.

Lemma set_cursor_console r c g s : fb_console g s -> 0 <= r -> 0 <= c ->
  fb_console (gpu_set_cursor r c g) s /\ cursor_in (gpu_set_cursor r c g).
Proof.
  intros Hc Hr Hcc. pose proof (fc_on g s Hc) as Hon.
  pose proof (fc_w g s Hc) as [Hw1 Hw2]. pose proof (fc_h g s Hc) as [Hh1 Hh2].
  pose proof (sf_w s (fc_ok g s Hc)). pose proof (sf_h s (fc_ok g s Hc)). pose proof (fc_org g s Hc) as [? ?].
  unfold FONT_W, FONT_H in *. unfold gpu_set_cursor, con_rows, con_cols. rewrite Hon, update_cursor_fb by done.
  split; [by apply cursor_console |]. unfold cursor_in. cbn [set_cursor_pos set_text g_row g_col g_vp_rows g_vp_cols]. split.
  - destruct (Z.leb_spec (g_vp_rows g) r); [rewrite u16_id by lia |]; lia.
  - destruct (Z.leb_spec (g_vp_cols g) c); [rewrite u16_id by lia |]; lia.
Qed.

Section inside.
Context (W H : Z) (B : gmap Z (list Z)) (w : window) (Hw : win_mem B w).
Local Abbreviation inside G := (window_console (w_cw w / 8) (w_ch w / 16) (open_window w G)).

Lemma open_console G : screen_ok W H B G -> exists s, fb_console (open_window w G) s.
Proof.
  intros Hg. pose proof Hw as [H1 H2 H3 (l & H4 & H5)]. eexists. split; unfold open_window; try rewrite !(u16_id (w_cw w)), !(u16_id (w_ch w)) by lia.
  - apply (su_on _ _ _ G Hg).
  - unfold fb_target. cbn [gpu_begin_target gpu_set_console_viewport set_viewport set_pixels g_render_target bufs g_render_w g_render_h g_render_pitch g_render_bpp].
    rewrite (istrue_neq _ H1), (su_bufs _ _ _ G Hg), H4. cbn [mbind option_bind]. reflexivity.
  - split; cbn [s_w s_h s_pitch s_bpp s_bytes]; rewrite ?u16_id by lia; try lia; change (32 / 8) with 4; nia.
  - done.
  - cbn [gpu_begin_target gpu_set_console_viewport set_viewport set_pixels g_vp_x g_vp_cols s_w]. unfold FONT_W. rewrite u16_id by lia. lia.
  - cbn [gpu_begin_target gpu_set_console_viewport set_viewport set_pixels g_vp_y g_vp_rows s_h]. unfold FONT_H. rewrite u16_id by lia. lia.
Qed.

(** Drawing in the window begins with the cursor set. *)
Lemma opened r c fg bg G : screen_ok W H B G -> 0 <= r -> 0 <= c -> inside G (gpu_set_cursor r c (gpu_set_color fg bg (open_window w G))).
Proof.
  intros Hg Hr Hc. pose proof (wm_cw B w Hw). pose proof (wm_ch B w Hw). destruct (open_console G Hg) as [s Hs].
  assert (fb_console (gpu_set_color fg bg (open_window w G)) s) as Hs1 by (destruct Hs; by split).
  destruct (set_cursor_console r c _ s Hs1 Hr Hc) as [Hs2 Hin]. split; [split; [by exists s |] |].
  - split; [done |]. pose proof (su_on _ _ _ G Hg) as Hon. unfold gpu_set_cursor. rewrite update_cursor_fb by done.
    cbn [gpu_set_color set_color set_cursor_pos set_text open_window gpu_set_console_viewport set_viewport g_vp_cols g_vp_rows].
    rewrite !u16_id by lia. done.
  - split; [| apply (wm_buf B w Hw)]. etrans; [apply beside_color | apply beside_set_cursor].
Qed.

(** And ends with the screen as it was; only the window's buffer may have changed. *)
Lemma closed G g : screen_ok W H B G -> inside G g ->
  screen_ok W H (bufs g) (close_window g) /\ (forall a, a <> w_buf w -> bufs g !! a = B !! a) /\ win_mem (bufs g) w.
Proof.
  intros Hg [((s & Hs) & Hin & Hc & Hr) [Hb Ht]]. pose proof Hw as [H1 H2 H3 (l & H4 & H5)].
  pose proof Hg as [G1 G2 G3 G4 G5 G6 G7 G8]. pose proof Hb as [B1 B2 B3 B4 B5 B6 B7].
  cbn [open_window gpu_begin_target gpu_set_console_viewport set_viewport set_pixels g_fb_enabled g_render_target bufs g_render_pitch g_render_w g_render_h
    g_render_bpp g_fb g_fb_back g_fb_width g_fb_height g_fb_pitch g_fb_bpp g_fb_cols g_fb_rows] in *.
  split; [| split].
  - unfold close_window, gpu_reset_console_viewport. cbn [gpu_end_target set_pixels g_fb_enabled]. rewrite B1, G1.
    destruct B5 as [F1 F2], B6 as (F3 & F4 & F5 & F6), B7 as [F7 F8].
    split; cbn [set_viewport gpu_end_target set_pixels g_fb_enabled g_render_target bufs g_fb g_fb_back g_fb_width g_fb_height g_fb_cols g_fb_rows];
      rewrite ?B1, ?F1, ?F2, ?F3, ?F4, ?F7, ?F8; try done.
    + unfold screen_surface in *. cbn. rewrite F3, F4, F5, F6. done.
    + intros l0 El. unfold screen_surface in *. cbn. rewrite F3, F4, F5, F6. by apply G6.
  - intros a Ha. rewrite <- G3. rewrite <- (lookup_delete_ne (bufs g) (w_buf w) a), <- (lookup_delete_ne (bufs G) (w_buf w) a) by done. by rewrite B3.
  - split; try done. pose proof (fc_target g s Hs) as Et. unfold fb_target in Et. rewrite B2, (istrue_neq _ H1) in Et.
    destruct (bufs g !! w_buf w) as [l' |]; [| done]. exists l'. split; [done |]. injection Et as <-.
    pose proof (sf_len _ (fc_ok _ _ Hs)) as Hl. cbn [s_pitch s_h s_bytes] in Hl. destruct B4 as (E1 & _ & E3 & _). rewrite E1, E3 in Hl.
    rewrite (u16_id (w_cw w)), (u16_id (w_ch w)) in Hl by lia. rewrite u16_id in Hl by lia. lia.
Qed.
End inside.

Lemma put_word_in l i v : 0 <= i -> 4 * i + 4 <= zlen l -> exists l', put_word l i v = Some l' /\ zlen l' = zlen l.
Proof.
  intros Hi Hl. unfold put_word. repeat (rewrite put_in by (rewrite ?zset_zlen; lia); cbn [mbind option_bind]).
  eexists. split; [done |]. by rewrite !zset_zlen.
Qed.

Lemma fill_ok W H B v w g : screen_ok W H B g -> win_mem B w ->
  exists l, fill_window v w g = Some (set_bufs (<[w_buf w := l]> B) g) /\
    screen_ok W H (<[w_buf w := l]> B) (set_bufs (<[w_buf w := l]> B) g) /\ win_mem (<[w_buf w := l]> B) w.
Proof.
  intros Hg [H1 H2 H3 (l & H4 & H5)]. unfold fill_window. rewrite (su_bufs _ _ _ g Hg), H4. cbn [mbind option_bind].
  destruct (loopM_inv (fun _ l' => zlen l' = zlen l) (fun i l => put_word l i v) (Z.to_nat (w_cw w * w_ch w)) 0 l) as (l' & -> & Hl'); [done | |].
  { intros j t Hj Ht. destruct (put_word_in t j v) as (t' & E & Ht'); [lia.. |]. exists t'. split; [done | lia]. }
  cbn [mbind option_bind]. exists l'. split; [done |]. split; [destruct Hg; by split |].
  split; try done. exists l'. rewrite lookup_insert_eq. split; [done | lia].
Qed.

Section contents.
Context (font : Z -> Z) (E : facts) {D : Type} (fs_of : Z -> option (filesystem D)).
Context (V : vst D -> Prop) (N : net -> Prop) {HS : services E fs_of V N}.
Context (W H : Z).
Implicit Types s : shell (D := D).
Local Abbreviation gui_ok B := (shell_ok (screen_ok W H B) V N).

(** What painting and typing do to a window and to the rest. *)
Record painted (B : gmap Z (list Z)) (w w' : window) (s' : shell (D := D)) (B' : gmap Z (list Z)) : Prop := {
  pt_shell : gui_ok B' s';
  pt_wf : win_wf w';
  pt_same : w' = set_console (w_term w') (w_row w') (w_col w') (w_line w') w;
  pt_mem : win_mem B' w';
  pt_others : forall a, a <> w_buf w -> B' !! a = B !! a }.

Lemma mem_same B w w' : w' = set_console (w_term w') (w_row w') (w_col w') (w_line w') w -> win_mem B w -> win_mem B w'.
Proof. intros -> []. by split. Qed.

Lemma gui_gpu B C g s : gui_ok B s -> C g -> shell_ok C V N (set_gpu g s).
Proof. intros []. by split. Qed.

Lemma get_cursor_range g : 0 <= fst (gpu_get_cursor g) /\ 0 <= snd (gpu_get_cursor g).
Proof. unfold gpu_get_cursor, u16. cbn. lia. Qed.

(** A picture drawn inside the window, whose console ends in [g]. *)
Lemma paint_done B1 B w w' s G g : gui_ok B s -> screen_ok W H B1 G -> win_mem B1 w -> (forall a, a <> w_buf w -> B1 !! a = B !! a) ->
  win_wf w' -> w' = set_console (w_term w') (w_row w') (w_col w') (w_line w') w ->
  window_console (w_cw w / 8) (w_ch w / 16) (open_window w G) g ->
  painted B w w' (set_gpu (close_window g) s) (bufs g).
Proof.
  intros Hs HG Hw Ho Hwf Hsame Hg. destruct (closed W H B1 w Hw G g HG Hg) as (Hc & Hb & Hm). split; try done.
  - by eapply gui_gpu.
  - by eapply mem_same.
  - intros a Ha. by rewrite Hb, Ho.
Qed.

Lemma run_prints (C : gpu -> Prop) (HC : console font C) ts g : C g -> exists g', run (map (gpu_print font) ts) g = Some g' /\ C g'.
Proof.
  revert g. induction ts as [| t ts IH]; intros g Hg; cbn [map run]; [by exists g |].
  destruct (print_ok font C t g Hg) as (g1 & -> & H1). by apply IH.
Qed.

Lemma about_paints B w s : gui_ok B s -> win_wf w -> win_mem B w ->
  exists w' s' B', win_render_about font w s = Some (w', s') /\ painted B w w' s' B'.
Proof.
  intros Hs Hwf Hm. unfold win_render_about. generalize (txt "         EponaOS" ++ [10; 10]) ABOUT. intros t ts. destruct (fill_ok W H B CLR_WINDOWBG w (sh_gpu s) (so_gpu _ _ _ s Hs) Hm) as (l & -> & Hg & Hm1).
  cbn [mbind option_bind]. set (B1 := <[w_buf w := l]> B) in *. set (G := set_bufs B1 (sh_gpu s)) in *.
  pose proof (opened W H B1 w Hm1 0 0 0x01 0x07 G Hg ltac:(lia) ltac:(lia)) as Ho.
  destruct (print_ok font (window_console _ _ _) t _ Ho) as (g1 & -> & H1). cbn [mbind option_bind].
  destruct (run_prints (window_console (w_cw w / 8) (w_ch w / 16) (open_window w G)) _ ts (gpu_set_color 0x00 0x07 g1)) as (g2 & -> & H2);
    [by apply (con_color (font := font)) |]. cbn [mbind option_bind].
  eexists _, _, _. split; [reflexivity |]. eapply paint_done; [done | exact Hg | done | | done | by destruct w | exact H2].
  intros a Ha. unfold B1. by rewrite lookup_insert_ne.
Qed.

Lemma u32_text_some v : 0 <= v < 4294967296 -> exists t, u32_text v = Some t.
Proof.
  intros Hv. unfold u32_text. assert (put (replicate 12 0) 11 0 = Some (replicate 11 0 ++ [0])) as -> by done. cbn [mbind option_bind].
  destruct (v =? 0); [eexists; reflexivity |].
  destruct (u64_digits_spec 12 11 v (replicate 11 0) [0]) as (b & Ed & Hb); [change (10 ^ Z.of_nat 11) with 100000000000; lia | lia | cbn; lia |].
  change (zlen (replicate 11 0)) with 11 in Ed, Hb. rewrite Ed. cbn [mbind option_bind fst snd].
  rewrite drop_app_length' by (unfold zlen in *; lia). eexists. apply c_string_text. unfold nonzero.
  apply Forall_map. eapply Forall_impl; [apply Forall_rev, (rdigits_range 10); lia |]. cbn. intros d Hd. lia.
Qed.

Lemma painted_trans B w w1 w2 s1 s2 B1 B2 : painted B w w1 s1 B1 -> painted B1 w1 w2 s2 B2 -> painted B w w2 s2 B2.
Proof.
  intros [P1 P2 P3 P4 P5] [Q1 Q2 Q3 Q4 Q5]. split; try done.
  - rewrite Q3, P3. done.
  - intros a Ha. rewrite Q5; [by apply P5 |]. by rewrite P3.
Qed.

Lemma term_print_ok (C : gpu -> Prop) (HC : console font C) t : forall x g, term_ok x -> C g ->
  exists x' g', term_ctx_print font t (x, g) = Some (x', g') /\ term_ok x' /\ C g'.
Proof.
  induction t as [| c t IH]; intros x g Hx Hg; cbn [term_ctx_print]; [by exists x, g |].
  destruct (term_putc_ok font C c x g Hx Hg) as (x1 & g1 & -> & Hx1 & Hg1). cbn [mbind option_bind]. by apply IH.
Qed.

Lemma terminal_paints B w s : gui_ok B s -> win_wf w -> win_mem B w ->
  exists w' s' B', win_render_terminal_init font w s = Some (w', s') /\ painted B w w' s' B'.
Proof.
  intros Hs Hwf Hm. unfold win_render_terminal_init.
  generalize (txt "EponaOS Terminal" ++ [13; 10]) (txt "Type 'help' for commands." ++ [13; 10; 13; 10]). intros t1 t2.
  destruct (fill_ok W H B 0 w (sh_gpu s) (so_gpu _ _ _ s Hs) Hm) as (l & -> & Hg & Hm1).
  cbn [mbind option_bind]. set (B1 := <[w_buf w := l]> B) in *. set (G := set_bufs B1 (sh_gpu s)) in *.
  pose proof (opened W H B1 w Hm1 0 0 0x0F 0x00 G Hg ltac:(lia) ltac:(lia)) as Ho.
  assert (term_ok (term_ctx_init (w_term w))) as Hx by (destruct (ww_term w Hwf) as [K1 K2 K3 K4]; split; cbn; done || lia).
  destruct (term_print_ok (window_console _ _ _) _ t1 _ _ Hx Ho) as (x1 & g1 & -> & Hx1 & Hg1). cbn [mbind option_bind].
  destruct (term_print_ok (window_console _ _ _) _ t2 _ _ Hx1 Hg1) as (x2 & g2 & -> & Hx2 & Hg2). cbn [mbind option_bind].
  destruct (prompt_ok font (window_console _ _ _) g2 Hg2) as (g3 & -> & Hg3). cbn [mbind option_bind].
  pose proof (get_cursor_range g3) as Hc. destruct (gpu_get_cursor g3) as [row col]. cbn [fst snd] in Hc.
  eexists _, _, _. split; [reflexivity |]. eapply paint_done; [done | exact Hg | done | | | reflexivity | exact Hg3].
  - intros a Ha. unfold B1. by rewrite lookup_insert_ne.
  - split; [done | done |]. apply (ww_line w Hwf).
Qed.

Lemma callback_ok (C : gpu -> Prop) (HC : console font C) e g : C g -> 0 <= snd (fst e) < 4294967296 ->
  exists g', fm_readdir_cb font e g = Some g' /\ C g'.
Proof.
  destruct e as [[name size] flags]. cbn [fst snd]. intros Hg Hz. unfold fm_readdir_cb. cbv zeta.
  destruct (print_ok font C (txt "  ") g Hg) as (g1 & -> & H1). cbn [mbind option_bind]. set (dir := istrue _).
  assert (C (if dir then gpu_set_color 0x01 0x07 g1 else g1)) as H1' by (destruct dir; [by apply (con_color (font := font)) | done]).
  destruct (print_ok font C name _ H1') as (g2 & -> & H2). cbn [mbind option_bind].
  assert (exists g3, (if dir then gpu_print font (txt "/") g2 else Some g2) = Some g3 /\ C g3) as (g3 & -> & H3).
  { destruct dir; [by apply print_ok | by exists g2]. }
  cbn [mbind option_bind]. set (g4 := gpu_set_color 0x00 0x07 g3). assert (C g4) as H4 by (by apply (con_color (font := font))).
  assert (exists g5, (if dir then Some g4 else g ← gpu_print font (txt "  (") g4; t ← u32_text size; g ← gpu_print font t g; gpu_print font (txt " bytes)") g) = Some g5 /\ C g5) as (g5 & -> & H5).
  { destruct dir; [by exists g4 |]. destruct (print_ok font C (txt "  (") g4 H4) as (g5 & -> & H5). cbn [mbind option_bind].
    destruct (u32_text_some size Hz) as [t ->]. cbn [mbind option_bind]. destruct (print_ok font C t g5 H5) as (g6 & -> & H6). by apply print_ok. }
  cbn [mbind option_bind]. by apply print_ok.
Qed.

Lemma callbacks_ok (C : gpu -> Prop) (HC : console font C) es : forall g, C g -> Forall (fun '(_, size, _) => 0 <= size < 4294967296) es ->
  exists g', run (map (fm_readdir_cb font) es) g = Some g' /\ C g'.
Proof.
  induction es as [| [[name size] flags] es IH]; intros g Hg He; cbn [map run]; [by exists g |]. apply Forall_cons in He as [Hz He].
  destruct (callback_ok C HC (name, size, flags) g Hg Hz) as (g1 & -> & H1). by apply IH.
Qed.

Lemma fileman_paints B w s : gui_ok B s -> win_wf w -> win_mem B w ->
  exists w' s' B', win_render_fileman font fs_of w s = Some (w', s') /\ painted B w w' s' B'.
Proof.
  intros Hs Hwf Hm. unfold win_render_fileman.
  generalize [ln "  EponaOS File Manager"; txt "  --------------------" ++ [10; 10]; ln "  /"]. intros ts.
  destruct (fill_ok W H B CLR_WINDOWBG w (sh_gpu s) (so_gpu _ _ _ s Hs) Hm) as (l & -> & Hg & Hm1).
  cbn [mbind option_bind]. set (B1 := <[w_buf w := l]> B) in *. set (G := set_bufs B1 (sh_gpu s)) in *.
  pose proof (opened W H B1 w Hm1 0 0 0x00 0x07 G Hg ltac:(lia) ltac:(lia)) as Ho.
  destruct (run_prints (window_console _ _ _) _ ts _ Ho) as (g1 & -> & H1). cbn [mbind option_bind].
  destruct (files_readdir [SLASH] (sh_vfs s) (so_vfs _ _ _ s Hs)) as (r & es & v & -> & Hv & He). cbn [mbind option_bind].
  destruct (callbacks_ok (window_console _ _ _) _ es g1 H1 He) as (g2 & -> & H2). cbn [mbind option_bind].
  eexists _, _, _. split; [reflexivity |]. eapply paint_done; [apply ok_vfs; [exact Hs | done] | exact Hg | done | | done | by destruct w | exact H2].
  intros a Ha. unfold B1. by rewrite lookup_insert_ne.
Qed.

(** ** Typing *)

Lemma resumed B w s : gui_ok B s -> win_wf w -> win_mem B w ->
  window_console (w_cw w / 8) (w_ch w / 16) (open_window w (sh_gpu s)) (resume_window w (sh_gpu s)).
Proof. intros Hs Hwf Hm. destruct (ww_cursor w Hwf). apply (opened W H B); try done. apply (so_gpu _ _ _ s Hs). Qed.

Lemma mem_open_same w w' g : w' = set_console (w_term w') (w_row w') (w_col w') (w_line w') w -> open_window w' g = open_window w g.
Proof. by intros ->. Qed.

(** A window whose line has been edited. *)
Lemma wline_same l w : let w' := set_wline l w in w' = set_console (w_term w') (w_row w') (w_col w') (w_line w') w.
Proof. done. Qed.

Lemma redraw_paints B w l lft rgt s : gui_ok B s -> win_wf w -> win_mem B w -> line_is SHELL_LINE_MAX l lft rgt -> printable_line lft rgt ->
  exists w' s' B', gui_terminal_redraw_line font (set_wline l w) s = Some (w', s') /\ painted B w w' s' B'.
Proof.
  intros Hs Hwf Hm Hl Hp. unfold gui_terminal_redraw_line.
  assert (win_wf (set_wline l w)) as Hwf1 by (destruct Hwf; split; try done; by exists lft, rgt).
  pose proof (resumed B (set_wline l w) s Hs Hwf1 ltac:(by apply (mem_same B w))) as Hr.
  change (w_line (set_wline l w)) with l. destruct (redraw_ok font (window_console _ _ _) _ l lft rgt _ Hl Hr) as (g1 & -> & H1).
  cbn [mbind option_bind]. pose proof (get_cursor_range g1) as Hc. destruct (gpu_get_cursor g1) as [row col]. cbn [fst snd] in Hc.
  eexists _, _, _. split; [reflexivity |].
  eapply paint_done; [exact Hs | exact (so_gpu _ _ _ s Hs) | exact Hm | done | | reflexivity | exact H1].
  destruct Hwf1. by split.
Qed.

Lemma window_components w G : screen_ok W H (bufs G) G ->
  components font E fs_of (window_console (w_cw w / 8) (w_ch w / 16) (open_window w G)) V N.
Proof.
  intros HG. split; [typeclasses eauto | | done]. intros g (_ & [B1 B2 B3 B4 B5 B6 B7] & _). unfold gpu_width, gpu_height, gpu_bpp.
  change (g_fb_enabled (open_window w G)) with (g_fb_enabled G) in B1. rewrite B1, (su_on _ _ _ G HG).
  destruct B6 as (-> & -> & _ & ->). destruct (su_front _ _ _ G HG) as [F1 F2 F3 F4 F5 F6].
  cbn [screen_surface s_w s_h s_bpp open_window gpu_begin_target gpu_set_console_viewport set_viewport set_pixels g_fb_width g_fb_height g_fb_bpp] in *.
  unfold is_u64. destruct F4 as [-> | [-> | ->]]; split_and!; lia.
Qed.

Lemma screen_own B g : screen_ok W H B g -> screen_ok W H (bufs g) g.
Proof. intros []. by split. Qed.

Lemma dispatch_paints B w s : gui_ok B s -> win_wf w -> win_mem B w ->
  exists n w' s', gui_dispatch_command font E fs_of w s = Some (n, w', s') /\ (n = Prompt -> exists B', painted B w w' s' B').
Proof.
  intros Hs Hwf Hm. pose proof (resumed B w s Hs Hwf Hm) as Hr. set (G := sh_gpu s) in *.
  pose proof (so_gpu _ _ _ s Hs) as HG. pose proof (window_components w G (screen_own _ _ HG)) as HP.
  destruct (ww_line w Hwf) as (lft & rgt & [Hl (rest & Hb) Hpos Hcp Hnz] & Hpr).
  unfold gui_dispatch_command. set (s1 := shell_set_gui_context 1 _).
  assert (shell_ok (window_console (w_cw w / 8) (w_ch w / 16) (open_window w G)) V N s1) as H1.
  { destruct (gui_gpu B _ _ s Hs Hr). by split. }
  destruct (dispatch_fine font E fs_of _ V N (rev lft ++ rgt) rest s1 H1) as (n & s2 & E2 & H2).
  { split; [| done]. rewrite Hb in Hl. rewrite !zlen_app, zlen_cons in Hl. rewrite zlen_app. pose proof (zlen_nonneg rest). lia. }
  rewrite <- app_assoc in E2. rewrite Hb, E2. cbn [mbind option_bind]. destruct n; try by (eexists _, _, _; split; [reflexivity |]).
  assert (shell_ok (window_console (w_cw w / 8) (w_ch w / 16) (open_window w G)) V N (shell_set_gui_context 0 s2)) as H3 by (destruct H2; by split).
  destruct (prompt_ok font (window_console _ _ _) _ (so_gpu _ _ _ _ H3)) as (g & -> & Hg). cbn [mbind option_bind].
  pose proof (get_cursor_range g) as Hc. destruct (gpu_get_cursor g) as [row col]. cbn [fst snd] in Hc.
  rewrite <- Hb. rewrite put_in by (rewrite Hl; done). cbn [mbind option_bind]. eexists _, _, _. split; [reflexivity |]. intros _. eexists.
  destruct (closed W H B w Hm G g HG Hg) as (Hcl & Ho & Hm'). split; try done.
  - destruct H3. by split.
  - split; [apply (ww_term w Hwf) | done |]. exists [], []. split; [| constructor].
    destruct (l_buf (w_line w)) as [| c b]; [done |]. exact (line_is_intro SHELL_LINE_MAX (0 :: b) [] [] b Hl (Forall_nil_2 _) (Forall_nil_2 _) eq_refl).
  - by apply (mem_same (bufs g) w).
Qed.

(** A key in the text window: the line is edited or a command is run, inside the window. *)
Lemma feed_paints B w c s : gui_ok B s -> win_wf w -> win_mem B w ->
  exists n w' s', win_terminal_feed font E fs_of w c s = Some (n, w', s') /\ (n = Prompt -> exists B', painted B w w' s' B').
Proof.
  intros Hs Hwf Hm. destruct (ww_line w Hwf) as (lft & rgt & Hl & Hp). unfold win_terminal_feed.
  assert (exists B', painted B w w s B') as Hstay by (exists B; split; try done; by destruct w).
  assert (forall l lf rg, line_is SHELL_LINE_MAX l lf rg -> printable_line lf rg ->
    exists n w' s', (r ← gui_terminal_redraw_line font (set_wline l w) s; Some (Prompt, fst r, snd r)) = Some (n, w', s') /\
      (n = Prompt -> exists B', painted B w w' s' B')) as Hedit.
  { intros l lf rg Hl' Hp'. destruct (redraw_paints B w l lf rg s Hs Hwf Hm Hl' Hp') as (w' & s' & B' & -> & HP). cbn [mbind option_bind fst snd].
    eexists _, _, _. split; [reflexivity |]. intros _. by exists B'. }
  destruct (w_line w) as [buf pos cpos] eqn:El. destruct Hl as [Hlen (rest & Hb) Hpos Hcpos [Hz1 Hz2]]. cbn [l_buf l_pos l_cpos] in *. subst pos cpos.
  assert (line_is SHELL_LINE_MAX (Line buf (zlen lft + zlen rgt) (zlen lft)) lft rgt) as Hli by (split; try done; by exists rest).
  destruct (c =? 10).
  { pose proof (resumed B w s Hs Hwf Hm) as Hr. pose proof (so_gpu _ _ _ s Hs) as HG.
    destruct (term_putc_ok font (window_console _ _ _) 13 _ _ (ww_term w Hwf) Hr) as (x1 & g1 & -> & Hx1 & Hg1). cbn [mbind option_bind].
    destruct (term_putc_ok font (window_console _ _ _) 10 _ _ Hx1 Hg1) as (x2 & g2 & -> & Hx2 & Hg2). cbn [mbind option_bind].
    pose proof (get_cursor_range g2) as Hc. destruct (gpu_get_cursor g2) as [row col]. cbn [fst snd] in Hc. rewrite <- El.
    assert (painted B w (set_console x2 row col (w_line w) w) (set_gpu (close_window g2) s) (bufs g2)) as P1.
    { eapply paint_done; [exact Hs | exact HG | exact Hm | done | | reflexivity | exact Hg2]. split; [done | done |]. apply (ww_line w Hwf). }
    destruct (dispatch_paints (bufs g2) _ _ (pt_shell _ _ _ _ _ P1) (pt_wf _ _ _ _ _ P1) (pt_mem _ _ _ _ _ P1)) as (n & w' & s' & E' & HP).
    exists n, w', s'. split; [exact E' |]. intros Hn. destruct (HP Hn) as [B' P2]. exists B'. by eapply painted_trans. }
  assert (forall x l, printable_line (x :: l) rgt -> printable_line l (x :: rgt)) as Hsh by (unfold printable_line; intros x l; cbn [rev]; by rewrite <- app_assoc).
  destruct (c =? 8).
  { destruct (Z.ltb_spec 0 (zlen lft)); [| eexists _, _, _; split; [reflexivity | done]]. rewrite <- El.
    destruct (backspace_line SHELL_LINE_MAX (w_line w) lft rgt) as (l' & -> & Hl'); [by rewrite El |]. cbn [mbind option_bind]. apply (Hedit _ _ _ Hl').
    unfold printable_line in *. destruct lft as [| x lft]; [done |]. cbn [tail rev] in *. rewrite <- app_assoc in Hp.
    apply Forall_app in Hp as [Hp1 Hp2]. apply Forall_app. split; [done | by apply Forall_cons in Hp2 as [_ ?]]. }
  destruct (c =? KEY_DEL).
  { rewrite <- El. destruct (delete_line SHELL_LINE_MAX (w_line w) lft rgt) as (l' & -> & Hl'); [by rewrite El |]. cbn [mbind option_bind]. apply (Hedit _ _ _ Hl').
    unfold printable_line in *. apply Forall_app in Hp as [Hp1 Hp2]. apply Forall_app. split; [done |]. destruct rgt; [done |]. by apply Forall_cons in Hp2 as [_ ?]. }
  destruct (c =? 9); [eexists _, _, _; split; [reflexivity | done] |].
  destruct (c =? KEY_LEFT).
  { destruct (Z.ltb_spec 0 (zlen lft)); [| eexists _, _, _; split; [reflexivity | done]]. destruct lft as [| x lft]; [done |].
    apply (Hedit _ lft (x :: rgt)); [| by apply Hsh]. apply Forall_cons in Hz1 as [Hx Hz1]. split; cbn [l_buf l_pos l_cpos]; rewrite ?zlen_cons; try lia.
    - exists rest. rewrite Hb. cbn [rev]. by rewrite <- app_assoc.
    - split; [done | by constructor]. }
  destruct (c =? KEY_RIGHT).
  { destruct (Z.ltb_spec (zlen lft) (zlen lft + zlen rgt)); [| eexists _, _, _; split; [reflexivity | done]].
    destruct rgt as [| x rgt]; [change (@zlen Z []) with 0 in *; lia |]. apply Forall_cons in Hz2 as [Hx Hz2].
    apply (Hedit _ (x :: lft) rgt).
    - split; cbn [l_buf l_pos l_cpos]; rewrite ?zlen_cons; try lia; [exists rest; rewrite Hb; cbn [rev]; by rewrite <- app_assoc | split; [by constructor | done]].
    - unfold printable_line in *. cbn [rev]. by rewrite <- app_assoc. }
  destruct (c =? KEY_HOME).
  { apply (Hedit _ [] (rev lft ++ rgt)); [| done]. split; cbn [l_buf l_pos l_cpos rev app]; [done | | rewrite zlen_app, zlen_rev; change (@zlen Z []) with 0; lia | done |].
    - exists rest. by rewrite <- app_assoc.
    - split; [constructor |]. apply Forall_app. split; [by apply Forall_rev | done]. }
  destruct (c =? KEY_END).
  { apply (Hedit _ (rev rgt ++ lft) []).
    - split; cbn [l_buf l_pos l_cpos]; [done | | rewrite zlen_app, zlen_rev; change (@zlen Z []) with 0; lia | rewrite zlen_app, zlen_rev; lia |].
      + exists rest. rewrite rev_app_distr, rev_involutive. by rewrite <- app_assoc.
      + split; [| constructor]. apply Forall_app. split; [by apply Forall_rev | done].
    - unfold printable_line in *. rewrite rev_app_distr, rev_involutive, app_nil_r. done. }
  destruct ((32 <=? c) && (c <? 127)) eqn:Ec; cbn [andb]; [| eexists _, _, _; split; [reflexivity | done]].
  destruct (Z.ltb_spec (zlen lft + zlen rgt) (SHELL_LINE_MAX - 1)) as [Hroom |]; [| eexists _, _, _; split; [reflexivity | done]].
  rewrite <- El. destruct (insert_line SHELL_LINE_MAX c (w_line w) lft rgt) as (l' & -> & Hl'); [by rewrite El | done | lia |]. cbn [mbind option_bind].
  apply (Hedit _ _ _ Hl'). unfold printable_line in *. cbn [rev]. rewrite <- app_assoc. apply Forall_app in Hp as [Hp1 Hp2].
  apply Forall_app. split; [done |]. by constructor.
Qed.
End contents.
