(* ===== verification/Cursor.v ===== *)
(** * Mouse cursors from files (src/drivers/cursor.c)

    The reader of .cur files, over the file layer and its heap, and the blending of a cursor
    with the screen. What a file's bytes are is the answer of the filesystem; an access
    outside the block that holds the picture is [None]. *)

From S2P Require Import Prelude Memory Heap Sched Vfs Gpu.

Definition CURSOR_MAX_W : Z := 64.
Definition CURSOR_MAX_H : Z := 64.

Record cursor := Cursor { c_width : Z; c_height : Z; c_hot_x : Z; c_hot_y : Z; c_pixels : list Z }.
Definition set_hot x y (c : cursor) : cursor := Cursor (c_width c) (c_height c) x y (c_pixels c).
Definition set_area w h (c : cursor) : cursor := Cursor w h (c_hot_x c) (c_hot_y c) (c_pixels c).
Definition set_picture p (c : cursor) : cursor := Cursor (c_width c) (c_height c) (c_hot_x c) (c_hot_y c) p.

(** sizeof, and the fields that are used. *)
Definition ICO_HEADER : Z := 6.
Definition ICO_ENTRY : Z := 16.
Definition BMP_HEADER : Z := 40.
Definition ico_type (d : list Z) : Z := load16 d 2.
Definition ico_count (d : list Z) : Z := load16 d 4.
Definition entry_hotspot_x (d : list Z) : Z := load16 d 4.
Definition entry_hotspot_y (d : list Z) : Z := load16 d 6.
Definition entry_data_offset (d : list Z) : Z := load32 d 12.
Definition bmp_width (d : list Z) : Z := load32 d 4.
Definition bmp_height (d : list Z) : Z := load32 d 8.
Definition bmp_bpp (d : list Z) : Z := load16 d 14.

Definition row_size (w bpp : Z) : Z := u32 (u32 (u32 (w * bpp) + 31) / 32 * 4).

(** The rows are stored from the last to the first. *)
Definition copy_pixel (data : list Z) (w h rs y x : Z) (px : list Z) : option (list Z) :=
  let at_ := u32 (u32 ((h - 1 - y) * rs) + x * 4) in
  b ← zlook data at_; g ← zlook data (at_ + 1); r ← zlook data (at_ + 2); a ← zlook data (at_ + 3);
  put px (y * w + x) (Z.lor (Z.lor (Z.lor (Z.shiftl a 24) (Z.shiftl r 16)) (Z.shiftl g 8)) b).
Definition copy_picture (data : list Z) (w h rs : Z) (px : list Z) : option (list Z) :=
  loopM (Z.to_nat h) 0 (fun y px => loopM (Z.to_nat w) 0 (fun x px => copy_pixel data w h rs y x px) px) px.

Section load.
Context {D : Type} (fs_of : Z -> option (filesystem D)).

Definition seek (f off : Z) (s : vst D) : option (vst D) :=
  fl ← files s !! f; Some (set_files (<[f := File (f_node fl) off]> (files s)) s).

(** The picture behind the two headers; [f] stays open. *)
Definition load_picture (f : Z) (out : cursor) (s : vst D) : option (Z * cursor * vst D) :=
  r ← vfs_read fs_of f ICO_HEADER s;
  let '(n, ico, s) := (r : Z * list Z * vst D) in
  if n <? ICO_HEADER then Some (-1, out, s)
  else if negb (ico_type ico =? 2) || (ico_count ico =? 0) then Some (-1, out, s)
  else
    r ← vfs_read fs_of f ICO_ENTRY s;
    let '(n, entry, s) := (r : Z * list Z * vst D) in
    if n <? ICO_ENTRY then Some (-1, out, s)
    else
      let out := set_hot (entry_hotspot_x entry) (entry_hotspot_y entry) out in
      s ← seek f (entry_data_offset entry) s;
      r ← vfs_read fs_of f BMP_HEADER s;
      let '(n, bmp, s) := (r : Z * list Z * vst D) in
      if n <? BMP_HEADER then Some (-1, out, s)
      else
        let w := bmp_width bmp in
        let h := bmp_height bmp / 2 in
        if (CURSOR_MAX_W <? w) || (CURSOR_MAX_H <? h) || (w =? 0) || (h =? 0) then Some (-1, out, s)
        else
          let out := set_area (u16 w) (u16 h) out in
          let rs := row_size w (bmp_bpp bmp) in
          let xor_size := u32 (rs * h) in
          r ← kmalloc xor_size (v_heap s);
          let '(xor_data, hp) := (r : Z * heap) in
          let s := set_vheap hp s in
          if negb (istrue xor_data) then Some (-1, out, s)
          else
            r ← vfs_read fs_of f xor_size s;
            let '(n, data, s) := (r : Z * list Z * vst D) in
            if n <? s32 xor_size then Some (-1, out, set_vheap (kfree xor_data (v_heap s)) s)
            else
              px ← copy_picture (take (Z.to_nat xor_size) data) w h rs (c_pixels out);
              Some (0, set_picture px out, set_vheap (kfree xor_data (v_heap s)) s).

(** [out] is null or a cursor. *)
Definition cursor_load (path : list Z) (out : option cursor) (s : vst D) : option (Z * option cursor * vst D) :=
  match out with
  | None => Some (-1, None, s)
  | Some c =>
      r ← vfs_open fs_of path s;
      let '(f, s) := (r : Z * vst D) in
      if negb (istrue f) then Some (-1, Some c, s)
      else
        r ← load_picture f c s;
        let '(ret, c, s) := (r : Z * cursor * vst D) in Some (ret, Some c, vfs_close f s)
  end.
End load.

(** ** On the screen *)

Definition channel (v shift : Z) : Z := Z.land (Z.shiftr v shift) 0xFF.
Definition mix (a bg fg : Z) : Z := (bg * (255 - a) + fg * a) / 255.
Definition blend (argb bg : Z) : Z :=
  let a := u8 (Z.shiftr argb 24) in
  Z.lor (Z.lor (Z.shiftl (mix a (channel bg 16) (channel argb 16)) 16) (Z.shiftl (mix a (channel bg 8) (channel argb 8)) 8))
    (mix a (channel bg 0) (channel argb 0)).
Definition render_pixel (cur : cursor) (x y py px : Z) (g : gpu) : option gpu :=
  argb ← zlook (c_pixels cur) (py * c_width cur + px);
  if u8 (Z.shiftr argb 24) <? 200 then Some g
  else
    bg ← gpu_get_pixel (u16 (x + px)) (u16 (y + py)) g;
    gpu_put_pixel (u16 (x + px)) (u16 (y + py)) (blend argb bg) g.
Definition cursor_render (cur : cursor) (x y : Z) (g : gpu) : option gpu :=
  loopM (Z.to_nat (c_height cur)) 0 (fun py g => loopM (Z.to_nat (c_width cur)) 0 (fun px g => render_pixel cur x y py px g) g) g.

(** ** The picture *)

Definition argb_at (data : list Z) (i : Z) : Z :=
  Z.lor (Z.lor (Z.lor (Z.shiftl data.[i + 3] 24) (Z.shiftl data.[i + 2] 16)) (Z.shiftl data.[i + 1] 8)) data.[i].

Lemma copy_pixel_in data w h rs y x px : 1 <= w <= 64 -> 1 <= h <= 64 -> 4 * w <= rs <= 1048576 -> zlen data = rs * h -> 0 <= y < h -> 0 <= x < w -> w * h <= zlen px ->
  copy_pixel data w h rs y x px = Some (px.[y * w + x <- argb_at data ((h - 1 - y) * rs + 4 * x)]).
Proof.
  intros Hw Hh Hr Hl Hy Hx Hp. unfold copy_pixel. assert (0 <= (h - 1 - y) * rs /\ (h - 1 - y) * rs + rs <= rs * h) as [B1 B2] by nia.
  assert ((h - 1 - y) * rs <= 64 * 1048576) as B3 by nia. set (o := (h - 1 - y) * rs) in *. clearbody o.
  assert (u32 (u32 o + x * 4) = o + 4 * x) as -> by (unfold u32; rewrite (Z.mod_small o) by lia; rewrite Z.mod_small by lia; lia). cbv zeta.
  rewrite !zlook_get by lia. cbn [mbind option_bind]. unfold argb_at. apply put_in. nia.
Qed.

(** Pixel (x, y) of the cursor is pixel (x, h - 1 - y) of the file; the rest of the array is kept. *)
Lemma copy_picture_spec data w h rs px : 1 <= w <= 64 -> 1 <= h <= 64 -> 4 * w <= rs <= 1048576 -> zlen data = rs * h -> w * h <= zlen px ->
  exists px', copy_picture data w h rs px = Some px' /\ zlen px' = zlen px /\
    (forall y x, 0 <= y < h -> 0 <= x < w -> zlook px' (y * w + x) = Some (argb_at data ((h - 1 - y) * rs + 4 * x))) /\
    (forall k, w * h <= k -> zlook px' k = zlook px k).
Proof.
  intros Hw Hh Hr Hl Hp. unfold copy_picture.
  destruct (grid_inv (fun yy xx d => zlen d = zlen px /\
      (forall y x, 0 <= y -> 0 <= x < w -> (y < yy \/ (y = yy /\ x < xx)) -> zlook d (y * w + x) = Some (argb_at data ((h - 1 - y) * rs + 4 * x))) /\
      (forall k, w * h <= k -> zlook d k = zlook px k))
    (fun y x px => copy_pixel data w h rs y x px) h w px) as (px' & E & H1 & H2 & H3); [lia | lia | split; [done |]; split; [intros; lia | done] | | |].
  - intros yy xx d Hy Hx (H1 & H2 & H3). rewrite copy_pixel_in by (done || lia). eexists. split; [done |]. assert (0 <= yy * w + xx < w * h) as Hr2 by nia.
    split; [by rewrite zset_zlen |]. split.
    + intros y x Hy' Hx' Hyx. rewrite zlook_zset by lia. destruct (Z.eqb_spec (yy * w + xx) (y * w + x)) as [Ec |].
      * apply cell_inj in Ec as [-> ->]; [done | lia | lia].
      * apply H2; [done | done |]. destruct Hyx as [| [-> Hyx]]; [by left | right]. split; [done |]. assert (x <> xx) by (intros ->; done). lia.
    + intros k Hk. rewrite zlook_zset_ne by lia. by apply H3.
  - intros yy d Hy (H1 & H2 & H3). split; [done |]. split; [| done]. intros y x Hy' Hx' Hyx. apply H2; [done | done |]. lia.
  - exists px'. split; [exact E |]. split; [done |]. split; [| done]. intros y x Hy Hx. apply H2; [lia | done | lia].
Qed.

Lemma loopM_none {S} (body : Z -> S -> option S) n j : forall i s, i <= j < i + Z.of_nat n -> (forall s, body j s = None) -> loopM n i body s = None.
Proof.
  induction n as [| n IH]; intros i s Hj Hb; [lia |]. cbn [loopM]. destruct (Z.eq_dec i j) as [-> |]; [by rewrite Hb |].
  destruct (body i s) as [s' |]; [| done]. cbn [mbind option_bind]. apply IH; [lia | done].
Qed.

Lemma row_size_24 w : 4 <= w <= 64 -> row_size w 24 < 4 * w.
Proof. intros Hw. unfold row_size, u32. rewrite !Z.mod_small by lia. lia. Qed.

(** Also: the reader takes four bytes for each pixel, whatever the picture's depth: a picture whose
    rows are shorter, such as every one of 24 bits per pixel that is at least 4 pixels wide, is
    read beyond the end of the block it was loaded to. *)
Theorem cursor_overread (data px : list Z) (w h bpp : Z) (Hw : 1 <= w <= 64) (Hh : 1 <= h <= 64) (Hl : zlen data = row_size w bpp * h) (Hr : row_size w bpp < 4 * w) :
  copy_picture data w h (row_size w bpp) px = None /\ (4 <= w -> row_size w 24 < 4 * w).
Proof.
  split; [| intros H4; apply row_size_24; lia]. unfold copy_picture. set (rs := row_size w bpp) in *. assert (0 <= rs) as H0 by (unfold rs, row_size, u32; lia). clearbody rs.
  apply loopM_none with (j := 0); [lia |]. intros s. apply loopM_none with (j := w - 1); [lia |]. intros s'. unfold copy_pixel.
  assert (0 <= (h - 1) * rs <= 63 * 256) as B by nia. assert ((h - 1) * rs + rs = rs * h) as B2 by lia. rewrite Z.sub_0_r. set (o := (h - 1) * rs) in *. clearbody o.
  assert (u32 (u32 o + (w - 1) * 4) = o + 4 * (w - 1)) as -> by (unfold u32; rewrite (Z.mod_small o) by lia; rewrite Z.mod_small by lia; lia). cbv zeta.
  rewrite (zlook_out_range data (o + 4 * (w - 1) + 3)) by lia.
  destruct (zlook data (o + 4 * (w - 1))); [| done]. cbn [mbind option_bind]. destruct (zlook data (o + 4 * (w - 1) + 1)); [| done]. cbn [mbind option_bind].
  destruct (zlook data (o + 4 * (w - 1) + 2)); done.
Qed.

(** ** Blending *)

Lemma mix_between a bg fg : 0 <= a <= 255 -> Z.min bg fg <= mix a bg fg <= Z.max bg fg.
Proof.
  intros Ha. unfold mix. split.
  - apply Z.div_le_lower_bound; [lia |]. nia.
  - apply Z.div_le_upper_bound; [lia |]. nia.
Qed.
Lemma channel_range v k : 0 <= channel v k < 256.
Proof. unfold channel. change 0xFF with (Z.ones 8). rewrite Z.land_ones by lia. apply Z.mod_pos_bound. lia. Qed.
Lemma mix_byte a v w k j : 0 <= a <= 255 -> is_byte (mix a (channel v k) (channel w j)).
Proof. intros Ha. pose proof (mix_between a (channel v k) (channel w j) Ha). pose proof (channel_range v k). pose proof (channel_range w j). unfold is_byte. lia. Qed.
Lemma blend_range argb bg : 0 <= blend argb bg < 16777216.
Proof.
  unfold blend. cbv zeta. pose proof (u8_range (Z.shiftr argb 24)) as Ha. set (a := u8 _) in *. clearbody a.
  pose proof (mix_byte a bg argb 16 16 ltac:(lia)) as B1. pose proof (mix_byte a bg argb 8 8 ltac:(lia)) as B2. pose proof (mix_byte a bg argb 0 0 ltac:(lia)) as B3.
  rewrite rgb_of_bytes by done. unfold is_byte in *. lia.
Qed.

Lemma screen_target_put g s x y v : screen_target g s -> 0 <= x -> 0 <= y -> 0 <= v < 16777216 ->
  exists g' s', gpu_put_pixel x y v g = Some g' /\ screen_target g' s' /\ same_geo s s' /\
    forall i j, on_surface s i j -> fb_get_pixel i j s' = if (i =? x) && (j =? y) then Some v else fb_get_pixel i j s.
Proof.
  intros [Hon Ht [Ew Eh] Hs Htc] Hx Hy Hv. unfold gpu_put_pixel, if_fb. rewrite Hon. unfold draw. rewrite Ht. cbn [mbind option_bind].
  assert (exists s', fb_put_pixel x y v s = Some s' /\ same_geo s s' /\
    forall i j, on_surface s i j -> fb_get_pixel i j s' = if (i =? x) && (j =? y) then Some v else fb_get_pixel i j s) as (s' & E & Hg & Hp).
  { destruct (decide (x < s_w s /\ y < s_h s)) as [[Lx Ly] | Hout]; [apply put_pixel_get; done || (split; lia) |].
    exists s. split; [unfold fb_put_pixel; destruct (Z.leb_spec (s_w s) x), (Z.leb_spec (s_h s) y); try done; lia |]. split; [done |].
    intros i j [Hi Hj]. destruct (Z.eqb_spec i x), (Z.eqb_spec j y); cbn [andb]; [lia | done..]. }
  rewrite E. cbn [mbind option_bind]. exists (store_target (s_bytes s') g), s'. split; [done |].
  assert (with_bytes (s_bytes s') s = s') as Eb by (destruct Hg as [Eg _]; by rewrite <- Eg).
  assert (s_w s' = s_w s /\ s_h s' = s_h s /\ s_bpp s' = s_bpp s) as (W & Hh & B) by (destruct Hg as [-> _]; done).
  assert (forall l, istrue (g_fb_enabled (store_target l g)) = true /\ g_fb_width (store_target l g) = g_fb_width g /\ g_fb_height (store_target l g) = g_fb_height g) as Hf.
  { intros l. unfold store_target. destruct (istrue (g_render_target g)); [done |]. destruct (g_fb_back g); [destruct (istrue (g_target_back g)) |]; done. }
  split; [| by split]. destruct (Hf (s_bytes s')) as (F1 & F2 & F3). split; [done | | rewrite F2, F3; by split; congruence | by eapply same_geo_ok | unfold true_color in *; by rewrite B].
  rewrite (target_stored g s) by done. by rewrite Eb.
Qed.

(** A pixel under the cursor, as it is shown. *)
Definition shown (cur : cursor) (x y i j : Z) (old : option Z) : option Z :=
  let argb := (c_pixels cur).[(j - y) * c_width cur + (i - x)] in
  if u8 (Z.shiftr argb 24) <? 200 then old else bg ← old; Some (blend argb bg).
Definition cursor_ok (cur : cursor) : Prop := 0 <= c_width cur <= 64 /\ 0 <= c_height cur <= 64 /\ c_width cur * c_height cur <= zlen (c_pixels cur).

Definition partly_shown (cur : cursor) (s : surface) (x y yy xx : Z) (g : gpu) : Prop :=
  exists t, screen_target g t /\ same_geo s t /\ forall i j, on_surface s i j ->
    fb_get_pixel i j t = if copied x y (c_width cur) (c_height cur) yy xx i j then shown cur x y i j (fb_get_pixel i j s) else fb_get_pixel i j s.

Lemma get_pixel_any g s x y : screen_target g s -> 0 <= x -> 0 <= y -> exists v, gpu_get_pixel x y g = Some v /\ (on_surface s x y -> fb_get_pixel x y s = Some v).
Proof.
  intros [Hon Ht _ Hs Htc] Hx Hy. unfold gpu_get_pixel. rewrite Hon, Ht. cbn [mbind option_bind].
  destruct (decide (x < s_w s /\ y < s_h s)) as [[Lx Ly] | Hout].
  - rewrite get_pixel_in by (done || (split; lia)). cbv zeta. by eexists.
  - exists 0. split; [unfold fb_get_pixel; destruct (Z.leb_spec (s_w s) x), (Z.leb_spec (s_h s) y); try done; lia |]. intros [H1 H2]. lia.
Qed.

Lemma render_step cur s x y yy xx g : surface_ok s -> cursor_ok cur -> 0 <= x -> 0 <= y -> x + c_width cur <= 65536 -> y + c_height cur <= 65536 ->
  0 <= yy < c_height cur -> 0 <= xx < c_width cur -> partly_shown cur s x y yy xx g ->
  exists g', render_pixel cur x y yy xx g = Some g' /\ partly_shown cur s x y yy (xx + 1) g'.
Proof.
  intros Hs [Hw [Hh Hl]] Hx Hy Hxw Hyh Hyy Hxx (t & Ht & Hg & Hp). unfold render_pixel. rewrite zlook_get by nia. cbn [mbind option_bind]. rewrite !u16_id by lia.
  assert (s_w t = s_w s /\ s_h t = s_h s) as [Wt Ht'] by (destruct Hg as [-> _]; done).
  destruct (u8 (Z.shiftr _ 24) <? 200) eqn:Ea.
  - exists g. split; [done |]. exists t. split; [done |]. split; [done |]. intros i j [Hi Hj]. rewrite Hp by done. unfold copied, in_rect.
    destruct (decide (i = x + xx /\ j = y + yy)) as [[-> ->] |]; [| same_test].
    replace (((x <=? x + xx) && (x + xx <? x + c_width cur) && (y <=? y + yy) && (y + yy <? y + c_height cur) && ((y + yy - y <? yy) || (y + yy - y =? yy) && (x + xx - x <? xx + 1)))) with true by lia.
    replace (((x <=? x + xx) && (x + xx <? x + c_width cur) && (y <=? y + yy) && (y + yy <? y + c_height cur) && ((y + yy - y <? yy) || (y + yy - y =? yy) && (x + xx - x <? xx)))) with false by lia.
    unfold shown. replace (y + yy - y) with yy by lia. replace (x + xx - x) with xx by lia. cbv zeta. by rewrite Ea.
  - destruct (get_pixel_any g t (x + xx) (y + yy) Ht) as (v & -> & Hv); [lia | lia |]. cbn [mbind option_bind].
    destruct (screen_target_put g t (x + xx) (y + yy) (blend (c_pixels cur).[yy * c_width cur + xx] v) Ht) as (g' & t' & E & Ht2 & Hg2 & Hp2); [lia | lia | apply blend_range |].
    exists g'. split; [done |]. exists t'. split; [done |]. split; [by etrans |]. intros i j [Hi Hj]. rewrite Hp2 by (split; lia).
    destruct (decide (i = x + xx /\ j = y + yy)) as [[-> ->] |].
    + rewrite !Z.eqb_refl. cbn [andb]. unfold copied, in_rect.
      replace (((x <=? x + xx) && (x + xx <? x + c_width cur) && (y <=? y + yy) && (y + yy <? y + c_height cur) && ((y + yy - y <? yy) || (y + yy - y =? yy) && (x + xx - x <? xx + 1)))) with true by lia.
      unfold shown. replace (y + yy - y) with yy by lia. replace (x + xx - x) with xx by lia. cbv zeta. rewrite Ea.
      specialize (Hp (x + xx) (y + yy) ltac:(split; lia)). rewrite Hv in Hp by (split; lia). unfold copied, in_rect in Hp.
      replace (((x <=? x + xx) && (x + xx <? x + c_width cur) && (y <=? y + yy) && (y + yy <? y + c_height cur) && ((y + yy - y <? yy) || (y + yy - y =? yy) && (x + xx - x <? xx)))) with false in Hp by lia.
      by rewrite <- Hp.
    + destruct (Z.eqb_spec i (x + xx)) as [Ei |], (Z.eqb_spec j (y + yy)) as [Ej |]; cbn [andb]; [lia | | |]; rewrite Hp by (split; lia); unfold copied, in_rect; same_test.
Qed.

(** Also: drawing a cursor never fails, changes only the pixels of the screen under it, leaves those
    where it is nearly transparent, and each colour of the others becomes a mixture that lies
    between the colour that was there and the cursor's. *)
Theorem cursor_render_spec (cur : cursor) (g : gpu) (s : surface) (x y : Z) (Hc : cursor_ok cur) (Hg : screen_target g s)
    (Hx : 0 <= x) (Hy : 0 <= y) (Hxw : x + c_width cur <= 65536) (Hyh : y + c_height cur <= 65536) :
  (exists g' t, cursor_render cur x y g = Some g' /\ fb_target g' = Some t /\ same_geo s t /\
    forall i j, on_surface s i j -> fb_get_pixel i j t =
      if in_rect x y (c_width cur) (c_height cur) i j then shown cur x y i j (fb_get_pixel i j s) else fb_get_pixel i j s) /\
  forall a bg fg, 0 <= a <= 255 -> Z.min bg fg <= mix a bg fg <= Z.max bg fg /\ mix 255 bg fg = fg.
Proof.
  split; [| intros a bg fg Ha; split; [by apply mix_between | unfold mix; rewrite Z.sub_diag, Z.mul_0_r, Z.add_0_l; apply Z.div_mul; lia]].
  pose proof Hc as [Hw [Hh _]]. unfold cursor_render.
  destruct (grid_inv (partly_shown cur s x y) (fun py px g => render_pixel cur x y py px g) (c_height cur) (c_width cur) g) as (g' & E & t & Ht & Hgeo & Hp); [lia | lia | | | |].
  - exists s. split; [done |]. split; [done |]. intros i j [Hi Hj]. unfold copied, in_rect. same_test.
  - intros yy xx h Hyy Hxx HP. apply render_step; try done. apply (st_ok _ _ Hg).
  - intros yy h Hyy (t & Ht & Hgeo & Hp). exists t. split; [done |]. split; [done |]. intros i j Hij. rewrite Hp by done. unfold copied, in_rect. same_test.
  - exists g', t. split; [exact E |]. split; [apply (st_target _ _ Ht) |]. split; [done |]. intros i j Hij. rewrite Hp by done. destruct Hij as [Hi Hj]. unfold copied, in_rect. same_test.
Qed.

(** ** Examples *)

Definition cursor_ex : cursor := Cursor 2 2 0 0 [0xFF102030; 0x00FFFFFF; 0xC8FFFFFF; 0xFF000000].
Lemma cursor_render_spec_witness : exists g', cursor_render cursor_ex 3 4 (gpu_ex 1) = Some g' /\ mix 255 7 9 = 9.
Proof.
  assert (screen_target (gpu_ex 1) surface_ex) as Hg by (split; [done | done | done | exact surface_ex_ok | by right]).
  assert (cursor_ok cursor_ex) as Hc by (split; [cbn; lia | split; [cbn; lia | done]]).
  destruct (cursor_render_spec cursor_ex (gpu_ex 1) surface_ex 3 4 Hc Hg ltac:(lia) ltac:(lia) ltac:(cbn; lia) ltac:(cbn; lia)) as [(g' & t & E & _) Hm].
  exists g'. split; [exact E | apply (Hm 255 7 9); lia].
Defined.
Lemma cursor_overread_witness : copy_picture (replicate 24 7) 8 1 (row_size 8 24) (replicate 4096 0) = None /\ row_size 8 24 < 4 * 8.
Proof. destruct (cursor_overread (replicate 24 7) (replicate 4096 0) 8 1 24) as [E H]; [lia | lia | done | done |]. split; [exact E | apply H; lia]. Defined.
