(* ===== verification/GuiRun.v ===== *)
(** * Desktop: the loop (src/kernel/gui.c, gui_run_desktop)

    One turn of the loop of the desktop as a function of what it reads: the timer, the
    clock, the mouse and the keyboard. Windows are opened, raised, dragged and closed, the
    screen is drawn and a key goes to the window that has the focus. A turn goes on, leaves
    the desktop, or comes to something that does not return: the machine is switched off,
    or the text window starts another desktop. Waiting for the next tick has no state. *)

From Stdlib Require Import String Ascii.
From S2P Require Import Prelude Memory Heap UserLib Vfs Rtl8139 Net NetRx Gpu Term LineEdit Input KPath KShell Gui GuiDraw.

Definition CLOCK_TICKS : Z := 100.

Record input := Inp { i_tick : Z; i_cmos : Z -> Z; i_mouse : mouse; i_key : Z }.
Record locals := Locals { now : list Z; last_time : list Z; last_buttons : Z; last_clock_tick : Z }.
Inductive after := Running | Closed | Left_by (n : next).

Section desktop.
Context (font : Z -> Z) (E : facts).
Context {D : Type} (fs_of : Z -> option (filesystem D)).
(** The screen's size, read once. *)
Context (W H : Z).
Local Abbreviation shell := (shell (D := D)).
Implicit Types s : shell.

Record gui := mkGui { u_shell : shell; u_desk : desk; u_arrow : arrow }.
Implicit Types u : gui.
Definition on_gpu (f : gpu -> option gpu) u : option gui :=
  g ← f (sh_gpu (u_shell u)); Some (mkGui (set_gpu g (u_shell u)) (u_desk u) (u_arrow u)).
Definition on_desk (f : desk -> desk) u : gui := mkGui (u_shell u) (f (u_desk u)) (u_arrow u).

(** The window on top is painted, if there is one. *)
Definition render_top (render : window -> shell -> option (window * shell)) (sd : shell * desk) : option (shell * desk) :=
  let '(s, d) := sd in
  let last := g_win_count d - 1 in
  if 0 <=? last then
    r ← win_at d last;
    let '(i, w) := r in
    r ← render w s;
    Some (snd r, set_windows ((g_win d).[i <- fst r]) d)
  else Some sd.

Definition launch (kind : win_kind) (title : list Z) (x y cw ch : Z) (render : window -> shell -> option (window * shell)) u : option gui :=
  r ← win_create kind title x y cw ch (u_shell u, u_desk u);
  r ← render_top render (snd r);
  Some (mkGui (fst r) (snd r) (u_arrow u)).

(** The choices of the menu and of the icons that do something, and the last one, off. *)
Definition open_app (i : Z) u : option gui :=
  if i =? 0 then launch WIN_TERMINAL (txt "Terminal") 200 60 520 300 (win_render_terminal_init font) u
  else if i =? 1 then launch WIN_FILEMAN (txt "File Manager") 150 50 480 320 (win_render_fileman font fs_of) u
  else if i =? 2 then launch WIN_ABOUT (txt "About EponaOS") 350 100 380 240 (win_render_about font) u
  else Some u.
Definition goodbye (time : list Z) u : option gui :=
  on_gpu (fun g =>
    g ← draw_desktop font W H time (u_desk u) g;
    g ← gpu_draw_text font (u16 (W / 2 - 100)) (u16 (H / 2 - 10)) (txt "It is now safe to turn off your computer.") 0xFFFFFF CLR_DESKTOP g;
    gpu_flip g) u.
Definition choose (off : Z) (time : list Z) (i : Z) u : option (option next * gui) :=
  if i =? off then u ← goodbye time u; Some (Some PowerOff, u) else u ← open_app i u; Some (None, u).

(** The item of the menu under the pointer; the fifth is a line of six pixels. *)
Fixpoint menu_find (n : nat) (i iy : Z) (p : gui_pointer) : option Z :=
  match n with
  | O => None
  | S n => if i =? 5 then menu_find n (i + 1) (iy + 6) p
           else if point_in (p_x p) (p_y p) (2 + 2) iy 176 24 then Some i else menu_find n (i + 1) (iy + 24) p
  end.
Definition ICONS : list (Z * Z) := [(20, 20); (90, 20); (160, 20); (230, 20); (300, 20); (20, 90); (90, 90); (160, 90); (230, 90); (300, 90)].
Fixpoint icon_find (i : Z) (l : list (Z * Z)) (p : gui_pointer) : option Z :=
  match l with
  | [] => None
  | (x, y) :: l => if point_in (p_x p) (p_y p) x y 40 60 then Some i else icon_find (i + 1) l p
  end.

(** A click on a window: its close button, its title bar, or the rest of it. *)
Definition click_window (z : Z) (p : gui_pointer) u : option gui :=
  r ← win_at (u_desk u) z;
  let hw := snd r in
  let ow := win_total_w hw in
  if point_in (p_x p) (p_y p) (w_x hw + ow - 18) (w_y hw + 4) 14 14 then
    r ← win_close z (u_shell u, u_desk u);
    let d := snd r in
    Some (mkGui (fst r) (set_focus (if 0 <? g_win_count d then g_win_count d - 1 else -1) d) (u_arrow u))
  else
    d ← win_raise z (u_desk u);
    let d := set_focus (g_win_count d - 1) d in
    let d := if point_in (p_x p) (p_y p) (w_x hw) (w_y hw) ow TITLEBAR_H
             then set_drag (g_focus_zpos d) (p_x p - w_x hw) (p_y p - w_y hw) d else d in
    Some (mkGui (u_shell u) d (u_arrow u)).

(** The results say whether everything is to be drawn again and what does not return. *)
Definition click (time : list Z) (redraw : bool) (p : gui_pointer) u : option (bool * option next * gui) :=
  let d := u_desk u in
  if point_in (p_x p) (p_y p) 2 (H - TASKBAR_H + 3) 50 20
  then Some (true, None, on_desk (set_menu (if istrue (g_menu_open d) then 0 else 1)) u)
  else if istrue (g_menu_open d) then
    match menu_find 7 0 (H - TASKBAR_H - 200 + 24) p with
    | Some i => r ← choose 6 time i (on_desk (set_menu 0) u); Some (true, fst r, snd r)
    | None => Some (true, None, on_desk (set_menu 0) u)
    end
  else
    z ← win_hit_test (p_x p) (p_y p) d;
    if 0 <=? z then u ← click_window z p u; Some (true, None, u)
    else if redraw then Some (true, None, u)
    else match icon_find 0 ICONS p with
         | Some i => r ← choose 9 time i u; Some (true, fst r, snd r)
         | None => Some (false, None, u)
         end.

(** The window that is dragged follows the pointer, inside the screen above the task bar. *)
Definition drag_place (w : window) (p : gui_pointer) (d : desk) : Z * Z :=
  let nx := p_x p - g_drag_dx d in
  let ny := p_y p - g_drag_dy d in
  let nx := if nx <? 0 then 0 else nx in
  let ny := if ny <? 0 then 0 else ny in
  let nx := if W - win_total_w w <? nx then W - win_total_w w else nx in
  let ny := if H - win_total_h w - TASKBAR_H <? ny then H - win_total_h w - TASKBAR_H else ny in
  (nx, ny).
Definition drag (redraw : bool) (p : gui_pointer) u : option (bool * gui) :=
  let d := u_desk u in
  r ← win_at d (g_drag_zpos d);
  let '(i, w) := r in
  let '(nx, ny) := drag_place w p d in
  if negb (nx =? w_x w) || negb (ny =? w_y w)
  then Some (true, on_desk (set_windows ((g_win d).[i <- move_to nx ny w])) u)
  else Some (redraw, u).

Definition redraw_all (time : list Z) (p : gui_pointer) u : option gui :=
  on_gpu (fun g =>
    g ← draw_desktop font W H time (u_desk u) g;
    g ← compose_windows font (u_desk u) g;
    g ← (if istrue (g_menu_open (u_desk u)) then draw_menu_panel font H g else Some g);
    g ← draw_cursor_bitmap (p_x p) (p_y p) g;
    gpu_flip g) u.

(** Only the arrow has moved, from [old] if it was shown. *)
Definition move_arrow (old : option (Z * Z)) (p : gui_pointer) u : option gui :=
  r ← cursor_init (u_arrow u) (v_heap (sh_vfs (u_shell u)));
  let '(a, h) := r in
  let s := set_heap h (u_shell u) in
  a ← save_cursor_bg (p_x p) (p_y p) a (sh_gpu s);
  g ← draw_cursor_bitmap (p_x p) (p_y p) (sh_gpu s);
  let x0 := match old with Some (x, _) => if x <? p_x p then x else p_x p | None => p_x p end in
  let y0 := match old with Some (_, y) => if y <? p_y p then y else p_y p | None => p_y p end in
  let x1 := match old with Some (x, _) => (if p_x p <? x then x else p_x p) + cursor_w | None => p_x p + cursor_w end in
  let y1 := match old with Some (_, y) => (if p_y p <? y then y else p_y p) + cursor_h | None => p_y p + cursor_h end in
  g ← gpu_flip_rect (u16 x0) (u16 y0) (u16 (x1 - x0)) (u16 (y1 - y0)) g;
  Some (mkGui (set_gpu g s) (u_desk u) a).

Fixpoint close_all (n : nat) (sd : shell * desk) : option (shell * desk) :=
  match n with O => Some sd | S n => sd ← win_close (Z.of_nat n) sd; close_all n sd end.
Definition leave u : option gui :=
  r ← close_all (Z.to_nat (g_win_count (u_desk u))) (u_shell u, u_desk u);
  g ← gpu_clear 0x0F 0x00 (gpu_set_target_back 0 (sh_gpu (fst r)));
  Some (mkGui (set_gpu g (fst r)) (snd r) (u_arrow u)).

Definition key (c : Z) u : option (after * gui) :=
  let d := u_desk u in
  if c =? 27 then u ← leave u; Some (Closed, u)
  else if istrue c && (0 <=? g_focus_zpos d) then
    r ← win_at d (g_focus_zpos d);
    let '(i, w) := r in
    if bool_decide (w_kind w = WIN_TERMINAL) then
      r ← win_terminal_feed font E fs_of w c (u_shell u);
      let '(n, w, s) := r in
      let u := mkGui s (set_windows ((g_win d).[i <- w]) d) (u_arrow u) in
      match n with
      | Prompt =>
          u ← on_gpu (fun g => g ← blit_window w g;
                gpu_flip_rect (u16 (win_client_x w)) (u16 (win_client_y w)) (u16 (w_cw w)) (u16 (w_ch w)) g) u;
          Some (Running, u)
      | n => Some (Left_by n, u)
      end
    else Some (Running, u)
  else Some (Running, u).

Definition time_differs (a b : list Z) : bool :=
  negb (a.[0] =? b.[0]) || negb (a.[1] =? b.[1]) || negb (a.[3] =? b.[3]) || negb (a.[4] =? b.[4]).

Definition gui_frame (inp : input) (lo : locals) u : option (after * locals * gui) :=
  let '(t, clock) := if CLOCK_TICKS <=? u64 (i_tick inp - last_clock_tick lo) then (read_time (i_cmos inp), i_tick inp)
                     else (now lo, last_clock_tick lo) in
  let old := if istrue (g_cursor_saved (u_arrow u)) then Some (g_cursor_x (u_arrow u), g_cursor_y (u_arrow u)) else None in
  r ← restore_cursor_bg (u_arrow u) (sh_gpu (u_shell u));
  let u := mkGui (set_gpu (snd r) (u_shell u)) (u_desk u) (fst r) in
  let redraw := time_differs t (last_time lo) in
  let p := read_pointer W H (i_mouse inp) in
  let down := istrue (Z.land (p_buttons p) 1) in
  let was := istrue (Z.land (last_buttons lo) 1) in
  let lo := Locals t (if redraw then t else last_time lo) (p_buttons p) clock in
  let time := read_time (i_cmos inp) in
  r ← (if down && negb was then click time redraw p u
       else if negb down && was then Some (redraw, None, on_desk (fun d => set_drag (-1) (g_drag_dx d) (g_drag_dy d) d) u)
       else if down && (0 <=? g_drag_zpos (u_desk u)) then r ← drag redraw p u; Some (fst r, None, snd r)
       else Some (redraw, None, u));
  let '(redraw, stop, u) := (r : bool * option next * gui) in
  match stop with
  | Some n => Some (Left_by n, lo, u)
  | None =>
      u ← (if redraw then redraw_all time p u else move_arrow old p u);
      r ← key (i_key inp) u;
      Some (fst r, lo, snd r)
  end.

(** The turns, until one is the last. *)
Fixpoint gui_loop (ins : list input) (lo : locals) u : option (after * locals * gui) :=
  match ins with
  | [] => Some (Running, lo, u)
  | i :: ins => r ← gui_frame i lo u; match r with (Running, lo, u) => gui_loop ins lo u | r => Some r end
  end.

(** The first two windows and the first picture. *)
Definition gui_start (tick : Z) (cmos : Z -> Z) u : option (locals * gui) :=
  let s := set_gpu (gpu_set_target_back 1 (sh_gpu (u_shell u))) (u_shell u) in
  let d := u_desk u in
  let d := Desk (map (set_used 0) (g_win d)) (g_zorder d) 0 (-1) (g_drag_dx d) (g_drag_dy d) (g_focus_zpos d) (g_menu_open d) in
  let a := u_arrow u in
  r ← win_create WIN_TERMINAL (txt "Terminal") 200 60 520 300 (s, d);
  let '(ti, sd) := r in
  r ← win_create WIN_ABOUT (txt "About EponaOS") 400 120 380 240 sd;
  let '(ai, (s, d)) := r in
  r ← (if 0 <=? ti then w ← zlook (g_win d) ti; r ← win_render_terminal_init font w s;
         Some (snd r, set_windows ((g_win d).[ti <- fst r]) d) else Some (s, d));
  let '(s, d) := (r : shell * desk) in
  r ← (if 0 <=? ai then w ← zlook (g_win d) ai; r ← win_render_about font w s;
         Some (snd r, set_windows ((g_win d).[ai <- fst r]) d) else Some (s, d));
  let '(s, d) := (r : shell * desk) in
  let d := set_focus (if 0 <? g_win_count d then g_win_count d - 1 else -1) d in
  let time := read_time cmos in
  u ← on_gpu (fun g => g ← draw_desktop font W H time d g; g ← compose_windows font d g; gpu_flip g)
        (mkGui s d (Arrow (g_cursor_bg a) 0 (g_cursor_x a) (g_cursor_y a)));
  Some (Locals time time 0 tick, u).
End desktop.

Definition gui_run_desktop (font : Z -> Z) (E : facts) {D : Type} (fs_of : Z -> option (filesystem D))
    (tick : Z) (cmos : Z -> Z) (ins : list input) (u : gui (D := D)) : option (after * gui (D := D)) :=
  let g := sh_gpu (u_shell u) in
  if negb (istrue (gpu_is_framebuffer_enabled g)) then
    s ← say font (ln "GUI requer framebuffer VBE.") (u_shell u); Some (Closed, mkGui s (u_desk u) (u_arrow u))
  else
    r ← gui_start font (gpu_width g) (gpu_height g) tick cmos u;
    r ← gui_loop font E fs_of (gpu_width g) (gpu_height g) ins (fst r) (snd r);
    Some (fst (fst r), snd r).

(** ** Every turn is safe *)

Definition APP_SIZES : list Z := [520 * 300 * 4; 480 * 320 * 4; 380 * 240 * 4; 12 * 16 * 4].

(** The kernel heap may be given back what was taken from it. *)
Class frees {D : Type} (V : vst D -> Prop) := { free_ok : forall v a, V v -> V (set_vheap (kfree a (v_heap v)) v) }.

Section safe.
Context (font : Z -> Z) (E : facts) {D : Type} (fs_of : Z -> option (filesystem D)).
Context (V : vst D -> Prop) (N : net -> Prop) {HS : services E fs_of V N} {HF : frees V}.
Context (W H : Z).
Implicit Types (s : shell (D := D)) (u : gui (D := D)).
Local Abbreviation gui_shell B := (shell_ok (screen_ok W H B) V N).

Definition arrow_ok (a : arrow) : Prop :=
  (forall bg, g_cursor_bg a = Some bg -> zlen bg = cursor_w * cursor_h) /\ (g_cursor_saved a <> 0 -> g_cursor_bg a <> None).

Record gui_ok (B : gmap Z (list Z)) u : Prop := {
  go_shell : gui_shell B (u_shell u);
  go_desk : desk_ok (u_desk u);
  go_aims : aims_ok (u_desk u);
  go_windows : windows_ok B (u_desk u);
  go_arrow : arrow_ok (u_arrow u) }.

(** A block of each of the sizes that may be asked for is to be had. *)
Definition room u : Prop := forall n, In n APP_SIZES -> exists a h,
  kmalloc n (v_heap (sh_vfs (u_shell u))) = Some (a, h) /\ a <> 0 /\ bufs (sh_gpu (u_shell u)) !! a = None /\
  V (set_vheap h (sh_vfs (u_shell u))).

Lemma windows_update B B' d i w w' : windows_ok B d -> zlook (g_win d) i = Some w -> w_used w <> 0 ->
  win_wf w' -> w' = set_console (w_term w') (w_row w') (w_col w') (w_line w') w \/ (w_buf w' = w_buf w /\ w_used w' = w_used w) ->
  win_mem B' w' -> (forall a, a <> w_buf w -> B' !! a = B !! a) -> windows_ok B' (set_windows ((g_win d).[i <- w']) d).
Proof.
  intros [H1 H2 H3] Hi Hu Hwf Hs Hm Ho. pose proof (zlook_Some_range _ _ _ Hi) as Hr.
  assert (w_buf w' = w_buf w /\ w_used w' = w_used w) as [Eb Eu] by (destruct Hs as [-> | [? ?]]; done).
  assert (forall j v, j <> i -> zlook (g_win d) j = Some v -> w_used v <> 0 -> w_buf v <> w_buf w) as Ha by (intros j v Hj Ev Huv; by eapply (H3 j i)).
  split; cbn [set_windows g_win].
  - intros j v. rewrite zlook_zset by done. destruct (Z.eqb_spec i j); [by intros [= <-] | apply H1].
  - intros j v. rewrite zlook_zset by done. destruct (Z.eqb_spec i j) as [<- | Hj]; [by intros [= <-] |]. intros Ev Huv.
    destruct (H2 j v Ev Huv) as [M1 M2 M3 (l & M4 & M5)]. split; try done. exists l. split; [| done]. rewrite Ho; [done |]. by eapply (Ha j).
  - intros j k v x. rewrite !zlook_zset by done. destruct (Z.eqb_spec i j) as [<- | Hj], (Z.eqb_spec i k) as [<- | Hk].
    + done.
    + intros [= <-] Ex _ Hx _. rewrite Eb. intros Heq. by apply (Ha k x ltac:(done) Ex Hx).
    + intros Ev [= <-] Hv _ _. rewrite Eb. by apply (Ha j v ltac:(done) Ev Hv).
    + apply H3.
Qed.

Lemma windows_order B zs n d : windows_ok B d -> windows_ok B (set_order zs n d).
Proof. intros []. by split. Qed.
Lemma windows_same B d d' : g_win d' = g_win d -> windows_ok B d -> windows_ok B d'.
Proof. intros E0 []. split; by rewrite E0. Qed.

Lemma line_emptied l buf : zlen (l_buf l) = SHELL_LINE_MAX -> put (l_buf l) 0 0 = Some buf -> line_is SHELL_LINE_MAX (Line buf 0 0) [] [].
Proof.
  intros Hl Hp. rewrite put_in in Hp by (rewrite Hl; done). injection Hp as <-. destruct (l_buf l) as [| c b]; [done |].
  exact (line_is_intro SHELL_LINE_MAX (0 :: b) [] [] b Hl (Forall_nil_2 _) (Forall_nil_2 _) eq_refl).
Qed.

Lemma wf_line_len B d i w : windows_ok B d -> zlook (g_win d) i = Some w -> zlen (l_buf (w_line w)) = SHELL_LINE_MAX.
Proof. intros Hw Hi. destruct (ww_line w (wo_wf B d Hw i w Hi)) as (lft & rgt & [Hl _ _ _ _] & _). exact Hl. Qed.

(** A window is made. *)
Lemma create_ok B kind title x y cw ch s d : gui_shell B s -> desk_ok d -> windows_ok B d -> g_win_count d < MAX_WINDOWS ->
  8 <= cw < 16384 -> 16 <= ch < 65536 -> cw * ch * 4 < 4294967296 ->
  (exists a h, kmalloc (cw * ch * 4) (v_heap (sh_vfs s)) = Some (a, h) /\ a <> 0 /\ bufs (sh_gpu s) !! a = None /\ V (set_vheap h (sh_vfs s))) ->
  exists i s' d' B', win_create kind title x y cw ch (s, d) = Some (i, (s', d')) /\ gui_shell B' s' /\ desk_ok d' /\ windows_ok B' d' /\
    order d' = order d ++ [i] /\ g_win_count d' = g_win_count d + 1 /\ g_focus_zpos d' = g_focus_zpos d /\ g_drag_zpos d' = g_drag_zpos d /\
    (forall z, zlook (order d) z <> None -> zlook (order d') z = zlook (order d) z).
Proof.
  intros Hs Hd Hw Hc Hcw Hch Hsz (a & h & Ek & Ha & Hnew & HV).
  assert (u32 (cw * ch * 4) = cw * ch * 4) as Eu by (apply u32_id; nia).
  destruct (win_create_correct kind title x y cw ch a h s d Hd Hc (fun i w => wf_line_len B d i w Hw) ltac:(by rewrite Eu) Ha)
    as (i & w & buf & d' & Ec & Hi & Hu & Hp & Eg & Eo & En & Hd' & Ef & Edr).
  rewrite Eu in Ec. set (B' := <[a := replicate (Z.to_nat (cw * ch * 4)) 0]> (bufs (sh_gpu s))) in *.
  rewrite (su_bufs _ _ _ _ (so_gpu _ _ _ s Hs)) in Hnew. pose proof (zlook_Some_range _ _ _ Hi) as Hr.
  assert (forall b l, B !! b = Some l -> B' !! b = Some l) as HB.
  { intros b l Hb. unfold B'. rewrite (su_bufs _ _ _ _ (so_gpu _ _ _ s Hs)). rewrite lookup_insert_ne; [done |]. intros ->. congruence. }
  eexists i, _, d', B'. split; [exact Ec |]. split; [| split; [done | split; [| split; [done | split; [done |]]]]].
  - destruct Hs as [S1 S2 S3 S4 S5]. split; try done. cbn [set_gpu sh_gpu]. destruct S1. split; try done.
  - pose proof Hw as [W1 W2 W3]. split; rewrite Eg.
    + intros j v. rewrite zlook_zset by done. destruct (Z.eqb_spec i j); [intros [= <-] | apply W1].
      pose proof (W1 i w Hi) as [T1 T2 T3]. split; [done | done |]. exists [], []. split; [| constructor].
      eapply line_emptied; [by eapply wf_line_len | exact Hp].
    + intros j v. rewrite zlook_zset by done. destruct (Z.eqb_spec i j).
      * intros [= <-] _. split; try done. cbn. eexists. split; [apply lookup_insert_eq |]. rewrite zlen_replicate. lia.
      * intros Ev Hv. destruct (W2 j v Ev Hv) as [M1 M2 M3 (l & M4 & M5)]. split; try done. exists l. split; [by apply HB | done].
    + assert (forall j v, zlook (g_win d) j = Some v -> w_used v <> 0 -> w_buf v <> a) as Hna.
      { intros j v Ev Hv Eq. destruct (W2 j v Ev Hv) as [_ _ _ (l & M4 & _)]. rewrite Eq in M4. congruence. }
      intros j k v z. rewrite !zlook_zset by done. destruct (Z.eqb_spec i j) as [<- | Hj], (Z.eqb_spec i k) as [<- | Hk].
      * done.
      * intros [= <-] Ez _ Hz _. cbn. intros Eq. by apply (Hna k z Ez Hz).
      * intros Ev [= <-] Hv _ _. cbn. by apply (Hna j v).
      * apply W3.
  - split; [done |]. split; [done |]. intros z Hz. rewrite Eo. destruct (zlook (order d) z) as [k |] eqn:Ez; [| done].
    apply zlook_Some_range in Ez as Hrz. rewrite zlook_app_l by lia. done.
Qed.

(** Painting a window of the order. *)
Lemma repaint_ok B z s d (render : window -> shell (D := D) -> option (window * shell (D := D))) :
  gui_shell B s -> desk_ok d -> windows_ok B d -> 0 <= z < g_win_count d ->
  (forall w, win_wf w -> win_mem B w -> exists w' s' B', render w s = Some (w', s') /\ painted V N W H B w w' s' B') ->
  exists i w w' s' B', win_at d z = Some (i, w) /\ render w s = Some (w', s') /\ gui_shell B' s' /\
    desk_ok (set_windows ((g_win d).[i <- w']) d) /\ windows_ok B' (set_windows ((g_win d).[i <- w']) d).
Proof.
  intros Hs Hd Hw Hz Hr. destruct (win_at_ok d z Hd Hz) as (i & w & Ew & _ & Ei & Hu).
  destruct (Hr w (wo_wf B d Hw i w Ei) (wo_mem B d Hw i w Ei Hu)) as (w' & s' & B' & Er & [P1 P2 P3 P4 P5]).
  exists i, w, w', s', B'. split; [done |]. split; [done |]. split; [done |]. split.
  - eapply desk_window; [done | exact Ei |]. by rewrite P3.
  - eapply windows_update; try done. by left.
Qed.

Lemma render_top_ok B s d (render : window -> shell (D := D) -> option (window * shell (D := D))) :
  gui_shell B s -> desk_ok d -> windows_ok B d ->
  (forall w, win_wf w -> win_mem B w -> exists w' s' B', render w s = Some (w', s') /\ painted V N W H B w w' s' B') ->
  exists s' ws B', render_top render (s, d) = Some (s', set_windows ws d) /\ gui_shell B' s' /\
    desk_ok (set_windows ws d) /\ windows_ok B' (set_windows ws d).
Proof.
  intros Hs Hd Hw Hr. unfold render_top. destruct (Z.leb_spec 0 (g_win_count d - 1)).
  - destruct (repaint_ok B (g_win_count d - 1) s d render Hs Hd Hw ltac:(lia) Hr) as (i & w & w' & s' & B' & -> & E1 & H1 & H2 & H3).
    cbn [mbind option_bind]. rewrite E1. cbn [mbind option_bind fst snd]. by eexists s', _, B'.
  - exists s, (g_win d), B. replace (set_windows (g_win d) d) with d by (by destruct d). done.
Qed.

Definition APP_SIZE (cw ch : Z) : Prop := 8 <= cw < 16384 /\ 16 <= ch < 65536 /\ cw * ch * 4 < 4294967296 /\ In (cw * ch * 4) APP_SIZES.

(** An application is opened, or, when there are eight windows, the top one is painted over. *)
Lemma launch_ok B kind title x y cw ch render u : gui_ok B u -> room u -> APP_SIZE cw ch ->
  (forall B s w, gui_shell B s -> win_wf w -> win_mem B w -> exists w' s' B', render w s = Some (w', s') /\ painted V N W H B w w' s' B') ->
  exists u' B', launch kind title x y cw ch render u = Some u' /\ gui_ok B' u' /\ g_win_count (u_desk u) <= g_win_count (u_desk u') /\
    g_focus_zpos (u_desk u') = g_focus_zpos (u_desk u) /\ g_drag_zpos (u_desk u') = g_drag_zpos (u_desk u) /\
    (g_win_count (u_desk u) < MAX_WINDOWS -> exists k, order (u_desk u') = order (u_desk u) ++ [k]).
Proof.
  intros [Hs Hd Ha Hw Har] Hroom (Hcw & Hch & Hsz & Hin) Hr. unfold launch. destruct u as [s d a]. cbn [u_shell u_desk u_arrow] in *.
  destruct (Z.eq_dec (g_win_count d) MAX_WINDOWS) as [Hfull | Hfull].
  - pose proof (slot_spec d Hd) as Hslot. unfold win_create. destruct (find_slot 0 (g_win d)) as [k |]; [lia |]. cbn [mbind option_bind fst snd].
    destruct (render_top_ok B s d render Hs Hd Hw (fun w => Hr B s w Hs)) as (s' & ws & B' & -> & H1 & H2 & H3). cbn [mbind option_bind fst snd].
    eexists _, B'. split; [reflexivity |]. split; [by split |]. do 3 (split; [done |]). cbn [u_desk]. lia.
  - destruct (create_ok B kind title x y cw ch s d Hs Hd Hw) as (i & s1 & d1 & B1 & E1 & Hs1 & Hd1 & Hw1 & Eo & En & Ef & Edr & _); try done.
    { pose proof (dk_count d Hd). lia. } { by apply Hroom. }
    rewrite E1. cbn [mbind option_bind fst snd].
    destruct (render_top_ok B1 s1 d1 render Hs1 Hd1 Hw1 (fun w => Hr B1 s1 w Hs1)) as (s' & ws & B' & -> & H1 & H2 & H3). cbn [mbind option_bind fst snd].
    eexists _, B'. split; [reflexivity |]. cbn [u_desk set_windows g_win_count g_focus_zpos g_drag_zpos]. rewrite En, Ef, Edr.
    split; [| split; [lia | split; [done | split; [done | intros _; by exists i]]]]. split; try done. destruct Ha. split; cbn; lia.
Qed.

Lemma app_ok B i u : gui_ok B u -> room u ->
  exists u' B', open_app font fs_of i u = Some u' /\ gui_ok B' u' /\ g_win_count (u_desk u) <= g_win_count (u_desk u') /\
    g_focus_zpos (u_desk u') = g_focus_zpos (u_desk u) /\ g_drag_zpos (u_desk u') = g_drag_zpos (u_desk u) /\
    (0 <= i <= 2 -> g_win_count (u_desk u) < MAX_WINDOWS -> exists k, order (u_desk u') = order (u_desk u) ++ [k]).
Proof.
  intros Hu Hr. unfold open_app.
  assert (forall kind title x y cw ch render, APP_SIZE cw ch ->
    (forall B s w, gui_shell B s -> win_wf w -> win_mem B w -> exists w' s' B', render w s = Some (w', s') /\ painted V N W H B w w' s' B') ->
    exists u' B', launch kind title x y cw ch render u = Some u' /\ gui_ok B' u' /\ g_win_count (u_desk u) <= g_win_count (u_desk u') /\
      g_focus_zpos (u_desk u') = g_focus_zpos (u_desk u) /\ g_drag_zpos (u_desk u') = g_drag_zpos (u_desk u) /\
      (0 <= i <= 2 -> g_win_count (u_desk u) < MAX_WINDOWS -> exists k, order (u_desk u') = order (u_desk u) ++ [k])) as Hl.
  { intros kind title x y cw ch render Hsz Hre. destruct (launch_ok B kind title x y cw ch render u Hu Hr Hsz Hre) as (u' & B' & E1 & H1 & H2 & H3 & H4 & H5).
    exists u', B'. tauto. }
  destruct (Z.eqb_spec i 0).
  { apply Hl; [split_and!; try lia; cbn; lia |]. intros. by apply (terminal_paints font). }
  destruct (Z.eqb_spec i 1).
  { apply Hl; [split_and!; try lia; cbn; lia |]. intros. by apply (fileman_paints font E). }
  destruct (Z.eqb_spec i 2).
  { apply Hl; [split_and!; try lia; cbn; lia |]. intros. by apply (about_paints font). }
  exists u, B. do 5 (split; [done |]). lia.
Qed.

Lemma on_gpu_ok B f u : gui_ok B u -> safe W H B f ->
  exists u', on_gpu f u = Some u' /\ gui_ok B u' /\ u_desk u' = u_desk u /\ u_arrow u' = u_arrow u /\
    sh_vfs (u_shell u') = sh_vfs (u_shell u).
Proof.
  intros [Hs Hd Ha Hw Har] Hf. unfold on_gpu. destruct (Hf _ (so_gpu _ _ _ _ Hs)) as (g & -> & Hg). cbn [mbind option_bind].
  eexists. split; [reflexivity |]. split; [| done]. split; try done. by apply ok_gpu.
Qed.


Lemma goodbye_ok B time u : gui_ok B u -> exists u', goodbye font W H time u = Some u' /\ gui_ok B u' /\ u_desk u' = u_desk u.
Proof.
  intros Hu. unfold goodbye. generalize (txt "It is now safe to turn off your computer."). intros t.
  destruct (on_gpu_ok B (fun g => g ← draw_desktop font W H time (u_desk u) g;
    g ← gpu_draw_text font (u16 (W / 2 - 100)) (u16 (H / 2 - 10)) t 0xFFFFFF CLR_DESKTOP g; gpu_flip g) u Hu) as (u' & E1 & H1 & E2 & _); [| by exists u'].
  apply (safe_after W H B); [apply safe_desktop, Hu |]. apply (safe_after W H B); [apply safe_text | apply safe_flip].
Qed.

Lemma choose_ok B off time i u : gui_ok B u -> room u -> g_drag_zpos (u_desk u) = -1 ->
  exists o u' B', choose font fs_of W H off time i u = Some (o, u') /\ gui_ok B' u' /\ g_drag_zpos (u_desk u') = -1.
Proof.
  intros Hu Hr Hd. unfold choose. destruct (i =? off) eqn:Ei.
  - destruct (goodbye_ok B time u Hu) as (u' & -> & H1 & E1). cbn [mbind option_bind].
    eexists _, _, B. split; [reflexivity |]. split; [done | congruence].
  - destruct (app_ok B i u Hu Hr) as (u' & B' & -> & H1 & _ & _ & E1 & _). cbn [mbind option_bind].
    eexists _, _, B'. split; [reflexivity |]. split; [done | congruence].
Qed.

(** A window is closed. *)
Lemma close_ok B z s d : gui_shell B s -> desk_ok d -> windows_ok B d -> 0 <= z < g_win_count d ->
  exists s' d' B', win_close z (s, d) = Some (s', d') /\ gui_shell B' s' /\ desk_ok d' /\ windows_ok B' d' /\
    g_win_count d' = g_win_count d - 1 /\ g_drag_zpos d' = g_drag_zpos d /\
    exists a i b, order d = a ++ i :: b /\ zlen a = z /\ order d' = a ++ b.
Proof.
  intros Hs Hd Hw Hz. destruct (win_close_correct z s d Hd Hz) as (a & i & b & w & d' & Eo & Ea & Ei & Hu & Ec & Eg & Eo' & En & Hd' & Ef & Edr).
  pose proof Hw as [W1 W2 W3]. pose proof (W2 i w Ei Hu) as [M1 _ _ _]. rewrite (istrue_neq _ M1) in Ec. pose proof (zlook_Some_range _ _ _ Ei) as Hr.
  eexists _, d', (delete (w_buf w) (bufs (sh_gpu s))). split; [exact Ec |]. split; [| split; [done | split; [| split; [done | split; [done | by exists a, i, b]]]]].
  - destruct Hs as [S1 S2 S3 S4 S5]. split; try done; [| by apply free_ok]. cbn [set_gpu sh_gpu]. destruct S1. split; try done.
  - rewrite (su_bufs _ _ _ _ (so_gpu _ _ _ s Hs)). split; rewrite Eg.
    + intros j v. rewrite zlook_zset by done. destruct (Z.eqb_spec i j); [intros [= <-]; destruct (W1 i w Ei); by split | apply W1].
    + intros j v. rewrite zlook_zset by done. destruct (Z.eqb_spec i j) as [-> | Hj]; [by intros [= <-] |]. intros Ev Hv.
      destruct (W2 j v Ev Hv) as [? ? ? (l & ? & ?)]. split; try done. exists l. split; [| done]. rewrite lookup_delete_ne; [done |].
      by apply (W3 i j w v).
    + intros j k v x. rewrite !zlook_zset by done. destruct (Z.eqb_spec i j), (Z.eqb_spec i k).
      * by intros [= <-] _ Hf.
      * by intros [= <-] _ Hf.
      * by intros _ [= <-] _ Hf.
      * apply W3.
Qed.

Lemma click_window_ok B z p u : gui_ok B u -> 0 <= z < g_win_count (u_desk u) -> g_drag_zpos (u_desk u) = -1 ->
  exists u' B', click_window z p u = Some u' /\ gui_ok B' u'.
Proof.
  intros [Hs Hd Ha Hw Har] Hz Hdr. unfold click_window. destruct (win_at_ok _ z Hd Hz) as (i & w & -> & _ & Ei & Hu). cbn [mbind option_bind snd].
  destruct (point_in _ _ _ _ 14 14).
  - destruct (close_ok B z _ _ Hs Hd Hw Hz) as (s' & d' & B' & -> & H1 & H2 & H3 & H4 & H5 & _). cbn [mbind option_bind fst snd].
    eexists _, B'. split; [reflexivity |]. pose proof (dk_count d' H2). split; cbn [u_shell u_desk u_arrow]; try done; [by apply desk_focus | | eapply windows_same; [| eassumption]; reflexivity].
    split; cbn; [destruct (Z.ltb_spec 0 (g_win_count d')); lia | lia].
  - destruct (win_raise_correct z _ Hd Hz) as (d1 & a & k & b & -> & Eo & Ea & Eo' & En & Ed & Hl). cbn [mbind option_bind].
    assert (desk_ok d1) as Hd1.
    { rewrite Ed. apply desk_reorder; [done | done |]. rewrite <- En. fold (order d1). rewrite Eo', Eo. apply Permutation_app_head. symmetry. apply Permutation_cons_append. }
    assert (windows_ok B d1) as Hw1 by (rewrite Ed; by apply windows_order).
    assert (g_drag_zpos d1 = -1) as Hdr1 by (by rewrite Ed).
    eexists _, B. split; [reflexivity |]. rewrite En. destruct (point_in _ _ _ _ _ TITLEBAR_H); split; cbn [u_shell u_desk u_arrow]; try done.
    + by apply desk_drag, desk_focus.
    + split; cbn; lia.
    + eapply windows_same; [| eassumption]; reflexivity.
    + by apply desk_focus.
    + split; cbn; lia.
    + eapply windows_same; [| eassumption]; reflexivity.
Qed.

Lemma click_ok B time redraw p u : gui_ok B u -> room u -> g_drag_zpos (u_desk u) = -1 ->
  exists r o u' B', click font fs_of W H time redraw p u = Some (r, o, u') /\ gui_ok B' u' /\ (r = false -> u' = u).
Proof.
  intros Hu Hr Hdr. unfold click. assert (forall m, gui_ok B (on_desk (set_menu m) u)) as Hm.
  { intros m. destruct Hu as [Hs Hd Ha Hw Har]. split; cbn [on_desk u_shell u_desk u_arrow]; try done; [by apply desk_menu | eapply windows_same; [| eassumption]; reflexivity]. }
  destruct (point_in _ _ 2 _ 50 20); [eexists _, _, _, B; split; [reflexivity | split; [apply Hm | done]] |].
  destruct (istrue (g_menu_open (u_desk u))).
  - destruct (menu_find _ _ _ _) as [i |]; [| eexists _, _, _, B; split; [reflexivity | split; [apply Hm | done]]].
    destruct (choose_ok B 6 time i _ (Hm 0) Hr Hdr) as (o & u' & B' & -> & H1 & _). cbn [mbind option_bind fst snd].
    eexists _, _, _, B'. split; [reflexivity |]. split; [done | done].
  - destruct (win_hit_test_correct (p_x p) (p_y p) (u_desk u) (go_desk B u Hu)) as (z & -> & Hz). cbn [mbind option_bind].
    destruct (Z.leb_spec 0 z).
    { destruct Hz as [[-> _] | (Hz & _)]; [lia |]. destruct (click_window_ok B z p u Hu Hz Hdr) as (u' & B' & -> & H1). cbn [mbind option_bind].
      by eexists _, _, _, B'. }
    destruct redraw; [by eexists _, _, _, B |]. destruct (icon_find 0 ICONS p) as [i |]; [| by eexists _, _, _, B].
    destruct (choose_ok B 9 time i u Hu Hr Hdr) as (o & u' & B' & -> & H1 & _). cbn [mbind option_bind fst snd].
    eexists _, _, _, B'. split; [reflexivity |]. split; [done | done].
Qed.

Lemma drag_ok B redraw p u : gui_ok B u -> 0 <= g_drag_zpos (u_desk u) ->
  exists r u', drag W H redraw p u = Some (r, u') /\ gui_ok B u' /\ (r = false -> u' = u).
Proof.
  intros Hu Hz. pose proof Hu as [Hs Hd Ha Hw Har]. unfold drag. destruct Ha as [Hf Hdr].
  destruct (win_at_ok _ (g_drag_zpos (u_desk u)) Hd) as (i & w & -> & _ & Ei & Hused); [lia |]. cbn [mbind option_bind].
  destruct (drag_place W H w p (u_desk u)) as [nx ny]. destruct (_ || _); [| by eexists _, u].
  eexists _, _. split; [reflexivity |]. split; [| done]. split; cbn [on_desk u_shell u_desk u_arrow]; try done.
  - by eapply desk_window.
  - destruct (wo_wf B _ Hw i w Ei) as [T1 T2 T3]. destruct (wo_mem B _ Hw i w Ei Hused) as [M1 M2 M3 M4].
    eapply windows_update; try done; by right.
Qed.

Lemma redraw_ok_all B time p u : gui_ok B u -> exists u', redraw_all font W H time p u = Some u' /\ gui_ok B u' /\ u_desk u' = u_desk u.
Proof.
  intros Hu. unfold redraw_all. destruct (on_gpu_ok B (fun g =>
    g ← draw_desktop font W H time (u_desk u) g; g ← compose_windows font (u_desk u) g;
    g ← (if istrue (g_menu_open (u_desk u)) then draw_menu_panel font H g else Some g);
    g ← draw_cursor_bitmap (p_x p) (p_y p) g; gpu_flip g) u Hu) as (u' & E1 & H1 & E2 & _); [| by exists u'].
  apply (safe_after W H B); [apply safe_desktop, Hu |]. apply (safe_after W H B); [by apply safe_compose; apply Hu |].
  apply (safe_after W H B (fun g => if istrue _ then _ else _)); [destruct (istrue _); [apply safe_menu | intros g Hg; by exists g] |].
  apply (safe_after W H B); [apply safe_arrow | apply safe_flip].
Qed.

Lemma arrow_moves B old p u : gui_ok B u -> room u ->
  exists u', move_arrow old p u = Some u' /\ gui_ok B u' /\ u_desk u' = u_desk u.
Proof.
  intros Hu Hr. pose proof Hu as [Hs Hd Ha Hw [Hbg Hsv]]. unfold move_arrow.
  assert (exists a h bg, cursor_init (u_arrow u) (v_heap (sh_vfs (u_shell u))) = Some (a, h) /\ V (set_vheap h (sh_vfs (u_shell u))) /\
    g_cursor_bg a = Some bg /\ zlen bg = cursor_w * cursor_h) as (a & h & bg & -> & HV & Ebg & Hl).
  { unfold cursor_init. destruct (g_cursor_bg (u_arrow u)) as [bg |] eqn:Ebg.
    - exists (u_arrow u), (v_heap (sh_vfs (u_shell u))), bg. split; [done |]. split; [| split; [done | by apply Hbg]].
      replace (set_vheap _ _) with (sh_vfs (u_shell u)) by (by destruct (sh_vfs (u_shell u))). apply (so_vfs _ _ _ _ Hs).
    - destruct (Hr (12 * 16 * 4)) as (a & h & Ek & Hnz & _ & HV); [cbn; tauto |]. change (u32 (cursor_w * cursor_h * 4)) with (12 * 16 * 4).
      rewrite Ek. cbn [mbind option_bind]. rewrite (istrue_neq a Hnz). eexists _, h, _. split; [reflexivity |]. split; [done |]. split; [reflexivity |].
      by rewrite zlen_replicate. }
  cbn [mbind option_bind]. set (s1 := set_heap h (u_shell u)). assert (gui_shell B s1) as Hs1 by (destruct Hs; by split).
  unfold save_cursor_bg. rewrite Ebg. cbn [mbind option_bind].
  destruct (save_region_len W H B (sh_gpu s1) bg (u16 (p_x p)) (u16 (p_y p)) (u16 cursor_w) (u16 cursor_h) (so_gpu _ _ _ _ Hs1)) as (bg' & -> & Hl');
    [rewrite Hl; done | done |]. cbn [mbind option_bind].
  destruct (safe_arrow W H B (p_x p) (p_y p) _ (so_gpu _ _ _ _ Hs1)) as (g1 & -> & H1). cbn [mbind option_bind]. cbv zeta.
  match goal with |- context [gpu_flip_rect (u16 ?x) (u16 ?y) (u16 ?w) (u16 ?h) g1] =>
    destruct (safe_flip_rect W H B (u16 x) (u16 y) (u16 w) (u16 h) (proj1 (u16_range x)) (proj1 (u16_range y)) g1 H1) as (g2 & -> & H2) end.
  cbn [mbind option_bind]. eexists. split; [reflexivity |]. split; [| done].
  split; cbn [u_shell u_desk u_arrow]; try done; [by apply ok_gpu |]. split; cbn; [intros b [= <-]; congruence | done].
Qed.

Lemma restore_ok B u : gui_ok B u -> exists a g, restore_cursor_bg (u_arrow u) (sh_gpu (u_shell u)) = Some (a, g) /\
  gui_ok B (mkGui (set_gpu g (u_shell u)) (u_desk u) a) /\ bufs g = B.
Proof.
  intros [Hs Hd Ha Hw [Hbg Hsv]]. pose proof (so_gpu _ _ _ _ Hs) as Hg. unfold restore_cursor_bg. unfold istrue.
  destruct (Z.eqb_spec (g_cursor_saved (u_arrow u)) 0) as [E0 | E0]; cbn [negb].
  - eexists _, _. split; [reflexivity |]. split; [| apply Hg]. split; try done. by apply ok_gpu.
  - destruct (g_cursor_bg (u_arrow u)) as [bg |] eqn:Eb; [| by destruct (Hsv E0)]. cbn [mbind option_bind].
    destruct (safe_region W H B bg (u16 (g_cursor_x (u_arrow u))) (u16 (g_cursor_y (u_arrow u))) (u16 cursor_w) (u16 cursor_h)
      ltac:(rewrite (Hbg bg eq_refl); done) ltac:(done) (sh_gpu (u_shell u)) Hg) as (g & E1 & H1).
    unfold gpu_restore_region. rewrite E1. cbn [mbind option_bind]. eexists _, _. split; [reflexivity |]. split; [| apply H1].
    split; try done. by apply ok_gpu.
Qed.

Lemma close_all_ok n : forall B s d, gui_shell B s -> desk_ok d -> windows_ok B d -> g_win_count d = Z.of_nat n ->
  exists s' d' B', close_all n (s, d) = Some (s', d') /\ gui_shell B' s' /\ desk_ok d' /\ g_win_count d' = 0.
Proof.
  induction n as [| n IH]; intros B s d Hs Hd Hw Hn; cbn [close_all]; [by eexists s, d, B |].
  destruct (close_ok B (Z.of_nat n) s d Hs Hd Hw ltac:(lia)) as (s1 & d1 & B1 & -> & H1 & H2 & H3 & H4 & _). cbn [mbind option_bind].
  apply (IH B1); try done. lia.
Qed.

Lemma leave_ok B u : gui_ok B u -> exists u', leave u = Some u' /\ g_win_count (u_desk u') = 0.
Proof.
  intros [Hs Hd Ha Hw Har]. unfold leave. pose proof (dk_count _ Hd).
  destruct (close_all_ok (Z.to_nat (g_win_count (u_desk u))) B _ _ Hs Hd Hw ltac:(lia)) as (s' & d' & B' & -> & H1 & H2 & H3). cbn [mbind option_bind fst snd].
  assert (screen_ok W H B' (gpu_set_target_back 0 (sh_gpu s'))) as Hg by (destruct (so_gpu _ _ _ _ H1); by split).
  unfold gpu_clear. cbv zeta. set (g1 := set_cursor_pos _ _ _). assert (screen_ok W H B' g1) as Hg1 by (destruct Hg; by split).
  rewrite (su_on _ _ _ g1 Hg1).
  destruct (safe_fill W H B' 0 0 (g_fb_width g1) (g_fb_height g1) (rgb_for_color 0) g1 Hg1) as (g2 & E2 & _).
  unfold gpu_fill_rect, if_fb in E2. rewrite (su_on _ _ _ g1 Hg1) in E2. rewrite E2. cbn [mbind option_bind]. by eexists.
Qed.


Lemma key_ok B c u : gui_ok B u ->
  exists o u', key font E fs_of c u = Some (o, u') /\ (o = Closed -> g_win_count (u_desk u') = 0) /\
    (o = Running -> g_drag_zpos (u_desk u') = g_drag_zpos (u_desk u) /\ exists B', gui_ok B' u').
Proof.
  intros Hu. pose proof Hu as [Hs Hd [Hf Hdr] Hw Har]. unfold key. assert (exists B', gui_ok B' u) as Hsame by by exists B.
  destruct (c =? 27).
  { destruct (leave_ok B u Hu) as (u' & -> & H1). cbn [mbind option_bind]. by eexists _, u'. }
  destruct (istrue c); cbn [andb]; [| by eexists _, u]. destruct (Z.leb_spec 0 (g_focus_zpos (u_desk u))); [| by eexists _, u].
  destruct (win_at_ok _ (g_focus_zpos (u_desk u)) Hd) as (i & w & -> & _ & Ei & Hused); [lia |]. cbn [mbind option_bind].
  destruct (bool_decide _); [| by eexists _, u].
  destruct (feed_paints font E fs_of V N W H B w c _ Hs (wo_wf B _ Hw i w Ei) (wo_mem B _ Hw i w Ei Hused)) as (n & w' & s' & -> & HP). cbn [mbind option_bind].
  destruct n; try by (eexists _, _; split; [reflexivity |]; split).
  destruct (HP eq_refl) as [B' [P1 P2 P3 P4 P5]]. set (u1 := mkGui s' _ (u_arrow u)).
  assert (gui_ok B' u1) as Hu1.
  { split; cbn [u1 u_shell u_desk u_arrow]; try done; [eapply desk_window; [done | exact Ei | by rewrite P3] |].
    eapply windows_update; try done. by left. }
  destruct (on_gpu_ok B' (fun g => g ← blit_window w' g;
      gpu_flip_rect (u16 (win_client_x w')) (u16 (win_client_y w')) (u16 (w_cw w')) (u16 (w_ch w')) g) u1 Hu1) as (u2 & -> & H2 & E2 & _).
  { apply (safe_after W H B'); [by apply safe_window |]. apply safe_flip_rect; apply u16_range. }
  cbn [mbind option_bind]. eexists _, u2. split; [reflexivity |]. split; [done |]. intros _. split; [by rewrite E2 | by exists B'].
Qed.

(** The pointer's button is down as long as a window is dragged. *)
Definition dragging_ok (lo : locals) u : Prop := 0 <= g_drag_zpos (u_desk u) -> istrue (Z.land (last_buttons lo) 1) = true.

Lemma room_same u u' : sh_vfs (u_shell u') = sh_vfs (u_shell u) -> bufs (sh_gpu (u_shell u')) = bufs (sh_gpu (u_shell u)) -> room u -> room u'.
Proof. intros E1 E2 Hr n Hn. rewrite E1, E2. by apply Hr. Qed.

Lemma frame_correct inp lo u B : gui_ok B u -> dragging_ok lo u -> room u ->
  exists o lo' u', gui_frame font E fs_of W H inp lo u = Some (o, lo', u') /\ (o = Closed -> g_win_count (u_desk u') = 0) /\
    (o = Running -> dragging_ok lo' u' /\ exists B', gui_ok B' u').
Proof.
  intros Hu0 Hdrag0 Hroom0. unfold gui_frame.
  destruct (if CLOCK_TICKS <=? _ then _ else _) as [t clock].
  set (old := if istrue _ then Some _ else None). clearbody old. destruct (restore_ok B u Hu0) as (a & g & -> & Hu & Eb). cbn [mbind option_bind fst snd].
  set (u1 := mkGui _ _ a) in *. assert (room u1) as Hroom.
  { eapply room_same; [| | exact Hroom0]; [done |]. cbn. rewrite Eb. symmetry. apply (go_shell B u Hu0). }
  assert (dragging_ok lo u1) as Hdrag by exact Hdrag0. clearbody u1. clear u Hu0 Hdrag0 Hroom0 g Eb a. rename u1 into u.
  set (redraw := time_differs _ _). set (p := read_pointer _ _ _). set (lo' := Locals _ _ _ _).
  assert (exists r o u' B', (if istrue (Z.land (p_buttons p) 1) && negb (istrue (Z.land (last_buttons lo) 1)) then click font fs_of W H (read_time (i_cmos inp)) redraw p u
       else if negb (istrue (Z.land (p_buttons p) 1)) && istrue (Z.land (last_buttons lo) 1) then Some (redraw, None, on_desk (fun d => set_drag (-1) (g_drag_dx d) (g_drag_dy d) d) u)
       else if istrue (Z.land (p_buttons p) 1) && (0 <=? g_drag_zpos (u_desk u)) then r ← drag W H redraw p u; Some (fst r, None, snd r)
       else Some (redraw, None, u)) = Some (r, o, u') /\ gui_ok B' u' /\ dragging_ok lo' u' /\ (r = false -> room u')) as (r & o & u2 & B2 & -> & Hu2 & Hd2 & Hr2).
  { unfold dragging_ok in *. change (last_buttons lo') with (p_buttons p).
    destruct (istrue (Z.land (p_buttons p) 1)) eqn:Edown; destruct (istrue (Z.land (last_buttons lo) 1)) eqn:Ewas; cbn [negb andb].
    - destruct (Z.leb_spec 0 (g_drag_zpos (u_desk u))) as [Hz |].
      + destruct (drag_ok B redraw p u Hu Hz) as (r & u' & -> & H1 & H2). cbn [mbind option_bind fst snd]. eexists _, _, _, B. split; [reflexivity |].
        split; [done |]. split; [done |]. by intros ->%H2.
      + by eexists _, _, _, B.
    - assert (g_drag_zpos (u_desk u) = -1) as Hz by (destruct (go_aims B u Hu) as [_ ?]; destruct (Z.leb_spec 0 (g_drag_zpos (u_desk u))); [by specialize (Hdrag ltac:(done)) | lia]).
      destruct (click_ok B (read_time (i_cmos inp)) redraw p u Hu Hroom Hz) as (r & o & u' & B' & -> & H1 & H2). eexists _, _, _, B'. split; [reflexivity |].
      split; [done |]. split; [done |]. by intros ->%H2.
    - eexists _, _, _, B. split; [reflexivity |]. split; [| split; [cbn; lia | done]]. destruct Hu as [Hs Hd Ha Hw Har].
      split; cbn [on_desk u_shell u_desk u_arrow]; try done; [by apply desk_drag | destruct Ha as [Hf _]; pose proof (dk_count _ Hd); split; cbn; lia | eapply windows_same; [| eassumption]; reflexivity].
    - eexists _, _, _, B. split; [reflexivity |]. split; [done |]. split; [| done]. intros Hz. by specialize (Hdrag Hz). }
  cbn [mbind option_bind]. destruct o as [n |]; [by eexists _, _, _ |].
  assert (exists u3, (if r : bool then redraw_all font W H (read_time (i_cmos inp)) p u2 else move_arrow old p u2) = Some u3 /\ gui_ok B2 u3 /\
    u_desk u3 = u_desk u2) as (u3 & -> & Hu3 & Ed).
  { destruct r; [by apply redraw_ok_all | by apply arrow_moves; [| apply Hr2]]. }
  cbn [mbind option_bind]. destruct (key_ok B2 (i_key inp) u3 Hu3) as (o & u4 & -> & Hc & Hn). cbn [mbind option_bind fst snd].
  eexists _, _, _. split; [reflexivity |]. split; [done |]. intros Ho. destruct (Hn Ho) as [Ez HB]. split; [| done].
  unfold dragging_ok in *. by rewrite Ez, Ed.
Qed.



(** Also: a window that is dragged stays on the screen, above the task bar, when it fits there,
    and no other window moves. *)
Theorem drag_spec (redraw : bool) (p : gui_pointer) (u : gui) (Hd : desk_ok (u_desk u))
    (Hz : 0 <= g_drag_zpos (u_desk u) < g_win_count (u_desk u)) :
  exists r u' i w nx ny, drag W H redraw p u = Some (r, u') /\ win_at (u_desk u) (g_drag_zpos (u_desk u)) = Some (i, w) /\
    g_win (u_desk u') = (g_win (u_desk u)).[i <- move_to nx ny w] /\ order (u_desk u') = order (u_desk u) /\
    (win_total_w w <= W -> 0 <= nx /\ nx + win_total_w w <= W) /\
    (win_total_h w <= H - TASKBAR_H -> 0 <= ny /\ ny + win_total_h w <= H - TASKBAR_H) /\
    (r = false -> u' = u).
Proof.
  destruct (win_at_ok _ (g_drag_zpos (u_desk u)) Hd Hz) as (i & w & E1 & _ & Ei & _). unfold drag. rewrite E1. cbn [mbind option_bind].
  destruct (drag_place W H w p (u_desk u)) as [nx ny] eqn:Ep.
  assert ((win_total_w w <= W -> 0 <= nx /\ nx + win_total_w w <= W) /\
    (win_total_h w <= H - TASKBAR_H -> 0 <= ny /\ ny + win_total_h w <= H - TASKBAR_H)) as [Hx Hy].
  { unfold drag_place in Ep. cbv zeta in Ep. injection Ep as <- <-. clear.
    split; intros Hle; repeat match goal with |- context [?a <? ?b] => destruct (Z.ltb_spec a b) end; lia. }
  destruct (negb (nx =? w_x w) || negb (ny =? w_y w)) eqn:Em.
  - eexists _, _, i, w, nx, ny. split; [reflexivity |]. split; [done |]. do 4 (split; [done |]). done.
  - eexists _, _, i, w, nx, ny. split; [reflexivity |]. split; [done |]. split; [| done].
    apply orb_false_iff in Em as [->%negb_false_iff%Z.eqb_eq ->%negb_false_iff%Z.eqb_eq].
    replace (move_to _ _ w) with w by (by destruct w). unfold zset, zlook in *.
    destruct (i <? 0); [done |]. symmetry. by apply list_insert_id.
Qed.

(** Also: a window opened from the menu or by an icon is on top, but the keyboard stays with the
    window that had it: with no window open before, every key but ESC is dropped although
    the new text window is the only one. *)
Theorem opened_without_keys (B : gmap Z (list Z)) (i : Z) (u : gui) (Hu : gui_ok B u) (Hr : room u) (Hi : 0 <= i <= 2)
    (Hn : g_win_count (u_desk u) < MAX_WINDOWS) :
  exists k u', open_app font fs_of i u = Some u' /\ order (u_desk u') = order (u_desk u) ++ [k] /\
    g_focus_zpos (u_desk u') = g_focus_zpos (u_desk u) /\
    (g_focus_zpos (u_desk u) = -1 -> forall c, c <> 27 -> key font E fs_of c u' = Some (Running, u')).
Proof.
  destruct (app_ok B i u Hu Hr) as (u' & B' & E1 & _ & _ & Ef & _ & Ho). destruct (Ho Hi Hn) as [k Ek].
  exists k, u'. do 3 (split; [done |]). intros E0 c Hc. unfold key. destruct (Z.eqb_spec c 27); [done |]. rewrite Ef, E0.
  by rewrite andb_false_r.
Qed.
End safe.

(** ** Witnesses: a small screen, two windows, a fresh kernel heap *)

#[export] Instance no_files_frees : frees no_files.
Proof. split. done. Qed.

Definition heap_fresh : heap := default (heap_boot mach0) (Heap.heap_init (heap_boot mach0)).
Lemma heap_fresh_repr : repr heap_fresh [Blk 1048576 true].
Proof. destruct (heap_init_correct mach0 own0 mach0_good ltac:(done)) as (h & own' & E & R & _). unfold heap_fresh. by rewrite E. Qed.

Definition bufs_ex : gmap Z (list Z) := <[1000 := replicate (Z.to_nat 1024) 0]> (<[2000 := replicate (Z.to_nat 1024) 0]> ∅).
Definition gui_gpu_ex : gpu :=
  Gpu 0 0 0x0F [] 1 (replicate (Z.to_nat 2048) 7) None 16 32 64 32 1 bufs_ex 0 0 0 0 0 0 0 2 2 2 2 [].
Definition gui_shell_ex : shell (D := unit) := Shell gui_gpu_ex (mkVst heap_fresh ∅ ∅ ∅ [] tt) ∅ net_ex hist_ex [SLASH] 0.
Definition gui_ex (d : desk) : gui (D := unit) := mkGui gui_shell_ex d (Arrow None 0 0 0).

Lemma gui_shell_ex_ok : shell_ok (screen_ok 16 32 bufs_ex) no_files net_inv gui_shell_ex.
Proof.
  split; [| reflexivity | exact net_ex_inv | exact hist_ex_ok | exact (so_cwd _ _ _ _ shell_ex_ok)].
  split; try done. exact surface_ex_ok.
Qed.

Lemma win_ex_wf used x y buf : win_wf (win_ex used x y buf).
Proof.
  split; [by repeat (split; try done) | done |]. exists [], []. split; [| constructor].
  exact (line_is_intro SHELL_LINE_MAX (replicate 256 0) [] [] (replicate 255 0) eq_refl (Forall_nil_2 _) (Forall_nil_2 _) eq_refl).
Qed.
Lemma windows_ex_ok : windows_ok bufs_ex desk_ex.
Proof.
  split.
  - intros i w [[_ ->] | [[_ ->] | [_ ->]]]%desk_ex_window; apply win_ex_wf.
  - intros i w [[_ ->] | [[_ ->] | [_ ->]]]%desk_ex_window Hu; [| | done]; (split; [done | done | done |]; cbn [win_ex w_buf]; unfold bufs_ex).
    + eexists. split; [apply lookup_insert_eq | by rewrite zlen_replicate].
    + eexists. split; [rewrite lookup_insert_ne by done; apply lookup_insert_eq | by rewrite zlen_replicate].
  - intros i j v w [[-> ->] | [[-> ->] | [_ ->]]]%desk_ex_window [[-> ->] | [[-> ->] | [_ ->]]]%desk_ex_window Hv Hw Hij; done.
Qed.

Lemma gui_ex_ok d : g_win d = g_win desk_ex -> desk_ok d -> aims_ok d -> gui_ok no_files net_inv 16 32 bufs_ex (gui_ex d).
Proof.
  intros Ew Hd Ha. split; [exact gui_shell_ex_ok | done | done | by apply (windows_same bufs_ex desk_ex), windows_ex_ok |]. by split.
Qed.

Lemma room_ex d : room no_files (gui_ex d).
Proof.
  intros n Hn. assert (0 < n < 9223372036854775808 /\ fit (block_total n) [Blk 1048576 true] = Some ([], Blk 1048576 true, [])) as [Hs Ef].
  { repeat destruct Hn as [<- | Hn]; [split; [lia | vm_compute; reflexivity] .. | done]. }
  pose proof (kmalloc_correct heap_fresh _ n heap_fresh_repr Hs) as H. rewrite Ef in H. destruct H as (h & E & _).
  eexists _, h. split; [exact E |]. done.
Qed.

Lemma aims_ex : aims_ok desk_ex.
Proof. split; cbn; lia. Qed.
Lemma gui_desk_ex_ok : gui_ok no_files net_inv 16 32 bufs_ex (gui_ex desk_ex).
Proof. by apply gui_ex_ok, aims_ex; [| exact desk_ex_ok]. Qed.

(** The button goes down over the upper window while ESC is pressed. *)
Definition input_ex : input := Inp 5 (fun _ => 0x12) (Mouse 14 0 1 0 []) 27.
Definition locals_ex : locals := Locals (replicate 6 0) (replicate 6 0) 0 0.


Lemma drag_spec_witness : exists r u', drag 640 480 false (Ptr 9 700 1) (gui_ex (set_drag 1 2 3 desk_ex)) = Some (r, u') /\ order (u_desk u') = [1; 0].
Proof.
  destruct (drag_spec 640 480 false (Ptr 9 700 1) (gui_ex (set_drag 1 2 3 desk_ex)) (desk_drag 1 2 3 desk_ex desk_ex_ok) ltac:(cbn; lia))
    as (r & u' & i & w & nx & ny & E & _ & _ & Eo & _).
  exists r, u'. split; [exact E | exact Eo].
Defined.

Lemma opened_without_keys_witness : exists k u', open_app (fun _ => 0) no_fs 0 (gui_ex desk_ex) = Some u' /\ order (u_desk u') = [1; 0; k] /\
  key (fun _ => 0) facts_ex no_fs 65 u' = Some (Running, u').
Proof.
  destruct (opened_without_keys (fun _ => 0) facts_ex no_fs no_files net_inv 16 32 bufs_ex 0 (gui_ex desk_ex) gui_desk_ex_ok (room_ex desk_ex)
    ltac:(lia) ltac:(done)) as (k & u' & E & Eo & _ & Hk).
  exists k, u'. split; [exact E |]. split; [exact Eo | exact (Hk eq_refl 65 ltac:(done))].
Defined.

(** ** The arrow that stays *)

Definition desk_bare : desk := Desk (replicate 8 (win_ex 0 0 0 0)) (replicate 8 0) 0 (-1) 0 0 (-1) 0.
(** The minute has changed and the pointer is at the corner; then it is elsewhere, and elsewhere again. *)
Definition pointer_turns : list input :=
  [Inp 100 (fun _ => 0x12) (Mouse (-8) 16 0 0 []) 0; Inp 101 (fun _ => 0x12) (Mouse 0 0 0 0 []) 0; Inp 102 (fun _ => 0x12) (Mouse 0 16 0 0 []) 0].
Definition pixels_after (n : nat) (ps : list (Z * Z)) : list (option Z) :=
  match gui_loop (fun _ => 0) facts_ex no_fs 16 32 (take n pointer_turns) locals_ex (gui_ex desk_bare) with
  | Some (_, _, u) => map (fun p => gpu_get_pixel (fst p) (snd p) (sh_gpu (u_shell u))) ps
  | None => []
  end.

(** Also: when everything is drawn again the arrow is drawn without what it covers being kept: the
    tip of the arrow is still there when the pointer has gone, two turns later. What it
    covers in a turn that draws only the arrow is put back by the next. *)
Theorem arrow_left_behind :
  pixels_after 1 [(0, 0)] = [Some 0] /\ pixels_after 2 [(4, 16)] = [Some 0] /\
  pixels_after 3 [(0, 0); (4, 16)] = [Some 0; Some CLR_TASKBAR].
Proof. split; [| split]; vm_compute; reflexivity. Qed.
