(* ===== verification/UserIO.v ===== *)
(** * User programs: system calls (src/user/libc.h)

    A user program is an interaction tree whose events are system calls: what the kernel
    answers is not part of the program, and a program may run for ever. [Fault] is an access
    outside an array or through a null pointer. The stubs of libc.h are the operations; the
    texts and the line buffers of a program are lists.

    Two ways to speak of a program: [safe t Q], whatever the kernel answers no access is
    outside an array, and what [t] returns satisfies [Q]; and [evals h t s s' r], on a
    kernel that answers as [h] says, [t] returns [r] and leaves the kernel's state [s']. *)

From ITree Require Import ITree.
From Stdlib Require Import String Ascii.
From S2P Require Import Prelude UserLib KPath.

(** ** Calls *)

Definition STDIN_FILENO : Z := 0.
Definition STDOUT_FILENO : Z := 1.
Definition SIGINT : Z := 2.
Definition REBOOT_CMD_SHUTDOWN : Z := 0x08.
Definition REBOOT_CMD_REBOOT : Z := 0x10.

(** What the kernel is handed: for a pointer, what it points to or how much is there. *)
Inductive call :=
| CExit (code : Z) | CWrite (fd : Z) (data : list Z) | COpen (path : list Z) | CRead (fd count : Z)
| CClose (fd : Z) | CReaddir (path : list Z) (count : Z) | CExec (path : list Z) | CCreate (path : list Z)
| CUnlink (path : list Z) | CStat (path : list Z) | CPipe | CFork | CWait | CGetpid | CGetppid
| CKill (pid sig : Z) | CSignal (sig : Z) | CBrk (addr : Z) | CDup2 (oldfd newfd : Z)
| CChdir (path : list Z) | CGetcwd (size : Z) | CReboot (cmd : Z).

(** The number in rax. *)
Definition number (c : call) : Z :=
  match c with
  | CExit _ => 0 | CWrite _ _ => 1 | COpen _ => 2 | CRead _ _ => 3 | CClose _ => 4 | CReaddir _ _ => 5
  | CExec _ => 6 | CCreate _ => 7 | CUnlink _ => 8 | CStat _ => 9 | CPipe => 10 | CFork => 11 | CWait => 12
  | CGetpid => 13 | CGetppid => 14 | CKill _ _ => 15 | CSignal _ => 16 | CBrk _ => 17 | CDup2 _ _ => 18
  | CChdir _ => 19 | CGetcwd _ => 20 | CReboot _ => 21
  end.

(** The answer: rax, what was stored through a pointer, and whether the handler of SIGINT has run. *)
Record reply := Reply { a_rax : Z; a_data : list Z; a_sigint : bool }.

Inductive osE : Type -> Type := Sys (c : call) : osE reply | Fault : osE Empty_set.
Abbreviation prog := (itree osE).

#[export] Instance prog_ret : MRet prog := fun A x => Ret x.
#[export] Instance prog_bind : MBind prog := fun A B k t => ITree.bind t k.

Definition fault {R} : prog R := Vis Fault (fun x : Empty_set => match x with end).
Definition syscall (c : call) : prog reply := Vis (Sys c) (fun a => Ret a).
Definition lift {R} (o : option R) : prog R := match o with Some x => mret x | None => fault end.

(** [(int)rax] *)
Definition result (c : call) : prog Z := a ← syscall c; mret (s32 (a_rax a)).

Definition sys_exit {R} (code : Z) : prog R := Vis (Sys (CExit code)) (fun _ => fault).
(** [count] bytes of the array [buf]. *)
Definition sys_write (fd : Z) (buf : list Z) (count : Z) : prog Z :=
  if count <=? zlen buf then result (CWrite fd (take (Z.to_nat count) buf)) else fault.
Definition sys_open (path : list Z) : prog Z := result (COpen path).
Definition sys_close (fd : Z) : prog Z := result (CClose fd).
Definition sys_exec (path : list Z) : prog Z := result (CExec path).
Definition sys_create (path : list Z) : prog Z := result (CCreate path).
Definition sys_unlink (path : list Z) : prog Z := result (CUnlink path).
Definition sys_fork : prog Z := result CFork.
Definition sys_wait : prog Z := result CWait.
Definition sys_getpid : prog Z := result CGetpid.
Definition sys_getppid : prog Z := result CGetppid.
Definition sys_kill (pid sig : Z) : prog Z := result (CKill pid sig).
Definition sys_signal (sig : Z) : prog Z := result (CSignal sig).
Definition sys_dup2 (oldfd newfd : Z) : prog Z := result (CDup2 oldfd newfd).
Definition sys_chdir (path : list Z) : prog Z := result (CChdir path).
Definition sys_reboot (cmd : Z) : prog Z := result (CReboot cmd).
Definition sys_brk (addr : Z) : prog Z := a ← syscall (CBrk addr); mret (a_rax a).

(** What is stored at [off] of the array [buf]. *)
Definition stored (buf : list Z) (off : Z) (data : list Z) : option (list Z) :=
  if (0 <=? off) && (off + zlen data <=? zlen buf)
  then Some (take (Z.to_nat off) buf ++ data ++ drop (Z.to_nat (off + zlen data)) buf) else None.
Definition sys_read (fd : Z) (buf : list Z) (off count : Z) : prog (Z * list Z) :=
  a ← syscall (CRead fd count); buf ← lift (stored buf off (a_data a)); mret (s32 (a_rax a), buf).
Definition sys_readdir (path : list Z) (buf : list Z) (count : Z) : prog (Z * list Z) :=
  a ← syscall (CReaddir path count); buf ← lift (stored buf 0 (a_data a)); mret (s32 (a_rax a), buf).
Definition sys_getcwd (buf : list Z) (size : Z) : prog (Z * list Z) :=
  a ← syscall (CGetcwd size); buf ← lift (stored buf 0 (a_data a)); mret (s32 (a_rax a), buf).
(** [size] and [flags], or [fds], as they were left. *)
Definition sys_stat (path : list Z) (was : Z * Z) : prog (Z * (Z * Z)) :=
  a ← syscall (CStat path);
  mret (s32 (a_rax a), match a_data a with [size; flags] => (size, flags) | _ => was end).
Definition sys_pipe (was : Z * Z) : prog (Z * (Z * Z)) :=
  a ← syscall CPipe;
  mret (s32 (a_rax a), match a_data a with [r; w] => (r, w) | _ => was end).

(** ** Texts

    The small string functions that each program has its own copy of. *)

Fixpoint strcmp (a b : list Z) : Z :=
  match a, b with
  | [], [] => 0
  | [], y :: _ => 0 - y
  | x :: _, [] => x
  | x :: a, y :: b => if x =? y then strcmp a b else x - y
  end.
Fixpoint starts_with (s prefix : list Z) : bool :=
  match prefix, s with
  | [], _ => true
  | _, [] => false
  | p :: prefix, c :: s => (c =? p) && starts_with s prefix
  end.
Definition ends_with (s suffix : list Z) : bool :=
  if zlen s <? zlen suffix then false else strcmp (drop (Z.to_nat (zlen s - zlen suffix)) s) suffix =? 0.
(** strcpy to [off] of the array [dst]. *)
Definition strcpy (dst : list Z) (off : Z) (src : list Z) : option (list Z) := stored dst off (src ++ [0]).

Definition puts (s : list Z) : prog Z := sys_write STDOUT_FILENO (s ++ [0]) (zlen s).
Definition putc (c : Z) : prog Z := sys_write STDOUT_FILENO [c] 1.
(** The string in an array. *)
Definition puts_array (buf : list Z) : prog Z := s ← lift (c_string buf); puts s.

(** A number written from the end of an array of [cap] characters. *)
Definition number_text (cap v : Z) : option (list Z) :=
  buf ← put (replicate (Z.to_nat cap) 0) (cap - 1) 0;
  r ← (if v =? 0 then buf ← put buf (cap - 2) 48; Some (cap - 2, buf) else u64_digits (Z.to_nat cap) v (cap - 1) buf);
  c_string (drop (Z.to_nat (fst r)) (snd r)).

Lemma strcmp_eq a b : nonzero a -> nonzero b -> strcmp a b = 0 <-> a = b.
Proof.
  intros Ha. revert b. induction Ha as [| x a Hx Ha IH]; intros b Hb; destruct Hb as [| y b Hy Hb]; cbn [strcmp].
  - done.
  - split; [lia | done].
  - split; [lia | done].
  - destruct (Z.eqb_spec x y) as [-> |]; [rewrite IH by done; split; congruence | split; [lia | congruence]].
Qed.
Lemma starts_with_spec prefix : forall s, starts_with s prefix = true <-> exists t, s = prefix ++ t.
Proof.
  induction prefix as [| p prefix IH]; intros [| c s]; cbn [starts_with app].
  - split; [by exists [] | done].
  - split; [by eexists | done].
  - split; [done | by intros [t [=]]].
  - destruct (Z.eqb_spec c p) as [-> |]; cbn [andb]; [rewrite IH; split; intros [t Ht]; exists t; congruence | split; [done | intros [t [=]]; done]].
Qed.
Lemma number_text_spec (k : nat) v : 0 <= v < 10 ^ Z.of_nat k -> (1 <= k <= 20)%nat -> number_text (Z.of_nat k + 1) v = Some (numeral 10 v).
Proof.
  intros Hv Hk. unfold number_text, numeral. replace (Z.of_nat k + 1 - 1) with (Z.of_nat k) by lia. replace (Z.of_nat k + 1 - 2) with (Z.of_nat k - 1) by lia.
  replace (Z.to_nat (Z.of_nat k + 1)) with (k + 1)%nat by lia. rewrite replicate_add.
  assert (put (replicate k 0 ++ replicate 1 0) (Z.of_nat k) 0 = Some (replicate k 0 ++ [0])) as -> by (apply put_cell_back; by rewrite zlen_replicate).
  cbn [mbind option_bind]. destruct (Z.eqb_spec v 0) as [-> | Hnz].
  - destruct k as [| k]; [lia |]. replace (Z.of_nat (Datatypes.S k) - 1) with (Z.of_nat k) by lia.
    replace (Datatypes.S k) with (k + 1)%nat by lia. rewrite replicate_add, <- app_assoc. cbn [replicate app].
    rewrite (put_cell_back (replicate k 0) 0 [0] 48) by (by rewrite zlen_replicate). cbn [mbind option_bind fst snd].
    rewrite drop_app_length' by (rewrite length_replicate; lia). done.
  - destruct (u64_digits_spec (k + 1) k v (replicate k 0) [0]) as (b & E & Hb); [done | lia | rewrite length_replicate; lia |].
    rewrite zlen_replicate in E, Hb. rewrite E. cbn [mbind option_bind fst snd].
    rewrite (rdigits_more v k 64) by lia. rewrite drop_app_length' by (unfold zlen in *; lia).
    pose proof (rdigits_range 10 k v ltac:(lia)) as Hd%Forall_rev. rewrite hex_digits_dec by done. apply c_string_text.
    unfold nonzero. apply Forall_map. eapply Forall_impl; [exact Hd |]. cbn. intros d Hd'. unfold hex_digit. destruct (d <? 10); lia.
Qed.

(** ** What a kernel may answer *)

(** A read stores what it counts, no more than it was asked for; -1 and the error codes
    store nothing. *)
Definition counted (count : Z) (a : reply) : Prop :=
  bytes (a_data a) /\ zlen (a_data a) <= count /\ (s32 (a_rax a) = zlen (a_data a) \/ s32 (a_rax a) <= 0 /\ a_data a = []).
(** A directory is stored with a terminator. *)
Definition listed (count : Z) (a : reply) : Prop :=
  zlen (a_data a) <= count /\ (s32 (a_rax a) <= 0 \/ exists t, a_data a = t ++ [0]).
Definition answers (c : call) (a : reply) : Prop :=
  match c with
  | CExit _ => False
  | CRead _ n | CGetcwd n => counted n a
  | CReaddir _ n => listed n a
  | _ => True
  end.

Lemma bind_step {R S} (t : prog S) (k : S -> prog R) :
  observe (ITree.bind t k) = match observe t with
                             | RetF r => observe (k r)
                             | TauF t => TauF (ITree.bind t k)
                             | VisF e h => VisF e (fun x => ITree.bind (h x) k)
                             end.
Proof. unfold ITree.bind, ITree.subst. simpl. by destruct (observe t). Qed.

(** No fault within [n] steps, and the results satisfy [Q]. *)
Fixpoint safe_for (n : nat) {R} (t : prog R) (Q : R -> Prop) : Prop :=
  match n with
  | O => True
  | S n =>
      match observe t with
      | RetF r => Q r
      | TauF t => safe_for n t Q
      | VisF e k =>
          match e in osE X return (X -> prog R) -> Prop with
          | Sys c => fun k => forall a, answers c a -> safe_for n (k a) Q
          | Fault => fun _ => False
          end k
      end
  end.
Definition safe {R} (t : prog R) (Q : R -> Prop) : Prop := forall n, safe_for n t Q.

Lemma safe_ret {R} (x : R) (Q : R -> Prop) : Q x -> safe (mret x) Q.
Proof. intros H [| n]; [done | exact H]. Qed.

Lemma safe_for_mono {R} n : forall (t : prog R) (Q Q' : R -> Prop), (forall x, Q x -> Q' x) -> safe_for n t Q -> safe_for n t Q'.
Proof.
  induction n as [| n IH]; intros t Q Q' HQ; [done |]. cbn [safe_for]. destruct (observe t) as [r | t' | X e k]; [apply HQ | by apply IH |].
  destruct e as [c |]; [| done]. intros H a Ha. by eapply IH, H.
Qed.
Lemma safe_mono {R} (t : prog R) (Q Q' : R -> Prop) : safe t Q -> (forall x, Q x -> Q' x) -> safe t Q'.
Proof. intros H HQ n. by eapply safe_for_mono, H. Qed.

Section safety.
Context {R : Type}.
Implicit Types (t : prog R) (Q : R -> Prop).

Lemma safe_for_bind {S} n : forall (t : prog S) (k : S -> prog R) Q,
  safe_for n t (fun x => forall m, (m <= n)%nat -> safe_for m (k x) Q) -> safe_for n (t ≫= k) Q.
Proof.
  induction n as [| n IH]; intros t k Q; [done |]. unfold mbind, prog_bind in *. cbn [safe_for]. rewrite bind_step.
  destruct (observe t) as [r | t' | X e j] eqn:Et.
  - intros H. exact (H (Datatypes.S n) (le_n _)).
  - intros H. cbn. apply IH. eapply safe_for_mono, H. intros x Hx m Hm. apply Hx. lia.
  - cbn. destruct e as [c |]; [| done]. intros H a Ha. apply IH. eapply safe_for_mono, H, Ha. intros x Hx m Hm. apply Hx. lia.
Qed.
Lemma safe_bind {S} (t : prog S) (k : S -> prog R) Q P : safe t P -> (forall x, P x -> safe (k x) Q) -> safe (t ≫= k) Q.
Proof.
  intros Ht Hk n. apply safe_for_bind. eapply safe_for_mono, Ht. intros x Hx m _. by apply Hk.
Qed.

Lemma safe_tau t Q : safe t Q -> safe (Tau t) Q.
Proof. intros H [| n]; [done | exact (H n)]. Qed.
Lemma safe_exit code Q : safe (sys_exit code) Q.
Proof. intros [| n]; [done |]. by intros a []. Qed.

(** A loop whose invariant every turn keeps. *)
Lemma safe_iter {I} (body : I -> prog (I + R)) (P : I -> Prop) Q :
  (forall i, P i -> safe (body i) (fun r => match r with inl i => P i | inr x => Q x end)) ->
  forall i, P i -> safe (ITree.iter body i) Q.
Proof.
  intros Hb i Hi n. revert i Hi. induction n as [n IH] using lt_wf_ind. intros i Hi. destruct n as [| n]; [done |].
  enough (safe_for (Datatypes.S n) (body i ≫= (fun lr => match lr with inl l => Tau (ITree.iter body l) | inr r => Ret r end)) Q) as H by exact H.
  apply safe_for_bind. eapply safe_for_mono, (Hb i Hi). intros [j | x] Hx [| m] Hm; [done | | done |]; cbn; [| done].
  apply IH; [lia | done].
Qed.
End safety.

Lemma safe_sys c Q : (forall a, answers c a -> Q a) -> safe (syscall c) Q.
Proof. intros H [| [| n]]; [done | done |]. intros a Ha. by apply H. Qed.
Lemma safe_result c (Q : Z -> Prop) : (forall a, answers c a -> Q (s32 (a_rax a))) -> safe (result c) Q.
Proof. intros H. apply (safe_bind _ _ _ (fun a => Q (s32 (a_rax a)))); [by apply safe_sys | intros a Ha; by apply safe_ret]. Qed.
Lemma safe_lift {R} (o : option R) (Q : R -> Prop) : (exists x, o = Some x /\ Q x) -> safe (lift o) Q.
Proof. intros (x & -> & H). by apply safe_ret. Qed.

Lemma safe_call c : (forall code, c <> CExit code) -> safe (result c) (fun _ => True).
Proof. intros _. by apply safe_result. Qed.
Lemma safe_write fd buf n : n <= zlen buf -> safe (sys_write fd buf n) (fun _ => True).
Proof. intros H. unfold sys_write. destruct (Z.leb_spec n (zlen buf)); [by apply safe_result | lia]. Qed.
Lemma safe_puts s : safe (puts s) (fun _ => True).
Proof. apply safe_write. rewrite zlen_app. pose proof (zlen_nonneg [0]). lia. Qed.
Lemma safe_putc c : safe (putc c) (fun _ => True).
Proof. by apply safe_write. Qed.

Lemma stored_in buf off data : 0 <= off -> off + zlen data <= zlen buf ->
  exists buf', stored buf off data = Some buf' /\ zlen buf' = zlen buf /\ buf' = take (Z.to_nat off) buf ++ data ++ drop (Z.to_nat (off + zlen data)) buf.
Proof.
  intros H0 H1. unfold stored. destruct (Z.leb_spec 0 off), (Z.leb_spec (off + zlen data) (zlen buf)); try lia. cbn [andb].
  eexists. split; [done |]. split; [| done]. unfold zlen in *. rewrite !length_app, length_take, length_drop. lia.
Qed.
Lemma safe_read fd buf off count : 0 <= off -> off + count <= zlen buf ->
  safe (sys_read fd buf off count) (fun r => zlen (snd r) = zlen buf /\ fst r <= Z.max 0 count /\ (0 < fst r -> exists data,
    zlen data = fst r /\ bytes data /\ snd r = take (Z.to_nat off) buf ++ data ++ drop (Z.to_nat (off + fst r)) buf)).
Proof.
  intros H0 H1. unfold sys_read. eapply safe_bind; [apply (safe_sys (CRead fd count) (counted count)); done |]. intros a (Hb & Hl & Hr).
  destruct (stored_in buf off (a_data a)) as (buf' & E & Hz & Eb); [done | lia |].
  eapply safe_bind; [apply safe_lift; exists buf'; split; [exact E | exact eq_refl] |]. intros ? <-. apply safe_ret. cbn [fst snd].
  pose proof (zlen_nonneg (a_data a)). split; [done |]. split; [lia |]. intros Hp. destruct Hr as [Hr | []]; [| lia]. exists (a_data a). by rewrite Hr.
Qed.

Lemma c_string_split l s : c_string l = Some s -> nonzero s /\ exists rest, l = s ++ 0 :: rest.
Proof.
  revert s. induction l as [| c l IH]; intros s; [done |]. cbn [c_string]. destruct (Z.eqb_spec c 0) as [-> |].
  - intros [= <-]. split; [constructor | by exists l].
  - destruct (c_string l) as [t |] eqn:E; [| done]. cbn [mbind option_bind]. intros [= <-]. destruct (IH t eq_refl) as (Ht & rest & ->).
    split; [by constructor | by exists rest].
Qed.
Lemma c_string_zero a rest : exists s, c_string (a ++ 0 :: rest) = Some s /\ zlen s <= zlen a.
Proof.
  induction a as [| c a (s & IH & Hl)]; [by exists [] |]. cbn [app c_string]. destruct (c =? 0).
  - exists []. split; [done |]. apply zlen_nonneg.
  - rewrite IH. eexists. split; [done |]. rewrite !zlen_cons. lia.
Qed.
(** An array with a terminator at [i]. *)
Lemma c_string_put l i : 0 <= i < zlen l -> exists s, c_string (l.[i <- 0]) = Some s /\ zlen s <= i.
Proof.
  intros Hi. unfold zset, zlen in *. destruct (Z.ltb_spec i 0); [lia |]. rewrite insert_take_drop by lia.
  destruct (c_string_zero (take (Z.to_nat i) l) (drop (Datatypes.S (Z.to_nat i)) l)) as (s & E & Hl). exists s. split; [done |].
  unfold zlen in Hl. rewrite length_take in Hl. lia.
Qed.

Lemma safe_then {A R} (t : prog A) (k : A -> prog R) Q : safe t (fun _ => True) -> (forall x, safe (k x) Q) -> safe (t ≫= k) Q.
Proof. intros Ht Hk. by eapply safe_bind. Qed.
Lemma safe_if {R} (b : bool) (t u : prog R) Q : (b = true -> safe t Q) -> (b = false -> safe u Q) -> safe (if b then t else u) Q.
Proof. destruct b; auto. Qed.

Lemma safe_known {A R} (o : option A) x (k : A -> prog R) Q : o = Some x -> safe (k x) Q -> safe (lift o ≫= k) Q.
Proof. intros -> H. eapply safe_bind; [by apply (safe_ret _ (fun y => y = x)) |]. by intros ? ->. Qed.

Create HintDb os.
#[export] Hint Resolve safe_puts safe_putc : os.
#[export] Hint Extern 1 (safe (result _) (fun _ => True)) => apply safe_call; discriminate : os.
#[export] Hint Extern 1 (safe (sys_open _) (fun _ => True)) => apply safe_call; discriminate : os.
#[export] Hint Extern 1 (safe (sys_close _) (fun _ => True)) => apply safe_call; discriminate : os.
#[export] Hint Extern 1 (safe (sys_exec _) (fun _ => True)) => apply safe_call; discriminate : os.
#[export] Hint Extern 1 (safe (sys_create _) (fun _ => True)) => apply safe_call; discriminate : os.
#[export] Hint Extern 1 (safe (sys_unlink _) (fun _ => True)) => apply safe_call; discriminate : os.
#[export] Hint Extern 1 (safe (sys_kill _ _) (fun _ => True)) => apply safe_call; discriminate : os.
#[export] Hint Extern 1 (safe (sys_signal _) (fun _ => True)) => apply safe_call; discriminate : os.
#[export] Hint Extern 1 (safe (sys_dup2 _ _) (fun _ => True)) => apply safe_call; discriminate : os.
#[export] Hint Extern 1 (safe (sys_chdir _) (fun _ => True)) => apply safe_call; discriminate : os.
#[export] Hint Extern 1 (safe (sys_reboot _) (fun _ => True)) => apply safe_call; discriminate : os.
#[export] Hint Extern 1 (safe (sys_fork) (fun _ => True)) => apply safe_call; discriminate : os.
#[export] Hint Extern 1 (safe (sys_wait) (fun _ => True)) => apply safe_call; discriminate : os.
#[export] Hint Extern 1 (safe (sys_getpid) (fun _ => True)) => apply safe_call; discriminate : os.
#[export] Hint Extern 1 (safe (sys_getppid) (fun _ => True)) => apply safe_call; discriminate : os.
#[export] Hint Extern 1 (safe (mret _) (fun _ => True)) => apply safe_ret; exact I : os.
#[export] Hint Extern 1 (safe (if _ then _ else _) (fun _ => True)) => apply safe_if; intros : os.
#[export] Hint Extern 2 (safe (_ ≫= _) (fun _ => True)) => apply safe_then; [| intros] : os.
Ltac program := eauto 20 with os.

(** ** Runs on a kernel *)

Inductive run_result (S R : Type) := Done (s : S) (x : R) | Exited (s : S) | Faulted | Running_on.
Arguments Done {S R}. Arguments Exited {S R}. Arguments Faulted {S R}. Arguments Running_on {S R}.

Section runs.
Context {S : Type} (h : call -> S -> reply * S).

(** [n] steps. *)
Fixpoint run_prog (n : nat) {R} (t : prog R) (s : S) : run_result S R :=
  match n with
  | O => Running_on
  | Datatypes.S n =>
      match observe t with
      | RetF r => Done s r
      | TauF t => run_prog n t s
      | VisF e k =>
          match e in osE X return (X -> prog R) -> run_result S R with
          | Sys (CExit c) => fun _ => Exited (snd (h (CExit c) s))
          | Sys c => fun k => run_prog n (k (fst (h c s))) (snd (h c s))
          | Fault => fun _ => Faulted
          end k
      end
  end.
Definition evals {R} (t : prog R) (s s' : S) (x : R) : Prop := exists n, run_prog n t s = Done s' x.

Lemma evals_ret {R} (x : R) s : evals (mret x) s s x.
Proof. by exists 1%nat. Qed.

Lemma run_bind {A R} n : forall (t : prog A) (k : A -> prog R) s s1 x m s' y,
  run_prog n t s = Done s1 x -> run_prog m (k x) s1 = Done s' y -> exists p, run_prog p (t ≫= k) s = Done s' y.
Proof.
  induction n as [| n IH]; intros t k s s1 x m s' y Ht Hk; [done |]. unfold mbind, prog_bind in *. cbn [run_prog] in Ht.
  destruct (observe t) as [r | t' | X e j] eqn:Et.
  - injection Ht as <- <-. destruct m as [| m]; [done |]. exists (Datatypes.S m). cbn [run_prog] in *. by rewrite bind_step, Et.
  - destruct (IH t' k s s1 x m s' y Ht Hk) as [p Hp]. exists (Datatypes.S p). cbn [run_prog]. by rewrite bind_step, Et.
  - destruct e as [c |]; [| done].
    destruct c; try done; (destruct (IH _ k _ s1 x m s' y Ht Hk) as [p Hp]; exists (Datatypes.S p); cbn [run_prog]; by rewrite bind_step, Et).
Qed.
Lemma evals_bind {A R} (t : prog A) (k : A -> prog R) s s1 x s' y : evals t s s1 x -> evals (k x) s1 s' y -> evals (t ≫= k) s s' y.
Proof. intros [n Hn] [m Hm]. by eapply run_bind. Qed.

Lemma evals_tau {R} (t : prog R) s s' x : evals t s s' x -> evals (Tau t) s s' x.
Proof. intros [n Hn]. by exists (Datatypes.S n). Qed.

Lemma evals_iter {I R} (body : I -> prog (I + R)) i s s1 (r : I + R) s' x :
  evals (body i) s s1 r -> match r with inl j => evals (ITree.iter body j) s1 s' x | inr y => s' = s1 /\ x = y end ->
  evals (ITree.iter body i) s s' x.
Proof.
  intros Hb Hr.
  enough (evals (body i ≫= (fun lr => match lr with inl l => Tau (ITree.iter body l) | inr r => Ret r end)) s s' x) as [n Hn].
  { destruct n as [| n]; [done |]. exists (Datatypes.S n). exact Hn. }
  eapply evals_bind; [exact Hb |]. destruct r as [j | y]; [by apply evals_tau |]. destruct Hr as [-> ->]. apply evals_ret.
Qed.

(** The program ends itself: no more than this can be said of what it would return. *)
Definition exits {R} (t : prog R) (s s' : S) : Prop := exists n, run_prog n t s = Exited s'.

Lemma exits_code {R} code s : exits (sys_exit (R := R) code) s (snd (h (CExit code) s)).
Proof. by exists 1%nat. Qed.
Lemma run_bind_exits {A R} n : forall (t : prog A) (k : A -> prog R) s s1 x m s',
  run_prog n t s = Done s1 x -> run_prog m (k x) s1 = Exited s' -> exists p, run_prog p (t ≫= k) s = Exited s'.
Proof.
  induction n as [| n IH]; intros t k s s1 x m s' Ht Hk; [done |]. unfold mbind, prog_bind in *. cbn [run_prog] in Ht.
  destruct (observe t) as [r | t' | X e j] eqn:Et.
  - injection Ht as <- <-. destruct m as [| m]; [done |]. exists (Datatypes.S m). cbn [run_prog] in *. by rewrite bind_step, Et.
  - destruct (IH t' k s s1 x m s' Ht Hk) as [p Hp]. exists (Datatypes.S p). cbn [run_prog]. by rewrite bind_step, Et.
  - destruct e as [c |]; [| done].
    destruct c; try done; (destruct (IH _ k _ s1 x m s' Ht Hk) as [p Hp]; exists (Datatypes.S p); cbn [run_prog]; by rewrite bind_step, Et).
Qed.
Lemma exits_bind {A R} (t : prog A) (k : A -> prog R) s s1 x s' : evals t s s1 x -> exits (k x) s1 s' -> exits (t ≫= k) s s'.
Proof. intros [n Hn] [m Hm]. by eapply run_bind_exits. Qed.
Lemma run_first_exits {A R} n : forall (t : prog A) (k : A -> prog R) s s', run_prog n t s = Exited s' -> exists p, run_prog p (t ≫= k) s = Exited s'.
Proof.
  induction n as [| n IH]; intros t k s s' Ht; [done |]. unfold mbind, prog_bind in *. cbn [run_prog] in Ht.
  destruct (observe t) as [r | t' | X e j] eqn:Et; [done | |].
  - destruct (IH t' k s s' Ht) as [p Hp]. exists (Datatypes.S p). cbn [run_prog]. by rewrite bind_step, Et.
  - destruct e as [c |]; [| done].
    destruct c; try (injection Ht as <-; exists 1%nat; cbn [run_prog]; by rewrite bind_step, Et); (destruct (IH _ k _ s' Ht) as [p Hp]; exists (Datatypes.S p); cbn [run_prog]; by rewrite bind_step, Et).
Qed.
Lemma exits_first {A R} (t : prog A) (k : A -> prog R) s s' : exits t s s' -> exits (t ≫= k) s s'.
Proof. intros [n Hn]. by eapply run_first_exits. Qed.

(** A loop whose turn goes on, and one whose turn ends the program. *)
Lemma exits_step {I R} (body : I -> prog (I + R)) i j s s1 s' : evals (body i) s s1 (inl j) -> exits (ITree.iter body j) s1 s' -> exits (ITree.iter body i) s s'.
Proof.
  intros Hb [m Hm].
  enough (exits (body i ≫= (fun lr => match lr with inl l => Tau (ITree.iter body l) | inr r => Ret r end)) s s') as [n Hn].
  { destruct n as [| n]; [done |]. exists (Datatypes.S n). exact Hn. }
  eapply exits_bind; [exact Hb |]. exists (Datatypes.S m). exact Hm.
Qed.
Lemma exits_last {I R} (body : I -> prog (I + R)) i s s' : exits (body i) s s' -> exits (ITree.iter body i) s s'.
Proof.
  intros Hb. enough (exits (body i ≫= (fun lr => match lr with inl l => Tau (ITree.iter body l) | inr r => Ret r end)) s s') as [n Hn].
  { destruct n as [| n]; [done |]. exists (Datatypes.S n). exact Hn. }
  by apply exits_first.
Qed.

Lemma evals_sys c s : (forall code, c <> CExit code) -> evals (syscall c) s (snd (h c s)) (fst (h c s)).
Proof. intros Hc. exists 2%nat. destruct c; try done. by destruct (Hc code). Qed.
Lemma evals_result c s : (forall code, c <> CExit code) -> evals (result c) s (snd (h c s)) (s32 (a_rax (fst (h c s)))).
Proof. intros Hc. eapply evals_bind; [by apply evals_sys | apply evals_ret]. Qed.
Lemma evals_lift {R} (o : option R) x s : o = Some x -> evals (lift o) s s x.
Proof. intros ->. apply evals_ret. Qed.
Lemma evals_write fd buf n s : n <= zlen buf ->
  evals (sys_write fd buf n) s (snd (h (CWrite fd (take (Z.to_nat n) buf)) s)) (s32 (a_rax (fst (h (CWrite fd (take (Z.to_nat n) buf)) s)))).
Proof. intros Hn. unfold sys_write. destruct (Z.leb_spec n (zlen buf)); [| lia]. by apply evals_result. Qed.
End runs.

(** ** Keyboard and screen *)

(** What a program that talks to its user needs of a kernel: a read takes the next key, and
    what is written to the standard output is shown. *)
Class console {S : Type} (h : call -> S -> reply * S) (keys shown : S -> list Z) := {
  key_read : forall s c ks, keys s = c :: ks ->
    exists s', h (CRead STDIN_FILENO 1) s = (Reply 1 [c] false, s') /\ keys s' = ks /\ shown s' = shown s;
  out_write : forall s d, a_sigint (fst (h (CWrite STDOUT_FILENO d) s)) = false /\
    keys (snd (h (CWrite STDOUT_FILENO d) s)) = keys s /\ shown (snd (h (CWrite STDOUT_FILENO d) s)) = shown s ++ d }.

Section console.
Context {S : Type} (h : call -> S -> reply * S) (keys shown : S -> list Z) {HC : console h keys shown}.

(** [t] shows [d], takes no key and returns what satisfies [Q]. *)
Definition prints {R} (t : prog R) (d : list Z) (Q : R -> Prop) : Prop :=
  forall s, exists s' x, evals h t s s' x /\ Q x /\ keys s' = keys s /\ shown s' = shown s ++ d.

Lemma prints_ret {R} (x : R) (Q : R -> Prop) : Q x -> prints (mret x) [] Q.
Proof. intros H s. exists s, x. rewrite app_nil_r. split; [apply evals_ret | done]. Qed.
Lemma prints_bind {A R} (t : prog A) (k : A -> prog R) d P d' Q : prints t d P -> (forall x, P x -> prints (k x) d' Q) -> prints (t ≫= k) (d ++ d') Q.
Proof.
  intros Ht Hk s. destruct (Ht s) as (s1 & x & E1 & Hx & K1 & S1). destruct (Hk x Hx s1) as (s2 & y & E2 & Hy & K2 & S2). exists s2, y.
  split; [by eapply evals_bind | split; [done | split; [congruence | by rewrite S2, S1, app_assoc]]].
Qed.
Lemma prints_known {A R} (o : option A) x (k : A -> prog R) d Q : o = Some x -> prints (k x) d Q -> prints (lift o ≫= k) d Q.
Proof. intros E Hk. change d with ([] ++ d). eapply (prints_bind _ _ _ (fun y => y = x)); [rewrite E; by apply prints_ret | by intros ? ->]. Qed.
Lemma prints_write buf n : n <= zlen buf -> prints (sys_write STDOUT_FILENO buf n) (take (Z.to_nat n) buf) (fun _ => True).
Proof using HC.
  intros Hn s. eexists _, _. split; [by apply evals_write |]. split; [done |]. apply out_write.
Qed.
Lemma prints_puts t : prints (puts t) t (fun _ => True).
Proof using HC.
  pose proof (prints_write (t ++ [0]) (zlen t)) as H. unfold puts. replace (take (Z.to_nat (zlen t)) (t ++ [0])) with t in H; [apply H; rewrite zlen_app; pose proof (zlen_nonneg [0]); lia |].
  unfold zlen. by rewrite Nat2Z.id, take_app_length.
Qed.
Lemma prints_putc c : prints (putc c) [c] (fun _ => True).
Proof using HC. by apply (prints_write [c] 1). Qed.

Lemma prints_then {A R} (t : prog A) (k : A -> prog R) d d' Q : prints t d (fun _ => True) -> (forall x, prints (k x) d' Q) -> prints (t ≫= k) (d ++ d') Q.
Proof. intros Ht Hk. eapply prints_bind; [exact Ht | intros x _; apply Hk]. Qed.
End console.

(** A console that has nothing else: the keys to come and what has been shown. *)
Record tty := Tty { t_keys : list Z; t_shown : list Z }.
Definition tty_kernel (c : call) (s : tty) : reply * tty :=
  match c with
  | CRead 0 1 => match t_keys s with [] => (Reply 0 [] false, s) | k :: ks => (Reply 1 [k] false, Tty ks (t_shown s)) end
  | CWrite 1 d => (Reply (zlen d) [] false, Tty (t_keys s) (t_shown s ++ d))
  | _ => (Reply (u64 (-1)) [] false, s)
  end.
#[export] Instance tty_console : console tty_kernel t_keys t_shown.
Proof.
  split.
  - intros s c ks E. exists (Tty ks (t_shown s)). unfold tty_kernel, STDIN_FILENO. by rewrite E.
  - done.
Qed.
