(* ===== verification/UShell.v ===== *)
(** * User shell (src/user/shell.c)

    The line that is typed, its words, pipes, the commands and the package manager with its
    table of installed packages, as programs that make system calls. An array that has not
    been written holds [raw n]. *)

From ITree Require Import ITree.
From Stdlib Require Import String Ascii.
From S2P Require Import Prelude UserLib KPath UserIO.

Definition LINE_MAX : Z := 256.
Definition TOKEN_MAX : Z := 32.
Definition EPP_MAX_INSTALLED : Z := 32.

(** ** The line *)

(** A call during which the handler of SIGINT may run. *)
Definition noting (c : call) (got : bool) : prog (reply * bool) := a ← syscall c; mret (a, got || a_sigint a).
Definition put_noting (s : list Z) (got : bool) : prog bool := r ← noting (CWrite STDOUT_FILENO s) got; mret (snd r).

(** A character that has been read. *)
Definition take_key (max : Z) (buf : list Z) (pos : Z) (got : bool) (c : Z) : prog (list Z * Z * bool + Z * list Z) :=
  let interrupted := _ ← puts (ln "^C"); buf ← lift (put buf 0 0); mret (inr (-1, buf)) in
  if got then interrupted
  else if c =? 10 then _ ← putc 10; buf ← lift (put buf pos 0); mret (inr (0, buf))
  else if (c =? 8) || (c =? 127) then
    if 0 <? pos then got ← put_noting [8] got; mret (inl (buf, pos - 1, got)) else mret (inl (buf, pos, got))
  else if c =? 3 then interrupted
  else if c =? 4 then _ ← puts (10 :: ln "Goodbye!"); sys_exit 0
  else if pos <? max - 1 then
    buf ← lift (put buf pos c); got ← put_noting [c] got; mret (inl (buf, pos + 1, got))
  else mret (inl (buf, pos, got)).
Definition readline_turn (max : Z) (x : list Z * Z * bool) : prog (list Z * Z * bool + Z * list Z) :=
  let '(buf, pos, got) := x in
  r ← noting (CRead STDIN_FILENO 1) got;
  let '(a, got) := (r : reply * bool) in
  cell ← lift (stored [0] 0 (a_data a));
  if negb (s32 (a_rax a) =? 1) then mret (inl (buf, pos, got)) else take_key max buf pos got (hd 0 cell).
Definition readline (buf : list Z) (max : Z) : prog (Z * list Z) :=
  buf ← lift (put buf 0 0); ITree.iter (readline_turn max) (buf, 0, false).

(** ** Words *)

Definition is_end (c : Z) : bool := is_blank c || (c =? 124) || (c =? 62) || (c =? 60).
(** The body of tokenize is that of the kernel's shell, with more characters that end a word. *)
Definition tokenize (line : list Z) (max : Z) : option (list Z * list Z) := tokenize_from is_end (S (length line)) max 0 [] line.
(** The words that [exec_cmd] is given. *)
Definition tokens_of (line : list Z) : option (list (list Z)) := r ← tokenize line TOKEN_MAX; tokens_at (snd r) (fst r).

Fixpoint has_char (x : Z) (s : list Z) : bool := match s with [] => false | c :: s => (c =? x) || has_char x s end.
Definition has_pipe (line : list Z) : bool := has_char 124 line.

Definition is_redir (t : list Z) : bool := (strcmp t (txt ">") =? 0) || (strcmp t (txt ">>") =? 0).
Fixpoint find_redir_out (tokens : list (list Z)) : option (list Z) :=
  match tokens with
  | t :: (next :: _) as rest => if is_redir t then Some next else find_redir_out rest
  | _ => None
  end.
(** The place of the redirection, and whether it is [>>]. *)
Fixpoint redir_at (i : nat) (tokens : list (list Z)) : option (nat * bool) :=
  match tokens with
  | [] => None
  | t :: rest => if is_redir t then Some (i, nth 1 t 0 =? 62) else redir_at (S i) rest
  end.

(** ** Files *)

Definition read_turn (fd cap : Z) (x : list Z * Z) : prog (list Z * Z + list Z * Z) :=
  let '(buf, total) := x in
  if total <? cap - 1 then
    r ← sys_read fd buf total (cap - 1 - total);
    let '(n, buf) := (r : Z * list Z) in
    if n <=? 0 then mret (inr (buf, total)) else mret (inl (buf, total + n))
  else mret (inr (buf, total)).
Definition read_file (path buf : list Z) (cap : Z) : prog (Z * list Z) :=
  fd ← sys_open path;
  if fd <? 0 then mret (-1, buf)
  else
    r ← ITree.iter (read_turn fd cap) (buf, 0);
    let '(buf, total) := (r : list Z * Z) in
    buf ← lift (put buf total 0);
    _ ← sys_close fd;
    mret (total, buf).

(** ** Manifests: lines [key=value] *)

Fixpoint to_newline (s : list Z) : list Z := match s with [] => [] | c :: s' => if c =? 10 then [] else c :: to_newline s' end.
Fixpoint after_newline (s : list Z) : list Z := match s with [] => [] | c :: s' => if c =? 10 then s' else after_newline s' end.

(** What follows [key=] in the first line that starts with it. *)
Fixpoint find_value (fuel : nat) (key s : list Z) : option (list Z) :=
  match fuel, s with
  | O, _ | _, [] => None
  | S f, _ => if starts_with s key && (nth (length key) s 0 =? 61) then Some (drop (S (length key)) s)
              else find_value f key (after_newline s)
  end.
Definition lookup_value (key manifest : list Z) : option (list Z) :=
  s ← find_value (S (length manifest)) key manifest; Some (to_newline s).

Fixpoint put_all (s : list Z) : prog unit := match s with [] => mret tt | c :: s => _ ← putc c; put_all s end.
Definition print_value (manifest key : list Z) : prog unit :=
  match lookup_value key manifest with Some v => put_all v | None => _ ← puts (txt "unknown"); mret tt end.
(** [out] of [cap] bytes. *)
Definition get_value (manifest key out : list Z) (cap : Z) : option (Z * list Z) :=
  match lookup_value key manifest with
  | Some v => out ← stored out 0 (take (Z.to_nat (cap - 1)) v ++ [0]); Some (0, out)
  | None => out ← put out 0 0; Some (-1, out)
  end.

Definition package_path (name out : list Z) : option (list Z) :=
  out ← strcpy out 0 name;
  if ends_with name (txt ".epk") then Some out else strcpy out (zlen name) (txt ".epk").

(** ** The table of installed packages *)

Record installed_pkg := Pkg { pk_name : list Z; pk_version : list Z; pk_file : list Z; pk_used : Z }.
Definition db := list installed_pkg.

Fixpoint find_used (i : Z) (name : list Z) (l : db) : option Z :=
  match l with
  | [] => Some (-1)
  | k :: l =>
      if istrue (pk_used k) then s ← c_string (pk_name k); if strcmp s name =? 0 then Some i else find_used (i + 1) name l
      else find_used (i + 1) name l
  end.
Definition installed_find (name : list Z) (l : db) : option Z := find_used 0 name l.
Fixpoint find_unused (i : Z) (l : db) : Z :=
  match l with [] => -1 | k :: l => if istrue (pk_used k) then find_unused (i + 1) l else i end.
Definition installed_add (name version file : list Z) (l : db) : option (Z * db) :=
  idx ← installed_find name l;
  let idx := if idx <? 0 then find_unused 0 l else idx in
  if idx <? 0 then Some (-1, l)
  else
    k ← zlook l idx;
    n ← strcpy (pk_name k) 0 name; v ← strcpy (pk_version k) 0 version; f ← strcpy (pk_file k) 0 file;
    Some (0, l.[idx <- Pkg n v f 1]).
Definition installed_remove (name : list Z) (l : db) : option (Z * db) :=
  idx ← installed_find name l;
  if idx <? 0 then Some (-1, l)
  else k ← zlook l idx; Some (0, l.[idx <- Pkg (pk_name k) (pk_version k) (pk_file k) 0]).

Fixpoint list_used (count : Z) (l : db) : prog Z :=
  match l with
  | [] => mret count
  | k :: l =>
      if istrue (pk_used k) then
        _ ← puts (txt "  "); _ ← puts_array (pk_name k); _ ← puts (txt " "); _ ← puts_array (pk_version k);
        _ ← puts (txt " -> "); _ ← puts_array (pk_file k); _ ← putc 10; list_used (count + 1) l
      else list_used count l
  end.
Definition installed_list (l : db) : prog unit :=
  count ← list_used 0 l; if count =? 0 then _ ← puts (ln "  (none)"); mret tt else mret tt.

Section shell.
Context (raw : Z -> list Z).

Fixpoint say (ss : list (list Z)) : prog unit := match ss with [] => mret tt | s :: ss => _ ← puts s; say ss end.
Definition nl : list Z := [10].

Definition epk_execute (path : list Z) : prog unit :=
  r ← read_file path (raw 512) 512;
  if fst r <? 0 then say [txt "epp: cannot open: "; path; nl]
  else
    manifest ← lift (c_string (snd r));
    _ ← puts (txt "Package: "); _ ← print_value manifest (txt "name"); _ ← putc 10;
    _ ← puts (txt "Version: "); _ ← print_value manifest (txt "version"); _ ← putc 10;
    _ ← puts (txt "About:   "); _ ← print_value manifest (txt "description"); _ ← putc 10;
    r ← lift (get_value manifest (txt "file") (raw 64) 64);
    if fst r <? 0 then say [ln "epp: no file entry"]
    else
      file ← lift (c_string (snd r));
      fd ← sys_open file;
      if fd <? 0 then say [txt "epp: payload missing: "; file; nl]
      else _ ← sys_close fd; say [txt "Status:  installed/ready (payload "; file; ln ")"].

Definition epk_install (path : list Z) (l : db) : prog (Z * db) :=
  r ← read_file path (raw 512) 512;
  if fst r <? 0 then _ ← say [txt "epp: cannot open: "; path; nl]; mret (-1, l)
  else
    manifest ← lift (c_string (snd r));
    n ← lift (get_value manifest (txt "name") (raw 32) 32);
    v ← (if fst n <? 0 then mret (-1, []) else lift (get_value manifest (txt "version") (raw 16) 16));
    f ← (if fst v <? 0 then mret (-1, []) else lift (get_value manifest (txt "file") (raw 64) 64));
    if fst f <? 0 then _ ← say [ln "epp: invalid manifest"]; mret (-1, l)
    else
      name ← lift (c_string (snd n)); version ← lift (c_string (snd v)); file ← lift (c_string (snd f));
      fd ← sys_open file;
      if fd <? 0 then _ ← say [txt "epp: payload missing: "; file; nl]; mret (-1, l)
      else
        _ ← sys_close fd;
        r ← lift (installed_add name version file l);
        if fst r <? 0 then _ ← say [ln "epp: db full"]; mret (-1, l)
        else _ ← say [txt "Installed "; name; txt " "; version; nl]; mret (0, snd r).

(** ** Commands *)

Definition HELP : list (list Z) :=
  [ln "Commands:"; ln "  help              show this help"; ln "  clear             clear screen";
   ln "  pwd               print working directory"; ln "  ls [path]         list directory";
   ln "  cat <file>        print file contents"; ln "  write <file> <t>  create/overwrite file";
   ln "  rm <file>         delete file"; ln "  stat <file>       show file info";
   ln "  mkdir <dir>       create directory"; ln "  run <elf>         execute ELF binary";
   ln "  echo <text>       print text"; ln "  pid               show process ID";
   ln "  ps                show processes"; ln "  kill <pid>        kill process";
   ln "  shutdown          power off"; ln "  reboot            restart system";
   ln "  epp <cmd> [pkg]   Epona Package manager"; ln "  edit [file]       text editor";
   ln "  <file>.epk        execute package manifest"; ln "  pipe: cmd1 | cmd2  pipe output to command";
   ln "  redir: cmd > file  redirect output to file"].
Definition EPP_HELP : list (list Z) :=
  [ln "Epona Package Manager (epp)"; ln "  epp update          refresh repo index"; ln "  epp list            list packages";
   ln "  epp installed       list installed"; ln "  epp info <pkg>      package info";
   ln "  epp install <pkg>   install package"; ln "  epp remove <pkg>    remove package"].

Definition arg (i : nat) (tokens : list (list Z)) : list Z := nth i tokens [].

Definition cmd_ls (tokens : list (list Z)) : prog unit :=
  let path := if 1 <? zlen tokens then arg 1 tokens else txt "/" in
  r ← sys_readdir path (raw 2048) 2048;
  let '(n, buf) := (r : Z * list Z) in
  if n <? 0 then say [ln "ls: cannot read directory"]
  else if n =? 0 then say [ln "(empty)"]
  else _ ← puts_array buf; mret tt.

Definition cat_turn (fd : Z) (buf : list Z) : prog (list Z + unit) :=
  r ← sys_read fd buf 0 256;
  let '(n, buf) := (r : Z * list Z) in
  if n <=? 0 then mret (inr tt) else _ ← sys_write STDOUT_FILENO buf n; mret (inl buf).
Definition cmd_cat (tokens : list (list Z)) : prog unit :=
  if zlen tokens <? 2 then say [ln "usage: cat <file>"]
  else
    fd ← sys_open (arg 1 tokens);
    if fd <? 0 then say [txt "cat: cannot open "; arg 1 tokens; nl]
    else _ ← ITree.iter (cat_turn fd) (raw 256); _ ← sys_close fd; mret tt.

Fixpoint write_words (first : bool) (fd : Z) (ts : list (list Z)) : prog unit :=
  match ts with
  | [] => mret tt
  | t :: ts =>
      _ ← (if first then mret 0 else sys_write fd (txt " ") 1);
      _ ← sys_write fd (t ++ [0]) (zlen t); write_words false fd ts
  end.
Definition cmd_write (tokens : list (list Z)) : prog unit :=
  if zlen tokens <? 3 then say [ln "usage: write <file> <text>"]
  else
    fd ← sys_create (arg 1 tokens);
    if fd <? 0 then say [txt "write: cannot create "; arg 1 tokens; nl]
    else _ ← write_words true fd (drop 2 tokens); _ ← sys_write fd nl 1; _ ← sys_close fd; mret tt.

Definition cmd_rm (tokens : list (list Z)) : prog unit :=
  if zlen tokens <? 2 then say [ln "usage: rm <file>"]
  else r ← sys_unlink (arg 1 tokens); if r <? 0 then say [txt "rm: cannot remove "; arg 1 tokens; nl] else mret tt.

(** [was] is what the two variables hold before the call. *)
Definition cmd_stat (was : Z * Z) (tokens : list (list Z)) : prog unit :=
  if zlen tokens <? 2 then say [ln "usage: stat <file>"]
  else
    r ← sys_stat (arg 1 tokens) was;
    if fst r <? 0 then say [txt "stat: cannot stat "; arg 1 tokens; nl]
    else
      let '(size, flags) := snd r in
      _ ← say [arg 1 tokens; if istrue (Z.land flags 2) then txt " (dir)" else txt " (file)"; nl; txt "  size: "];
      num ← lift (number_text 12 (u32 size));
      say [num; ln " bytes"].

Definition cmd_run (tokens : list (list Z)) : prog unit :=
  if zlen tokens <? 2 then say [ln "usage: run <elf>"]
  else if ends_with (arg 1 tokens) (txt ".epk") then say [ln "run: .epk is a manifest, not ELF"]
  else
    _ ← puts (ln "Executing...");
    r ← sys_exec (arg 1 tokens);
    if r <? 0 then say [txt "run: cannot execute "; arg 1 tokens; nl] else mret tt.

Definition cmd_mkdir (tokens : list (list Z)) : prog unit :=
  if zlen tokens <? 2 then say [ln "usage: mkdir <dir>"]
  else
    fd ← sys_create (arg 1 tokens);
    if fd <? 0 then say [ln "mkdir: failed"]
    else _ ← sys_close fd; say [txt "created directory "; arg 1 tokens; nl].

Definition cmd_pid : prog unit :=
  pid ← sys_getpid;
  num ← lift (number_text 12 (u32 pid));
  say [txt "PID: "; num; nl].

Fixpoint echo_words (first : bool) (ts : list (list Z)) : prog unit :=
  match ts with
  | [] => mret tt
  | t :: ts => _ ← (if first then mret 0 else putc 32); _ ← puts t; echo_words false ts
  end.

(** The lines [package=...] of the index. *)
Fixpoint list_packages (fuel : nat) (s : list Z) : prog unit :=
  match fuel, s with
  | O, _ | _, [] => mret tt
  | S f, _ =>
      if starts_with s (txt "package=") then
        let p := drop 8 s in
        _ ← puts (txt "  "); _ ← put_all (to_newline p); _ ← putc 10; list_packages f (after_newline p)
      else list_packages f (after_newline s)
  end.

Definition epp_is (tokens : list (list Z)) (s : string) : bool := strcmp (arg 1 tokens) (txt s) =? 0.
Definition cmd_epp (tokens : list (list Z)) (l : db) : prog db :=
  let with_db (p : prog unit) := _ ← p; mret l in
  if (zlen tokens <? 2) || epp_is tokens "help" then with_db (say EPP_HELP)
  else if epp_is tokens "update" then
    r ← read_file (txt "repo.epk") (raw 512) 512;
    with_db (say [if fst r <? 0 then ln "epp: repo.epk not found" else ln "Repository updated."])
  else if epp_is tokens "list" then
    r ← read_file (txt "repo.epk") (raw 512) 512;
    if fst r <? 0 then with_db (say [ln "epp: run epp update first"])
    else repo ← lift (c_string (snd r)); with_db (list_packages (S (length repo)) repo)
  else if epp_is tokens "installed" then with_db (installed_list l)
  else if epp_is tokens "remove" then
    if zlen tokens <? 3 then with_db (say [ln "usage: epp remove <pkg>"])
    else
      r ← lift (installed_remove (arg 2 tokens) l);
      _ ← say (if fst r <? 0 then [txt "epp: not installed: "; arg 2 tokens; nl] else [txt "Removed "; arg 2 tokens; nl]);
      mret (snd r)
  else if epp_is tokens "info" || epp_is tokens "install" then
    if zlen tokens <? 3 then with_db (say [txt "usage: epp "; arg 1 tokens; ln " <pkg>"])
    else
      path ← lift (package_path (arg 2 tokens) (raw 64));
      path ← lift (c_string path);
      if epp_is tokens "info" then with_db (epk_execute path)
      else
        r ← epk_install path l;
        _ ← (if fst r =? 0 then say [ln "epp: installed"] else mret tt);
        mret (snd r)
  else with_db (say [txt "epp: unknown: "; arg 1 tokens; nl]).

(** [tokens[0]] is null when there is nothing before the redirection. *)
Definition builtin (was : Z * Z) (tokens : list (list Z)) (l : db) : prog db :=
  match tokens with
  | [] => fault
  | t :: args =>
      let same s := strcmp t (txt s) =? 0 in
      let with_db (p : prog unit) := _ ← p; mret l in
      if same "help"%string then with_db (say HELP)
      else if same "clear"%string then with_db (say [[12]])
      else if same "pwd"%string then with_db (say [ln "/"])
      else if same "ls"%string then with_db (cmd_ls tokens)
      else if same "cat"%string then with_db (cmd_cat tokens)
      else if same "write"%string then with_db (cmd_write tokens)
      else if same "rm"%string then with_db (cmd_rm tokens)
      else if same "stat"%string then with_db (cmd_stat was tokens)
      else if same "run"%string then with_db (cmd_run tokens)
      else if same "mkdir"%string then with_db (cmd_mkdir tokens)
      else if same "echo"%string then with_db (_ ← echo_words true args; say [nl])
      else if same "pid"%string then with_db cmd_pid
      else if same "epp"%string then cmd_epp tokens l
      else if same "edit"%string then with_db (_ ← sys_exec (txt "EDIT.ELF"); mret tt)
      else if same "shutdown"%string then with_db (_ ← sys_reboot REBOOT_CMD_SHUTDOWN; mret tt)
      else if same "reboot"%string then with_db (_ ← sys_reboot REBOOT_CMD_REBOOT; mret tt)
      else if ends_with t (txt ".epk") then with_db (epk_execute t)
      else r ← sys_exec t; with_db (if r <? 0 then say [txt "Unknown command: "; t; nl] else mret tt)
  end.

Definition exec_cmd (was : Z * Z) (tokens : list (list Z)) (l : db) : prog db :=
  match tokens with
  | [] => mret l
  | _ =>
      r ← (match find_redir_out tokens, redir_at 0 tokens with
           | Some file, Some (i, _) =>
               fd ← sys_create file;
               _ ← (if 0 <=? fd then sys_dup2 fd STDOUT_FILENO else mret 0);
               mret (fd, take i tokens)
           | _, _ => mret (-1, tokens)
           end);
      let '(fd, tokens) := (r : Z * list (list Z)) in
      l ← builtin was tokens l;
      if 0 <=? fd then _ ← sys_dup2 1 STDOUT_FILENO; _ ← sys_close fd; mret l else mret l
  end.
(** The words of a line that has been copied to [buf]. *)
Definition exec_line (was : Z * Z) (line : list Z) (l : db) : prog db :=
  buf ← lift (strcpy (raw LINE_MAX) 0 line);
  tokens ← lift (tokens_of buf);
  exec_cmd was tokens l.

(** ** Pipes *)

Fixpoint split_pipe (s : list Z) : option (list Z * list Z) :=
  match s with
  | [] => None
  | c :: s => if c =? 124 then Some ([], s) else r ← split_pipe s; Some (c :: fst r, snd r)
  end.
Fixpoint trim (s : list Z) : list Z := match s with [] => [] | c :: s' => if c =? 32 then trim s' else s end.

Definition exec_pipe (was fds : Z * Z) (line : list Z) (l : db) : prog db :=
  match split_pipe line with
  | None => mret l
  | Some (line1, line2) =>
      r ← sys_pipe fds;
      let '(r, (rd, wr)) := (r : Z * (Z * Z)) in
      if r <? 0 then _ ← say [ln "pipe: failed"]; mret l
      else
        child ← sys_fork;
        if child =? 0 then
          _ ← sys_dup2 wr STDOUT_FILENO; _ ← sys_close rd; _ ← sys_close wr;
          _ ← exec_line was line1 l; sys_exit 0
        else
          _ ← sys_dup2 rd STDIN_FILENO; _ ← sys_close rd; _ ← sys_close wr;
          l ← exec_line was (trim line2) l;
          _ ← sys_wait;
          _ ← sys_dup2 0 STDIN_FILENO;
          mret l
  end.

(** ** The loop *)

(** A line [s] in the array [line]. *)
Definition run_line (was fds : Z * Z) (line s : list Z) (l : db) : prog (list Z * db) :=
  if has_pipe s then
    l ← exec_pipe was fds s l;
    line ← lift (match split_pipe s with Some (s1, _) => put line (zlen s1) 0 | None => Some line end);
    mret (line, l)
  else
    r ← lift (tokenize line TOKEN_MAX);
    let '(ps, line) := (r : list Z * list Z) in
    tokens ← lift (tokens_at line ps);
    l ← exec_cmd was tokens l;
    mret (line, l).
Definition main_turn (was fds : Z * Z) (x : list Z * db) : prog (list Z * db + Z) :=
  let '(line, l) := x in
  _ ← puts (txt "user@epona:~$ ");
  r ← readline line LINE_MAX;
  let '(n, line) := (r : Z * list Z) in
  if n <? 0 then mret (inl (line, l))
  else
    s ← lift (c_string line);
    if bool_decide (s = []) then mret (inl (line, l))
    else if starts_with (trim s) (txt "exit") then _ ← puts (ln "Goodbye!"); mret (inr 0)
    else r ← run_line was fds line s l; mret (inl r).
Definition main (was fds : Z * Z) (l : db) : prog Z :=
  _ ← sys_signal SIGINT; ITree.iter (main_turn was fds) (raw LINE_MAX, l).
End shell.

(** ** No access outside an array *)

Lemma noting_safe c got Q : (forall a b, answers c a -> Q (a, b)) -> safe (noting c got) Q.
Proof. intros H. eapply safe_bind; [by apply safe_sys |]. intros a Ha. apply safe_ret. by apply H. Qed.
Lemma put_noting_safe s got : safe (put_noting s got) (fun _ => True).
Proof. eapply safe_bind; [by apply (noting_safe _ _ (fun _ => True)) |]. intros a _. by apply safe_ret. Qed.

Definition ended (max : Z) (r : Z * list Z) : Prop := zlen (snd r) = max /\ exists s, c_string (snd r) = Some s /\ zlen s < max.

Lemma put_ended max buf i n : zlen buf = max -> 0 <= i < max ->
  safe (buf ← lift (put buf i 0); mret (inr (n, buf))) (fun r : list Z * Z * bool + Z * list Z => match r with inl _ => False | inr x => ended max x end).
Proof.
  intros Hl Hi. eapply safe_known; [apply put_in; lia |].
  apply safe_ret. split; cbn [snd]; [by rewrite zset_zlen |]. destruct (c_string_put buf i ltac:(lia)) as (s & E & Hs). exists s. split; [done | lia].
Qed.

Lemma readline_ended max buf : 1 <= max -> zlen buf = max -> safe (readline buf max) (ended max).
Proof.
  intros Hm Hl. unfold readline. eapply safe_known; [apply put_in; lia |].
  apply (safe_iter _ (fun x => zlen (fst (fst x)) = max /\ 0 <= snd (fst x) < max)); [| cbn [fst snd]; rewrite zset_zlen; lia].
  intros [[buf' pos] got] [H1 H2]. cbn [fst snd] in H1, H2. unfold readline_turn.
  eapply safe_bind; [apply (noting_safe _ _ (fun r => counted 1 (fst r))); done |]. intros [a got'] (_ & Hz & _). cbn [fst] in Hz.
  destruct (stored_in [0] 0 (a_data a)) as (cell & Ec & _); [done | exact Hz |].
  eapply safe_known; [exact Ec |]. generalize (hd 0 cell). intros c. unfold take_key. cbv zeta.
  assert (forall n, safe (_ ← puts (ln "^C"); buf ← lift (put buf' 0 0); mret (inr (n, buf)))
    (fun r : list Z * Z * bool + Z * list Z => match r with inl x => zlen (fst (fst x)) = max /\ 0 <= snd (fst x) < max | inr x => ended max x end)) as Hc.
  { intros n. apply safe_then; [program | intros _]. eapply safe_mono; [apply (put_ended max); [done | lia] |]. by intros [] H. }
  repeat (apply safe_if; intros).
  - by apply safe_ret.
  - apply Hc.
  - apply safe_then; [program | intros _]. eapply safe_mono; [by apply (put_ended max) |]. by intros [] H'.
  - apply safe_then; [apply put_noting_safe | intros]. apply safe_ret. cbn [fst snd]. bprop. lia.
  - by apply safe_ret.
  - apply Hc.
  - apply safe_then; [program | intros]. apply safe_exit.
  - eapply safe_known; [apply put_in; lia |]. apply safe_then; [apply put_noting_safe | intros]. apply safe_ret.
    cbn [fst snd]. rewrite zset_zlen. bprop. lia.
  - by apply safe_ret.
Qed.

Definition array_of (n : Z) (l : list Z) : Prop := zlen l = n.
Definition string_in (n : Z) (l : list Z) : Prop := zlen l = n /\ exists s, c_string l = Some s /\ zlen s < n.

Lemma strcpy_in n buf s : zlen buf = n -> zlen s < n -> exists buf', strcpy buf 0 s = Some buf' /\ string_in n buf'.
Proof.
  intros Hl Hs. unfold strcpy. destruct (stored_in buf 0 (s ++ [0])) as (b & E & Hz & Eb); [done | rewrite zlen_app; change (zlen [0]) with 1; lia |].
  exists b. split; [done |]. split; [lia |]. cbn [Z.to_nat take app] in Eb. rewrite Eb, <- app_assoc. cbn [app].
  destruct (c_string_zero s (drop (Z.to_nat (0 + zlen (s ++ [0]))) buf)) as (t & Et & Ht). exists t. split; [done | lia].
Qed.

Lemma read_file_safe path buf cap : 1 <= cap -> zlen buf = cap ->
  safe (read_file path buf cap) (fun r => fst r < 0 \/ string_in cap (snd r)).
Proof.
  intros Hc Hl. unfold read_file. apply safe_then; [program | intros fd]. apply safe_if; intros; [apply safe_ret; left; cbn; lia |].
  eapply safe_bind.
  - apply (safe_iter _ (fun x => zlen (fst x) = cap /\ 0 <= snd x < cap) (fun x => zlen (fst x) = cap /\ 0 <= snd x < cap)); [| cbn [fst snd]; lia].
    intros [b total] [H1 H2]. cbn [fst snd] in H1, H2. unfold read_turn. apply safe_if; intros; [| by apply safe_ret].
    eapply safe_bind; [apply safe_read; lia |]. intros [n b'] (H3 & H4 & _). cbn [fst snd] in H3, H4.
    apply safe_if; intros; apply safe_ret; cbn [fst snd]; bprop; lia.
  - intros [b total] [H1 H2]. cbn [fst snd] in H1, H2. eapply safe_known; [apply put_in; lia |].
    apply safe_then; [program | intros _]. apply safe_ret. right. cbn [snd]. destruct (c_string_put b total) as (s & E & Hs); [lia |].
    split; [by rewrite zset_zlen |]. exists s. split; [done | lia].
Qed.

Lemma get_value_ok manifest key out cap : 1 <= cap -> zlen out = cap ->
  exists r out', get_value manifest key out cap = Some (r, out') /\ string_in cap out'.
Proof.
  intros Hc Hl. unfold get_value. destruct (lookup_value key manifest) as [v |].
  - set (t := take (Z.to_nat (cap - 1)) v). assert (zlen t <= cap - 1) as Ht by (unfold t, zlen; rewrite length_take; lia).
    destruct (strcpy_in cap out t Hl ltac:(lia)) as (out' & E & H). unfold strcpy in E. rewrite E. cbn [mbind option_bind]. by eexists _, _.
  - rewrite put_in by lia. cbn [mbind option_bind]. eexists _, _. split; [done |]. destruct (c_string_put out 0 ltac:(lia)) as (s & E & Hs).
    split; [by rewrite zset_zlen |]. exists s. split; [done | lia].
Qed.

(** ** The table *)

Record pkg_ok (k : installed_pkg) : Prop := {
  po_name : zlen (pk_name k) = 32;
  po_version : zlen (pk_version k) = 16;
  po_file : zlen (pk_file k) = 64;
  po_strings : pk_used k <> 0 -> string_in 32 (pk_name k) /\ string_in 16 (pk_version k) /\ string_in 64 (pk_file k) }.
Definition db_ok (l : db) : Prop := zlen l = EPP_MAX_INSTALLED /\ Forall pkg_ok l.

Definition has_name (name : list Z) (k : installed_pkg) : Prop := pk_used k <> 0 /\ exists s, c_string (pk_name k) = Some s /\ strcmp s name = 0.

Lemma find_used_spec name l : forall i, Forall pkg_ok l ->
  exists j, find_used i name l = Some j /\
    ((j = -1 /\ Forall (fun k => ~ has_name name k) l) \/
     (i <= j < i + zlen l /\ exists a k b, l = a ++ k :: b /\ zlen a = j - i /\ has_name name k /\ Forall (fun k => ~ has_name name k) a)).
Proof.
  induction l as [| k l IH]; intros i Hl; cbn [find_used]; [exists (-1); split; [done | by left] |].
  apply Forall_cons in Hl as [Hk Hl]. rewrite zlen_cons. destruct (IH (i + 1) Hl) as (j & E & Hj). clear IH.
  assert (~ has_name name k -> exists j, find_used (i + 1) name l = Some j /\ ((j = -1 /\ Forall (fun k => ~ has_name name k) (k :: l)) \/
    (i <= j < i + (zlen l + 1) /\ exists a k' b, k :: l = a ++ k' :: b /\ zlen a = j - i /\ has_name name k' /\ Forall (fun k => ~ has_name name k) a))) as Hnext.
  { intros Hn. exists j. split; [done |]. destruct Hj as [[-> Hf] | (Hr & a & k' & b & -> & Ha & Hk' & Hf)]; [left; split; [done | by constructor] | right].
    split; [lia |]. exists (k :: a), k', b. split; [done |]. rewrite zlen_cons. split; [lia |]. split; [done | by constructor]. }
  unfold istrue. destruct (Z.eqb_spec (pk_used k) 0) as [E0 | E0]; cbn [negb]; [apply Hnext; by intros [] |].
  destruct (po_strings k Hk E0) as [(_ & s & Es & _) _]. rewrite Es. cbn [mbind option_bind]. destruct (Z.eqb_spec (strcmp s name) 0) as [Ez | Ez].
  - exists i. split; [done |]. right. split; [pose proof (zlen_nonneg l); lia |]. exists ([] : db), k, l. split; [done |]. split; [change (@zlen installed_pkg []) with 0; lia |].
    split; [split; [done | by exists s] | constructor].
  - apply Hnext. intros (_ & s' & Es' & Ez'). congruence.
Qed.

Lemma find_unused_spec l : forall i, 0 <= i ->
  (find_unused i l = -1 /\ Forall (fun k => pk_used k <> 0) l) \/
  (exists a k b, l = a ++ k :: b /\ find_unused i l = i + zlen a /\ pk_used k = 0 /\ Forall (fun k => pk_used k <> 0) a).
Proof.
  induction l as [| k l IH]; intros i Hi; cbn [find_unused]; [by left |]. unfold istrue. destruct (Z.eqb_spec (pk_used k) 0) as [E0 | E0]; cbn [negb].
  - right. exists ([] : db), k, l. split; [done |]. change (@zlen installed_pkg []) with 0. split; [lia | done].
  - destruct (IH (i + 1) ltac:(lia)) as [[-> Hf] | (a & k' & b & -> & E & Hk & Hf)]; [left; split; [done | by constructor] | right].
    exists (k :: a), k', b. split; [done |]. rewrite zlen_cons. split; [lia |]. split; [done | by constructor].
Qed.

Lemma db_set (l a b : db) k k' : l = a ++ k :: b -> l.[zlen a <- k'] = a ++ k' :: b.
Proof. intros ->. unfold zset. pose proof (zlen_nonneg a). destruct (Z.ltb_spec (zlen a) 0); [lia |]. unfold zlen. by rewrite Nat2Z.id, insert_app_r_alt, Nat.sub_diag by lia. Qed.
Lemma db_ok_set (a b : db) k k' : db_ok (a ++ k :: b) -> pkg_ok k' -> db_ok (a ++ k' :: b).
Proof.
  intros [H1 H2] Hk. split; [by rewrite zlen_app, zlen_cons in * |]. apply Forall_app in H2 as [Ha Hb]. apply Forall_cons in Hb as [_ Hb].
  apply Forall_app. split; [done | by constructor].
Qed.

Lemma installed_remove_ok name l : db_ok l -> exists r l', installed_remove name l = Some (r, l') /\ db_ok l' /\
  ((r = -1 /\ l' = l /\ Forall (fun k => ~ has_name name k) l) \/
   (r = 0 /\ exists a k b, l = a ++ k :: b /\ has_name name k /\ Forall (fun k => ~ has_name name k) a /\
     l' = a ++ Pkg (pk_name k) (pk_version k) (pk_file k) 0 :: b)).
Proof.
  intros Hl. unfold installed_remove, installed_find. destruct (find_used_spec name l 0 (proj2 Hl)) as (j & -> & Hj). cbn [mbind option_bind].
  destruct Hj as [[-> Hn] | (Hr & a & k & b & -> & Ha & Hk & Hf)].
  - change (-1 <? 0) with true. cbv iota. eexists _, l. split; [done |]. split; [done |]. by left.
  - destruct (Z.ltb_spec j 0); [lia |]. rewrite Z.sub_0_r in Ha. subst j. rewrite zlook_middle by done. cbn [mbind option_bind].
    rewrite (db_set _ a b k) by done. eexists _, _. split; [done |]. split; [| right; split; [done | by exists a, k, b]].
    eapply db_ok_set; [done |]. destruct Hl as [_ Hl]. apply Forall_app in Hl as [_ Hl]. apply Forall_cons in Hl as [[P1 P2 P3 P4] _]. by split.
Qed.

(** The table as a map from names to versions and files. *)
Definition entry (k : installed_pkg) : option (list Z * (list Z * list Z)) :=
  if istrue (pk_used k) then n ← c_string (pk_name k); v ← c_string (pk_version k); f ← c_string (pk_file k); Some (n, (v, f)) else None.
Definition entries (l : db) : list (list Z * (list Z * list Z)) := omap entry l.
Definition packages (l : db) : gmap (list Z) (list Z * list Z) := list_to_map (entries l).
Definition unique (l : db) : Prop := NoDup (entries l).*1.

Lemma entry_used k : pkg_ok k -> pk_used k <> 0 -> exists n v f, entry k = Some (n, (v, f)) /\ c_string (pk_name k) = Some n.
Proof.
  intros Hk Hu. destruct (po_strings k Hk Hu) as ((_ & n & En & _) & (_ & v & Ev & _) & (_ & f & Ef & _)).
  exists n, v, f. unfold entry. rewrite (istrue_neq _ Hu), En, Ev, Ef. done.
Qed.
Lemma entry_unused k : pk_used k = 0 -> entry k = None.
Proof. intros E. unfold entry. by rewrite E. Qed.
Lemma entry_name k n x : entry k = Some (n, x) -> c_string (pk_name k) = Some n /\ pk_used k <> 0.
Proof.
  unfold entry, istrue. destruct (Z.eqb_spec (pk_used k) 0) as [| Hu]; [done |]. cbn [negb]. destruct (c_string (pk_name k)) as [n' |]; [| done].
  cbn [mbind option_bind]. destruct (c_string (pk_version k)); [| done]. cbn [mbind option_bind]. destruct (c_string (pk_file k)); [| done].
  cbn [mbind option_bind]. by intros [= <- <-].
Qed.

Lemma entries_mid a k b : entries (a ++ k :: b) = entries a ++ (match entry k with Some e => [e] | None => [] end) ++ entries b.
Proof. unfold entries. rewrite omap_app. cbn [omap list_omap]. by destruct (entry k). Qed.

Lemma has_name_entry name k n x : nonzero name -> entry k = Some (n, x) -> has_name name k <-> n = name.
Proof.
  intros Hn E. destruct (entry_name k n x E) as [En Hu]. pose proof (proj1 (c_string_split _ _ En)) as Hnz.
  unfold has_name. rewrite En. split; [intros (_ & s & [= <-] & Hs); by apply strcmp_eq | intros ->; split; [done |]; exists name; split; [done | by apply strcmp_eq]].
Qed.

Lemma absent name l : nonzero name -> Forall (fun k => ~ has_name name k) l -> ~ (name ∈ (entries l).*1).
Proof.
  intros Hn Hf Hin. apply list_elem_of_fmap in Hin as ([n x] & -> & Hin). cbn [fst] in *. apply list_elem_of_omap in Hin as (k & Hk & Ek).
  rewrite Forall_forall in Hf. apply (Hf k Hk). by apply (has_name_entry n k n x).
Qed.

(** One entry in the middle. *)
Lemma packages_mid a n x b : NoDup (a ++ (n, x) :: b).*1 ->
  (list_to_map (a ++ (n, x) :: b) : gmap (list Z) (list Z * list Z)) = <[n := x]> (list_to_map (a ++ b)) /\ ~ (n ∈ (a ++ b).*1) /\ NoDup (a ++ b).*1.
Proof.
  intros Hd. assert (a ++ (n, x) :: b ≡ₚ (n, x) :: (a ++ b)) as Hp by (symmetry; apply Permutation_middle).
  rewrite (list_to_map_proper _ _ Hd Hp). cbn [list_to_map foldr]. split; [done |]. rewrite Hp in Hd. cbn [fmap list_fmap fst] in Hd. by apply NoDup_cons in Hd.
Qed.

Lemma pkg_new n v f name version file : string_in 32 n -> string_in 16 v -> string_in 64 f ->
  c_string n = Some name -> c_string v = Some version -> c_string f = Some file ->
  pkg_ok (Pkg n v f 1) /\ entry (Pkg n v f 1) = Some (name, (version, file)).
Proof. intros H1 H2 H3 E1 E2 E3. split; [split; [apply H1 | apply H2 | apply H3 | done] |]. unfold entry. cbn. by rewrite E1, E2, E3. Qed.

Lemma strcpy_text n buf s : nonzero s -> zlen buf = n -> zlen s < n -> exists buf', strcpy buf 0 s = Some buf' /\ string_in n buf' /\ c_string buf' = Some s.
Proof.
  intros Hs Hl Hn. destruct (strcpy_in n buf s Hl Hn) as (b & E & H). exists b. split; [done |]. split; [done |].
  unfold strcpy in E. destruct (stored_in buf 0 (s ++ [0])) as (b' & E' & _ & Eb); [done | rewrite zlen_app; change (zlen [0]) with 1; lia |].
  assert (b' = b) as -> by congruence. cbn [Z.to_nat take app] in Eb. rewrite Eb, <- app_assoc. by apply c_string_text.
Qed.

Lemma installed_add_correct name version file l : db_ok l -> unique l -> nonzero name -> nonzero version -> nonzero file ->
  zlen name < 32 -> zlen version < 16 -> zlen file < 64 ->
  exists r l', installed_add name version file l = Some (r, l') /\ db_ok l' /\ unique l' /\
    ((r = 0 /\ packages l' = <[name := (version, file)]> (packages l)) \/
     (r = -1 /\ l' = l /\ packages l !! name = None /\ Forall (fun k => pk_used k <> 0) l)).
Proof.
  intros Hl Hu Nn Nv Nf Ln Lv Lf. unfold installed_add, installed_find. destruct (find_used_spec name l 0 (proj2 Hl)) as (j & -> & Hj). cbn [mbind option_bind].
  assert (forall a k b, l = a ++ k :: b -> (entry k = None /\ Forall (fun k => ~ has_name name k) l \/ has_name name k) ->
    exists r l', (k ← zlook l (zlen a); n ← strcpy (pk_name k) 0 name; v ← strcpy (pk_version k) 0 version; f ← strcpy (pk_file k) 0 file;
      Some (0, l.[zlen a <- Pkg n v f 1])) = Some (r, l') /\ db_ok l' /\ unique l' /\ r = 0 /\ packages l' = <[name := (version, file)]> (packages l)) as Hput.
  { intros a k b -> Hk. pose proof (proj2 Hl) as Hf. apply Forall_app in Hf as [_ Hf]. apply Forall_cons in Hf as [Hko _]. rewrite zlook_middle by done. cbn [mbind option_bind].
    destruct (strcpy_text 32 (pk_name k) name Nn (po_name k Hko) Ln) as (n & -> & Sn & En). destruct (strcpy_text 16 (pk_version k) version Nv (po_version k Hko) Lv) as (v & Ev' & Sv & Ev).
    destruct (strcpy_text 64 (pk_file k) file Nf (po_file k Hko) Lf) as (f & Ef' & Sf & Ef). cbn [mbind option_bind]. rewrite Ev'. cbn [mbind option_bind]. rewrite Ef'. cbn [mbind option_bind].
    rewrite (db_set _ a b k) by done. destruct (pkg_new n v f name version file Sn Sv Sf En Ev Ef) as [Hnew Enew].
    eexists _, _. split; [reflexivity |]. split; [by eapply db_ok_set |].
    unfold unique, packages in *. rewrite !entries_mid in *. rewrite Enew. destruct Hk as [[Ek Hno] | Hk].
    - rewrite Ek in *. cbn [app] in *. assert (~ (name ∈ (entries a ++ entries b).*1)) as Hna by (pose proof (absent name _ Nn Hno) as Ha; by rewrite entries_mid, Ek in Ha).
      assert (NoDup (entries a ++ (name, (version, file)) :: entries b).*1) as Hd.
      { rewrite <- Permutation_middle. cbn [fmap list_fmap fst]. by apply NoDup_cons. }
      split; [done |]. split; [done |]. apply (packages_mid _ _ _ _ Hd).
    - destruct (entry_used k Hko (proj1 Hk)) as (n0 & v0 & f0 & Ek & _). assert (n0 = name) as -> by (by apply (has_name_entry name k n0 (v0, f0))).
      rewrite Ek in *. cbn [app] in *. destruct (packages_mid _ _ _ _ Hu) as (Eo & Hna & Hd0).
      assert (NoDup (entries a ++ (name, (version, file)) :: entries b).*1) as Hd by (rewrite fmap_app in *; exact Hu).
      split; [done |]. split; [done |]. rewrite (proj1 (packages_mid _ _ _ _ Hd)), Eo. by rewrite insert_insert_eq. }
  destruct Hj as [[-> Hn] | (Hr & a & k & b & -> & Ha & Hk & _)].
  - change (-1 <? 0) with true. cbv iota. destruct (find_unused_spec l 0 ltac:(done)) as [[-> Hf] | (a & k & b & El & -> & Hk & _)].
    + change (-1 <? 0) with true. cbv iota. eexists _, l. split; [done |]. split; [done |]. split; [done |]. right. split; [done |]. split; [done |]. split; [| done].
      apply not_elem_of_list_to_map_1. by apply absent.
    + rewrite Z.add_0_l. pose proof (zlen_nonneg a). destruct (Z.ltb_spec (zlen a) 0); [lia |].
      destruct (Hput a k b El) as (r & l' & E & H1 & H2 & H3 & H4); [left; split; [by apply entry_unused | done] |]. exists r, l'. tauto.
  - destruct (Z.ltb_spec j 0); [lia |]. rewrite Z.sub_0_r in Ha. subst j. destruct (Z.ltb_spec (zlen a) 0); [lia |].
    destruct (Hput a k b eq_refl) as (r & l' & E & H1 & H2 & H3 & H4); [by right |]. exists r, l'. tauto.
Qed.

Lemma installed_remove_correct name l : db_ok l -> unique l -> nonzero name ->
  exists r l', installed_remove name l = Some (r, l') /\ db_ok l' /\ unique l' /\ packages l' = delete name (packages l) /\
    r = match packages l !! name with Some _ => 0 | None => -1 end.
Proof.
  intros Hl Hu Nn. destruct (installed_remove_ok name l Hl) as (r & l' & E & Hl' & H). exists r, l'. split; [done |]. split; [done |].
  destruct H as [(-> & -> & Hno) | (-> & a & k & b & -> & Hk & _ & ->)].
  - assert (packages l !! name = None) as En by (by apply not_elem_of_list_to_map_1, absent). rewrite En. split; [done |]. split; [| done].
    symmetry. by apply delete_id.
  - pose proof (proj2 Hl) as Hf. apply Forall_app in Hf as [_ Hf]. apply Forall_cons in Hf as [Hko _].
    destruct (entry_used k Hko (proj1 Hk)) as (n0 & v0 & f0 & Ek & _). assert (n0 = name) as -> by (by apply (has_name_entry name k n0 (v0, f0))).
    unfold unique, packages in *. rewrite !entries_mid in *. rewrite Ek in *. cbn [app] in *. change (entry (Pkg _ _ _ 0)) with (@None (list Z * (list Z * list Z))).
    cbn [app]. destruct (packages_mid _ _ _ _ Hu) as (Eo & Hna & Hd0). split; [done |]. rewrite Eo, lookup_insert_eq. split; [| done].
    rewrite delete_insert_id; [done |]. by apply not_elem_of_list_to_map_1.
Qed.

(** Also: the table of installed packages is a map of at most 32 names: [installed_add] sets the
    version and the file of a name and fails only when the table is full and the name is not in
    it; [installed_remove] deletes the name and fails only when it is not there; both keep the
    names distinct and the strings inside their arrays. *)
Theorem installed_table (l : db) (name version file : list Z) (Hl : db_ok l) (Hu : unique l)
    (Nn : nonzero name) (Nv : nonzero version) (Nf : nonzero file) (Ln : zlen name < 32) (Lv : zlen version < 16) (Lf : zlen file < 64) :
  (exists r l', installed_add name version file l = Some (r, l') /\ db_ok l' /\ unique l' /\
     ((r = 0 /\ packages l' = <[name := (version, file)]> (packages l)) \/
      (r = -1 /\ l' = l /\ packages l !! name = None /\ Forall (fun k => pk_used k <> 0) l))) /\
  (exists r l', installed_remove name l = Some (r, l') /\ db_ok l' /\ unique l' /\ packages l' = delete name (packages l) /\
     r = match packages l !! name with Some _ => 0 | None => -1 end).
Proof. split; [by apply installed_add_correct | by apply installed_remove_correct]. Qed.

(** ** Every command *)

Lemma say_safe ss : safe (say ss) (fun _ => True).
Proof. induction ss as [| s ss IH]; cbn [say]; [by apply safe_ret | apply safe_then; [program | done]]. Qed.
Lemma put_all_safe s : safe (put_all s) (fun _ => True).
Proof. induction s as [| c s IH]; cbn [put_all]; [by apply safe_ret | apply safe_then; [program | done]]. Qed.
#[export] Hint Resolve say_safe put_all_safe : os.

Lemma print_value_safe m k : safe (print_value m k) (fun _ => True).
Proof. unfold print_value. destruct (lookup_value k m); program. Qed.
#[export] Hint Resolve print_value_safe : os.

Definition raw_ok (raw : Z -> list Z) : Prop := forall n, 0 <= n -> zlen (raw n) = n.

Section commands.
Context (raw : Z -> list Z) (Hraw : raw_ok raw).

(** What a command leaves of the table. *)
Definition kept_db (l : db) : Prop := db_ok l /\ unique l.

Lemma execute_safe path : safe (epk_execute raw path) (fun _ => True).
Proof using Hraw.
  unfold epk_execute. eapply safe_bind; [apply read_file_safe; [done | by apply Hraw] |]. intros [n buf] Hr. cbn [fst snd] in *.
  apply safe_if; intros; [program |]. destruct Hr as [Hr | (_ & s & Es & _)]; [bprop; lia |].
  eapply safe_known; [exact Es |]. do 9 (apply safe_then; [program | intros]).
  destruct (get_value_ok s (txt "file") (raw 64) 64) as (r & out & E & _ & t & Et & _); [done | by apply Hraw |].
  eapply safe_known; [exact E |]. cbn [fst snd]. apply safe_if; intros; [program |]. eapply safe_known; [exact Et |].
  apply safe_then; [program | intros fd]. apply safe_if; intros; program.
Qed.

Lemma install_safe path l : kept_db l -> safe (epk_install raw path l) (fun r => kept_db (snd r)).
Proof using Hraw.
  intros [Hl Hu]. unfold epk_install. eapply safe_bind; [apply read_file_safe; [done | by apply Hraw] |]. intros [n buf] Hr. cbn [fst snd] in *.
  assert (forall t (x : Z), safe (_ ← say t; mret (x, l)) (fun r => kept_db (snd r))) as Hsay.
  { intros t x. apply safe_then; [program | intros]. by apply safe_ret. }
  apply safe_if; intros; [apply Hsay |]. destruct Hr as [Hr | (_ & m & Em & _)]; [bprop; lia |].
  eapply safe_known; [exact Em |].
  destruct (get_value_ok m (txt "name") (raw 32) 32) as (r1 & n1 & -> & _ & s1 & E1 & L1); [done | by apply Hraw |].
  destruct (get_value_ok m (txt "version") (raw 16) 16) as (r2 & n2 & -> & _ & s2 & E2 & L2); [done | by apply Hraw |].
  destruct (get_value_ok m (txt "file") (raw 64) 64) as (r3 & n3 & -> & _ & s3 & E3 & L3); [done | by apply Hraw |].
  eapply safe_known; [reflexivity |]. cbn [fst snd].
  eapply (safe_bind _ _ _ (fun v => v = (r2, n2) \/ fst v < 0)); [apply safe_if; intros; apply safe_ret; [right; cbn; lia | by left] |]. intros v Hv.
  eapply (safe_bind _ _ _ (fun f => v = (r2, n2) /\ f = (r3, n3) \/ fst f < 0)).
  { apply safe_if; intros; bprop; apply safe_ret; [right; cbn; lia | left]. destruct Hv as [-> |]; [done | lia]. }
  intros f Hf. apply safe_if; intros; [apply Hsay |]. bprop. destruct Hf as [[-> ->] |]; [| lia]. cbn [fst snd].
  eapply safe_known; [exact E1 |]. eapply safe_known; [exact E2 |]. eapply safe_known; [exact E3 |].
  apply safe_then; [program | intros fd]. apply safe_if; intros; [apply Hsay |]. apply safe_then; [program | intros].
  destruct (installed_add_correct s1 s2 s3 l Hl Hu) as (r & l' & E & Hl' & Hu' & _);
    [by eapply c_string_split | by eapply c_string_split | by eapply c_string_split | done | done | done |].
  eapply safe_known; [exact E |]. cbn [fst snd]. apply safe_if; intros; [apply Hsay |]. apply safe_then; [program | intros]. apply safe_ret. by split.
Qed.

Lemma ls_safe tokens : safe (cmd_ls raw tokens) (fun _ => True).
Proof using Hraw.
  unfold cmd_ls. cbv zeta. pose proof (Hraw 2048 ltac:(lia)) as Hl.
  eapply (safe_bind _ _ _ (fun r => fst r <= 0 \/ exists s, c_string (snd r) = Some s)).
  - unfold sys_readdir. eapply safe_bind; [apply (safe_sys _ (listed 2048)); done |]. intros a [Hz Ha].
    destruct (stored_in (raw 2048) 0 (a_data a)) as (buf & E & _ & Eb); [done | lia |]. eapply safe_known; [exact E |]. apply safe_ret. cbn [fst snd].
    destruct Ha as [Ha | (t & Ht)]; [by left | right]. cbn [Z.to_nat take app] in Eb. rewrite Eb, Ht, <- app_assoc. cbn [app].
    destruct (c_string_zero t (drop (Z.to_nat (0 + zlen (t ++ [0]))) (raw 2048))) as (s & Es & _). by exists s.
  - intros [n buf] H. cbn [fst snd] in H. apply safe_if; intros; [program |]. apply safe_if; intros; [program |]. bprop.
    destruct H as [H | (s & Es)]; [lia |]. unfold puts_array. apply safe_then; [by eapply safe_known; [| program] | program].
Qed.

Lemma cat_safe tokens : safe (cmd_cat raw tokens) (fun _ => True).
Proof using Hraw.
  unfold cmd_cat. apply safe_if; intros; [program |]. apply safe_then; [program | intros fd]. apply safe_if; intros; [program |].
  apply safe_then; [| program]. apply (safe_iter _ (fun b => zlen b = 256)); [| by apply Hraw]. intros b Hb. unfold cat_turn.
  eapply safe_bind; [apply safe_read; lia |]. intros [n b'] (H1 & H2 & _). cbn [fst snd] in H1, H2. apply safe_if; intros; [by apply safe_ret |].
  apply safe_then; [apply safe_write; lia | intros]. apply safe_ret. lia.
Qed.

Lemma write_words_safe ts : forall b fd, safe (write_words b fd ts) (fun _ => True).
Proof.
  induction ts as [| t ts IH]; intros b fd; cbn [write_words]; [by apply safe_ret |].
  apply safe_then; [destruct b; [by apply safe_ret | by apply safe_write] | intros]. apply safe_then; [| intros; apply IH].
  apply safe_write. rewrite zlen_app. change (zlen [0]) with 1. lia.
Qed.
Lemma write_safe tokens : safe (cmd_write tokens) (fun _ => True).
Proof.
  unfold cmd_write. apply safe_if; intros; [program |]. apply safe_then; [program | intros fd]. apply safe_if; intros; [program |].
  apply safe_then; [apply write_words_safe | intros]. apply safe_then; [by apply safe_write | program].
Qed.

Lemma number_safe v (k : list Z -> prog unit) : (forall t, safe (k t) (fun _ => True)) -> safe (num ← lift (number_text 12 (u32 v)); k num) (fun _ => True).
Proof.
  intros Hk. pose proof (u32_range v). eapply safe_known; [apply (number_text_spec 11); [change (10 ^ Z.of_nat 11) with 100000000000; lia | lia] | apply Hk].
Qed.
Lemma stat_safe was tokens : safe (cmd_stat was tokens) (fun _ => True).
Proof.
  unfold cmd_stat. apply safe_if; intros; [program |]. apply safe_then; [unfold sys_stat; apply safe_then; [by apply safe_sys | program] | intros [r [size flags]]].
  cbn [fst snd]. apply safe_if; intros; [program |]. apply safe_then; [program | intros]. apply number_safe. program.
Qed.
Lemma pid_safe : safe cmd_pid (fun _ => True).
Proof. unfold cmd_pid. apply safe_then; [program | intros]. apply number_safe. program. Qed.
Lemma echo_safe ts : forall b, safe (echo_words b ts) (fun _ => True).
Proof.
  induction ts as [| t ts IH]; intros b; cbn [echo_words]; [by apply safe_ret |]. apply safe_then; [destruct b; program | intros].
  apply safe_then; [program | intros; apply IH].
Qed.
Lemma packages_safe fuel : forall s, safe (list_packages fuel s) (fun _ => True).
Proof.
  induction fuel as [| fuel IH]; intros s; cbn [list_packages]; [by apply safe_ret |]. destruct s as [| c s]; [by apply safe_ret |].
  apply safe_if; intros; [| apply IH]. cbv zeta. do 3 (apply safe_then; [program | intros]). apply IH.
Qed.
Lemma list_used_safe l : forall n, Forall pkg_ok l -> safe (list_used n l) (fun _ => True).
Proof.
  induction l as [| k l IH]; intros n Hl; cbn [list_used]; [by apply safe_ret |]. apply Forall_cons in Hl as [Hk Hl].
  unfold istrue. destruct (Z.eqb_spec (pk_used k) 0) as [| Hu]; cbn [negb]; [by apply IH |].
  destruct (po_strings k Hk Hu) as ((_ & s1 & E1 & _) & (_ & s2 & E2 & _) & (_ & s3 & E3 & _)).
  assert (forall b t, c_string b = Some t -> safe (puts_array b) (fun _ => True)) as Hp by (intros b t E; eapply safe_known; [exact E | program]).
  apply safe_then; [program | intros]. apply safe_then; [by eapply Hp | intros]. apply safe_then; [program | intros]. apply safe_then; [by eapply Hp | intros].
  apply safe_then; [program | intros]. apply safe_then; [by eapply Hp | intros]. apply safe_then; [program | intros]. by apply IH.
Qed.
Lemma installed_list_safe l : db_ok l -> safe (installed_list l) (fun _ => True).
Proof. intros [_ Hl]. unfold installed_list. apply safe_then; [by apply list_used_safe | intros]. apply safe_if; intros; program. Qed.
Lemma rm_safe tokens : safe (cmd_rm tokens) (fun _ => True).
Proof. unfold cmd_rm. program. Qed.
Lemma run_safe tokens : safe (cmd_run tokens) (fun _ => True).
Proof. unfold cmd_run. program. Qed.
Lemma mkdir_safe tokens : safe (cmd_mkdir tokens) (fun _ => True).
Proof. unfold cmd_mkdir. program. Qed.

Lemma with_db_safe (p : prog unit) l : kept_db l -> safe p (fun _ => True) -> safe (_ ← p; mret l) kept_db.
Proof. intros Hl Hp. apply safe_then; [done | intros; by apply safe_ret]. Qed.

(** The longest word the commands are given. *)
Definition short (t : list Z) : Prop := nonzero t /\ zlen t < 60.

Lemma package_path_ok name : short name -> exists out s, package_path name (raw 64) = Some out /\ c_string out = Some s.
Proof using Hraw.
  intros [Hn Hl]. unfold package_path. destruct (strcpy_text 64 (raw 64) name Hn) as (out & -> & [Ho _] & Eo); [by apply Hraw | lia |]. cbn [mbind option_bind].
  destruct (ends_with name (txt ".epk")); [by exists out, name |]. unfold strcpy. pose proof (zlen_nonneg name).
  destruct (stored_in out (zlen name) (txt ".epk" ++ [0])) as (b & E & _ & Eb); [done | change (zlen (txt ".epk" ++ [0])) with 5; lia |].
  assert (exists s, c_string b = Some s) as [s Es].
  { rewrite Eb, <- !app_assoc, app_assoc. cbn [app]. destruct (c_string_zero (take (Z.to_nat (zlen name)) out ++ txt ".epk") (drop (Z.to_nat (zlen name + zlen (txt ".epk" ++ [0]))) out)) as (s & Es & _).
    by exists s. }
  by exists b, s.
Qed.

Lemma epp_safe tokens l : kept_db l -> Forall short tokens -> safe (cmd_epp raw tokens l) kept_db.
Proof using Hraw.
  intros Hl Ht. pose proof Hl as [Hdb Hu]. unfold cmd_epp. cbv zeta.
  assert (forall i, short (arg i tokens)) as Harg.
  { intros i. unfold arg. destruct (nth_in_or_default i tokens []) as [Hin | ->]; [| split; [constructor | done]].
    rewrite Forall_forall in Ht. apply Ht. by apply list_elem_of_In. }
  apply safe_if; intros; [apply with_db_safe; [done | program] |].
  apply safe_if; intros.
  { eapply safe_bind; [apply read_file_safe; [done | by apply Hraw] |]. intros r _. apply with_db_safe; [done | program]. }
  apply safe_if; intros.
  { eapply safe_bind; [apply read_file_safe; [done | by apply Hraw] |]. intros r Hr. apply safe_if; intros; [apply with_db_safe; [done | program] |].
    bprop. destruct Hr as [Hr | (_ & s & Es & _)]; [lia |]. eapply safe_known; [exact Es |]. apply with_db_safe; [done | apply packages_safe]. }
  apply safe_if; intros; [apply with_db_safe; [done | by apply installed_list_safe] |].
  apply safe_if; intros.
  { apply safe_if; intros; [apply with_db_safe; [done | program] |].
    destruct (installed_remove_correct (arg 2 tokens) l Hdb Hu (proj1 (Harg 2%nat))) as (r & l' & E & K1 & K2 & _).
    eapply safe_known; [exact E |]. apply with_db_safe; [by split | program]. }
  apply safe_if; intros; [| apply with_db_safe; [done | program]].
  apply safe_if; intros; [apply with_db_safe; [done | program] |].
  destruct (package_path_ok (arg 2 tokens) (Harg 2%nat)) as (out & s & E & Es). eapply safe_known; [exact E |]. eapply safe_known; [exact Es |].
  apply safe_if; intros; [apply with_db_safe; [done | by apply execute_safe] |].
  eapply safe_bind; [by apply install_safe |]. intros [r l'] Hl'. cbn [fst snd] in *. apply safe_then; [program | intros; by apply safe_ret].
Qed.

Lemma builtin_safe was t args l : kept_db l -> Forall short (t :: args) -> safe (builtin raw was (t :: args) l) kept_db.
Proof using Hraw.
  intros Hl Ht. unfold builtin. cbv zeta. set (tokens := t :: args) in *.
  repeat (apply safe_if; intros; [first [by apply epp_safe | apply with_db_safe; [done |]] |]).
  all: try by eauto 20 using ls_safe, cat_safe, write_safe, rm_safe, stat_safe, run_safe, mkdir_safe, pid_safe, execute_safe, echo_safe with os.
  apply safe_then; [program | intros r; apply with_db_safe; [done | program]].
Qed.

(** No word of a line has a redirection. *)
Definition plain (t : list Z) : Prop := hd 0 t <> 62.
Lemma plain_redir t : plain t -> is_redir t = false.
Proof.
  unfold plain, is_redir. intros Ht. destruct t as [| c t]; [done |]. cbn [hd] in Ht. change (txt ">") with [62]. change (txt ">>") with [62; 62].
  cbn [strcmp]. destruct (Z.eqb_spec c 62); [done |]. destruct (Z.eqb_spec (c - 62) 0); [lia | done].
Qed.
Lemma no_redir ts : Forall plain ts -> find_redir_out ts = None.
Proof.
  induction 1 as [| t ts Ht _ IH]; [done |]. cbn [find_redir_out]. destruct ts as [| u ts]; [done |]. by rewrite plain_redir.
Qed.

Lemma exec_cmd_safe was tokens l : kept_db l -> Forall short tokens -> Forall plain tokens -> safe (exec_cmd raw was tokens l) kept_db.
Proof using Hraw.
  intros Hl Hs Hp. unfold exec_cmd. destruct tokens as [| t args]; [by apply safe_ret |]. rewrite no_redir by done.
  eapply safe_bind; [by apply (safe_ret _ (fun r => r = (-1, t :: args))) |]. intros ? ->. eapply safe_bind; [by apply builtin_safe |].
  intros l' Hl'. by apply safe_ret.
Qed.

(** ** A line *)

Lemma cut_words_chars stop (P : Z -> Prop) s : forall cur, Forall P s -> (forall w, cur = Some w -> Forall (fun c => P c /\ stop c = false) w) ->
  Forall (Forall (fun c => P c /\ stop c = false)) (cut_words stop cur s).
Proof using.
  induction s as [| c s IH]; intros cur Hs Hc; cbn [cut_words].
  - destruct cur as [w |]; [constructor; [by apply Hc | constructor] | constructor].
  - apply Forall_cons in Hs as [Hp Hs]. assert (forall w, None = Some w -> Forall (fun c => P c /\ stop c = false) w) as H0 by done.
    destruct cur as [w |].
    + destruct (stop c) eqn:E; [constructor; [by apply Hc | by apply IH] |]. apply IH; [done |]. intros ? [= <-]. apply Forall_app. split; [by apply Hc | by constructor].
    + destruct (is_blank c); [by apply IH |]. destruct (stop c) eqn:E; [constructor; [constructor | by apply IH] |]. apply IH; [done |]. intros ? [= <-]. by constructor.
Qed.
Lemma cut_app stop z s2 s1 : stop z = true -> is_blank z = false -> forall cur, exists e, Forall (fun w => w = []) e /\
  cut_words stop cur (s1 ++ z :: s2) = cut_words stop cur s1 ++ e ++ cut_words stop None s2.
Proof using.
  intros Hz Hb. induction s1 as [| c s1 IH]; intros cur; cbn [app cut_words].
  - rewrite Hz, Hb. destruct cur as [w |]; [by exists [] | exists [[]]; by repeat constructor].
  - destruct cur as [w |].
    + destruct (stop c); [| apply IH]. destruct (IH None) as (e & He & ->). by exists e.
    + destruct (is_blank c); [apply IH |]. destruct (stop c); [| apply IH]. destruct (IH None) as (e & He & ->). by exists e.
Qed.
Lemma split_pipe_spec s : match split_pipe s with Some (a, b) => s = a ++ 124 :: b | None => has_pipe s = false end.
Proof using.
  unfold has_pipe. induction s as [| c s IH]; [done |]. cbn [split_pipe has_char]. destruct (Z.eqb_spec c 124) as [-> |]; [done |].
  destruct (split_pipe s) as [[a b] |]; cbn [mbind option_bind fst snd app]; [by rewrite IH | done].
Qed.
Lemma trim_spec s : exists b, s = b ++ trim s /\ Forall (fun c => is_blank c = true) b.
Proof using.
  induction s as [| c s (b & IH & Hb)]; [by exists [] |]. cbn [trim]. destruct (Z.eqb_spec c 32) as [-> |]; [| by exists []].
  exists (32 :: b). split; [cbn [app]; by f_equal | by constructor].
Qed.

Definition words_of_line (s : list Z) : list (list Z) := cut_words is_end None s.

Lemma words_plain s : nonzero s -> Forall nonzero (words_of_line s) /\ Forall plain (words_of_line s).
Proof using.
  intros Hs. pose proof (cut_words_chars is_end (fun c => c <> 0) s None Hs ltac:(done)) as H. split; (eapply Forall_impl; [exact H |]); cbn; intros w Hw.
  - eapply Forall_impl; [exact Hw |]. by intros c [].
  - unfold plain. destruct Hw as [| c w [_ Hc] _]; cbn [hd]; [lia |]. intros ->. done.
Qed.

Lemma blank_ends c : is_blank c = true -> is_end c = true.
Proof using. intros H. unfold is_end. by rewrite H. Qed.

Lemma tokens_line s rest : nonzero s -> tokens_of (s ++ 0 :: rest) = Some (take 31 (words_of_line s)) /\
  exists ps l', tokenize (s ++ 0 :: rest) TOKEN_MAX = Some (ps, l') /\ zlen l' = zlen (s ++ 0 :: rest) /\ tokens_at l' ps = Some (take 31 (words_of_line s)).
Proof using.
  intros Hs. destruct (tokenize_line is_end TOKEN_MAX s rest blank_ends Hs ltac:(done)) as (ps & l' & E & Hl & Et).
  unfold tokens_of, tokenize. rewrite E. cbn [mbind option_bind fst snd]. change (Z.to_nat (TOKEN_MAX - 1)) with 31%nat in Et. split; [done | by exists ps, l'].
Qed.

Definition line_ok (s : list Z) : Prop := nonzero s /\ zlen s < LINE_MAX /\ Forall (fun w => zlen w < 60) (words_of_line s).
Lemma line_words s : line_ok s -> Forall short (take 31 (words_of_line s)) /\ Forall plain (take 31 (words_of_line s)).
Proof using.
  intros (Hn & _ & Hw). destruct (words_plain s Hn) as [H1 H2]. split; apply Forall_take; [by apply Forall_and | done].
Qed.
Lemma line_part s a b : line_ok s -> s = a ++ 124 :: b -> line_ok a /\ line_ok b.
Proof using.
  intros (Hn & Hl & Hw) ->. apply Forall_app in Hn as [Ha Hb]. apply Forall_cons in Hb as [_ Hb]. rewrite zlen_app, zlen_cons in Hl.
  pose proof (zlen_nonneg a). pose proof (zlen_nonneg b). unfold words_of_line in *. destruct (cut_app is_end 124 b a eq_refl eq_refl None) as (e & _ & E). rewrite E in Hw.
  apply Forall_app in Hw as [H1 H2]. apply Forall_app in H2 as [_ H2]. split; (split; [done | split; [lia | done]]).
Qed.
Lemma line_trim s : line_ok s -> line_ok (trim s).
Proof using.
  intros (Hn & Hl & Hw). destruct (trim_spec s) as (b & E & Hb). rewrite E in Hn, Hl, Hw. apply Forall_app in Hn as [_ Hn]. rewrite zlen_app in Hl. pose proof (zlen_nonneg b).
  unfold words_of_line in Hw. rewrite cut_blanks in Hw by done. split; [done | split; [lia | done]].
Qed.

Lemma exec_line_safe was s l : kept_db l -> line_ok s -> safe (exec_line raw was s l) kept_db.
Proof using Hraw.
  intros Hl Hs. pose proof Hs as (Hn & Hz & _). unfold exec_line, strcpy.
  destruct (stored_in (raw LINE_MAX) 0 (s ++ [0])) as (b & E & _ & Eb); [done | rewrite zlen_app, Hraw by done; change (zlen [0]) with 1; lia |].
  eapply safe_known; [exact E |]. cbn [Z.to_nat take app] in Eb. rewrite Eb, <- app_assoc. cbn [app].
  eapply safe_known; [by apply tokens_line |]. by apply exec_cmd_safe; [| apply line_words..].
Qed.

Lemma exec_pipe_safe was fds s l : kept_db l -> line_ok s -> safe (exec_pipe raw was fds s l) kept_db.
Proof using Hraw.
  intros Hl Hs. unfold exec_pipe. pose proof (split_pipe_spec s) as Hp. destruct (split_pipe s) as [[a b] |]; [| by apply safe_ret].
  destruct (line_part s a b Hs Hp) as [Ha Hb]. apply safe_then; [unfold sys_pipe; apply safe_then; [by apply safe_sys | program] |]. intros [r [rd wr]].
  apply safe_if; intros; [apply safe_then; [program | intros; by apply safe_ret] |]. apply safe_then; [program | intros child].
  apply safe_if; intros; do 3 (apply safe_then; [program | intros]).
  - eapply safe_bind; [by apply exec_line_safe |]. intros. apply safe_exit.
  - eapply safe_bind; [apply exec_line_safe; [done | by apply line_trim] |]. intros l' Hl'. do 2 (apply safe_then; [program | intros]). by apply safe_ret.
Qed.
End commands.

(** Also: no line makes the shell redirect its output: a word ends before [>], which tokenize then
    overwrites, so that the words [>] and [>>] exec_cmd looks for are never there. *)
Theorem redirection_never (s rest : list Z) (Hs : nonzero s) :
  exists tokens, tokens_of (s ++ 0 :: rest) = Some tokens /\ Forall plain tokens /\ find_redir_out tokens = None.
Proof.
  destruct (tokens_line s rest Hs) as [E _]. eexists. split; [exact E |]. assert (Forall plain (take 31 (words_of_line s))) as Hp by (by apply Forall_take, words_plain).
  split; [done | by apply no_redir].
Qed.

(** C16: whatever the kernel answers, a line whose words are shorter than 60 characters is executed
    inside the arrays of the shell, with or without a pipe, and keeps the table of packages
    well formed. *)
Theorem run_line_safe (raw : Z -> list Z) (was fds : Z * Z) (s rest : list Z) (l : db) (Hraw : raw_ok raw) (Hs : line_ok s)
    (Hr : zlen (s ++ 0 :: rest) = LINE_MAX) (Hl : kept_db l) :
  safe (run_line raw was fds (s ++ 0 :: rest) s l) (fun r => zlen (fst r) = LINE_MAX /\ kept_db (snd r)).
Proof.
  unfold run_line. apply safe_if; intros Hp.
  - eapply safe_bind; [by apply exec_pipe_safe |]. intros l' Hl'. pose proof (split_pipe_spec s) as Es. destruct (split_pipe s) as [[a b] |]; [| congruence].
    pose proof (zlen_nonneg a). pose proof (zlen_nonneg b). pose proof (zlen_nonneg rest).
    assert (0 <= zlen a < zlen (s ++ 0 :: rest)) as Ha by (rewrite Es, !zlen_app, zlen_cons, zlen_cons; lia).
    eapply safe_known; [by apply put_in |]. apply safe_ret. cbn [fst snd]. by rewrite zset_zlen.
  - destruct (tokens_line s rest (proj1 Hs)) as (_ & ps & l' & E & Hz & Et). eapply safe_known; [exact E |]. eapply safe_known; [exact Et |].
    eapply safe_bind; [by apply exec_cmd_safe; [| | apply line_words..] |]. intros l2 Hl2. apply safe_ret. cbn [fst snd]. by rewrite Hz.
Qed.

(** Also: a package name of 64 characters or more is copied beyond the array of 64 characters it is
    put in. *)
Theorem package_path_overflow {S} (h : call -> S -> reply * S) (st : S) (raw : Z -> list Z) (name : list Z) (l : db)
    (Hraw : raw_ok raw) (Hn : 64 <= zlen name) :
  run_prog h 1 (cmd_epp raw [txt "epp"; txt "info"; name] l) st = Faulted.
Proof.
  assert (package_path name (raw 64) = None) as E.
  { assert (strcpy (raw 64) 0 name = None) as E.
    { unfold strcpy, stored. rewrite zlen_app, Hraw by done. change (zlen [0]) with 1.
      replace (0 + (zlen name + 1) <=? 64) with false by (symmetry; apply Z.leb_gt; lia). by rewrite andb_false_r. }
    unfold package_path. by rewrite E. }
  unfold cmd_epp. change (zlen [txt "epp"; txt "info"; name]) with 3. cbn [arg nth].
  repeat match goal with |- context [epp_is ?t ?s] => let b := eval vm_compute in (epp_is [txt "epp"; txt "info"; []] s) in change (epp_is t s) with b end.
  cbn [orb]. change (3 <? 2) with false. change (3 <? 3) with false. cbv iota. by rewrite E.
Qed.

(** ** What is typed *)

(** The line, what is shown while it is typed, and the keys that are left. *)
Fixpoint typed (max : Z) (cur keys : list Z) : option (list Z * list Z * list Z) :=
  match keys with
  | [] => None
  | c :: ks =>
      if c =? 10 then Some (cur, [10], ks)
      else if (c =? 8) || (c =? 127) then
        if 0 <? zlen cur then r ← typed max (removelast cur) ks; let '(l, d, k) := (r : list Z * list Z * list Z) in Some (l, 8 :: d, k)
        else typed max cur ks
      else if zlen cur <? max - 1 then r ← typed max (cur ++ [c]) ks; let '(l, d, k) := (r : list Z * list Z * list Z) in Some (l, c :: d, k)
      else typed max cur ks
  end.

Section typing.
Context {S : Type} (h : call -> S -> reply * S) (keys shown : S -> list Z) {HC : console h keys shown}.

(** No interrupt, no end of file, no terminator. *)
Definition plain_key (c : Z) : Prop := c <> 3 /\ c <> 4 /\ c <> 0.

Lemma put_noting_evals c s : exists s', evals h (put_noting [c] false) s s' false /\ keys s' = keys s /\ shown s' = shown s ++ [c].
Proof using HC.
  destruct (out_write (h := h) s [c]) as (E1 & E2 & E3). eexists. split; [| exact (conj E2 E3)].
  unfold put_noting, noting. eapply evals_bind; [eapply evals_bind; [by apply evals_sys | apply evals_ret] |]. cbn [snd orb]. rewrite E1. apply evals_ret.
Qed.

Lemma turn_takes max buf pos s s1 s' c r : h (CRead STDIN_FILENO 1) s = (Reply 1 [c] false, s1) ->
  evals h (take_key max buf pos false c) s1 s' r -> evals h (readline_turn max (buf, pos, false)) s s' r.
Proof.
  intros E Hk. unfold readline_turn. eapply evals_bind; [eapply evals_bind; [by apply evals_sys | apply evals_ret] |]. rewrite E. cbn [fst snd orb a_sigint a_data a_rax].
  eapply evals_bind; [by apply evals_lift |]. exact Hk.
Qed.

(** What a key does to the text so far, and what is shown. *)
Definition step_key (max : Z) (cur : list Z) (c : Z) : list Z * list Z :=
  if (c =? 8) || (c =? 127) then if 0 <? zlen cur then (removelast cur, [8]) else (cur, [])
  else if zlen cur <? max - 1 then (cur ++ [c], [c]) else (cur, []).

Lemma take_key_spec max cur rest c s : plain_key c -> c <> 10 -> nonzero cur -> zlen (cur ++ rest) = max -> zlen cur < max ->
  exists s' rest', evals h (take_key max (cur ++ rest) (zlen cur) false c) s s' (inl (fst (step_key max cur c) ++ rest', zlen (fst (step_key max cur c)), false)) /\
    nonzero (fst (step_key max cur c)) /\ zlen (fst (step_key max cur c) ++ rest') = max /\ zlen (fst (step_key max cur c)) < max /\
    keys s' = keys s /\ shown s' = shown s ++ snd (step_key max cur c).
Proof using HC.
  intros (H3 & H4 & H0) H10 Hn Hl Hc. unfold take_key, step_key. cbv zeta. destruct (Z.eqb_spec c 10), (Z.eqb_spec c 3), (Z.eqb_spec c 4); try done.
  destruct ((c =? 8) || (c =? 127)).
  - destruct (Z.ltb_spec 0 (zlen cur)) as [Hp | Hp]; cbn [fst snd].
    + destruct (put_noting_evals 8 s) as (s2 & E2 & K2). destruct (exists_last (l := cur)) as (cur' & y & ->); [intros ->; done |].
      assert (zlen (cur' ++ y :: rest) = max) as Hl2 by (by rewrite <- app_assoc in Hl).
      rewrite removelast_last. rewrite (zlen_app cur' [y]) in *. change (zlen [y]) with 1 in *. exists s2, (y :: rest).
      split; [eapply evals_bind; [exact E2 |]; rewrite <- app_assoc; replace (zlen cur' + 1 - 1) with (zlen cur') by lia; apply evals_ret |].
      split; [by apply Forall_app in Hn as [? _] |]. split; [done |]. split; [lia | done].
    + exists s, rest. rewrite app_nil_r. split; [apply evals_ret | done].
  - destruct (Z.ltb_spec (zlen cur) (max - 1)) as [Hp | Hp]; cbn [fst snd].
    + destruct (put_noting_evals c s) as (s2 & E2 & K2). destruct rest as [| y rest]; [rewrite app_nil_r in Hl; lia |]. exists s2, rest.
      rewrite <- app_assoc. rewrite zlen_app. change (zlen [c]) with 1. split.
      { eapply evals_bind; [apply evals_lift; by apply put_cell_back |]. eapply evals_bind; [exact E2 | apply evals_ret]. }
      split; [apply Forall_app; split; [done | by constructor] |]. split; [rewrite <- Hl; repeat progress rewrite ?zlen_app, ?zlen_cons; change (@zlen Z []) with 0; lia |]. split; [lia | done].
    + exists s, rest. rewrite app_nil_r. split; [apply evals_ret | done].
Qed.

Lemma typed_step max cur c ks : c <> 10 ->
  typed max cur (c :: ks) = (r ← typed max (fst (step_key max cur c)) ks; let '(l, e, k) := (r : list Z * list Z * list Z) in Some (l, snd (step_key max cur c) ++ e, k)).
Proof.
  intros H. cbn [typed]. unfold step_key. destruct (Z.eqb_spec c 10); [done |].
  destruct (_ || _), (0 <? zlen cur), (zlen cur <? max - 1); cbn [fst snd app]; try done; by destruct (typed max cur ks) as [[[? ?] ?] |].
Qed.

Lemma readline_loop max ks : forall cur rest s l d left, keys s = ks -> Forall plain_key ks -> nonzero cur -> zlen (cur ++ rest) = max -> zlen cur < max ->
  typed max cur ks = Some (l, d, left) ->
  exists s' b, evals h (ITree.iter (readline_turn max) (cur ++ rest, zlen cur, false)) s s' (0, b) /\ c_string b = Some l /\ keys s' = left /\ shown s' = shown s ++ d.
Proof using HC.
  induction ks as [| c ks IH]; intros cur rest s l d lft Hk Hp Hn Hl Hc Ht; [done |]. apply Forall_cons in Hp as [Hpc Hp].
  destruct (key_read (h := h) s c ks Hk) as (s1 & E1 & K1 & S1). destruct (Z.eq_dec c 10) as [-> | H10].
  - injection Ht as <- <- <-. destruct (prints_putc h keys shown 10 s1) as (s2 & x & E2 & _ & K2 & S2). destruct rest as [| y rest]; [rewrite app_nil_r in Hl; lia |].
    exists s2, (cur ++ 0 :: rest). split; [| split; [by apply c_string_text | split; congruence]].
    apply (evals_iter h _ _ s s2 (inr (0, cur ++ 0 :: rest))); [eapply turn_takes; [exact E1 |] | by split].
    unfold take_key. cbv zeta. eapply evals_bind; [exact E2 |]. eapply evals_bind; [apply evals_lift; by apply put_cell_back | apply evals_ret].
  - rewrite typed_step in Ht by done. destruct (take_key_spec max cur rest c s1 Hpc H10 Hn Hl Hc) as (s2 & rest' & E2 & Hn' & Hl' & Hc' & K2 & S2).
    destruct (typed max (fst (step_key max cur c)) ks) as [[[l' e] k] |] eqn:Et; [| done]. cbn [mbind option_bind] in Ht. injection Ht as <- <- <-.
    destruct (IH _ rest' s2 l' e k ltac:(congruence) Hp Hn' Hl' Hc' Et) as (s' & b & E3 & Eb & K3 & S3). exists s', b.
    split; [| split; [done | split; [done | by rewrite S3, S2, S1, app_assoc]]].
    eapply evals_iter; [eapply turn_takes; [exact E1 | exact E2] | exact E3].
Qed.

(** Also: on a kernel that delivers the keys and shows what is written, a line that is typed comes
    back as it was edited, each character is shown as it is typed and a backspace for every
    one that is taken back, and the keys behind the new line stay. *)
Theorem readline_spec (max : Z) (buf : list Z) (s : S) (l d left : list Z) (Hm : 1 <= max) (Hb : zlen buf = max)
    (Hk : Forall plain_key (keys s)) (Ht : typed max [] (keys s) = Some (l, d, left)) :
  exists s' b, evals h (readline buf max) s s' (0, b) /\ c_string b = Some l /\ keys s' = left /\ shown s' = shown s ++ d.
Proof using HC.
  destruct (readline_loop max (keys s) [] (buf.[0 <- 0]) s l d left) as (s' & b & E & H); [done | done | exact (Forall_nil_2 _) | by rewrite app_nil_l, zset_zlen | change (@zlen Z []) with 0; lia | done |].
  exists s', b. split; [| exact H]. eapply evals_bind; [apply evals_lift, put_in; lia | exact E].
Qed.
End typing.

(** ** Witnesses *)

Definition raw_ex (n : Z) : list Z := replicate (Z.to_nat n) 7.
Lemma raw_ex_ok : raw_ok raw_ex.
Proof. intros n Hn. unfold raw_ex. rewrite zlen_replicate. lia. Qed.

Definition pkg_ex : installed_pkg := Pkg (replicate 32 0) (replicate 16 0) (replicate 64 0) 0.
Definition db_ex : db := replicate 32 pkg_ex.
Lemma db_ex_ok : kept_db db_ex.
Proof. split; [| by apply NoDup_nil_2]. split; [done |]. apply Forall_replicate. by split. Qed.

Lemma nonzero_check s : forallb (fun c => negb (c =? 0)) s = true -> nonzero s.
Proof. intros H. apply Forall_forall. intros c Hc. rewrite forallb_forall in H. specialize (H c ltac:(by apply list_elem_of_In)). lia. Qed.

Lemma words_check ws : forallb (fun w : list Z => zlen w <? 60) ws = true -> Forall (fun w => zlen w < 60) ws.
Proof. intros H. apply Forall_forall. intros c Hc. rewrite forallb_forall in H. specialize (H c ltac:(by apply list_elem_of_In)). cbn in H. lia. Qed.

Lemma installed_table_witness : exists r l', installed_add (txt "vi") (txt "1.0") (txt "VI.ELF") db_ex = Some (r, l').
Proof.
  destruct (installed_table db_ex (txt "vi") (txt "1.0") (txt "VI.ELF") (proj1 db_ex_ok) (proj2 db_ex_ok)) as [(r & l' & E & _) _];
    [by apply nonzero_check | by apply nonzero_check | by apply nonzero_check | done | done | done |].
  exists r, l'. exact E.
Defined.

Lemma redirection_never_witness : exists tokens, tokens_of (txt "ls / > out" ++ [0]) = Some tokens /\ find_redir_out tokens = None.
Proof.
  destruct (redirection_never (txt "ls / > out") [] ltac:(by apply nonzero_check)) as (tokens & E & _ & F). exists tokens. exact (conj E F).
Defined.

Lemma run_line_safe_witness : safe (run_line raw_ex (0, 0) (0, 0) (txt "ls / | epp list" ++ 0 :: replicate 240 7) (txt "ls / | epp list") db_ex)
  (fun r => zlen (fst r) = LINE_MAX /\ kept_db (snd r)).
Proof.
  apply run_line_safe; [exact raw_ex_ok | | reflexivity | exact db_ex_ok].
  split; [by apply nonzero_check |]. split; [done |]. by apply words_check.
Defined.

Lemma package_path_overflow_witness : run_prog tty_kernel 1 (cmd_epp raw_ex [txt "epp"; txt "info"; replicate 64 97] db_ex) (Tty [] []) = Faulted.
Proof. exact (package_path_overflow tty_kernel (Tty [] []) raw_ex (replicate 64 97) db_ex raw_ex_ok ltac:(done)). Defined.

Lemma readline_spec_witness : exists s' b, evals tty_kernel (readline (raw_ex 256) 256) (Tty (txt "lp" ++ [8; 115; 10; 97]) []) s' (0, b) /\
  c_string b = Some (txt "ls") /\ t_keys s' = [97].
Proof.
  destruct (readline_spec tty_kernel t_keys t_shown 256 (raw_ex 256) (Tty (txt "lp" ++ [8; 115; 10; 97]) []) (txt "ls") (txt "lp" ++ [8; 115; 10]) [97])
    as (s' & b & E & Eb & Ek & _); [done | done | by repeat constructor | reflexivity |].
  exists s', b. exact (conj E (conj Eb Ek)).
Defined.
