(* ===== verification/Edit.v ===== *)
(** * Line editor (src/user/edit.c)

    The lines of a text in an array of arrays, with insertion, deletion, loading and saving,
    and the command loop as a program that makes system calls. The buffer that a file is read
    to is at a fixed address: [window] is what is mapped there, if anything is. *)

From ITree Require Import ITree.
From Stdlib Require Import String Ascii.
From S2P Require Import Prelude UserLib KPath UserIO.

Definition MAX_LINES : Z := 512.
Definition LINE_MAX : Z := 256.
Definition BUF_SIZE : Z := 65536.

Record editor := Ed { g_lines : list (list Z); g_num : Z; g_dirty : Z }.
Definition set_dirty d (e : editor) : editor := Ed (g_lines e) (g_num e) d.
Implicit Types e : editor.

(** ** The text *)

Definition store_char (i pos c : Z) (ls : list (list Z)) : option (list (list Z)) :=
  row ← zlook ls i; row ← put row pos c; Some ls.[i <- row].
(** strcpy to a line. *)
Definition copy_line (i : Z) (s : list Z) (ls : list (list Z)) : option (list (list Z)) :=
  row ← zlook ls i; row ← strcpy row 0 s; Some ls.[i <- row].
Definition line_text (ls : list (list Z)) (i : Z) : option (list Z) := row ← zlook ls i; c_string row.

(** [for (i = num; i > after; i--) strcpy(g_lines[i], g_lines[i-1]);] *)
Fixpoint move_down (n : nat) (i : Z) (ls : list (list Z)) : option (list (list Z)) :=
  match n with O => Some ls | S n => s ← line_text ls (i - 1); ls ← copy_line i s ls; move_down n (i - 1) ls end.
(** [for (i = n; i < num - 1; i++) strcpy(g_lines[i], g_lines[i+1]);] *)
Fixpoint move_up (n : nat) (i : Z) (ls : list (list Z)) : option (list (list Z)) :=
  match n with O => Some ls | S n => s ← line_text ls (i + 1); ls ← copy_line i s ls; move_up n (i + 1) ls end.

Definition insert_at (after : Z) (s : list Z) e : option editor :=
  ls ← move_down (Z.to_nat (g_num e - after)) (g_num e) (g_lines e);
  ls ← copy_line after s ls;
  Some (Ed ls (g_num e + 1) (g_dirty e)).
Definition remove_at (n : Z) e : option editor :=
  ls ← move_up (Z.to_nat (g_num e - 1 - n)) n (g_lines e);
  Some (Ed ls (g_num e - 1) 1).

(** The characters that were read, up to the terminator, go to the lines; what is left of a
    line that is too long is dropped. *)
Fixpoint split_text (s : list Z) (num pos : Z) (ls : list (list Z)) : option (Z * Z * list (list Z)) :=
  match s with
  | [] => Some (num, pos, ls)
  | c :: s =>
      if num <? MAX_LINES then
        if c =? 10 then ls ← store_char num pos 0 ls; split_text s (num + 1) 0 ls
        else if pos <? LINE_MAX - 1 then ls ← store_char num pos c ls; split_text s num (pos + 1) ls
        else split_text s num pos ls
      else Some (num, pos, ls)
  end.
Definition load_text (buf : list Z) (total : Z) e : option editor :=
  s ← c_string buf;
  r ← split_text s 0 0 (g_lines e);
  let '(num, pos, ls) := r in
  ended ← (if 0 <? total then c ← zlook buf (total - 1); Some (c =? 10) else Some false);
  if (0 <? pos) || (ended : bool) then
    ls ← store_char num pos 0 ls;
    Some (Ed ls (if (0 <? pos) || (num =? 0) then num + 1 else num) (g_dirty e))
  else Some (Ed ls num (g_dirty e)).

(** A line's number, in six places. *)
Fixpoint pad (fuel : nat) (ni n : Z) (num : list Z) : option (list Z) :=
  match fuel with
  | O => Some num
  | S f => if 0 <? ni then num ← put num (ni - 1) (if 0 <? n then 48 + n mod 10 else 32); pad f (ni - 1) (n / 10) num else Some num
  end.
Definition line_number (i : Z) : option (list Z) := num ← put (replicate 8 0) 6 0; num ← pad 6 6 (i + 1) num; c_string num.

Section editor.
Context (raw : Z -> list Z).

(** ** Files *)

Definition readline_turn (max : Z) (x : list Z * Z) : prog (list Z * Z + list Z) :=
  let '(buf, pos) := x in
  r ← sys_read STDIN_FILENO [0] 0 1;
  let '(n, cell) := (r : Z * list Z) in
  let c := hd 0 cell in
  if negb (n =? 1) then mret (inl (buf, pos))
  else if c =? 10 then buf ← lift (put buf pos 0); _ ← putc 10; mret (inr buf)
  else if c =? 8 then if 0 <? pos then _ ← putc 8; mret (inl (buf, pos - 1)) else mret (inl (buf, pos))
  else if pos <? max - 1 then buf ← lift (put buf pos c); _ ← putc c; mret (inl (buf, pos + 1))
  else mret (inl (buf, pos)).
(** The line as a string. *)
Definition readline (buf : list Z) (max : Z) : prog (list Z) :=
  buf ← ITree.iter (readline_turn max) (buf, 0); lift (c_string buf).

Definition read_turn (fd : Z) (x : option (list Z) * Z) : prog (option (list Z) * Z + option (list Z) * Z) :=
  let '(w, total) := x in
  if total <? BUF_SIZE - 1 then
    r ← (match w with
         | Some buf => r ← sys_read fd buf total (BUF_SIZE - 1 - total); mret (fst r, Some (snd r))
         | None => n ← result (CRead fd (BUF_SIZE - 1 - total)); mret (n, None)
         end);
    let '(n, w) := (r : Z * option (list Z)) in
    if n <=? 0 then mret (inr (w, total)) else mret (inl (w, total + n))
  else mret (inr (w, total)).
Definition read_file (window : option (list Z)) (path : list Z) e : prog (Z * editor) :=
  fd ← sys_open path;
  if fd <? 0 then mret (-1, e)
  else
    r ← ITree.iter (read_turn fd) (window, 0);
    let '(w, total) := (r : option (list Z) * Z) in
    buf ← lift w;
    buf ← lift (put buf total 0);
    _ ← sys_close fd;
    e ← lift (load_text buf total e);
    mret (0, e).

Fixpoint write_lines (n : nat) (i fd : Z) (ls : list (list Z)) : prog unit :=
  match n with
  | O => mret tt
  | S n =>
      s ← lift (line_text ls i);
      _ ← sys_write fd (s ++ [0]) (zlen s); _ ← sys_write fd [10] 1; write_lines n (i + 1) fd ls
  end.
Definition save_file (path : list Z) e : prog (Z * editor) :=
  fd ← sys_create path;
  if fd <? 0 then mret (-1, e)
  else _ ← write_lines (Z.to_nat (g_num e)) 0 fd (g_lines e); _ ← sys_close fd; mret (0, set_dirty 0 e).

(** ** Commands *)

Fixpoint print_from (n : nat) (i : Z) (ls : list (list Z)) : prog unit :=
  match n with
  | O => mret tt
  | S n =>
      num ← lift (line_number i); s ← lift (line_text ls i);
      _ ← puts num; _ ← puts (txt "  "); _ ← puts s; _ ← putc 10; print_from n (i + 1) ls
  end.
Definition print_lines e : prog unit := print_from (Z.to_nat (g_num e)) 0 (g_lines e).
Definition list_range (start last : Z) e : prog unit :=
  let start := if start <? 0 then 0 else start in
  let last := if g_num e <=? last then g_num e - 1 else last in
  print_from (Z.to_nat (last + 1 - start)) start (g_lines e).

Definition insert_turn (x : editor * Z) : prog (editor * Z + editor) :=
  let '(e, after) := x in
  _ ← puts (txt "> ");
  line ← readline (raw LINE_MAX) LINE_MAX;
  if strcmp line (txt ".") =? 0 then mret (inr e)
  else if MAX_LINES <=? g_num e then _ ← puts (ln "Buffer full"); mret (inr e)
  else e ← lift (insert_at after line e); mret (inl (e, after + 1)).
Definition insert_lines (after : Z) e : prog editor :=
  _ ← puts (ln "(enter lines, '.' alone to end)");
  e ← ITree.iter insert_turn (e, after);
  mret (set_dirty 1 e).

Definition delete_line (n : Z) e : prog editor :=
  if (n <? 0) || (g_num e <=? n) then _ ← puts (ln "Invalid line"); mret e else lift (remove_at n e).

Definition HELP : list (list Z) :=
  [ln "Editor commands:"; ln "  p        print all lines"; ln "  n        print line n"; ln "  i [n]    insert after line n (default: 0)";
   ln "  a [n]    append after line n (default: end)"; ln "  d n      delete line n"; ln "  w        save (write) file";
   ln "  q        quit (discards if unsaved)"; ln "  Q        force quit without saving"; ln "  h        this help";
   ln "  n,m p    print range n through m"].
Fixpoint say (ss : list (list Z)) : prog unit := match ss with [] => mret tt | s :: ss => _ ← puts s; say ss end.
Definition help : prog unit := say HELP.

(** The digits at the start, in an int; the rest. *)
Fixpoint number_at (v : Z) (s : list Z) : Z * list Z :=
  match s with c :: s' => if is_digit c then number_at (s32 (v * 10 + (c - 48))) s' else (v, s) | [] => (v, s) end.
Fixpoint skip_spaces (s : list Z) : list Z := match s with c :: s' => if c =? 32 then skip_spaces s' else s | [] => [] end.

(** The line after which to insert: [n] of a command with a number, one less, or the default. *)
Definition target (default : Z) (line : list Z) : Z :=
  if nth 1 line 0 =? 32 then s32 (fst (number_at 0 (drop 2 line)) - 1) else default.

Definition command_i (line : list Z) e : prog editor :=
  let n := target 0 line in
  let n := if n <? 0 then 0 else n in
  let n := if g_num e <? n then g_num e else n in
  insert_lines n e.
Definition command_a (line : list Z) e : prog editor :=
  let n := target (g_num e - 1) line in
  let n := if n <? 0 then 0 else n in
  let n := if g_num e <=? n then g_num e - 1 else n in
  insert_lines (n + 1) e.
Definition command_d (line : list Z) e : prog editor :=
  let v := fst (number_at 0 (skip_spaces (drop 1 line))) in
  if (v <? 1) || (g_num e <? v) then _ ← puts (ln "Invalid line"); mret e else delete_line (v - 1) e.
Definition command_print (line : list Z) e : prog editor :=
  let unknown := _ ← puts (ln "?"); mret e in
  let '(n, rest) := number_at 0 line in
  match rest with
  | [] => if (1 <=? n) && (n <=? g_num e) then _ ← list_range (n - 1) (n - 1) e; mret e else unknown
  | c :: rest =>
      if c =? 44 then
        let m := n in
        let '(n, rest) := number_at 0 rest in
        if hd 0 (skip_spaces rest) =? 112 then
          if (m <? 1) || (g_num e <? n) || (n <? m) then _ ← puts (ln "Invalid range"); mret e
          else _ ← list_range (m - 1) (n - 1) e; mret e
        else unknown
      else unknown
  end.

Definition main_turn (path : list Z) e : prog (editor + Z) :=
  let again (p : prog editor) := e ← p; mret (inl e) in
  _ ← puts (txt "edit> ");
  line ← readline (raw LINE_MAX) LINE_MAX;
  let same s := strcmp line (txt s) =? 0 in
  if bool_decide (line = []) then again (_ ← print_lines e; mret e)
  else if same "q"%string then
    if istrue (g_dirty e) then again (_ ← puts (ln "Unsaved changes. Use Q to force quit."); mret e) else mret (inr 0)
  else if same "Q"%string then mret (inr 0)
  else if same "w"%string then
    r ← save_file path e;
    again (_ ← puts (if fst r <? 0 then ln "Save failed" else ln "Saved."); mret (snd r))
  else if same "p"%string then again (_ ← print_lines e; mret e)
  else if same "h"%string then again (_ ← help; mret e)
  else if hd 0 line =? 105 then again (command_i line e)
  else if hd 0 line =? 97 then again (command_a line e)
  else if hd 0 line =? 100 then again (command_d line e)
  else again (command_print line e).

(** [argv1] is the argument, if there is one. *)
Definition main (window : option (list Z)) (argv1 : list Z) (e : editor) : prog Z :=
  path ← (if bool_decide (argv1 = []) then _ ← puts (txt "File: "); readline (raw 64) 64 else mret argv1);
  if bool_decide (path = []) then mret 0
  else
    r ← read_file window path e;
    e ← (if fst r <? 0 then _ ← puts (ln "(new file)"); mret (Ed (g_lines (snd r)) 0 (g_dirty (snd r)))
         else _ ← say [txt "--- "; path; ln " ---"]; mret (snd r));
    ITree.iter (main_turn path) (set_dirty 0 e).
End editor.

(** ** What the array holds *)

Definition rows_ok (ls : list (list Z)) : Prop := zlen ls = MAX_LINES /\ Forall (fun row => zlen row = LINE_MAX) ls.
Record holds (ls ts : list (list Z)) : Prop := {
  hd_rows : rows_ok ls;
  hd_num : zlen ts <= MAX_LINES;
  hd_text : forall i t, zlook ts i = Some t -> line_text ls i = Some t }.
Definition ed_ok e (ts : list (list Z)) : Prop := holds (g_lines e) ts /\ g_num e = zlen ts.

Definition line_ok (t : list Z) : Prop := nonzero t /\ zlen t < LINE_MAX.

Lemma row_len ls i row : rows_ok ls -> zlook ls i = Some row -> zlen row = LINE_MAX.
Proof.
  intros [_ H] Hi. rewrite Forall_forall in H. apply H. pose proof (zlook_Some_range _ _ _ Hi). rewrite zlook_nonneg in Hi by lia. by eapply list_elem_of_lookup_2.
Qed.
Lemma row_at ls i : rows_ok ls -> 0 <= i < MAX_LINES -> exists row, zlook ls i = Some row /\ zlen row = LINE_MAX.
Proof. intros H Hi. destruct (zlook_in_range ls i) as [row E]; [destruct H; lia |]. exists row. split; [done | by eapply row_len]. Qed.
Lemma rows_set ls i row : rows_ok ls -> zlen row = LINE_MAX -> rows_ok ls.[i <- row].
Proof. intros [H1 H2] Hr. split; [by rewrite zset_zlen | by apply zset_Forall]. Qed.

Lemma line_text_ok ls i t : rows_ok ls -> line_text ls i = Some t -> line_ok t.
Proof.
  intros H. unfold line_text. destruct (zlook ls i) as [row |] eqn:E; [| done]. cbn [mbind option_bind]. intros Et.
  destruct (c_string_split _ _ Et) as (Hn & rest & ->). split; [done |]. pose proof (row_len _ _ _ H E) as Hl. rewrite zlen_app, zlen_cons in Hl. pose proof (zlen_nonneg rest). lia.
Qed.

Lemma copy_line_spec i s ls : rows_ok ls -> 0 <= i < MAX_LINES -> line_ok s ->
  exists ls', copy_line i s ls = Some ls' /\ rows_ok ls' /\ forall j, line_text ls' j = if j =? i then Some s else line_text ls j.
Proof.
  intros H Hi [Hn Hs]. destruct (row_at ls i H Hi) as (row & E & Hl). unfold copy_line. rewrite E. cbn [mbind option_bind]. unfold strcpy.
  destruct (stored_in row 0 (s ++ [0])) as (row' & E' & Hl' & Er); [done | rewrite zlen_app; change (zlen [0]) with 1; lia |]. rewrite E'. cbn [mbind option_bind].
  eexists. split; [done |]. split; [apply rows_set; [done | lia] |]. intros j. unfold line_text. rewrite zlook_zset by (destruct H; lia).
  rewrite Z.eqb_sym. destruct (j =? i); [| done]. cbn [mbind option_bind]. cbn [Z.to_nat take app] in Er. rewrite Er, <- app_assoc. by apply c_string_text.
Qed.

Lemma move_down_spec n : forall i ls after, rows_ok ls -> i = after + Z.of_nat n -> 0 <= after -> i < MAX_LINES ->
  (forall j, after <= j < i -> line_text ls j <> None) ->
  exists ls', move_down n i ls = Some ls' /\ rows_ok ls' /\
    forall j, line_text ls' j = if (after <? j) && (j <=? i) then line_text ls (j - 1) else line_text ls j.
Proof.
  induction n as [| n IH]; intros i ls after H Ei Ha Hi Ht; cbn [move_down].
  - exists ls. split; [done |]. split; [done |]. intros j. destruct (Z.ltb_spec after j), (Z.leb_spec j i); try done. lia.
  - destruct (line_text ls (i - 1)) as [s |] eqn:Es; [| by destruct (Ht (i - 1)); [lia |]]. cbn [mbind option_bind].
    destruct (copy_line_spec i s ls H) as (ls1 & -> & H1 & E1); [lia | by eapply line_text_ok |]. cbn [mbind option_bind].
    destruct (IH (i - 1) ls1 after H1) as (ls2 & -> & H2 & E2); [lia | done | lia | |].
    { intros j Hj. rewrite E1. destruct (Z.eqb_spec j i); [done |]. apply Ht. lia. }
    exists ls2. split; [done |]. split; [done |]. intros j. rewrite E2, !E1.
    destruct (Z.ltb_spec after j), (Z.leb_spec j (i - 1)), (Z.leb_spec j i), (Z.eqb_spec (j - 1) i), (Z.eqb_spec j i); cbn [andb]; try lia; try done. subst j. by rewrite Es.
Qed.

Lemma move_up_spec n : forall i ls, rows_ok ls -> 0 <= i -> i + Z.of_nat n < MAX_LINES ->
  (forall j, i < j <= i + Z.of_nat n -> line_text ls j <> None) ->
  exists ls', move_up n i ls = Some ls' /\ rows_ok ls' /\
    forall j, line_text ls' j = if (i <=? j) && (j <? i + Z.of_nat n) then line_text ls (j + 1) else line_text ls j.
Proof.
  induction n as [| n IH]; intros i ls H Hi Hn Ht; cbn [move_up].
  - exists ls. split; [done |]. split; [done |]. intros j. destruct (Z.leb_spec i j), (Z.ltb_spec j (i + Z.of_nat 0)); try done. lia.
  - destruct (line_text ls (i + 1)) as [s |] eqn:Es; [| by destruct (Ht (i + 1)); [lia |]]. cbn [mbind option_bind].
    destruct (copy_line_spec i s ls H) as (ls1 & -> & H1 & E1); [lia | by eapply line_text_ok |]. cbn [mbind option_bind].
    destruct (IH (i + 1) ls1 H1) as (ls2 & -> & H2 & E2); [lia | lia | |].
    { intros j Hj. rewrite E1. destruct (Z.eqb_spec j i); [done |]. apply Ht. lia. }
    exists ls2. split; [done |]. split; [done |]. intros j. rewrite E2, !E1.
    destruct (Z.leb_spec (i + 1) j), (Z.ltb_spec j (i + 1 + Z.of_nat n)), (Z.leb_spec i j), (Z.ltb_spec j (i + Z.of_nat (S n))), (Z.eqb_spec (j + 1) i), (Z.eqb_spec j i);
      cbn [andb]; try lia; try done. subst j. by rewrite Es.
Qed.

Lemma zlook_mid {A} (a b : list A) x j : zlook (a ++ x :: b) j = if j <? zlen a then zlook a j else if j =? zlen a then Some x else zlook b (j - zlen a - 1).
Proof.
  destruct (Z.ltb_spec j (zlen a)); [destruct (Z.ltb_spec j 0); [unfold zlook; by destruct (Z.ltb_spec j 0); [| lia] | apply zlook_app_l; lia] |].
  pose proof (zlen_nonneg a). destruct (Z.eqb_spec j (zlen a)) as [-> |]; [by apply zlook_middle |].
  rewrite !zlook_nonneg by lia. unfold zlen in *. rewrite lookup_app_r by lia. replace (Z.to_nat j - length a)%nat with (S (Z.to_nat (j - Z.of_nat (length a) - 1))) by lia. done.
Qed.

Lemma held ls ts i : holds ls ts -> 0 <= i < zlen ts -> line_text ls i <> None.
Proof. intros H Hi. destruct (zlook_in_range ts i Hi) as [t Et]. by rewrite (hd_text _ _ H i t Et). Qed.

Lemma insert_at_correct after s e ts : ed_ok e ts -> zlen ts < MAX_LINES -> 0 <= after <= zlen ts -> line_ok s ->
  exists e', insert_at after s e = Some e' /\ ed_ok e' (take (Z.to_nat after) ts ++ s :: drop (Z.to_nat after) ts) /\ g_dirty e' = g_dirty e.
Proof.
  intros [H En] Hl Ha Hs. unfold insert_at. rewrite En.
  destruct (move_down_spec (Z.to_nat (zlen ts - after)) (zlen ts) (g_lines e) after (hd_rows _ _ H)) as (ls1 & -> & H1 & E1);
    [lia | lia | done | intros j Hj; eapply held; [done | lia] |]. cbn [mbind option_bind].
  destruct (copy_line_spec after s ls1 H1) as (ls2 & -> & H2 & E2); [lia | done |]. cbn [mbind option_bind].
  eexists. split; [done |]. split; [| done]. assert (zlen (take (Z.to_nat after) ts) = after) as Et by (unfold zlen in *; rewrite length_take; lia).
  assert (zlen (take (Z.to_nat after) ts ++ s :: drop (Z.to_nat after) ts) = zlen ts + 1) as Elen.
  { rewrite zlen_app, zlen_cons, Et. unfold zlen in *. rewrite length_drop. lia. }
  split; cbn [g_num g_lines]; [| lia]. split; [done | lia |]. intros j t. rewrite zlook_mid, Et, E2, E1.
  destruct (Z.eqb_spec j after) as [-> |]; [destruct (Z.ltb_spec after after); [lia | done] |].
  destruct (Z.ltb_spec j after).
  - intros Ej. destruct (Z.ltb_spec after j); [lia |]. cbn [andb]. apply (hd_text _ _ H). pose proof (zlook_Some_range _ _ _ Ej). rewrite zlook_nonneg in * by lia. by apply lookup_take_Some in Ej as [? _].
  - intros Ej. pose proof (zlook_Some_range _ _ _ Ej) as Hr. assert (zlook ts (j - 1) = Some t) as Ej'.
    { rewrite zlook_nonneg in * by lia. rewrite lookup_drop in Ej. rewrite <- Ej. f_equal. lia. }
    pose proof (zlook_Some_range _ _ _ Ej'). destruct (Z.ltb_spec after j), (Z.leb_spec j (zlen ts)); try lia. cbn [andb]. by apply (hd_text _ _ H).
Qed.

Lemma remove_at_correct n e ts : ed_ok e ts -> 0 <= n < zlen ts ->
  exists e', remove_at n e = Some e' /\ ed_ok e' (take (Z.to_nat n) ts ++ drop (Z.to_nat (n + 1)) ts) /\ g_dirty e' = 1.
Proof.
  intros [H En] Hn. unfold remove_at. rewrite En. pose proof (hd_num _ _ H).
  destruct (move_up_spec (Z.to_nat (zlen ts - 1 - n)) n (g_lines e) (hd_rows _ _ H)) as (ls1 & -> & H1 & E1);
    [lia | lia | intros j Hj; eapply held; [done | lia] |]. cbn [mbind option_bind].
  eexists. split; [done |]. split; [| done]. assert (zlen (take (Z.to_nat n) ts) = n) as Et by (unfold zlen in *; rewrite length_take; lia).
  assert (zlen (take (Z.to_nat n) ts ++ drop (Z.to_nat (n + 1)) ts) = zlen ts - 1) as Elen.
  { rewrite zlen_app, Et. unfold zlen in *. rewrite length_drop. lia. }
  split; cbn [g_num g_lines]; [| lia]. split; [done | lia |]. intros j t Ej. pose proof (zlook_Some_range _ _ _ Ej) as Hr. rewrite Elen in Hr. rewrite E1.
  destruct (Z.ltb_spec j n).
  - destruct (Z.leb_spec n j); [lia |]. cbn [andb]. apply (hd_text _ _ H). rewrite zlook_app_l in Ej by lia. rewrite zlook_nonneg in * by lia. by apply lookup_take_Some in Ej as [? _].
  - destruct (Z.leb_spec n j), (Z.ltb_spec j (n + Z.of_nat (Z.to_nat (zlen ts - 1 - n)))); try lia. cbn [andb]. apply (hd_text _ _ H).
    rewrite zlook_nonneg in * by lia. unfold zlen in *. rewrite lookup_app_r, lookup_drop in Ej by lia. rewrite <- Ej. f_equal. lia.
Qed.

(** ** Loading and saving *)

(** The text of a file. *)
Definition text (ts : list (list Z)) : list Z := concat (map (fun t => t ++ [10]) ts).

Definition writable (t : list Z) : Prop := line_ok t /\ Forall (fun c => c <> 10) t.

Lemma store_char_spec i pos c ls row : rows_ok ls -> zlook ls i = Some row -> 0 <= pos < LINE_MAX ->
  store_char i pos c ls = Some ls.[i <- row.[pos <- c]] /\ rows_ok ls.[i <- row.[pos <- c]].
Proof.
  intros H E Hp. pose proof (row_len _ _ _ H E) as Hl. unfold store_char. rewrite E. cbn [mbind option_bind]. rewrite put_in by lia. cbn [mbind option_bind].
  split; [done |]. apply rows_set; [done |]. by rewrite zset_zlen.
Qed.
Lemma store_middle i ls a x b c : rows_ok ls -> zlook ls i = Some (a ++ x :: b) ->
  store_char i (zlen a) c ls = Some ls.[i <- a ++ c :: b] /\ rows_ok ls.[i <- a ++ c :: b] /\ zlook ls.[i <- a ++ c :: b] i = Some (a ++ c :: b) /\
  forall j, j <> i -> line_text ls.[i <- a ++ c :: b] j = line_text ls j.
Proof.
  intros H E. pose proof (row_len _ _ _ H E) as Hl. pose proof (zlook_Some_range _ _ _ E). rewrite zlen_app, zlen_cons in Hl. pose proof (zlen_nonneg a). pose proof (zlen_nonneg b).
  destruct (store_char_spec i (zlen a) c ls _ H E) as [E1 R1]; [lia |]. rewrite zset_middle in E1, R1 by done. split; [done |]. split; [done |]. split; [by apply zlook_zset_eq |].
  intros j Hj. unfold line_text. by rewrite zlook_zset_ne.
Qed.

(** One line, after the part [cur] of it. *)
Lemma split_line t : forall cur x rest s' num ls, rows_ok ls -> 0 <= num < MAX_LINES -> writable t -> nonzero cur ->
  zlook ls num = Some (cur ++ x :: rest) -> zlen cur + zlen t < LINE_MAX ->
  exists ls', split_text (t ++ 10 :: s') num (zlen cur) ls = split_text s' (num + 1) 0 ls' /\ rows_ok ls' /\ line_text ls' num = Some (cur ++ t) /\
    forall j, j <> num -> line_text ls' j = line_text ls j.
Proof.
  induction t as [| c t IH]; intros cur x rest s' num ls H Hn [[Ht Hl] Hc] Hcur E Hlen; cbn [app split_text]; (destruct (Z.ltb_spec num MAX_LINES); [| lia]).
  - change (10 =? 10) with true. cbv iota. destruct (store_middle num ls cur x rest 0 H E) as (-> & R1 & E1 & Ho). cbn [mbind option_bind].
    eexists. split; [done |]. split; [done |]. rewrite app_nil_r. split; [unfold line_text; rewrite E1; by apply c_string_text | done].
  - apply Forall_cons in Ht as [Hc0 Ht]. apply Forall_cons in Hc as [Hc10 Hc]. destruct (Z.eqb_spec c 10); [done |]. rewrite zlen_cons in *. pose proof (zlen_nonneg t). pose proof (zlen_nonneg cur).
    destruct (Z.ltb_spec (zlen cur) (LINE_MAX - 1)); [| lia]. destruct (store_middle num ls cur x rest c H E) as (-> & R1 & E1 & Ho). cbn [mbind option_bind].
    pose proof (row_len _ _ _ H E) as Hr. rewrite zlen_app, zlen_cons in Hr. destruct rest as [| y rest]; [change (@zlen Z []) with 0 in Hr; lia |].
    destruct (IH (cur ++ [c]) y rest s' num _ R1 Hn) as (ls' & E2 & R2 & E3 & Ho2).
    + split; [split; [done | lia] | done].
    + apply Forall_app. split; [done | by constructor].
    + by rewrite E1, <- app_assoc.
    + rewrite zlen_app. change (zlen [c]) with 1. lia.
    + exists ls'. replace (zlen cur + 1) with (zlen (cur ++ [c])) by (by rewrite zlen_app). split; [done |]. split; [done |]. split; [by rewrite E3, <- app_assoc |].
      intros j Hj. by rewrite Ho2, Ho.
Qed.

Lemma split_text_spec ts : forall num ls, rows_ok ls -> 0 <= num -> num + zlen ts <= MAX_LINES -> Forall writable ts ->
  exists ls', split_text (text ts) num 0 ls = Some (num + zlen ts, 0, ls') /\ rows_ok ls' /\
    (forall i t, zlook ts i = Some t -> line_text ls' (num + i) = Some t) /\ (forall j, j < num -> line_text ls' j = line_text ls j).
Proof.
  induction ts as [| t ts IH]; intros num ls H Hn Hl Hw.
  - exists ls. change (zlen []) with 0. rewrite Z.add_0_r. split; [done |]. split; [done |]. split; [| done]. intros i t Hi. apply zlook_Some_range in Hi. change (@zlen (list Z) []) with 0 in Hi. lia.
  - apply Forall_cons in Hw as [Ht Hw]. rewrite zlen_cons in *. pose proof (zlen_nonneg ts). destruct (row_at ls num H) as (row & E & Hr); [lia |].
    destruct row as [| x row]; [done |]. pose proof (proj2 (proj1 Ht)) as Hlt.
    destruct (split_line t [] x row (text ts) num ls H) as (ls1 & E1 & R1 & Et & Ho); [lia | done | constructor | done | done |].
    destruct (IH (num + 1) ls1 R1) as (ls2 & E2 & R2 & Et2 & Ho2); [lia | lia | done |]. exists ls2. split.
    { unfold text. cbn [map concat]. rewrite <- app_assoc. change (zlen []) with 0 in E1. cbn [app]. fold (text ts). rewrite E1, E2. do 3 f_equal. lia. }
    split; [done |]. split.
    + intros i u Hi. destruct (Z.eq_dec i 0) as [-> |].
      * rewrite zlook_nonneg in Hi by lia. injection Hi as <-. rewrite Z.add_0_r, Ho2 by lia. done.
      * pose proof (zlook_Some_range _ _ _ Hi). rewrite zlook_cons in Hi by (rewrite zlen_cons in *; lia). replace (num + i) with (num + 1 + (i - 1)) by lia. by apply Et2.
    + intros j Hj. rewrite Ho2 by lia. apply Ho. lia.
Qed.

Lemma text_nonzero ts : Forall writable ts -> nonzero (text ts).
Proof.
  unfold text, nonzero. induction 1 as [| t ts [[Hn _] _] _ IH]; [constructor |]. cbn [map concat]. apply Forall_app. split; [| done].
  apply Forall_app. split; [done | by constructor].
Qed.
Lemma text_last ts : ts <> [] -> exists a, text ts = a ++ [10].
Proof.
  intros Hne. destruct (exists_last (l := ts) Hne) as (ts' & t & ->). unfold text. rewrite map_app, concat_app. cbn [map concat]. rewrite app_nil_r.
  eexists. by rewrite app_assoc.
Qed.

(** The character behind the last line that was read. *)
Lemma ended_text ts junk : 0 < zlen ts -> 0 < zlen (text ts) /\ zlook (text ts ++ 0 :: junk) (zlen (text ts) - 1) = Some 10.
Proof.
  intros Hz. destruct (text_last ts) as [a ->]; [by intros -> |]. rewrite zlen_app. change (zlen [10]) with 1. pose proof (zlen_nonneg a). split; [lia |].
  rewrite <- app_assoc. cbn [app]. by apply zlook_middle; lia.
Qed.

Lemma load_text_correct ts e junk : rows_ok (g_lines e) -> zlen ts < MAX_LINES -> Forall writable ts ->
  exists e', load_text (text ts ++ 0 :: junk) (zlen (text ts)) e = Some e' /\ ed_ok e' ts /\ g_dirty e' = g_dirty e.
Proof.
  intros H Hl Hw. unfold load_text. rewrite c_string_text by (by apply text_nonzero). cbn [mbind option_bind].
  destruct (split_text_spec ts 0 (g_lines e) H) as (ls & -> & H1 & Et & _); [done | lia | done |]. cbn [mbind option_bind]. rewrite Z.add_0_l. pose proof (zlen_nonneg ts).
  assert (forall ls', (forall j, j <> zlen ts -> line_text ls' j = line_text ls j) -> rows_ok ls' -> holds ls' ts) as Hold.
  { intros ls' Ho Hr. split; [done | lia |]. intros i t Hi. pose proof (zlook_Some_range _ _ _ Hi). rewrite Ho by lia. by apply (Et i). }
  change (0 <? 0) with false. cbn [orb]. destruct (Z.eq_dec (zlen ts) 0) as [E0 | E0].
  - destruct ts as [| t ts]; [| rewrite zlen_cons in E0; pose proof (zlen_nonneg ts); lia]. change (zlen (text [])) with 0. change (0 <? 0) with false. cbn [mbind option_bind].
    eexists. split; [done |]. split; [| done]. split; [by apply Hold | done].
  - destruct (ended_text ts junk ltac:(lia)) as [Hp Ez]. destruct (Z.ltb_spec 0 (zlen (text ts))); [| lia]. rewrite Ez. cbn [mbind option_bind]. change (10 =? 10) with true. cbv iota.
    destruct (row_at ls (zlen ts) H1) as (row & Er & Hlr); [lia |]. destruct row as [| x row]; [done |].
    destruct (store_middle (zlen ts) ls [] x row 0 H1 Er) as (E1 & R1 & _ & Ho). change (zlen []) with 0 in E1. rewrite E1. cbn [mbind option_bind].
    eexists. split; [done |]. destruct (Z.eqb_spec (zlen ts) 0); [done |]. split; [| done]. split; [by apply Hold | done].
Qed.

(** Also: a file of 512 lines or more that ends with a new line makes the editor write beyond its
    array of lines: the terminator of the line behind the last goes to line 512. *)
Theorem load_full_overflows (ts : list (list Z)) (e : editor) (junk : list Z) (H : rows_ok (g_lines e)) (Hl : zlen ts = MAX_LINES) (Hw : Forall writable ts) :
  load_text (text ts ++ 0 :: junk) (zlen (text ts)) e = None.
Proof.
  unfold load_text. rewrite c_string_text by (by apply text_nonzero). cbn [mbind option_bind].
  destruct (split_text_spec ts 0 (g_lines e) H) as (ls & -> & H1 & _); [done | lia | done |]. cbn [mbind option_bind]. rewrite Z.add_0_l.
  destruct (ended_text ts junk ltac:(rewrite Hl; done)) as [Hp Ez]. destruct (Z.ltb_spec 0 (zlen (text ts))); [| lia]. rewrite Ez. cbn [mbind option_bind].
  change (0 <? 0) with false. change (10 =? 10) with true. cbn [orb]. unfold store_char. rewrite Hl, zlook_out_range; [done |]. destruct H1 as [-> _]. lia.
Qed.

(** What is written to a file descriptor is kept behind what was written before. *)
Class writes {S : Type} (h : call -> S -> reply * S) (out : S -> Z -> list Z) := {
  out_append : forall s fd d, out (snd (h (CWrite fd d) s)) fd = out s fd ++ d;
  out_close : forall s fd, out (snd (h (CClose fd) s)) fd = out s fd }.

Section saving.
Context {S : Type} (h : call -> S -> reply * S) (out : S -> Z -> list Z) {HW : writes h out}.

Lemma write_lines_spec ls fd ts : forall i s, (forall k t, zlook ts k = Some t -> line_text ls (i + k) = Some t) ->
  exists s', evals h (write_lines (length ts) i fd ls) s s' tt /\ out s' fd = out s fd ++ text ts.
Proof using HW.
  induction ts as [| t ts IH]; intros i s Ht; cbn [length write_lines].
  - exists s. split; [apply evals_ret | by rewrite app_nil_r].
  - assert (line_text ls i = Some t) as E by (rewrite <- (Z.add_0_r i); by apply Ht).
    set (s1 := snd (h (CWrite fd t) s)). set (s2 := snd (h (CWrite fd [10]) s1)). destruct (IH (i + 1) s2) as (s' & E' & Eo).
    { intros k u Hk. pose proof (zlook_Some_range _ _ _ Hk). replace (i + 1 + k) with (i + (k + 1)) by lia. apply Ht. rewrite zlook_cons by lia. rewrite <- Hk. f_equal. lia. }
    exists s'. split.
    + eapply evals_bind; [by apply evals_lift |]. pose proof (evals_write h fd (t ++ [0]) (zlen t) s) as Ew.
      replace (take (Z.to_nat (zlen t)) (t ++ [0])) with t in Ew by (unfold zlen; by rewrite Nat2Z.id, take_app_length).
      eapply evals_bind; [apply Ew; rewrite zlen_app; pose proof (zlen_nonneg [0]); lia |]. eapply evals_bind; [by apply (evals_write h fd [10] 1) | exact E'].
    + rewrite Eo. unfold s2, s1. rewrite !out_append, <- !app_assoc. unfold text. cbn [map concat]. by rewrite <- app_assoc.
Qed.

Lemma save_file_spec path e ts s : ed_ok e ts -> 0 <= s32 (a_rax (fst (h (CCreate path) s))) ->
  let fd := s32 (a_rax (fst (h (CCreate path) s))) in
  exists s', evals h (save_file path e) s s' (0, set_dirty 0 e) /\ out s' fd = out (snd (h (CCreate path) s)) fd ++ text ts.
Proof using HW.
  intros [He En] Hfd. cbv zeta. set (s1 := snd (h (CCreate path) s)). set (fd := s32 _) in *.
  destruct (write_lines_spec (g_lines e) fd ts 0 s1) as (s2 & E & Eo). { intros k t Hk. by apply (hd_text _ _ He). }
  exists (snd (h (CClose fd) s2)). split; [| by rewrite out_close]. unfold save_file. eapply evals_bind; [by apply evals_result |]. fold s1 fd.
  destruct (Z.ltb_spec fd 0); [lia |]. rewrite En. replace (Z.to_nat (zlen ts)) with (length ts) by (unfold zlen; lia).
  eapply evals_bind; [exact E |]. eapply evals_bind; [by apply evals_result | apply evals_ret].
Qed.

End saving.

(** ** A session *)

Section session.
Context (raw : Z -> list Z) (Hraw : forall n, 0 <= n -> zlen (raw n) = n).

Lemma readline_turn_safe max buf pos : zlen buf = max -> 0 <= pos < max ->
  safe (readline_turn max (buf, pos)) (fun r => match r with
    | inl (buf', pos') => zlen buf' = max /\ 0 <= pos' < max
    | inr buf' => exists s, c_string buf' = Some s /\ zlen s < max end).
Proof.
  intros Hl Hp. unfold readline_turn. eapply safe_bind; [apply (safe_read STDIN_FILENO [0] 0 1); [lia | done] |]. intros [n cell] _.
  apply safe_if; intros _; [by apply safe_ret |]. apply safe_if; intros _.
  - eapply safe_known; [apply put_in; lia |]. apply safe_then; [program | intros _]. apply safe_ret.
    destruct (c_string_put buf pos) as (s & E & Hs); [lia |]. exists s. split; [done | lia].
  - apply safe_if; intros _.
    + destruct (Z.ltb_spec 0 pos); [apply safe_then; [program | intros _] |]; apply safe_ret; split; lia.
    + destruct (Z.ltb_spec pos (max - 1)); [| by apply safe_ret]. eapply safe_known; [apply put_in; lia |]. apply safe_then; [program | intros _].
      apply safe_ret. rewrite zset_zlen. lia.
Qed.
Lemma readline_safe max : 1 <= max -> safe (readline (raw max) max) (fun s => nonzero s /\ zlen s < max).
Proof using Hraw.
  intros Hm. unfold readline. eapply safe_bind.
  - apply (safe_iter _ (fun x => zlen x.1 = max /\ 0 <= x.2 < max) (fun b => exists s, c_string b = Some s /\ zlen s < max)).
    + intros [buf pos] [H1 H2]. eapply safe_mono; [by apply readline_turn_safe |]. by intros [[b p] | b].
    + cbn [fst snd]. rewrite Hraw by lia. lia.
  - intros b (s & E & Hs). rewrite E. apply safe_ret. split; [| done]. by apply (c_string_split b).
Qed.

Lemma pad_ok fuel : forall ni n num, 0 <= ni <= 6 -> zlen num = 8 -> zlook num 6 = Some 0 ->
  exists num', pad fuel ni n num = Some num' /\ zlen num' = 8 /\ zlook num' 6 = Some 0.
Proof.
  induction fuel as [| f IH]; intros ni n num Hn Hl H6; cbn [pad]; [by exists num |]. destruct (Z.ltb_spec 0 ni); [| by exists num].
  rewrite put_in by lia. cbn [mbind option_bind]. apply IH; [lia | by rewrite zset_zlen | by rewrite zlook_zset_ne by lia].
Qed.
Lemma c_string_at l i : zlook l i = Some 0 -> exists s, c_string l = Some s /\ zlen s <= i.
Proof.
  intros E. pose proof (zlook_Some_range _ _ _ E). destruct (c_string_put l i) as (s & Es & H1); [done |]. exists s. split; [| done].
  rewrite <- Es. f_equal. unfold zset. destruct (Z.ltb_spec i 0); [lia |]. symmetry. apply list_insert_id. by rewrite zlook_nonneg in E by lia.
Qed.
Lemma line_number_ok i : exists s, line_number i = Some s.
Proof.
  unfold line_number. rewrite put_in by done. cbn [mbind option_bind]. destruct (pad_ok 6 6 (i + 1) ((replicate 8 0).[6 <- 0])) as (num & E & _ & H6); [done | done | done |].
  rewrite E. cbn [mbind option_bind]. destruct (c_string_at num 6 H6) as (s & -> & _). by exists s.
Qed.

Lemma print_from_safe ls n : forall i, (forall j, i <= j < i + Z.of_nat n -> line_text ls j <> None) -> safe (print_from n i ls) (fun _ => True).
Proof.
  induction n as [| n IH]; intros i Ht; cbn [print_from]; [program |]. destruct (line_number_ok i) as (num & E). eapply safe_known; [exact E |].
  destruct (line_text ls i) as [s |] eqn:Es; [| by destruct (Ht i); [lia |]]. eapply safe_known; [reflexivity |].
  apply safe_then; [program |]. intros _. apply safe_then; [program |]. intros _. apply safe_then; [program |]. intros _. apply safe_then; [program |]. intros _.
  apply IH. intros j Hj. apply Ht. lia.
Qed.
Lemma write_lines_safe fd ls n : forall i, (forall j, i <= j < i + Z.of_nat n -> line_text ls j <> None) -> safe (write_lines n i fd ls) (fun _ => True).
Proof.
  induction n as [| n IH]; intros i Ht; cbn [write_lines]; [program |].
  destruct (line_text ls i) as [s |] eqn:Es; [| by destruct (Ht i); [lia |]]. eapply safe_known; [reflexivity |].
  apply safe_then; [apply safe_write; rewrite zlen_app; change (zlen [0]) with 1; lia |]. intros _. apply safe_then; [by apply safe_write |]. intros _.
  apply IH. intros j Hj. apply Ht. lia.
Qed.

(** The state between two commands. *)
Definition edits e : Prop := exists ts, ed_ok e ts.

Lemma edits_text e j : edits e -> 0 <= j < g_num e -> line_text (g_lines e) j <> None.
Proof. intros (ts & H & En) Hj. eapply held; [done | lia]. Qed.
Lemma print_lines_safe e : edits e -> safe (print_lines e) (fun _ => True).
Proof. intros He. apply print_from_safe. intros j Hj. apply edits_text; [done | lia]. Qed.
Lemma list_range_safe a b e : edits e -> safe (list_range a b e) (fun _ => True).
Proof.
  intros He. apply print_from_safe. intros j Hj. apply edits_text; [done |]. destruct (Z.ltb_spec a 0), (Z.leb_spec (g_num e) b); lia.
Qed.
Lemma save_safe path e : edits e -> safe (save_file path e) (fun r => edits (snd r)).
Proof.
  intros He. unfold save_file. eapply safe_then; [program |]. intros fd. apply safe_if; intros _; [by apply safe_ret |].
  apply safe_then; [apply write_lines_safe; intros j Hj; apply edits_text; [done | lia] |]. intros _. apply safe_then; [program |]. intros _. by apply safe_ret.
Qed.

Lemma insert_turn_safe e after : edits e -> 0 <= after <= g_num e ->
  safe (insert_turn raw (e, after)) (fun r => match r with inl (e', a) => edits e' /\ 0 <= a <= g_num e' | inr e' => edits e' end).
Proof using Hraw.
  intros He Ha. unfold insert_turn. apply safe_then; [program |]. intros _. eapply safe_bind; [by apply readline_safe |]. intros line Hline.
  apply safe_if; intros _; [by apply safe_ret |]. destruct (Z.leb_spec MAX_LINES (g_num e)); [apply safe_then; [program |]; intros _; by apply safe_ret |].
  destruct He as [ts [He En]]. destruct (insert_at_correct after line e ts) as (e' & E & He' & _); [done | lia | lia | done |].
  eapply safe_known; [exact E |]. apply safe_ret. split; [by eexists |]. unfold insert_at in E.
  destruct (move_down _ _ _) as [l1 |]; [| done]. cbn [mbind option_bind] in E. destruct (copy_line _ _ _) as [l2 |]; [| done]. injection E as <-. cbn [g_num]. lia.
Qed.
Lemma insert_lines_safe e after : edits e -> 0 <= after <= g_num e -> safe (insert_lines raw after e) edits.
Proof using Hraw.
  intros He Ha. unfold insert_lines. apply safe_then; [program |]. intros _. eapply safe_bind; [| intros e' He'; apply safe_ret; exact He'].
  apply (safe_iter _ (fun x => edits x.1 /\ 0 <= x.2 <= g_num x.1)); [| by split]. intros [e1 a] [H1 H2]. eapply safe_mono; [by apply insert_turn_safe |]. by intros [[] |].
Qed.
Lemma delete_safe n e : edits e -> safe (delete_line n e) edits.
Proof.
  intros [ts [He En]]. unfold delete_line. destruct (Z.ltb_spec n 0); [| destruct (Z.leb_spec (g_num e) n)]; cbn [orb];
    [apply safe_then; [program | intros _; apply safe_ret; by exists ts] | apply safe_then; [program | intros _; apply safe_ret; by exists ts] |].
  destruct (remove_at_correct n e ts) as (e' & -> & He' & _); [done | lia |]. apply safe_ret. by eexists.
Qed.

Lemma edits_num e : edits e -> 0 <= g_num e.
Proof. intros [ts [_ ->]]. apply zlen_nonneg. Qed.

Lemma command_i_safe line e : edits e -> safe (command_i raw line e) edits.
Proof using Hraw.
  intros He. pose proof (edits_num e He). apply insert_lines_safe; [done |]. set (n := target _ _). destruct (Z.ltb_spec n 0); [destruct (Z.ltb_spec (g_num e) 0) | destruct (Z.ltb_spec (g_num e) n)]; lia.
Qed.
Lemma command_a_safe line e : edits e -> safe (command_a raw line e) edits.
Proof using Hraw.
  intros He. pose proof (edits_num e He). apply insert_lines_safe; [done |]. set (n := target _ _). destruct (Z.ltb_spec n 0); [destruct (Z.leb_spec (g_num e) 0) | destruct (Z.leb_spec (g_num e) n)]; lia.
Qed.
Lemma command_d_safe line e : edits e -> safe (command_d line e) edits.
Proof. intros He. apply safe_if; intros _; [apply safe_then; [program | intros _; by apply safe_ret] | by apply delete_safe]. Qed.
Lemma command_print_safe line e : edits e -> safe (command_print line e) edits.
Proof.
  intros He. assert (forall s : list Z, safe (_ ← puts s; mret e) edits) as Hs by (intros s; apply safe_then; [program | intros _; by apply safe_ret]).
  assert (forall a b, safe (_ ← list_range a b e; mret e) edits) as Hl by (intros a b; apply safe_then; [by apply list_range_safe | intros _; by apply safe_ret]).
  unfold command_print. destruct (number_at 0 line) as [n [| c rest]]; [apply safe_if; auto |]. apply safe_if; intros _; [| auto].
  destruct (number_at 0 rest) as [m rest']. repeat (apply safe_if; intros _); auto.
Qed.
Lemma lines_said ss : safe (say ss) (fun _ => True).
Proof. induction ss as [| s ss IH]; cbn [say]; program. Qed.

Lemma main_turn_safe path e : edits e -> safe (main_turn raw path e) (fun r => match r with inl e' => edits e' | inr _ => True end).
Proof using Hraw.
  intros He. unfold main_turn. apply safe_then; [program |]. intros _. eapply safe_bind; [by apply readline_safe |]. intros line _.
  assert (forall p, safe p edits -> safe (e ← p; mret (inl e)) (fun r : editor + Z => match r with inl e' => edits e' | inr _ => True end)) as again
    by (intros p Hp; eapply safe_bind; [exact Hp | intros e' He'; by apply safe_ret]).
  assert (forall p : prog unit, safe p (fun _ => True) -> safe (_ ← p; mret e) edits) as stay by (intros p Hp; apply safe_then; [exact Hp | intros _; by apply safe_ret]).
  apply safe_if; intros _; [by apply again, stay, print_lines_safe |].
  apply safe_if; intros _; [apply safe_if; intros _; [apply again, safe_then; [program | intros _; by apply safe_ret] | by apply safe_ret] |].
  apply safe_if; intros _; [by apply safe_ret |].
  apply safe_if; intros _; [eapply safe_bind; [by apply save_safe |]; intros r Hr; apply again, safe_then; [program | intros _; by apply safe_ret] |].
  apply safe_if; intros _; [by apply again, stay, print_lines_safe |]. apply safe_if; intros _; [apply again, stay, lines_said |].
  apply safe_if; intros _; [by apply again, command_i_safe |]. apply safe_if; intros _; [by apply again, command_a_safe |].
  apply safe_if; intros _; [by apply again, command_d_safe | by apply again, command_print_safe].
Qed.

End session.

(** Also: inserting a line before line [after] and deleting line [n] are the operations on the list
    of lines: the lines behind are kept, whatever the array holds elsewhere; deleting what was
    inserted gives the text back. *)
Theorem edit_spec (e : editor) (ts : list (list Z)) (after : Z) (s : list Z) (He : ed_ok e ts) (Hl : zlen ts < MAX_LINES)
    (Ha : 0 <= after <= zlen ts) (Hs : line_ok s) :
  let ts' := take (Z.to_nat after) ts ++ s :: drop (Z.to_nat after) ts in
  exists e1, insert_at after s e = Some e1 /\ ed_ok e1 ts' /\ g_dirty e1 = g_dirty e /\
    (forall n, 0 <= n < zlen ts' -> exists e2, remove_at n e1 = Some e2 /\ ed_ok e2 (take (Z.to_nat n) ts' ++ drop (Z.to_nat (n + 1)) ts') /\ g_dirty e2 = 1) /\
    exists e2, remove_at after e1 = Some e2 /\ ed_ok e2 ts.
Proof.
  intros ts'. destruct (insert_at_correct after s e ts He Hl Ha Hs) as (e1 & E1 & H1 & Hd). exists e1. split; [done |]. split; [done |]. split; [done |].
  assert (zlen (take (Z.to_nat after) ts) = after) as Et by (unfold zlen in *; rewrite length_take; lia).
  split; [intros n Hn; by apply remove_at_correct |]. destruct (remove_at_correct after e1 ts' H1) as (e2 & E2 & H2 & _).
  { unfold ts'. rewrite zlen_app, zlen_cons, Et. pose proof (zlen_nonneg (drop (Z.to_nat after) ts)). lia. }
  exists e2. split; [done |]. replace ts with (take (Z.to_nat after) ts' ++ drop (Z.to_nat (after + 1)) ts'); [done |]. unfold ts', zlen in *.
  rewrite take_app_length' by lia. rewrite drop_app_ge by lia. replace (Z.to_nat (after + 1) - _)%nat with 1%nat by lia. cbn [drop]. rewrite drop_0. apply take_drop.
Qed.

(** ** Examples *)

Definition rows_ex : list (list Z) := replicate 512 (replicate 256 0).
Lemma rows_ex_ok : rows_ok rows_ex.
Proof. split; [done |]. apply Forall_replicate. done. Qed.
Definition two : list (list Z) := [txt "one"; txt "two"].
Definition ed_ex : editor := Ed (rows_ex.[0 <- txt "one" ++ replicate 253 0].[1 <- txt "two" ++ replicate 253 0]) 2 0.
Lemma ed_ex_ok : ed_ok ed_ex two.
Proof.
  split; [| done]. split; [apply rows_set; [apply rows_set; [apply rows_ex_ok | done] | done] | done |].
  intros i t Hi. pose proof (zlook_Some_range _ _ _ Hi) as Hr. change (zlen two) with 2 in Hr. assert (i = 0 \/ i = 1) as [-> | ->] by lia; injection Hi as <-; vm_compute; reflexivity.
Qed.


Lemma edit_spec_witness : exists e1, insert_at 1 (txt "mid") ed_ex = Some e1 /\ ed_ok e1 [txt "one"; txt "mid"; txt "two"].
Proof.
  destruct (edit_spec ed_ex two 1 (txt "mid") ed_ex_ok) as (e1 & E & H & _); [done | vm_compute; split; discriminate | split; [by apply Forall_cons; repeat split; repeat constructor | done] |].
  exists e1. split; [exact E | exact H].
Defined.

Lemma full_ex : zlen (replicate 512 (txt "a")) = MAX_LINES /\ Forall writable (replicate 512 (txt "a")).
Proof. split; [done |]. apply Forall_replicate. split; [split; [by apply Forall_cons | done] | by apply Forall_cons]. Qed.
Lemma load_full_overflows_witness : load_text (text (replicate 512 (txt "a")) ++ [0]) (zlen (text (replicate 512 (txt "a")))) (Ed rows_ex 0 0) = None.
Proof. apply (load_full_overflows (replicate 512 (txt "a")) (Ed rows_ex 0 0) []); [apply rows_ex_ok | apply full_ex | apply full_ex]. Defined.

(** A kernel whose files are what was written to their descriptors. *)
Definition files_kernel (c : call) (s : Z -> list Z) : reply * (Z -> list Z) :=
  match c with
  | CCreate _ => (Reply 3 [] false, s)
  | CWrite fd d => (Reply (zlen d) [] false, fun x => if x =? fd then s x ++ d else s x)
  | _ => (Reply 0 [] false, s)
  end.
#[export] Instance files_writes : writes files_kernel (fun s => s).
Proof. split; intros s fd; [intros d; cbn [files_kernel snd]; by rewrite Z.eqb_refl | done]. Qed.
