(* ===== verification/Programs.v ===== *)
(** * Small user programs (src/user/calculator.c, sysmon.c, spin.c, test*.c)

    Each program in its own Module, as the system calls it makes. The conversions of
    stdlib.c are those of the file UserLib, run on an array of 32 characters; where it
    overflows, the arithmetic of int wraps around. *)

From ITree Require Import ITree.
From Stdlib Require Import String Ascii.
From S2P Require Import Prelude Memory CString UserLib KPath UserIO.

(** ** The library, on texts *)

(** [char buf[32]] and what is written there. *)
Definition text_of (o : option mem) : option (list Z) := m ← o; c_string (ld_bytes 32 m 0).
Definition itoa_text (v : Z) : option (list Z) := text_of (itoa 70 v 0 ∅).
Definition utoa_text (v : Z) : option (list Z) := text_of (utoa 70 v 0 ∅).
Definition itox_text (v : Z) : option (list Z) := text_of (itox 70 v 0 ∅).

(** A number that is converted and printed. *)
Definition put_text (o : option (list Z)) : prog Z := s ← lift o; puts s.

(** printf writes one character at a time. *)
Fixpoint putchars (s : list Z) : prog unit := match s with [] => mret tt | c :: s => _ ← putc c; putchars s end.

Fixpoint say (ss : list (list Z)) : prog unit := match ss with [] => mret tt | s :: ss => _ ← puts s; say ss end.

Module Calculator.
Definition LINE_MAX : Z := 256.

Definition readline_turn (max : Z) (x : list Z * Z) : prog (list Z * Z + option (list Z)) :=
  let '(buf, pos) := x in
  r ← sys_read STDIN_FILENO [0] 0 1;
  let '(n, cell) := (r : Z * list Z) in
  let c := hd 0 cell in
  if negb (n =? 1) then mret (inl (buf, pos))
  else if c =? 10 then _ ← putc 10; buf ← lift (put buf pos 0); mret (inr (Some buf))
  else if (c =? 8) || (c =? 127) then if 0 <? pos then _ ← putc 8; mret (inl (buf, pos - 1)) else mret (inl (buf, pos))
  else if (c =? 3) || (c =? 4) then _ ← puts [10]; mret (inr None)
  else if pos <? max - 1 then buf ← lift (put buf pos c); _ ← putc c; mret (inl (buf, pos + 1))
  else mret (inl (buf, pos)).
(** The line as a string, or -1. *)
Definition readline (buf : list Z) (max : Z) : prog (option (list Z)) :=
  r ← ITree.iter (readline_turn max) (buf, 0);
  match r with Some buf => s ← lift (c_string buf); mret (Some s) | None => mret None end.

Fixpoint skip_spaces (s : list Z) : list Z := match s with c :: s' => if c =? 32 then skip_spaces s' else s | [] => [] end.
Fixpoint skip_digits (s : list Z) : list Z := match s with c :: s' => if is_digit c then skip_digits s' else s | [] => [] end.
Fixpoint digits (v : Z) (started : bool) (s : list Z) : Z * bool :=
  match s with c :: s' => if is_digit c then digits (s32 (v * 10 + (c - 48))) true s' else (v, started) | [] => (v, started) end.
Definition parse_number (s : list Z) : option Z :=
  let s := skip_spaces s in
  let '(neg, s) := match s with c :: s' => if c =? 45 then (true, s') else if c =? 43 then (false, s') else (false, s) | [] => (false, []) end in
  let '(v, started) := digits 0 false s in
  if started : bool then Some (if neg : bool then s32 (- v) else v) else None.

Inductive outcome := Quit | Say (s : list Z) | Unknown (op : Z) | Result (v : Z) | Trap.

(** [a / b] and [a % b] in a register of 32 bits: the quotient of the least number by -1 traps. *)
Definition divided (f : Z -> Z -> Z) (a b : Z) : outcome :=
  if b =? 0 then Say (ln "Error: division by zero") else if (a =? -2147483648) && (b =? -1) then Trap else Result (f a b).
Definition apply (op a b : Z) : outcome :=
  if op =? 43 then Result (s32 (a + b)) else if op =? 45 then Result (s32 (a - b)) else if op =? 42 then Result (s32 (a * b))
  else if op =? 47 then divided Z.quot a b else if op =? 37 then divided Z.rem a b
  else Unknown op.
Definition evaluate (line : list Z) : outcome :=
  let p := skip_spaces line in
  if starts_with p (txt "quit") || starts_with p (txt "exit") then Quit
  else
    match parse_number p with
    | None => Say (ln "Error: invalid first number")
    | Some a =>
        match skip_spaces (skip_digits p) with
        | [] => Say (ln "Error: expected operator (+, -, *, /, %%)")
        | op :: p => match parse_number p with None => Say (ln "Error: invalid second number") | Some b => apply op a b end
        end
    end.

Section main.
Context (raw : Z -> list Z).
Definition main_turn (u : unit) : prog (unit + unit) :=
  _ ← putchars (txt "calc> ");
  r ← readline (raw LINE_MAX) LINE_MAX;
  match r with
  | None => mret (inr tt)
  | Some line =>
      if bool_decide (line = []) then mret (inl tt)
      else
        match evaluate line with
        | Quit => mret (inr tt)
        | Say s => _ ← puts s; mret (inl tt)
        | Unknown op => _ ← putchars (txt "Error: unknown operator '" ++ [op] ++ ln "'"); mret (inl tt)
        | Result v => _ ← put_text (itoa_text v); _ ← putc 10; mret (inl tt)
        | Trap => fault
        end
  end.
Definition main : prog Z :=
  _ ← say [ln "EponaOS Calculator v1.0"; ln "Enter expressions like: 2 + 3"; ln "Operations: +, -, *, /, %%, quit" ++ [10]];
  _ ← ITree.iter main_turn tt; _ ← puts (ln "Goodbye!"); mret 0.
End main.
End Calculator.

Module Sysmon.
Fixpoint bar (n : nat) (i filled : Z) : prog unit := match n with O => mret tt | S n => _ ← putc (if i <? filled then 35 else 45); bar n (i + 1) filled end.
Definition print_bar (percent width : Z) : prog unit :=
  _ ← putc 91;
  let filled := Z.quot (s32 (percent * width)) 100 in
  let filled := if width <? filled then width else filled in
  _ ← bar (Z.to_nat width) 0 filled; _ ← putc 93; mret tt.

Definition total_kb : Z := 512 * 1024.
(** One second of the loop; the wait is left out. *)
Definition second (pid sec : Z) : prog unit :=
  n ← lift (itoa_text sec); _ ← putchars (txt "  [" ++ n ++ txt " sec] PID="); _ ← put_text (itoa_text pid);
  cur_break ← sys_brk 0;
  let heap_kb := u32 (Z.shiftr cur_break 10) in
  _ ← putchars (txt "  heap="); _ ← put_text (utoa_text heap_kb); _ ← puts (txt " KiB  ");
  _ ← print_bar (if total_kb <? heap_kb then 100 else u32 (heap_kb * 100) / total_kb) 15; _ ← putc 10; mret tt.
Fixpoint seconds (n : nat) (pid sec : Z) : prog unit := match n with O => mret tt | S n => _ ← second pid sec; seconds n pid (sec + 1) end.

Definition RULE : list Z := ln "============================================".
Definition main : prog Z :=
  _ ← say [RULE; ln "       EponaOS System Monitor v1.0"; RULE ++ [10]];
  pid ← sys_getpid; ppid ← sys_getppid;
  _ ← putchars (txt "  Process ID:   "); _ ← put_text (itoa_text pid); _ ← putc 10;
  _ ← putchars (txt "  Parent PID:   "); _ ← put_text (itoa_text ppid); _ ← putc 10;
  cur_break ← sys_brk 0;
  _ ← puts (txt "  Heap break:   0x"); _ ← put_text (itox_text (u32 cur_break)); _ ← putc 10;
  let heap_kb := u32 (Z.shiftr cur_break 10) in
  _ ← putchars (txt "  Heap used:    "); _ ← put_text (utoa_text heap_kb); _ ← puts (ln " KiB");
  let used_pct := u32 (heap_kb * 100) / total_kb in
  _ ← puts (txt "  Memory:       "); _ ← print_bar (if 100 <? used_pct then 100 else used_pct) 20; _ ← putc 32;
  _ ← put_text (utoa_text used_pct); _ ← puts (ln "%%");
  _ ← say [[10] ++ ln "--------------------------------------------"; ln "  Monitoring for 5 seconds..." ++ [10]];
  _ ← seconds 5 pid 0;
  _ ← say [[10] ++ RULE; ln "  Monitor complete. Exiting."; RULE]; mret 0.
End Sysmon.

(** A number from the end of an array of [cap] characters, without its terminator; the
    remainder of a negative number is negative. *)
Fixpoint number_from (fuel : nat) (n p : Z) (buf : list Z) : option (Z * list Z) :=
  match fuel with
  | O => None
  | S f => if istrue n then buf ← put buf (p - 1) (48 + Z.rem n 10); number_from f (Z.quot n 10) (p - 1) buf else Some (p, buf)
  end.
Definition write_number (cap n : Z) : prog Z :=
  r ← lift (buf ← put (replicate (Z.to_nat cap) 0) (cap - 1) 0;
            if n =? 0 then buf ← put buf (cap - 2) 48; Some (cap - 2, buf) else number_from (Z.to_nat cap) n (cap - 1) buf);
  let '(p, buf) := (r : Z * list Z) in
  sys_write STDOUT_FILENO (drop (Z.to_nat p) buf) (cap - 1 - p).
(** A text and how much of it, with its terminator, is written. *)
Definition write_text (s : list Z) (count : Z) : prog Z := sys_write STDOUT_FILENO (s ++ [0]) count.

Module Spin.
Definition write_num (n : Z) : prog Z := write_number 24 n.
Definition turn (x : Z * Z) : prog (Z * Z + Z) :=
  let '(i, rounds) := x in
  let i := u64 (i + 1) in
  if i mod 50000000 =? 0 then
    let rounds := u64 (rounds + 1) in
    _ ← write_text (txt "spin: round ") 12; _ ← write_num rounds; _ ← write_text [10] 1;
    if 5 <=? rounds then _ ← write_text (ln "spin: saindo") 13; sys_exit 0 else mret (inl (i, rounds))
  else mret (inl (i, rounds)).
Definition main : prog Z := _ ← write_text (ln "spin: loop infinito iniciado (sem yield)") 42; ITree.iter turn (0, 0).
End Spin.

Module Test.
Definition main (raw : Z -> list Z) (argc : Z) : prog Z :=
  _ ← write_text (ln "Hello from C in ring 3!") 24; _ ← write_text (txt "argc = ") 7; _ ← write_number 16 argc; _ ← write_text [10] 1;
  _ ← write_text (ln "Before sys_open") 16; fd ← sys_open (txt "hello.txt"); _ ← write_text (ln "After sys_open") 15;
  if 0 <=? fd then
    r ← sys_read fd (raw 128) 0 127;
    let '(nr, rbuf) := (r : Z * list Z) in
    _ ← (if 0 <? nr then
           rbuf ← lift (put rbuf nr 0); _ ← write_text (txt "Content: ") 9; _ ← sys_write STDOUT_FILENO rbuf nr; _ ← write_text [10] 1; mret tt
         else mret tt);
    _ ← sys_close fd; mret 0
  else _ ← write_text (ln "Failed to open hello.txt") 25; mret 0.
End Test.

Module Test2.
Definition main : prog Z :=
  _ ← write_text (ln "Hello from test2!") 18; _ ← write_text (ln "Calling sys_open...") 20;
  fd ← sys_open (txt "hello.txt"); _ ← write_text (txt "After sys_open, fd=") 19;
  _ ← write_number 16 fd; _ ← write_text [10] 1; sys_exit 0.
End Test2.

Module Test3.
Definition print_dec (v : Z) : prog Z := write_number 16 v.
Fixpoint print_args (i : Z) (argv : list (list Z)) : prog unit :=
  match argv with
  | [] => mret tt
  | a :: argv =>
      _ ← write_text (txt "  argv[") 7; _ ← print_dec i; _ ← write_text (txt "] = ") 4; _ ← write_text a (zlen a); _ ← write_text [10] 1;
      print_args (i + 1) argv
  end.
Definition main (argv : list (list Z)) : prog Z :=
  _ ← write_text (ln "Test 3 hello!") 14; _ ← write_text (txt "argc=") 5; _ ← print_dec (zlen argv); _ ← write_text [10] 1;
  _ ← print_args 0 argv; sys_exit 0.
End Test3.

(** ** Texts of numbers *)

Lemma cstr_text m s : forall a n, cstr m a s -> (length s < n)%nat -> c_string (ld_bytes n m a) = Some s.
Proof.
  induction s as [| c s IH]; intros a [| n] Hc Hn; cbn [length] in Hn; try lia; cbn [cstr ld_bytes c_string] in *.
  - by rewrite Hc.
  - destruct Hc as (Hr & -> & Hc). destruct (Z.eqb_spec c 0); [lia |]. rewrite (IH (a + 1) n Hc) by lia. done.
Qed.
Lemma numeral_short k v : 0 <= v < 10 ^ Z.of_nat k -> (1 <= k <= 64)%nat -> (length (numeral 10 v) <= k)%nat.
Proof.
  intros Hv Hk. unfold numeral. destruct (v =? 0); [cbn; lia |]. rewrite length_map, length_rev, (rdigits_more v k 64) by lia.
  pose proof (rdigits_len k v). unfold zlen in *. lia.
Qed.
Lemma empty_mem_bytes x : is_byte (rdb ∅ x).
Proof. unfold rdb, is_byte. rewrite lookup_empty. cbn. lia. Qed.
Lemma itoa_text_spec v : -2147483648 <= v < 2147483648 -> itoa_text v = Some (signed_numeral v).
Proof.
  intros Hv. destruct (itoa_correct 70 v 0 ∅ empty_mem_bytes Hv ltac:(lia)) as (m & E & Hc & _). unfold itoa_text, text_of. rewrite E. cbn [mbind option_bind].
  apply cstr_text; [done |]. unfold signed_numeral. pose proof (numeral_short 10 (- v)). pose proof (numeral_short 10 v). change (10 ^ Z.of_nat 10) with 10000000000 in *.
  destruct (Z.ltb_spec v 0); cbn [length]; lia.
Qed.

Section calculator.
Import Calculator.

Definition no_digit (s : list Z) : Prop := match s with c :: _ => is_digit c = false | [] => True end.
Lemma spaces_skipped n s : skip_spaces (replicate n 32 ++ s) = skip_spaces s.
Proof. induction n as [| n IH]; [done |]. exact IH. Qed.
Lemma no_space c s : c <> 32 -> skip_spaces (c :: s) = c :: s.
Proof. intros Hc. cbn [skip_spaces]. destruct (Z.eqb_spec c 32); [done | done]. Qed.

Lemma digit_chars ds : Forall (fun d => 0 <= d < 10) ds -> Forall (fun c => is_digit c = true) (map hex_digit ds).
Proof. intros H. apply Forall_map. eapply Forall_impl; [exact H |]. cbn. intros d Hd. unfold hex_digit, is_digit. destruct (Z.ltb_spec d 10); lia. Qed.
Lemma digits_skipped ds s : Forall (fun c => is_digit c = true) ds -> no_digit s -> skip_digits (ds ++ s) = s.
Proof.
  induction 1 as [| c ds Hc _ IH]; intros Hs; cbn [app skip_digits]; [destruct s as [| c s]; [done |]; cbn in *; by rewrite Hs |]. rewrite Hc. by apply IH.
Qed.
Lemma digits_value ds : forall v st s, Forall (fun d => 0 <= d < 10) ds -> no_digit s -> 0 <= v -> fold_left (fun v d => v * 10 + d) ds v < 2147483648 ->
  digits v st (map hex_digit ds ++ s) = (fold_left (fun v d => v * 10 + d) ds v, st || negb (bool_decide (ds = []))).
Proof.
  assert (forall l w, Forall (fun d => 0 <= d < 10) l -> 0 <= w -> w <= fold_left (fun v d => v * 10 + d) l w) as Hmono.
  { induction l as [| e l IHl]; intros w Hl Hw; simpl; [lia |]. apply Forall_cons in Hl as [He Hl]. transitivity (w * 10 + e); [lia | apply IHl; [done | lia]]. }
  induction ds as [| d ds IH]; intros v st s Hd Hs Hv Hlim; cbn [map app fold_left] in *.
  - destruct s as [| c s]; cbn in *; [by rewrite orb_false_r |]. rewrite Hs. by rewrite orb_false_r.
  - apply Forall_cons in Hd as [Hd0 Hd]. pose proof (Hmono ds (v * 10 + d) Hd ltac:(lia)). cbn [digits].
    assert (is_digit (hex_digit d) = true /\ hex_digit d - 48 = d) as [-> ->] by (unfold hex_digit, is_digit; destruct (Z.ltb_spec d 10); lia).
    rewrite s32_id, IH by (done || lia). by rewrite orb_true_r.
Qed.

(** The numeral of [a] is read, with spaces and a sign in front. *)
Lemma parse_digits a s : 0 <= a < 2147483648 -> no_digit s -> digits 0 false (numeral 10 a ++ s) = (a, true).
Proof.
  intros Ha Hs. destruct (numeral_digits a) as (ds & -> & Hd & Hv & Hne); [lia |]. unfold value in Hv. rewrite digits_value by (done || lia). rewrite Hv.
  by rewrite bool_decide_eq_false_2.
Qed.
Lemma numeral_head a : 0 <= a < 2147483648 -> exists c t, numeral 10 a = c :: t /\ 48 <= c < 58 /\ Forall (fun c => is_digit c = true) (numeral 10 a).
Proof.
  intros Ha. destruct (numeral_digits a) as (ds & -> & Hd & _ & Hne); [lia |]. destruct ds as [| d ds]; [done |]. exists (hex_digit d), (map hex_digit ds).
  split; [done |]. split; [apply Forall_cons in Hd as [Hd _]; unfold hex_digit; destruct (Z.ltb_spec d 10); lia | by apply digit_chars].
Qed.
Lemma parse_plain k a s : 0 <= a < 2147483648 -> no_digit s -> parse_number (replicate k 32 ++ numeral 10 a ++ s) = Some a.
Proof.
  intros Ha Hs. unfold parse_number. rewrite spaces_skipped. pose proof (parse_digits a s Ha Hs) as E. destruct (numeral_head a Ha) as (c & t & Ec & Hc & _). rewrite Ec in *.
  cbn [app] in *. rewrite no_space by lia. destruct (Z.eqb_spec c 45), (Z.eqb_spec c 43); try lia. by rewrite E.
Qed.
Lemma parse_signed k b s : -2147483648 < b < 2147483648 -> no_digit s -> parse_number (replicate k 32 ++ signed_numeral b ++ s) = Some b.
Proof.
  intros Hb Hs. unfold signed_numeral. destruct (Z.ltb_spec b 0); [| apply parse_plain; [lia | done]]. unfold parse_number. rewrite spaces_skipped. cbn [app]. rewrite no_space by lia.
  change (45 =? 45) with true. cbv iota. rewrite parse_digits by (done || lia). rewrite s32_id by lia. f_equal. lia.
Qed.

Lemma no_command c t : c <> 113 -> c <> 101 -> starts_with (c :: t) (txt "quit") || starts_with (c :: t) (txt "exit") = false.
Proof. intros H1 H2. change (txt "quit") with (113 :: txt "uit"). change (txt "exit") with (101 :: txt "xit"). cbn [starts_with]. destruct (Z.eqb_spec c 113), (Z.eqb_spec c 101); done. Qed.

(** Also: a line with a number without a sign, an operator and a number with or without one, and any
    spaces around them, is evaluated to the operator's result in int, whatever follows. *)
Theorem calculator_spec (i j k : nat) (a b op : Z) (rest : list Z) (Ha : 0 <= a < 2147483648) (Hb : -2147483648 < b < 2147483648)
    (Hop : is_digit op = false /\ op <> 32) (Hr : no_digit rest) :
  evaluate (replicate i 32 ++ numeral 10 a ++ replicate j 32 ++ op :: replicate k 32 ++ signed_numeral b ++ rest) = apply op a b.
Proof.
  unfold evaluate. rewrite spaces_skipped. set (r := replicate j 32 ++ op :: replicate k 32 ++ signed_numeral b ++ rest).
  assert (no_digit r) as Hnr by (unfold r; destruct j; [apply Hop | reflexivity]). destruct (numeral_head a Ha) as (c & t & Ec & Hc & Hd).
  assert (skip_spaces (numeral 10 a ++ r) = numeral 10 a ++ r) as -> by (rewrite Ec; apply no_space; lia).
  assert (starts_with (numeral 10 a ++ r) (txt "quit") || starts_with (numeral 10 a ++ r) (txt "exit") = false) as -> by (rewrite Ec; apply no_command; lia).
  pose proof (parse_plain 0 a r Ha Hnr) as Ep. cbn [replicate app] in Ep. rewrite Ep, digits_skipped by done. unfold r. rewrite spaces_skipped, no_space by apply Hop.
  by rewrite parse_signed.
Qed.

(** Also: a first number with a minus sign is never used: the operator is its sign and the second
    number the number itself, whatever is behind it. *)
Theorem calculator_negative (a : Z) (rest : list Z) (Ha : 0 <= a < 1073741824) (Hr : no_digit rest) :
  evaluate (45 :: numeral 10 a ++ rest) = Result (-2 * a).
Proof.
  unfold evaluate. rewrite no_space by lia. rewrite no_command by lia.
  assert (parse_number (45 :: numeral 10 a ++ rest) = Some (- a)) as ->.
  { unfold parse_number. rewrite no_space by lia. change (45 =? 45) with true. cbv iota. rewrite parse_digits by (done || lia). by rewrite s32_id by lia. }
  change (skip_digits (45 :: numeral 10 a ++ rest)) with (45 :: numeral 10 a ++ rest). rewrite no_space by lia.
  pose proof (parse_plain 0 a rest ltac:(lia) Hr) as E. cbn [replicate app] in E. rewrite E. unfold apply. cbn [Z.eqb Pos.eqb]. rewrite s32_id by lia. f_equal. lia.
Qed.

Lemma calculator_spec_witness : evaluate (txt " 12 / -5x") = Result (-2).
Proof.
  assert (apply 47 12 (-5) = Result (-2)) as <- by reflexivity. apply (calculator_spec 1 1 1 12 (-5) 47 (txt "x")); [lia | lia | by split | done].
Defined.
Lemma calculator_negative_witness : evaluate (txt "-5 + 3") = Result (-10).
Proof. pose proof (calculator_negative 5 (txt " + 3") ltac:(lia) eq_refl) as E. exact E. Defined.
End calculator.

(** ** Programs that print *)

Lemma write_text_prints {S} (h : call -> S -> reply * S) keys shown {HC : console h keys shown} s n : 0 <= n <= zlen s + 1 ->
  prints h keys shown (write_text s n) (take (Z.to_nat n) (s ++ [0])) (fun _ => True).
Proof. intros Hn. apply (prints_write h keys shown (s ++ [0]) n). rewrite zlen_app. change (zlen [0]) with 1. lia. Qed.

Section spin.
Import Spin.
Context {S : Type} (h : call -> S -> reply * S) (keys shown : S -> list Z) {HC : console h keys shown}.

(** The turns between two rounds do nothing. *)
Lemma idle_turns k : forall i r s s', 0 <= i -> i + Z.of_nat k < 18446744073709551616 -> (forall j, i < j <= i + Z.of_nat k -> j mod 50000000 <> 0) ->
  exits h (ITree.iter turn (i + Z.of_nat k, r)) s s' -> exits h (ITree.iter turn (i, r)) s s'.
Proof using.
  induction k as [| k IH]; intros i r s s' Hi Hk Hm E; [by replace (i + Z.of_nat 0) with i in E by lia |].
  eapply exits_step; [| apply (IH (i + 1) r s s'); [lia | lia | intros j Hj; apply Hm; lia |]; by replace (i + 1 + Z.of_nat k) with (i + Z.of_nat (Datatypes.S k)) by lia].
  unfold turn. assert (u64 (i + 1) = i + 1) as -> by (unfold u64; apply Z.mod_small; lia). cbv zeta. specialize (Hm (i + 1) ltac:(lia)). destruct (Z.eqb_spec ((i + 1) mod 50000000) 0); [done |]. apply evals_ret.
Qed.

Definition round_text (r : Z) : list Z := txt "spin: round " ++ numeral 10 r ++ [10].
Lemma write_num_prints r : 1 <= r <= 5 -> prints h keys shown (write_num r) (numeral 10 r) (fun _ => True).
Proof using HC.
  intros Hr. assert (forall buf p n, n <= zlen (drop (Z.to_nat p) buf) -> prints h keys shown (sys_write STDOUT_FILENO (drop (Z.to_nat p) buf) n) (take (Z.to_nat n) (drop (Z.to_nat p) buf)) (fun _ => True)) as Hw by (intros; by apply prints_write).
  unfold write_num, write_number. assert (r = 1 \/ r = 2 \/ r = 3 \/ r = 4 \/ r = 5) as Hcases by lia.
  destruct Hcases as [-> | [-> | [-> | [-> | ->]]]]; (eapply prints_known; [vm_compute; reflexivity |]); cbv beta iota; refine (Hw _ 22 1 _); vm_compute; discriminate.
Qed.
Definition said {R} (r : Z) (t : prog R) : prog R := _ ← write_text (txt "spin: round ") 12; _ ← write_num r; _ ← write_text [10] 1; t.
Lemma round_said r s : 1 <= r <= 5 -> exists s1, shown s1 = shown s ++ round_text r /\
  forall R (t : prog R), (forall s' x, evals h t s1 s' x -> evals h (said r t) s s' x) /\ (forall s', exits h t s1 s' -> exits h (said r t) s s').
Proof using HC.
  intros Hr. destruct (write_text_prints h keys shown (txt "spin: round ") 12 ltac:(change (zlen (txt "spin: round ")) with 12; lia) s) as (s1 & x1 & E1 & _ & _ & S1).
  destruct (write_num_prints r Hr s1) as (s2 & x2 & E2 & _ & _ & S2). destruct (write_text_prints h keys shown [10] 1 ltac:(change (zlen [10]) with 1; lia) s2) as (s3 & x3 & E3 & _ & _ & S3).
  exists s3. split; [rewrite S3, S2, S1; unfold round_text; rewrite <- !app_assoc; done |].
  intros R t. split; intros; unfold said; [do 3 (eapply evals_bind; [eassumption |]); done | do 3 (eapply exits_bind; [eassumption |]); done].
Qed.

(** The turn at the end of a round, and the last one. *)
Lemma round_turn r s : 1 <= r <= 4 -> exists s1, evals h (turn (50000000 * r - 1, r - 1)) s s1 (inl (50000000 * r, r)) /\ shown s1 = shown s ++ round_text r.
Proof using HC.
  intros Hr. destruct (round_said r s ltac:(lia)) as (s1 & Es & Hs). exists s1. split; [| done]. unfold turn.
  assert (u64 (50000000 * r - 1 + 1) = 50000000 * r /\ u64 (r - 1 + 1) = r) as [-> ->] by (unfold u64; rewrite !Z.mod_small by lia; lia). cbv zeta.
  destruct (Z.eqb_spec (50000000 * r mod 50000000) 0); [| lia]. destruct (Z.leb_spec 5 r); [lia |]. apply (Hs (Z * Z + Z)%type (mret (inl (50000000 * r, r)))). apply evals_ret.
Qed.
Lemma last_turn s : exists s1, exits h (turn (249999999, 4)) s (snd (h (CExit 0) s1)) /\ shown s1 = shown s ++ round_text 5 ++ ln "spin: saindo".
Proof using HC.
  destruct (round_said 5 s ltac:(lia)) as (s1 & Es & Hs).
  destruct (write_text_prints h keys shown (ln "spin: saindo") 13 ltac:(change (zlen (ln "spin: saindo")) with 13; lia) s1) as (s2 & x & E & _ & _ & S2).
  exists s2. split; [| rewrite S2, Es, <- app_assoc; done]. unfold turn.
  change (u64 (249999999 + 1)) with 250000000. change (u64 (4 + 1)) with 5. change (250000000 mod 50000000 =? 0) with true. cbv zeta iota. change (5 <=? 5) with true. cbv iota.
  apply (Hs (Z * Z + Z)%type (_ ← write_text (ln "spin: saindo") 13; sys_exit 0)). eapply exits_bind; [exact E | apply exits_code].
Qed.

(** [n] rounds and the last one, from the start of a round. *)
Lemma rounds_run n : forall r s, r + Z.of_nat n = 4 -> 0 <= r ->
  exists s1, exits h (ITree.iter turn (50000000 * r, r)) s (snd (h (CExit 0) s1)) /\
    shown s1 = shown s ++ concat (map round_text (seqZ (r + 1) (5 - r))) ++ ln "spin: saindo".
Proof using HC.
  induction n as [| n IH]; intros r s Hn Hr.
  - assert (r = 4) as -> by lia. destruct (last_turn s) as (s1 & E & Es). exists s1. split; [| exact Es]. apply (idle_turns (Z.to_nat 49999999)); [lia | lia | intros j Hj; lia |].
    rewrite Z2Nat.id by lia. by apply exits_last.
  - destruct (round_turn (r + 1) s ltac:(lia)) as (s1 & E & Es). destruct (IH (r + 1) s1) as (s2 & E2 & Es2); [lia | lia |]. exists s2. split.
    + apply (idle_turns (Z.to_nat 49999999)); [lia | lia | intros j Hj; lia |]. rewrite Z2Nat.id by lia. replace (r + 1 - 1) with r in E by lia.
      replace (50000000 * r + 49999999) with (50000000 * (r + 1) - 1) by lia. eapply exits_step; [exact E | exact E2].
    + rewrite Es2, Es. rewrite (seqZ_cons (r + 1)) by lia. cbn [map concat]. rewrite <- !app_assoc. replace (Z.pred (5 - r)) with (5 - (r + 1)) by lia. done.
Qed.

(** Also: on every kernel with a screen the program ends by itself after 250 million turns: it shows
    its greeting, with the terminator of the text, five rounds and its last words. *)
Theorem spin_ends (s : S) :
  exists s1, exits h main s (snd (h (CExit 0) s1)) /\
    shown s1 = shown s ++ (ln "spin: loop infinito iniciado (sem yield)" ++ [0]) ++ concat (map round_text [1; 2; 3; 4; 5]) ++ ln "spin: saindo".
Proof using HC.
  set (g := ln "spin: loop infinito iniciado (sem yield)"). assert (zlen g = 41) as Hg by reflexivity. assert (take (Z.to_nat 42) (g ++ [0]) = g ++ [0]) as Et by reflexivity.
  destruct (write_text_prints h keys shown g 42 ltac:(lia) s) as (s1 & x & E & _ & _ & Es). rewrite Et in Es. destruct (rounds_run 4 0 s1) as (s2 & E2 & Es2); [done | done |].
  exists s2. split; [eapply exits_bind; [exact E | exact E2] |]. rewrite Es2, Es, <- !app_assoc. reflexivity.
Qed.
End spin.
Lemma spin_ends_witness : exists s1, exits tty_kernel Spin.main (Tty [] []) (snd (tty_kernel (CExit 0) s1)) /\
  t_shown s1 = [] ++ (ln "spin: loop infinito iniciado (sem yield)" ++ [0]) ++ concat (map round_text [1; 2; 3; 4; 5]) ++ ln "spin: saindo".
Proof. exact (spin_ends tty_kernel t_keys t_shown (Tty [] [])). Defined.

(** ** The monitor *)

Section sysmon.
Import Sysmon.
Context {S : Type} (h : call -> S -> reply * S) (keys shown : S -> list Z) {HC : console h keys shown}.

Lemma bar_prints n : forall i filled, 0 <= i -> 
  prints h keys shown (bar n i filled) (replicate (Z.to_nat (Z.min (Z.of_nat n) (Z.max 0 (filled - i)))) 35 ++ replicate (Z.to_nat (Z.of_nat n - Z.min (Z.of_nat n) (Z.max 0 (filled - i)))) 45) (fun _ => True).
Proof using HC.
  induction n as [| n IH]; intros i filled Hi; cbn [bar].
  - change (Z.of_nat 0) with 0. replace (Z.min 0 (Z.max 0 (filled - i))) with 0 by lia. by apply prints_ret.
  - set (k := Z.min _ _). specialize (IH (i + 1) filled ltac:(lia)). destruct (Z.ltb_spec i filled).
    + replace (Z.to_nat k) with (Datatypes.S (Z.to_nat (Z.min (Z.of_nat n) (Z.max 0 (filled - (i + 1)))))) by lia.
      replace (Z.of_nat (Datatypes.S n) - k) with (Z.of_nat n - Z.min (Z.of_nat n) (Z.max 0 (filled - (i + 1)))) by lia.
      cbn [replicate app]. refine (prints_then _ _ _ _ _ [35] _ _ (prints_putc _ _ _ 35) (fun _ => IH)).
    + replace (Z.to_nat k) with 0%nat by lia. replace (Z.to_nat (Z.of_nat (Datatypes.S n) - k)) with (Datatypes.S (Z.to_nat (Z.of_nat n))) by lia.
      replace (Z.to_nat (Z.min (Z.of_nat n) (Z.max 0 (filled - (i + 1))))) with 0%nat in IH by lia. replace (Z.to_nat (Z.of_nat n - _)) with (Z.to_nat (Z.of_nat n)) in IH by lia.
      cbn [replicate app] in *. refine (prints_then _ _ _ _ _ [45] _ _ (prints_putc _ _ _ 45) (fun _ => IH)).
Qed.

(** Also: the bar of a share in percent has exactly its width, and that share of it, rounded down, is
    filled. *)
Theorem print_bar_spec (percent width : Z) (s : S) (Hp : 0 <= percent <= 100) (Hw : 0 <= width < 1000) :
  exists s' x, evals h (print_bar percent width) s s' x /\ keys s' = keys s /\
    shown s' = shown s ++ [91] ++ replicate (Z.to_nat (percent * width / 100)) 35 ++ replicate (Z.to_nat (width - percent * width / 100)) 45 ++ [93].
Proof using HC.
  assert (0 <= percent * width / 100 <= width) as Hf by (split; [apply Z.div_pos; nia | apply Z.div_le_upper_bound; nia]).
  assert (s32 (percent * width) = percent * width) as Es by (apply s32_id; nia). unfold print_bar. rewrite Es, Z.quot_div_nonneg by nia.
  set (f := percent * width / 100) in *. destruct (Z.ltb_spec width f); [lia |].
  pose proof (bar_prints (Z.to_nat width) 0 f ltac:(lia)) as Hb. rewrite Z2Nat.id, Z.sub_0_r in Hb by lia. replace (Z.min width (Z.max 0 f)) with f in Hb by lia.
  destruct (prints_then h keys shown (putc 91) (fun _ => _ ← bar (Z.to_nat width) 0 f; _ ← putc 93; mret tt) [91] _ (fun _ => True) (prints_putc h keys shown 91)
    (fun _ => prints_then h keys shown _ _ _ _ _ Hb (fun _ => prints_then h keys shown _ _ _ _ _ (prints_putc h keys shown 93) (fun _ => prints_ret h keys shown tt _ I))) s) as (s' & x & E & _ & Ek & Es').
  exists s', x. split; [exact E |]. split; [exact Ek |]. rewrite Es'. rewrite app_nil_r, <- !app_assoc. done.
Qed.
End sysmon.
Lemma print_bar_spec_witness : exists s', evals tty_kernel (Sysmon.print_bar 50 6) (Tty [] []) s' tt /\ t_shown s' = txt "[###---]".
Proof.
  destruct (print_bar_spec tty_kernel t_keys t_shown 50 6 (Tty [] []) ltac:(lia) ltac:(lia)) as (s' & [] & E & _ & Es). exists s'. split; [exact E | exact Es].
Defined.
