(* ===== verification/Cpu.v ===== *)
(** * Tables of the processor (src/kernel/gdt.c, idt.c)

    The segment descriptors, the task state segment and the gates, as the code packs
    them. The addresses the linker gives to the tables, to the kernel's stack and to the
    entry code of isr.asm are arguments. What the processor does with a descriptor, a
    gate or an interrupt instruction is written down on the other side, as the reading of
    the fields, so that the theorems speak about what the tables mean to it. *)

From S2P Require Import Prelude.

(** ** Segments and the task state (gdt.c) *)

Record tss := Tss {
  reserved0 : Z; rsp0 : Z; rsp1 : Z; rsp2 : Z; reserved1 : Z;
  ist1 : Z; ist2 : Z; ist3 : Z; ist4 : Z; ist5 : Z; ist6 : Z; ist7 : Z;
  reserved2 : Z; reserved3 : Z; iomap_base : Z }.
Definition sizeof_tss : Z := 4 + 3 * 8 + 8 + 7 * 8 + 8 + 2 + 2.
Definition tss_zero : tss := Tss 0 0 0 0 0 0 0 0 0 0 0 0 0 0 0.
Definition set_rsp0 v (t : tss) : tss := Tss (reserved0 t) v (rsp1 t) (rsp2 t) (reserved1 t) (ist1 t) (ist2 t) (ist3 t) (ist4 t) (ist5 t) (ist6 t) (ist7 t) (reserved2 t) (reserved3 t) (iomap_base t).
Definition set_iomap_base v (t : tss) : tss := Tss (reserved0 t) (rsp0 t) (rsp1 t) (rsp2 t) (reserved1 t) (ist1 t) (ist2 t) (ist3 t) (ist4 t) (ist5 t) (ist6 t) (ist7 t) (reserved2 t) (reserved3 t) v.

(** What lgdt and lidt read. *)
Record table_ptr := TablePtr { limit : Z; base : Z }.

Definition KERNEL_STACK : Z := 16384.

Definition gdt_set_tss (idx base limit : Z) (g_gdt : list Z) : option (list Z) :=
  let low := 0 in
  let low := Z.lor low (Z.land limit 0xFFFF) in
  let low := Z.lor low (u64 (Z.shiftl (Z.land base 0xFFFFFF) 16)) in
  let low := Z.lor low (u64 (Z.shiftl 0x89 40)) in
  let low := Z.lor low (u64 (Z.shiftl (Z.land (Z.shiftr limit 16) 0xF) 48)) in
  let low := Z.lor low (u64 (Z.shiftl (Z.land (Z.shiftr base 24) 0xFF) 56)) in
  g_gdt ← put g_gdt idx low;
  put g_gdt (idx + 1) (Z.land (Z.shiftr base 32) 0xFFFFFFFF).

(** The table, the task state, and what the processor is given: the table and the
    selector of the task. *)
Definition gdt_init (gdt_addr tss_addr stack_addr : Z) (g_gdt : list Z) (g_tss : tss) : option (list Z * tss * table_ptr * Z) :=
  g_gdt ← put g_gdt 0 0x0000000000000000;
  g_gdt ← put g_gdt 1 0x00AF9A000000FFFF;
  g_gdt ← put g_gdt 2 0x00AF92000000FFFF;
  g_gdt ← put g_gdt 3 0x00AFFA000000FFFF;
  g_gdt ← put g_gdt 4 0x00AFF2000000FFFF;
  let g_tss := set_rsp0 (u64 (stack_addr + KERNEL_STACK)) g_tss in
  let g_tss := set_iomap_base (u16 sizeof_tss) g_tss in
  g_gdt ← gdt_set_tss 5 tss_addr (sizeof_tss - 1) g_gdt;
  Some (g_gdt, g_tss, TablePtr (u16 (8 * zlen g_gdt - 1)) gdt_addr, 0x28).

(** ** Gates (idt.c) *)

Record idt_entry := IdtEntry { offset_low : Z; selector : Z; ist : Z; type_attr : Z; offset_mid : Z; offset_high : Z; zero : Z }.
Definition sizeof_idt_entry : Z := 2 + 2 + 1 + 1 + 2 + 4 + 4.
Definition no_gate : idt_entry := IdtEntry 0 0 0 0 0 0 0.

Definition idt_set (vec handler type_attr : Z) (g_idt : list idt_entry) : option (list idt_entry) :=
  let addr := handler in
  if bool_decide (0 <= vec < zlen g_idt) then
    Some (zset g_idt vec (IdtEntry (u16 (Z.land addr 0xFFFF)) 0x08 0 (u8 type_attr)
      (u16 (Z.land (Z.shiftr addr 16) 0xFFFF)) (u32 (Z.land (Z.shiftr addr 32) 0xFFFFFFFF)) 0))
  else None.

(** [for (int i = 0; i < n; i++) idt_set(first + i, stubs[i], 0x8E)] *)
Definition idt_set_all (n : nat) (first : Z) (stubs : list Z) (g_idt : list idt_entry) : option (list idt_entry) :=
  loopM n 0 (fun i g_idt => h ← zlook stubs i; idt_set (first + i) h 0x8E g_idt) g_idt.

Definition idt_init (isr_stub_table irq_stub_table : list Z) (int80_stub idt_addr : Z) (g_idt : list idt_entry) : option (list idt_entry * table_ptr) :=
  g_idt ← idt_set_all 32 0 isr_stub_table g_idt;
  g_idt ← idt_set_all 16 32 irq_stub_table g_idt;
  g_idt ← idt_set 128 int80_stub 0xEE g_idt;
  Some (g_idt, TablePtr (u16 (sizeof_idt_entry * zlen g_idt - 1)) idt_addr).

(** ** What the processor reads *)

(** The [n] bits of [v] from bit [off] on. *)
Definition field (v off n : Z) : Z := v / 2 ^ off mod 2 ^ n.

Record segment := Segment { sg_base : Z; sg_limit : Z; sg_type : Z; sg_system : bool; sg_dpl : Z; sg_present : bool; sg_long : bool }.
Definition read_segment (d : Z) : segment :=
  Segment (field d 16 24 + 2 ^ 24 * field d 56 8) (field d 0 16 + 2 ^ 16 * field d 48 4) (field d 40 4)
    (negb (Z.testbit d 44)) (field d 45 2) (Z.testbit d 47) (Z.testbit d 53).
(** A selector names a descriptor of eight bytes; the one of a task goes on in the next. *)
Definition segment_of (g : list Z) (sel : Z) : option segment := d ← zlook g (sel / 8); Some (read_segment d).
Definition task_of (g : list Z) (sel : Z) : option segment :=
  d ← zlook g (sel / 8); e ← zlook g (sel / 8 + 1);
  let s := read_segment d in
  Some (Segment (sg_base s + 2 ^ 32 * field e 0 32) (sg_limit s) (sg_type s) (sg_system s) (sg_dpl s) (sg_present s) (sg_long s)).
(** Kinds of segments: code that can be read, data that can be written, and a 64-bit task
    that is not running. *)
Definition code64 (dpl : Z) : segment := Segment 0 0xFFFFF 10 false dpl true true.
Definition data (dpl : Z) : segment := Segment 0 0xFFFFF 2 false dpl true true.
Definition task64 (base limit : Z) : segment := Segment base limit 9 true 0 true false.

(** A gate leads to an address in a code segment; interrupts are off behind one of type 14. *)
Record gate := Gate { gt_target : Z; gt_selector : Z; gt_type : Z; gt_dpl : Z }.
Definition read_gate (e : idt_entry) : option gate :=
  if Z.testbit (type_attr e) 7 then
    Some (Gate (offset_low e + 2 ^ 16 * offset_mid e + 2 ^ 32 * offset_high e) (selector e) (field (type_attr e) 0 4) (field (type_attr e) 5 2))
  else None.
Definition gate_of (g : list idt_entry) (vec : Z) : option gate := e ← zlook g vec; read_gate e.
(** Where [int vec] leads from privilege level [cpl]: a fault if there is no gate or
    its level is more privileged. *)
Definition int_target (g : list idt_entry) (cpl vec : Z) : option Z :=
  t ← gate_of g vec; if cpl <=? gt_dpl t then Some (gt_target t) else None.

(** ** The task descriptor *)

Lemma land_low x n : 0 <= n -> Z.land x (2 ^ n - 1) = x mod 2 ^ n.
Proof. intros Hn. rewrite <- Z.land_ones by done. by rewrite Z.ones_equiv. Qed.

(** The word that [gdt_set_tss] puts together, as a sum. *)
Lemma tss_low base limit : 0 <= base < 2 ^ 64 -> 0 <= limit < 2 ^ 20 ->
  Z.lor (Z.lor (Z.lor (Z.lor (Z.lor 0 (Z.land limit 0xFFFF)) (u64 (Z.shiftl (Z.land base 0xFFFFFF) 16))) (u64 (Z.shiftl 0x89 40)))
    (u64 (Z.shiftl (Z.land (Z.shiftr limit 16) 0xF) 48))) (u64 (Z.shiftl (Z.land (Z.shiftr base 24) 0xFF) 56)) =
  limit mod 65536 + base mod 16777216 * 65536 + 0x89 * 2 ^ 40 + limit / 65536 * 2 ^ 48 + base / 16777216 mod 256 * 2 ^ 56.
Proof.
  intros Hb Hl. change 0xFFFF with (2 ^ 16 - 1). change 0xFFFFFF with (2 ^ 24 - 1). change 0xFF with (2 ^ 8 - 1). change 0xF with (2 ^ 4 - 1).
  rewrite !land_low, !Z.shiftr_div_pow2, !Z.shiftl_mul_pow2, Z.lor_0_l by lia. rewrite !u64_id by lia.
  rewrite (Z.lor_comm (limit mod _)), (lor_add_disjoint _ (limit mod 2 ^ 16) 16) by lia.
  rewrite (Z.lor_comm (_ + _)), (lor_add_disjoint (137 * 2 ^ 40) _ 40) by lia.
  rewrite (Z.lor_comm (137 * 2 ^ 40 + _)), (lor_add_disjoint (_ * 2 ^ 48) _ 48) by lia.
  rewrite (Z.lor_comm (_ * 2 ^ 48 + _)), (lor_add_disjoint (_ * 2 ^ 56) _ 56) by lia. lia.
Qed.

Lemma testbit_field v n : 0 <= n -> Z.testbit v n = (field v n 1 =? 1).
Proof.
  intros Hn. unfold field. change (2 ^ 1) with 2. destruct (Z.testbit v n) eqn:E; symmetry.
  - apply Z.eqb_eq. by apply Z.testbit_true.
  - apply Z.eqb_neq. rewrite (proj1 (Z.testbit_false v n Hn) E). lia.
Qed.

Lemma read_task base limit : 0 <= base < 2 ^ 64 -> 0 <= limit < 2 ^ 20 ->
  read_segment (limit mod 65536 + base mod 16777216 * 65536 + 0x89 * 2 ^ 40 + limit / 65536 * 2 ^ 48 + base / 16777216 mod 256 * 2 ^ 56) =
  task64 (base mod 2 ^ 32) limit.
Proof.
  intros Hb Hl. unfold read_segment. rewrite !testbit_field by lia. unfold task64.
  set (d := _ + _ + _ + _ + _).
  assert (field d 16 24 = base mod 16777216) as -> by (unfold field, d; lia).
  assert (field d 56 8 = base / 16777216 mod 256) as -> by (unfold field, d; lia).
  assert (field d 0 16 = limit mod 65536) as -> by (unfold field, d; lia).
  assert (field d 48 4 = limit / 65536) as -> by (unfold field, d; lia).
  assert (field d 40 4 = 9) as -> by (unfold field, d; lia).
  assert (field d 44 1 = 0) as -> by (unfold field, d; lia).
  assert (field d 45 2 = 0) as -> by (unfold field, d; lia).
  assert (field d 47 1 = 1) as -> by (unfold field, d; lia).
  assert (field d 53 1 = 0) as -> by (unfold field, d; lia).
  f_equal; lia.
Qed.

Lemma set_tss_task idx base limit g : 0 <= base < 2 ^ 64 -> 0 <= limit < 2 ^ 20 -> 0 <= idx -> idx + 1 < zlen g ->
  exists g', gdt_set_tss idx base limit g = Some g' /\ zlen g' = zlen g /\ task_of g' (8 * idx) = Some (task64 base limit) /\
    (forall i, i <> idx -> i <> idx + 1 -> zlook g' i = zlook g i).
Proof.
  intros Hb Hl Hi Hg. unfold gdt_set_tss. rewrite tss_low by done. rewrite put_in by lia. cbn [mbind option_bind].
  rewrite put_in by (rewrite zset_zlen; lia). eexists. split; [done |]. split; [by rewrite !zset_zlen |]. split.
  - unfold task_of. replace (8 * idx / 8) with idx by lia.
    rewrite (zlook_zset_ne _ (idx + 1) idx), (zlook_zset_eq _ idx) by lia. cbn [mbind option_bind]. rewrite (zlook_zset_eq _ (idx + 1)) by (rewrite zset_zlen; lia). cbn [mbind option_bind].
    rewrite read_task by done. cbn [sg_base sg_limit sg_type sg_system sg_dpl sg_present sg_long task64]. unfold task64. do 2 f_equal.
    unfold field. change 0xFFFFFFFF with (2 ^ 32 - 1). rewrite land_low, Z.shiftr_div_pow2 by lia. lia.
  - intros i H1 H2. rewrite !zlook_zset_ne by lia. done.
Qed.

(** Also: the descriptor of the task is read back by the processor: for each 64-bit address and
    each limit of 20 bits, [gdt_set_tss] inside the table leaves a 64-bit task segment
    with that address and limit, present and not running, and the other descriptors as
    they were; past the end of the table it fails. *)
Theorem gdt_set_tss_roundtrip (idx base limit : Z) (g : list Z) (Hb : 0 <= base < 2 ^ 64) (Hl : 0 <= limit < 2 ^ 20) :
  (0 <= idx -> idx + 1 < zlen g ->
    exists g', gdt_set_tss idx base limit g = Some g' /\ zlen g' = zlen g /\ task_of g' (8 * idx) = Some (task64 base limit) /\
      forall i, i <> idx -> i <> idx + 1 -> zlook g' i = zlook g i) /\
  (0 <= idx -> zlen g <= idx + 1 -> gdt_set_tss idx base limit g = None).
Proof.
  split; [by apply set_tss_task |]. intros Hi Hg. unfold gdt_set_tss.
  set (low := Z.lor _ _). set (high := Z.land _ _). clearbody low high.
  destruct (put g idx low) as [g1 |] eqn:E; [| done]. cbn [mbind option_bind]. unfold put in *.
  destruct ((0 <=? idx) && (idx <? zlen g)) eqn:E'; [| done].
  injection E as <-. rewrite zset_zlen. destruct (Z.ltb_spec (idx + 1) (zlen g)); [lia |]. by rewrite andb_false_r.
Qed.

(** ** The segments *)

Lemma gdt_init_correct (gdt_addr tss_addr stack_addr : Z) (g : list Z) (t : tss) (Hg : zlen g = 7) (Ht : 0 <= tss_addr < 2 ^ 64)
    (Hs : 0 <= stack_addr < 2 ^ 64 - KERNEL_STACK) :
  exists g' t', gdt_init gdt_addr tss_addr stack_addr g t = Some (g', t', TablePtr 55 gdt_addr, 0x28) /\
    segment_of g' 0x08 = Some (code64 0) /\ segment_of g' 0x10 = Some (data 0) /\
    segment_of g' 0x1B = Some (code64 3) /\ segment_of g' 0x23 = Some (data 3) /\
    (exists s, task_of g' 0x28 = Some s /\ s = task64 tss_addr (sizeof_tss - 1) /\ sg_limit s < iomap_base t') /\
    rsp0 t' = stack_addr + KERNEL_STACK /\ zlook g' 0 = Some 0.
Proof.
  unfold gdt_init. unfold KERNEL_STACK in *. rewrite put_in by lia. cbn [mbind option_bind]. do 4 (rewrite put_in by (rewrite ?zset_zlen; lia); cbn [mbind option_bind]).
  set (g5 := zset _ 4 _). assert (zlen g5 = 7) as E5 by (unfold g5; by rewrite !zset_zlen).
  destruct (set_tss_task 5 tss_addr (sizeof_tss - 1) g5) as (g' & E & El & Et & Eo); [done | done | lia | lia |]. rewrite E. cbn [mbind option_bind].
  rewrite El, E5. change (u16 (8 * 7 - 1)) with 55. exists g'. eexists. split; [done |].
  assert (forall sel i d, sel / 8 = i -> 0 <= i < 5 -> zlook g5 i = Some d -> segment_of g' sel = Some (read_segment d)) as Hseg.
  { intros sel i d Ei Hi Ed. unfold segment_of. rewrite Ei, Eo, Ed by lia. done. }
  assert (forall i, 0 <= i < 5 -> zlook g5 i = [Some 0; Some 0x00AF9A000000FFFF; Some 0x00AF92000000FFFF; Some 0x00AFFA000000FFFF; Some 0x00AFF2000000FFFF] !!! Z.to_nat i) as Hlook.
  { intros i Hi. unfold g5. rewrite !zlook_zset by (rewrite ?zset_zlen; lia). by assert (i = 0 \/ i = 1 \/ i = 2 \/ i = 3 \/ i = 4) as [-> | [-> | [-> | [-> | ->]]]] by lia. }
  split; [by rewrite (Hseg 0x08 1 0x00AF9A000000FFFF) by (done || by rewrite Hlook) |].
  split; [by rewrite (Hseg 0x10 2 0x00AF92000000FFFF) by (done || by rewrite Hlook) |].
  split; [by rewrite (Hseg 0x1B 3 0x00AFFA000000FFFF) by (done || by rewrite Hlook) |].
  split; [by rewrite (Hseg 0x23 4 0x00AFF2000000FFFF) by (done || by rewrite Hlook) |].
  split; [exists (task64 tss_addr (sizeof_tss - 1)); done |]. split; [cbn [set_iomap_base set_rsp0 rsp0]; rewrite u64_id; lia |]. by rewrite Eo, Hlook by lia.
Qed.

(** Also: the descriptors mean to the processor what the selectors are used for: kernel code and
    data at level 0, the code and data of programs (selectors 0x1B and 0x23) at level 3,
    all of it 64-bit and flat, and the task at 0x28; entering the kernel puts the stack
    pointer at the end of the kernel's stack, and since the permission bitmap of the ports
    lies behind the task's limit, no program can use a port. *)
Theorem gdt_init_spec (gdt_addr tss_addr stack_addr : Z) (g : list Z) (t : tss) (Hg : zlen g = 7) (Ht : 0 <= tss_addr < 2 ^ 64)
    (Hs : 0 <= stack_addr < 2 ^ 64 - KERNEL_STACK) :
  exists g' t', gdt_init gdt_addr tss_addr stack_addr g t = Some (g', t', TablePtr 55 gdt_addr, 0x28) /\
    segment_of g' 0x08 = Some (code64 0) /\ segment_of g' 0x10 = Some (data 0) /\
    segment_of g' 0x1B = Some (code64 3) /\ segment_of g' 0x23 = Some (data 3) /\
    (exists s, task_of g' 0x28 = Some s /\ s = task64 tss_addr (sizeof_tss - 1) /\ sg_limit s < iomap_base t') /\
    rsp0 t' = stack_addr + KERNEL_STACK /\ zlook g' 0 = Some 0.
Proof. exact (gdt_init_correct gdt_addr tss_addr stack_addr g t Hg Ht Hs). Qed.

(** ** The gates *)

Definition packed (addr type_attr : Z) : idt_entry :=
  IdtEntry (u16 (Z.land addr 0xFFFF)) 0x08 0 (u8 type_attr) (u16 (Z.land (Z.shiftr addr 16) 0xFFFF)) (u32 (Z.land (Z.shiftr addr 32) 0xFFFFFFFF)) 0.

Lemma read_packed addr ta : 0 <= addr < 2 ^ 64 -> 0 <= ta < 256 -> Z.testbit ta 7 = true ->
  read_gate (packed addr ta) = Some (Gate addr 0x08 (field ta 0 4) (field ta 5 2)).
Proof.
  intros Ha Ht Hp. unfold read_gate, packed. cbn [offset_low selector type_attr offset_mid offset_high]. rewrite !(u8_id ta), Hp by done. do 2 f_equal.
  change 0xFFFF with (2 ^ 16 - 1). change 0xFFFFFFFF with (2 ^ 32 - 1). rewrite !land_low, !Z.shiftr_div_pow2 by lia. unfold u16, u32. lia.
Qed.
Lemma idt_set_in vec h t g : 0 <= vec < zlen g -> idt_set vec h t g = Some (zset g vec (packed h t)).
Proof. intros Hv. unfold idt_set. by rewrite bool_decide_eq_true_2. Qed.

Lemma idt_set_all_spec stubs first n : forall i g, 0 <= i -> i + Z.of_nat n <= zlen stubs -> 0 <= first + i -> first + i + Z.of_nat n <= zlen g ->
  exists g', loopM n i (fun i g_idt => h ← zlook stubs i; idt_set (first + i) h 0x8E g_idt) g = Some g' /\ zlen g' = zlen g /\
    forall v, zlook g' v = if (first + i <=? v) && (v <? first + i + Z.of_nat n) then Some (packed (stubs.[v - first]) 0x8E) else zlook g v.
Proof.
  induction n as [| n IH]; intros i g Hi Hs Hf Hg; cbn [loopM].
  - exists g. split; [done |]. split; [done |]. intros v. destruct (Z.leb_spec (first + i) v), (Z.ltb_spec v (first + i + Z.of_nat 0)); cbn [andb]; (lia || done).
  - rewrite zlook_get by lia. cbn [mbind option_bind]. rewrite idt_set_in by lia. cbn [mbind option_bind].
    destruct (IH (i + 1) (zset g (first + i) (packed (stubs.[i]) 0x8E))) as (g' & E & El & Ev); [lia | lia | lia | rewrite zset_zlen; lia |].
    exists g'. split; [exact E |]. split; [by rewrite El, zset_zlen |]. intros v. rewrite Ev.
    destruct (Z.eq_dec v (first + i)) as [-> | Hne].
    + rewrite zlook_zset_eq by lia. replace (first + i - first) with i by lia.
      destruct (Z.leb_spec (first + (i + 1)) (first + i)), (Z.leb_spec (first + i) (first + i)), (Z.ltb_spec (first + i) (first + i + Z.of_nat (S n))); cbn [andb]; (lia || done).
    + rewrite zlook_zset_ne by lia.
      destruct (Z.leb_spec (first + (i + 1)) v), (Z.leb_spec (first + i) v), (Z.ltb_spec v (first + (i + 1) + Z.of_nat n)), (Z.ltb_spec v (first + i + Z.of_nat (S n))); cbn [andb]; (lia || done).
Qed.

Section gates.
Context (isr irq : list Z) (int80 idt_addr : Z) (g : list idt_entry).
Hypotheses (Hi : zlen isr = 32) (Hq : zlen irq = 16) (Hg : g = replicate 256 no_gate).
Hypotheses (Hia : Forall (fun a => 0 <= a < 2 ^ 64) isr) (Hqa : Forall (fun a => 0 <= a < 2 ^ 64) irq) (H8 : 0 <= int80 < 2 ^ 64).

Definition expected_gate (vec : Z) : option gate :=
  if vec <? 32 then Some (Gate (isr.[vec]) 0x08 14 0)
  else if vec <? 48 then Some (Gate (irq.[vec - 32]) 0x08 14 0)
  else if vec =? 128 then Some (Gate int80 0x08 14 3) else None.

Lemma idt_init_correct : exists g', idt_init isr irq int80 idt_addr g = Some (g', TablePtr 4095 idt_addr) /\ zlen g' = 256 /\
  forall vec, 0 <= vec < 256 -> gate_of g' vec = expected_gate vec.
Proof using All.
  unfold idt_init, idt_set_all. assert (zlen g = 256) as Eg by (by rewrite Hg).
  destruct (idt_set_all_spec isr 0 32 0 g) as (g1 & E1 & L1 & V1); [lia.. |]. rewrite E1. cbn [mbind option_bind].
  destruct (idt_set_all_spec irq 32 16 0 g1) as (g2 & E2 & L2 & V2); [lia.. |]. rewrite E2. cbn [mbind option_bind].
  rewrite idt_set_in by lia. cbn [mbind option_bind]. rewrite zset_zlen, L2, L1, Eg. change (u16 _) with 4095. eexists. split; [done |].
  split; [by rewrite zset_zlen, L2, L1 |]. intros vec Hv. unfold gate_of, expected_gate.
  assert (forall l i, Forall (fun a => 0 <= a < 2 ^ 64) l -> 0 <= i < zlen l -> 0 <= l.[i] < 2 ^ 64) as Hin
    by (intros l i Hl Hr; by apply (zlook_Forall _ l i (l.[i]) Hl), zlook_get).
  rewrite zlook_zset by lia. destruct (Z.eqb_spec 128 vec) as [<- | Hne].
  { cbn [mbind option_bind]. by rewrite read_packed. }
  rewrite V2, V1. destruct (Z.ltb_spec vec 32).
  { rewrite (proj2 (Z.leb_gt (32 + 0) vec)) by lia. rewrite (proj2 (Z.leb_le (0 + 0) vec)), (proj2 (Z.ltb_lt vec (0 + 0 + Z.of_nat 32))) by lia.
    cbn [andb mbind option_bind]. rewrite Z.sub_0_r, read_packed by (done || (apply Hin; [done | lia])). done. }
  rewrite (proj2 (Z.leb_le (32 + 0) vec)) by lia. destruct (Z.ltb_spec vec 48).
  { rewrite (proj2 (Z.ltb_lt vec (32 + 0 + Z.of_nat 16))) by lia. cbn [andb mbind option_bind]. rewrite read_packed by (done || (apply Hin; [done | lia])). done. }
  rewrite (proj2 (Z.ltb_ge vec (32 + 0 + Z.of_nat 16))), (proj2 (Z.ltb_ge vec (0 + 0 + Z.of_nat 32))), !andb_false_r by lia.
  rewrite (proj2 (Z.eqb_neq vec 128)) by lia. by rewrite Hg, zlook_replicate by lia.
Qed.
End gates.

(** C19: after [idt_init] each of the 32 exceptions and 16 interrupts leads to its own stub, and
    vector 128 to the system calls, each through a gate that turns interrupts off; the
    other vectors have none. A program at level 3 can only reach the system calls by an
    interrupt instruction: the exceptions and the interrupts of devices cannot be forged. *)
Theorem idt_init_spec (isr irq : list Z) (int80 idt_addr vec : Z) (Hi : zlen isr = 32) (Hq : zlen irq = 16)
    (Hia : Forall (fun a => 0 <= a < 2 ^ 64) isr) (Hqa : Forall (fun a => 0 <= a < 2 ^ 64) irq) (H8 : 0 <= int80 < 2 ^ 64) (Hv : 0 <= vec < 256) :
  exists g, idt_init isr irq int80 idt_addr (replicate 256 no_gate) = Some (g, TablePtr 4095 idt_addr) /\
    gate_of g vec = (if vec <? 32 then Some (Gate (isr.[vec]) 0x08 14 0) else if vec <? 48 then Some (Gate (irq.[vec - 32]) 0x08 14 0)
      else if vec =? 128 then Some (Gate int80 0x08 14 3) else None) /\
    int_target g 3 vec = if vec =? 128 then Some int80 else None.
Proof.
  destruct (idt_init_correct isr irq int80 idt_addr _ Hi Hq eq_refl Hia Hqa H8) as (g & E & _ & Eg). exists g. split; [done |].
  unfold int_target. rewrite Eg by done. unfold expected_gate. split; [done |].
  destruct (Z.ltb_spec vec 32); [by destruct (Z.eqb_spec vec 128); [lia |] |]. destruct (Z.ltb_spec vec 48); [by destruct (Z.eqb_spec vec 128); [lia |] |].
  by destruct (vec =? 128).
Qed.

(** ** At concrete addresses *)

Lemma gdt_set_tss_roundtrip_witness : task_of (default [] (gdt_set_tss 5 0xFFFF800000123450 103 (replicate 7 0))) 0x28 = Some (task64 0xFFFF800000123450 103).
Proof.
  destruct (proj1 (gdt_set_tss_roundtrip 5 0xFFFF800000123450 103 (replicate 7 0) ltac:(lia) ltac:(lia)) ltac:(lia) eq_refl) as (g & -> & _ & E & _). exact E.
Defined.
Lemma gdt_init_spec_witness : exists g t, gdt_init 0x100000 0x101000 0x102000 (replicate 7 0) tss_zero = Some (g, t, TablePtr 55 0x100000, 0x28) /\
  segment_of g 0x1B = Some (code64 3) /\ rsp0 t = 0x106000.
Proof.
  destruct (gdt_init_spec 0x100000 0x101000 0x102000 (replicate 7 0) tss_zero eq_refl ltac:(lia) ltac:(unfold KERNEL_STACK; lia)) as (g & t & E & _ & _ & Eu & _ & _ & Er & _).
  exists g, t. split; [exact E |]. split; [exact Eu | exact Er].
Defined.
Definition stubs_ex (n : nat) (a : Z) : list Z := map (fun i => a + 16 * Z.of_nat i) (seq 0 n).
Lemma idt_init_spec_witness : exists g p, idt_init (stubs_ex 32 0x100000) (stubs_ex 16 0x101000) 0x102000 0x103000 (replicate 256 no_gate) = Some (g, p) /\
  gate_of g 33 = Some (Gate 0x101010 0x08 14 0) /\ int_target g 3 33 = None.
Proof.
  assert (forall n a, 0 <= a < 2 ^ 32 -> (n <= 256)%nat -> Forall (fun a => 0 <= a < 2 ^ 64) (stubs_ex n a)) as Hs.
  { intros n a Ha Hn. apply Forall_map, Forall_forall. intros i Hi. apply elem_of_seq in Hi. lia. }
  destruct (idt_init_spec (stubs_ex 32 0x100000) (stubs_ex 16 0x101000) 0x102000 0x103000 33 eq_refl eq_refl (Hs 32%nat 0x100000 ltac:(lia) ltac:(lia)) (Hs 16%nat 0x101000 ltac:(lia) ltac:(lia))
    ltac:(lia) ltac:(lia)) as (g & E & E1 & E2).
  exists g, (TablePtr 4095 0x103000). split; [exact E |]. split; [exact E1 | exact E2].
Defined.
