(* ===== verification/Irq.v ===== *)
(** * Interrupts (src/kernel/pic.c, pit.c, isr.c, src/drivers/mouse.c)

    The interrupt controllers, the timer, the start-up of the mouse, and the two handlers
    that the stubs of isr.asm call: the report of an exception and the dispatcher of the
    devices. The controllers and the mouse's controller are classes, which say what their
    documentation says about the bytes written to their ports. The messages on the serial
    line go through a parameter. *)

From Stdlib Require Import String Ascii.
From S2P Require Import Prelude Memory UserLib Pmm Paging Heap Sched Gpu LineEdit Input KPath Serial Ports Cpu.

Definition PIC1_CMD : Z := 0x20.
Definition PIC1_DATA : Z := 0x21.
Definition PIC2_CMD : Z := 0xA0.
Definition PIC2_DATA : Z := 0xA1.
Definition PIC_EOI : Z := 0x20.
Definition PIT_CH0 : Z := 0x40.
Definition PIT_CMD : Z := 0x43.
Definition PIT_FREQ : Z := 1193182.
Definition PS2_CMD : Z := 0x64.
Definition PS2_DATA : Z := 0x60.
Definition PS2_POLLS : nat := Z.to_nat 10000.
Definition MOUSE_CMD_ENABLE : Z := 0xF4.
Definition MOUSE_CMD_SAMPLE : Z := 0xF3.
Definition MOUSE_CMD_DEFAULTS : Z := 0xF6.

(** The registers the stubs push. *)
Record regs := Regs {
  r15 : Z; r14 : Z; r13 : Z; r12 : Z; r11 : Z; r10 : Z; r9 : Z; r8 : Z;
  rbp : Z; rdi : Z; rsi : Z; rdx : Z; rcx : Z; rbx : Z; rax : Z;
  vector : Z; error_code : Z; rip : Z; cs : Z; rflags : Z; r_rsp : Z; ss : Z }.

Definition g_exc_names : list (list Z) :=
  [txt "Divide-by-zero"; txt "Debug"; txt "NMI"; txt "Breakpoint"; txt "Overflow"; txt "BOUND Range"; txt "Invalid Opcode"; txt "Device N/A";
   txt "Double Fault"; txt "Coproc Overrun"; txt "Invalid TSS"; txt "Segment N/P"; txt "Stack Fault"; txt "General Protection"; txt "Page Fault"; txt "Reserved";
   txt "x87 FP"; txt "Alignment Check"; txt "Machine Check"; txt "SIMD FP"; txt "Virtualization"; txt "Control Prot."; txt "Reserved"; txt "Reserved";
   txt "Reserved"; txt "Reserved"; txt "Reserved"; txt "Reserved"; txt "Hypervisor"; txt "VMM Comm"; txt "Security"; txt "Reserved"].

(** [for (int i = 0; i < 16; i++) hex[--h] = "0123..."[(v >> (i*4)) & 0xF]] *)
Definition hex16_loop (v : Z) : list Z * Z -> option (list Z * Z) :=
  loopM 16 0 (fun i '(hex, h) => let h := h - 1 in hex ← put hex h (hex_char (Z.land (Z.shiftr v (i * 4)) 0xF)); Some (hex, h)).
Definition hex16_text (v : Z) : option (list Z) :=
  hex ← put (replicate 17 0) 16 0; r ← hex16_loop v (hex, 16); c_string (drop (Z.to_nat (snd r)) (fst r)).

(** What the dispatcher changes. *)
Record cpu_state := CpuState { g_ticks : Z; i_kernel : kernel; i_kbd : kbd; i_mouse : mouse }.
Definition set_ticks v (s : cpu_state) : cpu_state := CpuState v (i_kernel s) (i_kbd s) (i_mouse s).
Definition set_kernel v (s : cpu_state) : cpu_state := CpuState (g_ticks s) v (i_kbd s) (i_mouse s).
Definition set_kbd v (s : cpu_state) : cpu_state := CpuState (g_ticks s) (i_kernel s) v (i_mouse s).
Definition set_mouse v (s : cpu_state) : cpu_state := CpuState (g_ticks s) (i_kernel s) (i_kbd s) v.

Definition pit_tick (ticks : Z) : Z := u64 (ticks + 1).
Definition pit_ticks (ticks : Z) : Z := ticks.

Section devices.
Context {H : Type} `{machine H}.

Definition pic_remap : io H unit :=
  _ ← outb PIC1_CMD 0x11; _ ← outb PIC2_CMD 0x11;
  _ ← outb PIC1_DATA 0x20; _ ← outb PIC2_DATA 0x28;
  _ ← outb PIC1_DATA 0x04; _ ← outb PIC2_DATA 0x02;
  _ ← outb PIC1_DATA 0x01; _ ← outb PIC2_DATA 0x01;
  _ ← outb PIC1_DATA 0xF8; outb PIC2_DATA 0xEF.
Definition pic_send_eoi (irq : Z) : io H unit :=
  _ ← (if 8 <=? irq then outb PIC2_CMD PIC_EOI else mret tt); outb PIC1_CMD PIC_EOI.

(** A rate of 0 is a division by zero. *)
Definition pit_init (hz : Z) : io H unit :=
  divisor ← lift (if hz =? 0 then None else Some (PIT_FREQ / hz));
  _ ← outb PIT_CMD 0x36; _ ← outb PIT_CH0 (u8 (Z.land divisor 0xFF)); outb PIT_CH0 (u8 (Z.land (Z.shiftr divisor 8) 0xFF)).

Definition ps2_wait_write : io H Z := wait_clear PS2_POLLS PS2_CMD 0x02.
Definition ps2_wait_read : io H Z := wait_set PS2_POLLS PS2_CMD 0x01.
(** [if (t < 0) return r;] *)
Definition or_return {A} (t : io H Z) (r : A) (k : io H A) : io H A := v ← t; if v <? 0 then mret r else k.

Definition mouse_send_cmd (cmd : Z) : io H Z :=
  or_return ps2_wait_write (-1) (_ ← outb PS2_CMD 0xD4;
  or_return ps2_wait_write (-1) (_ ← outb PS2_DATA cmd;
  or_return ps2_wait_read (-1) (ack ← inb PS2_DATA; mret (if ack =? 0xFA then 0 else -1)))).

Definition set_cycle v (s : mouse) : mouse := Mouse (g_mouse_x s) (g_mouse_y s) (g_mouse_buttons s) v (g_mouse_packet s).
(** The mouse and g_mouse_available. *)
Definition mouse_init (log : list Z -> io H unit) (s : mouse) (available : Z) : io H (mouse * Z) :=
  _ ← log (ln "[mouse] init...");
  let quit := (s, available) in
  or_return ps2_wait_write quit (_ ← outb PS2_CMD 0xA8;
  or_return ps2_wait_write quit (_ ← outb PS2_CMD 0x20;
  or_return ps2_wait_read quit (
    cfg ← inb PS2_DATA;
    let cfg := u8 (Z.lor cfg 0x02) in
    let cfg := u8 (Z.land cfg (Z.lnot 0x20)) in
    or_return ps2_wait_write quit (_ ← outb PS2_CMD 0x60;
    or_return ps2_wait_write quit (_ ← outb PS2_DATA cfg;
    _ ← mouse_send_cmd MOUSE_CMD_DEFAULTS;
    _ ← mouse_send_cmd MOUSE_CMD_SAMPLE;
    _ ← mouse_send_cmd 100;
    e ← mouse_send_cmd MOUSE_CMD_ENABLE;
    let available := if e =? 0 then 1 else available in
    let s := set_cycle 0 s in
    _ ← log (ln "[mouse] ready"); mret (s, available)))))).
Definition mouse_is_available (available : Z) : Z := available.

(** The handlers of the keyboard and the mouse read the data only when their status says so; the
    keyboard's also reads, and drops, a byte of the mouse. *)
Definition keyboard_entry (k : kbd) : io H kbd :=
  status ← inb PS2_CMD;
  if negb (istrue (Z.land status PS2_OUT_FULL)) then mret (keyboard_irq status 0 k)
  else sc ← inb PS2_DATA; mret (keyboard_irq status sc k).
Definition mouse_entry (s : mouse) : io H mouse :=
  status ← inb PS2_CMD;
  if negb (istrue (Z.land status PS2_OUT_FULL)) || negb (istrue (Z.land status PS2_AUX_DATA)) then mret (mouse_irq status 0 s)
  else data ← inb PS2_DATA; mret (mouse_irq status data s).

Definition irq_handler (vector : Z) (s : cpu_state) : io H cpu_state :=
  let irq := s32 (s32 vector - 32) in
  if irq =? 0 then
    let s := set_ticks (pit_tick (g_ticks s)) s in
    k ← lift (scheduler_tick (pit_ticks (g_ticks s)) (i_kernel s));
    _ ← pic_send_eoi irq;
    k ← lift (schedule k);
    mret (set_kernel k s)
  else
    s ← (if irq =? 1 then k ← keyboard_entry (i_kbd s); mret (set_kbd k s)
         else if irq =? 12 then m ← mouse_entry (i_mouse s); mret (set_mouse m s) else mret s);
    _ ← pic_send_eoi irq; mret s.
End devices.

(** ** The report of an exception *)

Inductive after := Resume | Hang.

Section report.
Context {H : Type} (font : Z -> Z) (log : list Z -> io H unit) (log_hex : Z -> io H unit).
(** The memory where it is mapped; a read elsewhere is another page fault. [cr2] is the register. *)
Context (m : Z -> option Z) (cr2 : Z).

Fixpoint log_code (n : nat) (a : Z) : io H unit :=
  match n with O => mret tt | S n => c ← lift (m a); _ ← log_hex c; _ ← log (txt " "); log_code n (a + 1) end.
Definition log_reg (name : list Z) (v : Z) : io H unit := _ ← log name; log_hex v.

Definition isr_screen (r : regs) (g : gpu) : option gpu :=
  g ← gpu_print font (10 :: txt "[EXCECAO] ") (gpu_set_color 0x0C 0x00 g);
  g ← (if vector r <? 32 then name ← zlook g_exc_names (vector r); gpu_print font name g else Some g);
  g ← (if vector r =? 14 then g ← gpu_print font (txt " addr=") g; hex ← hex16_text cr2; gpu_print font hex g else Some g);
  g ← gpu_print font [10] g;
  Some (gpu_set_color 0x0F 0x00 g).
Definition isr_serial (r : regs) : io H unit :=
  _ ← log (txt "[EXCECAO] ");
  _ ← (if vector r <? 32 then name ← lift (zlook g_exc_names (vector r)); log name else mret tt);
  _ ← log_reg (txt " err=") (error_code r);
  _ ← log_reg (txt " rip=") (rip r);
  _ ← log_reg (txt " rsp=") (r_rsp r);
  _ ← log_reg (txt " rax=") (rax r);
  _ ← log_reg (txt " rbx=") (rbx r);
  _ ← log_reg (txt " rcx=") (rcx r);
  _ ← log_reg (txt " rbp=") (rbp r);
  _ ← (if vector r =? 14 then _ ← log_reg (txt " cr2=") cr2; _ ← log (txt " code="); log_code 16 (rip r) else mret tt);
  log [10].
Definition isr_handler (r : regs) (g : gpu) : io H (gpu * after) :=
  g ← lift (isr_screen r g); _ ← isr_serial r; mret (g, if vector r =? 3 then Resume else Hang).
End report.

(** ** The interrupt controllers *)

(** A controller: how many more words of its initialisation it waits for (three, two, one), its
    first vector, how it is wired to the other, its mode, its mask, and the lines in
    service, the latest first. *)
Record chip := Chip { ch_wait : Z; ch_base : Z; ch_wire : Z; ch_mode : Z; ch_mask : Z; ch_service : list Z }.
Definition chip_start (c : chip) : chip := Chip 3 (ch_base c) (ch_wire c) (ch_mode c) 0 [].
Definition chip_eoi (c : chip) : chip := Chip (ch_wait c) (ch_base c) (ch_wire c) (ch_mode c) (ch_mask c) (tail (ch_service c)).
Definition chip_data (v : Z) (c : chip) : chip :=
  if ch_wait c =? 3 then Chip 2 (Z.land v 0xF8) (ch_wire c) (ch_mode c) (ch_mask c) (ch_service c)
  else if ch_wait c =? 2 then Chip 1 (ch_base c) v (ch_mode c) (ch_mask c) (ch_service c)
  else if ch_wait c =? 1 then Chip 0 (ch_base c) (ch_wire c) v (ch_mask c) (ch_service c)
  else Chip (ch_wait c) (ch_base c) (ch_wire c) (ch_mode c) v (ch_service c).
Definition chip_serve (l : Z) (c : chip) : chip := Chip (ch_wait c) (ch_base c) (ch_wire c) (ch_mode c) (ch_mask c) (l :: ch_service c).
(** A line gets through when it is not masked and comes before all lines in service. *)
Definition chip_accepts (l : Z) (c : chip) : bool := (ch_wait c =? 0) && negb (Z.testbit (ch_mask c) l) && forallb (fun k => l <? k) (ch_service c).
(** The vector of a device and the two controllers after it; the second is behind line 2 of the first. *)
Definition raised (a b : chip) (irq : Z) : option (Z * chip * chip) :=
  if irq <? 8 then if chip_accepts irq a then Some (ch_base a + irq, chip_serve irq a, b) else None
  else if chip_accepts (irq - 8) b && chip_accepts 2 a then Some (ch_base b + (irq - 8), chip_serve 2 a, chip_serve (irq - 8) b) else None.

Class pic_chip (H : Type) `{machine H} (cmd dat : Z) (view : H -> chip) := {
  pc_start : forall h, view (out8 cmd 0x11 h) = chip_start (view h);
  pc_eoi : forall h, view (out8 cmd 0x20 h) = chip_eoi (view h);
  pc_data : forall v h, view (out8 dat v h) = chip_data v (view h);
  pc_out : forall p v h, p <> cmd -> p <> dat -> view (out8 p v h) = view h;
  pc_in : forall p h, p <> cmd -> p <> dat -> view (snd (in8 p h)) = view h }.

Section pic.
Context {H : Type} `{machine H} (one two : H -> chip) {H1 : pic_chip H 0x20 0x21 one} {H2 : pic_chip H 0xA0 0xA1 two}.

Lemma outb_gives (p v : Z) (h : H) : 0 <= p < 65536 -> 0 <= v < 256 -> gives (outb p v) h (out8 p v h) tt.
Proof using. intros Hp Hv. unfold gives, outb. by rewrite u16_id, u8_id. Qed.
Lemma inb_gives (p v : Z) (h h' : H) : 0 <= p < 65536 -> is_byte v -> in8 p h = (v, h') -> gives (inb p) h h' v.
Proof using. intros Hp Hv E. unfold gives, inb. by rewrite u16_id, E, u8_id. Qed.

(** The controllers after the code's bytes. *)
Definition chip_one : chip := Chip 0 32 4 1 0xF8 [].
Definition chip_two : chip := Chip 0 40 2 1 0xEF [].

Lemma pic_remap_gives h : exists h', gives pic_remap h h' tt /\ one h' = chip_one /\ two h' = chip_two.
Proof using H1 H2.
  eexists. split.
  - unfold pic_remap. repeat (eapply gives_bind; [by apply outb_gives |]). by apply outb_gives.
  - unfold PIC1_CMD, PIC1_DATA, PIC2_CMD, PIC2_DATA. split.
    + repeat first [rewrite pc_start | rewrite pc_data | rewrite (pc_out (view := one)) by done]. done.
    + repeat first [rewrite pc_start | rewrite pc_data | rewrite (pc_out (view := two)) by done]. done.
Qed.

Lemma eoi_gives irq h : exists h', gives (pic_send_eoi irq) h h' tt /\ one h' = chip_eoi (one h) /\
  two h' = if 8 <=? irq then chip_eoi (two h) else two h.
Proof using H1 H2.
  unfold pic_send_eoi, PIC1_CMD, PIC2_CMD, PIC_EOI. destruct (8 <=? irq); eexists; (split; [eapply gives_bind; [| by apply outb_gives] |]).
  - by apply outb_gives.
  - split; [by rewrite pc_eoi, (pc_out (view := one)) | by rewrite (pc_out (view := two)), pc_eoi].
  - apply gives_ret.
  - split; [by rewrite pc_eoi | by rewrite (pc_out (view := two))].
Qed.
End pic.

Section remapped.
Context {H : Type} `{machine H} (one two : H -> chip) {H1 : pic_chip H 0x20 0x21 one} {H2 : pic_chip H 0xA0 0xA1 two}.

Lemma remapped_raised irq : 0 <= irq < 16 ->
  raised chip_one chip_two irq = if (irq <? 3) || (irq =? 12) then
    Some (32 + irq, (if irq <? 8 then chip_serve irq chip_one else chip_serve 2 chip_one), (if irq <? 8 then chip_two else chip_serve (irq - 8) chip_two)) else None.
Proof using.
  intros Hi. assert (exists n, (n < 16)%nat /\ irq = Z.of_nat n) as (n & Hn & ->) by (exists (Z.to_nat irq); lia).
  do 16 (destruct n as [| n]; [reflexivity |]). lia.
Qed.

(** Also: whatever the controllers held, after [pic_remap] the timer, the keyboard, the line of the
    second controller and the mouse get through and no other device does; a device's vector
    is 32 and its number, clear of the exceptions; and in the table of [idt_init] this
    vector leads to the stub of that device. *)
Theorem pic_remap_spec (h : H) (isr irqs : list Z) (int80 idt_addr : Z) (Hi : zlen isr = 32) (Hq : zlen irqs = 16)
    (Hia : Forall (fun a => 0 <= a < 2 ^ 64) isr) (Hqa : Forall (fun a => 0 <= a < 2 ^ 64) irqs) (H8 : 0 <= int80 < 2 ^ 64) :
  exists h' g p, pic_remap h = Some (tt, h') /\ idt_init isr irqs int80 idt_addr (replicate 256 no_gate) = Some (g, p) /\
    forall irq, 0 <= irq < 16 ->
      (is_Some (raised (one h') (two h') irq) <-> irq = 0 \/ irq = 1 \/ irq = 2 \/ irq = 12) /\
      (forall vec a b, raised (one h') (two h') irq = Some (vec, a, b) -> vec = 32 + irq /\ gate_of g vec = Some (Gate (irqs.[irq]) 0x08 14 0)).
Proof using H1 H2.
  destruct (pic_remap_gives one two h) as (h' & E & Eo & Et).
  destruct (idt_init_correct isr irqs int80 idt_addr _ Hi Hq eq_refl Hia Hqa H8) as (g & Eg & _ & Hg).
  exists h', g, (TablePtr 4095 idt_addr). split; [exact E |]. split; [exact Eg |]. intros irq Hr. rewrite Eo, Et, remapped_raised by done.
  destruct ((irq <? 3) || (irq =? 12)) eqn:Eb.
  - split; [split; [intros _; apply orb_true_iff in Eb as [Eb | Eb]; lia | by eexists] |]. intros vec a b Ev. injection Ev as <- <- <-. split; [done |].
    rewrite Hg by lia. unfold expected_gate. rewrite (proj2 (Z.ltb_ge (32 + irq) 32)), (proj2 (Z.ltb_lt (32 + irq) 48)) by lia. do 3 f_equal. lia.
  - apply orb_false_iff in Eb as [Eb1 Eb2]. split; [split; [by intros [] | lia] | done].
Qed.
End remapped.

(** ** The timer *)

Section timer.
Context {H : Type} `{machine H}.

(** C37: the timer counts the clock down from the divisor that [pit_init] writes, low byte first. For
    19 to 1193182 interrupts a second it is the largest divisor that is not too slow; below,
    the divisor does not fit into 16 bits and another rate comes out; above, it is 0, which
    the timer takes for 65536; and a rate of 0 divides by zero. *)
Theorem pit_init_spec (hz : Z) (h : H) (Hz : 0 <= hz < 4294967296) :
  if hz =? 0 then pit_init hz h = None
  else exists lo hi, pit_init hz h = Some (tt, out8 0x40 hi (out8 0x40 lo (out8 0x43 0x36 h))) /\ is_byte lo /\ is_byte hi /\
    (19 <= hz <= PIT_FREQ -> hz * (lo + 256 * hi) <= PIT_FREQ < hz * (lo + 256 * hi + 1)) /\
    (hz < 19 -> 65536 <= PIT_FREQ / hz /\ lo + 256 * hi = (PIT_FREQ / hz) mod 65536) /\
    (PIT_FREQ < hz -> lo + 256 * hi = 0).
Proof using.
  unfold pit_init. destruct (Z.eqb_spec hz 0) as [-> | Hne]; [done |]. set (d := PIT_FREQ / hz).
  assert (0 <= d <= PIT_FREQ) as Hd by (unfold d, PIT_FREQ; nia). unfold PIT_FREQ in Hd.
  assert (hz * d <= PIT_FREQ < hz * (d + 1)) as Hq by (unfold d; pose proof (Z.mul_div_le PIT_FREQ hz); pose proof (Z.mul_succ_div_gt PIT_FREQ hz); lia).
  exists (d mod 256), (d / 256 mod 256). split.
  - eapply gives_bind; [by apply gives_lift |]. eapply gives_bind; [by apply outb_gives |].
    change 0xFF with (2 ^ 8 - 1). rewrite !land_low, Z.shiftr_div_pow2 by lia. change (2 ^ 8) with 256.
    eapply gives_bind; [apply outb_gives; [done | apply u8_range] |]. rewrite !u8_id by lia. by apply outb_gives; [| lia].
  - split; [unfold is_byte; lia |]. split; [unfold is_byte; lia |]. clearbody d. unfold PIT_FREQ in *. split; [| split].
    + intros Hr. assert (d < 65536) by nia. replace (d mod 256 + 256 * (d / 256 mod 256)) with d by lia. exact Hq.
    + intros Hr. assert (65536 <= d) by nia. lia.
    + intros Hr. assert (d = 0) as -> by nia. done.
Qed.
End timer.

(** ** The dispatcher *)

Section dispatch.
Context {H : Type} `{machine H} (one two : H -> chip) {H1 : pic_chip H 0x20 0x21 one} {H2 : pic_chip H 0xA0 0xA1 two}.

Lemma ps2_in p h : p = PS2_CMD \/ p = PS2_DATA -> exists v h', gives (inb p) h h' v /\ one h' = one h /\ two h' = two h.
Proof using H1 H2.
  intros Hp. exists (u8 (fst (in8 p h))), (snd (in8 p h)).
  assert (0 <= p < 65536 /\ p <> 0x20 /\ p <> 0x21 /\ p <> 0xA0 /\ p <> 0xA1) as (Hr & ? & ? & ? & ?) by (unfold PS2_CMD, PS2_DATA in Hp; lia).
  split; [unfold gives, inb; rewrite u16_id by done; by destruct (in8 p h) |]. split; [by rewrite (pc_in (view := one)) | by rewrite (pc_in (view := two))].
Qed.

Lemma keyboard_entry_gives k h : exists h' status sc, gives (keyboard_entry k) h h' (keyboard_irq status sc k) /\ one h' = one h /\ two h' = two h.
Proof using H1 H2.
  destruct (ps2_in PS2_CMD h ltac:(by left)) as (st & h1 & E1 & O1 & T1). unfold keyboard_entry. destruct (negb (istrue (Z.land st PS2_OUT_FULL))) eqn:Eb.
  - exists h1, st, 0. split; [| done]. eapply gives_bind; [exact E1 |]. rewrite Eb. apply gives_ret.
  - destruct (ps2_in PS2_DATA h1 ltac:(by right)) as (sc & h2 & E2 & O2 & T2). exists h2, st, sc. split; [| by rewrite O2, T2].
    eapply gives_bind; [exact E1 |]. rewrite Eb. eapply gives_bind; [exact E2 | apply gives_ret].
Qed.
Lemma mouse_entry_gives s h : exists h' status data, gives (mouse_entry s) h h' (mouse_irq status data s) /\ one h' = one h /\ two h' = two h.
Proof using H1 H2.
  destruct (ps2_in PS2_CMD h ltac:(by left)) as (st & h1 & E1 & O1 & T1). unfold mouse_entry. destruct (negb (istrue (Z.land st PS2_OUT_FULL)) || negb (istrue (Z.land st PS2_AUX_DATA))) eqn:Eb.
  - exists h1, st, 0. split; [| done]. eapply gives_bind; [exact E1 |]. rewrite Eb. apply gives_ret.
  - destruct (ps2_in PS2_DATA h1 ltac:(by right)) as (v & h2 & E2 & O2 & T2). exists h2, st, v. split; [| by rewrite O2, T2].
    eapply gives_bind; [exact E1 |]. rewrite Eb. eapply gives_bind; [exact E2 | apply gives_ret].
Qed.

(** After the end of the interrupt, both controllers are as before it. *)
Lemma eoi_raised a b irq vec a' b' : raised a b irq = Some (vec, a', b') -> chip_eoi a' = a /\ (if 8 <=? irq then chip_eoi b' else b') = b.
Proof using.
  unfold raised. destruct (Z.ltb_spec irq 8), (Z.leb_spec 8 irq); try lia.
  - destruct (chip_accepts irq a); [| done]. intros [= <- <- <-]. by destruct a.
  - destruct (chip_accepts (irq - 8) b && chip_accepts 2 a); [| done]. intros [= <- <- <-]. by destruct a, b.
Qed.

(** C13: an interrupt that gets through is handled and ended: the handler called with its vector
    returns, and the controllers are as they were, so that every device can interrupt again
    even when the timer has switched to another task. The timer counts, wakes and signals
    the tasks and then schedules, which keeps the list of tasks well formed; the keyboard and
    the mouse get what their ports say; nothing else is changed. *)
Theorem irq_handler_spec (s : cpu_state) (irq vec : Z) (a b : chip) (h0 h : H) (l : list Z) (Hi : 0 <= irq < 16) (Hb : ch_base (one h0) = 32 /\ ch_base (two h0) = 40)
    (Hr : raised (one h0) (two h0) irq = Some (vec, a, b)) (Ha : one h = a) (Hc : two h = b) (W : wf (i_kernel s) l) :
  exists s' h', irq_handler vec s h = Some (s', h') /\ one h' = one h0 /\ two h' = two h0 /\ (exists l', wf (i_kernel s') l') /\
    (if irq =? 0 then g_ticks s' = u64 (g_ticks s + 1) /\ i_kbd s' = i_kbd s /\ i_mouse s' = i_mouse s /\
       exists k, scheduler_tick (g_ticks s') (i_kernel s) = Some k /\ schedule k = Some (i_kernel s')
     else g_ticks s' = g_ticks s /\ i_kernel s' = i_kernel s /\
       (if irq =? 1 then exists status sc, i_kbd s' = keyboard_irq status sc (i_kbd s) else i_kbd s' = i_kbd s) /\
       (if irq =? 12 then exists status v, i_mouse s' = mouse_irq status v (i_mouse s) else i_mouse s' = i_mouse s)).
Proof using H1 H2.
  destruct (eoi_raised _ _ _ _ _ _ Hr) as [Ea Eb]. assert (vec = 32 + irq) as ->.
  { destruct Hb as [Hb1 Hb2]. unfold raised in Hr. destruct (irq <? 8); [destruct (chip_accepts irq (one h0)) | destruct (chip_accepts (irq - 8) _ && _)]; try done; injection Hr; intros; lia. }
  unfold irq_handler. rewrite !(s32_id (32 + irq)), s32_id by lia. replace (32 + irq - 32) with irq by lia. subst a b.
  destruct (Z.eqb_spec irq 0) as [-> | Hne].
  - destruct (scheduler_tick_correct (i_kernel s) (pit_ticks (pit_tick (g_ticks s))) l W) as (k & E1 & W1 & _).
    destruct (schedule_wf k l W1) as (k' & l' & E2 & W2). destruct (eoi_gives one two 0 h) as (h' & E3 & O3 & T3).
    exists (set_kernel k' (set_ticks (pit_tick (g_ticks s)) s)), h'. split.
    + eapply gives_bind; [by apply gives_lift |]. eapply gives_bind; [exact E3 |]. eapply gives_bind; [by apply gives_lift | apply gives_ret].
    + split; [by rewrite O3 |]. split; [by rewrite T3 |]. split; [by exists l' |]. cbn [g_ticks i_kernel i_kbd i_mouse set_kernel set_ticks].
      split; [done |]. split; [done |]. split; [done |]. by exists k.
  - assert (exists s' h1, gives (if irq =? 1 then k ← keyboard_entry (i_kbd s); mret (set_kbd k s)
        else if irq =? 12 then m ← mouse_entry (i_mouse s); mret (set_mouse m s) else mret s) h h1 s' /\ one h1 = one h /\ two h1 = two h /\
        g_ticks s' = g_ticks s /\ i_kernel s' = i_kernel s /\
        (if irq =? 1 then exists status sc, i_kbd s' = keyboard_irq status sc (i_kbd s) else i_kbd s' = i_kbd s) /\
        (if irq =? 12 then exists status v, i_mouse s' = mouse_irq status v (i_mouse s) else i_mouse s' = i_mouse s)) as (s' & h1 & E1 & O1 & T1 & Hg & Hk & Hs).
    { destruct (Z.eqb_spec irq 1) as [-> |]; [| destruct (Z.eqb_spec irq 12) as [-> |]].
      - destruct (keyboard_entry_gives (i_kbd s) h) as (h1 & st & sc & E & O & T). exists (set_kbd (keyboard_irq st sc (i_kbd s)) s), h1.
        split; [eapply gives_bind; [exact E | apply gives_ret] |]. split; [done |]. split; [done |]. split; [done |]. split; [done |]. split; [by exists st, sc | done].
      - destruct (mouse_entry_gives (i_mouse s) h) as (h1 & st & v & E & O & T). exists (set_mouse (mouse_irq st v (i_mouse s)) s), h1.
        split; [eapply gives_bind; [exact E | apply gives_ret] |]. split; [done |]. split; [done |]. split; [done |]. split; [done |]. split; [done | by exists st, v].
      - by exists s, h. }
    destruct (eoi_gives one two irq h1) as (h' & E2 & O2 & T2). exists s', h'. split; [eapply gives_bind; [exact E1 |]; eapply gives_bind; [exact E2 | apply gives_ret] |].
    rewrite O1, T1 in *. split; [by rewrite O2 |]. split; [by rewrite T2 |]. split; [exists l; by rewrite Hk |]. done.
Qed.
End dispatch.

(** ** Starting the mouse *)

(** The controller of keyboard and mouse: its configuration, whether the mouse is on, where the
    next byte goes (0 to the keyboard), the byte to be read, and what the mouse was told. *)
Record ps2 := Ps2 { ps_config : Z; ps_aux : bool; ps_expect : Z; ps_out : option Z; ps_mouse : list Z }.
Definition ps2_command (v : Z) (p : ps2) : ps2 :=
  if v =? 0xA8 then Ps2 (ps_config p) true (ps_expect p) (ps_out p) (ps_mouse p)
  else if v =? 0x20 then Ps2 (ps_config p) (ps_aux p) (ps_expect p) (Some (ps_config p)) (ps_mouse p)
  else Ps2 (ps_config p) (ps_aux p) v (ps_out p) (ps_mouse p).
Definition ps2_data (v : Z) (p : ps2) : ps2 :=
  if ps_expect p =? 0x60 then Ps2 v (ps_aux p) 0 (ps_out p) (ps_mouse p)
  else if ps_expect p =? 0xD4 then Ps2 (ps_config p) (ps_aux p) 0 (Some 0xFA) (ps_mouse p ++ [v])
  else p.
Definition ps2_read (p : ps2) : ps2 := Ps2 (ps_config p) (ps_aux p) (ps_expect p) None (ps_mouse p).

(** [late] is how often the status will still say that the controller is busy with a byte; it
    takes the commands of the code, and the mouse acknowledges each byte. *)
Class i8042 (H : Type) `{machine H} (view : H -> ps2) (late : H -> nat) := {
  kc_status : forall h, exists v h', in8 0x64 h = (v, h') /\ is_byte v /\ Z.testbit v 1 = negb (late h =? 0)%nat /\
    Z.testbit v 0 = (late h =? 0)%nat && bool_decide (is_Some (ps_out (view h))) /\ view h' = view h /\ late h' = pred (late h);
  kc_command : forall h v, late h = 0%nat -> In v [0xA8; 0x20; 0x60; 0xD4] -> view (out8 0x64 v h) = ps2_command v (view h) /\ (late (out8 0x64 v h) < PS2_POLLS)%nat;
  kc_data : forall h v, late h = 0%nat -> view (out8 0x60 v h) = ps2_data v (view h) /\ (late (out8 0x60 v h) < PS2_POLLS)%nat;
  kc_read : forall h x, late h = 0%nat -> ps_out (view h) = Some x -> is_byte x -> exists h', in8 0x60 h = (x, h') /\ view h' = ps2_read (view h) /\ (late h' < PS2_POLLS)%nat }.

Section mouse.
Context {H : Type} `{machine H} (log : list Z -> io H unit) (view : H -> ps2) (late : H -> nat) {HK : i8042 H view late}.
Hypothesis Hlog : forall s h, gives (log s) h h tt.

Lemma status_gives h : exists v h', gives (inb 0x64) h h' v /\ istrue (Z.land v 0x02) = negb (late h =? 0)%nat /\
  istrue (Z.land v 0x01) = (late h =? 0)%nat && bool_decide (is_Some (ps_out (view h))) /\ view h' = view h /\ late h' = pred (late h).
Proof using HK.
  destruct (kc_status h) as (v & h' & E & Hv & T1 & T0 & V & L). exists v, h'. split; [by apply inb_gives |].
  split; [by rewrite <- T1, <- (land_bit v 1) by lia |]. split; [by rewrite <- T0, <- (land_bit v 0) by lia | done].
Qed.
Lemma wait_clear_gives n : forall h, (late h < n)%nat -> exists h', gives (wait_clear n 0x64 0x02) h h' 0 /\ view h' = view h /\ late h' = 0%nat.
Proof using HK.
  induction n as [| n IH]; intros h Hl; [lia |]. cbn [wait_clear]. destruct (status_gives h) as (v & h1 & E & T1 & _ & V & L).
  destruct (late h) as [| k] eqn:Ek; cbn [Nat.eqb negb pred] in *.
  - exists h1. split; [| done]. eapply gives_bind; [exact E |]. by rewrite T1.
  - destruct (IH h1) as (h' & E' & V' & L'); [lia |]. exists h'. split; [| by rewrite V', V]. eapply gives_bind; [exact E |]. by rewrite T1.
Qed.
Lemma wait_set_gives n : forall h x, ps_out (view h) = Some x -> (late h < n)%nat -> exists h', gives (wait_set n 0x64 0x01) h h' 0 /\ view h' = view h /\ late h' = 0%nat.
Proof using HK.
  induction n as [| n IH]; intros h x Hx Hl; [lia |]. cbn [wait_set]. destruct (status_gives h) as (v & h1 & E & _ & T0 & V & L).
  rewrite bool_decide_eq_true_2, andb_true_r in T0 by (by rewrite Hx). destruct (late h) as [| k] eqn:Ek; cbn [Nat.eqb negb pred] in *.
  - exists h1. split; [| done]. eapply gives_bind; [exact E |]. by rewrite T0.
  - destruct (IH h1 x) as (h' & E' & V' & L'); [by rewrite V | lia |]. exists h'. split; [| by rewrite V', V]. eapply gives_bind; [exact E |]. by rewrite T0.
Qed.

(** [k] goes on from each state with the view that the bytes before it lead to. *)
Definition after_view {A} (k : io H A) (p : ps2) (x : A) (q : ps2) : Prop :=
  forall h, view h = p -> (late h < PS2_POLLS)%nat -> exists h', gives k h h' x /\ view h' = q /\ (late h' < PS2_POLLS)%nat.

Lemma after_ret {A} (x : A) p : after_view (mret x) p x p.
Proof using. intros h V L. by exists h. Qed.
Lemma after_bind {A B} (t : io H A) (k : A -> io H B) p q r x y : after_view t p x q -> after_view (k x) q y r -> after_view (t ≫= k) p y r.
Proof using.
  intros Ht Hk h V L. destruct (Ht h V L) as (h1 & E1 & V1 & L1). destruct (Hk h1 V1 L1) as (h2 & E2 & V2 & L2).
  exists h2. split; [by eapply gives_bind | done].
Qed.
Lemma after_log s p : after_view (log s) p tt p.
Proof using Hlog. intros h V L. by exists h. Qed.
Lemma after_command {A} (r : A) v k p x q : In v [0xA8; 0x20; 0x60; 0xD4] -> after_view k (ps2_command v p) x q ->
  after_view (or_return ps2_wait_write r (_ ← outb PS2_CMD v; k)) p x q.
Proof using HK.
  intros Hv Hk h V L. destruct (wait_clear_gives PS2_POLLS h L) as (h1 & E1 & V1 & L1). destruct (kc_command h1 v L1 Hv) as [V2 L2].
  destruct (Hk (out8 0x64 v h1)) as (h' & E' & H'); [by rewrite V2, V1, V | done |]. exists h'. split; [| done].
  unfold or_return. eapply gives_bind; [exact E1 |]. change (0 <? 0) with false. cbv iota. eapply gives_bind; [apply outb_gives; [done |] | exact E'].
  repeat (destruct Hv as [<- | Hv]; [done |]). destruct Hv.
Qed.
Lemma after_data {A} (r : A) v k p x q : 0 <= v < 256 -> after_view k (ps2_data v p) x q -> after_view (or_return ps2_wait_write r (_ ← outb PS2_DATA v; k)) p x q.
Proof using HK.
  intros Hv Hk h V L. destruct (wait_clear_gives PS2_POLLS h L) as (h1 & E1 & V1 & L1). destruct (kc_data h1 v L1) as [V2 L2].
  destruct (Hk (out8 0x60 v h1)) as (h' & E' & H'); [by rewrite V2, V1, V | done |]. exists h'. split; [| done].
  unfold or_return. eapply gives_bind; [exact E1 |]. change (0 <? 0) with false. cbv iota. eapply gives_bind; [by apply outb_gives | exact E'].
Qed.
Lemma after_answer {A} (r : A) (k : Z -> io H A) p a x q : ps_out p = Some a -> is_byte a -> after_view (k a) (ps2_read p) x q ->
  after_view (or_return ps2_wait_read r (v ← inb PS2_DATA; k v)) p x q.
Proof using HK.
  intros Ha Hb Hk h V L. destruct (wait_set_gives PS2_POLLS h a) as (h1 & E1 & V1 & L1); [by rewrite V | done |].
  destruct (kc_read h1 a) as (h2 & E2 & V2 & L2); [done | by rewrite V1, V | done |]. destruct (Hk h2) as (h' & E' & H'); [by rewrite V2, V1, V | done |].
  exists h'. split; [| done]. unfold or_return. eapply gives_bind; [exact E1 |]. change (0 <? 0) with false. cbv iota. eapply gives_bind; [by apply inb_gives | exact E'].
Qed.

(** A byte to the mouse and its acknowledgement. *)
Lemma after_mouse v c a e ms : 0 <= v < 256 -> after_view (mouse_send_cmd v) (Ps2 c a e None ms) 0 (Ps2 c a 0 None (ms ++ [v])).
Proof using HK.
  intros Hv. unfold mouse_send_cmd. apply after_command; [cbn; tauto |]. apply after_data; [done |]. eapply after_answer; [done | done |]. apply after_ret.
Qed.
End mouse.

Section mouse_claims.
Context {H : Type} `{machine H} (log : list Z -> io H unit).
Hypothesis Hlog : forall s h, gives (log s) h h tt.

(** Also: with a controller that is never busy for long and a mouse that acknowledges, starting the
    mouse turns it on, lets it interrupt and gives it a clock in the configuration, whose
    other bits stay, tells it the defaults, 100 reports a second and to report, and
    marks it as available; with no controller at all, where every read gives 0xFF, it ends
    too, writes to no port and leaves the mark as it was. *)
Theorem mouse_init_spec (view : H -> ps2) (late : H -> nat) (s : mouse) (available : Z) (h : H) :
  (i8042 H view late -> (late h < PS2_POLLS)%nat -> is_byte (ps_config (view h)) -> exists h', mouse_init log s available h = Some ((set_cycle 0 s, 1), h') /\
    ps_aux (view h') = true /\ ps_mouse (view h') = ps_mouse (view h) ++ [0xF6; 0xF3; 100; 0xF4] /\ ps_out (view h') = None /\
    (forall k, 0 <= k < 8 -> Z.testbit (ps_config (view h')) k = if k =? 1 then true else if k =? 5 then false else Z.testbit (ps_config (view h)) k)) /\
  ((forall g, in8 0x64 g = (0xFF, g)) -> mouse_init log s available h = Some ((s, available), h)).
Proof using Hlog.
  split.
  - intros HK Hl Hc. destruct (view h) as [c a e o ms] eqn:Ev. cbn [ps_config ps_mouse] in *.
    assert (after_view view late (mouse_init log s available) (Ps2 c a e o ms) (set_cycle 0 s, 1)
      (Ps2 (u8 (Z.land (u8 (Z.lor c 2)) (Z.lnot 32))) true 0 None (ms ++ [0xF6; 0xF3; 100; 0xF4]))) as Hi.
    { unfold mouse_init. eapply after_bind; [by apply after_log |]. apply (after_command view late); [cbn; tauto |]. apply (after_command view late); [cbn; tauto |].
      eapply (after_answer view late); [done | exact Hc |]. apply (after_command view late); [cbn; tauto |]. apply (after_data view late); [apply u8_range |].
      eapply after_bind; [by apply (after_mouse view late) |]. eapply after_bind; [by apply (after_mouse view late) |]. eapply after_bind; [by apply (after_mouse view late) |].
      eapply after_bind; [by apply (after_mouse view late) |]. eapply after_bind; [by apply after_log |]. rewrite <- !app_assoc. apply after_ret. }
    destruct (Hi h Ev Hl) as (h' & E & V & _). exists h'. split; [exact E |]. rewrite V. cbn [ps_aux ps_mouse ps_out ps_config].
    split; [done |]. split; [done |]. split; [done |]. intros k Hk.
    rewrite testbit_u8, Z.land_spec, testbit_u8, Z.lor_spec, Z.lnot_spec by lia. change 2 with (Z.shiftl 1 1). change 32 with (Z.shiftl 1 5). rewrite !testbit_shiftl_1 by lia.
    destruct (Z.eqb_spec k 1) as [-> |]; [by rewrite orb_true_r |]. destruct (Z.eqb_spec k 5) as [-> |]; [by rewrite andb_false_r |]. by rewrite orb_false_r, andb_true_r.
  - intros Hff. assert (forall n, gives (wait_clear n 0x64 0x02) h h (-1)) as Hw.
    { induction n as [| n IH]; [apply gives_ret |]. cbn [wait_clear]. eapply gives_bind; [by apply (inb_gives 0x64 0xFF) |]. exact IH. }
    unfold mouse_init. eapply gives_bind; [apply Hlog |]. unfold or_return at 1. eapply gives_bind; [apply Hw |]. apply gives_ret.
Qed.
End mouse_claims.

(** ** The report of an exception *)

(** The [n] hexadecimal digits of [v] from digit [i] on, the highest first. *)
Fixpoint nibbles (n : nat) (i : Z) (v : Z) : list Z := match n with O => [] | S n => nibbles n (i + 1) v ++ [v / 16 ^ i mod 16] end.

Lemma nibbles_range n v : forall i, Forall (fun d => 0 <= d < 16) (nibbles n i v).
Proof. induction n as [| n IH]; intros i; cbn [nibbles]; [constructor |]. apply Forall_app. split; [apply IH | constructor; [lia | constructor]]. Qed.
Lemma nibbles_value n v : forall i, 0 <= i -> 0 <= v -> value 16 (nibbles n i v) = v / 16 ^ i mod 16 ^ Z.of_nat n.
Proof.
  induction n as [| n IH]; intros i Hi Hv; cbn [nibbles]; [change (16 ^ Z.of_nat 0) with 1; by rewrite Z.mod_1_r |].
  rewrite value_snoc, IH by lia. rewrite Z.pow_add_r, <- Z.div_div by lia. change (16 ^ 1) with 16. set (w := v / 16 ^ i).
  rewrite Nat2Z.inj_succ, Z.pow_succ_r by lia. rewrite (Z.rem_mul_r w 16 (16 ^ Z.of_nat n)) by lia. lia.
Qed.
Lemma nibbles_len n v : forall i, zlen (nibbles n i v) = Z.of_nat n.
Proof. induction n as [| n IH]; intros i; cbn [nibbles]; [done |]. rewrite zlen_app, IH. change (zlen [_]) with 1. lia. Qed.

Lemma hex16_loop_spec v n : forall i t, 0 <= i ->
  loopM n i (fun i '(hex, h) => let h := h - 1 in hex ← put hex h (hex_char (Z.land (Z.shiftr v (i * 4)) 0xF)); Some (hex, h)) (replicate n 0 ++ t, Z.of_nat n) =
  Some (map hex_char (nibbles n i v) ++ t, 0).
Proof.
  induction n as [| n IH]; intros i t Hi; [done |]. cbn [loopM nibbles]. rewrite replicate_S_end, <- app_assoc. cbn [app].
  replace (Z.of_nat (S n) - 1) with (Z.of_nat n) by lia. rewrite put_cell_back by (by rewrite zlen_replicate). cbn [mbind option_bind].
  rewrite IH by lia. rewrite map_app, <- app_assoc. cbn [map app]. do 5 f_equal.
  change 0xF with (2 ^ 4 - 1). rewrite land_low, Z.shiftr_div_pow2, Z.mul_comm, Z.pow_mul_r by lia. done.
Qed.

Definition hex16 (v : Z) : list Z := map hex_char (nibbles 16 0 v).
Lemma hex16_some v : hex16_text v = Some (hex16 v).
Proof.
  unfold hex16_text. change (put (replicate 17 0) 16 0) with (Some (replicate 16 0 ++ [0])). cbn [mbind option_bind].
  unfold hex16_loop. change 16 with (Z.of_nat 16) at 1. rewrite hex16_loop_spec by lia. cbn [mbind option_bind fst snd]. change (Z.to_nat 0) with 0%nat. cbn [drop].
  apply c_string_text. apply Forall_map. eapply Forall_impl; [apply nibbles_range |]. intros d Hd. pose proof (hex_char_range d Hd). cbn. lia.
Qed.
Lemma hex16_value v : 0 <= v < 18446744073709551616 -> zlen (hex16 v) = 16 /\ value 16 (map char_digit (hex16 v)) = v.
Proof.
  intros Hv. unfold hex16. split; [unfold zlen; rewrite length_map; apply nibbles_len |].
  rewrite char_digits by apply nibbles_range. rewrite nibbles_value, Z.div_1_r, Z.mod_small by (lia || done). done.
Qed.

Definition exc_name (v : Z) : list Z := if v <? 32 then default [] (zlook g_exc_names v) else [].
Definition hex_of (v : Z) : list Z := default [] (serial_hex_text v).
(** What the screen shows and what the serial line gets. *)
Definition isr_text (r : regs) (cr2 : Z) : list Z :=
  10 :: txt "[EXCECAO] " ++ exc_name (vector r) ++ (if vector r =? 14 then txt " addr=" ++ hex16 cr2 else []) ++ [10].
Definition isr_line (r : regs) (cr2 : Z) (code : list Z) : list Z :=
  txt "[EXCECAO] " ++ exc_name (vector r) ++ txt " err=" ++ hex_of (error_code r) ++ txt " rip=" ++ hex_of (rip r) ++ txt " rsp=" ++ hex_of (r_rsp r) ++
  txt " rax=" ++ hex_of (rax r) ++ txt " rbx=" ++ hex_of (rbx r) ++ txt " rcx=" ++ hex_of (rcx r) ++ txt " rbp=" ++ hex_of (rbp r) ++
  (if vector r =? 14 then txt " cr2=" ++ hex_of cr2 ++ txt " code=" ++ concat (map (fun c => hex_of c ++ [32]) code) else []) ++ [13; 10].
Definition is_word (v : Z) : Prop := 0 <= v < 18446744073709551616.

Section report_line.
Context {H : Type} `{machine H} (fuel : nat) (line : H -> list Z) (wait : H -> nat) {HU : uart H fuel line wait}.

Definition plain (t : list Z) : Prop := Forall (fun c => is_byte c /\ c <> 10) t.
Lemma sends_text t : plain t -> sends fuel line wait (serial_print fuel t) t (fun _ => True).
Proof using HU.
  intros Ht. assert (bytes t /\ crlf t = t) as [Hb Hc].
  { induction Ht as [| c t [Hc Hc10] _ [IH1 IH2]]; [split; [constructor | done] |]. split; [by constructor |]. unfold crlf in *. cbn [map concat]. destruct (Z.eqb_spec c 10); [done |]. by rewrite IH2. }
  pose proof (print_spec fuel line wait t Hb) as Hp. by rewrite Hc in Hp.
Qed.
Lemma sends_hex v : is_word v -> sends fuel line wait (serial_print_hex fuel v) (hex_of v) (fun _ => True).
Proof using HU.
  intros Hv. destruct (serial_hex_correct v Hv) as (t & E & Ht & _). unfold serial_print_hex, hex_of. rewrite E. by apply (sends_text t).
Qed.
Lemma sends_then {A} (t : io H unit) (k : io H A) a b Q : sends fuel line wait t a (fun _ => True) -> sends fuel line wait k b Q -> sends fuel line wait (_ ← t; k) (a ++ b) Q.
Proof using. intros Ht Hk. by eapply sends_bind; [exact Ht | intros _ _]. Qed.
Lemma sends_reg {A} name v (k : io H A) b Q : plain name -> is_word v -> sends fuel line wait k b Q ->
  sends fuel line wait (_ ← log_reg (serial_print fuel) (serial_print_hex fuel) name v; k) (name ++ hex_of v ++ b) Q.
Proof using HU.
  intros Hn Hv Hk. rewrite app_assoc. apply sends_then; [| done]. apply sends_then; [by apply sends_text | by apply sends_hex].
Qed.
Lemma sends_code m code : forall a, Forall is_byte code -> (forall i, 0 <= i < zlen code -> m (a + i) = zlook code i) ->
  sends fuel line wait (log_code (serial_print fuel) (serial_print_hex fuel) m (length code) a) (concat (map (fun c => hex_of c ++ [32]) code)) (fun _ => True).
Proof using HU.
  induction code as [| c code IH]; intros a Hc Hm; cbn [length log_code map concat]; [by apply sends_ret |].
  apply Forall_cons in Hc as [Hc Hcs]. pose proof (Hm 0) as H0'. rewrite Z.add_0_r, zlen_cons in H0'. rewrite H0' by (pose proof (zlen_nonneg code); lia).
  cbn [lift]. apply (sends_bind fuel line wait _ _ [] ((hex_of c ++ [32]) ++ concat (map (fun c => hex_of c ++ [32]) code)) (fun x => x = c)); [by intros h Hh; exists c, h; rewrite app_nil_r |]. intros ? ->.
  rewrite <- app_assoc. apply sends_then; [apply sends_hex; unfold is_byte, is_word in *; lia |]. apply sends_then; [apply sends_text; by repeat constructor |].
  apply IH; [done |]. intros i Hi. replace (a + 1 + i) with (a + (i + 1)) by lia. rewrite Hm by (rewrite zlen_cons; lia). rewrite zlook_cons by lia. f_equal. lia.
Qed.

Lemma exc_name_plain v : plain (exc_name v).
Proof using.
  unfold exc_name. destruct (v <? 32); [| constructor]. destruct (zlook g_exc_names v) as [t |] eqn:E; [| constructor].
  refine (zlook_Forall plain g_exc_names v t _ E). unfold plain, g_exc_names, is_byte. by repeat (constructor; [repeat (constructor; [done |]); constructor |]).
Qed.
Lemma exc_name_some v : 0 <= v < 32 -> zlook g_exc_names v = Some (exc_name v).
Proof using.
  intros Hv. destruct (zlook_in_range g_exc_names v) as (t & E); [done |]. unfold exc_name. rewrite E. by destruct (Z.ltb_spec v 32); [| lia].
Qed.
End report_line.

Lemma isr_screen_text font cr2 r g : 0 <= vector r -> isr_screen font cr2 r g = g ← gpu_print font (isr_text r cr2) (gpu_set_color 0x0C 0x00 g); Some (gpu_set_color 0x0F 0x00 g).
Proof.
  intros Hv. unfold isr_screen, isr_text. rewrite hex16_some. change (10 :: txt "[EXCECAO] " ++ ?t) with ((10 :: txt "[EXCECAO] ") ++ t).
  rewrite gpu_print_app. destruct (gpu_print font (10 :: txt "[EXCECAO] ") _) as [g1 |]; cbn [mbind option_bind]; [| done].
  rewrite gpu_print_app. destruct (Z.ltb_spec (vector r) 32).
  - rewrite exc_name_some by done. cbn [mbind option_bind]. destruct (gpu_print font (exc_name (vector r)) g1) as [g2 |]; cbn [mbind option_bind]; [| done].
    destruct (vector r =? 14); cbn [mbind option_bind app]; [| done]. rewrite gpu_print_app, gpu_print_app.
    destruct (gpu_print font (txt " addr=") g2) as [g3 |]; cbn [mbind option_bind]; [| done].
    destruct (gpu_print font (hex16 cr2) g3) as [g4 |]; done.
  - unfold exc_name. destruct (Z.ltb_spec (vector r) 32); [lia |]. cbn [gpu_print mbind option_bind]. destruct (Z.eqb_spec (vector r) 14); [lia |]. done.
Qed.

Section report_claims.
Context {H : Type} `{machine H} (fuel : nat) (line : H -> list Z) (wait : H -> nat) {HU : uart H fuel line wait}.
Context (font : Z -> Z) (C : gpu -> Prop) {HC : console font C} (m : Z -> option Z) (cr2 : Z).

(** Serial part of a report whose code bytes, of a page fault, can be read. *)
Lemma isr_serial_sends r code : 0 <= vector r -> Forall is_word [error_code r; rip r; r_rsp r; rax r; rbx r; rcx r; rbp r; cr2] -> zlen code = 16 -> Forall is_byte code ->
  (vector r = 14 -> forall i, 0 <= i < 16 -> m (rip r + i) = zlook code i) ->
  sends fuel line wait (isr_serial (serial_print fuel) (serial_print_hex fuel) m cr2 r) (isr_line r cr2 code) (fun _ => True).
Proof using HU.
  intros Hv Hr Hl Hc Hm. rewrite !Forall_cons in Hr. destruct Hr as (R1 & R2 & R3 & R4 & R5 & R6 & R7 & R8 & _). unfold isr_serial, isr_line.
  assert (forall t, forallb (fun c => (0 <=? c) && (c <? 256) && negb (c =? 10)) t = true -> plain t) as Hp.
  { intros t Ht. apply Forall_forall. intros c Hi. apply list_elem_of_In in Hi. rewrite forallb_forall in Ht. specialize (Ht c Hi). bprop. unfold is_byte. lia. }
  apply sends_then; [apply (sends_text fuel line wait); by apply Hp |].
  apply sends_then. { destruct (Z.ltb_spec (vector r) 32).
    - rewrite exc_name_some by done. apply (sends_text fuel line wait), exc_name_plain.
    - unfold exc_name. destruct (Z.ltb_spec (vector r) 32); [lia |]. by apply sends_ret. }
  do 7 (apply (sends_reg fuel line wait); [by apply Hp | done |]).
  apply sends_then.
  - destruct (Z.eqb_spec (vector r) 14) as [E |]; [| by apply sends_ret]. apply (sends_reg fuel line wait); [by apply Hp | done |]. apply sends_then; [apply (sends_text fuel line wait); by apply Hp |].
    assert (length code = 16%nat) as <- by (unfold zlen in Hl; lia). apply (sends_code fuel line wait); [done |]. intros i Hi. apply Hm; [done | lia].
  - pose proof (print_spec fuel line wait [10]) as Hn. apply Hn. by repeat constructor.
Qed.

(** Also: an exception is reported: for every vector, on a console that works and a serial line, the
    handler shows the name of the exception, and of a page fault the 16 digits of its
    address, in red on a new line, then sends the name, the error code and seven registers,
    and of a page fault also the address and 16 bytes of code; it resumes the program after a
    breakpoint and stops the machine after everything else. *)
Theorem isr_reports (r : regs) (code : list Z) (g : gpu) (h : H) (Hv : 0 <= vector r) (Hr : Forall is_word [error_code r; rip r; r_rsp r; rax r; rbx r; rcx r; rbp r; cr2])
    (Hl : zlen code = 16) (Hc : Forall is_byte code) (Hm : vector r = 14 -> forall i, 0 <= i < 16 -> m (rip r + i) = zlook code i) (Hg : C g) (Hw : (wait h < fuel)%nat) :
  exists g1 h', isr_handler font (serial_print fuel) (serial_print_hex fuel) m cr2 r g h = Some ((gpu_set_color 0x0F 0x00 g1, if vector r =? 3 then Resume else Hang), h') /\
    gpu_print font (isr_text r cr2) (gpu_set_color 0x0C 0x00 g) = Some g1 /\ C (gpu_set_color 0x0F 0x00 g1) /\
    line h' = line h ++ isr_line r cr2 code /\ zlen (hex16 cr2) = 16 /\ value 16 (map char_digit (hex16 cr2)) = cr2.
Proof using HU HC.
  destruct (print_ok font C (isr_text r cr2) (gpu_set_color 0x0C 0x00 g) (con_color _ _ _ Hg)) as (g1 & E1 & H1).
  destruct (isr_serial_sends r code Hv Hr Hl Hc Hm h Hw) as ([] & h' & E & _ & L & _). exists g1, h'.
  rewrite !Forall_cons in Hr. split; [| split; [done |]; split; [by apply con_color |]; split; [done | apply hex16_value, Hr]].
  unfold isr_handler. eapply gives_bind; [apply gives_lift; by rewrite isr_screen_text, E1 |]. eapply gives_bind; [exact E | apply gives_ret].
Qed.
End report_claims.

Section refault.
Context {H : Type} (font : Z -> Z) (log : list Z -> io H unit) (log_hex : Z -> io H unit) (m : Z -> option Z) (cr2 : Z).

Definition fails {A} (t : io H A) : Prop := forall h, t h = None.
Lemma fails_bind {A B} (t : io H A) (k : A -> io H B) : (forall x, fails (k x)) -> fails (t ≫= k).
Proof using. intros Hk h. unfold mbind, io_bind. destruct (t h) as [[x h'] |]; [apply Hk | done]. Qed.
Lemma fails_first {A B} (t : io H A) (k : A -> io H B) : fails t -> fails (t ≫= k).
Proof using. intros Ht h. unfold mbind, io_bind. by rewrite Ht. Qed.

(** Also: the report of a page fault reads the interrupted instruction: when its address is not mapped,
    as in a jump to a wrong address, the handler faults again before it is done, and so
    does the handler of that fault, in every state of the screen and the line. *)
Theorem isr_refaults (r : regs) (g : gpu) (h : H) (Hv : vector r = 14) (Hm : m (rip r) = None) : isr_handler font log log_hex m cr2 r g h = None.
Proof using.
  revert h. change (fails (isr_handler font log log_hex m cr2 r g)). unfold isr_handler. apply fails_bind. intros g'. apply fails_first.
  unfold isr_serial. rewrite Hv. change (14 =? 14) with true. cbv iota. do 9 (apply fails_bind; intros _). apply fails_first.
  do 2 (apply fails_bind; intros _). cbn [log_code]. apply fails_first. intros h. by rewrite Hm.
Qed.
End refault.

(** ** Machines with these devices *)

(** The two controllers, and a keyboard controller with nothing to say. *)
Definition pics : Type := chip * chip.
Definition chip_cmd (v : Z) (c : chip) : chip := if v =? 0x11 then chip_start c else if v =? 0x20 then chip_eoi c else c.
#[export] Instance pics_machine : machine pics := {
  in8 p h := (0x21, h);
  out8 p v h := if p =? 0x20 then (chip_cmd v (fst h), snd h) else if p =? 0x21 then (chip_data v (fst h), snd h)
                else if p =? 0xA0 then (fst h, chip_cmd v (snd h)) else if p =? 0xA1 then (fst h, chip_data v (snd h)) else h;
  in16 p h := (0, h); in32 p h := (0, h); out16 p v h := h; out32 p v h := h }.
#[export] Instance pics_one : pic_chip pics 0x20 0x21 fst.
Proof.
  split; try done. intros p v h H1 H2. cbn [out8 pics_machine]. rewrite (proj2 (Z.eqb_neq p 0x20)), (proj2 (Z.eqb_neq p 0x21)) by done.
  by destruct (p =? 0xA0), (p =? 0xA1).
Qed.
#[export] Instance pics_two : pic_chip pics 0xA0 0xA1 snd.
Proof.
  split; try done. intros p v h H1 H2. cbn [out8 pics_machine]. rewrite (proj2 (Z.eqb_neq p 0xA0)), (proj2 (Z.eqb_neq p 0xA1)) by done.
  by destruct (p =? 0x20), (p =? 0x21).
Qed.

Definition chip_any : chip := Chip 0 8 0 0 0xFF [3].
Lemma pic_remap_spec_witness : exists h g p, pic_remap (chip_any, chip_any) = Some (tt, h) /\
  idt_init (stubs_ex 32 0x100000) (stubs_ex 16 0x101000) 0x102000 0x103000 (replicate 256 no_gate) = Some (g, p) /\
  (exists a b, raised (fst h) (snd h) 12 = Some (44, a, b)) /\ gate_of g 44 = Some (Gate 0x1010C0 0x08 14 0) /\ raised (fst h) (snd h) 3 = None.
Proof.
  assert (forall n a, 0 <= a < 2 ^ 32 -> (n <= 256)%nat -> Forall (fun a => 0 <= a < 2 ^ 64) (stubs_ex n a)) as Hs.
  { intros n a Ha Hn. apply Forall_map, Forall_forall. intros i Hi. apply elem_of_seq in Hi. lia. }
  destruct (pic_remap_spec fst snd (chip_any, chip_any) (stubs_ex 32 0x100000) (stubs_ex 16 0x101000) 0x102000 0x103000 eq_refl eq_refl
    (Hs 32%nat 0x100000 ltac:(lia) ltac:(lia)) (Hs 16%nat 0x101000 ltac:(lia) ltac:(lia)) ltac:(lia)) as (h & g & p & E & Eg & Hr).
  exists h, g, p. split; [exact E |]. split; [exact Eg |].
  destruct (Hr 12 ltac:(lia)) as [[_ H12] G12]. destruct H12 as [[[vec a] b] E12]; [tauto |]. destruct (G12 _ _ _ E12) as [-> G].
  split; [by exists a, b |]. split; [exact G |]. destruct (Hr 3 ltac:(lia)) as [[H3 _] _]. destruct (raised (fst h) (snd h) 3); [| done].
  destruct (H3 ltac:(by eexists)) as [E3 | [E3 | [E3 | E3]]]; discriminate E3.
Defined.
Lemma pit_init_spec_witness : pit_init 100 (chip_one, chip_two) = Some (tt, out8 0x40 0x2E (out8 0x40 0x9B (out8 0x43 0x36 (chip_one, chip_two)))).
Proof.
  destruct (pit_init_spec 100 (chip_one, chip_two) ltac:(lia)) as (lo & hi & E & Hlo & Hhi & Hr & _). specialize (Hr ltac:(unfold PIT_FREQ; lia)).
  unfold is_byte, PIT_FREQ in *. assert (hi = 0x2E /\ lo = 0x9B) as [-> ->] by lia. exact E.
Defined.
Definition state_ex : cpu_state := CpuState 41 kernel_ex (Kbd [] 0 0 0 0 []) (Mouse 0 0 0 0 [0; 0; 0]).
Lemma irq_handler_spec_witness : exists s h, irq_handler 44 state_ex (chip_serve 2 chip_one, chip_serve 4 chip_two) = Some (s, h) /\ fst h = chip_one /\ snd h = chip_two /\ g_ticks s = 41.
Proof.
  destruct (irq_handler_spec fst snd state_ex 12 44 (chip_serve 2 chip_one) (chip_serve 4 chip_two) (chip_one, chip_two) (chip_serve 2 chip_one, chip_serve 4 chip_two)
    [0x2000; 0x3000; 0x4000] ltac:(lia) (conj eq_refl eq_refl) eq_refl eq_refl eq_refl kernel_ex_wf) as (s & h & E & E1 & E2 & _ & Et & _).
  exists s, h. split; [exact E |]. split; [exact E1 |]. split; [exact E2 | exact Et].
Defined.

(** A controller that is late once after each byte. *)
Record kc_sim := KcSim { ks_ps2 : ps2; ks_late : nat }.
Definition kc_status_of (h : kc_sim) : Z := if (ks_late h =? 0)%nat then (if bool_decide (is_Some (ps_out (ks_ps2 h))) then 1 else 0) else 2.
#[export] Instance kc_machine : machine kc_sim := {
  in8 p h := if p =? 0x64 then (kc_status_of h, KcSim (ks_ps2 h) (pred (ks_late h))) else (u8 (default 0 (ps_out (ks_ps2 h))), KcSim (ps2_read (ks_ps2 h)) (ks_late h));
  out8 p v h := if p =? 0x64 then KcSim (ps2_command v (ks_ps2 h)) 1 else KcSim (ps2_data v (ks_ps2 h)) 1;
  in16 p h := (0, h); in32 p h := (0, h); out16 p v h := h; out32 p v h := h }.
#[export] Instance kc_laws : i8042 kc_sim ks_ps2 ks_late.
Proof.
  assert (1 < PS2_POLLS)%nat as Hone by (unfold PS2_POLLS; lia). split.
  - intros h. exists (kc_status_of h), (KcSim (ks_ps2 h) (pred (ks_late h))). split; [done |]. unfold kc_status_of, is_byte.
    destruct (ks_late h =? 0)%nat; [| done]. by destruct (bool_decide _).
  - intros h v _ _. by split.
  - intros h v _. by split.
  - intros h x Hl Hx Hb. eexists. cbn [in8 kc_machine]. change (0x60 =? 0x64) with false. cbv iota. rewrite Hx. cbn [default]. split; [by rewrite u8_id |].
    split; [done |]. cbn [ks_late]. rewrite Hl. lia.
Qed.
Definition no_log {H} (_ : list Z) : io H unit := mret tt.
Lemma mouse_init_spec_witness : exists h, mouse_init no_log (Mouse 3 4 0 2 [8; 1; 1]) 0 (KcSim (Ps2 0x61 false 0 None []) 1) = Some ((Mouse 3 4 0 0 [8; 1; 1], 1), h) /\
  ps_mouse (ks_ps2 h) = [0xF6; 0xF3; 100; 0xF4] /\ Z.testbit (ps_config (ks_ps2 h)) 5 = false.
Proof.
  destruct (mouse_init_spec no_log (fun s h => eq_refl) ks_ps2 ks_late (Mouse 3 4 0 2 [8; 1; 1]) 0 (KcSim (Ps2 0x61 false 0 None []) 1)) as [Hi _].
  destruct (Hi kc_laws) as (h & E & _ & Em & _ & Eb); [unfold PS2_POLLS; cbn; lia | unfold is_byte; cbn; lia |].
  exists h. split; [exact E |]. split; [exact Em | exact (Eb 5 ltac:(lia))].
Defined.

Definition regs_ex (v : Z) : regs := Regs 0 0 0 0 0 0 0 0 0x7000 0 0 0 3 2 1 v 2 0x400000 0x1B 0x202 0x6FF0 0x23.
Lemma isr_reports_witness : exists g h, isr_handler (fun _ => 0) (serial_print 2) (serial_print_hex 2) (fun _ => Some 0x90) 0xDEAD (regs_ex 14) (gpu_ex 0) (Wire [] 0) = Some ((g, Hang), h) /\
  w_line h = txt "[EXCECAO] Page Fault err=0x2 rip=0x400000 rsp=0x6FF0 rax=0x1 rbx=0x2 rcx=0x3 rbp=0x7000 cr2=0xDEAD code=" ++
    concat (replicate 16 (txt "0x90 ")) ++ [13; 10].
Proof.
  destruct (isr_reports 2 w_line w_wait (fun _ => 0) text_console (fun _ => Some 0x90) 0xDEAD (regs_ex 14) (replicate 16 0x90) (gpu_ex 0) (Wire [] 0)) as (g1 & h & E & _ & _ & L & _).
  - cbn. lia.
  - unfold is_word. repeat (constructor; [cbn; lia |]). constructor.
  - reflexivity.
  - by apply Forall_replicate.
  - intros _ i Hi. symmetry. apply zlook_replicate. exact Hi.
  - exists screen_ex. exact gpu_ex_shows.
  - cbn. lia.
  - eexists _, h. split; [exact E |]. rewrite L. vm_compute. reflexivity.
Defined.
Lemma isr_refaults_witness : isr_handler (fun _ => 0) (serial_print 2) (serial_print_hex 2) (fun a => if a =? 0x400000 then None else Some 0x90) 0x400000 (regs_ex 14) (gpu_ex 0) (Wire [] 0) = None.
Proof. exact (isr_refaults (fun _ => 0) (serial_print 2) (serial_print_hex 2) (fun a => if a =? 0x400000 then None else Some 0x90) 0x400000 (regs_ex 14) (gpu_ex 0) (Wire [] 0) eq_refl eq_refl). Defined.
