(* ===== verification/Display.v ===== *)
(** * Starting the display (src/drivers/gpu.c, fb_init_from_vbe and gpu_init_framebuffer)

    What the boot loader left about the video mode decides between the text console and
    the framebuffer; the framebuffer is mapped with the page tables of Paging.v and its
    second buffer comes from the heap of Heap.v. The memory of the card is an argument.
    The console of Gpu.v relies on an invariant, which is established here. *)

From Stdlib Require Import String.
From S2P Require Import Prelude Memory Pmm Paging Heap Gpu KPath Ports Acpi.

(** The packed structure of the firmware: names and sizes of its fields. *)
Definition vbe_mode_info_t : list (string * Z) :=
  [("attributes", 2); ("win_a", 1); ("win_b", 1); ("granularity", 2); ("win_size", 2); ("segment_a", 2); ("segment_b", 2); ("win_func_ptr", 4);
   ("pitch", 2); ("width", 2); ("height", 2); ("w_char", 1); ("y_char", 1); ("planes", 1); ("bpp", 1); ("banks", 1); ("memory_model", 1);
   ("bank_size", 1); ("image_pages", 1); ("reserved0", 1); ("red_mask", 1); ("red_position", 1); ("green_mask", 1); ("green_position", 1);
   ("blue_mask", 1); ("blue_position", 1); ("reserved_mask", 1); ("reserved_position", 1); ("direct_color_attributes", 1); ("framebuffer", 4)]%string.
Definition vbe16 (info : list Z) (f : string) : Z := load16 info (offset_of f vbe_mode_info_t).
Definition vbe_attributes (info : list Z) : Z := vbe16 info "attributes".
Definition vbe_pitch (info : list Z) : Z := vbe16 info "pitch".
Definition vbe_width (info : list Z) : Z := vbe16 info "width".
Definition vbe_height (info : list Z) : Z := vbe16 info "height".
Definition vbe_bpp (info : list Z) : Z := info.[offset_of "bpp" vbe_mode_info_t].
Definition vbe_framebuffer (info : list Z) : Z := load32 info (offset_of "framebuffer" vbe_mode_info_t).

(** The modes that are used. *)
Definition usable_mode (info : list Z) : bool :=
  istrue (Z.land (vbe_attributes info) 0x80) && istrue (vbe_framebuffer info) &&
  negb ((vbe_width info <? FONT_W) || (vbe_height info <? FONT_H)) &&
  ((vbe_bpp info =? 16) || (vbe_bpp info =? 24) || (vbe_bpp info =? 32)).

Definition with_framebuffer (front : list Z) (w h pitch bpp : Z) (g : gpu) : gpu :=
  let cols := w / FONT_W in
  let rows := h / FONT_H in
  Gpu (g_row g) (g_col g) (g_color g) (vga g) 1 front (g_fb_back g) w h pitch bpp (g_target_back g) (bufs g)
    (g_render_target g) (g_render_pitch g) (g_render_w g) (g_render_h g) (g_render_bpp g) 0 0 (u16 cols) (u16 rows) cols rows (g_ports g).

(** The first page and the number of pages of the framebuffer. *)
Definition fb_map_base (info : list Z) : Z := Z.land (vbe_framebuffer info) (u64 (Z.lnot (PAGE_SIZE - 1))).
Definition fb_pages (info : list Z) : Z :=
  let map_bytes := u64 (vbe_pitch info * vbe_height info + u64 (vbe_framebuffer info - fb_map_base info)) in
  u64 (map_bytes + PAGE_SIZE - 1) / PAGE_SIZE.

Section display.
(** [n] bytes of the card's memory at an address, as found at the start. *)
Context (vram : Z -> Z -> list Z).
Context {H : Type} (log : list Z -> io H unit) (log_dec : Z -> io H unit).

Definition fb_init_from_vbe (info : list Z) (h : heap) (g : gpu) : option (heap * gpu) :=
  if negb (usable_mode info) then Some (h, g)
  else
    r ← paging_map_range (fb_map_base info) (fb_map_base info) (fb_pages info) PAGE_RW (h_mach h);
    let h := set_mach (snd r) h in
    if fst r <? 0 then Some (h, g)
    else Some (h, with_framebuffer (vram (vbe_framebuffer info) (vbe_pitch info * vbe_height info))
                    (vbe_width info) (vbe_height info) (vbe_pitch info) (vbe_bpp info) g).

(** [for (size_t i = 0; i < fb_size; i++) g_fb_back[i] = g_fb[i];] on an array of that size. *)
Definition copy_front (n : Z) (front : list Z) : option (list Z) :=
  loopM (Z.to_nat n) 0 (fun i back => v ← zlook front i; put back i v) (replicate (Z.to_nat n) 0).

Definition gpu_init_framebuffer (info : list Z) (h : heap) (g : gpu) : io H (heap * gpu) :=
  if istrue (g_fb_enabled g) then mret (h, g)
  else
    r ← lift (fb_init_from_vbe info h g);
    let '(h, g) := r : heap * gpu in
    if istrue (g_fb_enabled g) then
      _ ← log (txt "[gpu] framebuffer enabled "); _ ← log_dec (g_fb_width g);
      _ ← log (txt "x"); _ ← log_dec (g_fb_height g);
      _ ← log (txt "x"); _ ← log_dec (g_fb_bpp g); _ ← log [10];
      g ← lift (gpu_clear 0x0F 0x00 g);
      let fb_size := g_fb_pitch g * g_fb_height g in
      r ← lift (kmalloc (u32 fb_size) h);
      let '(p, h) := r : Z * heap in
      if istrue p then
        back ← lift (copy_front fb_size (g_fb g));
        _ ← log (ln "[gpu] back buffer allocated"); mret (h, set_back (Some back) g)
      else _ ← log (ln "[gpu] back buffer FAILED"); mret (h, g)
    else _ ← log (ln "[gpu] framebuffer unavailable, using VGA text fallback"); mret (h, g).
End display.

(** ** The console is ready *)

Lemma load16_range l i : bytes l -> 0 <= load16 l i < 65536.
Proof. intros Hb. pose proof (zget_byte l i Hb). pose proof (zget_byte l (i + 1) Hb). unfold load16, is_byte in *. lia. Qed.

Lemma copy_front_all n front : zlen front = n -> copy_front n front = Some front.
Proof.
  intros Hn. pose proof (zlen_nonneg front) as H0. unfold copy_front.
  destruct (loopM_inv (fun i back => zlen back = n /\ forall j, 0 <= j < i -> back.[j] = front.[j]) (fun i back => v ← zlook front i; put back i v)
    (Z.to_nat n) 0 (replicate (Z.to_nat n) 0)) as (back & E & Hl & Hb).
  - split; [rewrite zlen_replicate; lia | lia].
  - intros i back Hi [Hl Hb]. rewrite zlook_get by lia. cbn [mbind option_bind]. rewrite put_in by lia. eexists. split; [done |].
    split; [by rewrite zset_zlen |]. intros j Hj. destruct (Z.eq_dec j i) as [-> | Hne]; [by rewrite zget_zset_eq by lia |].
    rewrite zget_zset_ne by lia. apply Hb. lia.
  - rewrite E. f_equal. apply zlist_ext; [lia |]. intros i Hi. apply Hb. lia.
Qed.

Section ready.
Context (vram : Z -> Z -> list Z) (info : list Z).
Hypothesis Hvram : forall a n, 0 <= n -> zlen (vram a n) = n.
Hypothesis Hinfo : bytes info.
(** A row of the mode has room for its pixels. *)
Hypothesis Hpitch : vbe_width info * (vbe_bpp info / 8) <= vbe_pitch info.

(** The framebuffer just switched on. *)
Lemma fresh_console g : usable_mode info = true -> g_render_target g = 0 -> g_fb_back g = None -> g_row g = 0 -> g_col g = 0 ->
  let front := vram (vbe_framebuffer info) (vbe_pitch info * vbe_height info) in
  let g1 := with_framebuffer front (vbe_width info) (vbe_height info) (vbe_pitch info) (vbe_bpp info) g in
  fb_console g1 (Surface front (vbe_width info) (vbe_height info) (vbe_pitch info) (vbe_bpp info)).
Proof using Hvram Hinfo Hpitch.
  intros Hu Hr Hk Hrow Hcol front g1. unfold usable_mode in Hu. apply andb_prop in Hu as [Hu Hbpp]. apply andb_prop in Hu as [_ Hs].
  apply negb_true_iff, orb_false_iff in Hs as [Hw Hh]. apply Z.ltb_ge in Hw, Hh. unfold FONT_W, FONT_H in *.
  pose proof (load16_range info (offset_of "width" vbe_mode_info_t) Hinfo) as Hw'. pose proof (load16_range info (offset_of "height" vbe_mode_info_t) Hinfo) as Hh'.
  pose proof (load16_range info (offset_of "pitch" vbe_mode_info_t) Hinfo) as Hp'. fold (vbe16 info "width") in Hw'. fold (vbe16 info "height") in Hh'. fold (vbe16 info "pitch") in Hp'.
  fold (vbe_width info) in Hw'. fold (vbe_height info) in Hh'. fold (vbe_pitch info) in Hp'.
  assert (zlen front = vbe_pitch info * vbe_height info) as Hf by (apply Hvram; nia).
  split; cbn [s_w s_h s_pitch s_bpp s_bytes].
  - done.
  - unfold fb_target. cbn [g_render_target g1 with_framebuffer g_fb_back g_fb g_fb_width g_fb_height g_fb_pitch g_fb_bpp]. rewrite Hr, Hk. done.
  - split; cbn [s_w s_h s_pitch s_bpp s_bytes]; [lia | lia | lia | | exact Hpitch | lia].
    destruct (Z.eqb_spec (vbe_bpp info) 16), (Z.eqb_spec (vbe_bpp info) 24), (Z.eqb_spec (vbe_bpp info) 32); try done; tauto.
  - done.
  - cbn [g1 with_framebuffer g_vp_cols g_vp_x]. unfold FONT_W. rewrite u16_id by lia. lia.
  - cbn [g1 with_framebuffer g_vp_rows g_vp_y]. unfold FONT_H. rewrite u16_id by lia. lia.
Qed.
End ready.

Lemma color_console g s c : fb_console g s -> fb_console (set_color c g) s.
Proof. intros [H1 H2 H3 H4 H5 H6]. by split. Qed.
Lemma back_console g s b : fb_console g s -> g_render_target g = 0 -> g_target_back g = 0 -> g_fb_back g = None -> fb_console (set_back (Some b) g) s.
Proof.
  intros [H1 H2 H3 H4 H5 H6] Hr Ht Hk. split; try done. unfold fb_target in *. cbn [set_back set_pixels g_render_target g_fb_back g_target_back g_fb].
  rewrite Hr, Ht in *. rewrite Hk in H2. exact H2.
Qed.

Section claims.
Context (vram : Z -> Z -> list Z) {H : Type} (log : list Z -> io H unit) (log_dec : Z -> io H unit).
Hypothesis Hvram : forall a n, 0 <= n -> zlen (vram a n) = n.
Hypothesis Hlog : forall s h, gives (log s) h h tt.
Hypothesis Hdec : forall v h, gives (log_dec v) h h tt.

(** The screen is cleared and the second buffer, if there is memory, is a copy. *)
Lemma clear_fresh g s : fb_console g s -> g_render_target g = 0 -> g_fb_back g = None ->
  exists g' s', gpu_clear 0x0F 0x00 g = Some g' /\ fb_console g' s' /\ same_geo s s' /\ g_row g' = 0 /\ g_col g' = 0 /\
    g_render_target g' = 0 /\ g_fb_back g' = None /\ g_target_back g' = g_target_back g /\ g_vp_cols g' = g_vp_cols g /\ g_vp_rows g' = g_vp_rows g /\
    g_fb_pitch g' = g_fb_pitch g /\ g_fb_height g' = g_fb_height g /\ g_fb g' = s_bytes s'.
Proof using.
  intros Hc Hr Hk. unfold gpu_clear. cbv zeta. change (g_fb_enabled (set_cursor_pos 0 0 (gpu_set_color 15 0 g))) with (g_fb_enabled g).
  rewrite (fc_on g s Hc). pose proof (cursor_console _ s 0 0 (color_console g s (u8 (Z.lor 15 (Z.shiftl 0 4))) Hc)) as Hc1.
  fold (gpu_set_color 15 0 g) in Hc1. set (g1 := set_cursor_pos 0 0 (gpu_set_color 15 0 g)) in *.
  destruct (draw_console (fb_fill_rect 0 0 (g_fb_width g1) (g_fb_height g1) (rgb_for_color 0)) g1 s Hc1) as (l & s' & E & Hc' & Hg); [apply fill_rect_drawn, Hc |].
  exists (store_target l g1), s'. split; [exact E |]. split; [exact Hc' |]. split; [exact Hg |].
  pose proof (fc_target _ _ Hc') as Ht. unfold store_target in *. cbn [g1 set_cursor_pos gpu_set_color set_color set_text g_render_target g_fb_back] in *. rewrite Hr, Hk in *.
  cbn [istrue negb Z.eqb] in *. do 9 (split; [done || assumption |]). unfold fb_target in Ht. cbn in Ht. rewrite Hr, Hk in Ht. cbn in Ht. by injection Ht as <-.
Qed.

Lemma init_framebuffer_ready (info : list Z) (h : heap) (bs : list blk) (own : gmap Z (nat * Z)) (g : gpu) (sc : screen) (st : H)
    (Hb : bytes info) (Hp : vbe_width info * (vbe_bpp info / 8) <= vbe_pitch info) (R : repr h bs) (G : good (g_pml4 (h_mach h)) (h_mach h) own)
    (Hs : shows g sc) (Hr : g_render_target g = 0) (Ht : g_target_back g = 0) (Hk : g_fb_back g = None) :
  exists h' g' own', gpu_init_framebuffer vram log log_dec info h g st = Some ((h', g'), st) /\ good (g_pml4 (h_mach h')) (h_mach h') own' /\
    ((g' = g /\ text_console g') \/
     (usable_mode info = true /\ pixel_console (vbe_width info / 8) (vbe_height info / 16) g' /\ g_row g' = 0 /\ g_col g' = 0 /\
      (g_fb_back g' = None \/ g_fb_back g' = Some (g_fb g')))) /\
    (usable_mode info = false -> g' = g).
Proof using Hvram Hlog Hdec.
  unfold gpu_init_framebuffer. rewrite (sh_text g sc Hs). change (istrue 0) with false. cbv iota.
  destruct (usable_mode info) eqn:Eu.
  2: { exists h, g, own. split; [| split; [done |]; split; [left; split; [done | by exists sc] | done]].
    eapply gives_bind; [apply gives_lift; unfold fb_init_from_vbe; by rewrite Eu |]. cbv iota. rewrite (sh_text g sc Hs). change (istrue 0) with false. cbv iota.
    eapply gives_bind; [apply Hlog | apply gives_ret]. }
  destruct (map_range_keeps (Z.to_nat (fb_pages info)) 0 (fb_map_base info) (fb_map_base info) PAGE_RW (h_mach h) own G eq_refl) as (r & s1 & own1 & Em & G1 & _).
  assert (fb_init_from_vbe vram info h g = Some (if r <? 0 then (set_mach s1 h, g) else (set_mach s1 h,
    with_framebuffer (vram (vbe_framebuffer info) (vbe_pitch info * vbe_height info)) (vbe_width info) (vbe_height info) (vbe_pitch info) (vbe_bpp info) g))) as Ei.
  { unfold fb_init_from_vbe, paging_map_range. rewrite Eu, Em. cbn [negb mbind option_bind fst snd]. by destruct (r <? 0). }
  destruct (r <? 0).
  { exists (set_mach s1 h), g, own1. split; [| split; [done |]; split; [left; split; [done | by exists sc] | done]].
    eapply gives_bind; [by apply gives_lift |]. cbv iota. rewrite (sh_text g sc Hs). change (istrue 0) with false. cbv iota. eapply gives_bind; [apply Hlog | apply gives_ret]. }
  set (front := vram _ _) in *. set (g1 := with_framebuffer _ _ _ _ _ g) in *.
  assert (fb_console g1 (Surface front (vbe_width info) (vbe_height info) (vbe_pitch info) (vbe_bpp info))) as Hc.
  { pose proof (fresh_console vram info Hvram Hb Hp (set_cursor_pos 0 0 g) Eu Hr Hk eq_refl eq_refl) as Hf. cbv zeta in Hf. fold front in Hf.
    destruct Hf as [F1 F2 F3 F4 F5 F6]. by split. }
  destruct (clear_fresh g1 _ Hc Hr Hk) as (g2 & s2 & E2 & Hc2 & Hg2 & Row & Col & Hr2 & Hk2 & Ht2 & Ec & Er & Ep & Eh & Ef).
  assert (zlen (g_fb g2) = g_fb_pitch g2 * g_fb_height g2) as El.
  { rewrite Ef, Ep, Eh. destruct Hg2 as [_ ->]. cbn [s_bytes]. apply (Hvram _ (vbe_pitch info * vbe_height info)), Z.mul_nonneg_nonneg; apply (load16_range info _ Hb). }
  assert (0 < g_fb_pitch g2 * g_fb_height g2 < 4294967296) as Hsz.
  { rewrite Ep, Eh. cbn [g1 with_framebuffer g_fb_pitch g_fb_height]. pose proof (fc_w _ _ Hc) as [Hw1 Hw2]. pose proof (fc_h _ _ Hc) as [Hh1 Hh2]. cbn [s_w s_h] in *.
    pose proof (sf_bpp _ (fc_ok _ _ Hc)) as Hbpp. pose proof (sf_pitch _ (fc_ok _ _ Hc)) as Hpr. pose proof (sf_h _ (fc_ok _ _ Hc)) as Hhr. cbn [s_bpp s_pitch s_h] in *.
    unfold FONT_W, FONT_H in *. cbn [g1 with_framebuffer g_vp_x g_vp_y] in *.
    assert (2 <= vbe_bpp info / 8) by (destruct Hbpp as [-> | [-> | ->]]; lia). nia. }
  assert (repr (set_mach s1 h) bs) as R1 by (destruct R as [R1 R2 R3 R4 R5]; by split).
  destruct (kmalloc_keeps (u32 (g_fb_pitch g2 * g_fb_height g2)) (set_mach s1 h) bs own1 R1 ltac:(rewrite u32_id; lia) G1) as (p & h3 & own3 & E3 & G3).
  assert (pixel_console (vbe_width info / 8) (vbe_height info / 16) g2) as Hpc.
  { split; [by exists s2 |]. pose proof (fc_w _ _ Hc2) as [Hw1 _]. pose proof (fc_h _ _ Hc2) as [Hh1 _]. split; [unfold cursor_in; rewrite Row, Col; lia |].
    rewrite Ec, Er. cbn [g1 with_framebuffer g_vp_cols g_vp_rows]. unfold FONT_W, FONT_H.
    destruct (load16_range info 18 Hb), (load16_range info 20 Hb). change (vbe_width info) with (load16 info 18). change (vbe_height info) with (load16 info 20).
    rewrite !u16_id by lia. done. }
  exists h3, (if istrue p then set_back (Some (g_fb g2)) g2 else g2), own3. split; [| split; [done |]; split; [right | done]].
  - eapply gives_bind; [by apply gives_lift |]. cbv iota. change (istrue (g_fb_enabled g1)) with true. cbv iota.
    eapply gives_bind; [apply Hlog |]. eapply gives_bind; [apply Hdec |]. eapply gives_bind; [apply Hlog |]. eapply gives_bind; [apply Hdec |].
    eapply gives_bind; [apply Hlog |]. eapply gives_bind; [apply Hdec |]. eapply gives_bind; [apply Hlog |].
    eapply gives_bind; [by apply gives_lift |]. cbv zeta. eapply gives_bind; [by apply gives_lift |]. cbv iota. destruct (istrue p).
    + eapply gives_bind; [apply gives_lift; by apply copy_front_all |]. eapply gives_bind; [apply Hlog | apply gives_ret].
    + eapply gives_bind; [apply Hlog | apply gives_ret].
  - split; [done |]. destruct (istrue p); [| split; [done |]; split; [done |]; split; [done | by left]].
    destruct Hpc as ((s' & Hc') & Hcur & Hcc & Hrr). split; [| split; [done |]; split; [done | by right]].
    split; [exists s'; apply back_console; [done | done | by rewrite Ht2 | done] | done].
Qed.

(** Also: the display starts or the text console stays: with well-formed page tables and heap, and a
    mode whose rows have room for their pixels, [gpu_init_framebuffer] ends without a
    fault. When the mode is usable and could be mapped, the framebuffer console holds its
    invariant, over the whole screen in cells of 8 by 16 pixels, with the cursor at the
    start, and the second buffer, if the heap had room, is a copy of the screen; otherwise
    the console is as it was. *)
Theorem gpu_init_framebuffer_ready (info : list Z) (h : heap) (bs : list blk) (own : gmap Z (nat * Z)) (g : gpu) (sc : screen) (st : H)
    (Hb : bytes info) (Hp : vbe_width info * (vbe_bpp info / 8) <= vbe_pitch info) (R : repr h bs) (G : good (g_pml4 (h_mach h)) (h_mach h) own)
    (Hs : shows g sc) (Hr : g_render_target g = 0) (Ht : g_target_back g = 0) (Hk : g_fb_back g = None) :
  exists h' g' own', gpu_init_framebuffer vram log log_dec info h g st = Some ((h', g'), st) /\ good (g_pml4 (h_mach h')) (h_mach h') own' /\
    ((g' = g /\ text_console g') \/
     (usable_mode info = true /\ pixel_console (vbe_width info / 8) (vbe_height info / 16) g' /\ g_row g' = 0 /\ g_col g' = 0 /\
      (g_fb_back g' = None \/ g_fb_back g' = Some (g_fb g')))) /\
    (usable_mode info = false -> g' = g).
Proof using Hvram Hlog Hdec. exact (init_framebuffer_ready info h bs own g sc st Hb Hp R G Hs Hr Ht Hk). Qed.
End claims.

(** ** A mode of 16 by 32 pixels *)

Definition info_ex : list Z := [0x9B; 0] ++ replicate 14 0 ++ [64; 0; 16; 0; 32; 0] ++ replicate 3 0 ++ [32] ++ replicate 14 0 ++ [0; 0; 0; 0xFD].
Definition grey (_ n : Z) : list Z := replicate (Z.to_nat n) 7.
Definition quiet {A} (_ : A) : io unit unit := mret tt.

Example usable_ex : (usable_mode info_ex, vbe_width info_ex, vbe_height info_ex, vbe_framebuffer info_ex, fb_map_base info_ex, fb_pages info_ex) = (true, 16, 32, 0xFD000000, 0xFD000000, 1).
Proof. vm_compute. reflexivity. Qed.
Example framebuffer_ex : (h ← heap_init (heap_boot mach0); r ← gpu_init_framebuffer grey quiet quiet info_ex h (gpu_ex 0) tt;
  Some (g_fb_enabled (snd (fst r)), g_vp_cols (snd (fst r)), g_vp_rows (snd (fst r)), bool_decide (g_fb_back (snd (fst r)) = Some (g_fb (snd (fst r))))) : option (Z * Z * Z * bool)) = Some (1, 2, 2, true).
Proof. vm_compute. reflexivity. Qed.

Lemma gpu_init_framebuffer_ready_witness : exists h h' g', heap_init (heap_boot mach0) = Some h /\
  gpu_init_framebuffer grey quiet quiet info_ex h (gpu_ex 0) tt = Some ((h', g'), tt) /\ (g' = gpu_ex 0 \/ pixel_console 2 2 g').
Proof.
  destruct (heap_init_correct mach0 own0 mach0_good ltac:(done)) as (h & own' & E & R & G). exists h.
  destruct (gpu_init_framebuffer_ready grey quiet quiet) with (info := info_ex) (h := h) (bs := [Blk 1048576 true]) (own := own') (g := gpu_ex 0) (sc := screen_ex) (st := tt)
    as (h' & g' & _ & E' & _ & Hc & _).
  - intros a n Hn. unfold grey. rewrite zlen_replicate. lia.
  - done.
  - done.
  - unfold info_ex, bytes. repeat (apply Forall_app; split); repeat (constructor; [unfold is_byte; lia |]); try constructor; by apply Forall_replicate.
  - vm_compute. done.
  - exact R.
  - exact G.
  - exact gpu_ex_shows.
  - reflexivity.
  - reflexivity.
  - reflexivity.
  - exists h', g'. split; [exact E |]. split; [exact E' |]. destruct Hc as [[Hc _] | (_ & Hc & _)]; [by left | right; exact Hc].
Defined.
