(* ===== verification/Nic.v ===== *)
(** * Finding and starting the network card (src/drivers/rtl8139.c)

    The search on the PCI bus, the reset and the start of the card as the code does them,
    port by port, and the report of a packet on the serial line. The network stack uses
    the shorter [rtl8139_init] of Rtl8139.v, which is given what the search and the card
    answer: [nic_init_refines] shows that this is right. *)

From Stdlib Require Import String Ascii.
From S2P Require Import Prelude Pmm UserLib KPath Ports Serial Pci Rtl8139 Net.

Definition RTL8139_VENDOR : Z := 0x10EC.
Definition RTL8139_DEVICE : Z := 0x8139.
Definition RTL_MAC : Z := 0x00.

Definition g_hex : list Z := txt "0123456789ABCDEF".

Section driver.
Context {H : Type} `{machine H} (log : list Z -> io H unit) (log_hex log_dec log_char : Z -> io H unit).

Definition print_hex_byte (v : Z) : io H unit :=
  _ ← log_char g_hex.[Z.land (Z.shiftr v 4) 0x0F]; log_char g_hex.[Z.land v 0x0F].

Definition is_rtl8139 (vid : Z) : bool := (Z.land vid 0xFFFF =? RTL8139_VENDOR) && (Z.land (Z.shiftr vid 16) 0xFFFF =? RTL8139_DEVICE).

(** The device answered: its base is read and it is switched on. *)
Definition claim_device (bus dev : Z) : io H Z :=
  _ ← log (txt "[rtl8139] found at "); _ ← log_hex bus; _ ← log (txt ":"); _ ← log_hex dev; _ ← log [10];
  bar0 ← pci_read_config bus dev 0 0x10;
  let base := u16 (Z.land bar0 0xFFFC) in
  _ ← pci_write_config bus dev 0 0x04 0x05;
  _ ← log (txt "[rtl8139] I/O base: "); _ ← log_hex base; _ ← log [10]; mret base.
Fixpoint probe_devices (n : nat) (bus dev : Z) : io H (option Z) :=
  match n with
  | O => mret None
  | S n =>
      vid ← pci_read_config bus dev 0 0;
      if is_rtl8139 vid then base ← claim_device bus dev; mret (Some base) else probe_devices n bus (dev + 1)
  end.
Fixpoint probe_buses (n : nat) (bus : Z) : io H (option Z) :=
  match n with
  | O => mret None
  | S n => r ← probe_devices 32 bus 0; match r with Some base => mret (Some base) | None => probe_buses n (bus + 1) end
  end.

(** [outb], [outw] and [outl] of the driver, which the record of the card notes too. *)
Definition perform (w : port_write) : io H unit := match w with Outb p v => outb p v | Outw p v => outw p v | Outl p v => outl p v end.
Definition emit (w : port_write) (d : rtl) : io H rtl := _ ← perform w; mret (out w d).

Fixpoint read_mac (n : nat) (i : Z) (d : rtl) : io H (list Z) :=
  match n with O => mret [] | S n => v ← inb (reg d (RTL_MAC + i)); vs ← read_mac n (i + 1) d; mret (v :: vs) end.
(** The bytes with colons between them. *)
Fixpoint print_mac (mac : list Z) : io H unit :=
  match mac with
  | [] => mret tt
  | [v] => print_hex_byte v
  | v :: mac => _ ← print_hex_byte v; _ ← log (txt ":"); print_mac mac
  end.

(** The card is reset and tells its address. *)
Definition nic_reset (d : rtl) : io H (list Z * rtl) :=
  _ ← log (ln "[rtl8139] resetting...");
  d ← emit (Outb (reg d RTL_CR) RTL_CR_RST) d;
  _ ← wait_clear (Z.to_nat 10000) (reg d RTL_CR) RTL_CR_RST;
  mac ← read_mac ETH_ALEN 0 d;
  _ ← log (txt "[rtl8139] MAC: "); _ ← print_mac mac; _ ← log [10]; mret (mac, d).

(** The rest of the start: [r] is the answer of the frame allocator for the ring. *)
Definition after_reset (mac : list Z) (d : rtl) (r : Z * pmm) : io H (Z * rtl * pmm) :=
  let '(rx, p) := r in
  if negb (istrue rx) then
    _ ← log (ln "[rtl8139] RX buffer alloc failed");
    mret (-1, Rtl (g_io_base d) mac (g_rx_buffer d) (rx_addr d) (g_tx_buffer d) (g_tx_cur d) (g_rx_offset d) (wire d) (ports d), p)
  else
    let d := Rtl (g_io_base d) mac (replicate (Z.to_nat (3 * 4096)) 0) rx (g_tx_buffer d) (g_tx_cur d) 0 (wire d) (ports d) in
    d ← emit (Outl (reg d RTL_RBSTART) (u32 rx)) d;
    r ← lift (alloc_tx (Z.to_nat RTL_TX_BUFS) [] p);
    let '(ok, tx, p) := r : bool * list Z * pmm in
    let d := Rtl (g_io_base d) mac (g_rx_buffer d) rx tx (g_tx_cur d) 0 (wire d) (ports d) in
    if negb ok then _ ← log (ln "[rtl8139] TX buffer alloc failed"); mret (-1, d, p)
    else
      d ← emit (Outb (reg d RTL_IMR) 0) d;
      d ← emit (Outl (reg d RTL_RCR) RTL_RCR_ALL) d;
      d ← emit (Outb (reg d RTL_CR) (Z.lor RTL_CR_TE RTL_CR_RE)) d;
      _ ← log (ln "[rtl8139] ready"); mret (0, d, p).

Definition nic_init (p : pmm) (d : rtl) : io H (Z * rtl * pmm) :=
  _ ← log (ln "[rtl8139] probing PCI...");
  r ← probe_buses 256 0;
  match r with
  | None => _ ← log (ln "[rtl8139] not found"); mret (-1, d, p)
  | Some base =>
      let d := Rtl base (rtl_mac d) (g_rx_buffer d) (rx_addr d) (g_tx_buffer d) (g_tx_cur d) (g_rx_offset d) (wire d) (ports d) in
      r ← nic_reset d;
      let '(mac, d) := r : list Z * rtl in
      r ← lift (pmm_alloc_contiguous 3 p); after_reset mac d r
  end.

Definition rtl8139_io_base (d : rtl) : Z := g_io_base d.
Definition rtl8139_read_reg32 (offset : Z) (d : rtl) : io H Z := inl_port (reg d offset).
Definition rtl8139_read_reg16 (offset : Z) (d : rtl) : io H Z := inw (reg d offset).

(** A word of the packet, as it lies in memory. *)
Definition spa_at (data : list Z) (i : Z) : option Z := lo ← le16 data i; hi ← le16 data (i + 2); Some (lo + 65536 * hi).
Definition bswap16 (v : Z) : Z := u16 (Z.lor (Z.shiftl (u16 v) 8) (Z.shiftr (u16 v) 8)).

Definition rtl8139_print_packet (data : list Z) (len : Z) : io H unit :=
  if len <? 14 then mret tt
  else
    _ ← log (txt "  dst="); dst ← lift (bytes_at data 0 6); _ ← print_mac dst;
    _ ← log (txt " src="); src ← lift (bytes_at data 6 6); _ ← print_mac src;
    _ ← log (txt " type=0x"); type ← lift (le16 data 12); _ ← log_hex (bswap16 type); _ ← log [10];
    if (bswap16 type =? ETH_P_ARP) && (42 <=? len) then
      _ ← log (txt "  ARP op="); op ← lift (le16 data 20); _ ← log_dec (bswap16 op);
      spa ← lift (spa_at data 28);
      _ ← log (txt " spa="); _ ← log_hex (bswap16 (Z.shiftr spa 16)); _ ← log_hex (bswap16 (Z.land spa 0xFFFF)); log [10]
    else mret tt.
End driver.

(** ** The start is the one that the network stack relies on *)

(** Every place on the buses in the order of the search, and the first card there. *)
Definition first_on (cfg : Z -> Z -> Z -> Z -> Z) (bus : Z) (n : nat) (dev : Z) : option (Z * Z) :=
  option_map (fun d => (bus, d)) (List.find (fun d => is_rtl8139 (cfg bus d 0 0)) (seqZ dev (Z.of_nat n))).
Fixpoint first_nic (cfg : Z -> Z -> Z -> Z -> Z) (buses : list Z) : option (Z * Z) :=
  match buses with [] => None | b :: bs => match first_on cfg b 32 0 with Some x => Some x | None => first_nic cfg bs end end.
Definition nic_base (cfg : Z -> Z -> Z -> Z -> Z) (x : Z * Z) : Z := Z.land (cfg (fst x) (snd x) 0 0x10) 0xFFFC.

Definition write_port (w : port_write) : Z := match w with Outb p _ | Outw p _ | Outl p _ => p end.

(** The card at [base] with the address [mac]: [seen] are the writes to its 256 ports. *)
Class rtl_card (H : Type) `{machine H} (base : Z) (mac : list Z) (seen : H -> list port_write) := {
  rc_mac : forall h i, 0 <= i < 6 -> fst (in8 (u16 (base + i)) h) = mac.[i];
  rc_in8 : forall h p, seen (snd (in8 p h)) = seen h;
  rc_in32 : forall h p, seen (snd (in32 p h)) = seen h;
  rc_out8 : forall h p v, 0 <= p - base < 256 -> seen (out8 p v h) = seen h ++ [Outb p v];
  rc_out32 : forall h p v, 0 <= p - base < 256 -> seen (out32 p v h) = seen h ++ [Outl p v];
  rc_other : forall h p v, p = PCI_CONFIG_ADDR \/ p = PCI_CONFIG_DATA -> seen (out32 p v h) = seen h }.

Section start.
Context {H : Type} `{machine H} (base : Z) (mac : list Z) (seen : H -> list port_write) {HR : rtl_card H base mac seen}.
Context (cfg : Z -> Z -> Z -> Z -> Z) {HC : config_space H cfg}.
Context (log : list Z -> io H unit) (log_hex log_char : Z -> io H unit).

(** [t] returns [x] and the card has seen [ws]. *)
Definition emits {A} (t : io H A) (ws : list port_write) (x : A) : Prop := forall h, exists h', gives t h h' x /\ seen h' = seen h ++ ws.

Hypothesis Hlog : forall s, emits (log s) [] tt.
Hypothesis Hhex : forall v, emits (log_hex v) [] tt.
Hypothesis Hchar : forall v, emits (log_char v) [] tt.

Lemma emits_bind {A B} (t : io H A) (k : A -> io H B) ws1 ws2 x y : emits t ws1 x -> emits (k x) ws2 y -> emits (t ≫= k) (ws1 ++ ws2) y.
Proof using.
  intros Ht Hk h. destruct (Ht h) as (h1 & E1 & S1). destruct (Hk h1) as (h2 & E2 & S2). exists h2. split; [by eapply gives_bind |]. by rewrite S2, S1, app_assoc.
Qed.
Lemma emits_ret {A} (x : A) : emits (mret x) [] x.
Proof using. intros h. exists h. by rewrite app_nil_r. Qed.
Lemma emits_quiet {A B} (t : io H A) (k : A -> io H B) ws x y : emits t [] x -> emits (k x) ws y -> emits (t ≫= k) ws y.
Proof using. apply (emits_bind t k [] ws). Qed.
Lemma emits_lift {A B} (o : option A) (k : A -> io H B) ws x y : o = Some x -> emits (k x) ws y -> emits (lift o ≫= k) ws y.
Proof using. intros ->. apply emits_quiet, emits_ret. Qed.

Ltac say := eapply emits_quiet; [first [apply Hlog | apply Hhex | apply Hchar] |].

Lemma emits_config bus dev reg : 0 <= bus < 256 -> 0 <= dev < 32 -> 0 <= reg < 64 -> emits (pci_read_config bus dev 0 (4 * reg)) [] (cfg bus dev 0 (4 * reg)).
Proof using HR HC.
  intros Hb Hd Hr h. destruct (cs_read h bus dev 0 reg Hb Hd ltac:(lia) Hr) as [h' E]. exists h'.
  pose proof (make_addr_spec bus dev 0 reg Hb Hd ltac:(lia) Hr) as Ea. split.
  - unfold pci_read_config. rewrite Ea. eapply gives_bind; [unfold gives, outl; rewrite (u32_id (_ + 4 * reg)) by lia; reflexivity |].
    unfold gives, inl_port. change (u16 PCI_CONFIG_ADDR) with PCI_CONFIG_ADDR. change (u16 PCI_CONFIG_DATA) with PCI_CONFIG_DATA. rewrite E, u32_id by apply cs_range. done.
  - rewrite app_nil_r. transitivity (seen (out32 PCI_CONFIG_ADDR (2147483648 + bus * 65536 + dev * 2048 + 0 * 256 + 4 * reg) h)); [| apply rc_other; by left].
    match goal with |- _ = seen ?g => pose proof (rc_in32 g PCI_CONFIG_DATA) as Hi end. by rewrite E in Hi.
Qed.
Lemma emits_config_write bus dev off v : emits (pci_write_config bus dev 0 off v) [] tt.
Proof using HR.
  intros h. eexists. split; [eapply gives_bind; [unfold gives, outl; reflexivity | unfold gives, outl; reflexivity] |].
  rewrite app_nil_r, rc_other by (by right). apply rc_other. by left.
Qed.
Lemma emits_claim bus dev : 0 <= bus < 256 -> 0 <= dev < 32 -> emits (claim_device log log_hex bus dev) [] (nic_base cfg (bus, dev)).
Proof using HR HC Hlog Hhex.
  intros Hb Hd. unfold claim_device. do 5 say. eapply emits_quiet; [apply (emits_config bus dev 4); lia |]. cbv zeta. eapply emits_quiet; [apply emits_config_write |].
  do 3 say. unfold nic_base. cbn [fst snd]. change (4 * 4) with 0x10. rewrite u16_id; [apply emits_ret |].
  change 0xFFFC with (Z.land 0xFFFC (Z.ones 16)). rewrite Z.land_assoc, Z.land_ones by lia. apply Z.mod_pos_bound. lia.
Qed.
Lemma emits_devices n : forall bus dev, 0 <= bus < 256 -> 0 <= dev -> dev + Z.of_nat n <= 32 ->
  emits (probe_devices log log_hex n bus dev) [] (nic_base cfg <$> first_on cfg bus n dev).
Proof using HR HC Hlog Hhex.
  induction n as [| n IH]; intros bus dev Hb Hd Hn; [apply emits_ret |]. cbn [probe_devices]. unfold first_on. rewrite (seqZ_cons dev) by lia. cbn [List.find].
  eapply emits_quiet; [apply (emits_config bus dev 0); lia |]. cbv beta. change (4 * 0) with 0. destruct (is_rtl8139 (cfg bus dev 0 0)).
  - eapply emits_quiet; [apply emits_claim; lia | apply emits_ret].
  - replace (Z.pred (Z.of_nat (S n))) with (Z.of_nat n) by lia. apply (IH bus (dev + 1)); lia.
Qed.
Lemma emits_buses n : forall bus, 0 <= bus -> bus + Z.of_nat n <= 256 ->
  emits (probe_buses log log_hex n bus) [] (nic_base cfg <$> first_nic cfg (seqZ bus (Z.of_nat n))).
Proof using HR HC Hlog Hhex.
  induction n as [| n IH]; intros bus Hb Hn; [apply emits_ret |]. cbn [probe_buses]. rewrite (seqZ_cons bus) by lia. cbn [first_nic].
  eapply emits_quiet; [apply (emits_devices 32 bus 0); lia |]. destruct (first_on cfg bus 32 0); cbn [fmap option_fmap option_map]; [apply emits_ret |].
  replace (Z.pred (Z.of_nat (S n))) with (Z.of_nat n) by lia. apply IH; lia.
Qed.
Lemma nic_init_none p d : first_nic cfg (seqZ 0 256) = None -> emits (nic_init log log_hex log_char p d) [] (-1, d, p).
Proof using HR HC Hlog Hhex.
  intros Hn. pose proof (emits_buses 256 0 ltac:(lia) ltac:(lia)) as Hprobe. change (Z.of_nat 256) with 256 in Hprobe. rewrite Hn in Hprobe.
  unfold nic_init. say. eapply emits_quiet; [exact Hprobe |]. cbv beta iota. cbn [fmap option_fmap option_map]. say. apply emits_ret.
Qed.

(** The card itself. *)
Hypothesis Hbase : 0 <= base <= 0xFF00.
Hypothesis Hmac : bytes mac /\ zlen mac = 6.

Lemma reg_port d r : g_io_base d = base -> 0 <= r < 256 -> reg d r = base + r.
Proof using Hbase. intros Hd Hr. unfold reg. rewrite Hd, u16_id; lia. Qed.
Lemma gives_inb d r h : g_io_base d = base -> 0 <= r < 256 -> exists h', gives (inb (reg d r)) h h' (u8 (fst (in8 (u16 (base + r)) h))) /\ seen h' = seen h.
Proof using HR Hbase.
  intros Hd Hr. exists (snd (in8 (u16 (base + r)) h)). rewrite rc_in8. split; [| done].
  unfold gives, inb. rewrite (reg_port d r Hd Hr). by destruct (in8 (u16 (base + r)) h).
Qed.
(** The wait for the reset ends, whatever the card says. *)
Lemma emits_wait n d r mask : g_io_base d = base -> 0 <= r < 256 -> forall h, exists x h', gives (wait_clear n (reg d r) mask) h h' x /\ seen h' = seen h.
Proof using HR Hbase.
  intros Hd Hr. induction n as [| n IH]; intros h; cbn [wait_clear]; [by exists (-1), h |].
  destruct (gives_inb d r h Hd Hr) as (h1 & E1 & S1). destruct (istrue (Z.land (u8 (fst (in8 (u16 (base + r)) h))) mask)) eqn:Eb.
  - destruct (IH h1) as (x & h2 & E2 & S2). exists x, h2. split; [| by rewrite S2]. eapply gives_bind; [exact E1 |]. by rewrite Eb.
  - exists 0, h1. split; [| done]. eapply gives_bind; [exact E1 |]. by rewrite Eb.
Qed.
Lemma emits_mac d : g_io_base d = base -> forall n i, 0 <= i -> i + Z.of_nat n = 6 -> emits (read_mac n i d) [] (drop (Z.to_nat i) mac).
Proof using HR Hbase Hmac.
  intros Hd. destruct Hmac as [Hb Hl]. induction n as [| n IH]; intros i Hi Hn; cbn [read_mac].
  - rewrite drop_ge by (unfold zlen in *; lia). apply emits_ret.
  - assert (emits (inb (reg d (RTL_MAC + i))) [] mac.[i]) as He.
    { intros h. unfold RTL_MAC. rewrite Z.add_0_l. destruct (gives_inb d i h Hd) as (h' & E & S); [lia |]. exists h'. rewrite app_nil_r. split; [| done].
      rewrite (rc_mac h i), u8_id in E by (lia || by apply zget_byte). done. }
    eapply emits_quiet; [exact He |]. eapply emits_quiet; [apply (IH (i + 1)); lia |].
    assert (drop (Z.to_nat i) mac = mac.[i] :: drop (Z.to_nat (i + 1)) mac) as ->; [| apply emits_ret].
    destruct (zlook_in_range mac i) as [v Ev]; [lia |]. unfold zlook in Ev. destruct (Z.ltb_spec i 0); [lia |].
    replace (Z.to_nat (i + 1)) with (S (Z.to_nat i)) by lia. rewrite (drop_S _ v _ Ev). f_equal. unfold zget, zlook. destruct (Z.ltb_spec i 0); [lia |]. by rewrite Ev.
Qed.
Lemma emits_print_mac l : emits (print_mac log log_char l) [] tt.
Proof using Hlog Hchar.
  assert (forall v, emits (print_hex_byte log_char v) [] tt) as Hh by (intros v; unfold print_hex_byte; say; apply Hchar).
  induction l as [| v l IH]; [apply emits_ret |]. destruct l as [| w l]; [apply Hh |]. cbn [print_mac]. eapply emits_quiet; [apply Hh |]. say. exact IH.
Qed.
Lemma emits_out8 d r v : g_io_base d = base -> 0 <= r < 256 -> 0 <= v < 256 -> emits (emit (Outb (reg d r) v) d) [Outb (reg d r) v] (out (Outb (reg d r) v) d).
Proof using HR Hbase.
  intros Hd Hr Hv h. rewrite (reg_port d r Hd Hr). eexists. split; [eapply gives_bind; [unfold perform, gives, outb; reflexivity | apply gives_ret] |].
  rewrite u16_id, u8_id by lia. apply rc_out8. lia.
Qed.
Lemma emits_out32 d r v : g_io_base d = base -> 0 <= r < 256 -> 0 <= v < 4294967296 -> emits (emit (Outl (reg d r) v) d) [Outl (reg d r) v] (out (Outl (reg d r) v) d).
Proof using HR Hbase.
  intros Hd Hr Hv h. rewrite (reg_port d r Hd Hr). eexists. split; [eapply gives_bind; [unfold perform, gives, outl; reflexivity | apply gives_ret] |].
  rewrite u16_id, u32_id by lia. apply rc_out32. lia.
Qed.
Lemma emits_any {A B} (t : io H A) (k : io H B) ws y : (forall h, exists x h', gives t h h' x /\ seen h' = seen h) -> emits k ws y -> emits (_ ← t; k) ws y.
Proof using.
  intros Ht Hk h. destruct (Ht h) as (x & h1 & E1 & S1). destruct (Hk h1) as (h2 & E2 & S2). exists h2. split; [by eapply gives_bind | by rewrite S2, S1].
Qed.

Lemma emits_reset d : g_io_base d = base -> emits (nic_reset log log_char d) [Outb (reg d RTL_CR) RTL_CR_RST] (mac, out (Outb (reg d RTL_CR) RTL_CR_RST) d).
Proof using HR Hlog Hchar Hbase Hmac.
  intros Hd. unfold nic_reset. say. eapply (emits_bind _ _ [_] []); [apply emits_out8; done || (unfold RTL_CR, RTL_CR_RST; lia) |].
  apply emits_any; [apply emits_wait; [done | unfold RTL_CR; lia] |]. eapply emits_quiet; [apply emits_mac; [done | lia | done] |]. cbv beta. change (drop (Z.to_nat 0) mac) with mac.
  say. eapply emits_quiet; [apply emits_print_mac |]. say. apply emits_ret.
Qed.

Lemma alloc_tx_total n : forall l p, wf p -> exists ok tx p', alloc_tx n l p = Some (ok, tx, p') /\ wf p' /\ (ok = true -> length tx = (length l + n)%nat).
Proof using.
  induction n as [| n IH]; intros l p Hp; cbn [alloc_tx]; [exists true, l, p; split; [done |]; split; [done |]; lia |].
  destruct (pmm_alloc_correct p Hp) as (a & p1 & -> & Hp1 & _). cbn [mbind option_bind]. destruct (istrue a); cbn [negb].
  - destruct (IH (l ++ [a]) p1 Hp1) as (ok & tx & p' & E & Hp' & Hl). exists ok, tx, p'. split; [done |]. split; [done |]. intros Hok. rewrite (Hl Hok), length_app. cbn. lia.
  - by exists false, (l ++ [a]), p1.
Qed.

Lemma nic_init_found p d x : first_nic cfg (seqZ 0 256) = Some x -> nic_base cfg x = base -> wf p -> 3 <= g_total_frames p ->
  exists code d' p' ws, rtl8139_init base mac p d = Some (code, d', p') /\ wf p' /\ ports d' = ports d ++ ws /\
    (code = 0 -> 0 <= g_tx_cur d < 4 -> nic_ok d') /\ emits (nic_init log log_hex log_char p d) ws (code, d', p').
Proof using HR HC Hlog Hhex Hchar Hbase Hmac.
  intros Hx Hb Hp Ht. assert (Z.land base 0xFFFC = base) as Hland by (rewrite <- Hb; unfold nic_base; rewrite <- Z.land_assoc; f_equal).
  pose proof (emits_buses 256 0 ltac:(lia) ltac:(lia)) as Hprobe. change (Z.of_nat 256) with 256 in Hprobe. rewrite Hx in Hprobe. cbn [fmap option_fmap option_map] in Hprobe. rewrite Hb in Hprobe.
  unfold rtl8139_init. rewrite Hland. cbv zeta. cbn [rtl_mac g_rx_buffer rx_addr g_tx_buffer g_tx_cur g_rx_offset wire ports g_io_base].
  destruct (pmm_alloc_contiguous_correct p 3 Hp ltac:(lia)) as (rx & p1 & Ec & Hp1 & _). rewrite Ec. cbn [mbind option_bind].
  destruct (alloc_tx_total (Z.to_nat RTL_TX_BUFS) [] p1 Hp1) as (ok & tx & p2 & Et & Hp2 & Hl).
  set (d0 := Rtl base (rtl_mac d) (g_rx_buffer d) (rx_addr d) (g_tx_buffer d) (g_tx_cur d) (g_rx_offset d) (wire d) (ports d)). set (d1 := out (Outb (reg d0 RTL_CR) RTL_CR_RST) d0).
  pose proof (emits_reset d0 eq_refl) as Hreset. fold d1 in Hreset.
  assert (forall ws y, emits (r ← lift (pmm_alloc_contiguous 3 p); after_reset log mac d1 r) ws y -> emits (nic_init log log_hex log_char p d) (Outb (reg d0 RTL_CR) RTL_CR_RST :: ws) y) as Hinit.
  { intros ws y Hk. unfold nic_init. say. eapply emits_quiet; [exact Hprobe |]. cbv beta iota zeta. eapply (emits_bind _ _ [_] ws); [exact Hreset | exact Hk]. }
  destruct (istrue rx) eqn:Erx; cbn [negb].
  2: { do 4 eexists. split; [reflexivity |]. split; [done |]. split; [reflexivity |]. split; [done |]. refine (Hinit [] _ _). eapply emits_lift; [exact Ec |].
    unfold after_reset. rewrite Erx. cbn [negb]. say. apply emits_ret. }
  rewrite Et. cbn [mbind option_bind]. destruct ok; cbn [negb].
  - eassert (emits (after_reset log mac d1 (rx, p1)) _ _) as Hafter.
    { unfold after_reset. rewrite Erx. cbn [negb]. eapply emits_bind; [apply emits_out32; [done | unfold RTL_RBSTART; lia | apply u32_range] |]. eapply emits_lift; [exact Et |].
      cbv beta iota zeta. cbn [negb]. eapply emits_bind; [apply emits_out8; [done | unfold RTL_IMR; lia | lia] |].
      eapply emits_bind; [apply emits_out32; [done | unfold RTL_RCR; lia | done] |]. eapply emits_bind; [apply emits_out8; [done | unfold RTL_CR; lia | done] |]. say. apply emits_ret. }
    cbn [app] in Hafter. eexists 0, _, p2, _. split; [reflexivity |]. split; [done |]. split; [cbn [ports out]; rewrite <- !app_assoc; reflexivity |]. split.
    { intros _ Hcur. split; [cbn [out g_tx_buffer]; unfold zlen; rewrite (Hl eq_refl); done | done]. }
    refine (Hinit _ _ _). eapply emits_lift; [exact Ec | exact Hafter].
  - eassert (emits (after_reset log mac d1 (rx, p1)) _ _) as Hafter.
    { unfold after_reset. rewrite Erx. cbn [negb]. eapply emits_bind; [apply emits_out32; [done | unfold RTL_RBSTART; lia | apply u32_range] |]. eapply emits_lift; [exact Et |].
      cbv beta iota zeta. cbn [negb]. say. apply emits_ret. }
    cbn [app] in Hafter. eexists (-1), _, p2, _. split; [reflexivity |]. split; [done |]. split; [cbn [ports out]; rewrite <- !app_assoc; reflexivity |]. split; [done |].
    refine (Hinit _ _ _). eapply emits_lift; [exact Ec | exact Hafter].
Qed.
End start.

Section claims.
Context {H : Type} `{machine H} (base : Z) (mac : list Z) (seen : H -> list port_write) {HR : rtl_card H base mac seen}.
Context (cfg : Z -> Z -> Z -> Z -> Z) {HC : config_space H cfg}.
Context (log : list Z -> io H unit) (log_hex log_char : Z -> io H unit).
Hypothesis Hlog : forall s, emits seen (log s) [] tt.
Hypothesis Hhex : forall v, emits seen (log_hex v) [] tt.
Hypothesis Hchar : forall v, emits seen (log_char v) [] tt.

(** C40: starting the network card is what the network stack takes it for: when the search finds a
    card, the first one in the order of buses and devices, the start returns the same
    code, state and memory as [rtl8139_init] for that card's base and address, and the
    card sees exactly the port writes that the state records, in that order, whatever the
    status says during the reset; after a success the driver may send. Without a card it
    returns -1, and no card is touched. It ends without a fault in either case. *)
Theorem nic_init_refines (p : pmm) (d : rtl) (h : H) (Hbase : 0 <= base <= 0xFF00) (Hmac : bytes mac /\ zlen mac = 6)
    (Hcard : forall x, first_nic cfg (seqZ 0 256) = Some x -> nic_base cfg x = base) (Hp : wf p) (Ht : 3 <= g_total_frames p) :
  (first_nic cfg (seqZ 0 256) = None -> exists h', nic_init log log_hex log_char p d h = Some ((-1, d, p), h') /\ seen h' = seen h) /\
  (first_nic cfg (seqZ 0 256) <> None -> exists code d' p' ws h', rtl8139_init base mac p d = Some (code, d', p') /\
    nic_init log log_hex log_char p d h = Some ((code, d', p'), h') /\ ports d' = ports d ++ ws /\ seen h' = seen h ++ ws /\
    wf p' /\ (code = 0 -> 0 <= g_tx_cur d < 4 -> nic_ok d')).
Proof using HR HC Hlog Hhex Hchar.
  split.
  - intros Hn. destruct (nic_init_none base mac seen cfg log log_hex log_char Hlog Hhex p d Hn h) as (h' & E & S). exists h'. by rewrite app_nil_r in S.
  - intros Hn. destruct (first_nic cfg (seqZ 0 256)) as [x |] eqn:Ex; [| done].
    destruct (nic_init_found base mac seen cfg log log_hex log_char Hlog Hhex Hchar Hbase Hmac p d x Ex (Hcard x eq_refl) Hp Ht) as (code & d' & p' & ws & E & Hp' & Hw & Hok & He).
    destruct (He h) as (h' & E' & S'). by exists code, d', p', ws, h'.
Qed.
End claims.

(** ** What is reported of a packet *)

Definition hex2 (v : Z) : list Z := [hex_char (v / 16); hex_char (v mod 16)].
Fixpoint mac_text (l : list Z) : list Z := match l with [] => [] | [v] => hex2 v | v :: l => hex2 v ++ txt ":" ++ mac_text l end.
Definition hex_of (v : Z) : list Z := default [] (serial_hex_text v).
Definition word (l : list Z) (i : Z) : Z := 256 * l.[i] + l.[i + 1].

Definition packet_report (data : list Z) (len : Z) : list Z :=
  if len <? 14 then []
  else
    txt "  dst=" ++ mac_text (take 6 data) ++ txt " src=" ++ mac_text (take 6 (drop 6 data)) ++ txt " type=0x" ++ hex_of (word data 12) ++ [10] ++
    (if (word data 12 =? ETH_P_ARP) && (42 <=? len)
     then txt "  ARP op=" ++ numeral 10 (word data 20) ++ txt " spa=" ++ hex_of (word data 30) ++ hex_of (word data 28) ++ [10] else []).

Lemma hex_char_g_hex d : 0 <= d < 16 -> g_hex.[d] = hex_char d.
Proof. intros Hd. assert (forall k, 0 <= Z.of_nat k < 16 -> g_hex.[Z.of_nat k] = hex_char (Z.of_nat k)) as Hk; [| rewrite <- (Z2Nat.id d) by lia; apply Hk; lia].
  intros k Hk. do 16 (destruct k as [| k]; [reflexivity |]). lia. Qed.
Lemma word_range l i : bytes l -> 0 <= word l i < 65536.
Proof. intros Hb. pose proof (zget_byte l i Hb). pose proof (zget_byte l (i + 1) Hb). unfold word, is_byte in *. lia. Qed.
Lemma bswap16_word l i : bytes l -> bswap16 (l.[i] + 256 * l.[i + 1]) = word l i.
Proof.
  intros Hb. pose proof (zget_byte l i Hb) as H1. pose proof (zget_byte l (i + 1) Hb) as H2. unfold is_byte in *. unfold bswap16, word. rewrite (u16_id (_ + _)) by lia.
  rewrite Z.shiftl_mul_pow2, Z.shiftr_div_pow2 by lia. change (2 ^ 8) with 256. rewrite (lor_add_disjoint ((l.[i] + 256 * l.[i + 1]) * 256) _ 8).
  - unfold u16. replace ((l.[i] + 256 * l.[i + 1]) / 256) with l.[i + 1] by lia. replace ((l.[i] + 256 * l.[i + 1]) * 256 + l.[i + 1]) with (256 * l.[i] + l.[i + 1] + l.[i + 1] * 65536) by lia. rewrite Z.mod_add by lia. apply Z.mod_small. lia.
  - lia.
  - lia.
  - lia.
Qed.
Lemma le16_at l i : 0 <= i -> i + 1 < zlen l -> le16 l i = Some (l.[i] + 256 * l.[i + 1]).
Proof. intros Hi Hl. unfold le16. by rewrite !zlook_get by lia. Qed.
Lemma bytes_at_in l i n : 0 <= i -> 0 <= n -> i + n <= zlen l -> bytes_at l i n = Some (take (Z.to_nat n) (drop (Z.to_nat i) l)).
Proof. intros Hi Hn Hl. unfold bytes_at. destruct (Z.leb_spec 0 i), (Z.leb_spec 0 n), (Z.leb_spec (i + n) (zlen l)); try lia. done. Qed.
Lemma hex_of_some v : 0 <= v < 18446744073709551616 -> serial_hex_text v = Some (hex_of v).
Proof. intros Hv. unfold hex_of. by destruct (serial_hex_correct v Hv) as (s & -> & _). Qed.

Section report.
Context {H : Type} `{machine H} (fuel : nat) (line : H -> list Z) (wait : H -> nat) {HU : uart H fuel line wait}.

Definition says (t : io H unit) (s : list Z) : Prop := sends fuel line wait t (crlf s) (fun _ => True).
Lemma crlf_app a b : crlf (a ++ b) = crlf a ++ crlf b.
Proof using. unfold crlf. by rewrite map_app, concat_app. Qed.
Lemma says_bind t k s1 s2 : says t s1 -> says k s2 -> says (_ ← t; k) (s1 ++ s2).
Proof using. intros Ht Hk. unfold says. rewrite crlf_app. by eapply sends_bind; [exact Ht | intros _ _]. Qed.
Lemma says_lift {A} (o : option A) k x s : o = Some x -> says (k x) s -> says (lift o ≫= k) s.
Proof using. intros -> Hk h Hw. apply (Hk h Hw). Qed.
Lemma says_ret : says (mret tt) [].
Proof using. by apply sends_ret. Qed.
Lemma says_print s : bytes s -> says (serial_print fuel s) s.
Proof using HU. apply print_spec, HU. Qed.
Lemma says_hex v : 0 <= v < 18446744073709551616 -> says (serial_print_hex fuel v) (hex_of v).
Proof using HU.
  intros Hv. unfold says. destruct (serial_hex_correct v Hv) as (t & E & Ht & _). unfold hex_of. rewrite E. change (default [] (Some t)) with t. rewrite (proj2 (crlf_plain t Ht)).
  by apply (hex_spec fuel line wait).
Qed.
Lemma says_word data i : bytes data -> says (serial_print_hex fuel (word data i)) (hex_of (word data i)).
Proof using HU. intros Hb. apply says_hex. pose proof (word_range data i Hb). lia. Qed.
Lemma says_dec v : 0 <= v < 65536 -> says (serial_print_dec fuel v) (numeral 10 v).
Proof using HU.
  intros Hv. unfold says. rewrite (proj2 (crlf_plain (numeral 10 v) ltac:(eapply Forall_impl; [by apply numeral_chars |]; cbn; unfold is_byte; intros c Hc; lia))). apply (dec_spec fuel line wait). lia.
Qed.
Lemma says_byte v : is_byte v -> says (print_hex_byte (serial_putc fuel) v) (hex2 v).
Proof using HU.
  unfold is_byte. intros Hv. unfold print_hex_byte. change (hex2 v) with ([hex_char (v / 16)] ++ [hex_char (v mod 16)]).
  assert (Z.land (Z.shiftr v 4) 0x0F = v / 16) as ->. { change 0x0F with (Z.ones 4). rewrite Z.land_ones, Z.shiftr_div_pow2 by lia. change (2 ^ 4) with 16. apply Z.mod_small. lia. }
  assert (Z.land v 0x0F = v mod 16) as ->. { change 0x0F with (Z.ones 4). by rewrite Z.land_ones by lia. }
  rewrite !hex_char_g_hex by (apply Z.mod_pos_bound || idtac; lia). pose proof (hex_char_range (v / 16)). pose proof (hex_char_range (v mod 16)).
  apply says_bind; apply (putc_spec fuel line wait); unfold is_byte; lia.
Qed.
Lemma says_mac l : bytes l -> says (print_mac (serial_print fuel) (serial_putc fuel) l) (mac_text l).
Proof using HU.
  induction 1 as [| v l Hv _ IH]; [apply says_ret |]. destruct l as [| w l]; [by apply says_byte |]. cbn [print_mac mac_text].
  apply says_bind; [by apply says_byte |]. apply says_bind; [apply says_print; by repeat constructor | exact IH].
Qed.

Lemma says_arp data : bytes data -> 42 <= zlen data ->
  says (_ ← serial_print fuel (txt "  ARP op="); op ← lift (le16 data 20); _ ← serial_print_dec fuel (bswap16 op); spa ← lift (spa_at data 28);
      _ ← serial_print fuel (txt " spa="); _ ← serial_print_hex fuel (bswap16 (Z.shiftr spa 16)); _ ← serial_print_hex fuel (bswap16 (Z.land spa 0xFFFF)); serial_print fuel [10])
    (txt "  ARP op=" ++ numeral 10 (word data 20) ++ txt " spa=" ++ hex_of (word data 30) ++ hex_of (word data 28) ++ [10]).
Proof using HU.
  intros Hb Hl. apply says_bind; [apply says_print; by repeat constructor |]. eapply says_lift; [apply le16_at; lia |]. rewrite bswap16_word by done.
  apply says_bind; [apply says_dec, word_range, Hb |]. eapply says_lift; [unfold spa_at; rewrite !le16_at by lia; reflexivity |]. change (28 + 2) with 30.
  pose proof (zget_byte data 28 Hb) as B1. pose proof (zget_byte data (28 + 1) Hb) as B2. unfold is_byte in *.
  apply says_bind; [apply says_print; by repeat constructor |].
  rewrite Z.shiftr_div_pow2 by lia. change (2 ^ 16) with 65536. rewrite (Z.mul_comm 65536), Z.div_add, Z.div_small, Z.add_0_l by lia.
  change 0xFFFF with (Z.ones 16). rewrite Z.land_ones by lia. change (2 ^ 16) with 65536. rewrite Z.mod_add, Z.mod_small by lia. rewrite !bswap16_word by done.
  apply says_bind; [by apply says_word |]. apply says_bind; [by apply says_word |]. apply says_print. by repeat constructor.
Qed.

(** Also: what is reported of a packet: nothing for less than a header, and else the two addresses and
    the type, and for a whole ARP packet its operation and the sender's address, whose last
    two bytes come first. No byte behind the header, or behind the 42 bytes of ARP, is read. *)
Theorem packet_report_shown (data : list Z) (len : Z) (h : H) (Hb : bytes data) (Hl : len <= zlen data) (Hw : (wait h < fuel)%nat) :
  exists h', rtl8139_print_packet (serial_print fuel) (serial_print_hex fuel) (serial_print_dec fuel) (serial_putc fuel) data len h = Some (tt, h') /\
    line h' = line h ++ crlf (packet_report data len) /\ (wait h' < fuel)%nat.
Proof using HU.
  assert (says (rtl8139_print_packet (serial_print fuel) (serial_print_hex fuel) (serial_print_dec fuel) (serial_putc fuel) data len) (packet_report data len)) as Hs.
  { unfold rtl8139_print_packet, packet_report. destruct (Z.ltb_spec len 14); [apply says_ret |].
    apply says_bind; [apply says_print; by repeat constructor |]. eapply says_lift; [apply bytes_at_in; lia |].
    apply says_bind; [apply (says_mac (take 6 data)), Forall_take, Hb |]. apply says_bind; [apply says_print; by repeat constructor |].
    eapply says_lift; [apply bytes_at_in; lia |]. apply says_bind; [apply says_mac, Forall_take, Forall_drop, Hb |].
    apply says_bind; [apply says_print; by repeat constructor |]. eapply says_lift; [apply le16_at; lia |]. rewrite bswap16_word by done.
    apply says_bind; [by apply says_word |]. apply says_bind; [apply says_print; by repeat constructor |].
    destruct ((word data 12 =? ETH_P_ARP) && (42 <=? len)) eqn:Ea; [| apply says_ret]. apply andb_prop in Ea as [_ Ea]. apply Z.leb_le in Ea. apply says_arp; [done | lia]. }
  destruct (Hs h Hw) as ([] & h' & E & _ & L & W). by exists h'.
Qed.
End report.

(** ** A card behind a host bridge *)

Definition cfg_nic (bus dev func reg : Z) : Z :=
  match bus, dev, func, reg with 0, 0, 0, 0 => 0x12378086 | 0, 3, 0, 0 => 0x813910EC | 0, 3, 0, 16 => 0xC001 | _, _, _, 0 => 0xFFFFFFFF | _, _, _, _ => 0 end.
Record nic_sim := NicSim { sel : Z; writes : list port_write }.
Definition note (p : Z) (w : port_write) (h : nic_sim) : nic_sim := if (0xC000 <=? p) && (p <? 0xC100) then NicSim (sel h) (writes h ++ [w]) else h.
#[export] Instance nic_machine : machine nic_sim := {
  in8 p h := (if (0xC000 <=? p) && (p <? 0xC006) then [0x52; 0x54; 0; 0x12; 0x34; 0x56].[p - 0xC000] else 0, h); in16 p h := (0, h);
  in32 p h := let a := sel h - 2147483648 in (cfg_nic (a / 65536) ((a / 2048) mod 32) ((a / 256) mod 8) (a mod 256), h);
  out8 p v := note p (Outb p v); out16 p v := note p (Outw p v);
  out32 p v h := if p =? PCI_CONFIG_ADDR then NicSim v (writes h) else note p (Outl p v) h }.
#[export] Instance nic_space : config_space nic_sim cfg_nic.
Proof.
  split.
  - intros bus dev func reg. unfold cfg_nic. repeat match goal with |- context [match ?x with _ => _ end] => destruct x end; lia.
  - intros h bus dev func reg Hb Hd Hf Hr. eexists. cbn [in32 out32 nic_machine]. rewrite Z.eqb_refl. cbn [sel]. f_equal. f_equal; lia.
Qed.
Lemma note_in p w h : 0 <= p - 0xC000 < 256 -> writes (note p w h) = writes h ++ [w].
Proof. intros Hp. unfold note. destruct (Z.leb_spec 0xC000 p), (Z.ltb_spec p 0xC100); try lia. done. Qed.
#[export] Instance nic_card : rtl_card nic_sim 0xC000 [0x52; 0x54; 0; 0x12; 0x34; 0x56] writes.
Proof.
  split.
  - intros h i Hi. cbn [in8 nic_machine fst]. rewrite u16_id by lia. destruct (Z.leb_spec 0xC000 (0xC000 + i)), (Z.ltb_spec (0xC000 + i) 0xC006); try lia.
    cbn [andb]. f_equal. lia.
  - done.
  - done.
  - intros h p v Hp. by apply note_in.
  - intros h p v Hp. cbn [out32 nic_machine]. destruct (Z.eqb_spec p PCI_CONFIG_ADDR); [unfold PCI_CONFIG_ADDR in *; lia |]. by apply note_in.
  - intros h p v [-> | ->]; reflexivity.
Qed.

Definition rtl_off : rtl := Rtl 0 [] [] 0 [] 0 0 [] [].
Definition mute {A} (_ : A) : io nic_sim unit := mret tt.
Lemma mute_emits {A} (x : A) : emits writes (mute x) [] tt.
Proof. intros h. exists h. by rewrite app_nil_r. Qed.

Lemma nic_init_refines_witness : exists code d' p' ws h', nic_init mute mute mute pmm_ex rtl_off (NicSim 0 []) = Some ((code, d', p'), h') /\ rtl8139_init 0xC000 [0x52; 0x54; 0; 0x12; 0x34; 0x56] pmm_ex rtl_off = Some (code, d', p') /\ writes h' = [] ++ ws /\ ports d' = [] ++ ws.
Proof.
  destruct (nic_init_refines 0xC000 [0x52; 0x54; 0; 0x12; 0x34; 0x56] writes cfg_nic mute mute mute (@mute_emits _) (@mute_emits _) (@mute_emits _) pmm_ex rtl_off (NicSim 0 []))
    as [_ (code & d' & p' & ws & h' & E1 & E2 & Hp & Hs & _)].
  - lia.
  - split; [by repeat constructor | done].
  - intros x Hx. vm_compute in Hx. by injection Hx as <-.
  - exact pmm_ex_wf.
  - done.
  - by vm_compute.
  - by exists code, d', p', ws, h'.
Defined.

(** The address 10.0.2.15 is shown as 0x20F and 0xA00. *)
Definition arp_frame : list Z := replicate 6 0xFF ++ [0x52; 0x54; 0; 0x12; 0x34; 0x56] ++ [8; 6] ++ [0; 1; 8; 0; 6; 4; 0; 1] ++ [0x52; 0x54; 0; 0x12; 0x34; 0x56] ++ [10; 0; 2; 15] ++ replicate 10 0.
Example arp_report : packet_report arp_frame 42 = ln "  dst=FF:FF:FF:FF:FF:FF src=52:54:00:12:34:56 type=0x0x806" ++ ln "  ARP op=1 spa=0x20F0xA00".
Proof. vm_compute. reflexivity. Qed.
Lemma packet_report_shown_witness : exists h', rtl8139_print_packet (serial_print 2) (serial_print_hex 2) (serial_print_dec 2) (serial_putc 2) arp_frame 42 (Wire [] 1) = Some (tt, h') /\ w_line h' = crlf (ln "  dst=FF:FF:FF:FF:FF:FF src=52:54:00:12:34:56 type=0x0x806" ++ ln "  ARP op=1 spa=0x20F0xA00").
Proof.
  destruct (packet_report_shown 2 w_line w_wait arp_frame 42 (Wire [] 1)) as (h' & E & L & _).
  - by repeat constructor.
  - done.
  - cbn; lia.
  - exists h'. split; [exact E |]. rewrite L, arp_report. reflexivity.
Defined.
