(* ===== verification/Main.v ===== *)
(** * Starting the kernel (src/kernel/main.c)

    [kernel_main] calls the components in order. The serial line is behind the ports of
    Ports.v and the console is the one of Gpu.v; a computation here has both as its state.
    What the boot loader leaves in memory, and the addresses that the linker chooses, are
    arguments. *)

From Stdlib Require Import String Ascii.
From S2P Require Import Prelude Memory UserLib Pmm Paging Heap Sched Vfs Fat Ports Ata Rtl8139 Net NetRx Gpu Input KPath Serial Pci Acpi Cpu Irq Display Nic.
From S2P Require LineEdit KShell.

(** ** The console and the line *)

Section report.
Context (font : Z -> Z) {H : Type} `{machine H} (log : list Z -> io H unit) (log_hex : Z -> io H unit).

Abbreviation M := (io (H * gpu)).
Definition on_line {A} (t : io H A) : M A := fun '(h, g) => match t h with Some (x, h) => Some (x, (h, g)) | None => None end.
Definition show (t : list Z) : M unit := fun '(h, g) => g ← gpu_print font t g; Some (tt, (h, g)).
Definition show_char (c : Z) : M unit := fun '(h, g) => g ← gpu_putc font c g; Some (tt, (h, g)).
Definition ink (fg : Z) : M unit := fun '(h, g) => Some (tt, (h, gpu_set_color fg 0x00 g)).

Definition print_u64 (v : Z) : M unit := t ← lift (u64_text v); _ ← show t; on_line (log t).

Fixpoint print_parts (n : nat) (part ip : Z) : M unit :=
  match n with
  | O => mret tt
  | S n => t ← lift (octet_text (ip_part ip part)); _ ← show t; _ ← (if part <? 3 then show (txt ".") else mret tt); print_parts n (part + 1) ip
  end.
Definition print_ip (ip : Z) : M unit := print_parts 4 0 ip.

(** [s] is the text from the place [i] on, with what follows its terminator left away. *)
Fixpoint preview_from (s : list Z) (i max : Z) : M unit :=
  match s with
  | [] => mret tt
  | c :: s => if istrue c && (i <? max) then _ ← (if (c =? 13) || (c =? 10) || (c =? 9) then show (txt " ") else show_char c); preview_from s (i + 1) max else mret tt
  end.
Definition print_preview (s : list Z) (max : Z) : M unit := preview_from s 0 max.

(** ** What the kernel says of itself *)

Definition gpu_report (gpu : option gpu_info) : M unit :=
  match gpu with
  | Some i =>
      _ ← ink 0x0A; _ ← show (txt "GPU: ");
      _ ← show (if istrue (is_intel i) then txt "Intel" else if istrue (is_nvidia i) then txt "NVIDIA" else if istrue (is_amd i) then txt "AMD" else txt "Unknown");
      _ ← show (txt " (BAR0="); hex ← lift (KShell.hex_text (gi_bar0 i)); _ ← show hex; show (ln ")")
  | None => _ ← ink 0x0E; show (ln "GPU: VBE framebuffer")
  end.
Definition acpi_report (pm1a : Z) : M unit :=
  _ ← ink 0x0A; _ ← show (txt "ACPI: "); _ ← show (if istrue pm1a then txt "OK" else txt "not found"); show [10].
Definition two_digits (v : Z) : M unit := _ ← (if v <? 10 then show (txt "0") else mret tt); print_u64 v.
Definition date_report (t : rtc_time) : M unit :=
  _ ← ink 0x0F; _ ← show (txt "Date: ");
  _ ← print_u64 (day t); _ ← show (txt "/"); _ ← print_u64 (month t); _ ← show (txt "/"); _ ← print_u64 (year t);
  _ ← show (txt "  Time: "); _ ← print_u64 (hours t); _ ← show (txt ":"); _ ← two_digits (minutes t); _ ← show (txt ":"); _ ← two_digits (seconds t); show [10].
Definition net_report (n : net) : M unit :=
  _ ← (if istrue (net_is_configured n) then _ ← ink 0x0A; _ ← show (txt "NET: "); _ ← print_ip (net_local_ip n); show [10] else _ ← ink 0x0C; show (ln "NET: offline"));
  _ ← (if istrue (net_dns_answer_ip n) then _ ← ink 0x0A; _ ← show (txt "DNS: example.com = "); _ ← print_ip (net_dns_answer_ip n); show [10] else mret tt);
  _ ← ink (if istrue (net_http_ok n) then 0x0A else 0x0C); _ ← show (if istrue (net_http_ok n) then ln "HTTP: GET / OK" else ln "HTTP: sem resposta");
  _ ← (if 0 <? net_http_body_len n then _ ← ink 0x0E; _ ← show (txt "HTML: "); _ ← print_preview (net_http_body_preview n) 66; show [10] else mret tt);
  ink 0x0F.

Definition boot_report (total : Z) (devs : list pci_device) (pm1a : Z) (cmos : Z -> Z) (n : net) : M unit :=
  _ ← ink 0x0B; _ ← show (ln "=== EponaOS ==="); _ ← ink 0x0F; _ ← show (ln "Kernel x86_64 long mode");
  _ ← show (txt "RAM: "); _ ← print_u64 (total / (1024 * 1024)); _ ← show (ln " MiB");
  gpu ← on_line (pci_find_gpu log log_hex devs None); _ ← gpu_report gpu;
  _ ← acpi_report pm1a; _ ← date_report (rtc_read_time cmos); net_report n.
End report.

(** ** The text of the report *)

(** What is done to the console: a change of the colour, or a character. *)
Inductive mark := Ink (fg : Z) | Chr (c : Z).
Definition text (t : list Z) : list mark := map Chr t.
Fixpoint paint (font : Z -> Z) (ms : list mark) (g : gpu) : option gpu :=
  match ms with
  | [] => Some g
  | Ink fg :: ms => paint font ms (gpu_set_color fg 0x00 g)
  | Chr c :: ms => g ← gpu_putc font c g; paint font ms g
  end.

Definition gpu_name (i : gpu_info) : list Z := if istrue (is_intel i) then txt "Intel" else if istrue (is_nvidia i) then txt "NVIDIA" else if istrue (is_amd i) then txt "AMD" else txt "Unknown".
Definition bar_text (v : Z) : list Z := default [] (KShell.hex_text v).
Definition gpu_marks (gpu : option gpu_info) : list mark :=
  match gpu with
  | Some i => Ink 0x0A :: text (txt "GPU: " ++ gpu_name i ++ txt " (BAR0=" ++ bar_text (gi_bar0 i) ++ ln ")")
  | None => Ink 0x0E :: text (ln "GPU: VBE framebuffer")
  end.
Definition two (v : Z) : list Z := (if v <? 10 then txt "0" else []) ++ numeral 10 v.
Definition date_text (t : rtc_time) : list Z :=
  txt "Date: " ++ numeral 10 (day t) ++ txt "/" ++ numeral 10 (month t) ++ txt "/" ++ numeral 10 (year t) ++
  txt "  Time: " ++ numeral 10 (hours t) ++ txt ":" ++ two (minutes t) ++ txt ":" ++ two (seconds t) ++ [10].
Definition address (ip : Z) : list Z := default [] (ip_text ip).
(** The first [n] characters up to a zero, in one line. *)
Fixpoint one_line (n : nat) (s : list Z) : list Z :=
  match n, s with S n, c :: s => if istrue c then (if (c =? 13) || (c =? 10) || (c =? 9) then 32 else c) :: one_line n s else [] | _, _ => [] end.
Definition net_marks (n : net) : list mark :=
  (if istrue (net_is_configured n) then Ink 0x0A :: text (txt "NET: " ++ address (net_local_ip n) ++ [10]) else Ink 0x0C :: text (ln "NET: offline")) ++
  (if istrue (net_dns_answer_ip n) then Ink 0x0A :: text (txt "DNS: example.com = " ++ address (net_dns_answer_ip n) ++ [10]) else []) ++
  (if istrue (net_http_ok n) then Ink 0x0A :: text (ln "HTTP: GET / OK") else Ink 0x0C :: text (ln "HTTP: sem resposta")) ++
  (if 0 <? net_http_body_len n then Ink 0x0E :: text (txt "HTML: " ++ one_line 66 (net_http_body_preview n) ++ [10]) else []) ++ [Ink 0x0F].
Definition report_marks (total : Z) (devs : list pci_device) (pm1a : Z) (cmos : Z -> Z) (n : net) : list mark :=
  Ink 0x0B :: text (ln "=== EponaOS ===") ++
  Ink 0x0F :: text (ln "Kernel x86_64 long mode" ++ txt "RAM: " ++ numeral 10 (total / 1048576) ++ ln " MiB") ++
  gpu_marks (option_map gpu_info_of (first_display devs)) ++
  Ink 0x0A :: text (txt "ACPI: " ++ (if istrue pm1a then txt "OK" else txt "not found") ++ [10]) ++
  Ink 0x0F :: text (date_text (rtc_read_time cmos)) ++ net_marks n.

(** What the serial line gets: the numbers, and what the search for the card says. *)
Definition gpu_log (devs : list pci_device) : list Z :=
  match first_display devs with
  | Some d =>
      let i := gpu_info_of d in
      txt "[pci] GPU found: " ++ hex_of (d_vendor d) ++ txt ":" ++ hex_of (d_device_id d) ++ txt "  BAR0=" ++ hex_of (gi_bar0 i) ++ txt "  IRQ=" ++ hex_of (gi_irq i) ++
      (if istrue (is_intel i) then txt "  [Intel]" else []) ++ (if istrue (is_nvidia i) then txt "  [NVIDIA]" else []) ++ (if istrue (is_amd i) then txt "  [AMD]" else []) ++ [10]
  | None => ln "[pci] no GPU found"
  end.
Definition report_log (total : Z) (devs : list pci_device) (cmos : Z -> Z) : list Z :=
  let t := rtc_read_time cmos in
  numeral 10 (total / 1048576) ++ gpu_log devs ++ numeral 10 (day t) ++ numeral 10 (month t) ++ numeral 10 (year t) ++ numeral 10 (hours t) ++ numeral 10 (minutes t) ++ numeral 10 (seconds t).

Lemma paint_app font ms1 ms2 : forall g, paint font (ms1 ++ ms2) g = g ← paint font ms1 g; paint font ms2 g.
Proof.
  induction ms1 as [| [fg | c] ms1 IH]; intros g; cbn [app paint mbind option_bind]; [done | apply IH |].
  destruct (gpu_putc font c g) as [g1 |]; cbn [mbind option_bind]; [apply IH | done].
Qed.
Lemma text_app a b : text (a ++ b) = text a ++ text b.
Proof. apply map_app. Qed.
Lemma paint_text font t : forall g, paint font (text t) g = gpu_print font t g.
Proof. induction t as [| c t IH]; intros g; cbn [text map paint gpu_print]; [done |]. destruct (gpu_putc font c g) as [g1 |]; [apply IH | done]. Qed.

Ltac marks := repeat progress (rewrite ?text_app, <- ?app_assoc, ?app_nil_r; cbn [app]); reflexivity.

(** A line for messages: how texts add up, and what it does with one where it is [ready]. *)
Class writer {H : Type} (wrote : H -> list Z -> H -> Prop) := {
  lg_nil : forall h, wrote h [] h;
  lg_app : forall h h1 h2 s1 s2, wrote h s1 h1 -> wrote h1 s2 h2 -> wrote h (s1 ++ s2) h2 }.
Class logger {H : Type} (log : list Z -> io H unit) (log_hex : Z -> io H unit) (ready : H -> Prop) (wrote : H -> list Z -> H -> Prop) := {
  lg_writer :: writer wrote;
  lg_log : forall h s, ready h -> bytes s -> exists h', gives (log s) h h' tt /\ wrote h s h' /\ ready h';
  lg_hex : forall h v, ready h -> 0 <= v < 18446744073709551616 -> exists h', gives (log_hex v) h h' tt /\ wrote h (hex_of v) h' /\ ready h' }.
(** The serial line, and a line that nobody looks at. *)
#[export] Instance serial_logger {H} `{machine H} fuel line wait {HU : uart H fuel line wait} :
  logger (serial_print fuel) (serial_print_hex fuel) (fun h => (wait h < fuel)%nat) (fun h s h' => line h' = line h ++ crlf s).
Proof.
  split.
  - split; [intros h; by rewrite app_nil_r | intros h h1 h2 s1 s2 H1 H2; by rewrite H2, H1, crlf_app, app_assoc].
  - intros h s Hw Hs. destruct (print_spec fuel line wait s Hs h Hw) as ([] & h' & E & _ & L & W). by exists h'.
  - intros h v Hw Hv. destruct (says_hex fuel line wait v Hv h Hw) as ([] & h' & E & _ & L & W). by exists h'.
Qed.
Lemma quiet_logger {H} (log : list Z -> io H unit) (log_hex : Z -> io H unit) :
  (forall s h, gives (log s) h h tt) -> (forall v h, gives (log_hex v) h h tt) -> logger log log_hex (fun _ => True) (fun h _ h' => h' = h).
Proof. intros Hl Hh. split; [split; [done | by intros ? ? ? ? ? -> ->] | intros h s _ _; by exists h | intros h v _ _; by exists h]. Qed.

Section tells.
Context (font : Z -> Z) (C : gpu -> Prop) {HC : console font C}.
Context {H : Type} (ready : H -> Prop) (wrote : H -> list Z -> H -> Prop) {HW : writer wrote}.

(** [t] returns [x], the console gets [ms] and the line [s]. *)
Definition tells {A} (t : io (H * gpu) A) (ms : list mark) (s : list Z) (x : A) : Prop :=
  forall h g, C g -> ready h -> exists h' g', t (h, g) = Some (x, (h', g')) /\
    paint font ms g = Some g' /\ C g' /\ wrote h s h' /\ ready h'.

Lemma tells_bind {A B} (t : io (H * gpu) A) (k : A -> io (H * gpu) B) ms1 ms2 s1 s2 x y :
  tells t ms1 s1 x -> tells (k x) ms2 s2 y -> tells (t ≫= k) (ms1 ++ ms2) (s1 ++ s2) y.
Proof using HW.
  intros Ht Hk h g Hg Hw. destruct (Ht h g Hg Hw) as (h1 & g1 & E1 & P1 & C1 & L1 & W1). destruct (Hk h1 g1 C1 W1) as (h2 & g2 & E2 & P2 & C2 & L2 & W2).
  exists h2, g2. split; [unfold mbind, io_bind; by rewrite E1 |]. rewrite paint_app, P1. cbn [mbind option_bind]. split; [exact P2 |]. split; [exact C2 |]. split; [by eapply lg_app | exact W2].
Qed.
Lemma tells_ret {A} (x : A) : tells (mret x) [] [] x.
Proof using HW. intros h g Hg Hw. exists h, g. split; [done |]. split; [done |]. split; [done |]. split; [apply lg_nil | done]. Qed.
Lemma tells_lift {A B} (o : option A) (k : A -> io (H * gpu) B) ms s x y : o = Some x -> tells (k x) ms s y -> tells (lift o ≫= k) ms s y.
Proof using. intros -> Hk h g Hg Hw. exact (Hk h g Hg Hw). Qed.
Lemma tells_show t : tells (show font t) (text t) [] tt.
Proof using HC HW.
  intros h g Hg Hw. destruct (LineEdit.print_ok font C t g Hg) as (g' & E & C'). exists h, g'. unfold show. rewrite E, paint_text. split; [done |]. split; [done |]. split; [done |]. split; [apply lg_nil | done].
Qed.
Lemma tells_ink fg : tells (ink fg) [Ink fg] [] tt.
Proof using HC HW. intros h g Hg Hw. exists h, (gpu_set_color fg 0x00 g). split; [done |]. split; [done |]. split; [by apply con_color |]. split; [apply lg_nil | done]. Qed.
(** [t] writes [s] on the line and returns [x]. *)
Definition adds {A} (t : io H A) (s : list Z) (x : A) : Prop := forall h, ready h -> exists h', gives t h h' x /\ wrote h s h' /\ ready h'.
Lemma adds_bind {A B} (t : io H A) (k : A -> io H B) s1 s2 x y : adds t s1 x -> adds (k x) s2 y -> adds (t ≫= k) (s1 ++ s2) y.
Proof using HW.
  intros Ht Hk h Hw. destruct (Ht h Hw) as (h1 & E1 & L1 & W1). destruct (Hk h1 W1) as (h2 & E2 & L2 & W2).
  exists h2. split; [by eapply gives_bind |]. split; [by eapply lg_app | done].
Qed.
Lemma adds_ret {A} (x : A) : adds (mret x) [] x.
Proof using HW. intros h Hw. exists h. split; [done |]. split; [apply lg_nil | done]. Qed.
Lemma tells_line {A} (t : io H A) s x : adds t s x -> tells (on_line t) [] s x.
Proof using.
  intros Ht h g Hg Hw. destruct (Ht h Hw) as (h' & E & L & W). exists h', g. unfold on_line. rewrite E. done.
Qed.

Lemma tells_then {A B} (t : io (H * gpu) A) (k : io (H * gpu) B) ms1 ms2 s1 s2 x y : tells t ms1 s1 x -> tells k ms2 s2 y -> tells (_ ← t; k) (ms1 ++ ms2) (s1 ++ s2) y.
Proof using HW. intros Ht Hk. by eapply tells_bind. Qed.
Lemma tells_as {A} (t : io (H * gpu) A) ms ms' s s' x : ms = ms' -> s = s' -> tells t ms s x -> tells t ms' s' x.
Proof using. by intros -> ->. Qed.

End tells.

Section tells_log.
Context (font : Z -> Z) (C : gpu -> Prop) {HC : console font C}.
Context {H : Type} (ready : H -> Prop) (wrote : H -> list Z -> H -> Prop) (log : list Z -> io H unit) (log_hex : Z -> io H unit) {HL : logger log log_hex ready wrote}.
Lemma adds_log s : bytes s -> adds ready wrote (log s) s tt.
Proof using HL. intros Hs h Hw. by apply lg_log. Qed.
Lemma adds_hex v : 0 <= v < 18446744073709551616 -> adds ready wrote (log_hex v) (hex_of v) tt.
Proof using HL. intros Hv h Hw. by apply lg_hex. Qed.
Lemma tells_u64 v : 0 <= v < 18446744073709551616 -> tells font C ready wrote (print_u64 font log v) (text (numeral 10 v)) (numeral 10 v) tt.
Proof using HC HL.
  intros Hv. unfold print_u64. eapply tells_lift; [by apply u64_text_numeral |]. eapply tells_as; [apply app_nil_r | apply app_nil_l |].
  eapply tells_then; [exact _ | eapply tells_show; exact _ |]. eapply tells_line, adds_log. eapply Forall_impl; [apply numeral_chars; lia |]. cbn. unfold is_byte. intros c Hc. lia.
Qed.
Lemma tells_log s : bytes s -> tells font C ready wrote (on_line (log s)) [] s tt.
Proof using HL. intros Hs. by apply tells_line, adds_log. Qed.
Lemma octet_text_some n : 0 <= n < 256 -> exists t, octet_text n = Some t.
Proof using. intros Hn. destruct (octet_roundtrip n [] Hn eq_refl) as (c & t & E & _). by exists (c :: t). Qed.
Lemma tells_ip ip : tells font C ready wrote (print_ip font ip) (text (address ip)) [] tt.
Proof using HC HL.
  assert (forall part, exists t, octet_text (ip_part ip part) = Some t) as Ho by (intros part; apply octet_text_some, u8_range).
  destruct (Ho 0) as [t0 E0], (Ho 1) as [t1 E1], (Ho 2) as [t2 E2], (Ho 3) as [t3 E3].
  unfold address, ip_text. rewrite E0, E1, E2, E3. cbn [mbind option_bind from_option id].
  eapply tells_as; cycle 2.
  - unfold print_ip. cbn [print_parts]. eapply tells_lift; [exact E0 |]. eapply tells_then; [exact _ | eapply tells_show; exact _ |]. eapply tells_then; [exact _ | eapply tells_show; exact _ |].
    eapply tells_lift; [exact E1 |]. eapply tells_then; [exact _ | eapply tells_show; exact _ |]. eapply tells_then; [exact _ | eapply tells_show; exact _ |].
    eapply tells_lift; [exact E2 |]. eapply tells_then; [exact _ | eapply tells_show; exact _ |]. eapply tells_then; [exact _ | eapply tells_show; exact _ |].
    eapply tells_lift; [exact E3 |]. eapply tells_then; [exact _ | eapply tells_show; exact _ |]. eapply tells_then; [exact _ | eapply tells_ret; exact _ |]. eapply tells_ret; exact _.
  - marks.
  - reflexivity.
Qed.
End tells_log.

(** Steps that show something, in order; what is shown is put together at the end. *)
Ltac tell_one := first
  [ eapply tells_show; exact _ | eapply tells_ink; exact _ | eapply tells_u64; [exact _ | exact _ | assumption] | eapply tells_ip; exact _
  | eapply tells_ret; exact _ | eapply tells_log; [exact _ | by repeat constructor] ].
Ltac tell := repeat (eapply tells_then; [exact _ | tell_one |]); try tell_one.
Ltac tells_text := eapply tells_as; cycle 2.

Section shown.
Context (font : Z -> Z) (C : gpu -> Prop) {HC : console font C}.
Context {H : Type} (log : list Z -> io H unit) (log_hex : Z -> io H unit) (ready : H -> Prop) (wrote : H -> list Z -> H -> Prop) {HL : logger log log_hex ready wrote}.
Local Abbreviation shows t ms s := (tells font C ready wrote t ms s tt).

Definition is_u64 (v : Z) : Prop := 0 <= v < 18446744073709551616.

Lemma two_shown v : is_u64 v -> shows (two_digits font log v) (text (two v)) (numeral 10 v).
Proof using HC HL.
  intros Hv. unfold two_digits, two. tells_text.
  - eapply (tells_then _ _ _ _ _ _ (text (if v <? 10 then txt "0" else [])) _ []); [destruct (v <? 10); tell_one | tell_one].
  - marks.
  - marks.
Qed.
Lemma preview_shown s : forall i max, 0 <= i -> shows (preview_from font s i max) (text (one_line (Z.to_nat (max - i)) s)) [].
Proof using HC HL.
  induction s as [| c s IH]; intros i max Hi; cbn [preview_from one_line].
  { destruct (Z.to_nat (max - i)); eapply tells_ret; exact _. }
  destruct (Z.ltb_spec i max); [| rewrite andb_false_r; replace (Z.to_nat (max - i)) with 0%nat by lia; eapply tells_ret; exact _].
  rewrite andb_true_r. replace (Z.to_nat (max - i)) with (S (Z.to_nat (max - (i + 1)))) by lia. cbn [one_line].
  destruct (istrue c); [| eapply tells_ret; exact _]. change (?x :: ?l) with ([x] ++ l). rewrite text_app. eapply (tells_then _ _ _ _ _ _ [_] _ [] []); [| apply IH; lia].
  destruct ((c =? 13) || (c =? 10) || (c =? 9)); [tell_one |].
  intros h g Hg Hw. destruct (con_putc c g Hg) as (g' & E & C'). exists h, g'. unfold show_char. cbn [text map paint]. rewrite E. split; [done |]. split; [done |]. split; [done |]. split; [apply lg_nil | done].
Qed.

Lemma gpu_shown i : 0 <= gi_bar0 i < 4294967296 -> shows (gpu_report font (Some i)) (gpu_marks (Some i)) [].
Proof using HC HL.
  intros Hi. destruct (KShell.hex_text_some (gi_bar0 i) Hi) as [t Et]. unfold gpu_marks, bar_text, gpu_name. rewrite Et. cbn [from_option id]. tells_text.
  - cbn [gpu_report]. do 4 (eapply tells_then; [exact _ | tell_one |]). eapply tells_lift; [exact Et |]. tell.
  - marks.
  - marks.
Qed.
Lemma date_shown cmos : (forall r, is_byte (cmos r)) ->
  shows (date_report font log (rtc_read_time cmos)) (Ink 0x0F :: text (date_text (rtc_read_time cmos)))
    (let t := rtc_read_time cmos in numeral 10 (day t) ++ numeral 10 (month t) ++ numeral 10 (year t) ++ numeral 10 (hours t) ++ numeral 10 (minutes t) ++ numeral 10 (seconds t)).
Proof using HC HL.
  intros Hb. destruct (KShell.rtc_u64 cmos Hb) as (Hs & Hm & Hh & Hd & Hmo & Hy). unfold KShell.is_u64 in *. tells_text.
  - unfold date_report. do 10 (eapply tells_then; [exact _ | tell_one |]). eapply tells_then; [exact _ | by apply two_shown |]. eapply tells_then; [exact _ | tell_one |]. eapply tells_then; [exact _ | by apply two_shown |]. tell.
  - unfold date_text. marks.
  - cbv zeta. marks.
Qed.
Lemma net_shown n : shows (net_report font n) (net_marks n) [].
Proof using HC HL.
  unfold net_report, net_marks. tells_text.
  - eapply (tells_then _ _ _ _ _ _ (if istrue (net_is_configured n) then _ else _) _ []).
    { destruct (istrue (net_is_configured n)); (tells_text; [tell | reflexivity | reflexivity]). }
    eapply (tells_then _ _ _ _ _ _ (if istrue (net_dns_answer_ip n) then _ else _) _ []).
    { destruct (istrue (net_dns_answer_ip n)); (tells_text; [tell | reflexivity | reflexivity]). }
    do 2 (eapply tells_then; [exact _ | tell_one |]).
    eapply (tells_then _ _ _ _ _ _ (if 0 <? net_http_body_len n then _ else _) _ []); [| tell_one].
    destruct (0 <? net_http_body_len n); [| tell_one].
    tells_text; [do 2 (eapply tells_then; [exact _ | tell_one |]); eapply tells_then; [exact _ | apply preview_shown; lia | tell_one] | reflexivity | reflexivity].
  - destruct (istrue (net_is_configured n)), (istrue (net_dns_answer_ip n)), (istrue (net_http_ok n)), (0 <? net_http_body_len n); marks.
  - marks.
Qed.

(** The line during the search for the card. *)
Local Abbreviation said t s := (adds ready wrote t s tt).
Lemma half_range h i : 0 <= header_half h i < 65536.
Proof using. pose proof (header_byte_range h i). pose proof (header_byte_range h (i + 1)). unfold header_half. lia. Qed.
Lemma bar_range d : 0 <= gi_bar0 (gpu_info_of d) < 4294967296.
Proof using.
  cbn [gi_bar0 gpu_info_of]. change 0xFFFFFFF0 with (Z.land 0xFFFFFFF0 (Z.ones 32)). rewrite Z.land_assoc, Z.land_ones by lia. apply Z.mod_pos_bound. lia.
Qed.
Lemma said_flag (b : bool) s : bytes s -> said (if b then log s else mret tt) (if b then s else []).
Proof using HL. intros Hs. destruct b; [eapply adds_log; [exact _ | done] | eapply adds_ret; exact _]. Qed.
Lemma gpu_said d : entry_ok d -> let i := gpu_info_of d in
  said (print_gpu log log_hex d) (txt "[pci] GPU found: " ++ hex_of (d_vendor d) ++ txt ":" ++ hex_of (d_device_id d) ++ txt "  BAR0=" ++ hex_of (gi_bar0 i) ++ txt "  IRQ=" ++ hex_of (gi_irq i) ++
    (if istrue (is_intel i) then txt "  [Intel]" else []) ++ (if istrue (is_nvidia i) then txt "  [NVIDIA]" else []) ++ (if istrue (is_amd i) then txt "  [AMD]" else []) ++ [10]).
Proof using HL.
  intros (_ & _ & _ & Ed & _) i. pose proof (bar_range d) as Hb. pose proof (half_range (d_config d) 0) as Hv. pose proof (half_range (d_config d) 2) as Hd. pose proof (header_byte_range (d_config d) 60) as Hi.
  assert (d_vendor d = header_half (d_config d) 0) as Ev by (by rewrite Ed at 1). assert (d_device_id d = header_half (d_config d) 2) as Ei by (by rewrite Ed at 1).
  unfold print_gpu. cbv zeta. fold i. assert (forall v, 0 <= v < 4294967296 -> said (log_hex v) (hex_of v)) as Hh by (intros v Hv'; eapply adds_hex; [exact _ | lia]).
  assert (forall t, bytes t -> said (log t) t) as Hp by (intros t Ht; eapply adds_log; [exact _ | done]). rewrite Ev, Ei.
  do 4 (eapply adds_bind; [exact _ | apply Hp; by repeat constructor |]; eapply adds_bind; [exact _ | apply Hh; first [lia | exact Hb | cbn [i gi_irq gpu_info_of]; unfold h_interrupt_line; lia] |]).
  do 3 (eapply adds_bind; [exact _ | apply said_flag; by repeat constructor |]). apply Hp. by repeat constructor.
Qed.
Lemma find_gpu_told devs : Forall entry_ok devs -> tells font C ready wrote (on_line (pci_find_gpu log log_hex devs None)) [] (gpu_log devs) (option_map gpu_info_of (first_display devs)).
Proof using HL.
  intros Hd. apply tells_line. unfold pci_find_gpu, gpu_log. destruct (first_display devs) as [d |] eqn:Ed; cbn [option_map].
  - assert (entry_ok d) as Hok.
    { clear - Hd Ed. induction Hd as [| e devs He _ IH]; cbn [first_display] in Ed; [done |]. destruct (d_class e =? PCI_CLASS_DISPLAY); [by injection Ed as <- | by apply IH]. }
    cbv zeta. rewrite <- (app_nil_r (_ ++ _)). eapply adds_bind; [exact _ | exact (gpu_said d Hok) | eapply adds_ret; exact _].
  - rewrite <- (app_nil_r (ln _)). eapply adds_bind; [exact _ | eapply adds_log; [exact _ | by repeat constructor] | eapply adds_ret; exact _].
Qed.
(** The whole report. *)
Lemma report_shown total devs pm1a cmos n : 0 <= total < 18446744073709551616 -> Forall entry_ok devs -> (forall r, is_byte (cmos r)) ->
  shows (boot_report font log log_hex total devs pm1a cmos n) (report_marks total devs pm1a cmos n) (report_log total devs cmos).
Proof using HC HL.
  intros Ht Hd Hb. assert (is_u64 (total / 1048576)) as Hm by (unfold is_u64; lia). tells_text.
  - unfold boot_report. change (1024 * 1024) with 1048576. do 7 (eapply tells_then; [exact _ | tell_one |]). eapply tells_bind; [exact _ | by apply find_gpu_told |].
    eapply (tells_then _ _ _ _ _ _ (gpu_marks (option_map gpu_info_of (first_display devs))) _ []).
    { destruct (first_display devs) as [d |]; [apply gpu_shown, bar_range |]. tells_text; [tell | reflexivity | reflexivity]. }
    eapply (tells_then _ _ _ _ _ _ (Ink 0x0A :: text (txt "ACPI: " ++ (if istrue pm1a then txt "OK" else txt "not found") ++ [10])) _ []).
    { tells_text; [tell | marks | reflexivity]. }
    eapply tells_then; [exact _ | by apply date_shown | apply net_shown].
  - unfold report_marks. marks.
  - unfold report_log. cbv zeta. marks.
Qed.
End shown.

Section report_claim.
Context (font : Z -> Z) (C : gpu -> Prop) {HC : console font C}.
Context {H : Type} `{machine H} (fuel : nat) (line : H -> list Z) (wait : H -> nat) {HU : uart H fuel line wait}.

(** Also: the kernel's report of itself ends without a fault on every console that prints, for every
    amount of memory, every graphics card, every clock and every state of the network; the
    console gets exactly the lines of [report_marks], each in its colour, with the preview
    of the page cut to 66 characters in one line, and the serial line gets what the search
    for the card says and the bare numbers. *)
Theorem boot_report_shows (total : Z) (devs : list pci_device) (pm1a : Z) (cmos : Z -> Z) (n : net) (h : H) (g : gpu)
    (Ht : 0 <= total < 18446744073709551616) (Hd : Forall entry_ok devs) (Hb : forall r, is_byte (cmos r)) (Hg : C g) (Hw : (wait h < fuel)%nat) :
  exists h' g', boot_report font (serial_print fuel) (serial_print_hex fuel) total devs pm1a cmos n (h, g) = Some (tt, (h', g')) /\
    paint font (report_marks total devs pm1a cmos n) g = Some g' /\ C g' /\ line h' = line h ++ crlf (report_log total devs cmos) /\ (wait h' < fuel)%nat.
Proof using HC HU.
  destruct (report_shown font C (serial_print fuel) (serial_print_hex fuel) _ _ (HL := serial_logger fuel line wait) total devs pm1a cmos n Ht Hd Hb h g Hg Hw) as (h' & g' & E & P & C' & L & W).
  by exists h', g'.
Qed.
End report_claim.

(** ** The disk *)

Section disk.
Context {H : Type} `{machine H} (log : list Z -> io H unit) (log_hex log_dec : Z -> io H unit).

(** [ident] is the array of 256 words, as bytes. *)
Definition ata_report (ident : list Z) : io H unit :=
  present ← ata_drive_present 0;
  if present : bool then
    _ ← log (ln "[ata] primary bus present, identifying master...");
    r ← ata_identify 0 1 ident;
    let '(ret, ident) := r : Z * list Z in
    if ret =? 0 then
      _ ← log (ln "[ata] master drive identified.");
      _ ← log (txt "[ata] signature: "); _ ← log_hex (load16 ident 0); _ ← log [10];
      let sectors := Z.lor (load16 ident 120) (u32 (Z.shiftl (load16 ident 122) 16)) in
      _ ← log (txt "[ata] size: "); _ ← log_dec (sectors / 2 / 1024); log (ln " MiB")
    else log (ln "[ata] no master drive")
  else log (ln "[ata] no primary bus").

Context {D : Type} `{BlockDev D} (fuel : nat).
Implicit Types s : vst D.

(** The file system that [fat_mount] has made. *)
Definition table_of (m : fat_private * Z * Z) (id : Z) : option (filesystem D) :=
  let '(fp, fs, root) := m in if id =? fs then Some (fat_fs fp fs root fuel) else None.

Fixpoint log_names (n : nat) (child : Z) s : io H unit :=
  match n with
  | O => lift None
  | S n => if istrue child then c ← lift (nodes s !! child); _ ← log (txt "  "); _ ← log (n_name c); _ ← log [10]; log_names n (n_next c) s else mret tt
  end.

Definition try_hello (tbl : Z -> option (filesystem D)) s : io H (vst D) :=
  r ← lift (vfs_open tbl (txt "/hello.txt") s);
  let '(f, s) := r : Z * vst D in
  if istrue f then
    _ ← log (ln "[main] opened file");
    r ← lift (vfs_read tbl f 63 s);
    let '(n, data, s) := r : Z * list Z * vst D in
    _ ← (if 0 <? n then
           t ← lift (c_string (take (Z.to_nat n) data ++ [0]));
           _ ← log (txt "[main] content: " ++ [34]); _ ← log t; log [34; 10]
         else mret tt);
    mret (vfs_close f s)
  else _ ← log (ln "[main] could not open file"); mret s.

Definition mount_root s : io H (option (fat_private * Z * Z) * vst D) :=
  r ← lift (fat_mount 0 0 s);
  let '(fat, s) := r : option (fat_private * Z * Z) * vst D in
  match fat with
  | Some (fp, fs, root) =>
      let s := snd (vfs_mount [SLASH] fs s) in
      _ ← log (ln "[main] FAT mounted on /");
      _ ← log (ln "[main] Root directory:");
      r ← lift (vfs_readdir (table_of (fp, fs, root)) [SLASH] s);
      let '(_, _, s) := r : Z * list (list Z * Z * Z) * vst D in
      n ← lift (nodes s !! root);
      _ ← log_names (node_fuel s) (n_children n) s;
      s ← try_hello (table_of (fp, fs, root)) s;
      mret (fat, s)
  | None =>
      _ ← log (ln "[main] slave: no FAT");
      r ← lift (fat_mount 0 1 s);
      let '(fat, s) := r : option (fat_private * Z * Z) * vst D in
      match fat with
      | Some (fp, fs, root) => let s := snd (vfs_mount [SLASH] fs s) in _ ← log (ln "[main] FAT mounted on / (master)"); mret (fat, s)
      | None => _ ← log (ln "[main] no FAT on either drive"); mret (None, s)
      end
  end.
End disk.

(** ** The network *)

Section network.
Context {H : Type} `{machine H} (log : list Z -> io H unit) (log_hex log_char : Z -> io H unit).

(** net_init of net.c over the whole start of the card. *)
Definition net_start (p : pmm) (n : net) : io H (net * pmm) :=
  let n := Net (g_mac n) (g_gateway_mac n) 0 0 0 0 (g_ip_id n) (g_icmp_seq n) [] 0 0 0 0 0 0 0 (Tcp 0 0 ISN 0 0 0 0 0) (Http 0 0 0 0 0 [] []) (g_nic n) in
  r ← nic_init log log_hex log_char p (g_nic n);
  let '(ret, d, p) := r : Z * rtl * pmm in
  let n := set_nic d n in
  if negb (ret =? 0) then mret (n, p)
  else n ← lift (send_dhcp DHCP_DISCOVER 0 0 (set_mac (rtl8139_get_mac d) n)); mret (n, p).
End network.

(** [for (int i = 0; i < 5000000; i++) net_poll();] *)
Definition POLLS_AT_START : Z := 5000000.
Definition net_settle (E : KShell.facts) (n : net) : option net := r ← KShell.poll_until E (Z.to_nat POLLS_AT_START) 0 (fun _ _ => false) n; Some (snd r).

(** ** Up to the devices *)

(** What the boot loader leaves in memory, and where the linker has put things. *)
Record image := Image {
  im_e820 : list e820_entry; im_cr3 : Z; im_tables : gmap Z Z; im_vbe : list Z; im_vram : Z -> Z -> list Z; im_bios : mem;
  im_gdt : Z; im_tss : Z; im_stack : Z; im_isr : list Z; im_irq : list Z; im_int80 : Z; im_idt : Z }.
Record early := Early {
  e_gpu : gpu; e_gdt : list Z * tss * table_ptr * Z; e_idt : list idt_entry * table_ptr; e_heap : heap;
  e_devs : list pci_device; e_mouse : mouse * Z; e_acpi : acpi }.

Definition PCI_FUEL : nat := 257.

Section start.
Context {H : Type} `{machine H} (log : list Z -> io H unit) (log_hex log_dec log_char : Z -> io H unit).

Definition rtc_init : io H unit := log (ln "[rtc] initialized").

(** The console and the mouse are as the loader of the kernel has made them. *)
Definition kernel_start (I : image) (g : gpu) (s : mouse) : io H early :=
  _ ← serial_init;
  g ← lift (gpu_init g);
  gdt ← lift (gdt_init (im_gdt I) (im_tss I) (im_stack I) (replicate 7 0) tss_zero);
  idt ← lift (idt_init (im_isr I) (im_irq I) (im_int80 I) (im_idt I) (replicate 256 no_gate));
  _ ← pic_remap;
  _ ← pit_init 100;
  p ← lift (pmm_init (im_e820 I));
  let m := paging_init (im_cr3 I) (mkMach (im_tables I) p 0) in
  h ← lift (heap_init (heap_boot m));
  r ← gpu_init_framebuffer (im_vram I) log log_dec (im_vbe I) h g;
  let '(h, g) := r : heap * gpu in
  devs ← pci_enumerate log log_hex log_dec PCI_FUEL;
  ms ← mouse_init log s 0;
  _ ← log (ln "[main] calling rtc_init..."); _ ← rtc_init;
  _ ← log (ln "[main] calling acpi_init..."); a ← acpi_init log log_hex log_dec log_char (im_bios I) (Acpi 0 0);
  _ ← log (ln "[main] acpi_init done");
  mret (Early g gdt idt h devs ms a).

(** ** Tasks *)

(** One turn of the loop of task_a and of task_b, and of the one of task_net. *)
Definition task_count (ticks : Z) : Z := let ticks := u32 (ticks + 1) in if ticks =? 1000000 then 0 else ticks.
Definition task_net (after status : Z) (n : net) : option net := net_poll after status n.

Definition start_tasks (task_a task_b task_net : Z) (k : kernel) : option kernel :=
  r ← task_create task_a k; r ← task_create task_b (snd r); r ← task_create task_net (snd r); Some (snd r).


End start.

(** ** The whole start *)

Record booted (D : Type) := Booted { b_early : early; b_root : option (fat_private * Z * Z); b_vfs : vst D; b_net : net; b_kernel : kernel; b_gpu : gpu }.
Arguments Booted {D}. Arguments b_early {D}. Arguments b_root {D}. Arguments b_vfs {D}. Arguments b_net {D}. Arguments b_kernel {D}. Arguments b_gpu {D}.

(** The addresses of idle_task and of the three tasks. *)
Record entries := Entries { en_idle : Z; en_a : Z; en_b : Z; en_net : Z }.

Section main.
Context (font : Z -> Z) {H : Type} `{machine H} (log : list Z -> io H unit) (log_hex log_dec log_char : Z -> io H unit).
Context {D : Type} `{BlockDev D} (fuel : nat) (E : KShell.facts).

Definition on_gpu {A} (t : io (H * gpu) A) (g : gpu) : io H gpu := fun h => match t (h, g) with Some (_, (h, g)) => Some (g, h) | None => None end.
(** The tables of the scheduler are empty before its start. *)
Definition kernel_of (h : heap) (cr3 : Z) : kernel := mkKernel h ∅ 0 1 0 0 cr3 false.

(** Up to the call of shell_run (KShell.v). [n] and [ident] are what is in the memory of the
    variables of net.c and of the array. *)
Definition kernel_main (I : image) (T : entries) (g : gpu) (s : mouse) (ident : list Z) (d : D) (n : net) : io H (booted D) :=
  e ← kernel_start log log_hex log_dec log_char I g s;
  _ ← ata_report log log_hex log_dec ident;
  r ← mount_root log fuel (vfs_init (mkVst (e_heap e) ∅ ∅ ∅ [] d));
  let '(root, v) := r : option (fat_private * Z * Z) * vst D in
  r ← net_start log log_hex log_char (m_pmm (h_mach (v_heap v))) n;
  let '(n, p) := r : net * pmm in
  n ← lift (net_settle E n);
  _ ← log (ln "[scheduler] init");
  k ← lift (scheduler_init (en_idle T) (kernel_of (set_mach (with_pmm p (h_mach (v_heap v))) (v_heap v)) (im_cr3 I)));
  _ ← log (ln "[scheduler] pronto (per-process FD, 16KiB stacks)");
  g ← on_gpu (boot_report font log log_hex (pmm_total_bytes (m_pmm (h_mach (k_heap k)))) (e_devs e) (acpi_get_pm1a (e_acpi e)) (KShell.f_cmos E) n) (e_gpu e);
  k ← lift (start_tasks (en_a T) (en_b T) (en_net T) k);
  _ ← log (ln "[kernel] multitarefa ativa.");
  g ← on_gpu (show font (ln "Digite 'help' para comandos." ++ [10])) g;
  mret (Booted e root (set_vheap (k_heap k) v) n k g).
End main.

(** ** The machine is ready for the devices *)

(** The console as the loader leaves it: in text mode, nothing drawn. *)
Definition text_boot (g : gpu) : Prop := g_fb_enabled g = 0 /\ zlen (vga g) = 2000 /\ g_render_target g = 0 /\ g_target_back g = 0 /\ g_fb_back g = None.

Lemma gpu_init_blank g : text_boot g -> exists g', gpu_init g = Some g' /\ shows g' (Screen (replicate 25 (blank_row 0x0F)) 0 0 0x0F) /\
  g_render_target g' = 0 /\ g_target_back g' = 0 /\ g_fb_back g' = None.
Proof.
  intros (Ht & Hl & Hr & Hb & Hk). unfold gpu_init, gpu_clear. cbn [set_cursor_pos set_text gpu_set_color set_color g_fb_enabled vga]. rewrite Ht. change (istrue 0) with false. cbv iota.
  change (Z.to_nat (VGA_COLS * VGA_ROWS)) with 2000%nat. rewrite fill_from by lia. cbn [mbind option_bind]. eexists. split; [done |]. split; [| unfold fb_update_cursor; cbn; by repeat case_match]. apply shows_cursor.
  split; try done.
  - cbn [set_vga set_text vga]. rewrite (drop_ge (vga g)) by (unfold zlen in Hl; lia). change (Z.to_nat 0) with 0%nat. cbn [take app]. rewrite app_nil_r. reflexivity.
  - split; [done |]. by apply Forall_replicate.
Qed.

Section devices.
Context {H : Type} `{machine H} (log : list Z -> io H unit) (log_hex log_dec log_char : Z -> io H unit).
Hypothesis Hlog : forall s h, gives (log s) h h tt.
Hypothesis Hhex : forall v h, gives (log_hex v) h h tt.
Hypothesis Hdec : forall v h, gives (log_dec v) h h tt.
Hypothesis Hchar : forall v h, gives (log_char v) h h tt.

Local Abbreviation any := (fun _ => True).
Lemma quiet_any {A} (t : A -> io H unit) : (forall x h, gives (t x) h h tt) -> forall x, returns (t x) any.
Proof using. intros Ht x h _. by exists tt, h. Qed.
Lemma returns_then {A B} (t : io H A) (k : A -> io H B) : returns t any -> (forall x, returns (k x) any) -> returns (t ≫= k) any.
Proof using. intros Ht Hk. eapply keeps_bind; [exact Ht | intros x _; apply Hk]. Qed.
Lemma returns_out8 p v : returns (outb p v) any.
Proof using. intros h _. by eexists _, _. Qed.
Lemma returns_in8 p : returns (inb p) any.
Proof using. intros h _. destruct (in8 (u16 p) h) as [v h'] eqn:E. exists (u8 v), h'. unfold gives, inb. by rewrite E. Qed.
Lemma returns_ret {A} (x : A) : returns (mret x : io H A) any.
Proof using. by apply keeps_ret. Qed.
Lemma returns_lift {A B} (o : option A) (k : A -> io H B) x : o = Some x -> returns (k x) any -> returns (lift o ≫= k) any.
Proof using. intros Ho Hk. by eapply keeps_lift. Qed.
Lemma returns_wait_clear n p mask : returns (wait_clear n p mask) any.
Proof using. induction n as [| n IH]; [apply returns_ret |]. cbn [wait_clear]. apply returns_then; [apply returns_in8 | intros v]. destruct (istrue _); [exact IH | apply returns_ret]. Qed.
Lemma returns_wait_set n p mask : returns (wait_set n p mask) any.
Proof using. induction n as [| n IH]; [apply returns_ret |]. cbn [wait_set]. apply returns_then; [apply returns_in8 | intros v]. destruct (istrue _); [apply returns_ret | exact IH]. Qed.
Lemma returns_or {A} (t : io H Z) (r : A) k : returns t any -> returns k any -> returns (or_return t r k) any.
Proof using. intros Ht Hk. unfold or_return. apply returns_then; [exact Ht | intros v]. destruct (v <? 0); [apply returns_ret | exact Hk]. Qed.

Ltac ends := repeat match goal with
  | |- returns (log _) _ => apply (quiet_any log Hlog)
  | |- returns (log_hex _) _ => apply (quiet_any log_hex Hhex)
  | |- returns (log_dec _) _ => apply (quiet_any log_dec Hdec)
  | |- returns (log_char _) _ => apply (quiet_any log_char Hchar)
  | |- returns (outb _ _) _ => apply returns_out8
  | |- returns (inb _) _ => apply returns_in8
  | |- returns (wait_clear _ _ _) _ => apply returns_wait_clear
  | |- returns (wait_set _ _ _) _ => apply returns_wait_set
  | |- returns (mret _) _ => apply returns_ret
  | |- returns (or_return _ _ _) _ => apply returns_or
  | |- returns (_ ≫= _) _ => apply returns_then; [| intros ?]
  | |- returns (if ?b then _ else _) _ => destruct b
  end.

Lemma serial_ends : returns serial_init any.
Proof using. unfold serial_init. ends. Qed.
Lemma pics_end : returns pic_remap any.
Proof using. unfold pic_remap. ends. Qed.
Lemma timer_ends : returns (pit_init 100) any.
Proof using. unfold pit_init. eapply returns_lift; [reflexivity | ends]. Qed.
Lemma mouse_ends s a : returns (mouse_init log s a) any.
Proof using Hlog. unfold mouse_init, mouse_send_cmd, ps2_wait_write, ps2_wait_read. cbv zeta. ends. Qed.
Lemma chars_end n m : forall a, returns (log_chars log_char n m a) any.
Proof using Hchar. induction n as [| n IH]; intros a; cbn [log_chars]; [apply returns_ret |]. ends. apply IH. Qed.
Lemma say_ends s v : returns (say_hex log log_hex s v) any.
Proof using Hlog Hhex. unfold say_hex. ends. Qed.
Lemma returns_in16 p : returns (inw p) (fun v => 0 <= v < 65536).
Proof using. intros h _. destruct (in16 (u16 p) h) as [v h'] eqn:E. exists (u16 v), h'. split; [unfold gives, inw; by rewrite E | split; [done | apply u16_range]]. Qed.
Lemma returns_drq n p : returns (wait_drq n p) any.
Proof using. induction n as [| n IH]; [apply returns_ret |]. cbn [wait_drq]. ends. exact IH. Qed.
Lemma words_end n base : forall i buf, 0 <= i -> 2 * (i + Z.of_nat n) <= zlen buf -> returns (in_words n base i buf) any.
Proof using.
  induction n as [| n IH]; intros i buf Hi Hl; [apply returns_ret |]. cbn [in_words]. eapply keeps_bind; [apply returns_in16 | intros w Hw].
  eapply returns_lift; [unfold put_word; rewrite put_in by lia; cbn [mbind option_bind]; apply put_in; rewrite zset_zlen; lia |].
  apply IH; [lia | rewrite !zset_zlen; lia].
Qed.
(** What the first drive says of itself fits in the array, on every machine. *)
Lemma ata_ends ident : zlen ident = 512 -> returns (ata_report log log_hex log_dec ident) any.
Proof using Hlog Hhex Hdec.
  intros Hl. unfold ata_report, ata_drive_present, ata_identify, ata_wait_busy, ata_wait_drq. cbv zeta.
  repeat (progress ends || apply returns_drq || (apply words_end; [lia | rewrite Hl; lia]) || case_match).
Qed.
Lemma acpi_ends m a : returns (acpi_init log log_hex log_dec log_char m a) any.
Proof using Hlog Hhex Hdec Hchar.
  unfold acpi_init, find_fadt. cbv zeta. repeat (progress ends || apply say_ends || apply chars_end).
Qed.
End devices.

Lemma fb_unusable {H} vram (log : list Z -> io H unit) log_dec info h g st : (forall s h, gives (log s) h h tt) -> usable_mode info = false -> g_fb_enabled g = 0 ->
  gives (gpu_init_framebuffer vram log log_dec info h g) st st (h, g).
Proof.
  intros Hl Hu Hg. unfold gpu_init_framebuffer. rewrite Hg. change (istrue 0) with false. cbv iota. eapply gives_bind; [apply gives_lift; unfold fb_init_from_vbe; by rewrite Hu |].
  cbv iota beta. rewrite Hg. change (istrue 0) with false. cbv iota. eapply gives_bind; [apply Hl | apply gives_ret].
Qed.

Section ready_claim.
Context {H : Type} `{machine H} (log : list Z -> io H unit) (log_hex log_dec log_char : Z -> io H unit).
Hypothesis Hlog : forall s h, gives (log s) h h tt.
Hypothesis Hhex : forall v h, gives (log_hex v) h h tt.
Hypothesis Hdec : forall v h, gives (log_dec v) h h tt.
Hypothesis Hchar : forall v h, gives (log_char v) h h tt.

(** What the start relies on. The page tables of the boot loader lie in the 2 MiB that the
    frame allocator keeps, and the map of the memory reaches beyond them. *)
Record image_ok (I : image) (own : gmap Z (nat * Z)) : Prop := {
  io_tables : tree (im_tables I) (fun f => 0 <= f < 512) (Z.land (im_cr3 I) PAGE_ADDR_MASK) own;
  io_memory : 512 <= top_frame (im_e820 I) 0;
  io_vbe : bytes (im_vbe I) /\ vbe_width (im_vbe I) * (vbe_bpp (im_vbe I) / 8) <= vbe_pitch (im_vbe I);
  io_vram : forall a n, 0 <= n -> zlen (im_vram I a n) = n;
  io_tss : 0 <= im_tss I < 2 ^ 64 /\ 0 <= im_stack I < 2 ^ 64 - KERNEL_STACK;
  io_stubs : zlen (im_isr I) = 32 /\ zlen (im_irq I) = 16 /\ Forall (fun a => 0 <= a < 2 ^ 64) (im_isr I) /\ Forall (fun a => 0 <= a < 2 ^ 64) (im_irq I) /\ 0 <= im_int80 I < 2 ^ 64 }.

Lemma first_heap I own : image_ok I own ->
  exists p h own', pmm_init (im_e820 I) = Some p /\ heap_init (heap_boot (paging_init (im_cr3 I) (mkMach (im_tables I) p 0))) = Some h /\
    repr h [Blk 1048576 true] /\ good (g_pml4 (h_mach h)) (h_mach h) own'.
Proof using.
  intros [Ht Hm _ _ _ _]. destruct (pmm_init_correct (im_e820 I)) as (p & Ep & Wp & Tp & Up). exists p.
  set (m := paging_init (im_cr3 I) (mkMach (im_tables I) p 0)). assert (512 <= g_total_frames p) as Htot by (rewrite Tp; unfold MAX_FRAMES in *; lia).
  destruct (heap_init_correct m own) as (h & own' & E & R & G).
  - split; [exact Wp |]. eapply tree_mono; [exact Ht |]. cbv beta. intros f Hf. split; [change (m_pmm m) with p; lia |].
    change (m_pmm m) with p. rewrite Up by lia. by destruct (Z.ltb_spec f 512); [| lia].
  - change (m_pmm m) with p. lia.
  - by exists h, own'.
Qed.

Lemma kernel_start_runs (I : image) (own : gmap Z (nat * Z)) (g : gpu) (s : mouse) (h : H) (HI : image_ok I own) (Hg : text_boot g) :
  exists e h' own', kernel_start log log_hex log_dec log_char I g s h = Some (e, h') /\
    good (g_pml4 (h_mach (e_heap e))) (h_mach (e_heap e)) own' /\
    (text_console (e_gpu e) \/ pixel_console (vbe_width (im_vbe I) / 8) (vbe_height (im_vbe I) / 16) (e_gpu e)) /\
    (segment_of (fst (fst (fst (e_gdt e)))) 0x08 = Some (code64 0) /\ segment_of (fst (fst (fst (e_gdt e)))) 0x10 = Some (data 0) /\ segment_of (fst (fst (fst (e_gdt e)))) 0x1B = Some (code64 3)) /\
    (forall vec, 0 <= vec < 256 -> gate_of (fst (e_idt e)) vec = expected_gate (im_isr I) (im_irq I) (im_int80 I) vec) /\
    zlen (e_devs e) <= MAX_DEVICES /\ Forall entry_ok (e_devs e) /\
    (usable_mode (im_vbe I) = false -> repr (e_heap e) [Blk 1048576 true] /\ text_console (e_gpu e) /\
      exists p, pmm_init (im_e820 I) = Some p /\ heap_init (heap_boot (paging_init (im_cr3 I) (mkMach (im_tables I) p 0))) = Some (e_heap e)).
Proof using Hlog Hhex Hdec Hchar.
  pose proof HI as HI'. destruct HI as [Ht Hm [Hv1 Hv2] Hvr [Htss Hst] (S1 & S2 & S3 & S4 & S5)].
  destruct (gpu_init_blank g Hg) as (g1 & Eg1 & Hs1 & Hr1 & Hb1 & Hk1).
  destruct (gdt_init_correct (im_gdt I) (im_tss I) (im_stack I) (replicate 7 0) tss_zero eq_refl Htss Hst) as (gd & ts & Egdt & G8 & G10 & G1B & _).
  destruct (idt_init_correct (im_isr I) (im_irq I) (im_int80 I) (im_idt I) (replicate 256 no_gate) S1 S2 eq_refl S3 S4 S5) as (gi & Eidt & _ & Egi).
  destruct (first_heap I own HI') as (p & hp & own1 & Ep & Eh & R & G).
  destruct (serial_ends h Logic.I) as ([] & h1 & E1 & _). destruct (pics_end h1 Logic.I) as ([] & h2 & E2 & _). destruct (timer_ends h2 Logic.I) as ([] & h3 & E3 & _).
  destruct (init_framebuffer_ready (im_vram I) log log_dec Hvr Hlog Hdec (im_vbe I) hp _ own1 g1 _ h3 Hv1 Hv2 R G Hs1 Hr1 Hb1 Hk1) as (hp' & g' & own' & Ef & Gf & Hc & Hun).
  destruct (enumerate_ends log log_hex log_dec (quiet_any log Hlog) (quiet_any log_hex Hhex) (quiet_any log_dec Hdec) PCI_FUEL h3 ltac:(done)) as (devs & h4 & Ed & Hl & Hok).
  destruct (mouse_ends log Hlog s 0 h4 Logic.I) as (ms & h5 & Em & _). destruct (acpi_ends log log_hex log_dec log_char Hlog Hhex Hdec Hchar (im_bios I) (Acpi 0 0) h5 Logic.I) as (a & h6 & Ea & _).
  exists (Early g' (gd, ts, TablePtr 55 (im_gdt I), 0x28) (gi, TablePtr 4095 (im_idt I)) hp' devs ms a), h6, own'. split.
  - unfold kernel_start. eapply gives_bind; [exact E1 |]. eapply gives_bind; [by apply gives_lift |]. eapply gives_bind; [by apply gives_lift |]. eapply gives_bind; [by apply gives_lift |].
    eapply gives_bind; [exact E2 |]. eapply gives_bind; [exact E3 |]. eapply gives_bind; [by apply gives_lift |]. cbv zeta. eapply gives_bind; [by apply gives_lift |].
    eapply gives_bind; [exact Ef |]. cbv iota beta. eapply gives_bind; [exact Ed |]. eapply gives_bind; [exact Em |].
    do 3 (eapply gives_bind; [apply Hlog |]). eapply gives_bind; [exact Ea |]. eapply gives_bind; [apply Hlog | apply gives_ret].
  - cbn [e_heap e_gpu e_gdt e_idt e_devs fst]. split; [exact Gf |]. split; [destruct Hc as [[-> Hc] | (_ & Hc & _)]; [by left | by right] |]. split; [by repeat split |]. split; [done |]. split; [done |].
    split; [exact Hok |]. intros Hu. pose proof (fb_unusable (im_vram I) log log_dec (im_vbe I) hp g1 h3 Hlog Hu (sh_text _ _ Hs1)) as Ef'. unfold gives in Ef'. rewrite Ef in Ef'. injection Ef' as -> ->.
    split; [exact R |]. split; [by eexists | by exists p].
Qed.

(** C14: from the boot loader to the devices, the kernel starts without a fault on every machine,
    whatever the ports answer: afterwards every selector means what it is used for and
    every exception, device and system call has its gate; the frame allocator and the page
    tables are well formed, and no table's frame is free; the console is either the blank
    text screen or a framebuffer over the whole mode, ready for drawing; and the table of
    PCI devices holds at most 256 functions that have answered. *)
Theorem kernel_start_ready (I : image) (own : gmap Z (nat * Z)) (g : gpu) (s : mouse) (h : H) (HI : image_ok I own) (Hg : text_boot g) :
  exists e h' own', kernel_start log log_hex log_dec log_char I g s h = Some (e, h') /\
    good (g_pml4 (h_mach (e_heap e))) (h_mach (e_heap e)) own' /\
    (text_console (e_gpu e) \/ pixel_console (vbe_width (im_vbe I) / 8) (vbe_height (im_vbe I) / 16) (e_gpu e)) /\
    (segment_of (fst (fst (fst (e_gdt e)))) 0x08 = Some (code64 0) /\ segment_of (fst (fst (fst (e_gdt e)))) 0x10 = Some (data 0) /\ segment_of (fst (fst (fst (e_gdt e)))) 0x1B = Some (code64 3)) /\
    (forall vec, 0 <= vec < 256 -> gate_of (fst (e_idt e)) vec = expected_gate (im_isr I) (im_irq I) (im_int80 I) vec) /\
    zlen (e_devs e) <= MAX_DEVICES /\ Forall entry_ok (e_devs e).
Proof using Hlog Hhex Hdec Hchar.
  destruct (kernel_start_runs I own g s h HI Hg) as (e & h' & own' & E & G & Hc & Hs & Hv & Hl & Hd & _). by exists e, h', own'.
Qed.
End ready_claim.

(** ** The root file system *)

(** The heap has blocks in use and one free block behind them: a request is served from it. *)
Lemma fit_tail t pre n : Forall (fun b => b_free b = false) pre -> t <= n -> fit t (pre ++ [Blk n true]) = Some (pre, Blk n true, []).
Proof.
  intros Hp Hn. induction Hp as [| b pre Hb _ IH]; cbn [app fit b_free b_size andb].
  - by rewrite (proj2 (Z.leb_le t n)) by lia.
  - rewrite Hb. cbn [andb]. by rewrite IH.
Qed.
Lemma kmalloc_mach h bs size pre b post p h' : repr h bs -> 0 < size < 9223372036854775808 -> fit (block_total size) bs = Some (pre, b, post) ->
  kmalloc size h = Some (p, h') -> h_mach h' = h_mach h.
Proof.
  intros R Hs Hf. destruct R as [R1 R2 R3 R4 R5]. pose proof (seg_min _ _ _ _ _ R3) as Hmin. unfold kmalloc. destruct (Z.eqb_spec size 0); [lia |].
  pose proof (find_block_spec (block_total size) (h_mem h) bs (heap_fuel h) 0 HEAP_START R3) as Hfind.
  assert (length bs < heap_fuel h)%nat as Hfuel by (unfold heap_fuel, MIN_BLOCK, zlen in *; rewrite <- R4; lia).
  specialize (Hfind Hfuel eq_refl). rewrite Hf in Hfind. destruct (fit_Some _ _ _ _ _ Hf) as (Eb & _). rewrite R1. destruct bs as [| b0 bs]; [done |]. cbn [or_end] in Hfind.
  rewrite Hfind. cbn [mbind option_bind]. rewrite Eb in R3. pose proof (seg_nonneg _ _ _ _ _ (proj1 (proj1 (seg_app _ _ _ _ _ _) R3))) as Hnn.
  unfold istrue, HEAP_START in *. destruct (Z.eqb_spec (0xFFFF880000000000 + Heap.bytes_of pre) 0); [lia |]. cbn [negb]. by intros [= <- <-].
Qed.
Lemma kfree_mach p h : h_mach (kfree p h) = h_mach h.
Proof. unfold kfree. by repeat case_match. Qed.
Lemma kmalloc_tail h pre n size : repr h (pre ++ [Blk n true]) -> Forall (fun b => b_free b = false) pre -> 0 < size < 4096 -> block_total size + 64 <= n ->
  exists p h', kmalloc size h = Some (p, h') /\ p = HEAP_START + Heap.bytes_of pre + HEADER_SIZE /\ p <> 0 /\ h_mach h' = h_mach h /\
    repr h' (pre ++ [Blk (block_total size) false; Blk (n - block_total size) true]).
Proof.
  intros R Hp Hs Hn. pose proof (kmalloc_correct h _ size R ltac:(lia)) as Hk. rewrite (fit_tail _ pre n Hp) in Hk by lia. cbv zeta in Hk. destruct Hk as (h' & E & R' & _).
  exists (HEAP_START + Heap.bytes_of pre + HEADER_SIZE), h'. split; [exact E |]. split; [done |].
  split; [pose proof (seg_nonneg _ _ _ _ _ (proj1 (proj1 (seg_app _ _ _ _ _ _) (r_seg _ _ R)))); unfold HEAP_START, HEADER_SIZE in *; lia |].
  split; [eapply (kmalloc_mach _ _ size); [exact R | lia | apply fit_tail; [done | lia] | exact E] |].
  unfold reserve in R'. cbn [b_size] in R'. unfold MIN_BLOCK in R'. rewrite (proj2 (Z.leb_le _ _)) in R' by lia. exact R'.
Qed.

(** A sector that begins a FAT32 volume, as far as the driver looks. *)
Definition boot_sector (b : list Z) : bool :=
  (load16 b 11 =? 512) && ((b.[66] =? 0x29) || (b.[66] =? 0x28)) && negb (load32 b 36 =? 0).

Section mount.
Context {D : Type} `{BlockDev D}.
Implicit Types s : vst D.

(** Nothing is mounted, and what was taken from the heap is given back. *)
Lemma fat_mount_none (bus master n : Z) s : repr (v_heap s) [Blk n true] -> 300 <= n ->
  (forall b, Fat.ata_read_sectors bus master 0 (dev s) = Some b -> boot_sector b = false) ->
  exists h', fat_mount bus master s = Some (None, set_vheap h' s) /\ repr h' [Blk n true] /\ h_mach h' = h_mach (v_heap s).
Proof.
  intros R Hn Hb. unfold fat_mount. destruct (kmalloc_tail (v_heap s) [] n PRIVATE_SIZE R) as (p & h1 & E & Ep & Hp0 & M1 & R1); [constructor | done | change (block_total PRIVATE_SIZE) with 153; lia |].
  rewrite E. cbn [mbind option_bind]. unfold istrue. destruct (Z.eqb_spec p 0); [done |]. cbn [negb].
  pose proof (kfree_correct h1 [] [Blk (n - block_total PRIVATE_SIZE) true] (Blk (block_total PRIVATE_SIZE) false) R1) as Hf. cbv zeta in Hf. rewrite <- Ep in Hf.
  destruct Hf as [R2 _]. unfold release, release_next, merge in R2. cbn [b_free b_size] in R2. replace (block_total PRIVATE_SIZE + (n - block_total PRIVATE_SIZE)) with n in R2 by lia.
  exists (kfree p h1). split; [| split; [exact R2 | by rewrite kfree_mach]]. cbv zeta. cbn [v_heap set_vheap dev]. destruct (Fat.ata_read_sectors bus master 0 (dev s)) as [b |] eqn:Er; [| done].
  specialize (Hb b eq_refl). unfold boot_sector in Hb. destruct (load16 b 11 =? 512); [| done]. cbn [negb andb] in *.
  destruct (b.[66] =? 0x29), (b.[66] =? 0x28), (load32 b 36 =? 0); done.
Qed.

(** A volume is mounted: its private data are read from the sector, and there is a root directory. *)
Lemma fat_mount_some (bus master n : Z) s b : repr (v_heap s) [Blk n true] -> 1000 <= n -> Fat.ata_read_sectors bus master 0 (dev s) = Some b -> boot_sector b = true ->
  exists fs root s', fat_mount bus master s = Some (Some (parse_bpb bus master b, fs, root), s') /\ root <> 0 /\ mounts s' = mounts s /\ dev s' = dev s /\
    (exists data, nodes s' = <[root := Node [SLASH] 0 VFS_DIR fs data 0 0 0]> (nodes s) /\ datas s' !! data = Some (NodeData (root_cluster (parse_bpb bus master b)) 0 0)) /\
    (exists bs, repr (v_heap s') bs) /\ h_mach (v_heap s') = h_mach (v_heap s).
Proof.
  intros R Hn Er Hb. unfold fat_mount. destruct (kmalloc_tail (v_heap s) [] n PRIVATE_SIZE R) as (p & h1 & E & Ep & Hp0 & M1 & R1); [constructor | done | change (block_total PRIVATE_SIZE) with 153; lia |].
  rewrite E. cbn [mbind option_bind]. unfold istrue. destruct (Z.eqb_spec p 0); [done |]. cbn [negb]. cbv zeta. cbn [v_heap set_vheap dev]. rewrite Er.
  unfold boot_sector in Hb. apply andb_prop in Hb as [Hb Hz]. apply andb_prop in Hb as [-> Hv]. apply negb_true_iff in Hz as ->. cbn [negb].
  assert (negb (b.[66] =? 0x29) && negb (b.[66] =? 0x28) = false) as -> by (by destruct (b.[66] =? 0x29), (b.[66] =? 0x28)). cbv iota.
  change (block_total PRIVATE_SIZE) with 153 in R1. cbn [app] in R1.
  destruct (kmalloc_tail h1 [Blk 153 false] (n - 153) FS_SIZE R1) as (fs & h2 & E2 & _ & Hfs & M2 & R2); [by repeat constructor | done | change (block_total FS_SIZE) with 121; lia |].
  rewrite E2. cbn [mbind option_bind]. destruct (Z.eqb_spec fs 0); [done |]. cbn [negb]. change (block_total FS_SIZE) with 121 in R2. cbn [app] in R2.
  unfold fat_create_node. cbn [v_heap set_vheap].
  destruct (kmalloc_tail h2 [Blk 153 false; Blk 121 false] (n - 153 - 121) NODE_SIZE R2) as (root & h3 & E3 & _ & Hroot & M3 & R3); [by repeat constructor | done | change (block_total NODE_SIZE) with 329; lia |].
  rewrite E3. cbn [mbind option_bind]. unfold istrue. destruct (Z.eqb_spec root 0); [done |]. cbn [negb]. change (block_total NODE_SIZE) with 329 in R3. cbn [app] in R3.
  destruct (kmalloc_tail h3 [Blk 153 false; Blk 121 false; Blk 329 false] (n - 153 - 121 - 329) NODE_DATA_SIZE R3) as (data & h4 & E4 & _ & Hdata & M4 & R4);
    [by repeat constructor | done | change (block_total NODE_DATA_SIZE) with 64; lia |].
  rewrite E4. cbn [mbind option_bind fst snd]. destruct (Z.eqb_spec data 0); [done |]. cbn [negb]. eexists fs, root, _. split; [done |]. split; [done |]. split; [done |]. split; [done |].
  split; [exists data; split; [done |]; cbn; by rewrite lookup_insert_eq | split; [by eexists | cbn; by rewrite M4, M3, M2]].
Qed.
End mount.

Section mount_claim.
Context {H : Type} (log : list Z -> io H unit).
Hypothesis Hlog : forall s h, gives (log s) h h tt.
Context {D : Type} `{BlockDev D} (fuel : nat).

Lemma mount_slash fs (s : vst D) : mounts s = [] -> vfs_mount [SLASH] fs s = (0, set_mounts [([SLASH], fs)] s).
Proof using. intros Hm. unfold vfs_mount. by rewrite Hm. Qed.

(** C31: the root file system when the first drive that is tried, the slave, has no FAT32 volume:
    the master is tried, and when it has one, its volume is the one file system mounted, on
    "/", every absolute path belongs to it, and it has a root directory at the cluster the
    boot sector names; when it has none either, nothing is mounted, the heap is as it was,
    and no path can be opened. There is no fault in either case. *)
Theorem mount_root_fallback (s : vst D) (n : Z) (h : H) (R : repr (v_heap s) [Blk n true]) (Hn : 1000 <= n) (Hm : mounts s = [])
    (Hslave : forall b, Fat.ata_read_sectors 0 0 0 (dev s) = Some b -> boot_sector b = false) :
  (forall b, Fat.ata_read_sectors 0 1 0 (dev s) = Some b -> boot_sector b = true ->
    exists fs root v, mount_root log fuel s h = Some ((Some (parse_bpb 0 1 b, fs, root), v), h) /\ mounts v = [([SLASH], fs)] /\
      (forall p, hd 0 p <> SLASH -> vfs_split_path (mounts v) (SLASH :: p) = (0, p)) /\
      exists nd dt, nodes v !! root = Some nd /\ is_dir nd = true /\ datas v !! n_data nd = Some dt /\ d_cluster dt = load32 b 44) /\
  ((forall b, Fat.ata_read_sectors 0 1 0 (dev s) = Some b -> boot_sector b = false) ->
    exists v, mount_root log fuel s h = Some ((None, v), h) /\ mounts v = [] /\ repr (v_heap v) [Blk n true] /\
      forall tbl p, exists v', vfs_open tbl p v = Some (0, v')).
Proof using Hlog.
  destruct (fat_mount_none 0 0 n s R ltac:(lia) Hslave) as (h1 & E1 & R1 & _). split.
  - intros b Hb Hbs. destruct (fat_mount_some 0 1 n (set_vheap h1 s) b R1 Hn Hb Hbs) as (fs & root & v & E2 & _ & Hmv & _ & (data & En & Ed) & _).
    exists fs, root, (set_mounts [([SLASH], fs)] v). split; [| split; [done |]; split].
    + unfold mount_root. eapply gives_bind; [by apply gives_lift |]. cbv beta iota. eapply gives_bind; [apply Hlog |]. eapply gives_bind; [by apply gives_lift |]. cbv beta iota.
      cbv zeta. rewrite (mount_slash fs v) by (rewrite Hmv; exact Hm). eapply gives_bind; [apply Hlog | apply gives_ret].
    + intros p Hp. cbn [mounts set_mounts]. unfold vfs_split_path. rewrite Z.eqb_refl. cbn [negb best_mount is_prefix]. rewrite Z.eqb_refl. cbn [andb].
      change (0 <? zlen [SLASH]) with true. cbv iota. change (zlen [SLASH]) with 1. cbn [Z.ltb]. change (0 <? 0) with false. change (Z.to_nat 1) with 1%nat. cbn [drop].
      destruct p as [| c p]; [done |]. cbn [hd] in Hp. unfold SLASH in *. change (drop 0 (c :: p)) with (c :: p). cbv beta iota. by destruct (Z.eqb_spec c 47).
    + eexists _, _. cbn [nodes datas set_mounts]. rewrite En. split; [apply lookup_insert_eq |]. split; [done |]. cbn [n_data]. split; [exact Ed | done].
  - intros Hno. destruct (fat_mount_none 0 1 n (set_vheap h1 s) R1 ltac:(lia) Hno) as (h2 & E2 & R2 & _). eexists. split; [| split; [| split]].
    + unfold mount_root. eapply gives_bind; [by apply gives_lift |]. cbv beta iota. eapply gives_bind; [apply Hlog |]. eapply gives_bind; [by apply gives_lift |]. cbv beta iota.
      eapply gives_bind; [apply Hlog | apply gives_ret].
    + exact Hm.
    + exact R2.
    + intros tbl p. unfold vfs_open. cbn [mounts set_vheap]. rewrite Hm. unfold vfs_split_path. destruct p as [| c p]; [by eexists |]. cbn [best_mount]. destruct (negb (c =? SLASH)); by eexists.
Qed.
End mount_claim.

(** ** The network *)

Section net_claim.
Context {H : Type} `{machine H} (base : Z) (mac : list Z) (seen : H -> list port_write) {HR : rtl_card H base mac seen}.
Context (cfg : Z -> Z -> Z -> Z -> Z) {HC : config_space H cfg}.
Context (log : list Z -> io H unit) (log_hex log_char : Z -> io H unit).
Hypothesis Hlog : forall s, emits seen (log s) [] tt.
Hypothesis Hhex : forall v, emits seen (log_hex v) [] tt.
Hypothesis Hchar : forall v, emits seen (log_char v) [] tt.

(** Also: the network starts as the network stack's own [net_init] says, with the first card on the
    buses or without one. *)
Theorem net_start_refines (p : pmm) (n : net) (h : H) (Hbase : 0 <= base <= 0xFF00) (Hmac : bytes mac /\ zlen mac = 6)
    (Hcard : forall x, first_nic cfg (seqZ 0 256) = Some x -> nic_base cfg x = base) (Hp : Pmm.wf p) (Ht : 3 <= g_total_frames p) :
  let probe := match first_nic cfg (seqZ 0 256) with Some _ => Some (base, mac) | None => None end in
  exists h', net_start log log_hex log_char p n h = match net_init probe p n with Some r => Some (r, h') | None => None end.
Proof using HR HC Hlog Hhex Hchar.
  cbv zeta. unfold net_start, net_init. cbv zeta. cbn [g_nic g_mac g_gateway_mac g_ip_id g_icmp_seq]. destruct (first_nic cfg (seqZ 0 256)) as [x |] eqn:Ex.
  - destruct (nic_init_found base mac seen cfg log log_hex log_char Hlog Hhex Hchar Hbase Hmac p (g_nic n) x Ex (Hcard x eq_refl) Hp Ht) as (code & d & p' & ws & E & _ & _ & _ & He).
    destruct (He h) as (h' & E' & _). exists h'. rewrite E. cbn [mbind option_bind]. unfold mbind at 1, io_bind. unfold gives in E'. rewrite E'.
    destruct (negb (code =? 0)); [done |]. destruct (send_dhcp _ _ _ _); reflexivity.
  - destruct (nic_init_none base mac seen cfg log log_hex log_char Hlog Hhex p (g_nic n) Ex h) as (h' & E' & _). exists h'. unfold mbind at 1, io_bind. unfold gives in E'. rewrite E'. reflexivity.
Qed.
End net_claim.


(** ** Multitasking *)

Lemma nused_all b n : (forall g, 0 <= g < Z.of_nat n -> used b g = true) -> nused b n = Z.of_nat n.
Proof. induction n as [| n IH]; intros Hu; [done |]. cbn [nused]. rewrite IH by (intros g Hg; apply Hu; lia). rewrite Hu by lia. lia. Qed.

(** [m] frames are free, and frame 0, whose address would be taken for a failure, is not. *)
Definition room (k : kernel) (m : Z) : Prop := let p := m_pmm (h_mach (k_heap k)) in Pmm.wf p /\ in_use p 0 /\ m <= g_total_frames p - g_used_frames p.

Lemma k_alloc_room k m : room k (m + 1) -> 0 <= m -> exists a k', k_alloc k = Some (a, k') /\ a <> 0 /\ room k' m.
Proof.
  intros (Hw & [H01 H02] & Hr) Hm. destruct (pmm_alloc_correct _ Hw) as (a & p & E & Wp & [(f & Hf & Uf & _ & Ea & Et & Eu & Ug) | (_ & _ & Hall)]).
  - unfold k_alloc. rewrite E. cbn [mbind option_bind fst snd]. exists a. eexists. split; [done |].
    assert (f <> 0) as Hf0 by (intros ->; by rewrite H02 in Uf). split; [rewrite Ea; unfold PAGE_SIZE; lia |]. unfold room. cbn [k_heap set_heap set_mach h_mach m_pmm with_pmm].
    split; [exact Wp |]. split; [| lia]. split; [lia |]. rewrite Ug. destruct (Z.eqb_spec 0 f); [done | exact H02].
  - exfalso. pose proof (wf_used _ Hw) as Hu. rewrite nused_all in Hu; [lia |]. intros g Hg. apply Hall. lia.
Qed.

Lemma k_write_room a v k m : room k m -> room (k_write a v k) m.
Proof. done. Qed.
Lemma k_writes_room n (f : Z -> Z) : forall i k m, room k m -> room (loop n i (fun j k => k_write (f j) 0 k) k) m.
Proof. induction n as [| n IH]; intros i k m Hk; [exact Hk |]. cbn [loop]. by apply IH. Qed.

(** With room the request for a task succeeds, and takes two frames. *)
Lemma task_create_room entry k m : room k (m + 2) -> 0 <= m -> (g_current k = 0 \/ is_Some (tasks k !! g_current k)) ->
  exists k', task_create entry k = Some (g_next_pid k, k') /\ room k' m /\ g_next_pid k' = u32 (g_next_pid k + 1).
Proof.
  intros Hr Hm Hc. destruct (k_alloc_room k (m + 1)) as (a & k1 & E1 & Ha & R1); [by replace (m + 1 + 1) with (m + 2) by lia | lia |].
  destruct (k_alloc_room k1 m R1 Hm) as (st & k2 & E2 & Hst & R2).
  assert (tasks k1 = tasks k /\ g_current k1 = g_current k /\ g_next_pid k1 = g_next_pid k) as (T1 & C1 & P1).
  { unfold k_alloc in E1. destruct (pmm_alloc _) as [[? ?] |]; [| done]. cbn in E1. by injection E1 as <- <-. }
  assert (tasks k2 = tasks k /\ g_current k2 = g_current k /\ g_next_pid k2 = g_next_pid k) as (T2 & C2 & P2).
  { unfold k_alloc in E2. destruct (pmm_alloc _) as [[? ?] |]; [| done]. cbn in E2. injection E2 as <- <-. done. }
  unfold task_create. rewrite E1. cbn [mbind option_bind]. rewrite E2. cbn [mbind option_bind]. unfold istrue. destruct (Z.eqb_spec a 0), (Z.eqb_spec st 0); try done. cbn [negb orb].
  set (top := u64 (st + TASK_STACK_SIZE) - 8). pose proof (k_write_loop 6 1 (fun j => top - 8 * j) (k_write top entry k2)) as Hl. cbv zeta in Hl.
  pose proof (k_writes_room 6 (fun j => top - 8 * j) 1 (k_write top entry k2) m R2) as R3. set (k3 := loop 6 1 _ _) in *. clearbody k3. destruct Hl as (T3 & C3 & P3 & _).
  change (tasks (k_write top entry k2)) with (tasks k2) in T3. change (g_current (k_write top entry k2)) with (g_current k2) in C3. change (g_next_pid (k_write top entry k2)) with (g_next_pid k2) in P3.
  cbn [set_next_pid g_current tasks]. rewrite C3, C2, T3, T2. destruct (Z.eqb_spec (g_current k) 0) as [-> | Hne]; cbn [negb].
  - cbn [mbind option_bind]. eexists. split; [cbn [pid]; by rewrite P3, P2 |]. split; [exact R3 | cbn [g_next_pid set_next_pid set_tasks set_current]; by rewrite ?P3, ?P2].
  - destruct Hc as [| [c Ec]]; [done |]. rewrite Ec. cbn [mbind option_bind]. eexists. split; [cbn [pid]; by rewrite P3, P2 |]. split; [exact R3 | cbn [g_next_pid set_next_pid set_tasks set_current]; by rewrite ?P3, ?P2].
Qed.

Lemma first_task idle k m : room k (m + 2) -> 0 <= m -> tasks k = ∅ -> g_current k = 0 ->
  exists a t k', scheduler_init idle k = Some k' /\ wf k' [a] /\ task_frames k' /\ room k' m /\ g_next_pid k' = u32 (g_next_pid k + 1) /\
    tasks k' !! a = Some t /\ state t = TASK_RUNNING /\ pid t = g_next_pid k /\ Sched.entry t = idle /\ g_current k' = a.
Proof.
  intros Hr Hm Ht Hc. set (k0 := set_kernel_cr3 (cpu_cr3 k) k). assert (room k0 (m + 2)) as Hr0 by exact Hr.
  destruct (k_alloc_room k0 (m + 1)) as (a & k1 & E1 & Ha & R1); [by replace (m + 1 + 1) with (m + 2) by lia | lia |].
  destruct (k_alloc_room k1 m R1 Hm) as (st & k2 & E2 & Hst & R2).
  destruct (k_alloc_fresh k0 (proj1 Hr0)) as (a' & k1' & E1' & _ & T1 & C1 & P1 & _ & _ & [Ha0 | (A1 & A2 & A3 & _)]); [congruence |]. rewrite E1 in E1'. injection E1' as <- <-.
  destruct (k_alloc_fresh k1 (proj1 R1)) as (st' & k2' & E2' & _ & T2 & C2 & P2 & _ & I2 & [Hs0 | (S1 & _)]); [congruence |]. rewrite E2 in E2'. injection E2' as <- <-.
  unfold scheduler_init. fold k0. unfold task_create. rewrite E1. cbn [mbind option_bind]. rewrite E2. cbn [mbind option_bind]. unfold istrue. destruct (Z.eqb_spec a 0), (Z.eqb_spec st 0); try done. cbn [negb orb].
  set (top := u64 (st + TASK_STACK_SIZE) - 8). pose proof (k_write_loop 6 1 (fun j => top - 8 * j) (k_write top idle k2)) as Hl. cbv zeta in Hl.
  pose proof (k_writes_room 6 (fun j => top - 8 * j) 1 (k_write top idle k2) m R2) as R3. set (k3 := loop 6 1 _ _) in *. clearbody k3. destruct Hl as (T3 & C3 & P3 & M3 & _).
  change (tasks (k_write top idle k2)) with (tasks k2) in T3. change (g_current (k_write top idle k2)) with (g_current k2) in C3. change (g_next_pid (k_write top idle k2)) with (g_next_pid k2) in P3.
  change (m_pmm (h_mach (k_heap (k_write top idle k2)))) with (m_pmm (h_mach (k_heap k2))) in M3.
  assert (g_current k3 = 0) as EC by (rewrite C3, C2, C1; exact Hc). assert (tasks k3 = ∅) as ET by (rewrite T3, T2, T1; exact Ht). assert (g_next_pid k3 = g_next_pid k) as EP by (rewrite P3, P2, P1; done).
  cbn [set_next_pid g_current tasks]. rewrite EC. cbn [Z.eqb negb mbind option_bind snd set_current set_tasks g_current tasks]. rewrite ET.
  unfold upd. rewrite lookup_insert_eq. cbn [mbind option_bind]. rewrite insert_insert_eq.
  exists a. eexists. eexists. split; [reflexivity |]. split; [| split; [| split; [exact R3 |]]].
  - split; cbn [tasks set_tasks g_current k_heap].
    + split; [done |]. exists a. split; [| done]. unfold next_at. by rewrite lookup_insert_eq.
    + done.
    + apply NoDup_singleton.
    + by constructor.
    + exact (proj1 R3).
    + intros x t [[<- <-] | [_ Hx]]%lookup_insert_Some; [| by rewrite lookup_empty in Hx]. cbn [kernel_stack_base with_state with_next]. lia.
  - intros x t. cbn [tasks set_tasks k_heap]. intros [[<- <-] | [_ Hx]]%lookup_insert_Some; [| by rewrite lookup_empty in Hx].
    split; [exact A2 |]. cbn [set_current set_tasks set_next_pid k_heap]. rewrite M3. by apply I2.
  - cbn [tasks set_tasks g_next_pid set_current set_next_pid g_current]. rewrite EP. split; [done |]. split; [apply lookup_insert_eq |]. cbn [state with_state pid Sched.entry with_next]. done.
Qed.


(** One more task, behind the current one. *)
Lemma next_task entry k cur l c m : wf k (cur :: l) -> task_frames k -> tasks k !! cur = Some c -> room k (m + 2) -> 0 <= m -> g_next_pid k <> 0 ->
  exists k' a t, task_create entry k = Some (g_next_pid k, k') /\ wf k' (cur :: a :: l) /\ task_frames k' /\ room k' m /\ g_next_pid k' = u32 (g_next_pid k + 1) /\
    tasks k' !! a = Some t /\ state t = TASK_READY /\ pid t = g_next_pid k /\ (exists n, tasks k' !! cur = Some (with_next n c)) /\
    forall x, x ∈ l -> exists t t', tasks k !! x = Some t /\ tasks k' !! x = Some t' /\ t' = with_next (next t') t.
Proof.
  intros W F Hc Hr Hm Hp. pose proof (chain_head _ _ _ W) as Hcur.
  destruct (task_create_room entry k m Hr Hm) as (k' & E & R & P); [right; by rewrite Hcur, Hc |].
  destruct (task_create_correct k entry cur l c W F Hc) as (r & k2 & E2 & [[Hr0 _] | (a & t & _ & _ & W' & F' & Ht & Hpid & _ & Hst & Hs)]); rewrite E in E2; injection E2 as <- <-; [done |].
  exists k', a, t. do 8 (split; [done |]). split.
  - destruct (Hs cur ltac:(left)) as (t1 & t2 & E1 & E2 & E3). rewrite Hc in E1. injection E1 as <-. exists (next t2). rewrite E2. by f_equal.
  - intros x Hx. apply Hs. by right.
Qed.

(** The four tasks of the kernel. *)
Lemma tasks_start (idle a b c : Z) (k : kernel) (Hr : room k 8) (Ht : tasks k = ∅) (Hc : g_current k = 0) (Hp : 0 < g_next_pid k < 4294967292) :
  exists k1 k' i ta tb tc, scheduler_init idle k = Some k1 /\ start_tasks a b c k1 = Some k' /\ wf k' [i; tc; tb; ta] /\ task_frames k' /\ g_current k' = i /\
    (state <$> tasks k' !! i, state <$> tasks k' !! ta, state <$> tasks k' !! tb, state <$> tasks k' !! tc) = (Some TASK_RUNNING, Some TASK_READY, Some TASK_READY, Some TASK_READY) /\
    (pid <$> tasks k' !! i, pid <$> tasks k' !! ta, pid <$> tasks k' !! tb, pid <$> tasks k' !! tc) =
      (Some (g_next_pid k), Some (g_next_pid k + 1), Some (g_next_pid k + 2), Some (g_next_pid k + 3)).
Proof.
  destruct (first_task idle k 6 Hr ltac:(lia) Ht Hc) as (i & ti & k1 & E1 & W1 & F1 & R1 & P1 & T1 & S1 & I1 & _ & _).
  rewrite u32_id in P1 by lia.
  destruct (next_task a k1 i [] ti 4 W1 F1 T1 R1 ltac:(lia) ltac:(lia)) as (k2 & ta & t2 & E2 & W2 & F2 & R2 & P2 & T2 & S2 & I2 & [n1 Hi2] & _). rewrite P1, u32_id in P2 by lia.
  destruct (next_task b k2 i [ta] _ 2 W2 F2 Hi2 R2 ltac:(lia) ltac:(lia)) as (k3 & tb & t3 & E3 & W3 & F3 & R3 & P3 & T3 & S3 & I3 & [n2 Hi3] & K3). rewrite P2, u32_id in P3 by lia.
  destruct (next_task c k3 i [tb; ta] _ 0 W3 F3 Hi3 R3 ltac:(lia) ltac:(lia)) as (k4 & tc & t4 & E4 & W4 & F4 & R4 & P4 & T4 & S4 & I4 & [n3 Hi4] & K4).
  destruct (K3 ta ltac:(left)) as (u & u' & Eu & Eu' & Hu). rewrite T2 in Eu. injection Eu as <-.
  destruct (K4 ta ltac:(right; left)) as (v & v' & Ev & Ev' & Hv). rewrite Eu' in Ev. injection Ev as <-.
  destruct (K4 tb ltac:(left)) as (w & w' & Ew & Ew' & Hw). rewrite T3 in Ew. injection Ew as <-.
  exists k1, k4, i, ta, tb, tc. split; [done |]. split; [unfold start_tasks; rewrite E2; cbn [mbind option_bind snd]; rewrite E3; cbn [mbind option_bind snd]; by rewrite E4 |].
  split; [done |]. split; [done |]. split; [apply (chain_head _ _ _ W4) |]. rewrite Hi4, Ev', Ew', T4. cbn [fmap option_fmap option_map].
  assert (state v' = state t2 /\ pid v' = pid t2) as [-> ->] by (rewrite Hv, Hu; done). assert (state w' = state t3 /\ pid w' = pid t3) as [-> ->] by (rewrite Hw; done).
  cbn [state pid with_next]. rewrite S1, S2, S3, S4, I1, I2, I3, I4, P1, P2, P3. split; [done |]. replace (g_next_pid k + 1 + 1) with (g_next_pid k + 2) by lia. by replace (g_next_pid k + 2 + 1) with (g_next_pid k + 3) by lia.
Qed.

(** C38: the kernel's four tasks: with room for eight frames the scheduler's start and the creation of
    the three tasks never fail and never follow a null pointer; the idle task runs, the
    others are ready, in the order last, second, first behind it in a circular list
    that is well formed; and the four process numbers follow each other. *)
Theorem tasks_started (idle a b c : Z) (k : kernel) (Hr : room k 8) (Ht : tasks k = ∅) (Hc : g_current k = 0) (Hp : 0 < g_next_pid k < 4294967292) :
  exists k1 k' i ta tb tc, scheduler_init idle k = Some k1 /\ start_tasks a b c k1 = Some k' /\ wf k' [i; tc; tb; ta] /\ task_frames k' /\ g_current k' = i /\
    (state <$> tasks k' !! i, state <$> tasks k' !! ta, state <$> tasks k' !! tb, state <$> tasks k' !! tc) = (Some TASK_RUNNING, Some TASK_READY, Some TASK_READY, Some TASK_READY) /\
    (pid <$> tasks k' !! i, pid <$> tasks k' !! ta, pid <$> tasks k' !! tb, pid <$> tasks k' !! tc) =
      (Some (g_next_pid k), Some (g_next_pid k + 1), Some (g_next_pid k + 2), Some (g_next_pid k + 3)).
Proof. by apply tasks_start. Qed.

(** The counters of the two tasks stay below a million, and come round. *)
Lemma task_count_spec n : forall t, 0 <= t < 1000000 -> Nat.iter n task_count t = (t + Z.of_nat n) mod 1000000.
Proof.
  induction n as [| n IH]; intros t Ht; [cbn [Nat.iter nat_rect]; rewrite Z.mod_small by lia; lia |].
  cbn [Nat.iter nat_rect]. unfold Nat.iter in IH. rewrite IH by done. unfold task_count. rewrite u32_id by lia.
  destruct (Z.eqb_spec ((t + Z.of_nat n) mod 1000000 + 1) 1000000); lia.
Qed.

(** ** The kernel reaches its shell *)

Section nic_none.
Context {H : Type} `{machine H} (cfg : Z -> Z -> Z -> Z -> Z) {HC : config_space H cfg}.
Context (log : list Z -> io H unit) (log_hex log_char : Z -> io H unit).
Hypothesis Hlog : forall s h, gives (log s) h h tt.

Lemma probe_devices_none n : forall bus dev h, 0 <= bus < 256 -> 0 <= dev -> dev + Z.of_nat n <= 32 -> first_on cfg bus n dev = None ->
  exists h', gives (probe_devices log log_hex n bus dev) h h' None.
Proof using HC log_char.
  induction n as [| n IH]; intros bus dev h Hb Hd Hn Hf; [by exists h |]. unfold first_on in Hf. rewrite (seqZ_cons dev) in Hf by lia. cbn [List.find] in Hf.
  destruct (config_gives cfg h bus dev 0 0 Hb) as [h1 E1]; [lia.. |]. destruct (is_rtl8139 (cfg bus dev 0 0)) eqn:Er; [done |].
  destruct (IH bus (dev + 1) h1 Hb) as [h2 E2]; [lia | lia | by replace (Z.pred (Z.of_nat (S n))) with (Z.of_nat n) in Hf by lia |].
  exists h2. cbn [probe_devices]. eapply gives_bind; [exact E1 |]. change (4 * 0) with 0. cbv beta. by rewrite Er.
Qed.
Lemma probe_buses_none n : forall bus h, 0 <= bus -> bus + Z.of_nat n <= 256 -> first_nic cfg (seqZ bus (Z.of_nat n)) = None ->
  exists h', gives (probe_buses log log_hex n bus) h h' None.
Proof using HC log_char.
  induction n as [| n IH]; intros bus h Hb Hn Hf; [by exists h |]. rewrite (seqZ_cons bus) in Hf by lia. cbn [first_nic] in Hf.
  destruct (first_on cfg bus 32 0) eqn:Eo; [done |]. destruct (probe_devices_none 32 bus 0 h ltac:(lia) ltac:(lia) ltac:(lia) Eo) as [h1 E1].
  destruct (IH (bus + 1) h1) as [h2 E2]; [lia | lia | by replace (Z.pred (Z.of_nat (S n))) with (Z.of_nat n) in Hf by lia |].
  exists h2. cbn [probe_buses]. eapply gives_bind; [exact E1 | exact E2].
Qed.
(** Without a card the network stays off. *)
Definition net_off (n : net) : net := default n (fst <$> net_init None (mkPmm [] 0 0) n).
Lemma net_start_none p n h : first_nic cfg (seqZ 0 256) = None -> exists h', net_start log log_hex log_char p n h = Some ((net_off n, p), h').
Proof using HC Hlog log_char.
  intros Hf. destruct (probe_buses_none 256 0 h ltac:(lia) ltac:(lia) Hf) as [h' E]. exists h'.
  assert (gives (nic_init log log_hex log_char p (g_nic n)) h h' (-1, g_nic n, p)) as Ei.
  { unfold nic_init. eapply gives_bind; [apply Hlog |]. eapply gives_bind; [exact E |]. cbv beta iota. eapply gives_bind; [apply Hlog | apply gives_ret]. }
  unfold net_start. cbv zeta. cbn [g_nic]. unfold mbind at 1, io_bind. unfold gives in Ei. rewrite Ei. reflexivity.
Qed.
End nic_none.

Section shell_claim.
Context {H : Type} `{machine H} (cfg : Z -> Z -> Z -> Z -> Z) {HC : config_space H cfg}.
Context (log : list Z -> io H unit) (log_hex log_dec log_char : Z -> io H unit).
Hypothesis Hlog : forall s h, gives (log s) h h tt.
Hypothesis Hhex : forall v h, gives (log_hex v) h h tt.
Hypothesis Hdec : forall v h, gives (log_dec v) h h tt.
Hypothesis Hchar : forall v h, gives (log_char v) h h tt.
Context {D : Type} `{BlockDev D} (fuel : nat) (E : KShell.facts) (N : net -> Prop).
Hypothesis Hpoll : forall i x, N x -> exists x', net_poll (KShell.f_after_literal E) (KShell.f_status E i) (KShell.f_receive E i x) = Some x' /\ N x'.

Lemma settle_ends x : N x -> exists x', net_settle E x = Some x' /\ N x'.
Proof using Hpoll.
  unfold net_settle. generalize (Z.to_nat POLLS_AT_START). intros k. generalize 0. revert x. induction k as [| k IH]; intros x i Hx; cbn [KShell.poll_until]; [by exists x |].
  destruct (Hpoll i x Hx) as (x1 & -> & Hx1). cbn [mbind option_bind]. by apply IH.
Qed.

(** Without a volume on the slave: the master's volume on "/", or nothing. *)
Lemma mount_root_master (s : vst D) n h : repr (v_heap s) [Blk n true] -> 1000 <= n -> mounts s = [] ->
  (forall b, Fat.ata_read_sectors 0 0 0 (dev s) = Some b -> boot_sector b = false) ->
  exists root v, mount_root log fuel s h = Some ((root, v), h) /\ h_mach (v_heap v) = h_mach (v_heap s) /\
    mounts v = match root with Some (_, fs, _) => [([SLASH], fs)] | None => [] end.
Proof using Hlog.
  intros R Hn Hm Hs. destruct (fat_mount_none 0 0 n s R ltac:(lia) Hs) as (h1 & E1 & R1 & M1).
  destruct (Fat.ata_read_sectors 0 1 0 (dev s)) as [b |] eqn:Eb; [destruct (boot_sector b) eqn:Hbs |].
  - destruct (fat_mount_some 0 1 n (set_vheap h1 s) b R1 Hn Eb Hbs) as (fs & root & v & E2 & _ & Hmv & _ & _ & _ & M2).
    exists (Some (parse_bpb 0 1 b, fs, root)), (set_mounts [([SLASH], fs)] v). split; [| split; [cbn [v_heap set_mounts]; rewrite M2; exact M1 | done]].
    unfold mount_root. eapply gives_bind; [by apply gives_lift |]. cbv beta iota. eapply gives_bind; [apply Hlog |]. eapply gives_bind; [by apply gives_lift |]. cbv beta iota zeta.
    rewrite (mount_slash fs v) by (rewrite Hmv; exact Hm). eapply gives_bind; [apply Hlog | apply gives_ret].
  - destruct (fat_mount_none 0 1 n (set_vheap h1 s) R1 ltac:(lia)) as (h2 & E2 & R2 & M2); [cbn [dev set_vheap]; intros b' Hb'; rewrite Eb in Hb'; by injection Hb' as <- |].
    exists None, (set_vheap h2 (set_vheap h1 s)). split; [| split; [cbn [v_heap set_vheap]; rewrite M2; exact M1 | exact Hm]].
    unfold mount_root. eapply gives_bind; [by apply gives_lift |]. cbv beta iota. eapply gives_bind; [apply Hlog |]. eapply gives_bind; [by apply gives_lift |]. cbv beta iota.
    eapply gives_bind; [apply Hlog | apply gives_ret].
  - destruct (fat_mount_none 0 1 n (set_vheap h1 s) R1 ltac:(lia)) as (h2 & E2 & R2 & M2); [cbn [dev set_vheap]; intros b' Hb'; by rewrite Eb in Hb' |].
    exists None, (set_vheap h2 (set_vheap h1 s)). split; [| split; [cbn [v_heap set_vheap]; rewrite M2; exact M1 | exact Hm]].
    unfold mount_root. eapply gives_bind; [by apply gives_lift |]. cbv beta iota. eapply gives_bind; [apply Hlog |]. eapply gives_bind; [by apply gives_lift |]. cbv beta iota.
    eapply gives_bind; [apply Hlog | apply gives_ret].
Qed.

Context (font : Z -> Z).
Lemma on_gpu_shown (t : io (H * gpu) unit) ms s g h : tells font text_console (fun _ => True) (fun h (_ : list Z) h' => h' = h) t ms s tt -> text_console g ->
  exists g', gives (on_gpu t g) h h g' /\ paint font ms g = Some g' /\ text_console g'.
Proof using.
  intros Ht Hg. destruct (Ht h g Hg Logic.I) as (h' & g' & E' & P & C' & -> & _). exists g'. split; [unfold gives, on_gpu; by rewrite E' | done].
Qed.
End shell_claim.

(** ** A machine with 4 MiB *)

Definition image_ex : image := Image [E820 0 0x400000 1 0] 0x1000 ∅ info_ex grey ∅ 0x100000 0x101000 0x102000 (replicate 32 0x103000) (replicate 16 0x104000) 0x105000 0x106000.
Lemma image_ex_ok : image_ok image_ex own0.
Proof.
  split.
  - eapply tree_mono; [exact (good_tree _ _ _ mach0_good) |]. cbv beta. intros f [Hf Hu]. change (g_total_frames _) with 1024 in Hf.
    destruct (Z.ltb_spec f 512); [lia |]. exfalso. unfold used in Hu. cbn [m_pmm mach0 g_bitmap] in Hu.
    assert ((3 :: replicate 127 0).[f / 8] = 0) as E; [| by rewrite E, Z.bits_0 in Hu].
    unfold zget, zlook. destruct (Z.ltb_spec (f / 8) 0); [done |]. replace (Z.to_nat (f / 8)) with (S (Z.to_nat (f / 8 - 1))) by lia. cbn [lookup list_lookup].
    destruct (replicate 127 0 !! Z.to_nat (f / 8 - 1)) as [v |] eqn:Ev; [| done]. by apply lookup_replicate in Ev as [-> _].
  - vm_compute. done.
  - split; [| vm_compute; done]. unfold image_ex, info_ex, bytes. cbn [im_vbe]. repeat (apply Forall_app; split); repeat (constructor; [unfold is_byte; lia |]); try constructor; by apply Forall_replicate.
  - intros a n Hn. unfold image_ex, grey. cbn [im_vram]. rewrite zlen_replicate. lia.
  - unfold KERNEL_STACK. cbn [im_tss im_stack image_ex]. lia.
  - cbn [im_isr im_irq im_int80 image_ex]. split; [done |]. split; [done |]. split; [by apply Forall_replicate |]. split; [by apply Forall_replicate | lia].
Qed.
Lemma kernel_start_ready_witness : exists e h', kernel_start mute mute mute mute image_ex (gpu_ex 0) (Mouse 0 0 0 0 [0; 0; 0]) (NicSim 0 []) = Some (e, h') /\
  (text_console (e_gpu e) \/ pixel_console 2 2 (e_gpu e)) /\ gate_of (fst (e_idt e)) 33 = Some (Gate 0x104000 0x08 14 0).
Proof.
  destruct (kernel_start_ready (H := nic_sim) mute mute mute mute) with (I := image_ex) (own := own0) (g := gpu_ex 0) (s := Mouse 0 0 0 0 [0; 0; 0]) (h := NicSim 0 [])
    as (e & h' & own' & E & _ & Hc & _ & Hi & _).
  - done.
  - done.
  - done.
  - done.
  - exact image_ex_ok.
  - repeat split; reflexivity.
  - exists e, h'. split; [exact E |]. split; [| assert (0 <= 33 < 256) as H33 by (clear; lia); rewrite (Hi 33 H33); reflexivity].
    assert (vbe_width (im_vbe image_ex) / 8 = 2 /\ vbe_height (im_vbe image_ex) / 16 = 2) as [E1 E2] by (split; vm_compute; reflexivity). rewrite E1, E2 in Hc. exact Hc.
Defined.

Lemma boot_report_shows_witness : exists h' g', boot_report (fun _ => 0) (serial_print 2) (serial_print_hex 2) 0x400000 [] 1 (fun _ => 0) net_ex (Wire [] 1, gpu_ex 0) = Some (tt, (h', g')) /\
  text_console g' /\ w_line h' = txt "4[pci] no GPU found" ++ [13; 10] ++ txt "002000000".
Proof.
  destruct (boot_report_shows (fun _ => 0) text_console 2 w_line w_wait 0x400000 [] 1 (fun _ => 0) net_ex (Wire [] 1) (gpu_ex 0)) as (h' & g' & E & _ & C & L & _).
  - lia.
  - constructor.
  - intros _. done.
  - exact gpu_ex_text.
  - cbn. lia.
  - exists h', g'. split; [exact E |]. split; [exact C |]. rewrite L. vm_compute. reflexivity.
Defined.

(** A machine whose ports answer all ones: no card, no drive, no mouse. *)
Inductive bare := Bare.
#[export] Instance bare_machine : machine bare := {
  in8 _ h := (0xFF, h); in16 _ h := (0xFFFF, h); in32 _ h := (0xFFFFFFFF, h); out8 _ _ h := h; out16 _ _ h := h; out32 _ _ h := h }.
#[export] Instance bare_space : config_space bare (fun _ _ _ _ => 0xFFFFFFFF).
Proof. split; [intros; lia | intros h bus dev func reg _ _ _ _; by exists h]. Qed.
Definition silent {A} (_ : A) : io bare unit := mret tt.
(** The same image, without a mode of the card. *)
Definition image_text : image := Image (im_e820 image_ex) (im_cr3 image_ex) ∅ (replicate 44 0) grey ∅ 0x100000 0x101000 0x102000 (im_isr image_ex) (im_irq image_ex) 0x105000 0x106000.
Lemma image_text_ok : image_ok image_text own0.
Proof.
  destruct image_ex_ok as [H1 H2 _ H4 H5 H6]. split; [exact H1 | exact H2 | | exact H4 | exact H5 | exact H6].
  split; [by apply Forall_replicate | vm_compute; done].
Qed.
(** The free frames of a machine: all of them, without the ones in use. *)
Definition frames_left (o : option heap) : bool := match o with Some h => let p := m_pmm (h_mach h) in used (g_bitmap p) 0 && (8 <=? g_total_frames p - g_used_frames p) | None => false end.
Lemma room_checked h own cr3 : good (g_pml4 (h_mach h)) (h_mach h) own -> 0 < g_total_frames (m_pmm (h_mach h)) -> frames_left (Some h) = true -> room (kernel_of h cr3) 8.
Proof.
  intros [Hw _] Ht Hf. unfold frames_left in Hf. apply andb_prop in Hf as [H1 H2%Z.leb_le]. unfold room. cbn [kernel_of k_heap]. split; [exact Hw |]. split; [split; [lia | exact H1] | exact H2].
Qed.
Lemma boot_room p h : pmm_init (im_e820 image_text) = Some p -> heap_init (heap_boot (paging_init (im_cr3 image_text) (mkMach (im_tables image_text) p 0))) = Some h -> room (kernel_of h 0x1000) 8.
Proof.
  intros Ep Eh. destruct (first_heap image_text own0 image_text_ok) as (p' & h' & own' & Ep' & Eh' & _ & G). rewrite Ep in Ep'. injection Ep' as <-. rewrite Eh in Eh'. injection Eh' as <-.
  assert (frames_left (p ← pmm_init (im_e820 image_text); heap_init (heap_boot (paging_init 0x1000 (mkMach ∅ p 0)))) = true) as Hf by (vm_compute; reflexivity).
  rewrite Ep in Hf. cbn [mbind option_bind] in Hf. change (im_cr3 image_text) with 0x1000 in Eh. change (im_tables image_text) with (∅ : gmap Z Z) in Eh. rewrite Eh in Hf.
  eapply room_checked; [exact G | | exact Hf]. unfold frames_left in Hf. apply andb_prop in Hf as [_ Hf%Z.leb_le].
  pose proof (wf_used _ (good_pmm _ _ _ G)) as Hu. pose proof (nused_bounds (g_bitmap (m_pmm (h_mach h))) (Z.to_nat (g_total_frames (m_pmm (h_mach h))))). lia.
Qed.

Definition facts_quiet : KShell.facts := KShell.Facts (fun _ => 0x12) 360000 None 0 (fun _ x => x) (fun _ => 0) 0.
Lemma quiet_polls i x : net_inv x -> exists x', net_poll (KShell.f_after_literal facts_quiet) (KShell.f_status facts_quiet i) (KShell.f_receive facts_quiet i x) = Some x' /\ net_inv x'.
Proof. intros Hx. destruct (KShell.poll_answer 0 x Hx) as (x' & E & Hx' & _). by exists x'. Qed.
Lemma no_volume b : Fat.ata_read_sectors 0 0 0 (MemDisk 0 ∅) = Some b -> boot_sector b = false.
Proof. intros Hb. vm_compute in Hb. done. Qed.
Lemma tasks_started_witness : exists p h k1 k', pmm_init (im_e820 image_text) = Some p /\ heap_init (heap_boot (paging_init (im_cr3 image_text) (mkMach (im_tables image_text) p 0))) = Some h /\
  scheduler_init 0x200000 (kernel_of h 0x1000) = Some k1 /\ start_tasks 0x201000 0x202000 0x203000 k1 = Some k' /\ task_frames k'.
Proof.
  destruct (first_heap image_text own0 image_text_ok) as (p & h & own' & Ep & Eh & _).
  destruct (tasks_started 0x200000 0x201000 0x202000 0x203000 (kernel_of h 0x1000)) as (k1 & k' & i & ta & tb & tc & E1 & E2 & _ & F & _).
  - exact (boot_room p h Ep Eh).
  - done.
  - done.
  - split; reflexivity.
  - exists p, h, k1, k'. split; [exact Ep |]. split; [exact Eh |]. split; [exact E1 |]. split; [exact E2 | exact F].
Defined.
Lemma card_ex : match first_nic cfg_nic (seqZ 0 256) with Some _ => true | None => false end = true.
Proof. vm_compute. reflexivity. Qed.
Lemma net_start_refines_witness : exists h', net_start mute mute mute pmm_ex net_ex (NicSim 0 []) =
  match net_init (Some (0xC000, [0x52; 0x54; 0; 0x12; 0x34; 0x56])) pmm_ex net_ex with Some r => Some (r, h') | None => None end.
Proof.
  destruct (net_start_refines 0xC000 [0x52; 0x54; 0; 0x12; 0x34; 0x56] writes cfg_nic mute mute mute (@mute_emits _) (@mute_emits _) (@mute_emits _) pmm_ex net_ex (NicSim 0 []))
    as (h' & E).
  - lia.
  - split; [by repeat constructor | done].
  - intros x Hx. vm_compute in Hx. by injection Hx as <-.
  - exact pmm_ex_wf.
  - done.
  - pose proof card_ex as Hf. destruct (first_nic cfg_nic (seqZ 0 256)) as [x |]; [| discriminate Hf]. exists h'. exact E.
Defined.
Lemma mount_root_fallback_witness : exists h v, heap_init (heap_boot mach0) = Some h /\
  mount_root silent 64 (mkVst h ∅ ∅ ∅ [] (MemDisk 0 ∅)) Bare = Some ((None, v), Bare) /\ mounts v = [].
Proof.
  destruct (heap_init_correct mach0 own0 mach0_good ltac:(done)) as (h & own' & E & R & G). exists h.
  destruct (mount_root_fallback (H := bare) silent (fun _ _ => eq_refl) 64 (mkVst h ∅ ∅ ∅ [] (MemDisk 0 ∅)) 1048576 Bare) as [_ Hno].
  - exact R.
  - clear. lia.
  - reflexivity.
  - exact no_volume.
  - destruct Hno as (v & Ev & Hm & _); [intros b Hb; vm_compute in Hb; discriminate Hb |]. exists v. split; [exact E |]. split; [exact Ev | exact Hm].
Defined.
