(* ===== verification/Asm.v ===== *)
(** * The assembly around the kernel (src/kernel/switch.asm, isr.asm, syscall_asm.asm)

    The routines are lists of the instructions of the source, over the registers and the
    stack of the processor. Memory is read and written by words of eight bytes; an access
    at an address that is not a multiple of eight, or below zero, is [None]. The variables
    that syscall_asm.asm names are a part of the state of their own. *)

From S2P Require Import Prelude Memory Pmm Paging Heap Sched.

(** ** The processor *)

Inductive register := RAX | RBX | RCX | RDX | RSI | RDI | RBP | R8 | R9 | R10 | R11 | R12 | R13 | R14 | R15.
#[export] Instance reg_eq_dec : EqDecision register.
Proof. solve_decision. Defined.
Inductive var := G_elf_ret_rip | G_elf_ret_rsp | G_kernel_cr3 | G_elf_saved (r : register).
#[export] Instance var_eq_dec : EqDecision var.
Proof. solve_decision. Defined.

Record cpu := Cpu { gpr : register -> Z; sp : Z; ip : Z; sel_cs : Z; sel_ss : Z; rflags : Z; page_table : Z; words : gmap Z Z; vars : var -> Z }.
Definition upd_reg (r : register) (v : Z) (g : register -> Z) : register -> Z := fun x => if decide (x = r) then v else g x.
Definition upd_var (x : var) (v : Z) (g : var -> Z) : var -> Z := fun y => if decide (y = x) then v else g y.
Definition with_gpr g c := Cpu g (sp c) (ip c) (sel_cs c) (sel_ss c) (rflags c) (page_table c) (words c) (vars c).
Definition with_sp v c := Cpu (gpr c) v (ip c) (sel_cs c) (sel_ss c) (rflags c) (page_table c) (words c) (vars c).
Definition with_ip v c := Cpu (gpr c) (sp c) v (sel_cs c) (sel_ss c) (rflags c) (page_table c) (words c) (vars c).
Definition with_mode cs ss fl c := Cpu (gpr c) (sp c) (ip c) cs ss fl (page_table c) (words c) (vars c).
Definition with_page_table v c := Cpu (gpr c) (sp c) (ip c) (sel_cs c) (sel_ss c) (rflags c) v (words c) (vars c).
Definition with_words m c := Cpu (gpr c) (sp c) (ip c) (sel_cs c) (sel_ss c) (rflags c) (page_table c) m (vars c).
Definition with_vars v c := Cpu (gpr c) (sp c) (ip c) (sel_cs c) (sel_ss c) (rflags c) (page_table c) (words c) v.

Definition word_at (a : Z) : bool := (0 <=? a) && (a mod 8 =? 0).
Definition store (a v : Z) (c : cpu) : option cpu := if word_at a then Some (with_words (wr (words c) a v) c) else None.
Definition push (v : Z) (c : cpu) : option cpu := let a := sp c - 8 in c ← store a v c; Some (with_sp a c).
Fixpoint push_list (l : list Z) (c : cpu) : option cpu := match l with [] => Some c | v :: l => c ← push v c; push_list l c end.
Definition pop (c : cpu) : option (Z * cpu) := if word_at (sp c) then Some (rd (words c) (sp c), with_sp (sp c + 8) c) else None.

Inductive operand := Imm (v : Z) | Reg (r : register) | RSP.
Definition value (o : operand) (c : cpu) : Z := match o with Imm v => v | Reg r => gpr c r | RSP => sp c end.

(** [SAVE x o] is [mov [x], o] on a variable, [LOAD r x] is [mov r, [x]]. *)
Inductive instr :=
  | PUSH (o : operand) | POP (r : register) | MOV (r : register) (o : operand) | MOV_RSP (o : operand) | STORE (a : register) (o : operand) | CLEAR (r : register) | ADD_RSP (n : Z)
  | SAVE (x : var) (o : operand) | LOAD (r : register) (x : var) | LOAD_RSP (x : var) | FROM_CR3 (r : register) | TO_CR3 (r : register) | STI | CALL | RET | JMP (r : register) | IRETQ.

Section exec.
(** The C function that the routine calls; it returns with the stack pointer as it was. *)
Context (C : cpu -> option cpu).

Definition exec1 (i : instr) (c : cpu) : option cpu :=
  match i with
  | PUSH o => push (value o c) c
  | POP r => p ← pop c; let '(v, c) := p in Some (with_gpr (upd_reg r v (gpr c)) c)
  | MOV r o => Some (with_gpr (upd_reg r (value o c) (gpr c)) c)
  | MOV_RSP o => Some (with_sp (value o c) c)
  | STORE a o => store (gpr c a) (value o c) c
  | CLEAR r => Some (with_gpr (upd_reg r 0 (gpr c)) c)
  | ADD_RSP n => Some (with_sp (sp c + n) c)
  | SAVE x o => Some (with_vars (upd_var x (value o c) (vars c)) c)
  | LOAD r x => Some (with_gpr (upd_reg r (vars c x) (gpr c)) c)
  | LOAD_RSP x => Some (with_sp (vars c x) c)
  | FROM_CR3 r => Some (with_gpr (upd_reg r (page_table c) (gpr c)) c)
  | TO_CR3 r => Some (with_page_table (gpr c r) c)
  | STI => Some (with_mode (sel_cs c) (sel_ss c) (Z.lor (rflags c) 0x200) c)
  | CALL => C c
  | RET => p ← pop c; let '(v, c) := p in Some (with_ip v c)
  | JMP r => Some (with_ip (gpr c r) c)
  | IRETQ =>
      p ← pop c; let '(i, c) := p in p ← pop c; let '(cs, c) := p in p ← pop c; let '(fl, c) := p in
      p ← pop c; let '(s, c) := p in p ← pop c; let '(ss, c) := p in
      Some (with_mode cs ss fl (with_sp s (with_ip i c)))
  end.
Fixpoint exec (l : list instr) (c : cpu) : option cpu := match l with [] => Some c | i :: l => c ← exec1 i c; exec l c end.

(** ** switch.asm *)

Definition SWITCHED : list register := [RBX; RBP; R12; R13; R14; R15].
Definition context_switch : list instr := map (fun r => PUSH (Reg r)) SWITCHED ++ [STORE RDI RSP; MOV_RSP (Reg RSI)] ++ map POP (rev SWITCHED) ++ [RET].

(** ** isr.asm *)

(** What the processor does before the first instruction of a handler: on a change of the
    privilege the stack is the one of the task state segment. *)
Definition take_interrupt (rsp0 : Z) (err : option Z) (c : cpu) : option cpu :=
  let user := negb (Z.land (sel_cs c) 3 =? 0) in
  let top := if user then rsp0 else sp c in
  d ← push_list ([sel_ss c; sp c; rflags c; sel_cs c; ip c] ++ match err with Some e => [e] | None => [] end) (with_sp (top - top mod 16) c);
  Some (with_mode 0x08 (if user then 0 else sel_ss c) (Z.ldiff (rflags c) 0x34300) d).
(** The vectors for which it stores an error code. *)
Definition stores_error (v : Z) : bool := existsb (Z.eqb v) [8; 10; 11; 12; 13; 14; 17; 21; 29; 30].

Definition ISR_NOERR (v : Z) : list instr := [PUSH (Imm 0); PUSH (Imm v)].
Definition ISR_ERR (v : Z) : list instr := [PUSH (Imm v)].
Definition isr_stubs : list (list instr) :=
  map (fun v => ISR_NOERR v) (seqZ 0 8) ++ [ISR_ERR 8; ISR_NOERR 9] ++ map (fun v => ISR_ERR v) (seqZ 10 5) ++ [ISR_NOERR 15; ISR_NOERR 16; ISR_ERR 17] ++
  map (fun v => ISR_NOERR v) (seqZ 18 3) ++ [ISR_ERR 21] ++ map (fun v => ISR_NOERR v) (seqZ 22 7) ++ [ISR_ERR 29; ISR_ERR 30; ISR_NOERR 31].
Definition IRQ_STUB (v : Z) : list instr := [PUSH (Imm 0); PUSH (Imm v)].
Definition irq_stubs : list (list instr) := map IRQ_STUB (seqZ 32 16).
Definition SAVED : list register := [RAX; RBX; RCX; RDX; RSI; RDI; RBP; R8; R9; R10; R11; R12; R13; R14; R15].
(** isr_common and irq_common. *)
Definition save_regs : list instr := map (fun r => PUSH (Reg r)) SAVED ++ [MOV RDI RSP; CALL].
Definition restore_regs : list instr := map POP (rev SAVED) ++ [ADD_RSP 16; IRETQ].
Definition isr_common : list instr := save_regs ++ restore_regs.

(** ** syscall_asm.asm *)

Definition CLEARED : list register := [RAX; RBX; RCX; RDX; RBP; R8; R9; R10; R11; R12; R13; R14; R15].
Definition enter_usermode : list instr :=
  [PUSH (Imm 0x23); PUSH (Reg RSI); PUSH (Imm 0x202); PUSH (Imm 0x1B); PUSH (Reg RDI)] ++ map CLEAR CLEARED ++ [IRETQ].
Definition enter_usermode_save_ret : list instr :=
  [POP RAX; SAVE G_elf_ret_rip (Reg RAX); SAVE G_elf_ret_rsp RSP; PUSH (Reg RAX)] ++
  map (fun r => SAVE (G_elf_saved r) (Reg r)) SWITCHED ++ [FROM_CR3 RAX; SAVE G_kernel_cr3 (Reg RAX); TO_CR3 RDX] ++ enter_usermode.
Definition return_to_kernel : list instr :=
  [LOAD RAX G_kernel_cr3; TO_CR3 RAX; LOAD_RSP G_elf_ret_rsp] ++ map (fun r => LOAD r (G_elf_saved r)) SWITCHED ++
  [LOAD RAX G_elf_ret_rip; SAVE G_elf_ret_rip (Imm 0); STI; JMP RAX].
Definition int80_stub (c : cpu) : option cpu :=
  c ← exec ([PUSH (Imm 0); PUSH (Imm 128)] ++ save_regs) c;
  if negb (word_at (sp c + 144)) then None
  else if rd (words c) (sp c + 144) =? 0x08 then exec return_to_kernel c else exec restore_regs c.
Definition elf_return_thunk : list instr := [LOAD RAX G_kernel_cr3; TO_CR3 RAX; STI; RET].
End exec.

(** ** The stack *)

(** The words at [a] and above. *)
Fixpoint stk (m : gmap Z Z) (a : Z) (l : list Z) : Prop := match l with [] => True | v :: l => rd m a = v /\ stk m (a + 8) l end.
(** Only words between [lo] and [hi] have changed. *)
Definition within (m m' : gmap Z Z) (lo hi : Z) : Prop := forall x, x < lo \/ hi <= x -> rd m' x = rd m x.

Lemma stk_same m m' l : forall a, (forall x, a <= x < a + 8 * zlen l -> rd m' x = rd m x) -> stk m a l -> stk m' a l.
Proof.
  induction l as [| v l IH]; intros a Ha; [done |]. rewrite zlen_cons in Ha. pose proof (zlen_nonneg l). intros [Hv Hl].
  split; [by rewrite Ha by lia | apply IH; [intros x Hx; apply Ha; lia | done]].
Qed.
Lemma stk_within m m' lo hi a l : within m m' lo hi -> a + 8 * zlen l <= lo \/ hi <= a -> stk m a l -> stk m' a l.
Proof. intros Hw Ha. apply stk_same. intros x Hx. apply Hw. lia. Qed.
Lemma stk_app m l1 l2 : forall a, stk m a (l1 ++ l2) <-> stk m a l1 /\ stk m (a + 8 * zlen l1) l2.
Proof.
  induction l1 as [| v l1 IH]; intros a; cbn [app stk].
  - change (zlen []) with 0. rewrite Z.mul_0_r, Z.add_0_r. tauto.
  - rewrite IH, zlen_cons. replace (a + 8 + 8 * zlen l1) with (a + 8 * (zlen l1 + 1)) by lia. tauto.
Qed.
Lemma stk_nth m l : forall a i v, stk m a l -> l !! i = Some v -> rd m (a + 8 * Z.of_nat i) = v.
Proof.
  induction l as [| w l IH]; intros a i v; [done |]. intros [Hw Hl] Hi. destruct i as [| i]; cbn [lookup list_lookup] in Hi; [injection Hi as <-; by rewrite Z.add_0_r |].
  replace (a + 8 * Z.of_nat (S i)) with (a + 8 + 8 * Z.of_nat i) by lia. by apply (IH (a + 8)).
Qed.

(** The same processor with another stack. *)
Definition at_stack (a : Z) (m : gmap Z Z) (c : cpu) : cpu := with_sp a (with_words m c).

Lemma stack_push v c l : 8 <= sp c -> sp c mod 8 = 0 -> stk (words c) (sp c) l ->
  exists m, push v c = Some (at_stack (sp c - 8) m c) /\ stk m (sp c - 8) (v :: l) /\ within (words c) m (sp c - 8) (sp c).
Proof.
  intros H8 Ha Hl. unfold push, store, word_at. destruct (Z.leb_spec 0 (sp c - 8)); [| lia]. destruct (Z.eqb_spec ((sp c - 8) mod 8) 0); [| lia]. cbn [andb mbind option_bind].
  assert (within (words c) (wr (words c) (sp c - 8) v) (sp c - 8) (sp c)) as Hab by (intros x Hx; rewrite rd_wr; destruct (Z.eqb_spec (sp c - 8) x); [lia | done]).
  eexists. split; [done |]. split; [| exact Hab]. cbn [stk]. rewrite rd_wr, Z.eqb_refl. split; [done |]. replace (sp c - 8 + 8) with (sp c) by lia. eapply stk_within; [exact Hab | by right | done].
Qed.
Lemma stack_pop c v l : 0 <= sp c -> sp c mod 8 = 0 -> stk (words c) (sp c) (v :: l) -> pop c = Some (v, with_sp (sp c + 8) c) /\ stk (words c) (sp c + 8) l.
Proof.
  intros H0 Ha [Hv Hl]. unfold pop, word_at. destruct (Z.leb_spec 0 (sp c)); [| lia]. rewrite (proj2 (Z.eqb_eq _ _) Ha). cbn [andb]. by rewrite Hv.
Qed.

Lemma push_list_spec vs : forall c l, 8 * zlen vs <= sp c -> sp c mod 8 = 0 -> stk (words c) (sp c) l ->
  exists m, push_list vs c = Some (at_stack (sp c - 8 * zlen vs) m c) /\ stk m (sp c - 8 * zlen vs) (rev vs ++ l) /\ within (words c) m (sp c - 8 * zlen vs) (sp c).
Proof.
  induction vs as [| v vs IH]; intros c l Hs Ha Hl.
  - exists (words c). change (zlen []) with 0. rewrite Z.mul_0_r, Z.sub_0_r. split; [by destruct c |]. done.
  - rewrite zlen_cons in *. pose proof (zlen_nonneg vs). cbn [push_list]. destruct (stack_push v c l) as (m & -> & Hm & Hab); [lia | done | done |]. cbn [mbind option_bind].
    destruct (IH (at_stack (sp c - 8) m c) (v :: l)) as (m' & -> & Hm' & Hab'); [cbn; lia | cbn; lia | exact Hm |]. exists m'. cbn [sp at_stack with_sp with_words words] in *.
    replace (sp c - 8 * (zlen vs + 1)) with (sp c - 8 - 8 * zlen vs) by lia. split; [done |]. cbn [rev]. rewrite <- app_assoc. split; [exact Hm' |].
    intros x Hx. rewrite Hab' by lia. apply Hab. lia.
Qed.

Section runs.
Context (C : cpu -> option cpu).

Lemma exec_app l1 l2 : forall c, exec C (l1 ++ l2) c = c ← exec C l1 c; exec C l2 c.
Proof. induction l1 as [| i l1 IH]; intros c; cbn [app exec]; [done |]. destruct (exec1 C i c); cbn [mbind option_bind]; [apply IH | done]. Qed.

(** Instructions that push are a list of values, when none is the stack pointer itself. *)
Lemma exec_pushes os : forall c, RSP ∉ os -> exec C (map PUSH os) c = push_list (map (fun o => value o c) os) c.
Proof.
  induction os as [| o os IH]; intros c Ho; [done |]. apply not_elem_of_cons in Ho as [Ho Hos]. cbn [map exec exec1 push_list]. unfold push, store. destruct (word_at (sp c - 8)); cbn [mbind option_bind]; [| done].
  rewrite IH by done. f_equal. apply map_ext_in. intros p Hp. apply list_elem_of_In in Hp. by destruct p.
Qed.
Lemma push_regs_spec rs c l : 8 * zlen rs <= sp c -> sp c mod 8 = 0 -> stk (words c) (sp c) l ->
  exists m, exec C (map (fun r => PUSH (Reg r)) rs) c = Some (at_stack (sp c - 8 * zlen rs) m c) /\ stk m (sp c - 8 * zlen rs) (map (gpr c) (rev rs) ++ l) /\ within (words c) m (sp c - 8 * zlen rs) (sp c).
Proof.
  intros Hs Ha Hl. rewrite <- (map_map Reg PUSH), exec_pushes, map_map by (intros Hin; apply list_elem_of_fmap in Hin as (? & ? & _); done).
  replace (zlen rs) with (zlen (map (gpr c) rs)) in * by (unfold zlen; by rewrite length_map). rewrite map_rev. by apply push_list_spec.
Qed.

(** Popping gives the registers named the values of [g]. *)
Lemma pop_regs_spec rs g : forall c l, 0 <= sp c -> sp c mod 8 = 0 -> stk (words c) (sp c) (map g rs ++ l) ->
  exists g', exec C (map POP rs) c = Some (with_gpr g' (with_sp (sp c + 8 * zlen rs) c)) /\ (forall r, g' r = if decide (r ∈ rs) then g r else gpr c r) /\
    stk (words c) (sp c + 8 * zlen rs) l.
Proof.
  induction rs as [| r rs IH]; intros c l H0 Ha Hl.
  - exists (gpr c). change (zlen []) with 0. rewrite Z.mul_0_r, Z.add_0_r. split; [by destruct c |]. split; [| done]. intros r. by rewrite decide_False by (apply not_elem_of_nil).
  - rewrite zlen_cons. pose proof (zlen_nonneg rs). cbn [map app] in Hl. destruct (stack_pop c _ _ H0 Ha Hl) as [E Hl']. cbn [map exec exec1]. rewrite E. cbn [mbind option_bind].
    destruct (IH (with_gpr (upd_reg r (g r) (gpr (with_sp (sp c + 8) c))) (with_sp (sp c + 8) c)) l) as (g' & -> & Hg & Hs); [cbn; lia | cbn; lia | exact Hl' |].
    cbn [sp with_gpr with_sp gpr words] in *. exists g'. replace (sp c + 8 * (zlen rs + 1)) with (sp c + 8 + 8 * zlen rs) by lia. split; [done |]. split; [| exact Hs].
    intros x. rewrite Hg. unfold upd_reg. destruct (decide (x ∈ rs)) as [Hx | Hx], (decide (x = r)) as [-> | Hne].
    + by rewrite decide_True by (left).
    + by rewrite decide_True by (by right).
    + by rewrite decide_True by (left).
    + by rewrite decide_False by (by intros [? | ?]%elem_of_cons).
Qed.

(** ** The change of the task *)

(** The words that a task leaves when it gives the processor away: its registers and the
    address where it goes on. *)
Definition parked (g : register -> Z) (at_ : Z) : list Z := map g (rev SWITCHED) ++ [at_].

Lemma switch_runs c g at_ l : 48 <= sp c -> sp c mod 8 = 0 -> 0 <= gpr c RSI -> gpr c RSI mod 8 = 0 -> 0 <= gpr c RDI -> gpr c RDI mod 8 = 0 ->
  stk (words c) (sp c) l -> stk (words c) (gpr c RSI) (parked g at_) ->
  (gpr c RSI + 56 <= sp c - 48 \/ sp c <= gpr c RSI) -> (gpr c RDI < gpr c RSI \/ gpr c RSI + 56 <= gpr c RDI) -> (gpr c RDI < sp c - 48 \/ sp c + 8 * zlen l <= gpr c RDI) ->
  exists c', exec C context_switch c = Some c' /\ ip c' = at_ /\ sp c' = gpr c RSI + 56 /\ (forall r, gpr c' r = if decide (r ∈ SWITCHED) then g r else gpr c r) /\
    rd (words c') (gpr c RDI) = sp c - 48 /\ stk (words c') (sp c - 48) (map (gpr c) (rev SWITCHED) ++ l) /\
    (forall x, x < sp c - 48 \/ sp c <= x -> x <> gpr c RDI -> rd (words c') x = rd (words c) x) /\ page_table c' = page_table c /\ vars c' = vars c /\ rflags c' = rflags c.
Proof.
  intros H48 Ha Hs Hsa Hd Hda Hl Hp D1 D2 D3. unfold context_switch. rewrite exec_app. destruct (push_regs_spec SWITCHED c l H48 Ha Hl) as (m & -> & Hm & Hw). change (zlen SWITCHED) with 6 in *.
  change (8 * 6) with 48 in *. cbn [mbind option_bind]. rewrite exec_app.
  set (m' := wr m (gpr c RDI) (sp c - 48)). assert (forall x, x < sp c - 48 \/ sp c <= x -> x <> gpr c RDI -> rd m' x = rd (words c) x) as Hsame.
  { intros x Hx Hne. unfold m'. rewrite rd_wr. destruct (Z.eqb_spec (gpr c RDI) x); [by subst | by apply Hw]. }
  assert (exec C [STORE RDI RSP; MOV_RSP (Reg RSI)] (at_stack (sp c - 48) m c) = Some (at_stack (gpr c RSI) m' c)) as ->.
  { cbn [exec exec1]. unfold store, word_at. change (gpr (at_stack (sp c - 48) m c) RDI) with (gpr c RDI). rewrite (proj2 (Z.leb_le _ _) Hd), (proj2 (Z.eqb_eq _ _) Hda). done. }
  cbn [mbind option_bind]. set (c2 := at_stack (gpr c RSI) m' c). assert (words c2 = m' /\ sp c2 = gpr c RSI /\ gpr c2 = gpr c) as (Ew & Es & Eg) by done.
  assert (stk (words c2) (sp c2) (map g (rev SWITCHED) ++ [at_])) as Hp2 by (rewrite Ew, Es; eapply stk_same; [| exact Hp]; intros x Hx; change (8 * zlen (map g (rev SWITCHED) ++ [at_])) with 56 in Hx; apply Hsame; lia).
  rewrite exec_app. destruct (pop_regs_spec (rev SWITCHED) g c2 [at_]) as (g' & -> & Hg & Hr); [rewrite Es; done | by rewrite Es | exact Hp2 |].
  change (zlen (rev SWITCHED)) with 6 in *. change (8 * 6) with 48 in *. cbn [mbind option_bind exec exec1].
  destruct (stack_pop (with_gpr g' (with_sp (sp c2 + 48) c2)) at_ []) as [-> _]; [cbn [sp with_gpr with_sp]; lia | cbn [sp with_gpr with_sp]; rewrite Es; lia | exact Hr |]. cbn [mbind option_bind].
  eexists. split; [done |]. cbn [ip sp gpr words with_ip with_sp with_gpr page_table vars rflags]. split; [done |]. split; [lia |]. split; [intros r; rewrite Hg, Eg; by destruct r |]. rewrite Ew.
  split; [unfold m'; by rewrite rd_wr, Z.eqb_refl |]. split; [| done].
  eapply stk_same; [| exact Hm]. intros x Hx. rewrite zlen_app in Hx. change (zlen (map (gpr c) (rev SWITCHED))) with 6 in Hx. unfold m'. rewrite rd_wr. destruct (Z.eqb_spec (gpr c RDI) x); [lia | done].
Qed.
End runs.

(** ** Interrupts *)

(** The frame of an interrupt, from the last register that is pushed up: what [struct regs]
    of isr.c and of syscall.c names. *)
Definition frame (g : register -> Z) (v e : Z) (c : cpu) : list Z := map g (rev SAVED) ++ [v; e; ip c; sel_cs c; rflags c; sp c; sel_ss c].
Definition from_user (c : cpu) : bool := negb (Z.land (sel_cs c) 3 =? 0).
Definition entry_top (rsp0 : Z) (c : cpu) : Z := let top := if from_user c then rsp0 else sp c in top - top mod 16.
Definition stub_of (v : Z) : list instr := if v <? 32 then nth (Z.to_nat v) isr_stubs [] else nth (Z.to_nat (v - 32)) irq_stubs [].

Lemma stub_kind v : 0 <= v < 48 -> stub_of v = if stores_error v then ISR_ERR v else ISR_NOERR v.
Proof.
  intros Hv. assert (Forall (fun v => stub_of v = if stores_error v then ISR_ERR v else ISR_NOERR v) (seqZ 0 48)) as Ha by (vm_compute; repeat constructor).
  rewrite Forall_forall in Ha. apply Ha, elem_of_seqZ. lia.
Qed.

(** The stub adds to what the processor has stored so that the frame is always the same. *)
Definition completes (os : list operand) (err : option Z) (v e : Z) : Prop := (os = [Imm v] /\ err = Some e) \/ (os = [Imm 0; Imm v] /\ err = None /\ e = 0).

Lemma entered C rsp0 os err v e c : completes os err v e -> 176 <= entry_top rsp0 c ->
  exists d, (d ← take_interrupt rsp0 err c; exec C (map PUSH os ++ map (fun r => PUSH (Reg r)) SAVED ++ [MOV RDI RSP]) d) = Some d /\
    sp d = entry_top rsp0 c - 176 /\ gpr d RDI = sp d /\ stk (words d) (sp d) (frame (gpr c) v e c) /\ within (words c) (words d) (entry_top rsp0 c - 176) (entry_top rsp0 c) /\
    sel_cs d = 8 /\ page_table d = page_table c /\ vars d = vars c.
Proof.
  intros Hos Ht. set (top := entry_top rsp0 c) in *. assert (top mod 8 = 0) as Ha by (unfold top, entry_top; cbv zeta; lia).
  set (es := match err with Some e => [e] | None => [] end). set (P1 := [sel_ss c; sp c; rflags c; sel_cs c; ip c] ++ es).
  assert (zlen P1 + zlen os = 7 /\ rev (map (fun o => value o c) os) ++ rev P1 = [v; e; ip c; sel_cs c; rflags c; sp c; sel_ss c]) as [Hlen Hlist].
  { unfold P1, es. by destruct Hos as [[-> ->] | (-> & -> & ->)]. }
  pose proof (zlen_nonneg os). destruct (push_list_spec P1 (with_sp top c) []) as (m & E1 & Hm & Hw); [cbn [sp with_sp]; lia | exact Ha | done |].
  cbn [sp with_sp words] in *. rewrite app_nil_r in Hm.
  set (d1 := with_mode 0x08 (if from_user c then 0 else sel_ss c) (Z.ldiff (rflags c) 0x34300) (at_stack (top - 8 * zlen P1) m (with_sp top c))).
  assert (take_interrupt rsp0 err c = Some d1) as -> by (unfold take_interrupt; fold (from_user c); cbv zeta; change ((if from_user c then rsp0 else sp c) - (if from_user c then rsp0 else sp c) mod 16) with top; fold es; fold P1; by rewrite E1).
  cbn [mbind option_bind]. rewrite app_assoc, <- (map_map Reg PUSH), <- map_app, exec_app, exec_pushes, map_app, map_map.
  2: { intros Hin. apply elem_of_app in Hin as [Hin | Hin]; [| by apply list_elem_of_fmap in Hin as (? & ? & _)].
       destruct Hos as [[-> _] | (-> & _)]; repeat (apply elem_of_cons in Hin as [Hin | Hin]; [done |]); by apply not_elem_of_nil in Hin. }
  change (map (fun r => value (Reg r) d1) SAVED) with (map (gpr c) SAVED). assert (map (fun o => value o d1) os = map (fun o => value o c) os) as -> by (by destruct Hos as [[-> _] | (-> & _)]).
  set (vs := map (fun o => value o c) os ++ map (gpr c) SAVED). assert (zlen vs = zlen os + 15) as Hvs by (unfold vs; rewrite zlen_app; unfold zlen; by rewrite !length_map).
  destruct (push_list_spec vs d1 (rev P1)) as (m' & -> & Hm' & Hw'); [cbn [sp d1 with_mode at_stack with_sp with_words]; lia | cbn [sp d1 with_mode at_stack with_sp with_words]; lia | exact Hm |].
  cbn [sp d1 with_mode at_stack with_sp with_words words mbind option_bind] in *. replace (top - 8 * zlen P1 - 8 * zlen vs) with (top - 176) in * by lia.
  cbn [exec exec1]. eexists. split; [done |]. cbn [with_gpr sp gpr words value sel_cs page_table vars with_mode at_stack with_sp with_words]. split; [done |].
  split; [unfold upd_reg; by rewrite decide_True |]. split; [unfold frame; unfold vs in Hm'; rewrite rev_app_distr, <- app_assoc, Hlist, <- map_rev in Hm'; exact Hm' |].
  split; [| done]. intros x Hx. pose proof (zlen_nonneg P1). rewrite Hw', Hw by lia. done.
Qed.

Lemma iretq_spec C c i cs fl s ss : 0 <= sp c -> sp c mod 8 = 0 -> stk (words c) (sp c) [i; cs; fl; s; ss] -> exec1 C IRETQ c = Some (with_mode cs ss fl (with_sp s (with_ip i c))).
Proof.
  intros H0 Ha Hs. cbn [exec1]. destruct (stack_pop c i _ H0 Ha Hs) as [-> Hs1]. cbn [mbind option_bind].
  assert (forall n, 0 <= n -> stk (words c) (sp c + 8 * n) [nth (Z.to_nat n) [i; cs; fl; s; ss] 0] -> pop (with_sp (sp c + 8 * n) c) = Some (nth (Z.to_nat n) [i; cs; fl; s; ss] 0, with_sp (sp c + 8 * (n + 1)) c)) as Hp.
  { intros n Hn Hv. destruct (stack_pop (with_sp (sp c + 8 * n) c) _ [] ltac:(cbn; lia) ltac:(cbn; lia) Hv) as [-> _]. cbn [sp with_sp]. by replace (sp c + 8 * n + 8) with (sp c + 8 * (n + 1)) by lia. }
  assert (forall n v l, stk (words c) (sp c + 8 * n) (v :: l) -> stk (words c) (sp c + 8 * (n + 1)) l /\ stk (words c) (sp c + 8 * n) [v]) as Ht.
  { intros n v l [Hv Hl]. split; [by replace (sp c + 8 * (n + 1)) with (sp c + 8 * n + 8) by lia | done]. }
  change (sp c + 8) with (sp c + 8 * 1) in *. destruct (Ht 1 _ _ Hs1) as [Hs2 H1]. destruct (Ht 2 _ _ Hs2) as [Hs3 H2]. destruct (Ht 3 _ _ Hs3) as [Hs4 H3]. destruct (Ht 4 _ _ Hs4) as [_ H4].
  rewrite (Hp 1 ltac:(lia) H1). cbn [mbind option_bind]. rewrite (Hp (1 + 1) ltac:(lia) H2). cbn [mbind option_bind]. rewrite (Hp (1 + 1 + 1) ltac:(lia) H3). cbn [mbind option_bind].
  rewrite (Hp (1 + 1 + 1 + 1) ltac:(lia) H4). done.
Qed.
Lemma restored C c g v e i cs fl s ss : 0 <= sp c -> sp c mod 8 = 0 -> stk (words c) (sp c) (map g (rev SAVED) ++ [v; e; i; cs; fl; s; ss]) ->
  exists c', exec C restore_regs c = Some c' /\ (forall r, gpr c' r = g r) /\ ip c' = i /\ sel_cs c' = cs /\ rflags c' = fl /\ sp c' = s /\ sel_ss c' = ss /\
    words c' = words c /\ page_table c' = page_table c /\ vars c' = vars c.
Proof.
  intros H0 Ha Hs. unfold restore_regs. rewrite exec_app. destruct (pop_regs_spec C (rev SAVED) g c _ H0 Ha Hs) as (g' & -> & Hg & Hr). change (zlen (rev SAVED)) with 15 in *. change (8 * 15) with 120 in *.
  cbn [mbind option_bind exec]. destruct Hr as (_ & _ & Hr). change (exec1 C (ADD_RSP 16) ?d) with (Some (with_sp (sp d + 16) d)). cbn [mbind option_bind].
  set (c1 := with_sp (sp (with_gpr g' (with_sp (sp c + 120) c)) + 16) (with_gpr g' (with_sp (sp c + 120) c))).
  assert (sp c1 = sp c + 136) as E1 by (cbn; lia). replace (sp c + 120 + 8 + 8) with (sp c1) in Hr by lia.
  rewrite (iretq_spec C c1 i cs fl s ss ltac:(lia) ltac:(lia) Hr). cbn [mbind option_bind]. eexists. split; [done |]. cbn. split; [| done]. intros r. rewrite Hg. by destruct r.
Qed.

Section interrupts.
Context (C : cpu -> option cpu).

(** [C] finds the frame of the processor [c] and leaves the one of the registers [g] and of
    the processor [d]. *)
Definition serves (g : register -> Z) (v e e' : Z) (c d : cpu) : Prop :=
  forall x, stk (words x) (sp x) (frame (gpr c) v e c) -> gpr x RDI = sp x -> 0 <= sp x -> sp x mod 8 = 0 -> sel_cs x = 8 -> vars x = vars c -> page_table x = page_table c ->
    exists y, C x = Some y /\ sp y = sp x /\ stk (words y) (sp y) (frame g v e' d) /\ vars y = vars x.

(** The way in, the C function, and the frame before the way out. *)
Lemma served rsp0 os err v e e' g c d rest : completes os err v e -> 176 <= entry_top rsp0 c -> serves g v e e' c d ->
  exists y, (x ← take_interrupt rsp0 err c; exec C (map PUSH os ++ save_regs ++ rest) x) = exec C rest y /\ 0 <= sp y /\ sp y mod 8 = 0 /\ stk (words y) (sp y) (frame g v e' d) /\ vars y = vars c.
Proof.
  intros Hos Ht HC. destruct (entered C rsp0 os err v e c Hos Ht) as (x & E & Hsp & Hrdi & Hst & _ & Hcs & Hpt & Hv).
  assert (sp x mod 8 = 0) as Hsa by (rewrite Hsp; unfold entry_top; cbv zeta; lia).
  destruct (HC x Hst Hrdi ltac:(lia) Hsa Hcs Hv Hpt) as (y & Ey & Esp & Hy & Hvy). exists y. split; [| split; [lia | split; [rewrite Esp, Hsp; unfold entry_top; cbv zeta; lia | split; [exact Hy | congruence]]]].
  destruct (take_interrupt rsp0 err c) as [z |]; [| done]. cbn [mbind option_bind] in E |- *. unfold save_regs.
  replace (map PUSH os ++ (map (fun r => PUSH (Reg r)) SAVED ++ [MOV RDI RSP; CALL]) ++ rest) with ((map PUSH os ++ map (fun r => PUSH (Reg r)) SAVED ++ [MOV RDI RSP]) ++ CALL :: rest) by (rewrite <- !app_assoc; done).
  rewrite exec_app, E. cbn [mbind option_bind exec exec1]. by rewrite Ey.
Qed.
End interrupts.


(** The two ways out of the system call. *)
Lemma int80_way C z y g d e : exec C (map PUSH [Imm 0; Imm 128] ++ save_regs ++ []) z = exec C [] y -> 0 <= sp y -> sp y mod 8 = 0 -> stk (words y) (sp y) (frame g 128 e d) ->
  int80_stub C z = if sel_cs d =? 8 then exec C return_to_kernel y else exec C restore_regs y.
Proof.
  intros E H0 Ha Hs. unfold int80_stub. rewrite app_nil_r in E. change (map PUSH [Imm 0; Imm 128]) with [PUSH (Imm 0); PUSH (Imm 128)] in E. rewrite E. cbn [exec mbind option_bind].
  unfold word_at. destruct (Z.leb_spec 0 (sp y + 144)); [| lia]. rewrite (proj2 (Z.eqb_eq _ _)) by lia. cbn [andb negb].
  by rewrite (stk_nth (words y) _ (sp y) 18 (sel_cs d) Hs eq_refl : rd (words y) (sp y + 144) = _).
Qed.


Lemma clears_spec C rs : forall c, exists g, exec C (map CLEAR rs) c = Some (with_gpr g c) /\ forall r, g r = if decide (r ∈ rs) then 0 else gpr c r.
Proof.
  induction rs as [| r rs IH]; intros c; [exists (gpr c); split; [by destruct c | intros r; by rewrite decide_False by (apply not_elem_of_nil)] |].
  cbn [map exec exec1 mbind option_bind]. destruct (IH (with_gpr (upd_reg r 0 (gpr c)) c)) as (g & -> & Hg). exists g. split; [done |]. intros x. rewrite Hg. cbn [gpr with_gpr]. unfold upd_reg.
  destruct (decide (x ∈ rs)) as [Hx | Hx], (decide (x = r)) as [-> | Hne].
  - by rewrite decide_True by (left).
  - by rewrite decide_True by (by right).
  - by rewrite decide_True by (left).
  - by rewrite decide_False by (by intros [? | ?]%elem_of_cons).
Qed.

(** A program starts with its two arguments in RDI and RSI and with zeros. *)
Lemma enter_runs C c l : 40 <= sp c -> sp c mod 8 = 0 -> stk (words c) (sp c) l ->
  exists c', exec C enter_usermode c = Some c' /\ ip c' = gpr c RDI /\ sp c' = gpr c RSI /\ sel_cs c' = 0x1B /\ sel_ss c' = 0x23 /\ rflags c' = 0x202 /\
    (forall r, gpr c' r = if decide (r ∈ CLEARED) then 0 else gpr c r) /\ page_table c' = page_table c /\ vars c' = vars c /\ within (words c) (words c') (sp c - 40) (sp c).
Proof.
  intros H40 Ha Hl. unfold enter_usermode. change [PUSH (Imm 0x23); PUSH (Reg RSI); PUSH (Imm 0x202); PUSH (Imm 0x1B); PUSH (Reg RDI)] with (map PUSH [Imm 0x23; Reg RSI; Imm 0x202; Imm 0x1B; Reg RDI]).
  rewrite exec_app, exec_pushes by (intros Hin; by repeat (apply elem_of_cons in Hin as [Hin | Hin]; [done |]); by apply not_elem_of_nil in Hin).
  destruct (push_list_spec (map (fun o => value o c) [Imm 0x23; Reg RSI; Imm 0x202; Imm 0x1B; Reg RDI]) c l) as (m & -> & Hm & Hw); [done | done | done |].
  change (zlen _) with 5 in *. change (8 * 5) with 40 in *. cbn [mbind option_bind]. rewrite exec_app. destruct (clears_spec C CLEARED (at_stack (sp c - 40) m c)) as (g & -> & Hg). cbn [mbind option_bind exec].
  cbn [map value rev app] in Hm. rewrite (iretq_spec C _ (gpr c RDI) 0x1B 0x202 (gpr c RSI) 0x23).
  - cbn [mbind option_bind]. eexists. split; [done |]. cbn. do 5 (split; [done |]). split; [exact Hg |]. done.
  - cbn. lia.
  - cbn. lia.
  - destruct Hm as (E1 & E2 & E3 & E4 & E5 & _). cbn. done.
Qed.
Lemma saves_spec C rs : forall c, exists w, exec C (map (fun r => SAVE (G_elf_saved r) (Reg r)) rs) c = Some (with_vars w c) /\
  (forall r, w (G_elf_saved r) = if decide (r ∈ rs) then gpr c r else vars c (G_elf_saved r)) /\ w G_elf_ret_rip = vars c G_elf_ret_rip /\ w G_elf_ret_rsp = vars c G_elf_ret_rsp /\ w G_kernel_cr3 = vars c G_kernel_cr3.
Proof.
  induction rs as [| r rs IH]; intros c; [exists (vars c); split; [by destruct c |]; split; [intros r; by rewrite decide_False by (apply not_elem_of_nil) | done] |].
  cbn [map exec exec1 mbind option_bind value]. destruct (IH (with_vars (upd_var (G_elf_saved r) (gpr c r) (vars c)) c)) as (w & -> & Hw & W1 & W2 & W3). exists w. split; [done |].
  split; [| done]. intros x. rewrite Hw. cbn [gpr vars with_vars]. unfold upd_var.
  destruct (decide (x ∈ rs)) as [Hx | Hx], (decide (G_elf_saved x = G_elf_saved r)) as [E | Hne].
  - by rewrite decide_True by (by right).
  - by rewrite decide_True by (by right).
  - injection E as ->. by rewrite decide_True by (left).
  - rewrite decide_False; [done |]. intros [-> | ?]%elem_of_cons; done.
Qed.
Lemma loads_spec C rs : forall c, exists g, exec C (map (fun r => LOAD r (G_elf_saved r)) rs) c = Some (with_gpr g c) /\ forall r, g r = if decide (r ∈ rs) then vars c (G_elf_saved r) else gpr c r.
Proof.
  induction rs as [| r rs IH]; intros c; [exists (gpr c); split; [by destruct c | intros r; by rewrite decide_False by (apply not_elem_of_nil)] |].
  cbn [map exec exec1 mbind option_bind]. destruct (IH (with_gpr (upd_reg r (vars c (G_elf_saved r)) (gpr c)) c)) as (g & -> & Hg). exists g. split; [done |]. intros x. rewrite Hg. cbn [gpr vars with_gpr]. unfold upd_reg.
  destruct (decide (x ∈ rs)) as [Hx | Hx], (decide (x = r)) as [-> | Hne].
  - by rewrite decide_True by (left).
  - by rewrite decide_True by (by right).
  - by rewrite decide_True by (left).
  - by rewrite decide_False by (by intros [? | ?]%elem_of_cons).
Qed.

(** What the way into a program keeps for the way out. *)
Record kept (ret : Z) (c : cpu) (w : var -> Z) : Prop := {
  kp_rip : w G_elf_ret_rip = ret; kp_rsp : w G_elf_ret_rsp = sp c + 8; kp_cr3 : w G_kernel_cr3 = page_table c; kp_regs : forall r, r ∈ SWITCHED -> w (G_elf_saved r) = gpr c r }.

Lemma switched_not r x : x ∉ SWITCHED -> r ∈ SWITCHED -> r <> x.
Proof. by intros Hx Hr ->. Qed.
Lemma rax_not_switched : RAX ∉ SWITCHED.
Proof. apply (bool_decide_unpack _). vm_compute. exact I. Qed.

(** The three steps of the way in. *)
Lemma keep_return C ret l c : 40 <= sp c -> sp c mod 8 = 0 -> stk (words c) (sp c) (ret :: l) ->
  exists m, exec C [POP RAX; SAVE G_elf_ret_rip (Reg RAX); SAVE G_elf_ret_rsp RSP; PUSH (Reg RAX)] c =
    Some (at_stack (sp c) m (with_vars (upd_var G_elf_ret_rsp (sp c + 8) (upd_var G_elf_ret_rip ret (vars c))) (with_gpr (upd_reg RAX ret (gpr c)) c))) /\ stk m (sp c) (ret :: l).
Proof.
  intros Ht Ha Hs. destruct (stack_pop c ret l ltac:(lia) Ha Hs) as [Ep Hl]. cbn [exec exec1]. rewrite Ep. cbn [mbind option_bind value gpr sp vars with_gpr with_sp with_vars].
  set (c1 := Cpu _ _ _ _ _ _ _ _ _) || set (c1 := with_vars _ _). 
  destruct (stack_push ret c1 l) as (m & Epush & Hm & _); [cbn; lia | cbn; lia | exact Hl |]. cbn [sp c1 with_vars with_gpr with_sp] in *. exists m.
  replace (sp c + 8 - 8) with (sp c) in * by lia. split; [| exact Hm]. replace (upd_reg RAX ret (gpr c) RAX) with ret by (unfold upd_reg; by rewrite decide_True). rewrite Epush. done.
Qed.
Lemma change_tables C c : exec C [FROM_CR3 RAX; SAVE G_kernel_cr3 (Reg RAX); TO_CR3 RDX] c =
  Some (with_page_table (gpr c RDX) (with_vars (upd_var G_kernel_cr3 (page_table c) (vars c)) (with_gpr (upd_reg RAX (page_table c) (gpr c)) c))).
Proof. reflexivity. Qed.

Lemma program_starts C ret l c : 40 <= sp c -> sp c mod 8 = 0 -> stk (words c) (sp c) (ret :: l) ->
  exists u, exec C enter_usermode_save_ret c = Some u /\ ip u = gpr c RDI /\ sp u = gpr c RSI /\ sel_cs u = 0x1B /\ sel_ss u = 0x23 /\ rflags u = 0x202 /\ page_table u = gpr c RDX /\
    (forall r, r <> RDI -> r <> RSI -> gpr u r = 0) /\ kept ret c (vars u).
Proof.
  intros Ht Ha Hs. unfold enter_usermode_save_ret. rewrite exec_app. destruct (keep_return C ret l c Ht Ha Hs) as (m & -> & Hm). cbn [mbind option_bind].
  set (c1 := at_stack _ _ _). rewrite exec_app. destruct (saves_spec C SWITCHED c1) as (w & -> & Hw & W1 & W2 & _). cbn [mbind option_bind]. rewrite exec_app, change_tables. cbn [mbind option_bind].
  set (c2 := with_page_table _ _).
  destruct (enter_runs C c2 (ret :: l)) as (u & E & U1 & U2 & U3 & U4 & U5 & U6 & U7 & U8 & _); [exact Ht | exact Ha | exact Hm |]. clear Hm Hs.
  assert (forall r, r <> RAX -> gpr c1 r = gpr c r) as G1 by (intros r Hr; change (gpr c1 r) with (upd_reg RAX ret (gpr c) r); unfold upd_reg; by rewrite decide_False).
  assert (forall r, r <> RAX -> gpr c2 r = gpr c r) as G2 by (intros r Hr; change (gpr c2 r) with (upd_reg RAX (page_table c1) (gpr c1) r); unfold upd_reg; rewrite decide_False by done; by apply G1).
  exists u. split; [exact E |]. rewrite U1, U2, U7, !G2 by done. do 5 (split; [done |]). split; [change (page_table c2) with (gpr c1 RDX); by apply G1 |].
  split; [intros r H1 H2; rewrite U6; by destruct r |]. rewrite U8. change (vars c2) with (upd_var G_kernel_cr3 (page_table c) w).
  split; unfold upd_var; rewrite ?decide_True, ?decide_False by done.
  - rewrite W1. change (vars c1) with (upd_var G_elf_ret_rsp (sp c + 8) (upd_var G_elf_ret_rip ret (vars c))). unfold upd_var. rewrite decide_False, decide_True by done. done.
  - rewrite W2. change (vars c1) with (upd_var G_elf_ret_rsp (sp c + 8) (upd_var G_elf_ret_rip ret (vars c))). unfold upd_var. rewrite decide_True by done. done.
  - done.
  - intros r Hr. rewrite decide_False by done. rewrite Hw, decide_True by done. apply G1. exact (switched_not _ _ rax_not_switched Hr).
Qed.
Lemma program_ends C ret c0 c : kept ret c0 (vars c) ->
  exists c', exec C return_to_kernel c = Some c' /\ ip c' = ret /\ sp c' = sp c0 + 8 /\ page_table c' = page_table c0 /\ (forall r, r ∈ SWITCHED -> gpr c' r = gpr c0 r) /\
    Z.testbit (rflags c') 9 = true /\ vars c' G_elf_ret_rip = 0.
Proof.
  intros [K1 K2 K3 K4]. unfold return_to_kernel. cbn [app exec exec1 mbind option_bind]. set (c1 := with_sp _ _). rewrite exec_app. destruct (loads_spec C SWITCHED c1) as (g & -> & Hg).
  cbn [mbind option_bind exec exec1]. eexists. split; [done |]. cbn [ip sp page_table gpr rflags vars with_ip with_mode with_vars with_gpr with_sp with_page_table c1]. unfold upd_var, upd_reg. rewrite !decide_True by done. do 3 (split; [done |]). split; [| split; [| done]].
  - intros r Hr. rewrite decide_False by exact (switched_not _ _ rax_not_switched Hr). rewrite Hg, decide_True by done. by apply K4.
  - rewrite Z.lor_spec. by rewrite orb_true_r.
Qed.

(** C27: running a program is a function call for the kernel: enter_usermode_save_ret starts the
    program at its entry, on its stack and page tables, with user selectors, interrupts on
    and no other value of the kernel in its registers; and whatever the program has done to
    the registers and to its stack, the system call that ends it (which puts the kernel's
    code selector in its frame) goes on behind the call, with the kernel's stack pointer,
    page tables and preserved registers, interrupts on, and no return left over. *)
Theorem program_returns (C : cpu -> option cpu) (rsp0 ret : Z) (l : list Z) (c : cpu) (Ht : 40 <= sp c) (Ha : sp c mod 8 = 0) (Hs : stk (words c) (sp c) (ret :: l)) :
  exists u, exec C enter_usermode_save_ret c = Some u /\ ip u = gpr c RDI /\ sp u = gpr c RSI /\ sel_cs u = 0x1B /\ sel_ss u = 0x23 /\ rflags u = 0x202 /\ page_table u = gpr c RDX /\
    (forall r, r <> RDI -> r <> RSI -> gpr u r = 0) /\
    forall u' g d, vars u' = vars u -> 176 <= entry_top rsp0 u' -> sel_cs d = 8 -> serves C g 128 0 0 u' d ->
      exists c', (x ← take_interrupt rsp0 None u'; int80_stub C x) = Some c' /\ ip c' = ret /\ sp c' = sp c + 8 /\ page_table c' = page_table c /\
        (forall r, r ∈ SWITCHED -> gpr c' r = gpr c r) /\ Z.testbit (rflags c') 9 = true /\ vars c' G_elf_ret_rip = 0.
Proof.
  destruct (program_starts C ret l c Ht Ha Hs) as (u & E & U1 & U2 & U3 & U4 & U5 & U6 & U7 & K). exists u. do 8 (split; [done |]). intros u' g d Hv Htop Hcs HC.
  destruct (served C rsp0 [Imm 0; Imm 128] None 128 0 0 g u' d [] ltac:(right; done) Htop HC) as (y & Ey & H0 & Hay & Hst & Hvy).
  rewrite Hv in Hvy. rewrite <- Hvy in K. destruct (program_ends C ret c y K) as (c' & Er & R). exists c'. split; [| exact R].
  destruct (take_interrupt rsp0 None u') as [z |]; [| done]. cbn [mbind option_bind] in Ey |- *. rewrite (int80_way C z y g d 0 Ey H0 Hay Hst), Hcs. exact Er.
Qed.

(** ** Tasks *)

(** The words of a new task: six zeros and its entry. *)
Lemma create_parked k entry cur l t0 r k' : wf k (cur :: l) -> task_frames k -> tasks k !! cur = Some t0 -> task_create entry k = Some (r, k') -> r <> 0 ->
  exists a t, tasks k' !! a = Some t /\ kernel_stack_base t mod 4096 = 0 /\ 0 < kernel_stack_base t < 2 ^ 52 /\ rsp t = kernel_stack_base t + 16328 /\
    stk (m_mem (h_mach (k_heap k'))) (rsp t) (parked (fun _ => 0) entry).
Proof.
  intros W F Hc Hr Hnz. pose proof (chain_head _ _ _ W) as Hcur.
  destruct (k_alloc_fresh k (w_pmm _ _ W)) as (a & k1 & Ha & Hw1 & T1 & C1 & _ & _ & _ & A1). destruct (k_alloc_fresh k1 Hw1) as (st & k2 & Hst & Hw2 & T2 & C2 & _ & _ & _ & A2).
  unfold task_create in Hr. rewrite Ha in Hr. cbn [mbind option_bind] in Hr. rewrite Hst in Hr. cbn [mbind option_bind] in Hr.
  unfold istrue in Hr. destruct (Z.eqb_spec a 0) as [-> | Ha0]; cbn [negb orb] in Hr; [injection Hr as <- _; done |].
  destruct (Z.eqb_spec st 0) as [-> | Hs0]; cbn [negb orb] in Hr; [injection Hr as <- _; done |]. destruct A2 as [| (Hs1 & Hs2 & _)]; [done |]. change (2 ^ 52) with 4503599627370496 in *.
  rewrite (u64_id (st + TASK_STACK_SIZE)) in Hr by (unfold TASK_STACK_SIZE; lia). set (top := st + TASK_STACK_SIZE - 8) in *.
  set (k3 := loop 6 1 (fun i k => k_write (top - 8 * i) 0 k) (k_write top entry k2)) in *.
  assert (stk (m_mem (h_mach (k_heap k3))) (top - 48) (parked (fun _ => 0) entry)) as Hp.
  { unfold k3. cbn [loop stk parked SWITCHED rev app map]. cbn [k_write k_heap set_heap set_mach h_mach m_mem with_mem]. rewrite !rd_wr.
    repeat match goal with |- context [?x =? ?y] => destruct (Z.eqb_spec x y); [try (exfalso; lia) | try (exfalso; lia)] end. done. }
  assert (g_current k3 = cur /\ tasks k3 = tasks k) as [E3 T3] by (unfold k3; cbn [loop]; split; cbn [k_write set_heap g_current tasks]; congruence).
  assert (cur <> 0) as Hc0 by (pose proof (w_nonzero _ _ W) as Hnz0; by inversion Hnz0). clearbody k3.
  cbn [set_next_pid g_current tasks] in Hr. rewrite E3, T3 in Hr. destruct (Z.eqb_spec cur 0); [done |]. cbn [negb] in Hr. rewrite Hc in Hr. cbn [mbind option_bind] in Hr. injection Hr as <- <-.
  assert (a <> cur) as Hac by (intros ->; destruct A1 as [| (_ & _ & _ & Hn)]; [done | by destruct (F _ _ Hc)]).
  exists a. eexists. cbn [tasks set_tasks k_heap set_next_pid]. rewrite lookup_insert_ne, lookup_insert_eq by done. split; [done |]. cbn [kernel_stack_base rsp with_next]. split; [done |]. split; [lia |].
  split; [unfold top, TASK_STACK_SIZE; lia | exact Hp].
Qed.

(** C23: the first switch to a new task starts it at its entry: with the memory that task_create has
    left, context_switch from any other task pops six zeros and returns to the entry, at
    the end of the 16 KiB; the task that gives the processor away has its registers and the
    place where it goes on saved on its own stack, and its stack pointer in its structure. *)
Theorem task_first_run (C : cpu -> option cpu) (k : kernel) (entry cur : Z) (l : list Z) (t0 : task_struct) (r : Z) (k' : kernel)
    (W : wf k (cur :: l)) (F : task_frames k) (Hc : tasks k !! cur = Some t0) (Hr : task_create entry k = Some (r, k')) (Hnz : r <> 0) :
  exists a t, tasks k' !! a = Some t /\ kernel_stack_base t mod 4096 = 0 /\ rsp t = kernel_stack_base t + 16328 /\
    forall c ret, words c = m_mem (h_mach (k_heap k')) -> gpr c RSI = rsp t -> 48 <= sp c -> sp c mod 8 = 0 -> stk (words c) (sp c) [ret] -> 0 <= gpr c RDI -> gpr c RDI mod 8 = 0 ->
      (rsp t + 56 <= sp c - 48 \/ sp c <= rsp t) -> (gpr c RDI < rsp t \/ rsp t + 56 <= gpr c RDI) -> (gpr c RDI < sp c - 48 \/ sp c + 8 <= gpr c RDI) ->
      exists c', exec C context_switch c = Some c' /\ ip c' = entry /\ sp c' = kernel_stack_base t + TASK_STACK_SIZE /\ (forall x, x ∈ SWITCHED -> gpr c' x = 0) /\
        rd (words c') (gpr c RDI) = sp c - 48 /\ stk (words c') (sp c - 48) (parked (gpr c) ret).
Proof.
  destruct (create_parked k entry cur l t0 r k' W F Hc Hr Hnz) as (a & t & Ht & Hb & Hb2 & Hrsp & Hp). exists a, t. split; [done |]. split; [done |]. split; [done |].
  intros c ret Hw Hsi H48 Ha Hret Hd Hda D1 D2 D3. change (2 ^ 52) with 4503599627370496 in Hb2.
  destruct (switch_runs C c (fun _ => 0) entry [ret]) as (c' & E & Hip & Hsp & Hg & Hcell & Hst & _); rewrite ?Hsi; try done; try (rewrite Hrsp; clear - Hb Hb2; lia); [by rewrite Hw |].
  exists c'. split; [exact E |]. split; [exact Hip |]. split; [rewrite Hsp, Hsi, Hrsp; unfold TASK_STACK_SIZE; lia |]. split; [intros x Hx; by rewrite Hg, decide_True |]. split; [exact Hcell | exact Hst].
Qed.

(** C25: for a task that gives the processor away the switch is a function that returns: whatever
    runs meanwhile, if the seven words that the task has parked are as it left them, the
    switch back to the stack pointer in its structure goes on behind the call, with the
    stack pointer after a return and the six preserved registers as they were. *)
Theorem switch_roundtrip (C : cpu -> option cpu) (c : cpu) (ret : Z) (g : register -> Z) (at_ : Z)
    (H48 : 48 <= sp c) (Ha : sp c mod 8 = 0) (Hs : 0 <= gpr c RSI) (Hsa : gpr c RSI mod 8 = 0) (Hd : 0 <= gpr c RDI) (Hda : gpr c RDI mod 8 = 0)
    (Hret : stk (words c) (sp c) [ret]) (Hp : stk (words c) (gpr c RSI) (parked g at_))
    (D1 : gpr c RSI + 56 <= sp c - 48 \/ sp c <= gpr c RSI) (D2 : gpr c RDI < gpr c RSI \/ gpr c RSI + 56 <= gpr c RDI) (D3 : gpr c RDI < sp c - 48 \/ sp c + 8 <= gpr c RDI) :
  exists c1, exec C context_switch c = Some c1 /\ ip c1 = at_ /\ (forall r, r ∈ SWITCHED -> gpr c1 r = g r) /\
    forall c2, gpr c2 RSI = rd (words c1) (gpr c RDI) -> (forall x, sp c - 48 <= x < sp c + 8 -> rd (words c2) x = rd (words c1) x) ->
      48 <= sp c2 -> sp c2 mod 8 = 0 -> 0 <= gpr c2 RDI -> gpr c2 RDI mod 8 = 0 ->
      (sp c + 8 <= sp c2 - 48 \/ sp c2 <= sp c - 48) -> (gpr c2 RDI < sp c - 48 \/ sp c + 8 <= gpr c2 RDI) -> (gpr c2 RDI < sp c2 - 48 \/ sp c2 <= gpr c2 RDI) ->
      exists c3, exec C context_switch c2 = Some c3 /\ ip c3 = ret /\ sp c3 = sp c + 8 /\ (forall r, r ∈ SWITCHED -> gpr c3 r = gpr c r) /\ page_table c3 = page_table c2.
Proof.
  destruct (switch_runs C c g at_ [ret] H48 Ha Hs Hsa Hd Hda Hret Hp D1 D2 D3) as (c1 & E1 & Hip & Hsp & Hg & Hcell & Hst & _).
  exists c1. split; [done |]. split; [done |]. split; [intros r Hr; by rewrite Hg, decide_True |]. intros c2 Hsi Hk H48' Ha' Hd' Hda' E1' E2' E3'. rewrite Hcell in Hsi.
  destruct (switch_runs C c2 (gpr c) ret []) as (c3 & E3 & Hip3 & Hsp3 & Hg3 & _ & _ & _ & Hpt & _); rewrite ?Hsi; try done; try lia.
  - eapply stk_same; [| exact Hst]. intros x Hx. apply Hk. change (8 * zlen (parked (gpr c) ret)) with 56 in Hx. lia.
  - change (zlen []) with 0. lia.
  - exists c3. split; [exact E3 |]. split; [exact Hip3 |]. split; [lia |]. split; [intros r Hr; by rewrite Hg3, decide_True | exact Hpt].
Qed.

(** ** A processor *)

Definition cpu_ex (cs : Z) : cpu := Cpu (fun r => if decide (r = RSI) then 0x9000 else if decide (r = RDI) then 0x7000 else 5) 0x8000 0x200000 cs 0x23 0x202 0x1000 ∅ (fun _ => 0).
(** A C function that changes one word of the frame. *)
Definition answer (off v : Z) (x : cpu) : option cpu := store (sp x + off) v x.

Ltac words_of Hx := repeat match type of Hx with _ /\ _ => let E := fresh "E" in destruct Hx as [E Hx] end; repeat split; rewrite rd_wr; match goal with |- context [?x =? ?y] => destruct (Z.eqb_spec x y); [try (exfalso; lia) | try (exfalso; lia)] end; try assumption; try reflexivity.
Lemma program_returns_witness : exists u c', exec (answer 144 8) enter_usermode_save_ret (cpu_ex 0x08) = Some u /\ ip u = 0x7000 /\ sel_cs u = 0x1B /\
  (x ← take_interrupt 0x6000 None (with_sp 0x9000 u); int80_stub (answer 144 8) x) = Some c' /\ ip c' = 0 /\ sp c' = 0x8008 /\ gpr c' RBX = 5.
Proof.
  destruct (program_returns (answer 144 8) 0x6000 0 [] (cpu_ex 0x08)) as (u & E & Hi & _ & Hcs & _ & _ & _ & _ & Hend).
  - vm_compute. discriminate.
  - reflexivity.
  - split; [reflexivity | exact I].
  - destruct (Hend (with_sp 0x9000 u) (gpr u) (with_mode 8 (sel_ss u) (rflags u) (with_sp 0x9000 u))) as (c' & E' & Hi' & Hs' & _ & Hg & _).
    + reflexivity.
    + unfold entry_top, from_user. cbn [sel_cs with_sp]. rewrite Hcs. vm_compute. discriminate.
    + reflexivity.
    + intros x Hx _ H0 Hm _ _ _. unfold answer, store, word_at. destruct (Z.leb_spec 0 (sp x + 144)); [| exfalso; lia]. destruct (Z.eqb_spec ((sp x + 144) mod 8) 0); [| exfalso; lia]. cbn [andb].
      eexists. split; [reflexivity |]. split; [reflexivity |]. split; [| reflexivity]. cbn [words with_words sp] in *. unfold frame, SAVED in *. cbn [rev app map stk] in *. words_of Hx.
    + exists u, c'. split; [exact E |]. split; [exact Hi |]. split; [exact Hcs |]. split; [exact E' |]. split; [exact Hi' |]. split; [exact Hs' |].
      rewrite Hg; [reflexivity | vm_compute; left].
Defined.
Lemma task_first_run_witness : exists r a t k', task_create 0x7777 kernel_ex = Some (r, k') /\ tasks k' !! a = Some t /\ rsp t = kernel_stack_base t + 16328.
Proof.
  destruct (task_create 0x7777 kernel_ex) as [[r k'] |] eqn:E; [| vm_compute in E; discriminate E].
  assert (r <> 0) as Hr by (vm_compute in E; intros ->; discriminate E).
  destruct (task_first_run (fun x => Some x) kernel_ex 0x7777 0x2000 _ _ r k' kernel_ex_wf kernel_ex_frames eq_refl E Hr) as (a & t & Ht & _ & Hp & _).
  exists r, a, t, k'. split; [reflexivity |]. split; [exact Ht | exact Hp].
Defined.
Lemma switch_roundtrip_witness : exists c1, exec (fun x => Some x) context_switch (cpu_ex 0x08) = Some c1 /\ ip c1 = 0 /\ gpr c1 RBX = 0.
Proof.
  destruct (switch_roundtrip (fun x => Some x) (cpu_ex 0x08) 0 (fun _ => 0) 0) as (c1 & E & Hi & Hg & _).
  - vm_compute. discriminate.
  - reflexivity.
  - vm_compute. discriminate.
  - reflexivity.
  - vm_compute. discriminate.
  - reflexivity.
  - split; [reflexivity | exact I].
  - repeat split.
  - right. vm_compute. discriminate.
  - left. reflexivity.
  - left. reflexivity.
  - exists c1. split; [exact E |]. split; [exact Hi |]. apply Hg. vm_compute. left.
Defined.
(** There and back. *)
Example switch_back : (c1 ← exec (fun x => Some x) context_switch (cpu_ex 0x08); c3 ← exec (fun x => Some x) context_switch (with_gpr (upd_reg RSI (0x8000 - 48) (upd_reg RDI 0x7800 (gpr c1))) c1);
  Some (gpr c1 RBX, gpr c3 RBX, sp c3)) = Some (0, 5, 0x8008).
Proof. vm_compute. reflexivity. Qed.
